(* ===== verification/_CoqProject ===== *)
-Q . S2P
Prelude.v
Float64.v
CString.v
Scan.v
Strto.v
Os.v
Calibration.v
CalibrationLoad.v
CalibrationRun.v
CalibrationWait.v
DramMapping.v
CalibrationProps.v
CalibrationText.v
Cgroup.v
Process.v
SimOs.v
AddrTranslate.v
ProcActivity.v
ProcActivityProps.v
BankProfile.v
BankProfileSpec.v
BankProfileProps.v
BankSampling.v
BankMaps.v
ProcessSpec.v
ProcessProps.v
Policy.v
EventHandler.v
EventProps.v
BpfProgram.v
KernelEvents.v
DaemonMain.v
CandidateFilter.v
CgroupProps.v
Candidate.v
Ranking.v
ActivityPrefilter.v
PrefilterProps.v
InterferenceDetector.v
ThrottleController.v
DetectorProps.v
ThrottleSpec.v
ThrottleSafety.v
ThrottleProps.v
ThrottleStats.v
PipelineProps.v
OracleSys.v
OracleConfig.v
OraclePool.v
OracleLines.v
OracleClasses.v
OracleSelect.v
OracleStages.v
OracleAccept.v
OracleChain.v
OracleChainProps.v
OracleIo.v
OracleRun.v
OracleMain.v
OracleStepProps.v
OracleRunProps.v
OracleHeld.v
OracleMainProps.v
OracleDemo.v
BankWorker.v
BankWorkerProps.v
BankWorkerRun.v
BankWorkerDemo.v
OverlapConfig.v
OverlapSweep.v
OverlapLevels.v
OverlapRelease.v
OverlapProps.v
OverlapDemo.v
MultiCore.v
MultiSelect.v
MultiTrace.v
MultiProps.v
MultiControl.v
CpuMaxSweep.v
