(* ===== verification/Prelude.v ===== *)
(** * protected-daemon: a verification development

    The program under [protected-daemon/src] protects latency-critical processes
    from the memory interference of others.  A BPF program reports forks, execs
    and exits; a daemon keeps a table of processes, decides from a policy which
    are protected, and moves those to a cgroup.  At start it runs a calibration
    worker that finds the masks by which physical addresses map to DRAM banks.  A
    detector samples the pages and the activity of processes, compares the bank
    histogram of each active process with that of the protected ones, and hands
    the candidates to a controller that throttles them with hysteresis by moving
    them between cgroups.

    The second program is the experiment under
    [experiments/stage6_5/6_5d_selective_control/src/oracle_selective_control.c],
    which measures what that control is worth: a victim reads cache lines of some
    banks, one aggressor reads lines of the same banks and another of different
    banks, and the latency of the victim is compared with no aggressor, with both
    free, with only the first throttled and with both throttled.  The third is the
    bank worker under
    [experiments/stage6_5/6_5c_bank_overlap/src/oracle_bank_worker.c], a process
    that keeps the pages of private memory that hold lines of one bank class and
    reads those lines in a shuffled cycle.  The fourth is the overlap sweep,
    [oracle_bank_overlap_sweep.c] in the same directory: one aggressor, whose lines
    share none, a quarter, a half, three quarters or all of the victim's classes.
    The last two run five such aggressors at once, the candidates, each in a cgroup
    of its own: [6_5e_multicandidate_control/src/oracle_multicandidate_control.c]
    throttles some of them by what they share, and
    [6_5f_control_cpumax/src/oracle_cpu_max_sweep.c] gives the one that shares all a
    smaller and smaller part of its processor.

    ** How the code is modelled

    Every function of the C files is a Gallina function of the same name, over
    records with the fields of the structs.  Pointers that the code tests against
    NULL are options; a pointer into an array is an index, a pointer into a text
    the text from it on.  Integers are [Z] with the wrap-around of their type
    ([u64_add], ...); [double] is IEEE binary64 computed exactly ([Float64], no
    contraction to fused operations).  Loops that are not over a list take fuel.
    Code outside the sources is an interface: [Os.OS] (clock, /proc, files),
    [CalibrationLoad.BinFile], [CalibrationRun.Procs] (fork, waitpid, kill,
    nanosleep), [DaemonMain.Bpf] (libbpf and its skeleton) and
    [BpfProgram.BpfHelpers] thread a type of worlds through the calls, and the
    classes [Cgroup.Cgroupfs], [CalibrationWait.ProcLaws] and
    [KernelEvents.BpfLaws] state what the kernel documents of them.  A blocking
    [waitpid] may never return ([None]); it is only sure to answer for a child
    whose group was killed ([ProcLaws]), or, for a worker, that is still to stop
    when stops are asked for, was let run after its stop or was killed
    ([OracleStepProps.WorkerLaws]).  The experiment adds [OracleSys.Memory] (mappings and words), [OracleChain.RawClock],
    [OracleIo.Files] and [OracleIo.Workers] (children that stop, pipes, cgroup
    directories), with the laws [OracleSys.MemoryLaws], [OracleChainProps.ClockLaws],
    [OracleStepProps.WorkerLaws], [OracleHeld.MachineLaws] and
    [OracleRunProps.WriteLaws].  The bank worker
    adds [BankWorker.PrivateMemory] (private mappings, [MADV_DONTNEED]), with
    [BankWorkerProps.PageLaws], [BankWorkerRun.DropLaws], [BankWorkerRun.StopLaws]
    and [BankWorkerRun.HeldLaws].  [SimOs] and
    [OracleDemo] are concrete kernels, on which the witnesses run the code.  What is
    printed on standard output and standard error is not modelled, but for the
    numbers the experiments report.

    ** The parts

    - the C library: [Float64] (arithmetic, conversions), [CString] (strings,
      printf, streams), [Scan] ([strtoll], [sscanf]), [Strto] ([strtoull],
      [strtod], [%g]), [Ranking] ([qsort]);
    - [Calibration], [CalibrationLoad], [CalibrationRun]:
      calibration.c.  [CalibrationProps]: a loaded result is accepted and has one
      to 32 proper masks; [CalibrationText]: the masks the worker prints are read
      back; [CalibrationWait]: with a timeout the run ends;
    - [DramMapping]: dram_mapping.c, with its theorems;
    - [Cgroup], [CgroupProps]: cgroup.c, the only writer of control files;
    - [Process], [ProcessSpec], [ProcessProps]: process.c, an open-addressing hash
      table that is proved to be a finite map;
    - [Policy], [EventHandler], [EventProps]: policy.c and [handle_event] of
      protected_daemon.c on that map;
    - [BpfProgram], [KernelEvents]: protected_daemon.bpf.c, and the composition of
      the tracepoints with the handler;
    - [DaemonMain]: the start-up and the loop of [main], with its theorems and
      witnesses;
    - [CandidateFilter]: candidate_filter.c, with its theorem;
    - [AddrTranslate]: addr_translate.c; [BankProfile], [BankProfileSpec],
      [BankProfileProps], [BankSampling], [BankMaps]: bank_profile.c;
    - [ProcActivity], [ProcActivityProps]: proc_activity.c;
    - [Ranking], [ActivityPrefilter], [PrefilterProps]: activity_prefilter.c;
    - [Candidate], [InterferenceDetector], [DetectorProps]: interference_detector.c;
    - [ThrottleController], [ThrottleSpec], [ThrottleSafety], [ThrottleProps],
      [ThrottleStats]: throttle_controller.c; [PipelineProps]: the detector feeds
      the controller;
    - the experiment: [OracleSys] (memory, the random generator, shuffles),
      [OracleConfig] (arguments), [OraclePool] (pools, the page map),
      [OracleLines], [OracleClasses] (counting and choosing classes),
      [OracleSelect] (collecting lines of chosen classes), [OracleStages],
      [OracleAccept] (the first half of [main] and its acceptance criterion),
      [OracleChain], [OracleChainProps] (pointer chains, hot loops), [OracleIo]
      (files, cgroups, workers), [OracleRun], [OracleStepProps], [OracleRunProps]
      ([run_condition], as steps that may jump to [fail], the triples of such steps,
      and what is written to control files), [OracleMain], [OracleHeld],
      [OracleMainProps] ([main], and what every path holds and gives back),
      [OracleDemo] (witnesses);
    - the sweep, which has the pools, the selection, the chains, the workers and the
      steps of the experiment, so that their lemmas serve both: [OverlapConfig]
      (arguments, levels), [OverlapSweep] ([run_condition], [main] and its parts),
      [OverlapLevels] (histograms of groups of classes, the lines of a level),
      [OverlapRelease] (what every path holds), [OverlapProps] (the plan, the levels,
      the report), [OverlapDemo] (witnesses, also for what [main] of the experiment
      gives back);
    - five candidates, with the same pools, selection, chains, workers and steps
      once more: [MultiCore] (what the two programs have in common, for any
      conditions), [MultiSelect] (the lines of the candidates), [MultiTrace] (what a
      run does to control files and processes, in order), [MultiProps] (what every
      path holds, and the report), [MultiControl] and [CpuMaxSweep] (the arguments,
      the conditions, the comparison and [main] of each program, its theorems and
      witnesses);
    - the bank worker: [BankWorker] (the whole program), [BankWorkerProps]
      (granularity, the scan), [BankWorkerRun] (release of pages, the cycle, the
      reads, [main]), [BankWorkerDemo] (witnesses).

    ** What the theorems show

    - Start-up: the daemon refuses to start in the first step that fails and
      handles no event then, a calibration that succeeds was produced by a worker
      of this very run, and the run ends whatever the worker does.
    - Tracking: each event is one operation on the map of processes, protection
      persists and is inherited; over single-threaded processes the daemon's
      view is exact, and threads break it.
    - Mapping and profiles: the two ways of comparing bank classes agree, the
      overlap score is the weighted Jaccard index, every sampled page is counted
      once, every stream and descriptor of a build is released.
    - Detection: scores are in the unit interval, candidates meet the contract of
      the controller, a protected process is never throttled on them, the prefilter
      returns the best of the eligible processes, each of its outcomes has its
      condition, and comparing two samples fails with the first obstacle.
    - Control: the controller refines a hysteresis automaton (no flapping, no
      migration of processes it does not manage, exact accounts), in every
      reachable state.
    - The experiment: the lines the workers read have exactly the bank classes the
      experiment is about, so its acceptance criterion never rejects them; the
      chains go through every line exactly once; a condition throttles the
      aggressors it names and no other; and [main] returns on every path, with no
      child, descriptor, stream or mapping left behind, and with success exactly
      when every step succeeded, the check of the page frames included (the steps
      are stated as relations of their own, not by what [main] makes of them; the
      same holds of the sweep and of the programs with five candidates).
    - The sweep: the levels that are measured are exactly those that are asked for,
      a class keeps its lines from level to level, the report has what was measured
      and nothing is left behind.
    - Five candidates: each shares exactly its number of classes with the victim; a
      condition has limited exactly the candidates it names, and placed every
      candidate in its cgroup, before it lets any worker run; the comparison is of
      the numbers in the rows; and [main] leaves nothing behind.
    - The bank worker: it selects the first blocks of its class in page order, every
      byte of the lines it reads has that class, no more pages are looked at or
      kept than needed, the lines form one cycle, and the mapping and everything
      it opened are released on every path.

    ** Fuel

    A loop over the bytes of a text or the lines of a file gets one more than
    its length; the sampling loop of a region gets its number of pages; the theorems
    about these functions show the results that the code computes, so the fuel
    is never short.  The loops that wait for a process take the fuel of
    [CalibrationWait.wait_turns]: the milliseconds of the timeout and of the grace
    period, and one turn per signal that interrupts a call.  The loop of [main]
    does not end; it is observed after any number of turns.  [run_condition] takes
    one fuel for all its loops: no call is interrupted in that program, so it is
    enough that the fuel exceeds the bytes of a control file's text and of a
    result, and so it is with five candidates; the sweep writes no control files
    and needs only the latter.  The bank worker takes fuel for its chunks of reads
    only; it is shown that it runs on only while the clock shows less than the
    seconds asked for.

    ** Not modelled

    The generated skeleton and libbpf, the Python worker and the shell scripts
    (other languages), the unit tests, the recorded benchmark data, and the
    other stand-alone programs under experiments, mem_interference_test and
    prototypes, which are not linked into the daemon: those under experiments
    (a plain overlap run) are variants of the modelled experiments with most of their
    functions unchanged, the others are load generators, perf readers and superseded
    versions of the daemon. *)

From stdpp Require Export base decidable option list strings.
From stdpp Require Export gmap.
From Stdlib Require Export ZArith Lia.
From Stdlib Require Import Ascii.

#[export] Set Warnings "-notation-overridden,-clear-no-such-hyp".

(** ** Machine integers

    A C [uint64_t] (or [size_t]) is a [Z] in [[0, 2^64)]; every arithmetic
    operation of the source that can wrap is written with [u64]. *)

Declare Scope c_scope.
Delimit Scope c_scope with c.

Definition UINT64_MAX : Z := 18446744073709551615.
Definition LLONG_MAX : Z := 9223372036854775807.
Definition LLONG_MIN : Z := -9223372036854775808.

Definition u64 (x : Z) : Z := (x mod 18446744073709551616)%Z.
Definition u64_add (x y : Z) : Z := u64 (x + y).
Definition u64_mul (x y : Z) : Z := u64 (x * y).
Definition u64_sub (x y : Z) : Z := u64 (x - y).
(** [x++] on an unsigned 64-bit counter. *)
Definition u64_inc (x : Z) : Z := u64 (x + 1).

Definition in_u64 (x : Z) : Prop := (0 <= x < 18446744073709551616)%Z.

Infix "+u" := u64_add (at level 50, left associativity) : c_scope.
Infix "*u" := u64_mul (at level 40, left associativity) : c_scope.
Infix "-u" := u64_sub (at level 50, left associativity) : c_scope.

Lemma u64_range x : in_u64 (u64 x).
Proof. unfold in_u64, u64. apply Z.mod_pos_bound. lia. Qed.

Lemma u64_small x : in_u64 x -> u64 x = x.
Proof. unfold in_u64, u64. intros. apply Z.mod_small. lia. Qed.

Lemma u64_idemp x : u64 (u64 x) = u64 x.
Proof. apply u64_small, u64_range. Qed.

Lemma u64_add_l x y : u64 (u64 x + y) = u64 (x + y).
Proof. unfold u64. apply Zplus_mod_idemp_l. Qed.

Lemma u64_add_r x y : u64 (x + u64 y) = u64 (x + y).
Proof. unfold u64. apply Zplus_mod_idemp_r. Qed.

(** A sequence of wrapping additions is one addition modulo 2^64. *)
Lemma u64_add_add x y z : u64_add (u64_add x y) z = u64_add x (y + z).
Proof. unfold u64_add. rewrite u64_add_l. f_equal. lia. Qed.

Lemma u64_add_comm x y : u64_add x y = u64_add y x.
Proof. unfold u64_add. f_equal. lia. Qed.

Lemma u64_add_range x y : in_u64 (u64_add x y).
Proof. apply u64_range. Qed.

Create HintDb u64.
#[export] Hint Resolve u64_range u64_small u64_add_range : u64.

(** ** Record update: [x <| field := v |>]

    A record type declares its eta-expansion ([Settable]); the setter of a
    field is found by abstracting the field's projection in it. *)

Class Settable (R : Type) := eta_record : R -> R.
Class Setter {R T : Type} (proj : R -> T) := set_field : (T -> T) -> R -> R.
Arguments set_field {R T} proj {_} _ _.

Ltac solve_setter :=
  match goal with
  | |- @Setter ?R ?T ?proj =>
      let inst := constr:(_ : Settable R) in
      let eta := eval cbv delta [eta_record] in inst in
      let eta := (eval unfold eta in eta) in
      match eval pattern proj in eta with
      | ?g _ => exact (fun (f : T -> T) => g (fun x => f (proj x)))
      end
  end.

#[export] Hint Extern 1 (Setter _) => solve_setter : typeclass_instances.

Declare Scope record_scope.
Delimit Scope record_scope with rec.
Notation "x <| proj := v |>" := (set_field proj (fun _ => v) x)
  (at level 1, left associativity, format "x  <| proj  :=  v |>") : record_scope.
Notation "x <| proj ::= f |>" := (set_field proj f x)
  (at level 1, left associativity, format "x  <| proj  ::=  f |>") : record_scope.
Open Scope record_scope.

(** ** Loops over an index range *)

(** The values of [i] in [for (i = a; i < a + n; i++)]. *)
Fixpoint zrange (a : Z) (n : nat) : list Z :=
  match n with
  | O => []
  | S n => a :: zrange (a + 1)%Z n
  end.

Lemma zrange_seqZ a n : zrange a n = seqZ a (Z.of_nat n).
Proof.
  revert a. induction n as [|n IH]; intros a; [done|]. rewrite seqZ_cons by lia. cbn [zrange]. rewrite IH.
  do 2 f_equal; lia.
Qed.

(** ** Filtered lists *)

(** Filtering by two tests that agree on the list. *)
Lemma filter_agree {A} (P Q : A -> Prop) `{forall x, Decision (P x)} `{forall x, Decision (Q x)} (l : list A) :
  (forall x, x ∈ l -> P x <-> Q x) -> filter P l = filter Q l.
Proof.
  induction l as [|x l IH]; intros He; [done|]. rewrite !filter_cons.
  rewrite (IH (fun y Hy => He y (list_elem_of_further _ _ _ Hy))).
  destruct (decide (P x)) as [Hp|Hp]; [rewrite decide_True|rewrite decide_False]; try done;
    (rewrite <- He by constructor; done).
Qed.

(** How the number of elements with a property changes at one point. *)
Lemma filter_point {A} (P Q : A -> Prop) `{forall x, Decision (P x)} `{forall x, Decision (Q x)} (l : list A) s :
  NoDup l -> s ∈ l -> (forall j, j <> s -> P j <-> Q j) -> ~ P s -> Q s ->
  List.length (filter Q l) = S (List.length (filter P l)).
Proof.
  intros Hnd Hin Heq Hp Hq. induction l as [|x l IH]; [by apply elem_of_nil in Hin|].
  apply NoDup_cons in Hnd as [Hx Hnd]. rewrite !filter_cons. apply elem_of_cons in Hin as [<-|Hin].
  - rewrite decide_True, decide_False by done. cbn. do 2 f_equal. apply filter_agree.
    intros j Hj. symmetry. apply Heq. by intros ->.
  - assert (x <> s) by congruence. destruct (decide (P x)) as [Hpx|Hpx].
    + rewrite decide_True by (by apply Heq). cbn. by rewrite IH.
    + rewrite decide_False by (by rewrite <- Heq). by apply IH.
Qed.

Lemma filter_all {A} (P : A -> Prop) `{forall x, Decision (P x)} (l : list A) : Forall P l -> filter P l = l.
Proof. induction 1 as [|x l Hx _ IH]; [done|]. by rewrite filter_cons_True, IH. Qed.

Lemma filter_fmap {A B} (f : A -> B) (P : B -> Prop) `{forall x, Decision (P x)} (l : list A) :
  filter P (f <$> l) = f <$> filter (fun x => P (f x)) l.
Proof.
  induction l as [|x l IH]; [done|]. cbn [fmap list_fmap]. rewrite !filter_cons, IH. by destruct (decide (P (f x))).
Qed.

(** ** Return codes and enums

    The C functions return [int] codes; every code of an enum of the sources
    is a [Z] constant with the enumerator's name and value. *)

(** ** Automation shared by the components *)

(** Split the tests of the code one by one and close the trivial branches. *)
Ltac split_branches := repeat (case_match; simplify_eq/=; try done).

(** Split a conjunction, and nothing else. *)
Ltac conjs := repeat match goal with |- _ /\ _ => split end.

(** Boolean tests of the code as propositions. *)
Ltac bool_hyps :=
  repeat match goal with
  | H : (_ && _) = true |- _ => apply andb_true_iff in H; destruct H
  | H : (_ || _) = false |- _ => apply orb_false_iff in H; destruct H
  | H : negb _ = true |- _ => apply negb_true_iff in H
  | H : negb _ = false |- _ => apply negb_false_iff in H
  | H : (_ =? _)%Z = true |- _ => apply Z.eqb_eq in H
  | H : (_ =? _)%Z = false |- _ => apply Z.eqb_neq in H
  | H : (_ <=? _)%Z = true |- _ => apply Z.leb_le in H
  | H : (_ <=? _)%Z = false |- _ => apply Z.leb_gt in H
  | H : (_ <? _)%Z = true |- _ => apply Z.ltb_lt in H
  | H : (_ <? _)%Z = false |- _ => apply Z.ltb_ge in H
  end.
