(* ===== verification/Float64.v ===== *)
(** * Binary64 arithmetic

    The [double] of the C sources as the exact binary64 of the Standard Library's
    [SpecFloat], rounding to nearest even: the operations the code uses, an order
    embedding [dord] of the non-negative values into the integers, and the
    monotonicity of rounding, from which the bounds on scores follow. *)
From Stdlib Require Import ZArith Lia Bool.
From Stdlib Require Export SpecFloat.
From S2P Require Import Prelude.
Local Open Scope Z_scope.

Abbreviation double := spec_float.
Definition dadd : double -> double -> double := SFadd 53 1024.
Definition dmul : double -> double -> double := SFmul 53 1024.
Definition ddiv : double -> double -> double := SFdiv 53 1024.
Definition dltb : double -> double -> bool := SFltb.
Definition dleb : double -> double -> bool := SFleb.
Definition Z_to_double (z : Z) : double := binary_normalize 53 1024 z 0 false.
Definition dlit (n d : Z) : double := ddiv (Z_to_double n) (Z_to_double d).
Definition dvalid (x : double) : bool := valid_binary 53 1024 x.

Example lit_01 : dlit 1 10 = S754_finite false 7205759403792794 (-56).
Proof. vm_compute. reflexivity. Qed.

(** ** digits *)
Lemma digits2_pos_bound (p : positive) :
  2 ^ (Z.pos (digits2_pos p) - 1) <= Z.pos p < 2 ^ Z.pos (digits2_pos p).
Proof.
  induction p as [p IH|p IH|]; cbn [digits2_pos]; [| |cbn; lia].
  all: rewrite Pos2Z.inj_succ; replace (Z.succ (Z.pos (digits2_pos p)) - 1) with (Z.pos (digits2_pos p)) by lia.
  all: rewrite Z.pow_succ_r by lia; revert IH;
    replace (2 ^ Z.pos (digits2_pos p)) with (2 * 2 ^ (Z.pos (digits2_pos p) - 1))
      by (rewrite <- Z.pow_succ_r by lia; f_equal; lia); lia.
Qed.

Lemma Zdigits2_bound (m : Z) : 0 <= m -> m < 2 ^ Zdigits2 m /\ (0 < m -> 2 ^ (Zdigits2 m - 1) <= m) /\ 0 <= Zdigits2 m.
Proof.
  destruct m as [|p|p]; intros; cbn [Zdigits2]; [cbn; lia| |lia].
  pose proof (digits2_pos_bound p). lia.
Qed.

Lemma Zdigits2_le (m n : Z) : 0 <= m -> 0 <= n -> m < 2 ^ n -> Zdigits2 m <= n.
Proof.
  intros Hm Hn H. destruct (Zdigits2_bound m Hm) as (_ & Hl & Hd).
  destruct (Z.eq_dec m 0) as [->|]; [cbn; lia|].
  destruct (Z_lt_le_dec n (Zdigits2 m)); [|lia].
  assert (2 ^ n <= 2 ^ (Zdigits2 m - 1)) by (apply Z.pow_le_mono_r; lia). lia.
Qed.

Lemma Zdigits2_ge (m n : Z) : 0 <= n -> 2 ^ n <= m -> n + 1 <= Zdigits2 m.
Proof.
  intros Hn H. assert (0 < 2 ^ n) by (apply Z.pow_pos_nonneg; lia).
  destruct (Zdigits2_bound m ltac:(lia)) as (Hu & _ & Hd).
  destruct (Z_lt_le_dec n (Zdigits2 m)); [lia|].
  assert (2 ^ Zdigits2 m <= 2 ^ n) by (apply Z.pow_le_mono_r; lia). lia.
Qed.

(** ** Location of an integer-scaled real. [U] is the unit at the exponent. *)
Definition inb (m U : Z) (l : location) (X : Z) : Prop :=
  match l with
  | loc_Exact => X = m * U
  | loc_Inexact c => m * U < X < (m + 1) * U /\ Z.compare (2 * X) ((2 * m + 1) * U) = c
  end.

Definition inb_rec (r : shr_record) (U X : Z) : Prop := inb (shr_m r) U (loc_of_shr_record r) X.

Lemma shr_record_of_loc_m m l : shr_m (shr_record_of_loc m l) = m.
Proof. destruct l as [|[]]; reflexivity. Qed.
Lemma loc_of_record_of_loc m l : loc_of_shr_record (shr_record_of_loc m l) = l.
Proof. destruct l as [|[]]; reflexivity. Qed.

Lemma shr_1_m r : 0 <= shr_m r -> shr_m (shr_1 r) = shr_m r / 2.
Proof.
  destruct r as [m b s]; cbn [shr_m]. intros H.
  destruct m as [|[p|p|]|p]; try lia; cbn [shr_1 shr_m]; try reflexivity.
  - rewrite Pos2Z.inj_xI. rewrite Z.add_comm, Z.mul_comm, Z.div_add by lia. reflexivity.
  - rewrite Pos2Z.inj_xO. rewrite Z.mul_comm, Z.div_mul by lia. reflexivity.
Qed.

Lemma shr_1_inb r U X :
  0 < U -> 0 <= shr_m r -> inb_rec r U X -> inb_rec (shr_1 r) (2 * U) X.
Proof.
  destruct r as [m b s]; unfold inb_rec; cbn [shr_m]. intros HU H Hi.
  destruct m as [|[p|p|]|p]; [| | | |exfalso; clear Hi HU; lia];
    cbn [shr_1]; destruct b, s; cbn [shr_m loc_of_shr_record orb inb] in *;
    try rewrite (Pos2Z.inj_xI p) in Hi; try rewrite (Pos2Z.inj_xO p) in Hi;
    rewrite ?Z.compare_lt_iff, ?Z.compare_gt_iff, ?Z.compare_eq_iff in Hi;
    rewrite ?Z.compare_lt_iff, ?Z.compare_gt_iff, ?Z.compare_eq_iff; lia.
Qed.

Lemma iter_pos_iter {A} (f : A -> A) (n : positive) (x : A) :
  @SpecFloat.iter_pos A f n x = Nat.iter (Pos.to_nat n) f x.
Proof.
  revert x. induction n as [n IH|n IH|]; intros x; cbn [SpecFloat.iter_pos]; rewrite ?IH.
  - rewrite Pos2Nat.inj_xI, Nat.iter_succ_r, <- Nat.iter_add. f_equal. lia.
  - rewrite Pos2Nat.inj_xO, <- Nat.iter_add. f_equal. lia.
  - reflexivity.
Qed.

Lemma shr_iter_inb (n : nat) r U X :
  0 < U -> 0 <= shr_m r -> inb_rec r U X ->
  let r' := Nat.iter n shr_1 r in
  inb_rec r' (2 ^ Z.of_nat n * U) X /\ shr_m r' = shr_m r / 2 ^ Z.of_nat n.
Proof.
  intros HU Hm Hi. induction n as [|n [IH1 IH2]]; cbn zeta in *.
  - cbn [Nat.iter Z.of_nat]. rewrite Z.pow_0_r, Z.mul_1_l, Z.div_1_r. auto.
  - rewrite Nat.iter_succ. set (r' := Nat.iter n shr_1 r) in *.
    assert (0 < 2 ^ Z.of_nat n) by (apply Z.pow_pos_nonneg; lia).
    assert (0 <= shr_m r') by (rewrite IH2; apply Z.div_pos; lia).
    rewrite Nat2Z.inj_succ, Z.pow_succ_r by lia. split.
    + replace (2 * 2 ^ Z.of_nat n * U) with (2 * (2 ^ Z.of_nat n * U)) by ring.
      apply shr_1_inb; [nia|lia|exact IH1].
    + rewrite shr_1_m by lia. rewrite IH2, Z.div_div by lia. f_equal. ring.
Qed.

(** ** The rounding of a positive real to binary64. *)

(** First step of [binary_round_aux]: shift to the canonical exponent. *)
Lemma shr_fexp_spec m e l D U X :
  0 <= m -> 0 < U -> e <= fexp 53 1024 (Zdigits2 m + e) -> inb m U l X ->
  D = fexp 53 1024 (Zdigits2 m + e) - e ->
  exists r, shr_fexp 53 1024 m e l = (r, e + D) /\
    inb_rec r (2 ^ D * U) X /\ shr_m r = m / 2 ^ D.
Proof.
  intros Hm HU He Hi ->. unfold shr_fexp.
  set (D := fexp 53 1024 (Zdigits2 m + e) - e).
  assert (HD : 0 <= D) by (unfold D; lia).
  pose proof (shr_iter_inb (Z.to_nat D) (shr_record_of_loc m l) U X HU) as Hs.
  unfold inb_rec in Hs at 1.
  rewrite shr_record_of_loc_m, loc_of_record_of_loc, Z2Nat.id in Hs by exact HD.
  destruct (Hs Hm Hi) as [H1 H2]. clear Hs.
  exists (Nat.iter (Z.to_nat D) shr_1 (shr_record_of_loc m l)).
  split; [|auto]. unfold shr. destruct D as [|d|d]; [|rewrite iter_pos_iter; reflexivity|lia].
  cbn. f_equal. lia.
Qed.

Definition rne := round_nearest_even.

Lemma rne_bound m l : m <= rne m l <= m + 1.
Proof. unfold rne, round_nearest_even. destruct l as [|[]]; try lia. destruct (Z.even m); lia. Qed.

Lemma rne_mono m1 m2 l1 l2 U X Y :
  0 < U -> inb m1 U l1 X -> inb m2 U l2 Y -> X <= Y -> rne m1 l1 <= rne m2 l2.
Proof.
  intros HU H1 H2 HXY.
  assert (m1 <= m2).
  { destruct (Z_lt_le_dec m2 m1) as [Hlt|]; [|lia]. exfalso.
    assert ((m2 + 1) * U <= m1 * U) by (apply Z.mul_le_mono_nonneg_r; lia).
    destruct l1, l2; cbn [inb] in *; lia. }
  pose proof (rne_bound m1 l1). pose proof (rne_bound m2 l2).
  destruct (Z.eq_dec m1 m2) as [->|]; [|lia].
  unfold rne, round_nearest_even.
  destruct l1 as [|[]], l2 as [|[]]; try (destruct (Z.even m2); lia); cbn [inb] in *;
    rewrite ?Z.compare_lt_iff, ?Z.compare_gt_iff, ?Z.compare_eq_iff in *; exfalso; lia.
Qed.

(** The number [N * 2^e] as a float ([N <= 2^53]). *)
Definition pack (N e : Z) : double :=
  if N =? 0 then S754_zero false
  else if N =? 2 ^ 53
  then (if e + 1 <=? 971 then S754_finite false 4503599627370496 (e + 1) else S754_infinity false)
  else (if e <=? 971 then S754_finite false (Z.to_pos N) e else S754_infinity false).

(** [rounds X U N e]: the real [X] (unit [U] at exponent [e]) rounds to [N * 2^e]. *)
Definition rounds (X U N e : Z) : Prop :=
  exists m l, 0 <= m < 2 ^ 53 /\ -1074 <= e /\ (2 ^ 52 <= m \/ e = -1074) /\ inb m U l X /\ N = rne m l.

Lemma fexp_eq x : fexp 53 1024 x = Z.max (x - 53) (-1074).
Proof. reflexivity. Qed.

Lemma bra_rounds m e l U X :
  0 <= m -> 0 < U -> e <= fexp 53 1024 (Zdigits2 m + e) -> inb m U l X ->
  exists N D, 0 <= D /\ rounds X (2 ^ D * U) N (e + D) /\
    binary_round_aux 53 1024 false m e l = pack N (e + D).
Proof.
  intros Hm HU He Hi. set (D := fexp 53 1024 (Zdigits2 m + e) - e).
  destruct (shr_fexp_spec m e l D U X Hm HU He Hi eq_refl) as (r & Hr & Hri & Hrm).
  set (N := rne (shr_m r) (loc_of_shr_record r)).
  assert (HD : 0 <= D) by (unfold D; lia).
  destruct (Zdigits2_bound m Hm) as (Hu & Hl & Hd).
  assert (HeD : e + D = Z.max (Zdigits2 m + e - 53) (-1074)) by (unfold D; rewrite fexp_eq; lia).
  assert (Hp : 0 < 2 ^ D) by (apply Z.pow_pos_nonneg; lia).
  assert (Hm1 : 0 <= shr_m r < 2 ^ 53).
  { rewrite Hrm. split; [apply Z.div_pos; lia|]. apply Z.div_lt_upper_bound; [lia|].
    apply Z.lt_le_trans with (1 := Hu). rewrite <- Z.pow_add_r by lia. apply Z.pow_le_mono_r; lia. }
  assert (Hm2 : 2 ^ 52 <= shr_m r \/ e + D = -1074).
  { destruct (Z_le_gt_dec (Zdigits2 m + e - 53) (-1074)); [right; lia|left].
    assert (0 < m). { destruct (Z.eq_dec m 0) as [->|]; [|lia]. cbn [Zdigits2] in *. rewrite fexp_eq in He. lia. }
    rewrite Hrm. apply Z.div_le_lower_bound; [lia|].
    rewrite <- Z.pow_add_r by lia. replace (D + 52) with (Zdigits2 m - 1) by lia. auto. }
  exists N, D. split; [exact HD|]. split.
  { exists (shr_m r), (loc_of_shr_record r). repeat split; try lia; auto. }
  unfold binary_round_aux. rewrite Hr. fold rne. fold N.
  pose proof (rne_bound (shr_m r) (loc_of_shr_record r)) as HN. fold N in HN.
  unfold shr_fexp. cbn [shr_record_of_loc].
  unfold pack. destruct (Z.eqb_spec N 0) as [->|HN0].
  { cbn [Zdigits2]. rewrite fexp_eq. assert (e + D = -1074) as -> by lia. reflexivity. }
  destruct (Z.eqb_spec N (2 ^ 53)) as [->|HN1].
  { replace (fexp 53 1024 (Zdigits2 (2 ^ 53) + (e + D)) - (e + D)) with 1
      by (rewrite fexp_eq; change (Zdigits2 (2 ^ 53)) with 54; lia).
    cbn. reflexivity. }
  assert (Hdn : Zdigits2 N <= 53) by (apply Zdigits2_le; lia).
  replace (fexp 53 1024 (Zdigits2 N + (e + D)) - (e + D)) with 0.
  2:{ rewrite fexp_eq. destruct Hm2 as [Hm2|Hm2]; [|lia].
      pose proof (Zdigits2_ge N 52 ltac:(lia) ltac:(lia)). lia. }
  cbn [shr shr_m]. destruct N as [|p|p]; [lia| |lia]. reflexivity.
Qed.

(** ** Non-negative floats and their order *)
Definition nonneg (x : double) : bool :=
  match x with
  | S754_zero _ => true
  | S754_infinity s => negb s
  | S754_nan => false
  | S754_finite s _ _ => negb s
  end.

Definition isfinite (x : double) : bool :=
  match x with S754_zero _ | S754_finite _ _ _ => true | _ => false end.

(** A valid float in [[0, +oo]]. *)
Definition nnv (x : double) : Prop := dvalid x = true /\ nonneg x = true.

(** The value of a non-negative float in units of [2^-1074]. *)
Definition dord (x : double) : Z :=
  match x with
  | S754_finite _ m e => Z.pos m * 2 ^ (e + 1074)
  | S754_infinity _ => 2 ^ 2200
  | _ => 0
  end.

Definition normal_pos (N e : Z) : Prop := -1074 <= e /\ 0 <= N <= 2 ^ 53 /\ (2 ^ 52 <= N \/ e = -1074).

Lemma valid_finite s m e : dvalid (S754_finite s m e) = true <->
  e = Z.max (Z.pos (digits2_pos m) + e - 53) (-1074) /\ e <= 971.
Proof.
  unfold dvalid, valid_binary, bounded, canonical_mantissa.
  rewrite andb_true_iff, Z.eqb_eq, Z.leb_le, fexp_eq. lia.
Qed.

Lemma valid_finite_bounds s m e : dvalid (S754_finite s m e) = true ->
  -1074 <= e <= 971 /\ Z.pos m < 2 ^ 53 /\ (2 ^ 52 <= Z.pos m \/ e = -1074).
Proof.
  rewrite valid_finite. intros [He He2]. pose proof (digits2_pos_bound m) as [Hl Hu].
  set (d := Z.pos (digits2_pos m)) in *.
  assert (d <= 53) by lia. repeat split; try lia.
  - apply Z.lt_le_trans with (1 := Hu). apply Z.pow_le_mono_r; lia.
  - destruct (Z.eq_dec d 53); [left|right; lia]. replace (d - 1) with 52 in Hl by lia. lia.
Qed.

Lemma pow2_split a b : 0 <= a -> a < b -> 2 * 2 ^ a <= 2 ^ b.
Proof. intros. rewrite <- Z.pow_succ_r by lia. apply Z.pow_le_mono_r; lia. Qed.

(** Finite canonical numbers are ordered by exponent, then mantissa. *)
Lemma dord_finite_lt m1 e1 m2 e2 s1 s2 :
  dvalid (S754_finite s1 m1 e1) = true -> dvalid (S754_finite s2 m2 e2) = true ->
  e1 < e2 -> dord (S754_finite s1 m1 e1) < dord (S754_finite s2 m2 e2).
Proof.
  intros H1%valid_finite_bounds H2%valid_finite_bounds He. cbn [dord].
  pose proof (pow2_split (e1 + 1074) (e2 + 1074) ltac:(lia) ltac:(lia)).
  assert (0 < 2 ^ (e1 + 1074)) by (apply Z.pow_pos_nonneg; lia). nia.
Qed.

Lemma dord_finite_inf s m e : dvalid (S754_finite s m e) = true -> dord (S754_finite s m e) < 2 ^ 2200.
Proof.
  intros H%valid_finite_bounds. cbn [dord].
  apply Z.lt_le_trans with (2 ^ 53 * 2 ^ (e + 1074)).
  - apply Z.mul_lt_mono_pos_r; [apply Z.pow_pos_nonneg; lia|lia].
  - rewrite <- Z.pow_add_r by lia. apply Z.pow_le_mono_r; lia.
Qed.

Lemma dord_finite_pos s m e : -1074 <= e -> 0 < dord (S754_finite s m e).
Proof. intros. cbn [dord]. assert (0 < 2 ^ (e + 1074)) by (apply Z.pow_pos_nonneg; lia). lia. Qed.

Lemma pow_2200_pos : 0 < 2 ^ 2200.
Proof. apply Z.pow_pos_nonneg; lia. Qed.

(** The order of the code ([<=] on doubles) is the order of the values. *)
Lemma dleb_dord x y : nnv x -> nnv y -> dleb x y = (dord x <=? dord y).
Proof.
  intros [Hx Hnx] [Hy Hny]. unfold dleb, SFleb, SFcompare. pose proof pow_2200_pos.
  destruct x as [sx|sx| |sx mx ex], y as [sy|sy| |sy my ey]; try discriminate;
    cbn [nonneg negb] in *; try (destruct sx; try discriminate); try (destruct sy; try discriminate);
    try reflexivity; symmetry;
    rewrite ?Z.leb_le, ?Z.leb_gt;
    try (pose proof (dord_finite_inf _ _ _ Hx)); try (pose proof (dord_finite_inf _ _ _ Hy));
    try (pose proof (valid_finite_bounds _ _ _ Hx)); try (pose proof (valid_finite_bounds _ _ _ Hy));
    try (pose proof (dord_finite_pos false mx ex ltac:(lia)));
    try (pose proof (dord_finite_pos false my ey ltac:(lia)));
    try (cbn [dord] in *; lia).
  destruct (Z.compare_spec ex ey) as [->|Hlt|Hlt].
  - cbn [dord]. change (Pos.compare_cont Eq mx my) with (Pos.compare mx my).
    assert (0 < 2 ^ (ey + 1074)) by (apply Z.pow_pos_nonneg; lia).
    destruct (Pos.compare_spec mx my) as [->|Hm|Hm]; rewrite ?Z.leb_le, ?Z.leb_gt; nia.
  - rewrite Z.leb_le. pose proof (dord_finite_lt _ _ _ _ _ _ Hx Hy Hlt). lia.
  - rewrite Z.leb_gt. exact (dord_finite_lt _ _ _ _ _ _ Hy Hx Hlt).
Qed.

Lemma dleb_trans x y z : nnv x -> nnv y -> nnv z -> dleb x y = true -> dleb y z = true -> dleb x z = true.
Proof. intros Hx Hy Hz. rewrite !dleb_dord by assumption. rewrite !Z.leb_le. lia. Qed.

Lemma pack_nnv N e : normal_pos N e -> nnv (pack N e).
Proof.
  intros (He & HN & Hn). unfold pack, nnv.
  destruct (Z.eqb_spec N 0); [auto|]. destruct (Z.eqb_spec N (2 ^ 53)).
  - destruct (Z.leb_spec (e + 1) 971); [|auto]. split; [|reflexivity].
    rewrite valid_finite. change (Z.pos (digits2_pos 4503599627370496)) with 53. lia.
  - destruct (Z.leb_spec e 971); [|auto]. split; [|reflexivity].
    rewrite valid_finite. destruct N as [|p|p]; [lia| |lia]. cbn [Z.to_pos].
    change (Z.pos (digits2_pos p)) with (Zdigits2 (Z.pos p)).
    pose proof (Zdigits2_le (Z.pos p) 53 ltac:(lia) ltac:(lia) ltac:(lia)).
    split; [|lia]. destruct Hn as [Hn| ->]; [|lia].
    pose proof (Zdigits2_ge (Z.pos p) 52 ltac:(lia) Hn). lia.
Qed.

Definition overflows (N e : Z) : Prop := 971 < e \/ (e = 971 /\ N = 2 ^ 53).

Lemma pow2_le_2200 N e : 0 <= N <= 2 ^ 53 -> -1074 <= e <= 971 -> N * 2 ^ (e + 1074) <= 2 ^ 2200.
Proof.
  intros. apply Z.le_trans with (2 ^ 53 * 2 ^ (e + 1074)).
  - apply Z.mul_le_mono_nonneg_r; [|lia]. apply Z.pow_nonneg; lia.
  - rewrite <- Z.pow_add_r by lia. apply Z.pow_le_mono_r; lia.
Qed.

Lemma pack_dord N e : normal_pos N e ->
  (overflows N e /\ dord (pack N e) = 2 ^ 2200 /\ isfinite (pack N e) = false) \/
  (~ overflows N e /\ dord (pack N e) = N * 2 ^ (e + 1074) /\ isfinite (pack N e) = true).
Proof.
  intros (He & HN & Hn). unfold pack, overflows.
  destruct (Z.eqb_spec N 0) as [->|]; [right; cbn [dord isfinite]; lia|].
  destruct (Z.eqb_spec N (2 ^ 53)) as [->|].
  - destruct (Z.leb_spec (e + 1) 971); [right|left; cbn [dord isfinite]; lia].
    cbn [dord isfinite]. change (Z.pos 4503599627370496) with (2 ^ 52).
    rewrite <- !Z.pow_add_r by lia. repeat split; try lia. f_equal. lia.
  - destruct (Z.leb_spec e 971); [right|left; cbn [dord isfinite]; lia].
    cbn [dord isfinite]. rewrite Z2Pos.id by lia. repeat split; lia.
Qed.

Lemma rounds_normal X U N e : 0 < U -> rounds X U N e -> normal_pos N e.
Proof.
  intros HU (m & l & Hm & He & Hn & _ & ->). pose proof (rne_bound m l).
  unfold normal_pos. lia.
Qed.

Lemma pack_mono N1 e1 N2 e2 : normal_pos N1 e1 -> normal_pos N2 e2 ->
  (e1 = e2 /\ N1 <= N2) \/ (e1 < e2 /\ 2 ^ 52 <= N2) -> dord (pack N1 e1) <= dord (pack N2 e2).
Proof.
  intros H1 H2 H.
  assert (~ overflows N2 e2 -> N1 * 2 ^ (e1 + 1074) <= N2 * 2 ^ (e2 + 1074)).
  { intros Ho. destruct H1 as (? & ? & ?), H2 as (? & ? & ?).
    destruct H as [[-> H]|[H H']].
    - apply Z.mul_le_mono_nonneg_r; [|lia]. apply Z.pow_nonneg; lia.
    - pose proof (pow2_split (e1 + 1074) (e2 + 1074) ltac:(lia) ltac:(lia)).
      assert (0 < 2 ^ (e1 + 1074)) by (apply Z.pow_pos_nonneg; lia). nia. }
  destruct (pack_dord _ _ H1) as [(O1 & -> & _)|(O1 & -> & _)],
    (pack_dord _ _ H2) as [(O2 & -> & _)|(O2 & -> & _)]; [lia| | |auto].
  - exfalso. unfold overflows, normal_pos in *. lia.
  - destruct H1 as (? & ? & ?). apply pow2_le_2200; unfold overflows in *; lia.
Qed.

(** Round-to-nearest-even is monotone (the units are [B * 2^e] for one scale). *)
Lemma rounds_mono B K X Y U1 U2 N1 N2 e1 e2 :
  0 < B -> 0 <= e1 + K -> 0 <= e2 + K ->
  U1 = B * 2 ^ (e1 + K) -> U2 = B * 2 ^ (e2 + K) ->
  rounds X U1 N1 e1 -> rounds Y U2 N2 e2 -> X <= Y ->
  dord (pack N1 e1) <= dord (pack N2 e2).
Proof.
  intros HB HK1 HK2 HU1 HU2 R1 R2 HXY.
  assert (P1 : 0 < 2 ^ (e1 + K)) by (apply Z.pow_pos_nonneg; lia).
  assert (P2 : 0 < 2 ^ (e2 + K)) by (apply Z.pow_pos_nonneg; lia).
  assert (HU1p : 0 < U1) by nia. assert (HU2p : 0 < U2) by nia.
  pose proof (rounds_normal _ _ _ _ HU1p R1). pose proof (rounds_normal _ _ _ _ HU2p R2).
  apply pack_mono; [assumption|assumption|].
  destruct R1 as (m1 & l1 & Hm1 & He1 & Hn1 & Hi1 & ->), R2 as (m2 & l2 & Hm2 & He2 & Hn2 & Hi2 & ->).
  pose proof (rne_bound m2 l2).
  destruct (Z.lt_trichotomy e1 e2) as [Hlt|[->|Hlt]].
  - right. lia.
  - left. split; [reflexivity|]. subst U1 U2. eapply rne_mono; eauto.
  - exfalso. pose proof (pow2_split (e2 + K) (e1 + K) ltac:(lia) ltac:(lia)).
    assert (2 * U2 <= U1) by nia.
    assert (2 ^ 52 * U1 <= X) by (destruct l1; cbn [inb] in Hi1; nia).
    assert (Y < (m2 + 1) * U2) by (destruct l2; cbn [inb] in Hi2; nia).
    nia.
Qed.

(** ** The operations on non-negative floats *)

Definition dfin (x : double) : Prop := nnv x /\ isfinite x = true.

(** [x] is zero or a positive canonical number. *)
Lemma dfin_cases x : dfin x ->
  (exists s, x = S754_zero s) \/ exists m e, x = S754_finite false m e /\ dvalid x = true.
Proof.
  intros [[Hv Hn] Hf]. destruct x as [s|s| |[] m e]; try discriminate; [left; eauto|right; eauto].
Qed.

Lemma iter_xO_spec (p d : positive) :
  Z.pos (Pos.iter xO p d) = Z.pos p * 2 ^ Z.pos d /\
  Z.pos (digits2_pos (Pos.iter xO p d)) = Z.pos (digits2_pos p) + Z.pos d.
Proof.
  induction d as [|d [IH1 IH2]] using Pos.peano_ind.
  - cbn [Pos.iter]. cbn [digits2_pos]. rewrite Pos2Z.inj_succ. lia.
  - rewrite Pos.iter_succ. cbn [digits2_pos]. rewrite !Pos2Z.inj_succ, Z.pow_succ_r by lia.
    rewrite (Pos2Z.inj_xO (Pos.iter xO p d)), IH1, IH2. lia.
Qed.

(** [shl_align] keeps the value and the magnitude. *)
Lemma shl_align_spec m e e' :
  let '(m', ez) := shl_align m e e' in
  ez = Z.min e e' /\ Z.pos m' = Z.pos m * 2 ^ (e - ez) /\
  Z.pos (digits2_pos m') + ez = Z.pos (digits2_pos m) + e.
Proof.
  unfold shl_align. destruct (e' - e) as [|d|d] eqn:E.
  - replace (Z.min e e') with e by lia. rewrite Z.sub_diag. lia.
  - replace (Z.min e e') with e by lia. rewrite Z.sub_diag. lia.
  - destruct (iter_xO_spec m d) as [-> ->]. replace (Z.min e e') with e' by lia.
    replace (e - e') with (Z.pos d) by lia. lia.
Qed.

Lemma binary_round_rounds m e K :
  0 <= Z.min e (-1074) + K ->
  exists N e', -1074 <= e' /\ rounds (Z.pos m * 2 ^ (e + K)) (1 * 2 ^ (e' + K)) N e' /\
    binary_round 53 1024 false m e = pack N e'.
Proof.
  intros HK. unfold binary_round.
  pose proof (shl_align_spec m e (fexp 53 1024 (Z.pos (digits2_pos m) + e))) as Hs.
  destruct (shl_align m e _) as [mz ez]. destruct Hs as (Hez & Hm & Hd).
  rewrite fexp_eq in Hez.
  assert (0 <= ez + K) by lia.
  destruct (bra_rounds (Z.pos mz) ez loc_Exact (2 ^ (ez + K)) (Z.pos m * 2 ^ (e + K)))
    as (N & D & HD & HR & ->); [lia|apply Z.pow_pos_nonneg; lia| | |].
  - cbn [Zdigits2]. rewrite Hd, fexp_eq. lia.
  - cbn [inb]. rewrite Hm, <- Z.mul_assoc, <- Z.pow_add_r by lia. f_equal. f_equal. lia.
  - exists N, (ez + D). split; [destruct HR as (? & ? & ? & ? & ?); lia|]. split; [|reflexivity].
    replace (1 * 2 ^ (ez + D + K)) with (2 ^ D * 2 ^ (ez + K)); [exact HR|].
    rewrite Z.mul_1_l, <- Z.pow_add_r by lia. f_equal. lia.
Qed.

(** The exact value behind an operation's result: [x] is the real [X]
    (in units of [B^-1 * 2^-K]) rounded to binary64. *)
Definition rounded (B K X : Z) (x : double) : Prop :=
  nnv x /\ exists N e, 0 <= e + K /\ rounds X (B * 2 ^ (e + K)) N e /\ dord x = dord (pack N e).

Lemma rounded_intro B K X N e : 0 < B -> 0 <= e + K -> rounds X (B * 2 ^ (e + K)) N e ->
  rounded B K X (pack N e).
Proof.
  intros HB HK R. split; [|eauto 6]. apply pack_nnv. eapply rounds_normal; [|exact R].
  assert (0 < 2 ^ (e + K)) by (apply Z.pow_pos_nonneg; lia). nia.
Qed.

Lemma rounded_mono B K X Y x y : 0 < B -> rounded B K X x -> rounded B K Y y -> X <= Y -> dleb x y = true.
Proof.
  intros HB [Hx (N1 & e1 & HK1 & R1 & E1)] [Hy (N2 & e2 & HK2 & R2 & E2)] HXY.
  rewrite dleb_dord by assumption. apply Z.leb_le. rewrite E1, E2. eapply rounds_mono; eauto.
Qed.

(** A canonical number rounds to itself. *)
Lemma rounded_self K x : 1074 <= K -> dfin x -> rounded 1 K (dord x * 2 ^ (K - 1074)) x.
Proof.
  intros HK Hx. split; [apply Hx|]. destruct (dfin_cases x Hx) as [[s ->]|(m & e & -> & Hv)].
  - exists 0, (-1074). split; [lia|]. split; [|reflexivity].
    exists 0, loc_Exact. cbn [inb dord]. repeat split; lia.
  - pose proof (valid_finite_bounds _ _ _ Hv) as (He & Hm & Hn).
    exists (Z.pos m), e. split; [lia|]. split.
    + exists (Z.pos m), loc_Exact. repeat split; try lia. cbn [inb dord].
      rewrite <- Z.mul_assoc, <- Z.pow_add_r, Z.mul_1_l by lia. f_equal. f_equal. lia.
    + assert (Hp : normal_pos (Z.pos m) e) by (unfold normal_pos; lia).
      destruct (pack_dord _ _ Hp) as [(O & _)|(_ & -> & _)]; [unfold overflows in O; lia|reflexivity].
Qed.

Lemma Z_to_double_rounded z : 0 <= z -> rounded 1 1074 (z * 2 ^ 1074) (Z_to_double z).
Proof.
  intros Hz. unfold Z_to_double, binary_normalize. destruct z as [|m|m]; [|clear Hz|lia].
  - apply (rounded_self 1074 (S754_zero false)); [lia|]. repeat split.
  - destruct (binary_round_rounds m 0 1074 ltac:(lia)) as (N & e & He & R & ->).
    apply rounded_intro; [lia|lia|exact R].
Qed.

Lemma dadd_finite_rounded m1 e1 m2 e2 :
  dvalid (S754_finite false m1 e1) = true -> dvalid (S754_finite false m2 e2) = true ->
  rounded 1 1074 (dord (S754_finite false m1 e1) + dord (S754_finite false m2 e2))
    (dadd (S754_finite false m1 e1) (S754_finite false m2 e2)).
Proof.
  intros H1%valid_finite_bounds H2%valid_finite_bounds. unfold dadd, SFadd.
  set (ez := Z.min e1 e2).
  pose proof (shl_align_spec m1 e1 ez) as S1. pose proof (shl_align_spec m2 e2 ez) as S2.
  destruct (shl_align m1 e1 ez) as [m1' ez1], (shl_align m2 e2 ez) as [m2' ez2]. cbn [fst cond_Zopp].
  destruct S1 as (-> & S1 & _), S2 as (-> & S2 & _).
  replace (Z.min e1 ez) with ez in S1 by lia. replace (Z.min e2 ez) with ez in S2 by lia.
  change (Z.pos m1' + Z.pos m2') with (Z.pos (m1' + m2')).
  cbn [binary_normalize].
  destruct (binary_round_rounds (m1' + m2') ez 1074 ltac:(lia)) as (N & e & He & R & ->).
  replace (dord (S754_finite false m1 e1) + dord (S754_finite false m2 e2))
    with (Z.pos (m1' + m2') * 2 ^ (ez + 1074)); [apply rounded_intro; [lia|lia|exact R]|].
  cbn [dord]. rewrite Pos2Z.inj_add, S1, S2, Z.mul_add_distr_r, <- !Z.mul_assoc, <- !Z.pow_add_r by lia.
  f_equal; f_equal; f_equal; lia.
Qed.

Lemma dadd_rounded x y : dfin x -> dfin y -> rounded 1 1074 (dord x + dord y) (dadd x y).
Proof.
  intros Hx Hy. pose proof (rounded_self 1074 x ltac:(lia) Hx) as Rx.
  pose proof (rounded_self 1074 y ltac:(lia) Hy) as Ry. rewrite Z.mul_1_r in Rx, Ry.
  destruct (dfin_cases x Hx) as [[sx ->]|(m1 & e1 & -> & H1)], (dfin_cases y Hy) as [[sy ->]|(m2 & e2 & -> & H2)].
  - pose proof (rounded_self 1074 (S754_zero false) ltac:(lia) ltac:(repeat split)).
    destruct sx, sy; assumption.
  - destruct sx; exact Ry.
  - destruct sy; cbn [dord] in *; rewrite Z.add_0_r; exact Rx.
  - apply dadd_finite_rounded; assumption.
Qed.

Lemma digits2_mul_ge p q : Z.pos (digits2_pos p) + Z.pos (digits2_pos q) - 1 <= Z.pos (digits2_pos (p * q)).
Proof.
  pose proof (digits2_pos_bound p). pose proof (digits2_pos_bound q).
  change (Z.pos (digits2_pos (p * q))) with (Zdigits2 (Z.pos p * Z.pos q)).
  enough (Z.pos (digits2_pos p) + Z.pos (digits2_pos q) - 2 + 1 <= Zdigits2 (Z.pos p * Z.pos q)) by lia.
  apply Zdigits2_ge; [lia|].
  replace (Z.pos (digits2_pos p) + Z.pos (digits2_pos q) - 2)
    with ((Z.pos (digits2_pos p) - 1) + (Z.pos (digits2_pos q) - 1)) by lia.
  rewrite Z.pow_add_r by lia. apply Z.mul_le_mono_nonneg; try lia; apply Z.pow_nonneg; lia.
Qed.

Lemma dmul_finite_rounded m1 e1 m2 e2 :
  dvalid (S754_finite false m1 e1) = true -> dvalid (S754_finite false m2 e2) = true ->
  rounded 1 2148 (dord (S754_finite false m1 e1) * dord (S754_finite false m2 e2))
    (dmul (S754_finite false m1 e1) (S754_finite false m2 e2)).
Proof.
  intros H1 H2. pose proof (valid_finite_bounds _ _ _ H1) as B1. pose proof (valid_finite_bounds _ _ _ H2) as B2.
  apply valid_finite in H1, H2. unfold dmul, SFmul. cbn [xorb].
  pose proof (digits2_mul_ge m1 m2).
  destruct (bra_rounds (Z.pos (m1 * m2)) (e1 + e2) loc_Exact (2 ^ (e1 + e2 + 2148))
    (dord (S754_finite false m1 e1) * dord (S754_finite false m2 e2)))
    as (N & D & HD & HR & ->); [lia|apply Z.pow_pos_nonneg; lia| | |].
  - cbn [Zdigits2]. rewrite fexp_eq. lia.
  - cbn [inb dord]. rewrite Pos2Z.inj_mul.
    replace (2 ^ (e1 + e2 + 2148)) with (2 ^ (e1 + 1074) * 2 ^ (e2 + 1074)); [ring|].
    rewrite <- Z.pow_add_r by lia. f_equal. lia.
  - apply rounded_intro; [lia|lia|].
    replace (1 * 2 ^ (e1 + e2 + D + 2148)) with (2 ^ D * 2 ^ (e1 + e2 + 2148)); [exact HR|].
    rewrite Z.mul_1_l, <- Z.pow_add_r by lia. f_equal. lia.
Qed.

Lemma dmul_rounded x y : dfin x -> dfin y -> rounded 1 2148 (dord x * dord y) (dmul x y).
Proof.
  intros Hx Hy.
  destruct (dfin_cases x Hx) as [[sx ->]|(m1 & e1 & -> & H1)], (dfin_cases y Hy) as [[sy ->]|(m2 & e2 & -> & H2)];
    [| | |apply dmul_finite_rounded; assumption];
    cbn [dmul SFmul xorb]; cbn [dord]; rewrite ?Z.mul_0_r, ?Z.mul_0_l;
    (apply (rounded_self 2148 (S754_zero _)); [lia|repeat split]).
Qed.

(** Division of positive finite numbers. *)
Lemma new_location_inb q b r U : 0 < U -> 0 <= r < b ->
  inb q (b * U) (new_location b r) ((q * b + r) * U).
Proof.
  intros HU Hr. unfold new_location, new_location_even, new_location_odd.
  destruct (Z.even b) eqn:E; destruct (Z.eqb_spec r 0) as [->|Hr0]; cbn [inb]; try lia.
  - split; [nia|]. destruct (Z.compare_spec (2 * r) b) as [H|H|H];
      rewrite ?Z.compare_eq_iff, ?Z.compare_lt_iff, ?Z.compare_gt_iff; nia.
  - split; [nia|]. destruct (Zeven.Zodd_ex b) as [k ->].
    { apply Zeven.Zodd_bool_iff. rewrite <- Z.negb_even, E. reflexivity. }
    destruct (Z.compare_spec (2 * r + 1) (2 * k + 1)) as [H|H|H];
      rewrite ?Z.compare_lt_iff, ?Z.compare_gt_iff; nia.
Qed.

Lemma ddiv_finite_rounded m1 e1 m2 e2 :
  dvalid (S754_finite false m1 e1) = true -> dvalid (S754_finite false m2 e2) = true ->
  rounded (Z.pos m2) 2148 (Z.pos m1 * 2 ^ (e1 - e2 + 2148))
    (ddiv (S754_finite false m1 e1) (S754_finite false m2 e2)).
Proof.
  intros H1 H2. pose proof (valid_finite_bounds _ _ _ H1) as B1. pose proof (valid_finite_bounds _ _ _ H2) as B2.
  unfold ddiv, SFdiv, SFdiv_core_binary. cbn [Zdigits2 xorb].
  set (d1 := Z.pos (digits2_pos m1)). set (d2 := Z.pos (digits2_pos m2)).
  set (e' := Z.min (fexp 53 1024 (d1 + e1 - (d2 + e2))) (e1 - e2)).
  assert (He' : -2148 <= e' <= e1 - e2) by (unfold e'; rewrite fexp_eq; lia).
  set (s := e1 - e2 - e').
  replace (match s with 0 => Z.pos m1 | Z.pos _ => Z.shiftl (Z.pos m1) s | Z.neg _ => 0 end)
    with (Z.pos m1 * 2 ^ s).
  2:{ destruct s eqn:Es; [lia|rewrite Z.shiftl_mul_pow2 by lia; reflexivity|lia]. }
  pose proof (Z_div_mod (Z.pos m1 * 2 ^ s) (Z.pos m2) ltac:(lia)) as Hqr.
  destruct (Z.div_eucl (Z.pos m1 * 2 ^ s) (Z.pos m2)) as [q r]. destruct Hqr as [Hqr Hr].
  assert (Hs : 0 < 2 ^ s) by (apply Z.pow_pos_nonneg; unfold s; lia).
  assert (HU : 0 < 2 ^ (e' + 2148)) by (apply Z.pow_pos_nonneg; lia).
  assert (Hq : 0 <= q) by nia.
  destruct (bra_rounds q e' (new_location (Z.pos m2) r) (Z.pos m2 * 2 ^ (e' + 2148))
    ((q * Z.pos m2 + r) * 2 ^ (e' + 2148))) as (N & D & HD & HR & ->); [lia|nia| | |].
  - destruct (Z_le_gt_dec e' (-1074)) as [Hle|Hgt]; [rewrite fexp_eq; lia|].
    assert (He2 : e' <= d1 + e1 - (d2 + e2) - 53) by (unfold e' in *; rewrite fexp_eq in *; lia).
    enough (53 <= Zdigits2 q) by (rewrite fexp_eq; lia).
    assert (Hb : 2 ^ 52 <= q); [|pose proof (Zdigits2_ge q 52 ltac:(lia) Hb); lia].
    destruct (Z_lt_le_dec q (2 ^ 52)) as [Hlt|]; [exfalso|lia].
    pose proof (digits2_pos_bound m1) as D1. pose proof (digits2_pos_bound m2) as D2.
    fold d1 in D1. fold d2 in D2.
    assert (Z.pos m1 * 2 ^ s < 2 ^ 52 * Z.pos m2) by nia.
    assert (2 ^ 52 * Z.pos m2 < 2 ^ (d2 + 52)) by (rewrite Z.pow_add_r by lia; nia).
    assert (2 ^ (d1 - 1 + s) <= Z.pos m1 * 2 ^ s) by (rewrite Z.pow_add_r by (unfold s; lia); nia).
    assert (2 ^ (d2 + 52) <= 2 ^ (d1 - 1 + s)) by (apply Z.pow_le_mono_r; unfold s; lia).
    lia.
  - apply new_location_inb; lia.
  - apply rounded_intro; [lia|lia|].
    replace (Z.pos m2 * 2 ^ (e' + D + 2148)) with (2 ^ D * (Z.pos m2 * 2 ^ (e' + 2148))).
    2:{ replace (e' + D + 2148) with (D + (e' + 2148)) by lia. rewrite (Z.pow_add_r 2 D) by lia. ring. }
    replace (Z.pos m1 * 2 ^ (e1 - e2 + 2148)) with ((q * Z.pos m2 + r) * 2 ^ (e' + 2148)); [exact HR|].
    rewrite (Z.mul_comm q), <- Hqr, <- Z.mul_assoc, <- Z.pow_add_r by (unfold s; lia).
    f_equal. f_equal. unfold s. lia.
Qed.

(** ** Laws used by the components *)

Definition done : double := Z_to_double 1.

(** A valid float in [[0, 1]]. *)
Definition unit_interval (x : double) : Prop := nnv x /\ dleb x done = true.

Lemma nnv_done : nnv done. Proof. split; reflexivity. Qed.
Lemma dfin_done : dfin done. Proof. repeat split. Qed.
Lemma dord_done : dord done = 2 ^ 1074. Proof. vm_compute. reflexivity. Qed.

Lemma dord_inf_iff x : nnv x -> dord x < 2 ^ 2200 <-> isfinite x = true.
Proof.
  intros [Hv Hn]. destruct x as [s|s| |s m e]; try discriminate; cbn [isfinite].
  - pose proof pow_2200_pos. cbn [dord]. split; [reflexivity|lia].
  - cbn [dord]. split; [lia|discriminate].
  - split; [reflexivity|]. intros _. exact (dord_finite_inf _ _ _ Hv).
Qed.

Lemma dleb_finite x y : nnv x -> dfin y -> dleb x y = true -> dfin x.
Proof.
  intros Hx [Hy Hf] H. split; [exact Hx|]. apply dord_inf_iff; [exact Hx|].
  apply dord_inf_iff in Hf; [|exact Hy]. rewrite dleb_dord in H by assumption.
  apply Z.leb_le in H. lia.
Qed.

Lemma unit_dfin x : unit_interval x -> dfin x.
Proof. intros [Hx H]. exact (dleb_finite x done Hx dfin_done H). Qed.

Lemma rounded_dord_le B K X Y x y : 0 < B -> rounded B K X x -> rounded B K Y y -> X <= Y -> dord x <= dord y.
Proof.
  intros HB Hx Hy HXY. pose proof (rounded_mono B K X Y x y HB Hx Hy HXY) as H.
  rewrite dleb_dord in H by (apply Hx || apply Hy). apply Z.leb_le. exact H.
Qed.

Lemma dord_nonneg x : nnv x -> 0 <= dord x.
Proof.
  intros [Hv Hn]. destruct x as [| | |s m e]; cbn [dord]; [lia|lia|lia|].
  apply Z.mul_nonneg_nonneg; [lia|]. apply Z.pow_nonneg. lia.
Qed.

Lemma dleb_le x y : nnv x -> nnv y -> dleb x y = true <-> dord x <= dord y.
Proof. intros. rewrite dleb_dord by assumption. apply Z.leb_le. Qed.

Lemma dadd_mono x x' y y' : dfin x -> dfin x' -> dfin y -> dfin y' ->
  dleb x x' = true -> dleb y y' = true -> dleb (dadd x y) (dadd x' y') = true.
Proof.
  intros Hx Hx' Hy Hy' H1 H2. apply dleb_le in H1; [|apply Hx|apply Hx']. apply dleb_le in H2; [|apply Hy|apply Hy'].
  eapply rounded_mono; [|apply dadd_rounded; assumption|apply dadd_rounded; assumption|]; lia.
Qed.

Lemma dmul_mono x x' y y' : dfin x -> dfin x' -> dfin y -> dfin y' ->
  dleb x x' = true -> dleb y y' = true -> dleb (dmul x y) (dmul x' y') = true.
Proof.
  intros Hx Hx' Hy Hy' H1 H2. apply dleb_le in H1; [|apply Hx|apply Hx']. apply dleb_le in H2; [|apply Hy|apply Hy'].
  eapply rounded_mono; [|apply dmul_rounded; assumption|apply dmul_rounded; assumption|]; [lia|].
  apply Z.mul_le_mono_nonneg; [apply dord_nonneg, Hx|exact H1|apply dord_nonneg, Hy|exact H2].
Qed.

Lemma dadd_nnv x y : nnv x -> nnv y -> nnv (dadd x y).
Proof.
  intros Hx Hy. destruct (isfinite x) eqn:Ex, (isfinite y) eqn:Ey.
  - apply (dadd_rounded x y); split; assumption.
  - destruct Hy as [Hv Hn], y as [|[]| |]; try discriminate. destruct x; try discriminate; split; reflexivity.
  - destruct Hx as [Hv Hn], x as [|[]| |]; try discriminate. destruct y; try discriminate; split; reflexivity.
  - destruct Hx as [Hv Hn], x as [|[]| |]; try discriminate.
    destruct Hy as [Hv' Hn'], y as [|[]| |]; try discriminate. split; reflexivity.
Qed.

Lemma dmul_nnv x y : dfin x -> dfin y -> nnv (dmul x y).
Proof. intros. apply dmul_rounded; assumption. Qed.

Lemma dmul_unit x y : unit_interval x -> unit_interval y -> unit_interval (dmul x y).
Proof.
  intros Hx Hy. pose proof (unit_dfin x Hx). pose proof (unit_dfin y Hy). split; [apply dmul_nnv; assumption|].
  change done with (dmul done done). apply dmul_mono; try apply dfin_done; try assumption; [apply Hx|apply Hy].
Qed.

Lemma Z_to_double_nnv z : 0 <= z -> nnv (Z_to_double z).
Proof. intros H. apply (Z_to_double_rounded z H). Qed.

Lemma Z_to_double_mono a b : 0 <= a <= b -> dleb (Z_to_double a) (Z_to_double b) = true.
Proof.
  intros. eapply rounded_mono; [|apply Z_to_double_rounded; lia|apply Z_to_double_rounded; lia|]; [lia|].
  apply Z.mul_le_mono_nonneg_r; [|lia]. apply Z.pow_nonneg. lia.
Qed.

(** Any integer up to 2^64 converts to a finite double. *)
Lemma Z_to_double_fin z : 0 <= z <= 2 ^ 64 -> dfin (Z_to_double z).
Proof.
  intros H. apply (dleb_finite _ (Z_to_double (2 ^ 64))).
  - apply Z_to_double_nnv. lia.
  - repeat split.
  - apply Z_to_double_mono. lia.
Qed.

Lemma Z_to_double_pos z : 0 < z -> 0 < dord (Z_to_double z).
Proof.
  intros H. pose proof (Z_to_double_mono 1 z ltac:(lia)) as Hm.
  apply dleb_le in Hm; [|apply Z_to_double_nnv; lia|apply Z_to_double_nnv; lia].
  fold done in Hm. rewrite dord_done in Hm. assert (0 < 2 ^ 1074) by (apply Z.pow_pos_nonneg; lia). lia.
Qed.

Lemma dfin_pos_cases x : dfin x -> 0 < dord x -> exists m e, x = S754_finite false m e /\ dvalid x = true.
Proof. intros Hx Hp. destruct (dfin_cases x Hx) as [[s ->]|H]; [cbn [dord] in Hp; lia|exact H]. Qed.

(** A quotient of non-negative floats by a positive finite one. *)
Lemma ddiv_nnv x y : nnv x -> dfin y -> 0 < dord y -> nnv (ddiv x y).
Proof.
  intros Hx Hy Hp. destruct (dfin_pos_cases y Hy Hp) as (m & e & -> & Hv).
  destruct (isfinite x) eqn:E.
  - destruct (dfin_cases x (conj Hx E)) as [[s ->]|(m1 & e1 & -> & Hv1)].
    + split; reflexivity.
    + apply (ddiv_finite_rounded m1 e1 m e Hv1 Hv).
  - destruct Hx as [Hv1 Hn], x as [|[]| |]; try discriminate. split; reflexivity.
Qed.

Lemma rounded_zero B K x : 0 < B -> 1074 <= K -> nnv x -> dord x = 0 -> rounded B K 0 x.
Proof.
  intros HB HK Hx H0. split; [exact Hx|]. exists 0, (-1074). split; [lia|]. split; [|exact H0].
  exists 0, loc_Exact. repeat split; cbn [inb]; lia.
Qed.

Lemma ddiv_mono_l x x' y : dfin x -> dfin x' -> dfin y -> 0 < dord y ->
  dleb x x' = true -> dleb (ddiv x y) (ddiv x' y) = true.
Proof.
  intros Hx Hx' Hy Hp H. apply dleb_le in H; [|apply Hx|apply Hx'].
  pose proof (ddiv_nnv x y (proj1 Hx) Hy Hp) as N1. pose proof (ddiv_nnv x' y (proj1 Hx') Hy Hp) as N2.
  destruct (dfin_pos_cases y Hy Hp) as (m & e & -> & Hv).
  pose proof (valid_finite_bounds _ _ _ Hv) as B.
  destruct (dfin_cases x Hx) as [[s ->]|(m1 & e1 & -> & Hv1)].
  { apply dleb_le; [exact N1|exact N2|]. cbn [ddiv SFdiv dord xorb]. apply dord_nonneg. exact N2. }
  pose proof (valid_finite_bounds _ _ _ Hv1) as B1.
  destruct (dfin_cases x' Hx') as [[s ->]|(m2 & e2 & -> & Hv2)].
  { pose proof (dord_finite_pos false m1 e1 ltac:(lia)). cbn [dord] in *. lia. }
  pose proof (valid_finite_bounds _ _ _ Hv2) as B2.
  eapply rounded_mono; [|apply ddiv_finite_rounded; assumption|apply ddiv_finite_rounded; assumption|]; [lia|].
  cbn [dord] in H.
  replace (e1 - e + 2148) with ((e1 + 1074) + (1074 - e)) by lia.
  replace (e2 - e + 2148) with ((e2 + 1074) + (1074 - e)) by lia.
  rewrite !(Z.pow_add_r 2 _ (1074 - e)), !Z.mul_assoc by lia.
  apply Z.mul_le_mono_nonneg_r; [|exact H]. apply Z.pow_nonneg. lia.
Qed.

Lemma ddiv_le_one x y : dfin x -> dfin y -> 0 < dord y -> dleb x y = true -> unit_interval (ddiv x y).
Proof.
  intros Hx Hy Hp H. pose proof (ddiv_nnv x y (proj1 Hx) Hy Hp) as N1. split; [exact N1|].
  apply dleb_le in H; [|apply Hx|apply Hy].
  destruct (dfin_pos_cases y Hy Hp) as (m & e & -> & Hv). pose proof (valid_finite_bounds _ _ _ Hv) as B.
  destruct (dfin_cases x Hx) as [[s ->]|(m1 & e1 & -> & Hv1)]; [reflexivity|].
  pose proof (valid_finite_bounds _ _ _ Hv1) as B1.
  apply rounded_mono with (B := Z.pos m) (K := 2148) (X := Z.pos m1 * 2 ^ (e1 - e + 2148)) (Y := Z.pos m * 2 ^ 2148).
  - lia.
  - apply ddiv_finite_rounded; assumption.
  - split; [apply nnv_done|]. exists (2 ^ 52), (-52). split; [lia|]. split; [|reflexivity].
    exists (2 ^ 52), loc_Exact. repeat split; try lia. cbn [inb].
    replace 2148 with (52 + (-52 + 2148)) at 1 by lia. rewrite (Z.pow_add_r 2 52) by lia. ring.
  - cbn [dord] in H.
    replace (e1 - e + 2148) with ((e1 + 1074) + (1074 - e)) by lia.
    replace (2 ^ 2148) with (2 ^ ((e + 1074) + (1074 - e))) by (f_equal; lia).
    rewrite !(Z.pow_add_r 2 _ (1074 - e)), !Z.mul_assoc by lia.
    apply Z.mul_le_mono_nonneg_r; [|exact H]. apply Z.pow_nonneg. lia.
Qed.

(** [(double)a / (double)b] of counters with [a <= b] is a fraction. *)
Lemma ratio_unit a b : 0 <= a <= b -> 0 < b <= 2 ^ 64 -> unit_interval (ddiv (Z_to_double a) (Z_to_double b)).
Proof.
  intros Ha Hb. apply ddiv_le_one.
  - apply Z_to_double_fin; lia.
  - apply Z_to_double_fin; lia.
  - apply Z_to_double_pos; lia.
  - apply Z_to_double_mono; lia.
Qed.

(** ** Comparisons of the code *)
Definition dgeb (x y : double) : bool := dleb y x.
Definition dgtb (x y : double) : bool := dltb y x.
Definition dzero : double := S754_zero false.

Lemma nnv_not_neg x : nnv x -> dltb x dzero = false.
Proof. intros [Hv Hn]. destruct x as [|[]| |[]]; try discriminate; reflexivity. Qed.

(** On non-negative floats the two orders are complementary. *)
Lemma dltb_dleb x y : nnv x -> nnv y -> dltb x y = negb (dleb y x).
Proof.
  intros [Hvx Hx] [Hvy Hy]. unfold dltb, dleb, SFltb, SFleb.
  destruct x as [sx|sx| |sx mx ex], y as [sy|sy| |sy my ey]; try discriminate; try (destruct sx; try discriminate);
    try (destruct sy; try discriminate); try reflexivity.
  cbn [SFcompare]. rewrite (Z.compare_antisym ex ey). destruct (ex ?= ey)%Z; cbn [CompOpp]; try reflexivity.
  rewrite !Pos.compare_cont_spec, (Pos.compare_antisym mx my). by destruct (mx ?= my)%positive.
Qed.
