(* ===== verification/CString.v ===== *)
(** * C strings, [printf] conversions and read streams

    The part of the C library the daemon calls on text: NUL-terminated strings
    ([strlen], [strcmp], [strncmp], [strchr]), the conversions of [snprintf] the
    sources use ([%s], [%ld], [%llu], [%zu], [%x], [%.4f] and their paddings) and
    streams opened for reading ([fgets], [fread], [ferror]).  A [char] array is
    the [string] of its bytes up to the first NUL; a byte of a string may itself
    be NUL when it comes from a file, and [c_str] is what a C function sees. *)
From S2P Require Import Prelude Float64.
From Stdlib Require Import Ascii String.
From Stdlib Require Import DecimalString DecimalZ DecimalPos.
Local Open Scope Z_scope.

Definition NUL : ascii := Ascii.zero.
Definition newline : ascii := ascii_of_nat 10.
Definition carriage_return : ascii := ascii_of_nat 13.

(** The C string at the start of a buffer. *)
Fixpoint c_str (s : string) : string :=
  match s with
  | EmptyString => EmptyString
  | String c s' => if Ascii.eqb c NUL then EmptyString else String c (c_str s')
  end.

Fixpoint str_take (n : nat) (s : string) : string :=
  match n, s with
  | S n', String c s' => String c (str_take n' s')
  | _, _ => EmptyString
  end.

Fixpoint str_drop (n : nat) (s : string) : string :=
  match n, s with
  | S n', String _ s' => str_drop n' s'
  | _, _ => s
  end.

(** [s[n]]; past the stored bytes the array is NUL. *)
Fixpoint char_at (s : string) (n : nat) : ascii :=
  match s, n with
  | EmptyString, _ => NUL
  | String c _, O => c
  | String _ s', S n' => char_at s' n'
  end.

Definition strlen (s : string) : Z := Z.of_nat (String.length s).

(** [strcmp(a, b) == 0] and [strncmp(a, b, n) == 0]. *)
Definition str_eq (a b : string) : bool := String.eqb (c_str a) (c_str b).
Definition strn_eq (a b : string) (n : nat) : bool :=
  String.eqb (str_take n (c_str a)) (str_take n (c_str b)).

(** [strchr(s, c) != NULL]. *)
Fixpoint str_has (s : string) (c : ascii) : bool :=
  match s with
  | EmptyString => false
  | String d s' => Ascii.eqb d c || str_has s' c
  end.

(** The prefix before, and the suffix after, the first [c]. *)
Fixpoint str_before (s : string) (c : ascii) : string :=
  match s with
  | EmptyString => EmptyString
  | String d s' => if Ascii.eqb d c then EmptyString else String d (str_before s' c)
  end.

(** [strcspn(s, reject)]: bytes before the first one in [reject]. *)
Fixpoint strcspn (s reject : string) : nat :=
  match s with
  | EmptyString => O
  | String d s' => if str_has reject d then O else S (strcspn s' reject)
  end.

(** [isspace] in the C locale. *)
Definition isspace (c : ascii) : bool :=
  let n := nat_of_ascii c in ((n =? 32) || ((9 <=? n) && (n <=? 13)))%nat.

Definition isdigit (c : ascii) : bool :=
  let n := nat_of_ascii c in ((48 <=? n) && (n <=? 57))%nat.

(** [snprintf(dst, size, ...)] of a formatted text leaves this in [dst]
    ([size > 0]) and returns the length of the text. *)
Definition snprintf (size : Z) (text : string) : string := str_take (Z.to_nat (size - 1)) text.

(** ** Conversions *)

(** [%ld], [%llu], [%zu], [%d], [%u] *)
Definition dec (z : Z) : string := NilZero.string_of_int (Z.to_int z).

(** The inverse, on a complete numeral. *)
Definition undec (s : string) : option Z := option_map Z.of_int (NilZero.int_of_string s).

Lemma undec_dec z : undec (dec z) = Some z.
Proof.
  unfold undec, dec. rewrite NilZero.isi.
  - cbn. f_equal. apply DecimalZ.of_to.
  - destruct z as [|p|p]; cbn; try discriminate. intros [= E]. exact (DecimalPos.Unsigned.to_uint_nonnil p E).
  - destruct z as [|p|p]; cbn; try discriminate. intros [= E]. exact (DecimalPos.Unsigned.to_uint_nonnil p E).
Qed.

Definition hex_digit (z : Z) : ascii :=
  ascii_of_nat (Z.to_nat (if z <? 10 then 48 + z else 87 + z)).

Fixpoint hex_go (fuel : nat) (n : Z) (acc : string) : string :=
  match fuel with
  | O => acc
  | S fuel' =>
      let acc' := String (hex_digit (n mod 16)) acc in
      if n <? 16 then acc' else hex_go fuel' (n / 16) acc'
  end.

(** [%x] of a 64-bit value (at most 16 digits). *)
Definition hex (n : Z) : string := hex_go 16 n EmptyString.

Fixpoint str_repeat (c : ascii) (n : nat) : string :=
  match n with O => EmptyString | S n' => String c (str_repeat c n') end.

(** Pad on the left to a width ([%12...] with spaces, [%010...] with zeros). *)
Definition pad_left (c : ascii) (w : nat) (s : string) : string :=
  str_repeat c (w - String.length s) +:+ s.

(** [%.<p>f] of a double: the exact value rounded half-to-even at [p] decimals. *)
Definition div_half_even (a b : Z) : Z :=
  let q := a / b in
  let r := a mod b in
  match Z.compare (2 * r) b with
  | Lt => q
  | Gt => q + 1
  | Eq => if Z.even q then q else q + 1
  end.

Definition fixed_digits (p : nat) (n : Z) : string :=
  let t := 10 ^ Z.of_nat p in
  dec (n / t) +:+ (if (p =? 0)%nat then EmptyString
                   else String "."%char (pad_left "0"%char p (dec (n mod t)))).

Definition fmt_f (p : nat) (x : double) : string :=
  match x with
  | S754_nan => "nan"
  | S754_infinity s => if s then "-inf" else "inf"
  | S754_zero s => (if s then "-" else "") +:+ fixed_digits p 0
  | S754_finite s m e =>
      let scaled := Z.pos m * 10 ^ Z.of_nat p in
      (if s then "-" else "") +:+
      fixed_digits p (if 0 <=? e then scaled * 2 ^ e else div_half_even scaled (2 ^ (- e)))%Z
  end%string.

Definition fmt_bool (b : bool) : string := (if b then "true" else "false")%string.

Example fmt_f_1 : fmt_f 4 (dlit 3 10) = "0.3000"%string. Proof. vm_compute. reflexivity. Qed.
Example fmt_f_2 : fmt_f 2 (dlit 1005 1000) = "1.00"%string. Proof. vm_compute. reflexivity. Qed.
Example hex_1 : hex 43981 = "abcd"%string. Proof. vm_compute. reflexivity. Qed.

(** [switch (rc) { case k: return s; ... default: return d; }] *)
Fixpoint switch (rc : Z) (cases : list (Z * string)) (default : string) : string :=
  match cases with
  | [] => default
  | (k, s) :: rest => if rc =? k then s else switch rc rest default
  end.

(** ** Read streams *)

(** What remains to be read, and whether the read after it fails. *)
Record stream := mk_stream { st_data : string; st_fail : bool }.

(** Split off a line: at most [n] bytes, up to and including a newline. *)
Fixpoint take_line (n : nat) (s : string) : string * string :=
  match n, s with
  | S n', String c s' =>
      if Ascii.eqb c newline then (String c EmptyString, s')
      else let '(l, r) := take_line n' s' in (String c l, r)
  | _, _ => (EmptyString, s)
  end.

Definition ends_line (s : string) : bool :=
  match String.length s with
  | O => false
  | S n => Ascii.eqb (char_at s n) newline
  end.

(** [fgets(buf, size, f)]: [None] is NULL (end of file or read error).  A read
    error before the line is complete also yields NULL. *)
Definition fgets (size : Z) (st : stream) : option string * stream :=
  let '(l, r) := take_line (Z.to_nat (size - 1)) (st_data st) in
  match l with
  | EmptyString => (None, mk_stream r (st_fail st))
  | _ => if (strlen r =? 0) && st_fail st && negb (ends_line l) && (strlen l <? size - 1)
         then (None, mk_stream EmptyString true)
         else (Some l, mk_stream r (st_fail st))
  end.

(** [ferror] after [fgets] returned NULL. *)
Definition ferror (st : stream) : bool := (strlen (st_data st) =? 0) && st_fail st.

(** [fread(buf, 1, size, f)]: the bytes read. *)
Definition fread (size : Z) (st : stream) : string := str_take (Z.to_nat size) (st_data st).

Lemma str_take_all n s : (String.length s <= n)%nat -> str_take n s = s.
Proof.
  revert n; induction s as [|c s IH]; intros [|n] H; cbn in *; try reflexivity; [lia|].
  f_equal. apply IH. lia.
Qed.

Lemma length_str_take n s : String.length (str_take n s) = Nat.min n (String.length s).
Proof. revert s; induction n as [|n IH]; intros [|c s]; cbn; try reflexivity. f_equal. apply IH. Qed.

Lemma snprintf_fits size text : strlen text < size -> snprintf size text = text.
Proof. unfold strlen, snprintf. intros. apply str_take_all. lia. Qed.

Lemma strlen_nonneg s : 0 <= strlen s.
Proof. unfold strlen. lia. Qed.

Lemma strlen_snprintf size text : 0 < size -> strlen (snprintf size text) = Z.min (size - 1) (strlen text).
Proof. intros. unfold strlen, snprintf. rewrite length_str_take. lia. Qed.

Lemma take_line_app n s : (take_line n s).1 +:+ (take_line n s).2 = s.
Proof.
  revert s; induction n as [|n IH]; intros [|c s]; cbn [take_line]; try reflexivity.
  destruct (Ascii.eqb c newline); [reflexivity|].
  specialize (IH s). destruct (take_line n s) as [l r]. cbn [fst snd] in *. rewrite <- IH. reflexivity.
Qed.

Lemma strlen_app a b : strlen (a +:+ b) = strlen a + strlen b.
Proof.
  unfold strlen. induction a as [|c a IH]; [reflexivity|].
  change (String c a +:+ b) with (String c (a +:+ b)). cbn [String.length]. lia.
Qed.

(** Every line read shortens what is left: a loop over [fgets] ends. *)
Lemma fgets_shorter size st l st' :
  fgets size st = (Some l, st') -> (String.length (st_data st') < String.length (st_data st))%nat.
Proof.
  unfold fgets. pose proof (take_line_app (Z.to_nat (size - 1)) (st_data st)) as Ha.
  destruct (take_line _ _) as [l0 r]. cbn [fst snd] in Ha.
  assert (Hl := strlen_app l0 r). rewrite Ha in Hl. unfold strlen in Hl.
  destruct l0 as [|c l0]; [discriminate|]. intros H. case_match; simplify_eq. cbn in *. lia.
Qed.

Lemma str_app_nil_r s : s +:+ EmptyString = s.
Proof. induction s as [|c s IH]; [reflexivity|]. exact (f_equal (String c) IH). Qed.

(** ** Texts as lists of lines *)

(** The lines of a text, without their newlines. *)
Fixpoint lines (s : string) : list string :=
  match s with
  | EmptyString => []
  | String c s' =>
      if Ascii.eqb c newline then EmptyString :: lines s'
      else match lines s' with
           | [] => [String c EmptyString]
           | l :: ls => String c l :: ls
           end
  end.

(** [take_line] on a text whose first line fits. *)
Lemma take_line_lines n s : s <> EmptyString ->
  (forall l, head (lines s) = Some l -> (String.length l < n)%nat) ->
  exists l ls, lines s = l :: ls /\
    ((take_line n s = (l +:+ String newline EmptyString, (take_line n s).2) /\ lines (take_line n s).2 = ls) \/
     (take_line n s = (l, EmptyString) /\ ls = [])).
Proof.
  revert s. induction n as [|n IH]; intros s Hs Hl.
  { exfalso. destruct s as [|c s]; [done|]. cbn [lines] in Hl. destruct (Ascii.eqb c newline); [specialize (Hl _ eq_refl); lia|].
    destruct (lines s); specialize (Hl _ eq_refl); lia. }
  destruct s as [|c s]; [done|]. cbn [lines take_line] in *. destruct (Ascii.eqb_spec c newline) as [->|Hne].
  { exists EmptyString, (lines s). split; [done|]. left. split; done. }
  destruct s as [|d s].
  { cbn [lines]. exists (String c EmptyString), []. split; [done|]. right. by destruct n. }
  destruct (IH (String d s)) as (l & ls & Heq & Hcase); [done| |].
  { intros l Hh. destruct (lines (String d s)) as [|x xs]; [done|]. cbn in Hh. injection Hh as ->.
    specialize (Hl _ eq_refl). cbn in Hl. lia. }
  rewrite Heq in *. exists (String c l), ls. split; [done|].
  destruct (take_line n (String d s)) as [a r]. cbn [fst snd] in *.
  destruct Hcase as [[Ha Hr]|[Ha Hr]]; injection Ha as ->; [left|right; subst; done]. split; [done|exact Hr].
Qed.

Definition crlf : string := String carriage_return (String newline EmptyString).

Lemma c_str_app_newline l : c_str (l +:+ String newline EmptyString) = c_str l +:+ (if str_has l NUL then EmptyString else String newline EmptyString).
Proof.
  induction l as [|c l IH]; [done|]. change (String c l +:+ String newline EmptyString) with (String c (l +:+ String newline EmptyString)).
  cbn [c_str str_has]. destruct (Ascii.eqb c NUL) eqn:E; [done|]. cbn [orb]. rewrite IH. done.
Qed.

Lemma cut_newline s x : str_take (strcspn (s +:+ String newline x) crlf) (s +:+ String newline x) = str_take (strcspn s crlf) s.
Proof.
  induction s as [|c s IH]; [done|]. change (String c s +:+ String newline x) with (String c (s +:+ String newline x)).
  cbn [strcspn]. destruct (str_has crlf c); [done|]. cbn [str_take]. by rewrite IH.
Qed.

(** [fgets] on an intact stream whose lines fit the buffer: the next line, with
    its newline unless it is the last. *)
Lemma fgets_lines size s : s <> EmptyString -> Forall (fun l => strlen l < size - 1) (lines s) ->
  exists l ls x r, lines s = l :: ls /\ fgets size (mk_stream s false) = (Some x, mk_stream r false) /\
    lines r = ls /\ (x = l \/ x = l +:+ String newline EmptyString).
Proof.
  intros Hs Hall. destruct (take_line_lines (Z.to_nat (size - 1)) s Hs) as (l & ls & Heq & Hcase).
  { intros l Hl. destruct (lines s) as [|y ys]; [done|]. injection Hl as ->. apply Forall_cons in Hall as [Hl _].
    unfold strlen in Hl. lia. }
  exists l, ls. unfold fgets. cbn [st_data st_fail].
  destruct (take_line (Z.to_nat (size - 1)) s) as [a r] eqn:Ht. cbn [snd] in Hcase. destruct Hcase as [[Ha Hr]|[Ha Hls]]; injection Ha as ->.
  - exists (l +:+ String newline EmptyString), r. split; [done|]. rewrite andb_false_r. cbn [andb].
    split; [destruct l; reflexivity|]. split; [done|]. by right.
  - subst r ls. exists l, EmptyString. split; [done|]. split; [|split; [done|by left]]. rewrite andb_false_r. cbn [andb].
    destruct l as [|c l]; [|done]. exfalso. pose proof (take_line_app (Z.to_nat (size - 1)) s) as Happ. rewrite Ht in Happ. cbn in Happ. by subst.
Qed.

(** ** Lengths of numerals *)

Lemma nb_digits_double u : (Decimal.nb_digits (Decimal.Little.double u) <= S (Decimal.nb_digits u))%nat /\ (Decimal.nb_digits (Decimal.Little.succ_double u) <= S (Decimal.nb_digits u))%nat.
Proof. induction u; cbn; lia. Qed.

Lemma nb_digits_to_little p : (Decimal.nb_digits (Pos.to_little_uint p) <= Pos.size_nat p)%nat.
Proof.
  induction p as [p IH|p IH|]; cbn [Pos.to_little_uint Pos.size_nat]; [| |cbn; lia];
    pose proof (nb_digits_double (Pos.to_little_uint p)); lia.
Qed.

Lemma length_string_of_uint u : String.length (NilEmpty.string_of_uint u) = Decimal.nb_digits u.
Proof. induction u; cbn; congruence. Qed.

Lemma length_string_of_uint0 u : (String.length (NilZero.string_of_uint u) <= S (pred (Decimal.nb_digits u)))%nat.
Proof. unfold NilZero.string_of_uint. destruct u; rewrite ?length_string_of_uint; cbn; lia. Qed.

Lemma size_nat_bound p (k : nat) : Z.pos p < 2 ^ Z.of_nat k -> (Pos.size_nat p <= k)%nat.
Proof.
  revert p. induction k as [|k IH]; intros p Hp; [cbn in Hp; lia|].
  rewrite Nat2Z.inj_succ, Z.pow_succ_r in Hp by lia.
  destruct p as [p|p|]; cbn [Pos.size_nat]; [| |lia]; specialize (IH p); lia.
Qed.

(** A numeral has at most as many digits as its value has bits. *)
Lemma strlen_dec z (k : nat) : (0 < k)%nat -> 0 <= z < 2 ^ Z.of_nat k -> strlen (dec z) <= Z.of_nat k.
Proof.
  intros Hk Hz. unfold strlen, dec. destruct z as [|p|p]; [cbn; lia| |lia]. cbn [Z.to_int NilZero.string_of_int].
  pose proof (length_string_of_uint0 (Pos.to_uint p)) as H1. unfold Pos.to_uint in *. rewrite DecimalFacts.nb_digits_rev in H1.
  pose proof (nb_digits_to_little p). pose proof (size_nat_bound p k ltac:(lia)). lia.
Qed.

(** A process id: a positive [pid_t]. *)
Definition proper_pid (p : Z) : Prop := 0 < p < 2 ^ 31.

Definition proc_path (p : Z) (file : string) : string := "/proc/" +:+ dec p +:+ file.

(** Such a path fits the 64-byte buffers of the sources. *)
Lemma proc_path_fits p file : proper_pid p -> strlen file <= 26 -> strlen (proc_path p file) < 64.
Proof.
  intros Hp Hf. unfold proc_path. rewrite !strlen_app. pose proof (strlen_dec p 31 ltac:(lia) ltac:(unfold proper_pid in *; cbn; lia)).
  change (strlen "/proc/") with 6. lia.
Qed.

(** ** Concatenation *)

Lemma str_drop_app a b : str_drop (String.length a) (a +:+ b) = b.
Proof. induction a as [|c a IH]; [destruct b; reflexivity|exact IH]. Qed.

Lemma str_take_app a b : str_take (String.length a) (a +:+ b) = a.
Proof.
  induction a as [|c a IH]; [destruct b; reflexivity|].
  change (String c a +:+ b) with (String c (a +:+ b)). cbn [String.length str_take]. f_equal. exact IH.
Qed.

Lemma length_app_str a b : String.length (a +:+ b) = (String.length a + String.length b)%nat.
Proof. pose proof (strlen_app a b). unfold strlen in *. lia. Qed.

Lemma char_at_app a b : char_at (a +:+ b) (String.length a) = char_at b 0.
Proof. induction a as [|c a IH]; [destruct b; reflexivity|exact IH]. Qed.

Lemma str_take_drop n s : str_take n s +:+ str_drop n s = s.
Proof.
  revert n; induction s as [|c s IH]; intros [|n]; try reflexivity.
  cbn [str_take str_drop]. change (String c (str_take n s) +:+ str_drop n s) with (String c (str_take n s +:+ str_drop n s)).
  f_equal. apply IH.
Qed.

Lemma str_assoc a b c : (a +:+ b) +:+ c = a +:+ (b +:+ c).
Proof. induction a as [|x a IH]; [done|]. exact (f_equal (String x) IH). Qed.

Lemma lines_no_newline s : Forall (fun l => str_has l newline = false) (lines s).
Proof.
  induction s as [|c s IH]; [constructor|]. cbn [lines]. destruct (Ascii.eqb c newline) eqn:E; [by constructor|].
  destruct (lines s) as [|l ls]; [constructor; [|constructor]; cbn; by rewrite E|].
  apply Forall_cons in IH as [Hl Hls]. constructor; [|done]. cbn. by rewrite E, Hl.
Qed.

Lemma strcspn_crlf s : str_has s newline = false -> str_take (strcspn s crlf) s = str_before s carriage_return.
Proof.
  induction s as [|c s IH]; [done|]. cbn [str_has strcspn str_before]. intros [Hc Hs]%orb_false_iff.
  change (str_has crlf c) with (Ascii.eqb carriage_return c || (Ascii.eqb newline c || false)).
  rewrite (Ascii.eqb_sym newline c), Hc, (Ascii.eqb_sym carriage_return c). cbn [orb]. rewrite orb_false_r.
  destruct (Ascii.eqb c carriage_return); [done|]. cbn [str_take]. by rewrite IH.
Qed.

Lemma str_has_c_str s c : str_has s c = false -> str_has (c_str s) c = false.
Proof.
  induction s as [|d s IH]; [done|]. cbn [str_has c_str]. intros [Hd Hs]%orb_false_iff. destruct (Ascii.eqb d NUL); [done|].
  cbn [str_has]. by rewrite Hd, IH.
Qed.
