(* ===== verification/Scan.v ===== *)
(** * Reading numbers and words from text ([strtoll], [sscanf])

    The conversions the sources use to parse [/proc] files: [strtoll] in base 10,
    and the [sscanf] directives [%llx], [%llu], [%Ns], a literal and white space,
    each a function from the text to the value and the rest of it.  A numeral that
    does not fit saturates, as the C library's [strtoull] does. *)
From S2P Require Import Prelude Float64 CString.
From Stdlib Require Import Ascii String.
From Stdlib Require Import DecimalString DecimalZ DecimalPos.
Local Open Scope Z_scope.

(** ** Digits *)

Definition digit_of (base : Z) (c : ascii) : option Z :=
  let n := Z.of_nat (nat_of_ascii c) in
  let d := if (48 <=? n) && (n <=? 57) then n - 48
           else if (97 <=? n) && (n <=? 102) then n - 87
           else if (65 <=? n) && (n <=? 70) then n - 55
           else base in
  if d <? base then Some d else None.

(** The value of the longest run of digits, continuing [acc], and the rest. *)
Fixpoint digits (base acc : Z) (s : string) : Z * string :=
  match s with
  | String c s' =>
      match digit_of base c with
      | Some d => digits base (acc * base + d) s'
      | None => (acc, s)
      end
  | EmptyString => (acc, s)
  end.

Definition starts_digit (base : Z) (s : string) : bool :=
  match s with
  | String c _ => match digit_of base c with Some _ => true | None => false end
  | EmptyString => false
  end.

Fixpoint skip_ws (s : string) : string :=
  match s with
  | String c s' => if isspace c then skip_ws s' else s
  | EmptyString => s
  end.

Definition take_sign (s : string) : bool * string :=
  match s with
  | String c s' => if Ascii.eqb c "-" then (true, s') else if Ascii.eqb c "+" then (false, s') else (false, s)
  | EmptyString => (false, s)
  end.

(** The optional [0x] of a hexadecimal numeral. *)
Definition take_prefix (base : Z) (s : string) : string :=
  match s with
  | String c (String x s') =>
      if (base =? 16) && Ascii.eqb c "0" && (Ascii.eqb x "x" || Ascii.eqb x "X") then s' else s
  | _ => s
  end.

(** White space, a sign and a numeral. *)
Definition scan_int (base : Z) (s : string) : option (bool * Z * string) :=
  let '(neg, s) := take_sign (skip_ws s) in
  let s := take_prefix base s in
  if starts_digit base s then let '(v, r) := digits base 0 s in Some (neg, v, r) else None.

(** ** Conversions *)

(** [strtoll(s, &end, 10)]: the value, whether [errno] is [ERANGE], and [end];
    [None] when nothing was converted ([end == s]). *)
Definition strtoll (s : string) : option (Z * bool * string) :=
  match scan_int 10 s with
  | None => None
  | Some (neg, v, r) =>
      let v := if neg : bool then - v else v in
      if v <? LLONG_MIN then Some (LLONG_MIN, true, r)
      else if LLONG_MAX <? v then Some (LLONG_MAX, true, r)
      else Some (v, false, r)
  end.

(** [%llx] ([base] 16) and [%llu] ([base] 10). *)
Definition scan_ull (base : Z) (s : string) : option (Z * string) :=
  match scan_int base s with
  | None => None
  | Some (neg, v, r) => Some (if UINT64_MAX <? v then UINT64_MAX else if neg : bool then u64 (- v) else v, r)
  end.

(** The longest prefix of at most [n] bytes that are not white space. *)
Fixpoint word (n : nat) (s : string) : string * string :=
  match n, s with
  | S n', String c s' => if isspace c then (EmptyString, s) else let '(x, r) := word n' s' in (String c x, r)
  | _, _ => (EmptyString, s)
  end.

(** [%<n>s] *)
Definition scan_str (n : nat) (s : string) : option (string * string) :=
  match word n (skip_ws s) with
  | (EmptyString, _) => None
  | (x, r) => Some (x, r)
  end.

(** A literal byte of the format. *)
Definition scan_lit (c : ascii) (s : string) : option string :=
  match s with
  | String d s' => if Ascii.eqb d c then Some s' else None
  | EmptyString => None
  end.

(** ** Numerals read back *)

Definition is_sign (c : ascii) : bool := Ascii.eqb c "-" || Ascii.eqb c "+".

Lemma str_app_cons c a b : String c a +:+ b = String c (a +:+ b).
Proof. reflexivity. Qed.

Lemma digits_stop base acc s : starts_digit base s = false -> digits base acc s = (acc, s).
Proof. destruct s as [|c s]; [done|]. cbn [starts_digit digits]. by destruct (digit_of base c). Qed.

Lemma digits_uint a u t :
  digits 10 (Z.pos a) (NilEmpty.string_of_uint u +:+ t) = digits 10 (Z.pos (Pos.of_uint_acc u a)) t.
Proof.
  revert a. induction u; intros a; [reflexivity|..]; cbn [NilEmpty.string_of_uint Pos.of_uint_acc];
    rewrite str_app_cons; cbn [digits]; cbn [digit_of];
    match goal with |- context [digit_of 10 ?c] => let d := eval vm_compute in (digit_of 10 c) in change (digit_of 10 c) with d end;
    cbv iota; rewrite <- IHu; f_equal; lia.
Qed.

Lemma digits_uint_0 u t :
  digits 10 0 (NilEmpty.string_of_uint u +:+ t) = digits 10 (Z.of_N (Pos.of_uint u)) t.
Proof.
  induction u; [reflexivity|..]; cbn [NilEmpty.string_of_uint Pos.of_uint]; rewrite str_app_cons; cbn [digits];
    match goal with |- context [digit_of 10 ?c] => let d := eval vm_compute in (digit_of 10 c) in change (digit_of 10 c) with d end;
    cbv iota; cbn [Z.mul Z.add]; [exact IHu|..]; apply digits_uint.
Qed.

Lemma string_of_uint_nonempty u : u <> Decimal.Nil -> NilZero.string_of_uint u = NilEmpty.string_of_uint u.
Proof. by destruct u. Qed.

Lemma dec_pos p : dec (Z.pos p) = NilEmpty.string_of_uint (Pos.to_uint p).
Proof. apply string_of_uint_nonempty, DecimalPos.Unsigned.to_uint_nonnil. Qed.

Lemma dec_neg p : dec (Z.neg p) = String "-" (NilEmpty.string_of_uint (Pos.to_uint p)).
Proof.
  change (dec (Z.neg p)) with (String "-" (NilZero.string_of_uint (Pos.to_uint p))).
  by rewrite string_of_uint_nonempty by apply DecimalPos.Unsigned.to_uint_nonnil.
Qed.

Lemma digits_pos p t : digits 10 0 (NilEmpty.string_of_uint (Pos.to_uint p) +:+ t) = digits 10 (Z.pos p) t.
Proof. rewrite digits_uint_0, DecimalPos.Unsigned.of_to. reflexivity. Qed.

Lemma digits_dec z t : 0 <= z -> digits 10 0 (dec z +:+ t) = digits 10 z t.
Proof. destruct z as [|p|p]; intros Hz; [reflexivity| |lia]. rewrite dec_pos. apply digits_pos. Qed.

(** The first byte of a non-negative numeral is a digit. *)
Lemma uint_digit u : u <> Decimal.Nil -> exists c s, NilEmpty.string_of_uint u = String c s /\ isdigit c = true.
Proof. destruct u; [done|..]; intros _; eexists _, _; (split; [reflexivity|]); vm_compute; reflexivity. Qed.

Lemma isdigit_bytes c : isdigit c = true ->
  isspace c = false /\ is_sign c = false /\ (exists d, digit_of 10 c = Some d) /\ (exists d, digit_of 16 c = Some d).
Proof.
  destruct c as [[] [] [] [] [] [] [] []]; intros H; vm_compute in H; (discriminate H) ||
    (repeat split; try reflexivity; vm_compute; eauto).
Qed.

Lemma skip_ws_stop c s : isspace c = false -> skip_ws (String c s) = String c s.
Proof. intros H. cbn [skip_ws]. by rewrite H. Qed.

Lemma take_sign_stop c s : is_sign c = false -> take_sign (String c s) = (false, String c s).
Proof. unfold is_sign. intros [H1 H2]%orb_false_iff. cbn [take_sign]. by rewrite H1, H2. Qed.

Lemma take_prefix_10 s : take_prefix 10 s = s.
Proof. by destruct s as [|c [|x s]]. Qed.

Lemma scan_int_uint u t v : u <> Decimal.Nil -> digits 10 0 (NilEmpty.string_of_uint u +:+ t) = (v, t) ->
  scan_int 10 (NilEmpty.string_of_uint u +:+ t) = Some (false, v, t) /\
  scan_int 10 (String "-" (NilEmpty.string_of_uint u +:+ t)) = Some (true, v, t).
Proof.
  intros Hu Hd. destruct (uint_digit u Hu) as (c & s & E & Hc). rewrite E, str_app_cons in *.
  destruct (isdigit_bytes c Hc) as (Hs & Hg & (d & Hd10) & _). unfold scan_int. split.
  - rewrite skip_ws_stop, take_sign_stop, take_prefix_10 by assumption. cbn [starts_digit]. by rewrite Hd10, Hd.
  - rewrite skip_ws_stop by reflexivity. cbn [take_sign Ascii.eqb Bool.eqb]. rewrite take_prefix_10. cbn [starts_digit].
    by rewrite Hd10, Hd.
Qed.

(** [strtoll] reads back every [long long] printed with [%lld]. *)
Lemma strtoll_dec z t : LLONG_MIN <= z <= LLONG_MAX -> starts_digit 10 t = false ->
  strtoll (dec z +:+ t) = Some (z, false, t).
Proof.
  unfold LLONG_MIN, LLONG_MAX. intros Hz Ht. unfold strtoll. destruct z as [|p|p].
  - destruct (scan_int_uint (Decimal.D0 Decimal.Nil) t 0 ltac:(discriminate)) as [E _]; [exact (digits_stop 10 0 t Ht)|].
    change (dec 0) with (NilEmpty.string_of_uint (Decimal.D0 Decimal.Nil)). by rewrite E.
  - destruct (scan_int_uint (Pos.to_uint p) t (Z.pos p) (DecimalPos.Unsigned.to_uint_nonnil p)) as [E _].
    { rewrite digits_pos. by apply digits_stop. }
    rewrite dec_pos, E. unfold LLONG_MIN, LLONG_MAX.
    destruct (Z.ltb_spec (Z.pos p) (-9223372036854775808)), (Z.ltb_spec 9223372036854775807 (Z.pos p)); lia || done.
  - destruct (scan_int_uint (Pos.to_uint p) t (Z.pos p) (DecimalPos.Unsigned.to_uint_nonnil p)) as [_ E].
    { rewrite digits_pos. by apply digits_stop. }
    rewrite dec_neg, str_app_cons, E. unfold LLONG_MIN, LLONG_MAX. change (- Z.pos p) with (Z.neg p).
    destruct (Z.ltb_spec (Z.neg p) (-9223372036854775808)), (Z.ltb_spec 9223372036854775807 (Z.neg p)); lia || done.
Qed.

Lemma scan_ull_dec z t : 0 <= z <= UINT64_MAX -> starts_digit 10 t = false -> scan_ull 10 (dec z +:+ t) = Some (z, t).
Proof.
  intros Hz Ht. unfold scan_ull. destruct z as [|p|p]; [| |lia].
  - destruct (scan_int_uint (Decimal.D0 Decimal.Nil) t 0 ltac:(discriminate)) as [E _]; [exact (digits_stop 10 0 t Ht)|].
    change (dec 0) with (NilEmpty.string_of_uint (Decimal.D0 Decimal.Nil)). by rewrite E.
  - destruct (scan_int_uint (Pos.to_uint p) t (Z.pos p) (DecimalPos.Unsigned.to_uint_nonnil p)) as [E _].
    { rewrite digits_pos. by apply digits_stop. }
    rewrite dec_pos, E. destruct (Z.ltb_spec UINT64_MAX (Z.pos p)); [lia|done].
Qed.

(** ** Hexadecimal *)

Lemma hex_digit_value d : 0 <= d < 16 -> digit_of 16 (hex_digit d) = Some d /\ isspace (hex_digit d) = false /\
  is_sign (hex_digit d) = false /\ Ascii.eqb (hex_digit d) "x" = false /\ Ascii.eqb (hex_digit d) "X" = false.
Proof.
  intros Hd. assert (Hall : forallb (fun d => match digit_of 16 (hex_digit d) with Some e => d =? e | None => false end &&
    negb (isspace (hex_digit d)) && negb (is_sign (hex_digit d)) && negb (Ascii.eqb (hex_digit d) "x") &&
    negb (Ascii.eqb (hex_digit d) "X")) (zrange 0 16) = true) by (vm_compute; reflexivity).
  rewrite forallb_forall in Hall. specialize (Hall d). rewrite zrange_seqZ in Hall.
  specialize (Hall ltac:(apply list_elem_of_In, elem_of_seqZ; lia)). cbv beta in Hall.
  destruct (digit_of 16 (hex_digit d)) as [e|]; [|discriminate]. bool_hyps. subst e. done.
Qed.

Lemma digits_hex_go fuel n t : 0 <= n < 16 ^ Z.of_nat fuel ->
  exists k, 0 <= k /\ forall a, digits 16 a (hex_go fuel n t) = digits 16 (a * 16 ^ k + n) t.
Proof.
  revert n t. induction fuel as [|fuel IH]; intros n t Hn; [exists 0; cbn in Hn; split; [done|]; intros a; cbn [hex_go]; f_equal; lia|].
  rewrite Nat2Z.inj_succ, Z.pow_succ_r in Hn by lia. cbn [hex_go].
  pose proof (Z.mod_pos_bound n 16 ltac:(lia)) as Hm. destruct (hex_digit_value (n mod 16) Hm) as (Hd & _).
  destruct (Z.ltb_spec n 16).
  - exists 1. split; [lia|]. intros a. cbn [digits]. rewrite Hd. f_equal. rewrite (Z.mod_small n) by lia. lia.
  - destruct (IH (n / 16) (String (hex_digit (n mod 16)) t)) as (k & Hk & IHk).
    { split; [apply Z.div_pos; lia|]. apply Z.div_lt_upper_bound; lia. }
    exists (k + 1). split; [lia|]. intros a. rewrite IHk. cbn [digits]. rewrite Hd. f_equal.
    rewrite Z.pow_add_r by lia. pose proof (Z.div_mod n 16 ltac:(lia)). nia.
Qed.

(** The text of [hex_go] starts with a digit other than an [x]. *)
Lemma hex_go_head fuel n t : (0 < fuel)%nat -> 0 <= n ->
  exists d s, hex_go fuel n t = String (hex_digit d) s /\ 0 <= d < 16.
Proof.
  revert n t. induction fuel as [|fuel IH]; intros n t Hf Hn; [lia|]. cbn [hex_go].
  pose proof (Z.mod_pos_bound n 16 ltac:(lia)). destruct (n <? 16); [eauto|].
  destruct fuel as [|fuel]; [cbn; eauto|]. apply IH; [lia|]. apply Z.div_pos; lia.
Qed.

Lemma hex_go_app fuel n s t : hex_go fuel n s +:+ t = hex_go fuel n (s +:+ t).
Proof.
  revert n s. induction fuel as [|fuel IH]; intros n s; [reflexivity|]. cbn [hex_go].
  destruct (n <? 16); [reflexivity|]. rewrite IH. reflexivity.
Qed.

Lemma digits_zeros j t : digits 16 0 (str_repeat "0" j +:+ t) = digits 16 0 t.
Proof. induction j as [|j IH]; [reflexivity|]. exact IH. Qed.

(** [%0<w>llx] *)
Definition hex_pad (w : nat) (n : Z) : string := pad_left "0" w (hex n).

Lemma hex_pad_head w n t : 0 <= n -> exists d s, hex_pad w n +:+ t = String (hex_digit d) s /\ 0 <= d < 16.
Proof.
  intros Hn. unfold hex_pad, pad_left. destruct (w - String.length (hex n))%nat as [|j].
  - change (str_repeat "0" 0 +:+ hex n) with (hex n). unfold hex. rewrite hex_go_app. apply hex_go_head; lia.
  - exists 0. eexists. split; [reflexivity|lia].
Qed.

Lemma digits_hex_pad w n t : in_u64 n -> digits 16 0 (hex_pad w n +:+ t) = digits 16 n t.
Proof.
  intros Hn. unfold hex_pad, pad_left.
  assert (E : forall x, (str_repeat "0" x +:+ hex n) +:+ t = str_repeat "0" x +:+ (hex n +:+ t)).
  { induction x as [|x IH]; [reflexivity|]. exact (f_equal (String "0") IH). }
  rewrite E, digits_zeros. unfold hex. rewrite hex_go_app.
  destruct (digits_hex_go 16 n t) as (k & _ & Hk); [unfold in_u64 in Hn; cbn; lia|]. by rewrite Hk.
Qed.

(** A numeral is not mistaken for one with an [0x]: it holds no [x]. *)
Definition is_x (c : ascii) : bool := Ascii.eqb c "x" || Ascii.eqb c "X".

Fixpoint has_x (s : string) : bool :=
  match s with
  | EmptyString => false
  | String c s' => is_x c || has_x s'
  end.

Lemma hex_go_no_x fuel n t : 0 <= n -> has_x (hex_go fuel n t) = has_x t.
Proof.
  revert n t. induction fuel as [|fuel IH]; intros n t Hn; [reflexivity|]. cbn [hex_go].
  destruct (hex_digit_value (n mod 16) (Z.mod_pos_bound n 16 ltac:(lia))) as (_ & _ & _ & H1 & H2).
  assert (E : has_x (String (hex_digit (n mod 16)) t) = has_x t) by (cbn [has_x]; unfold is_x; by rewrite H1, H2).
  destruct (n <? 16); [exact E|]. rewrite IH; [exact E|]. apply Z.div_pos; lia.
Qed.

Lemma hex_pad_no_x w n : 0 <= n -> has_x (hex_pad w n) = false.
Proof.
  intros Hn. unfold hex_pad, pad_left. generalize (w - String.length (hex n))%nat as j.
  induction j as [|j IH]; [exact (hex_go_no_x 16 n EmptyString Hn)|exact IH].
Qed.

Lemma take_prefix_no_x s t : has_x s = false -> match t with String c _ => is_x c = false | EmptyString => True end ->
  take_prefix 16 (s +:+ t) = s +:+ t \/ s = EmptyString.
Proof.
  intros Hs Ht. destruct s as [|c s]; [by right|]. left. rewrite str_app_cons.
  cbn [has_x] in Hs. apply orb_false_iff in Hs as [_ Hs].
  assert (Hx : match s +:+ t with String x _ => is_x x = false | EmptyString => True end).
  { destruct s as [|x s]; [exact Ht|]. cbn [has_x] in Hs. apply orb_false_iff in Hs as [Hs _]. exact Hs. }
  destruct (s +:+ t) as [|x r]; [reflexivity|]. cbn [take_prefix]. fold (is_x x). rewrite Hx. by rewrite andb_false_r.
Qed.

(** [%llx] reads back a [uint64_t] printed with [%0<w>llx]. *)
Lemma scan_ull_hex w n c t : in_u64 n -> c = " "%char \/ c = "-"%char ->
  scan_ull 16 (hex_pad w n +:+ String c t) = Some (n, String c t).
Proof.
  intros Hn Hc. assert (Hc' : starts_digit 16 (String c t) = false /\ is_x c = false) by (destruct Hc as [->| ->]; done).
  destruct Hc' as [Hd Hx]. assert (0 <= n) by (unfold in_u64 in Hn; lia).
  pose proof (digits_hex_pad w n (String c t) Hn) as Hv. rewrite (digits_stop 16 n _ Hd) in Hv.
  destruct (hex_pad_head w n EmptyString) as (d & s & E & Hdig); [lia|]. rewrite str_app_nil_r in E.
  destruct (take_prefix_no_x (hex_pad w n) (String c t)) as [Hp|Hp]; [apply hex_pad_no_x; lia|exact Hx| |by rewrite E in Hp].
  rewrite E in *. destruct (hex_digit_value d Hdig) as (Hg & Hs & Hsg & _). unfold scan_ull, scan_int.
  rewrite str_app_cons in *. rewrite skip_ws_stop, take_sign_stop by assumption. rewrite Hp. cbn [starts_digit]. rewrite Hg, Hv.
  destruct (Z.ltb_spec UINT64_MAX n); [unfold in_u64, UINT64_MAX in *; lia|reflexivity].
Qed.
