(* ===== verification/Strto.v ===== *)
(** * [strtoull], [strtod] and the [%g] conversion

    The number conversions of the calibration code.  A pointer into a text is the
    text from it on, so the end pointer of a conversion is the rest of the text.
    [strtod] is the correctly rounded conversion of the C library's grammar in
    the C locale: decimal and hexadecimal numerals, infinities and NaNs. *)
From S2P Require Import Prelude Float64 CString Scan.
From Stdlib Require Import Ascii String.
Local Open Scope Z_scope.

(** ** [strtoull] *)

(** The base a numeral is read in and its digits: base 0 is decided by the
    prefix, and a [0x] needs a digit after it. *)
Definition resolve_base (base : Z) (s : string) : Z * string :=
  match s with
  | String c (String x r) =>
      if ((base =? 0) || (base =? 16)) && Ascii.eqb c "0" && is_x x && starts_digit 16 r then (16, r)
      else if base =? 0 then (if Ascii.eqb c "0" then 8 else 10, s) else (base, s)
  | String c EmptyString => if base =? 0 then (if Ascii.eqb c "0" then 8 else 10, s) else (base, s)
  | EmptyString => (if base =? 0 then 10 else base, s)
  end.

(** [strtoull(s, &end, base)]: the value, whether [errno] is [ERANGE], and [end];
    [None] when nothing was converted. A negative numeral wraps. *)
Definition strtoull (base : Z) (s : string) : option (Z * bool * string) :=
  let '(neg, t) := take_sign (Scan.skip_ws s) in
  let '(base, t) := resolve_base base t in
  if starts_digit base t then
    let '(v, r) := digits base 0 t in
    if UINT64_MAX <? v then Some (UINT64_MAX, true, r) else Some (u64 (if neg : bool then - v else v), false, r)
  else None.

(** The value fits its type. *)
Lemma strtoull_range base s v er r : strtoull base s = Some (v, er, r) -> in_u64 v.
Proof.
  unfold strtoull. destruct (take_sign _) as [neg t]. destruct (resolve_base base t) as [b t']. destruct (starts_digit b t'); [|done].
  destruct (digits b 0 t') as [x r']. destruct (Z.ltb_spec UINT64_MAX x); intros [= <- _ _]; [unfold in_u64, UINT64_MAX; lia|apply u64_range].
Qed.

(** ** [strtod] *)

(** The double nearest to [num / den], ties to even. *)
Definition round_ratio (num den : positive) : double :=
  let '(q, e, l) := SFdiv_core_binary 53 1024 (Z.pos num) 0 (Z.pos den) 0 in
  binary_round_aux 53 1024 false q e l.

Definition dneg (x : double) : double := SFopp x.

(** The nearest double of [m * b ^ e], without its sign. *)
Definition scaled (m b e : Z) : double :=
  match m with
  | Z.pos p => if 0 <=? e then binary_normalize 53 1024 (m * b ^ e) 0 false else round_ratio p (Z.to_pos (b ^ (- e)))
  | _ => S754_zero false
  end.

(** [x] is [m * b ^ e] exactly. *)
Definition exactly (x : double) (m b e : Z) : bool :=
  match x with
  | S754_finite _ n k =>
      Z.pos n * 2 ^ (Z.max k 0) * b ^ (Z.max (- e) 0) =? m * b ^ (Z.max e 0) * 2 ^ (Z.max (- k) 0)
  | _ => false
  end.

(** [errno] is [ERANGE]: the value overflows, or it is too small for a normal
    number and was rounded. *)
Definition out_of_range (x : double) (m b e : Z) : bool :=
  if m =? 0 then false
  else
    match x with
    | S754_infinity _ => true
    | S754_zero _ => true
    | S754_finite _ n _ => (Zdigits2 (Z.pos n) <? 53) && negb (exactly x m b e)
    | S754_nan => false
    end.

(** Digits with at most one point among them: the integer of the digits, how many
    follow the point, how many there are, and the rest. *)
Fixpoint point_digits (base acc frac count : Z) (seen_point : bool) (s : string) : Z * Z * Z * string :=
  match s with
  | EmptyString => (acc, frac, count, s)
  | String c r =>
      match digit_of base c with
      | Some d => point_digits base (acc * base + d) (if seen_point then frac + 1 else frac) (count + 1) seen_point r
      | None => if Ascii.eqb c "." && negb seen_point then point_digits base acc frac count true r else (acc, frac, count, s)
      end
  end.

(** The optional exponent after [mark]; it is taken only with a digit. *)
Definition take_exponent (mark : ascii -> bool) (s : string) : Z * string :=
  match s with
  | String c r =>
      if mark c then
        let '(neg, t) := take_sign r in
        if starts_digit 10 t then let '(v, r') := digits 10 0 t in (if neg : bool then - v else v, r') else (0, s)
      else (0, s)
  | EmptyString => (0, s)
  end.

Definition is_e (c : ascii) : bool := Ascii.eqb c "e" || Ascii.eqb c "E".
Definition is_p (c : ascii) : bool := Ascii.eqb c "p" || Ascii.eqb c "P".

(** Whether [s] starts with the lower-case [w], in any case; the rest. *)
Definition lower (c : ascii) : ascii :=
  let n := nat_of_ascii c in if ((65 <=? n) && (n <=? 90))%nat then ascii_of_nat (n + 32) else c.

Fixpoint take_word (w s : string) : option string :=
  match w, s with
  | EmptyString, _ => Some s
  | String a w', String c s' => if Ascii.eqb (lower c) a then take_word w' s' else None
  | String _ _, EmptyString => None
  end.

(** The optional [(...)] of a NaN: letters, digits and underscores. *)
Fixpoint nan_chars (s : string) : option string :=
  match s with
  | EmptyString => None
  | String c s' =>
      if Ascii.eqb c ")" then Some s'
      else let n := nat_of_ascii (lower c) in
           if isdigit c || ((97 <=? n) && (n <=? 122))%nat || Ascii.eqb c "_" then nan_chars s' else None
  end.

Definition take_nan_chars (s : string) : string :=
  match s with
  | String c s' => if Ascii.eqb c "(" then default s (nan_chars s') else s
  | EmptyString => s
  end.

(** A decimal numeral: the value without sign, [ERANGE], the rest. *)
Definition decimal (s : string) : option (double * bool * string) :=
  let '(m, frac, count, r) := point_digits 10 0 0 0 false s in
  if count =? 0 then None
  else
    let '(e, r) := take_exponent is_e r in
    let x := scaled m 10 (e - frac) in Some (x, out_of_range x m 10 (e - frac), r).

(** The part of a hexadecimal numeral after its [0x]. *)
Definition hexadecimal (s : string) : option (double * bool * string) :=
  let '(m, frac, count, r) := point_digits 16 0 0 0 false s in
  if count =? 0 then None
  else
    let '(e, r) := take_exponent is_p r in
    let x := scaled m 2 (e - 4 * frac) in Some (x, out_of_range x m 2 (e - 4 * frac), r).

Definition take_hex (s : string) : option (double * bool * string) :=
  match s with
  | String c (String x r) => if Ascii.eqb c "0" && is_x x then hexadecimal r else None
  | _ => None
  end.

(** [strtod(s, &end)]: the value, whether [errno] is [ERANGE], and [end]; [None]
    when nothing was converted. *)
Definition strtod (s : string) : option (double * bool * string) :=
  let '(neg, t) := take_sign (Scan.skip_ws s) in
  let signed (x : double) := if neg : bool then dneg x else x in
  match take_word "inf" t with
  | Some r => Some (signed (S754_infinity false), false, default r (take_word "inity" r))
  | None =>
      match take_word "nan" t with
      | Some r => Some (S754_nan, false, take_nan_chars r)
      | None =>
          match (match take_hex t with Some res => Some res | None => decimal t end) with
          | Some (x, er, r) => Some (signed x, er, r)
          | None => None
          end
      end
  end.

Example strtod_values :
  strtod " 0.1," = Some (dlit 1 10, false, ","%string) /\ strtod "-2.5e1x" = Some (dneg (dlit 25 1), false, "x"%string) /\
  strtod "1e400" = Some (S754_infinity false, true, ""%string) /\ strtod "0x1.8p1" = Some (dlit 3 1, false, ""%string) /\
  strtod "1e" = Some (dlit 1 1, false, "e"%string) /\ strtod "." = None /\ strtod "0xg" = Some (S754_zero false, false, "xg"%string).
Proof. vm_compute. repeat split. Qed.

(** ** [%.<p>g] *)

(** [num / den] in units of [10 ^ k]. *)
Definition in_units (num den k : Z) : Z :=
  if 0 <=? k then div_half_even num (den * 10 ^ k) else div_half_even (num * 10 ^ (- k)) den.

(** The exponent of the [%e] conversion of [num / den] with [p] significant
    digits, and the digits: [fuel] is a bound of its distance from [k]. *)
Fixpoint sci (fuel : nat) (num den p k : Z) : Z * Z :=
  let n := in_units num den (k - (p - 1)) in
  match fuel with
  | O => (k, n)
  | S fuel =>
      if 10 ^ p <=? n then sci fuel num den p (k + 1)
      else if n <? 10 ^ (p - 1) then sci fuel num den p (k - 1)
      else (k, n)
  end.

(** Trailing zeros and a trailing point are not printed. *)
Fixpoint strip_zeros (fuel : nat) (n : Z) (decimals : nat) : Z * nat :=
  match fuel, decimals with
  | S fuel, S d => if n mod 10 =? 0 then strip_zeros fuel (n / 10) d else (n, decimals)
  | _, _ => (n, decimals)
  end.

Definition plain (n : Z) (decimals : nat) : string :=
  let '(n, d) := strip_zeros decimals n decimals in fixed_digits d n.

Definition fmt_g (p : Z) (x : double) : string :=
  let magnitude (num den : Z) : string :=
    let '(k, n) := sci 700 num den p 0 in
    if (-4 <=? k) && (k <? p) then plain n (Z.to_nat (p - 1 - k))
    else plain n (Z.to_nat (p - 1)) +:+ "e" +:+ (if k <? 0 then "-" else "+") +:+ pad_left "0"%char 2 (dec (Z.abs k)) in
  match x with
  | S754_nan => "nan"
  | S754_infinity s => if s : bool then "-inf" else "inf"
  | S754_zero s => if s : bool then "-0" else "0"
  | S754_finite s m e => (if s : bool then "-" else "") +:+ magnitude (Z.pos m * 2 ^ Z.max e 0) (2 ^ Z.max (- e) 0)
  end.

Example fmt_g_values :
  fmt_g 6 (dlit 25 1) = "25"%string /\ fmt_g 6 (dlit 1 10) = "0.1"%string /\ fmt_g 6 (dlit 999999951 10000000) = "100"%string /\
  fmt_g 6 (dlit 1 100000) = "1e-05"%string /\ fmt_g 6 (dlit 123456789 1) = "1.23457e+08"%string.
Proof. vm_compute. repeat split. Qed.
