(* ===== verification/Os.v ===== *)
(** * The operating system as the daemon sees it

    The kernel and the C library's calls into it are not part of the sources.
    They are an interface: a type [W] of worlds and one function per call, each
    returning its result and the world after it, so that a result may depend on
    everything that happened before (pages migrate, processes exit, clocks
    advance).  Every theorem about code that reads [/proc] or writes a cgroup
    file holds for every instance. *)
From S2P Require Import Prelude CString.
Local Open Scope Z_scope.

Class OS (W : Type) := {
  (** [sysconf(_SC_PAGESIZE)], [sysconf(_SC_CLK_TCK)] *)
  os_pagesize : W -> Z * W;
  os_clk_tck : W -> Z * W;
  (** [clock_gettime(CLOCK_MONOTONIC, &ts)]: seconds and nanoseconds, or failure *)
  os_clock : W -> option (Z * Z) * W;
  (** [open(path, O_RDONLY | O_CLOEXEC)]: the descriptor, negative on failure *)
  os_open : string -> W -> Z * W;
  (** [pread(fd, buf, count, offset)]: the bytes read, [None] on failure *)
  os_pread : Z -> Z -> Z -> W -> option (list Z) * W;
  os_close : Z -> W -> W;
  (** [fopen(path, "r")] and the [fclose] of a stream opened for reading *)
  os_fopen : string -> W -> option stream * W;
  os_fclose : W -> bool * W;
  (** [readlink(path, ...)]: the target, [None] on failure *)
  os_readlink : string -> W -> option string * W;
  (** [calloc(n, size)] returned non-NULL *)
  os_calloc : Z -> Z -> W -> bool * W;
  (** [fopen(path, "w")], [fprintf(f, "%s\n", text)] and [fclose] of that stream *)
  os_fopen_w : string -> W -> bool * W;
  os_fprintf : string -> string -> W -> bool * W;
  os_fclose_w : string -> W -> bool * W
}.

(** ** Resources held

    Which calls acquire and release a read stream or a descriptor, as the C
    library and the kernel document them. *)

Class Resources (W : Type) `{OS W} := {
  (** the numbers of open read streams and of open descriptors *)
  streams_held : W -> Z;
  fds_held : W -> Z;
  held_fopen path w : streams_held (os_fopen path w).2 = streams_held w + (if (os_fopen path w).1 is Some _ then 1 else 0) /\
    fds_held (os_fopen path w).2 = fds_held w;
  held_fclose w : streams_held (os_fclose w).2 = streams_held w - 1 /\ fds_held (os_fclose w).2 = fds_held w;
  held_open path w : streams_held (os_open path w).2 = streams_held w /\
    fds_held (os_open path w).2 = fds_held w + (if (os_open path w).1 <? 0 then 0 else 1);
  held_close fd w : streams_held (os_close fd w) = streams_held w /\ fds_held (os_close fd w) = fds_held w - 1;
  held_pread fd n off w : streams_held (os_pread fd n off w).2 = streams_held w /\ fds_held (os_pread fd n off w).2 = fds_held w;
  held_pagesize w : streams_held (os_pagesize w).2 = streams_held w /\ fds_held (os_pagesize w).2 = fds_held w;
  held_clk_tck w : streams_held (os_clk_tck w).2 = streams_held w /\ fds_held (os_clk_tck w).2 = fds_held w;
  held_clock w : streams_held (os_clock w).2 = streams_held w /\ fds_held (os_clock w).2 = fds_held w;
  held_calloc n size w : streams_held (os_calloc n size w).2 = streams_held w /\ fds_held (os_calloc n size w).2 = fds_held w
}.

(** The same resources are held in two worlds, up to [ds] streams and [df]
    descriptors acquired in between. *)
Definition acquired `{Resources W} (w w' : W) (ds df : Z) : Prop :=
  streams_held w' = streams_held w + ds /\ fds_held w' = fds_held w + df.

Section Acquired.
Context {W : Type} `{Resources W}.

Lemma acquired_refl (w : W) : acquired w w 0 0.
Proof. unfold acquired. lia. Qed.

Lemma acquired_trans (w1 w2 w3 : W) a b c d : acquired w1 w2 a b -> acquired w2 w3 c d -> acquired w1 w3 (a + c) (b + d).
Proof. unfold acquired. lia. Qed.

Lemma acquired_eq (w w' : W) a b c d : acquired w w' a b -> a = c -> b = d -> acquired w w' c d.
Proof. intros Ha -> ->. exact Ha. Qed.

Lemma acquired_fopen path (w : W) : acquired w (os_fopen path w).2 (if (os_fopen path w).1 is Some _ then 1 else 0) 0.
Proof. unfold acquired. pose proof (held_fopen path w). lia. Qed.
Lemma acquired_fclose (w : W) : acquired w (os_fclose w).2 (-1) 0.
Proof. unfold acquired. pose proof (held_fclose w). lia. Qed.
Lemma acquired_open path (w : W) : acquired w (os_open path w).2 0 (if (os_open path w).1 <? 0 then 0 else 1).
Proof. unfold acquired. pose proof (held_open path w). lia. Qed.
Lemma acquired_close fd (w : W) : acquired w (os_close fd w) 0 (-1).
Proof. unfold acquired. pose proof (held_close fd w). lia. Qed.
Lemma acquired_pread fd n off (w : W) : acquired w (os_pread fd n off w).2 0 0.
Proof. unfold acquired. pose proof (held_pread fd n off w). lia. Qed.
Lemma acquired_pagesize (w : W) : acquired w (os_pagesize w).2 0 0.
Proof. unfold acquired. pose proof (held_pagesize w). lia. Qed.
Lemma acquired_clk_tck (w : W) : acquired w (os_clk_tck w).2 0 0.
Proof. unfold acquired. pose proof (held_clk_tck w). lia. Qed.
Lemma acquired_clock (w : W) : acquired w (os_clock w).2 0 0.
Proof. unfold acquired. pose proof (held_clock w). lia. Qed.
Lemma acquired_calloc n size (w : W) : acquired w (os_calloc n size w).2 0 0.
Proof. unfold acquired. pose proof (held_calloc n size w). lia. Qed.
End Acquired.
