(* ===== verification/Calibration.v ===== *)
(** * Calibration results ([calibration.h], [calibration.c])

    The record the calibration worker's JSON is loaded into and its reset. *)
From S2P Require Import Prelude Float64 CString.
From Stdlib Require Import String.
Local Open Scope Z_scope.

Definition CALIBRATION_MAX_BANK_MASKS : Z := 32.
Definition CALIBRATION_MASK_SET_ID_MAX : Z := 65.
Definition CALIBRATION_ERROR_MESSAGE_MAX : Z := 256.

Definition CALIBRATION_OK : Z := 0.
Definition CALIBRATION_ERR_INVALID_ARG : Z := -1.
Definition CALIBRATION_ERR_FORK : Z := -2.
Definition CALIBRATION_ERR_WAIT : Z := -3.
Definition CALIBRATION_ERR_TIMEOUT : Z := -4.
Definition CALIBRATION_ERR_WORKER_EXIT : Z := -5.
Definition CALIBRATION_ERR_IO : Z := -6.
Definition CALIBRATION_ERR_JSON : Z := -7.
Definition CALIBRATION_ERR_REJECTED : Z := -8.
Definition CALIBRATION_ERR_TOO_MANY_MASKS : Z := -9.

Record calibration_metrics := mk_calibration_metrics {
  tp : Z; tn : Z; fp : Z; fn : Z;
  accuracy : double; precision : double; recall : double; f1 : double
}.

(** [bank_masks] is the array of 32 words; [mask_set_id] the bytes of the array
    of 65 [char]s (missing ones are NUL). *)
Record calibration_result := mk_calibration_result {
  status_success : bool;
  acceptance_passed : bool;
  bank_masks : list Z;
  bank_mask_count : Z;
  mask_set_id : string;
  holdout : calibration_metrics;
  worker_exit_code : Z;
  error_message : string
}.

#[export] Instance calibration_result_settable : Settable calibration_result :=
  fun r => mk_calibration_result (status_success r) (acceptance_passed r) (bank_masks r)
    (bank_mask_count r) (mask_set_id r) (holdout r) (worker_exit_code r) (error_message r).

Definition calibration_metrics_zero : calibration_metrics :=
  mk_calibration_metrics 0 0 0 0 dzero dzero dzero dzero.

(** [calibration_result_reset]: [memset] to zero, exit code -1. *)
Definition calibration_result_reset (out : option calibration_result) : option calibration_result :=
  match out with
  | None => None
  | Some _ => Some (mk_calibration_result false false (replicate 32 0) 0 ""
                      calibration_metrics_zero (-1) "")
  end.

Definition calibration_strerror (rc : Z) : string :=
  switch rc [
    (CALIBRATION_OK, "success");
    (CALIBRATION_ERR_INVALID_ARG, "invalid argument");
    (CALIBRATION_ERR_FORK, "fork/process-group setup failed");
    (CALIBRATION_ERR_WAIT, "waitpid/clock failure");
    (CALIBRATION_ERR_TIMEOUT, "calibration timeout");
    (CALIBRATION_ERR_WORKER_EXIT, "calibration worker failed");
    (CALIBRATION_ERR_IO, "I/O failure");
    (CALIBRATION_ERR_JSON, "invalid calibration JSON");
    (CALIBRATION_ERR_REJECTED, "calibration result rejected");
    (CALIBRATION_ERR_TOO_MANY_MASKS, "too many bank masks")
  ]%string "unknown calibration error"%string.
