(* ===== verification/CalibrationLoad.v ===== *)
(** * Loading the calibration result ([calibration.c])

    The worker writes its result as JSON; the loader finds keys in the text and
    reads the values after them.  A pointer into the text is the text from it on,
    and a [json_range] holds its begin and the number of its bytes, so that a
    pointer [p] below [end] is a text with a positive number of bytes left. *)
From S2P Require Import Prelude Float64 CString Scan Strto Os Calibration.
From Stdlib Require Import Ascii String.
Local Open Scope Z_scope.

Definition CALIBRATION_JSON_MAX_BYTES : Z := 4 * 1024 * 1024.

Record json_range := mk_json_range {
  jr_begin : string;
  jr_size : nat
}.

Definition set_error (out : option calibration_result) (text : string) : option calibration_result :=
  match out with
  | None => None
  | Some o => Some (o <| error_message := snprintf CALIBRATION_ERROR_MESSAGE_MAX text |>)
  end.

(** ** Scanning *)

Definition dquote : ascii := "034"%char.
Definition backslash : ascii := "092"%char.

(** [skip_ws(p, end)]: the pointer and the bytes left. *)
Fixpoint skip_ws (p : string) (n : nat) : string * nat :=
  match n, p with
  | S n', String c p' => if isspace c then skip_ws p' n' else (p, n)
  | _, _ => (p, n)
  end.

Fixpoint starts_with (pattern s : string) : bool :=
  match pattern, s with
  | EmptyString, _ => true
  | String a pattern', String c s' => Ascii.eqb a c && starts_with pattern' s'
  | String _ _, EmptyString => false
  end.

(** [strstr(s, pattern)] as an offset; it reads [s] up to its NUL. *)
Fixpoint strstr (s pattern : string) : option nat :=
  if starts_with pattern s then Some O
  else
    match s with
    | EmptyString => None
    | String c s' => if Ascii.eqb c NUL then None else S <$> strstr s' pattern
    end.

(** The loop, for the pattern of [len] bytes. Every turn consumes a byte of the
    range, so a fuel of its size is enough. *)
Fixpoint find_key_loop (fuel : nat) (p : string) (n : nat) (pattern : string) (len : nat) : option (string * nat) :=
  match fuel with
  | O => None
  | S fuel =>
      if (n =? 0)%nat then None
      else
        match strstr p pattern with
        | None => None
        | Some k =>
            if (n <=? k)%nat then None
            else
              let '(colon, m) := skip_ws (str_drop (k + len) p) (n - (k + len)) in
              match m, colon with
              | S m', String c rest =>
                  if Ascii.eqb c ":" then Some (skip_ws rest m')
                  else find_key_loop fuel (str_drop (k + 1) p) (n - (k + 1)) pattern len
              | _, _ => find_key_loop fuel (str_drop (k + 1) p) (n - (k + 1)) pattern len
              end
        end
  end.

(** The value after the first [\"key\" :] of the range: the pointer and the bytes
    left, or NULL. *)
Definition find_key_value (range : json_range) (key : string) : option (string * nat) :=
  let pattern := String dquote (key +:+ String dquote EmptyString) in
  let len := strlen pattern in
  if (len <=? 0) || (128 <=? len) then None
  else find_key_loop (S (jr_size range)) (jr_begin range) (jr_size range) pattern (Z.to_nat len).

(** The loop of [scan_balanced]: how many bytes the balanced text takes. *)
Fixpoint balanced_loop (p : string) (n : nat) (open_ch close_ch : ascii) (depth : Z) (in_string escaped : bool) (consumed : nat) : option nat :=
  match n, p with
  | S n', String ch p' =>
      if in_string then
        let '(in_string, escaped) :=
          if escaped then (true, false)
          else if Ascii.eqb ch backslash then (true, true)
          else if Ascii.eqb ch dquote then (false, escaped)
          else (true, escaped) in
        balanced_loop p' n' open_ch close_ch depth in_string escaped (S consumed)
      else if Ascii.eqb ch dquote then balanced_loop p' n' open_ch close_ch depth true escaped (S consumed)
      else if Ascii.eqb ch open_ch then balanced_loop p' n' open_ch close_ch (depth + 1) in_string escaped (S consumed)
      else if Ascii.eqb ch close_ch then
        if depth - 1 =? 0 then Some (S consumed)
        else balanced_loop p' n' open_ch close_ch (depth - 1) in_string escaped (S consumed)
      else balanced_loop p' n' open_ch close_ch depth in_string escaped (S consumed)
  | _, _ => None
  end.

(** [open] is a pointer and the bytes left; the code and [*out]. *)
Definition scan_balanced (open : option (string * nat)) (open_ch close_ch : ascii) : Z + json_range :=
  match open with
  | None => inl CALIBRATION_ERR_JSON
  | Some (p, n) =>
      if (n =? 0)%nat || negb (Ascii.eqb (char_at p 0) open_ch) then inl CALIBRATION_ERR_JSON
      else
        match balanced_loop p n open_ch close_ch 0 false false 0 with
        | Some size => inr (mk_json_range p size)
        | None => inl CALIBRATION_ERR_JSON
        end
  end.

Definition extract_object (range : json_range) (key : string) : Z + json_range :=
  match find_key_value range key with
  | None => inl CALIBRATION_ERR_JSON
  | Some value => scan_balanced (Some value) "{" "}"
  end.

Definition extract_array (range : json_range) (key : string) : Z + json_range :=
  match find_key_value range key with
  | None => inl CALIBRATION_ERR_JSON
  | Some value => scan_balanced (Some value) "[" "]"
  end.

(** ** Values *)

(** The loop: the code, and the bytes of [dst] it wrote ([dst_size] is its
    capacity). On success a NUL follows them. *)
Fixpoint string_loop (p : string) (n : nat) (escaped : bool) (dst : string) (dst_size : Z) : Z * string :=
  match n, p with
  | S n', String ch p' =>
      if escaped then
        if dst_size <=? strlen dst + 1 then (CALIBRATION_ERR_JSON, dst)
        else string_loop p' n' false (dst +:+ String ch EmptyString) dst_size
      else if Ascii.eqb ch backslash then string_loop p' n' true dst dst_size
      else if Ascii.eqb ch dquote then (CALIBRATION_OK, dst)
      else if dst_size <=? strlen dst + 1 then (CALIBRATION_ERR_JSON, dst)
      else string_loop p' n' escaped (dst +:+ String ch EmptyString) dst_size
  | _, _ => (CALIBRATION_ERR_JSON, dst)
  end.

Definition extract_string (range : json_range) (key : string) (dst_size : Z) : Z * string :=
  match find_key_value range key with
  | None => (CALIBRATION_ERR_JSON, EmptyString)
  | Some (p, n) =>
      if (dst_size =? 0) || (n =? 0)%nat || negb (Ascii.eqb (char_at p 0) dquote) then (CALIBRATION_ERR_JSON, EmptyString)
      else string_loop (str_drop 1 p) (n - 1) false EmptyString dst_size
  end.

Definition extract_bool (range : json_range) (key : string) : Z + bool :=
  match find_key_value range key with
  | None => inl CALIBRATION_ERR_JSON
  | Some (p, n) =>
      if (4 <=? n)%nat && strn_eq p "true" 4 then inr true
      else if (5 <=? n)%nat && strn_eq p "false" 5 then inr false
      else inl CALIBRATION_ERR_JSON
  end.

(** [endptr > range.end]: more bytes were converted than are left. *)
Definition past_end (p endptr : string) (n : nat) : bool := (n <? String.length p - String.length endptr)%nat.

Definition extract_double (range : json_range) (key : string) : Z + double :=
  match find_key_value range key with
  | None => inl CALIBRATION_ERR_JSON
  | Some (p, n) =>
      match strtod p with
      | None => inl CALIBRATION_ERR_JSON
      | Some (value, erange, endptr) => if (erange : bool) || past_end p endptr n then inl CALIBRATION_ERR_JSON else inr value
      end
  end.

Definition extract_u64 (range : json_range) (key : string) : Z + Z :=
  match find_key_value range key with
  | None => inl CALIBRATION_ERR_JSON
  | Some (p, n) =>
      match strtoull 10 p with
      | None => inl CALIBRATION_ERR_JSON
      | Some (value, erange, endptr) => if (erange : bool) || past_end p endptr n then inl CALIBRATION_ERR_JSON else inr value
      end
  end.

(** ** The masks *)

(** The inner loop: [text] up to the closing quote or the end; [None] when it
    does not fit. *)
Fixpoint mask_text (p : string) (n : nat) (text : string) : option (string * string * nat) :=
  match n, p with
  | S n', String c p' =>
      if Ascii.eqb c dquote then Some (text, p, n)
      else if 64 <=? strlen text + 1 then None
      else mask_text p' n' (text +:+ String c EmptyString)
  | _, _ => Some (text, p, n)
  end.

(** [out->bank_masks[out->bank_mask_count++] = mask] *)
Definition push_mask (mask : Z) (out : calibration_result) : calibration_result :=
  (out <| bank_masks ::= <[Z.to_nat (bank_mask_count out) := mask]> |>) <| bank_mask_count ::= fun n => n + 1 |>.

(** The mask of a text: [None] is an error of [strtoull] or a zero mask. *)
Definition mask_value (text : string) : option Z :=
  match strtoull 0 (c_str text) with
  | None => None
  | Some (mask, erange, endptr) => if (erange : bool) || negb (String.eqb endptr "") || (mask =? 0) then None else Some mask
  end.

(** The loop over the array without its brackets. *)
Fixpoint masks_loop (fuel : nat) (p : string) (n : nat) (out : calibration_result) : Z * calibration_result :=
  match fuel with
  | O => (CALIBRATION_ERR_JSON, out)
  | S fuel =>
      let '(p, n) := skip_ws p n in
      if (n =? 0)%nat then (if 0 <? bank_mask_count out then CALIBRATION_OK else CALIBRATION_ERR_REJECTED, out)
      else if Ascii.eqb (char_at p 0) "," then masks_loop fuel (str_drop 1 p) (n - 1) out
      else if negb (Ascii.eqb (char_at p 0) dquote) then (CALIBRATION_ERR_JSON, out)
      else
        match mask_text (str_drop 1 p) (n - 1) EmptyString with
        | None => (CALIBRATION_ERR_JSON, out)
        | Some (text, p, n) =>
            if (n =? 0)%nat || negb (Ascii.eqb (char_at p 0) dquote) then (CALIBRATION_ERR_JSON, out)
            else if CALIBRATION_MAX_BANK_MASKS <=? bank_mask_count out then (CALIBRATION_ERR_TOO_MANY_MASKS, out)
            else
              match mask_value text with
              | None => (CALIBRATION_ERR_JSON, out)
              | Some mask => masks_loop fuel (str_drop 1 p) (n - 1) (push_mask mask out)
              end
        end
  end.

Definition parse_bank_masks (array : json_range) (out : calibration_result) : Z * calibration_result :=
  masks_loop (S (jr_size array)) (str_drop 1 (jr_begin array)) (jr_size array - 2) out.

(** * [calibration_load_result] ([calibration.c])

    Reads the result file of the worker into memory and its fields into a
    [calibration_result]. *)

(** The calls on the result file, opened with [fopen(path, "rb")]: [bf_fread n]
    returns the bytes read, at most [n]; the Booleans say whether the call
    succeeded. *)
Class BinFile (W : Type) := {
  bf_fopen : string -> W -> bool * W;
  bf_seek_end : W -> bool * W;
  bf_tell : W -> Z * W;
  bf_seek_set : W -> bool * W;
  bf_fread : Z -> W -> string * W;
  bf_fclose : W -> bool * W
}.

#[export] Instance calibration_metrics_settable : Settable calibration_metrics :=
  fun m => mk_calibration_metrics (tp m) (tn m) (fp m) (fn m) (accuracy m) (precision m) (recall m) (f1 m).

Section Load.
Context {W : Type} `{HO : OS W} `{HB : BinFile W}.

(** [inl] is the code, [inr] the buffer with its size.  [path] is not NULL and the
    out pointers are those of locals. *)
Definition read_file_limited (path : string) (w : W) : (Z + string) * W :=
  let '(fp, w) := bf_fopen path w in
  if negb fp then (inl CALIBRATION_ERR_IO, w)
  else
    let '(ok, w) := bf_seek_end w in
    if negb ok then let '(_, w) := bf_fclose w in (inl CALIBRATION_ERR_IO, w)
    else
      let '(file_size, w) := bf_tell w in
      if (file_size <? 0) || (CALIBRATION_JSON_MAX_BYTES <? file_size) then let '(_, w) := bf_fclose w in (inl CALIBRATION_ERR_IO, w)
      else
        let '(ok, w) := bf_seek_set w in
        if negb ok then let '(_, w) := bf_fclose w in (inl CALIBRATION_ERR_IO, w)
        else
          let '(buffer, w) := os_calloc (file_size + 1) 1 w in
          if negb buffer then let '(_, w) := bf_fclose w in (inl CALIBRATION_ERR_IO, w)
          else
            let '(bytes, w) := bf_fread file_size w in
            if negb (strlen bytes =? file_size) then let '(_, w) := bf_fclose w in (inl CALIBRATION_ERR_IO, w)
            else
              let '(ok, w) := bf_fclose w in
              if negb ok then (inl CALIBRATION_ERR_IO, w) else (inr bytes, w).
End Load.

(** [out->holdout.<field> = ...], when the value was found. *)
Definition store {A} (res : Z + A) (put : A -> calibration_result -> calibration_result) (out : calibration_result) : bool * calibration_result :=
  match res with inl _ => (false, out) | inr v => (true, put v out) end.

(** The metrics, in the order of the condition: whether all were found, and the
    result with those found before the first that was not. *)
Definition load_metrics (h : json_range) (out : calibration_result) : bool * calibration_result :=
  let u64_field key upd (k : calibration_result -> bool * calibration_result) out :=
    match store (extract_u64 h key) (fun v o => o <| holdout ::= upd v |>) out with (false, o) => (false, o) | (true, o) => k o end in
  let double_field key upd (k : calibration_result -> bool * calibration_result) out :=
    match store (extract_double h key) (fun v o => o <| holdout ::= upd v |>) out with (false, o) => (false, o) | (true, o) => k o end in
  (u64_field "tp" (fun v m => m <| tp := v |>)
    (u64_field "tn" (fun v m => m <| tn := v |>)
      (u64_field "fp" (fun v m => m <| fp := v |>)
        (u64_field "fn" (fun v m => m <| fn := v |>)
          (double_field "accuracy" (fun v m => m <| accuracy := v |>)
            (double_field "precision" (fun v m => m <| precision := v |>)
              (double_field "recall" (fun v m => m <| recall := v |>)
                (double_field "f1" (fun v m => m <| f1 := v |>) (fun o => (true, o))))))))))%string out.

Definition with_error (text : string) (out : calibration_result) : calibration_result :=
  default out (set_error (Some out) text).

(** [calibration_load_result] once the text is in memory. *)
Definition load_fields (json : string) (out : calibration_result) : Z * calibration_result :=
  let root := mk_json_range json (String.length json) in
  let '(rc, error_text) := extract_string root "error" CALIBRATION_ERROR_MESSAGE_MAX in
  let out := if rc =? CALIBRATION_OK then with_error (c_str error_text) out else out in
  let '(rc, status) := extract_string root "status" 32 in
  if negb (rc =? CALIBRATION_OK) then (CALIBRATION_ERR_JSON, with_error "result JSON missing string field: status" out)
  else
    let out := out <| status_success := str_eq status "success" |> in
    if negb (status_success out) then
      (CALIBRATION_ERR_REJECTED,
       if String.eqb (c_str (error_message out)) "" then with_error ("calibration worker status is '" +:+ c_str status +:+ "'") out else out)
    else
      match extract_object root "acceptance" with
      | inl _ => (CALIBRATION_ERR_JSON, with_error "result JSON missing acceptance.passed" out)
      | inr acceptance =>
          match extract_bool acceptance "passed" with
          | inl _ => (CALIBRATION_ERR_JSON, with_error "result JSON missing acceptance.passed" out)
          | inr passed =>
              let out := out <| acceptance_passed := passed |> in
              if negb (acceptance_passed out) then (CALIBRATION_ERR_REJECTED, with_error "calibration acceptance gate failed" out)
              else
                match extract_array root "bank_masks" with
                | inl _ => (CALIBRATION_ERR_JSON, with_error "result JSON missing bank_masks" out)
                | inr masks =>
                    let '(rc, out) := parse_bank_masks masks out in
                    if negb (rc =? CALIBRATION_OK) then (rc, with_error "invalid or empty bank_masks array" out)
                    else
                      let '(rc, id) := extract_string root "mask_set_id" CALIBRATION_MASK_SET_ID_MAX in
                      let out := out <| mask_set_id := id |> in
                      if negb (rc =? CALIBRATION_OK) then (CALIBRATION_ERR_JSON, with_error "result JSON missing mask_set_id" out)
                      else
                        match extract_object root "metrics" with
                        | inl _ => (CALIBRATION_ERR_JSON, with_error "result JSON missing metrics.holdout" out)
                        | inr metrics =>
                            match extract_object metrics "holdout" with
                            | inl _ => (CALIBRATION_ERR_JSON, with_error "result JSON missing metrics.holdout" out)
                            | inr holdout =>
                                let '(ok, out) := load_metrics holdout out in
                                if negb ok then (CALIBRATION_ERR_JSON, with_error "invalid metrics.holdout object" out)
                                else (CALIBRATION_OK, out)
                            end
                        end
                end
          end
      end.

(** [None] is NULL. *)
Definition calibration_load_result {W} `{OS W} `{BinFile W} (result_path : option string) (out : option calibration_result) (w : W)
  : Z * option calibration_result * W :=
  match result_path, out with
  | Some path, Some _ =>
      let out := calibration_result_reset out in
      let '(res, w) := read_file_limited path w in
      match res with
      | inl rc => (rc, set_error out ("cannot read result JSON: " +:+ c_str path), w)
      | inr json =>
          match out with
          | None => (CALIBRATION_ERR_INVALID_ARG, out, w)
          | Some o => let '(rc, o) := load_fields json o in (rc, Some o, w)
          end
      end
  | _, _ => (CALIBRATION_ERR_INVALID_ARG, out, w)
  end.

(** ** A document *)

Definition q (s : string) : string := String dquote (s +:+ String dquote EmptyString).

(** A result as the worker writes it, with its keys sorted. *)
Definition demo_json : string :=
  "{ " +:+ q "acceptance" +:+ ": {" +:+ q "passed" +:+ ": true}, " +:+
  q "bank_masks" +:+ ": [" +:+ q "0x0000000000002040" +:+ ", " +:+ q "0x0000000000024000" +:+ "], " +:+
  q "mask_set_id" +:+ ": " +:+ q "6f1ed002ab559585" +:+ ", " +:+
  q "metrics" +:+ ": {" +:+ q "holdout" +:+ ": {" +:+ q "accuracy" +:+ ": 0.985, " +:+ q "f1" +:+ ": 0.96, " +:+ q "fn" +:+ ": 3, " +:+
  q "fp" +:+ ": 1, " +:+ q "precision" +:+ ": 0.97, " +:+ q "recall" +:+ ": 0.95, " +:+ q "tn" +:+ ": 180, " +:+ q "tp" +:+ ": 76}}, " +:+
  q "status" +:+ ": " +:+ q "success" +:+ "}".

Example demo_json_loaded :
  let '(rc, r) := load_fields demo_json (default (mk_calibration_result false false [] 0 "" calibration_metrics_zero 0 "")
    (calibration_result_reset (Some (mk_calibration_result false false [] 0 "" calibration_metrics_zero 0 "")))) in
  rc = CALIBRATION_OK /\ take 2 (bank_masks r) = [8256; 147456] /\ bank_mask_count r = 2 /\ mask_set_id r = "6f1ed002ab559585"%string /\
  holdout r = mk_calibration_metrics 76 180 1 3 (dlit 985 1000) (dlit 97 100) (dlit 95 100) (dlit 96 100).
Proof. vm_compute. repeat split. Qed.
