(* ===== verification/CalibrationRun.v ===== *)
(** * Running the calibration worker ([calibration.c])

    The daemon starts the worker in a process group of its own, waits for it with
    a timeout, kills the group when the time is up, and loads the result.  The
    calls on processes are an interface; [fork] returns twice, and the two sides
    are two functions: [launch_worker] is the daemon's, [worker_main] the
    child's.  Loops that poll take fuel; [CalibrationWait] proves how much is
    enough. *)
From S2P Require Import Prelude Float64 CString Strto Os Calibration CalibrationLoad.
From Stdlib Require Import Ascii String.
Local Open Scope Z_scope.

Definition WAIT_POLL_MS : Z := 100.
Definition TERM_GRACE_MS : Z := 2000.
Definition STDOUT_FILENO : Z := 1.
Definition STDERR_FILENO : Z := 2.

(** Strings are [None] when NULL. *)
Record calibration_config := mk_calibration_config {
  worker_path : option string;
  kk_main_path : option string;
  result_path : option string;
  work_dir : option string;
  log_path : option string;
  runs : Z;
  memory_percent : double;
  measurements : Z;
  timing_rounds : Z;
  timeout_sec : Z;
  keep_csv : bool
}.

Inductive errno := EINTR | ENOENT | EACCES | ESRCH | EOTHER (n : Z).

#[export] Instance errno_eq_dec : EqDecision errno.
Proof. solve_decision. Defined.

Inductive signal := SIGTERM | SIGKILL.

(** The status of a child that was reaped: [WIFEXITED], [WIFSIGNALED], neither. *)
Inductive wait_status := WExited (code : Z) | WSignaled (sig : Z) | WOther.

(** [waitpid] of one child: it was reaped, it is still running ([WNOHANG]), or
    the call failed. *)
Inductive waited := Reaped (status : wait_status) | Running | WaitFailed (e : errno).

Class Procs (W : Type) := {
  (** the parent's side of [fork]: the child, or [None] on failure *)
  pr_fork : W -> option Z * W;
  (** [setpgid(pid, pgid)]: [None] on success *)
  pr_setpgid : Z -> Z -> W -> option errno * W;
  (** [waitpid(pid, &status, WNOHANG)] *)
  pr_poll : Z -> W -> waited * W;
  (** [waitpid(pid, NULL, 0)]: [None] when it blocks and never returns *)
  pr_wait : Z -> W -> option (waited * W);
  (** [kill(-pid, sig)] *)
  pr_kill_group : Z -> signal -> W -> W;
  (** [nanosleep(&req, &rem)]: [None] on success, otherwise the error and what remains *)
  pr_nanosleep : Z * Z -> W -> option (errno * (Z * Z)) * W;
  pr_unlink : string -> W -> option errno * W;
  (** [open(path, O_WRONLY | O_CREAT | O_TRUNC, 0640)], [dup2(fd, to)] and [close] *)
  pr_open_log : string -> W -> Z * W;
  pr_dup2 : Z -> Z -> W -> bool * W;
  pr_close : Z -> W -> W;
  pr_strerror : errno -> string
}.

(** A string member that is not empty: [p != NULL && p[0] != '\0']. *)
Definition given_string (s : option string) : bool :=
  match s with None => false | Some t => negb (String.eqb (c_str t) "") end.

Definition validate_config (cfg : option calibration_config) : Z :=
  match cfg with
  | None => CALIBRATION_ERR_INVALID_ARG
  | Some c =>
      if negb (bool_decide (is_Some (worker_path c))) || negb (bool_decide (is_Some (result_path c))) || negb (bool_decide (is_Some (work_dir c)))
      then CALIBRATION_ERR_INVALID_ARG
      else if negb (given_string (worker_path c)) || negb (given_string (result_path c)) || negb (given_string (work_dir c))
        || (runs c =? 0) || (measurements c =? 0) || (timing_rounds c =? 0)
        || dleb (memory_percent c) dzero || dgtb (memory_percent c) (dlit 100 1)
      then CALIBRATION_ERR_INVALID_ARG
      else CALIBRATION_OK
  end.

Section Run.
Context {W : Type} `{HO : OS W} `{HB : BinFile W} `{HP : Procs W}.

(** -1 when the clock cannot be read; the division truncates. *)
Definition monotonic_ms (w : W) : Z * W :=
  let '(ts, w) := os_clock w in
  match ts with
  | None => (-1, w)
  | Some (sec, nsec) => (sec * 1000 + Z.quot nsec 1000000, w)
  end.

(** [while (nanosleep(&req, &req) != 0 && errno == EINTR)]: [None] when the fuel
    runs out. *)
Fixpoint sleep_loop (fuel : nat) (req : Z * Z) (w : W) : option W :=
  match fuel with
  | O => None
  | S fuel =>
      match pr_nanosleep req w with
      | (None, w) => Some w
      | (Some (e, rem), w) => if bool_decide (e = EINTR) then sleep_loop fuel rem w else Some w
      end
  end.

Definition sleep_ms (fuel : nat) (ms : Z) (w : W) : option W :=
  sleep_loop fuel (ms / 1000, (ms mod 1000) * 1000000) w.

(** [while (waitpid(pid, NULL, 0) < 0 && errno == EINTR)]: [None] when the fuel
    runs out or a call never returns. *)
Fixpoint reap_loop (fuel : nat) (pid : Z) (w : W) : option W :=
  match fuel with
  | O => None
  | S fuel =>
      match pr_wait pid w with
      | None => None
      | Some (WaitFailed e, w) => if bool_decide (e = EINTR) then reap_loop fuel pid w else Some w
      | Some (_, w) => Some w
      end
  end.

(** The grace loop: [inl] when the child was reaped, [inr] when it is to be
    killed. *)
Fixpoint grace_loop (fuel : nat) (pid deadline : Z) (w : W) : option (W + W) :=
  match fuel with
  | O => None
  | S fuel =>
      let '(rc, w) := pr_poll pid w in
      match rc with
      | Reaped _ => Some (inl w)
      | _ =>
          if match rc with WaitFailed e => negb (bool_decide (e = EINTR)) | _ => false end then Some (inr w)
          else
            let '(late, w) := if 0 <=? deadline then let '(now, w) := monotonic_ms w in (deadline <=? now, w) else (false, w) in
            if late : bool then Some (inr w)
            else match sleep_ms fuel WAIT_POLL_MS w with None => None | Some w => grace_loop fuel pid deadline w end
      end
  end.

Definition terminate_process_group (fuel : nat) (pid : Z) (w : W) : option W :=
  if pid <=? 0 then Some w
  else
    let w := pr_kill_group pid SIGTERM w in
    let '(deadline, w) := monotonic_ms w in
    let deadline := if 0 <=? deadline then deadline + TERM_GRACE_MS else deadline in
    match grace_loop fuel pid deadline w with
    | None => None
    | Some (inl w) => Some w
    | Some (inr w) => reap_loop fuel pid (pr_kill_group pid SIGKILL w)
    end.

(** The polling loop: the code and [*exit_code], if it was set. *)
Fixpoint wait_loop (fuel : nat) (pid timeout_sec start_ms timeout_ms : Z) (w : W) : option (Z * option Z * W) :=
  match fuel with
  | O => None
  | S fuel =>
      let '(rc, w) := pr_poll pid w in
      match rc with
      | Reaped (WExited code) => Some (CALIBRATION_OK, Some code, w)
      | Reaped (WSignaled sig) => Some (CALIBRATION_OK, Some (128 + sig), w)
      | Reaped WOther => Some (CALIBRATION_ERR_WAIT, None, w)
      | WaitFailed e =>
          if bool_decide (e = EINTR) then wait_loop fuel pid timeout_sec start_ms timeout_ms w else Some (CALIBRATION_ERR_WAIT, None, w)
      | Running =>
          let again w := match sleep_ms fuel WAIT_POLL_MS w with
            | None => None
            | Some w => wait_loop fuel pid timeout_sec start_ms timeout_ms w
            end in
          if 0 <? timeout_sec then
            let '(now_ms, w) := monotonic_ms w in
            if now_ms <? 0 then
              match terminate_process_group fuel pid w with None => None | Some w => Some (CALIBRATION_ERR_WAIT, None, w) end
            else if timeout_ms <=? now_ms - start_ms then
              match terminate_process_group fuel pid w with None => None | Some w => Some (CALIBRATION_ERR_TIMEOUT, None, w) end
            else again w
          else again w
      end
  end.

Definition wait_child (fuel : nat) (pid timeout_sec : Z) (w : W) : option (Z * option Z * W) :=
  if 0 <? timeout_sec then
    let '(start_ms, w) := monotonic_ms w in
    if start_ms <? 0 then Some (CALIBRATION_ERR_WAIT, None, w)
    else wait_loop fuel pid timeout_sec start_ms (timeout_sec * 1000) w
  else wait_loop fuel pid timeout_sec (-1) 0 w.

(** ** The child *)

Definition redirect_child_log (log_path : option string) (w : W) : Z * W :=
  match log_path with
  | None => (CALIBRATION_OK, w)
  | Some path =>
      let '(fd, w) := pr_open_log path w in
      if fd <? 0 then (CALIBRATION_ERR_IO, w)
      else
        let '(ok, w) := pr_dup2 fd STDOUT_FILENO w in
        let '(ok, w) := if ok : bool then pr_dup2 fd STDERR_FILENO w else (false, w) in
        if negb ok then (CALIBRATION_ERR_IO, pr_close fd w)
        else if negb (fd =? STDOUT_FILENO) && negb (fd =? STDERR_FILENO) then (CALIBRATION_OK, pr_close fd w)
        else (CALIBRATION_OK, w)
  end.

(** The program the child becomes, with its arguments; [_exit(127)] follows a
    failed [execv]. *)
Inductive child_end := ChildExit (code : Z) | ChildExec (path : string) (argv : list string).

Definition text_of (s : option string) : string := c_str (default EmptyString s).

Definition worker_argv (cfg : calibration_config) : list string :=
  let runs_buf := snprintf 32 (dec (runs cfg)) in
  let mem_buf := snprintf 64 (fmt_g 6 (memory_percent cfg)) in
  let measurements_buf := snprintf 32 (dec (measurements cfg)) in
  let timing_rounds_buf := snprintf 32 (dec (timing_rounds cfg)) in
  [ text_of (worker_path cfg); "--runs"; runs_buf; "--memory-percent"; mem_buf; "--measurements"; measurements_buf;
    "--timing-rounds"; timing_rounds_buf; "--work-dir"; text_of (work_dir cfg); "--output"; text_of (result_path cfg) ]%string
  ++ (if given_string (kk_main_path cfg) then ["--kk-main"%string; text_of (kk_main_path cfg)] else [])
  ++ (if keep_csv cfg then ["--keep-csv"%string] else []).

Definition worker_main (cfg : calibration_config) (w : W) : child_end * W :=
  let '(err, w) := pr_setpgid 0 0 w in
  match err with
  | Some _ => (ChildExit 126, w)
  | None =>
      let '(rc, w) := redirect_child_log (log_path cfg) w in
      if negb (rc =? CALIBRATION_OK) then (ChildExit 126, w)
      else (ChildExec (text_of (worker_path cfg)) (worker_argv cfg), w)
  end.

(** ** The daemon *)

(** The code and [*child_pid]; the configuration is the child's concern. *)
Definition launch_worker (fuel : nat) (w : W) : option (Z * Z * W) :=
  let '(pid, w) := pr_fork w in
  match pid with
  | None => Some (CALIBRATION_ERR_FORK, 0, w)
  | Some pid =>
      let '(err, w) := pr_setpgid pid pid w in
      if match err with Some e => negb (bool_decide (e = EACCES)) && negb (bool_decide (e = ESRCH)) | None => false end then
        match terminate_process_group fuel pid w with None => None | Some w => Some (CALIBRATION_ERR_FORK, 0, w) end
      else Some (CALIBRATION_OK, pid, w)
  end.

(** [None]: out of fuel, or blocked for ever in [waitpid]. *)
Definition calibration_run (fuel : nat) (cfg : option calibration_config) (out : option calibration_result) (w : W)
  : option (Z * option calibration_result * W) :=
  match out with
  | None => Some (CALIBRATION_ERR_INVALID_ARG, None, w)
  | Some _ =>
      let out := calibration_result_reset out in
      let rc := validate_config cfg in
      match cfg with
      | None => Some (rc, set_error out "invalid calibration configuration", w)
      | Some c =>
          if negb (rc =? CALIBRATION_OK) then Some (rc, set_error out "invalid calibration configuration", w)
          else
            let path := text_of (result_path c) in
            let '(err, w) := pr_unlink path w in
            if match err with Some e => negb (bool_decide (e = ENOENT)) | None => false end then
              Some (CALIBRATION_ERR_IO,
                    set_error out ("cannot remove stale result '" +:+ path +:+ "': " +:+ pr_strerror (default (EOTHER 0) err)), w)
            else
              match launch_worker fuel w with
              | None => None
              | Some (rc, pid, w) =>
                  if negb (rc =? CALIBRATION_OK) then
                    Some (rc, set_error out ("cannot launch calibration worker '" +:+ text_of (worker_path c) +:+ "'"), w)
                  else
                    match wait_child fuel pid (timeout_sec c) w with
                    | None => None
                    | Some (rc, code, w) =>
                        let code := default (-1) code in
                        let put_code (o : option calibration_result) := match o with Some o => Some (o <| worker_exit_code := code |>) | None => None end in
                        let out := put_code out in
                        if negb (rc =? CALIBRATION_OK) then
                          Some (rc, if rc =? CALIBRATION_ERR_TIMEOUT
                                    then set_error out ("calibration timed out after " +:+ dec (timeout_sec c) +:+ " seconds")
                                    else set_error out "failed while waiting for calibration worker", w)
                        else
                          let '(load_rc, out, w) := calibration_load_result (Some path) out w in
                          let out := put_code out in
                          if negb (code =? 0) then
                            if load_rc =? CALIBRATION_ERR_REJECTED then Some (CALIBRATION_ERR_REJECTED, out, w)
                            else
                              Some (CALIBRATION_ERR_WORKER_EXIT,
                                    if match out with Some o => String.eqb (c_str (error_message o)) "" | None => false end
                                    then set_error out ("calibration worker exited with code " +:+ dec code) else out, w)
                          else Some (load_rc, out, w)
                    end
              end
      end
  end.
End Run.
