(* ===== verification/CalibrationWait.v ===== *)
(** * The calibration run ends

    With a timeout configured, running the worker comes to an end whatever the
    worker does: the polling loop is left when the time is up, and ending the
    process group takes a bounded grace period, after which the group is killed
    and the blocking [waitpid] returns.  What is assumed of the kernel is what
    POSIX documents of the clock, of [nanosleep], of interrupted calls and of
    SIGKILL: a child that was not killed may be waited for for ever. *)
From S2P Require Import Prelude Float64 CString Os Calibration CalibrationLoad CalibrationRun.
From Stdlib Require Import Ascii String.
Local Open Scope Z_scope.

(** A time as [nanosleep] takes it, and its length. *)
Definition valid_time (t : Z * Z) : Prop := 0 <= t.1 /\ 0 <= t.2 < 1000000000.
Definition ns_of (t : Z * Z) : Z := t.1 * 1000000000 + t.2.

(** What the calls may do. Time does not run backwards, no signal is added, and a
    call that was interrupted used one up. A child leads a group of its own once
    the parent has called [setpgid] on it: if that call comes too late or fails,
    the child has made itself the leader, since this is the first thing it does
    ([worker_main]), or it is over. Only a SIGKILL to the group it leads dooms a
    child, and only a doomed child is sure to be reaped: [waitpid] may block for
    ever on any other. *)
Class ProcLaws (W : Type) `{OS W} `{Procs W} := {
  now_ns : W -> Z;
  signals_left : W -> nat;
  leads : Z -> W -> Prop;
  doomed : Z -> W -> Prop;
  later w w' := now_ns w <= now_ns w' /\ (signals_left w' <= signals_left w)%nat /\
    (forall pid, leads pid w -> leads pid w') /\ (forall pid, doomed pid w -> doomed pid w');
  pl_clock w : exists s n, (os_clock w).1 = Some (s, n) /\ 0 <= s /\ 0 <= n < 1000000000 /\ s * 1000000000 + n = now_ns w /\ later w (os_clock w).2;
  pl_sleep req w : valid_time req ->
    match pr_nanosleep req w with
    | (None, w') => later w w' /\ now_ns w + ns_of req <= now_ns w'
    | (Some (e, rem), w') => later w w' /\ e = EINTR /\ valid_time rem /\
        now_ns w + ns_of req <= now_ns w' + ns_of rem /\ (signals_left w' < signals_left w)%nat
    end;
  pl_poll pid w : later w (pr_poll pid w).2 /\
    ((pr_poll pid w).1 = WaitFailed EINTR -> (signals_left (pr_poll pid w).2 < signals_left w)%nat);
  pl_wait pid w : match pr_wait pid w with
    | Some (rc, w') => later w w' /\ (rc = WaitFailed EINTR -> (signals_left w' < signals_left w)%nat)
    | None => ~ doomed pid w
    end;
  pl_kill pid s w : later w (pr_kill_group pid s w) /\ (s = SIGKILL -> leads pid w -> doomed pid (pr_kill_group pid s w));
  pl_fork w : later w (pr_fork w).2;
  pl_setpgid p g w : later w (pr_setpgid p g w).2 /\ (p = g -> leads p (pr_setpgid p g w).2);
  pl_unlink path w : later w (pr_unlink path w).2
}.

Section Wait.
Context {W : Type} {HO : OS W} {HP : Procs W} {PL : ProcLaws W}.
Implicit Types w : W.

Lemma later_refl w : later w w.
Proof. unfold later. conjs; try done; lia. Qed.

Lemma later_trans w1 w2 w3 : later w1 w2 -> later w2 w3 -> later w1 w3.
Proof. unfold later. intros (H1 & H2 & H3 & H4) (K1 & K2 & K3 & K4). conjs; [lia|lia|auto..]. Qed.

Lemma later_signals w w' : later w w' -> (signals_left w' <= signals_left w)%nat.
Proof. by intros (_ & ? & _). Qed.

Lemma later_leads w w' pid : later w w' -> leads pid w -> leads pid w'.
Proof. intros (_ & _ & Hl & _). apply Hl. Qed.

Lemma later_doomed w w' pid : later w w' -> doomed pid w -> doomed pid w'.
Proof. intros (_ & _ & _ & Hd). apply Hd. Qed.

(** The clock in milliseconds. *)
Definition now_ms w : Z := now_ns w / 1000000.

Lemma now_ms_mono w w' : later w w' -> now_ms w <= now_ms w'.
Proof. intros [Hl _]. unfold now_ms. apply Z.div_le_mono; lia. Qed.

Lemma monotonic_reads w : exists w', monotonic_ms w = (now_ms w, w') /\ later w w' /\ 0 <= now_ms w.
Proof.
  unfold monotonic_ms. destruct (pl_clock w) as (s & n & E & Hs & Hn & Hnow & Hl). destruct (os_clock w) as [ts w'] eqn:Ec. cbn [fst snd] in *. subst ts.
  exists w'. assert (E : s * 1000 + Z.quot n 1000000 = now_ms w).
  { unfold now_ms. rewrite <- Hnow, Z.quot_div_nonneg by lia. replace (s * 1000000000 + n) with (n + (s * 1000) * 1000000) by lia.
    rewrite Z.div_add by lia. lia. }
  rewrite E. split; [done|]. split; [done|]. unfold now_ms. apply Z.div_pos; lia.
Qed.

(** Interruptions are used up, and the whole time is slept. *)
Lemma sleep_loop_ends fuel : forall req w, valid_time req -> (signals_left w < fuel)%nat ->
  exists w', sleep_loop fuel req w = Some w' /\ now_ns w + ns_of req <= now_ns w' /\ later w w'.
Proof.
  induction fuel as [|fuel IH]; intros req w Hv Hf; [lia|]. cbn [sleep_loop]. pose proof (pl_sleep req w Hv) as Hs.
  destruct (pr_nanosleep req w) as [[[e rem]|] w1].
  - destruct Hs as (Hl & -> & Hv' & H2 & H3). rewrite bool_decide_true by done.
    destruct (IH rem w1 Hv' ltac:(lia)) as (w' & -> & H4 & H5). exists w'. split; [done|]. split; [lia|]. by eapply later_trans.
  - exists w1. split; [done|]. by destruct Hs.
Qed.

Lemma sleep_poll fuel w : (signals_left w < fuel)%nat ->
  exists w', sleep_ms fuel WAIT_POLL_MS w = Some w' /\ now_ms w + WAIT_POLL_MS <= now_ms w' /\ later w w'.
Proof.
  intros Hf. destruct (sleep_loop_ends fuel (0, 100000000) w ltac:(split; cbn; lia) Hf) as (w' & E & H1 & H2).
  exists w'. split; [exact E|]. unfold now_ms, WAIT_POLL_MS, ns_of in *. cbn in H1. split; [|done].
  replace (now_ns w / 1000000 + 100) with ((now_ns w + 100 * 1000000) / 1000000) by (rewrite Z.div_add by lia; lia).
  apply Z.div_le_mono; lia.
Qed.

(** The turns a polling loop may still take before [limit] (in ms). *)
Definition turns w (limit : Z) : nat := (signals_left w + Z.to_nat (limit - now_ms w))%nat.

Lemma turns_later w w' limit : later w w' -> (turns w' limit <= turns w limit)%nat.
Proof. intros Hl. pose proof (now_ms_mono w w' Hl). pose proof (later_signals _ _ Hl). unfold turns. lia. Qed.

Lemma turns_slept w w' limit : now_ms w < limit -> now_ms w + WAIT_POLL_MS <= now_ms w' -> (signals_left w' <= signals_left w)%nat ->
  (turns w' limit < turns w limit)%nat.
Proof. unfold turns, WAIT_POLL_MS. lia. Qed.

(** ** Ending the group *)

Lemma reap_loop_ends fuel pid : forall w, doomed pid w -> (signals_left w < fuel)%nat -> exists w', reap_loop fuel pid w = Some w'.
Proof.
  induction fuel as [|fuel IH]; intros w Hd Hf; [lia|]. cbn [reap_loop]. pose proof (pl_wait pid w) as Hw.
  destruct (pr_wait pid w) as [[[st| |e] w']|]; [by eexists|by eexists| |by destruct (Hw Hd)]. destruct Hw as [Hl Hi].
  case_bool_decide as He; [|by eexists]. subst e. apply IH; [by eapply later_doomed|]. specialize (Hi eq_refl). lia.
Qed.

Lemma grace_loop_ends fuel pid deadline : 0 <= deadline -> forall w, (turns w deadline + 1 < fuel)%nat ->
  exists r, grace_loop fuel pid deadline w = Some r /\ later w (match r with inl w' => w' | inr w' => w' end).
Proof.
  intros Hd. induction fuel as [|fuel IH]; intros w Hf; [lia|]. cbn [grace_loop]. destruct (pl_poll pid w) as [Hl Hi].
  destruct (pr_poll pid w) as [rc w1]. cbn [fst snd] in *.
  assert (Hrest : exists r, (let '(late, w2) := if 0 <=? deadline then let '(now, w2) := monotonic_ms w1 in (deadline <=? now, w2) else (false, w1) in
    if late : bool then Some (inr w2) else match sleep_ms fuel WAIT_POLL_MS w2 with None => None | Some w3 => grace_loop fuel pid deadline w3 end) = Some r /\
    later w (match r with inl w' => w' | inr w' => w' end)).
  { destruct (Z.leb_spec 0 deadline); [|lia]. destruct (monotonic_reads w1) as (w2 & -> & Hl2 & _). pose proof (later_trans _ _ _ Hl Hl2) as Hl3.
    destruct (Z.leb_spec deadline (now_ms w1)); [by eexists|]. pose proof (turns_later w w2 deadline Hl3) as Ht.
    pose proof (later_signals _ _ Hl3) as Hs2.
    destruct (sleep_poll fuel w2) as (w3 & -> & H1 & Hl4); [unfold turns in *; lia|].
    assert (Hturn : (turns w3 deadline < turns w deadline)%nat).
    { destruct (Z_lt_le_dec (now_ms w2) deadline) as [Hlt|Hge]; [pose proof (turns_slept w2 w3 deadline Hlt H1 (later_signals _ _ Hl4)); lia|].
      pose proof (now_ms_mono _ _ Hl). pose proof (now_ms_mono _ _ Hl4). pose proof (later_signals _ _ Hl4). unfold turns in *. lia. }
    destruct (IH w3 ltac:(lia)) as (r & Hr & Hl5). exists r. split; [exact Hr|]. eapply later_trans; [exact Hl3|]. eapply later_trans; [exact Hl4|exact Hl5]. }
  destruct rc as [st| |e]; [by eexists|exact Hrest|]. destruct (negb (bool_decide (e = EINTR))); [by eexists|exact Hrest].
Qed.

(** Turns enough to end a group: its grace period and a few more. *)
Definition grace_turns : nat := Z.to_nat (TERM_GRACE_MS + 4).

Lemma terminate_ends fuel pid w : leads pid w -> (signals_left w + grace_turns <= fuel)%nat -> exists w', terminate_process_group fuel pid w = Some w'.
Proof.
  unfold grace_turns, TERM_GRACE_MS. intros Hlead Hf. unfold terminate_process_group. destruct (pid <=? 0); [by eexists|].
  pose proof (proj1 (pl_kill pid SIGTERM w)) as Hk. set (w1 := pr_kill_group pid SIGTERM w) in *.
  destruct (monotonic_reads w1) as (w2 & -> & Hl & Hnow). destruct (Z.leb_spec 0 (now_ms w1)); [|lia].
  destruct (grace_loop_ends fuel pid (now_ms w1 + TERM_GRACE_MS) ltac:(unfold TERM_GRACE_MS; lia) w2) as (r & -> & Hr).
  { pose proof (now_ms_mono _ _ Hl). pose proof (later_signals _ _ Hk). pose proof (later_signals _ _ Hl). unfold turns, TERM_GRACE_MS. lia. }
  destruct r as [w3|w3]; [by eexists|]. pose proof (later_trans _ _ _ Hk (later_trans _ _ _ Hl Hr)) as H3. destruct (pl_kill pid SIGKILL w3) as [H4 H5].
  apply reap_loop_ends; [apply H5; [done|by eapply later_leads]|]. pose proof (later_signals _ _ H3). pose proof (later_signals _ _ H4). lia.
Qed.

(** ** Waiting *)

(** Turns enough to wait for a worker. *)
Definition wait_turns (timeout_sec : Z) : nat := (Z.to_nat (timeout_sec * 1000) + grace_turns + 1)%nat.

Lemma wait_loop_ends fuel pid timeout_sec start_ms timeout_ms : 0 < timeout_sec ->
  forall w, leads pid w -> (turns w (start_ms + timeout_ms) + grace_turns < fuel)%nat ->
  exists rc code w', wait_loop fuel pid timeout_sec start_ms timeout_ms w = Some (rc, code, w') /\
    (rc = CALIBRATION_OK -> is_Some code) /\ (rc <> CALIBRATION_OK -> code = None).
Proof.
  intros Ht. induction fuel as [|fuel IH]; intros w Hlead Hf; [lia|]. cbn [wait_loop]. destruct (pl_poll pid w) as [Hl Hi].
  destruct (pr_poll pid w) as [rc w1]. cbn [fst snd] in *. pose proof (turns_later w w1 (start_ms + timeout_ms) Hl) as Ht1.
  destruct rc as [[code|sig|]| |e]; [by eexists _, _, _|by eexists _, _, _|by eexists _, _, _| |].
  2:{ case_bool_decide as He; [|by eexists _, _, _]. subst e. apply IH; [by eapply later_leads|]. specialize (Hi eq_refl). pose proof (now_ms_mono _ _ Hl).
      unfold turns in *. lia. }
  destruct (Z.ltb_spec 0 timeout_sec); [|lia]. destruct (monotonic_reads w1) as (w2 & -> & Hl2 & Hnow).
  destruct (Z.ltb_spec (now_ms w1) 0); [lia|]. pose proof (turns_later w1 w2 (start_ms + timeout_ms) Hl2) as Ht2. pose proof (later_signals _ _ Hl2) as Hs2. pose proof (later_trans _ _ _ Hl Hl2) as Hl02.
  destruct (Z.leb_spec timeout_ms (now_ms w1 - start_ms)) as [Hlate|Hearly].
  - destruct (terminate_ends fuel pid w2) as (w3 & ->); [by eapply later_leads|unfold turns in *; lia|]. by eexists _, _, _.
  - destruct (sleep_poll fuel w2) as (w3 & -> & H1 & Hl3); [unfold turns in *; lia|]. apply IH; [eapply later_leads; [exact (later_trans _ _ _ Hl02 Hl3)|done]|].
    pose proof (now_ms_mono _ _ Hl2). pose proof (later_signals _ _ Hl3). pose proof (later_signals _ _ Hl). pose proof (now_ms_mono _ _ Hl).
    unfold turns, WAIT_POLL_MS in *. lia.
Qed.

Lemma wait_child_ends fuel pid timeout_sec w : 0 < timeout_sec -> leads pid w -> (signals_left w + wait_turns timeout_sec <= fuel)%nat ->
  exists rc code w', wait_child fuel pid timeout_sec w = Some (rc, code, w') /\
    (rc = CALIBRATION_OK -> is_Some code) /\ (rc <> CALIBRATION_OK -> code = None).
Proof.
  intros Ht Hlead Hf. unfold wait_child. destruct (Z.ltb_spec 0 timeout_sec); [|lia]. destruct (monotonic_reads w) as (w1 & -> & Hl & Hnow).
  destruct (Z.ltb_spec (now_ms w) 0); [lia|]. apply wait_loop_ends; [done|by eapply later_leads|]. pose proof (now_ms_mono _ _ Hl). pose proof (later_signals _ _ Hl).
  unfold turns, wait_turns in *. lia.
Qed.

(** ** The run *)

Context {HB : BinFile W}.

(** The signals that are left when the worker is waited for, which leads its group. *)
Lemma launch_ends fuel w : (signals_left w + grace_turns <= fuel)%nat ->
  exists rc pid' w', launch_worker fuel w = Some (rc, pid', w') /\ (rc = CALIBRATION_OK -> (signals_left w' <= signals_left w)%nat /\ leads pid' w').
Proof.
  intros Hf. unfold launch_worker. pose proof (later_signals _ _ (pl_fork w)) as Hs. destruct (pr_fork w) as [[pid|] w1]; [|by eexists _, _, _].
  cbn [snd] in Hs. destruct (pl_setpgid pid pid w1) as [Hs1%later_signals Hlead]. specialize (Hlead eq_refl). destruct (pr_setpgid pid pid w1) as [err w2]. cbn [snd] in Hs1, Hlead.
  assert (Hok : exists rc pid' w', Some (CALIBRATION_OK, pid, w2) = Some (rc, pid', w') /\ (rc = CALIBRATION_OK -> (signals_left w' <= signals_left w)%nat /\ leads pid' w'))
    by (eexists _, _, _; split; [done|split; [lia|done]]).
  assert (Hend : exists rc pid' w', (match terminate_process_group fuel pid w2 with None => None | Some w3 => Some (CALIBRATION_ERR_FORK, 0, w3) end) = Some (rc, pid', w') /\
    (rc = CALIBRATION_OK -> (signals_left w' <= signals_left w)%nat /\ leads pid' w')).
  { destruct (terminate_ends fuel pid w2) as (w3 & ->); [done|lia|]. by eexists _, _, _. }
  destruct err as [e|]; [|exact Hok]. destruct (_ && _); [exact Hend|exact Hok].
Qed.

(** C24: with a timeout configured the calibration always comes to an end: whatever
    the worker does (it may hang, ignore SIGTERM or never be reaped before the
    time is up), the run returns a code within a number of turns given by the
    timeout, the grace period and the signals that interrupt it. The blocking
    [waitpid] at its end is only made on a child whose group was killed; on
    any other child it might not return. *)
Theorem calibration_run_ends fuel c out w : 0 < timeout_sec c -> (signals_left w + wait_turns (timeout_sec c) <= fuel)%nat ->
  exists rc r w', calibration_run fuel (Some c) (Some out) w = Some (rc, Some r, w').
Proof.
  intros Ht Hf. unfold calibration_run. cbn [calibration_result_reset]. destruct (negb (validate_config (Some c) =? CALIBRATION_OK)); [by eexists _, _, _|].
  pose proof (later_signals _ _ (pl_unlink (text_of (result_path c)) w)) as Hs. destruct (pr_unlink _ w) as [err w1]. cbn [snd] in Hs.
  destruct (match err with Some e => negb (bool_decide (e = ENOENT)) | None => false end); [by eexists _, _, _|].
  assert (Hg : (grace_turns <= wait_turns (timeout_sec c))%nat) by (unfold wait_turns; lia).
  destruct (launch_ends fuel w1 ltac:(lia)) as (rc & pid & w2 & -> & Hs2). destruct (Z.eqb_spec rc CALIBRATION_OK) as [->|]; cbn [negb]; [|by eexists _, _, _].
  specialize (Hs2 eq_refl) as [Hs2 Hlead]. destruct (wait_child_ends fuel pid (timeout_sec c) w2 Ht Hlead ltac:(lia)) as (rc2 & code & w3 & -> & _).
  destruct (negb (rc2 =? CALIBRATION_OK)); [destruct (rc2 =? CALIBRATION_ERR_TIMEOUT); by eexists _, _, _|].
  unfold calibration_load_result. cbn [calibration_result_reset]. destruct (read_file_limited _ w3) as [[rc3|json] w4]; cbn [set_error].
  - destruct (negb _); [|by eexists _, _, _]. destruct (_ =? CALIBRATION_ERR_REJECTED); [by eexists _, _, _|]. destruct (String.eqb _ _); by eexists _, _, _.
  - destruct (load_fields json _) as [rc3 o]. destruct (negb _); [|by eexists _, _, _]. destruct (_ =? CALIBRATION_ERR_REJECTED); [by eexists _, _, _|].
    destruct (String.eqb _ _); by eexists _, _, _.
Qed.
End Wait.
