(* ===== verification/DramMapping.v ===== *)
(** * Physical address to bank class ([dram_mapping.h], [dram_mapping.c])

    A mapping holds up to 32 parity masks; bit [i] of an address's bank class is
    the parity of [address & masks[i]]. *)
From S2P Require Import Prelude Float64 CString Calibration.
From Stdlib Require Import Ascii String.
Local Open Scope Z_scope.

(** ** Data *)

Definition DRAM_MAPPING_MAX_MASKS : Z := CALIBRATION_MAX_BANK_MASKS.
Definition DRAM_MAPPING_MASK_SET_ID_MAX : Z := CALIBRATION_MASK_SET_ID_MAX.

Definition DRAM_MAPPING_OK : Z := 0.
Definition DRAM_MAPPING_ERR_INVALID_ARG : Z := -1.
Definition DRAM_MAPPING_ERR_NOT_READY : Z := -2.
Definition DRAM_MAPPING_ERR_CALIBRATION_REJECTED : Z := -3.
Definition DRAM_MAPPING_ERR_MASK_COUNT : Z := -4.
Definition DRAM_MAPPING_ERR_ZERO_MASK : Z := -5.
Definition DRAM_MAPPING_ERR_DUPLICATE_MASK : Z := -6.
Definition DRAM_MAPPING_ERR_MASK_SET_ID : Z := -7.

(** [masks] is the array of 32 words; [mask_set_id] the bytes of its array. *)
Record dram_mapping := mk_dram_mapping {
  masks : list Z;
  mask_count : Z;
  mask_set_id : string;
  ready : bool
}.

#[export] Instance dram_mapping_settable : Settable dram_mapping :=
  fun m => mk_dram_mapping (masks m) (mask_count m) (mask_set_id m) (ready m).

(** ** Operations *)

Fixpoint bounded_strlen_loop (fuel : nat) (s : string) (n : Z) : Z :=
  match fuel with
  | O => n
  | S fuel' => if Ascii.eqb (char_at s (Z.to_nat n)) NUL then n
               else bounded_strlen_loop fuel' s (n + 1)
  end.

Definition bounded_strlen (s : option string) (max_len : Z) : Z :=
  match s with
  | None => 0
  | Some s => bounded_strlen_loop (Z.to_nat max_len) s 0
  end.

(** [__builtin_parityll]: the number of one bits modulo 2. *)
Fixpoint pos_parity (p : positive) : bool :=
  match p with
  | xH => true
  | xO p' => pos_parity p'
  | xI p' => negb (pos_parity p')
  end.

Definition builtin_parityll (v : Z) : bool :=
  match v with Zpos p => pos_parity p | _ => false end.

Definition parity64 (value : Z) : Z := Z.b2z (builtin_parityll value).

(** The portable fallback of the [#else] branch. *)
Definition parity64_portable (value : Z) : Z :=
  let value := Z.lxor value (Z.shiftr value 32) in
  let value := Z.lxor value (Z.shiftr value 16) in
  let value := Z.lxor value (Z.shiftr value 8) in
  let value := Z.lxor value (Z.shiftr value 4) in
  Z.land (Z.shiftr 27030 (Z.land value 15)) 1.

Definition dram_mapping_zero : dram_mapping := mk_dram_mapping (replicate 32 0) 0 "" false.

Definition dram_mapping_reset (mapping : option dram_mapping) : option dram_mapping :=
  match mapping with
  | None => None
  | Some _ => Some dram_mapping_zero
  end.

Definition dram_mapping_is_ready (mapping : option dram_mapping) : bool :=
  match mapping with
  | None => false
  | Some m => ready m && (0 <? mask_count m)
  end.

(** The loops over [bank_masks]: reject a zero mask, then a mask equal to an
    earlier one.  [i] is the next index, [n] the iterations left. *)
Fixpoint validate_masks (n : nat) (ms : list Z) (i : nat) : Z :=
  match n with
  | O => DRAM_MAPPING_OK
  | S n' =>
      let m := nth i ms 0 in
      if m =? 0 then DRAM_MAPPING_ERR_ZERO_MASK
      else if existsb (Z.eqb m) (take i ms) then DRAM_MAPPING_ERR_DUPLICATE_MASK
      else validate_masks n' ms (S i)
  end.

Definition validate_calibration_result (result : option calibration_result) : Z :=
  match result with
  | None => DRAM_MAPPING_ERR_INVALID_ARG
  | Some r =>
      if negb (status_success r) || negb (acceptance_passed r)
      then DRAM_MAPPING_ERR_CALIBRATION_REJECTED
      else if (bank_mask_count r =? 0) || (DRAM_MAPPING_MAX_MASKS <? bank_mask_count r)
      then DRAM_MAPPING_ERR_MASK_COUNT
      else
        let id_len := bounded_strlen (Some (Calibration.mask_set_id r)) DRAM_MAPPING_MASK_SET_ID_MAX in
        if (id_len =? 0) || (DRAM_MAPPING_MASK_SET_ID_MAX <=? id_len)
        then DRAM_MAPPING_ERR_MASK_SET_ID
        else validate_masks (Z.to_nat (bank_mask_count r)) (bank_masks r) 0
  end.

Definition dram_mapping_init_from_calibration
    (mapping : option dram_mapping) (result : option calibration_result) : Z * option dram_mapping :=
  match mapping, result with
  | Some _, Some r =>
      let mapping := dram_mapping_zero in
      let rc := validate_calibration_result result in
      if negb (rc =? DRAM_MAPPING_OK) then (rc, Some mapping)
      else
        let n := Z.to_nat (bank_mask_count r) in
        let mapping := mapping <| masks := take n (bank_masks r) ++ drop n (masks mapping) |> in
        let mapping := mapping <| mask_count := bank_mask_count r |> in
        let id_len := bounded_strlen (Some (Calibration.mask_set_id r)) DRAM_MAPPING_MASK_SET_ID_MAX in
        let mapping := mapping <| mask_set_id := str_take (Z.to_nat id_len) (Calibration.mask_set_id r) |> in
        (DRAM_MAPPING_OK, Some (mapping <| ready := true |>))
  | _, _ => (DRAM_MAPPING_ERR_INVALID_ARG, mapping)
  end.

(** The loop [for (i = 0; i < mask_count; ++i) bank_class |= bit << i]. *)
Fixpoint bank_class_loop (n : nat) (ms : list Z) (pa : Z) (i : nat) (bank_class : Z) : Z :=
  match n with
  | O => bank_class
  | S n' =>
      let bit := parity64 (Z.land pa (nth i ms 0)) in
      bank_class_loop n' ms pa (S i) (Z.lor bank_class (u64 (Z.shiftl bit (Z.of_nat i))))
  end.

Definition dram_mapping_bank_class_fast (mapping : dram_mapping) (physical_address : Z) : Z :=
  bank_class_loop (Z.to_nat (mask_count mapping)) (masks mapping) physical_address 0 0.

(** [bank_class_out]: [None] is a NULL pointer, [Some v] the variable's value. *)
Definition dram_mapping_bank_class (mapping : option dram_mapping) (physical_address : Z)
    (bank_class_out : option Z) : Z * option Z :=
  match mapping, bank_class_out with
  | Some m, Some _ =>
      if negb (dram_mapping_is_ready mapping) then (DRAM_MAPPING_ERR_NOT_READY, bank_class_out)
      else (DRAM_MAPPING_OK, Some (dram_mapping_bank_class_fast m physical_address))
  | _, _ => (DRAM_MAPPING_ERR_INVALID_ARG, bank_class_out)
  end.

Fixpoint same_class_loop (n : nat) (ms : list Z) (diff : Z) (i : nat) : bool :=
  match n with
  | O => true
  | S n' =>
      if negb (parity64 (Z.land diff (nth i ms 0)) =? 0) then false
      else same_class_loop n' ms diff (S i)
  end.

Definition dram_mapping_same_bank_class (mapping : option dram_mapping) (pa1 pa2 : Z)
    (same_out : option bool) : Z * option bool :=
  match mapping, same_out with
  | Some m, Some _ =>
      if negb (dram_mapping_is_ready mapping) then (DRAM_MAPPING_ERR_NOT_READY, same_out)
      else (DRAM_MAPPING_OK,
            Some (same_class_loop (Z.to_nat (mask_count m)) (masks m) (Z.lxor pa1 pa2) 0))
  | _, _ => (DRAM_MAPPING_ERR_INVALID_ARG, same_out)
  end.

Definition dram_mapping_strerror (rc : Z) : string :=
  switch rc [
    (DRAM_MAPPING_OK, "success");
    (DRAM_MAPPING_ERR_INVALID_ARG, "invalid argument");
    (DRAM_MAPPING_ERR_NOT_READY, "DRAM mapping is not ready");
    (DRAM_MAPPING_ERR_CALIBRATION_REJECTED, "calibration result was not accepted");
    (DRAM_MAPPING_ERR_MASK_COUNT, "invalid bank-mask count");
    (DRAM_MAPPING_ERR_ZERO_MASK, "zero bank mask is not allowed");
    (DRAM_MAPPING_ERR_DUPLICATE_MASK, "duplicate bank mask");
    (DRAM_MAPPING_ERR_MASK_SET_ID, "invalid mask-set id")
  ]%string "unknown DRAM-mapping error"%string.


(** ** Parity *)

(** The exclusive or of the [n] low bits of [v]. *)
Fixpoint low_parity (n : nat) (v : Z) : bool :=
  match n with
  | O => false
  | S n' => xorb (Z.odd v) (low_parity n' (Z.div2 v))
  end.

Lemma low_parity_0 n : low_parity n 0 = false.
Proof. induction n as [|n IH]; [reflexivity|]. cbn [low_parity]. exact IH. Qed.

Lemma pos_parity_low n p : Z.pos p < 2 ^ Z.of_nat n -> pos_parity p = low_parity n (Z.pos p).
Proof.
  revert p; induction n as [|n IH]; intros p Hp; [cbn in Hp; lia|].
  rewrite Nat2Z.inj_succ, Z.pow_succ_r in Hp by lia.
  destruct p as [p|p|]; cbn [pos_parity low_parity Z.odd Z.div2 Pos.div2 xorb].
  - rewrite (IH p) by lia. reflexivity.
  - rewrite (IH p) by lia. destruct (low_parity n (Z.pos p)); reflexivity.
  - rewrite low_parity_0. reflexivity.
Qed.

Lemma parityll_low n v : 0 <= v < 2 ^ Z.of_nat n -> builtin_parityll v = low_parity n v.
Proof.
  intros Hv. destruct v as [|p|p]; [|apply pos_parity_low; lia|lia].
  symmetry. apply low_parity_0.
Qed.

Lemma low_parity_lxor n a b : low_parity n (Z.lxor a b) = xorb (low_parity n a) (low_parity n b).
Proof.
  revert a b; induction n as [|n IH]; intros a b; [reflexivity|]. cbn [low_parity].
  rewrite <- !Z.bit0_odd, Z.lxor_spec, !Z.div2_spec, Z.shiftr_lxor, IH.
  destruct (Z.testbit a 0), (Z.testbit b 0), (low_parity n (Z.shiftr a 1)), (low_parity n (Z.shiftr b 1)); reflexivity.
Qed.

Lemma low_parity_add n m v :
  low_parity (n + m) v = xorb (low_parity n v) (low_parity m (Z.shiftr v (Z.of_nat n))).
Proof.
  revert v; induction n as [|n IH]; intros v.
  - cbn [low_parity Nat.add Z.of_nat]. rewrite Z.shiftr_0_r. destruct (low_parity m v); reflexivity.
  - cbn [low_parity Nat.add]. rewrite IH, Z.div2_spec, Z.shiftr_shiftr by lia.
    replace (1 + Z.of_nat n) with (Z.of_nat (S n)) by lia. symmetry. apply xorb_assoc.
Qed.

(** One folding step of the portable code halves the width. *)
Lemma low_parity_fold n v :
  low_parity n (Z.lxor v (Z.shiftr v (Z.of_nat n))) = low_parity (n + n) v.
Proof. rewrite low_parity_lxor, low_parity_add. reflexivity. Qed.

Lemma low_parity_mod n v : low_parity n v = low_parity n (v mod 2 ^ Z.of_nat n).
Proof.
  revert v; induction n as [|n IH]; intros v; [reflexivity|]. cbn [low_parity].
  rewrite (IH (Z.div2 v)), (IH (Z.div2 (v mod _))). rewrite <- !Z.bit0_odd.
  rewrite Z.mod_pow2_bits_low by lia. f_equal. f_equal.
  apply Z.bits_inj'. intros i Hi.
  destruct (Z_lt_le_dec i (Z.of_nat n)).
  - rewrite !Z.mod_pow2_bits_low, !Z.div2_spec, !Z.shiftr_spec, Z.mod_pow2_bits_low by lia. reflexivity.
  - rewrite !Z.mod_pow2_bits_high by lia. reflexivity.
Qed.

(** The nibble table: bit [k] of 0x6996 is the parity of [k]. *)
Lemma nibble_table k : 0 <= k < 16 -> Z.land (Z.shiftr 27030 k) 1 = Z.b2z (low_parity 4 k).
Proof.
  intros Hk. assert (H : forallb (fun k => Z.land (Z.shiftr 27030 k) 1 =? Z.b2z (low_parity 4 k))
    (map Z.of_nat (seq 0 16)) = true) by (vm_compute; reflexivity).
  rewrite forallb_forall in H. apply Z.eqb_eq, H.
  replace k with (Z.of_nat (Z.to_nat k)) by lia. apply in_map, in_seq. lia.
Qed.

Lemma parity_xor a b : 0 <= a -> 0 <= b ->
  builtin_parityll (Z.lxor a b) = xorb (builtin_parityll a) (builtin_parityll b).
Proof.
  intros Ha Hb. set (n := Z.to_nat (Z.max (Z.log2 a) (Z.log2 b) + 1)).
  assert (Hab : 0 <= Z.lxor a b) by (apply Z.lxor_nonneg; lia).
  pose proof (Z.log2_lxor a b Ha Hb).
  assert (Hlt : forall v, 0 <= v -> Z.log2 v <= Z.max (Z.log2 a) (Z.log2 b) -> 0 <= v < 2 ^ Z.of_nat n).
  { intros v Hv Hl. split; [exact Hv|]. destruct (Z.eq_dec v 0) as [->|].
    - apply Z.pow_pos_nonneg; lia.
    - apply Z.log2_lt_pow2; [lia|]. unfold n. pose proof (Z.log2_nonneg a). lia. }
  rewrite !(parityll_low n) by (apply Hlt; lia). apply low_parity_lxor.
Qed.

Lemma land_lxor_distr a b m : Z.land (Z.lxor a b) m = Z.lxor (Z.land a m) (Z.land b m).
Proof.
  apply Z.bits_inj'. intros i Hi. rewrite !Z.land_spec, !Z.lxor_spec, !Z.land_spec.
  destruct (Z.testbit a i), (Z.testbit b i), (Z.testbit m i); reflexivity.
Qed.

(** ** The bank class *)

(** Bit [i] of the class, as the header documents it. *)
Definition class_bit (m : dram_mapping) (pa : Z) (i : nat) : bool :=
  builtin_parityll (Z.land pa (nth i (masks m) 0)).

(** A mapping whose shifts stay below the word width. *)
Definition wf_mapping (m : dram_mapping) : Prop :=
  0 <= mask_count m <= DRAM_MAPPING_MAX_MASKS /\ Forall in_u64 (masks m) /\ List.length (masks m) = 32%nat.

Lemma b2z_shift_small b i : (0 <= i < 64)%Z -> u64 (Z.shiftl (Z.b2z b) i) = Z.shiftl (Z.b2z b) i.
Proof.
  intros Hi. apply u64_small. rewrite Z.shiftl_mul_pow2 by lia.
  assert (2 ^ i <= 2 ^ 63) by (apply Z.pow_le_mono_r; lia).
  assert (0 < 2 ^ i) by (apply Z.pow_pos_nonneg; lia).
  unfold in_u64. destruct b; cbn [Z.b2z]; lia.
Qed.

Lemma testbit_b2z_shift b i k : 0 <= i -> 0 <= k ->
  Z.testbit (Z.shiftl (Z.b2z b) i) k = b && (k =? i).
Proof.
  intros Hi Hk. rewrite Z.shiftl_spec by lia.
  destruct (Z.eqb_spec k i) as [->|Hne].
  - rewrite Z.sub_diag. destruct b; reflexivity.
  - rewrite andb_false_r. destruct (Z_lt_le_dec k i); [apply Z.testbit_neg_r; lia|].
    destruct b; cbn [Z.b2z]; [|apply Z.testbit_0_l].
    apply Z.bits_above_log2; cbn; lia.
Qed.

Lemma bank_class_loop_spec n m pa i c k : (i + n <= 64)%nat -> 0 <= k ->
  Z.testbit (bank_class_loop n (masks m) pa i c) k =
    Z.testbit c k || ((Z.of_nat i <=? k) && (k <? Z.of_nat (i + n)) && class_bit m pa (Z.to_nat k)).
Proof.
  revert i c; induction n as [|n IH]; intros i c Hn Hk; cbn [bank_class_loop].
  - destruct (Z.leb_spec (Z.of_nat i) k), (Z.ltb_spec k (Z.of_nat (i + 0))); try lia;
      cbn [andb]; rewrite orb_false_r; reflexivity.
  - rewrite IH by lia. rewrite Z.lor_spec. unfold parity64.
    rewrite b2z_shift_small, testbit_b2z_shift by lia. fold (class_bit m pa i).
    destruct (Z.eqb_spec k (Z.of_nat i)) as [->|Hne].
    + rewrite Nat2Z.id. destruct (Z.leb_spec (Z.of_nat (S i)) (Z.of_nat i)); [lia|].
      destruct (Z.leb_spec (Z.of_nat i) (Z.of_nat i)), (Z.ltb_spec (Z.of_nat i) (Z.of_nat (i + S n))); try lia.
      cbn [andb]. rewrite andb_true_r, orb_false_r. reflexivity.
    + rewrite andb_false_r, orb_false_r. f_equal. f_equal.
      destruct (Z.leb_spec (Z.of_nat (S i)) k), (Z.leb_spec (Z.of_nat i) k); try lia; cbn [andb]; try reflexivity.
      f_equal; lia.
Qed.

Lemma bank_class_testbit m pa k : wf_mapping m -> 0 <= k ->
  Z.testbit (dram_mapping_bank_class_fast m pa) k = (k <? mask_count m) && class_bit m pa (Z.to_nat k).
Proof.
  intros (Hc & _ & _) Hk. unfold DRAM_MAPPING_MAX_MASKS, CALIBRATION_MAX_BANK_MASKS in Hc.
  unfold dram_mapping_bank_class_fast. rewrite bank_class_loop_spec by lia.
  rewrite Z.testbit_0_l. cbn [orb Nat.add]. rewrite Z2Nat.id by lia.
  destruct (Z.leb_spec (Z.of_nat 0) k); [reflexivity|lia].
Qed.

Lemma bank_class_nonneg m pa : wf_mapping m -> 0 <= dram_mapping_bank_class_fast m pa.
Proof.
  intros Hm. unfold dram_mapping_bank_class_fast.
  enough (H : forall n i c, 0 <= c -> 0 <= bank_class_loop n (masks m) pa i c) by (apply H; lia).
  induction n as [|n IH]; intros i c Hc; cbn [bank_class_loop]; [exact Hc|].
  apply IH, Z.lor_nonneg. split; [exact Hc|]. apply u64_range.
Qed.

Lemma bank_class_eq_iff m a b : wf_mapping m ->
  dram_mapping_bank_class_fast m a = dram_mapping_bank_class_fast m b <->
  forall i, (i < Z.to_nat (mask_count m))%nat -> class_bit m a i = class_bit m b i.
Proof.
  intros Hm. split.
  - intros H i Hi. apply (f_equal (fun c => Z.testbit c (Z.of_nat i))) in H.
    rewrite !bank_class_testbit, !Nat2Z.id in H by (try assumption; lia).
    destruct (Z.ltb_spec (Z.of_nat i) (mask_count m)); [exact H|lia].
  - intros H. apply Z.bits_inj'. intros k Hk. rewrite !bank_class_testbit by assumption.
    destruct (Z.ltb_spec k (mask_count m)); [|reflexivity]. cbn [andb]. apply H. lia.
Qed.

Lemma same_class_loop_spec n m d i :
  same_class_loop n (masks m) d i = true <-> forall j, (i <= j < i + n)%nat -> class_bit m d j = false.
Proof.
  revert i; induction n as [|n IH]; intros i; cbn [same_class_loop].
  - split; [intros _ j Hj; lia|reflexivity].
  - unfold parity64. fold (class_bit m d i). destruct (class_bit m d i) eqn:E; cbn.
    + split; [discriminate|]. intros H. rewrite (H i) in E by lia. discriminate.
    + rewrite IH. split; intros H j Hj; [|apply H; lia].
      destruct (Nat.eq_dec j i) as [->|]; [exact E|apply H; lia].
Qed.

Lemma class_bit_lxor m a b i : wf_mapping m -> 0 <= a -> 0 <= b ->
  class_bit m (Z.lxor a b) i = xorb (class_bit m a i) (class_bit m b i).
Proof.
  intros (_ & Hu & _) Ha Hb. unfold class_bit. rewrite land_lxor_distr.
  apply parity_xor; apply Z.land_nonneg; auto.
Qed.

(** ** Initialisation *)

(** What [validate_calibration_result] accepts. *)
Definition accepted_calibration (r : calibration_result) : Prop :=
  status_success r = true /\ acceptance_passed r = true /\
  0 < bank_mask_count r <= DRAM_MAPPING_MAX_MASKS /\
  0 < bounded_strlen (Some (Calibration.mask_set_id r)) DRAM_MAPPING_MASK_SET_ID_MAX
    < DRAM_MAPPING_MASK_SET_ID_MAX /\
  (forall i, (i < Z.to_nat (bank_mask_count r))%nat ->
     nth i (bank_masks r) 0 <> 0 /\
     forall j, (j < i)%nat -> nth i (bank_masks r) 0 <> nth j (bank_masks r) 0).

(** The arrays of a result have their C shape. *)
Definition wf_result (r : calibration_result) : Prop :=
  Forall in_u64 (bank_masks r) /\ List.length (bank_masks r) = 32%nat.

Lemma existsb_take_eqb m i ms : (i <= List.length ms)%nat ->
  existsb (Z.eqb m) (take i ms) = true <-> exists j, (j < i)%nat /\ m = nth j ms 0.
Proof.
  intros Hi. rewrite existsb_exists. split.
  - intros (x & Hx & ->%Z.eqb_eq). apply (In_nth _ _ 0) in Hx as (j & Hj & <-).
    rewrite length_take in Hj. exists j. split; [lia|].
    rewrite <- (firstn_skipn i ms) at 2. rewrite app_nth1; [reflexivity|].
    change (firstn i ms) with (take i ms). rewrite length_take. lia.
  - intros (j & Hj & ->). exists (nth j ms 0). split; [|apply Z.eqb_refl].
    rewrite <- (firstn_skipn i ms) at 1. rewrite app_nth1 by
      (change (firstn i ms) with (take i ms); rewrite length_take; lia).
    apply nth_In. change (firstn i ms) with (take i ms). rewrite length_take. lia.
Qed.

Definition fresh_mask (ms : list Z) (i : nat) : Prop :=
  nth i ms 0 <> 0 /\ forall j, (j < i)%nat -> nth i ms 0 <> nth j ms 0.

Lemma validate_masks_spec n ms i : (i + n <= List.length ms)%nat ->
  (validate_masks n ms i = DRAM_MAPPING_OK <-> forall k, (i <= k < i + n)%nat -> fresh_mask ms k) /\
  In (validate_masks n ms i) [DRAM_MAPPING_OK; DRAM_MAPPING_ERR_ZERO_MASK; DRAM_MAPPING_ERR_DUPLICATE_MASK].
Proof.
  revert i; induction n as [|n IH]; intros i Hi; cbn [validate_masks].
  { split; [|left; reflexivity]. split; [intros _ k Hk; lia|reflexivity]. }
  destruct (Z.eqb_spec (nth i ms 0) 0) as [E|E].
  { split; [|right; left; reflexivity]. split; [discriminate|]. intros H.
    destruct (H i ltac:(lia)) as [H0 _]. contradiction. }
  pose proof (existsb_take_eqb (nth i ms 0) i ms ltac:(lia)) as Hx.
  destruct (existsb _ _).
  { split; [|right; right; left; reflexivity]. split; [discriminate|]. intros H.
    destruct Hx as [(j & Hj & Heq) _]; [reflexivity|]. destruct (H i ltac:(lia)) as [_ H1].
    destruct (H1 j Hj Heq). }
  destruct (IH (S i) ltac:(lia)) as [IH1 IH2]. split; [|exact IH2]. rewrite IH1. split; intros H k Hk; [|apply H; lia].
  destruct (Nat.eq_dec k i) as [->|]; [|apply H; lia]. split; [exact E|].
  intros j Hj Heq. assert (false = true) by (apply Hx; eauto). discriminate.
Qed.

Lemma bounded_strlen_loop_range fuel s n : n <= bounded_strlen_loop fuel s n <= n + Z.of_nat fuel.
Proof.
  revert n; induction fuel as [|f IH]; intros n; cbn [bounded_strlen_loop]; [lia|].
  destruct (Ascii.eqb _ _); [lia|]. specialize (IH (n + 1)). lia.
Qed.

Lemma bounded_strlen_range s max : 0 <= max -> 0 <= bounded_strlen s max <= max.
Proof.
  intros Hm. destruct s as [s|]; cbn [bounded_strlen]; [|lia].
  pose proof (bounded_strlen_loop_range (Z.to_nat max) s 0). lia.
Qed.

Lemma validate_accepts r : wf_result r -> 0 <= bank_mask_count r ->
  validate_calibration_result (Some r) = DRAM_MAPPING_OK <-> accepted_calibration r.
Proof.
  intros [_ Hl] Hc. unfold validate_calibration_result, accepted_calibration.
  pose proof (bounded_strlen_range (Some (Calibration.mask_set_id r)) DRAM_MAPPING_MASK_SET_ID_MAX ltac:(discriminate)).
  set (idl := bounded_strlen _ _) in *.
  destruct (status_success r), (acceptance_passed r); cbn [negb orb];
    try (split; [discriminate|intros (?&?&_); discriminate]).
  destruct (Z.eqb_spec (bank_mask_count r) 0) as [E|E], (Z.ltb_spec DRAM_MAPPING_MAX_MASKS (bank_mask_count r)) as [E'|E'];
    cbn [orb]; try (split; [discriminate|intros (_&_&Hx&_); lia]).
  destruct (Z.eqb_spec idl 0) as [Ei|Ei], (Z.leb_spec DRAM_MAPPING_MASK_SET_ID_MAX idl) as [Ei'|Ei'];
    cbn [orb]; try (split; [discriminate|intros (_&_&_&Hx&_); lia]).
  assert (DRAM_MAPPING_MAX_MASKS = 32) by reflexivity.
  destruct (validate_masks_spec (Z.to_nat (bank_mask_count r)) (bank_masks r) 0 ltac:(lia)) as [-> _].
  split.
  - intros Hk. repeat split; try lia; apply Hk; lia.
  - intros (_&_&_&_&Hk) k Hr. apply Hk. lia.
Qed.

(** ** Properties *)

(** [parity64]'s portable fallback (fold to a nibble, look it up in 0x6996)
    computes the same parity as the compiler builtin on every 64-bit word. *)
Theorem parity64_portable_correct (value : Z) :
  in_u64 value -> parity64_portable value = parity64 value.
Proof.
  intros Hv. unfold parity64_portable, parity64. rewrite (parityll_low 64) by exact Hv.
  set (w := Z.lxor _ (Z.shiftr _ 4)).
  assert (Hw : low_parity 4 w = low_parity 64 value).
  { unfold w. rewrite (low_parity_fold 4), (low_parity_fold 8), (low_parity_fold 16), (low_parity_fold 32).
    reflexivity. }
  rewrite <- Hw, low_parity_mod. change 15 with (Z.ones 4). rewrite Z.land_ones by lia.
  apply nibble_table. apply Z.mod_pos_bound. lia.
Qed.

Lemma parity64_portable_correct_witness :
  in_u64 13835058055282163713 /\ parity64_portable 13835058055282163713 = parity64 13835058055282163713.
Proof. split; [unfold in_u64; lia|]. apply (parity64_portable_correct 13835058055282163713). unfold in_u64; lia. Defined.

(** C25: the direct comparison [dram_mapping_same_bank_class] (parity of the
    difference against every mask, early exit) succeeds on a ready mapping and
    answers whether the two addresses have equal bank classes. *)
Theorem same_bank_class_correct (m : dram_mapping) (pa1 pa2 : Z) (out : bool) :
  wf_mapping m -> dram_mapping_is_ready (Some m) = true -> 0 <= pa1 -> 0 <= pa2 ->
  dram_mapping_same_bank_class (Some m) pa1 pa2 (Some out) =
    (DRAM_MAPPING_OK,
     Some (dram_mapping_bank_class_fast m pa1 =? dram_mapping_bank_class_fast m pa2)).
Proof.
  intros Hm Hr H1 H2. unfold dram_mapping_same_bank_class. rewrite Hr. cbn [negb]. do 2 f_equal.
  apply eq_true_iff_eq. rewrite Z.eqb_eq, bank_class_eq_iff, same_class_loop_spec by exact Hm.
  split.
  - intros H i Hi. specialize (H i ltac:(lia)). rewrite class_bit_lxor in H by assumption.
    destruct (class_bit m pa1 i), (class_bit m pa2 i); cbn in H; congruence.
  - intros H i Hi. rewrite class_bit_lxor, H by (assumption || lia). apply xorb_nilpotent.
Qed.

Definition example_mapping : dram_mapping :=
  mk_dram_mapping ([139264; 278528; 557056] ++ replicate 29 0) 3 "a1b2" true.

Lemma example_mapping_wf : wf_mapping example_mapping.
Proof.
  split; [cbn; unfold DRAM_MAPPING_MAX_MASKS, CALIBRATION_MAX_BANK_MASKS; lia|].
  split; [|reflexivity]. cbn. repeat constructor; unfold in_u64; lia.
Qed.

Lemma same_bank_class_correct_witness :
  dram_mapping_same_bank_class (Some example_mapping) 131072 8192 (Some false) = (DRAM_MAPPING_OK, Some true).
Proof.
  refine (eq_trans (same_bank_class_correct example_mapping 131072 8192 false
    example_mapping_wf eq_refl ltac:(lia) ltac:(lia)) _).
  vm_compute. reflexivity.
Defined.

(** Bit [i] of the computed bank class is the parity of [pa & masks[i]] for
    [i < mask_count] and 0 above, so a class is below [2 ^ mask_count]; and the
    classes are linear: the class of a difference is the difference of classes. *)
Theorem bank_class_documented (m : dram_mapping) (pa1 pa2 out : Z) :
  wf_mapping m -> dram_mapping_is_ready (Some m) = true -> 0 <= pa1 -> 0 <= pa2 ->
  exists c, dram_mapping_bank_class (Some m) pa1 (Some out) = (DRAM_MAPPING_OK, Some c) /\
    0 <= c < 2 ^ mask_count m /\
    (forall i, (i < Z.to_nat (mask_count m))%nat ->
       Z.b2z (Z.testbit c (Z.of_nat i)) = parity64 (Z.land pa1 (nth i (masks m) 0))) /\
    dram_mapping_bank_class_fast m (Z.lxor pa1 pa2) = Z.lxor c (dram_mapping_bank_class_fast m pa2).
Proof.
  intros Hm Hr H1 H2. exists (dram_mapping_bank_class_fast m pa1).
  unfold dram_mapping_bank_class. rewrite Hr. split; [reflexivity|].
  pose proof (bank_class_nonneg m pa1 Hm). destruct Hm as (Hc & Hm'). pose proof (conj Hc Hm' : wf_mapping m) as Hm.
  split; [|split].
  - split; [assumption|]. destruct (Z.eq_dec (dram_mapping_bank_class_fast m pa1) 0) as [->|].
    { apply Z.pow_pos_nonneg; lia. }
    apply Z.log2_lt_pow2; [lia|]. apply Z.nle_gt. intros Hl.
    pose proof (Z.bit_log2 (dram_mapping_bank_class_fast m pa1) ltac:(lia)) as Hb.
    rewrite bank_class_testbit in Hb by (assumption || lia).
    destruct (Z.ltb_spec (Z.log2 (dram_mapping_bank_class_fast m pa1)) (mask_count m)); [lia|discriminate].
  - intros i Hi. rewrite bank_class_testbit, Nat2Z.id by (assumption || lia).
    destruct (Z.ltb_spec (Z.of_nat i) (mask_count m)); [reflexivity|lia].
  - apply Z.bits_inj'. intros k Hk. rewrite Z.lxor_spec, !bank_class_testbit, class_bit_lxor by assumption.
    destruct (k <? mask_count m); reflexivity.
Qed.

Lemma bank_class_documented_witness :
  exists c, dram_mapping_bank_class (Some example_mapping) 139264 (Some 0) = (DRAM_MAPPING_OK, Some c) /\
    0 <= c < 2 ^ 3.
Proof.
  destruct (bank_class_documented example_mapping 139264 8192 0 example_mapping_wf eq_refl
    ltac:(lia) ltac:(lia)) as (c & Hc & Hb & _).
  exists c. split; [exact Hc|exact Hb].
Defined.

(** An accepted calibration is installed. *)
Lemma init_accepted (m0 : dram_mapping) (r : calibration_result) : wf_result r -> 0 <= bank_mask_count r -> accepted_calibration r ->
  exists m', dram_mapping_init_from_calibration (Some m0) (Some r) = (DRAM_MAPPING_OK, Some m') /\ wf_mapping m' /\
    dram_mapping_is_ready (Some m') = true /\ mask_count m' = bank_mask_count r /\
    forall i, (i < Z.to_nat (bank_mask_count r))%nat -> nth i (masks m') 0 = nth i (bank_masks r) 0.
Proof.
  intros Hw Hc Ha. cbn [dram_mapping_init_from_calibration]. apply (validate_accepts r Hw Hc) in Ha as E. rewrite E.
  cbn [negb Z.eqb DRAM_MAPPING_OK]. destruct Ha as (_ & _ & Hn & _), Hw as [Hu Hl].
  assert (DRAM_MAPPING_MAX_MASKS = 32) by reflexivity.
  eexists. split; [reflexivity|]. cbn [masks mask_count ready dram_mapping_is_ready set_field dram_mapping_zero].
  split; [|split; [|split]].
  - split; [cbn; lia|]. split.
    + cbn. apply Forall_app. split; [apply Forall_take, Hu|]. apply Forall_drop.
      repeat constructor; unfold in_u64; lia.
    + cbn. rewrite length_app, length_take, length_drop. cbn [List.length]. lia.
  - cbn. apply Z.ltb_lt. lia.
  - reflexivity.
  - intros i Hi. cbn. rewrite app_nth1 by (rewrite length_take; lia).
    rewrite <- (firstn_skipn (Z.to_nat (bank_mask_count r)) (bank_masks r)) at 2.
    rewrite app_nth1; [reflexivity|]. change firstn with (@take Z). rewrite length_take. lia.
Qed.

(** Any other is refused. *)
Lemma init_refused (m0 : dram_mapping) (r : calibration_result) : wf_result r -> 0 <= bank_mask_count r -> ~ accepted_calibration r ->
  exists rc, dram_mapping_init_from_calibration (Some m0) (Some r) = (rc, Some dram_mapping_zero) /\ rc <> DRAM_MAPPING_OK.
Proof.
  intros Hw Hc Hn. cbn [dram_mapping_init_from_calibration]. exists (validate_calibration_result (Some r)).
  destruct (Z.eqb_spec (validate_calibration_result (Some r)) DRAM_MAPPING_OK) as [E|E]; [|by split].
  exfalso. apply Hn. by apply (validate_accepts r Hw Hc).
Qed.

(** Initialisation is fail-closed.  It succeeds exactly on an accepted
    calibration (worker success, acceptance gate, 1 to 32 non-zero pairwise
    distinct masks, a terminated non-empty mask-set id); then the mapping is
    ready and holds those masks; otherwise the mapping is left all zero. *)
Theorem init_from_calibration_fail_closed (m0 : dram_mapping) (r : calibration_result) :
  wf_result r -> 0 <= bank_mask_count r ->
  let '(rc, m) := dram_mapping_init_from_calibration (Some m0) (Some r) in
  (rc = DRAM_MAPPING_OK <-> accepted_calibration r) /\
  (rc = DRAM_MAPPING_OK -> exists m', m = Some m' /\ wf_mapping m' /\ dram_mapping_is_ready m = true /\
     mask_count m' = bank_mask_count r /\
     forall i, (i < Z.to_nat (bank_mask_count r))%nat -> nth i (masks m') 0 = nth i (bank_masks r) 0) /\
  (rc <> DRAM_MAPPING_OK -> m = Some dram_mapping_zero /\ dram_mapping_is_ready m = false).
Proof.
  intros Hw Hc. pose proof (validate_accepts r Hw Hc) as Hv.
  destruct (Z.eq_dec (validate_calibration_result (Some r)) DRAM_MAPPING_OK) as [E|E]; rewrite Hv in E.
  - destruct (init_accepted m0 r Hw Hc E) as (m' & -> & H1 & H2 & H3 & H4). split; [tauto|]. split; [intros _; by exists m'|intros []; reflexivity].
  - destruct (init_refused m0 r Hw Hc E) as (rc & -> & Hrc). split; [tauto|]. split; [intros; contradiction|intros _; split; reflexivity].
Qed.

Definition example_calibration : calibration_result :=
  mk_calibration_result true true ([139264; 278528; 557056] ++ replicate 29 0) 3 "a1b2"
    calibration_metrics_zero 0 "".

Lemma init_from_calibration_fail_closed_witness :
  (dram_mapping_init_from_calibration (Some dram_mapping_zero) (Some example_calibration)).1 = DRAM_MAPPING_OK
  /\ accepted_calibration example_calibration.
Proof.
  assert (H : wf_result example_calibration).
  { split; [|reflexivity]. cbn. repeat constructor; unfold in_u64; lia. }
  pose proof (init_from_calibration_fail_closed dram_mapping_zero example_calibration H ltac:(cbn; lia)) as T.
  split; [vm_compute; reflexivity|]. apply T. vm_compute. reflexivity.
Defined.
