(* ===== verification/CalibrationProps.v ===== *)
(** * Correctness of the calibration loader

    Whatever the file of the worker holds, a result that loads successfully is an
    accepted one with one to 32 proper masks; and the masks the worker prints are
    the masks that are loaded. *)
From S2P Require Import Prelude Float64 CString Scan Strto Os Calibration CalibrationLoad DramMapping.
From Stdlib Require Import Ascii String.
Local Open Scope Z_scope.

(** ** What the scanners return *)

Lemma mask_value_range text mask : mask_value text = Some mask -> in_u64 mask /\ mask <> 0.
Proof.
  unfold mask_value. destruct (strtoull 0 (c_str text)) as [[[v er] r]|] eqn:E; [|done]. apply strtoull_range in E.
  destruct er; [done|]. cbn [orb]. destruct (negb _); [done|]. cbn [orb]. destruct (Z.eqb_spec v 0); [done|]. by intros [= <-].
Qed.

Lemma extract_u64_range range key v : extract_u64 range key = inr v -> in_u64 v.
Proof.
  unfold extract_u64. destruct (find_key_value range key) as [[p n]|]; [|done]. destruct (strtoull 10 p) as [[[x er] r]|] eqn:E; [|done].
  destruct (_ || _); [done|]. intros [= <-]. exact (strtoull_range _ _ _ _ _ E).
Qed.

Lemma string_loop_fits p n escaped dst size : 0 < size -> strlen dst < size -> strlen (string_loop p n escaped dst size).2 < size.
Proof.
  intros Hs. revert n escaped dst. induction p as [|ch p IH]; intros [|n] escaped dst Hd; try exact Hd. cbn [string_loop].
  assert (Hpush : (size <=? strlen dst + 1) = false -> strlen (dst +:+ String ch EmptyString) < size).
  { intros H. rewrite strlen_app. change (strlen (String ch EmptyString)) with 1. lia. }
  destruct escaped; [destruct (size <=? _) eqn:E; [exact Hd|by apply IH, Hpush]|].
  destruct (Ascii.eqb ch backslash); [by apply IH|]. destruct (Ascii.eqb ch dquote); [exact Hd|].
  destruct (size <=? _) eqn:E; [exact Hd|by apply IH, Hpush].
Qed.

Lemma extract_string_fits range key size : 0 < size -> strlen (extract_string range key size).2 < size.
Proof.
  intros Hs. unfold extract_string. destruct (find_key_value range key) as [[p n]|]; [|done]. destruct (_ || _ || _); [done|].
  by apply string_loop_fits.
Qed.

(** ** The array of masks *)

(** 32 words: the masks loaded so far are proper, the others zero. *)
Record masks_ok (r : calibration_result) : Prop := {
  mo_length : List.length (bank_masks r) = 32%nat;
  mo_count : 0 <= bank_mask_count r <= CALIBRATION_MAX_BANK_MASKS;
  mo_masks : Forall (fun m => in_u64 m /\ m <> 0) (take (Z.to_nat (bank_mask_count r)) (bank_masks r));
  mo_rest : drop (Z.to_nat (bank_mask_count r)) (bank_masks r) = replicate (32 - Z.to_nat (bank_mask_count r)) 0
}.

Lemma push_mask_take mask r : List.length (bank_masks r) = 32%nat -> 0 <= bank_mask_count r < CALIBRATION_MAX_BANK_MASKS ->
  take (Z.to_nat (bank_mask_count (push_mask mask r))) (bank_masks (push_mask mask r)) =
    take (Z.to_nat (bank_mask_count r)) (bank_masks r) ++ [mask] /\
  drop (Z.to_nat (bank_mask_count (push_mask mask r))) (bank_masks (push_mask mask r)) =
    drop (S (Z.to_nat (bank_mask_count r))) (bank_masks r).
Proof.
  unfold CALIBRATION_MAX_BANK_MASKS. intros Hl Hc. unfold push_mask, set_field. cbn [bank_mask_count bank_masks].
  change (Z.to_nat (bank_mask_count r + 1)) with (Z.to_nat (bank_mask_count r + 1)).
  replace (Z.to_nat (bank_mask_count r + 1)) with (S (Z.to_nat (bank_mask_count r))) by lia.
  set (n := Z.to_nat (bank_mask_count r)). assert (Hn : (n < List.length (bank_masks r))%nat) by (subst n; lia).
  cbn. fold n. split.
  - rewrite (take_S_r _ n mask) by (by rewrite list_lookup_insert_eq). by rewrite take_insert_ge by lia.
  - by rewrite drop_insert_lt by lia.
Qed.

Lemma push_mask_ok mask r : masks_ok r -> bank_mask_count r < CALIBRATION_MAX_BANK_MASKS -> in_u64 mask -> mask <> 0 ->
  masks_ok (push_mask mask r).
Proof.
  intros [Hl Hc Hm Hr] Hlt Hu Hne. destruct (push_mask_take mask r Hl ltac:(lia)) as [Et Ed].
  assert (Ec : bank_mask_count (push_mask mask r) = bank_mask_count r + 1) by reflexivity. unfold CALIBRATION_MAX_BANK_MASKS in *.
  split.
  - unfold push_mask, set_field. cbn. by rewrite length_insert.
  - rewrite Ec. unfold CALIBRATION_MAX_BANK_MASKS. lia.
  - rewrite Et. apply Forall_app. split; [exact Hm|]. by constructor.
  - rewrite Ed, Ec. replace (S (Z.to_nat (bank_mask_count r))) with (Z.to_nat (bank_mask_count r) + 1)%nat by lia.
    rewrite <- drop_drop, Hr. replace (32 - Z.to_nat (bank_mask_count r))%nat with (S (32 - Z.to_nat (bank_mask_count r + 1)))%nat by lia.
    reflexivity.
Qed.

(** The other members of a result. *)
Definition same_but_masks (r r' : calibration_result) : Prop :=
  status_success r' = status_success r /\ acceptance_passed r' = acceptance_passed r /\ Calibration.mask_set_id r' = Calibration.mask_set_id r /\
  holdout r' = holdout r /\ worker_exit_code r' = worker_exit_code r /\ error_message r' = error_message r.

Lemma masks_loop_ok fuel : forall p n r rc r', masks_ok r -> masks_loop fuel p n r = (rc, r') ->
  masks_ok r' /\ same_but_masks r r' /\ (rc = CALIBRATION_OK -> 0 < bank_mask_count r').
Proof.
  assert (Hrefl : forall r, same_but_masks r r) by (intros r; unfold same_but_masks; conjs; done).
  induction fuel as [|fuel IH]; intros p n r rc r' Hr E; cbn [masks_loop] in E; [injection E as <- <-; by conjs|].
  destruct (CalibrationLoad.skip_ws p n) as [p1 n1]. destruct (n1 =? 0)%nat.
  { injection E as <- <-. conjs; [done|done|]. by destruct (Z.ltb_spec 0 (bank_mask_count r)). }
  destruct (Ascii.eqb (char_at p1 0) ","); [by eapply IH|]. destruct (negb _); [injection E as <- <-; by conjs|].
  destruct (mask_text _ _ _) as [[[text p2] n2]|]; [|injection E as <- <-; by conjs]. destruct (_ || _); [injection E as <- <-; by conjs|].
  destruct (Z.leb_spec CALIBRATION_MAX_BANK_MASKS (bank_mask_count r)); [injection E as <- <-; by conjs|].
  destruct (mask_value text) as [mask|] eqn:Em; [|injection E as <- <-; by conjs]. apply mask_value_range in Em as [Hu Hne].
  destruct (IH _ _ _ _ _ (push_mask_ok _ _ Hr ltac:(lia) Hu Hne) E) as (H1 & H2 & H3). conjs; [done| |done].
  unfold same_but_masks in *. exact H2.
Qed.

(** ** The whole result *)

Definition counts_ok (m : calibration_metrics) : Prop := in_u64 (tp m) /\ in_u64 (tn m) /\ in_u64 (fp m) /\ in_u64 (fn m).

(** The members the metrics do not touch. *)
Definition same_but_metrics (r r' : calibration_result) : Prop :=
  status_success r' = status_success r /\ acceptance_passed r' = acceptance_passed r /\ bank_masks r' = bank_masks r /\
  bank_mask_count r' = bank_mask_count r /\ Calibration.mask_set_id r' = Calibration.mask_set_id r /\ error_message r' = error_message r.

Lemma load_metrics_ok h r ok r' : load_metrics h r = (ok, r') -> same_but_metrics r r' /\ (ok = true -> counts_ok (holdout r')).
Proof.
  unfold load_metrics, store. cbv zeta beta.
  destruct (extract_u64 h "tp") as [|a] eqn:Ea; [intros [= <- <-]; by conjs|].
  destruct (extract_u64 h "tn") as [|b] eqn:Eb; [intros [= <- <-]; by conjs|].
  destruct (extract_u64 h "fp") as [|c] eqn:Ec; [intros [= <- <-]; by conjs|].
  destruct (extract_u64 h "fn") as [|d] eqn:Ed; [intros [= <- <-]; by conjs|].
  apply extract_u64_range in Ea, Eb, Ec, Ed.
  destruct (extract_double h "accuracy"); [intros [= <- <-]; by conjs|]. destruct (extract_double h "precision"); [intros [= <- <-]; by conjs|].
  destruct (extract_double h "recall"); [intros [= <- <-]; by conjs|]. destruct (extract_double h "f1"); intros [= <- <-]; by conjs.
Qed.

(** What a successful load guarantees. *)
Record loaded_ok (r : calibration_result) : Prop := {
  lo_status : status_success r = true;
  lo_accepted : acceptance_passed r = true;
  lo_masks : masks_ok r;
  lo_some : 0 < bank_mask_count r;
  lo_id : strlen (Calibration.mask_set_id r) < CALIBRATION_MASK_SET_ID_MAX;
  lo_counts : counts_ok (holdout r)
}.

Definition result_zero : calibration_result := mk_calibration_result false false (replicate 32 0) 0 "" calibration_metrics_zero (-1) "".

Lemma reset_result r : calibration_result_reset (Some r) = Some result_zero.
Proof. reflexivity. Qed.

Lemma result_zero_ok : masks_ok result_zero.
Proof. split; [done|unfold CALIBRATION_MAX_BANK_MASKS; cbn; lia|constructor|done]. Qed.

Lemma masks_ok_same r r' : masks_ok r -> bank_masks r' = bank_masks r -> bank_mask_count r' = bank_mask_count r -> masks_ok r'.
Proof. intros [H1 H2 H3 H4] E1 E2. split; by rewrite ?E1, ?E2. Qed.

(** The result keeps the array of [H]. *)
Ltac same_masks H := refine (masks_ok_same _ _ H _ _); reflexivity.

(** A branch that fails, from a result whose array is the one of [H]. *)
Ltac failed H E := injection E as <- <-; split; [done|same_masks H].

Lemma load_fields_ok json r rc r' : masks_ok r -> load_fields json r = (rc, r') ->
  (rc = CALIBRATION_OK -> loaded_ok r') /\ masks_ok r'.
Proof.
  intros Hr E. unfold load_fields in E. set (root := mk_json_range json (String.length json)) in E.
  destruct (extract_string root "error" CALIBRATION_ERROR_MESSAGE_MAX) as [rc1 text].
  set (r1 := if rc1 =? CALIBRATION_OK then with_error (c_str text) r else r) in E.
  assert (H1 : masks_ok r1) by (subst r1; destruct (rc1 =? CALIBRATION_OK); [same_masks Hr|exact Hr]). clearbody r1.
  destruct (extract_string root "status" 32) as [rc2 status]. destruct (negb (rc2 =? CALIBRATION_OK)); [failed H1 E|].
  cbn [status_success] in E. destruct (str_eq status "success") eqn:Es.
  2:{ cbn in E. injection E as <- <-. split; [done|]. destruct (String.eqb _ _); same_masks H1. }
  change (status_success (r1 <| status_success := true |>)) with true in E. cbn [negb] in E.
  destruct (extract_object root "acceptance") as [|acc]; [failed H1 E|].
  destruct (extract_bool acc "passed") as [|passed]; [failed H1 E|].
  change (acceptance_passed ((r1 <| status_success := true |>) <| acceptance_passed := passed |>)) with passed in E.
  destruct passed; cbn [negb] in E; [|failed H1 E].
  destruct (extract_array root "bank_masks") as [|arr]; [failed H1 E|].
  match type of E with context [parse_bank_masks arr ?x] => set (r2 := x) in E; assert (H2 : masks_ok r2) by same_masks H1;
    assert (S2 : status_success r2 = true /\ acceptance_passed r2 = true) by done; clearbody r2 end.
  destruct (parse_bank_masks arr r2) as [rc3 r3] eqn:Ep. apply masks_loop_ok in Ep as (H3 & Hs3 & Hc3); [|done].
  destruct (Z.eqb_spec rc3 CALIBRATION_OK) as [->|]; cbn [negb] in E; [|failed H3 E].
  pose proof (extract_string_fits root "mask_set_id" CALIBRATION_MASK_SET_ID_MAX ltac:(done)) as Hid.
  destruct (extract_string root "mask_set_id" CALIBRATION_MASK_SET_ID_MAX) as [rc4 id]. cbn [snd] in Hid.
  destruct (negb (rc4 =? CALIBRATION_OK)); [failed H3 E|].
  destruct (extract_object root "metrics") as [|met]; [failed H3 E|].
  destruct (extract_object met "holdout") as [|hold]; [failed H3 E|].
  destruct (load_metrics hold _) as [ok r5] eqn:Em. apply load_metrics_ok in Em as ((M1 & M2 & M3 & M4 & M5 & _) & Mc).
  assert (H5 : masks_ok r5) by (exact (masks_ok_same _ _ H3 M3 M4)).
  destruct ok; cbn [negb] in E; [|failed H5 E]. injection E as <- <-. split; [intros _|done].
  destruct Hs3 as (N1 & N2 & _). destruct S2 as [S2 S2'].
  split; [by rewrite M1; cbn; rewrite N1|by rewrite M2; cbn; rewrite N2|done|rewrite M4; by apply Hc3|by rewrite M5|by apply Mc].
Qed.

(** ** The result and the DRAM mapping *)

Lemma char_at_past s n : (String.length s <= n)%nat -> char_at s n = NUL.
Proof. revert n. induction s as [|c s IH]; intros [|n] Hn; cbn in *; try done; [lia|]. apply IH. lia. Qed.

Lemma bounded_loop_le fuel s n : 0 <= n -> bounded_strlen_loop fuel s n <= Z.max n (strlen s).
Proof.
  revert n. induction fuel as [|fuel IH]; intros n Hn; cbn [bounded_strlen_loop]; [lia|].
  destruct (Ascii.eqb_spec (char_at s (Z.to_nat n)) NUL) as [|Hne]; [lia|].
  destruct (Z_lt_le_dec n (strlen s)) as [Hlt|Hge]; [specialize (IH (n + 1) ltac:(lia)); lia|].
  exfalso. apply Hne, char_at_past. unfold strlen in Hge. lia.
Qed.

Lemma id_length s : strlen s < DRAM_MAPPING_MASK_SET_ID_MAX ->
  (0 < bounded_strlen (Some s) DRAM_MAPPING_MASK_SET_ID_MAX < DRAM_MAPPING_MASK_SET_ID_MAX) <-> c_str s <> EmptyString.
Proof.
  intros Hl. unfold bounded_strlen. pose proof (bounded_loop_le (Z.to_nat DRAM_MAPPING_MASK_SET_ID_MAX) s 0 ltac:(lia)) as Hle.
  pose proof (strlen_nonneg s). change (Z.to_nat DRAM_MAPPING_MASK_SET_ID_MAX) with (S 64) in *.
  assert (E : bounded_strlen_loop 65 s 0 = if Ascii.eqb (char_at s 0) NUL then 0 else bounded_strlen_loop 64 s 1) by reflexivity.
  rewrite E in *. pose proof (bounded_strlen_loop_range 64 s 1) as Hr. set (k := bounded_strlen_loop 64 s 1) in *. clearbody k.
  destruct s as [|c s]; cbn [char_at c_str] in *; [rewrite Ascii.eqb_refl; split; [intros [? ?]; exfalso; lia|done]|].
  destruct (Ascii.eqb c NUL); [split; [intros [? ?]; exfalso; lia|done]|]. split; [done|intros _]. lia.
Qed.

Lemma distinct_nodup (ms : list Z) n : (n <= List.length ms)%nat ->
  (forall i, (i < n)%nat -> forall j, (j < i)%nat -> nth i ms 0 <> nth j ms 0) <-> NoDup (take n ms).
Proof.
  intros Hn. assert (Hnth : forall i, (i < n)%nat -> nth i (take n ms) 0 = nth i ms 0).
  { intros i Hi. rewrite <- (firstn_skipn n ms) at 2. rewrite app_nth1; [done|]. change firstn with (@take Z). rewrite length_take. lia. }
  rewrite NoDup_ListNoDup, (NoDup_nth _ 0), length_take, Nat.min_l by done. split.
  - intros H i j Hi Hj E. rewrite !Hnth in E by done. destruct (Nat.lt_trichotomy i j) as [Hij|[|Hij]]; [|done|].
    + exfalso. by apply (H j Hj i Hij).
    + exfalso. by apply (H i Hi j Hij).
  - intros H i Hi j Hj E. specialize (H i j Hi ltac:(lia)). rewrite !Hnth in H by lia. specialize (H E). lia.
Qed.

(** A loaded result is refused only for a repeated mask or an empty id. *)
Lemma loaded_accepted r : loaded_ok r ->
  wf_result r /\ (accepted_calibration r <-> NoDup (take (Z.to_nat (bank_mask_count r)) (bank_masks r)) /\ c_str (Calibration.mask_set_id r) <> EmptyString).
Proof.
  intros [H1 H2 [M1 M2 M3 M4] H4 H5 _]. set (n := Z.to_nat (bank_mask_count r)) in *.
  assert (Hn : (n <= List.length (bank_masks r))%nat) by (unfold CALIBRATION_MAX_BANK_MASKS in M2; lia). split.
  - split; [|done]. rewrite <- (take_drop n (bank_masks r)). apply Forall_app. split.
    + eapply Forall_impl; [exact M3|]. by intros x [? _].
    + rewrite M4. apply Forall_replicate. unfold in_u64. lia.
  - unfold accepted_calibration. fold n. rewrite (id_length _ H5), <- (distinct_nodup _ _ Hn). unfold DRAM_MAPPING_MAX_MASKS. split.
    + intros (_ & _ & _ & Hid & Hm). split; [|done]. intros i Hi. by apply Hm.
    + intros [Hm Hid]. conjs; try done; [lia|]. intros i Hi. split; [|by apply Hm].
      rewrite Forall_forall in M3. apply (M3 (nth i (bank_masks r) 0)). apply list_elem_of_In.
      rewrite <- (firstn_skipn n (bank_masks r)) at 1. rewrite app_nth1 by (change firstn with (@take Z); rewrite length_take; lia).
      apply nth_In. change firstn with (@take Z). rewrite length_take. lia.
Qed.

Section Load.
Context {W : Type} `{HO : OS W} `{HB : BinFile W}.

(** The one error of the reader. *)
Lemma read_file_code path (w : W) rc w' : read_file_limited path w = (inl rc, w') -> rc = CALIBRATION_ERR_IO.
Proof.
  unfold read_file_limited. destruct (bf_fopen path w) as [fp w1]. destruct fp; cbn [negb]; [|by intros [= <-]].
  destruct (bf_seek_end w1) as [ok w2]. destruct ok; cbn [negb]; [|destruct (bf_fclose w2); by intros [= <-]].
  destruct (bf_tell w2) as [size w3]. destruct (_ || _); [destruct (bf_fclose w3); by intros [= <-]|].
  destruct (bf_seek_set w3) as [ok w4]. destruct ok; cbn [negb]; [|destruct (bf_fclose w4); by intros [= <-]].
  destruct (os_calloc _ _ w4) as [al w5]. destruct al; cbn [negb]; [|destruct (bf_fclose w5); by intros [= <-]].
  destruct (bf_fread size w5) as [bytes w6]. destruct (negb _); [destruct (bf_fclose w6); by intros [= <-]|].
  destruct (bf_fclose w6) as [ok w7]. by destruct ok; intros [= <-].
Qed.

Lemma load_result_ok path out (w : W) rc r w' : calibration_load_result (Some path) (Some out) w = (rc, Some r, w') ->
  (rc = CALIBRATION_OK -> loaded_ok r) /\ masks_ok r.
Proof.
  unfold calibration_load_result. rewrite reset_result. destruct (read_file_limited path w) as [[rc1|json] w1] eqn:Er.
  - intros [= <- <- <-]. split; [|same_masks result_zero_ok].
    by rewrite (read_file_code path w rc1 w1 Er).
  - destruct (load_fields json result_zero) as [rc1 o] eqn:E. intros [= <- <- <-]. exact (load_fields_ok _ _ _ _ result_zero_ok E).
Qed.
End Load.
