(* ===== verification/CalibrationText.v ===== *)
(** * The masks the worker prints

    The worker writes the array of masks as quoted hexadecimal numerals with
    white space of its choice; finding the key, delimiting the array and parsing
    it gives back the masks. *)
From S2P Require Import Prelude Float64 CString Scan Strto Os Calibration CalibrationLoad DramMapping CalibrationProps.
From Stdlib Require Import Ascii String.
Local Open Scope Z_scope.

(** ** Texts *)

(** A text of white space only. *)
Fixpoint blank (s : string) : bool :=
  match s with
  | EmptyString => true
  | String c s' => isspace c && blank s'
  end.

Lemma skip_blank ws p n : blank ws = true -> match p with String c _ => isspace c = false | EmptyString => True end ->
  CalibrationLoad.skip_ws (ws +:+ p) (String.length ws + n) = (p, n).
Proof.
  intros Hw Hp. induction ws as [|c ws IH]; cbn [String.length Nat.add].
  - change (EmptyString +:+ p) with p. destruct n as [|n]; [by destruct p|]. destruct p as [|c p]; [done|]. cbn. by rewrite Hp.
  - cbn [blank] in Hw. apply andb_true_iff in Hw as [Hc Hw]. change (String c ws +:+ p) with (String c (ws +:+ p)).
    cbn [CalibrationLoad.skip_ws]. rewrite Hc. by apply IH.
Qed.

Lemma drop_len a b : str_drop (String.length a) (a +:+ b) = b.
Proof. apply str_drop_app. Qed.

(** Bytes that mean nothing to the scanners of arrays and strings. *)
Definition inert (c : ascii) : bool :=
  negb (Ascii.eqb c dquote) && negb (Ascii.eqb c backslash) && negb (Ascii.eqb c "[") && negb (Ascii.eqb c "]") && negb (Ascii.eqb c NUL).

Fixpoint all_inert (s : string) : bool :=
  match s with
  | EmptyString => true
  | String c s' => inert c && all_inert s'
  end.

Lemma all_inert_app a b : all_inert (a +:+ b) = all_inert a && all_inert b.
Proof.
  induction a as [|c a IH]; [done|]. change (String c a +:+ b) with (String c (a +:+ b)). cbn [all_inert]. by rewrite IH, andb_assoc.
Qed.

Lemma blank_inert s : blank s = true -> all_inert s = true.
Proof.
  induction s as [|c s IH]; [done|]. cbn [blank all_inert]. intros [Hc Hs]%andb_true_iff. rewrite IH by done. rewrite andb_true_r.
  destruct c as [[] [] [] [] [] [] [] []]; by vm_compute in Hc.
Qed.

Lemma hex_digit_inert d : 0 <= d < 16 -> inert (hex_digit d) = true.
Proof.
  intros Hd. assert (Hall : forallb (fun d => inert (hex_digit d)) (zrange 0 16) = true) by (vm_compute; reflexivity).
  rewrite forallb_forall in Hall. apply Hall. rewrite zrange_seqZ. apply list_elem_of_In, elem_of_seqZ. lia.
Qed.

Lemma hex_go_inert fuel n t : all_inert t = true -> 0 <= n -> all_inert (hex_go fuel n t) = true.
Proof.
  revert n t. induction fuel as [|fuel IH]; intros n t Ht Hn; [done|]. cbn [hex_go].
  assert (Ht' : all_inert (String (hex_digit (n mod 16)) t) = true).
  { cbn [all_inert]. rewrite Ht, hex_digit_inert by (apply Z.mod_pos_bound; lia). done. }
  destruct (n <? 16); [exact Ht'|]. apply IH; [exact Ht'|]. apply Z.div_pos; lia.
Qed.

Lemma hex_pad_inert w n : 0 <= n -> all_inert (hex_pad w n) = true.
Proof.
  intros Hn. unfold hex_pad, pad_left. rewrite all_inert_app. unfold hex at 2. rewrite hex_go_inert, andb_true_r by done.
  induction (w - String.length (hex n))%nat as [|j IH]; [done|exact IH].
Qed.

(** At most 16 digits. *)
Lemma length_hex_go fuel n t : (String.length (hex_go fuel n t) <= fuel + String.length t)%nat.
Proof.
  revert n t. induction fuel as [|fuel IH]; intros n t; [done|]. cbn [hex_go]. destruct (n <? 16); [cbn; lia|].
  specialize (IH (n / 16) (String (hex_digit (n mod 16)) t)). cbn [String.length] in IH. lia.
Qed.

Lemma length_hex_pad n : (String.length (hex_pad 16 n) <= 16)%nat.
Proof.
  unfold hex_pad, pad_left. pose proof (length_hex_go 16 n EmptyString) as H. fold (hex n) in H. cbn [String.length] in H.
  rewrite length_app_str. assert (E : forall j, String.length (str_repeat "0" j) = j) by (induction j as [|j IH]; [done|cbn; by rewrite IH]).
  rewrite E. lia.
Qed.

(** ** A mask *)

Definition mask_numeral (m : Z) : string := "0x" +:+ hex_pad 16 m.

Lemma c_str_inert s : all_inert s = true -> c_str s = s.
Proof.
  induction s as [|c s IH]; [done|]. cbn [all_inert c_str]. unfold inert. intros H. bool_hyps.
  destruct (Ascii.eqb c NUL); [done|]. by rewrite IH.
Qed.

Lemma mask_numeral_inert m : 0 <= m -> all_inert (mask_numeral m) = true.
Proof. intros Hm. unfold mask_numeral. rewrite all_inert_app. by rewrite hex_pad_inert. Qed.

(** [strtoull] with base 0 reads a mask back. *)
Lemma mask_value_numeral m : in_u64 m -> m <> 0 -> mask_value (mask_numeral m) = Some m.
Proof.
  intros Hm Hne. assert (0 <= m) by (unfold in_u64 in Hm; lia). unfold mask_value. rewrite c_str_inert by (by apply mask_numeral_inert).
  unfold mask_numeral. change ("0x" +:+ hex_pad 16 m) with (String "0" (String "x" (hex_pad 16 m))).
  unfold strtoull. rewrite Scan.skip_ws_stop, take_sign_stop by reflexivity. unfold resolve_base.
  destruct (hex_pad_head 16 m EmptyString ltac:(done)) as (d & s & E & Hd). rewrite str_app_nil_r in E.
  destruct (hex_digit_value d Hd) as (Hg & _).
  assert (Hst : starts_digit 16 (hex_pad 16 m) = true) by (rewrite E; cbn [starts_digit]; by rewrite Hg).
  rewrite Hst. change ((((0 =? 0) || (0 =? 16)) && Ascii.eqb "0" "0" && is_x "x" && true)) with true. cbv iota. rewrite Hst.
  pose proof (digits_hex_pad 16 m EmptyString Hm) as Hdg. rewrite str_app_nil_r in Hdg. rewrite Hdg, digits_stop by done.
  unfold in_u64 in Hm. destruct (Z.ltb_spec UINT64_MAX m) as [Hgt|_]; [unfold UINT64_MAX in Hgt; lia|]. cbn [orb negb String.eqb].
  rewrite u64_small by (unfold in_u64; lia). by destruct (Z.eqb_spec m 0).
Qed.

(** The inner loop reads an inert text up to its quote. *)
Lemma mask_text_inert s p n : all_inert s = true -> forall text, strlen text + strlen s < 63 ->
  mask_text (s +:+ String dquote p) (String.length s + S n) text = Some (text +:+ s, String dquote p, S n).
Proof.
  intros Hs. induction s as [|c s IH]; intros text Hl.
  - cbn [String.length Nat.add]. change (EmptyString +:+ String dquote p) with (String dquote p). cbn [mask_text]. by rewrite Ascii.eqb_refl, str_app_nil_r.
  - cbn [all_inert] in Hs. apply andb_true_iff in Hs as [Hc Hs]. change (String c s +:+ String dquote p) with (String c (s +:+ String dquote p)).
    cbn [String.length Nat.add mask_text]. unfold inert in Hc. bool_hyps. destruct (Ascii.eqb c dquote); [done|].
    unfold strlen in Hl at 2. cbn [String.length] in Hl. destruct (Z.leb_spec 64 (strlen text + 1)); [lia|].
    rewrite IH; [|done|rewrite strlen_app; change (strlen (String c EmptyString)) with 1; unfold strlen in *; lia].
    by rewrite str_assoc.
Qed.

(** ** The array *)

Definition quoted (s : string) : string := String dquote (s +:+ String dquote EmptyString).

(** The masks after the first, each on its line. *)
Fixpoint masks_tail (indent : string) (ms : list Z) : string :=
  match ms with
  | [] => EmptyString
  | m :: ms => String "," (indent +:+ quoted (mask_numeral m) +:+ masks_tail indent ms)
  end.

Definition masks_inside (indent closing : string) (m : Z) (ms : list Z) : string :=
  indent +:+ quoted (mask_numeral m) +:+ masks_tail indent ms +:+ closing.

Definition masks_array (indent closing : string) (m : Z) (ms : list Z) : string :=
  String "[" (masks_inside indent closing m ms +:+ String "]" EmptyString).

Definition proper_mask (m : Z) : Prop := in_u64 m /\ m <> 0.

Lemma proper_mask_nonneg m : proper_mask m -> 0 <= m.
Proof. unfold proper_mask, in_u64. lia. Qed.

Lemma loop_mask fuel indent m rest n out : blank indent = true -> proper_mask m -> bank_mask_count out < CALIBRATION_MAX_BANK_MASKS ->
  masks_loop (S fuel) (indent +:+ quoted (mask_numeral m) +:+ rest) (String.length (indent +:+ quoted (mask_numeral m)) + n) out =
  masks_loop fuel rest n (push_mask m out).
Proof.
  intros Hi [Hm Hne] Hc. pose proof (proper_mask_nonneg m ltac:(done)) as Hpos. cbn [masks_loop]. rewrite length_app_str, <- Nat.add_assoc.
  unfold quoted. rewrite skip_blank by done. cbn [String.length Nat.add]. rewrite length_app_str. cbn [String.length].
  replace (String.length (mask_numeral m) + 1 + n)%nat with (String.length (mask_numeral m) + S n)%nat by lia.
  change (String dquote (mask_numeral m +:+ String dquote EmptyString) +:+ rest) with (String dquote ((mask_numeral m +:+ String dquote EmptyString) +:+ rest)).
  rewrite str_assoc. change (String dquote EmptyString +:+ rest) with (String dquote rest).
  cbn [Nat.eqb char_at str_drop]. change (Ascii.eqb dquote ",") with false. rewrite Ascii.eqb_refl. cbv iota. cbn [negb].
  replace (S (String.length (mask_numeral m) + S n) - 1)%nat with (String.length (mask_numeral m) + S n)%nat by lia.
  rewrite mask_text_inert; [|by apply mask_numeral_inert|].
  2:{ change (strlen EmptyString) with 0. unfold mask_numeral. rewrite strlen_app. pose proof (length_hex_pad m). unfold strlen. cbn [String.length]. lia. }
  cbn [Nat.eqb char_at orb]. rewrite Ascii.eqb_refl. cbn [negb]. destruct (Z.leb_spec CALIBRATION_MAX_BANK_MASKS (bank_mask_count out)); [lia|].
  change (EmptyString +:+ mask_numeral m) with (mask_numeral m). rewrite mask_value_numeral by done. cbn [str_drop].
  by replace (S n - 1)%nat with n by lia.
Qed.

Lemma loop_comma fuel rest n out : masks_loop (S fuel) (String "," rest) (S n) out = masks_loop fuel rest n out.
Proof.
  cbn [masks_loop CalibrationLoad.skip_ws]. change (isspace ",") with false. cbv iota. cbn [Nat.eqb char_at Ascii.eqb Bool.eqb str_drop].
  by replace (S n - 1)%nat with n by lia.
Qed.

Lemma loop_end fuel closing c post out : blank closing = true -> isspace c = false -> 0 < bank_mask_count out ->
  masks_loop (S fuel) (closing +:+ String c post) (String.length closing) out = (CALIBRATION_OK, out).
Proof.
  intros Hb Hc Hp. cbn [masks_loop]. pose proof (skip_blank closing (String c post) 0 Hb Hc) as E. rewrite Nat.add_0_r in E. rewrite E. cbn [Nat.eqb].
  by destruct (Z.ltb_spec 0 (bank_mask_count out)); [|lia].
Qed.

Lemma loop_tail indent closing c post ms : blank indent = true -> blank closing = true -> isspace c = false -> Forall proper_mask ms ->
  forall fuel out, (2 * List.length ms < fuel)%nat -> 0 < bank_mask_count out -> bank_mask_count out + Z.of_nat (List.length ms) <= CALIBRATION_MAX_BANK_MASKS ->
  masks_loop fuel (masks_tail indent ms +:+ closing +:+ String c post) (String.length (masks_tail indent ms +:+ closing)) out =
    (CALIBRATION_OK, fold_left (fun o m => push_mask m o) ms out).
Proof.
  intros Hi Hb Hc. induction 1 as [|m ms Hm Hms IH]; intros fuel out Hf Hp Hmax.
  { destruct fuel as [|fuel]; [lia|]. exact (loop_end fuel closing c post out Hb Hc Hp). }
  cbn [List.length] in *. destruct fuel as [|[|fuel]]; [lia..|]. cbn [masks_tail fold_left].
  change (String "," (indent +:+ quoted (mask_numeral m) +:+ masks_tail indent ms) +:+ closing +:+ String c post)
    with (String "," ((indent +:+ quoted (mask_numeral m) +:+ masks_tail indent ms) +:+ closing +:+ String c post)).
  change (String "," (indent +:+ quoted (mask_numeral m) +:+ masks_tail indent ms) +:+ closing)
    with (String "," ((indent +:+ quoted (mask_numeral m) +:+ masks_tail indent ms) +:+ closing)).
  cbn [String.length]. rewrite loop_comma, !str_assoc. rewrite <- (str_assoc indent _ (masks_tail indent ms +:+ closing)), length_app_str.
  rewrite loop_mask by (done || lia). apply IH; [lia| |]; change (bank_mask_count (push_mask m out)) with (bank_mask_count out + 1); lia.
Qed.

(** The array after the masks were pushed. *)
Lemma push_all ms : forall out, masks_ok out -> Forall proper_mask ms -> bank_mask_count out + Z.of_nat (List.length ms) <= CALIBRATION_MAX_BANK_MASKS ->
  let r := fold_left (fun o m => push_mask m o) ms out in
  masks_ok r /\ bank_mask_count r = bank_mask_count out + Z.of_nat (List.length ms) /\
  take (Z.to_nat (bank_mask_count r)) (bank_masks r) = take (Z.to_nat (bank_mask_count out)) (bank_masks out) ++ ms.
Proof.
  induction ms as [|m ms IH]; intros out Ho Hms Hmax; cbn [fold_left List.length] in *; [by rewrite app_nil_r, Z.add_0_r|].
  apply Forall_cons in Hms as [[Hu Hne] Hms]. assert (Hlt : bank_mask_count out < CALIBRATION_MAX_BANK_MASKS) by lia.
  destruct (IH (push_mask m out) (push_mask_ok _ _ Ho Hlt Hu Hne) Hms) as (H1 & H2 & H3);
    [change (bank_mask_count (push_mask m out)) with (bank_mask_count out + 1); lia|].
  split; [exact H1|]. split; [rewrite H2; change (bank_mask_count (push_mask m out)) with (bank_mask_count out + 1); lia|].
  rewrite H3. destruct (push_mask_take m out (mo_length _ Ho)) as [-> _]; [pose proof (mo_count _ Ho); lia|]. by rewrite <- app_assoc.
Qed.

(** ** Finding and delimiting it *)

Lemma balanced_inert s p n depth in_string k : all_inert s = true ->
  balanced_loop (s +:+ p) (String.length s + n) "[" "]" depth in_string false k =
  balanced_loop p n "[" "]" depth in_string false (k + String.length s).
Proof.
  intros Hs. revert k. induction s as [|c s IH]; intros k; [by rewrite Nat.add_0_r|]. cbn [all_inert] in Hs. apply andb_true_iff in Hs as [Hc Hs].
  change (String c s +:+ p) with (String c (s +:+ p)). cbn [String.length Nat.add balanced_loop]. unfold inert in Hc. bool_hyps.
  destruct (Ascii.eqb c dquote); [done|]. destruct (Ascii.eqb c backslash); [done|]. destruct (Ascii.eqb c "["); [done|]. destruct (Ascii.eqb c "]"); [done|].
  rewrite <- Nat.add_succ_comm. destruct in_string; by apply IH.
Qed.

Lemma balanced_quoted s p n depth k : all_inert s = true ->
  balanced_loop (quoted s +:+ p) (String.length (quoted s) + n) "[" "]" depth false false k =
  balanced_loop p n "[" "]" depth false false (k + String.length (quoted s)).
Proof.
  intros Hs. unfold quoted. cbn [String.length]. rewrite length_app_str. cbn [String.length].
  change (String dquote (s +:+ String dquote EmptyString) +:+ p) with (String dquote ((s +:+ String dquote EmptyString) +:+ p)). rewrite str_assoc.
  change (String dquote EmptyString +:+ p) with (String dquote p). cbn [Nat.add balanced_loop]. rewrite Ascii.eqb_refl.
  replace (String.length s + 1 + n)%nat with (String.length s + S n)%nat by lia. rewrite balanced_inert by done. cbn [balanced_loop].
  change (Ascii.eqb dquote backslash) with false. rewrite Ascii.eqb_refl. cbv iota. f_equal. lia.
Qed.

Lemma balanced_tail indent ms p n depth : blank indent = true -> Forall proper_mask ms -> forall k,
  balanced_loop (masks_tail indent ms +:+ p) (String.length (masks_tail indent ms) + n) "[" "]" depth false false k =
  balanced_loop p n "[" "]" depth false false (k + String.length (masks_tail indent ms)).
Proof.
  intros Hi. induction 1 as [|m ms Hm Hms IH]; intros k; cbn [masks_tail]; [by rewrite Nat.add_0_r|].
  change (String "," (indent +:+ quoted (mask_numeral m) +:+ masks_tail indent ms)) with
    (String "," indent +:+ quoted (mask_numeral m) +:+ masks_tail indent ms).
  rewrite !str_assoc, !length_app_str, <- !Nat.add_assoc, balanced_inert by (cbn [all_inert]; by rewrite blank_inert).
  rewrite balanced_quoted by (by apply mask_numeral_inert, proper_mask_nonneg). rewrite IH. f_equal. lia.
Qed.

Lemma balanced_array indent closing m ms p n : blank indent = true -> blank closing = true -> proper_mask m -> Forall proper_mask ms ->
  balanced_loop (masks_array indent closing m ms +:+ p) (String.length (masks_array indent closing m ms) + n) "[" "]" 0 false false 0 =
    Some (String.length (masks_array indent closing m ms)).
Proof.
  intros Hi Hb Hm Hms. unfold masks_array, masks_inside. cbn [String.length]. rewrite !length_app_str. cbn [String.length].
  change (String "[" ((indent +:+ quoted (mask_numeral m) +:+ masks_tail indent ms +:+ closing) +:+ String "]" EmptyString) +:+ p) with
    (String "[" (((indent +:+ quoted (mask_numeral m) +:+ masks_tail indent ms +:+ closing) +:+ String "]" EmptyString) +:+ p)).
  rewrite !str_assoc. change (String "]" EmptyString +:+ p) with (String "]" p). rewrite <- !Nat.add_assoc. cbn [Nat.add balanced_loop].
  cbn [Ascii.eqb Bool.eqb dquote]. rewrite <- !Nat.add_assoc, balanced_inert by (by apply blank_inert).
  rewrite balanced_quoted by (by apply mask_numeral_inert, proper_mask_nonneg). rewrite balanced_tail by done.
  rewrite balanced_inert by (by apply blank_inert). cbn [Nat.add balanced_loop Ascii.eqb Bool.eqb dquote]. cbn. f_equal. lia.
Qed.

(** The key of the array, in quotes. *)
Definition masks_key : string := quoted "bank_masks".

Lemma find_masks pre ws1 ws2 c value : blank ws1 = true -> blank ws2 = true -> isspace c = false ->
  let doc := pre +:+ masks_key +:+ ws1 +:+ String ":" (ws2 +:+ String c value) in
  strstr doc masks_key = Some (String.length pre) ->
  find_key_value (mk_json_range doc (String.length doc)) "bank_masks" = Some (String c value, S (String.length value)).
Proof.
  intros H1 H2 Hc doc Hfirst. unfold find_key_value. change (String dquote ("bank_masks" +:+ String dquote EmptyString)) with masks_key.
  change ((strlen masks_key <=? 0) || (128 <=? strlen masks_key)) with false. cbv iota. cbn [jr_begin jr_size]. change (Z.to_nat (strlen masks_key)) with 12%nat.
  assert (Hl : String.length doc = (String.length pre + (12 + (String.length ws1 + S (String.length ws2 + S (String.length value)))))%nat).
  { subst doc. rewrite !length_app_str. cbn [String.length]. rewrite length_app_str. reflexivity. }
  cbn [find_key_loop]. rewrite Hfirst. destruct (Nat.eqb_spec (String.length doc) 0); [lia|]. destruct (Nat.leb_spec (String.length doc) (String.length pre)); [lia|].
  replace (str_drop (String.length pre + 12) doc) with (ws1 +:+ String ":" (ws2 +:+ String c value)).
  2:{ subst doc. rewrite <- str_assoc. replace (String.length pre + 12)%nat with (String.length (pre +:+ masks_key)) by (rewrite length_app_str; reflexivity).
      by rewrite str_drop_app. }
  replace (String.length doc - (String.length pre + 12))%nat with (String.length ws1 + S (String.length ws2 + S (String.length value)))%nat by lia.
  rewrite skip_blank by done. cbn [Ascii.eqb Bool.eqb]. by rewrite skip_blank.
Qed.

Lemma str_drop_S c s : str_drop 1 (String c s) = s.
Proof. by destruct s. Qed.

(** C28: the masks the worker prints are the masks that are loaded: in any document
    whose first key "bank_masks" is followed by an array of one to 32 quoted
    hexadecimal masks, with white space anywhere between the tokens,
    [extract_array] delimits that array and [parse_bank_masks] stores exactly
    those masks, in order, followed by zeros. *)
Theorem bank_masks_roundtrip pre ws1 ws2 indent closing m ms post :
  blank ws1 = true -> blank ws2 = true -> blank indent = true -> blank closing = true ->
  Forall proper_mask (m :: ms) -> Z.of_nat (List.length (m :: ms)) <= CALIBRATION_MAX_BANK_MASKS ->
  let doc := pre +:+ masks_key +:+ ws1 +:+ String ":" (ws2 +:+ masks_array indent closing m ms +:+ post) in
  strstr doc masks_key = Some (String.length pre) ->
  exists range r, extract_array (mk_json_range doc (String.length doc)) "bank_masks" = inr range /\
    parse_bank_masks range result_zero = (CALIBRATION_OK, r) /\
    bank_mask_count r = Z.of_nat (List.length (m :: ms)) /\
    bank_masks r = (m :: ms) ++ replicate (32 - List.length (m :: ms)) 0.
Proof.
  intros H1 H2 Hi Hb Hms Hmax doc Hfirst. pose proof Hms as [Hm Hms']%Forall_cons.
  set (inside := masks_inside indent closing m ms).
  assert (Ha : masks_array indent closing m ms = String "[" (inside +:+ String "]" EmptyString)) by reflexivity.
  pose proof (find_masks pre ws1 ws2 "[" ((inside +:+ String "]" EmptyString) +:+ post) H1 H2 eq_refl) as Hf. cbv zeta in Hf.
  change (String "[" ((inside +:+ String "]" EmptyString) +:+ post)) with (masks_array indent closing m ms +:+ post) in Hf. fold doc in Hf. specialize (Hf Hfirst).
  pose proof (balanced_array indent closing m ms post (String.length post) Hi Hb Hm Hms') as Hbal. rewrite <- length_app_str in Hbal.
  exists (mk_json_range (masks_array indent closing m ms +:+ post) (String.length (masks_array indent closing m ms))).
  exists (fold_left (fun o m => push_mask m o) (m :: ms) result_zero).
  destruct (push_all (m :: ms) result_zero result_zero_ok Hms ltac:(cbn [bank_mask_count result_zero]; lia)) as (Hr & Hcount & Htake).
  split; [|split; [|split; [exact Hcount|]]].
  - unfold extract_array. rewrite Hf. unfold scan_balanced.
    change (S (String.length ((inside +:+ String "]" EmptyString) +:+ post))) with (String.length (masks_array indent closing m ms +:+ post)). by rewrite Hbal.
  - unfold parse_bank_masks. cbn [jr_begin jr_size]. rewrite Ha.
    change (String "[" (inside +:+ String "]" EmptyString) +:+ post) with (String "[" ((inside +:+ String "]" EmptyString) +:+ post)).
    rewrite str_drop_S, str_assoc. change (String "]" EmptyString +:+ post) with (String "]" post). cbn [String.length]. rewrite length_app_str. cbn [String.length].
    replace (S (String.length inside + 1) - 2)%nat with (String.length inside) by lia.
    assert (Hlen : (2 * List.length ms + 3 <= S (S (String.length inside + 1)))%nat).
    { subst inside. unfold masks_inside. rewrite !length_app_str. unfold quoted. cbn [String.length].
      assert (2 * List.length ms <= String.length (masks_tail indent ms))%nat; [|lia].
      clear. induction ms as [|x ms IH]; [done|]. cbn [List.length masks_tail String.length]. rewrite !length_app_str. cbn [quoted String.length]. lia. }
    generalize dependent (S (S (String.length inside + 1))). intros [|fuel] Hlen; [lia|].
    subst inside. unfold masks_inside in *. rewrite !str_assoc.
    replace (String.length (indent +:+ quoted (mask_numeral m) +:+ masks_tail indent ms +:+ closing)) with
      (String.length (indent +:+ quoted (mask_numeral m)) + String.length (masks_tail indent ms +:+ closing))%nat by (rewrite !length_app_str; lia).
    rewrite loop_mask by (done || (unfold CALIBRATION_MAX_BANK_MASKS; cbn; lia)).
    cbn [fold_left]. cbn [List.length] in Hmax. apply loop_tail; try done; try (change (bank_mask_count (push_mask m result_zero)) with 1); lia.
  - rewrite <- (take_drop (Z.to_nat (bank_mask_count (fold_left (fun o m => push_mask m o) (m :: ms) result_zero))) (bank_masks _)), Htake, (mo_rest _ Hr), Hcount.
    cbn [bank_mask_count result_zero Z.to_nat]. f_equal. f_equal. lia.
Qed.
