(* ===== verification/Cgroup.v ===== *)
(** * The cgroup writer ([cgroup.h], [cgroup.c])

    The daemon's only actuator: paths under the cgroup base directory and writes
    to control files there.  The static variable [g_cgroup_base] is the argument
    [g_cgroup_base] of the operations that read it; messages to [stderr] and
    [stdout] are not modelled.

    [CgroupOps] and [CgroupLaws] are what the controller relies on; the second
    half of the file discharges them from the kernel's documented behaviour of
    [cgroup.procs]. *)
From S2P Require Import Prelude CString Os.
From Stdlib Require Import Ascii String DecimalString.
Local Open Scope Z_scope.

Definition CGROUP_DEFAULT_BASE : string := "/sys/fs/cgroup/cgroup_research"%string.
Definition CGROUP_PATH_MAX : Z := 512.
Definition CGROUP_VALUE_MAX : Z := 128.

(** [enum proc_group]; a C enum variable can hold any other integer too. *)
Inductive proc_group :=
| GROUP_PROTECTED
| GROUP_BACKGROUND
| GROUP_THROTTLED
| GROUP_IGNORED
| GROUP_UNKNOWN
| GROUP_OTHER (value : Z).

#[export] Instance proc_group_eq_dec : EqDecision proc_group.
Proof. solve_decision. Defined.

Definition group_to_dir_name (group : proc_group) : option string :=
  match group with
  | GROUP_PROTECTED => Some "protected"
  | GROUP_BACKGROUND => Some "background"
  | GROUP_THROTTLED => Some "throttled"
  | _ => None
  end%string.

Definition cgroup_group_name (group : proc_group) : string :=
  match group with
  | GROUP_PROTECTED => "protected"
  | GROUP_BACKGROUND => "background"
  | GROUP_THROTTLED => "throttled"
  | GROUP_IGNORED => "ignored"
  | GROUP_UNKNOWN => "unknown"
  | GROUP_OTHER _ => "invalid"
  end%string.

(** The new value of [g_cgroup_base] is the second component. *)
Definition cgroup_set_base_path (base_path : option string) (g_cgroup_base : string) : Z * string :=
  match base_path with
  | None => (-1, g_cgroup_base)
  | Some p =>
      if Ascii.eqb (char_at p 0) NUL then (-1, g_cgroup_base)
      else
        let g_cgroup_base := snprintf CGROUP_PATH_MAX (c_str p) in
        if CGROUP_PATH_MAX <=? strlen (c_str p) then (-1, g_cgroup_base) else (0, g_cgroup_base)
  end.

Definition cgroup_get_base_path (g_cgroup_base : string) : string := g_cgroup_base.

(** [out]: [None] is NULL, otherwise the buffer's text before the call. *)
Definition cgroup_group_dir (g_cgroup_base : string) (group : proc_group)
    (out : option string) (out_size : Z) : Z * option string :=
  match out with
  | None => (-1, None)
  | Some _ =>
      if out_size =? 0 then (-1, out)
      else match group_to_dir_name group with
           | None => (-1, out)
           | Some dir_name =>
               let text := g_cgroup_base +:+ "/" +:+ dir_name in
               (if out_size <=? strlen text then -1 else 0, Some (snprintf out_size text))
           end
  end.

Definition cgroup_control_path (g_cgroup_base : string) (group : proc_group)
    (control_file : option string) (out : string) (out_size : Z) : Z * string :=
  match control_file with
  | None => (-1, out)
  | Some file =>
      if Ascii.eqb (char_at file 0) NUL then (-1, out)
      else if str_has (c_str file) "/" then (-1, out)
      else match cgroup_group_dir g_cgroup_base group (Some EmptyString) CGROUP_PATH_MAX with
           | (0, Some dir) =>
               let text := dir +:+ "/" +:+ c_str file in
               (if out_size <=? strlen text then -1 else 0, snprintf out_size text)
           | _ => (-1, out)
           end
  end.

Section Writer.
Context {W : Type} `{OS W}.

Definition cgroup_write_control (g_cgroup_base : string) (group : proc_group)
    (control_file value : option string) (w : W) : Z * W :=
  match value with
  | None => (-1, w)
  | Some value =>
      let '(rc, path) := cgroup_control_path g_cgroup_base group control_file EmptyString CGROUP_PATH_MAX in
      if negb (rc =? 0) then (-1, w)
      else
        let '(opened, w) := os_fopen_w path w in
        if negb opened then (-1, w)
        else
          let '(written, w) := os_fprintf path (c_str value +:+ String newline EmptyString) w in
          if negb written then
            let '(_, w) := os_fclose_w path w in (-1, w)
          else
            let '(closed, w) := os_fclose_w path w in
            if negb closed then (-1, w) else (0, w)
  end.

Definition cgroup_move_pid (g_cgroup_base : string) (pid : Z) (group : proc_group) (w : W) : Z * W :=
  if pid <=? 0 then (-1, w)
  else if CGROUP_VALUE_MAX <=? strlen (dec pid) then (-1, w)
  else
    let pid_text := snprintf CGROUP_VALUE_MAX (dec pid) in
    let '(rc, w) := cgroup_write_control g_cgroup_base group (Some "cgroup.procs"%string) (Some pid_text) w in
    if negb (rc =? 0) then (-1, w) else (0, w).

Definition cgroup_set_cpu_max (g_cgroup_base : string) (group : proc_group) (value : option string) (w : W) : Z * W :=
  cgroup_write_control g_cgroup_base group (Some "cpu.max"%string) value w.
Definition cgroup_set_memory_low (g_cgroup_base : string) (group : proc_group) (value : option string) (w : W) : Z * W :=
  cgroup_write_control g_cgroup_base group (Some "memory.low"%string) value w.
Definition cgroup_set_memory_high (g_cgroup_base : string) (group : proc_group) (value : option string) (w : W) : Z * W :=
  cgroup_write_control g_cgroup_base group (Some "memory.high"%string) value w.
Definition cgroup_set_memory_max (g_cgroup_base : string) (group : proc_group) (value : option string) (w : W) : Z * W :=
  cgroup_write_control g_cgroup_base group (Some "memory.max"%string) value w.
End Writer.

(** ** The interface of the actuator *)

(** What the controller calls; [W] is the world the calls act on. *)
Class CgroupOps (W : Type) := {
  cg_move_pid : Z -> proc_group -> W -> Z * W;
  cg_set_cpu_max : proc_group -> string -> W -> Z * W;
  cg_set_memory_low : proc_group -> string -> W -> Z * W
}.

(** What it may rely on: [cg_placed w pid] is the managed group [pid] is in.  A
    successful move places that process and no other; a failed call and the
    control-value writes move nothing. *)
Class CgroupLaws (W : Type) `{CgroupOps W} := {
  cg_placed : W -> Z -> option proc_group;
  cg_move_ok pid group w w' :
    cg_move_pid pid group w = (0, w') ->
    cg_placed w' pid = Some group /\ forall q, q <> pid -> cg_placed w' q = cg_placed w q;
  cg_move_fail pid group w rc w' :
    cg_move_pid pid group w = (rc, w') -> rc <> 0 -> forall q, cg_placed w' q = cg_placed w q;
  cg_cpu_max_keeps group v w q : cg_placed (cg_set_cpu_max group v w).2 q = cg_placed w q;
  cg_memory_low_keeps group v w q : cg_placed (cg_set_memory_low group v w).2 q = cg_placed w q
}.

(** ** The implementation on a cgroup v2 file system *)

(** The process's world: its static base path and the kernel. *)
Record cgroup_world (W : Type) := mk_cgroup_world { cw_base : string; cw_os : W }.
Arguments mk_cgroup_world {W}. Arguments cw_base {W}. Arguments cw_os {W}.

#[export] Instance cgroup_ops {W} `{OS W} : CgroupOps (cgroup_world W) := {|
  cg_move_pid pid group w :=
    let '(rc, o) := cgroup_move_pid (cw_base w) pid group (cw_os w) in (rc, mk_cgroup_world (cw_base w) o);
  cg_set_cpu_max group v w :=
    let '(rc, o) := cgroup_set_cpu_max (cw_base w) group (Some v) (cw_os w) in (rc, mk_cgroup_world (cw_base w) o);
  cg_set_memory_low group v w :=
    let '(rc, o) := cgroup_set_memory_low (cw_base w) group (Some v) (cw_os w) in (rc, mk_cgroup_world (cw_base w) o)
|}.

(** The three C library calls of one control write. *)
Definition write_file {W} `{OS W} (path text : string) (w : W) : bool * W :=
  let '(opened, w) := os_fopen_w path w in
  if negb opened then (false, w)
  else
    let '(written, w) := os_fprintf path text w in
    let '(closed, w) := os_fclose_w path w in (written && closed, w).

Definition procs_path (dir : string) : string := dir +:+ "/cgroup.procs".

(** Linux's documented behaviour (cgroup-v2: writing a PID to [cgroup.procs]
    migrates that process; a write that fails migrates nothing; no other control
    file migrates; neither does reading files, reading the clock or allocating memory). *)
Class Cgroupfs (W : Type) `{OS W} := {
  fs_member : W -> Z -> option string;
  fs_migrates dir pid w w' :
    0 < pid -> write_file (procs_path dir) (dec pid +:+ String newline EmptyString) w = (true, w') ->
    fs_member w' pid = Some dir /\ forall q, q <> pid -> fs_member w' q = fs_member w q;
  fs_failed path text w w' :
    write_file path text w = (false, w') -> forall q, fs_member w' q = fs_member w q;
  fs_other dir file text w :
    file <> "cgroup.procs"%string -> str_has file "/" = false -> forall q, fs_member (write_file (dir +:+ "/" +:+ file) text w).2 q = fs_member w q;
  fs_clock w q : fs_member (os_clock w).2 q = fs_member w q;
  fs_calloc n size w q : fs_member (os_calloc n size w).2 q = fs_member w q;
  fs_readlink path w q : fs_member (os_readlink path w).2 q = fs_member w q;
  fs_fopen path w q : fs_member (os_fopen path w).2 q = fs_member w q;
  fs_fclose w q : fs_member (os_fclose w).2 q = fs_member w q
}.

(** ** Lemmas *)

Lemma str_app_inj_l (a b c : string) : a +:+ b = a +:+ c -> b = c.
Proof. induction a as [|x a IH]; [exact id|]. intros [= Heq]. exact (IH Heq). Qed.

Lemma c_str_id s : str_has s NUL = false -> c_str s = s.
Proof.
  induction s as [|c s IH]; [reflexivity|]. cbn [str_has c_str]. intros [-> Hs]%orb_false_iff.
  f_equal. exact (IH Hs).
Qed.

(** Numerals hold no NUL. *)
Lemma dec_no_nul z : str_has (dec z) NUL = false.
Proof.
  assert (Hu : forall u, str_has (NilEmpty.string_of_uint u) NUL = false) by (induction u; cbn; auto).
  assert (Hz : forall u, str_has (NilZero.string_of_uint u) NUL = false).
  { intros u. unfold NilZero.string_of_uint. destruct u; apply Hu || reflexivity. }
  unfold dec, NilZero.string_of_int. destruct (Z.to_int z); [apply Hz|]. cbn [str_has]. rewrite Hz. reflexivity.
Qed.

Lemma c_str_dec z : c_str (dec z) = dec z.
Proof. apply c_str_id, dec_no_nul. Qed.

Definition group_dir (base : string) (name : string) : string := base +:+ "/" +:+ name.

Lemma group_dir_ok base group out size dir :
  cgroup_group_dir base group out size = (0, Some dir) ->
  exists name, group_to_dir_name group = Some name /\ dir = group_dir base name.
Proof.
  unfold cgroup_group_dir. destruct out; [|discriminate].
  destruct (size =? 0); [discriminate|]. destruct (group_to_dir_name group) as [name|]; [|discriminate].
  destruct (Z.leb_spec size (strlen (base +:+ "/" +:+ name))); [discriminate|].
  rewrite snprintf_fits by lia. intros [= <-]. eauto.
Qed.

Lemma control_path_ok base group file out size path :
  cgroup_control_path base group (Some file) out size = (0, path) ->
  exists name, group_to_dir_name group = Some name /\
    path = group_dir base name +:+ "/" +:+ c_str file /\
    char_at file 0 <> NUL /\ str_has (c_str file) "/" = false /\ strlen path < size.
Proof.
  unfold cgroup_control_path. destruct (Ascii.eqb_spec (char_at file 0) NUL) as [|Hne]; [discriminate|].
  destruct (str_has (c_str file) "/") eqn:Hs; [discriminate|].
  destruct (cgroup_group_dir base group (Some EmptyString) CGROUP_PATH_MAX) as [[|p|p] [dir|]] eqn:Hd; try discriminate.
  apply group_dir_ok in Hd as (name & Hname & ->).
  destruct (Z.leb_spec size (strlen (group_dir base name +:+ "/" +:+ c_str file))); [discriminate|].
  rewrite snprintf_fits by lia. intros [= <-]. exists name. auto.
Qed.

Definition text_line (s : string) : string := s +:+ String newline EmptyString.

Lemma write_control_file {W} `{OS W} base group file value w :
  match cgroup_control_path base group (Some file) EmptyString CGROUP_PATH_MAX with
  | (0, path) =>
      cgroup_write_control base group (Some file) (Some value) w =
        let '(ok, w') := write_file path (text_line (c_str value)) w in (if ok then 0 else -1, w')
  | _ => cgroup_write_control base group (Some file) (Some value) w = (-1, w)
  end.
Proof.
  unfold cgroup_write_control, write_file, text_line.
  destruct (cgroup_control_path base group (Some file) EmptyString CGROUP_PATH_MAX) as [[|p|p] path]; cbn [Z.eqb negb]; try reflexivity.
  destruct (os_fopen_w path w) as [[] w1]; cbn [negb]; [|reflexivity].
  destruct (os_fprintf path _ w1) as [[] w2]; cbn [negb andb];
    destruct (os_fclose_w path w2) as [[] w3]; reflexivity.
Qed.

(** The group whose directory is [d]. *)
Definition group_of_dir (base d : string) : option proc_group :=
  if String.eqb d (group_dir base "protected") then Some GROUP_PROTECTED
  else if String.eqb d (group_dir base "background") then Some GROUP_BACKGROUND
  else if String.eqb d (group_dir base "throttled") then Some GROUP_THROTTLED
  else None.

Lemma group_of_dir_name base group name :
  group_to_dir_name group = Some name -> group_of_dir base (group_dir base name) = Some group.
Proof.
  intros Hn. unfold group_of_dir.
  assert (Hne : forall a b, a <> b -> String.eqb (group_dir base a) (group_dir base b) = false).
  { intros a b Hab. apply String.eqb_neq. intros E. apply Hab.
    exact (str_app_inj_l _ _ _ (str_app_inj_l _ _ _ E)). }
  destruct group; cbn in Hn; simplify_eq; rewrite ?String.eqb_refl, ?Hne by discriminate; reflexivity.
Qed.

Section Placement.
Context {W : Type} `{Cgroupfs W}.

Definition cgroup_placed (w : cgroup_world W) (pid : Z) : option proc_group :=
  match fs_member (cw_os w) pid with
  | Some d => group_of_dir (cw_base w) d
  | None => None
  end.

Lemma move_pid_spec base pid group w rc w' :
  cgroup_move_pid base pid group w = (rc, w') ->
  (rc = 0 /\ exists name, group_to_dir_name group = Some name /\
     fs_member w' pid = Some (group_dir base name) /\ forall q, q <> pid -> fs_member w' q = fs_member w q) \/
  (rc = -1 /\ forall q, fs_member w' q = fs_member w q).
Proof.
  unfold cgroup_move_pid. destruct (Z.leb_spec pid 0); [intros [= <- <-]; auto|].
  destruct (Z.leb_spec CGROUP_VALUE_MAX (strlen (dec pid))); [intros [= <- <-]; auto|].
  rewrite snprintf_fits by lia.
  pose proof (write_control_file base group "cgroup.procs" (dec pid) w) as Hw. rewrite c_str_dec in Hw.
  destruct (cgroup_control_path base group (Some "cgroup.procs"%string) EmptyString CGROUP_PATH_MAX)
    as [[|p|p] path] eqn:Hp; rewrite Hw; cbn [Z.eqb negb]; [|intros [= <- <-]; auto..].
  apply control_path_ok in Hp as (name & Hname & -> & _).
  change (c_str "cgroup.procs") with "cgroup.procs"%string in *.
  change (group_dir base name +:+ "/" +:+ "cgroup.procs") with (procs_path (group_dir base name)).
  destruct (write_file (procs_path (group_dir base name)) (text_line (dec pid)) w) as [[] w1] eqn:Hf;
    cbn [Z.eqb negb]; intros [= <- <-].
  - left. split; [reflexivity|]. exists name. split; [exact Hname|]. apply fs_migrates in Hf; [exact Hf|assumption].
  - right. split; [reflexivity|]. exact (fs_failed _ _ _ _ Hf).
Qed.

Lemma write_other_keeps base group file value w q :
  c_str file <> "cgroup.procs"%string ->
  fs_member (cgroup_write_control base group (Some file) (Some value) w).2 q = fs_member w q.
Proof.
  intros Hfile. pose proof (write_control_file base group file value w) as Hw.
  destruct (cgroup_control_path base group (Some file) EmptyString CGROUP_PATH_MAX) as [[|p|p] path] eqn:Hp;
    rewrite Hw; try reflexivity.
  apply control_path_ok in Hp as (name & _ & -> & _ & Hslash & _).
  pose proof (fs_other (group_dir base name) (c_str file) (text_line (c_str value)) w Hfile Hslash q) as Ho.
  destruct (write_file _ _ w) as [ok w1]. exact Ho.
Qed.

Lemma placed_lift (r : Z * W) base o q :
  fs_member r.2 q = fs_member o q ->
  cgroup_placed (let '(rc, o') := r in (rc, mk_cgroup_world base o')).2 q = cgroup_placed (mk_cgroup_world base o) q.
Proof. destruct r as [rc o']. unfold cgroup_placed. cbn. intros ->. reflexivity. Qed.

(** The writer implements the interface the controller is proved against. *)
#[export] Program Instance cgroup_laws : CgroupLaws (cgroup_world W) := {| cg_placed := cgroup_placed |}.
Next Obligation.
  intros pid group [base o] w'. cbn. destruct (cgroup_move_pid base pid group o) as [rc o'] eqn:Hm.
  intros [= -> <-]. apply move_pid_spec in Hm as [(_ & name & Hn & H1 & H2)|[? _]]; [|discriminate].
  unfold cgroup_placed. cbn. rewrite H1. split; [exact (group_of_dir_name base group name Hn)|].
  intros q Hq. rewrite H2 by exact Hq. reflexivity.
Qed.
Next Obligation.
  intros pid group [base o] rc w'. cbn. destruct (cgroup_move_pid base pid group o) as [rc' o'] eqn:Hm.
  intros [= -> <-] Hrc q. apply move_pid_spec in Hm as [[? _]|[_ H1]]; [contradiction|].
  unfold cgroup_placed. cbn. rewrite H1. reflexivity.
Qed.
Next Obligation.
  intros group v [base o] q. apply placed_lift. apply write_other_keeps. discriminate.
Qed.
Next Obligation.
  intros group v [base o] q. apply placed_lift. apply write_other_keeps. discriminate.
Qed.
End Placement.
