(* ===== verification/Process.v ===== *)
(** * The process table ([process.h], [process.c], [protected_daemon.h])

    A hash table from pids to process records: open addressing with linear
    probing, tombstones for removed entries.  A pointer into the table is the
    index of its slot, so that two pointers to the same entry alias as in C; the
    arrays are finite maps from indices whose missing entries are zero bytes. *)
From S2P Require Import Prelude CString Os Cgroup.
From Stdlib Require Import Ascii String.
Local Open Scope Z_scope.

(** ** Data *)

Definition TASK_COMM_LEN : Z := 16.
Definition PROC_MAX : Z := 32768.
Definition PROC_PATH_MAX : Z := 4096.
Definition CMDLINE_MAX : Z := 4096.

Definition EVENT_EXEC : Z := 1.
Definition EVENT_FORK : Z := 2.
Definition EVENT_EXIT : Z := 3.

(** [struct event]: what the kernel side sends. *)
Record event := mk_event {
  e_type : Z;
  e_pid : Z;
  e_ppid : Z;
  e_child_pid : Z;
  e_uid : Z;
  e_comm : string
}.

Definition PROCESS_OK : Z := 0.
Definition PROCESS_ERR_INVALID_ARG : Z := -1.
Definition PROCESS_ERR_NO_SPACE : Z := -2.
Definition PROCESS_ERR_INCONSISTENT : Z := -3.

(** The [int] flags hold 0 or 1. *)
Record proc_info := mk_proc_info {
  p_used : bool;
  p_pid : Z;
  p_ppid : Z;
  p_uid : Z;
  p_exec_seen : bool;
  p_exited : bool;
  p_is_protected : bool;
  p_inherited_protected : bool;
  p_group : proc_group;
  p_comm : string;
  p_exe_path : string;
  p_cmdline : string
}.

#[export] Instance proc_info_settable : Settable proc_info :=
  fun p => mk_proc_info (p_used p) (p_pid p) (p_ppid p) (p_uid p) (p_exec_seen p) (p_exited p)
    (p_is_protected p) (p_inherited_protected p) (p_group p) (p_comm p) (p_exe_path p) (p_cmdline p).

(** [memset(p, 0, sizeof *p)]: the zero of [enum proc_group] is GROUP_PROTECTED. *)
Definition proc_info_zero : proc_info :=
  mk_proc_info false 0 0 0 false false false false GROUP_PROTECTED "" "" "".

Inductive process_slot_state := PROCESS_SLOT_EMPTY | PROCESS_SLOT_OCCUPIED | PROCESS_SLOT_TOMBSTONE.

#[export] Instance process_slot_state_eq_dec : EqDecision process_slot_state.
Proof. solve_decision. Defined.

(** The three static variables. *)
Record process_table := mk_process_table {
  proc_table : gmap Z proc_info;
  slot_states : gmap Z process_slot_state;
  occupied_count : Z
}.

#[export] Instance process_table_settable : Settable process_table :=
  fun t => mk_process_table (proc_table t) (slot_states t) (occupied_count t).

(** [proc_table[i]] and [slot_states[i]]. *)
Definition entry (t : process_table) (i : Z) : proc_info := default proc_info_zero (proc_table t !! i).
Definition slot (t : process_table) (i : Z) : process_slot_state := default PROCESS_SLOT_EMPTY (slot_states t !! i).

Definition set_entry (t : process_table) (i : Z) (p : proc_info) : process_table :=
  t <| proc_table ::= <[i := p]> |>.
Definition set_slot (t : process_table) (i : Z) (s : process_slot_state) : process_table :=
  t <| slot_states ::= <[i := s]> |>.

(** The indices of a loop over the whole table. *)
Definition indices : list Z := zrange 0 (Z.to_nat PROC_MAX).

(** ** Operations *)

Definition process_hash (p : Z) : Z := u64 p mod PROC_MAX.

Definition occupied_by (t : process_table) (i p : Z) : bool :=
  bool_decide (slot t i = PROCESS_SLOT_OCCUPIED) && p_used (entry t i) && (p_pid (entry t i) =? p).

Fixpoint find_existing_loop (t : process_table) (p start : Z) (probes : list Z) : option Z :=
  match probes with
  | [] => None
  | probe :: probes =>
      let idx := (start + probe) mod PROC_MAX in
      if bool_decide (slot t idx = PROCESS_SLOT_EMPTY) then None
      else if occupied_by t idx p then Some idx
      else find_existing_loop t p start probes
  end.

(** The result 1 with its slot, or [None] for the results 0 and -1. *)
Definition find_existing_slot (t : process_table) (p : Z) : option Z :=
  if p <=? 0 then None else find_existing_loop t p (process_hash p) indices.

(** The slot and [*found_out]; [None] for the result -1. *)
Fixpoint find_upsert_loop (t : process_table) (p start first_tombstone : Z) (probes : list Z) : option (Z * bool) :=
  match probes with
  | [] => if negb (first_tombstone =? PROC_MAX) then Some (first_tombstone, false) else None
  | probe :: probes =>
      let idx := (start + probe) mod PROC_MAX in
      match slot t idx with
      | PROCESS_SLOT_OCCUPIED =>
          if p_used (entry t idx) && (p_pid (entry t idx) =? p) then Some (idx, true)
          else find_upsert_loop t p start first_tombstone probes
      | PROCESS_SLOT_TOMBSTONE =>
          find_upsert_loop t p start (if first_tombstone =? PROC_MAX then idx else first_tombstone) probes
      | PROCESS_SLOT_EMPTY =>
          Some (if negb (first_tombstone =? PROC_MAX) then first_tombstone else idx, false)
      end
  end.

Definition find_upsert_slot (t : process_table) (p : Z) : option (Z * bool) :=
  if p <=? 0 then None else find_upsert_loop t p (process_hash p) PROC_MAX indices.

(** The slot of [p], whether it existed, and the table; [None] for NULL. *)
Definition prepare_upsert (t : process_table) (p : Z) : option (Z * bool * process_table) :=
  match find_upsert_slot t p with
  | None => None
  | Some (idx, found) =>
      if found then Some (idx, found, t)
      else if PROC_MAX <=? occupied_count t then None
      else Some (idx, found,
                 (set_slot (set_entry t idx proc_info_zero) idx PROCESS_SLOT_OCCUPIED) <| occupied_count ::= u64_inc |>)
  end.

Definition process_table_reset (t : process_table) : process_table := mk_process_table ∅ ∅ 0.
Definition process_table_count (t : process_table) : Z := occupied_count t.
Definition process_table_capacity : Z := PROC_MAX.

Definition process_get (t : process_table) (p : Z) : option Z := find_existing_slot t p.

Section Proc.
Context {W : Type} `{OS W}.

(** [p]: the record behind the pointer, [None] for NULL. *)
Definition process_read_exe (p : option proc_info) (w : W) : Z * option proc_info * W :=
  match p with
  | None => (-1, None, w)
  | Some p =>
      if p_pid p <=? 0 then (-1, Some p, w)
      else
        let path := "/proc/" +:+ dec (p_pid p) +:+ "/exe" in
        if 256 <=? strlen path then (-1, Some (p <| p_exe_path := EmptyString |>), w)
        else
          let '(target, w) := os_readlink path w in
          match target with
          | None => (-1, Some (p <| p_exe_path := EmptyString |>), w)
          | Some target => (0, Some (p <| p_exe_path := str_take (Z.to_nat (PROC_PATH_MAX - 1)) target |>), w)
          end
  end.

(** NUL separators become spaces. *)
Fixpoint spaces_for_nul (s : string) : string :=
  match s with
  | EmptyString => EmptyString
  | String c s => String (if Ascii.eqb c NUL then " "%char else c) (spaces_for_nul s)
  end.

Definition process_read_cmdline (p : option proc_info) (w : W) : Z * option proc_info * W :=
  match p with
  | None => (-1, None, w)
  | Some p =>
      if p_pid p <=? 0 then (-1, Some p, w)
      else
        let path := "/proc/" +:+ dec (p_pid p) +:+ "/cmdline" in
        let fail := p <| p_cmdline := EmptyString |> in
        if 256 <=? strlen path then (-1, Some fail, w)
        else
          let '(f, w) := os_fopen path w in
          match f with
          | None => (-1, Some fail, w)
          | Some f =>
              let data := fread (CMDLINE_MAX - 1) f in
              let '(closed, w) := os_fclose w in
              if negb closed then (-1, Some fail, w)
              else if strlen data =? 0 then (-1, Some fail, w)
              else (0, Some (p <| p_cmdline := spaces_for_nul data |>), w)
          end
  end.

(** The slot of the process; [None] for NULL. *)
Definition process_upsert_exec (t : process_table) (e : option event) (w : W) : option Z * process_table * W :=
  match e with
  | None => (None, t, w)
  | Some e =>
      if e_pid e <=? 0 then (None, t, w)
      else match prepare_upsert t (e_pid e) with
      | None => (None, t, w)
      | Some (idx, found, t) =>
          let old := entry t idx in
          let preserve_is_protected := if found : bool then p_is_protected old else false in
          let preserve_inherited_protected := if found then p_inherited_protected old else false in
          let preserve_group := if found then p_group old else GROUP_UNKNOWN in
          let p := proc_info_zero <| p_used := true |> <| p_pid := e_pid e |> <| p_ppid := e_ppid e |>
            <| p_uid := e_uid e |> <| p_exec_seen := true |> <| p_is_protected := preserve_is_protected |>
            <| p_inherited_protected := preserve_inherited_protected |> <| p_group := preserve_group |> in
          let p := if negb found then p <| p_group := GROUP_UNKNOWN |> else p in
          let p := p <| p_comm := snprintf TASK_COMM_LEN (c_str (e_comm e)) |> in
          let '(_, p1, w) := process_read_exe (Some p) w in
          let '(_, p2, w) := process_read_cmdline p1 w in
          (Some idx, set_entry t idx (default p p2), w)
      end
  end.
End Proc.

Definition process_upsert_fork (t : process_table) (e : option event) : option Z * process_table :=
  match e with
  | None => (None, t)
  | Some e =>
      if (e_pid e <=? 0) || (e_child_pid e <=? 0) then (None, t)
      else
        let parent := process_get t (e_pid e) in
        match prepare_upsert t (e_child_pid e) with
        | None => (None, t)
        | Some (child, _, t) =>
            let t := set_entry t child (proc_info_zero <| p_used := true |> <| p_pid := e_child_pid e |>
              <| p_ppid := e_pid e |> <| p_uid := e_uid e |> <| p_group := GROUP_UNKNOWN |>
              <| p_comm := snprintf TASK_COMM_LEN (c_str (e_comm e)) |>) in
            let t := match parent with
                     | Some q =>
                         if p_used (entry t q) && p_is_protected (entry t q)
                         then set_entry t child ((entry t child) <| p_is_protected := true |>
                                <| p_inherited_protected := true |> <| p_group := GROUP_PROTECTED |>)
                         else t
                     | None => t
                     end in
            (Some child, t)
        end
  end.

Definition process_remove (t : process_table) (p : Z) : process_table :=
  match find_existing_slot t p with
  | None => t
  | Some idx =>
      let t := set_slot (set_entry t idx proc_info_zero) idx PROCESS_SLOT_TOMBSTONE in
      if 0 <? occupied_count t then t <| occupied_count := occupied_count t - 1 |> else t
  end.

(** The first pass: [None] is the early return of INCONSISTENT. *)
Fixpoint snapshot_check (t : process_table) (actual_count : Z) (idxs : list Z) : option Z :=
  match idxs with
  | [] => Some actual_count
  | i :: idxs =>
      if bool_decide (slot t i = PROCESS_SLOT_OCCUPIED) then
        if negb (p_used (entry t i)) || (p_pid (entry t i) <=? 0) then None
        else snapshot_check t (actual_count + 1) idxs
      else if p_used (entry t i) then None
      else snapshot_check t actual_count idxs
  end.

(** The second pass: the entries written to [out], in order. *)
Fixpoint snapshot_copy (t : process_table) (idxs : list Z) : list proc_info :=
  match idxs with
  | [] => []
  | i :: idxs =>
      if negb (bool_decide (slot t i = PROCESS_SLOT_OCCUPIED)) then snapshot_copy t idxs
      else entry t i :: snapshot_copy t idxs
  end.

(** [out]: [None] is NULL, otherwise the prefix written so far; [out_count]:
    [None] is NULL. *)
Definition process_snapshot (t : process_table) (out : option (list proc_info)) (capacity : Z) (out_count : option Z)
  : Z * option (list proc_info) * option Z :=
  match out_count with
  | None => (PROCESS_ERR_INVALID_ARG, out, None)
  | Some _ =>
      match out with
      | None => (PROCESS_ERR_INVALID_ARG, None, Some 0)
      | Some _ =>
          match snapshot_check t 0 indices with
          | None => (PROCESS_ERR_INCONSISTENT, out, Some 0)
          | Some actual_count =>
              if negb (actual_count =? occupied_count t) then (PROCESS_ERR_INCONSISTENT, out, Some 0)
              else if capacity <? actual_count then (PROCESS_ERR_NO_SPACE, out, Some 0)
              else
                let copied := snapshot_copy t indices in
                (PROCESS_OK, Some copied, Some (Z.of_nat (List.length copied)))
          end
      end
  end.
