(* ===== verification/SimOs.v ===== *)
(** * A small concrete kernel

    An executable instance of [OS] and [Cgroupfs], used by the examples and
    witnesses of the development: files with fixed contents, a page map, a clock
    that advances by a fixed amount per reading, counters of open streams and
    descriptors, and cgroup membership updated by writes to [cgroup.procs]. *)
From S2P Require Import Prelude CString Os Cgroup.
From Stdlib Require Import Ascii String.
Local Open Scope Z_scope.

Record sim := mk_sim {
  sim_files : list (string * string);      (* readable files and their contents *)
  sim_links : list (string * string);
  sim_pages : list (Z * Z * list Z);       (* descriptor, offset, bytes *)
  sim_fds : list (string * Z);
  sim_clock : Z;                           (* nanoseconds *)
  sim_tick : Z;
  sim_streams : Z;                         (* open read streams *)
  sim_open : Z;                            (* open descriptors *)
  sim_member : gmap Z string;              (* process -> cgroup directory *)
  sim_pending : option (string * string);  (* the buffered write *)
  sim_denied : list string;                (* paths that cannot be opened for writing *)
  sim_binary : string;                     (* what is left of the file opened in binary mode *)
  sim_worker : Z;                          (* polls until the child exits; negative: never; -9: it was killed *)
  sim_result : option (string * string)    (* the file the child leaves *)
}.

#[export] Instance sim_settable : Settable sim :=
  fun s => mk_sim (sim_files s) (sim_links s) (sim_pages s) (sim_fds s) (sim_clock s) (sim_tick s)
    (sim_streams s) (sim_open s) (sim_member s) (sim_pending s) (sim_denied s)
    (sim_binary s) (sim_worker s) (sim_result s).

Fixpoint assoc {A} (k : string) (l : list (string * A)) : option A :=
  match l with
  | [] => None
  | (k', v) :: l' => if String.eqb k k' then Some v else assoc k l'
  end.

Fixpoint page_at (fd off : Z) (l : list (Z * Z * list Z)) : option (list Z) :=
  match l with
  | [] => None
  | (fd', off', bs) :: l' => if (fd =? fd') && (off =? off') then Some bs else page_at fd off l'
  end.

(** Split a path [dir/cgroup.procs]. *)
Definition procs_dir (path : string) : option string :=
  let n := (String.length path - String.length "/cgroup.procs")%nat in
  if String.eqb (str_drop n path) "/cgroup.procs" then Some (str_take n path) else None.

(** The numeral of a text that is a line. *)
Definition line_value (text : string) : option Z :=
  let n := (String.length text - 1)%nat in
  if Ascii.eqb (char_at text n) newline then undec (str_take n text) else None.

Definition sim_commit (s : sim) : bool * sim :=
  let s' := s <| sim_pending := None |> in
  match sim_pending s with
  | None => (true, s')
  | Some (path, text) =>
      match procs_dir path with
      | None => (true, s')
      | Some dir =>
          match line_value text with
          | Some pid => if 0 <? pid then (true, s' <| sim_member ::= <[pid := dir]> |>) else (false, s')
          | None => (false, s')
          end
      end
  end.

#[export] Instance sim_os : OS sim := {|
  os_pagesize s := (4096, s);
  os_clk_tck s := (100, s);
  os_clock s :=
    let now := Z.max 0 (sim_clock s) in
    (Some (now / 1000000000, now mod 1000000000), s <| sim_clock := now + Z.abs (sim_tick s) |>);
  os_open path s :=
    let fd := match assoc path (sim_fds s) with Some fd => fd | None => -1 end in
    (fd, if fd <? 0 then s else s <| sim_open ::= Z.add 1 |>);
  os_pread fd n off s := (take (Z.to_nat n) <$> page_at fd off (sim_pages s), s);
  os_close fd s := s <| sim_open ::= Z.add (-1) |>;
  os_fopen path s :=
    match assoc path (sim_files s) with
    | Some text => (Some (mk_stream text false), s <| sim_streams ::= Z.add 1 |>)
    | None => (None, s)
    end;
  os_fclose s := (true, s <| sim_streams ::= Z.add (-1) |>);
  os_readlink path s := (assoc path (sim_links s), s);
  os_calloc n size s := (true, s);
  os_fopen_w path s := (negb (existsb (String.eqb path) (sim_denied s)), s <| sim_pending := None |>);
  os_fprintf path text s := (true, s <| sim_pending := Some (path, text) |>);
  os_fclose_w path s := sim_commit s
|}.

Definition sim_empty : sim := mk_sim [] [] [] [] 0 0 0 0 ∅ None [] "" 0 None.

Lemma procs_dir_path dir : procs_dir (procs_path dir) = Some dir.
Proof.
  unfold procs_dir, procs_path. rewrite length_app_str.
  replace (String.length dir + _ - _)%nat with (String.length dir) by lia.
  rewrite str_drop_app, str_take_app. reflexivity.
Qed.

Lemma line_value_dec z : line_value (dec z +:+ String newline EmptyString) = Some z.
Proof.
  unfold line_value. rewrite length_app_str. cbn [String.length].
  replace (String.length (dec z) + 1 - 1)%nat with (String.length (dec z)) by lia.
  rewrite char_at_app, str_take_app. cbn [char_at]. rewrite Ascii.eqb_refl. apply undec_dec.
Qed.

(** A path that ends in another file name is not a [cgroup.procs]. *)
Lemma procs_dir_inv path dir : procs_dir path = Some dir -> path = procs_path dir.
Proof.
  unfold procs_dir. generalize (String.length path - String.length "/cgroup.procs")%nat as n. intros n.
  destruct (String.eqb_spec (str_drop n path) "/cgroup.procs") as [E|]; [|discriminate].
  intros [= <-]. unfold procs_path. rewrite <- E. symmetry. apply str_take_drop.
Qed.

Fixpoint last_component (s : string) : string :=
  match s with
  | EmptyString => EmptyString
  | String c r => if str_has r "/" then last_component r
                  else if Ascii.eqb c "/" then r else s
  end.

Lemma str_has_app a b c : str_has (a +:+ b) c = str_has a c || str_has b c.
Proof.
  induction a as [|x a IH]; [reflexivity|].
  change (String x a +:+ b) with (String x (a +:+ b)). cbn [str_has]. rewrite IH. apply orb_assoc.
Qed.

Lemma last_component_path dir file : str_has file "/" = false -> last_component (dir +:+ "/" +:+ file) = file.
Proof.
  intros Hf. induction dir as [|c d IH].
  - change (EmptyString +:+ "/" +:+ file) with (String "/" file). cbn [last_component]. rewrite Hf. reflexivity.
  - change (String c d +:+ "/" +:+ file) with (String c (d +:+ "/" +:+ file)). cbn [last_component].
    rewrite !str_has_app. cbn [str_has Ascii.eqb]. rewrite orb_true_r. exact IH.
Qed.

(** The simulated file system behaves as [Cgroupfs] documents. *)
#[export] Program Instance sim_cgroupfs : Cgroupfs sim := {| fs_member s pid := sim_member s !! pid |}.
Next Obligation.
  intros dir pid w w' Hpid. unfold write_file. cbn [os_fopen_w os_fprintf os_fclose_w sim_os].
  destruct (negb (existsb _ _)); [|discriminate]. cbn [negb andb]. unfold sim_commit. cbn [sim_pending set_field].
  rewrite procs_dir_path, line_value_dec. destruct (Z.ltb_spec 0 pid); [|lia]. intros [= <-]. cbn.
  split; [apply lookup_insert_eq|]. intros q Hq. apply lookup_insert_ne. congruence.
Qed.
Next Obligation.
  intros path text w w'. unfold write_file. cbn [os_fopen_w os_fprintf os_fclose_w sim_os].
  destruct (negb (existsb _ _)); cbn [negb andb]; [|intros [= <-] q; reflexivity].
  unfold sim_commit. cbn [sim_pending set_field]. intros H q.
  destruct (procs_dir path) as [dir|]; [|discriminate].
  destruct (line_value text) as [pid|]; [destruct (0 <? pid)|]; simplify_eq; reflexivity.
Qed.
Next Obligation.
  intros dir file text w Hne Hslash q. unfold write_file. cbn [os_fopen_w os_fprintf os_fclose_w sim_os].
  destruct (negb (existsb _ _)); cbn [negb andb]; [|reflexivity].
  unfold sim_commit. cbn [sim_pending set_field].
  destruct (procs_dir (dir +:+ "/" +:+ file)) as [d|] eqn:E; [|reflexivity]. exfalso.
  apply procs_dir_inv in E. change (procs_path d) with (d +:+ "/" +:+ "cgroup.procs") in E.
  apply (f_equal last_component) in E. rewrite !last_component_path in E by (assumption || reflexivity).
  contradiction.
Qed.
Next Obligation. done. Qed.
Next Obligation. done. Qed.
Next Obligation. done. Qed.
Next Obligation. intros path w q. cbn. by destruct (assoc path (sim_files w)). Qed.
Next Obligation. done. Qed.

(** The simulated kernel counts what is open. *)
#[export] Program Instance sim_resources : Resources sim := {| streams_held := sim_streams; fds_held := sim_open |}.
Next Obligation. intros path w. cbn. destruct (assoc path (sim_files w)); cbn; lia. Qed.
Next Obligation. intros w. cbn. lia. Qed.
Next Obligation. intros path w. cbn. destruct (_ <? 0); cbn; lia. Qed.
Next Obligation. intros fd w. cbn. lia. Qed.
Next Obligation. intros fd n off w. cbn. lia. Qed.
Next Obligation. done. Qed.
Next Obligation. done. Qed.
Next Obligation. done. Qed.
Next Obligation. done. Qed.
