(* ===== verification/AddrTranslate.v ===== *)
(** * Virtual to physical addresses ([addr_translate.h], [addr_translate.c])

    Reads the process's page map through the kernel and computes the physical
    address of a virtual one. *)
From S2P Require Import Prelude CString Os Cgroup SimOs.
From Stdlib Require Import Ascii String.
Local Open Scope Z_scope.

(** ** Data *)

Definition ADDR_TRANSLATE_OK : Z := 0.
Definition ADDR_TRANSLATE_ERR_INVALID_ARG : Z := -1.
Definition ADDR_TRANSLATE_ERR_PAGE_SIZE : Z := -2.
Definition ADDR_TRANSLATE_ERR_OPEN : Z := -3.
Definition ADDR_TRANSLATE_ERR_READ : Z := -4.
Definition ADDR_TRANSLATE_ERR_NOT_PRESENT : Z := -5.
Definition ADDR_TRANSLATE_ERR_SWAPPED : Z := -6.
Definition ADDR_TRANSLATE_ERR_PFN_UNAVAILABLE : Z := -7.
Definition ADDR_TRANSLATE_ERR_OVERFLOW : Z := -8.

Definition PAGEMAP_ENTRY_BYTES : Z := 8.
Definition PAGEMAP_PFN_MASK : Z := Z.shiftl 1 55 - 1.
Definition PAGEMAP_SOFT_DIRTY_BIT : Z := Z.shiftl 1 55.
Definition PAGEMAP_EXCLUSIVE_BIT : Z := Z.shiftl 1 56.
Definition PAGEMAP_UFFD_WP_BIT : Z := Z.shiftl 1 57.
Definition PAGEMAP_GUARD_BIT : Z := Z.shiftl 1 58.
Definition PAGEMAP_FILE_SHARED_BIT : Z := Z.shiftl 1 61.
Definition PAGEMAP_SWAPPED_BIT : Z := Z.shiftl 1 62.
Definition PAGEMAP_PRESENT_BIT : Z := Z.shiftl 1 63.

Record addr_translate_ctx := mk_addr_translate_ctx {
  at_pid : Z;
  pagemap_fd : Z;
  at_page_size : Z
}.

Record addr_translation := mk_addr_translation {
  tr_pid : Z;
  virtual_address : Z;
  physical_address : Z;
  tr_page_size : Z;
  page_index : Z;
  page_offset : Z;
  pagemap_entry : Z;
  pfn : Z;
  present : bool;
  swapped : bool;
  soft_dirty : bool;
  exclusively_mapped : bool;
  uffd_wp : bool;
  guard_region : bool;
  file_or_shared_anon : bool
}.

#[export] Instance addr_translation_settable : Settable addr_translation :=
  fun t => mk_addr_translation (tr_pid t) (virtual_address t) (physical_address t) (tr_page_size t) (page_index t)
    (page_offset t) (pagemap_entry t) (pfn t) (present t) (swapped t) (soft_dirty t) (exclusively_mapped t)
    (uffd_wp t) (guard_region t) (file_or_shared_anon t).

Definition addr_translation_zero : addr_translation :=
  mk_addr_translation 0 0 0 0 0 0 0 0 false false false false false false false.

(** ** Operations *)

Definition addr_translate_ctx_reset : addr_translate_ctx := mk_addr_translate_ctx (-1) (-1) 0.

Definition addr_translate_reset (ctx : option addr_translate_ctx) : option addr_translate_ctx :=
  match ctx with None => None | Some _ => Some addr_translate_ctx_reset end.

(** [bytes[0]] to [bytes[7]], the least significant first. *)
Definition decode_u64_le (bytes : list Z) : Z :=
  let b i := nth i bytes 0 in
  Z.lor (Z.lor (Z.lor (Z.lor (Z.lor (Z.lor (Z.lor (b 0%nat)
    (u64 (Z.shiftl (b 1%nat) 8))) (u64 (Z.shiftl (b 2%nat) 16))) (u64 (Z.shiftl (b 3%nat) 24)))
    (u64 (Z.shiftl (b 4%nat) 32))) (u64 (Z.shiftl (b 5%nat) 40))) (u64 (Z.shiftl (b 6%nat) 48)))
    (u64 (Z.shiftl (b 7%nat) 56)).

Section Translate.
Context {W : Type} `{OS W}.

Definition get_page_size (w : W) : Z * W :=
  let '(ps, w) := os_pagesize w in
  if ps <=? 0 then (0, w) else (u64 ps, w).

(** [ctx]: [None] is NULL. *)
Definition addr_translate_open (ctx : option addr_translate_ctx) (p : Z) (w : W) : Z * option addr_translate_ctx * W :=
  match ctx with
  | None => (ADDR_TRANSLATE_ERR_INVALID_ARG, None, w)
  | Some c =>
      if p <=? 0 then (ADDR_TRANSLATE_ERR_INVALID_ARG, Some c, w)
      else
        let ctx := addr_translate_ctx_reset in
        let '(page_size, w) := get_page_size w in
        if page_size =? 0 then (ADDR_TRANSLATE_ERR_PAGE_SIZE, Some ctx, w)
        else
          let path := "/proc/" +:+ dec p +:+ "/pagemap" in
          if 64 <=? strlen path then (ADDR_TRANSLATE_ERR_INVALID_ARG, Some ctx, w)
          else
            let '(fd, w) := os_open path w in
            if fd <? 0 then (ADDR_TRANSLATE_ERR_OPEN, Some ctx, w)
            else (ADDR_TRANSLATE_OK, Some (mk_addr_translate_ctx p fd page_size), w)
  end.

Definition addr_translate_close (ctx : option addr_translate_ctx) (w : W) : option addr_translate_ctx * W :=
  match ctx with
  | None => (None, w)
  | Some c =>
      let w := if 0 <=? pagemap_fd c then os_close (pagemap_fd c) w else w in
      (Some addr_translate_ctx_reset, w)
  end.

(** The code and [*entry_out]. *)
Definition read_pagemap_entry (ctx : addr_translate_ctx) (page_index : Z) (w : W) : Z * Z * W :=
  if pagemap_fd ctx <? 0 then (ADDR_TRANSLATE_ERR_INVALID_ARG, 0, w)
  else if UINT64_MAX / PAGEMAP_ENTRY_BYTES <? page_index then (ADDR_TRANSLATE_ERR_OVERFLOW, 0, w)
  else
    let offset := u64_mul page_index PAGEMAP_ENTRY_BYTES in
    if LLONG_MAX <? offset then (ADDR_TRANSLATE_ERR_OVERFLOW, 0, w)
    else
      let '(nread, w) := os_pread (pagemap_fd ctx) 8 offset w in
      match nread with
      | Some bytes =>
          if negb (Z.of_nat (List.length bytes) =? 8) then (ADDR_TRANSLATE_ERR_READ, 0, w)
          else (ADDR_TRANSLATE_OK, decode_u64_le bytes, w)
      | None => (ADDR_TRANSLATE_ERR_READ, 0, w)
      end.

Definition has_bit (entry bit : Z) : bool := negb (Z.land entry bit =? 0).

Definition addr_translate_va_to_pa (ctx : option addr_translate_ctx) (va : Z) (out : option addr_translation) (w : W)
  : Z * option addr_translation * W :=
  match ctx, out with
  | Some ctx, Some o =>
      if (at_pid ctx <=? 0) || (pagemap_fd ctx <? 0) || (at_page_size ctx =? 0)
      then (ADDR_TRANSLATE_ERR_INVALID_ARG, Some o, w)
      else
        let out := addr_translation_zero in
        let index := va / at_page_size ctx in
        let offset := va mod at_page_size ctx in
        let '(rc, entry, w) := read_pagemap_entry ctx index w in
        if negb (rc =? ADDR_TRANSLATE_OK) then (rc, Some out, w)
        else
          let out := out <| tr_pid := at_pid ctx |> <| virtual_address := va |> <| tr_page_size := at_page_size ctx |>
            <| page_index := index |> <| page_offset := offset |> <| pagemap_entry := entry |>
            <| present := has_bit entry PAGEMAP_PRESENT_BIT |> <| swapped := has_bit entry PAGEMAP_SWAPPED_BIT |>
            <| soft_dirty := has_bit entry PAGEMAP_SOFT_DIRTY_BIT |>
            <| exclusively_mapped := has_bit entry PAGEMAP_EXCLUSIVE_BIT |>
            <| uffd_wp := has_bit entry PAGEMAP_UFFD_WP_BIT |> <| guard_region := has_bit entry PAGEMAP_GUARD_BIT |>
            <| file_or_shared_anon := has_bit entry PAGEMAP_FILE_SHARED_BIT |> in
          if negb (present out) then
            if swapped out then (ADDR_TRANSLATE_ERR_SWAPPED, Some out, w)
            else (ADDR_TRANSLATE_ERR_NOT_PRESENT, Some out, w)
          else
            let frame := Z.land entry PAGEMAP_PFN_MASK in
            let out := out <| pfn := frame |> in
            if frame =? 0 then (ADDR_TRANSLATE_ERR_PFN_UNAVAILABLE, Some out, w)
            else if u64_sub UINT64_MAX offset / at_page_size ctx <? frame then (ADDR_TRANSLATE_ERR_OVERFLOW, Some out, w)
            else (ADDR_TRANSLATE_OK, Some (out <| physical_address := u64_add (u64_mul frame (at_page_size ctx)) offset |>), w)
  | _, _ => (ADDR_TRANSLATE_ERR_INVALID_ARG, out, w)
  end.

Definition addr_translate_pid_va_to_pa (p va : Z) (out : option addr_translation) (w : W)
  : Z * option addr_translation * W :=
  let ctx := addr_translate_reset (Some addr_translate_ctx_reset) in
  let '(rc, ctx, w) := addr_translate_open ctx p w in
  if negb (rc =? ADDR_TRANSLATE_OK) then (rc, out, w)
  else
    let '(rc, out, w) := addr_translate_va_to_pa ctx va out w in
    let '(_, w) := addr_translate_close ctx w in
    (rc, out, w).
End Translate.

Definition addr_translate_strerror (rc : Z) : string :=
  switch rc [
    (ADDR_TRANSLATE_OK, "success");
    (ADDR_TRANSLATE_ERR_INVALID_ARG, "invalid argument");
    (ADDR_TRANSLATE_ERR_PAGE_SIZE, "failed to determine page size");
    (ADDR_TRANSLATE_ERR_OPEN, "failed to open /proc/[pid]/pagemap");
    (ADDR_TRANSLATE_ERR_READ, "failed to read pagemap entry");
    (ADDR_TRANSLATE_ERR_NOT_PRESENT, "page is not present");
    (ADDR_TRANSLATE_ERR_SWAPPED, "page is swapped out");
    (ADDR_TRANSLATE_ERR_PFN_UNAVAILABLE, "PFN unavailable or zero page");
    (ADDR_TRANSLATE_ERR_OVERFLOW, "address calculation overflow")
  ]%string "unknown address-translation error"%string.

(** ** Decoding *)

(** The little-endian value of a list of bytes. *)
Fixpoint le_value (bytes : list Z) : Z :=
  match bytes with
  | [] => 0
  | b :: bs => b + 256 * le_value bs
  end.

Definition byte (b : Z) : Prop := 0 <= b < 256.

Lemma lor_shift a b k : 0 <= k -> 0 <= a < 2 ^ k -> Z.lor a (Z.shiftl b k) = a + b * 2 ^ k.
Proof.
  intros Hk Ha. rewrite <- Z.shiftl_mul_pow2 by lia. pose proof (Z.add_lor_land a (Z.shiftl b k)) as E.
  replace (Z.land a (Z.shiftl b k)) with 0 in E; [lia|]. symmetry. apply Z.bits_inj'. intros n Hn.
  rewrite Z.land_spec, Z.bits_0, Z.shiftl_spec by lia. destruct (Z.lt_ge_cases n k) as [|Hge].
  - rewrite (Z.testbit_neg_r b) by lia. apply andb_false_r.
  - rewrite <- (Z.mod_small a (2 ^ k)) by lia. rewrite Z.mod_pow2_bits_high by lia. reflexivity.
Qed.

Lemma u64_shiftl b k : byte b -> 0 <= k <= 56 -> u64 (Z.shiftl b k) = Z.shiftl b k.
Proof.
  unfold byte. intros Hb Hk. apply u64_small. unfold in_u64. rewrite Z.shiftl_mul_pow2 by lia.
  pose proof (Z.pow_le_mono_r 2 k 56 ltac:(lia) ltac:(lia)). pose proof (Z.pow_pos_nonneg 2 k ltac:(lia) ltac:(lia)).
  change (2 ^ 56) with 72057594037927936 in *. nia.
Qed.

Lemma le_value_range bytes : Forall byte bytes -> 0 <= le_value bytes < 256 ^ Z.of_nat (List.length bytes).
Proof.
  induction 1 as [|b bs Hb _ IH]; [cbn; lia|]. cbn [le_value List.length]. unfold byte in Hb.
  rewrite Nat2Z.inj_succ, Z.pow_succ_r by lia. lia.
Qed.

Lemma decode_u64_le_value bytes : Forall byte bytes -> List.length bytes = 8%nat -> decode_u64_le bytes = le_value bytes.
Proof.
  intros H Hl. do 8 (destruct bytes as [|? bytes]; [discriminate|]). destruct bytes; [|discriminate]. clear Hl.
  repeat match goal with H : Forall _ (_ :: _) |- _ => apply Forall_cons in H as [? ?] end.
  unfold decode_u64_le. cbn [nth]. rewrite !u64_shiftl by (assumption || lia). unfold byte in *.
  repeat match goal with |- context [Z.lor ?a (Z.shiftl ?b ?k)] =>
    lazymatch a with context [Z.lor] => fail | _ => rewrite (lor_shift a b k); [|lia|cbn; lia] end end.
  cbn [le_value]. lia.
Qed.

Lemma land_bit entry k : 0 <= k -> Z.land entry (Z.shiftl 1 k) = (if Z.testbit entry k then 2 ^ k else 0).
Proof.
  intros Hk. apply Z.bits_inj'. intros n Hn. rewrite Z.land_spec, Z.shiftl_1_l, Z.pow2_bits_eqb by lia.
  destruct (Z.eqb_spec k n) as [<-|Hne].
  - destruct (Z.testbit entry k); [rewrite Z.pow2_bits_true by lia|rewrite Z.bits_0]; reflexivity.
  - rewrite andb_false_r. destruct (Z.testbit entry k); [|rewrite Z.bits_0; reflexivity].
    rewrite Z.pow2_bits_false by lia. reflexivity.
Qed.

Lemma has_bit_testbit entry k : 0 <= k -> has_bit entry (Z.shiftl 1 k) = Z.testbit entry k.
Proof.
  intros Hk. unfold has_bit. rewrite land_bit by lia. pose proof (Z.pow_pos_nonneg 2 k ltac:(lia) Hk).
  destruct (Z.testbit entry k); [|reflexivity]. destruct (Z.eqb_spec (2 ^ k) 0); [lia|reflexivity].
Qed.

Lemma land_pfn entry : Z.land entry PAGEMAP_PFN_MASK = entry mod 2 ^ 55.
Proof. exact (Z.land_ones entry 55 ltac:(lia)). Qed.

(** ** Specification of a translation *)

(** The flags of the kernel's page map entry. *)
Definition flags_of (entry : Z) (out : addr_translation) : Prop :=
  present out = Z.testbit entry 63 /\ swapped out = Z.testbit entry 62 /\
  file_or_shared_anon out = Z.testbit entry 61 /\ guard_region out = Z.testbit entry 58 /\
  uffd_wp out = Z.testbit entry 57 /\ exclusively_mapped out = Z.testbit entry 56 /\
  soft_dirty out = Z.testbit entry 55.

(** The address the entry gives to offset [off] of its page. *)
Definition frame_address (page_size entry off : Z) : Z := entry mod 2 ^ 55 * page_size + off.

Definition entry_code (page_size entry off : Z) : Z :=
  if negb (Z.testbit entry 63) then
    if Z.testbit entry 62 then ADDR_TRANSLATE_ERR_SWAPPED else ADDR_TRANSLATE_ERR_NOT_PRESENT
  else if entry mod 2 ^ 55 =? 0 then ADDR_TRANSLATE_ERR_PFN_UNAVAILABLE
  else if frame_address page_size entry off <=? UINT64_MAX then ADDR_TRANSLATE_OK
  else ADDR_TRANSLATE_ERR_OVERFLOW.

(** The code's division test is the overflow test on the exact sum. *)
Lemma overflow_test_exact ps frame off : 0 < ps -> 0 <= off < ps -> ps <= UINT64_MAX ->
  (u64_sub UINT64_MAX off / ps <? frame) = negb (frame * ps + off <=? UINT64_MAX).
Proof.
  intros Hps Ho Hm. unfold UINT64_MAX in *. unfold u64_sub. rewrite u64_small by (unfold in_u64; lia).
  pose proof (Z.div_mod (18446744073709551615 - off) ps ltac:(lia)) as E.
  pose proof (Z.mod_pos_bound (18446744073709551615 - off) ps Hps) as B.
  set (q := _ / ps) in *. destruct (Z.ltb_spec q frame), (Z.leb_spec (frame * ps + off) 18446744073709551615); try reflexivity; exfalso; nia.
Qed.

Lemma physical_address_exact ps entry off : 0 < ps -> 0 <= off -> frame_address ps entry off <= UINT64_MAX ->
  u64_add (u64_mul (entry mod 2 ^ 55) ps) off = frame_address ps entry off.
Proof.
  unfold frame_address, u64_add, u64_mul, UINT64_MAX. intros Hp Ho Hf. rewrite u64_add_l. apply u64_small.
  pose proof (Z.mod_pos_bound entry (2 ^ 55) ltac:(lia)). unfold in_u64. nia.
Qed.

Definition ctx_open (ctx : addr_translate_ctx) : Prop :=
  0 < at_pid ctx /\ 0 <= pagemap_fd ctx /\ 0 < at_page_size ctx <= UINT64_MAX.

Section Exact.
Context {W : Type} `{OS W}.

Lemma read_pagemap_entry_spec ctx index w : 0 <= pagemap_fd ctx -> 0 <= index ->
  read_pagemap_entry ctx index w =
    if LLONG_MAX <? 8 * index then (ADDR_TRANSLATE_ERR_OVERFLOW, 0, w)
    else match os_pread (pagemap_fd ctx) 8 (8 * index) w with
         | (Some bytes, w) =>
             if (List.length bytes =? 8)%nat then (ADDR_TRANSLATE_OK, decode_u64_le bytes, w) else (ADDR_TRANSLATE_ERR_READ, 0, w)
         | (None, w) => (ADDR_TRANSLATE_ERR_READ, 0, w)
         end.
Proof.
  intros Hfd Hi. unfold read_pagemap_entry. destruct (Z.ltb_spec (pagemap_fd ctx) 0); [lia|].
  change (UINT64_MAX / PAGEMAP_ENTRY_BYTES) with 2305843009213693951.
  unfold LLONG_MAX, u64_mul, PAGEMAP_ENTRY_BYTES.
  destruct (Z.ltb_spec 2305843009213693951 index), (Z.ltb_spec 9223372036854775807 (8 * index)); try reflexivity; try lia;
    rewrite u64_small, (Z.mul_comm index) by (unfold in_u64; lia);
    destruct (Z.ltb_spec 9223372036854775807 (8 * index)); try lia; [reflexivity|].
  destruct (os_pread _ _ _ _) as [[bytes|] w']; [|reflexivity].
  destruct (Nat.eqb_spec (List.length bytes) 8) as [->|]; [reflexivity|].
  destruct (Z.eqb_spec (Z.of_nat (List.length bytes)) 8); [lia|reflexivity].
Qed.

(** C32: [addr_translate_va_to_pa] reads exactly one page map entry, the one of
    the page that holds the address, and classifies it: success exactly when the
    page is present, its frame number is available and the physical address
    [pfn * page_size + va mod page_size] fits 64 bits, which is then the result;
    otherwise the code tells swapped, absent, hidden frame, overflow and short
    read apart, and no result carries an address. *)
Theorem translate_exact ctx va o w rc out w' :
  ctx_open ctx -> in_u64 va ->
  (forall bytes w', os_pread (pagemap_fd ctx) 8 (8 * (va / at_page_size ctx)) w = (Some bytes, w') -> Forall byte bytes) ->
  addr_translate_va_to_pa (Some ctx) va (Some o) w = (rc, out, w') ->
  let ps := at_page_size ctx in
  exists t, out = Some t /\
  if LLONG_MAX <? 8 * (va / ps) then rc = ADDR_TRANSLATE_ERR_OVERFLOW /\ t = addr_translation_zero /\ w' = w
  else match os_pread (pagemap_fd ctx) 8 (8 * (va / ps)) w with
  | (Some bytes, w1) => w' = w1 /\
      if (List.length bytes =? 8)%nat then
        let entry := le_value bytes in
        rc = entry_code ps entry (va mod ps) /\ flags_of entry t /\ virtual_address t = va /\
        physical_address t = (if rc =? ADDR_TRANSLATE_OK then frame_address ps entry (va mod ps) else 0)
      else rc = ADDR_TRANSLATE_ERR_READ /\ t = addr_translation_zero
  | (None, w1) => w' = w1 /\ rc = ADDR_TRANSLATE_ERR_READ /\ t = addr_translation_zero
  end.
Proof.
  intros (Hpid & Hfd & Hps) Hva Hbytes E ps. fold ps in Hps. unfold in_u64 in Hva.
  assert (Hidx : 0 <= va / ps) by (apply Z.div_pos; lia).
  pose proof (Z.mod_pos_bound va ps ltac:(lia)) as Hoff.
  unfold addr_translate_va_to_pa in E. fold ps in E.
  destruct (Z.leb_spec (at_pid ctx) 0), (Z.ltb_spec (pagemap_fd ctx) 0), (Z.eqb_spec ps 0); try lia.
  cbn [orb] in E. rewrite read_pagemap_entry_spec in E by lia.
  destruct (LLONG_MAX <? 8 * (va / ps)). { injection E as <- <- <-. eauto. }
  destruct (os_pread _ _ _ _) as [[bytes|] w1] eqn:Er; [|injection E as <- <- <-; eauto].
  specialize (Hbytes _ _ eq_refl).
  destruct (Nat.eqb_spec (List.length bytes) 8) as [Hl|]; [|injection E as <- <- <-; eauto 6].
  change (negb (ADDR_TRANSLATE_OK =? ADDR_TRANSLATE_OK)) with false in E. cbv iota in E.
  rewrite decode_u64_le_value in E by assumption. set (entry := le_value bytes) in *. cbv zeta.
  unfold PAGEMAP_PRESENT_BIT, PAGEMAP_SWAPPED_BIT, PAGEMAP_FILE_SHARED_BIT, PAGEMAP_GUARD_BIT, PAGEMAP_UFFD_WP_BIT,
    PAGEMAP_EXCLUSIVE_BIT, PAGEMAP_SOFT_DIRTY_BIT in E.
  rewrite land_pfn, overflow_test_exact, !has_bit_testbit in E by lia. cbn [present swapped set_field] in E.
  fold (frame_address ps entry (va mod ps)) in E. unfold entry_code.
  destruct (Z.testbit entry 63) eqn:E63; cbn [negb] in *.
  2:{ destruct (Z.testbit entry 62) eqn:E62; injection E as <- <- <-; eexists; repeat split; reflexivity || (symmetry; assumption). }
  destruct (entry mod 2 ^ 55 =? 0). { injection E as <- <- <-. eexists; repeat split; reflexivity || (symmetry; assumption). }
  destruct (Z.leb_spec (frame_address ps entry (va mod ps)) UINT64_MAX) as [Hfit|]; cbn [negb] in E;
    injection E as <- <- <-; (eexists; split; [reflexivity|]; repeat split; try (reflexivity || exact (eq_sym E63))).
  apply physical_address_exact; [lia|lia|assumption].
Qed.

(** The one-shot translation leaves no descriptor open: it opens the page map
    of the process it is asked for, translates through it, and whatever the
    outcome of the translation the last thing it does with the kernel is to close
    the descriptor it opened; if the open fails nothing is translated. *)
Theorem one_shot_closes p va out w : proper_pid p ->
  let '(rc, out', w') := addr_translate_pid_va_to_pa p va out w in
  let '(ps, w1) := os_pagesize w in
  if ps <=? 0 then rc = ADDR_TRANSLATE_ERR_PAGE_SIZE /\ out' = out /\ w' = w1
  else if u64 ps =? 0 then rc = ADDR_TRANSLATE_ERR_PAGE_SIZE /\ out' = out /\ w' = w1
  else
    let '(fd, w2) := os_open (proc_path p "/pagemap") w1 in
    if fd <? 0 then rc = ADDR_TRANSLATE_ERR_OPEN /\ out' = out /\ w' = w2
    else exists w3, addr_translate_va_to_pa (Some (mk_addr_translate_ctx p fd (u64 ps))) va out w2 = (rc, out', w3) /\
      w' = os_close fd w3.
Proof.
  intros Hp. unfold addr_translate_pid_va_to_pa, addr_translate_open, get_page_size. cbn [addr_translate_reset].
  pose proof (proc_path_fits p "/pagemap" Hp ltac:(unfold strlen; cbn; lia)) as Hfit. unfold proper_pid in Hp. unfold proc_path in *.
  destruct (Z.leb_spec p 0); [lia|]. destruct (os_pagesize w) as [ps w1].
  destruct (ps <=? 0); [easy|]. destruct (u64 ps =? 0); [easy|].
  destruct (Z.leb_spec 64 (strlen ("/proc/" +:+ dec p +:+ "/pagemap"))); [lia|].
  destruct (os_open _ w1) as [fd w2]. destruct (Z.ltb_spec fd 0); [easy|]. cbn [Z.eqb negb ADDR_TRANSLATE_OK].
  destruct (addr_translate_va_to_pa _ _ _ _) as [[rc o'] w3]. cbn [addr_translate_close pagemap_fd].
  destruct (Z.leb_spec 0 fd); [eauto|lia].
Qed.
End Exact.

(** ** Examples *)

(** Page 5 of process 42: present, frame 0x12345, soft-dirty. *)
Definition demo_pagemap : sim :=
  sim_empty <| sim_fds := [(proc_path 42 "/pagemap", 3)] |>
    <| sim_pages := [(3, 40, [69; 35; 1; 0; 0; 0; 128; 128])] |>.

Example demo_one_shot : exists t w,
  addr_translate_pid_va_to_pa 42 20483 (Some addr_translation_zero) demo_pagemap = (ADDR_TRANSLATE_OK, Some t, w) /\
  physical_address t = 74565 * 4096 + 3 /\ soft_dirty t = true /\ swapped t = false.
Proof. do 2 eexists. split; [vm_compute; reflexivity|]. repeat split. Qed.

Definition demo_ctx : addr_translate_ctx := mk_addr_translate_ctx 42 3 4096.
Definition demo_entry : list Z := [69; 35; 1; 0; 0; 0; 128; 128].

Lemma demo_read : os_pread (pagemap_fd demo_ctx) 8 (8 * (20483 / at_page_size demo_ctx)) demo_pagemap = (Some demo_entry, demo_pagemap).
Proof. vm_compute. reflexivity. Qed.

Lemma demo_entry_bytes : Forall byte demo_entry.
Proof. repeat (constructor; [split; [discriminate|reflexivity]|]). constructor. Qed.

Lemma translate_exact_witness :
  ctx_open demo_ctx /\ in_u64 20483 /\
  exists t, addr_translate_va_to_pa (Some demo_ctx) 20483 (Some addr_translation_zero) demo_pagemap
    = (ADDR_TRANSLATE_OK, Some t, demo_pagemap) /\ flags_of (le_value demo_entry) t /\ physical_address t = 74565 * 4096 + 3.
Proof.
  assert (Hc : ctx_open demo_ctx) by (unfold ctx_open, UINT64_MAX; cbn; lia).
  assert (Hv : in_u64 20483) by (unfold in_u64; lia).
  split; [exact Hc|]. split; [exact Hv|].
  pose proof (translate_exact demo_ctx 20483 addr_translation_zero demo_pagemap) as Hs.
  destruct (addr_translate_va_to_pa _ _ _ _) as [[rc out] w']. specialize (Hs rc out w' Hc Hv).
  rewrite demo_read in Hs. specialize (Hs ltac:(intros ? ? [= <- <-]; exact demo_entry_bytes) eq_refl).
  cbv zeta in Hs. destruct Hs as (t & -> & Hs).
  change (LLONG_MAX <? _) with false in Hs. cbv iota in Hs. destruct Hs as [-> (Hrc & Hf & _ & Hpa)].
  change (entry_code _ _ _) with ADDR_TRANSLATE_OK in Hrc. subst rc. exists t. split; [reflexivity|]. split; [exact Hf|].
  change (frame_address _ _ _) with (74565 * 4096 + 3) in Hpa. exact Hpa.
Defined.

Lemma one_shot_closes_witness :
  proper_pid 42 /\ exists t w3, addr_translate_va_to_pa (Some demo_ctx) 20483 (Some addr_translation_zero)
    (demo_pagemap <| sim_open ::= Z.add 1 |>) = (ADDR_TRANSLATE_OK, t, w3) /\
    snd (addr_translate_pid_va_to_pa 42 20483 (Some addr_translation_zero) demo_pagemap) = os_close 3 w3.
Proof.
  assert (Hp : proper_pid 42) by (unfold proper_pid; lia). split; [exact Hp|].
  pose proof (one_shot_closes 42 20483 (Some addr_translation_zero) demo_pagemap Hp) as Hs.
  assert (Erc : fst (fst (addr_translate_pid_va_to_pa 42 20483 (Some addr_translation_zero) demo_pagemap)) = ADDR_TRANSLATE_OK)
    by (vm_compute; reflexivity).
  destruct (addr_translate_pid_va_to_pa _ _ _ _) as [[rc o] w']. cbn [fst snd] in *. subst rc.
  cbv [os_pagesize sim_os] in Hs. change (4096 <=? 0) with false in Hs. change (u64 4096 =? 0) with false in Hs.
  change (os_open _ _) with (3, demo_pagemap <| sim_open ::= Z.add 1 |>) in Hs. change (3 <? 0) with false in Hs. destruct Hs as (w3 & Hs1 & Hs2). eauto.
Defined.
