(* ===== verification/ProcActivity.v ===== *)
(** * Process activity ([proc_activity.h], [proc_activity.c])

    Samples [/proc/<pid>/stat] and turns two samples of a process into
    activity scores. *)
From S2P Require Import Prelude Float64 CString Scan Os.
From Stdlib Require Import Ascii String.
Local Open Scope Z_scope.

(** ** Data *)

Definition PROC_ACTIVITY_COMM_MAX : Z := 64.
Definition PROC_ACTIVITY_REASON_MAX : Z := 128.
Definition PROC_ACTIVITY_NSEC_PER_SEC : Z := 1000000000.
Definition PROC_ACTIVITY_STAT_VALS_MAX : Z := 64.
Definition PROC_ACTIVITY_STAT_LINE_MAX : Z := 4096.

Definition PROC_ACTIVITY_OK : Z := 0.
Definition PROC_ACTIVITY_ERR_INVALID_ARG : Z := -1.
Definition PROC_ACTIVITY_ERR_OPEN : Z := -2.
Definition PROC_ACTIVITY_ERR_READ : Z := -3.
Definition PROC_ACTIVITY_ERR_PARSE : Z := -4.
Definition PROC_ACTIVITY_ERR_SYSCONF : Z := -5.
Definition PROC_ACTIVITY_ERR_PID_REUSED : Z := -6.
Definition PROC_ACTIVITY_ERR_NON_MONOTONIC_TIME : Z := -7.

Record proc_activity_config := mk_proc_activity_config {
  active_cpu_ratio_threshold : double;
  active_faults_per_sec_threshold : double;
  min_rss_pages : Z;
  major_fault_weight : double;
  cpu_ratio_full_scale : double;
  faults_per_sec_full_scale : double;
  rss_mib_full_scale : double
}.

#[export] Instance proc_activity_config_settable : Settable proc_activity_config :=
  fun c => mk_proc_activity_config (active_cpu_ratio_threshold c) (active_faults_per_sec_threshold c) (min_rss_pages c)
    (major_fault_weight c) (cpu_ratio_full_scale c) (faults_per_sec_full_scale c) (rss_mib_full_scale c).

Record proc_activity_sample := mk_proc_activity_sample {
  s_pid : Z;
  s_comm : string;
  s_state : ascii;
  s_valid : bool;
  timestamp_ns : Z;
  clock_ticks_per_sec : Z;
  s_page_size : Z;
  minflt : Z;
  majflt : Z;
  utime_ticks : Z;
  stime_ticks : Z;
  starttime_ticks : Z;
  vsize_bytes : Z;
  rss_pages : Z;
  num_threads : Z
}.

#[export] Instance proc_activity_sample_settable : Settable proc_activity_sample :=
  fun s => mk_proc_activity_sample (s_pid s) (s_comm s) (s_state s) (s_valid s) (timestamp_ns s) (clock_ticks_per_sec s)
    (s_page_size s) (minflt s) (majflt s) (utime_ticks s) (stime_ticks s) (starttime_ticks s) (vsize_bytes s)
    (rss_pages s) (num_threads s).

Record proc_activity_delta := mk_proc_activity_delta {
  d_pid : Z;
  d_valid : bool;
  d_active : bool;
  pid_reused : bool;
  elapsed_sec : double;
  cpu_ticks_delta : Z;
  cpu_seconds : double;
  cpu_ratio : double;
  minflt_delta : Z;
  majflt_delta : Z;
  weighted_faults : double;
  faults_per_sec : double;
  rss_mib : double;
  d_cpu_score : double;
  d_fault_score : double;
  d_rss_score : double;
  total_score : double;
  d_reason : string
}.

#[export] Instance proc_activity_delta_settable : Settable proc_activity_delta :=
  fun d => mk_proc_activity_delta (d_pid d) (d_valid d) (d_active d) (pid_reused d) (elapsed_sec d) (cpu_ticks_delta d)
    (cpu_seconds d) (cpu_ratio d) (minflt_delta d) (majflt_delta d) (weighted_faults d) (faults_per_sec d) (rss_mib d)
    (d_cpu_score d) (d_fault_score d) (d_rss_score d) (total_score d) (d_reason d).

Definition proc_activity_sample_zero : proc_activity_sample := mk_proc_activity_sample 0 "" NUL false 0 0 0 0 0 0 0 0 0 0 0.

Definition proc_activity_delta_zero : proc_activity_delta :=
  mk_proc_activity_delta 0 false false false dzero 0 dzero dzero 0 0 dzero dzero dzero dzero dzero dzero dzero "".

(** ** Helpers *)

(** A value that compares with neither bound (a NaN) is returned as it is. *)
Definition clamp01 (value : double) : double :=
  if dltb value dzero then dzero else if dgtb value done then done else value.

Fixpoint skip_spaces (p : string) : string :=
  match p with
  | String c p' => if Ascii.eqb c " " then skip_spaces p' else p
  | EmptyString => p
  end.

(** The loop: the code, and the values stored. *)
Fixpoint parse_values_loop (fuel : nat) (p : string) (vals : list Z) (vals_cap : Z) : Z * list Z :=
  match fuel with
  | O => (PROC_ACTIVITY_OK, vals)
  | S fuel =>
      match p with
      | EmptyString => (PROC_ACTIVITY_OK, vals)
      | String c _ =>
          if Ascii.eqb c newline then (PROC_ACTIVITY_OK, vals)
          else if vals_cap <=? Z.of_nat (List.length vals) then (PROC_ACTIVITY_OK, vals)
          else
            match strtoll p with
            | None => (PROC_ACTIVITY_OK, vals)
            | Some (value, erange, endptr) =>
                if erange : bool then (PROC_ACTIVITY_ERR_PARSE, vals)
                else parse_values_loop fuel (skip_spaces endptr) (vals ++ [value]) vals_cap
            end
      end
  end.

(** The code and the values, whose number is [*count_out]. *)
Definition parse_stat_values (p : string) (vals_cap : Z) : Z * list Z :=
  let p := skip_spaces p in
  parse_values_loop (S (String.length p)) p [] vals_cap.

(** [None] is [PROC_ACTIVITY_ERR_PARSE]. *)
Definition checked_u64 (value : Z) : option Z := if value <? 0 then None else Some value.

Definition proc_activity_config_default (cfg : option proc_activity_config) : option proc_activity_config :=
  match cfg with
  | None => None
  | Some _ => Some (mk_proc_activity_config (dlit 2 100) (dlit 100 1) 256 (dlit 8 1) (dlit 25 100) (dlit 1000 1) (dlit 256 1))
  end.

Definition proc_activity_sample_reset (sample : option proc_activity_sample) : option proc_activity_sample :=
  match sample with None => None | Some _ => Some (proc_activity_sample_zero <| s_valid := false |>) end.

Definition proc_activity_delta_reset (delta : option proc_activity_delta) : option proc_activity_delta :=
  match delta with
  | None => None
  | Some _ => Some (((proc_activity_delta_zero <| d_valid := false |>) <| d_active := false |>) <| pid_reused := false |>)
  end.

(** ** Sampling *)

(** [strchr] and [strrchr]: the index of the first and of the last [c]. *)
Fixpoint str_index (s : string) (c : ascii) : option nat :=
  match s with
  | EmptyString => None
  | String d s' => if Ascii.eqb d c then Some O else S <$> str_index s' c
  end.

Fixpoint str_rindex (s : string) (c : ascii) : option nat :=
  match s with
  | EmptyString => None
  | String d s' =>
      match str_rindex s' c with
      | Some n => Some (S n)
      | None => if Ascii.eqb d c then Some O else None
      end
  end.

(** The checks of the values, in order: [inl] is the sample so far when one is
    negative, [inr] the complete one. *)
Definition store_values (vals : list Z) (out : proc_activity_sample) : proc_activity_sample + proc_activity_sample :=
  let v i := nth i vals 0 in
  match checked_u64 (v 6%nat) with None => inl out | Some x =>
  let out := out <| minflt := x |> in
  match checked_u64 (v 8%nat) with None => inl out | Some x =>
  let out := out <| majflt := x |> in
  match checked_u64 (v 10%nat) with None => inl out | Some x =>
  let out := out <| utime_ticks := x |> in
  match checked_u64 (v 11%nat) with None => inl out | Some x =>
  let out := out <| stime_ticks := x |> in
  match checked_u64 (v 18%nat) with None => inl out | Some x =>
  let out := out <| starttime_ticks := x |> in
  match checked_u64 (v 19%nat) with None => inl out | Some x =>
  let out := out <| vsize_bytes := x |> in
  inr (((out <| num_threads := v 16%nat |>) <| rss_pages := v 20%nat |>) <| s_valid := true |>)
  end end end end end end.

(** What follows the reading of the line; it makes no call of the kernel. *)
Definition parse_stat_line (line : string) (p page_size clock_ticks : Z) (out : proc_activity_sample) : Z * proc_activity_sample :=
  let line := c_str line in
  match str_index line "(", str_rindex line ")" with
  | Some lparen, Some rparen =>
      if (rparen <=? lparen)%nat then (PROC_ACTIVITY_ERR_PARSE, out)
      else
        let comm_len := (rparen - lparen - 1)%nat in
        let comm_len := if PROC_ACTIVITY_COMM_MAX <=? Z.of_nat comm_len then Z.to_nat (PROC_ACTIVITY_COMM_MAX - 1) else comm_len in
        let out := out <| s_comm := str_take comm_len (str_drop (S lparen) line) |> in
        let q := skip_spaces (str_drop (S rparen) line) in
        match q with
        | EmptyString => (PROC_ACTIVITY_ERR_PARSE, out)
        | String c q =>
            if Ascii.eqb c newline then (PROC_ACTIVITY_ERR_PARSE, out)
            else
              let out := out <| s_state := c |> in
              let '(rc, vals) := parse_stat_values q 21 in
              if negb (rc =? PROC_ACTIVITY_OK) then (rc, out)
              else if Z.of_nat (List.length vals) <? 21 then (PROC_ACTIVITY_ERR_PARSE, out)
              else
                let out := ((out <| s_pid := p |>) <| clock_ticks_per_sec := clock_ticks |>) <| s_page_size := u64 page_size |> in
                match store_values vals out with
                | inl out => (PROC_ACTIVITY_ERR_PARSE, out)
                | inr out => (PROC_ACTIVITY_OK, out)
                end
        end
  | _, _ => (PROC_ACTIVITY_ERR_PARSE, out)
  end.

Section Sample.
Context {W : Type} `{OS W}.

(** The code and [*out_ns]. *)
Definition get_time_ns (w : W) : Z * Z * W :=
  let '(ts, w) := os_clock w in
  match ts with
  | None => (PROC_ACTIVITY_ERR_READ, 0, w)
  | Some (sec, nsec) => (PROC_ACTIVITY_OK, u64_add (u64_mul (u64 sec) PROC_ACTIVITY_NSEC_PER_SEC) (u64 nsec), w)
  end.

Definition proc_activity_sample_now (p : Z) (out : option proc_activity_sample) (w : W) : Z * option proc_activity_sample * W :=
  match out with
  | None => (PROC_ACTIVITY_ERR_INVALID_ARG, None, w)
  | Some o =>
      if p <=? 0 then (PROC_ACTIVITY_ERR_INVALID_ARG, Some o, w)
      else
        let out := proc_activity_sample_zero <| s_valid := false |> in
        let '(page_size, w) := os_pagesize w in
        let '(clock_ticks, w) := os_clk_tck w in
        if (page_size <=? 0) || (clock_ticks <=? 0) then (PROC_ACTIVITY_ERR_SYSCONF, Some out, w)
        else
          let '(rc, ns, w) := get_time_ns w in
          if negb (rc =? PROC_ACTIVITY_OK) then (rc, Some out, w)
          else
            let out := out <| timestamp_ns := ns |> in
            let stat_path := "/proc/" +:+ dec p +:+ "/stat" in
            if 256 <=? strlen stat_path then (PROC_ACTIVITY_ERR_INVALID_ARG, Some out, w)
            else
              let '(stat_file, w) := os_fopen stat_path w in
              match stat_file with
              | None => (PROC_ACTIVITY_ERR_OPEN, Some out, w)
              | Some f =>
                  match fgets PROC_ACTIVITY_STAT_LINE_MAX f with
                  | (None, _) => let '(_, w) := os_fclose w in (PROC_ACTIVITY_ERR_READ, Some out, w)
                  | (Some line, _) =>
                      let '(rc, out) := parse_stat_line line p page_size clock_ticks out in
                      (rc, Some out, w)
                  end
              end
  end.
End Sample.

(** ** Comparing two samples *)

(** The conversion of a [uint64_t] to [int64_t]. *)
Definition s64 (x : Z) : Z := if x <=? LLONG_MAX then x else x - 18446744073709551616.

Definition PROC_ACTIVITY_MIB : double := dmul (Z_to_double 1024) (Z_to_double 1024).

(** The checks made on the samples before anything is computed: the code, and
    the ticks per second. *)
Definition delta_check (old_sample new_sample : proc_activity_sample) (elapsed : double) : Z + Z :=
  if dleb elapsed dzero then inl PROC_ACTIVITY_ERR_NON_MONOTONIC_TIME
  else
    let old_cpu_ticks := u64_add (utime_ticks old_sample) (stime_ticks old_sample) in
    let new_cpu_ticks := u64_add (utime_ticks new_sample) (stime_ticks new_sample) in
    if new_cpu_ticks <? old_cpu_ticks then inl PROC_ACTIVITY_ERR_PARSE
    else if (minflt new_sample <? minflt old_sample) || (majflt new_sample <? majflt old_sample) then inl PROC_ACTIVITY_ERR_PARSE
    else
      let clock_ticks := clock_ticks_per_sec new_sample in
      let clock_ticks := if clock_ticks <=? 0 then clock_ticks_per_sec old_sample else clock_ticks in
      if clock_ticks <=? 0 then inl PROC_ACTIVITY_ERR_SYSCONF else inr clock_ticks.

(** The rates and scores. *)
Definition delta_scores (old_sample new_sample : proc_activity_sample) (cfg : proc_activity_config) (clock_ticks : Z)
    (out : proc_activity_delta) : proc_activity_delta :=
  let old_cpu_ticks := u64_add (utime_ticks old_sample) (stime_ticks old_sample) in
  let new_cpu_ticks := u64_add (utime_ticks new_sample) (stime_ticks new_sample) in
  let out := out <| cpu_ticks_delta := u64_sub new_cpu_ticks old_cpu_ticks |> in
  let out := out <| cpu_seconds := ddiv (Z_to_double (cpu_ticks_delta out)) (Z_to_double clock_ticks) |> in
  let out := out <| cpu_ratio := ddiv (cpu_seconds out) (elapsed_sec out) |> in
  let out := out <| minflt_delta := u64_sub (minflt new_sample) (minflt old_sample) |> in
  let out := out <| majflt_delta := u64_sub (majflt new_sample) (majflt old_sample) |> in
  let out := out <| weighted_faults :=
    dadd (Z_to_double (minflt_delta out)) (dmul (major_fault_weight cfg) (Z_to_double (majflt_delta out))) |> in
  let out := out <| faults_per_sec := ddiv (weighted_faults out) (elapsed_sec out) |> in
  let out := out <| rss_mib :=
    if (0 <? rss_pages new_sample) && (0 <? s_page_size new_sample)
    then ddiv (dmul (Z_to_double (rss_pages new_sample)) (Z_to_double (s_page_size new_sample))) PROC_ACTIVITY_MIB
    else dzero |> in
  let out := out <| d_cpu_score := clamp01 (ddiv (cpu_ratio out) (cpu_ratio_full_scale cfg)) |> in
  let out := out <| d_fault_score := clamp01 (ddiv (faults_per_sec out) (faults_per_sec_full_scale cfg)) |> in
  let out := out <| d_rss_score := clamp01 (ddiv (rss_mib out) (rss_mib_full_scale cfg)) |> in
  out <| total_score :=
    dadd (dadd (dmul (dlit 2 10) (d_cpu_score out)) (dmul (dlit 5 10) (d_fault_score out))) (dmul (dlit 3 10) (d_rss_score out)) |>.

Definition char_text (c : ascii) : string := String c EmptyString.

(** Whether the process is active, and why. *)
Definition delta_verdict (new_sample : proc_activity_sample) (cfg : proc_activity_config) (out : proc_activity_delta) : proc_activity_delta :=
  let reason text := snprintf PROC_ACTIVITY_REASON_MAX text in
  let rss_large_enough := s64 (min_rss_pages cfg) <=? rss_pages new_sample in
  let cpu_active := dgeb (cpu_ratio out) (active_cpu_ratio_threshold cfg) in
  let fault_active := dgeb (faults_per_sec out) (active_faults_per_sec_threshold cfg) in
  let state_active := Ascii.eqb (s_state new_sample) "R" || Ascii.eqb (s_state new_sample) "D" in
  if Ascii.eqb (s_state new_sample) "Z" then
    (out <| d_active := false |>) <| d_reason := reason ("inactive: zombie state=Z rss=" +:+ fmt_f 2 (rss_mib out) +:+ "MiB") |>
  else if negb rss_large_enough then
    (out <| d_active := false |>) <| d_reason := reason
      ("inactive: rss too small rss_pages=" +:+ dec (rss_pages new_sample) +:+ " threshold=" +:+ dec (min_rss_pages cfg)) |>
  else if cpu_active || fault_active || state_active then
    (out <| d_active := true |>) <| d_reason := reason
      ("active: cpu=" +:+ fmt_f 4 (cpu_ratio out) +:+ " faults/s=" +:+ fmt_f 2 (faults_per_sec out) +:+ " rss=" +:+ fmt_f 2 (rss_mib out)
       +:+ "MiB state=" +:+ char_text (s_state new_sample)) |>
  else
    (out <| d_active := false |>) <| d_reason := reason
      ("inactive: below threshold cpu=" +:+ fmt_f 4 (cpu_ratio out) +:+ " faults/s=" +:+ fmt_f 2 (faults_per_sec out) +:+ " rss="
       +:+ fmt_f 2 (rss_mib out) +:+ "MiB state=" +:+ char_text (s_state new_sample)) |>.

Definition proc_activity_compute_delta (old_sample new_sample : option proc_activity_sample) (cfg : option proc_activity_config)
    (out : option proc_activity_delta) : Z * option proc_activity_delta :=
  match old_sample, new_sample, cfg, out with
  | Some old_sample, Some new_sample, Some cfg, Some _ =>
      let out := ((proc_activity_delta_zero <| d_valid := false |>) <| d_active := false |>) <| pid_reused := false |> in
      if negb (s_valid old_sample) || negb (s_valid new_sample) then (PROC_ACTIVITY_ERR_INVALID_ARG, Some out)
      else if negb (s_pid old_sample =? s_pid new_sample) then (PROC_ACTIVITY_ERR_INVALID_ARG, Some out)
      else
        let out := out <| d_pid := s_pid new_sample |> in
        if negb (starttime_ticks old_sample =? starttime_ticks new_sample) then
          (PROC_ACTIVITY_ERR_PID_REUSED,
           Some ((out <| pid_reused := true |>) <| d_reason := snprintf PROC_ACTIVITY_REASON_MAX "pid reused: starttime changed" |>))
        else if timestamp_ns new_sample <=? timestamp_ns old_sample then (PROC_ACTIVITY_ERR_NON_MONOTONIC_TIME, Some out)
        else
          let elapsed_ns := u64_sub (timestamp_ns new_sample) (timestamp_ns old_sample) in
          let out := out <| elapsed_sec := ddiv (Z_to_double elapsed_ns) (Z_to_double PROC_ACTIVITY_NSEC_PER_SEC) |> in
          match delta_check old_sample new_sample (elapsed_sec out) with
          | inl rc => (rc, Some out)
          | inr clock_ticks =>
              let out := delta_verdict new_sample cfg (delta_scores old_sample new_sample cfg clock_ticks out) in
              (PROC_ACTIVITY_OK, Some (out <| d_valid := true |>))
          end
  | _, _, _, _ => (PROC_ACTIVITY_ERR_INVALID_ARG, out)
  end.

Definition proc_activity_strerror (rc : Z) : string :=
  switch rc [
    (PROC_ACTIVITY_OK, "ok");
    (PROC_ACTIVITY_ERR_INVALID_ARG, "invalid argument");
    (PROC_ACTIVITY_ERR_OPEN, "failed to open proc stat");
    (PROC_ACTIVITY_ERR_READ, "failed to read proc stat or clock");
    (PROC_ACTIVITY_ERR_PARSE, "failed to parse proc stat");
    (PROC_ACTIVITY_ERR_SYSCONF, "failed to read system configuration");
    (PROC_ACTIVITY_ERR_PID_REUSED, "pid reused");
    (PROC_ACTIVITY_ERR_NON_MONOTONIC_TIME, "non-monotonic timestamp")
  ]%string "unknown proc_activity error"%string.
