(* ===== verification/ProcActivityProps.v ===== *)
(** * Correctness of activity sampling

    A line of [/proc/<pid>/stat] is read back whatever the name of the process,
    the scores are fractions, the verdict is the documented one, and the stream
    of the file is left open. *)
From S2P Require Import Prelude Float64 CString Scan Os Cgroup SimOs ProcActivity.
From Stdlib Require Import Ascii String DecimalString DecimalPos.
Local Open Scope Z_scope.

(** ** Scores *)

Lemma clamp01_unit x : nnv x -> unit_interval (clamp01 x).
Proof.
  intros Hx. unfold clamp01, dgtb. rewrite nnv_not_neg by done. rewrite dltb_dleb by (apply nnv_done || done).
  destruct (dleb x done) eqn:E; cbn [negb]; split; try done.
Qed.

(** The full-scale values and the weight are usable divisors and factors. *)
Record config_ok (cfg : proc_activity_config) : Prop := {
  co_cpu : dfin (cpu_ratio_full_scale cfg) /\ 0 < dord (cpu_ratio_full_scale cfg);
  co_faults : dfin (faults_per_sec_full_scale cfg) /\ 0 < dord (faults_per_sec_full_scale cfg);
  co_rss : dfin (rss_mib_full_scale cfg) /\ 0 < dord (rss_mib_full_scale cfg);
  co_weight : dfin (major_fault_weight cfg)
}.

Lemma default_config_ok : config_ok (mk_proc_activity_config (dlit 2 100) (dlit 100 1) 256 (dlit 8 1) (dlit 25 100) (dlit 1000 1) (dlit 256 1)).
Proof. split; repeat split; vm_compute; reflexivity. Qed.

Lemma unit_lit n d : dvalid (dlit n d) = true -> nonneg (dlit n d) = true -> dleb (dlit n d) done = true -> unit_interval (dlit n d).
Proof. by repeat split. Qed.

Lemma weights_unit : unit_interval (dlit 2 10) /\ unit_interval (dlit 5 10) /\ unit_interval (dlit 3 10).
Proof. split; [|split]; apply unit_lit; vm_compute; reflexivity. Qed.

(** A weighted mean of fractions is a fraction, in the order the code rounds it. *)
Lemma weighted_unit c f r : unit_interval c -> unit_interval f -> unit_interval r ->
  unit_interval (dadd (dadd (dmul (dlit 2 10) c) (dmul (dlit 5 10) f)) (dmul (dlit 3 10) r)).
Proof.
  intros Hc Hf Hr. destruct weights_unit as (W2 & W5 & W3).
  assert (Hmul : forall k x, unit_interval k -> unit_interval x -> dleb (dmul k x) (dmul k done) = true /\ dfin (dmul k x)).
  { intros k x Hk Hx. split; [|by apply unit_dfin, dmul_unit].
    apply dmul_mono; try apply dfin_done; try (by apply unit_dfin); [|apply Hx].
    apply dleb_le; [apply Hk|apply Hk|lia]. }
  assert (H1 : unit_interval done) by (split; [apply nnv_done|reflexivity]).
  destruct (Hmul _ _ W2 Hc) as [L2 F2], (Hmul _ _ W5 Hf) as [L5 F5], (Hmul _ _ W3 Hr) as [L3 F3].
  destruct (Hmul _ _ W2 H1) as [_ G2], (Hmul _ _ W5 H1) as [_ G5], (Hmul _ _ W3 H1) as [_ G3].
  pose proof (dadd_mono _ _ _ _ F2 G2 F5 G5 L2 L5) as L25.
  assert (Gs : dfin (dadd (dmul (dlit 2 10) done) (dmul (dlit 5 10) done))) by (repeat split; vm_compute; reflexivity).
  pose proof (dleb_finite _ _ (dadd_nnv _ _ (proj1 F2) (proj1 F5)) Gs L25) as Fs.
  pose proof (dadd_mono _ _ _ _ Fs Gs F3 G3 L25 L3) as L. split; [apply dadd_nnv; [apply Fs|apply F3]|].
  eapply dleb_trans; [apply dadd_nnv; [apply Fs|apply F3]| |apply nnv_done|exact L|vm_compute; reflexivity].
  split; vm_compute; reflexivity.
Qed.

(** The ranges of the fields of a sample. *)
Record sample_ok (s : proc_activity_sample) : Prop := {
  so_times : in_u64 (timestamp_ns s);
  so_minflt : in_u64 (minflt s);
  so_majflt : in_u64 (majflt s);
  so_ticks : clock_ticks_per_sec s <= LLONG_MAX;
  so_rss : rss_pages s <= LLONG_MAX;
  so_page : in_u64 (s_page_size s)
}.

Definition scores_unit (d : proc_activity_delta) : Prop :=
  unit_interval (d_cpu_score d) /\ unit_interval (d_fault_score d) /\ unit_interval (d_rss_score d) /\ unit_interval (total_score d).

Lemma delta_scores_unit old new cfg ticks out : config_ok cfg -> sample_ok old -> sample_ok new -> 0 < ticks <= LLONG_MAX ->
  dfin (elapsed_sec out) -> 0 < dord (elapsed_sec out) -> scores_unit (delta_scores old new cfg ticks out).
Proof.
  intros [[C1 C1'] [C2 C2'] [C3 C3'] C4] Ho Hn Ht He He'. unfold delta_scores, scores_unit. cbv zeta.
  cbn [set_field cpu_ticks_delta cpu_seconds cpu_ratio minflt_delta majflt_delta weighted_faults faults_per_sec rss_mib d_cpu_score
    d_fault_score d_rss_score total_score elapsed_sec].
  assert (Hu : forall x, dfin (Z_to_double (u64 x))) by (intros x; apply Z_to_double_fin; pose proof (u64_range x) as R; unfold in_u64 in R; lia).
  assert (Hcpu : unit_interval (clamp01 (ddiv (ddiv (ddiv (Z_to_double (u64_sub (u64_add (utime_ticks new) (stime_ticks new))
    (u64_add (utime_ticks old) (stime_ticks old)))) (Z_to_double ticks)) (elapsed_sec out)) (cpu_ratio_full_scale cfg)))).
  { apply clamp01_unit, ddiv_nnv; [|done|done]. apply ddiv_nnv; [|done|done]. unfold LLONG_MAX in Ht. apply ddiv_nnv; [apply Hu| |].
    - apply Z_to_double_fin. lia.
    - apply Z_to_double_pos. lia. }
  assert (Hfault : unit_interval (clamp01 (ddiv (ddiv (dadd (Z_to_double (u64_sub (minflt new) (minflt old)))
    (dmul (major_fault_weight cfg) (Z_to_double (u64_sub (majflt new) (majflt old))))) (elapsed_sec out)) (faults_per_sec_full_scale cfg)))).
  { apply clamp01_unit, ddiv_nnv; [|done|done]. apply ddiv_nnv; [|done|done]. apply dadd_nnv; [apply Hu|apply dmul_nnv; [done|apply Hu]]. }
  assert (Hrss : unit_interval (clamp01 (ddiv (if (0 <? rss_pages new) && (0 <? s_page_size new)
    then ddiv (dmul (Z_to_double (rss_pages new)) (Z_to_double (s_page_size new))) PROC_ACTIVITY_MIB else dzero) (rss_mib_full_scale cfg)))).
  { apply clamp01_unit, ddiv_nnv; [|done|done]. destruct (Z.ltb_spec 0 (rss_pages new)), (Z.ltb_spec 0 (s_page_size new)); cbn [andb]; try (split; reflexivity).
    destruct Hn as [_ _ _ _ Hr Hp]. unfold in_u64, LLONG_MAX in *.
    apply ddiv_nnv; [apply dmul_nnv; apply Z_to_double_fin; lia| |]; [repeat split|]; vm_compute; reflexivity. }
  split; [exact Hcpu|]. split; [exact Hfault|]. split; [exact Hrss|]. by apply weighted_unit.
Qed.

Lemma elapsed_fin n : 0 < n < 2 ^ 64 ->
  dfin (ddiv (Z_to_double n) (Z_to_double PROC_ACTIVITY_NSEC_PER_SEC)) /\ 0 < dord (ddiv (Z_to_double n) (Z_to_double PROC_ACTIVITY_NSEC_PER_SEC)).
Proof.
  intros Hn. set (g := Z_to_double PROC_ACTIVITY_NSEC_PER_SEC).
  assert (Hg : dfin g /\ 0 < dord g) by (split; [repeat split|]; vm_compute; reflexivity). destruct Hg as [Hg Hg'].
  assert (Hf : forall k, 0 <= k <= 2 ^ 64 -> dfin (Z_to_double k)) by (intros; by apply Z_to_double_fin).
  pose proof (ddiv_mono_l (Z_to_double n) (Z_to_double (2 ^ 64)) g (Hf n ltac:(lia)) (Hf (2 ^ 64) ltac:(lia)) Hg Hg' (Z_to_double_mono n (2 ^ 64) ltac:(lia))) as Hu.
  pose proof (ddiv_mono_l (Z_to_double 1) (Z_to_double n) g (Hf 1 ltac:(lia)) (Hf n ltac:(lia)) Hg Hg' (Z_to_double_mono 1 n ltac:(lia))) as Hl.
  pose proof (ddiv_nnv (Z_to_double n) g (proj1 (Hf n ltac:(lia))) Hg Hg') as Hnn. split.
  - apply (dleb_finite _ _ Hnn) in Hu; [exact Hu|]. repeat split; vm_compute; reflexivity.
  - apply dleb_le in Hl; [|split; vm_compute; reflexivity|exact Hnn].
    assert (0 < dord (ddiv (Z_to_double 1) g)) by (vm_compute; reflexivity). lia.
Qed.

(** The two samples describe one process at two successive times, with
    counters that did not decrease. *)
Definition comparable (old new : proc_activity_sample) : Prop :=
  s_valid old = true /\ s_valid new = true /\ s_pid old = s_pid new /\ starttime_ticks old = starttime_ticks new /\
  timestamp_ns old < timestamp_ns new /\
  u64_add (utime_ticks old) (stime_ticks old) <= u64_add (utime_ticks new) (stime_ticks new) /\
  minflt old <= minflt new /\ majflt old <= majflt new /\ (0 < clock_ticks_per_sec new \/ 0 < clock_ticks_per_sec old).

(** The documented verdict. *)
Definition active_rule (new : proc_activity_sample) (cfg : proc_activity_config) (d : proc_activity_delta) : bool :=
  negb (Ascii.eqb (s_state new) "Z") && (s64 (min_rss_pages cfg) <=? rss_pages new) &&
  (dgeb (cpu_ratio d) (active_cpu_ratio_threshold cfg) || dgeb (faults_per_sec d) (active_faults_per_sec_threshold cfg) ||
   (Ascii.eqb (s_state new) "R" || Ascii.eqb (s_state new) "D")).

Lemma verdict_rule new cfg out :
  d_active (delta_verdict new cfg out) = active_rule new cfg out /\
  cpu_ratio (delta_verdict new cfg out) = cpu_ratio out /\ faults_per_sec (delta_verdict new cfg out) = faults_per_sec out /\
  scores_unit (delta_verdict new cfg out) = scores_unit out /\
  d_pid (delta_verdict new cfg out) = d_pid out /\ pid_reused (delta_verdict new cfg out) = pid_reused out.
Proof.
  unfold delta_verdict, active_rule. destruct (Ascii.eqb (s_state new) "Z"); [done|].
  destruct (s64 (min_rss_pages cfg) <=? rss_pages new); [|done]. cbn [negb andb].
  by destruct (dgeb (cpu_ratio out) _ || dgeb (faults_per_sec out) _ || _).
Qed.

(** What may stand in the way of a comparison, in the order in which it is
    reported, with the code for it. *)
Definition obstacles (old new : proc_activity_sample) : list (bool * Z) :=
  [ (negb (s_valid old && s_valid new), PROC_ACTIVITY_ERR_INVALID_ARG);
    (negb (s_pid old =? s_pid new), PROC_ACTIVITY_ERR_INVALID_ARG);
    (negb (starttime_ticks old =? starttime_ticks new), PROC_ACTIVITY_ERR_PID_REUSED);
    (timestamp_ns new <=? timestamp_ns old, PROC_ACTIVITY_ERR_NON_MONOTONIC_TIME);
    (u64_add (utime_ticks new) (stime_ticks new) <? u64_add (utime_ticks old) (stime_ticks old), PROC_ACTIVITY_ERR_PARSE);
    (minflt new <? minflt old, PROC_ACTIVITY_ERR_PARSE);
    (majflt new <? majflt old, PROC_ACTIVITY_ERR_PARSE);
    ((clock_ticks_per_sec new <=? 0) && (clock_ticks_per_sec old <=? 0), PROC_ACTIVITY_ERR_SYSCONF) ].

(** The code of the first obstacle. *)
Fixpoint first_obstacle (os : list (bool * Z)) : Z :=
  match os with
  | [] => PROC_ACTIVITY_OK
  | (hit, code) :: os => if hit : bool then code else first_obstacle os
  end.

Lemma no_obstacle old new : first_obstacle (obstacles old new) = PROC_ACTIVITY_OK <-> comparable old new.
Proof.
  unfold obstacles, comparable. cbn [first_obstacle].
  destruct (s_valid old), (s_valid new); cbn [negb andb]; [|naive_solver..].
  destruct (Z.eqb_spec (s_pid old) (s_pid new)); cbn [negb]; [|naive_solver].
  destruct (Z.eqb_spec (starttime_ticks old) (starttime_ticks new)); cbn [negb]; [|naive_solver].
  destruct (Z.leb_spec (timestamp_ns new) (timestamp_ns old)); [naive_solver lia|].
  destruct (Z.ltb_spec (u64_add (utime_ticks new) (stime_ticks new)) (u64_add (utime_ticks old) (stime_ticks old))); [naive_solver lia|].
  destruct (Z.ltb_spec (minflt new) (minflt old)); [naive_solver lia|]. destruct (Z.ltb_spec (majflt new) (majflt old)); [naive_solver lia|].
  destruct (Z.leb_spec (clock_ticks_per_sec new) 0), (Z.leb_spec (clock_ticks_per_sec old) 0); cbn [andb]; naive_solver lia.
Qed.

(** A comparison always leaves a result. *)
Lemma activity_delta_some old new cfg out rc d : proc_activity_compute_delta (Some old) (Some new) (Some cfg) (Some out) = (rc, d) -> is_Some d.
Proof.
  unfold proc_activity_compute_delta. destruct (_ || _); [intros [= _ <-]; by eexists|]. destruct (negb _); [intros [= _ <-]; by eexists|].
  destruct (negb _); [intros [= _ <-]; by eexists|]. destruct (_ <=? _); [intros [= _ <-]; by eexists|]. destruct (delta_check _ _ _); intros [= _ <-]; by eexists.
Qed.

(** The samples of one process of which the second was started anew. *)
Definition restarted (old new : proc_activity_sample) : bool :=
  s_valid old && s_valid new && (s_pid old =? s_pid new) && negb (starttime_ticks old =? starttime_ticks new).

Lemma compute_delta_spec old new cfg out rc d :
  sample_ok old -> sample_ok new -> config_ok cfg ->
  proc_activity_compute_delta (Some old) (Some new) (Some cfg) (Some out) = (rc, Some d) ->
  rc = first_obstacle (obstacles old new) /\
  d_valid d = (rc =? PROC_ACTIVITY_OK) /\ pid_reused d = restarted old new /\
  (rc = PROC_ACTIVITY_OK -> scores_unit d /\ d_pid d = s_pid new /\ d_active d = active_rule new cfg d) /\
  (rc <> PROC_ACTIVITY_OK -> d_active d = false).
Proof.
  intros Ho Hn Hc E. unfold proc_activity_compute_delta in E. unfold obstacles, restarted. cbn [first_obstacle].
  destruct (s_valid old); cbn [negb orb andb] in E |- *; [|by injection E as <- <-].
  destruct (s_valid new); cbn [negb andb] in E |- *; [|by injection E as <- <-].
  destruct (Z.eqb_spec (s_pid old) (s_pid new)); cbn [negb andb] in E |- *; [|by injection E as <- <-].
  destruct (Z.eqb_spec (starttime_ticks old) (starttime_ticks new)); cbn [negb andb] in E |- *; [|by injection E as <- <-].
  destruct (Z.leb_spec (timestamp_ns new) (timestamp_ns old)); [by injection E as <- <-|].
  pose proof (so_times _ Ho) as T1. pose proof (so_times _ Hn) as T2.
  cbn [elapsed_sec set_field] in E. unfold u64_sub in E. rewrite (u64_small (timestamp_ns new - _)) in E by (unfold in_u64 in *; lia).
  destruct (elapsed_fin (timestamp_ns new - timestamp_ns old)) as [Hf Hp]; [unfold in_u64 in *; lia|].
  set (el := ddiv _ _) in *. unfold delta_check in E.
  assert (El : dleb el dzero = false).
  { destruct (dleb el dzero) eqn:El; [|done]. apply dleb_le in El; [|apply Hf|split; reflexivity]. cbn [dord dzero] in El. lia. }
  rewrite El in E. unfold in_u64 in *.
  destruct (Z.ltb_spec (u64_add (utime_ticks new) (stime_ticks new)) (u64_add (utime_ticks old) (stime_ticks old))); [by injection E as <- <-|].
  destruct (Z.ltb_spec (minflt new) (minflt old)); cbn [orb] in E |- *; [by injection E as <- <-|].
  destruct (Z.ltb_spec (majflt new) (majflt old)); [by injection E as <- <-|].
  set (ticks := if clock_ticks_per_sec new <=? 0 then clock_ticks_per_sec old else clock_ticks_per_sec new) in E.
  assert (Hticks : ticks <= LLONG_MAX /\ (0 < ticks <-> 0 < clock_ticks_per_sec new \/ 0 < clock_ticks_per_sec old)).
  { pose proof (so_ticks _ Ho). pose proof (so_ticks _ Hn). unfold ticks. destruct (Z.leb_spec (clock_ticks_per_sec new) 0); naive_solver lia. }
  assert (Elast : ((clock_ticks_per_sec new <=? 0) && (clock_ticks_per_sec old <=? 0)) = (ticks <=? 0)).
  { apply eq_true_iff_eq. rewrite andb_true_iff, !Z.leb_le. lia. }
  rewrite Elast. destruct (Z.leb_spec ticks 0); [by injection E as <- <-|]. injection E as <- <-.
  match goal with |- context [delta_verdict new cfg ?x] => destruct (verdict_rule new cfg x) as (V1 & V2 & V3 & V4 & V5 & V6);
    set (dv := delta_verdict new cfg x) in *; set (ds := x) in * end.
  assert (Hs : scores_unit ds) by (apply delta_scores_unit; try done; lia).
  split; [done|]. split; [done|]. split; [exact V6|]. split; [|done]. intros _.
  split; [change (scores_unit dv); by rewrite V4|]. split; [exact V5|]. change (d_active dv = active_rule new cfg dv).
  rewrite V1. unfold active_rule. by rewrite V2, V3.
Qed.

(** C29: [proc_activity_compute_delta] returns the code of the first obstacle to
    comparing the samples, in the order invalid sample, other pid, reused pid,
    time that did not advance, counter that decreased, unknown tick rate; so it
    succeeds exactly on two successive samples of one process with counters that
    did not decrease. The four scores are then fractions, whatever the counters,
    and the process is active exactly by the documented rule. A failure leaves an
    invalid, inactive result, and the result says that the pid was reused exactly
    when both samples are valid, of the same pid, and have different start
    times. *)
Theorem compute_delta_outcome old new cfg out :
  sample_ok old -> sample_ok new -> config_ok cfg ->
  exists d, proc_activity_compute_delta (Some old) (Some new) (Some cfg) (Some out) = (first_obstacle (obstacles old new), Some d) /\
  (first_obstacle (obstacles old new) = PROC_ACTIVITY_OK <-> comparable old new) /\
  (d_valid d = true <-> comparable old new) /\ pid_reused d = restarted old new /\
  (comparable old new -> scores_unit d /\ d_pid d = s_pid new /\ d_active d = active_rule new cfg d) /\
  (~ comparable old new -> d_active d = false).
Proof.
  intros Ho Hn Hc. pose proof (no_obstacle old new) as Hno.
  destruct (proc_activity_compute_delta _ _ _ _) as [rc [d|]] eqn:E; [|by destruct (activity_delta_some old new cfg out _ _ E)].
  destruct (compute_delta_spec old new cfg out rc d Ho Hn Hc E) as (-> & H1 & H2 & H3 & H4).
  exists d. rewrite <- Hno, H1, Z.eqb_eq. by conjs.
Qed.


(** ** The stat file *)

(** The fields after the state, each after a space, and the end of the line. *)
Definition stat_values (vals : list Z) : string := foldr (fun v t => String " " (dec v +:+ t)) (String newline EmptyString) vals.

(** A line of [/proc/<pid>/stat]: the name may hold spaces and parentheses. *)
Definition stat_line (p : Z) (comm : string) (state : ascii) (vals : list Z) : string :=
  dec p +:+ " (" +:+ comm +:+ ") " +:+ String state (stat_values vals).

Definition long_long (v : Z) : Prop := LLONG_MIN <= v <= LLONG_MAX.

Lemma stat_values_head vals : exists c t, stat_values vals = String c t /\ (c = " "%char \/ c = newline) /\ starts_digit 10 (stat_values vals) = false.
Proof. destruct vals as [|v vals]; cbn [stat_values foldr]; eauto 6. Qed.

Lemma dec_head v t : exists c s, dec v +:+ t = String c s /\ Ascii.eqb c " " = false /\ Ascii.eqb c newline = false.
Proof.
  assert (Hd : forall c, isdigit c = true -> Ascii.eqb c " " = false /\ Ascii.eqb c newline = false).
  { intros c Hc. destruct (Ascii.eqb_spec c " ") as [->|]; [done|]. by destruct (Ascii.eqb_spec c newline) as [->|]. }
  destruct v as [|p|p].
  - eexists _, _. done.
  - rewrite dec_pos. destruct (uint_digit (Pos.to_uint p)) as (c & s & -> & Hc); [apply DecimalPos.Unsigned.to_uint_nonnil|].
    eexists _, _. split; [reflexivity|by apply Hd].
  - rewrite dec_neg. eexists _, _. done.
Qed.

Lemma skip_values vals : skip_spaces (stat_values vals) =
  match vals with [] => String newline EmptyString | v :: vals => dec v +:+ stat_values vals end.
Proof.
  destruct vals as [|v vals]; [done|]. cbn [stat_values foldr]. fold (stat_values vals).
  destruct (dec_head v (stat_values vals)) as (c & s & -> & Hc & _). change (skip_spaces (String " " (String c s))) with (skip_spaces (String c s)).
  cbn [skip_spaces]. by rewrite Hc.
Qed.

(** The loop stores the values one by one, up to the capacity. *)
Lemma parse_values_all vals acc cap fuel : Forall long_long vals -> Z.of_nat (List.length acc) <= cap -> (List.length vals < fuel)%nat ->
  parse_values_loop fuel (skip_spaces (stat_values vals)) acc cap =
    (PROC_ACTIVITY_OK, acc ++ take (Z.to_nat (cap - Z.of_nat (List.length acc))) vals).
Proof.
  intros Hv. revert acc fuel. induction Hv as [|v vals Hv Hvs IH]; intros acc fuel Hacc Hf; (destruct fuel as [|fuel]; [cbn in Hf; lia|]);
    rewrite skip_values.
  - cbn. by rewrite take_nil, app_nil_r.
  - destruct (dec_head v (stat_values vals)) as (c & s & E & _ & Hnl). cbn [parse_values_loop]. rewrite E, Hnl, <- E.
    destruct (Z.leb_spec cap (Z.of_nat (List.length acc))).
    + replace (Z.to_nat (cap - Z.of_nat (List.length acc))) with 0%nat by lia. by rewrite take_0, app_nil_r.
    + destruct (stat_values_head vals) as (_ & _ & _ & _ & Hsd). rewrite strtoll_dec by done.
      rewrite IH; [|rewrite length_app; cbn; lia|cbn in Hf; lia]. rewrite <- app_assoc. cbn [app].
      replace (Z.to_nat (cap - Z.of_nat (List.length acc))) with (S (Z.to_nat (cap - Z.of_nat (List.length (acc ++ [v])))))
        by (rewrite length_app; cbn; lia). done.
Qed.

Lemma length_stat_values vals : (List.length vals < String.length (skip_spaces (stat_values vals)) + 1)%nat.
Proof.
  assert (H : forall l, (List.length l < String.length (stat_values l))%nat).
  { induction l as [|v l IH]; [cbn; lia|]. cbn [stat_values foldr List.length String.length]. rewrite length_app_str. fold (stat_values l). lia. }
  destruct vals as [|v vals]; rewrite skip_values; [cbn; lia|]. rewrite length_app_str. specialize (H vals). cbn. lia.
Qed.

(** ** Finding the parentheses *)

Lemma str_index_app a b c : str_has a c = false -> str_index (a +:+ String c b) c = Some (String.length a).
Proof.
  induction a as [|x a IH]; [intros _; change (str_index (String c b) c = Some 0%nat); cbn [str_index]; by rewrite Ascii.eqb_refl|]. cbn [str_has]. intros [Hx Ha]%orb_false_iff.
  rewrite str_app_cons. cbn [str_index]. by rewrite Hx, IH.
Qed.

Lemma str_rindex_none s c : str_has s c = false -> str_rindex s c = None.
Proof. induction s as [|x s IH]; [done|]. cbn [str_has str_rindex]. intros [Hx Hs]%orb_false_iff. by rewrite IH, Hx. Qed.

Lemma str_rindex_app a b c : str_has b c = false -> str_rindex (a +:+ String c b) c = Some (String.length a).
Proof.
  intros Hb. induction a as [|x a IH]; [change (str_rindex (String c b) c = Some 0%nat); cbn [str_rindex]; by rewrite str_rindex_none, Ascii.eqb_refl|].
  rewrite str_app_cons. cbn [str_rindex String.length]. by rewrite IH.
Qed.

Lemma str_drop_app_S a c b : str_drop (S (String.length a)) (a +:+ String c b) = b.
Proof. induction a as [|x a IH]; [by destruct b|exact IH]. Qed.

(** Numerals hold only digits and a sign. *)
Lemma dec_has z c : isdigit c = false -> c <> "-"%char -> str_has (dec z) c = false.
Proof.
  intros Hc Hm. assert (Hu : forall u, str_has (NilEmpty.string_of_uint u) c = false).
  { induction u; cbn [NilEmpty.string_of_uint str_has]; [done|..]; rewrite IHu, orb_false_r;
      match goal with |- Ascii.eqb ?d c = false => destruct (Ascii.eqb_spec d c) as [<-|]; [discriminate Hc|done] end. }
  destruct z as [|p|p].
  - change (dec 0) with (String "0" EmptyString). cbn [str_has]. rewrite orb_false_r. by destruct (Ascii.eqb_spec "0" c) as [<-|].
  - rewrite dec_pos. apply Hu.
  - rewrite dec_neg. cbn [str_has]. rewrite Hu, orb_false_r. by destruct (Ascii.eqb_spec "-" c) as [<-|].
Qed.

Lemma stat_values_has vals c : isdigit c = false -> c <> "-"%char -> c <> " "%char -> c <> newline -> str_has (stat_values vals) c = false.
Proof.
  intros H1 H2 H3 H4. induction vals as [|v vals IH]; cbn [stat_values foldr str_has].
  - destruct (Ascii.eqb_spec newline c) as [E|]; [by subst|done].
  - fold (stat_values vals). rewrite str_has_app, dec_has, IH by done. by destruct (Ascii.eqb_spec " " c) as [<-|].
Qed.

Lemma str_take_app_le n a b : (n <= String.length a)%nat -> str_take n (a +:+ b) = str_take n a.
Proof.
  revert n. induction a as [|x a IH]; intros [|n] Hn; cbn [String.length] in Hn; try lia; try by destruct b.
  rewrite str_app_cons. cbn [str_take]. by rewrite IH by lia.
Qed.

Lemma take_line_whole n a : str_has a newline = false -> (S (String.length a) <= n)%nat ->
  take_line n (a +:+ String newline EmptyString) = (a +:+ String newline EmptyString, EmptyString).
Proof.
  revert n. induction a as [|x a IH]; intros [|n] Ha Hn; cbn [String.length] in Hn; try lia; [done|].
  cbn [str_has] in Ha. apply orb_false_iff in Ha as [Hx Ha]. rewrite str_app_cons. cbn [take_line]. rewrite Hx, IH by (done || lia). done.
Qed.

(** What the code needs of a stat line. *)
Record stat_ok (comm : string) (state : ascii) (vals : list Z) : Prop := {
  st_comm : str_has comm NUL = false /\ str_has comm newline = false;
  st_state : state <> " "%char /\ state <> newline /\ state <> NUL /\ state <> ")"%char;
  st_vals : Forall long_long vals;
  st_count : (21 <= List.length vals)%nat;
  st_nonneg : 0 <= nth 6 vals 0 /\ 0 <= nth 8 vals 0 /\ 0 <= nth 10 vals 0 /\ 0 <= nth 11 vals 0 /\ 0 <= nth 18 vals 0 /\ 0 <= nth 19 vals 0
}.

Definition stat_sample (p : Z) (comm : string) (state : ascii) (vals : list Z) (page_size ticks ns : Z) : proc_activity_sample :=
  mk_proc_activity_sample p (str_take 63 comm) state true ns ticks (u64 page_size) (nth 6 vals 0) (nth 8 vals 0) (nth 10 vals 0)
    (nth 11 vals 0) (nth 18 vals 0) (nth 19 vals 0) (nth 20 vals 0) (nth 16 vals 0).

Lemma nth_take {A} (l : list A) n i d : (i < n)%nat -> nth i (take n l) d = nth i l d.
Proof. revert n i. induction l as [|x l IH]; intros [|n] [|i] Hi; try lia; try done. cbn. apply IH. lia. Qed.

Lemma store_values_ok vals out : 0 <= nth 6 vals 0 -> 0 <= nth 8 vals 0 -> 0 <= nth 10 vals 0 -> 0 <= nth 11 vals 0 ->
  0 <= nth 18 vals 0 -> 0 <= nth 19 vals 0 ->
  store_values vals out = inr (mk_proc_activity_sample (s_pid out) (s_comm out) (s_state out) true (timestamp_ns out) (clock_ticks_per_sec out)
    (s_page_size out) (nth 6 vals 0) (nth 8 vals 0) (nth 10 vals 0) (nth 11 vals 0) (nth 18 vals 0) (nth 19 vals 0) (nth 20 vals 0) (nth 16 vals 0)).
Proof.
  intros. unfold store_values, checked_u64.
  repeat match goal with H : 0 <= ?x |- context [?x <? 0] => rewrite (proj2 (Z.ltb_ge x 0) H) end. done.
Qed.

Lemma store_values_take vals out : store_values (take 21 vals) out = store_values vals out.
Proof. unfold store_values. rewrite !nth_take by lia. done. Qed.

Lemma c_str_stat p comm state vals : stat_ok comm state vals -> c_str (stat_line p comm state vals) = stat_line p comm state vals.
Proof.
  intros [[Hc _] (_ & _ & Hs & _) _ _ _]. apply c_str_id. unfold stat_line. rewrite !str_has_app. cbn [str_has].
  rewrite dec_no_nul, Hc, stat_values_has by done. cbn. by destruct (Ascii.eqb_spec state NUL).
Qed.

Lemma parse_stat_line_ok p comm state vals page_size ticks out : stat_ok comm state vals ->
  parse_stat_line (stat_line p comm state vals) p page_size ticks out =
    (PROC_ACTIVITY_OK, stat_sample p comm state vals page_size ticks (timestamp_ns out)).
Proof.
  intros Hok. unfold parse_stat_line. rewrite c_str_stat by done.
  destruct Hok as [[Hc _] (Hs1 & Hs2 & _ & Hs4) Hv Hn (V1 & V2 & V3 & V4 & V5 & V6)].
  set (rest := String " " (String state (stat_values vals))).
  set (l1 := dec p +:+ " "). set (l2 := l1 +:+ String "(" comm).
  assert (E1 : stat_line p comm state vals = l1 +:+ String "(" (comm +:+ String ")" rest)) by (unfold l1; rewrite str_assoc; reflexivity).
  assert (E2 : stat_line p comm state vals = l2 +:+ String ")" rest) by (rewrite E1; unfold l2; rewrite str_assoc; reflexivity).
  assert (Hrest : str_has rest ")" = false).
  { unfold rest. cbn [str_has]. rewrite stat_values_has by done. destruct (Ascii.eqb_spec state ")"); [done|reflexivity]. }
  assert (Hl1 : str_has l1 "(" = false) by (unfold l1; rewrite str_has_app, dec_has by done; reflexivity).
  assert (I1 : str_index (stat_line p comm state vals) "(" = Some (String.length l1)) by (rewrite E1; by apply str_index_app).
  assert (I2 : str_rindex (stat_line p comm state vals) ")" = Some (String.length l2)) by (rewrite E2; by apply str_rindex_app).
  assert (D1 : str_drop (S (String.length l1)) (stat_line p comm state vals) = comm +:+ String ")" rest) by (rewrite E1; apply str_drop_app_S).
  assert (D2 : str_drop (S (String.length l2)) (stat_line p comm state vals) = rest) by (rewrite E2; apply str_drop_app_S).
  rewrite I1, I2, D1, D2.
  assert (Hlen : String.length l2 = (String.length l1 + S (String.length comm))%nat) by (unfold l2; rewrite length_app_str; reflexivity).
  destruct (Nat.leb_spec (String.length l2) (String.length l1)); [lia|].
  replace (String.length l2 - String.length l1 - 1)%nat with (String.length comm) by lia.
  change (skip_spaces rest) with (skip_spaces (String state (stat_values vals))). cbn [skip_spaces].
  destruct (Ascii.eqb_spec state " ") as [|_]; [done|]. destruct (Ascii.eqb_spec state newline) as [|_]; [done|].
  unfold parse_stat_values. rewrite parse_values_all; [|done|cbn; lia|pose proof (length_stat_values vals); lia].
  cbn [List.length app]. change (Z.to_nat (21 - Z.of_nat 0)) with 21%nat.
  cbn [negb Z.eqb PROC_ACTIVITY_OK]. rewrite length_take. destruct (Z.ltb_spec (Z.of_nat (21 `min` List.length vals)) 21); [lia|].
  rewrite store_values_take, store_values_ok by done. unfold stat_sample. cbn [set_field s_pid s_comm s_state timestamp_ns clock_ticks_per_sec s_page_size].
  f_equal. f_equal. unfold PROC_ACTIVITY_COMM_MAX. destruct (Z.leb_spec 64 (Z.of_nat (String.length comm))).
  - change (Z.to_nat (64 - 1)) with 63%nat. apply str_take_app_le. lia.
  - rewrite str_take_app. symmetry. apply str_take_all. lia.
Qed.

Lemma fgets_stat p comm state vals : stat_ok comm state vals -> strlen (stat_line p comm state vals) < PROC_ACTIVITY_STAT_LINE_MAX ->
  fgets PROC_ACTIVITY_STAT_LINE_MAX (mk_stream (stat_line p comm state vals) false) =
    (Some (stat_line p comm state vals), mk_stream EmptyString false).
Proof.
  intros Hok Hlen. assert (Hl : exists a, stat_line p comm state vals = a +:+ String newline EmptyString /\ str_has a newline = false).
    { destruct Hok as [[_ Hc] (_ & Hs & _ & _) _ _ _]. unfold stat_line.
      assert (Hv : exists b, stat_values vals = b +:+ String newline EmptyString /\ str_has b newline = false).
      { clear Hlen. induction vals as [|v l (b & Eb & Hb)]; [by exists EmptyString|]. exists (String " " (dec v +:+ b)). cbn [stat_values foldr].
        fold (stat_values l). rewrite Eb, str_app_cons, str_assoc. split; [done|]. cbn [str_has]. rewrite str_has_app, Hb, dec_has by done. done. }
      destruct Hv as (b & -> & Hb). exists (dec p +:+ " (" +:+ comm +:+ ") " +:+ String state b).
      rewrite !str_assoc. split; [done|]. rewrite !str_has_app, dec_has, Hc by done. cbn [str_has]. rewrite Hb.
      destruct (Ascii.eqb_spec state newline); [done|]. done. }
    destruct Hl as (a & Ea & Ha). unfold fgets. cbn [st_data st_fail]. rewrite Ea in *. unfold strlen, PROC_ACTIVITY_STAT_LINE_MAX in Hlen.
    rewrite length_app_str in Hlen. cbn [String.length] in Hlen. rewrite take_line_whole by (done || unfold PROC_ACTIVITY_STAT_LINE_MAX; lia).
    rewrite andb_false_r. cbn [andb]. by destruct a.
Qed.

Section Now.
Context {W : Type} `{OS W}.

(** The calls of the kernel that precede the reading of the file. *)
Definition sampled_at (p : Z) (w : W) (page_size ticks sec nsec : Z) (text : string) (w' : W) : Prop :=
  exists w1 w2 w3, os_pagesize w = (page_size, w1) /\ os_clk_tck w1 = (ticks, w2) /\ os_clock w2 = (Some (sec, nsec), w3) /\
    os_fopen (proc_path p "/stat") w3 = (Some (mk_stream text false), w').

(** [proc_activity_sample_now] reads back what [/proc/<pid>/stat] prints,
    stamped with the clock: the name up to 63 bytes, whatever parentheses and
    spaces it holds, the state and the counters at their documented positions. *)
Theorem sample_now_roundtrip p comm state vals page_size ticks sec nsec o (w w' : W) :
  proper_pid p -> stat_ok comm state vals -> strlen (stat_line p comm state vals) < PROC_ACTIVITY_STAT_LINE_MAX ->
  0 < page_size -> 0 < ticks -> sampled_at p w page_size ticks sec nsec (stat_line p comm state vals) w' ->
  proc_activity_sample_now p (Some o) w =
    (PROC_ACTIVITY_OK, Some (stat_sample p comm state vals page_size ticks (u64 (sec * PROC_ACTIVITY_NSEC_PER_SEC + nsec))), w').
Proof.
  intros Hp Hok Hlen Hps Ht (w1 & w2 & w3 & E1 & E2 & E3 & E4). unfold proc_activity_sample_now.
  pose proof (proc_path_fits p "/stat" Hp ltac:(unfold strlen; cbn; lia)) as Hfit. unfold proper_pid, proc_path in *.
  destruct (Z.leb_spec p 0); [lia|]. rewrite E1, E2. destruct (Z.leb_spec page_size 0), (Z.leb_spec ticks 0); try lia.
  cbn [orb]. unfold get_time_ns. rewrite E3. cbn [negb Z.eqb PROC_ACTIVITY_OK].
  destruct (Z.leb_spec 256 (strlen ("/proc/" +:+ dec p +:+ "/stat"))); [lia|]. rewrite E4.
  rewrite (fgets_stat p comm state vals Hok Hlen), parse_stat_line_ok by done. cbn [timestamp_ns set_field]. unfold u64_add, u64_mul.
  assert (En : u64 (u64 (u64 sec * PROC_ACTIVITY_NSEC_PER_SEC) + u64 nsec) = u64 (sec * PROC_ACTIVITY_NSEC_PER_SEC + nsec)).
  { unfold u64. by rewrite Z.mul_mod_idemp_l, <- Z.add_mod by lia. }
  by rewrite En.
Qed.
End Now.

Lemma parse_stat_line_codes line p ps ticks o :
  let '(rc, _) := parse_stat_line line p ps ticks o in rc = PROC_ACTIVITY_OK \/ rc = PROC_ACTIVITY_ERR_PARSE.
Proof.
   assert (Hloop : forall fuel q vals cap, (parse_values_loop fuel q vals cap).1 = PROC_ACTIVITY_OK \/
      (parse_values_loop fuel q vals cap).1 = PROC_ACTIVITY_ERR_PARSE).
    { induction fuel as [|fuel IH]; intros q vals cap; [by left|]. cbn [parse_values_loop]. destruct q as [|c q]; [by left|].
      destruct (Ascii.eqb c newline); [by left|]. destruct (_ <=? _); [by left|]. destruct (strtoll _) as [[[v []] r]|]; [by right|apply IH|by left]. }
    unfold parse_stat_line. destruct (str_index (c_str line) "("), (str_rindex (c_str line) ")"); auto. destruct (_ <=? _)%nat; auto.
    destruct (skip_spaces _) as [|c q]; auto. destruct (Ascii.eqb c newline); auto. unfold parse_stat_values.
    specialize (Hloop (S (String.length (skip_spaces q))) (skip_spaces q) [] 21). destruct (parse_values_loop _ _ _ _) as [rc vals]. cbn [fst] in Hloop.
    destruct (negb _); auto. destruct (_ <? _); auto. destruct (store_values _ _); auto.
Qed.

(** [proc_activity_sample_now] does not close the file it has read a line
    from: a call that succeeds, or finds the line malformed, leaves one stream
    more open than it found; every other call leaves none. *)
Theorem sample_now_leaks {W} `{Resources W} p out (w : W) :
  let '(rc, _, w') := proc_activity_sample_now p out w in
  acquired w w' (if (rc =? PROC_ACTIVITY_OK) || (rc =? PROC_ACTIVITY_ERR_PARSE) then 1 else 0) 0.
Proof.
  unfold proc_activity_sample_now. destruct out as [o|]; [|apply acquired_refl]. destruct (p <=? 0); [apply acquired_refl|].
  pose proof (acquired_pagesize w) as A1. destruct (os_pagesize w) as [ps w1]. pose proof (acquired_clk_tck w1) as A2. destruct (os_clk_tck w1) as [ticks w2].
  cbn [snd] in *. destruct (_ || _); [unfold acquired in *; cbn; lia|]. unfold get_time_ns.
  pose proof (acquired_clock w2) as A3. destruct (os_clock w2) as [[[sec nsec]|] w3]; cbn [snd] in *; [|unfold acquired in *; cbn; lia].
  cbn [negb Z.eqb PROC_ACTIVITY_OK]. destruct (256 <=? _); [unfold acquired in *; cbn; lia|].
  pose proof (acquired_fopen ("/proc/" +:+ dec p +:+ "/stat") w3) as A4. destruct (os_fopen _ w3) as [[f|] w4]; cbn [fst snd] in *; [|unfold acquired in *; cbn; lia].
  destruct (fgets _ f) as [[line|] f'].
  - match goal with |- context [parse_stat_line line p ps ticks ?x] => pose proof (parse_stat_line_codes line p ps ticks x) as Hparse; destruct (parse_stat_line line p ps ticks x) as [rc q] end.
    destruct Hparse as [-> | ->]; unfold acquired in *; cbn; lia.
  - pose proof (acquired_fclose w4) as A5. destruct (os_fclose w4) as [b w5]. cbn [snd] in *. unfold acquired in *. cbn. lia.
Qed.

(** ** Examples *)

(** A name that looks like the end of the field. *)
Definition demo_comm : string := "a) R (b".
Definition demo_vals : list Z := [1; 2; 2; 0; -1; 4194304; 1500; 0; 3; 0; 70; 30; 0; 0; 20; 0; 4; 0; 99000; 1048576; 512; 18446].

Lemma demo_stat_ok : stat_ok demo_comm "S" demo_vals.
Proof.
  split; [split; reflexivity|repeat split; discriminate| |cbn; lia|cbn; lia].
  apply Forall_forall. intros v Hv. unfold long_long, LLONG_MIN, LLONG_MAX.
  assert (Hb : forallb (fun v => (-9223372036854775808 <=? v) && (v <=? 9223372036854775807)) demo_vals = true) by (vm_compute; reflexivity).
  rewrite forallb_forall in Hb. specialize (Hb v ltac:(by apply list_elem_of_In)). bool_hyps. lia.
Qed.

Definition demo_stat_world : sim :=
  (sim_empty <| sim_clock := 7000000005 |>) <| sim_files := [(proc_path 42 "/stat", stat_line 42 demo_comm "S" demo_vals)] |>.

Lemma sample_now_roundtrip_witness :
  exists w', proc_activity_sample_now 42 (Some proc_activity_sample_zero) demo_stat_world =
    (PROC_ACTIVITY_OK, Some (stat_sample 42 demo_comm "S" demo_vals 4096 100 7000000005), w') /\ sim_streams w' = 1.
Proof.
  eexists. split; [|shelve].
  refine (sample_now_roundtrip 42 demo_comm "S" demo_vals 4096 100 7 5 proc_activity_sample_zero demo_stat_world _
    ltac:(unfold proper_pid; lia) demo_stat_ok ltac:(vm_compute; reflexivity) ltac:(lia) ltac:(lia) _).
  do 3 eexists. split; [reflexivity|]. split; [reflexivity|]. split; [reflexivity|].
  cbn [os_fopen sim_os sim_files set_field demo_stat_world sim_empty assoc]. rewrite String.eqb_refl. reflexivity.
  Unshelve. reflexivity.
Defined.

Definition demo_config : proc_activity_config :=
  mk_proc_activity_config (dlit 2 100) (dlit 100 1) 256 (dlit 8 1) (dlit 25 100) (dlit 1000 1) (dlit 256 1).
Definition demo_old : proc_activity_sample := stat_sample 42 demo_comm "S" demo_vals 4096 100 7000000005.
Definition demo_new : proc_activity_sample :=
  (demo_old <| timestamp_ns := 8000000005 |>) <| utime_ticks := 90 |>.

Lemma demo_samples_ok : sample_ok demo_old /\ sample_ok demo_new.
Proof. split; split; cbn; unfold in_u64, LLONG_MAX; try lia; vm_compute; split; congruence. Qed.

Lemma compute_delta_outcome_witness :
  exists d, proc_activity_compute_delta (Some demo_old) (Some demo_new) (Some demo_config) (Some proc_activity_delta_zero) = (PROC_ACTIVITY_OK, Some d) /\
    scores_unit d /\ d_active d = true.
Proof.
  destruct demo_samples_ok as [Ho Hn].
  assert (Hact : match snd (proc_activity_compute_delta (Some demo_old) (Some demo_new) (Some demo_config) (Some proc_activity_delta_zero)) with
    Some d => d_active d = true | None => False end) by (vm_compute; reflexivity).
  destruct (compute_delta_outcome demo_old demo_new demo_config proc_activity_delta_zero Ho Hn default_config_ok) as (d & E & Hok & _ & _ & Hs & _).
  assert (Hrc : first_obstacle (obstacles demo_old demo_new) = PROC_ACTIVITY_OK) by (vm_compute; reflexivity).
  rewrite Hrc in E. rewrite E in Hact. exists d. split; [exact E|]. split; [|exact Hact]. apply Hs, Hok, Hrc.
Defined.
