(* ===== verification/BankProfile.v ===== *)
(** * Bank profiles ([bank_profile.h], [bank_profile.c])

    A profile is a histogram of the DRAM bank classes of the pages of a process,
    sampled from its memory map, with counters of what was seen and skipped. *)
From S2P Require Import Prelude Float64 CString Scan Os Calibration DramMapping AddrTranslate.
From Stdlib Require Import Ascii String.
Local Open Scope Z_scope.

(** ** Data *)

Definition BANK_PROFILE_MAX_ENTRIES : Z := 4096.
Definition BANK_PROFILE_ERROR_MESSAGE_MAX : Z := 256.

Definition BANK_PROFILE_OK : Z := 0.
Definition BANK_PROFILE_ERR_INVALID_ARG : Z := -1.
Definition BANK_PROFILE_ERR_NOT_READY : Z := -2.
Definition BANK_PROFILE_ERR_PAGE_SIZE : Z := -3.
Definition BANK_PROFILE_ERR_OPEN_MAPS : Z := -4.
Definition BANK_PROFILE_ERR_ADDR_OPEN : Z := -5.
Definition BANK_PROFILE_ERR_TOO_MANY_CLASSES : Z := -6.
Definition BANK_PROFILE_ERR_NO_SAMPLES : Z := -7.
Definition BANK_PROFILE_ERR_IO : Z := -8.

Record bank_profile_config := mk_bank_profile_config {
  max_pages_to_sample : Z;
  sample_stride_pages : Z;
  include_anonymous : bool;
  include_heap : bool;
  include_stack : bool;
  include_file_backed : bool;
  include_readonly : bool
}.

#[export] Instance bank_profile_config_settable : Settable bank_profile_config :=
  fun c => mk_bank_profile_config (max_pages_to_sample c) (sample_stride_pages c) (include_anonymous c)
    (include_heap c) (include_stack c) (include_file_backed c) (include_readonly c).

Record bank_profile_entry := mk_bank_profile_entry {
  bank_class : Z;
  page_count : Z;
  byte_count : Z
}.

(** [entries] holds the first [entry_count] elements of the array: the code
    reads and writes no other. *)
Record bank_profile := mk_bank_profile {
  bp_pid : Z;
  bp_page_size : Z;
  regions_seen : Z;
  regions_selected : Z;
  pages_seen : Z;
  pages_considered : Z;
  pages_sampled : Z;
  pages_translated : Z;
  pages_skipped_not_present : Z;
  pages_skipped_swapped : Z;
  pages_skipped_pfn_unavailable : Z;
  pages_skipped_translation_error : Z;
  pages_skipped_mapping_error : Z;
  entries : list bank_profile_entry;
  dominant_bank_class : Z;
  dominant_page_count : Z;
  dominant_fraction : double;
  bp_error_message : string
}.

#[export] Instance bank_profile_settable : Settable bank_profile :=
  fun p => mk_bank_profile (bp_pid p) (bp_page_size p) (regions_seen p) (regions_selected p) (pages_seen p)
    (pages_considered p) (pages_sampled p) (pages_translated p) (pages_skipped_not_present p)
    (pages_skipped_swapped p) (pages_skipped_pfn_unavailable p) (pages_skipped_translation_error p)
    (pages_skipped_mapping_error p) (entries p) (dominant_bank_class p) (dominant_page_count p)
    (dominant_fraction p) (bp_error_message p).

Definition entry_count (p : bank_profile) : Z := Z.of_nat (List.length (entries p)).

Record maps_region := mk_maps_region {
  rg_start : Z;
  rg_end : Z;
  perms : string;
  pathname : string
}.

(** ** The memory map *)

(** A pointer to a configuration: [None] is NULL. *)
Definition bank_profile_config_default (cfg : option bank_profile_config) : option bank_profile_config :=
  match cfg with
  | None => None
  | Some _ => Some (mk_bank_profile_config 4096 16 true true true false false)
  end.

Definition bank_profile_zero : bank_profile := mk_bank_profile 0 0 0 0 0 0 0 0 0 0 0 0 0 [] 0 0 dzero "".

Definition bank_profile_reset (profile : option bank_profile) : option bank_profile :=
  match profile with None => None | Some _ => Some bank_profile_zero end.

Definition profile_set_error (profile : bank_profile) (message : string) : bank_profile :=
  profile <| bp_error_message := snprintf BANK_PROFILE_ERROR_MESSAGE_MAX (c_str message) |>.

Definition is_space_or_newline (c : ascii) : bool :=
  Ascii.eqb c " " || Ascii.eqb c (ascii_of_nat 9) || Ascii.eqb c newline || Ascii.eqb c carriage_return.

(** The length the loop ends with. *)
Fixpoint trim_len (len : nat) (s : string) : nat :=
  match len with
  | O => O
  | S n => if is_space_or_newline (char_at s n) then trim_len n s else len
  end.

Definition trim_trailing_space (s : string) : string := str_take (trim_len (String.length s) s) s.

Fixpoint skip_leading_space (s : string) : string :=
  match s with
  | String c s' => if Ascii.eqb c " " || Ascii.eqb c (ascii_of_nat 9) then skip_leading_space s' else s
  | EmptyString => s
  end.

(** [None] is the return value -1: fewer than six conversions or an empty range. *)
Definition parse_maps_line (line : string) : option maps_region :=
  '(start, s) ← scan_ull 16 (c_str line);
  s ← scan_lit "-" s;
  '(last, s) ← scan_ull 16 s;
  '(perms, s) ← scan_str 7 (skip_ws s);
  '(offset, s) ← scan_ull 16 (skip_ws s);
  '(dev, s) ← scan_str 31 (skip_ws s);
  '(inode, s) ← scan_ull 10 (skip_ws s);
  let rest := skip_ws s in
  if last <=? start then None
  else
    let path := skip_leading_space rest in
    Some (mk_maps_region start last perms (trim_trailing_space (snprintf 256 path))).

Definition path_is_empty (path : string) : bool := Ascii.eqb (char_at path 0) NUL.
Definition path_is_heap (path : string) : bool := str_eq path "[heap]".
Definition path_is_stack (path : string) : bool := strn_eq path "[stack" 6.
Definition path_is_bracketed_special (path : string) : bool := Ascii.eqb (char_at path 0) "[".
Definition path_is_file_backed (path : string) : bool :=
  negb (Ascii.eqb (char_at path 0) NUL) && negb (Ascii.eqb (char_at path 0) "[").

Definition region_is_selected (region : maps_region) (cfg : bank_profile_config) : bool :=
  if negb (Ascii.eqb (char_at (perms region) 0) "r") then false
  else if negb (include_readonly cfg) && negb (Ascii.eqb (char_at (perms region) 1) "w") then false
  else
    let is_heap := path_is_heap (pathname region) in
    let is_stack := path_is_stack (pathname region) in
    let is_anon := path_is_empty (pathname region) in
    let is_file := path_is_file_backed (pathname region) in
    if is_heap then include_heap cfg
    else if is_stack then include_stack cfg
    else if is_anon then include_anonymous cfg
    else if is_file then include_file_backed cfg
    else if path_is_bracketed_special (pathname region) then false
    else false.

(** ** The histogram *)

Definition bank_profile_merge_counters (dst src : bank_profile) : bank_profile :=
  dst <| regions_seen ::= fun x => u64_add x (regions_seen src) |>
      <| regions_selected ::= fun x => u64_add x (regions_selected src) |>
      <| pages_seen ::= fun x => u64_add x (pages_seen src) |>
      <| pages_considered ::= fun x => u64_add x (pages_considered src) |>
      <| pages_sampled ::= fun x => u64_add x (pages_sampled src) |>
      <| pages_translated ::= fun x => u64_add x (pages_translated src) |>
      <| pages_skipped_not_present ::= fun x => u64_add x (pages_skipped_not_present src) |>
      <| pages_skipped_swapped ::= fun x => u64_add x (pages_skipped_swapped src) |>
      <| pages_skipped_pfn_unavailable ::= fun x => u64_add x (pages_skipped_pfn_unavailable src) |>
      <| pages_skipped_translation_error ::= fun x => u64_add x (pages_skipped_translation_error src) |>
      <| pages_skipped_mapping_error ::= fun x => u64_add x (pages_skipped_mapping_error src) |>.

(** The loop over the entries: [None] when no entry has the class. *)
Fixpoint add_to_entry (es : list bank_profile_entry) (class pages bytes : Z) : option (list bank_profile_entry) :=
  match es with
  | [] => None
  | e :: es =>
      if bank_class e =? class
      then Some (mk_bank_profile_entry (bank_class e) (u64_add (page_count e) pages) (u64_add (byte_count e) bytes) :: es)
      else match add_to_entry es class pages bytes with
           | Some es => Some (e :: es)
           | None => None
           end
  end.

Definition profile_add_bank_class_count (profile : option bank_profile) (class pages bytes : Z)
  : Z * option bank_profile :=
  match profile with
  | None => (BANK_PROFILE_ERR_INVALID_ARG, None)
  | Some p =>
      if (pages =? 0) && (bytes =? 0) then (BANK_PROFILE_OK, Some p)
      else
        match add_to_entry (entries p) class pages bytes with
        | Some es => (BANK_PROFILE_OK, Some (p <| entries := es |>))
        | None =>
            if BANK_PROFILE_MAX_ENTRIES <=? entry_count p
            then (BANK_PROFILE_ERR_TOO_MANY_CLASSES, Some (profile_set_error p "too many unique bank classes"))
            else (BANK_PROFILE_OK, Some (p <| entries ::= fun es => es ++ [mk_bank_profile_entry class pages bytes] |>))
        end
  end.

Definition profile_add_bank_class (profile : option bank_profile) (class bytes : Z) : Z * option bank_profile :=
  profile_add_bank_class_count profile class 1 bytes.

(** The loop: [total], [max_count] and [max_class]. *)
Fixpoint finalize_loop (es : list bank_profile_entry) (total max_count max_class : Z) : Z * Z * Z :=
  match es with
  | [] => (total, max_count, max_class)
  | e :: es =>
      let total := u64_add total (page_count e) in
      if max_count <? page_count e then finalize_loop es total (page_count e) (bank_class e)
      else finalize_loop es total max_count max_class
  end.

Definition profile_finalize (p : bank_profile) : bank_profile :=
  let '(total, max_count, max_class) := finalize_loop (entries p) 0 0 0 in
  p <| dominant_bank_class := max_class |> <| dominant_page_count := max_count |>
    <| dominant_fraction := if 0 <? total then ddiv (Z_to_double max_count) (Z_to_double total) else dzero |>.

Definition count_translation_skip (p : bank_profile) (rc : Z) : bank_profile :=
  if rc =? ADDR_TRANSLATE_ERR_NOT_PRESENT then p <| pages_skipped_not_present ::= u64_inc |>
  else if rc =? ADDR_TRANSLATE_ERR_SWAPPED then p <| pages_skipped_swapped ::= u64_inc |>
  else if rc =? ADDR_TRANSLATE_ERR_PFN_UNAVAILABLE then p <| pages_skipped_pfn_unavailable ::= u64_inc |>
  else p <| pages_skipped_translation_error ::= u64_inc |>.

Fixpoint count_loop (es : list bank_profile_entry) (class : Z) : Z :=
  match es with
  | [] => 0
  | e :: es => if bank_class e =? class then page_count e else count_loop es class
  end.

Definition bank_profile_count_for_class (profile : option bank_profile) (class : Z) : Z :=
  match profile with None => 0 | Some p => count_loop (entries p) class end.

(** ** Sampling *)

Section Sample.
Context {W : Type} `{OS W}.

Definition limit_reached (cfg : bank_profile_config) (p : bank_profile) : bool :=
  (0 <? max_pages_to_sample cfg) && (max_pages_to_sample cfg <=? pages_sampled p).

(** The body of the loop for one page.  The variable [tr] is uninitialised in
    the source and written before it is read; [inl] continues the loop, [inr]
    returns. *)
Definition sample_page (va : Z) (ctx : addr_translate_ctx) (mapping : dram_mapping) (page_size : Z) (profile : bank_profile)
    (w : W) : (bank_profile + Z * bank_profile) * W :=
  let profile := profile <| pages_considered ::= u64_inc |> in
  let profile := profile <| pages_sampled ::= u64_inc |> in
  let '(rc, tr, w) := addr_translate_va_to_pa (Some ctx) va (Some addr_translation_zero) w in
  if negb (rc =? ADDR_TRANSLATE_OK) then (inl (count_translation_skip profile rc), w)
  else
    let profile := profile <| pages_translated ::= u64_inc |> in
    let pa := match tr with Some tr => physical_address tr | None => 0 end in
    let '(rc, class) := dram_mapping_bank_class (Some mapping) pa (Some 0) in
    if negb (rc =? DRAM_MAPPING_OK) then (inl (profile <| pages_skipped_mapping_error ::= u64_inc |>), w)
    else
      let '(rc, added) := profile_add_bank_class (Some profile) (default 0 class) page_size in
      let profile := default profile added in
      if negb (rc =? BANK_PROFILE_OK) then (inr (rc, profile), w) else (inl profile, w).

Fixpoint sample_loop (fuel : nat) (region : maps_region) (ctx : addr_translate_ctx) (mapping : dram_mapping)
    (cfg : bank_profile_config) (page_size region_pages stride page_idx : Z) (profile : bank_profile) (w : W)
  : Z * bank_profile * W :=
  match fuel with
  | O => (BANK_PROFILE_OK, profile, w)
  | S fuel =>
      if negb (page_idx <? region_pages) then (BANK_PROFILE_OK, profile, w)
      else if limit_reached cfg profile then (BANK_PROFILE_OK, profile, w)
      else
        let va := u64_add (rg_start region) (u64_mul page_idx page_size) in
        match sample_page va ctx mapping page_size profile w with
        | (inr (rc, profile), w) => (rc, profile, w)
        | (inl profile, w) =>
            sample_loop fuel region ctx mapping cfg page_size region_pages stride (u64_add page_idx stride) profile w
        end
  end.

(** The number of indices [0, stride, 2 * stride, ...] below [region_pages]. *)
Definition sample_count (region_pages stride : Z) : nat := Z.to_nat ((region_pages + stride - 1) / stride).

Definition sample_region (region : maps_region) (ctx : addr_translate_ctx) (mapping : dram_mapping)
    (cfg : bank_profile_config) (profile : bank_profile) (w : W) : Z * bank_profile * W :=
  let page_size := bp_page_size profile in
  if page_size =? 0 then (BANK_PROFILE_ERR_PAGE_SIZE, profile, w)
  else
    let region_pages := u64_sub (rg_end region) (rg_start region) / page_size in
    let profile := profile <| pages_seen ::= fun x => u64_add x region_pages |> in
    let stride := sample_stride_pages cfg in
    let stride := if stride =? 0 then 1 else stride in
    sample_loop (sample_count region_pages stride) region ctx mapping cfg page_size region_pages stride 0 profile w.

(** The loop over the lines of the map.  [inl] leaves the loop with what
    [ferror] then says of the stream; [inr] is an early return, after the page
    map and the stream have been closed. *)
Fixpoint maps_loop (fuel : nat) (maps : stream) (ctx : addr_translate_ctx) (mapping : dram_mapping)
    (cfg : bank_profile_config) (out : bank_profile) (w : W) : (bool * bank_profile + Z * bank_profile) * W :=
  match fuel with
  | O => (inl (false, out), w)
  | S fuel =>
      match fgets 1024 maps with
      | (None, maps) => (inl (ferror maps, out), w)
      | (Some line, maps) =>
          match parse_maps_line line with
          | None => maps_loop fuel maps ctx mapping cfg out w
          | Some region =>
              let out := out <| regions_seen ::= u64_inc |> in
              if negb (region_is_selected region cfg) then maps_loop fuel maps ctx mapping cfg out w
              else
                let out := out <| regions_selected ::= u64_inc |> in
                let '(rc, out, w) := sample_region region ctx mapping cfg out w in
                if negb (rc =? BANK_PROFILE_OK) then
                  let '(_, w) := addr_translate_close (Some ctx) w in
                  let '(_, w) := os_fclose w in
                  (inr (rc, out), w)
                else if limit_reached cfg out then (inl (false, out), w)
                else maps_loop fuel maps ctx mapping cfg out w
          end
      end
  end.

(** What follows the loop. *)
Definition build_finish (read_failed : bool) (ctx : addr_translate_ctx) (out : bank_profile) (w : W) : Z * bank_profile * W :=
  if read_failed then
    let '(_, w) := addr_translate_close (Some ctx) w in
    let '(_, w) := os_fclose w in
    (BANK_PROFILE_ERR_IO, profile_set_error out "error while reading /proc/[pid]/maps", w)
  else
    let '(_, w) := addr_translate_close (Some ctx) w in
    let '(_, w) := os_fclose w in
    let out := profile_finalize out in
    if (pages_translated out =? 0) || (entry_count out =? 0)
    then (BANK_PROFILE_ERR_NO_SAMPLES, profile_set_error out "no pages were translated into bank classes", w)
    else (BANK_PROFILE_OK, out, w).

(** [cfg]: [None] is NULL; the local copy the code works with. *)
Definition effective_config (cfg : option bank_profile_config) : bank_profile_config :=
  match cfg with
  | None => mk_bank_profile_config 4096 16 true true true false false
  | Some c => if sample_stride_pages c =? 0 then c <| sample_stride_pages := 1 |> else c
  end.

Definition bank_profile_build (p : Z) (mapping : option dram_mapping) (cfg : option bank_profile_config)
    (out : option bank_profile) (w : W) : Z * option bank_profile * W :=
  match mapping, out with
  | Some m, Some o =>
      if p <=? 0 then (BANK_PROFILE_ERR_INVALID_ARG, Some o, w)
      else if negb (dram_mapping_is_ready (Some m)) then (BANK_PROFILE_ERR_NOT_READY, Some o, w)
      else
        let out := bank_profile_zero <| bp_pid := p |> in
        let cfg := effective_config cfg in
        let '(page_size_long, w) := os_pagesize w in
        if page_size_long <=? 0 then (BANK_PROFILE_ERR_PAGE_SIZE, Some (profile_set_error out "failed to get page size"), w)
        else
          let out := out <| bp_page_size := u64 page_size_long |> in
          let maps_path := "/proc/" +:+ dec p +:+ "/maps" in
          if 64 <=? strlen maps_path
          then (BANK_PROFILE_ERR_INVALID_ARG, Some (profile_set_error out "failed to build maps path"), w)
          else
            let '(maps, w) := os_fopen maps_path w in
            match maps with
            | None => (BANK_PROFILE_ERR_OPEN_MAPS, Some (profile_set_error out "failed to open /proc/[pid]/maps"), w)
            | Some maps =>
                let ctx := addr_translate_ctx_reset in
                let '(rc, ctx, w) := addr_translate_open (Some ctx) p w in
                if negb (rc =? ADDR_TRANSLATE_OK) then
                  let '(_, w) := os_fclose w in
                  (BANK_PROFILE_ERR_ADDR_OPEN, Some (profile_set_error out (addr_translate_strerror rc)), w)
                else
                  let ctx := default addr_translate_ctx_reset ctx in
                  let '(r, w) := maps_loop (S (String.length (st_data maps))) maps ctx m cfg out w in
                  match r with
                  | inr (rc, out) => (rc, Some out, w)
                  | inl (read_failed, out) => let '(rc, out, w) := build_finish read_failed ctx out w in (rc, Some out, w)
                  end
            end
  | _, _ => (BANK_PROFILE_ERR_INVALID_ARG, out, w)
  end.
End Sample.

(** ** Merging and comparing *)

Fixpoint merge_loop (es : list bank_profile_entry) (dst : bank_profile) : Z * bank_profile :=
  match es with
  | [] => (BANK_PROFILE_OK, dst)
  | e :: es =>
      match profile_add_bank_class_count (Some dst) (bank_class e) (page_count e) (byte_count e) with
      | (rc, added) =>
          let dst := default dst added in
          if negb (rc =? BANK_PROFILE_OK) then (rc, dst) else merge_loop es dst
      end
  end.

(** [dst] and [src] are distinct objects. *)
Definition bank_profile_merge (dst src : option bank_profile) : Z * option bank_profile :=
  match dst, src with
  | Some d, Some s =>
      if entry_count s =? 0 then (BANK_PROFILE_OK, Some d)
      else if bp_page_size s =? 0
      then (BANK_PROFILE_ERR_PAGE_SIZE, Some (profile_set_error d "source profile has invalid page size"))
      else if negb (bp_page_size d =? 0) && negb (bp_page_size d =? bp_page_size s)
      then (BANK_PROFILE_ERR_PAGE_SIZE, Some (profile_set_error d "cannot merge profiles with different page sizes"))
      else
        let d := if bp_page_size d =? 0 then d <| bp_page_size := bp_page_size s |> else d in
        let d := d <| bp_pid := 0 |> in
        let '(rc, d) := merge_loop (entries s) d in
        if negb (rc =? BANK_PROFILE_OK) then (rc, Some d)
        else (BANK_PROFILE_OK, Some (profile_finalize (bank_profile_merge_counters d s)))
  | _, _ => (BANK_PROFILE_ERR_INVALID_ARG, dst)
  end.

(** The loop over the entries of [a]: [intersection] and [union_count]. *)
Fixpoint overlap_loop (es : list bank_profile_entry) (b : bank_profile) (intersection union_count : Z) : Z * Z :=
  match es with
  | [] => (intersection, union_count)
  | e :: es =>
      let count_a := page_count e in
      let count_b := bank_profile_count_for_class (Some b) (bank_class e) in
      overlap_loop es b (u64_add intersection (if count_a <? count_b then count_a else count_b))
        (u64_add union_count (if count_b <? count_a then count_a else count_b))
  end.

(** The loop over the entries of [b]. *)
Fixpoint overlap_rest (es : list bank_profile_entry) (a : bank_profile) (union_count : Z) : Z :=
  match es with
  | [] => union_count
  | e :: es =>
      let exists_in_a := existsb (fun e' => bank_class e' =? bank_class e) (entries a) in
      overlap_rest es a (if exists_in_a then union_count else u64_add union_count (page_count e))
  end.

(** [score_out] and [common_pages_out]: [None] is NULL. *)
Definition bank_profile_overlap_score (a b : option bank_profile) (score_out : option double) (common_pages_out : option Z)
  : Z * option double * option Z :=
  match a, b, score_out with
  | Some a, Some b, Some _ =>
      if (entry_count a =? 0) || (entry_count b =? 0) then (BANK_PROFILE_ERR_INVALID_ARG, score_out, common_pages_out)
      else
        let '(intersection, union_count) := overlap_loop (entries a) b 0 0 in
        let union_count := overlap_rest (entries b) a union_count in
        if union_count =? 0 then (BANK_PROFILE_ERR_NO_SAMPLES, score_out, common_pages_out)
        else (BANK_PROFILE_OK, Some (ddiv (Z_to_double intersection) (Z_to_double union_count)),
              match common_pages_out with None => None | Some _ => Some intersection end)
  | _, _, _ => (BANK_PROFILE_ERR_INVALID_ARG, score_out, common_pages_out)
  end.

(** ** Reports *)

Definition nl : string := String newline EmptyString.

Definition print_entry (e : bank_profile_entry) : string :=
  "0x" +:+ hex_pad 10 (bank_class e) +:+ "  " +:+ pad_left " " 12 (dec (page_count e)) +:+ "  "
    +:+ pad_left " " 12 (dec (byte_count e)) +:+ nl.

(** The text written to the stream; [stream_ok] is [stream != NULL]. *)
Definition bank_profile_print (stream_ok : bool) (profile : option bank_profile) (max_entries : Z) : string :=
  match profile with
  | Some p =>
      if negb stream_ok then EmptyString else
      let limit := if (max_entries =? 0) || (entry_count p <? max_entries) then entry_count p else max_entries in
      "pid                 : " +:+ dec (bp_pid p) +:+ nl +:+
      "page_size           : " +:+ dec (bp_page_size p) +:+ nl +:+
      "regions seen        : " +:+ dec (regions_seen p) +:+ nl +:+
      "regions selected    : " +:+ dec (regions_selected p) +:+ nl +:+
      "pages seen          : " +:+ dec (pages_seen p) +:+ nl +:+
      "pages considered    : " +:+ dec (pages_considered p) +:+ nl +:+
      "pages sampled       : " +:+ dec (pages_sampled p) +:+ nl +:+
      "pages translated    : " +:+ dec (pages_translated p) +:+ nl +:+
      "not present         : " +:+ dec (pages_skipped_not_present p) +:+ nl +:+
      "swapped             : " +:+ dec (pages_skipped_swapped p) +:+ nl +:+
      "pfn unavailable     : " +:+ dec (pages_skipped_pfn_unavailable p) +:+ nl +:+
      "translation errors  : " +:+ dec (pages_skipped_translation_error p) +:+ nl +:+
      "mapping errors      : " +:+ dec (pages_skipped_mapping_error p) +:+ nl +:+
      "unique bank classes : " +:+ dec (entry_count p) +:+ nl +:+
      "dominant class      : 0x" +:+ hex (dominant_bank_class p) +:+ nl +:+
      "dominant pages      : " +:+ dec (dominant_page_count p) +:+ nl +:+
      "dominant fraction   : " +:+ fmt_f 4 (dominant_fraction p) +:+ nl +:+
      nl +:+ pad_left " " 12 "bank_class" +:+ "  " +:+ pad_left " " 12 "pages" +:+ "  " +:+ pad_left " " 12 "bytes" +:+ nl +:+
      "------------" +:+ "  " +:+ "------------" +:+ "  " +:+ "------------" +:+ nl +:+
      fold_right (fun e text => print_entry e +:+ text)
        (if limit <? entry_count p then "... " +:+ dec (entry_count p - limit) +:+ " more entries omitted" +:+ nl else EmptyString)
        (take (Z.to_nat limit) (entries p))
  | None => EmptyString
  end.

Definition bank_profile_strerror (rc : Z) : string :=
  switch rc [
    (BANK_PROFILE_OK, "success");
    (BANK_PROFILE_ERR_INVALID_ARG, "invalid argument");
    (BANK_PROFILE_ERR_NOT_READY, "DRAM mapping is not ready");
    (BANK_PROFILE_ERR_PAGE_SIZE, "failed to determine page size");
    (BANK_PROFILE_ERR_OPEN_MAPS, "failed to open /proc/[pid]/maps");
    (BANK_PROFILE_ERR_ADDR_OPEN, "failed to open /proc/[pid]/pagemap");
    (BANK_PROFILE_ERR_TOO_MANY_CLASSES, "too many unique bank classes");
    (BANK_PROFILE_ERR_NO_SAMPLES, "no usable page samples");
    (BANK_PROFILE_ERR_IO, "I/O error")
  ]%string "unknown bank-profile error"%string.
