(* ===== verification/BankProfileSpec.v ===== *)
(** * Histograms of bank classes

    The abstract reading of a profile: a function from classes to page counts.
    Adding, merging, finalizing and comparing profiles are stated on it. *)
From S2P Require Import Prelude Float64 CString Scan Os Calibration DramMapping AddrTranslate BankProfile.
From Stdlib Require Import Ascii String.
Local Open Scope Z_scope.

(** ** Histograms *)

Definition classes (es : list bank_profile_entry) : list Z := map bank_class es.

(** The exact number of pages of the entries. *)
Definition total_pages (es : list bank_profile_entry) : Z := foldr (fun e n => page_count e + n) 0 es.

(** Distinct classes, each with at least one page and no counter wrapped. *)
Record entries_ok (es : list bank_profile_entry) : Prop := {
  eo_nodup : NoDup (classes es);
  eo_pos : Forall (fun e => 0 < page_count e) es;
  eo_total : total_pages es <= UINT64_MAX
}.

Lemma total_pages_nonneg es : Forall (fun e => 0 < page_count e) es -> 0 <= total_pages es.
Proof. induction 1 as [|e es He _ IH]; cbn [total_pages foldr]; [lia|]. fold (total_pages es). lia. Qed.

Lemma total_pages_app a b : total_pages (a ++ b) = total_pages a + total_pages b.
Proof. induction a as [|e a IH]; [done|]. cbn [app total_pages foldr]. fold (total_pages (a ++ b)) (total_pages a). lia. Qed.

Lemma count_loop_absent es c : c ∉ classes es -> count_loop es c = 0.
Proof.
  induction es as [|e es IH]; [done|]. cbn [classes map count_loop]. intros [Hne Hin]%not_elem_of_cons.
  destruct (Z.eqb_spec (bank_class e) c); [congruence|]. by apply IH.
Qed.

Lemma count_loop_elem es e : NoDup (classes es) -> e ∈ es -> count_loop es (bank_class e) = page_count e.
Proof.
  induction es as [|x es IH]; [intros _ He; by apply elem_of_nil in He|]. cbn [classes map count_loop].
  intros [Hx Hnd]%NoDup_cons [->|He]%elem_of_cons; [by rewrite Z.eqb_refl|].
  destruct (Z.eqb_spec (bank_class x) (bank_class e)) as [E|]; [|by apply IH].
  exfalso. apply Hx. rewrite E. by apply (list_elem_of_fmap_2 bank_class).
Qed.

Lemma count_loop_bound es c : Forall (fun e => 0 < page_count e) es -> 0 <= count_loop es c <= total_pages es.
Proof.
  induction 1 as [|e es He Hes IH]; cbn [count_loop total_pages foldr]; [lia|]. fold (total_pages es).
  pose proof (total_pages_nonneg es Hes). destruct (bank_class e =? c); lia.
Qed.

Lemma count_loop_pos es c : Forall (fun e => 0 < page_count e) es -> 0 < count_loop es c <-> c ∈ classes es.
Proof.
  induction 1 as [|e es He Hes IH]; cbn [count_loop classes map]; [rewrite elem_of_nil; lia|].
  rewrite elem_of_cons. destruct (Z.eqb_spec (bank_class e) c); [naive_solver lia|]. rewrite IH. naive_solver.
Qed.

(** ** Adding pages to a class *)

Lemma add_to_entry_none es c n b : add_to_entry es c n b = None <-> c ∉ classes es.
Proof.
  induction es as [|e es IH]; cbn [add_to_entry classes map]; [split; [intros _ H; by apply elem_of_nil in H|done]|].
  rewrite not_elem_of_cons. destruct (Z.eqb_spec (bank_class e) c) as [->|Hne]; [naive_solver|].
  destruct (add_to_entry es c n b); naive_solver.
Qed.

Lemma add_to_entry_spec es c n b es' : NoDup (classes es) -> 0 <= n -> total_pages es + n <= UINT64_MAX ->
  Forall (fun e => 0 < page_count e) es -> add_to_entry es c n b = Some es' ->
  classes es' = classes es /\ total_pages es' = total_pages es + n /\ Forall (fun e => 0 < page_count e) es' /\
  forall x, count_loop es' x = count_loop es x + (if x =? c then n else 0).
Proof.
  intros Hnd Hn Ht Hpos. revert es' Hnd Ht. induction Hpos as [|e es He Hes IH]; intros es' Hnd Ht; [done|].
  cbn [classes map] in Hnd. apply NoDup_cons in Hnd as [Hx Hnd].
  cbn [add_to_entry total_pages foldr] in *. fold (total_pages es) in *. pose proof (total_pages_nonneg es Hes).
  destruct (Z.eqb_spec (bank_class e) c) as [<-|Hne].
  - intros [= <-]. unfold u64_add. rewrite (u64_small (page_count e + n)) by (unfold in_u64, UINT64_MAX in *; lia).
    cbn [classes map total_pages foldr count_loop bank_class page_count]. fold (total_pages es).
    split; [done|]. split; [lia|]. split; [constructor; [cbn; lia|done]|].
    intros x. destruct (Z.eqb_spec (bank_class e) x) as [->|Hne]; [by rewrite Z.eqb_refl|].
    destruct (Z.eqb_spec x (bank_class e)); lia.
  - destruct (add_to_entry es c n b) as [es1|] eqn:E; [|done]. intros [= <-].
    destruct (IH es1 Hnd ltac:(lia) eq_refl) as (Hc & Ht1 & Hp & Hcount).
    cbn [classes map total_pages foldr count_loop]. fold (total_pages es1) (classes es1) (classes es). rewrite Hc.
    split; [done|]. split; [lia|]. split; [by constructor|]. intros x.
    destruct (Z.eqb_spec (bank_class e) x) as [<-|]; [|apply Hcount]. destruct (Z.eqb_spec (bank_class e) c); lia.
Qed.

(** Everything but the histogram and the message of a profile. *)
Definition same_counters (p q : bank_profile) : Prop :=
  p <| entries := [] |> <| bp_error_message := "" |> = q <| entries := [] |> <| bp_error_message := "" |>.

Lemma same_counters_eq p q : same_counters p q -> q = p <| entries := entries q |> <| bp_error_message := bp_error_message q |>.
Proof. destruct p, q. unfold same_counters. cbn. intros [=]. by subst. Qed.

Lemma add_class_count_spec p c n b : entries_ok (entries p) -> 0 < n -> total_pages (entries p) + n <= UINT64_MAX ->
  exists q, profile_add_bank_class_count (Some p) c n b =
    (if decide (c ∈ classes (entries p)) then BANK_PROFILE_OK
     else if BANK_PROFILE_MAX_ENTRIES <=? entry_count p then BANK_PROFILE_ERR_TOO_MANY_CLASSES else BANK_PROFILE_OK, Some q) /\
  same_counters p q /\
  if decide (c ∈ classes (entries p) \/ entry_count p < BANK_PROFILE_MAX_ENTRIES) then
    entries_ok (entries q) /\ total_pages (entries q) = total_pages (entries p) + n /\
    classes (entries q) = (if decide (c ∈ classes (entries p)) then classes (entries p) else classes (entries p) ++ [c]) /\
    forall x, count_loop (entries q) x = count_loop (entries p) x + (if x =? c then n else 0)
  else entries q = entries p.
Proof.
  intros [Hnd Hpos Ht] Hn Htn. unfold profile_add_bank_class_count.
  destruct (Z.eqb_spec n 0); [lia|]. cbn [andb].
  destruct (add_to_entry (entries p) c n b) as [es|] eqn:E.
  - assert (Hin : c ∈ classes (entries p)).
    { destruct (decide (c ∈ classes (entries p))) as [|Hno]; [done|]. apply (add_to_entry_none _ c n b) in Hno. congruence. }
    destruct (add_to_entry_spec _ _ _ _ _ Hnd (Z.lt_le_incl _ _ Hn) Htn Hpos E) as (Hc & Ht' & Hp' & Hcount).
    eexists. rewrite !(decide_True (P := c ∈ classes (entries p))) by done. split; [done|]. split; [done|].
    rewrite (decide_True (P := _ \/ _)) by auto. cbn [entries set_field].
    split; [split; [by rewrite Hc|done|lia]|]. done.
  - apply add_to_entry_none in E. rewrite (decide_False (P := c ∈ classes (entries p))) by done.
    destruct (Z.leb_spec BANK_PROFILE_MAX_ENTRIES (entry_count p)).
    + eexists. split; [done|]. split; [done|]. rewrite (decide_False (P := _ \/ _)) by (intros [?|?]; [done|lia]). done.
    + eexists. split; [done|]. split; [done|]. rewrite (decide_True (P := _ \/ _)) by auto. rewrite (decide_False (P := c ∈ classes (entries p))) by done. cbn [entries set_field].
      unfold classes. rewrite map_app, total_pages_app. cbn [map total_pages foldr page_count].
      split.
      { split; [|apply Forall_app; split; [done|by constructor]|rewrite total_pages_app; cbn; lia].
        unfold classes. rewrite map_app. apply NoDup_app. split; [done|]. split; [|apply NoDup_singleton].
        intros x Hx Hx'. apply list_elem_of_singleton in Hx'. cbn in Hx'. by subst x. }
      split; [lia|]. split; [done|].
      clear -E Hpos. intros x. induction (entries p) as [|e es IH]; cbn [app count_loop].
      * cbn [bank_class page_count]. rewrite (Z.eqb_sym c x). by destruct (x =? c).
      * cbn [classes map] in E. apply not_elem_of_cons in E as [Hne E]. apply Forall_cons in Hpos as [_ Hpos].
        destruct (Z.eqb_spec (bank_class e) x) as [<-|]; [|by apply IH].
        destruct (Z.eqb_spec (bank_class e) c); [congruence|lia].
Qed.

(** A property of entries that the addition preserves. *)
Lemma add_to_entry_forall (Q : bank_profile_entry -> Prop) es c n b es' : Forall Q es ->
  (forall e, Q e -> bank_class e = c -> Q (mk_bank_profile_entry c (u64_add (page_count e) n) (u64_add (byte_count e) b))) ->
  add_to_entry es c n b = Some es' -> Forall Q es'.
Proof.
  intros Hall Hq. revert es'. induction Hall as [|e es He Hes IH]; intros es' E; [done|]. cbn [add_to_entry] in E.
  destruct (Z.eqb_spec (bank_class e) c) as [Ec|_].
  - injection E as <-. rewrite Ec. constructor; [by apply Hq|done].
  - destruct (add_to_entry es c n b); [|done]. injection E as <-. constructor; [done|by apply IH].
Qed.

Lemma add_class_count_forall (Q : bank_profile_entry -> Prop) p c n b rc q : Forall Q (entries p) ->
  (forall e, Q e -> bank_class e = c -> Q (mk_bank_profile_entry c (u64_add (page_count e) n) (u64_add (byte_count e) b))) ->
  Q (mk_bank_profile_entry c n b) -> profile_add_bank_class_count (Some p) c n b = (rc, Some q) -> Forall Q (entries q).
Proof.
  intros Hall Hq Hnew E. unfold profile_add_bank_class_count in E.
  destruct ((n =? 0) && (b =? 0)); [by injection E as _ <-|].
  destruct (add_to_entry (entries p) c n b) as [es|] eqn:Ea; [injection E as _ <-; exact (add_to_entry_forall Q _ _ _ _ _ Hall Hq Ea)|].
  destruct (_ <=? _); injection E as _ <-; [done|]. cbn [entries set_field]. apply Forall_app. by repeat constructor.
Qed.

(** ** The dominant class *)

Record dominant_ok (p : bank_profile) : Prop := {
  do_max x : count_loop (entries p) x <= dominant_page_count p;
  do_class : entries p <> [] -> count_loop (entries p) (dominant_bank_class p) = dominant_page_count p;
  do_fraction : dominant_fraction p =
    if 0 <? total_pages (entries p) then ddiv (Z_to_double (dominant_page_count p)) (Z_to_double (total_pages (entries p))) else dzero;
  do_unit : unit_interval (dominant_fraction p)
}.

Lemma finalize_loop_spec es t m c : Forall (fun e => 0 < page_count e) es -> 0 <= t -> t + total_pages es <= UINT64_MAX ->
  exists m' c', finalize_loop es t m c = (t + total_pages es, m', c') /\ m <= m' /\
    Forall (fun e => page_count e <= m') es /\
    ((m' = m /\ c' = c) \/ exists e, e ∈ es /\ page_count e = m' /\ bank_class e = c').
Proof.
  intros Hpos. revert t m c. induction Hpos as [|e es He Hes IH]; intros t m c Ht Hmax; cbn [finalize_loop total_pages foldr] in *.
  { exists m, c. rewrite Z.add_0_r. split; [done|]. split; [lia|]. split; [constructor|]. by left. }
  fold (total_pages es) in *. pose proof (total_pages_nonneg es Hes).
  unfold u64_add. rewrite (u64_small (t + page_count e)) by (unfold in_u64, UINT64_MAX in *; lia).
  destruct (Z.ltb_spec m (page_count e)) as [Hlt|Hge].
  - destruct (IH (t + page_count e) (page_count e) (bank_class e)) as (m' & c' & -> & Hm & Hall & Hc); [lia|lia|].
    exists m', c'. rewrite Z.add_assoc. split; [done|]. split; [lia|]. split; [by constructor|]. right.
    destruct Hc as [[-> ->]|(x & Hx & Hp & Hcl)]; [exists e; split; [left|]; done|exists x; split; [by right|done]].
  - destruct (IH (t + page_count e) m c) as (m' & c' & -> & Hm & Hall & Hc); [lia|lia|].
    exists m', c'. rewrite Z.add_assoc. split; [done|]. split; [lia|]. split; [constructor; [lia|done]|].
    destruct Hc as [[-> ->]|(x & Hx & Hp & Hcl)]; [by left|]. right. exists x. split; [by right|done].
Qed.

Lemma profile_finalize_spec p : entries_ok (entries p) ->
  dominant_ok (profile_finalize p) /\ entries (profile_finalize p) = entries p.
Proof.
  intros [Hnd Hpos Ht]. unfold profile_finalize.
  destruct (finalize_loop_spec (entries p) 0 0 0 Hpos ltac:(lia) ltac:(lia)) as (m & c & -> & Hm & Hall & Hc).
  split; [|done]. rewrite Z.add_0_l in *.
  assert (Hmax : forall x, count_loop (entries p) x <= m).
  { intros x. destruct (decide (x ∈ classes (entries p))) as [Hx|Hx]; [|rewrite count_loop_absent by done; lia].
    apply list_elem_of_fmap in Hx as (e & -> & He). rewrite (count_loop_elem _ e Hnd He).
    rewrite Forall_forall in Hall. by apply Hall. }
  assert (Hcl : entries p <> [] -> count_loop (entries p) c = m).
  { destruct Hc as [[-> ->]|(e & He & <- & <-)]; [|intros _; by apply count_loop_elem].
    intros Hne. destruct (entries p) as [|e es]; [done|]. apply Forall_cons in Hall as [? _]. apply Forall_cons in Hpos as [? _]. lia. }
  assert (Hmt : m <= total_pages (entries p)).
  { pose proof (total_pages_nonneg _ Hpos). destruct Hc as [[-> _]|(e & He & <- & <-)]; [lia|].
    rewrite <- (count_loop_elem _ e Hnd He). apply count_loop_bound, Hpos. }
  split; cbn [entries dominant_page_count dominant_bank_class dominant_fraction set_field]; [done|done|done|].
  destruct (Z.ltb_spec 0 (total_pages (entries p))); [|split; [by split|done]]. apply ratio_unit; unfold UINT64_MAX in *; lia.
Qed.

(** ** Merging *)

(** The classes of [es] that [cs] lacks. *)
Definition new_classes (cs : list Z) (es : list bank_profile_entry) : list Z := filter (fun c => c ∉ cs) (classes es).

Lemma new_classes_snoc cs c es : c ∉ classes es -> new_classes (cs ++ [c]) es = new_classes cs es.
Proof.
  unfold new_classes, classes. induction es as [|e es IH]; [done|]. cbn [map]. intros [Hne Hin]%not_elem_of_cons.
  rewrite !filter_cons, IH by done. destruct (decide (bank_class e ∉ cs)) as [Hx|Hx], (decide (bank_class e ∉ cs ++ [c])) as [Hy|Hy]; try done.
  - exfalso. apply Hy. rewrite not_elem_of_app, list_elem_of_singleton. naive_solver.
  - exfalso. apply Hx. intros Hz. apply Hy, elem_of_app. by left.
Qed.

Lemma merge_loop_spec es d : entries_ok (entries d) -> entry_count d <= BANK_PROFILE_MAX_ENTRIES ->
  NoDup (classes es) -> Forall (fun e => 0 < page_count e) es -> total_pages (entries d) + total_pages es <= UINT64_MAX ->
  exists d', merge_loop es d =
    (if entry_count d + Z.of_nat (List.length (new_classes (classes (entries d)) es)) <=? BANK_PROFILE_MAX_ENTRIES
     then BANK_PROFILE_OK else BANK_PROFILE_ERR_TOO_MANY_CLASSES, d') /\
  same_counters d d' /\ entries_ok (entries d') /\ entry_count d' <= BANK_PROFILE_MAX_ENTRIES /\
  (entry_count d + Z.of_nat (List.length (new_classes (classes (entries d)) es)) <= BANK_PROFILE_MAX_ENTRIES ->
    total_pages (entries d') = total_pages (entries d) + total_pages es /\
    forall x, count_loop (entries d') x = count_loop (entries d) x + count_loop es x).
Proof.
  intros Hok Hcap Hnd Hpos. revert d Hok Hcap Hnd. induction Hpos as [|e es He Hes IH]; intros d Hok Hcap Hnd Ht.
  { exists d. cbn [merge_loop new_classes classes map filter list_filter List.length]. rewrite Z.add_0_r. destruct (Z.leb_spec (entry_count d) BANK_PROFILE_MAX_ENTRIES); [|lia].
    split; [done|]. split; [done|]. split; [done|]. split; [done|]. intros _. cbn. split; [lia|]. intros x. lia. }
  cbn [classes map] in Hnd. apply NoDup_cons in Hnd as [Hfresh Hnd]. fold (classes es) in *.
  cbn [merge_loop total_pages foldr count_loop] in *. fold (total_pages es) in *. pose proof (total_pages_nonneg es Hes).
  destruct (add_class_count_spec d (bank_class e) (page_count e) (byte_count e) Hok He ltac:(lia)) as (q & -> & Hsame & Hq).
  cbn [from_option id]. unfold new_classes. cbn [classes map]. fold (classes es). rewrite filter_cons.
  destruct (decide (bank_class e ∈ classes (entries d))) as [Hin|Hout].
  - rewrite decide_True in Hq by auto. destruct Hq as (Hokq & Htq & Hcq & Hnq).
    assert (Hlen : entry_count q = entry_count d) by (unfold entry_count; rewrite <- !(length_map bank_class); unfold classes in Hcq; by rewrite Hcq).
    rewrite decide_False by (intros Hx; by apply Hx). fold (new_classes (classes (entries d)) es). cbn [negb Z.eqb BANK_PROFILE_OK].
    destruct (IH q Hokq ltac:(lia) Hnd ltac:(lia)) as (d' & -> & Hs & Hok' & Hcap' & Hsum). rewrite Hcq, Hlen in *.
    exists d'. split; [done|]. split; [unfold same_counters in *; congruence|]. split; [done|]. split; [done|].
    intros Hfit. destruct (Hsum Hfit) as [H1 H2]. split; [lia|]. intros x. rewrite H2, Hnq, (Z.eqb_sym x).
    destruct (Z.eqb_spec (bank_class e) x) as [<-|]; [rewrite (count_loop_absent es) by done; lia|lia].
  - rewrite decide_True by done. fold (new_classes (classes (entries d)) es). cbn [List.length].
    destruct (Z.leb_spec BANK_PROFILE_MAX_ENTRIES (entry_count d)).
    + rewrite decide_False in Hq by (intros [?|?]; [done|lia]). cbn [negb Z.eqb BANK_PROFILE_OK BANK_PROFILE_ERR_TOO_MANY_CLASSES]. exists q.
      destruct (Z.leb_spec (entry_count d + Z.of_nat (S (List.length (new_classes (classes (entries d)) es)))) BANK_PROFILE_MAX_ENTRIES); [lia|].
      split; [done|]. split; [done|]. unfold entry_count. rewrite Hq. split; [done|]. split; [done|]. intros. exfalso. unfold entry_count in *. lia.
    + rewrite decide_True in Hq by auto. destruct Hq as (Hokq & Htq & Hcq & Hnq).
      assert (Hlen : entry_count q = entry_count d + 1).
      { unfold entry_count. rewrite <- !(length_map bank_class). unfold classes in Hcq. rewrite Hcq, length_app. cbn. lia. }
      cbn [negb Z.eqb BANK_PROFILE_OK].
      destruct (IH q Hokq ltac:(lia) Hnd ltac:(lia)) as (d' & -> & Hs & Hok' & Hcap' & Hsum). rewrite Hcq, Hlen, new_classes_snoc in * by done.
      replace (entry_count d + Z.of_nat (S (List.length (new_classes (classes (entries d)) es))))
        with (entry_count d + 1 + Z.of_nat (List.length (new_classes (classes (entries d)) es))) by lia.
      exists d'. split; [done|]. split; [unfold same_counters in *; congruence|]. split; [done|]. split; [done|].
      intros Hfit. destruct (Hsum Hfit) as [H1 H2]. split; [lia|]. intros x. rewrite H2, Hnq, (Z.eqb_sym x).
      destruct (Z.eqb_spec (bank_class e) x) as [<-|]; [rewrite (count_loop_absent es) by done; lia|lia].
Qed.

(** ** Overlap of two histograms *)

Definition sum_over (f : Z -> Z) (cs : list Z) : Z := foldr (fun c n => f c + n) 0 cs.

Lemma sum_over_perm f a b : Permutation a b -> sum_over f a = sum_over f b.
Proof. induction 1; cbn [sum_over foldr] in *; unfold sum_over in *; lia. Qed.

Lemma sum_over_app f a b : sum_over f (a ++ b) = sum_over f a + sum_over f b.
Proof. induction a as [|c a IH]; [done|]. cbn [app sum_over foldr]. fold (sum_over f (a ++ b)) (sum_over f a). lia. Qed.

Lemma sum_over_ext f g cs : (forall c, c ∈ cs -> f c = g c) -> sum_over f cs = sum_over g cs.
Proof.
  induction cs as [|c cs IH]; intros H; [done|]. cbn [sum_over foldr]. fold (sum_over f cs) (sum_over g cs).
  rewrite (H c) by left. rewrite IH; [done|]. intros x Hx. apply H. by right.
Qed.

Lemma sum_over_le f g cs : (forall c, f c <= g c) -> sum_over f cs <= sum_over g cs.
Proof. intros H. induction cs as [|c cs IH]; [done|]. cbn [sum_over foldr]. fold (sum_over f cs) (sum_over g cs). specialize (H c). lia. Qed.

(** The classes of either histogram, each once. *)
Definition all_classes (a b : list bank_profile_entry) : list Z := classes a ++ new_classes (classes a) b.

Lemma elem_all_classes a b c : c ∈ all_classes a b <-> c ∈ classes a \/ c ∈ classes b.
Proof.
  unfold all_classes, new_classes. rewrite elem_of_app, list_elem_of_filter. destruct (decide (c ∈ classes a)); naive_solver.
Qed.

Lemma all_classes_nodup a b : NoDup (classes a) -> NoDup (classes b) -> NoDup (all_classes a b).
Proof.
  intros Ha Hb. unfold all_classes, new_classes. apply NoDup_app. split; [done|]. split; [|by apply NoDup_filter].
  intros c Hc Hf. apply list_elem_of_filter in Hf as [Hn _]. done.
Qed.

Lemma all_classes_perm a b : NoDup (classes a) -> NoDup (classes b) -> Permutation (all_classes a b) (all_classes b a).
Proof.
  intros Ha Hb. apply NoDup_Permutation; [by apply all_classes_nodup|by apply all_classes_nodup|].
  intros c. rewrite !elem_all_classes. tauto.
Qed.

(** Pages in common and pages in total, class by class. *)
Definition common (a b : list bank_profile_entry) : Z :=
  sum_over (fun c => Z.min (count_loop a c) (count_loop b c)) (all_classes a b).
Definition union (a b : list bank_profile_entry) : Z :=
  sum_over (fun c => Z.max (count_loop a c) (count_loop b c)) (all_classes a b).

Lemma common_comm a b : NoDup (classes a) -> NoDup (classes b) -> common a b = common b a.
Proof.
  intros Ha Hb. unfold common. rewrite (sum_over_perm _ _ _ (all_classes_perm a b Ha Hb)).
  apply sum_over_ext. intros c _. apply Z.min_comm.
Qed.

Lemma union_comm a b : NoDup (classes a) -> NoDup (classes b) -> union a b = union b a.
Proof.
  intros Ha Hb. unfold union. rewrite (sum_over_perm _ _ _ (all_classes_perm a b Ha Hb)).
  apply sum_over_ext. intros c _. apply Z.max_comm.
Qed.

Lemma sum_count_self es : NoDup (classes es) -> sum_over (count_loop es) (classes es) = total_pages es.
Proof.
  induction es as [|e es IH]; [done|]. cbn [classes map]. intros [Hx Hnd]%NoDup_cons.
  cbn [sum_over foldr total_pages]. fold (total_pages es) (classes es) (sum_over (count_loop (e :: es)) (classes es)). rewrite <- IH by done.
  f_equal; [cbn [count_loop]; by rewrite Z.eqb_refl|]. apply sum_over_ext. intros c Hc. cbn [count_loop].
  destruct (Z.eqb_spec (bank_class e) c) as [<-|]; [done|reflexivity].
Qed.

Lemma sum_over_nonneg f cs : (forall c, 0 <= f c) -> 0 <= sum_over f cs.
Proof. intros H. induction cs as [|c cs IH]; [done|]. cbn [sum_over foldr]. fold (sum_over f cs). specialize (H c). lia. Qed.

Lemma union_bound a b : entries_ok a -> entries_ok b -> union a b <= total_pages a + total_pages b.
Proof.
  intros [Ha Hpa _] [Hb Hpb _]. unfold union.
  assert (H1 : forall c, Z.max (count_loop a c) (count_loop b c) <= count_loop a c + count_loop b c).
  { intros c. pose proof (count_loop_bound a c Hpa). pose proof (count_loop_bound b c Hpb). lia. }
  etransitivity; [apply sum_over_le, H1|].
  assert (Hs : forall cs, sum_over (fun c => count_loop a c + count_loop b c) cs = sum_over (count_loop a) cs + sum_over (count_loop b) cs).
  { induction cs as [|c cs IH]; [done|]. cbn [sum_over foldr] in *. unfold sum_over in *. lia. }
  rewrite Hs. rewrite (sum_over_perm (count_loop b) _ _ (all_classes_perm a b Ha Hb)). unfold all_classes. rewrite !sum_over_app.
  rewrite (sum_count_self a Ha), (sum_count_self b Hb).
  assert (Hz : forall x y, sum_over (count_loop x) (new_classes (classes x) y) = 0).
  { intros x y. unfold new_classes. induction (classes y) as [|c l IH]; [done|]. rewrite filter_cons. destruct (decide (c ∉ classes x)) as [Hc|]; [|exact IH].
    cbn [sum_over foldr]. fold (sum_over (count_loop x) (filter (fun c => c ∉ classes x) l)). rewrite IH, count_loop_absent by done. lia. }
  rewrite !Hz. lia.
Qed.

Lemma common_union a b : common a b <= union a b.
Proof. apply sum_over_le. intros c. lia. Qed.

Lemma common_nonneg a b : entries_ok a -> entries_ok b -> 0 <= common a b.
Proof.
  intros [_ Hpa _] [_ Hpb _]. apply sum_over_nonneg. intros c.
  pose proof (count_loop_bound a c Hpa). pose proof (count_loop_bound b c Hpb). lia.
Qed.
