(* ===== verification/BankSampling.v ===== *)
(** * Sampling a process

    The sampling loop visits every stride-th page of a region, inside the
    region, and ends; the counters of a profile account for every page sampled
    exactly once; the stream and the page map opened for it are closed. *)
From S2P Require Import Prelude Float64 CString Scan Os Calibration DramMapping AddrTranslate BankProfile BankProfileSpec.
From Stdlib Require Import Ascii String.
Local Open Scope Z_scope.

Section Sampling.
Context {W : Type} `{OS W}.

(** ** The pages visited *)

(** Sampling a list of addresses, up to the limit. *)
Fixpoint sample_addresses (vas : list Z) (ctx : addr_translate_ctx) (mapping : dram_mapping) (cfg : bank_profile_config)
    (page_size : Z) (profile : bank_profile) (w : W) : Z * bank_profile * W :=
  match vas with
  | [] => (BANK_PROFILE_OK, profile, w)
  | va :: vas =>
      if limit_reached cfg profile then (BANK_PROFILE_OK, profile, w)
      else match sample_page va ctx mapping page_size profile w with
           | (inr (rc, profile), w) => (rc, profile, w)
           | (inl profile, w) => sample_addresses vas ctx mapping cfg page_size profile w
           end
  end.

(** The addresses of the pages [k, k + stride, ...] ([n] of them) of a region. *)
Definition page_addresses (region : maps_region) (page_size stride k : Z) (n : nat) : list Z :=
  map (fun i => rg_start region + (k + i * stride) * page_size) (zrange 0 n).

Lemma sample_count_spec pages stride : 0 <= pages -> 0 < stride ->
  let n := Z.of_nat (sample_count pages stride) in pages <= n * stride /\ (0 < n -> (n - 1) * stride < pages) /\ 0 <= n.
Proof.
  intros Hp Hs. unfold sample_count.
  assert (0 <= (pages + stride - 1) / stride) by (apply Z.div_pos; lia). rewrite Z2Nat.id by lia.
  pose proof (Z.div_mod (pages + stride - 1) stride ltac:(lia)). pose proof (Z.mod_pos_bound (pages + stride - 1) stride Hs).
  cbn zeta. nia.
Qed.

Lemma map_zrange_shift (f : Z -> Z) a n : map f (zrange (a + 1) n) = map (fun i => f (i + 1)) (zrange a n).
Proof. revert a. induction n as [|n IH]; intros a; [done|]. cbn [zrange map]. by rewrite IH. Qed.

(** A region of the address space with pages of at least two bytes. *)
Definition proper_region (region : maps_region) (page_size : Z) : Prop :=
  0 <= rg_start region < rg_end region /\ rg_end region <= UINT64_MAX /\ 2 <= page_size.

Definition region_pages (region : maps_region) (page_size : Z) : Z := (rg_end region - rg_start region) / page_size.

Lemma region_pages_bound region ps : proper_region region ps ->
  0 <= region_pages region ps <= 9223372036854775808 /\ region_pages region ps * ps <= rg_end region - rg_start region.
Proof.
  intros (Hs & He & Hp). unfold region_pages, UINT64_MAX in *.
  pose proof (Z.div_mod (rg_end region - rg_start region) ps ltac:(lia)) as E.
  pose proof (Z.mod_pos_bound (rg_end region - rg_start region) ps ltac:(lia)).
  assert (0 <= (rg_end region - rg_start region) / ps) by (apply Z.div_pos; lia). split; [|nia]. split; [lia|]. 
  set (q := (rg_end region - rg_start region) / ps) in *. clearbody q. nia.
Qed.

(** Whatever fuel remains beyond the iterations left, the loop visits exactly
    the pages left. *)
Lemma sample_loop_visits n extra region ctx mapping cfg ps stride k profile w :
  proper_region region ps -> 0 < stride <= UINT64_MAX -> k = 0 \/ stride <= k ->
  let pages := region_pages region ps in
  (n = O -> pages <= k) -> ((0 < n)%nat -> k + (Z.of_nat n - 1) * stride < pages) -> pages <= k + Z.of_nat n * stride ->
  sample_loop (n + extra) region ctx mapping cfg ps pages stride k profile w =
  sample_addresses (page_addresses region ps stride k n) ctx mapping cfg ps profile w.
Proof.
  intros Hr Hs. cbv zeta. pose proof (region_pages_bound region ps Hr) as [Hpb Hin].
  set (pages := region_pages region ps) in *. revert k profile w.
  induction n as [|n IH]; intros k profile w Hk H0 Hlast Hend.
  - cbn [Nat.add page_addresses zrange map sample_addresses]. destruct extra as [|extra]; [done|]. cbn [sample_loop].
    destruct (Z.ltb_spec k pages); [|done]. specialize (H0 eq_refl). lia.
  - specialize (Hlast ltac:(lia)). destruct Hr as (Hst & He & Hps). unfold UINT64_MAX in *.
    assert (Hkp : k < pages) by nia. cbn [Nat.add sample_loop]. destruct (Z.ltb_spec k pages); [|lia]. cbn [negb].
    unfold page_addresses. cbn [zrange map sample_addresses]. destruct (limit_reached cfg profile); [done|].
    assert (Hva : u64_add (rg_start region) (u64_mul k ps) = rg_start region + (k + 0 * stride) * ps).
    { unfold u64_add, u64_mul. rewrite u64_add_r, u64_small by (unfold in_u64; nia). lia. }
    rewrite Hva. destruct (sample_page _ ctx mapping ps profile w) as [[q|[rc q]] w']; [|done].
    rewrite map_zrange_shift. destruct n as [|n].
    + cbn [zrange map sample_addresses]. destruct extra as [|extra]; [done|]. cbn [Nat.add sample_loop].
      assert (Hnw : u64_add k stride = k + stride) by (unfold u64_add; apply u64_small; unfold in_u64; lia).
      rewrite Hnw.
      destruct (Z.ltb_spec (k + stride) pages); [lia|done].
    + assert (Hnw : u64_add k stride = k + stride) by (unfold u64_add; apply u64_small; unfold in_u64; nia).
      rewrite Hnw, IH by (done || lia || nia). unfold page_addresses. f_equal. apply map_ext. intros i. lia.
Qed.

(** The sampling loop ends and visits exactly the pages [0], [stride],
    [2 * stride], ... of the region, in order and up to the sampling limit: with
    the fuel chosen, or any larger one, it equals sampling the list of their
    addresses, each a page inside the region, and no index or address wraps. *)
Theorem sample_region_visits extra region ctx mapping cfg profile w :
  let ps := bp_page_size profile in
  let pages := region_pages region ps in
  let stride := if sample_stride_pages cfg =? 0 then 1 else sample_stride_pages cfg in
  let vas := page_addresses region ps stride 0 (sample_count pages stride) in
  let profile' := profile <| pages_seen ::= fun x => u64_add x pages |> in
  proper_region region ps -> in_u64 (sample_stride_pages cfg) ->
  sample_region region ctx mapping cfg profile w = sample_addresses vas ctx mapping cfg ps profile' w /\
  sample_loop (sample_count pages stride + extra) region ctx mapping cfg ps pages stride 0 profile' w =
    sample_addresses vas ctx mapping cfg ps profile' w /\
  Forall (fun va => rg_start region <= va /\ va + ps <= rg_end region) vas /\
  (forall i, 0 <= i -> i * stride < pages -> rg_start region + i * stride * ps ∈ vas).
Proof.
  cbv zeta. set (ps := bp_page_size profile). set (stride := if sample_stride_pages cfg =? 0 then 1 else sample_stride_pages cfg).
  intros Hr Hst. pose proof (region_pages_bound region ps Hr) as [Hpb Hin].
  assert (Hs : 0 < stride <= UINT64_MAX)
    by (unfold stride, in_u64, UINT64_MAX in *; destruct (Z.eqb_spec (sample_stride_pages cfg) 0); lia).
  pose proof (sample_count_spec (region_pages region ps) stride ltac:(lia) ltac:(lia)) as (C1 & C2 & C3).
  assert (Hloop : forall extra prof, sample_loop (sample_count (region_pages region ps) stride + extra) region ctx mapping cfg ps
    (region_pages region ps) stride 0 prof w =
    sample_addresses (page_addresses region ps stride 0 (sample_count (region_pages region ps) stride)) ctx mapping cfg ps prof w).
  { intros ex prof. apply sample_loop_visits; [done|done|by left|..].
    - intros E. rewrite E in C1. lia.
    - intros Hn. specialize (C2 ltac:(lia)). lia.
    - lia. }
  split; [|split; [apply Hloop|split]].
  - unfold sample_region. fold ps stride. destruct Hr as (Hsta & He & Hps). destruct (Z.eqb_spec ps 0); [lia|].
    unfold u64_sub. rewrite (u64_small (_ - _)) by (unfold in_u64, UINT64_MAX in *; lia).
    fold (region_pages region ps). specialize (Hloop O). rewrite Nat.add_0_r in Hloop. apply Hloop.
  - apply Forall_forall. intros va Hva. apply list_elem_of_fmap in Hva as (i & -> & Hi).
    rewrite zrange_seqZ in Hi. apply elem_of_seqZ in Hi. destruct Hr as (Hsta & He & Hps).
    specialize (C2 ltac:(lia)). assert (0 <= i * stride <= (Z.of_nat (sample_count (region_pages region ps) stride) - 1) * stride) by nia. nia.
  - intros i Hi Hip. apply list_elem_of_fmap. exists i. split; [lia|]. rewrite zrange_seqZ. apply elem_of_seqZ. nia.
Qed.

(** ** Accounting *)

(** Every page sampled is counted once as translated or by the reason it was
    skipped; every translated page is one page of the class of some physical
    address; nothing exceeds the sampling limit. *)
Record accounted (limit : Z) (m : dram_mapping) (p : bank_profile) : Prop := {
  ac_entries : entries_ok (entries p);
  ac_cap : entry_count p <= BANK_PROFILE_MAX_ENTRIES;
  ac_class : Forall (fun e => exists pa, bank_class e = dram_mapping_bank_class_fast m pa) (entries p);
  ac_bytes : Forall (fun e => byte_count e = u64 (page_count e * bp_page_size p)) (entries p);
  ac_translated : pages_translated p = total_pages (entries p);
  ac_mapping : pages_skipped_mapping_error p = 0;
  ac_sampled : pages_sampled p = pages_translated p + pages_skipped_not_present p + pages_skipped_swapped p
    + pages_skipped_pfn_unavailable p + pages_skipped_translation_error p;
  ac_considered : pages_considered p = pages_sampled p;
  ac_nonneg : 0 <= pages_skipped_not_present p /\ 0 <= pages_skipped_swapped p /\ 0 <= pages_skipped_pfn_unavailable p /\
    0 <= pages_skipped_translation_error p;
  ac_limit : pages_sampled p <= limit
}.

Lemma u64_inc_small x : 0 <= x < UINT64_MAX -> u64_inc x = x + 1.
Proof. unfold UINT64_MAX, u64_inc. intros. apply u64_small. unfold in_u64. lia. Qed.

Lemma bytes_add pc ps : u64_add (u64 (pc * ps)) ps = u64 (u64_add pc 1 * ps).
Proof. unfold u64_add, u64. rewrite Z.mul_mod_idemp_l, Z.add_mod_idemp_l by lia. f_equal. lia. Qed.

(** The profile after the two counters of a sampled page. *)
Definition counted_page (p : bank_profile) : bank_profile := (p <| pages_considered ::= u64_inc |>) <| pages_sampled ::= u64_inc |>.

Variable limit : Z.
Variable m : dram_mapping.
Hypothesis Hlimit : limit <= UINT64_MAX.
Hypothesis Hready : dram_mapping_is_ready (Some m) = true.

Lemma sampled_nonneg p : accounted limit m p -> 0 <= total_pages (entries p) <= pages_sampled p /\ pages_sampled p <= limit /\
  pages_skipped_not_present p <= pages_sampled p /\ pages_skipped_swapped p <= pages_sampled p /\
  pages_skipped_pfn_unavailable p <= pages_sampled p /\ pages_skipped_translation_error p <= pages_sampled p.
Proof. intros [He ? ? ? ? ? ? ? ? ?]. pose proof (total_pages_nonneg _ (eo_pos _ He)). lia. Qed.

Lemma skip_accounted p rc : accounted limit m p -> pages_sampled p < limit ->
  let q := count_translation_skip (counted_page p) rc in
  accounted limit m q /\ pages_sampled q = pages_sampled p + 1 /\ bp_page_size q = bp_page_size p /\ bp_pid q = bp_pid p.
Proof.
  intros A Hlt. pose proof (sampled_nonneg p A) as B. destruct A as [A1 A2 A3 A4 A5 A6 A7 A8 A9 A10].
  unfold count_translation_skip, counted_page.
  repeat case_match; (split; [split|]); cbn [set_field entries entry_count bp_page_size bp_pid pages_translated
    pages_skipped_mapping_error pages_skipped_not_present pages_skipped_swapped pages_skipped_pfn_unavailable
    pages_skipped_translation_error pages_considered pages_sampled]; rewrite ?A8, ?u64_inc_small by lia; try assumption; try lia;
    split; try lia; done.
Qed.

Lemma accounted_frame p q : accounted limit m p -> entries q = entries p -> bp_page_size q = bp_page_size p ->
  pages_translated q = pages_translated p -> pages_skipped_mapping_error q = pages_skipped_mapping_error p ->
  pages_sampled q = pages_sampled p -> pages_considered q = pages_considered p ->
  pages_skipped_not_present q = pages_skipped_not_present p -> pages_skipped_swapped q = pages_skipped_swapped p ->
  pages_skipped_pfn_unavailable q = pages_skipped_pfn_unavailable p ->
  pages_skipped_translation_error q = pages_skipped_translation_error p -> accounted limit m q.
Proof.
  intros [A1 A2 A3 A4 A5 A6 A7 A8 A9 A10] He Hp Ht Hm Hs Hc H1 H2 H3 H4.
  split; unfold entry_count in *; rewrite ?He, ?Hp, ?Ht, ?Hm, ?Hs, ?Hc, ?H1, ?H2, ?H3, ?H4; assumption.
Qed.

(** The profile while a translated page is added. *)
Lemma add_page_accounted p pa rc q : accounted limit m p -> pages_sampled p < limit -> in_u64 (bp_page_size p) ->
  profile_add_bank_class (Some ((counted_page p) <| pages_translated ::= u64_inc |>)) (dram_mapping_bank_class_fast m pa) (bp_page_size p)
    = (rc, Some q) ->
  (rc = BANK_PROFILE_OK /\ accounted limit m q /\ pages_sampled q = pages_sampled p + 1 /\
    bp_page_size q = bp_page_size p /\ bp_pid q = bp_pid p) \/
  (rc = BANK_PROFILE_ERR_TOO_MANY_CLASSES /\ entry_count q = BANK_PROFILE_MAX_ENTRIES).
Proof.
  intros A Hlt Hps E. pose proof (sampled_nonneg p A) as B. unfold profile_add_bank_class in E.
  set (p1 := (counted_page p) <| pages_translated ::= u64_inc |>) in *. assert (Ee : entries p1 = entries p) by done.
  destruct A as [A1 A2 A3 A4 A5 A6 A7 A8 A9 A10].
  assert (Q1 : Forall (fun e => exists pa, bank_class e = dram_mapping_bank_class_fast m pa) (entries q))
    by (refine (add_class_count_forall _ p1 _ _ _ _ _ A3 _ _ E); cbn [bank_class]; eauto).
  assert (Q2 : Forall (fun e => byte_count e = u64 (page_count e * bp_page_size p)) (entries q)).
  { refine (add_class_count_forall _ p1 _ _ _ _ _ A4 _ _ E); cbn [page_count byte_count]; [intros e -> _; apply bytes_add|].
    rewrite Z.mul_1_l. symmetry. by apply u64_small. }
  destruct (add_class_count_spec p1 (dram_mapping_bank_class_fast m pa) 1 (bp_page_size p)) as (q' & E' & Hsame & Hq);
    [rewrite Ee; done|lia|rewrite Ee; lia|]. rewrite E in E'. injection E' as Erc <-.
  pose proof (same_counters_eq _ _ Hsame) as Eq. rewrite Ee in *.
  change (entry_count p1) with (entry_count p) in *.
  destruct (decide (dram_mapping_bank_class_fast m pa ∈ classes (entries p) \/ entry_count p < BANK_PROFILE_MAX_ENTRIES)) as [Hroom|Hfull].
  - left. destruct Hq as (Hok & Htot & Hcl & _). split.
    { rewrite Erc. destruct (decide _); [done|]. destruct (Z.leb_spec BANK_PROFILE_MAX_ENTRIES (entry_count p)); [naive_solver lia|done]. }
    assert (Hcap : entry_count q <= BANK_PROFILE_MAX_ENTRIES).
    { unfold entry_count in *. rewrite <- (length_map bank_class) in *. fold (classes (entries q)). rewrite Hcl.
      destruct (decide _); fold (classes (entries p)) in *; [done|]. rewrite length_app. cbn. naive_solver lia. }
    rewrite Eq in *. unfold p1, counted_page in *. cbn [set_field entries bp_page_size bp_pid pages_sampled] in *.
    rewrite u64_inc_small by lia. split; [|done].
    split; cbn [set_field entries bp_page_size pages_translated pages_skipped_mapping_error pages_skipped_not_present pages_skipped_swapped
      pages_skipped_pfn_unavailable pages_skipped_translation_error pages_considered pages_sampled]; rewrite ?A8, ?u64_inc_small by lia;
      try assumption; try lia; rewrite ?A8, ?u64_inc_small by lia; try lia.
  - right. rewrite decide_False in Erc by tauto. destruct (Z.leb_spec BANK_PROFILE_MAX_ENTRIES (entry_count p)); [|naive_solver lia].
    split; [done|]. unfold entry_count in *. rewrite Hq. lia.
Qed.

(** What a step of the sampling may return: an accounted profile with the
    process and page size it had, or the error of a full table. *)
Definition sampled (ps pid : Z) (r : Z * bank_profile) : Prop :=
  (r.1 = BANK_PROFILE_OK /\ accounted limit m r.2 /\ bp_page_size r.2 = ps /\ bp_pid r.2 = pid) \/
  (r.1 = BANK_PROFILE_ERR_TOO_MANY_CLASSES /\ entry_count r.2 = BANK_PROFILE_MAX_ENTRIES).

Lemma add_page_total p class bytes : exists rc q, profile_add_bank_class (Some p) class bytes = (rc, Some q).
Proof.
  unfold profile_add_bank_class, profile_add_bank_class_count. destruct (_ && _); [eauto|].
  destruct (add_to_entry _ _ _ _); [eauto|]. destruct (_ <=? _); eauto.
Qed.

Lemma sample_page_accounted va ctx p w : accounted limit m p -> pages_sampled p < limit -> in_u64 (bp_page_size p) ->
  match (sample_page va ctx m (bp_page_size p) p w).1 with
  | inl q => sampled (bp_page_size p) (bp_pid p) (BANK_PROFILE_OK, q)
  | inr r => sampled (bp_page_size p) (bp_pid p) r
  end.
Proof.
  intros A Hlt Hps. unfold sample_page. cbv zeta. fold (counted_page p).
  destruct (addr_translate_va_to_pa _ _ _ _) as [[rc tr] w'].
  destruct (negb (rc =? ADDR_TRANSLATE_OK)).
  { cbn [fst]. left. destruct (skip_accounted p rc A Hlt) as (? & _ & ? & ?). done. }
  cbn [dram_mapping_bank_class]. rewrite Hready. cbn [negb Z.eqb DRAM_MAPPING_OK from_option id].
  set (pa := match tr with Some tr => physical_address tr | None => 0 end).
  destruct (add_page_total ((counted_page p) <| pages_translated ::= u64_inc |>) (dram_mapping_bank_class_fast m pa) (bp_page_size p)) as (rc' & q & E).
  rewrite E. cbn [from_option id]. destruct (add_page_accounted p pa rc' q A Hlt Hps E) as [(-> & ? & _ & ? & ?)|(-> & ?)].
  - cbn [negb Z.eqb BANK_PROFILE_OK fst]. by left.
  - cbn [negb Z.eqb BANK_PROFILE_OK BANK_PROFILE_ERR_TOO_MANY_CLASSES fst]. by right.
Qed.

Variable cfg : bank_profile_config.
Hypothesis Hcfg : max_pages_to_sample cfg = limit.
Hypothesis Hpos : 0 < limit.

Lemma not_reached p : limit_reached cfg p = false -> pages_sampled p < limit.
Proof. unfold limit_reached. rewrite Hcfg. destruct (Z.ltb_spec 0 limit); [|lia]. cbn [andb]. intros. bool_hyps. lia. Qed.

Lemma sample_loop_accounted fuel region ctx pages stride k p w : accounted limit m p -> in_u64 (bp_page_size p) ->
  sampled (bp_page_size p) (bp_pid p) (sample_loop fuel region ctx m cfg (bp_page_size p) pages stride k p w).1.
Proof.
  revert k p w. induction fuel as [|fuel IH]; intros k p w A Hps; cbn [sample_loop]; [by left|].
  destruct (negb (k <? pages)); [by left|]. destruct (limit_reached cfg p) eqn:El; [by left|]. apply not_reached in El.
  pose proof (sample_page_accounted (u64_add (rg_start region) (u64_mul k (bp_page_size p))) ctx p w A El Hps) as Hp.
  destruct (sample_page _ _ _ _ _ _) as [[q|[rc q]] w']; cbn [fst] in *; [|done].
  destruct Hp as [(_ & Aq & Eps & Epid)|(Erc & _)]; [|done]. cbn [snd] in *. specialize (IH (u64_add k stride) q w' Aq).
  rewrite Eps, Epid in IH. by apply IH.
Qed.

Lemma sample_region_accounted region ctx p w : accounted limit m p -> in_u64 (bp_page_size p) -> bp_page_size p <> 0 ->
  sampled (bp_page_size p) (bp_pid p) (sample_region region ctx m cfg p w).1.
Proof.
  intros A Hps Hne. unfold sample_region. destruct (Z.eqb_spec (bp_page_size p) 0); [done|].
  match goal with |- context [p <| pages_seen ::= ?f |>] => set (q := p <| pages_seen ::= f |>) end.
  change (bp_page_size p) with (bp_page_size q). change (bp_pid p) with (bp_pid q).
  apply (sample_loop_accounted _ _ _ _ _ _ q); [|done]. by apply (accounted_frame p q).
Qed.

Lemma maps_loop_accounted fuel maps ctx p w : accounted limit m p -> in_u64 (bp_page_size p) -> bp_page_size p <> 0 ->
  match (maps_loop fuel maps ctx m cfg p w).1 with
  | inl (_, q) => sampled (bp_page_size p) (bp_pid p) (BANK_PROFILE_OK, q)
  | inr r => r.1 = BANK_PROFILE_ERR_TOO_MANY_CLASSES /\ entry_count r.2 = BANK_PROFILE_MAX_ENTRIES
  end.
Proof.
  revert maps p w. induction fuel as [|fuel IH]; intros maps p w A Hps Hne; cbn [maps_loop]; [by left|].
  destruct (fgets 1024 maps) as [[line|] maps']; [|by left].
  destruct (parse_maps_line line) as [region|]; [|by apply IH].
  set (p1 := p <| regions_seen ::= u64_inc |>). assert (A1 : accounted limit m p1) by (by apply (accounted_frame p p1)).
  destruct (negb (region_is_selected region cfg)); [exact (IH maps' p1 w A1 Hps Hne)|].
  set (p2 := p1 <| regions_selected ::= u64_inc |>). assert (A2 : accounted limit m p2) by (by apply (accounted_frame p1 p2)).
  pose proof (sample_region_accounted region ctx p2 w A2 Hps Hne) as Hr.
  destruct (sample_region region ctx m cfg p2 w) as [[rc q] w']. cbn [fst] in Hr.
  destruct Hr as [(Erc & Aq & Eps & Epid)|(Erc & Ecap)]; cbn [fst snd] in *; subst rc.
  - cbn [negb Z.eqb BANK_PROFILE_OK]. destruct (limit_reached cfg q); [by left|].
    specialize (IH maps' q w' Aq). rewrite Eps, Epid in IH. by apply IH.
  - cbn [negb Z.eqb BANK_PROFILE_OK BANK_PROFILE_ERR_TOO_MANY_CLASSES].
    destruct (addr_translate_close (Some ctx) w') as [c w2]. destruct (os_fclose w2) as [b w3]. done.
Qed.

Lemma zero_accounted q : q = (bank_profile_zero <| bp_pid := bp_pid q |>) <| bp_page_size := bp_page_size q |> -> accounted limit m q.
Proof.
  intros ->. split; cbn; try done; try (by repeat constructor); try lia.
Qed.
End Sampling.

(** ** The whole build *)

Section Build.
Context {W : Type} `{OS W}.

Lemma finalize_accounted limit m p : accounted limit m p ->
  accounted limit m (profile_finalize p) /\ dominant_ok (profile_finalize p) /\ bp_pid (profile_finalize p) = bp_pid p /\
  pages_translated (profile_finalize p) = pages_translated p /\ entries (profile_finalize p) = entries p.
Proof.
  intros A. destruct (profile_finalize_spec p (ac_entries _ _ _ A)) as [Hd He].
  unfold profile_finalize in *. destruct (finalize_loop (entries p) 0 0 0) as [[total mc] mcl].
  split; [by apply (accounted_frame limit m p)|]. done.
Qed.

(** A return with a code the cases do not speak of. *)
Ltac other_code := split; [done|]; split; [done|]; split; [done|]; set_solver.

Lemma build_spec p m cfg o w rc out w' :
  let limit := max_pages_to_sample (effective_config cfg) in
  proper_pid p -> dram_mapping_is_ready (Some m) = true -> 0 < limit <= UINT64_MAX -> (os_pagesize w).1 <= LLONG_MAX ->
  bank_profile_build p (Some m) cfg (Some o) w = (rc, Some out, w') ->
  (rc = BANK_PROFILE_OK -> accounted limit m out /\ dominant_ok out /\ bp_pid out = p /\
    0 < pages_translated out /\ entries out <> []) /\
  (rc = BANK_PROFILE_ERR_NO_SAMPLES -> accounted limit m out /\ pages_translated out = 0) /\
  (rc = BANK_PROFILE_ERR_TOO_MANY_CLASSES -> entry_count out = BANK_PROFILE_MAX_ENTRIES) /\
  rc ∈ [BANK_PROFILE_OK; BANK_PROFILE_ERR_PAGE_SIZE; BANK_PROFILE_ERR_OPEN_MAPS; BANK_PROFILE_ERR_ADDR_OPEN;
        BANK_PROFILE_ERR_TOO_MANY_CLASSES; BANK_PROFILE_ERR_NO_SAMPLES; BANK_PROFILE_ERR_IO].
Proof.
  cbv zeta. intros Hp Hm [Hpos Hmax] Hps E. pose proof (proc_path_fits p "/maps" Hp ltac:(unfold strlen; cbn; lia)) as Hfit.
  unfold bank_profile_build in E. rewrite Hm in E. unfold proper_pid in Hp. unfold proc_path in Hfit.
  destruct (Z.leb_spec p 0); [lia|]. destruct (os_pagesize w) as [ps w1]. cbn [fst negb] in *.
  destruct (Z.leb_spec ps 0); [injection E as <- <- <-; other_code|].
  assert (Hu : u64 ps = ps) by (apply u64_small; unfold in_u64, LLONG_MAX in *; lia).
  destruct (Z.leb_spec 64 (strlen ("/proc/" +:+ dec p +:+ "/maps"))); [lia|].
  destruct (os_fopen _ w1) as [[maps|] w2]; [|injection E as <- <- <-; other_code].
  destruct (addr_translate_open _ p w2) as [[arc ctx] w3]. destruct (negb (arc =? ADDR_TRANSLATE_OK)).
  { destruct (os_fclose w3) as [b w4]. injection E as <- <- <-. other_code. }
  set (q0 := (bank_profile_zero <| bp_pid := p |>) <| bp_page_size := u64 ps |>) in E.
  set (c := default addr_translate_ctx_reset ctx) in E. set (cfg' := effective_config cfg) in *.
  assert (A0 : accounted (max_pages_to_sample cfg') m q0) by (apply zero_accounted; [lia|done]).
  pose proof (maps_loop_accounted (max_pages_to_sample cfg') m Hmax Hm cfg' eq_refl Hpos (S (String.length (st_data maps))) maps c q0 w3 A0) as Hl.
  change (bp_page_size q0) with (u64 ps) in Hl. rewrite Hu in Hl.
  specialize (Hl ltac:(unfold in_u64, LLONG_MAX in *; lia) ltac:(lia)).
  destruct (maps_loop _ maps c m cfg' q0 w3) as [[[failed q]|[rc' q]] w4]; cbn [fst snd] in Hl.
  2:{ injection E as <- <- <-. destruct Hl as [-> Hl]. other_code. }
  destruct Hl as [(_ & Aq & _ & Epid)|[? _]]; [|done]. cbn [snd] in *. unfold build_finish in E.
  destruct (addr_translate_close (Some c) w4) as [c' w5]. destruct (os_fclose w5) as [b w6].
  destruct failed; [injection E as <- <- <-; other_code|].
  destruct (finalize_accounted _ m q Aq) as (Af & Hd & Hpid & Htr & Hen).
  assert (Hne : 0 <= pages_translated (profile_finalize q) /\ (entries (profile_finalize q) = [] -> pages_translated (profile_finalize q) = 0)).
  { rewrite (ac_translated _ _ _ Af). pose proof (total_pages_nonneg _ (eo_pos _ (ac_entries _ _ _ Af))). split; [done|]. by intros ->. }
  assert (Hec : (entry_count (profile_finalize q) =? 0) = true -> entries (profile_finalize q) = [])
    by (unfold entry_count; by destruct (entries (profile_finalize q))).
  destruct (Z.eqb_spec (pages_translated (profile_finalize q)) 0) as [Ht|Ht]; cbn [orb] in E.
  - injection E as <- <- <-. split; [done|]. split; [intros _; split; [by apply (accounted_frame _ _ (profile_finalize q))|done]|]. split; [done|]. set_solver.
  - destruct (entry_count (profile_finalize q) =? 0) eqn:Ee; [exfalso; apply Ht, Hne, Hec; done|].
    injection E as <- <- <-. split; [|split; [done|]; split; [done|set_solver]]. intros _. split; [done|]. split; [done|].
    split; [by rewrite Hpid|]. split; [lia|]. intros E0. unfold entry_count in Ee. by rewrite E0 in Ee.
Qed.
End Build.
