(* ===== verification/BankMaps.v ===== *)
(** * Reading the memory map

    A line of [/proc/<pid>/maps] is read back as the kernel prints it, the
    default filter selects the writable private memory of a process, and the
    build closes the stream and the page map it opens. *)
From S2P Require Import Prelude Float64 CString Scan Os Calibration DramMapping Cgroup SimOs AddrTranslate BankProfile BankProfileSpec BankProfileProps BankSampling.
From Stdlib Require Import Ascii String.
Local Open Scope Z_scope.

(** ** Resources *)

(** Record what a call of the kernel acquires, and split its result. *)
Ltac kernel_step :=
  match goal with
  | |- context [os_pread ?fd ?n ?off ?w] => pose proof (acquired_pread fd n off w); destruct (os_pread fd n off w)
  | |- context [os_fclose ?w] => pose proof (acquired_fclose w); destruct (os_fclose w)
  | |- context [os_fopen ?path ?w] => pose proof (acquired_fopen path w); destruct (os_fopen path w)
  | |- context [os_open ?path ?w] => pose proof (acquired_open path w); destruct (os_open path w)
  | |- context [os_pagesize ?w] => pose proof (acquired_pagesize w); destruct (os_pagesize w)
  end; cbn [fst snd] in *.

Ltac held := cbv iota in *; cbn [fst snd] in *; unfold acquired in *; lia.

Section Balanced.
Context {W : Type} `{Resources W}.

Lemma va_to_pa_held ctx va out (w : W) : acquired w (addr_translate_va_to_pa ctx va out w).2 0 0.
Proof.
  unfold addr_translate_va_to_pa. destruct ctx as [ctx|], out as [out|]; try apply acquired_refl.
  destruct (_ || _); [apply acquired_refl|]. unfold read_pagemap_entry.
  repeat (case_match; simplify_eq/=; try apply acquired_refl);
    match goal with E : os_pread ?fd ?n ?off ?w = _ |- _ => pose proof (acquired_pread fd n off w) as Ha; rewrite E in Ha; exact Ha end.
Qed.

Lemma sample_page_held va ctx m ps p (w : W) : acquired w (sample_page va ctx m ps p w).2 0 0.
Proof.
  unfold sample_page. set (p1 := (p <| pages_considered ::= u64_inc |>) <| pages_sampled ::= u64_inc |>).
  pose proof (va_to_pa_held (Some ctx) va (Some addr_translation_zero) w) as Ha.
  destruct (addr_translate_va_to_pa _ _ _ _) as [[rc tr] w']. cbn [snd] in Ha.
  destruct (negb _); [exact Ha|]. destruct (dram_mapping_bank_class _ _ _) as [rc' cl]. destruct (negb _); [exact Ha|].
  destruct (profile_add_bank_class _ _ _) as [rc'' q]. by destruct (negb _).
Qed.

Lemma sample_loop_held fuel region ctx m cfg ps pages stride k p (w : W) :
  acquired w (sample_loop fuel region ctx m cfg ps pages stride k p w).2 0 0.
Proof.
  revert k p w. induction fuel as [|fuel IH]; intros k p w; cbn [sample_loop]; [apply acquired_refl|].
  destruct (negb _); [apply acquired_refl|]. destruct (limit_reached _ _); [apply acquired_refl|].
  pose proof (sample_page_held (u64_add (rg_start region) (u64_mul k ps)) ctx m ps p w) as Ha.
  destruct (sample_page _ _ _ _ _ _) as [[q|[rc q]] w']; cbn [snd] in *; [|done].
  specialize (IH (u64_add k stride) q w'). held.
Qed.

Lemma sample_region_held region ctx m cfg p (w : W) : acquired w (sample_region region ctx m cfg p w).2 0 0.
Proof. unfold sample_region. destruct (_ =? 0); [apply acquired_refl|]. apply sample_loop_held. Qed.

Lemma close_held ctx (w : W) : 0 <= pagemap_fd ctx -> acquired w (addr_translate_close (Some ctx) w).2 0 (-1).
Proof. intros Hf. unfold addr_translate_close. destruct (Z.leb_spec 0 (pagemap_fd ctx)); [apply acquired_close|lia]. Qed.

Lemma maps_loop_held fuel maps ctx m cfg p (w : W) : 0 <= pagemap_fd ctx ->
  match maps_loop fuel maps ctx m cfg p w with
  | (inl _, w') => acquired w w' 0 0
  | (inr _, w') => acquired w w' (-1) (-1)
  end.
Proof.
  intros Hf. revert maps p w. induction fuel as [|fuel IH]; intros maps p w; cbn [maps_loop]; [apply acquired_refl|].
  destruct (fgets 1024 maps) as [[line|] maps']; [|apply acquired_refl].
  destruct (parse_maps_line line) as [region|]; [|apply IH]. destruct (negb _); [apply IH|].
  match goal with |- context [sample_region region ctx m cfg ?q w] => pose proof (sample_region_held region ctx m cfg q w) as Ha;
    destruct (sample_region region ctx m cfg q w) as [[rc p'] w'] end. cbn [snd] in Ha.
  destruct (negb _).
  - pose proof (close_held ctx w' Hf) as Hc. destruct (addr_translate_close (Some ctx) w') as [c w2]. cbn [snd] in Hc.
    kernel_step. held.
  - destruct (limit_reached _ _); [exact Ha|]. specialize (IH maps' p' w'). destruct (maps_loop _ _ _ _ _ _ _) as [[] w'']; held.
Qed.

Lemma open_held p (w : W) : match addr_translate_open (Some addr_translate_ctx_reset) p w with
  | (rc, Some c, w') => if rc =? ADDR_TRANSLATE_OK then 0 <= pagemap_fd c /\ acquired w w' 0 1 else acquired w w' 0 0
  | (_, None, _) => False
  end.
Proof.
  unfold addr_translate_open, get_page_size. destruct (p <=? 0); [apply acquired_refl|].
  pose proof (acquired_pagesize w) as Hp. destruct (os_pagesize w) as [ps w1]. cbn [snd] in Hp.
  set (psz := if ps <=? 0 then (0, w1) else (u64 ps, w1)). assert (psz.2 = w1) as Hw by (unfold psz; by destruct (ps <=? 0)).
  destruct psz as [psz w1']. cbn [snd] in Hw. subst w1'. destruct (psz =? 0); [exact Hp|]. destruct (64 <=? _); [exact Hp|].
  kernel_step. match goal with Hk : acquired _ _ _ (if _ then _ else _) |- _ => revert Hk end.
  destruct (Z.ltb_spec z 0); cbn; intros; [held|]. split; [lia|held].
Qed.

(** [bank_profile_build] releases everything it acquires: on every return,
    the errors of the map, of the translation and of a full table included, as
    many streams and descriptors are open as before the call. *)
Theorem build_balanced p mapping cfg out (w : W) : acquired w (bank_profile_build p mapping cfg out w).2 0 0.
Proof.
  unfold bank_profile_build. destruct mapping as [m|], out as [o|]; try apply acquired_refl.
  destruct (p <=? 0); [apply acquired_refl|]. destruct (negb _); [apply acquired_refl|].
  kernel_step. destruct (z <=? 0); [done|]. destruct (64 <=? _); [done|]. kernel_step. destruct o0 as [maps|]; [|held].
  pose proof (open_held p w1) as Ho. destruct (addr_translate_open _ p w1) as [[rc [ctx|]] w2]; [|done].
  destruct (rc =? ADDR_TRANSLATE_OK); cbn [negb].
  2:{ kernel_step. held. }
  destruct Ho as [Hf Ho]. cbn [from_option id].
  match goal with |- context [maps_loop ?f maps ctx m ?c ?q w2] => pose proof (maps_loop_held f maps ctx m c q w2 Hf) as Hl;
    destruct (maps_loop f maps ctx m c q w2) as [[[failed q']|[rc' q']] w3] end; [|cbn [snd]; held].
  unfold build_finish. pose proof (close_held ctx w3 Hf) as Hc. destruct (addr_translate_close (Some ctx) w3) as [c w4]. cbn [snd] in Hc.
  destruct failed; kernel_step; [held|]. destruct (_ || _); cbn [snd]; held.
Qed.
End Balanced.

(** ** Lines of the map *)

(** No byte is white space. *)
Fixpoint no_space (s : string) : bool :=
  match s with
  | EmptyString => true
  | String c s' => negb (isspace c) && no_space s'
  end.

(** The last byte is not one the code trims. *)
Definition ends_clean (s : string) : bool :=
  match String.length s with
  | O => true
  | S n => negb (is_space_or_newline (char_at s n))
  end.

Definition starts_clean (s : string) : bool :=
  match s with
  | EmptyString => true
  | String c _ => negb (isspace c)
  end.

(** A field of the line: a word of at most [n] bytes. *)
Definition word_ok (n : nat) (s : string) : Prop :=
  (0 < String.length s <= n)%nat /\ no_space s = true /\ str_has s NUL = false.

Definition path_ok (s : string) : Prop :=
  (String.length s <= 255)%nat /\ starts_clean s = true /\ ends_clean s = true /\ str_has s NUL = false.

Definition sp : string := String " " EmptyString.

(** The line the kernel prints, the path aligned with [pad] spaces. *)
Definition maps_line (start last : Z) (perms : string) (offset : Z) (dev : string) (inode : Z) (pad : nat) (path : string) : string :=
  hex_pad 8 start +:+ "-" +:+ hex_pad 8 last +:+ sp +:+ perms +:+ sp +:+ hex_pad 8 offset +:+ sp +:+ dev +:+ sp +:+ dec inode +:+ sp
    +:+ str_repeat " " pad +:+ path +:+ nl.

Lemma word_space n x t : no_space x = true -> (String.length x <= n)%nat -> word n (x +:+ (sp +:+ t)) = (x, sp +:+ t).
Proof.
  revert n. induction x as [|c x IH]; intros n Hx Hl; [by destruct n|].
  cbn [no_space] in Hx. apply andb_true_iff in Hx as [Hc Hx]. apply negb_true_iff in Hc. cbn [String.length] in Hl.
  destruct n as [|n]; [lia|]. rewrite str_app_cons. cbn [word]. rewrite Hc, IH by (done || lia). done.
Qed.

Lemma scan_word n x t : word_ok n x -> scan_str n (skip_ws (sp +:+ (x +:+ (sp +:+ t)))) = Some (x, sp +:+ t).
Proof.
  intros ([H1 H2] & H3 & _). unfold scan_str. destruct x as [|c x]; [cbn in H1; lia|].
  assert (Hc : isspace c = false) by (cbn [no_space] in H3; apply andb_true_iff in H3 as [H3 _]; by apply negb_true_iff in H3).
  change (skip_ws (sp +:+ (String c x +:+ (sp +:+ t)))) with (skip_ws (String c (x +:+ (sp +:+ t)))).
  rewrite !skip_ws_stop by done. change (String c (x +:+ (sp +:+ t))) with (String c x +:+ (sp +:+ t)).
  by rewrite word_space.
Qed.

Lemma skip_ws_hex w n t : in_u64 n -> skip_ws (sp +:+ (hex_pad w n +:+ t)) = hex_pad w n +:+ t.
Proof.
  intros Hn. destruct (hex_pad_head w n t) as (d & s & E & Hd); [unfold in_u64 in Hn; lia|]. rewrite E.
  destruct (hex_digit_value d Hd) as (_ & Hs & _). change (skip_ws (sp +:+ String (hex_digit d) s)) with (skip_ws (String (hex_digit d) s)).
  by apply skip_ws_stop.
Qed.

Lemma scan_ull_skip base s : scan_ull base (skip_ws s) = scan_ull base s.
Proof.
  unfold scan_ull, scan_int. replace (skip_ws (skip_ws s)) with (skip_ws s); [done|].
  induction s as [|c s IH]; [done|]. cbn [skip_ws]. destruct (isspace c) eqn:E; [exact IH|]. by rewrite skip_ws_stop.
Qed.

Lemma scan_ull_space base s : scan_ull base (sp +:+ s) = scan_ull base s.
Proof. rewrite <- scan_ull_skip. change (skip_ws (sp +:+ s)) with (skip_ws s). apply scan_ull_skip. Qed.

Lemma hex_digit_no_nul d : 0 <= d < 16 -> Ascii.eqb (hex_digit d) NUL = false.
Proof.
  intros Hd. destruct (hex_digit_value d Hd) as (Hv & _). destruct (Ascii.eqb_spec (hex_digit d) NUL) as [E|]; [|done].
  rewrite E in Hv. done.
Qed.

Lemma hex_pad_no_nul w n : 0 <= n -> str_has (hex_pad w n) NUL = false.
Proof.
  intros Hn. assert (Hgo : forall fuel k t, 0 <= k -> str_has (hex_go fuel k t) NUL = str_has t NUL).
  { induction fuel as [|fuel IH]; intros k t Hk; [done|]. cbn [hex_go]. pose proof (Z.mod_pos_bound k 16 ltac:(lia)) as Hm.
    assert (E : str_has (String (hex_digit (k mod 16)) t) NUL = str_has t NUL) by (cbn [str_has]; by rewrite hex_digit_no_nul).
    destruct (k <? 16); [exact E|]. rewrite IH; [exact E|]. apply Z.div_pos; lia. }
  unfold hex_pad, pad_left. generalize (w - String.length (hex n))%nat as j.
  induction j as [|j IH]; [exact (Hgo 16%nat n EmptyString Hn)|exact IH].
Qed.

Lemma char_at_app_l a b n : (n < String.length a)%nat -> char_at (a +:+ b) n = char_at a n.
Proof. revert n. induction a as [|c a IH]; intros [|n] Hn; cbn [String.length] in Hn; try lia; [done|]. apply IH. lia. Qed.

Lemma trim_len_stop s : ends_clean s = true -> forall t, trim_len (String.length s) (s +:+ t) = String.length s.
Proof.
  unfold ends_clean. intros Hs t. destruct (String.length s) as [|n] eqn:E; [done|]. cbn [trim_len].
  rewrite char_at_app_l by lia. apply negb_true_iff in Hs. by rewrite Hs.
Qed.

Lemma trim_path s : path_ok s -> trim_trailing_space (snprintf 256 (s +:+ nl)) = s.
Proof.
  intros (Hl & _ & He & _). unfold snprintf. change (Z.to_nat (256 - 1)) with 255%nat. unfold trim_trailing_space.
  destruct (decide (String.length s = 255)%nat) as [E|Hne].
  - rewrite <- E, str_take_app. rewrite <- (str_app_nil_r s) at 2. rewrite trim_len_stop by done. apply str_take_all. lia.
  - rewrite (str_take_all 255 (s +:+ nl)) by (rewrite length_app_str; cbn; lia). rewrite length_app_str.
    change (String.length nl) with 1%nat. rewrite Nat.add_1_r. cbn [trim_len]. rewrite char_at_app. 
    change (is_space_or_newline (char_at nl 0)) with true. cbv iota. rewrite trim_len_stop by done. apply str_take_app.
Qed.

Lemma skip_ws_spaces n t : skip_ws (str_repeat " " n +:+ t) = skip_ws t.
Proof. induction n as [|n IH]; [done|]. exact IH. Qed.

Lemma path_rest pad s : path_ok s -> s <> EmptyString ->
  skip_leading_space (skip_ws (sp +:+ (str_repeat " " pad +:+ (s +:+ nl)))) = s +:+ nl.
Proof.
  intros (_ & Hs & _) Hne. change (skip_ws (sp +:+ (str_repeat " " pad +:+ (s +:+ nl)))) with (skip_ws (str_repeat " " pad +:+ (s +:+ nl))).
  rewrite skip_ws_spaces. destruct s as [|c s]; [done|]. cbn [starts_clean] in Hs. apply negb_true_iff in Hs.
  rewrite str_app_cons, skip_ws_stop by done. cbn [skip_leading_space].
  destruct (Ascii.eqb_spec c " ") as [->|]; [done|]. destruct (Ascii.eqb_spec c (ascii_of_nat 9)) as [->|]; done.
Qed.

Lemma path_rest_empty pad : skip_leading_space (skip_ws (sp +:+ (str_repeat " " pad +:+ (EmptyString +:+ nl)))) = EmptyString.
Proof.
  change (skip_ws (sp +:+ (str_repeat " " pad +:+ (EmptyString +:+ nl)))) with (skip_ws (str_repeat " " pad +:+ nl)).
  by rewrite skip_ws_spaces.
Qed.

(** [parse_maps_line] reads back every line of a memory map as the kernel
    prints it: the bounds in hexadecimal, the permissions and the path, whatever
    the offset, device, inode and alignment between them. *)
Theorem parse_maps_line_roundtrip start last perms offset dev inode pad path :
  0 <= start < last -> in_u64 last -> word_ok 7 perms -> in_u64 offset -> word_ok 31 dev -> 0 <= inode <= UINT64_MAX -> path_ok path ->
  parse_maps_line (maps_line start last perms offset dev inode pad path) = Some (mk_maps_region start last perms path).
Proof.
  intros Hsl Hlast Hperms Hoff Hdev Hino Hpath. assert (Hstart : in_u64 start) by (unfold in_u64 in *; lia).
  unfold parse_maps_line. rewrite c_str_id.
  2:{ unfold maps_line, in_u64 in *. rewrite !str_has_app, !hex_pad_no_nul, dec_no_nul by lia.
      destruct Hperms as (_ & _ & ->), Hdev as (_ & _ & ->), Hpath as (_ & _ & _ & ->). cbn.
      rewrite orb_false_r. by induction pad. }
  unfold maps_line. change ("-" +:+ ?x) with (String "-" x). rewrite scan_ull_hex by auto. cbn [mbind option_bind scan_lit Ascii.eqb Bool.eqb].
  change (sp +:+ ?x) with (String " " x) at 1. rewrite scan_ull_hex by auto. cbn [mbind option_bind].
  change (String " " (perms +:+ ?x)) with (sp +:+ (perms +:+ x)). rewrite scan_word by done. cbn [mbind option_bind].
  rewrite scan_ull_skip, scan_ull_space. change (sp +:+ ?x) with (String " " x) at 1. rewrite scan_ull_hex by auto. cbn [mbind option_bind].
  change (String " " (dev +:+ ?x)) with (sp +:+ (dev +:+ x)). rewrite scan_word by done. cbn [mbind option_bind].
  rewrite scan_ull_skip, scan_ull_space, scan_ull_dec by done. cbn [mbind option_bind].
  destruct (Z.leb_spec last start); [lia|]. destruct (decide (path = EmptyString)) as [->|Hne].
  - by rewrite path_rest_empty.
  - rewrite path_rest by done. by rewrite trim_path.
Qed.

(** * Profiles of a small process

    Concrete runs of the profile code, and the theorems about it applied to
    them. *)

(** Process 42 has three writable pages: one present, one swapped out, one the
    page map says nothing about; and a library that the filter leaves out. *)
Definition demo_maps : string :=
  maps_line 20480 32768 "rw-p" 0 "00:00" 0 0 EmptyString +:+
  maps_line 65536 131072 "r-xp" 0 "08:01" 77 10 "/usr/lib/libc.so".

Definition demo_world : sim :=
  sim_empty <| sim_fds := [(proc_path 42 "/pagemap", 3)] |> <| sim_files := [(proc_path 42 "/maps", demo_maps)] |>
    <| sim_pages := [(3, 40, [69; 35; 1; 0; 0; 0; 128; 128]); (3, 48, [0; 0; 0; 0; 0; 0; 0; 64])] |>.

Definition demo_config : bank_profile_config := mk_bank_profile_config 8 1 true true true false false.

Definition demo_build : Z * option bank_profile * sim :=
  bank_profile_build 42 (Some example_mapping) (Some demo_config) (Some bank_profile_zero) demo_world.

Definition demo_profile : bank_profile := match demo_build.1.2 with Some p => p | None => bank_profile_zero end.

Example demo_build_counts :
  demo_build.1.1 = BANK_PROFILE_OK /\ regions_seen demo_profile = 2 /\ regions_selected demo_profile = 1 /\
  pages_sampled demo_profile = 3 /\ pages_translated demo_profile = 1 /\ pages_skipped_swapped demo_profile = 1 /\
  pages_skipped_translation_error demo_profile = 1 /\ total_pages (entries demo_profile) = 1.
Proof. vm_compute. repeat split. Qed.

Definition profile_of (es : list bank_profile_entry) : bank_profile := (bank_profile_zero <| bp_page_size := 4096 |>) <| entries := es |>.

Definition demo_a : bank_profile := profile_of [mk_bank_profile_entry 0 3 12288; mk_bank_profile_entry 5 2 8192].
Definition demo_b : bank_profile := profile_of [mk_bank_profile_entry 5 4 16384; mk_bank_profile_entry 7 1 4096].

Lemma demo_ab_ok : entries_ok (entries demo_a) /\ entries_ok (entries demo_b).
Proof.
  split; (split; [cbn; repeat (apply NoDup_cons; split; [set_solver|]); constructor
    |cbn; repeat (apply Forall_cons; split; [cbn; lia|]); constructor|cbn; unfold UINT64_MAX; lia]).
Qed.

Lemma overlap_is_jaccard_witness :
  bank_profile_overlap_score (Some demo_a) (Some demo_b) (Some dzero) (Some 0) =
    (BANK_PROFILE_OK, Some (ddiv (Z_to_double 2) (Z_to_double 8)), Some 2) /\
  unit_interval (ddiv (Z_to_double 2) (Z_to_double 8)).
Proof.
  destruct demo_ab_ok as [Ha Hb].
  destruct (overlap_is_jaccard demo_a demo_b dzero 0 Ha Hb ltac:(discriminate) ltac:(discriminate)
    ltac:(cbn; unfold UINT64_MAX; lia)) as (score & E & _ & Es & Hu & _).
  rewrite Es in E, Hu. split; [exact E|exact Hu].
Defined.

Lemma merge_adds_witness :
  exists q, bank_profile_merge (Some demo_a) (Some demo_b) = (BANK_PROFILE_OK, Some q) /\
    bank_profile_count_for_class (Some q) 5 = 6 /\ bank_profile_count_for_class (Some q) 7 = 1 /\ dominant_ok q.
Proof.
  destruct demo_ab_ok as [Ha Hb].
  destruct (merge_adds demo_a demo_b Ha ltac:(vm_compute; discriminate) Hb ltac:(cbn; unfold UINT64_MAX; lia))
    as (q & E & _ & _ & Hsum & _).
  assert (Hc : merge_code demo_a demo_b = BANK_PROFILE_OK) by (vm_compute; reflexivity).
  destruct (Hsum Hc ltac:(discriminate)) as (Hcount & _ & Hd & _). rewrite Hc in E.
  exists q. split; [exact E|]. rewrite !Hcount. split; [vm_compute; reflexivity|]. split; [vm_compute; reflexivity|exact Hd].
Defined.

Definition demo_region : maps_region := mk_maps_region 20480 32768 "rw-p" "".
Definition demo_stride : bank_profile_config := demo_config <| sample_stride_pages := 2 |>.

Lemma sample_region_visits_witness :
  proper_region demo_region 4096 /\ in_u64 (sample_stride_pages demo_stride) /\
  sample_region demo_region demo_ctx example_mapping demo_stride (profile_of []) demo_world =
    sample_addresses [20480; 28672] demo_ctx example_mapping demo_stride 4096 ((profile_of []) <| pages_seen ::= fun x => u64_add x 3 |>) demo_world.
Proof.
  assert (Hr : proper_region demo_region 4096) by (unfold proper_region, UINT64_MAX; cbn; lia).
  assert (Hs : in_u64 (sample_stride_pages demo_stride)) by (unfold in_u64; cbn; lia).
  split; [exact Hr|]. split; [exact Hs|].
  destruct (sample_region_visits 0 demo_region demo_ctx example_mapping demo_stride (profile_of []) demo_world Hr Hs) as (E & _).
  exact E.
Defined.


Lemma parse_maps_line_roundtrip_witness :
  parse_maps_line (maps_line 93824992231424 93824992366592 "rw-p" 0 "00:00" 0 22 "[heap]")
    = Some (mk_maps_region 93824992231424 93824992366592 "rw-p" "[heap]").
Proof.
  apply parse_maps_line_roundtrip; unfold in_u64, UINT64_MAX, word_ok, path_ok; cbn; repeat split; lia || reflexivity.
Defined.
