(* ===== verification/ProcessSpec.v ===== *)
(** * The process table is a finite map

    [table_ok] is the invariant of the hash table (chains of probes without a
    hole, one slot per pid, an exact count); every operation preserves it, and
    through [contents] each one is an operation on a finite map from pids to
    records. *)
From S2P Require Import Prelude CString Os Cgroup Process SimOs.
From Stdlib Require Import Ascii String.
Local Open Scope Z_scope.

(** ** Probing *)

Definition in_table (i : Z) : Prop := 0 <= i < PROC_MAX.

Lemma PROC_MAX_pos : 0 < PROC_MAX.
Proof. reflexivity. Qed.

Lemma PROC_MAX_value : PROC_MAX = 32768.
Proof. reflexivity. Qed.

Lemma indices_seqZ : indices = seqZ 0 PROC_MAX.
Proof. unfold indices. rewrite zrange_seqZ, Z2Nat.id by done. done. Qed.

#[global] Opaque PROC_MAX indices.

(** The [k]-th slot of the probe sequence that starts at [h], and its inverse. *)
Definition probe (h k : Z) : Z := (h + k) mod PROC_MAX.
Definition dist (h i : Z) : Z := (i - h) mod PROC_MAX.

Lemma probe_range h k : in_table (probe h k).
Proof. apply Z.mod_pos_bound, PROC_MAX_pos. Qed.

Lemma dist_range h i : 0 <= dist h i < PROC_MAX.
Proof. apply Z.mod_pos_bound, PROC_MAX_pos. Qed.

Lemma probe_dist h i : in_table i -> probe h (dist h i) = i.
Proof.
  unfold probe, dist, in_table. pose proof PROC_MAX_pos. intros Hi. rewrite Z.add_mod_idemp_r by lia.
  replace (h + (i - h)) with i by lia. apply Z.mod_small. lia.
Qed.

Lemma dist_probe h k : 0 <= k < PROC_MAX -> dist h (probe h k) = k.
Proof.
  unfold probe, dist. intros Hk. rewrite Zminus_mod_idemp_l. replace (h + k - h) with k by lia.
  apply Z.mod_small. lia.
Qed.

Lemma hash_range p : 0 <= process_hash p < PROC_MAX.
Proof. apply Z.mod_pos_bound, PROC_MAX_pos. Qed.

Lemma elem_indices i : i ∈ indices <-> in_table i.
Proof. rewrite indices_seqZ, elem_of_seqZ. unfold in_table. lia. Qed.

Lemma indices_split k : 0 <= k < PROC_MAX ->
  indices = seqZ 0 k ++ k :: seqZ (k + 1) (PROC_MAX - k - 1).
Proof.
  intros Hk. rewrite indices_seqZ. replace PROC_MAX with (k + (1 + (PROC_MAX - k - 1))) at 1 by lia.
  rewrite seqZ_app by lia. f_equal. rewrite seqZ_app by lia. rewrite Z.add_0_l. reflexivity.
Qed.

(** ** The invariant *)

Record table_ok (t : process_table) : Prop := {
  ok_used i : in_table i -> slot t i = PROCESS_SLOT_OCCUPIED -> p_used (entry t i) = true;
  ok_pid i : in_table i -> slot t i = PROCESS_SLOT_OCCUPIED -> 0 < p_pid (entry t i);
  ok_chain i k : in_table i -> slot t i = PROCESS_SLOT_OCCUPIED ->
    0 <= k < dist (process_hash (p_pid (entry t i))) i ->
    slot t (probe (process_hash (p_pid (entry t i))) k) <> PROCESS_SLOT_EMPTY;
  ok_unique i j : in_table i -> in_table j -> slot t i = PROCESS_SLOT_OCCUPIED -> slot t j = PROCESS_SLOT_OCCUPIED ->
    p_pid (entry t i) = p_pid (entry t j) -> i = j;
  ok_free i : in_table i -> slot t i <> PROCESS_SLOT_OCCUPIED -> p_used (entry t i) = false;
  ok_count : occupied_count t = Z.of_nat (List.length (filter (fun i => slot t i = PROCESS_SLOT_OCCUPIED) indices))
}.

(** Slot [i] holds the record of process [p]. *)
Definition holds (t : process_table) (p i : Z) : Prop :=
  in_table i /\ slot t i = PROCESS_SLOT_OCCUPIED /\ p_pid (entry t i) = p.

Lemma occupied_by_spec t i p : table_ok t -> in_table i -> occupied_by t i p = true <-> slot t i = PROCESS_SLOT_OCCUPIED /\ p_pid (entry t i) = p.
Proof.
  intros Hok Hi. unfold occupied_by. rewrite !andb_true_iff, bool_decide_eq_true, Z.eqb_eq.
  split; [tauto|]. intros [Hs Hp]. by rewrite (ok_used _ Hok i Hi Hs).
Qed.

Lemma find_existing_skip t p h ps rest :
  (forall k, k ∈ ps -> slot t (probe h k) <> PROCESS_SLOT_EMPTY /\ occupied_by t (probe h k) p = false) ->
  find_existing_loop t p h (ps ++ rest) = find_existing_loop t p h rest.
Proof.
  induction ps as [|k ps IH]; intros Hall; [done|]. cbn [app find_existing_loop]. fold (probe h k).
  destruct (Hall k) as [He Ho]; [constructor|]. rewrite bool_decide_false by done. rewrite Ho.
  apply IH. intros j Hj. apply Hall. by constructor.
Qed.

Lemma find_existing_sound t p h ps i : find_existing_loop t p h ps = Some i ->
  in_table i /\ occupied_by t i p = true.
Proof.
  induction ps as [|k ps IH]; [done|]. cbn [find_existing_loop]. fold (probe h k).
  destruct (bool_decide _); [done|]. destruct (occupied_by t (probe h k) p) eqn:Ho; [|exact IH].
  intros [= <-]. split; [apply probe_range|exact Ho].
Qed.

(** Lookup finds exactly the slot that holds the process. *)
Lemma find_existing_spec t p i : table_ok t -> 0 < p -> find_existing_slot t p = Some i <-> holds t p i.
Proof.
  intros Hok Hp. unfold find_existing_slot, holds. destruct (Z.leb_spec p 0); [lia|]. split.
  - intros [Hi Ho]%find_existing_sound. apply occupied_by_spec in Ho; tauto.
  - intros (Hi & Hs & He). set (h := process_hash p).
    rewrite (indices_split (dist h i)) by apply dist_range. rewrite find_existing_skip.
    + cbn [find_existing_loop]. fold (probe h (dist h i)). rewrite probe_dist by done.
      rewrite bool_decide_false by congruence. by rewrite (proj2 (occupied_by_spec t i p Hok Hi)).
    + intros k Hk%elem_of_seqZ. split.
      * pose proof (ok_chain _ Hok i k Hi Hs) as Hc. rewrite He in Hc. apply Hc. unfold h in Hk. lia.
      * destruct (occupied_by t (probe h k) p) eqn:Ho; [|done]. exfalso.
        apply occupied_by_spec in Ho as [Ho1 Ho2]; [|done|apply probe_range].
        assert (E : probe h k = i) by (apply (ok_unique _ Hok); try done; [apply probe_range|congruence]).
        pose proof (dist_range h i). assert (Hd : dist h (probe h k) = k) by (apply dist_probe; lia). rewrite E in Hd. lia.
Qed.

Lemma find_existing_nonpos t p : p <= 0 -> find_existing_slot t p = None.
Proof. intros. unfold find_existing_slot. by rewrite (proj2 (Z.leb_le _ _)). Qed.

Lemma find_existing_none t p : table_ok t -> find_existing_slot t p = None <-> forall i, ~ holds t p i.
Proof.
  intros Hok. destruct (Z_lt_le_dec 0 p) as [Hp|Hp].
  - destruct (find_existing_slot t p) as [i|] eqn:Hf; split; try done.
    + intros Hn. apply find_existing_spec in Hf; try done. by destruct (Hn i).
    + intros _ i Hh. apply (find_existing_spec t p i Hok Hp) in Hh. congruence.
  - split; [|by intros; apply find_existing_nonpos]. intros _ i (Hi & Hs & He).
    pose proof (ok_pid _ Hok i Hi Hs). lia.
Qed.

(** ** Insertion *)

(** [s] can receive a process whose probes start at [h]. *)
Definition insertable (t : process_table) (h s : Z) : Prop :=
  in_table s /\ slot t s <> PROCESS_SLOT_OCCUPIED /\
  forall k, 0 <= k < dist h s -> slot t (probe h k) <> PROCESS_SLOT_EMPTY.

Lemma find_upsert_loop_spec t p h : forall n k ft,
  0 <= k -> k + n = PROC_MAX -> 0 <= n ->
  (forall j, 0 <= j < k -> slot t (probe h j) <> PROCESS_SLOT_EMPTY /\ occupied_by t (probe h j) p = false) ->
  (if ft =? PROC_MAX then forall j, 0 <= j < k -> slot t (probe h j) = PROCESS_SLOT_OCCUPIED else insertable t h ft) ->
  match find_upsert_loop t p h ft (seqZ k n) with
  | Some (s, true) => in_table s /\ occupied_by t s p = true
  | Some (s, false) => insertable t h s /\ forall j, 0 <= j < PROC_MAX ->
      occupied_by t (probe h j) p = true -> exists m, 0 <= m < j /\ slot t (probe h m) = PROCESS_SLOT_EMPTY
  | None => forall j, 0 <= j < PROC_MAX -> slot t (probe h j) = PROCESS_SLOT_OCCUPIED /\ occupied_by t (probe h j) p = false
  end.
Proof.
  intros n k ft Hk Hsum Hn. revert k ft Hk Hsum. pattern n. apply natlike_ind; [| |exact Hn]; clear n Hn.
  - intros k ft Hk Hsum Hpre Hft. replace (seqZ k 0) with (@nil Z) by reflexivity. cbn [find_upsert_loop].
    assert (k = PROC_MAX) as -> by lia. destruct (ft =? PROC_MAX); cbn [negb].
    { intros j Hj. split; [by apply Hft|by apply Hpre]. }
    split; [exact Hft|]. intros j Hj Ho. destruct (Hpre j Hj) as [_ E]. congruence.
  - intros n Hn IH k ft Hk Hsum Hpre Hft. rewrite seqZ_cons by lia. cbn [find_upsert_loop]. fold (probe h k).
    replace (Z.pred (Z.succ n)) with n by lia.
    assert (Hins : slot t (probe h k) <> PROCESS_SLOT_OCCUPIED -> insertable t h (probe h k)).
    { intros Hno. split; [apply probe_range|]. split; [done|]. rewrite dist_probe by lia. intros j Hj. by apply Hpre. }
    destruct (slot t (probe h k)) eqn:Hs.
    + (* EMPTY *) split.
      * destruct (ft =? PROC_MAX); cbn [negb]; [by apply Hins|exact Hft].
      * intros j Hj Ho. destruct (Z_lt_le_dec k j); [exists k; split; [lia|done]|]. exfalso.
        destruct (Z.eq_dec j k) as [->|]; [|destruct (Hpre j ltac:(lia)); congruence].
        unfold occupied_by in Ho. rewrite bool_decide_false in Ho by congruence. done.
    + (* OCCUPIED *) destruct (p_used (entry t (probe h k)) && (p_pid (entry t (probe h k)) =? p)) eqn:Hm.
      * split; [apply probe_range|]. unfold occupied_by. rewrite bool_decide_true by done. by rewrite <- andb_assoc.
      * apply IH; [lia|lia| |].
        -- intros j Hj. destruct (Z.eq_dec j k) as [->|]; [|apply Hpre; lia]. split; [congruence|].
           unfold occupied_by. by rewrite <- andb_assoc, Hm, andb_false_r.
        -- destruct (ft =? PROC_MAX); [|exact Hft]. intros j Hj. destruct (Z.eq_dec j k) as [->|]; [done|apply Hft; lia].
    + (* TOMBSTONE *) apply IH; [lia|lia| |].
      * intros j Hj. destruct (Z.eq_dec j k) as [->|]; [|apply Hpre; lia]. split; [congruence|].
        unfold occupied_by. by rewrite bool_decide_false by congruence.
      * destruct (Z.eqb_spec ft PROC_MAX) as [->|Hne].
        -- pose proof (probe_range h k) as Hr. unfold in_table in Hr. destruct (Z.eqb_spec (probe h k) PROC_MAX); [lia|].
           by apply Hins.
        -- destruct (Z.eqb_spec ft PROC_MAX); [done|exact Hft].
Qed.

Lemma find_upsert_spec t p : table_ok t -> 0 < p ->
  match find_upsert_slot t p with
  | Some (s, true) => holds t p s
  | Some (s, false) => insertable t (process_hash p) s /\ forall i, ~ holds t p i
  | None => (forall i, in_table i -> slot t i = PROCESS_SLOT_OCCUPIED) /\ forall i, ~ holds t p i
  end.
Proof.
  intros Hok Hp. unfold find_upsert_slot. destruct (Z.leb_spec p 0); [lia|].
  pose proof PROC_MAX_pos. pose proof (find_upsert_loop_spec t p (process_hash p) PROC_MAX 0 PROC_MAX) as Hl.
  rewrite Z.eqb_refl in Hl. rewrite <- indices_seqZ in Hl.
  assert (Hspec := Hl ltac:(lia) ltac:(lia) ltac:(lia) ltac:(intros; lia) ltac:(intros; lia)). clear Hl.
  destruct (find_upsert_loop t p (process_hash p) PROC_MAX indices) as [[s []]|].
  - destruct Hspec as [Hs Ho]. apply occupied_by_spec in Ho; [|done..]. done.
  - destruct Hspec as [Hi Hno]. split; [done|]. intros i (Hin & Hs & He).
    destruct (Hno (dist (process_hash p) i) (dist_range _ _)) as (m & Hm & Hempty).
    { rewrite probe_dist by done. by apply occupied_by_spec. }
    pose proof (ok_chain _ Hok i m Hin Hs) as Hc. rewrite He in Hc. by apply Hc in Hm.
  - split.
    + intros i Hin. rewrite <- (probe_dist (process_hash p) i Hin). apply Hspec, dist_range.
    + intros i (Hin & Hs & He). destruct (Hspec (dist (process_hash p) i) (dist_range _ _)) as [_ Ho].
      rewrite probe_dist in Ho by done. by rewrite (proj2 (occupied_by_spec t i p Hok Hin)) in Ho.
Qed.

(** ** Updates of one slot *)

(** [t'] is [t] with slot [s] in state [st] holding [r], and [d] more entries. *)
Definition updates (t t' : process_table) (s : Z) (st : process_slot_state) (r : proc_info) (d : Z) : Prop :=
  (forall j, slot t' j = if s =? j then st else slot t j) /\
  (forall j, entry t' j = if s =? j then r else entry t j) /\
  occupied_count t' = occupied_count t + d.

Lemma entry_set_entry t i p j : entry (set_entry t i p) j = if i =? j then p else entry t j.
Proof.
  unfold entry, set_entry. cbn [proc_table set_field]. destruct (Z.eqb_spec i j) as [->|].
  - by rewrite lookup_insert_eq.
  - by rewrite lookup_insert_ne.
Qed.

Lemma slot_set_slot t i s j : slot (set_slot t i s) j = if i =? j then s else slot t j.
Proof.
  unfold slot, set_slot. cbn [slot_states set_field]. destruct (Z.eqb_spec i j) as [->|].
  - by rewrite lookup_insert_eq.
  - by rewrite lookup_insert_ne.
Qed.

Lemma updates_entry t t' s st r r' d : updates t t' s st r d -> updates t (set_entry t' s r') s st r' d.
Proof.
  intros (Hs & He & Hc). split; [exact Hs|]. split; [|exact Hc]. intros j. rewrite entry_set_entry, He. by destruct (s =? j).
Qed.

Lemma updates_here t s r : updates t (set_entry t s r) s (slot t s) r 0.
Proof.
  split; [|split].
  - intros j. change (slot (set_entry t s r) j) with (slot t j). by destruct (Z.eqb_spec s j) as [->|].
  - intros j. apply entry_set_entry.
  - cbn. lia.
Qed.

Definition occupied (t : process_table) : list Z := filter (fun i => slot t i = PROCESS_SLOT_OCCUPIED) indices.

Lemma indices_nodup : NoDup indices.
Proof. rewrite indices_seqZ. apply NoDup_seqZ. Qed.

Lemma occupied_length t : Z.of_nat (List.length (occupied t)) <= PROC_MAX.
Proof.
  unfold occupied. pose proof (length_filter (fun i => slot t i = PROCESS_SLOT_OCCUPIED) indices) as Hl.
  assert (List.length indices = Z.to_nat PROC_MAX) as E by (rewrite indices_seqZ; apply length_seqZ). rewrite E in Hl.
  pose proof PROC_MAX_pos. lia.
Qed.

Lemma occupied_full t : (forall i, in_table i -> slot t i = PROCESS_SLOT_OCCUPIED) ->
  Z.of_nat (List.length (occupied t)) = PROC_MAX.
Proof.
  intros Hall. unfold occupied. rewrite filter_all by (apply Forall_forall; intros i Hi%elem_indices; by apply Hall).
  rewrite indices_seqZ, length_seqZ. pose proof PROC_MAX_pos. lia.
Qed.

Lemma occupied_insert t t' s r : in_table s -> slot t s <> PROCESS_SLOT_OCCUPIED ->
  updates t t' s PROCESS_SLOT_OCCUPIED r 1 ->
  List.length (occupied t') = S (List.length (occupied t)).
Proof.
  intros Hs Hno (Hslot & _ & _). apply (filter_point _ _ _ s); [apply indices_nodup|by apply elem_indices| |done|].
  - intros j Hj. rewrite Hslot. destruct (Z.eqb_spec s j); [congruence|done].
  - rewrite Hslot, Z.eqb_refl. done.
Qed.

Lemma occupied_remove t t' s r d : in_table s -> slot t s = PROCESS_SLOT_OCCUPIED ->
  updates t t' s PROCESS_SLOT_TOMBSTONE r d ->
  List.length (occupied t) = S (List.length (occupied t')).
Proof.
  intros Hs Ho (Hslot & _ & _). apply (filter_point _ _ _ s); [apply indices_nodup|by apply elem_indices| | |done].
  - intros j Hj. rewrite Hslot. destruct (Z.eqb_spec s j); [congruence|done].
  - by rewrite Hslot, Z.eqb_refl.
Qed.

(** ** The table as a map *)

Definition contents (t : process_table) (p : Z) : option proc_info := entry t <$> process_get t p.

Lemma contents_spec t p r : table_ok t -> contents t p = Some r <-> 0 < p /\ exists i, holds t p i /\ entry t i = r.
Proof.
  intros Hok. unfold contents, process_get. destruct (Z_lt_le_dec 0 p) as [Hp|Hp].
  - split.
    + destruct (find_existing_slot t p) as [i|] eqn:Hf; [|done]. intros [= <-]. split; [done|]. exists i.
      split; [by apply find_existing_spec|done].
    + intros (_ & i & Hh & <-). apply (find_existing_spec t p i Hok Hp) in Hh. by rewrite Hh.
  - rewrite find_existing_nonpos by done. split; [done|]. intros [? _]. lia.
Qed.

Lemma contents_none t p : table_ok t -> contents t p = None <-> forall i, ~ holds t p i.
Proof. intros Hok. unfold contents, process_get. rewrite <- find_existing_none by done. by destruct (find_existing_slot t p). Qed.

(** Two tables that hold the same have the same contents. *)
Lemma contents_update t t' p r : table_ok t -> table_ok t' -> 0 < p ->
  (exists i, holds t' p i /\ entry t' i = r) ->
  (forall q i, q <> p -> holds t' q i <-> holds t q i) -> (forall q i, q <> p -> holds t q i -> entry t' i = entry t i) ->
  forall q, contents t' q = if p =? q then Some r else contents t q.
Proof.
  intros Hok Hok' Hp Hex Hother Hsame q. destruct (Z.eqb_spec p q) as [<-|Hne].
  - apply contents_spec; done.
  - destruct (contents t q) as [x|] eqn:Hc.
    + apply contents_spec in Hc as (Hq & i & Hh & <-); [|done]. apply contents_spec; [done|]. split; [done|].
      exists i. split; [by apply Hother|]. by apply (Hsame q).
    + apply contents_none; [done|]. intros i Hh%Hother; [|done]. by apply (proj1 (contents_none t q Hok) Hc i).
Qed.

(** Overwriting the record of a process. *)
Lemma overwrite_ok t t' p s r : table_ok t -> holds t p s -> updates t t' s PROCESS_SLOT_OCCUPIED r 0 ->
  p_used r = true -> p_pid r = p ->
  table_ok t' /\ forall q, contents t' q = if p =? q then Some r else contents t q.
Proof.
  intros Hok (Hin & Hs & Hp) Hup Hu Hr. pose proof Hup as (Hslot & Hent & Hcnt). pose proof (ok_pid _ Hok s Hin Hs) as Hpos.
  assert (Hslot' : forall j, slot t' j = slot t j) by (intros j; rewrite Hslot; by destruct (Z.eqb_spec s j) as [->|]).
  assert (Hpid : forall j, p_pid (entry t' j) = p_pid (entry t j)).
  { intros j. rewrite Hent. destruct (Z.eqb_spec s j) as [<-|]; [congruence|done]. }
  assert (Hok' : table_ok t').
  { constructor.
    - intros i Hi Ho. rewrite Hent. rewrite Hslot' in Ho. destruct (s =? i); [done|]. by apply Hok.
    - intros i Hi Ho. rewrite Hpid. rewrite Hslot' in Ho. by apply Hok.
    - intros i k Hi Ho. rewrite Hpid, Hslot'. rewrite Hslot' in Ho. by apply Hok.
    - intros i j Hi Hj. rewrite !Hpid, !Hslot'. by apply Hok.
    - intros i Hi. rewrite Hslot', Hent. intros Ho. destruct (Z.eqb_spec s i) as [<-|]; [done|]. by apply Hok.
    - rewrite Hcnt, (ok_count _ Hok), Z.add_0_r. do 2 f_equal. apply filter_agree. intros i _. by rewrite Hslot'. }
  split; [exact Hok'|]. apply contents_update; try done.
  - lia.
  - exists s. rewrite Hent, Z.eqb_refl. split; [|done]. split; [done|]. rewrite Hslot', Hpid. done.
  - intros q i Hq. unfold holds. by rewrite Hslot', Hpid.
  - intros q i Hq (_ & _ & Hi). rewrite Hent. destruct (Z.eqb_spec s i) as [<-|]; [congruence|done].
Qed.

(** Inserting the record of a new process. *)
Lemma insert_ok t t' p s r : table_ok t -> insertable t (process_hash p) s -> (forall i, ~ holds t p i) -> 0 < p ->
  updates t t' s PROCESS_SLOT_OCCUPIED r 1 -> p_used r = true -> p_pid r = p ->
  table_ok t' /\ forall q, contents t' q = if p =? q then Some r else contents t q.
Proof.
  intros Hok (Hin & Hno & Hchain) Hnew Hpos Hup Hu Hr. pose proof Hup as (Hslot & Hent & Hcnt).
  assert (Hne : forall j, slot t' j <> PROCESS_SLOT_EMPTY \/ slot t' j = slot t j).
  { intros j. rewrite Hslot. destruct (s =? j); [by left|by right]. }
  assert (Hok' : table_ok t').
  { constructor.
    - intros i Hi Ho. rewrite Hent. rewrite Hslot in Ho. destruct (s =? i); [done|]. by apply Hok.
    - intros i Hi Ho. rewrite Hent. rewrite Hslot in Ho. destruct (s =? i); [lia|]. by apply Hok.
    - intros i k Hi Ho. rewrite Hent. rewrite Hslot in Ho. destruct (Z.eqb_spec s i) as [<-|Hsi].
      + rewrite Hr. intros Hk. rewrite Hslot. destruct (s =? _); [done|]. by apply Hchain.
      + intros Hk. rewrite Hslot. destruct (s =? _); [done|]. by apply Hok.
    - intros i j Hi Hj. rewrite !Hent, !Hslot. destruct (Z.eqb_spec s i) as [<-|], (Z.eqb_spec s j) as [<-|]; try done.
      + intros _ Ho E. exfalso. apply (Hnew j). split; [done|]. split; [done|]. congruence.
      + intros Ho _ E. exfalso. apply (Hnew i). split; [done|]. split; [done|]. congruence.
      + by apply Hok.
    - intros i Hi. rewrite Hslot, Hent. destruct (Z.eqb_spec s i) as [<-|]; [done|]. by apply Hok.
    - fold (occupied t'). rewrite (occupied_insert t t' s r Hin Hno Hup). rewrite Hcnt, (ok_count _ Hok). fold (occupied t). lia. }
  split; [exact Hok'|]. apply contents_update; try done.
  - exists s. rewrite Hent, Z.eqb_refl. split; [|done]. split; [done|]. rewrite Hslot, Hent, Z.eqb_refl. done.
  - intros q i Hq. unfold holds. rewrite Hslot, Hent. destruct (Z.eqb_spec s i) as [<-|]; [|done].
    split; [intros (_ & _ & E); congruence|]. intros (_ & Ho & _). done.
  - intros q i Hq (_ & Ho & _). rewrite Hent. destruct (Z.eqb_spec s i) as [<-|]; [done|done].
Qed.

(** Removing a process leaves a tombstone. *)
Lemma remove_ok t t' p s : table_ok t -> holds t p s -> updates t t' s PROCESS_SLOT_TOMBSTONE proc_info_zero (-1) ->
  table_ok t' /\ forall q, contents t' q = if p =? q then None else contents t q.
Proof.
  intros Hok Hh Hup. pose proof Hh as (Hin & Hs & Hp). pose proof Hup as (Hslot & Hent & Hcnt).
  assert (Hocc : forall i, slot t' i = PROCESS_SLOT_OCCUPIED -> s <> i /\ slot t i = PROCESS_SLOT_OCCUPIED /\ entry t' i = entry t i).
  { intros i. rewrite Hslot, Hent. by destruct (Z.eqb_spec s i). }
  assert (Hok' : table_ok t').
  { constructor.
    - intros i Hi (_ & Ho & ->)%Hocc. by apply Hok.
    - intros i Hi (_ & Ho & ->)%Hocc. by apply Hok.
    - intros i k Hi (_ & Ho & ->)%Hocc Hk. rewrite Hslot. destruct (s =? _); [done|]. by apply Hok.
    - intros i j Hi Hj (_ & Ho & ->)%Hocc (_ & Ho' & ->)%Hocc. by apply Hok.
    - intros i Hi. rewrite Hslot, Hent. destruct (s =? i); [done|]. by apply Hok.
    - fold (occupied t'). pose proof (occupied_remove t t' s _ _ Hin Hs Hup) as Hl. rewrite Hcnt, (ok_count _ Hok).
      fold (occupied t). lia. }
  split; [exact Hok'|]. intros q. destruct (Z.eqb_spec p q) as [<-|Hne].
  - apply contents_none; [done|]. intros i (Hi & (Hsi & Ho & He)%Hocc & Hpi). rewrite He in Hpi.
    apply Hsi. apply (ok_unique _ Hok); try done. congruence.
  - destruct (contents t q) as [x|] eqn:Hc.
    + apply contents_spec in Hc as (Hq & i & (Hi & Ho & Hpi) & <-); [|done]. apply contents_spec; [done|]. split; [done|].
      assert (s <> i) by congruence. exists i. unfold holds. rewrite Hslot, Hent. destruct (Z.eqb_spec s i); done.
    + apply contents_none; [done|]. intros i (Hi & (Hsi & Ho & He)%Hocc & Hpi).
      apply (proj1 (contents_none t q Hok) Hc i). rewrite He in Hpi. done.
Qed.

(** ** The operations on the map *)

Lemma table_ok_reset t : table_ok (process_table_reset t).
Proof.
  constructor; [done|done|done|done|done|]. unfold process_table_reset. cbn [occupied_count].
  rewrite (filter_agree _ (fun _ => False)) by (intros i _; done).
  assert (E : forall l : list Z, filter (fun _ => False) l = []) by (induction l as [|x l IH]; [done|]; rewrite filter_cons_False; auto).
  by rewrite E.
Qed.

Lemma count_bound t : table_ok t -> 0 <= occupied_count t <= PROC_MAX.
Proof. intros Hok. rewrite (ok_count _ Hok). pose proof (occupied_length t). unfold occupied in *. lia. Qed.

Lemma count_room t t' s r : table_ok t -> in_table s -> slot t s <> PROCESS_SLOT_OCCUPIED ->
  updates t t' s PROCESS_SLOT_OCCUPIED r 1 -> occupied_count t < PROC_MAX.
Proof.
  intros Hok Hs Hno Hup. rewrite (ok_count _ Hok). fold (occupied t). pose proof (occupied_insert _ _ _ _ Hs Hno Hup).
  pose proof (occupied_length t'). lia.
Qed.

(** [prepare_upsert] fails exactly when a new process does not fit. *)
Lemma prepare_upsert_spec t p : table_ok t -> 0 < p ->
  match prepare_upsert t p with
  | Some (s, true, t') => t' = t /\ holds t p s
  | Some (s, false, t') => insertable t (process_hash p) s /\ (forall i, ~ holds t p i) /\
      updates t t' s PROCESS_SLOT_OCCUPIED proc_info_zero 1
  | None => occupied_count t = PROC_MAX /\ forall i, ~ holds t p i
  end.
Proof.
  intros Hok Hp. unfold prepare_upsert. pose proof (find_upsert_spec t p Hok Hp) as Hs.
  destruct (find_upsert_slot t p) as [[s []]|]; [done| |].
  - destruct Hs as [Hins Hno]. pose proof Hins as (Hin & Hfree & _).
    set (t1 := (set_slot _ s PROCESS_SLOT_OCCUPIED) <| occupied_count ::= u64_inc |>).
    assert (Hup : updates t t1 s PROCESS_SLOT_OCCUPIED proc_info_zero 1).
    { split; [intros j; apply (slot_set_slot (set_entry t s proc_info_zero))|].
      split; [intros j; apply (entry_set_entry t)|]. change (u64_inc (occupied_count t) = occupied_count t + 1).
      pose proof (count_bound t Hok) as Hb. rewrite PROC_MAX_value in Hb. apply u64_small. unfold in_u64. lia. }
    pose proof (count_room _ _ _ _ Hok Hin Hfree Hup) as Hroom.
    destruct (Z.leb_spec PROC_MAX (occupied_count t)); [lia|]. done.
  - destruct Hs as [Hall Hno]. split; [|exact Hno]. rewrite (ok_count _ Hok). by apply occupied_full.
Qed.

(** The record a fork event creates. *)
Definition fork_record (e : event) (inherits : bool) : proc_info :=
  mk_proc_info true (e_child_pid e) (e_pid e) (e_uid e) false false inherits inherits
    (if inherits then GROUP_PROTECTED else GROUP_UNKNOWN) (snprintf TASK_COMM_LEN (c_str (e_comm e))) "" "".

(** The record an exec event creates from the old one. *)
Definition exec_record (e : event) (old : option proc_info) (exe cmd : string) : proc_info :=
  mk_proc_info true (e_pid e) (e_ppid e) (e_uid e) true false
    (match old with Some p => p_is_protected p | None => false end)
    (match old with Some p => p_inherited_protected p | None => false end)
    (match old with Some p => p_group p | None => GROUP_UNKNOWN end)
    (snprintf TASK_COMM_LEN (c_str (e_comm e))) exe cmd.

Definition protected_now (t : process_table) (p : Z) : bool :=
  match contents t p with Some r => p_is_protected r | None => false end.

Lemma contents_holds t p i : table_ok t -> holds t p i -> contents t p = Some (entry t i).
Proof.
  intros Hok Hh. apply contents_spec; [done|]. pose proof Hh as (Hi & Ho & <-). split; [by apply Hok|eauto].
Qed.

Lemma get_holds t p i : table_ok t -> process_get t p = Some i -> 0 < p /\ holds t p i.
Proof.
  intros Hok Hg. unfold process_get in Hg. destruct (Z_lt_le_dec 0 p); [|by rewrite find_existing_nonpos in Hg].
  split; [done|]. by apply find_existing_spec.
Qed.

(** The outcome of an upsert of process [p] with final record [r]. *)
Definition upserted (t t' : process_table) (p : Z) (res : option Z) (r : proc_info) : Prop :=
  exists i, res = Some i /\ holds t' p i /\ entry t' i = r /\ table_ok t' /\
    (forall q, contents t' q = if p =? q then Some r else contents t q) /\
    occupied_count t' = occupied_count t + match contents t p with Some _ => 0 | None => 1 end.

(** Whatever final record is stored after [prepare_upsert]. *)
Lemma upsert_final t p s found t1 r : table_ok t -> 0 < p -> prepare_upsert t p = Some (s, found, t1) ->
  p_used r = true -> p_pid r = p -> upserted t (set_entry t1 s r) p (Some s) r /\ (found = true <-> contents t p <> None) /\
  (found = true -> contents t p = Some (entry t1 s)).
Proof.
  intros Hok Hp Hprep Hu Hr. pose proof (prepare_upsert_spec t p Hok Hp) as Hs. rewrite Hprep in Hs.
  assert (He : entry (set_entry t1 s r) s = r) by (by rewrite entry_set_entry, Z.eqb_refl).
  destruct found.
  - destruct Hs as [-> Hh]. pose proof Hh as (Hin & Ho & Hpi). pose proof (contents_holds _ _ _ Hok Hh) as Hc.
    pose proof (updates_here t s r) as Hup. rewrite Ho in Hup.
    destruct (overwrite_ok _ _ _ _ _ Hok Hh Hup Hu Hr) as [Hok' Hcont].
    split; [|by rewrite Hc]. exists s. split; [done|]. split; [|split; [done|split; [done|split; [done|]]]].
    + split; [done|]. split; [exact Ho|]. by rewrite He.
    + rewrite Hc. destruct Hup as (_ & _ & ->). done.
  - destruct Hs as (Hins & Hno & Hup). apply (updates_entry _ _ _ _ _ r) in Hup as Hup'.
    destruct (insert_ok _ _ _ _ _ Hok Hins Hno Hp Hup' Hu Hr) as [Hok' Hcont].
    pose proof (proj2 (contents_none t p Hok) Hno) as Hc. split; [|by rewrite Hc].
    exists s. split; [done|]. split; [|split; [done|split; [done|split; [done|]]]].
    + destruct Hins as (Hin & _). split; [done|]. destruct Hup' as (Hsl & _). rewrite Hsl, Z.eqb_refl, He. done.
    + rewrite Hc. destruct Hup' as (_ & _ & ->). done.
Qed.

Lemma set_entry_twice t s r r' : set_entry (set_entry t s r) s r' = set_entry t s r'.
Proof.
  change (mk_process_table (<[s := r']> (<[s := r]> (proc_table t))) (slot_states t) (occupied_count t) =
    mk_process_table (<[s := r']> (proc_table t)) (slot_states t) (occupied_count t)).
  by rewrite insert_insert_eq.
Qed.

Lemma upsert_fork_spec t e : table_ok t -> 0 < e_pid e -> 0 < e_child_pid e ->
  let '(res, t') := process_upsert_fork t (Some e) in
  match prepare_upsert t (e_child_pid e) with
  | None => res = None /\ t' = t
  | Some _ => upserted t t' (e_child_pid e) res (fork_record e (negb (e_pid e =? e_child_pid e) && protected_now t (e_pid e)))
  end.
Proof.
  intros Hok Hp Hc. unfold process_upsert_fork.
  destruct (Z.leb_spec (e_pid e) 0), (Z.leb_spec (e_child_pid e) 0); try lia. cbn [orb].
  destruct (prepare_upsert t (e_child_pid e)) as [[[s found] t1]|] eqn:Hprep; [|done].
  set (r0 := proc_info_zero <| p_used := true |> <| p_pid := e_child_pid e |> <| p_ppid := e_pid e |>
    <| p_uid := e_uid e |> <| p_group := GROUP_UNKNOWN |> <| p_comm := _ |>).
  pose proof (prepare_upsert_spec t _ Hok Hc) as Hspec. rewrite Hprep in Hspec.
  assert (Hentry : forall q, process_get t (e_pid e) = Some q -> q <> s -> entry t1 q = entry t q).
  { intros q Hq Hne. destruct found; [by destruct Hspec as [-> _]|]. destruct Hspec as (_ & _ & _ & He & _). rewrite He.
    by destruct (Z.eqb_spec s q). }
  assert (Hsame : forall q, process_get t (e_pid e) = Some q -> q = s <-> e_pid e = e_child_pid e).
  { intros q Hq. apply get_holds in Hq as [_ (Hin & Ho & Hpq)]; [|done]. destruct found.
    - destruct Hspec as [-> (Hin' & Ho' & Hps)]. split; [intros ->; congruence|]. intros E. apply (ok_unique _ Hok); congruence.
    - destruct Hspec as ((_ & Hfree & _) & Hno & _). split; [congruence|]. intros E. destruct (Hno q). split; [done|]. by rewrite <- E. }
  unfold protected_now. unfold contents at 1. destruct (process_get t (e_pid e)) as [q|] eqn:Hq; cbn [option_map fmap option_fmap].
  - rewrite !entry_set_entry, Z.eqb_refl. destruct (Z.eqb_spec s q) as [Hsq|Hsq].
    + rewrite (proj2 (Z.eqb_eq _ _)) by (by apply (Hsame q)). cbn [p_used p_is_protected andb negb].
      change (upserted t (set_entry t1 s (fork_record e false)) (e_child_pid e) (Some s) (fork_record e false)).
      by apply (upsert_final _ _ _ found).
    + rewrite (Hentry q) by congruence. destruct (Z.eqb_spec (e_pid e) (e_child_pid e)) as [E|]; [by apply (Hsame q) in E|].
      cbn [negb andb]. apply get_holds in Hq as [_ (Hin & Ho & _)]; [|done]. rewrite (ok_used _ Hok q Hin Ho). cbn [andb].
      destruct (p_is_protected (entry t q)); [rewrite set_entry_twice|];
        match goal with |- upserted _ (set_entry _ _ ?r) _ _ ?r' => change r with r' end; by apply (upsert_final _ _ _ found).
  - rewrite andb_false_r. change r0 with (fork_record e false). by apply (upsert_final _ _ _ found).
Qed.

Lemma read_exe_frame {W} `{OS W} p (w : W) rc q w' : process_read_exe (Some p) w = (rc, q, w') ->
  exists x, q = Some (p <| p_exe_path := x |>).
Proof.
  assert (Hid : exists x, Some p = Some (p <| p_exe_path := x |>)) by (exists (p_exe_path p); by destruct p).
  unfold process_read_exe. destruct (p_pid p <=? 0); [by intros [= <- <- <-]|].
  destruct (256 <=? _); [intros [= <- <- <-]; eauto|]. destruct (os_readlink _ w) as [[target|] w1]; intros [= <- <- <-]; eauto.
Qed.

Lemma read_cmdline_frame {W} `{OS W} p (w : W) rc q w' : process_read_cmdline (Some p) w = (rc, q, w') ->
  exists x, q = Some (p <| p_cmdline := x |>).
Proof.
  assert (Hid : exists x, Some p = Some (p <| p_cmdline := x |>)) by (exists (p_cmdline p); by destruct p).
  unfold process_read_cmdline. destruct (p_pid p <=? 0); [by intros [= <- <- <-]|].
  destruct (256 <=? _); [intros [= <- <- <-]; eauto|]. destruct (os_fopen _ w) as [[f|] w1]; [|intros [= <- <- <-]; eauto].
  destruct (os_fclose w1) as [[] w2]; cbn [negb]; [|intros [= <- <- <-]; eauto].
  destruct (_ =? 0); intros [= <- <- <-]; eauto.
Qed.

Lemma upsert_exec_spec {W} `{OS W} t e (w : W) : table_ok t -> 0 < e_pid e ->
  let '(res, t', w') := process_upsert_exec t (Some e) w in
  match prepare_upsert t (e_pid e) with
  | None => res = None /\ t' = t /\ w' = w
  | Some _ => exists exe cmd, upserted t t' (e_pid e) res (exec_record e (contents t (e_pid e)) exe cmd)
  end.
Proof.
  intros Hok Hp. unfold process_upsert_exec. destruct (Z.leb_spec (e_pid e) 0); [lia|].
  destruct (prepare_upsert t (e_pid e)) as [[[s found] t1]|] eqn:Hprep; [|done].
  set (r0 := if negb found then _ else _).
  destruct (process_read_exe (Some (r0 <| p_comm := _ |>)) w) as [[rc1 q1] w1] eqn:H1.
  apply read_exe_frame in H1 as [exe ->].
  destruct (process_read_cmdline _ w1) as [[rc2 q2] w2] eqn:H2. apply read_cmdline_frame in H2 as [cmd ->].
  cbn [default]. exists exe, cmd.
  assert (Hr : exists r, r = exec_record e (contents t (e_pid e)) exe cmd /\
    r = r0 <| p_comm := snprintf TASK_COMM_LEN (c_str (e_comm e)) |> <| p_exe_path := exe |> <| p_cmdline := cmd |>).
  { eexists. split; [reflexivity|]. destruct (upsert_final t (e_pid e) s found t1 (fork_record (mk_event 0 0 0 (e_pid e) 0 "") false) Hok Hp Hprep eq_refl eq_refl)
      as (_ & Hf & Hc). unfold r0, exec_record. destruct found.
    - rewrite Hc by done. reflexivity.
    - destruct (contents t (e_pid e)); [|reflexivity]. destruct Hf as [_ Hf]. by discriminate Hf. }
  destruct Hr as (r & -> & <-). by apply (upsert_final _ _ _ found).
Qed.

Lemma remove_spec t p : table_ok t ->
  table_ok (process_remove t p) /\ (forall q, contents (process_remove t p) q = if p =? q then None else contents t q) /\
  occupied_count (process_remove t p) = occupied_count t - match contents t p with Some _ => 1 | None => 0 end.
Proof.
  intros Hok. unfold process_remove. destruct (find_existing_slot t p) as [s|] eqn:Hf.
  - apply get_holds in Hf as [Hp Hh]; [|done]. pose proof Hh as (Hin & Ho & Hpi).
    rewrite (contents_holds _ _ _ Hok Hh).
    set (t1 := set_slot (set_entry t s proc_info_zero) s PROCESS_SLOT_TOMBSTONE).
    assert (Hpos : 0 < occupied_count t1).
    { change (0 < occupied_count t). rewrite (ok_count _ Hok).
      assert (Hin' : s ∈ filter (fun i => slot t i = PROCESS_SLOT_OCCUPIED) indices) by (apply list_elem_of_filter; split; [done|by apply elem_indices]).
      destruct (filter _ indices); [by apply elem_of_nil in Hin'|]. cbn [List.length]. lia. }
    rewrite (proj2 (Z.ltb_lt _ _) Hpos).
    assert (Hup : updates t (t1 <| occupied_count := occupied_count t1 - 1 |>) s PROCESS_SLOT_TOMBSTONE proc_info_zero (-1)).
    { split; [intros j; apply (slot_set_slot (set_entry t s proc_info_zero))|]. split; [intros j; apply (entry_set_entry t)|].
      change (occupied_count t - 1 = occupied_count t + -1). lia. }
    destruct (remove_ok _ _ _ _ Hok Hh Hup) as [Hok' Hc]. split; [done|]. split; [done|]. by destruct Hup as (_ & _ & ->).
  - assert (Hc : contents t p = None) by (unfold contents, process_get; by rewrite Hf).
    rewrite Hc. split; [done|]. split; [|lia]. intros q. by destruct (Z.eqb_spec p q) as [<-|].
Qed.

Lemma snapshot_check_spec t l c : table_ok t -> (forall i, i ∈ l -> in_table i) ->
  snapshot_check t c l = Some (c + Z.of_nat (List.length (filter (fun i => slot t i = PROCESS_SLOT_OCCUPIED) l))).
Proof.
  intros Hok. revert c. induction l as [|i l IH]; intros c Hl; [cbn; f_equal; lia|]. cbn [snapshot_check]. rewrite filter_cons.
  pose proof (Hl i (list_elem_of_here _ _)) as Hi. assert (Hl' : forall j, j ∈ l -> in_table j) by (intros j Hj; apply Hl; by constructor).
  destruct (decide (slot t i = PROCESS_SLOT_OCCUPIED)) as [Ho|Ho].
  - rewrite bool_decide_true by done. rewrite (ok_used _ Hok i Hi Ho). pose proof (ok_pid _ Hok i Hi Ho).
    destruct (Z.leb_spec (p_pid (entry t i)) 0); [lia|]. cbn [negb orb]. rewrite IH by done. cbn [List.length]. f_equal. lia.
  - rewrite bool_decide_false by done. rewrite (ok_free _ Hok i Hi Ho). by apply IH.
Qed.

Lemma snapshot_copy_spec t l : snapshot_copy t l = map (entry t) (filter (fun i => slot t i = PROCESS_SLOT_OCCUPIED) l).
Proof.
  induction l as [|i l IH]; [done|]. cbn [snapshot_copy]. rewrite filter_cons.
  destruct (decide (slot t i = PROCESS_SLOT_OCCUPIED)); [rewrite bool_decide_true by done|rewrite bool_decide_false by done];
    cbn [negb map]; by rewrite IH.
Qed.

(** The entries a snapshot copies. *)
Definition entries (t : process_table) : list proc_info := map (entry t) (occupied t).

Lemma elem_occupied t i : i ∈ occupied t <-> in_table i /\ slot t i = PROCESS_SLOT_OCCUPIED.
Proof. unfold occupied. rewrite list_elem_of_filter, elem_indices. tauto. Qed.

Lemma entries_spec t : table_ok t ->
  Z.of_nat (List.length (entries t)) = occupied_count t /\ NoDup (map p_pid (entries t)) /\
  forall r, r ∈ entries t <-> contents t (p_pid r) = Some r.
Proof.
  intros Hok. unfold entries. split; [|split].
  - rewrite length_map, (ok_count _ Hok). done.
  - rewrite map_map. apply NoDup_ListNoDup. apply List.NoDup_map_NoDup_ForallPairs; [|apply NoDup_ListNoDup, NoDup_filter, indices_nodup].
    intros i j Hi%list_elem_of_In%elem_occupied Hj%list_elem_of_In%elem_occupied E. destruct Hi, Hj. by apply (ok_unique _ Hok).
  - intros r. rewrite list_elem_of_In, in_map_iff. split.
    + intros (i & <- & Hi%list_elem_of_In%elem_occupied). apply contents_holds; [done|]. by destruct Hi.
    + intros Hc. apply contents_spec in Hc as (_ & i & (Hi & Ho & _) & He); [|done]. exists i. split; [done|].
      by apply list_elem_of_In, elem_occupied.
Qed.
