(* ===== verification/ProcessProps.v ===== *)
(** * Properties of the process table

    Every table the operations can build is a finite map from pids to records. *)
From S2P Require Import Prelude CString Os Cgroup Process SimOs ProcessSpec.
From Stdlib Require Import Ascii String.
Local Open Scope Z_scope.

(** The tables the daemon can build. *)
Inductive reachable_table {W} `{OS W} : process_table -> Prop :=
| rt_reset t : reachable_table (process_table_reset t)
| rt_exec t e w res t' w' : reachable_table t -> process_upsert_exec t e w = (res, t', w') -> reachable_table t'
| rt_fork t e res t' : reachable_table t -> process_upsert_fork t e = (res, t') -> reachable_table t'
| rt_remove t p : reachable_table t -> reachable_table (process_remove t p).

Lemma exec_ok {W} `{OS W} t e (w : W) : table_ok t -> table_ok (process_upsert_exec t e w).1.2.
Proof.
  intros Hok. destruct e as [e|]; [|done]. destruct (Z_lt_le_dec 0 (e_pid e)) as [Hp|Hp].
  - pose proof (upsert_exec_spec t e w Hok Hp) as Hs. destruct (process_upsert_exec t (Some e) w) as [[res t'] w'].
    destruct (prepare_upsert t (e_pid e)); [|by destruct Hs as (_ & -> & _)]. by destruct Hs as (? & ? & ? & _ & _ & _ & Hok' & _).
  - unfold process_upsert_exec. by rewrite (proj2 (Z.leb_le _ _) Hp).
Qed.

Lemma fork_ok t e : table_ok t -> table_ok (process_upsert_fork t e).2.
Proof.
  intros Hok. destruct e as [e|]; [|done].
  destruct (Z_lt_le_dec 0 (e_pid e)) as [Hp|Hp]; [destruct (Z_lt_le_dec 0 (e_child_pid e)) as [Hc|Hc]|].
  - pose proof (upsert_fork_spec t e Hok Hp Hc) as Hs. destruct (process_upsert_fork t (Some e)) as [res t'].
    destruct (prepare_upsert t (e_child_pid e)); [|by destruct Hs as [_ ->]]. by destruct Hs as (? & _ & _ & _ & Hok' & _).
  - unfold process_upsert_fork. by rewrite (proj2 (Z.leb_le (e_child_pid e) _) Hc), orb_true_r.
  - unfold process_upsert_fork. by rewrite (proj2 (Z.leb_le (e_pid e) _) Hp).
Qed.

Lemma reachable_ok {W} `{OS W} t : reachable_table t -> table_ok t.
Proof.
  intros Hr. induction Hr as [t|t e w res t' w' _ IH He|t e res t' _ IH He|t p _ IH].
  - apply table_ok_reset.
  - pose proof (exec_ok t e w IH) as Ho. by rewrite He in Ho.
  - pose proof (fork_ok t e IH) as Ho. by rewrite He in Ho.
  - by apply remove_spec.
Qed.

(** C23: In every table built by resets, execs, forks and removals the hash table
    is sound: each pid occupies at most one slot, [process_get] finds a process
    exactly when some slot holds it (tombstones never hide an entry), NULL means
    it is in no slot, and [process_table_count] is the number of occupied slots. *)
Theorem table_invariant {W} `{OS W} t p :
  reachable_table t ->
  (forall i, process_get t p = Some i <-> 0 <= i < PROC_MAX /\ slot t i = PROCESS_SLOT_OCCUPIED /\ p_pid (entry t i) = p) /\
  (forall i j, 0 <= i < PROC_MAX -> 0 <= j < PROC_MAX -> slot t i = PROCESS_SLOT_OCCUPIED -> slot t j = PROCESS_SLOT_OCCUPIED ->
     p_pid (entry t i) = p_pid (entry t j) -> i = j) /\
  process_table_count t = Z.of_nat (List.length (filter (fun i => slot t i = PROCESS_SLOT_OCCUPIED) (seqZ 0 PROC_MAX))).
Proof.
  intros Hok%reachable_ok. split; [|split; [exact (ok_unique _ Hok)|rewrite <- indices_seqZ; exact (ok_count _ Hok)]].
  intros i. unfold process_get. destruct (Z_lt_le_dec 0 p) as [Hp|Hp]; [by apply find_existing_spec|].
  rewrite find_existing_nonpos by done. split; [done|]. intros (Hi & Ho & He). pose proof (ok_pid _ Hok i Hi Ho). lia.
Qed.

(** [process_upsert_fork] inserts or replaces exactly the child's record, with
    the parent's protection; it returns NULL, changing nothing, exactly when the
    child is new and all 32768 slots are occupied.  When parent and child are the
    same process the record is overwritten first, so the protection is lost. *)
Theorem upsert_fork_updates_map t e :
  table_ok t -> 0 < e_pid e -> 0 < e_child_pid e ->
  let '(res, t') := process_upsert_fork t (Some e) in
  let inherits := negb (e_pid e =? e_child_pid e) && match contents t (e_pid e) with Some r => p_is_protected r | None => false end in
  (res = None <-> contents t (e_child_pid e) = None /\ process_table_count t = process_table_capacity) /\
  (res = None -> t' = t) /\
  (res <> None -> table_ok t' /\ (forall q, contents t' q =
       if e_child_pid e =? q then Some (fork_record e inherits) else contents t q) /\
     process_table_count t' = process_table_count t + match contents t (e_child_pid e) with Some _ => 0 | None => 1 end).
Proof.
  intros Hok Hp Hc. pose proof (upsert_fork_spec t e Hok Hp Hc) as Hs. pose proof (prepare_upsert_spec t _ Hok Hc) as Hq.
  destruct (process_upsert_fork t (Some e)) as [res t']. unfold process_table_count, process_table_capacity.
  destruct (prepare_upsert t (e_child_pid e)) as [[[s found] t1]|] eqn:Hprep.
  - destruct Hs as (i & -> & _ & _ & Hok' & Hcont & Hcnt). split; [|split; [done|done]]. split; [done|]. intros [Hn Hfull]. exfalso.
    destruct found; [destruct Hq as [-> Hh]; by rewrite (contents_holds _ _ _ Hok Hh) in Hn|].
    destruct Hq as ((Hin & Hfree & _) & _ & Hup). pose proof (count_room _ _ _ _ Hok Hin Hfree Hup). lia.
  - destruct Hs as [-> ->]. destruct Hq as [Hfull Hno]. split; [|done]. split; [|done]. intros _.
    split; [by apply contents_none|done].
Qed.

(** [process_upsert_exec] inserts or refreshes exactly the record of the
    event's process: identity, uid and name come from the event, protection,
    inheritance and group survive from the record that was there (a fresh record
    is GROUP_UNKNOWN), only the executable path and the command line depend on
    what [/proc] says; NULL is returned exactly when a new process finds all
    slots occupied. *)
Theorem upsert_exec_updates_map {W} `{OS W} t e (w : W) :
  table_ok t -> 0 < e_pid e ->
  let '(res, t', w') := process_upsert_exec t (Some e) w in
  (res = None <-> contents t (e_pid e) = None /\ process_table_count t = process_table_capacity) /\
  (res = None -> t' = t /\ w' = w) /\
  (res <> None -> table_ok t' /\ exists exe cmd, forall q, contents t' q =
     if e_pid e =? q then Some (exec_record e (contents t (e_pid e)) exe cmd) else contents t q).
Proof.
  intros Hok Hp. pose proof (upsert_exec_spec t e w Hok Hp) as Hs. pose proof (prepare_upsert_spec t _ Hok Hp) as Hq.
  destruct (process_upsert_exec t (Some e) w) as [[res t'] w']. unfold process_table_count, process_table_capacity.
  destruct (prepare_upsert t (e_pid e)) as [[[s found] t1]|] eqn:Hprep.
  - destruct Hs as (exe & cmd & i & -> & _ & _ & Hok' & Hcont & Hcnt). split; [|split; [done|eauto]]. split; [done|]. intros [Hn Hfull]. exfalso.
    destruct found; [destruct Hq as [-> Hh]; by rewrite (contents_holds _ _ _ Hok Hh) in Hn|].
    destruct Hq as ((Hin & Hfree & _) & _ & Hup). pose proof (count_room _ _ _ _ Hok Hin Hfree Hup). lia.
  - destruct Hs as (-> & -> & ->). destruct Hq as [Hfull Hno]. split; [|done]. split; [|done]. intros _.
    split; [by apply contents_none|done].
Qed.

(** [process_remove] deletes exactly the process's record and leaves every
    other process reachable, whatever chain of probes they share. *)
Theorem remove_deletes_from_map t p :
  table_ok t ->
  table_ok (process_remove t p) /\
  (forall q, contents (process_remove t p) q = if p =? q then None else contents t q) /\
  process_table_count (process_remove t p) = process_table_count t - match contents t p with Some _ => 1 | None => 0 end.
Proof. intros Hok. by apply remove_spec. Qed.

(** [process_snapshot] of a sound table never reports an inconsistency: it
    copies every record exactly once, or, when the buffer is too small, copies
    nothing, returns NO_SPACE and sets the count to 0. *)
Theorem snapshot_complete t buf capacity n :
  table_ok t -> 0 <= capacity ->
  exists l, NoDup (map p_pid l) /\ (forall r, r ∈ l <-> contents t (p_pid r) = Some r) /\
    Z.of_nat (List.length l) = process_table_count t /\
    process_snapshot t (Some buf) capacity (Some n) =
      if capacity <? process_table_count t then (PROCESS_ERR_NO_SPACE, Some buf, Some 0)
      else (PROCESS_OK, Some l, Some (process_table_count t)).
Proof.
  intros Hok Hcap. destruct (entries_spec t Hok) as (Hlen & Hnd & Hall). exists (entries t).
  do 3 (split; [done|]). unfold process_snapshot, process_table_count.
  rewrite snapshot_check_spec by (done || (intros i; apply elem_indices)). rewrite <- (ok_count _ Hok), Z.eqb_refl. cbn [negb].
  rewrite snapshot_copy_spec. fold (occupied t) (entries t). by rewrite Hlen.
Qed.

(** ** Witnesses: two processes in one chain, a third inserted over a tombstone *)

Definition demo_event (ty p child : Z) : event := mk_event ty p 1 child 1000 "demo".

Definition demo_table : process_table :=
  let t := (process_upsert_fork (process_table_reset (mk_process_table ∅ ∅ 0)) (Some (demo_event EVENT_FORK 1 5))).2 in
  (process_upsert_fork t (Some (demo_event EVENT_FORK 1 (5 + 32768)))).2.

Lemma demo_reachable : reachable_table (W := sim) demo_table.
Proof. eapply rt_fork; [|apply surjective_pairing]. eapply rt_fork; [|apply surjective_pairing]. apply rt_reset. Qed.

Lemma demo_table_ok : table_ok demo_table.
Proof. exact (reachable_ok (W := sim) _ demo_reachable). Qed.

Example demo_chain :
  process_get demo_table 5 = Some 5 /\ process_get demo_table 32773 = Some 6 /\
  process_get (process_remove demo_table 5) 32773 = Some 6 /\ process_get (process_remove demo_table 5) 5 = None /\
  process_get (process_upsert_fork (process_remove demo_table 5) (Some (demo_event EVENT_FORK 1 65541))).2 65541 = Some 5.
Proof. vm_compute. auto 6. Qed.

Lemma table_invariant_witness : process_get demo_table 32773 = Some 6 <->
  0 <= 6 < PROC_MAX /\ slot demo_table 6 = PROCESS_SLOT_OCCUPIED /\ p_pid (entry demo_table 6) = 32773.
Proof. exact (proj1 (table_invariant (W := sim) demo_table 32773 demo_reachable) 6). Defined.

Lemma upsert_fork_updates_map_witness :
  let '(res, t') := process_upsert_fork demo_table (Some (demo_event EVENT_FORK 5 9)) in
  res = None <-> contents demo_table 9 = None /\ process_table_count demo_table = process_table_capacity.
Proof.
  pose proof (upsert_fork_updates_map demo_table (demo_event EVENT_FORK 5 9) demo_table_ok ltac:(reflexivity) ltac:(reflexivity)) as Hs.
  destruct (process_upsert_fork demo_table (Some (demo_event EVENT_FORK 5 9))) as [res t']. exact (proj1 Hs).
Defined.

Lemma upsert_exec_updates_map_witness :
  let '(res, t', w') := process_upsert_exec demo_table (Some (demo_event EVENT_EXEC 5 0)) sim_empty in
  res = None <-> contents demo_table 5 = None /\ process_table_count demo_table = process_table_capacity.
Proof.
  pose proof (upsert_exec_updates_map demo_table (demo_event EVENT_EXEC 5 0) sim_empty demo_table_ok ltac:(reflexivity)) as Hs.
  destruct (process_upsert_exec demo_table (Some (demo_event EVENT_EXEC 5 0)) sim_empty) as [[res t'] w']. exact (proj1 Hs).
Defined.

Lemma remove_deletes_from_map_witness : contents (process_remove demo_table 5) 32773 = contents demo_table 32773.
Proof. exact (proj1 (proj2 (remove_deletes_from_map demo_table 5 demo_table_ok)) 32773). Defined.

Lemma snapshot_complete_witness :
  exists l, Z.of_nat (List.length l) = process_table_count demo_table /\
    process_snapshot demo_table (Some []) 10 (Some 0) =
      if 10 <? process_table_count demo_table then (PROCESS_ERR_NO_SPACE, Some [], Some 0)
      else (PROCESS_OK, Some l, Some (process_table_count demo_table)).
Proof.
  destruct (snapshot_complete demo_table [] 10 0 demo_table_ok ltac:(lia)) as (l & _ & _ & Hl & Hs). exists l. split; [exact Hl|exact Hs].
Defined.
