(* ===== verification/Policy.v ===== *)
(** * The protection policy ([policy.h], [policy.c])

    The static variables [protected_comm] and [protected_count] are the list of
    the first [protected_count] names. *)
From S2P Require Import Prelude CString Os Cgroup Process SimOs.
From Stdlib Require Import Ascii String.
Local Open Scope Z_scope.

Definition MAX_PROTECTED : Z := 128.
Definition POLICY_LINE_MAX : Z := 256.

(** The loop that advances [start] over white space. *)
Fixpoint skip_space (s : string) : string :=
  match s with
  | EmptyString => EmptyString
  | String c s' => if isspace c then skip_space s' else s
  end.

(** [while (end > s && isspace(end[-1]))]: [n] is [end - s]. *)
Fixpoint trim_end (n : nat) (s : string) : string :=
  match n with
  | O => s
  | S n' => if isspace (char_at s n') then trim_end n' (str_take n' s) else s
  end.

(** The text of the buffer after the call. *)
Definition trim_line (s : option string) : option string :=
  match s with
  | None => None
  | Some s =>
      let s := c_str s in
      let s := str_take (strcspn s crlf) s in
      let s := skip_space s in
      Some (trim_end (String.length s) s)
  end.

(** The body of the loop over the lines. *)
Definition load_line (protected_comm : list string) (line : string) : list string :=
  let line := default line (trim_line (Some line)) in
  if Ascii.eqb (char_at line 0) NUL then protected_comm
  else if Ascii.eqb (char_at line 0) "#" then protected_comm
  else if MAX_PROTECTED <=? Z.of_nat (List.length protected_comm) then protected_comm
  else protected_comm ++ [snprintf TASK_COMM_LEN line].

(** Each iteration consumes a byte: as much fuel as bytes is enough. *)
Fixpoint load_loop (fuel : nat) (f : stream) (protected_comm : list string) : list string :=
  match fuel with
  | O => protected_comm
  | S fuel =>
      match fgets POLICY_LINE_MAX f with
      | (None, _) => protected_comm
      | (Some line, f) => load_loop fuel f (load_line protected_comm line)
      end
  end.

(** The code, the new list and the world. *)
Definition policy_load_config {W} `{OS W} (path : string) (w : W) : Z * list string * W :=
  let '(f, w) := os_fopen path w in
  match f with
  | None => (-1, [], w)
  | Some f =>
      let protected_comm := load_loop (S (String.length (st_data f))) f [] in
      let '(_, w) := os_fclose w in
      (0, protected_comm, w)
  end.

Definition policy_is_ignored (p : option proc_info) : bool :=
  match p with
  | None => true
  | Some p => if p_pid p <=? 2 then true else Ascii.eqb (char_at (p_comm p) 0) NUL
  end.

Definition policy_is_protected (protected_comm : list string) (p : option proc_info) : bool :=
  match p with
  | None => false
  | Some p => existsb (str_eq (p_comm p)) protected_comm
  end.

Definition policy_decide_group (protected_comm : list string) (p : proc_info) : proc_group :=
  if policy_is_ignored (Some p) then GROUP_IGNORED
  else if p_is_protected p || policy_is_protected protected_comm (Some p) then GROUP_PROTECTED
  else GROUP_BACKGROUND.

(** ** The file as a list of rules *)

(** A text without anything but white space. *)
Fixpoint spaces (s : string) : bool :=
  match s with
  | EmptyString => true
  | String c s' => isspace c && spaces s'
  end.

(** [t] is [s] without the white space around it. *)
Definition trimmed (s t : string) : Prop :=
  exists a b, s = a +:+ (t +:+ b) /\ spaces a = true /\ spaces b = true /\
    isspace (char_at t 0) = false /\ isspace (char_at t (pred (String.length t))) = false.

(** The rule a line of the file stands for: what follows a NUL or a carriage
    return is dropped, and so is the white space around the rest; comments and
    blank lines are no rules; a name is what the kernel keeps of it in [comm]. *)
Inductive line_rule (line : string) : option string -> Prop :=
| line_blank : trimmed (str_before (c_str line) carriage_return) EmptyString -> line_rule line None
| line_comment t : trimmed (str_before (c_str line) carriage_return) (String "#" t) -> line_rule line None
| line_name c t : trimmed (str_before (c_str line) carriage_return) (String c t) -> c <> "#"%char ->
    line_rule line (Some (str_take 15 (String c t))).

(** The same as a function, by the code's own [trim_line], for the lemmas on the
    loop; [rule_of_spec] shows that it is the rule above. *)
Definition rule_of (line : string) : option string :=
  let name := default line (trim_line (Some line)) in
  if Ascii.eqb (char_at name 0) NUL then None
  else if Ascii.eqb (char_at name 0) "#" then None
  else Some (str_take (Z.to_nat (TASK_COMM_LEN - 1)) name).

(** ** Trimming *)

Lemma skip_space_spec s : exists a, s = a +:+ skip_space s /\ spaces a = true /\ isspace (char_at (skip_space s) 0) = false.
Proof.
  induction s as [|c s (a & E & Ha & Hs)]; [by exists EmptyString|]. cbn [skip_space]. destruct (isspace c) eqn:Hc; [|by exists EmptyString].
  exists (String c a). split; [exact (f_equal (String c) E)|]. cbn [spaces]. by rewrite Hc.
Qed.

Lemma spaces_app a b : spaces (a +:+ b) = spaces a && spaces b.
Proof. induction a as [|c a IH]; [done|]. change (isspace c && spaces (a +:+ b) = isspace c && spaces a && spaces b). by rewrite IH, andb_assoc. Qed.

Lemma drop_last n s : String.length s = S n -> str_drop n s = String (char_at s n) EmptyString.
Proof.
  revert s. induction n as [|n IH]; intros [|c s] Hs; try discriminate; injection Hs as Hs.
  - by destruct s.
  - cbn [str_drop char_at]. by apply IH.
Qed.

Lemma trim_end_spec n : forall s, String.length s = n ->
  exists b, s = trim_end n s +:+ b /\ spaces b = true /\ isspace (char_at (trim_end n s) (pred (String.length (trim_end n s)))) = false.
Proof.
  induction n as [|n IH]; intros s Hs; cbn [trim_end]; [exists EmptyString; by destruct s|]. destruct (isspace (char_at s n)) eqn:Hc.
  - destruct (IH (str_take n s)) as (b & E & Hb & Hl); [rewrite length_str_take; lia|]. exists (b +:+ String (char_at s n) EmptyString).
    split; [|split; [rewrite spaces_app, Hb; cbn; by rewrite Hc|exact Hl]].
    rewrite <- str_assoc, <- E, <- (drop_last n s Hs). symmetry. apply str_take_drop.
  - exists EmptyString. rewrite str_app_nil_r, Hs. by split.
Qed.

(** [trim_line] trims. *)
Lemma trim_line_trims line : str_has line newline = false ->
  exists t, trim_line (Some line) = Some t /\ trimmed (str_before (c_str line) carriage_return) t /\ str_has t NUL = false.
Proof.
  intros Hline. unfold trim_line. pose proof (str_has_c_str line newline Hline) as Hn.
  assert (H0 : str_has (c_str line) NUL = false).
  { clear. induction line as [|c line IH]; [done|]. cbn [c_str]. destruct (Ascii.eqb c NUL) eqn:E; [done|]. cbn [str_has]. by rewrite E, IH. }
  rewrite strcspn_crlf by done. set (s := str_before _ _).
  assert (Hs0 : str_has s NUL = false).
  { subst s. clear -H0. induction (c_str line) as [|c r IH]; [done|]. cbn [str_has] in H0. apply orb_false_iff in H0 as [H1 H2]. cbn [str_before].
    destruct (Ascii.eqb c carriage_return); [done|]. cbn [str_has]. by rewrite H1, IH. }
  destruct (skip_space_spec s) as (a & E & Ha & Hf). set (r := skip_space s) in *. destruct (trim_end_spec (String.length r) r eq_refl) as (b & E2 & Hb & Hl).
  set (t := trim_end _ r) in *. exists t. split; [done|]. split.
  - exists a, b. rewrite <- E2. conjs; try done. clear -Hf E2. rewrite E2 in Hf. by destruct t.
  - rewrite E, E2, !str_has_app in Hs0. by apply orb_false_iff in Hs0 as [_ [? _]%orb_false_iff].
Qed.

Lemma rule_of_spec line : str_has line newline = false -> line_rule line (rule_of line).
Proof.
  intros Hn. destruct (trim_line_trims line Hn) as (t & E & Ht & H0). unfold rule_of. rewrite E. cbn [default from_option id].
  destruct t as [|c t]; [by apply line_blank|]. cbn [char_at str_has] in *. apply orb_false_iff in H0 as [H0 _]. rewrite H0.
  destruct (Ascii.eqb_spec c "#") as [->|Hc]; [by eapply line_comment|by apply line_name].
Qed.

Lemma load_line_rule rules line :
  load_line rules line = if Z.of_nat (List.length rules) <? MAX_PROTECTED then rules ++ option_list (rule_of line) else rules.
Proof.
  unfold load_line, rule_of. set (name := default line _).
  destruct (Ascii.eqb (char_at name 0) NUL); [cbn; rewrite app_nil_r; by destruct (_ <? _)|].
  destruct (Ascii.eqb (char_at name 0) "#"); [cbn; rewrite app_nil_r; by destruct (_ <? _)|].
  destruct (Z.leb_spec MAX_PROTECTED (Z.of_nat (List.length rules))), (Z.ltb_spec (Z.of_nat (List.length rules)) MAX_PROTECTED); try lia; done.
Qed.

(** Keep the first 128 rules. *)
Definition capped (rules : list string) : list string := take (Z.to_nat MAX_PROTECTED) rules.

Lemma load_line_capped rules line : load_line (capped rules) line = capped (rules ++ option_list (rule_of line)).
Proof.
  rewrite load_line_rule. unfold capped. rewrite length_take.
  destruct (Z.ltb_spec (Z.of_nat (Init.Nat.min (Z.to_nat MAX_PROTECTED) (List.length rules))) MAX_PROTECTED) as [Hlt|Hge].
  - unfold MAX_PROTECTED in *. rewrite (take_ge rules) by lia. rewrite take_app_ge by lia. f_equal. symmetry. apply take_ge.
    destruct (rule_of line); cbn; lia.
  - unfold MAX_PROTECTED in *. rewrite take_app_le by lia. done.
Qed.

(** The newline [fgets] leaves in the buffer does not matter. *)
Lemma trim_line_newline l : trim_line (Some (l +:+ String newline EmptyString)) = trim_line (Some l).
Proof.
  unfold trim_line. rewrite c_str_app_newline. destruct (str_has l NUL).
  - by rewrite (str_app_nil_r (c_str l)).
  - by rewrite cut_newline.
Qed.

Lemma load_line_newline rules l : load_line rules (l +:+ String newline EmptyString) = load_line rules l.
Proof. unfold load_line. rewrite trim_line_newline. destruct (trim_line (Some l)) eqn:E; [done|]. discriminate. Qed.

Lemma load_loop_lines fuel : forall s rules, (String.length s < fuel)%nat ->
  Forall (fun l => strlen l < POLICY_LINE_MAX - 1) (lines s) ->
  load_loop fuel (mk_stream s false) (capped rules) = capped (rules ++ omap rule_of (lines s)).
Proof.
  induction fuel as [|fuel IH]; intros s rules Hf Hall; [lia|]. cbn [load_loop].
  destruct (String.eqb_spec s EmptyString) as [->|Hs].
  { cbn. by rewrite app_nil_r. }
  destruct (fgets_lines POLICY_LINE_MAX s Hs Hall) as (l & ls & x & r & Heq & Hget & Hr & Hx). rewrite Hget.
  assert (Hline : load_line (capped rules) x = load_line (capped rules) l) by (destruct Hx as [->| ->]; [done|apply load_line_newline]).
  pose proof (fgets_shorter _ _ _ _ Hget) as Hshort. cbn [st_data] in Hshort.
  rewrite Hline, load_line_capped, IH; [|lia|].
  - rewrite Hr, Heq. cbn [omap list_omap]. rewrite <- app_assoc. destruct (rule_of l); done.
  - rewrite Hr. rewrite Heq in Hall. by apply Forall_cons in Hall as [_ Hall].
Qed.

Lemma omap_rules (ls : list string) : omap id (rule_of <$> ls) = omap rule_of ls.
Proof. induction ls as [|l ls IH]; [done|]. cbn. destruct (rule_of l); cbn; by rewrite <- IH. Qed.

(** The group decision, as a function of what the record says. *)
Lemma decide_group_spec rules p :
  (policy_decide_group rules p = GROUP_IGNORED <-> p_pid p <= 2 \/ char_at (p_comm p) 0 = NUL) /\
  (policy_decide_group rules p = GROUP_PROTECTED <->
     2 < p_pid p /\ char_at (p_comm p) 0 <> NUL /\ (p_is_protected p = true \/ Exists (fun r => c_str (p_comm p) = c_str r) rules)).
Proof.
  unfold policy_decide_group, policy_is_ignored, policy_is_protected.
  destruct (Z.leb_spec (p_pid p) 2) as [Hp|Hp]; [split; split; try done; [by left|lia]|].
  destruct (Ascii.eqb_spec (char_at (p_comm p) 0) NUL) as [Hc|Hc]; [split; split; try done; [by right|tauto]|].
  assert (He : existsb (str_eq (p_comm p)) rules = true <-> Exists (fun r => c_str (p_comm p) = c_str r) rules).
  { rewrite existsb_exists, Exists_exists. unfold str_eq. split; intros (r & Hr & E); exists r;
      (split; [by apply list_elem_of_In|by apply String.eqb_eq]). }
  rewrite <- He. destruct (p_is_protected p), (existsb _ rules); cbn [orb]; intuition (lia || congruence).
Qed.

(** C33: [policy_load_config], on a file all of whose lines are shorter than 255
    bytes, so that each fits the buffer, yields the first 128 rules of the file:
    every line, without what follows a NUL or a carriage return and without the
    white space around the rest, that is neither empty nor a comment, cut at the
    15 characters a [comm] can have.  The loop over [fgets] always ends, and a file
    that cannot be opened leaves no rule. *)
Theorem load_config_rules {W} `{OS W} path text (w w1 : W) :
  Forall (fun l => strlen l < 255) (lines text) ->
  (os_fopen path w = (Some (mk_stream text false), w1) ->
     exists rules, Forall2 line_rule (lines text) rules /\
       policy_load_config path w = (0, take 128 (omap id rules), (os_fclose w1).2)) /\
  (os_fopen path w = (None, w1) -> policy_load_config path w = (-1, [], w1)).
Proof.
  intros Hall. unfold policy_load_config. split; intros ->; [|done]. cbn [st_data]. exists (rule_of <$> lines text). split.
  - apply Forall2_fmap_r, Forall_Forall2_diag. eapply Forall_impl; [apply lines_no_newline|]. exact rule_of_spec.
  - pose proof (load_loop_lines (S (String.length text)) text [] ltac:(lia) Hall) as Hl. cbn [app] in Hl.
    change (capped []) with (@nil string) in Hl. rewrite Hl, omap_rules. by destruct (os_fclose w1).
Qed.

Definition demo_config : string :=
  "# protected" +:+ String newline ("  redis-server " +:+ String carriage_return (String newline (String newline "nginx-worker-process"))).

Definition demo_host : sim := sim_empty <| sim_files := [("c"%string, demo_config)] |>.

Lemma demo_config_fits : Forall (fun l => strlen l < 255) (lines demo_config).
Proof.
  apply Forall_forall. intros l Hl. apply Z.ltb_lt. revert l Hl. apply Forall_forall, Forall_forall.
  intros l Hl%list_elem_of_In. revert l Hl. apply (proj1 (forallb_forall _ _)). vm_compute. reflexivity.
Qed.

Lemma load_config_rules_witness : exists rules,
  Forall2 line_rule (lines demo_config) rules /\
  policy_load_config "c" demo_host = (0, take 128 (omap id rules), demo_host) /\
  take 128 (omap id rules) = ["redis-server"; "nginx-worker-pr"]%string.
Proof.
  assert (Ho : os_fopen "c" demo_host = (Some (mk_stream demo_config false), (os_fopen "c" demo_host).2)) by (vm_compute; reflexivity).
  destruct (proj1 (load_config_rules "c" demo_config demo_host (os_fopen "c" demo_host).2 demo_config_fits) Ho) as (rules & Hr & E).
  assert (Hw : (os_fclose (os_fopen "c" demo_host).2).2 = demo_host) by (vm_compute; reflexivity). rewrite Hw in E.
  exists rules. split; [exact Hr|]. split; [exact E|].
  assert (E' : policy_load_config "c" demo_host = (0, ["redis-server"; "nginx-worker-pr"]%string, demo_host)) by (vm_compute; reflexivity).
  rewrite E in E'. congruence.
Defined.
