(* ===== verification/EventHandler.v ===== *)
(** * The event handler of the daemon ([protected_daemon.c], [handle_event])

    Process events from the kernel update the process table and move protected
    processes to the protected group.  The static variables the handler uses
    ([daemon_pid], the policy's rules, the cgroup base) are fields of the state. *)
From S2P Require Import Prelude CString Os Cgroup Process SimOs ProcessSpec Policy.
From Stdlib Require Import Ascii String.
Local Open Scope Z_scope.

Record daemon := mk_daemon {
  daemon_pid : Z;
  d_rules : list string;
  d_base : string;
  d_table : process_table
}.

#[export] Instance daemon_settable : Settable daemon :=
  fun d => mk_daemon (daemon_pid d) (d_rules d) (d_base d) (d_table d).

Section Handler.
Context {W : Type} `{OS W}.

Definition handle_exec (d : daemon) (e : event) (w : W) : daemon * W :=
  let '(res, t, w) := process_upsert_exec (d_table d) (Some e) w in
  match res with
  | None => (d <| d_table := t |>, w)
  | Some i =>
      let p := entry t i in
      if (p_pid p =? daemon_pid d) || (p_ppid p =? daemon_pid d) then (d <| d_table := t |>, w)
      else
        let p := p <| p_exec_seen := true |> in
        let p := if policy_is_protected (d_rules d) (Some p) then p <| p_is_protected := true |> else p in
        let g := policy_decide_group (d_rules d) p in
        let p := p <| p_group := g |> in
        let d := d <| d_table := set_entry t i p |> in
        if bool_decide (g = GROUP_PROTECTED)
        then let '(_, w) := cgroup_move_pid (d_base d) (p_pid p) GROUP_PROTECTED w in (d, w)
        else (d, w)
  end.

Definition handle_fork (d : daemon) (e : event) (w : W) : daemon * W :=
  let '(child, t) := process_upsert_fork (d_table d) (Some e) in
  let parent := process_get t (e_pid e) in
  let d := d <| d_table := t |> in
  match child with
  | None => (d, w)
  | Some child =>
      match parent with
      | Some q =>
          if p_used (entry t q) && p_is_protected (entry t q) then
            let t := set_entry t child ((entry t child) <| p_is_protected := true |>
              <| p_inherited_protected := true |> <| p_group := GROUP_PROTECTED |>) in
            let '(_, w) := cgroup_move_pid (d_base d) (p_pid (entry t child)) GROUP_PROTECTED w in
            (d <| d_table := t |>, w)
          else (d, w)
      | None => (d, w)
      end
  end.

(** The handler always returns 0; [data] is the event. *)
Definition handle_event (d : daemon) (e : event) (w : W) : Z * daemon * W :=
  if e_type e =? EVENT_EXEC then let '(d, w) := handle_exec d e w in (0, d, w)
  else if e_type e =? EVENT_FORK then let '(d, w) := handle_fork d e w in (0, d, w)
  else if e_type e =? EVENT_EXIT then (0, d <| d_table := process_remove (d_table d) (e_pid e) |>, w)
  else (0, d, w).

(** The ring buffer delivers the events in order. *)
Fixpoint handle_events (d : daemon) (es : list event) (w : W) : daemon * W :=
  match es with
  | [] => (d, w)
  | e :: es => let '(_, d, w) := handle_event d e w in handle_events d es w
  end.
End Handler.

(** ** The handler on the map of processes *)

(** The record an exec event leaves. *)
Definition exec_final (d : daemon) (r : proc_info) : proc_info :=
  if (p_pid r =? daemon_pid d) || (p_ppid r =? daemon_pid d) then r
  else
    let r := if policy_is_protected (d_rules d) (Some r) then r <| p_is_protected := true |> else r in
    r <| p_group := policy_decide_group (d_rules d) r |>.

(** A new process fits in the table. *)
Definition fits (t : process_table) (p : Z) : Prop := contents t p <> None \/ occupied_count t < PROC_MAX.

Lemma fits_prepare t p : table_ok t -> 0 < p -> fits t p <-> prepare_upsert t p <> None.
Proof.
  intros Hok Hp. pose proof (prepare_upsert_spec t p Hok Hp) as Hs. unfold fits. split.
  - intros Hf Hn. rewrite Hn in Hs. destruct Hs as [Hc Hno]. apply contents_none in Hno; [|done]. destruct Hf; [done|lia].
  - intros Hn. destruct (prepare_upsert t p) as [[[s []] t1]|]; [left|right|done].
    + destruct Hs as [-> Hh]. by rewrite (contents_holds _ _ _ Hok Hh).
    + destruct Hs as ((Hin & Hfree & _) & _ & Hup). by eapply count_room.
Qed.

Section Maps.
Context {W : Type} `{OS W}.

Lemma upserted_contents t t' p res r : upserted t t' p res r ->
  table_ok t' /\ (forall q, contents t' q = if p =? q then Some r else contents t q) /\ exists i, res = Some i /\ entry t' i = r /\ holds t' p i.
Proof. intros (i & -> & Hh & He & Hok & Hc & _). eauto 10. Qed.

(** Overwriting a stored record by one with the same pid. *)
Lemma overwrite_contents t p i r r' : table_ok t -> holds t p i -> entry t i = r -> p_used r' = true -> p_pid r' = p ->
  table_ok (set_entry t i r') /\ forall q, contents (set_entry t i r') q = if p =? q then Some r' else contents t q.
Proof.
  intros Hok Hh <- Hu Hp. pose proof Hh as (_ & Ho & _). pose proof (updates_here t i r') as Hup. rewrite Ho in Hup.
  by eapply overwrite_ok.
Qed.

Lemma handle_exec_spec d e (w : W) : table_ok (d_table d) -> 0 < e_pid e -> fits (d_table d) (e_pid e) ->
  let '(d', w') := handle_exec d e w in
  exists exe cmd, let r := exec_final d (exec_record e (contents (d_table d) (e_pid e)) exe cmd) in
    table_ok (d_table d') /\ daemon_pid d' = daemon_pid d /\ d_rules d' = d_rules d /\ d_base d' = d_base d /\
    forall q, contents (d_table d') q = if e_pid e =? q then Some r else contents (d_table d) q.
Proof.
  intros Hok Hp Hfit. apply fits_prepare in Hfit; try done. pose proof (upsert_exec_spec (d_table d) e w Hok Hp) as Hs.
  unfold handle_exec. destruct (process_upsert_exec (d_table d) (Some e) w) as [[res t'] w1].
  destruct (prepare_upsert (d_table d) (e_pid e)); [|done]. destruct Hs as (exe & cmd & Hup).
  apply upserted_contents in Hup as (Hok' & Hc & i & -> & He & Hh). rewrite He. set (r := exec_record e _ exe cmd) in *.
  unfold exec_final. destruct ((p_pid r =? daemon_pid d) || (p_ppid r =? daemon_pid d)) eqn:Hself.
  { exists exe, cmd. fold r. rewrite Hself. done. }
  change (r <| p_exec_seen := true |>) with r.
  set (r1 := if policy_is_protected (d_rules d) (Some r) then r <| p_is_protected := true |> else r).
  set (r2 := r1 <| p_group := policy_decide_group (d_rules d) r1 |>).
  assert (Hr2 : p_used r2 = true /\ p_pid r2 = e_pid e) by (unfold r2, r1; by destruct (policy_is_protected _ _)).
  destruct (overwrite_contents t' (e_pid e) i r r2 Hok' Hh He) as [Hok2 Hc2]; try apply Hr2.
  assert (Hc3 : forall q, contents (set_entry t' i r2) q = if e_pid e =? q then Some r2 else contents (d_table d) q).
  { intros q. rewrite Hc2, Hc. by destruct (e_pid e =? q). }
  destruct (bool_decide _); [destruct (cgroup_move_pid _ _ _ w1) as [rc w2]|];
    (exists exe, cmd; fold r; rewrite Hself; fold r1 r2; done).
Qed.

Lemma handle_fork_spec d e (w : W) : table_ok (d_table d) -> 0 < e_pid e -> 0 < e_child_pid e -> fits (d_table d) (e_child_pid e) ->
  let inherits := negb (e_pid e =? e_child_pid e) && protected_now (d_table d) (e_pid e) in
  let '(d', w') := handle_fork d e w in
  table_ok (d_table d') /\ daemon_pid d' = daemon_pid d /\ d_rules d' = d_rules d /\ d_base d' = d_base d /\
  (forall q, contents (d_table d') q = if e_child_pid e =? q then Some (fork_record e inherits) else contents (d_table d) q) /\
  w' = if inherits then (cgroup_move_pid (d_base d) (e_child_pid e) GROUP_PROTECTED w).2 else w.
Proof.
  intros Hok Hp Hcp Hfit inherits. apply fits_prepare in Hfit; try done.
  pose proof (upsert_fork_spec (d_table d) e Hok Hp Hcp) as Hs. fold inherits in Hs.
  unfold handle_fork. destruct (process_upsert_fork (d_table d) (Some e)) as [res t'].
  destruct (prepare_upsert (d_table d) (e_child_pid e)); [|done].
  apply upserted_contents in Hs as (Hok' & Hc & i & -> & He & Hh). cbn [d_table set_field].
  assert (Hpar : protected_now t' (e_pid e) = inherits).
  { unfold protected_now at 1. rewrite Hc. unfold inherits, protected_now. rewrite (Z.eqb_sym (e_child_pid e)).
    destruct (e_pid e =? e_child_pid e); [|done]. unfold fork_record, inherits. cbn. done. }
  destruct (process_get t' (e_pid e)) as [q|] eqn:Hq.
  - apply get_holds in Hq as [_ Hhq]; [|done]. unfold protected_now in Hpar. rewrite (contents_holds _ _ _ Hok' Hhq) in Hpar.
    destruct Hhq as (Hin & Ho & _). rewrite (ok_used _ Hok' q Hin Ho), Hpar. cbn [andb]. destruct inherits; [|done].
    rewrite He. set (r := fork_record e true) in *.
    destruct (overwrite_contents t' (e_child_pid e) i r r Hok' Hh He eq_refl eq_refl) as [Hok2 Hc2].
    change (r <| p_is_protected := true |> <| p_inherited_protected := true |> <| p_group := GROUP_PROTECTED |>) with r.
    rewrite entry_set_entry, Z.eqb_refl. change (p_pid r) with (e_child_pid e). change (d_base (d <| d_table := t' |>)) with (d_base d).
    destruct (cgroup_move_pid (d_base d) (e_child_pid e) GROUP_PROTECTED w) as [rc w2]. cbn [d_table set_field snd].
    split; [exact Hok2|]. do 3 (split; [done|]). split; [|done]. intros x.
    transitivity (contents (set_entry t' i r) x); [reflexivity|]. rewrite Hc2, Hc. by destruct (e_child_pid e =? x).
  - assert (Hn : contents t' (e_pid e) = None) by (unfold contents; by rewrite Hq).
    unfold protected_now in Hpar. rewrite Hn in Hpar. rewrite <- Hpar in *. done.
Qed.
End Maps.
