(* ===== verification/EventProps.v ===== *)
(** * Properties of the event handler

    What a sequence of process events does to the set of protected processes. *)
From S2P Require Import Prelude CString Os Cgroup Process SimOs ProcessSpec ProcessProps Policy EventHandler.
From Stdlib Require Import Ascii String.
Local Open Scope Z_scope.

Section Events.
Context {W : Type} `{OS W}.

Lemma exec_not_fitting d e (w : W) : table_ok (d_table d) -> ~ (0 < e_pid e /\ fits (d_table d) (e_pid e)) ->
  d_table (handle_exec d e w).1 = d_table d /\ daemon_pid (handle_exec d e w).1 = daemon_pid d /\
  d_rules (handle_exec d e w).1 = d_rules d /\ d_base (handle_exec d e w).1 = d_base d /\ (handle_exec d e w).2 = w.
Proof.
  intros Hok Hn. unfold handle_exec. destruct (Z_lt_le_dec 0 (e_pid e)) as [Hp|Hp].
  - pose proof (upsert_exec_spec (d_table d) e w Hok Hp) as Hs. destruct (process_upsert_exec (d_table d) (Some e) w) as [[res t'] w'].
    destruct (prepare_upsert (d_table d) (e_pid e)) eqn:Hprep.
    + exfalso. apply Hn. split; [done|]. apply fits_prepare; [done|done|]. by rewrite Hprep.
    + by destruct Hs as (-> & -> & ->).
  - unfold process_upsert_exec. by rewrite (proj2 (Z.leb_le _ _) Hp).
Qed.

Lemma fork_not_fitting d e (w : W) : table_ok (d_table d) -> ~ (0 < e_pid e /\ 0 < e_child_pid e /\ fits (d_table d) (e_child_pid e)) ->
  d_table (handle_fork d e w).1 = d_table d /\ daemon_pid (handle_fork d e w).1 = daemon_pid d /\
  d_rules (handle_fork d e w).1 = d_rules d /\ d_base (handle_fork d e w).1 = d_base d /\ (handle_fork d e w).2 = w.
Proof.
  intros Hok Hn. unfold handle_fork.
  assert (Hnone : process_upsert_fork (d_table d) (Some e) = (None, d_table d)); [|by rewrite Hnone].
  destruct (Z_lt_le_dec 0 (e_pid e)) as [Hp|Hp]; [destruct (Z_lt_le_dec 0 (e_child_pid e)) as [Hc|Hc]|].
  - pose proof (upsert_fork_spec (d_table d) e Hok Hp Hc) as Hs. destruct (process_upsert_fork (d_table d) (Some e)) as [res t'].
    destruct (prepare_upsert (d_table d) (e_child_pid e)) eqn:Hprep.
    + exfalso. apply Hn. split; [done|]. split; [done|]. apply fits_prepare; [done|done|]. by rewrite Hprep.
    + by destruct Hs as [-> ->].
  - unfold process_upsert_fork. by rewrite (proj2 (Z.leb_le (e_child_pid e) _) Hc), orb_true_r.
  - unfold process_upsert_fork. by rewrite (proj2 (Z.leb_le (e_pid e) _) Hp).
Qed.

(** What an event does to the map of processes. *)
Definition event_effect (d : daemon) (e : event) (before after : Z -> option proc_info) : Prop :=
  if e_type e =? EVENT_EXEC then
    (0 < e_pid e /\ fits (d_table d) (e_pid e) /\ exists exe cmd, forall q, after q =
       if e_pid e =? q then Some (exec_final d (exec_record e (before (e_pid e)) exe cmd)) else before q) \/
    (~ (0 < e_pid e /\ fits (d_table d) (e_pid e)) /\ forall q, after q = before q)
  else if e_type e =? EVENT_FORK then
    (0 < e_pid e /\ 0 < e_child_pid e /\ fits (d_table d) (e_child_pid e) /\ forall q, after q =
       if e_child_pid e =? q
       then Some (fork_record e (negb (e_pid e =? e_child_pid e) && match before (e_pid e) with Some r => p_is_protected r | None => false end))
       else before q) \/
    (~ (0 < e_pid e /\ 0 < e_child_pid e /\ fits (d_table d) (e_child_pid e)) /\ forall q, after q = before q)
  else if e_type e =? EVENT_EXIT then forall q, after q = if e_pid e =? q then None else before q
  else forall q, after q = before q.

Lemma fits_dec t p : table_ok t -> 0 < p -> fits t p \/ ~ fits t p.
Proof.
  intros Hok Hp. rewrite fits_prepare by done. destruct (prepare_upsert t p); [by left|right]. tauto.
Qed.

Lemma handle_event_effect d e (w : W) : table_ok (d_table d) ->
  let '(rc, d', w') := handle_event d e w in
  rc = 0 /\ table_ok (d_table d') /\ daemon_pid d' = daemon_pid d /\ d_rules d' = d_rules d /\ d_base d' = d_base d /\
  event_effect d e (contents (d_table d)) (contents (d_table d')).
Proof.
  intros Hok. unfold handle_event, event_effect. destruct (e_type e =? EVENT_EXEC).
  { destruct (Z_lt_le_dec 0 (e_pid e)) as [Hp|Hp]; [destruct (fits_dec (d_table d) (e_pid e) Hok Hp) as [Hf|Hf]|].
    - pose proof (handle_exec_spec d e w Hok Hp Hf) as Hs. destruct (handle_exec d e w) as [d' w'].
      destruct Hs as (exe & cmd & Hok' & H1 & H2 & H3 & Hc). do 5 (split; [done|]). left. eauto.
    - pose proof (exec_not_fitting d e w Hok ltac:(tauto)) as Hs. destruct (handle_exec d e w) as [d' w']. cbn [fst] in Hs.
      destruct Hs as (E & H1 & H2 & H3 & _). rewrite E. do 5 (split; [done|]). right. split; [tauto|done].
    - pose proof (exec_not_fitting d e w Hok ltac:(intros [? _]; lia)) as Hs. destruct (handle_exec d e w) as [d' w']. cbn [fst] in Hs.
      destruct Hs as (E & H1 & H2 & H3 & _). rewrite E. do 5 (split; [done|]). right. split; [intros [? _]; lia|done]. }
  destruct (e_type e =? EVENT_FORK).
  { assert (Hdec : (0 < e_pid e /\ 0 < e_child_pid e /\ fits (d_table d) (e_child_pid e)) \/
      ~ (0 < e_pid e /\ 0 < e_child_pid e /\ fits (d_table d) (e_child_pid e))).
    { destruct (Z_lt_le_dec 0 (e_pid e)); [|right; intros [? _]; lia].
      destruct (Z_lt_le_dec 0 (e_child_pid e)) as [Hc|]; [|right; intros (_ & ? & _); lia].
      destruct (fits_dec (d_table d) (e_child_pid e) Hok Hc); [left|right]; tauto. }
    destruct Hdec as [(Hp & Hc & Hf)|Hn].
    - pose proof (handle_fork_spec d e w Hok Hp Hc Hf) as Hs. destruct (handle_fork d e w) as [d' w'].
      destruct Hs as (Hok' & H1 & H2 & H3 & Hcont & _). do 5 (split; [done|]). left. do 3 (split; [done|]). exact Hcont.
    - pose proof (fork_not_fitting d e w Hok Hn) as Hs. destruct (handle_fork d e w) as [d' w']. cbn [fst] in Hs.
      destruct Hs as (E & H1 & H2 & H3 & _). rewrite E. do 5 (split; [done|]). right. done. }
  destruct (e_type e =? EVENT_EXIT); [|done].
  pose proof (remove_spec (d_table d) (e_pid e) Hok) as (Hok' & Hc & _). done.
Qed.

(** C31: Handling an event is an operation on the map of processes: an exec
    refreshes one record and decides its group, a fork adds the child with its
    parent's protection, an exit deletes one record, anything else changes
    nothing; the table stays sound whatever the events contain, and an event
    whose process is invalid or does not fit in the table is ignored. *)
Theorem handle_event_refines_map d e (w : W) :
  table_ok (d_table d) ->
  let '(rc, d', w') := handle_event d e w in
  rc = 0 /\ table_ok (d_table d') /\ d_rules d' = d_rules d /\ daemon_pid d' = daemon_pid d /\
  event_effect d e (contents (d_table d)) (contents (d_table d')).
Proof.
  intros Hok. pose proof (handle_event_effect d e w Hok) as Hs. destruct (handle_event d e w) as [[rc d'] w']. tauto.
Qed.

(** The event ends process [p], or starts it anew. *)
Definition names_anew (p : Z) (e : event) : Prop :=
  (e_type e = EVENT_EXIT /\ e_pid e = p) \/ (e_type e = EVENT_FORK /\ e_child_pid e = p).

Lemma protected_step d e (w : W) p : table_ok (d_table d) -> protected_now (d_table d) p = true -> ~ names_anew p e ->
  protected_now (d_table (handle_event d e w).1.2) p = true.
Proof.
  intros Hok Hprot Hn. unfold names_anew in Hn. pose proof (handle_event_effect d e w Hok) as Hs.
  destruct (handle_event d e w) as [[rc d'] w']. destruct Hs as (_ & _ & _ & _ & _ & Heff). unfold event_effect in Heff.
  cbn [fst snd]. unfold protected_now in *. destruct (contents (d_table d) p) as [r|] eqn:Hc; [|done].
  destruct (e_type e =? EVENT_EXEC).
  { destruct Heff as [(_ & _ & exe & cmd & Heq)|[_ Heq]]; rewrite Heq; [|by rewrite Hc].
    destruct (Z.eqb_spec (e_pid e) p) as [E|]; [|by rewrite Hc]. rewrite E, Hc.
    unfold exec_final. destruct (_ || _); [exact Hprot|]. destruct (policy_is_protected _ _); [done|exact Hprot]. }
  destruct (Z.eqb_spec (e_type e) EVENT_FORK) as [Ef|].
  { destruct Heff as [(_ & _ & _ & Heq)|[_ Heq]]; rewrite Heq; [|by rewrite Hc].
    destruct (Z.eqb_spec (e_child_pid e) p); [tauto|by rewrite Hc]. }
  destruct (Z.eqb_spec (e_type e) EVENT_EXIT) as [Ee|]; rewrite Heff; [|by rewrite Hc].
  destruct (Z.eqb_spec (e_pid e) p); [tauto|by rewrite Hc].
Qed.

(** C21: Protection persists: through any sequence of events, a protected process
    stays protected (execs of itself included) until an event reports its exit
    or a fork event names it as the child. *)
Theorem protection_persists es : forall d (w : W) p,
  table_ok (d_table d) -> protected_now (d_table d) p = true -> Forall (fun e => ~ names_anew p e) es ->
  protected_now (d_table (handle_events d es w).1) p = true.
Proof.
  induction es as [|e es IH]; intros d w p Hok Hprot Hall; [exact Hprot|]. apply Forall_cons in Hall as [Hn Hall].
  cbn [handle_events]. pose proof (protected_step d e w p Hok Hprot Hn) as Hp. pose proof (handle_event_effect d e w Hok) as Hs.
  destruct (handle_event d e w) as [[rc d'] w']. destruct Hs as (_ & Hok' & _). by apply IH.
Qed.

(** A fork of a protected process yields a protected child, marked as
    inherited, in the protected group, and the handler asks the kernel to move
    it there; a fork of any other process moves nothing. *)
Theorem fork_inherits_protection d e (w : W) :
  table_ok (d_table d) -> e_type e = EVENT_FORK -> 0 < e_pid e -> 0 < e_child_pid e -> e_child_pid e <> e_pid e ->
  fits (d_table d) (e_child_pid e) ->
  let '(_, d', w') := handle_event d e w in
  exists r, contents (d_table d') (e_child_pid e) = Some r /\ p_pid r = e_child_pid e /\ p_ppid r = e_pid e /\
    (p_is_protected r = true <-> exists parent, contents (d_table d) (e_pid e) = Some parent /\ p_is_protected parent = true) /\
    (if p_is_protected r
     then p_group r = GROUP_PROTECTED /\ p_inherited_protected r = true /\
          w' = (cgroup_move_pid (d_base d) (e_child_pid e) GROUP_PROTECTED w).2
     else p_group r = GROUP_UNKNOWN /\ w' = w).
Proof.
  intros Hok Hty Hp Hc Hne Hfit. unfold handle_event. rewrite Hty. cbn [Z.eqb EVENT_FORK EVENT_EXEC Pos.eqb].
  pose proof (handle_fork_spec d e w Hok Hp Hc Hfit) as Hs. destruct (handle_fork d e w) as [d' w'].
  destruct (Z.eqb_spec (e_pid e) (e_child_pid e)); [congruence|]. cbn [negb andb] in Hs.
  destruct Hs as (_ & _ & _ & _ & Hcont & Hw). rewrite Hcont, Z.eqb_refl. eexists. split; [reflexivity|].
  unfold protected_now in *. destruct (contents (d_table d) (e_pid e)) as [parent|] eqn:Hpar.
  - cbn [fork_record p_pid p_ppid p_is_protected p_group p_inherited_protected]. do 2 (split; [done|]).
    destruct (p_is_protected parent) eqn:E; (split; [|done]); split; try by eauto.
    intros (x & [= <-] & Hx). congruence.
  - do 2 (split; [done|]). split; [|done]. split; [done|]. by intros (x & ? & _).
Qed.

(** When the kernel reports the creation of a thread (a fork event whose child
    is the thread group of its parent), the record of the process itself is
    replaced by a fresh one: a protected process silently loses its protection
    and its group, although it is alive and unchanged. *)
Theorem thread_creation_drops_protection d e (w : W) r :
  table_ok (d_table d) -> e_type e = EVENT_FORK -> 0 < e_pid e -> e_child_pid e = e_pid e ->
  contents (d_table d) (e_pid e) = Some r -> p_is_protected r = true ->
  let '(_, d', w') := handle_event d e w in
  exists r', contents (d_table d') (e_pid e) = Some r' /\ p_is_protected r' = false /\ p_group r' = GROUP_UNKNOWN /\
    p_ppid r' = e_pid e /\ w' = w.
Proof.
  intros Hok Hty Hp Hsame Hc Hprot. unfold handle_event. rewrite Hty. cbn [Z.eqb EVENT_FORK EVENT_EXEC Pos.eqb].
  assert (Hfit : fits (d_table d) (e_child_pid e)) by (left; rewrite Hsame; by rewrite Hc).
  pose proof (handle_fork_spec d e w Hok Hp ltac:(lia) Hfit) as Hs. destruct (handle_fork d e w) as [d' w'].
  rewrite Hsame, Z.eqb_refl in Hs. cbn [negb andb] in Hs. destruct Hs as (_ & _ & _ & _ & Hcont & Hw).
  rewrite Hcont, Z.eqb_refl. eexists. split; [reflexivity|]. done.
Qed.
End Events.

(** ** Where processes are moved *)

Section Placement.
Context {W : Type} `{Cgroupfs W}.

Lemma upsert_exec_keeps t e (w : W) q : fs_member (process_upsert_exec t e w).2 q = fs_member w q.
Proof.
  destruct e as [e|]; [|done]. unfold process_upsert_exec. destruct (e_pid e <=? 0); [done|].
  destruct (prepare_upsert t (e_pid e)) as [[[s found] t1]|]; [|done].
  set (p := (if negb found then _ else _) <| p_comm := _ |>).
  assert (He : fs_member (process_read_exe (Some p) w).2 q = fs_member w q).
  { unfold process_read_exe. destruct (_ <=? 0); [done|]. destruct (256 <=? _); [done|].
    pose proof (fs_readlink ("/proc/" +:+ dec (p_pid p) +:+ "/exe") w q) as Hk. by destruct (os_readlink _ w) as [[x|] w1]. }
  destruct (process_read_exe (Some p) w) as [[rc1 p1] w1]. cbn [snd] in He. rewrite <- He.
  assert (Hc : fs_member (process_read_cmdline p1 w1).2 q = fs_member w1 q).
  { destruct p1 as [p1|]; [|done]. unfold process_read_cmdline. destruct (_ <=? 0); [done|]. destruct (256 <=? _); [done|].
    pose proof (fs_fopen ("/proc/" +:+ dec (p_pid p1) +:+ "/cmdline") w1 q) as Hk.
    destruct (os_fopen _ w1) as [[f|] w2]; [|exact Hk]. cbn [snd] in Hk. rewrite <- Hk.
    pose proof (fs_fclose w2 q) as Hk2. destruct (os_fclose w2) as [[] w3]; cbn [negb snd] in *; [|exact Hk2].
    by destruct (strlen _ =? 0). }
  by destruct (process_read_cmdline p1 w1) as [[rc2 p2] w2].
Qed.

Lemma move_pid_only base p (w : W) q :
  fs_member (cgroup_move_pid base p GROUP_PROTECTED w).2 q <> fs_member w q ->
  q = p /\ fs_member (cgroup_move_pid base p GROUP_PROTECTED w).2 q = Some (group_dir base "protected").
Proof.
  destruct (cgroup_move_pid base p GROUP_PROTECTED w) as [rc w'] eqn:E. cbn [snd]. apply move_pid_spec in E as
    [(_ & name & [= <-] & Hp & Hq)|[_ Hq]]; [|by rewrite Hq].
  intros Hne. destruct (Z.eq_dec q p) as [->|Hqp]; [done|]. by rewrite Hq in Hne.
Qed.

(** The handler migrates at most the process an event is about, only into the
    protected group, and only when the record it leaves for that process is in
    GROUP_PROTECTED; an exec of the daemon itself or of one of its children never
    migrates anything. *)
Theorem handler_moves_only_protected d e (w : W) q :
  table_ok (d_table d) ->
  let '(_, d', w') := handle_event d e w in
  fs_member w' q <> fs_member w q ->
  fs_member w' q = Some (group_dir (d_base d) "protected") /\
  (exists r, contents (d_table d') q = Some r /\ p_group r = GROUP_PROTECTED) /\
  ((e_type e = EVENT_EXEC /\ q = e_pid e /\ e_pid e <> daemon_pid d /\ e_ppid e <> daemon_pid d) \/
   (e_type e = EVENT_FORK /\ q = e_child_pid e)).
Proof.
  intros Hok. unfold handle_event. destruct (Z.eqb_spec (e_type e) EVENT_EXEC) as [Et|].
  { unfold handle_exec. pose proof (upsert_exec_keeps (d_table d) (Some e) w) as Hk.
    destruct (Z_lt_le_dec 0 (e_pid e)) as [Hp|Hp].
    2:{ unfold process_upsert_exec. rewrite (proj2 (Z.leb_le _ _) Hp). done. }
    pose proof (upsert_exec_spec (d_table d) e w Hok Hp) as Hs.
    destruct (process_upsert_exec (d_table d) (Some e) w) as [[res t'] w1]. cbn [snd] in Hk.
    destruct (prepare_upsert (d_table d) (e_pid e)); [|by destruct Hs as (-> & -> & ->)].
    destruct Hs as (exe & cmd & Hup). apply upserted_contents in Hup as (Hok' & Hc & i & -> & He & Hh). rewrite He.
    set (r := exec_record e _ exe cmd) in *. destruct ((p_pid r =? daemon_pid d) || (p_ppid r =? daemon_pid d)) eqn:Hself.
    { intros Hne. by rewrite Hk in Hne. }
    change (r <| p_exec_seen := true |>) with r.
    set (r1 := if policy_is_protected (d_rules d) (Some r) then r <| p_is_protected := true |> else r).
    set (r2 := r1 <| p_group := policy_decide_group (d_rules d) r1 |>).
    assert (Hr2 : p_used r2 = true /\ p_pid r2 = e_pid e) by (unfold r2, r1; by destruct (policy_is_protected _ _)).
    destruct (overwrite_contents t' (e_pid e) i r r2 Hok' Hh He) as [Hok2 Hc2]; try apply Hr2.
    destruct (bool_decide (policy_decide_group (d_rules d) r1 = GROUP_PROTECTED)) eqn:Hg; [|intros Hne; by rewrite Hk in Hne].
    apply bool_decide_eq_true in Hg. pose proof (move_pid_only (d_base d) (e_pid e) w1 q) as Hm.
    replace (p_pid r2) with (e_pid e) by (symmetry; apply Hr2).
    change (d_base (d <| d_table := set_entry t' i r2 |>)) with (d_base d).
    destruct (cgroup_move_pid (d_base d) (e_pid e) GROUP_PROTECTED w1) as [rc w2]. cbn [snd] in Hm. rewrite <- Hk.
    intros Hne. destruct (Hm Hne) as [-> Hin]. split; [exact Hin|]. split.
    - exists r2. split; [|exact Hg]. transitivity (contents (set_entry t' i r2) (e_pid e)); [reflexivity|]. by rewrite Hc2, Z.eqb_refl.
    - left. apply orb_false_iff in Hself as [H1 H2]. apply Z.eqb_neq in H1, H2. done. }
  destruct (Z.eqb_spec (e_type e) EVENT_FORK) as [Et|].
  2:{ by destruct (e_type e =? EVENT_EXIT). }
  destruct (decide (0 < e_pid e /\ 0 < e_child_pid e)) as [[Hp Hc]|Hn].
  2:{ pose proof (fork_not_fitting d e w Hok ltac:(tauto)) as Hs. destruct (handle_fork d e w) as [d' w']. cbn [snd] in Hs.
      destruct Hs as (_ & _ & _ & _ & ->). done. }
  destruct (fits_dec (d_table d) (e_child_pid e) Hok Hc) as [Hf|Hf].
  2:{ pose proof (fork_not_fitting d e w Hok ltac:(tauto)) as Hs. destruct (handle_fork d e w) as [d' w']. cbn [snd] in Hs.
      destruct Hs as (_ & _ & _ & _ & ->). done. }
  pose proof (handle_fork_spec d e w Hok Hp Hc Hf) as Hs. destruct (handle_fork d e w) as [d' w'].
  destruct Hs as (_ & _ & _ & _ & Hcont & Hw). set (inh := negb _ && _) in *. subst w'.
  destruct inh eqn:Hi; [|done]. intros Hne. apply move_pid_only in Hne as [-> Hin]. split; [exact Hin|]. split; [|by right].
  exists (fork_record e true). rewrite Hcont, Z.eqb_refl. done.
Qed.
End Placement.

(** ** Witnesses: a protected server forks a worker and creates a thread *)

Definition server_daemon : daemon := mk_daemon 50 ["redis"%string] "/cg" (process_table_reset (mk_process_table ∅ ∅ 0)).
Definition server_exec : event := mk_event EVENT_EXEC 100 1 0 0 "redis".
Definition server_fork : event := mk_event EVENT_FORK 100 1 101 0 "redis".
Definition server_thread : event := mk_event EVENT_FORK 100 1 100 0 "redis".

Definition server1 : daemon := (handle_event server_daemon server_exec sim_empty).1.2.
Definition server1_w : sim := (handle_event server_daemon server_exec sim_empty).2.

Example server_states :
  map (fun p => p_group <$> contents (d_table server1) p) [100; 101] = [Some GROUP_PROTECTED; None] /\
  fs_member server1_w 100 = Some "/cg/protected"%string.
Proof. vm_compute. auto. Qed.

Lemma server_ok : table_ok (d_table server_daemon).
Proof. apply table_ok_reset. Qed.

Lemma server1_ok : table_ok (d_table server1).
Proof.
  pose proof (handle_event_effect server_daemon server_exec sim_empty server_ok) as Hs. unfold server1.
  destruct (handle_event server_daemon server_exec sim_empty) as [[rc d'] w']. apply Hs.
Qed.

Lemma handle_event_refines_map_witness :
  let '(rc, d', w') := handle_event server1 server_fork server1_w in
  rc = 0 /\ table_ok (d_table d') /\ d_rules d' = d_rules server1 /\ daemon_pid d' = daemon_pid server1 /\
  event_effect server1 server_fork (contents (d_table server1)) (contents (d_table d')).
Proof.
  pose proof (handle_event_refines_map server1 server_fork server1_w server1_ok) as Hs.
  destruct (handle_event server1 server_fork server1_w) as [[rc d'] w']. exact Hs.
Defined.

Lemma protection_persists_witness : protected_now (d_table (handle_events server1 [server_fork; server_exec] server1_w).1) 100 = true.
Proof.
  apply (protection_persists [server_fork; server_exec] server1 server1_w 100 server1_ok); [vm_compute; reflexivity|].
  repeat (apply Forall_cons; split; [unfold names_anew; cbn; intros [[? ?]|[? ?]]; discriminate|]). constructor.
Defined.

Lemma server_child_fits : fits (d_table server1) 101.
Proof. right. vm_compute. reflexivity. Qed.

Lemma fork_inherits_protection_witness :
  let '(_, d', w') := handle_event server1 server_fork server1_w in
  exists r, contents (d_table d') 101 = Some r /\
    (p_is_protected r = true <-> exists parent, contents (d_table server1) 100 = Some parent /\ p_is_protected parent = true).
Proof.
  pose proof (fork_inherits_protection server1 server_fork server1_w server1_ok eq_refl ltac:(reflexivity) ltac:(reflexivity)
    ltac:(discriminate) server_child_fits) as Hs.
  destruct (handle_event server1 server_fork server1_w) as [[rc d'] w']. destruct Hs as (r & H1 & _ & _ & H2 & _). exists r. split; [exact H1|exact H2].
Defined.

Definition server_record : proc_info := default proc_info_zero (contents (d_table server1) 100).

Lemma thread_creation_drops_protection_witness :
  protected_now (d_table server1) 100 = true /\
  let '(_, d', w') := handle_event server1 server_thread server1_w in
  exists r', contents (d_table d') 100 = Some r' /\ p_is_protected r' = false.
Proof.
  split; [vm_compute; reflexivity|].
  pose proof (thread_creation_drops_protection server1 server_thread server1_w server_record server1_ok eq_refl ltac:(reflexivity) eq_refl) as Hs.
  destruct (handle_event server1 server_thread server1_w) as [[rc d'] w'].
  destruct Hs as (r' & H1 & H2 & _); [vm_compute; reflexivity|vm_compute; reflexivity|]. exists r'. split; [exact H1|exact H2].
Defined.

Lemma handler_moves_only_protected_witness :
  fs_member server1_w 100 <> fs_member sim_empty 100 /\ exists r, contents (d_table server1) 100 = Some r /\ p_group r = GROUP_PROTECTED.
Proof.
  assert (Hne : fs_member server1_w 100 <> fs_member sim_empty 100) by (vm_compute; discriminate). split; [exact Hne|].
  pose proof (handler_moves_only_protected server_daemon server_exec sim_empty 100 server_ok) as Hs.
  unfold server1, server1_w in *. destruct (handle_event server_daemon server_exec sim_empty) as [[rc d'] w'].
  exact (proj1 (proj2 (Hs Hne))).
Defined.
