(* ===== verification/BpfProgram.v ===== *)
(** * The BPF program ([protected_daemon.bpf.c])

    Three tracepoints of the scheduler turn the life of processes into events of
    the ring buffer.  The helpers of the kernel are an interface; a task is what
    the program reads of a [task_struct]. *)
From S2P Require Import Prelude CString Process.
From Stdlib Require Import Ascii String.
Local Open Scope Z_scope.

(** [tgid] and [real_parent->tgid] of a task. *)
Record task_struct := mk_task_struct {
  tgid : Z;
  real_parent_tgid : Z
}.

Class BpfHelpers (K : Type) := {
  (** [bpf_ringbuf_reserve]: whether there is room for an event *)
  bpf_ringbuf_reserve : K -> bool * K;
  bpf_ringbuf_submit : event -> K -> K;
  bpf_get_current_uid_gid : K -> Z;
  (** [bpf_get_current_comm] with the size of the buffer *)
  bpf_get_current_comm : Z -> K -> string
}.

Section Tracepoints.
Context {K : Type} `{HK : BpfHelpers K}.

(** The context of the event: the user and the name of the current task. *)
Definition event_uid (k : K) : Z := Z.land (bpf_get_current_uid_gid k) 0xffffffff.
Definition event_comm (k : K) : string := bpf_get_current_comm TASK_COMM_LEN k.

Definition handle_fork (parent child : task_struct) (k : K) : K :=
  let '(room, k) := bpf_ringbuf_reserve k in
  if negb room then k
  else bpf_ringbuf_submit (mk_event EVENT_FORK (tgid parent) (real_parent_tgid parent) (tgid child) (event_uid k) (event_comm k)) k.

Definition handle_exit (task : task_struct) (k : K) : K :=
  let '(room, k) := bpf_ringbuf_reserve k in
  if negb room then k
  else bpf_ringbuf_submit (mk_event EVENT_EXIT (tgid task) (real_parent_tgid task) 0 (event_uid k) (event_comm k)) k.

Definition handle_exec (task : task_struct) (k : K) : K :=
  let '(room, k) := bpf_ringbuf_reserve k in
  if negb room then k
  else bpf_ringbuf_submit (mk_event EVENT_EXEC (tgid task) (real_parent_tgid task) 0 (event_uid k) (event_comm k)) k.
End Tracepoints.
