(* ===== verification/KernelEvents.v ===== *)
(** * From the scheduler to the process table

    The BPF program turns what happens to tasks into events, and the daemon
    handles them in order.  When no event is lost, every process is
    single-threaded and the table has room, the daemon's view of what is
    protected is exact: it is the one computed from the life of the processes
    alone.  Threads break it, because they are reported under the pid of their
    process. *)
From S2P Require Import Prelude CString Os Cgroup Process SimOs ProcessSpec ProcessProps Policy BpfProgram EventHandler EventProps.
From Stdlib Require Import Ascii String.
Local Open Scope Z_scope.

(** What the kernel documents of the helpers. *)
Class BpfLaws (K : Type) `{BpfHelpers K} := {
  (** the events submitted and not consumed yet, oldest first *)
  bl_queue : K -> list event;
  bl_reserve k : bl_queue (bpf_ringbuf_reserve k).2 = bl_queue k;
  bl_submit e k : bl_queue (bpf_ringbuf_submit e k) = bl_queue k ++ [e];
  (** a name fits its buffer with its NUL *)
  bl_comm n k : 0 < n -> strlen (bpf_get_current_comm n k) < n /\ str_has (bpf_get_current_comm n k) NUL = false
}.

(** What a tracepoint reports. *)
Inductive action :=
  | ForkTask (parent child : task_struct)
  | ExecTask (task : task_struct)
  | ExitTask (task : task_struct).

Definition action_type (a : action) : Z :=
  match a with ForkTask _ _ => EVENT_FORK | ExecTask _ => EVENT_EXEC | ExitTask _ => EVENT_EXIT end.
Definition action_task (a : action) : task_struct :=
  match a with ForkTask parent _ => parent | ExecTask task => task | ExitTask task => task end.
Definition action_child (a : action) : Z := match a with ForkTask _ child => tgid child | _ => 0 end.

(** ** What is protected, from the life of the processes *)

(** The processes seen, with whether they are protected: an exec under a name of
    the policy protects (the daemon and its children excepted), protection is
    inherited and lasts until the exit. *)
Definition protect_step (self : Z) (rules : list string) (m : gmap Z bool) (ac : action * string) : gmap Z bool :=
  match ac.1 with
  | ForkTask parent child => <[tgid child := default false (m !! tgid parent)]> m
  | ExecTask task =>
      let named := negb ((tgid task =? self) || (real_parent_tgid task =? self)) && existsb (str_eq ac.2) rules in
      <[tgid task := named || default false (m !! tgid task)]> m
  | ExitTask task => delete (tgid task) m
  end.

(** Processes are single-threaded, and never more than the table holds. *)
Definition single_threaded (a : action) : bool :=
  (0 <? tgid (action_task a)) && match a with ForkTask parent child => (0 <? tgid child) && negb (tgid parent =? tgid child) | _ => true end.

Fixpoint within_capacity (self : Z) (rules : list string) (m : gmap Z bool) (acts : list (action * string)) : Prop :=
  match acts with
  | [] => True
  | ac :: acts =>
      let m' := protect_step self rules m ac in
      single_threaded ac.1 = true /\ Z.of_nat (size m') <= process_table_capacity /\ within_capacity self rules m' acts
  end.

Section Kernel.
Context {K : Type} {HK : BpfHelpers K} {BL : BpfLaws K}.

(** The program attached to the tracepoint of the action. *)
Definition trace (a : action) (k : K) : K :=
  match a with
  | ForkTask parent child => BpfProgram.handle_fork parent child k
  | ExecTask task => BpfProgram.handle_exec task k
  | ExitTask task => BpfProgram.handle_exit task k
  end.

(** A run of the kernel: the actions with the name of the current task; between
    them anything may happen that submits nothing.  No reservation fails. *)
Inductive kernel_runs : K -> list (action * string) -> K -> Prop :=
  | runs_end k : kernel_runs k [] k
  | runs_else k k1 acts k2 : bl_queue k1 = bl_queue k -> kernel_runs k1 acts k2 -> kernel_runs k acts k2
  | runs_action k a acts k2 : (bpf_ringbuf_reserve k).1 = true -> kernel_runs (trace a k) acts k2 ->
      kernel_runs k ((a, event_comm (bpf_ringbuf_reserve k).2) :: acts) k2.

(** The event reports the action. *)
Definition reports (ac : action * string) (e : event) : Prop :=
  e_type e = action_type ac.1 /\ e_pid e = tgid (action_task ac.1) /\ e_ppid e = real_parent_tgid (action_task ac.1) /\
  e_child_pid e = action_child ac.1 /\ e_comm e = ac.2 /\ strlen ac.2 < TASK_COMM_LEN /\ str_has ac.2 NUL = false.

Lemma trace_reports a k : (bpf_ringbuf_reserve k).1 = true ->
  exists e, bl_queue (trace a k) = bl_queue k ++ [e] /\ reports (a, event_comm (bpf_ringbuf_reserve k).2) e.
Proof.
  intros Hr. pose proof (bl_reserve k) as Hq.
  destruct a as [parent child|task|task]; cbn [trace]; [unfold BpfProgram.handle_fork|unfold BpfProgram.handle_exec|unfold BpfProgram.handle_exit];
    destruct (bpf_ringbuf_reserve k) as [room k1]; cbn [fst snd] in *; subst room; cbn [negb];
    (eexists; split; [by rewrite bl_submit, Hq|]); unfold reports; cbn [fst snd action_type action_task action_child e_type e_pid e_ppid e_child_pid e_comm];
    pose proof (bl_comm TASK_COMM_LEN k1 ltac:(done)); tauto.
Qed.

Lemma runs_queue k acts k' : kernel_runs k acts k' -> exists es, bl_queue k' = bl_queue k ++ es /\ Forall2 reports acts es.
Proof.
  induction 1 as [k|k k1 acts k2 Hq Hr (es & He & Hf)|k a acts k2 Hr Hk (es & He & Hf)].
  - exists []. by rewrite app_nil_r.
  - exists es. by rewrite He, Hq.
  - destruct (trace_reports a k Hr) as (e & Hq & Hrep). exists (e :: es). rewrite He, Hq, <- app_assoc. split; [done|]. by constructor.
Qed.
End Kernel.

(** ** The daemon follows *)

Section Follow.
Context {W : Type} `{OS W}.

(** The table knows exactly the processes of [m], with their protection. *)
Definition follows (d : daemon) (m : gmap Z bool) : Prop :=
  table_ok (d_table d) /\ forall p, p_is_protected <$> contents (d_table d) p = m !! p.

Lemma follows_count d m : follows d m -> occupied_count (d_table d) = Z.of_nat (size m).
Proof.
  intros [Hok Hm]. destruct (entries_spec _ Hok) as (<- & Hnd & Hin). rewrite <- length_map with (f := p_pid), <- size_dom.
  rewrite <- (size_list_to_set (C := gset Z) (map p_pid (entries (d_table d)))) by done. do 2 f_equal. apply set_eq. intros p.
  rewrite elem_of_list_to_set, elem_of_dom, <- Hm, fmap_is_Some, list_elem_of_In, in_map_iff. split.
  - intros (r & <- & Hr%list_elem_of_In%Hin). by exists r.
  - intros [r Hc]. pose proof Hc as (_ & i & (_ & _ & Hp) & <-)%contents_spec; [|done]. exists (entry (d_table d) i). split; [done|].
    apply list_elem_of_In, Hin. by rewrite Hp.
Qed.

Lemma follows_fits d m p b : follows d m -> Z.of_nat (size (<[p := b]> m)) <= process_table_capacity -> fits (d_table d) p.
Proof.
  intros Hf Hs. pose proof (follows_count d m Hf) as Hc. destruct Hf as [_ Hm]. unfold fits, process_table_capacity in *. specialize (Hm p).
  destruct (m !! p) as [x|] eqn:E; [left; intros Hn; by rewrite Hn in Hm|right]. rewrite map_size_insert_None in Hs by done. lia.
Qed.

Lemma name_kept comm (rules : list string) : strlen comm < TASK_COMM_LEN -> str_has comm NUL = false ->
  existsb (str_eq (snprintf TASK_COMM_LEN (c_str comm))) rules = existsb (str_eq comm) rules.
Proof. intros Hl Hn. by rewrite (c_str_id comm), snprintf_fits. Qed.

Lemma follows_step d m e ac (w : W) : follows d m -> reports ac e -> single_threaded ac.1 = true ->
  Z.of_nat (size (protect_step (daemon_pid d) (d_rules d) m ac)) <= process_table_capacity ->
  let d' := (handle_event d e w).1.2 in
  follows d' (protect_step (daemon_pid d) (d_rules d) m ac) /\ daemon_pid d' = daemon_pid d /\ d_rules d' = d_rules d.
Proof.
  intros Hf (Ht & Hp & Hpp & Hc & Hn & Hlen & Hnul) Hs Hroom. pose proof Hf as [Hok Hm].
  pose proof (handle_event_effect d e w Hok) as He. destruct (handle_event d e w) as [[rc d'] w']. destruct He as (_ & Hok' & H1 & H2 & _ & He).
  cbn [fst snd]. split; [|done]. split; [exact Hok'|]. intros q. unfold event_effect in He. rewrite Ht in He.
  destruct ac as [[parent child|task|task] comm]; cbn [fst snd action_type action_task action_child protect_step] in *; cbn [Z.eqb EVENT_EXEC EVENT_FORK EVENT_EXIT Pos.eqb] in He;
    unfold single_threaded in Hs; cbn [action_task] in Hs; apply andb_true_iff in Hs as [Hpos%Z.ltb_lt Hs]; rewrite Hp in He.
  - apply andb_true_iff in Hs as [Hcpos%Z.ltb_lt Hne%negb_true_iff]. rewrite Hc in He.
    destruct He as [(_ & _ & _ & ->)|[Hno _]]; [|exfalso; apply Hno; eauto using follows_fits].
    rewrite Hne. cbn [negb andb]. rewrite lookup_insert. destruct (Z.eqb_spec (tgid child) q) as [->|Hq].
    + rewrite decide_True by done. cbn [fmap option_fmap option_map fork_record p_is_protected]. f_equal. rewrite <- Hm. by destruct (contents _ _).
    + rewrite decide_False by done. apply Hm.
  - destruct He as [(_ & _ & exe & cmd & ->)|[Hno _]]; [|exfalso; apply Hno; eauto using follows_fits].
    rewrite lookup_insert. destruct (Z.eqb_spec (tgid task) q) as [<-|Hq]; [|rewrite decide_False by done; apply Hm].
    rewrite decide_True by done. cbn [fmap option_fmap option_map]. f_equal. rewrite <- Hm.
    unfold exec_final, policy_is_protected. cbn [exec_record p_pid p_ppid p_comm]. rewrite Hp, Hpp, Hn, name_kept by done.
    assert (E : p_is_protected (exec_record e (contents (d_table d) (tgid task)) exe cmd) =
      default false (p_is_protected <$> contents (d_table d) (tgid task))) by (by destruct (contents (d_table d) (tgid task))).
    destruct ((tgid task =? _) || (real_parent_tgid task =? _)); [exact E|]. cbn [negb andb]. destruct (existsb _ _); [done|exact E].
  - rewrite He, lookup_delete. destruct (Z.eqb_spec (tgid task) q); [by rewrite decide_True|rewrite decide_False by done; apply Hm].
Qed.

Lemma follows_events acts : forall es d m (w : W), Forall2 reports acts es -> follows d m ->
  within_capacity (daemon_pid d) (d_rules d) m acts ->
  follows (handle_events d es w).1 (fold_left (protect_step (daemon_pid d) (d_rules d)) acts m).
Proof.
  induction acts as [|ac acts IH]; intros es d m w Hr Hf Hc; inversion Hr; subst; [exact Hf|]. destruct Hc as (Hs & Hroom & Hc).
  cbn [handle_events fold_left]. match goal with Hrep : reports ac ?e |- _ => pose proof (follows_step d m e ac w Hf Hrep Hs Hroom) as Hstep;
    destruct (handle_event d e w) as [[rc d'] w'] end.
  cbn [fst snd] in Hstep. destruct Hstep as (Hf' & E1 & E2). epose proof (IH _ d' _ w' ltac:(eassumption) Hf') as IH'. rewrite E1, E2 in IH'. exact (IH' Hc).
Qed.

Context {K : Type} {HK : BpfHelpers K} {BL : BpfLaws K}.

(** C1: the daemon's view of what is protected is exact.  Run the kernel from an
    empty ring buffer over any life of single-threaded processes that fits in
    the table and loses no event, and let the daemon handle what was submitted:
    its table holds exactly the processes that are alive, and each is protected
    exactly if it, or the ancestor it inherits from, was started under a name of
    the policy. *)
Theorem tracking_exact (k k' : K) acts d m (w : W) :
  bl_queue k = [] -> kernel_runs k acts k' -> follows d m -> within_capacity (daemon_pid d) (d_rules d) m acts ->
  forall p, p_is_protected <$> contents (d_table (handle_events d (bl_queue k') w).1) p =
    fold_left (protect_step (daemon_pid d) (d_rules d)) acts m !! p.
Proof.
  intros Hq Hr Hf Hc p. destruct (runs_queue _ _ _ Hr) as (es & He & Hes). rewrite He, Hq. cbn [app].
  by apply (follows_events acts es d m w Hes Hf Hc).
Qed.

(** C36: threads break the tracking, because the tracepoints fire for every thread
    and report the pid of its process: when a protected process creates a thread
    the daemon replaces its record by an unprotected one, and when any of its
    threads exits the daemon removes the record, although the process lives on. *)
Theorem threads_break_tracking (k : K) d leader thread r (w : W) :
  table_ok (d_table d) -> (bpf_ringbuf_reserve k).1 = true -> tgid thread = tgid leader -> 0 < tgid leader ->
  contents (d_table d) (tgid leader) = Some r -> p_is_protected r = true ->
  (exists e, bl_queue (BpfProgram.handle_fork leader thread k) = bl_queue k ++ [e] /\
    protected_now (d_table (handle_event d e w).1.2) (tgid leader) = false) /\
  (exists e, bl_queue (BpfProgram.handle_exit thread k) = bl_queue k ++ [e] /\
    contents (d_table (handle_event d e w).1.2) (tgid leader) = None).
Proof.
  intros Hok Hr Ht Hpos Hc _. split.
  - destruct (trace_reports (ForkTask leader thread) k Hr) as (e & He & Hty & Hp & _ & Hch & _). exists e. split; [exact He|].
    pose proof (handle_event_effect d e w Hok) as Hs. destruct (handle_event d e w) as [[rc d'] w']. destruct Hs as (_ & _ & _ & _ & _ & Hs).
    unfold event_effect in Hs. rewrite Hty, Hp, Hch in Hs. cbn [fst snd action_task action_type action_child] in *. rewrite Ht in Hs. cbn [Z.eqb EVENT_EXEC EVENT_FORK Pos.eqb] in Hs.
    destruct Hs as [(_ & _ & _ & Hs)|[Hno _]]; [|exfalso; apply Hno; unfold fits; rewrite Hc; by auto].
    unfold protected_now. by rewrite Hs, !Z.eqb_refl.
  - destruct (trace_reports (ExitTask thread) k Hr) as (e & He & Hty & Hp & _). exists e. split; [exact He|].
    pose proof (handle_event_effect d e w Hok) as Hs. destruct (handle_event d e w) as [[rc d'] w']. destruct Hs as (_ & _ & _ & _ & _ & Hs).
    unfold event_effect in Hs. rewrite Hty, Hp in Hs. cbn [fst snd action_task action_type] in *. by rewrite Hs, Ht, Z.eqb_refl.
Qed.
End Follow.

(** ** A small kernel *)

(** A ring buffer with room for some more events; the current task's user and
    name. *)
Record ring := mk_ring { rg_events : list event; rg_room : nat; rg_uid_gid : Z; rg_comm : string }.

#[export] Instance ring_helpers : BpfHelpers ring := {|
  bpf_ringbuf_reserve k := match rg_room k with O => (false, k) | S n => (true, mk_ring (rg_events k) n (rg_uid_gid k) (rg_comm k)) end;
  bpf_ringbuf_submit e k := mk_ring (rg_events k ++ [e]) (rg_room k) (rg_uid_gid k) (rg_comm k);
  bpf_get_current_uid_gid k := rg_uid_gid k;
  bpf_get_current_comm n k := str_take (Z.to_nat (n - 1)) (c_str (rg_comm k))
|}.

#[export] Program Instance ring_laws : BpfLaws ring := {| bl_queue := rg_events |}.
Next Obligation. intros [es [|n] u c]; done. Qed.
Next Obligation. intros e [es n u c]; done. Qed.
Next Obligation.
  intros n k Hn. cbn. split.
  - pose proof (strlen_snprintf n (c_str (rg_comm k)) Hn) as E. unfold snprintf in E. lia.
  - generalize (Z.to_nat (n - 1)) as j. induction (rg_comm k) as [|c s IH]; intros [|j]; try done. cbn [c_str].
    destruct (Ascii.eqb c NUL) eqn:E; [done|]. cbn [str_take str_has]. by rewrite E, IH.
Qed.

(** A server under a name of the policy starts, forks a worker and exits. *)
Definition server_task : task_struct := mk_task_struct 100 1.
Definition worker_task : task_struct := mk_task_struct 101 100.
Definition server_ring : ring := mk_ring [] 8 1000 "redis".
Definition server_actions : list action := [ExecTask server_task; ForkTask server_task worker_task; ExitTask server_task].
Definition server_life : list (action * string) := map (fun a => (a, "redis"%string)) server_actions.
Definition server_traced : ring := fold_left (fun k a => trace a k) server_actions server_ring.

Lemma server_runs : kernel_runs server_ring server_life server_traced.
Proof.
  unfold server_life, server_actions. cbn [map].
  refine (runs_action server_ring (ExecTask server_task) _ _ eq_refl _).
  refine (runs_action (trace (ExecTask server_task) server_ring) (ForkTask server_task worker_task) _ _ eq_refl _).
  refine (runs_action (trace (ForkTask server_task worker_task) (trace (ExecTask server_task) server_ring)) (ExitTask server_task) _ _ eq_refl _).
  apply runs_end.
Qed.

Lemma server_followed : follows server_daemon ∅.
Proof. split; [exact server_ok|]. intros p. rewrite lookup_empty. unfold contents, process_get, find_existing_slot. by destruct (p <=? 0). Qed.

Lemma tracking_exact_witness :
  p_is_protected <$> contents (d_table (handle_events server_daemon (bl_queue server_traced) sim_empty).1) 101 = Some true.
Proof.
  rewrite (tracking_exact (K := ring) server_ring server_traced server_life server_daemon ∅ sim_empty).
  - vm_compute. reflexivity.
  - reflexivity.
  - exact server_runs.
  - exact server_followed.
  - repeat (split; [reflexivity|split; [vm_compute; discriminate|]]). exact I.
Defined.

Lemma threads_break_tracking_witness :
  exists e, bl_queue (BpfProgram.handle_fork server_task server_task server_ring) = [e] /\
    protected_now (d_table server1) 100 = true /\ protected_now (d_table (handle_event server1 e server1_w).1.2) 100 = false.
Proof.
  destruct (threads_break_tracking (K := ring) server_ring server1 server_task server_task server_record server1_w server1_ok) as [(e & He & Hf) _];
    [reflexivity|reflexivity|reflexivity|vm_compute; reflexivity|vm_compute; reflexivity|].
  exists e. split; [exact He|]. split; [vm_compute; reflexivity|exact Hf].
Defined.
