(* ===== verification/DaemonMain.v ===== *)
(** * Start-up and main loop of the daemon ([protected_daemon.c])

    The daemon loads its policy, calibrates the DRAM mapping, attaches the BPF
    program and then handles the events of the ring buffer.  libbpf and the
    generated skeleton are an interface; a poll returns the events it hands to
    the callback, in order, and its code. *)
From S2P Require Import Prelude Float64 CString Scan Os Calibration CalibrationLoad CalibrationRun CalibrationWait DramMapping CalibrationProps CalibrationText Cgroup Process SimOs ProcessSpec Policy EventHandler.
From S2P Require Import EventProps.
From Stdlib Require Import Ascii String.
Local Open Scope Z_scope.

Inductive daemon_state :=
  | DAEMON_STATE_STARTING
  | DAEMON_STATE_CONFIG_READY
  | DAEMON_STATE_CALIBRATING
  | DAEMON_STATE_BANK_READY
  | DAEMON_STATE_BPF_READY
  | DAEMON_STATE_RUNNING
  | DAEMON_STATE_FAILED.

Record daemon_context := mk_daemon_context {
  ctx_state : daemon_state;
  ctx_calibration : calibration_result;
  ctx_mapping : dram_mapping;
  bank_mapping_ready : bool
}.

#[export] Instance daemon_context_settable : Settable daemon_context :=
  fun c => mk_daemon_context (ctx_state c) (ctx_calibration c) (ctx_mapping c) (bank_mapping_ready c).

(** [memset(&g_ctx, 0, sizeof(g_ctx))] *)
Definition g_ctx_zero : daemon_context :=
  mk_daemon_context DAEMON_STATE_STARTING (mk_calibration_result false false (replicate 32 0) 0 "" calibration_metrics_zero 0 "") dram_mapping_zero false.

(** The configuration of the worker, a constant of the function. *)
Definition bank_calibration_config : calibration_config :=
  mk_calibration_config (Some "scripts/kk_calibrate.py") (Some "../Knock-Knock/main") (Some "/run/protected-daemon/dram-map.json")
    (Some "/run/protected-daemon/kk-calibration") (Some "/run/protected-daemon/calibration.log")
    3 (dlit 25 1) 500 50 1800 true.

Class Bpf (W : Type) := {
  bpf_getpid : W -> Z;
  (** [protected_daemon_bpf__open_and_load] and [__attach] *)
  bpf_open_and_load : W -> bool * W;
  bpf_attach : W -> Z * W;
  (** [ring_buffer__new] and [ring_buffer__poll]: the events, and the code *)
  ring_new : W -> bool * W;
  ring_poll : W -> list event * Z * W;
  ring_free : W -> W;
  bpf_destroy : W -> W
}.

Section Main.
Context {W : Type} `{HO : OS W} `{HB : BinFile W} `{HP : Procs W} `{HE : Bpf W}.

(** [None]: the fuel of the calibration ran out. *)
Definition init_dram_bank_mapping (fuel : nat) (ctx : option daemon_context) (w : W) : option (Z * option daemon_context * W) :=
  match ctx with
  | None => Some (-1, None, w)
  | Some ctx =>
      let ctx := (ctx <| ctx_state := DAEMON_STATE_CALIBRATING |>) <| bank_mapping_ready := false |> in
      match calibration_run fuel (Some bank_calibration_config) (Some (ctx_calibration ctx)) w with
      | None => None
      | Some (rc, out, w) =>
          let ctx := ctx <| ctx_calibration ::= fun c => default c out |> in
          if negb (rc =? CALIBRATION_OK) then Some (-1, Some (ctx <| ctx_state := DAEMON_STATE_FAILED |>), w)
          else
            let '(rc, mapping) := dram_mapping_init_from_calibration (Some (ctx_mapping ctx)) (Some (ctx_calibration ctx)) in
            let ctx := ctx <| ctx_mapping ::= fun m => default m mapping |> in
            if negb (rc =? DRAM_MAPPING_OK) then Some (-1, Some (ctx <| ctx_state := DAEMON_STATE_FAILED |>), w)
            else Some (0, Some ((ctx <| bank_mapping_ready := true |>) <| ctx_state := DAEMON_STATE_BANK_READY |>), w)
      end
  end.

(** One turn of the loop: the code that ends it, if any. *)
Definition poll_turn (d : daemon) (w : W) : option Z * daemon * W :=
  let '(events, err, w) := ring_poll w in
  let '(d, w) := handle_events d events w in
  (if err <? 0 then Some err else None, d, w).

(** At most [n] turns: the code that ended the loop, or [None] when it still
    runs. *)
Fixpoint poll_loop (n : nat) (d : daemon) (w : W) : option Z * daemon * W :=
  match n with
  | O => (None, d, w)
  | S n =>
      match poll_turn d w with
      | (Some err, d, w) => (Some err, d, w)
      | (None, d, w) => poll_loop n d w
      end
  end.

(** Where the program is: it exited with a code, before or after the loop, or it
    handles events. *)
Inductive daemon_run :=
  | Refused (code : Z) (ctx : daemon_context) (w : W)
  | Stopped (code : Z) (ctx : daemon_context) (d : daemon) (w : W)
  | Handling (ctx : daemon_context) (d : daemon) (w : W).

(** The static state of the other files when [main] starts. *)
Definition start_daemon (pid : Z) (rules : list string) (table : process_table) : daemon := mk_daemon pid rules CGROUP_DEFAULT_BASE table.

(** [main], observed after at most [polls] turns of its loop; [argv1] is
    [argv[1]], if any.  [None]: the fuel of the calibration ran out. *)
Definition main (fuel polls : nat) (argv1 : option string) (table : process_table) (w : W) : option daemon_run :=
  let config_path := default "config/protected.conf"%string argv1 in
  let ctx := g_ctx_zero <| ctx_state := DAEMON_STATE_STARTING |> in
  let pid := bpf_getpid w in
  let '(rc, rules, w) := policy_load_config config_path w in
  if rc <? 0 then Some (Refused 1 ctx w)
  else
    let ctx := ctx <| ctx_state := DAEMON_STATE_CONFIG_READY |> in
    match init_dram_bank_mapping fuel (Some ctx) w with
    | None => None
    | Some (rc, ctx', w) =>
        let ctx := default ctx ctx' in
        if rc <? 0 then Some (Refused 1 ctx w)
        else
          let '(skel, w) := bpf_open_and_load w in
          if negb skel then Some (Refused 1 ctx w)
          else
            let '(err, w) := bpf_attach w in
            if negb (err =? 0) then Some (Refused (- err) ctx (bpf_destroy (ring_free w)))
            else
              let '(rb, w) := ring_new w in
              if negb rb then Some (Refused 1 ctx (bpf_destroy (ring_free w)))
              else
                match poll_loop polls (start_daemon pid rules table) w with
                | (Some err, d, w) => Some (Stopped (- err) ctx d (bpf_destroy (ring_free w)))
                | (None, d, w) => Some (Handling ctx d w)
                end
    end.
End Main.

(** * The daemon starts fail-closed

    Every step of the start-up must succeed before an event is handled, and the
    calibration it relies on is one the worker produced in this very run. *)

Section Calibrate.
Context {W : Type} {HO : OS W} {HP : Procs W} {HB : BinFile W}.

(** The result keeps everything but the exit code. *)
Lemma loaded_exit_code r code : loaded_ok r -> loaded_ok (r <| worker_exit_code := code |>).
Proof. intros [H1 H2 H3 H4 H5 H6]. split; try done. same_masks H3. Qed.

(** What a successful run went through. *)
Lemma calibration_run_success fuel c out (w : W) r w' :
  calibration_run fuel (Some c) (Some out) w = Some (CALIBRATION_OK, Some r, w') ->
  loaded_ok r /\ worker_exit_code r = 0 /\
  exists err w1 pid w2 w3 r0,
    pr_unlink (text_of (result_path c)) w = (err, w1) /\ (err = None \/ err = Some ENOENT) /\
    launch_worker fuel w1 = Some (CALIBRATION_OK, pid, w2) /\
    wait_child fuel pid (timeout_sec c) w2 = Some (CALIBRATION_OK, Some 0, w3) /\
    calibration_load_result (Some (text_of (result_path c))) (Some (result_zero <| worker_exit_code := 0 |>)) w3 = (CALIBRATION_OK, Some r0, w') /\
    r = r0 <| worker_exit_code := 0 |>.
Proof.
  unfold calibration_run. rewrite reset_result. destruct (Z.eqb_spec (validate_config (Some c)) CALIBRATION_OK) as [Ev|Hne]; cbn [negb]; [|congruence].
  destruct (pr_unlink (text_of (result_path c)) w) as [err w1] eqn:Eu.
  destruct (match err with Some e => negb (bool_decide (e = ENOENT)) | None => false end) eqn:Herr; [discriminate|].
  destruct (launch_worker fuel w1) as [[[rc pid] w2]|] eqn:El; [|discriminate]. destruct (Z.eqb_spec rc CALIBRATION_OK) as [->|]; cbn [negb]; [|congruence].
  destruct (wait_child fuel pid (timeout_sec c) w2) as [[[rc code] w3]|] eqn:Ew; [|discriminate].
  destruct (Z.eqb_spec rc CALIBRATION_OK) as [->|]; cbn [negb]; [|congruence]. set (k := default (-1) code) in *.
  destruct (calibration_load_result (Some (text_of (result_path c))) (Some (result_zero <| worker_exit_code := k |>)) w3) as [[load_rc o] w4] eqn:Er.
  destruct (Z.eqb_spec k 0) as [Hk|]; cbn [negb].
  2:{ destruct (load_rc =? CALIBRATION_ERR_REJECTED); [discriminate|]. discriminate. }
  destruct o as [r0|]; [|discriminate]. intros [= -> <- <-].
  destruct (load_result_ok _ _ _ _ _ _ Er) as [Hok _]. split; [by apply loaded_exit_code, Hok|]. split; [exact Hk|].
  assert (Hcode : code = Some 0) by (subst k; destruct code as [x|]; [by f_equal|discriminate]). rewrite Hk in Er. rewrite Hcode in Ew.
  exists err, w1, pid, w2, w3, r0. conjs; try done; [|by rewrite Hk]. destruct err as [e|]; [|by left]. right.
  apply negb_false_iff, bool_decide_eq_true in Herr. by subst.
Qed.

(** A run always leaves a result. *)
Lemma load_result_some path out (w : W) rc o w' : calibration_load_result (Some path) (Some out) w = (rc, o, w') -> is_Some o.
Proof.
  unfold calibration_load_result. cbn [calibration_result_reset]. destruct (read_file_limited path w) as [[x|j] w1]; [intros [= _ <- _]; by eexists|].
  destruct (load_fields j _). intros [= _ <- _]. by eexists.
Qed.

Lemma calibration_run_some fuel c out (w : W) rc o w' : calibration_run fuel (Some c) (Some out) w = Some (rc, o, w') -> is_Some o.
Proof.
  unfold calibration_run. rewrite reset_result. destruct (negb (validate_config _ =? _)); [intros [= _ <- _]; by eexists|].
  destruct (pr_unlink _ w) as [err w2]. destruct (match err with Some e => _ | None => false end); [intros [= _ <- _]; by eexists|].
  destruct (launch_worker fuel w2) as [[[rc2 pid] w3]|]; [|done]. destruct (negb (rc2 =? _)); [intros [= _ <- _]; by eexists|].
  destruct (wait_child fuel pid _ w3) as [[[rc3 code] w4]|]; [|done].
  destruct (negb (rc3 =? _)); [destruct (rc3 =? CALIBRATION_ERR_TIMEOUT); intros [= _ <- _]; by eexists|].
  destruct (calibration_load_result _ _ w4) as [[lrc o1] w5] eqn:El. destruct (load_result_some _ _ _ _ _ _ El) as [r ->].
  destruct (negb _); [|intros [= _ <- _]; by eexists]. destruct (lrc =? _); [intros [= _ <- _]; by eexists|]. destruct (String.eqb _ _); intros [= _ <- _]; by eexists.
Qed.


(** ** The mapping *)

(** A context whose mapping is usable: it is ready, well formed, and has the
    masks of an accepted calibration. *)
Definition mapping_usable (ctx : daemon_context) : Prop :=
  ctx_state ctx = DAEMON_STATE_BANK_READY /\ bank_mapping_ready ctx = true /\
  wf_mapping (ctx_mapping ctx) /\ dram_mapping_is_ready (Some (ctx_mapping ctx)) = true /\
  accepted_calibration (ctx_calibration ctx) /\ mask_count (ctx_mapping ctx) = bank_mask_count (ctx_calibration ctx) /\
  forall i, (i < Z.to_nat (bank_mask_count (ctx_calibration ctx)))%nat -> nth i (masks (ctx_mapping ctx)) 0 = nth i (bank_masks (ctx_calibration ctx)) 0.

Lemma init_bank_spec fuel ctx (w : W) rc ctx' w' : init_dram_bank_mapping fuel (Some ctx) w = Some (rc, ctx', w') ->
  exists c, ctx' = Some c /\
  ((rc = 0 /\ mapping_usable c) \/ (rc = -1 /\ ctx_state c = DAEMON_STATE_FAILED /\ bank_mapping_ready c = false)).
Proof.
  unfold init_dram_bank_mapping. destruct (calibration_run fuel _ _ w) as [[[rc1 out] w1]|] eqn:Er; [|discriminate].
  pose proof (calibration_run_some _ _ _ _ _ _ _ Er) as [r ->].
  destruct (Z.eqb_spec rc1 CALIBRATION_OK) as [->|]; cbn [negb]; [|intros [= <- <- <-]; eexists; split; [done|by right]].
  destruct (calibration_run_success _ _ _ _ _ _ Er) as (Hl & _). destruct (loaded_accepted r Hl) as [Hwf _].
  assert (Hc : 0 <= bank_mask_count r) by (pose proof (mo_count _ (lo_masks _ Hl)); lia).
  cbn [from_option id ctx_mapping ctx_calibration set_field].
  destruct (Z.eq_dec (validate_calibration_result (Some r)) DRAM_MAPPING_OK) as [Ha|Ha]; rewrite (validate_accepts r Hwf Hc) in Ha.
  - destruct (init_accepted (ctx_mapping ctx) r Hwf Hc Ha) as (m & Em & H1 & H2 & H3 & H4).
    match goal with |- context [dram_mapping_init_from_calibration (Some ?m0) (Some ?r0)] =>
      change (dram_mapping_init_from_calibration (Some m0) (Some r0)) with (dram_mapping_init_from_calibration (Some (ctx_mapping ctx)) (Some r)) end.
    rewrite Em. cbn [negb Z.eqb DRAM_MAPPING_OK]. intros [= <- <- <-]. eexists. split; [done|]. left. split; [done|]. unfold mapping_usable. by conjs.
  - destruct (init_refused (ctx_mapping ctx) r Hwf Hc Ha) as (rc2 & Em & Hrc).
    match goal with |- context [dram_mapping_init_from_calibration (Some ?m0) (Some ?r0)] =>
      change (dram_mapping_init_from_calibration (Some m0) (Some r0)) with (dram_mapping_init_from_calibration (Some (ctx_mapping ctx)) (Some r)) end.
    rewrite Em. destruct (Z.eqb_spec rc2 DRAM_MAPPING_OK); [done|]. cbn [negb]. intros [= <- <- <-]. eexists. split; [done|]. by right.
Qed.
End Calibrate.

(** ** The main loop *)

Section Loop.
Context {W : Type} {HO : OS W} {HP : Procs W} {HB : BinFile W} {HE : Bpf W}.
Implicit Types w : W.

(** The table stays sound and the settings do not change. *)
Definition keeps (d d' : daemon) : Prop :=
  table_ok (d_table d') /\ daemon_pid d' = daemon_pid d /\ d_rules d' = d_rules d /\ d_base d' = d_base d.

Lemma handle_events_keep es : forall d (w : W), table_ok (d_table d) -> keeps d (handle_events d es w).1.
Proof.
  induction es as [|e es IH]; intros d w Hok; [unfold keeps; by conjs|]. cbn [handle_events]. pose proof (handle_event_effect d e w Hok) as Hs.
  destruct (handle_event d e w) as [[rc d1] w1]. destruct Hs as (_ & Hok1 & H1 & H2 & H3 & _). destruct (IH d1 w1 Hok1) as (K1 & K2 & K3 & K4).
  unfold keeps. conjs; [done|congruence..].
Qed.

Lemma poll_loop_keeps n : forall d (w : W), table_ok (d_table d) ->
  let '(code, d', _) := poll_loop n d w in keeps d d' /\ match code with Some err => err < 0 | None => True end.
Proof.
  induction n as [|n IH]; intros d w Hok; cbn [poll_loop]; [unfold keeps; by conjs|]. unfold poll_turn.
  destruct (ring_poll w) as [[es err] w1]. pose proof (handle_events_keep es d w1 Hok) as Hk. destruct (handle_events d es w1) as [d1 w2].
  destruct (Z.ltb_spec err 0); [by split|]. destruct Hk as (Hok1 & H1 & H2 & H3). specialize (IH d1 w2 Hok1).
  destruct (poll_loop n d1 w2) as [[code d2] w3]. destruct IH as [(K1 & K2 & K3 & K4) K5]. split; [|done]. unfold keeps. conjs; [done|cbn in *; congruence..].
Qed.

(** [n] turns of the loop, each of which polls without an error and handles the
    events it was given. *)
Inductive polled : nat -> daemon -> W -> daemon -> W -> Prop :=
| polled_none d w : polled 0 d w d w
| polled_turn n d w events err w1 d1 w2 d2 w3 :
    ring_poll w = (events, err, w1) -> 0 <= err -> handle_events d events w1 = (d1, w2) ->
    polled n d1 w2 d2 w3 -> polled (S n) d w d2 w3.

Lemma poll_loop_turns n : forall d w, match poll_loop n d w with
  | (None, d', w') => polled n d w d' w'
  | (Some err, d', w') => exists k d1 w1 events w2, (k < n)%nat /\ polled k d w d1 w1 /\
      ring_poll w1 = (events, err, w2) /\ err < 0 /\ handle_events d1 events w2 = (d', w')
  end.
Proof.
  induction n as [|n IH]; intros d w; cbn [poll_loop]; [apply polled_none|]. unfold poll_turn.
  destruct (ring_poll w) as [[es err] w1] eqn:Er. destruct (handle_events d es w1) as [d1 w2] eqn:Eh. destruct (Z.ltb_spec err 0).
  - exists O, d, w, es, w1. conjs; try done; [lia|apply polled_none].
  - specialize (IH d1 w2). destruct (poll_loop n d1 w2) as [[[err'|] d'] w'].
    + destruct IH as (k & d3 & w3 & es' & w4 & Hk & Hp & Hr & He & Hh). exists (S k), d3, w3, es', w4. conjs; try done; [lia|]. by eapply polled_turn.
    + by eapply polled_turn.
Qed.

(** ** The start-up *)

Definition config_ready : daemon_context := g_ctx_zero <| ctx_state := DAEMON_STATE_CONFIG_READY |>.

(** The steps of the start-up, each of which succeeded: the policy was loaded, the
    mapping initialised, the program loaded and attached, and the ring made. *)
Definition policy_loaded (path : string) (w : W) (rules : list string) (w1 : W) : Prop := policy_load_config path w = (0, rules, w1).
Definition mapping_ready (fuel : nat) path w rules ctx (w2 : W) : Prop :=
  exists w1, policy_loaded path w rules w1 /\ init_dram_bank_mapping fuel (Some config_ready) w1 = Some (0, Some ctx, w2).
Definition program_loaded fuel path w rules ctx (w3 : W) : Prop := exists w2, mapping_ready fuel path w rules ctx w2 /\ bpf_open_and_load w2 = (true, w3).
Definition program_attached fuel path w rules ctx (w4 : W) : Prop := exists w3, program_loaded fuel path w rules ctx w3 /\ bpf_attach w3 = (0, w4).
Definition started fuel path w rules ctx (w5 : W) : Prop := exists w4, program_attached fuel path w rules ctx w4 /\ ring_new w4 = (true, w5).

(** The start-up failed in a step, all earlier ones having succeeded; the exit code,
    and the world the program leaves: that of the step, with the program released
    once it was loaded, and nothing else. *)
Inductive startup_failed (fuel : nat) (path : string) (w : W) : Z -> W -> Prop :=
| no_policy rules w1 : policy_load_config path w = (-1, rules, w1) -> startup_failed fuel path w 1 w1
| no_mapping rules w1 ctx w2 : policy_loaded path w rules w1 ->
    init_dram_bank_mapping fuel (Some config_ready) w1 = Some (-1, Some ctx, w2) -> startup_failed fuel path w 1 w2
| no_program rules ctx w2 w3 : mapping_ready fuel path w rules ctx w2 -> bpf_open_and_load w2 = (false, w3) -> startup_failed fuel path w 1 w3
| no_attachment rules ctx w3 err w4 : program_loaded fuel path w rules ctx w3 -> bpf_attach w3 = (err, w4) -> err <> 0 ->
    startup_failed fuel path w (- err) (bpf_destroy (ring_free w4))
| no_ring rules ctx w4 w5 : program_attached fuel path w rules ctx w4 -> ring_new w4 = (false, w5) ->
    startup_failed fuel path w 1 (bpf_destroy (ring_free w5)).

Lemma policy_code path w rc rules w1 : policy_load_config path w = (rc, rules, w1) -> rc = 0 \/ rc = -1.
Proof.
  unfold policy_load_config. destruct (os_fopen path w) as [[f|] w2]; [destruct (os_fclose w2)|]; intros E; injection E as <- _ _; [by left|by right].
Qed.

(** C15: no event is handled before the daemon is ready. The program refuses to
    start, with a code other than 0, exactly in the step of the start-up that fails
    first, and leaves the world of that step: it polls nothing and handles no
    event. Otherwise every step succeeded (the policy was loaded, the mapping
    initialised, the BPF program loaded and attached, the ring buffer made), the
    mapping is usable (it has the masks of an accepted calibration), and what
    follows are turns of the loop from the settings just loaded, each of which
    polls and handles the events it was given; the table stays sound and the
    settings stay the same. The loop ends only in a turn whose poll reports an
    error, after its events are handled, with the positive code of that error. *)
Theorem main_fail_closed fuel polls argv1 table (w : W) run : table_ok table -> main fuel polls argv1 table w = Some run ->
  let path := default "config/protected.conf"%string argv1 in
  match run with
  | Refused code _ w' => code <> 0 /\ startup_failed fuel path w code w'
  | Stopped code ctx d w' => exists rules w5 turns d1 w6 events err w7 w8,
      let d0 := start_daemon (bpf_getpid w) rules table in
      started fuel path w rules ctx w5 /\ mapping_usable ctx /\ (turns < polls)%nat /\ polled turns d0 w5 d1 w6 /\
      ring_poll w6 = (events, err, w7) /\ err < 0 /\ handle_events d1 events w7 = (d, w8) /\
      code = - err /\ w' = bpf_destroy (ring_free w8) /\ keeps d0 d
  | Handling ctx d w' => exists rules w5,
      let d0 := start_daemon (bpf_getpid w) rules table in
      started fuel path w rules ctx w5 /\ mapping_usable ctx /\ polled polls d0 w5 d w' /\ keeps d0 d
  end.
Proof.
  intros Hok E. cbv zeta. set (path := default _ argv1). revert E. unfold main. fold path. destruct (policy_load_config path w) as [[rc rules] w1] eqn:Ep.
  destruct (policy_code _ _ _ _ _ Ep) as [-> | ->]; cbn [Z.ltb Z.compare]; [|intros E; injection E as <-; split; [done|by eapply no_policy]].
  match goal with |- context [init_dram_bank_mapping fuel (Some ?c) w1] => change c with config_ready end.
  destruct (init_dram_bank_mapping fuel _ w1) as [[[rc2 ctx'] w2]|] eqn:Ei; [|discriminate]. destruct (init_bank_spec _ _ _ _ _ _ Ei) as (c & -> & Hc).
  destruct Hc as [[-> Hu]|[-> _]]; cbn [Z.ltb Z.compare]; [|intros E; injection E as <-; split; [done|by eapply no_mapping]]. cbn [from_option default id].
  assert (H2 : mapping_ready fuel path w rules c w2) by (by exists w1).
  destruct (bpf_open_and_load w2) as [[|] w3] eqn:E3; cbn [negb]; [|intros E; injection E as <-; split; [done|by eapply no_program]].
  assert (H3 : program_loaded fuel path w rules c w3) by (by exists w2).
  destruct (bpf_attach w3) as [err w4] eqn:E4. destruct (Z.eqb_spec err 0) as [->|Hne]; cbn [negb]; [|intros E; injection E as <-; split; [lia|by eapply no_attachment]].
  assert (H4 : program_attached fuel path w rules c w4) by (by exists w3).
  destruct (ring_new w4) as [[|] w5] eqn:E5; cbn [negb]; [|intros E; injection E as <-; split; [done|by eapply no_ring]].
  assert (H5 : started fuel path w rules c w5) by (by exists w4).
  pose proof (poll_loop_keeps polls (start_daemon (bpf_getpid w) rules table) w5 Hok) as Hp. pose proof (poll_loop_turns polls (start_daemon (bpf_getpid w) rules table) w5) as Ht.
  destruct (poll_loop polls _ w5) as [[[err|] d] w8]; destruct Hp as [Hk _]; intros E; injection E as <-.
  - destruct Ht as (k & d1 & w6 & es & w7 & H). exists rules, w5, k, d1, w6, es, err, w7, w8. by conjs; try apply H.
  - exists rules, w5. by conjs.
Qed.
End Loop.

(** * Start-up on a small system

    The concrete kernel of [SimOs] with a child that leaves a result file after a
    number of polls, or hangs.  The theorems about the calibration and the
    start-up applied to it. *)

#[export] Instance sim_binfile : BinFile sim := {|
  bf_fopen path s := match assoc path (sim_files s) with Some text => (true, s <| sim_binary := text |>) | None => (false, s) end;
  bf_seek_end s := (true, s);
  bf_tell s := (strlen (sim_binary s), s);
  bf_seek_set s := (true, s);
  bf_fread n s := (str_take (Z.to_nat n) (sim_binary s), s);
  bf_fclose s := (true, s <| sim_binary := EmptyString |>)
|}.

(** The child exits with 0 once its polls are used up, leaving its file; one that
    hangs ignores SIGTERM and is reaped after SIGKILL. *)
Definition sim_leave (s : sim) : sim :=
  match sim_result s with None => s | Some f => s <| sim_files ::= cons f |> end.

#[export] Instance sim_procs : Procs sim := {|
  pr_fork s := (Some 77, s);
  pr_setpgid _ _ s := (None, s);
  pr_poll _ s :=
    if sim_worker s =? 0 then (Reaped (WExited 0), sim_leave s)
    else if sim_worker s =? -9 then (Reaped (WSignaled 9), s)
    else (Running, if 0 <? sim_worker s then s <| sim_worker ::= fun n => n - 1 |> else s);
  pr_wait _ s :=
    if sim_worker s =? -9 then Some (Reaped (WSignaled 9), s)
    else if 0 <=? sim_worker s then Some (Reaped (WExited 0), sim_leave s)
    else None;
  pr_kill_group _ sg s := match sg with SIGTERM => s | SIGKILL => s <| sim_worker := -9 |> end;
  pr_nanosleep req s := (None, s <| sim_clock := Z.max 0 (sim_clock s) + Z.max 0 (ns_of req) |>);
  pr_unlink path s := match assoc path (sim_files s) with
    | Some _ => (None, s <| sim_files ::= filter (fun f => f.1 <> path) |>)
    | None => (Some ENOENT, s)
    end;
  pr_open_log _ s := (3, s);
  pr_dup2 _ _ s := (true, s);
  pr_close _ s := s;
  pr_strerror _ := "error"%string
|}.

#[export] Program Instance sim_proc_laws : ProcLaws sim := {|
  now_ns s := Z.max 0 (sim_clock s); signals_left _ := 0%nat; leads _ _ := True; doomed _ s := sim_worker s = -9
|}.
Next Obligation.
  intros s. cbn. exists (Z.max 0 (sim_clock s) / 1000000000), (Z.max 0 (sim_clock s) mod 1000000000).
  pose proof (Z.mod_pos_bound (Z.max 0 (sim_clock s)) 1000000000 ltac:(lia)). pose proof (Z.div_mod (Z.max 0 (sim_clock s)) 1000000000 ltac:(lia)).
  pose proof (Z.div_pos (Z.max 0 (sim_clock s)) 1000000000). conjs; try done; try lia.
Qed.
Next Obligation. intros req s [H1 H2]. cbn. unfold ns_of. conjs; try done; lia. Qed.
Next Obligation.
  intros pid s. cbn. destruct (Z.eqb_spec (sim_worker s) 0); cbn.
  - unfold sim_leave. destruct (sim_result s); cbn; conjs; try done; lia.
  - destruct (Z.eqb_spec (sim_worker s) (-9)); cbn; [conjs; try done; lia|]. destruct (0 <? _); cbn; conjs; try done; lia.
Qed.
Next Obligation.
  intros pid s. cbn. destruct (Z.eqb_spec (sim_worker s) (-9)) as [|Hne]; cbn; [conjs; try done; lia|]. destruct (0 <=? _); cbn; [|exact Hne].
  unfold sim_leave. destruct (sim_result s); cbn; conjs; try done; lia.
Qed.
Next Obligation. intros pid [] s; cbn; conjs; try done; lia. Qed.
Next Obligation. intros s. cbn. conjs; try done; lia. Qed.
Next Obligation. intros p g s. cbn. conjs; try done; lia. Qed.
Next Obligation. intros path s. cbn. destruct (assoc path (sim_files s)); cbn; conjs; try done; lia. Qed.

(** A poll hands over the start of a protected server. *)
#[export] Instance sim_bpf : Bpf sim := {|
  bpf_getpid _ := 50;
  bpf_open_and_load s := (true, s);
  bpf_attach s := (0, s);
  ring_new s := (true, s);
  ring_poll s := ([server_exec], 1, s);
  ring_free s := s;
  bpf_destroy s := s
|}.

Definition boot_result : string := "/run/protected-daemon/dram-map.json".

(** A system whose worker succeeds after two polls; a stale result lies there. *)
Definition boot_world : sim :=
  sim_empty <| sim_files := [(boot_result, "stale"); ("config/protected.conf", "redis")]%string |>
    <| sim_worker := 2 |> <| sim_result := Some (boot_result, demo_json) |>.

(** One whose worker never ends. *)
Definition hanging_world : sim := sim_empty <| sim_worker := -1 |> <| sim_tick := 1000000 |>.
Definition hanging_config : calibration_config :=
  mk_calibration_config (Some "w") None (Some boot_result) (Some "d") None 3 (dlit 25 1) 500 50 1 false.

(** ** The calibration *)

Abbreviation boot_run := (calibration_run 10 (Some bank_calibration_config) (Some result_zero) boot_world).

Lemma boot_calibrates : exists r w', boot_run = Some (CALIBRATION_OK, Some r, w') /\ bank_mask_count r = 2.
Proof.
  assert (H : match boot_run with Some (rc, Some r, _) => rc = CALIBRATION_OK /\ bank_mask_count r = 2 | _ => False end) by (vm_compute; by split).
  destruct boot_run as [[[rc [r|]] w']|]; [|destruct H|destruct H]. destruct H as [-> H]. by eexists _, _.
Qed.


(** A worker that hangs is given up. *)
Example hanging_times_out :
  match calibration_run 3005 (Some hanging_config) (Some result_zero) hanging_world with
  | Some (rc, Some r, w') => rc = CALIBRATION_ERR_TIMEOUT /\ error_message r = "calibration timed out after 1 seconds"%string /\ sim_clock w' = 3034000000
  | _ => False
  end.
Proof. vm_compute. repeat split. Qed.

Lemma calibration_run_ends_witness :
  exists rc r w', calibration_run 3005 (Some hanging_config) (Some result_zero) hanging_world = Some (rc, Some r, w').
Proof.
  refine (calibration_run_ends 3005 hanging_config result_zero hanging_world _ _); [reflexivity|].
  apply Nat.leb_le. vm_compute. reflexivity.
Defined.

(** ** The start-up *)

Abbreviation boot := (main 10 3 None (process_table_reset (mk_process_table ∅ ∅ 0)) boot_world).

Lemma boot_handles : match boot with
  | Some (Handling ctx d _) => p_group <$> contents (d_table d) 100 = Some GROUP_PROTECTED
  | _ => False
  end.
Proof. vm_compute. reflexivity. Qed.

Lemma main_fail_closed_witness : exists ctx d w' rules w5, boot = Some (Handling ctx d w') /\
  started 10 "config/protected.conf" boot_world rules ctx w5 /\ mapping_usable ctx /\
  polled 3 (start_daemon 50 rules (process_table_reset (mk_process_table ∅ ∅ 0))) w5 d w' /\ table_ok (d_table d).
Proof.
  pose proof boot_handles as Hb. destruct boot as [[| |ctx d w']|] eqn:E; try (destruct Hb; fail).
  destruct (main_fail_closed 10 3 None (process_table_reset (mk_process_table ∅ ∅ 0)) boot_world _ (table_ok_reset _) E) as (rules & w5 & Hs & Hu & Hp & Hk).
  exists ctx, d, w', rules, w5. conjs; [reflexivity|exact Hs|exact Hu|exact Hp|exact (proj1 Hk)].
Defined.

(** ** The masks *)

Lemma bank_masks_roundtrip_witness :
  let doc := "{" +:+ masks_key +:+ " " +:+ String ":" (" " +:+ masks_array "  " " " 8256 [147456] +:+ "}") in
  exists range r, extract_array (mk_json_range doc (String.length doc)) "bank_masks" = inr range /\
    parse_bank_masks range result_zero = (CALIBRATION_OK, r) /\ bank_mask_count r = 2.
Proof.
  assert (Hms : Forall proper_mask [8256; 147456]) by (repeat constructor; try discriminate; vm_compute; discriminate).
  destruct (bank_masks_roundtrip "{" " " " " "  " " " 8256 [147456] "}" eq_refl eq_refl eq_refl eq_refl Hms ltac:(discriminate) ltac:(vm_compute; reflexivity))
    as (range & r & H1 & H2 & H3 & _).
  exists range, r. split; [exact H1|]. split; [exact H2|exact H3].
Defined.
