(* ===== verification/CandidateFilter.v ===== *)
(** * The candidate filter ([candidate_filter.h], [candidate_filter.c])

    Classifies a process of the snapshot as protected, background candidate or
    excluded, from its record and its cgroup v2 membership. *)
From S2P Require Import Prelude CString Os Cgroup Process SimOs.
From Stdlib Require Import Ascii String.
Local Open Scope Z_scope.

(** ** Data *)

Definition CGROUP_LINE_MAX : Z := 4096.
Definition CGROUP_PATH_MAX_LOCAL : Z := 4096.

Definition CANDIDATE_FILTER_OK : Z := 0.
Definition CANDIDATE_FILTER_ERR_INVALID_ARG : Z := -1.

Inductive candidate_filter_kind :=
| CANDIDATE_FILTER_EXCLUDED
| CANDIDATE_FILTER_PROTECTED
| CANDIDATE_FILTER_BACKGROUND
| CANDIDATE_FILTER_KIND_OTHER (value : Z).

Inductive candidate_filter_reason :=
| CANDIDATE_FILTER_REASON_NONE
| CANDIDATE_FILTER_REASON_INVALID_PROCESS
| CANDIDATE_FILTER_REASON_DAEMON_SELF
| CANDIDATE_FILTER_REASON_SYSTEM_SLICE
| CANDIDATE_FILTER_REASON_CGROUP_UNAVAILABLE
| CANDIDATE_FILTER_REASON_OTHER (value : Z).

Record candidate_filter_result := mk_candidate_filter_result {
  kind : candidate_filter_kind;
  filter_reason : candidate_filter_reason
}.

(** ** Operations *)

Definition process_record_is_valid (p : option proc_info) : bool :=
  match p with
  | None => false
  | Some p => if negb (p_used p) || (p_pid p <=? 0) then false else true
  end.

(** [p->pid]; only read when [p] is not NULL. *)
Definition record_pid (p : option proc_info) : Z := match p with Some p => p_pid p | None => 0 end.

Definition process_record_is_protected (p : option proc_info) : bool :=
  match p with
  | None => false
  | Some p =>
      if p_is_protected p || p_inherited_protected p then true
      else bool_decide (p_group p = GROUP_PROTECTED)
  end.

Definition cgroup_prefix : string := "0::".

Section Reading.
Context {W : Type} `{OS W}.

(** The loop over the lines; [out] is the buffer's text after the call.  As much
    fuel as bytes is enough. *)
Fixpoint read_path_loop (fuel : nat) (f : stream) (out_size : Z) (w : W) : Z * string * W :=
  match fuel with
  | O => (-1, EmptyString, w)
  | S fuel =>
      match fgets CGROUP_LINE_MAX f with
      | (None, _) => let '(_, w) := os_fclose w in (-1, EmptyString, w)
      | (Some line, f) =>
          if negb (strn_eq line cgroup_prefix 3) then read_path_loop fuel f out_size w
          else
            let path := str_drop 3 (c_str line) in
            let len := strcspn path crlf in
            if (Z.of_nat len =? 0) || (out_size <=? Z.of_nat len) then
              let '(_, w) := os_fclose w in (-1, EmptyString, w)
            else
              let out := str_take len path in
              let '(closed, w) := os_fclose w in
              if negb closed then (-1, EmptyString, w) else (0, out, w)
      end
  end.

(** [out]: [None] is NULL. *)
Definition read_cgroup_v2_path (p : Z) (out : option string) (out_size : Z) (w : W) : Z * option string * W :=
  match out with
  | None => (-1, None, w)
  | Some old =>
      if (p <=? 0) || (out_size =? 0) then (-1, Some old, w)
      else
        let proc_path := "/proc/" +:+ dec p +:+ "/cgroup" in
        if 64 <=? strlen proc_path then (-1, Some EmptyString, w)
        else
          let '(f, w) := os_fopen proc_path w in
          match f with
          | None => (-1, Some EmptyString, w)
          | Some f =>
              let '(rc, text, w) := read_path_loop (S (String.length (st_data f))) f out_size w in (rc, Some text, w)
          end
  end.

Definition system_slice : string := "/system.slice".

Definition candidate_filter_path_is_system_slice (cgroup_v2_path : option string) : bool :=
  match cgroup_v2_path with
  | None => false
  | Some path =>
      let prefix_len := String.length system_slice in
      if negb (strn_eq path system_slice prefix_len) then false
      else Ascii.eqb (char_at path prefix_len) NUL || Ascii.eqb (char_at path prefix_len) "/"
  end.

(** [result]: [None] is NULL. *)
Definition candidate_filter_classify_path (p : option proc_info) (daemon_pid : Z) (cgroup_v2_path : option string)
    (result : option candidate_filter_result) : Z * option candidate_filter_result :=
  match result with
  | None => (CANDIDATE_FILTER_ERR_INVALID_ARG, None)
  | Some _ =>
      let set_result k r := (CANDIDATE_FILTER_OK, Some (mk_candidate_filter_result k r)) in
      if negb (process_record_is_valid p) then set_result CANDIDATE_FILTER_EXCLUDED CANDIDATE_FILTER_REASON_INVALID_PROCESS
      else if (0 <? daemon_pid) && (record_pid p =? daemon_pid)
      then set_result CANDIDATE_FILTER_EXCLUDED CANDIDATE_FILTER_REASON_DAEMON_SELF
      else if process_record_is_protected p then set_result CANDIDATE_FILTER_PROTECTED CANDIDATE_FILTER_REASON_NONE
      else if match cgroup_v2_path with None => true | Some path => Ascii.eqb (char_at path 0) NUL end
      then set_result CANDIDATE_FILTER_EXCLUDED CANDIDATE_FILTER_REASON_CGROUP_UNAVAILABLE
      else if candidate_filter_path_is_system_slice cgroup_v2_path
      then set_result CANDIDATE_FILTER_EXCLUDED CANDIDATE_FILTER_REASON_SYSTEM_SLICE
      else set_result CANDIDATE_FILTER_BACKGROUND CANDIDATE_FILTER_REASON_NONE
  end.

Definition candidate_filter_classify_pid (p : option proc_info) (daemon_pid : Z)
    (result : option candidate_filter_result) (w : W) : Z * option candidate_filter_result * W :=
  match result with
  | None => (CANDIDATE_FILTER_ERR_INVALID_ARG, None, w)
  | Some _ =>
      let set_result k r := (CANDIDATE_FILTER_OK, Some (mk_candidate_filter_result k r), w) in
      if negb (process_record_is_valid p) then set_result CANDIDATE_FILTER_EXCLUDED CANDIDATE_FILTER_REASON_INVALID_PROCESS
      else if (0 <? daemon_pid) && (record_pid p =? daemon_pid)
      then set_result CANDIDATE_FILTER_EXCLUDED CANDIDATE_FILTER_REASON_DAEMON_SELF
      else if process_record_is_protected p then set_result CANDIDATE_FILTER_PROTECTED CANDIDATE_FILTER_REASON_NONE
      else
        let '(rc, cgroup_path, w) := read_cgroup_v2_path (record_pid p) (Some EmptyString) CGROUP_PATH_MAX_LOCAL w in
        if negb (rc =? 0)
        then (CANDIDATE_FILTER_OK, Some (mk_candidate_filter_result CANDIDATE_FILTER_EXCLUDED CANDIDATE_FILTER_REASON_CGROUP_UNAVAILABLE), w)
        else let '(rc, result) := candidate_filter_classify_path p daemon_pid cgroup_path result in (rc, result, w)
  end.
End Reading.

Definition candidate_filter_kind_name (k : candidate_filter_kind) : string :=
  match k with
  | CANDIDATE_FILTER_EXCLUDED => "excluded"
  | CANDIDATE_FILTER_PROTECTED => "protected"
  | CANDIDATE_FILTER_BACKGROUND => "background"
  | CANDIDATE_FILTER_KIND_OTHER _ => "unknown"
  end%string.

Definition candidate_filter_reason_name (r : candidate_filter_reason) : string :=
  match r with
  | CANDIDATE_FILTER_REASON_NONE => "none"
  | CANDIDATE_FILTER_REASON_INVALID_PROCESS => "invalid-process"
  | CANDIDATE_FILTER_REASON_DAEMON_SELF => "daemon-self"
  | CANDIDATE_FILTER_REASON_SYSTEM_SLICE => "system.slice"
  | CANDIDATE_FILTER_REASON_CGROUP_UNAVAILABLE => "cgroup-unavailable"
  | CANDIDATE_FILTER_REASON_OTHER _ => "unknown"
  end%string.

(** ** The system slice *)

Lemma str_take_app_inv n s a : str_take n s = a -> String.length a = n -> exists b, s = a +:+ b.
Proof. intros <- _. exists (str_drop n s). symmetry. apply str_take_drop. Qed.

(** A path is in the slice's subtree: the slice itself or something below it. *)
Definition in_system_slice (path : string) : Prop :=
  path = system_slice \/ exists rest, path = system_slice +:+ "/" +:+ rest.

Lemma path_is_system_slice_spec path : str_has path NUL = false ->
  candidate_filter_path_is_system_slice (Some path) = true <-> in_system_slice path.
Proof.
  intros Hn. unfold candidate_filter_path_is_system_slice, strn_eq. rewrite (c_str_id path Hn).
  change (str_take (String.length system_slice) (c_str system_slice)) with system_slice.
  destruct (String.eqb_spec (str_take (String.length system_slice) path) system_slice) as [E|Hne]; cbn [negb].
  - apply str_take_app_inv in E as [b ->]; [|done]. rewrite char_at_app. unfold in_system_slice. rewrite orb_true_iff.
    split.
    + intros [Hb|Hb]; apply Ascii.eqb_eq in Hb.
      * left. destruct b as [|c b]; [apply str_app_nil_r|]. cbn in Hb. subst c. rewrite str_has_app in Hn. cbn [str_has] in Hn.
        by rewrite Ascii.eqb_refl, orb_true_r in Hn.
      * right. destruct b as [|c b]; [done|]. cbn in Hb. subst c. by exists b.
    + intros [E|[rest E]].
      * left. rewrite <- (str_app_nil_r system_slice) in E at 2. apply str_app_inj_l in E as ->. done.
      * right. apply str_app_inj_l in E as ->. done.
  - split; [done|]. intros [->|[rest ->]]; [done|]. by rewrite str_take_app in Hne.
Qed.

(** ** Reading the membership *)

(** The path a line of [/proc/<pid>/cgroup] gives, if it is the v2 line. *)
Definition v2_line (line : string) : option string :=
  if strn_eq line cgroup_prefix 3 then Some (str_before (str_drop 3 (c_str line)) carriage_return) else None.

(** The membership a text of such lines states: the first v2 line, if usable. *)
Definition membership (text : string) : option string :=
  match omap v2_line (lines text) with
  | path :: _ => if (strlen path =? 0) || (CGROUP_PATH_MAX_LOCAL <=? strlen path) then None else Some path
  | [] => None
  end.

Lemma length_cspn s : (strcspn s crlf <= String.length s)%nat.
Proof. induction s as [|c s IH]; cbn [strcspn]; [lia|]. destruct (str_has crlf c); cbn [String.length]; lia. Qed.

Lemma str_has_drop n s c : str_has s c = false -> str_has (str_drop n s) c = false.
Proof.
  revert s. induction n as [|n IH]; intros [|d s]; try done. cbn [str_has str_drop]. intros [_ Hs]%orb_false_iff. by apply IH.
Qed.

(** A prefix without newlines is a prefix of the text without its newline. *)
Lemma prefix_newline s : strn_eq (s +:+ String newline EmptyString) cgroup_prefix 3 = strn_eq s cgroup_prefix 3 /\
  (strn_eq s cgroup_prefix 3 = true -> str_drop 3 (c_str (s +:+ String newline EmptyString)) =
     str_drop 3 (c_str s) +:+ (if str_has s NUL then EmptyString else String newline EmptyString)).
Proof.
  rewrite c_str_app_newline. unfold strn_eq. rewrite c_str_app_newline. destruct (str_has s NUL); [by rewrite !str_app_nil_r|].
  generalize (c_str s) as t. intros t. destruct t as [|a [|b [|c t]]]; try (split; [|done]); try reflexivity.
  - change ((String a EmptyString) +:+ String newline EmptyString) with (String a (String newline EmptyString)).
    cbn. by destruct (Ascii.eqb a "0"); (split; [reflexivity|done]).
  - change ((String a (String b EmptyString)) +:+ String newline EmptyString) with (String a (String b (String newline EmptyString))).
    cbn. destruct (Ascii.eqb a "0"), (Ascii.eqb b ":"); (split; [reflexivity|done]).
Qed.

(** What the body of the loop sees in a buffer that holds line [l]. *)
Lemma buffer_line l x : str_has l newline = false -> x = l \/ x = l +:+ String newline EmptyString ->
  (if strn_eq x cgroup_prefix 3
   then Some (str_take (strcspn (str_drop 3 (c_str x)) crlf) (str_drop 3 (c_str x))) else None) = v2_line l.
Proof.
  intros Hl Hx. assert (Hd : str_has (str_drop 3 (c_str l)) newline = false) by (by apply str_has_drop, str_has_c_str).
  unfold v2_line. destruct Hx as [->| ->].
  - destruct (strn_eq l cgroup_prefix 3); [|done]. by rewrite strcspn_crlf.
  - destruct (prefix_newline l) as [-> Hdrop]. destruct (strn_eq l cgroup_prefix 3); [|done]. rewrite Hdrop by done.
    destruct (str_has l NUL); [rewrite str_app_nil_r|rewrite cut_newline]; by rewrite strcspn_crlf.
Qed.

Section Membership.
Context {W : Type} `{OS W}.

Lemma read_path_loop_spec fuel : forall text (w : W), (String.length text < fuel)%nat ->
  Forall (fun l => strlen l < CGROUP_LINE_MAX - 1) (lines text) -> (os_fclose w).1 = true ->
  read_path_loop fuel (mk_stream text false) CGROUP_PATH_MAX_LOCAL w =
    match membership text with Some path => (0, path, (os_fclose w).2) | None => (-1, EmptyString, (os_fclose w).2) end.
Proof.
  induction fuel as [|fuel IH]; intros text w Hf Hall Hclose; [lia|]. cbn [read_path_loop].
  destruct (os_fclose w) as [closed w'] eqn:Hw. cbn [fst] in Hclose. subst closed.
  destruct (String.eqb_spec text EmptyString) as [->|Hs]; [done|].
  destruct (fgets_lines CGROUP_LINE_MAX text Hs Hall) as (l & ls & x & r & Heq & Hget & Hr & Hx). rewrite Hget.
  pose proof (lines_no_newline text) as Hnl. rewrite Heq in Hnl. apply Forall_cons in Hnl as [Hnl _].
  pose proof (buffer_line l x Hnl Hx) as Hb. unfold membership. rewrite Heq. cbn [omap list_omap]. rewrite <- Hb.
  destruct (strn_eq x cgroup_prefix 3); cbn [negb].
  - set (path := str_drop 3 (c_str x)). replace (strlen (str_take (strcspn path crlf) path)) with (Z.of_nat (strcspn path crlf)).
    2:{ unfold strlen. rewrite length_str_take. pose proof (length_cspn path). lia. }
    destruct ((Z.of_nat (strcspn path crlf) =? 0) || (CGROUP_PATH_MAX_LOCAL <=? Z.of_nat (strcspn path crlf))); done.
  - pose proof (fgets_shorter _ _ _ _ Hget) as Hshort. cbn [st_data] in Hshort. rewrite IH; [|lia| |by rewrite Hw].
    + unfold membership. rewrite Hr, Hw. done.
    + rewrite Heq in Hall. rewrite Hr. by apply Forall_cons in Hall as [_ Hall].
Qed.

(** The path of the file the filter reads. *)
Definition membership_file (p : Z) : string := "/proc/" +:+ dec p +:+ "/cgroup".

Lemma read_cgroup_v2_path_spec p text (w w1 : W) : 0 < p -> strlen (membership_file p) < 64 ->
  os_fopen (membership_file p) w = (Some (mk_stream text false), w1) ->
  Forall (fun l => strlen l < CGROUP_LINE_MAX - 1) (lines text) -> (os_fclose w1).1 = true ->
  read_cgroup_v2_path p (Some EmptyString) CGROUP_PATH_MAX_LOCAL w =
    match membership text with Some path => (0, Some path, (os_fclose w1).2) | None => (-1, Some EmptyString, (os_fclose w1).2) end.
Proof.
  intros Hp Hlen Hopen Hall Hclose. unfold read_cgroup_v2_path. rewrite (proj2 (Z.leb_gt p 0)) by lia.
  change (CGROUP_PATH_MAX_LOCAL =? 0) with false. cbn [orb]. fold (membership_file p).
  rewrite (proj2 (Z.leb_gt _ _) Hlen), Hopen. cbn [st_data]. rewrite read_path_loop_spec by (done || lia).
  by destruct (membership text).
Qed.

Lemma membership_no_nul text path : membership text = Some path -> str_has path NUL = false.
Proof.
  unfold membership. destruct (omap v2_line (lines text)) as [|x xs] eqn:Ho; [done|].
  destruct (_ || _); [done|]. intros E. assert (Ex : path = x) by congruence. rewrite Ex. clear E Ex.
  assert (Hx : x ∈ omap v2_line (lines text)) by (rewrite Ho; constructor).
  apply list_elem_of_omap in Hx as (l & _ & Hl). unfold v2_line in Hl. destruct (strn_eq l cgroup_prefix 3); [|done].
  assert (E : x = str_before (str_drop 3 (c_str l)) carriage_return) by congruence. rewrite E. clear E Hl.
  assert (Hc : str_has (c_str l) NUL = false).
  { clear. induction l as [|c l IH]; [done|]. cbn [c_str]. destruct (Ascii.eqb c NUL) eqn:E; [done|]. cbn [str_has]. by rewrite E, IH. }
  apply (str_has_drop 3) in Hc. revert Hc. generalize (str_drop 3 (c_str l)) as t. clear.
  induction t as [|c t IH]; [done|]. cbn [str_has str_before]. intros [Hc Ht]%orb_false_iff.
  destruct (Ascii.eqb c carriage_return); [done|]. cbn [str_has]. by rewrite Hc, IH.
Qed.

Lemma membership_nonempty text path : membership text = Some path -> char_at path 0 <> NUL.
Proof.
  intros Hm. pose proof (membership_no_nul _ _ Hm) as Hn. destruct path as [|c path].
  - unfold membership in Hm. destruct (omap v2_line (lines text)) as [|x xs]; [done|].
    destruct x as [|c x]; [discriminate Hm|]. cbn [orb] in Hm. destruct (_ || _) in Hm; [discriminate Hm|]. discriminate Hm.
  - cbn in Hn |- *. intros ->. by rewrite Ascii.eqb_refl in Hn.
Qed.

(** The conditions of the classification. *)
Definition valid_record (p : proc_info) : Prop := p_used p = true /\ 0 < p_pid p.
Definition is_daemon (daemon_pid : Z) (p : proc_info) : Prop := 0 < daemon_pid /\ p_pid p = daemon_pid.
Definition protected_record (p : proc_info) : Prop :=
  p_is_protected p = true \/ p_inherited_protected p = true \/ p_group p = GROUP_PROTECTED.

Lemma valid_record_spec p : process_record_is_valid (Some p) = true <-> valid_record p.
Proof. unfold process_record_is_valid, valid_record. destruct (p_used p), (Z.leb_spec (p_pid p) 0); cbn; split; try done; try lia; tauto. Qed.

Lemma protected_record_spec p : process_record_is_protected (Some p) = true <-> protected_record p.
Proof.
  unfold process_record_is_protected, protected_record. destruct (p_is_protected p), (p_inherited_protected p); cbn [orb]; try tauto.
  rewrite bool_decide_eq_true. split; [tauto|]. by intros [?|[?|?]].
Qed.

Lemma is_daemon_spec d p : (0 <? d) && (p_pid p =? d) = true <-> is_daemon d p.
Proof. rewrite andb_true_iff, Z.ltb_lt, Z.eqb_eq. done. Qed.

(** [candidate_filter_classify_pid] classifies exactly as documented: invalid
    records and the daemon itself are excluded; otherwise a protected process is
    PROTECTED whatever its cgroup; otherwise a process is a BACKGROUND candidate
    exactly when the first cgroup v2 line of its membership file gives a usable
    path outside the subtree of /system.slice ("/system.slice2" is outside). *)
Theorem classify_pid_exact p daemon_pid old text (w w1 : W) :
  strlen (membership_file (p_pid p)) < 64 ->
  os_fopen (membership_file (p_pid p)) w = (Some (mk_stream text false), w1) ->
  Forall (fun l => strlen l < 4095) (lines text) -> (os_fclose w1).1 = true ->
  exists k r w', candidate_filter_classify_pid (Some p) daemon_pid (Some old) w =
      (CANDIDATE_FILTER_OK, Some (mk_candidate_filter_result k r), w') /\
    (k = CANDIDATE_FILTER_PROTECTED <-> valid_record p /\ ~ is_daemon daemon_pid p /\ protected_record p) /\
    (k = CANDIDATE_FILTER_BACKGROUND <-> valid_record p /\ ~ is_daemon daemon_pid p /\ ~ protected_record p /\
       exists path, membership text = Some path /\ ~ in_system_slice path) /\
    (k = CANDIDATE_FILTER_PROTECTED \/ k = CANDIDATE_FILTER_BACKGROUND -> r = CANDIDATE_FILTER_REASON_NONE).
Proof.
  intros Hlen Hopen Hall Hclose. unfold candidate_filter_classify_pid. cbn [record_pid].
  pose proof (valid_record_spec p) as Hv. pose proof (is_daemon_spec daemon_pid p) as Hd. pose proof (protected_record_spec p) as Hp.
  destruct (process_record_is_valid (Some p)) eqn:Ev; cbn [negb].
  2:{ eexists _, _, _. split; [reflexivity|]. repeat split; try done; try (intros (?%Hv & _); done). by intros [?|?]. }
  destruct ((0 <? daemon_pid) && (p_pid p =? daemon_pid)) eqn:Ed.
  { eexists _, _, _. split; [reflexivity|]. repeat split; try done; try (intros (_ & Hnd & _); destruct Hnd; by apply Hd). by intros [?|?]. }
  assert (Hnd : ~ is_daemon daemon_pid p) by (rewrite <- Hd; done).
  destruct (process_record_is_protected (Some p)) eqn:Ep.
  { eexists _, _, _. split; [reflexivity|]. split; [split; [|done]; intros _; split; [by apply Hv|split; [done|by apply Hp]]|].
    split; [split; [done|]; intros (_ & _ & Hn & _); destruct Hn; by apply Hp|done]. }
  assert (Hvr : valid_record p) by (by apply Hv). assert (Hnp : ~ protected_record p) by (rewrite <- Hp; done).
  rewrite (read_cgroup_v2_path_spec (p_pid p) text w w1); try done; [|by destruct Hvr].
  destruct (membership text) as [path|] eqn:Hm; cbn [Z.eqb negb].
  - unfold candidate_filter_classify_path. rewrite Ev, Ep. cbn [negb record_pid]. rewrite Ed.
    pose proof (membership_nonempty _ _ Hm) as Hne. destruct (Ascii.eqb_spec (char_at path 0) NUL); [done|].
    pose proof (path_is_system_slice_spec path (membership_no_nul _ _ Hm)) as Hs.
    destruct (candidate_filter_path_is_system_slice (Some path)); (eexists _, _, _; split; [reflexivity|]).
    + split; [split; [done|tauto]|]. split; [|by intros [?|?]]. split; [done|]. intros (_ & _ & _ & x & E & Hx).
      assert (x = path) as -> by congruence. tauto.
    + split; [split; [done|tauto]|]. split; [|done]. split; [|done]. intros _. do 3 (split; [done|]). exists path.
      split; [done|]. by rewrite <- Hs.
  - eexists _, _, _. split; [reflexivity|]. split; [split; [done|tauto]|]. split; [|by intros [?|?]].
    split; [done|]. by intros (_ & _ & _ & x & ? & _).
Qed.
End Membership.

Definition user_process : proc_info :=
  proc_info_zero <| p_used := true |> <| p_pid := 42 |> <| p_group := GROUP_BACKGROUND |>.

Definition user_cgroup : string := "12:cpu:/x" +:+ String newline ("0::/user.slice/app" +:+ String newline EmptyString).

Definition user_host : sim := sim_empty <| sim_files := [("/proc/42/cgroup"%string, user_cgroup)] |>.

Example user_classified :
  (candidate_filter_classify_pid (Some user_process) 7 (Some (mk_candidate_filter_result CANDIDATE_FILTER_EXCLUDED CANDIDATE_FILTER_REASON_NONE)) user_host).1 =
    (0, Some (mk_candidate_filter_result CANDIDATE_FILTER_BACKGROUND CANDIDATE_FILTER_REASON_NONE)).
Proof. vm_compute. reflexivity. Qed.

Lemma classify_pid_exact_witness :
  exists k r w', candidate_filter_classify_pid (Some user_process) 7
      (Some (mk_candidate_filter_result CANDIDATE_FILTER_EXCLUDED CANDIDATE_FILTER_REASON_NONE)) user_host =
      (CANDIDATE_FILTER_OK, Some (mk_candidate_filter_result k r), w') /\
    (k = CANDIDATE_FILTER_BACKGROUND <-> valid_record user_process /\ ~ is_daemon 7 user_process /\ ~ protected_record user_process /\
       exists path, membership user_cgroup = Some path /\ ~ in_system_slice path).
Proof.
  destruct (classify_pid_exact user_process 7 (mk_candidate_filter_result CANDIDATE_FILTER_EXCLUDED CANDIDATE_FILTER_REASON_NONE)
    user_cgroup user_host (os_fopen (membership_file 42) user_host).2) as (k & r & w' & H1 & _ & H2 & _).
  - vm_compute. reflexivity.
  - vm_compute. reflexivity.
  - apply Forall_forall. intros l Hl. apply Z.ltb_lt. revert l Hl. apply Forall_forall, Forall_forall.
    intros l Hl%list_elem_of_In. revert l Hl. apply (proj1 (forallb_forall _ _)). vm_compute. reflexivity.
  - reflexivity.
  - exists k, r, w'. split; [exact H1|exact H2].
Defined.
