(* ===== verification/CgroupProps.v ===== *)
(** * Properties of the cgroup writer

    Every write is confined to a control file of one of the three managed groups
    below the base path; a successful move migrates exactly the requested process. *)
From S2P Require Import Prelude CString Os Cgroup SimOs.
From Stdlib Require Import Ascii String.
Local Open Scope Z_scope.

(** [path] is a control file of the group directory [name] below [base]. *)
Definition control_file_of (base name file path : string) : Prop :=
  path = base +:+ "/" +:+ name +:+ "/" +:+ file /\ name ∈ ["protected"; "background"; "throttled"]%string /\
  file <> EmptyString /\ str_has file "/" = false /\ strlen path < CGROUP_PATH_MAX.

Lemma managed_dir group name : group_to_dir_name group = Some name -> name ∈ ["protected"; "background"; "throttled"]%string.
Proof. rewrite !elem_of_cons. destruct group; cbn; intros [= <-]; auto. Qed.

Lemma str_app_assoc (a b c : string) : (a +:+ b) +:+ c = a +:+ b +:+ c.
Proof. induction a as [|x a IH]; [reflexivity|]. exact (f_equal (String x) IH). Qed.

Lemma c_str_nonempty s : char_at s 0 <> NUL -> c_str s <> EmptyString.
Proof. destruct s as [|c s]; [done|]. cbn. destruct (Ascii.eqb_spec c NUL); done. Qed.

Lemma control_path_total base group file :
  (exists name, control_file_of base name (c_str file) (cgroup_control_path base group (Some file) EmptyString CGROUP_PATH_MAX).2 /\
     group_to_dir_name group = Some name /\ (cgroup_control_path base group (Some file) EmptyString CGROUP_PATH_MAX).1 = 0) \/
  (cgroup_control_path base group (Some file) EmptyString CGROUP_PATH_MAX).1 <> 0.
Proof.
  destruct (cgroup_control_path base group (Some file) EmptyString CGROUP_PATH_MAX) as [rc path] eqn:Hp. cbn [fst snd].
  destruct (Z.eq_dec rc 0) as [->|]; [left|by right].
  apply control_path_ok in Hp as (name & Hn & -> & Hc & Hs & Hl). exists name. split; [|done].
  unfold control_file_of, group_dir in *. rewrite !str_app_assoc in *.
  repeat split; try done; [by eapply managed_dir|by apply c_str_nonempty].
Qed.

Section Confinement.
Context {W : Type} `{OS W}.

(** Confinement.  A control write either fails before the kernel is asked
    for anything, or writes the value and a newline to one file, which lies
    directly in the directory of a managed group (the file name contains no
    slash, the path fits its buffer), and returns 0 exactly when opening,
    writing and closing that file all succeeded. *)
Theorem control_write_confined base group file value (w : W) :
  cgroup_write_control base group (Some file) (Some value) w = (-1, w) \/
  exists name path, group_to_dir_name group = Some name /\ control_file_of base name (c_str file) path /\
    let '(opened, w1) := os_fopen_w path w in
    if opened then
      let '(written, w2) := os_fprintf path (c_str value +:+ String newline EmptyString) w1 in
      let '(closed, w3) := os_fclose_w path w2 in
      cgroup_write_control base group (Some file) (Some value) w = (if written && closed then 0 else -1, w3)
    else cgroup_write_control base group (Some file) (Some value) w = (-1, w1).
Proof.
  pose proof (write_control_file base group file value w) as Hw.
  destruct (control_path_total base group file) as [(name & Hf & Hn & Hrc)|Hrc];
    destruct (cgroup_control_path base group (Some file) EmptyString CGROUP_PATH_MAX) as [rc path]; cbn [fst snd] in *.
  - subst rc. right. exists name, path. do 2 (split; [done|]). rewrite Hw. unfold write_file, text_line.
    destruct (os_fopen_w path w) as [[] w1]; cbn [negb]; [|done].
    destruct (os_fprintf path _ w1) as [written w2]. by destruct (os_fclose_w path w2) as [closed w3].
  - left. destruct rc; [done|exact Hw..].
Qed.
End Confinement.

Section Moving.
Context {W : Type} `{Cgroupfs W}.

(** [cgroup_move_pid] returns 0 exactly when the kernel accepted the write:
    the process is then in the directory of the requested managed group and no
    other process moved.  When it fails (a pid that is not positive, an
    unmanaged group, a path too long, or an error of the kernel) no process
    moved. *)
Theorem move_pid_migrates base pid group (w : W) rc w' :
  cgroup_move_pid base pid group w = (rc, w') ->
  (rc = 0 /\ 0 < pid /\ exists name, group_to_dir_name group = Some name /\
     fs_member w' pid = Some (base +:+ "/" +:+ name) /\ forall q, q <> pid -> fs_member w' q = fs_member w q) \/
  (rc = -1 /\ forall q, fs_member w' q = fs_member w q).
Proof.
  intros Hm. pose proof Hm as [(-> & name & Hn & Hp & Hq)|Hf]%move_pid_spec; [left|by right].
  split; [done|]. split; [|eauto]. unfold cgroup_move_pid in Hm. by destruct (Z.leb_spec pid 0).
Qed.
End Moving.

Lemma move_pid_migrates_witness :
  let '(rc, w') := cgroup_move_pid "/cg" 42 GROUP_THROTTLED (sim_empty <| sim_member := {[ 7 := "/cg/background"%string ]} |>) in
  (rc = 0 /\ 0 < 42 /\ exists name, group_to_dir_name GROUP_THROTTLED = Some name /\
       fs_member w' 42 = Some ("/cg" +:+ "/" +:+ name) /\ forall q, q <> 42 -> fs_member w' q =
         fs_member (sim_empty <| sim_member := {[ 7 := "/cg/background"%string ]} |>) q) \/
  (rc = -1 /\ forall q, fs_member w' q = fs_member (sim_empty <| sim_member := {[ 7 := "/cg/background"%string ]} |>) q).
Proof.
  destruct (cgroup_move_pid "/cg" 42 GROUP_THROTTLED (sim_empty <| sim_member := {[ 7 := "/cg/background"%string ]} |>)) as [rc w'] eqn:E.
  exact (move_pid_migrates "/cg" 42 GROUP_THROTTLED _ rc w' E).
Defined.

(** [cgroup_set_base_path] accepts exactly the non-empty paths shorter than
    the buffer and then makes them the base; but a path that is too long is
    reported as an error only after the base was overwritten with its first 511
    bytes, so a caller that ignores or recovers from the error writes below a
    directory nobody asked for. *)
Theorem set_base_path_outcome p base :
  (char_at p 0 <> NUL -> strlen (c_str p) < CGROUP_PATH_MAX -> cgroup_set_base_path (Some p) base = (0, c_str p)) /\
  (char_at p 0 = NUL -> cgroup_set_base_path (Some p) base = (-1, base)) /\
  (CGROUP_PATH_MAX <= strlen (c_str p) ->
     cgroup_set_base_path (Some p) base = (-1, str_take 511 (c_str p)) /\
     strlen (cgroup_get_base_path (cgroup_set_base_path (Some p) base).2) = 511).
Proof.
  unfold cgroup_set_base_path, cgroup_get_base_path. split; [|split].
  - intros Hn Hl. destruct (Ascii.eqb_spec (char_at p 0) NUL); [done|].
    destruct (Z.leb_spec CGROUP_PATH_MAX (strlen (c_str p))); [lia|]. by rewrite snprintf_fits.
  - intros ->. by rewrite Ascii.eqb_refl.
  - intros Hl. destruct (Ascii.eqb_spec (char_at p 0) NUL) as [Hn|].
    + exfalso. destruct p as [|c p]; [done|]. cbn in Hn. subst c. by cbn in Hl.
    + rewrite (proj2 (Z.leb_le _ _) Hl). split; [reflexivity|]. cbn [snd].
      rewrite strlen_snprintf by done. unfold CGROUP_PATH_MAX in *. lia.
Qed.
