(* ===== verification/Candidate.v ===== *)
(** * Throttle candidates ([interference_detector.h])

    The record the detector hands to the controller. *)
From S2P Require Import Prelude Float64 CString.
From Stdlib Require Import String.
Local Open Scope Z_scope.

Definition INTERFERENCE_DETECTOR_REASON_MAX : Z := 256.

Record interference_candidate := mk_interference_candidate {
  cand_pid : Z;
  activity_score : double;
  cpu_score : double;
  fault_score : double;
  rss_score : double;
  overlap_score : double;
  final_score : double;
  common_pages : Z;
  cand_active : bool;
  should_throttle : bool;
  cand_reason : string
}.

#[export] Instance interference_candidate_settable : Settable interference_candidate :=
  fun c => mk_interference_candidate (cand_pid c) (activity_score c) (cpu_score c) (fault_score c)
    (rss_score c) (overlap_score c) (final_score c) (common_pages c) (cand_active c)
    (should_throttle c) (cand_reason c).

Definition interference_candidate_zero : interference_candidate :=
  mk_interference_candidate 0 dzero dzero dzero dzero dzero dzero 0 false false "".

Definition interference_candidate_reset (candidate : option interference_candidate)
  : option interference_candidate :=
  match candidate with None => None | Some _ => Some interference_candidate_zero end.
