(* ===== verification/Ranking.v ===== *)
(** * [qsort]

    The C library's sort: the result is a permutation of the array in which no
    element precedes a smaller one.  The order of elements that compare equal is
    unspecified in C; here they keep their order. *)
From S2P Require Import Prelude Float64.
From Stdlib Require Import Sorted.
Local Open Scope Z_scope.

Section Sort.
Context {A : Type} (cmp : A -> A -> Z).

Fixpoint insert_sorted (x : A) (l : list A) : list A :=
  match l with
  | [] => [x]
  | y :: l' => if 0 <? cmp x y then y :: insert_sorted x l' else x :: l
  end.

Fixpoint qsort (l : list A) : list A :=
  match l with
  | [] => []
  | x :: l' => insert_sorted x (qsort l')
  end.

Lemma insert_sorted_perm x l : Permutation (insert_sorted x l) (x :: l).
Proof.
  induction l as [|y l IH]; [done|]. cbn [insert_sorted]. destruct (0 <? cmp x y); [|done]. rewrite IH. apply Permutation_swap.
Qed.

Lemma qsort_perm l : Permutation (qsort l) l.
Proof. induction l as [|x l IH]; [done|]. cbn [qsort]. by rewrite insert_sorted_perm, IH. Qed.

Lemma qsort_length l : List.length (qsort l) = List.length l.
Proof. apply Permutation_length, qsort_perm. Qed.

(** On elements the comparison orders totally, the result is sorted. *)
Variable P : A -> Prop.
Hypothesis cmp_total : forall x y, P x -> P y -> 0 < cmp x y -> cmp y x <= 0.
Hypothesis cmp_trans : forall x y z, P x -> P y -> P z -> cmp x y <= 0 -> cmp y z <= 0 -> cmp x z <= 0.

Definition in_order (x y : A) : Prop := cmp x y <= 0.

Lemma insert_in_order x l : P x -> Forall P l -> StronglySorted in_order l -> StronglySorted in_order (insert_sorted x l).
Proof.
  intros Hx Hl Hs. induction Hs as [|y l Hs IH Hy]; cbn [insert_sorted]; [by repeat constructor|].
  apply Forall_cons in Hl as [Py Hl]. destruct (Z.ltb_spec 0 (cmp x y)) as [Hgt|Hle].
  - constructor; [by apply IH|]. rewrite insert_sorted_perm. constructor; [by apply cmp_total|done].
  - constructor; [by constructor|]. constructor; [exact Hle|]. rewrite Forall_forall in Hy |- *. intros z Hz.
    rewrite Forall_forall in Hl. apply (cmp_trans x y z); auto. by apply Hy.
Qed.

Lemma qsort_in_order l : Forall P l -> StronglySorted in_order (qsort l).
Proof.
  induction 1 as [|x l Hx Hl IH]; [constructor|]. cbn [qsort]. apply insert_in_order; [done| |done]. by rewrite qsort_perm.
Qed.
End Sort.

(** * Ranking by score

    The order both rankings of the daemon sort by: decreasing score, then
    increasing pid.  On proper scores (no NaN, no negative number) the C
    comparison is a total preorder. *)

(** Decreasing score, then increasing pid. *)
Definition ranked (sa pa sb pb : Z) : Prop := sb < sa \/ (sa = sb /\ pa <= pb).

Section Ranking.
Context {A : Type} (score : A -> double) (key : A -> Z).

(** The comparison of two elements as the code writes it. *)
Definition compare_by (x y : A) : Z :=
  if dltb (score x) (score y) then 1
  else if dgtb (score x) (score y) then -1
  else if key y <? key x then 1
  else if key x <? key y then -1
  else 0.

Definition rank_le (x y : A) : Prop := ranked (dord (score x)) (key x) (dord (score y)) (key y).

Definition rankable (x : A) : Prop := nnv (score x).

Lemma compare_by_ranked x y : rankable x -> rankable y -> compare_by x y <= 0 <-> rank_le x y.
Proof.
  intros Hx Hy. unfold compare_by, dgtb, rank_le, ranked. rewrite !dltb_dleb, !dleb_dord by done.
  destruct (Z.leb_spec (dord (score y)) (dord (score x))), (Z.leb_spec (dord (score x)) (dord (score y))); cbn [negb]; try lia.
  destruct (Z.ltb_spec (key y) (key x)); [lia|]. destruct (Z.ltb_spec (key x) (key y)); lia.
Qed.

Lemma rank_le_total x y : rank_le x y \/ rank_le y x.
Proof. unfold rank_le, ranked. destruct (Z.lt_trichotomy (dord (score x)) (dord (score y))) as [|[|]]; lia. Qed.

Lemma rank_le_trans x y z : rank_le x y -> rank_le y z -> rank_le x z.
Proof. unfold rank_le, ranked. lia. Qed.

Lemma qsort_ranked l : Forall rankable l -> StronglySorted rank_le (qsort compare_by l).
Proof.
  intros Hl. assert (Hs : StronglySorted (in_order compare_by) (qsort compare_by l)).
  { apply (qsort_in_order _ rankable); [| |exact Hl].
    - intros x y Hx Hy Hgt. apply compare_by_ranked; [done..|]. destruct (rank_le_total y x) as [|Hxy]; [done|].
      apply compare_by_ranked in Hxy; [lia|done..].
    - intros x y z Hx Hy Hz. rewrite !compare_by_ranked by done. apply rank_le_trans. }
  assert (Hq : Forall rankable (qsort compare_by l)) by (by rewrite qsort_perm).
  induction Hs as [|x k Hs IH Hx]; [constructor|]. apply Forall_cons in Hq as [Qx Qk]. constructor; [by apply IH|].
  rewrite Forall_forall in Hx, Qk |- *. intros y Hy. apply compare_by_ranked; [done|by apply Qk|by apply Hx].
Qed.
End Ranking.

(** What is left out ranks no higher than what is taken. *)
Lemma sorted_split {A} (R : A -> A -> Prop) n l : StronglySorted R l ->
  StronglySorted R (take n l) /\ forall x y, x ∈ take n l -> y ∈ drop n l -> R x y.
Proof.
  intros Hs. revert n. induction Hs as [|x l Hs IH Hx]; intros [|n]; cbn [take drop];
    try (split; [constructor|intros a b Ha; by apply elem_of_nil in Ha]).
  destruct (IH n) as [H1 H2]. rewrite Forall_forall in Hx. split.
  - constructor; [exact H1|]. apply Forall_forall. intros y Hy. apply Hx. rewrite <- (take_drop n l). apply elem_of_app. by left.
  - intros a b [->|Ha]%elem_of_cons Hb; [|by apply H2]. apply Hx. rewrite <- (take_drop n l). apply elem_of_app. by right.
Qed.
