(* ===== verification/ActivityPrefilter.v ===== *)
(** * Activity prefilter ([activity_prefilter.h], [activity_prefilter.c])

    Ranks observed processes by a cheap score and keeps the best of them, before
    anything expensive is computed. *)
From S2P Require Import Prelude Float64 CString Os ProcActivity Ranking.
From Stdlib Require Import Ascii String.
Local Open Scope Z_scope.

(** ** Data *)

Definition ACTIVITY_PREFILTER_DEFAULT_TOP_K1 : Z := 64.

Definition ACTIVITY_PREFILTER_OK : Z := 0.
Definition ACTIVITY_PREFILTER_ERR_INVALID_ARG : Z := -1.
Definition ACTIVITY_PREFILTER_ERR_NO_SPACE : Z := -2.
Definition ACTIVITY_PREFILTER_ERR_NO_MEMORY : Z := -3.

Record activity_prefilter_config := mk_activity_prefilter_config {
  pf_max_candidates : Z;
  pf_min_rss_pages : Z
}.

#[export] Instance activity_prefilter_config_settable : Settable activity_prefilter_config :=
  fun c => mk_activity_prefilter_config (pf_max_candidates c) (pf_min_rss_pages c).

Record activity_prefilter_observation := mk_activity_prefilter_observation {
  ob_pid : Z;
  ob_sample : proc_activity_sample;
  ob_delta : proc_activity_delta
}.

Record activity_prefilter_candidate := mk_activity_prefilter_candidate {
  pc_pid : Z;
  screening_score : double;
  pc_delta : proc_activity_delta
}.

Record activity_prefilter_stats := mk_activity_prefilter_stats {
  observations : Z;
  valid_observations : Z;
  excluded_zombie : Z;
  excluded_small_rss : Z;
  excluded_no_signal : Z;
  eligible_candidates : Z;
  selected_candidates : Z
}.

#[export] Instance activity_prefilter_stats_settable : Settable activity_prefilter_stats :=
  fun s => mk_activity_prefilter_stats (observations s) (valid_observations s) (excluded_zombie s) (excluded_small_rss s)
    (excluded_no_signal s) (eligible_candidates s) (selected_candidates s).

(** ** One observation *)

Definition max3 (a b c : double) : double :=
  let max_value := a in
  let max_value := if dgtb b max_value then b else max_value in
  if dgtb c max_value then c else max_value.

(** [None] is NULL. *)
Definition observation_is_valid (obs : option activity_prefilter_observation) : bool :=
  match obs with
  | None => false
  | Some obs =>
      if ob_pid obs <=? 0 then false
      else if negb (s_valid (ob_sample obs)) || negb (d_valid (ob_delta obs)) then false
      else if negb (s_pid (ob_sample obs) =? ob_pid obs) || negb (d_pid (ob_delta obs) =? ob_pid obs) then false
      else true
  end.

Definition has_cheap_activity_signal (obs : activity_prefilter_observation) : bool :=
  if 0 <? cpu_ticks_delta (ob_delta obs) then true
  else if (0 <? minflt_delta (ob_delta obs)) || (0 <? majflt_delta (ob_delta obs)) then true
  else if Ascii.eqb (s_state (ob_sample obs)) "R" || Ascii.eqb (s_state (ob_sample obs)) "D" then true
  else false.

Definition compare_candidate_desc (a b : activity_prefilter_candidate) : Z :=
  if dltb (screening_score a) (screening_score b) then 1
  else if dgtb (screening_score a) (screening_score b) then -1
  else if pc_pid b <? pc_pid a then 1
  else if pc_pid a <? pc_pid b then -1
  else 0.

Definition activity_prefilter_config_default (cfg : option activity_prefilter_config) : option activity_prefilter_config :=
  match cfg with
  | None => None
  | Some _ =>
      let cfg := mk_activity_prefilter_config 0 0 in
      Some ((cfg <| pf_max_candidates := ACTIVITY_PREFILTER_DEFAULT_TOP_K1 |>) <| pf_min_rss_pages := 1 |>)
  end.

Definition activity_prefilter_stats_zero : activity_prefilter_stats := mk_activity_prefilter_stats 0 0 0 0 0 0 0.

Definition activity_prefilter_stats_reset (stats : option activity_prefilter_stats) : option activity_prefilter_stats :=
  match stats with None => None | Some _ => Some activity_prefilter_stats_zero end.

(** [obs->sample.rss_pages <= 0 || (uint64_t)obs->sample.rss_pages < cfg->min_rss_pages] *)
Definition rss_too_small (cfg : activity_prefilter_config) (obs : activity_prefilter_observation) : bool :=
  (rss_pages (ob_sample obs) <=? 0) || (u64 (rss_pages (ob_sample obs)) <? pf_min_rss_pages cfg).

(** The code and [*eligible_out]; [eligible_out] is given by its value. *)
Definition activity_prefilter_is_eligible (obs : option activity_prefilter_observation) (cfg : option activity_prefilter_config)
    (eligible_out : option Z) : Z * option Z :=
  match obs, cfg, eligible_out with
  | Some o, Some c, Some _ =>
      if negb (observation_is_valid obs) then (ACTIVITY_PREFILTER_OK, Some 0)
      else if Ascii.eqb (s_state (ob_sample o)) "Z" then (ACTIVITY_PREFILTER_OK, Some 0)
      else if rss_too_small c o then (ACTIVITY_PREFILTER_OK, Some 0)
      else if negb (has_cheap_activity_signal o) then (ACTIVITY_PREFILTER_OK, Some 0)
      else (ACTIVITY_PREFILTER_OK, Some 1)
  | _, _, _ => (ACTIVITY_PREFILTER_ERR_INVALID_ARG, eligible_out)
  end.

(** ** Selection *)

(** [if (stats != NULL)]. *)
Definition pf_count (f : activity_prefilter_stats -> activity_prefilter_stats) (stats : option activity_prefilter_stats)
  : option activity_prefilter_stats :=
  match stats with None => None | Some s => Some (f s) end.

(** [eligible[eligible_count]] for an eligible observation. *)
Definition eligible_entry (obs : activity_prefilter_observation) : activity_prefilter_candidate :=
  mk_activity_prefilter_candidate (ob_pid obs)
    (max3 (d_cpu_score (ob_delta obs)) (d_fault_score (ob_delta obs)) (d_rss_score (ob_delta obs))) (ob_delta obs).

(** The body of the loop for one observation: [inl] is the code it returns. *)
Definition screen (cfg : activity_prefilter_config) (obs : activity_prefilter_observation) (stats : option activity_prefilter_stats)
  : (Z + option activity_prefilter_candidate) * option activity_prefilter_stats :=
  if negb (observation_is_valid (Some obs)) then (inr None, stats)
  else
    let stats := pf_count (fun s => s <| valid_observations ::= u64_inc |>) stats in
    if Ascii.eqb (s_state (ob_sample obs)) "Z" then (inr None, pf_count (fun s => s <| excluded_zombie ::= u64_inc |>) stats)
    else if rss_too_small cfg obs then (inr None, pf_count (fun s => s <| excluded_small_rss ::= u64_inc |>) stats)
    else
      let '(rc, eligible_now) := activity_prefilter_is_eligible (Some obs) (Some cfg) (Some 0) in
      if negb (rc =? ACTIVITY_PREFILTER_OK) then (inl rc, stats)
      else if default 0 eligible_now =? 0 then (inr None, pf_count (fun s => s <| excluded_no_signal ::= u64_inc |>) stats)
      else (inr (Some (eligible_entry obs)), stats).

Fixpoint screen_loop (cfg : activity_prefilter_config) (obs : list activity_prefilter_observation) (stats : option activity_prefilter_stats)
  : (Z + list activity_prefilter_candidate) * option activity_prefilter_stats :=
  match obs with
  | [] => (inr [], stats)
  | o :: obs =>
      match screen cfg o stats with
      | (inl rc, stats) => (inl rc, stats)
      | (inr found, stats) =>
          match screen_loop cfg obs stats with
          | (inl rc, stats) => (inl rc, stats)
          | (inr eligible, stats) => (inr (match found with Some c => [c] | None => [] end ++ eligible), stats)
          end
      end
  end.

(** [sizeof(struct activity_prefilter_candidate)] on a 64-bit machine. *)
Definition prefilter_candidate_size : Z := 256.

(** The state a call leaves: the code, the first [*out_count] elements of [out],
    and the statistics.  [Undefined] is a [memcpy] of at least one candidate to
    a NULL [out]. *)
Inductive selection :=
  | Selected (rc : Z) (out : list activity_prefilter_candidate) (stats : option activity_prefilter_stats)
  | Undefined.

(** [out_ok] and [out_count_ok]: the pointers are not NULL. *)
Definition activity_prefilter_select_topk {W : Type} `{OS W} (observed : option (list activity_prefilter_observation)) (observation_count : Z)
    (cfg : option activity_prefilter_config) (out_ok : bool) (out_cap : Z) (out_count_ok : bool)
    (stats : option activity_prefilter_stats) (w : W) : selection * W :=
  if negb out_count_ok then (Selected ACTIVITY_PREFILTER_ERR_INVALID_ARG [] stats, w)
  else
    let stats := activity_prefilter_stats_reset stats in
    match cfg with
    | None => (Selected ACTIVITY_PREFILTER_ERR_INVALID_ARG [] stats, w)
    | Some c =>
        if (0 <? observation_count) && negb (bool_decide (is_Some observed)) then (Selected ACTIVITY_PREFILTER_ERR_INVALID_ARG [] stats, w)
        else if (0 <? pf_max_candidates c) && negb out_ok then (Selected ACTIVITY_PREFILTER_ERR_INVALID_ARG [] stats, w)
        else
          let stats := pf_count (fun s => s <| observations := observation_count |>) stats in
          if observation_count =? 0 then (Selected ACTIVITY_PREFILTER_OK [] stats, w)
          else
            let '(allocated, w) := os_calloc observation_count prefilter_candidate_size w in
            if negb allocated then (Selected ACTIVITY_PREFILTER_ERR_NO_MEMORY [] stats, w)
            else
              match screen_loop c (take (Z.to_nat observation_count) (default [] observed)) stats with
              | (inl rc, stats) => (Selected rc [] stats, w)
              | (inr eligible, stats) =>
                  let eligible := qsort compare_candidate_desc eligible in
                  let eligible_count := Z.of_nat (List.length eligible) in
                  let stats := pf_count (fun s => s <| eligible_candidates := eligible_count |>) stats in
                  let selected_count := eligible_count in
                  let selected_count :=
                    if (0 <? pf_max_candidates c) && (pf_max_candidates c <? selected_count) then pf_max_candidates c else selected_count in
                  if out_cap <? selected_count then (Selected ACTIVITY_PREFILTER_ERR_NO_SPACE [] stats, w)
                  else if (0 <? selected_count) && negb out_ok then (Undefined, w)
                  else
                    (Selected ACTIVITY_PREFILTER_OK (take (Z.to_nat selected_count) eligible)
                       (pf_count (fun s => s <| selected_candidates := selected_count |>) stats), w)
              end
    end.

Definition activity_prefilter_strerror (rc : Z) : string :=
  switch rc [
    (ACTIVITY_PREFILTER_OK, "ok");
    (ACTIVITY_PREFILTER_ERR_INVALID_ARG, "invalid argument");
    (ACTIVITY_PREFILTER_ERR_NO_SPACE, "insufficient output space");
    (ACTIVITY_PREFILTER_ERR_NO_MEMORY, "out of memory")
  ]%string "unknown activity prefilter error"%string.
