(* ===== verification/PrefilterProps.v ===== *)
(** * Correctness of the activity prefilter

    The observations it keeps are the best of the eligible ones, and its
    statistics account for every observation. *)
From S2P Require Import Prelude Float64 CString Os Cgroup SimOs ProcActivity ProcActivityProps Ranking ActivityPrefilter.
From Stdlib Require Import Ascii String Sorted.
Local Open Scope Z_scope.

(** ** Eligibility *)

(** What makes an observation a candidate: a valid observation of a process that
    is no zombie, has enough resident pages and showed some activity. *)
Definition worth (cfg : activity_prefilter_config) (o : activity_prefilter_observation) : bool :=
  observation_is_valid (Some o) && negb (Ascii.eqb (s_state (ob_sample o)) "Z") && negb (rss_too_small cfg o) && has_cheap_activity_signal o.

Lemma is_eligible_worth cfg o out : activity_prefilter_is_eligible (Some o) (Some cfg) (Some out) =
  (ACTIVITY_PREFILTER_OK, Some (if worth cfg o then 1 else 0)).
Proof.
  unfold activity_prefilter_is_eligible, worth. destruct (observation_is_valid (Some o)); [|done]. cbn [negb andb].
  destruct (Ascii.eqb _ _); [done|]. destruct (rss_too_small cfg o); [done|]. by destruct (has_cheap_activity_signal o).
Qed.

(** How many observations end in each counter. *)
Definition tally (f : activity_prefilter_observation -> bool) (l : list activity_prefilter_observation) : Z :=
  Z.of_nat (List.length (List.filter f l)).

Definition valid_obs (o : activity_prefilter_observation) : bool := observation_is_valid (Some o).
Definition zombie (o : activity_prefilter_observation) : bool := valid_obs o && Ascii.eqb (s_state (ob_sample o)) "Z".
Definition small (cfg : activity_prefilter_config) (o : activity_prefilter_observation) : bool :=
  valid_obs o && negb (Ascii.eqb (s_state (ob_sample o)) "Z") && rss_too_small cfg o.
Definition silent (cfg : activity_prefilter_config) (o : activity_prefilter_observation) : bool :=
  valid_obs o && negb (Ascii.eqb (s_state (ob_sample o)) "Z") && negb (rss_too_small cfg o) && negb (has_cheap_activity_signal o).

Lemma tally_cons f o l : tally f (o :: l) = (if f o then 1 else 0) + tally f l.
Proof. unfold tally. cbn [List.filter]. destruct (f o); cbn [List.length]; lia. Qed.

Lemma tally_le f l : 0 <= tally f l <= Z.of_nat (List.length l).
Proof. induction l as [|o l IH]; [done|]. rewrite tally_cons. cbn [List.length]. destruct (f o); lia. Qed.

(** Every valid observation ends in exactly one of the four. *)
Lemma tally_valid cfg l : tally valid_obs l = tally zombie l + tally (small cfg) l + tally (silent cfg) l + tally (worth cfg) l.
Proof.
  induction l as [|o l IH]; [done|]. rewrite !tally_cons, IH. unfold zombie, small, silent, worth, valid_obs.
  destruct (observation_is_valid (Some o)), (Ascii.eqb (s_state (ob_sample o)) "Z"), (rss_too_small cfg o), (has_cheap_activity_signal o); cbn [negb andb]; lia.
Qed.

(** ** The loop *)

(** The counters after [l], from the ones before. *)
Definition screened (cfg : activity_prefilter_config) (l : list activity_prefilter_observation) (s : activity_prefilter_stats) : activity_prefilter_stats :=
  mk_activity_prefilter_stats (observations s) (valid_observations s + tally valid_obs l) (excluded_zombie s + tally zombie l)
    (excluded_small_rss s + tally (small cfg) l) (excluded_no_signal s + tally (silent cfg) l) (eligible_candidates s) (selected_candidates s).

(** There is room for [n] more in each counter. *)
Definition room (n : Z) (s : activity_prefilter_stats) : Prop :=
  Forall (fun x => 0 <= x /\ x + n <= UINT64_MAX) [valid_observations s; excluded_zombie s; excluded_small_rss s; excluded_no_signal s].

Lemma inc_small x n : 0 <= x -> x + n <= UINT64_MAX -> 0 < n -> u64_inc x = x + 1.
Proof. intros Hx Hm Hn. unfold u64_inc. apply u64_small. unfold in_u64, UINT64_MAX in *. lia. Qed.

Lemma screen_one cfg o s n : 0 < n -> room n s ->
  screen cfg o (Some s) = (inr (if worth cfg o then Some (eligible_entry o) else None), Some (screened cfg [o] s)) /\
  room (n - 1) (screened cfg [o] s).
Proof.
  intros Hn Hr. unfold room in *. rewrite !Forall_cons in Hr. destruct Hr as ([A1 A2] & [B1 B2] & [C1 C2] & [D1 D2] & _).
  unfold screen. rewrite is_eligible_worth. unfold screened. rewrite !tally_cons. unfold worth, zombie, small, silent, valid_obs.
  change (tally _ []) with 0. destruct s as [s1 s2 s3 s4 s5 s6 s7]. cbn in A1, A2, B1, B2, C1, C2, D1, D2.
  destruct (observation_is_valid (Some o)); [destruct (Ascii.eqb (s_state (ob_sample o)) "Z");
    [|destruct (rss_too_small cfg o); [|destruct (has_cheap_activity_signal o)]]|];
    cbn [negb andb pf_count Z.eqb from_option id ACTIVITY_PREFILTER_OK]; unfold set_field; cbn;
    repeat match goal with |- context [u64_inc ?x] => rewrite (inc_small x n) by lia end; rewrite ?Z.add_0_r;
    (split; [done|repeat constructor; lia]).
Qed.

Lemma screened_cons cfg o l s : screened cfg l (screened cfg [o] s) = screened cfg (o :: l) s.
Proof. unfold screened. cbn. rewrite !tally_cons. change (tally _ []) with 0. f_equal; lia. Qed.

Lemma screen_loop_spec cfg l : forall s, room (Z.of_nat (List.length l)) s ->
  screen_loop cfg l (Some s) = (inr (map eligible_entry (List.filter (worth cfg) l)), Some (screened cfg l s)).
Proof.
  induction l as [|o l IH]; intros s Hr; cbn [screen_loop].
  { unfold screened. change (tally _ []) with 0. rewrite !Z.add_0_r. by destruct s. }
  destruct (screen_one cfg o s (Z.of_nat (List.length (o :: l))) ltac:(cbn [List.length]; lia) Hr) as [-> Hr'].
  replace (Z.of_nat (List.length (o :: l)) - 1) with (Z.of_nat (List.length l)) in Hr' by (cbn [List.length]; lia).
  rewrite (IH _ Hr'), screened_cons. cbn [List.filter]. by destruct (worth cfg o).
Qed.

(** Without statistics the loop does the same. *)
Lemma screen_loop_null cfg l : screen_loop cfg l None = (inr (map eligible_entry (List.filter (worth cfg) l)), None).
Proof.
  induction l as [|o l IH]; [done|]. cbn [screen_loop List.filter].
  assert (E : screen cfg o None = (inr (if worth cfg o then Some (eligible_entry o) else None), None)).
  { unfold screen. rewrite is_eligible_worth. unfold worth. destruct (observation_is_valid (Some o)); [|done]. cbn [negb andb].
    destruct (Ascii.eqb _ _); [done|]. destruct (rss_too_small cfg o); [done|]. by destruct (has_cheap_activity_signal o). }
  rewrite E, IH. by destruct (worth cfg o).
Qed.

Lemma loop_eligible cfg l s : (forall x, s = Some x -> room (Z.of_nat (List.length l)) x) ->
  screen_loop cfg l s = (inr (map eligible_entry (List.filter (worth cfg) l)), screened cfg l <$> s).
Proof. intros Hr. destruct s as [x|]; [by rewrite screen_loop_spec by auto|apply screen_loop_null]. Qed.

(** ** The selection *)

(** The candidates the observations give. *)
Definition eligible_of (cfg : activity_prefilter_config) (l : list activity_prefilter_observation) : list activity_prefilter_candidate :=
  map eligible_entry (List.filter (worth cfg) l).

Lemma tally_eligible cfg l : tally (worth cfg) l = Z.of_nat (List.length (eligible_of cfg l)).
Proof. unfold tally, eligible_of. by rewrite length_map. Qed.

(** How many are kept. *)
Definition kept (cfg : activity_prefilter_config) (n : Z) : Z :=
  if (0 <? pf_max_candidates cfg) && (pf_max_candidates cfg <? n) then pf_max_candidates cfg else n.

Lemma kept_bounds cfg n : 0 <= n -> 0 <= kept cfg n <= n /\ (0 < pf_max_candidates cfg -> kept cfg n <= pf_max_candidates cfg).
Proof. unfold kept. destruct (Z.ltb_spec 0 (pf_max_candidates cfg)), (Z.ltb_spec (pf_max_candidates cfg) n); cbn [andb]; lia. Qed.

(** The statistics of a run that got to the end. *)
Definition final_stats (cfg : activity_prefilter_config) (l : list activity_prefilter_observation) (selected : Z) : activity_prefilter_stats :=
  mk_activity_prefilter_stats (Z.of_nat (List.length l)) (tally valid_obs l) (tally zombie l) (tally (small cfg) l) (tally (silent cfg) l)
    (tally (worth cfg) l) selected.

(** The scores observations come with: those [proc_activity_compute_delta]
    computes. *)
Definition observed_ok (l : list activity_prefilter_observation) : Prop := Forall (fun o => scores_unit (ob_delta o)) l.

(** The comparison is the one of [Ranking]. *)
Lemma compare_candidate_ranking : compare_candidate_desc = compare_by screening_score pc_pid.
Proof. reflexivity. Qed.

Lemma max3_unit a b c : unit_interval a -> unit_interval b -> unit_interval c ->
  unit_interval (max3 a b c) /\ dord (max3 a b c) = Z.max (dord a) (Z.max (dord b) (dord c)).
Proof.
  intros [Ha La] [Hb Lb] [Hc Lc]. unfold max3, dgtb. cbv zeta. rewrite (dltb_dleb a b), dleb_dord by done.
  destruct (Z.leb_spec (dord b) (dord a)); cbn [negb]; rewrite dltb_dleb, dleb_dord by done;
    match goal with |- context [negb (dord c <=? ?x)] => destruct (Z.leb_spec (dord c) x) end; cbn [negb]; (split; [done|lia]).
Qed.

Lemma eligible_rankable cfg l : observed_ok l -> Forall (rankable screening_score) (eligible_of cfg l).
Proof.
  intros Hl. apply Forall_forall. intros x Hx. apply list_elem_of_In, in_map_iff in Hx as (o & <- & Ho). apply filter_In in Ho as [Ho _].
  unfold observed_ok in Hl. rewrite Forall_forall in Hl. destruct (Hl o ltac:(by apply list_elem_of_In)) as (H1 & H2 & H3 & _).
  apply (max3_unit _ _ _ H1 H2 H3).
Qed.

Lemma room_zero (l : list activity_prefilter_observation) : Z.of_nat (List.length l) <= UINT64_MAX ->
  room (Z.of_nat (List.length l)) (activity_prefilter_stats_zero <| observations := Z.of_nat (List.length l) |>).
Proof. intros Hl. unfold room, set_field. cbn. repeat constructor; lia. Qed.

Section Select.
Context {W : Type} `{OS W}.

(** The run on [l], with an output buffer of [cap] candidates. *)
Lemma select_steps l c out_ok cap stats (w : W) : Z.of_nat (List.length l) <= UINT64_MAX ->
  l <> [] -> (0 < pf_max_candidates c -> out_ok = true) ->
  let el := eligible_of c l in
  let k := kept c (Z.of_nat (List.length el)) in
  let r := activity_prefilter_select_topk (Some l) (Z.of_nat (List.length l)) (Some c) out_ok cap true stats w in
  r.2 = (os_calloc (Z.of_nat (List.length l)) prefilter_candidate_size w).2 /\
  r.1 = (if negb (os_calloc (Z.of_nat (List.length l)) prefilter_candidate_size w).1 then
           Selected ACTIVITY_PREFILTER_ERR_NO_MEMORY [] ((fun _ => activity_prefilter_stats_zero <| observations := Z.of_nat (List.length l) |>) <$> stats)
         else if cap <? k then Selected ACTIVITY_PREFILTER_ERR_NO_SPACE [] ((fun _ => final_stats c l 0) <$> stats)
         else if (0 <? k) && negb out_ok then Undefined
         else Selected ACTIVITY_PREFILTER_OK (take (Z.to_nat k) (qsort compare_candidate_desc el)) ((fun _ => final_stats c l k) <$> stats)).
Proof.
  intros Hl Hne Hout. cbv zeta. unfold activity_prefilter_select_topk. cbn [negb].
  assert (Hpos : 0 < Z.of_nat (List.length l)) by (destruct l; [done|cbn; lia]).
  rewrite (bool_decide_true (is_Some (Some l))), andb_false_r by eauto.
  assert (E : (0 <? pf_max_candidates c) && negb out_ok = false) by (destruct (Z.ltb_spec 0 (pf_max_candidates c)); [by rewrite Hout|done]).
  rewrite E. destruct (Z.eqb_spec (Z.of_nat (List.length l)) 0); [lia|].
  destruct (os_calloc _ _ w) as [al w1]. destruct al; cbn [negb fst snd]; [|by destruct stats].
  rewrite Nat2Z.id, firstn_all. cbn [from_option id].
  rewrite loop_eligible by (intros x Hx; destruct stats; [injection Hx as <-; by apply room_zero|done]).
  fold (eligible_of c l). rewrite qsort_length. fold (kept c (Z.of_nat (List.length (eligible_of c l)))).
  set (k := kept c (Z.of_nat (List.length (eligible_of c l)))).
  assert (Est : forall x, pf_count (fun s => s <| selected_candidates := x |>) (pf_count (fun s => s <| eligible_candidates := Z.of_nat (List.length (eligible_of c l)) |>)
    (screened c l <$> pf_count (fun s => s <| observations := Z.of_nat (List.length l) |>) (activity_prefilter_stats_reset stats))) =
    (fun _ => final_stats c l x) <$> stats).
  { intros x. destruct stats as [s|]; [|done]. cbn. do 2 f_equal. unfold final_stats. by rewrite tally_eligible. }
  destruct (cap <? k).
  - cbn [fst snd]. split; [done|]. f_equal. rewrite <- (Est 0). destruct stats; reflexivity.
  - destruct ((0 <? k) && negb out_ok); [done|]. cbn [fst snd]. split; [done|]. f_equal. apply Est.
Qed.

(** C30: the prefilter keeps the best of the eligible observations: what it
    returns is ranked by decreasing screening score (the largest of the three
    scores of the observation) and increasing pid, no candidate left out ranks
    higher than one returned, together they are exactly the candidates of the
    eligible observations, and there are as many as asked for or all. *)
Theorem select_topk_best l c out_ok cap stats (w : W) out stats' w' :
  Z.of_nat (List.length l) <= UINT64_MAX -> observed_ok l -> (0 < pf_max_candidates c -> out_ok = true) ->
  activity_prefilter_select_topk (Some l) (Z.of_nat (List.length l)) (Some c) out_ok cap true stats w = (Selected ACTIVITY_PREFILTER_OK out stats', w') ->
  let el := map eligible_entry (List.filter (fun o => bool_decide (activity_prefilter_is_eligible (Some o) (Some c) (Some 0) = (ACTIVITY_PREFILTER_OK, Some 1))) l) in
  exists rest, Permutation (out ++ rest) el /\
    StronglySorted (rank_le screening_score pc_pid) out /\
    (forall a b, a ∈ out -> b ∈ rest -> rank_le screening_score pc_pid a b) /\
    Z.of_nat (List.length out) = kept c (Z.of_nat (List.length el)) /\
    Forall (fun a => dord (screening_score a) =
      Z.max (dord (d_cpu_score (pc_delta a))) (Z.max (dord (d_fault_score (pc_delta a))) (dord (d_rss_score (pc_delta a))))) out.
Proof.
  intros Hl Hobs Hout E. cbv zeta.
  rewrite (filter_ext _ (worth c)) by (intros o; rewrite is_eligible_worth; by destruct (worth c o)).
  fold (eligible_of c l). destruct (decide (l = [])) as [->|Hne].
  { unfold activity_prefilter_select_topk in E. cbn [negb List.length Z.of_nat Z.ltb Z.eqb Z.compare andb] in E.
    destruct ((0 <? pf_max_candidates c) && negb out_ok); [done|]. injection E as <- <- <-.
    pose proof (kept_bounds c 0 ltac:(lia)) as [Hk0 _].
    exists []. conjs; [reflexivity|apply SSorted_nil|intros a b Ha; by apply elem_of_nil in Ha|change (0 = kept c 0); lia|apply Forall_nil_2]. }
  destruct (select_steps l c out_ok cap stats w Hl Hne Hout) as [_ Hr]. rewrite E in Hr. cbn [fst] in Hr.
  destruct (negb _); [done|]. destruct (cap <? _); [done|]. destruct (_ && _); [done|]. injection Hr as -> _.
  pose proof (eligible_rankable c l Hobs) as Hel. pose proof (qsort_ranked screening_score pc_pid _ Hel) as Hs. rewrite <- compare_candidate_ranking in Hs.
  set (k := kept c (Z.of_nat (List.length (eligible_of c l)))). destruct (sorted_split _ (Z.to_nat k) _ Hs) as [H1 H2].
  pose proof (kept_bounds c (Z.of_nat (List.length (eligible_of c l))) ltac:(lia)) as [Hk _].
  exists (drop (Z.to_nat k) (qsort compare_candidate_desc (eligible_of c l))). rewrite take_drop. conjs; [apply qsort_perm|exact H1|exact H2| |].
  - rewrite length_take, qsort_length. fold k in Hk. lia.
  - apply Forall_take. rewrite qsort_perm. apply Forall_forall. intros a Ha. apply list_elem_of_In, in_map_iff in Ha as (o & <- & Ho).
    apply filter_In in Ho as [Ho%list_elem_of_In _]. unfold observed_ok in Hobs. rewrite Forall_forall in Hobs. destruct (Hobs o Ho) as (U1 & U2 & U3 & _).
    apply (max3_unit _ _ _ U1 U2 U3).
Qed.

(** How many of the observations are eligible. *)
Definition eligible_number (c : activity_prefilter_config) (l : list activity_prefilter_observation) : Z :=
  tally (fun o => bool_decide (activity_prefilter_is_eligible (Some o) (Some c) (Some 0) = (ACTIVITY_PREFILTER_OK, Some 1))) l.

(** The configuration and the buffers of a call are usable. *)
Definition usable (observed : option (list activity_prefilter_observation)) (count : Z) (cfg : option activity_prefilter_config) (out_ok : bool)
    (c : activity_prefilter_config) : Prop :=
  cfg = Some c /\ (0 < count -> observed <> None) /\ (0 < pf_max_candidates c -> out_ok = true).

(** How a call ends; no two of the cases hold together.  [memory]: the
    allocation succeeds. *)
Inductive ends (observed : option (list activity_prefilter_observation)) (count : Z) (cfg : option activity_prefilter_config) (out_ok : bool)
    (cap : Z) (count_ok : bool) (stats : option activity_prefilter_stats) (memory : bool) : selection -> Prop :=
| ends_no_count : count_ok = false ->
    ends _ _ _ _ _ _ _ _ (Selected ACTIVITY_PREFILTER_ERR_INVALID_ARG [] stats)
| ends_invalid : count_ok = true -> (forall c, ~ usable observed count cfg out_ok c) ->
    ends _ _ _ _ _ _ _ _ (Selected ACTIVITY_PREFILTER_ERR_INVALID_ARG [] ((fun _ => activity_prefilter_stats_zero) <$> stats))
| ends_empty c : count_ok = true -> usable observed count cfg out_ok c -> count = 0 ->
    ends _ _ _ _ _ _ _ _ (Selected ACTIVITY_PREFILTER_OK [] ((fun _ => final_stats c [] 0) <$> stats))
| ends_no_memory c : count_ok = true -> usable observed count cfg out_ok c -> 0 < count -> memory = false ->
    ends _ _ _ _ _ _ _ _ (Selected ACTIVITY_PREFILTER_ERR_NO_MEMORY [] ((fun _ => mk_activity_prefilter_stats count 0 0 0 0 0 0) <$> stats))
| ends_no_space c l : count_ok = true -> usable observed count cfg out_ok c -> 0 < count -> memory = true -> observed = Some l ->
    cap < kept c (eligible_number c l) ->
    ends _ _ _ _ _ _ _ _ (Selected ACTIVITY_PREFILTER_ERR_NO_SPACE [] ((fun _ => final_stats c l 0) <$> stats))
| ends_undefined c l : count_ok = true -> usable observed count cfg out_ok c -> 0 < count -> memory = true -> observed = Some l ->
    kept c (eligible_number c l) <= cap -> out_ok = false -> 0 < eligible_number c l ->
    ends _ _ _ _ _ _ _ _ Undefined
| ends_ok c l out : count_ok = true -> usable observed count cfg out_ok c -> 0 < count -> memory = true -> observed = Some l ->
    kept c (eligible_number c l) <= cap -> (out_ok = true \/ eligible_number c l = 0) -> Z.of_nat (List.length out) = kept c (eligible_number c l) ->
    ends _ _ _ _ _ _ _ _ (Selected ACTIVITY_PREFILTER_OK out ((fun _ => final_stats c l (kept c (eligible_number c l))) <$> stats)).

Lemma eligible_number_eq c l : eligible_number c l = Z.of_nat (List.length (eligible_of c l)).
Proof.
  rewrite <- tally_eligible. unfold eligible_number, tally. do 2 f_equal. apply filter_ext. intros o. rewrite is_eligible_worth. by destruct (worth c o).
Qed.

(** C34: every call ends in one of seven ways, which exclude each other: no
    place for the count, statistics untouched; invalid arguments, statistics reset;
    no observations; memory exhausted; no room for the candidates that are kept;
    undefined behaviour, exactly when no limit is configured, the output buffer is
    NULL, there is room for and at least one candidate to copy; and success, with
    as many candidates as are kept. The statistics, when asked for, count the
    observations and how many of them are valid, zombies, small, silent,
    eligible and selected, each number on its own; the valid ones are the zombies,
    the small, the silent and the eligible ones. *)
Theorem select_topk_outcome observed count cfg out_ok cap count_ok stats (w : W) :
  0 <= count <= UINT64_MAX -> (forall l, observed = Some l -> count = Z.of_nat (List.length l)) ->
  ends observed count cfg out_ok cap count_ok stats (os_calloc count prefilter_candidate_size w).1
    (activity_prefilter_select_topk observed count cfg out_ok cap count_ok stats w).1 /\
  forall c l k, tally valid_obs l =
    excluded_zombie (final_stats c l k) + excluded_small_rss (final_stats c l k) + excluded_no_signal (final_stats c l k) + eligible_number c l.
Proof.
  intros Hcount Hlen. split; [|intros c l k; cbn; rewrite eligible_number_eq, <- tally_eligible; apply tally_valid].
  unfold activity_prefilter_select_topk at 1. destruct count_ok; cbn [negb]; [|by constructor].
  destruct cfg as [c|]; [|destruct stats; cbn; apply ends_invalid; by try intros c (? & _)].
  destruct ((0 <? count) && negb (bool_decide (is_Some observed))) eqn:E1.
  { apply andb_true_iff in E1 as [Hc%Z.ltb_lt Hn%negb_true_iff%bool_decide_eq_false]. destruct stats; cbn; apply ends_invalid; try done;
      intros c' (_ & Hg & _); apply Hn; specialize (Hg Hc); destruct observed; [by eexists|done|by eexists|done]. }
  destruct ((0 <? pf_max_candidates c) && negb out_ok) eqn:E2.
  { apply andb_true_iff in E2 as [Hc%Z.ltb_lt Hn%negb_true_iff]. destruct stats; cbn; apply ends_invalid; try done;
      intros c' (Hcfg & _ & Ho); injection Hcfg as <-; specialize (Ho Hc); congruence. }
  assert (Hu : usable observed count (Some c) out_ok c).
  { split; [done|]. split.
    - intros Hpos%Z.ltb_lt. rewrite Hpos in E1. cbn in E1. by destruct observed.
    - intros Hpos%Z.ltb_lt. rewrite Hpos in E2. cbn in E2. by destruct out_ok. }
  destruct (Z.eqb_spec count 0) as [->|Hne]; [destruct stats; exact (ends_empty _ _ _ _ _ _ _ _ c eq_refl Hu eq_refl)|].
  destruct observed as [l|]; [|by destruct Hu as (_ & Hg & _); destruct (Hg ltac:(lia))]. specialize (Hlen l eq_refl).
  assert (Hl : l <> []) by (intros ->; cbn in Hlen; lia). pose proof Hu as (_ & _ & Hout).
  destruct (select_steps l c out_ok cap stats w ltac:(lia) Hl Hout) as [_ Hr]. rewrite <- Hlen, <- eligible_number_eq in Hr.
  unfold activity_prefilter_select_topk at 1 in Hr. cbn [negb] in Hr. rewrite E1, E2 in Hr. destruct (Z.eqb_spec count 0); [done|]. rewrite Hr. clear Hr.
  pose proof (kept_bounds c (eligible_number c l) ltac:(rewrite eligible_number_eq; lia)) as [Hk _]. pose proof (eligible_number_eq c l) as En.
  destruct (os_calloc _ _ w).1; cbn [negb]; [|destruct stats; apply (ends_no_memory _ _ _ _ _ _ _ _ c); try done; lia].
  destruct (Z.ltb_spec cap (kept c (eligible_number c l))) as [|Hcap]; [by apply (ends_no_space _ _ _ _ _ _ _ _ c l); try lia|].
  destruct (Z.ltb_spec 0 (kept c (eligible_number c l))) as [Hpos|Hzero]; [destruct out_ok|]; cbn [negb andb].
  - apply (ends_ok _ _ _ _ _ _ _ _ c l); first [done|lia|by left|rewrite length_take, qsort_length; lia].
  - apply (ends_undefined _ _ _ _ _ _ _ _ c l); first [done|lia].
  - assert (Hz : eligible_number c l = 0).
    { unfold kept in *. destruct (Z.ltb_spec 0 (pf_max_candidates c)), (Z.ltb_spec (pf_max_candidates c) (eligible_number c l)); cbn [andb] in *; lia. }
    apply (ends_ok _ _ _ _ _ _ _ _ c l); first [done|lia|by right|rewrite length_take, qsort_length; lia].
Qed.
End Select.

(** ** A run *)

(** An observation of process [p] in state [st] with the given scores. *)
Definition demo_obs (p : Z) (st : ascii) (cpu fault : double) : activity_prefilter_observation :=
  mk_activity_prefilter_observation p
    (proc_activity_sample_zero <| s_pid := p |> <| s_state := st |> <| s_valid := true |> <| ProcActivity.rss_pages := 300 |>)
    (proc_activity_delta_zero <| d_pid := p |> <| d_valid := true |> <| cpu_ticks_delta := 7 |> <| d_cpu_score := cpu |> <| d_fault_score := fault |>).

(** Two workers, a zombie, and a process that exited in between. *)
Definition demo_observations : list activity_prefilter_observation :=
  [ demo_obs 7 "S" (dlit 1 4) (dlit 1 8); demo_obs 8 "Z" (dlit 1 1) dzero; demo_obs 9 "S" dzero (dlit 1 2);
    mk_activity_prefilter_observation 10 proc_activity_sample_zero proc_activity_delta_zero ].

Lemma demo_observed_ok : observed_ok demo_observations.
Proof. repeat constructor. Qed.

Definition demo_limit (n : Z) : activity_prefilter_config := mk_activity_prefilter_config n 1.

Lemma select_topk_best_witness :
  exists out stats w', activity_prefilter_select_topk (Some demo_observations) 4 (Some (demo_limit 1)) true 8 true
      (Some activity_prefilter_stats_zero) sim_empty = (Selected ACTIVITY_PREFILTER_OK out stats, w') /\
    map pc_pid out = [9] /\
    exists rest, map pc_pid rest = [7] /\ forall a b, a ∈ out -> b ∈ rest -> rank_le screening_score pc_pid a b.
Proof.
  assert (H : match activity_prefilter_select_topk (Some demo_observations) 4 (Some (demo_limit 1)) true 8 true (Some activity_prefilter_stats_zero) sim_empty with
    | (Selected rc out _, _) => rc = ACTIVITY_PREFILTER_OK /\ map pc_pid out = [9] | _ => False end) by (vm_compute; done).
  destruct (activity_prefilter_select_topk (Some demo_observations) 4 (Some (demo_limit 1)) true 8 true (Some activity_prefilter_stats_zero) sim_empty)
    as [[rc out stats|] w'] eqn:E; [|done]. destruct H as [-> Hout]. exists out, stats, w'. split; [done|]. split; [exact Hout|].
  destruct (select_topk_best demo_observations (demo_limit 1) true 8 _ sim_empty out stats w' ltac:(vm_compute; discriminate) demo_observed_ok ltac:(done) E)
    as (rest & Hperm & _ & Hr & _). exists rest. split; [|exact Hr].
  apply (Permutation_map pc_pid) in Hperm. rewrite map_app, Hout in Hperm.
  change (Permutation ([9] ++ map pc_pid rest) [7; 9]) in Hperm.
  assert (Hp : Permutation (map pc_pid rest) [7]) by (apply (Permutation_cons_inv (a := 9)); etrans; [exact Hperm|apply Permutation_swap]).
  exact (Permutation_length_1_inv (symmetry Hp)).
Defined.

(** With no limit and no buffer the candidates are copied to NULL. *)
Lemma select_topk_outcome_witness :
  activity_prefilter_select_topk (Some demo_observations) 4 (Some (demo_limit 0)) false 8 true (Some activity_prefilter_stats_zero) sim_empty =
    (Undefined, sim_empty) /\
  ends (Some demo_observations) 4 (Some (demo_limit 0)) false 8 true (Some activity_prefilter_stats_zero) true Undefined.
Proof.
  assert (H : match activity_prefilter_select_topk (Some demo_observations) 4 (Some (demo_limit 0)) false 8 true (Some activity_prefilter_stats_zero) sim_empty with
    | (Undefined, w) => w = sim_empty | _ => False end) by (vm_compute; reflexivity).
  destruct (select_topk_outcome (Some demo_observations) 4 (Some (demo_limit 0)) false 8 true (Some activity_prefilter_stats_zero) sim_empty
    ltac:(vm_compute; split; discriminate) ltac:(by intros l [= <-])) as [He _].
  destruct (activity_prefilter_select_topk _ _ _ _ _ _ _ _) as [[rc out st|] w']; [done|]. subst w'. split; [reflexivity|exact He].
Defined.
