(* ===== verification/InterferenceDetector.v ===== *)
(** * Interference detector ([interference_detector.h], [interference_detector.c])

    One interval of detection: profile the protected processes, rank the active
    normal ones, and compare the best of them with the protected aggregate. *)
From S2P Require Import Prelude Float64 CString Os Calibration DramMapping ProcActivity AddrTranslate BankProfile Candidate Ranking.
From Stdlib Require Import Ascii String.
Local Open Scope Z_scope.

(** ** Data *)

Definition INTERFERENCE_DETECTOR_OK : Z := 0.
Definition INTERFERENCE_DETECTOR_ERR_INVALID_ARG : Z := -1.
Definition INTERFERENCE_DETECTOR_ERR_NO_MAPPING : Z := -2.
Definition INTERFERENCE_DETECTOR_ERR_NO_MEMORY : Z := -3.
Definition INTERFERENCE_DETECTOR_ERR_NO_PROTECTED_PROFILE : Z := -4.
Definition INTERFERENCE_DETECTOR_ERR_PROFILE : Z := -5.
Definition INTERFERENCE_DETECTOR_ERR_ACTIVITY : Z := -6.

Inductive interference_process_role := INTERFERENCE_PROCESS_NORMAL | INTERFERENCE_PROCESS_PROTECTED.

#[export] Instance role_eq_dec : EqDecision interference_process_role.
Proof. solve_decision. Defined.

Record interference_process_state := mk_interference_process_state {
  ps_pid : Z;
  ps_role : interference_process_role;
  alive : bool;
  has_activity_sample : bool;
  activity_sample : proc_activity_sample
}.

#[export] Instance interference_process_state_settable : Settable interference_process_state :=
  fun p => mk_interference_process_state (ps_pid p) (ps_role p) (alive p) (has_activity_sample p) (activity_sample p).

Record interference_detector_config := mk_interference_detector_config {
  max_normal_candidates : Z;
  activity_score_threshold : double;
  overlap_score_threshold : double;
  throttle_score_threshold : double;
  activity_config : proc_activity_config;
  profile_config : bank_profile_config
}.

#[export] Instance interference_detector_config_settable : Settable interference_detector_config :=
  fun c => mk_interference_detector_config (max_normal_candidates c) (activity_score_threshold c) (overlap_score_threshold c)
    (throttle_score_threshold c) (activity_config c) (profile_config c).

Record interference_detector_stats := mk_interference_detector_stats {
  st_process_count : Z;
  protected_processes : Z;
  normal_processes : Z;
  protected_profiles_built : Z;
  activity_samples : Z;
  active_normal_candidates : Z;
  normal_profiles_built : Z;
  output_candidates : Z;
  activity_errors : Z;
  profile_errors : Z;
  st_last_error : Z;
  last_error_reason : string
}.

#[export] Instance interference_detector_stats_settable : Settable interference_detector_stats :=
  fun s => mk_interference_detector_stats (st_process_count s) (protected_processes s) (normal_processes s)
    (protected_profiles_built s) (activity_samples s) (active_normal_candidates s) (normal_profiles_built s)
    (output_candidates s) (activity_errors s) (profile_errors s) (st_last_error s) (last_error_reason s).

Record active_candidate_internal := mk_active_candidate_internal {
  act_pid : Z;
  act_delta : proc_activity_delta
}.

(** ** Scores *)

Definition clamp01 (value : double) : double :=
  if dltb value dzero then dzero else if dgtb value done then done else value.

Definition compute_final_score (activity overlap : double) : double := dmul (clamp01 activity) (clamp01 overlap).

Definition compare_active_candidate_desc (ca cb : active_candidate_internal) : Z :=
  if dltb (total_score (act_delta ca)) (total_score (act_delta cb)) then 1
  else if dgtb (total_score (act_delta ca)) (total_score (act_delta cb)) then -1
  else if act_pid cb <? act_pid ca then 1
  else if act_pid ca <? act_pid cb then -1
  else 0.

(** ** Statistics and defaults *)

(** A pointer to statistics: [None] is NULL, and [with_stats] is
    [if (stats != NULL)]. *)
Definition with_stats (f : interference_detector_stats -> interference_detector_stats) (stats : option interference_detector_stats)
  : option interference_detector_stats :=
  match stats with None => None | Some s => Some (f s) end.

(** [reason]: [None] is NULL. *)
Definition stats_set_error (stats : option interference_detector_stats) (rc : Z) (reason : option string) : option interference_detector_stats :=
  with_stats (fun s =>
    let s := s <| st_last_error := rc |> in
    match reason with
    | None => s <| last_error_reason := "" |>
    | Some text => s <| last_error_reason := snprintf INTERFERENCE_DETECTOR_REASON_MAX (c_str text) |>
    end) stats.

Definition interference_detector_config_default (cfg : option interference_detector_config) : option interference_detector_config :=
  match cfg with
  | None => None
  | Some _ =>
      let pcfg := mk_bank_profile_config 4096 16 true true true false false in
      let pcfg := (pcfg <| max_pages_to_sample := 4096 |>) <| sample_stride_pages := 16 |> in
      Some (mk_interference_detector_config 16 dzero (dlit 30 100) (dlit 20 100)
        (mk_proc_activity_config (dlit 2 100) (dlit 100 1) 256 (dlit 8 1) (dlit 25 100) (dlit 1000 1) (dlit 256 1)) pcfg)
  end.

Definition interference_process_state_reset (state : option interference_process_state) : option interference_process_state :=
  match state with
  | None => None
  | Some _ => Some (mk_interference_process_state 0 INTERFERENCE_PROCESS_NORMAL false false proc_activity_sample_zero)
  end.

Definition interference_detector_stats_zero : interference_detector_stats :=
  mk_interference_detector_stats 0 0 0 0 0 0 0 0 0 0 0 "".

Definition interference_detector_stats_reset (stats : option interference_detector_stats) : option interference_detector_stats :=
  with_stats (fun _ => interference_detector_stats_zero <| st_last_error := INTERFERENCE_DETECTOR_OK |>) stats.

Section Detector.
Context {W : Type} `{OS W}.
Variable mapping : dram_mapping.
Variable cfg : interference_detector_config.

(** ** The protected aggregate *)

(** The loop: a local [profile] is built for each protected process. *)
Fixpoint aggregate_loop (processes : list interference_process_state) (aggregate : bank_profile)
    (stats : option interference_detector_stats) (w : W) : Z * bank_profile * option interference_detector_stats * W :=
  match processes with
  | [] => (INTERFERENCE_DETECTOR_OK, aggregate, stats, w)
  | p :: processes =>
      if negb (alive p) then aggregate_loop processes aggregate stats w
      else if negb (bool_decide (ps_role p = INTERFERENCE_PROCESS_PROTECTED)) then aggregate_loop processes aggregate stats w
      else
        let stats := with_stats (fun s => s <| protected_processes ::= u64_inc |>) stats in
        let '(rc, profile, w) := bank_profile_build (ps_pid p) (Some mapping) (Some (profile_config cfg)) (Some bank_profile_zero) w in
        if negb (rc =? BANK_PROFILE_OK)
        then aggregate_loop processes aggregate (with_stats (fun s => s <| profile_errors ::= u64_inc |>) stats) w
        else
          let '(rc, merged) := bank_profile_merge (Some aggregate) profile in
          let aggregate := default aggregate merged in
          if negb (rc =? BANK_PROFILE_OK)
          then (INTERFERENCE_DETECTOR_ERR_PROFILE, aggregate, with_stats (fun s => s <| profile_errors ::= u64_inc |>) stats, w)
          else aggregate_loop processes aggregate (with_stats (fun s => s <| protected_profiles_built ::= u64_inc |>) stats) w
  end.

Definition build_protected_aggregate_profile (processes : list interference_process_state)
    (stats : option interference_detector_stats) (w : W) : Z * bank_profile * option interference_detector_stats * W :=
  let '(rc, aggregate, stats, w) := aggregate_loop processes bank_profile_zero stats w in
  if negb (rc =? INTERFERENCE_DETECTOR_OK) then (rc, aggregate, stats, w)
  else if entry_count aggregate =? 0 then (INTERFERENCE_DETECTOR_ERR_NO_PROTECTED_PROFILE, aggregate, stats, w)
  else (INTERFERENCE_DETECTOR_OK, aggregate, stats, w).

(** ** The active normal processes *)

(** The body of the loop for one process: its new state and the candidate it
    adds, if any. *)
Definition collect_process (p : interference_process_state) (stats : option interference_detector_stats) (w : W)
  : interference_process_state * option active_candidate_internal * option interference_detector_stats * W :=
  if negb (alive p) then (p, None, stats, w)
  else if negb (bool_decide (ps_role p = INTERFERENCE_PROCESS_NORMAL)) then (p, None, stats, w)
  else
    let stats := with_stats (fun s => s <| normal_processes ::= u64_inc |>) stats in
    let '(rc, now, w) := proc_activity_sample_now (ps_pid p) (Some proc_activity_sample_zero) w in
    let now := default proc_activity_sample_zero now in
    if negb (rc =? PROC_ACTIVITY_OK) then
      ((p <| alive := false |>) <| has_activity_sample := false |>, None,
       with_stats (fun s => s <| activity_errors ::= u64_inc |>) stats, w)
    else
      let stats := with_stats (fun s => s <| activity_samples ::= u64_inc |>) stats in
      if negb (has_activity_sample p) then
        ((p <| activity_sample := now |>) <| has_activity_sample := true |>, None, stats, w)
      else
        let '(rc, delta) := proc_activity_compute_delta (Some (activity_sample p)) (Some now) (Some (activity_config cfg))
                              (Some proc_activity_delta_zero) in
        let delta := default proc_activity_delta_zero delta in
        let p := (p <| activity_sample := now |>) <| has_activity_sample := true |> in
        if negb (rc =? PROC_ACTIVITY_OK) then
          let p := if rc =? PROC_ACTIVITY_ERR_PID_REUSED then p <| has_activity_sample := false |> else p in
          (p, None, with_stats (fun s => s <| activity_errors ::= u64_inc |>) stats, w)
        else if negb (d_active delta) then (p, None, stats, w)
        else if dltb (total_score delta) (activity_score_threshold cfg) then (p, None, stats, w)
        else (p, Some (mk_active_candidate_internal (ps_pid p) delta), stats, w).

Fixpoint collect_loop (processes : list interference_process_state) (stats : option interference_detector_stats) (w : W)
  : list interference_process_state * list active_candidate_internal * option interference_detector_stats * W :=
  match processes with
  | [] => ([], [], stats, w)
  | p :: processes =>
      let '(p, found, stats, w) := collect_process p stats w in
      let '(processes, active, stats, w) := collect_loop processes stats w in
      (p :: processes, (match found with Some a => [a] | None => [] end) ++ active, stats, w)
  end.

(** [sizeof(struct active_candidate_internal)] on a 64-bit machine. *)
Definition active_candidate_size : Z := 248.

Definition collect_active_normal_candidates (processes : list interference_process_state)
    (stats : option interference_detector_stats) (w : W)
  : Z * list interference_process_state * list active_candidate_internal * option interference_detector_stats * W :=
  let '(allocated, w) := os_calloc (Z.of_nat (List.length processes)) active_candidate_size w in
  if negb allocated then (INTERFERENCE_DETECTOR_ERR_NO_MEMORY, processes, [], stats, w)
  else
    let '(processes, active, stats, w) := collect_loop processes stats w in
    let active := qsort compare_active_candidate_desc active in
    let stats := with_stats (fun s => s <| active_normal_candidates := Z.of_nat (List.length active) |>) stats in
    (INTERFERENCE_DETECTOR_OK, processes, active, stats, w).

(** ** The candidates *)

(** [out[produced]] for an active process that was profiled and compared. *)
Definition fill_candidate (a : active_candidate_internal) (overlap : double) (common : Z) : interference_candidate :=
  let out := interference_candidate_zero in
  let out := out <| cand_pid := act_pid a |> in
  let out := out <| activity_score := total_score (act_delta a) |> in
  let out := out <| cpu_score := d_cpu_score (act_delta a) |> in
  let out := out <| fault_score := d_fault_score (act_delta a) |> in
  let out := out <| rss_score := d_rss_score (act_delta a) |> in
  let out := out <| overlap_score := overlap |> in
  let out := out <| common_pages := common |> in
  let out := out <| final_score := compute_final_score (activity_score out) (overlap_score out) |> in
  let out := out <| cand_active := true |> in
  let out := out <| should_throttle :=
    dgeb overlap (overlap_score_threshold cfg) && dgeb (final_score out) (throttle_score_threshold cfg) |> in
  out <| cand_reason := snprintf INTERFERENCE_DETECTOR_REASON_MAX
    ("activity=" +:+ fmt_f 4 (activity_score out) +:+ " overlap=" +:+ fmt_f 4 (overlap_score out) +:+ " final=" +:+ fmt_f 4 (final_score out)
     +:+ " common_pages=" +:+ dec (common_pages out) +:+ " throttle=" +:+ fmt_bool (should_throttle out)) |>.

(** The loop over the best candidates: the ones produced, in order. *)
Fixpoint produce_loop (active : list active_candidate_internal) (aggregate : bank_profile) (stats : option interference_detector_stats) (w : W)
  : list interference_candidate * option interference_detector_stats * W :=
  match active with
  | [] => ([], stats, w)
  | a :: active =>
      let '(rc, profile, w) := bank_profile_build (act_pid a) (Some mapping) (Some (profile_config cfg)) (Some bank_profile_zero) w in
      if negb (rc =? BANK_PROFILE_OK)
      then produce_loop active aggregate (with_stats (fun s => s <| profile_errors ::= u64_inc |>) stats) w
      else
        let stats := with_stats (fun s => s <| normal_profiles_built ::= u64_inc |>) stats in
        let '(rc, overlap, common) := bank_profile_overlap_score (Some aggregate) profile (Some dzero) (Some 0) in
        if negb (rc =? BANK_PROFILE_OK)
        then produce_loop active aggregate (with_stats (fun s => s <| profile_errors ::= u64_inc |>) stats) w
        else
          let '(cands, stats, w) := produce_loop active aggregate stats w in
          (fill_candidate a (default dzero overlap) (default 0 common) :: cands, stats, w)
  end.

(** How many of the active processes are profiled. *)
Definition candidate_limit (active_count out_cap : Z) : Z :=
  let limit := active_count in
  let limit := if (0 <? max_normal_candidates cfg) && (max_normal_candidates cfg <? limit) then max_normal_candidates cfg else limit in
  if out_cap <? limit then out_cap else limit.
End Detector.

(** [processes], [mapping], [cfg], [out] and [stats]: [None] is NULL;
    [out_count_ok] is [out_count != NULL].  [process_count] is the length of
    [processes].  The result is the code, the processes, the candidates (the
    first [*out_count] elements of [out]) and the statistics. *)
Definition interference_detector_run_once {W : Type} `{OS W} (processes : option (list interference_process_state))
    (mapping : option dram_mapping) (cfg : option interference_detector_config) (out_ok : bool) (out_cap : Z) (out_count_ok : bool)
    (stats : option interference_detector_stats) (w : W)
  : Z * option (list interference_process_state) * list interference_candidate * option interference_detector_stats * W :=
  let stats := interference_detector_stats_reset stats in
  match processes, mapping, cfg with
  | Some ps, Some m, Some c =>
      if negb out_ok || negb out_count_ok then (INTERFERENCE_DETECTOR_ERR_INVALID_ARG, processes, [], stats, w)
      else if (0 <? Z.of_nat (List.length ps)) && (out_cap =? 0)
      then (INTERFERENCE_DETECTOR_ERR_INVALID_ARG, processes, [], stats, w)
      else if negb (dram_mapping_is_ready mapping) then
        (INTERFERENCE_DETECTOR_ERR_NO_MAPPING, processes, [],
         stats_set_error stats INTERFERENCE_DETECTOR_ERR_NO_MAPPING (Some "DRAM mapping is not ready"%string), w)
      else
        let stats := with_stats (fun s => s <| st_process_count := Z.of_nat (List.length ps) |>) stats in
        let '(rc, aggregate, stats, w) := build_protected_aggregate_profile m c ps stats w in
        if negb (rc =? INTERFERENCE_DETECTOR_OK) then
          (rc, processes, [], stats_set_error stats rc (Some "failed to build protected aggregate profile"%string), w)
        else
          let '(rc, ps, active, stats, w) := collect_active_normal_candidates c ps stats w in
          if negb (rc =? INTERFERENCE_DETECTOR_OK) then
            (rc, Some ps, [], stats_set_error stats rc (Some "failed to collect active normal candidates"%string), w)
          else
            let limit := candidate_limit c (Z.of_nat (List.length active)) out_cap in
            let '(cands, stats, w) := produce_loop m c (take (Z.to_nat limit) active) aggregate stats w in
            let stats := with_stats (fun s => s <| output_candidates := Z.of_nat (List.length cands) |>) stats in
            (INTERFERENCE_DETECTOR_OK, Some ps, cands, stats, w)
  | _, _, _ => (INTERFERENCE_DETECTOR_ERR_INVALID_ARG, processes, [], stats, w)
  end.

Definition interference_detector_strerror (rc : Z) : string :=
  switch rc [
    (INTERFERENCE_DETECTOR_OK, "ok");
    (INTERFERENCE_DETECTOR_ERR_INVALID_ARG, "invalid argument");
    (INTERFERENCE_DETECTOR_ERR_NO_MAPPING, "DRAM mapping is not ready");
    (INTERFERENCE_DETECTOR_ERR_NO_MEMORY, "out of memory");
    (INTERFERENCE_DETECTOR_ERR_NO_PROTECTED_PROFILE, "no protected profile available");
    (INTERFERENCE_DETECTOR_ERR_PROFILE, "bank profile error");
    (INTERFERENCE_DETECTOR_ERR_ACTIVITY, "activity sampling error")
  ]%string "unknown interference detector error"%string.
