(* ===== verification/ThrottleController.v ===== *)
(** * The throttle controller ([throttle_controller.h], [throttle_controller.c])

    Per-process hysteresis between the background and the throttled group.  The
    array of records is the list of its first [record_count] entries; a pointer
    argument that the code tests against NULL is an [option].  The functions
    thread the world they act on: cgroup moves, clock readings, allocations. *)
From S2P Require Import Prelude Float64 CString Cgroup Candidate.
From Stdlib Require Import Ascii String.
Local Open Scope Z_scope.

(** ** Data *)

Definition NSEC_PER_MSEC : Z := 1000000.
Definition THROTTLE_CONTROLLER_VALUE_MAX : Z := 64.
Definition THROTTLE_CONTROLLER_REASON_MAX : Z := 256.

Definition THROTTLE_CONTROLLER_OK : Z := 0.
Definition THROTTLE_CONTROLLER_ERR_INVALID_ARG : Z := -1.
Definition THROTTLE_CONTROLLER_ERR_NO_MEMORY : Z := -2.
Definition THROTTLE_CONTROLLER_ERR_NO_SPACE : Z := -3.
Definition THROTTLE_CONTROLLER_ERR_TIME : Z := -4.
Definition THROTTLE_CONTROLLER_ERR_CGROUP : Z := -5.
Definition THROTTLE_CONTROLLER_ERR_NOT_INITIALIZED : Z := -6.

Inductive throttle_state :=
| THROTTLE_STATE_NONE
| THROTTLE_STATE_THROTTLED
| THROTTLE_STATE_COOLDOWN
| THROTTLE_STATE_OTHER (value : Z).

#[export] Instance throttle_state_eq_dec : EqDecision throttle_state.
Proof. solve_decision. Defined.

(** A clock callback: its return code, the time it stored, the world after. *)
Definition throttle_controller_clock_fn (W : Type) : Type := W -> Z * Z * W.

Record throttle_controller_config (W : Type) := mk_throttle_controller_config {
  normal_group : proc_group;
  throttled_group : proc_group;
  protected_group : proc_group;
  throttled_cpu_max : string;
  protected_memory_low : string;
  high_score_threshold : double;
  low_score_threshold : double;
  min_throttle_duration_ms : Z;
  cooldown_duration_ms : Z;
  stale_after_ms : Z;
  max_records : Z;
  dry_run : bool;
  configure_throttled_cpu_max : bool;
  configure_protected_memory_low : bool;
  clock_fn : option (throttle_controller_clock_fn W)
}.
Arguments mk_throttle_controller_config {W}.
Arguments normal_group {W}. Arguments throttled_group {W}. Arguments protected_group {W}.
Arguments throttled_cpu_max {W}. Arguments protected_memory_low {W}.
Arguments high_score_threshold {W}. Arguments low_score_threshold {W}.
Arguments min_throttle_duration_ms {W}. Arguments cooldown_duration_ms {W}.
Arguments stale_after_ms {W}. Arguments max_records {W}. Arguments dry_run {W}.
Arguments configure_throttled_cpu_max {W}. Arguments configure_protected_memory_low {W}.
Arguments clock_fn {W}.

Record throttle_record := mk_throttle_record {
  pid : Z;
  state : throttle_state;
  first_seen_ns : Z;
  last_seen_ns : Z;
  state_entered_ns : Z;
  last_action_ns : Z;
  last_activity_score : double;
  last_overlap_score : double;
  last_final_score : double;
  last_common_pages : Z;
  seen_in_last_apply : bool;
  last_should_throttle : bool;
  record_last_error : Z;
  reason : string
}.

#[export] Instance throttle_record_settable : Settable throttle_record :=
  fun r => mk_throttle_record (pid r) (state r) (first_seen_ns r) (last_seen_ns r) (state_entered_ns r)
    (last_action_ns r) (last_activity_score r) (last_overlap_score r) (last_final_score r)
    (last_common_pages r) (seen_in_last_apply r) (last_should_throttle r) (record_last_error r) (reason r).

Record throttle_controller (W : Type) := mk_throttle_controller {
  initialized : bool;
  cfg : throttle_controller_config W;
  records : list throttle_record;
  record_cap : Z
}.
Arguments mk_throttle_controller {W}. Arguments initialized {W}. Arguments cfg {W}.
Arguments records {W}. Arguments record_cap {W}.

Definition record_count {W} (controller : throttle_controller W) : Z := Z.of_nat (List.length (records controller)).

Definition with_records {W} (controller : throttle_controller W) (rs : list throttle_record) : throttle_controller W :=
  mk_throttle_controller (initialized controller) (cfg controller) rs (record_cap controller).

Record throttle_controller_stats := mk_throttle_controller_stats {
  candidate_count : Z;
  records_seen : Z;
  throttle_actions : Z;
  release_actions : Z;
  kept_throttled : Z;
  skipped_low_score : Z;
  skipped_cooldown : Z;
  stale_releases : Z;
  errors : Z;
  stats_last_error : Z;
  last_error_reason : string
}.

#[export] Instance throttle_controller_stats_settable : Settable throttle_controller_stats :=
  fun s => mk_throttle_controller_stats (candidate_count s) (records_seen s) (throttle_actions s)
    (release_actions s) (kept_throttled s) (skipped_low_score s) (skipped_cooldown s)
    (stale_releases s) (errors s) (stats_last_error s) (last_error_reason s).

Abbreviation stats_ptr := (option throttle_controller_stats).

(** ** Helpers *)

Definition valid_control_group (group : proc_group) : bool :=
  match group with
  | GROUP_PROTECTED | GROUP_BACKGROUND | GROUP_THROTTLED => true
  | _ => false
  end.

Fixpoint bounded_strlen_loop (fuel : nat) (s : string) (len : Z) : Z :=
  match fuel with
  | O => len
  | S fuel' => if Ascii.eqb (char_at s (Z.to_nat len)) NUL then len
               else bounded_strlen_loop fuel' s (len + 1)
  end.

Definition bounded_strlen (s : option string) (cap : Z) : Z :=
  match s with
  | None => 0
  | Some s => bounded_strlen_loop (Z.to_nat cap) s 0
  end.

Definition valid_control_value (value : option string) (cap : Z) : bool :=
  match value with
  | None => false
  | Some v =>
      if cap =? 0 then false
      else
        let len := bounded_strlen value cap in
        if (len =? 0) || (cap <=? len) then false
        else forallb (fun i => negb (Ascii.eqb (char_at v i) newline || Ascii.eqb (char_at v i) carriage_return))
               (seq 0 (Z.to_nat len))
  end.

Definition validate_config {W} (cfg : option (throttle_controller_config W)) : Z :=
  match cfg with
  | None => THROTTLE_CONTROLLER_ERR_INVALID_ARG
  | Some cfg =>
      if negb (valid_control_group (normal_group cfg)) || negb (valid_control_group (throttled_group cfg))
         || negb (valid_control_group (protected_group cfg))
      then THROTTLE_CONTROLLER_ERR_INVALID_ARG
      else if bool_decide (normal_group cfg = throttled_group cfg)
         || bool_decide (normal_group cfg = protected_group cfg)
         || bool_decide (throttled_group cfg = protected_group cfg)
      then THROTTLE_CONTROLLER_ERR_INVALID_ARG
      else if negb (isfinite (low_score_threshold cfg)) || negb (isfinite (high_score_threshold cfg))
         || dltb (low_score_threshold cfg) dzero || dgtb (high_score_threshold cfg) done
         || dgtb (low_score_threshold cfg) (high_score_threshold cfg)
      then THROTTLE_CONTROLLER_ERR_INVALID_ARG
      else if max_records cfg =? 0 then THROTTLE_CONTROLLER_ERR_INVALID_ARG
      else if configure_throttled_cpu_max cfg
              && negb (valid_control_value (Some (throttled_cpu_max cfg)) THROTTLE_CONTROLLER_VALUE_MAX)
      then THROTTLE_CONTROLLER_ERR_INVALID_ARG
      else if configure_protected_memory_low cfg
              && negb (valid_control_value (Some (protected_memory_low cfg)) THROTTLE_CONTROLLER_VALUE_MAX)
      then THROTTLE_CONTROLLER_ERR_INVALID_ARG
      else THROTTLE_CONTROLLER_OK
  end.

Definition ms_to_ns (ms : Z) : Z :=
  if UINT64_MAX / NSEC_PER_MSEC <? ms then UINT64_MAX else u64_mul ms NSEC_PER_MSEC.

Definition elapsed_at_least (now_ns start_ns duration_ms : Z) : bool :=
  let duration_ns := ms_to_ns duration_ms in
  if now_ns <? start_ns then false else duration_ns <=? u64_sub now_ns start_ns.

Definition set_reason (dst_size : Z) (text : string) : string := snprintf dst_size text.

Definition throttle_controller_stats_zero : throttle_controller_stats :=
  mk_throttle_controller_stats 0 0 0 0 0 0 0 0 0 THROTTLE_CONTROLLER_OK "".

Definition throttle_controller_stats_reset (stats : stats_ptr) : stats_ptr :=
  match stats with None => None | Some _ => Some throttle_controller_stats_zero end.

Definition set_stats_error (stats : stats_ptr) (rc : Z) (why : string) : stats_ptr :=
  match stats with
  | None => None
  | Some s =>
      Some (s <| errors ::= u64_inc |> <| stats_last_error := rc |>
              <| last_error_reason := set_reason THROTTLE_CONTROLLER_REASON_MAX why |>)
  end.

(** [if (stats != NULL) stats->counter++] *)
Definition bump (f : throttle_controller_stats -> throttle_controller_stats) (stats : stats_ptr) : stats_ptr :=
  option_map f stats.

(** The index [find_record] and [find_record_const] stop at. *)
Fixpoint find_record_index (rs : list throttle_record) (p : Z) : option nat :=
  match rs with
  | [] => None
  | r :: rs' => if pid r =? p then Some O else S <$> find_record_index rs' p
  end.

Definition find_record_const {W} (controller : throttle_controller W) (p : Z) : option throttle_record :=
  i ← find_record_index (records controller) p; records controller !! i.

Definition throttle_record_zero : throttle_record :=
  mk_throttle_record (-1) THROTTLE_STATE_NONE 0 0 0 0 dzero dzero dzero 0 false false THROTTLE_CONTROLLER_OK "".

Definition throttle_controller_record_reset (record : option throttle_record) : option throttle_record :=
  match record with None => None | Some _ => Some throttle_record_zero end.

(** The record [create_record] appends; [None] when the array is full. *)
Definition create_record {W} (controller : throttle_controller W) (p now_ns : Z)
  : option (nat * throttle_controller W) :=
  if record_cap controller <=? record_count controller then None
  else
    let record := throttle_record_zero <| pid := p |> <| state := THROTTLE_STATE_NONE |>
      <| first_seen_ns := now_ns |> <| last_seen_ns := now_ns |> <| state_entered_ns := now_ns |>
      <| reason := set_reason THROTTLE_CONTROLLER_REASON_MAX "new record" |> in
    Some (List.length (records controller), with_records controller (records controller ++ [record])).

Definition candidate_requests_throttle {W} (cfg : throttle_controller_config W) (candidate : interference_candidate) : bool :=
  cand_active candidate && should_throttle candidate
  && dgeb (final_score candidate) (high_score_threshold cfg).

Definition candidate_valid (candidate : interference_candidate) : bool :=
  if cand_pid candidate <=? 0 then false
  else if negb (isfinite (activity_score candidate)) || negb (isfinite (overlap_score candidate))
          || negb (isfinite (final_score candidate)) then false
  else if dltb (activity_score candidate) dzero || dgtb (activity_score candidate) done
          || dltb (overlap_score candidate) dzero || dgtb (overlap_score candidate) done
          || dltb (final_score candidate) dzero || dgtb (final_score candidate) done then false
  else true.

(** The loop over the candidates: [done_cands] are the earlier ones, [new_records]
    the pids not tracked yet. *)
Fixpoint prevalidate_loop {W} (controller : throttle_controller W)
    (done_cands todo : list interference_candidate) (new_records : Z) : Z :=
  match todo with
  | [] =>
      if record_cap controller - record_count controller <? new_records
      then THROTTLE_CONTROLLER_ERR_NO_SPACE else THROTTLE_CONTROLLER_OK
  | c :: todo' =>
      if negb (candidate_valid c) then THROTTLE_CONTROLLER_ERR_INVALID_ARG
      else if existsb (fun c' => cand_pid c =? cand_pid c') done_cands
      then THROTTLE_CONTROLLER_ERR_INVALID_ARG
      else
        let new_records := match find_record_const controller (cand_pid c) with
                           | None => new_records + 1 | Some _ => new_records end in
        prevalidate_loop controller (done_cands ++ [c]) todo' new_records
  end.

(** [candidates]: [None] is NULL, [candidate_count] its claimed length. *)
Definition prevalidate_candidates {W} (controller : throttle_controller W)
    (candidates : option (list interference_candidate)) (candidate_count : Z) : Z :=
  match candidates with
  | None => if 0 <? candidate_count then THROTTLE_CONTROLLER_ERR_INVALID_ARG
            else prevalidate_loop controller [] [] 0
  | Some cs => prevalidate_loop controller [] (take (Z.to_nat candidate_count) cs) 0
  end.

Definition throttle_controller_config_zero {W} : throttle_controller_config W :=
  mk_throttle_controller_config GROUP_PROTECTED GROUP_PROTECTED GROUP_PROTECTED "" "" dzero dzero
    0 0 0 0 false false false None.

Definition throttle_controller_config_default {W} (cfg : option (throttle_controller_config W))
  : option (throttle_controller_config W) :=
  match cfg with
  | None => None
  | Some _ =>
      Some (mk_throttle_controller_config GROUP_BACKGROUND GROUP_THROTTLED GROUP_PROTECTED
        (snprintf THROTTLE_CONTROLLER_VALUE_MAX "20000 100000") (snprintf THROTTLE_CONTROLLER_VALUE_MAX "0")
        (dlit 20 100) (dlit 10 100) 3000 2000 2000 256 false true false None)
  end.

Definition throttle_controller_zero {W} : throttle_controller W :=
  mk_throttle_controller false throttle_controller_config_zero [] 0.

(** ** Operations *)

(** The clock and the allocator of the process. *)
Class ProcessEnv (W : Type) := {
  pe_clock : W -> option (Z * Z) * W;
  pe_calloc : Z -> Z -> W -> bool * W
}.

Section Controller.
Context {W : Type} `{CgroupOps W} `{ProcessEnv W}.

(** The code and the time stored (unspecified, here 0, on failure). *)
Definition monotonic_now_ns (w : W) : Z * Z * W :=
  let '(ts, w) := pe_clock w in
  match ts with
  | None => (THROTTLE_CONTROLLER_ERR_TIME, 0, w)
  | Some (tv_sec, tv_nsec) =>
      (THROTTLE_CONTROLLER_OK, u64_add (u64_mul (u64 tv_sec) 1000000000) (u64 tv_nsec), w)
  end.

Definition controller_now_ns (controller : throttle_controller W) (w : W) : Z * Z * W :=
  match clock_fn (cfg controller) with
  | None => monotonic_now_ns w
  | Some clock =>
      let '(rc, now_ns, w) := clock w in
      if negb (rc =? THROTTLE_CONTROLLER_OK) then (THROTTLE_CONTROLLER_ERR_TIME, now_ns, w)
      else (THROTTLE_CONTROLLER_OK, now_ns, w)
  end.

Definition move_pid (cfg : throttle_controller_config W) (p : Z) (group : proc_group) (w : W) : Z * W :=
  if dry_run cfg then (THROTTLE_CONTROLLER_OK, w)
  else
    let '(rc, w) := cg_move_pid p group w in
    if negb (rc =? 0) then (THROTTLE_CONTROLLER_ERR_CGROUP, w) else (THROTTLE_CONTROLLER_OK, w).

Definition throttle_record_pid (cfg : throttle_controller_config W) (record : throttle_record) (now_ns : Z)
    (stats : stats_ptr) (w : W) : Z * throttle_record * stats_ptr * W :=
  let '(rc, w) := move_pid cfg (pid record) (throttled_group cfg) w in
  if negb (rc =? THROTTLE_CONTROLLER_OK) then
    let record := record <| record_last_error := rc |>
      <| reason := set_reason THROTTLE_CONTROLLER_REASON_MAX "failed to move pid to throttled group" |> in
    (rc, record, set_stats_error stats rc (reason record), w)
  else
    let record := record <| state := THROTTLE_STATE_THROTTLED |> <| state_entered_ns := now_ns |>
      <| last_action_ns := now_ns |> <| record_last_error := THROTTLE_CONTROLLER_OK |> in
    let record := record <| reason := snprintf THROTTLE_CONTROLLER_REASON_MAX
      ("throttled: final=" +:+ fmt_f 4 (last_final_score record) +:+ " activity="
       +:+ fmt_f 4 (last_activity_score record) +:+ " overlap=" +:+ fmt_f 4 (last_overlap_score record)) |> in
    (THROTTLE_CONTROLLER_OK, record, bump (fun s => s <| throttle_actions ::= u64_inc |>) stats, w).

Definition release_record_pid (cfg : throttle_controller_config W) (record : throttle_record) (now_ns : Z)
    (stale : bool) (stats : stats_ptr) (w : W) : Z * throttle_record * stats_ptr * W :=
  let '(rc, w) := move_pid cfg (pid record) (normal_group cfg) w in
  if negb (rc =? THROTTLE_CONTROLLER_OK) then
    let record := record <| record_last_error := rc |>
      <| reason := set_reason THROTTLE_CONTROLLER_REASON_MAX "failed to move pid to normal group" |> in
    (rc, record, set_stats_error stats rc (reason record), w)
  else
    let record := record <| state := THROTTLE_STATE_COOLDOWN |> <| state_entered_ns := now_ns |>
      <| last_action_ns := now_ns |> <| record_last_error := THROTTLE_CONTROLLER_OK |> in
    let record := record <| reason :=
      if stale then set_reason THROTTLE_CONTROLLER_REASON_MAX "released: stale candidate"
      else snprintf THROTTLE_CONTROLLER_REASON_MAX
        ("released: final=" +:+ fmt_f 4 (last_final_score record) +:+ " low="
         +:+ fmt_f 4 (low_score_threshold cfg)) |> in
    let stats := bump (fun s => s <| release_actions ::= u64_inc |>) stats in
    let stats := if stale then bump (fun s => s <| stale_releases ::= u64_inc |>) stats else stats in
    (THROTTLE_CONTROLLER_OK, record, stats, w).

(** [calloc]ed records are beyond [record_count]. *)
Definition throttle_controller_init (controller : option (throttle_controller W))
    (cfg : option (throttle_controller_config W)) (w : W) : Z * option (throttle_controller W) * W :=
  match controller with
  | None => (THROTTLE_CONTROLLER_ERR_INVALID_ARG, None, w)
  | Some _ =>
      let cfg := match cfg with
                 | None => throttle_controller_config_default (Some throttle_controller_config_zero)
                 | Some c => Some c
                 end in
      let rc := validate_config cfg in
      match cfg with
      | None => (rc, Some throttle_controller_zero, w)
      | Some cfg =>
          if negb (rc =? THROTTLE_CONTROLLER_OK) then (rc, Some throttle_controller_zero, w)
          else
            let '(allocated, w) := pe_calloc (max_records cfg) 1 w in
            if negb allocated then (THROTTLE_CONTROLLER_ERR_NO_MEMORY, Some throttle_controller_zero, w)
            else
              let '(rc, w) := if negb (dry_run cfg) && configure_throttled_cpu_max cfg
                              then cg_set_cpu_max (throttled_group cfg) (throttled_cpu_max cfg) w
                              else (0, w) in
              if negb (rc =? 0) then (THROTTLE_CONTROLLER_ERR_CGROUP, Some throttle_controller_zero, w)
              else
                let '(rc, w) := if negb (dry_run cfg) && configure_protected_memory_low cfg
                                then cg_set_memory_low (protected_group cfg) (protected_memory_low cfg) w
                                else (0, w) in
                if negb (rc =? 0) then (THROTTLE_CONTROLLER_ERR_CGROUP, Some throttle_controller_zero, w)
                else (THROTTLE_CONTROLLER_OK,
                      Some (mk_throttle_controller true cfg [] (max_records cfg)), w)
      end
  end.

Definition throttle_controller_destroy (controller : option (throttle_controller W))
  : option (throttle_controller W) :=
  match controller with None => None | Some _ => Some throttle_controller_zero end.

(** What a candidate writes into its record. *)
Definition record_observe (record : throttle_record) (candidate : interference_candidate) (now_ns : Z) : throttle_record :=
  record <| seen_in_last_apply := true |> <| last_seen_ns := now_ns |>
    <| last_activity_score := activity_score candidate |>
    <| last_overlap_score := overlap_score candidate |>
    <| last_final_score := final_score candidate |>
    <| last_common_pages := common_pages candidate |>
    <| last_should_throttle := should_throttle candidate |>
    <| record_last_error := THROTTLE_CONTROLLER_OK |>.

(** [if (rc != THROTTLE_CONTROLLER_OK) overall_rc = rc] *)
Definition accumulate (overall_rc rc : Z) : Z := if negb (rc =? THROTTLE_CONTROLLER_OK) then rc else overall_rc.

(** The [switch] on the record's state for a candidate that was observed. *)
Definition apply_switch (cfg : throttle_controller_config W) (candidate : interference_candidate)
    (record : throttle_record) (now_ns overall_rc : Z) (stats : stats_ptr) (w : W)
  : Z * throttle_record * stats_ptr * W :=
  let request_throttle := candidate_requests_throttle cfg candidate in
  match state record with
  | THROTTLE_STATE_NONE =>
      if request_throttle then
        let '(rc, record, stats, w) := throttle_record_pid cfg record now_ns stats w in
        (accumulate overall_rc rc, record, stats, w)
      else
        (overall_rc,
         record <| reason := snprintf THROTTLE_CONTROLLER_REASON_MAX
           ("not throttled: final=" +:+ fmt_f 4 (last_final_score record) +:+ " high="
            +:+ fmt_f 4 (high_score_threshold cfg) +:+ " active=" +:+ fmt_bool (cand_active candidate)
            +:+ " detector=" +:+ fmt_bool (should_throttle candidate)) |>,
         bump (fun s => s <| skipped_low_score ::= u64_inc |>) stats, w)
  | THROTTLE_STATE_THROTTLED =>
      if dleb (last_final_score record) (low_score_threshold cfg)
         && elapsed_at_least now_ns (state_entered_ns record) (min_throttle_duration_ms cfg) then
        let '(rc, record, stats, w) := release_record_pid cfg record now_ns false stats w in
        (accumulate overall_rc rc, record, stats, w)
      else
        (overall_rc,
         record <| reason := snprintf THROTTLE_CONTROLLER_REASON_MAX
           ("kept throttled: final=" +:+ fmt_f 4 (last_final_score record) +:+ " low="
            +:+ fmt_f 4 (low_score_threshold cfg) +:+ " min_done="
            +:+ fmt_bool (elapsed_at_least now_ns (state_entered_ns record) (min_throttle_duration_ms cfg))) |>,
         bump (fun s => s <| kept_throttled ::= u64_inc |>) stats, w)
  | THROTTLE_STATE_COOLDOWN =>
      if negb (elapsed_at_least now_ns (state_entered_ns record) (cooldown_duration_ms cfg)) then
        (overall_rc,
         record <| reason := set_reason THROTTLE_CONTROLLER_REASON_MAX "cooldown active" |>,
         bump (fun s => s <| skipped_cooldown ::= u64_inc |>) stats, w)
      else
        let record := record <| state := THROTTLE_STATE_NONE |> <| state_entered_ns := now_ns |> in
        if request_throttle then
          let '(rc, record, stats, w) := throttle_record_pid cfg record now_ns stats w in
          (accumulate overall_rc rc, record, stats, w)
        else
          (overall_rc,
           record <| reason := set_reason THROTTLE_CONTROLLER_REASON_MAX "cooldown complete: remains normal" |>,
           bump (fun s => s <| skipped_low_score ::= u64_inc |>) stats, w)
  | THROTTLE_STATE_OTHER _ =>
      let record := record <| record_last_error := THROTTLE_CONTROLLER_ERR_INVALID_ARG |>
        <| reason := set_reason THROTTLE_CONTROLLER_REASON_MAX "invalid internal throttle state" |> in
      (THROTTLE_CONTROLLER_ERR_INVALID_ARG, record,
       set_stats_error stats THROTTLE_CONTROLLER_ERR_INVALID_ARG (reason record), w)
  end.

(** One iteration of the candidate loop: [None] when the capacity is exhausted. *)
Definition apply_candidate (controller : throttle_controller W) (candidate : interference_candidate)
    (now_ns overall_rc : Z) (stats : stats_ptr) (w : W)
  : option (Z * throttle_controller W * stats_ptr * W) :=
  let slot := match find_record_index (records controller) (cand_pid candidate) with
              | Some i => Some (i, controller)
              | None => create_record controller (cand_pid candidate) now_ns
              end in
  match slot with
  | None => None
  | Some (i, controller) =>
      match records controller !! i with
      | None => None
      | Some record =>
          let record := record_observe record candidate now_ns in
          let stats := bump (fun s => s <| records_seen ::= u64_inc |>) stats in
          let '(overall_rc, record, stats, w) :=
            apply_switch (cfg controller) candidate record now_ns overall_rc stats w in
          Some (overall_rc, with_records controller (<[i := record]> (records controller)), stats, w)
      end
  end.

(** The candidate loop; the boolean tells that it returned early with NO_SPACE. *)
Fixpoint apply_loop (controller : throttle_controller W) (candidates : list interference_candidate)
    (now_ns overall_rc : Z) (stats : stats_ptr) (w : W)
  : bool * Z * throttle_controller W * stats_ptr * W :=
  match candidates with
  | [] => (false, overall_rc, controller, stats, w)
  | c :: cs =>
      match apply_candidate controller c now_ns overall_rc stats w with
      | None =>
          (true, THROTTLE_CONTROLLER_ERR_NO_SPACE, controller,
           set_stats_error stats THROTTLE_CONTROLLER_ERR_NO_SPACE "record capacity exhausted", w)
      | Some (overall_rc, controller, stats, w) => apply_loop controller cs now_ns overall_rc stats w
      end
  end.

(** The body of the loop over the records no candidate mentioned. *)
Definition sweep_record (cfg : throttle_controller_config W) (record : throttle_record)
    (now_ns overall_rc : Z) (stats : stats_ptr) (w : W) : Z * throttle_record * stats_ptr * W :=
  if seen_in_last_apply record then (overall_rc, record, stats, w)
  else match state record with
  | THROTTLE_STATE_THROTTLED =>
      let stale_done := elapsed_at_least now_ns (last_seen_ns record) (stale_after_ms cfg) in
      let min_done := elapsed_at_least now_ns (state_entered_ns record) (min_throttle_duration_ms cfg) in
      if stale_done && min_done then
        let '(rc, record, stats, w) := release_record_pid cfg record now_ns true stats w in
        (accumulate overall_rc rc, record, stats, w)
      else
        (overall_rc,
         record <| reason := snprintf THROTTLE_CONTROLLER_REASON_MAX
           ("unseen but kept: stale_done=" +:+ fmt_bool stale_done +:+ " min_done=" +:+ fmt_bool min_done) |>,
         bump (fun s => s <| kept_throttled ::= u64_inc |>) stats, w)
  | THROTTLE_STATE_COOLDOWN =>
      if elapsed_at_least now_ns (state_entered_ns record) (cooldown_duration_ms cfg) then
        (overall_rc,
         record <| state := THROTTLE_STATE_NONE |> <| state_entered_ns := now_ns |>
           <| reason := set_reason THROTTLE_CONTROLLER_REASON_MAX "cooldown complete: normal" |>,
         stats, w)
      else (overall_rc, record, stats, w)
  | _ => (overall_rc, record, stats, w)
  end.

(** A loop over the records in array order. *)
Fixpoint for_records (body : throttle_record -> Z -> stats_ptr -> W -> Z * throttle_record * stats_ptr * W)
    (rs : list throttle_record) (overall_rc : Z) (stats : stats_ptr) (w : W)
  : Z * list throttle_record * stats_ptr * W :=
  match rs with
  | [] => (overall_rc, [], stats, w)
  | r :: rs =>
      let '(overall_rc, r, stats, w) := body r overall_rc stats w in
      let '(overall_rc, rs, stats, w) := for_records body rs overall_rc stats w in
      (overall_rc, r :: rs, stats, w)
  end.

Definition throttle_controller_apply_candidates (controller : option (throttle_controller W))
    (candidates : option (list interference_candidate)) (count : Z) (stats : stats_ptr) (w : W)
  : Z * option (throttle_controller W) * stats_ptr * W :=
  let stats := throttle_controller_stats_reset stats in
  match controller with
  | None => (THROTTLE_CONTROLLER_ERR_NOT_INITIALIZED, None, stats, w)
  | Some ctl =>
      if negb (initialized ctl) then (THROTTLE_CONTROLLER_ERR_NOT_INITIALIZED, controller, stats, w)
      else
        let rc := prevalidate_candidates ctl candidates count in
        if negb (rc =? THROTTLE_CONTROLLER_OK)
        then (rc, controller, set_stats_error stats rc "candidate validation failed", w)
        else
          let '(rc, now_ns, w) := controller_now_ns ctl w in
          if negb (rc =? THROTTLE_CONTROLLER_OK)
          then (rc, controller, set_stats_error stats rc "failed to read monotonic time", w)
          else
            let stats := bump (fun s => s <| candidate_count := count |>) stats in
            let ctl := with_records ctl (map (fun r => r <| seen_in_last_apply := false |>) (records ctl)) in
            let cs := match candidates with Some cs => take (Z.to_nat count) cs | None => [] end in
            let '(full, overall_rc, ctl, stats, w) :=
              apply_loop ctl cs now_ns THROTTLE_CONTROLLER_OK stats w in
            if full : bool then (overall_rc, Some ctl, stats, w)
            else
              let '(overall_rc, rs, stats, w) :=
                for_records (fun r o s w => sweep_record (cfg ctl) r now_ns o s w) (records ctl) overall_rc stats w in
              (overall_rc, Some (with_records ctl rs), stats, w)
  end.

Definition release_all_body (cfg : throttle_controller_config W) (now_ns : Z) (record : throttle_record)
    (overall_rc : Z) (stats : stats_ptr) (w : W) : Z * throttle_record * stats_ptr * W :=
  match state record with
  | THROTTLE_STATE_THROTTLED =>
      let '(rc, record, stats, w) := release_record_pid cfg record now_ns false stats w in
      (accumulate overall_rc rc, record, stats, w)
  | _ => (overall_rc, record, stats, w)
  end.

Definition throttle_controller_release_all (controller : option (throttle_controller W))
    (stats : stats_ptr) (w : W) : Z * option (throttle_controller W) * stats_ptr * W :=
  let stats := throttle_controller_stats_reset stats in
  match controller with
  | None => (THROTTLE_CONTROLLER_ERR_NOT_INITIALIZED, None, stats, w)
  | Some ctl =>
      if negb (initialized ctl) then (THROTTLE_CONTROLLER_ERR_NOT_INITIALIZED, controller, stats, w)
      else
        let '(rc, now_ns, w) := controller_now_ns ctl w in
        if negb (rc =? THROTTLE_CONTROLLER_OK)
        then (rc, controller, set_stats_error stats rc "failed to read monotonic time", w)
        else
          let '(overall_rc, rs, stats, w) :=
            for_records (release_all_body (cfg ctl) now_ns) (records ctl) THROTTLE_CONTROLLER_OK stats w in
          (overall_rc, Some (with_records ctl rs), stats, w)
  end.

(** The copy stored in [out]; [None] when the function returns false. *)
Definition throttle_controller_get_record (controller : option (throttle_controller W)) (p : Z)
    (out : option throttle_record) : bool * option throttle_record :=
  match controller, out with
  | Some ctl, Some _ =>
      if negb (initialized ctl) || (p <=? 0) then (false, out)
      else match find_record_const ctl p with
           | None => (false, out)
           | Some record => (true, Some record)
           end
  | _, _ => (false, out)
  end.
End Controller.

Definition throttle_state_str (s : throttle_state) : string :=
  match s with
  | THROTTLE_STATE_NONE => "none"
  | THROTTLE_STATE_THROTTLED => "throttled"
  | THROTTLE_STATE_COOLDOWN => "cooldown"
  | THROTTLE_STATE_OTHER _ => "invalid"
  end%string.

Definition throttle_controller_strerror (rc : Z) : string :=
  switch rc [
    (THROTTLE_CONTROLLER_OK, "success");
    (THROTTLE_CONTROLLER_ERR_INVALID_ARG, "invalid argument");
    (THROTTLE_CONTROLLER_ERR_NO_MEMORY, "out of memory");
    (THROTTLE_CONTROLLER_ERR_NO_SPACE, "record capacity exhausted");
    (THROTTLE_CONTROLLER_ERR_TIME, "failed to read monotonic time");
    (THROTTLE_CONTROLLER_ERR_CGROUP, "cgroup operation failed");
    (THROTTLE_CONTROLLER_ERR_NOT_INITIALIZED, "controller is not initialized")
  ]%string "unknown throttle-controller error"%string.
