(* ===== verification/DetectorProps.v ===== *)
(** * Correctness of the interference detector

    Whatever the kernel reports, the candidates of an interval are acceptable to
    the throttle controller, ranked by activity, and drawn from the live normal
    processes that have been sampled before. *)
From S2P Require Import Prelude Float64 CString Scan Os Calibration DramMapping Cgroup SimOs AddrTranslate ProcActivity ProcActivityProps BankProfile BankProfileSpec BankProfileProps BankSampling BankMaps.
From S2P Require Import Candidate Ranking InterferenceDetector ThrottleController.
From Stdlib Require Import Ascii String Sorted.
Local Open Scope Z_scope.

(** ** Ranking *)

(** The scores the comparison is used on. *)
Definition scored (a : active_candidate_internal) : Prop := unit_interval (total_score (act_delta a)).

(** The comparison is the one of [Ranking]. *)
Lemma compare_active_ranking : compare_active_candidate_desc = compare_by (fun a => total_score (act_delta a)) act_pid.
Proof. reflexivity. Qed.

(** ** Hypotheses on the kernel and the configuration *)

(** A state that holds a sample holds a well-formed one. *)
Definition state_ok (p : interference_process_state) : Prop := has_activity_sample p = true -> sample_ok (activity_sample p).

Record detector_ok (c : interference_detector_config) (processes : nat) : Prop := {
  dt_activity : config_ok (activity_config c);
  dt_pages : 0 < max_pages_to_sample (effective_config (Some (profile_config c)));
  dt_total : (Z.of_nat processes + 1) * max_pages_to_sample (effective_config (Some (profile_config c))) <= UINT64_MAX
}.

(** [sysconf] returns a [long]. *)
Class Longs (W : Type) `{OS W} := {
  long_pagesize w : (os_pagesize w).1 <= LLONG_MAX;
  long_clk_tck w : (os_clk_tck w).1 <= LLONG_MAX
}.

Section Contract.
Context {W : Type} `{Longs W}.

(** ** Samples *)

Lemma parse_values_range fuel q vals cap : Forall long_long vals -> Forall long_long (parse_values_loop fuel q vals cap).2.
Proof.
  revert q vals. induction fuel as [|fuel IH]; intros q vals Hv; [done|]. cbn [parse_values_loop]. destruct q as [|c q]; [done|].
  destruct (Ascii.eqb c newline); [done|]. destruct (_ <=? _); [done|]. destruct (strtoll _) as [[[v er] r]|] eqn:E; [|done].
  destruct er; [done|]. apply IH, Forall_app. split; [done|]. constructor; [|done]. unfold strtoll in E. destruct (scan_int 10 _) as [[[neg n] r']|]; [|done].
  unfold long_long. set (x := if neg then - n else n) in E. clearbody x. destruct (Z.ltb_spec x LLONG_MIN); [done|].
  destruct (Z.ltb_spec LLONG_MAX x); [done|]. injection E as -> _. lia.
Qed.

Lemma nth_long vals i : Forall long_long vals -> long_long (nth i vals 0).
Proof. intros Hv. revert i. induction Hv as [|v vals Hv _ IH]; intros [|i]; cbn; try done; unfold long_long, LLONG_MIN, LLONG_MAX; lia. Qed.

Lemma store_values_inv vals out q : store_values vals out = inr q ->
  0 <= nth 6 vals 0 /\ 0 <= nth 8 vals 0 /\ minflt q = nth 6 vals 0 /\ majflt q = nth 8 vals 0 /\ rss_pages q = nth 20 vals 0 /\
  timestamp_ns q = timestamp_ns out /\ clock_ticks_per_sec q = clock_ticks_per_sec out /\ s_page_size q = s_page_size out.
Proof.
  unfold store_values, checked_u64. destruct (Z.ltb_spec (nth 6 vals 0) 0); [done|]. destruct (Z.ltb_spec (nth 8 vals 0) 0); [done|].
  destruct (nth 10 vals 0 <? 0); [done|]. destruct (nth 11 vals 0 <? 0); [done|]. destruct (nth 18 vals 0 <? 0); [done|].
  destruct (nth 19 vals 0 <? 0); [done|]. intros [= <-]. done.
Qed.

(** A successful parse yields a well-formed sample. *)
Lemma parse_stat_line_sample line p ps ticks o q : ticks <= LLONG_MAX -> in_u64 (timestamp_ns o) ->
  parse_stat_line line p ps ticks o = (PROC_ACTIVITY_OK, q) -> sample_ok q.
Proof.
  intros Ht Hts E. unfold parse_stat_line in E. destruct (str_index (c_str line) "("), (str_rindex (c_str line) ")"); try done.
  destruct (_ <=? _)%nat; [done|]. destruct (skip_spaces _) as [|c r]; [done|]. destruct (Ascii.eqb c newline); [done|].
  unfold parse_stat_values in E. pose proof (parse_values_range (S (String.length (skip_spaces r))) (skip_spaces r) [] 21 (Forall_nil_2 _)) as Hv.
  destruct (parse_values_loop _ _ _ _) as [rc vals]. cbn [snd] in Hv. destruct (Z.eqb_spec rc PROC_ACTIVITY_OK) as [->|Hrc]; cbn [negb] in E; [|congruence].
  destruct (_ <? 21); [done|]. match type of E with context [store_values vals ?x] => set (o' := x) in E end.
  destruct (store_values vals o') as [q'|q'] eqn:Es; [done|]. injection E as <-.
  destruct (store_values_inv _ _ _ Es) as (H6 & H8 & E1 & E2 & E3 & E4 & E5 & E6).
  pose proof (nth_long vals 6 Hv) as N6. pose proof (nth_long vals 8 Hv) as N8. pose proof (nth_long vals 20 Hv) as N20.
  unfold long_long, LLONG_MIN, LLONG_MAX, in_u64 in *.
  split; rewrite ?E1, ?E2, ?E3, ?E4, ?E5, ?E6; cbn; unfold in_u64, LLONG_MAX; try lia; apply u64_range.
Qed.

Lemma sample_now_ok p o (w : W) q w' : proc_activity_sample_now p (Some o) w = (PROC_ACTIVITY_OK, Some q, w') -> 0 < p /\ sample_ok q.
Proof.
  intros E. unfold proc_activity_sample_now in E. destruct (Z.leb_spec p 0); [done|]. split; [lia|].
  destruct (os_pagesize w) as [ps w1]. pose proof (long_clk_tck w1) as Ht. destruct (os_clk_tck w1) as [ticks w2]. cbn [fst] in Ht.
  destruct (_ || _); [done|]. unfold get_time_ns in E. destruct (os_clock w2) as [[[sec nsec]|] w3]; [|done].
  cbn [negb Z.eqb PROC_ACTIVITY_OK] in E. destruct (256 <=? _); [done|]. destruct (os_fopen _ w3) as [[f|] w4]; [|done].
  destruct (fgets _ f) as [[line|] f']; [|destruct (os_fclose w4); done].
  match type of E with context [parse_stat_line line p ps ticks ?x] => destruct (parse_stat_line line p ps ticks x) as [rc q'] eqn:Ep end.
  injection E as -> -> _. apply (parse_stat_line_sample _ _ _ _ _ _ Ht) in Ep; [done|]. cbn. apply u64_add_range.
Qed.

Lemma sample_now_some p o (w : W) : exists rc q w', proc_activity_sample_now p (Some o) w = (rc, Some q, w').
Proof.
  unfold proc_activity_sample_now. destruct (p <=? 0); [eauto|]. destruct (os_pagesize w) as [ps w1]. destruct (os_clk_tck w1) as [ticks w2].
  destruct (_ || _); [eauto|]. destruct (get_time_ns w2) as [[rc ns] w3]. destruct (negb _); [eauto|]. destruct (256 <=? _); [eauto|].
  destruct (os_fopen _ w3) as [[f|] w4]; [|eauto]. destruct (fgets _ f) as [[line|] f']; [|destruct (os_fclose w4); eauto].
  destruct (parse_stat_line _ _ _ _ _). eauto.
Qed.

Lemma compute_delta_some old new cfg out : exists rc d, proc_activity_compute_delta (Some old) (Some new) (Some cfg) (Some out) = (rc, Some d).
Proof.
  unfold proc_activity_compute_delta. destruct (_ || _); [eauto|]. destruct (negb _); [eauto|]. destruct (negb _); [eauto|].
  destruct (_ <=? _); [eauto|]. destruct (delta_check _ _ _); eauto.
Qed.

(** ** The active processes *)

Variable cfg : interference_detector_config.
Hypothesis Hactivity : config_ok (activity_config cfg).

(** An active process comes from a live normal one that had been sampled. *)
Definition drawn_from (p : interference_process_state) (a : active_candidate_internal) : Prop :=
  alive p = true /\ ps_role p = INTERFERENCE_PROCESS_NORMAL /\ has_activity_sample p = true /\ act_pid a = ps_pid p /\ 0 < ps_pid p /\
  scored a /\ d_active (act_delta a) = true /\ dltb (total_score (act_delta a)) (activity_score_threshold cfg) = false.

Lemma collect_process_ok p stats (w : W) p' found stats' w' : state_ok p -> collect_process cfg p stats w = (p', found, stats', w') ->
  state_ok p' /\ ps_pid p' = ps_pid p /\ ps_role p' = ps_role p /\ match found with Some a => drawn_from p a | None => True end.
Proof.
  unfold state_ok, drawn_from. intros Hok E. unfold collect_process in E. destruct (alive p) eqn:Ha; cbn [negb] in E; [|injection E as <- <- <- <-; done].
  case_bool_decide as Hrole; cbn [negb] in E; [|injection E as <- <- <- <-; done].
  destruct (sample_now_some (ps_pid p) proc_activity_sample_zero w) as (rc & now & w1 & Es). rewrite Es in E. cbn [from_option id] in E.
  destruct (Z.eqb_spec rc PROC_ACTIVITY_OK) as [->|]; cbn [negb] in E; [|injection E as <- <- <- <-; done].
  destruct (sample_now_ok _ _ _ _ _ Es) as [Hpos Hnow]. destruct (has_activity_sample p) eqn:Hs; cbn [negb] in E; [|injection E as <- <- <- <-; by conjs].
  destruct (compute_delta_some (activity_sample p) now (activity_config cfg) proc_activity_delta_zero) as (rc' & d & Ed). rewrite Ed in E. cbn [from_option id] in E.
  destruct (compute_delta_spec _ _ _ _ _ _ (Hok eq_refl) Hnow Hactivity Ed) as (_ & _ & _ & Hscore & _).
  destruct (Z.eqb_spec rc' PROC_ACTIVITY_OK) as [->|]; cbn [negb] in E.
  2:{ injection E as <- <- <- <-. destruct (rc' =? PROC_ACTIVITY_ERR_PID_REUSED); by conjs. }
  destruct (d_active d) eqn:Hd; cbn [negb] in E; [|injection E as <- <- <- <-; by conjs].
  destruct (dltb (total_score d) (activity_score_threshold cfg)) eqn:Hth; injection E as <- <- <- <-; [by conjs|].
  destruct (Hscore eq_refl) as ((_ & _ & _ & Hu) & _). unfold drawn_from. conjs; done.
Qed.

Lemma collect_loop_ok ps stats (w : W) ps' active stats' w' : Forall state_ok ps -> collect_loop cfg ps stats w = (ps', active, stats', w') ->
  Forall state_ok ps' /\ map ps_pid ps' = map ps_pid ps /\ map ps_role ps' = map ps_role ps /\
  exists from, from `sublist_of` ps /\ Forall2 drawn_from from active.
Proof.
  intros Hok. revert stats w ps' active stats' w'. induction Hok as [|p ps Hp Hps IH]; intros stats w ps' active stats' w' E; cbn [collect_loop] in E.
  { injection E as <- <- <- <-. split; [done|]. split; [done|]. split; [done|]. exists []. by repeat constructor. }
  destruct (collect_process cfg p stats w) as [[[p1 found] st1] w1] eqn:Ep. destruct (collect_loop cfg ps st1 w1) as [[[ps1 act1] st2] w2] eqn:El.
  injection E as <- <- <- <-. destruct (collect_process_ok _ _ _ _ _ _ _ Hp Ep) as (K1 & K2 & K3 & K4).
  destruct (IH _ _ _ _ _ _ El) as (L1 & L2 & L3 & from & L4 & L5). split; [by constructor|]. cbn [map]. rewrite K2, K3, L2, L3.
  split; [done|]. split; [done|]. destruct found as [a|]; [exists (p :: from)|exists from]; (split; [by constructor|]); cbn [app]; [by constructor|done].
Qed.

(** ** The profiles *)

Variable mapping : dram_mapping.
Hypothesis Hready : dram_mapping_is_ready (Some mapping) = true.

Definition page_limit : Z := max_pages_to_sample (effective_config (Some (profile_config cfg))).
Hypothesis Hlimit : 0 < page_limit <= UINT64_MAX.

(** A profile that was built: a histogram of at most the limit's pages. *)
Definition built (q : bank_profile) : Prop := entries_ok (entries q) /\ entries q <> [] /\ total_pages (entries q) <= page_limit.

Lemma build_some p (w : W) : exists rc q w', bank_profile_build p (Some mapping) (Some (profile_config cfg)) (Some bank_profile_zero) w = (rc, Some q, w').
Proof.
  unfold bank_profile_build. destruct (p <=? 0); [eauto|]. destruct (negb _); [eauto|]. destruct (os_pagesize w) as [ps w1].
  destruct (ps <=? 0); [eauto|]. destruct (64 <=? _); [eauto|]. destruct (os_fopen _ w1) as [[maps|] w2]; [|eauto].
  destruct (addr_translate_open _ p w2) as [[arc c] w3]. destruct (negb _); [destruct (os_fclose w3); eauto|].
  destruct (maps_loop _ _ _ _ _ _ _) as [[[failed q]|[rc q]] w4]; [|eauto]. destruct (build_finish _ _ _ _) as [[rc q'] w5]. eauto.
Qed.

Lemma build_ok p (w : W) q w' : p < 2 ^ 31 ->
  bank_profile_build p (Some mapping) (Some (profile_config cfg)) (Some bank_profile_zero) w = (BANK_PROFILE_OK, Some q, w') -> built q.
Proof.
  intros Hp E. assert (Hpos : 0 < p) by (unfold bank_profile_build in E; destruct (Z.leb_spec p 0); [done|lia]).
  destruct (build_spec p mapping (Some (profile_config cfg)) bank_profile_zero w _ _ _ ltac:(unfold proper_pid; lia) Hready Hlimit (long_pagesize w) E) as (Hok & _).
  destruct (Hok eq_refl) as (Ha & _ & _ & _ & Hne). split; [apply Ha|]. split; [done|].
  pose proof (sampled_nonneg _ mapping _ Ha). unfold page_limit. lia.
Qed.

Definition aggregated (n : Z) (q : bank_profile) : Prop :=
  entries_ok (entries q) /\ entry_count q <= BANK_PROFILE_MAX_ENTRIES /\ total_pages (entries q) <= n * page_limit.

Lemma aggregate_loop_ok ps : forall n q stats (w : W) q' stats' w', Forall (fun p => ps_pid p < 2 ^ 31) ps -> 0 <= n ->
  aggregated n q -> (n + Z.of_nat (List.length ps) + 1) * page_limit <= UINT64_MAX ->
  aggregate_loop mapping cfg ps q stats w = (INTERFERENCE_DETECTOR_OK, q', stats', w') -> aggregated (n + Z.of_nat (List.length ps)) q'.
Proof.
  induction ps as [|p ps IH]; intros n q stats w q' stats' w' Hpids Hn Hq Hmax E.
  { injection E as <- <- <-. cbn [List.length]. by rewrite Z.add_0_r. }
  apply Forall_cons in Hpids as [Hpid Hpids]. cbn [aggregate_loop] in E. cbn [List.length] in *.
  replace (n + Z.of_nat (S (List.length ps))) with ((n + 1) + Z.of_nat (List.length ps)) in * by lia.
  assert (Hskip : aggregated (n + 1) q) by (destruct Hq as (? & ? & ?); unfold aggregated; conjs; [done|done|lia]).
  destruct (negb (alive p)); [exact (IH (n + 1) _ _ _ _ _ _ Hpids ltac:(lia) Hskip Hmax E)|].
  destruct (negb (bool_decide _)); [exact (IH (n + 1) _ _ _ _ _ _ Hpids ltac:(lia) Hskip Hmax E)|].
  destruct (build_some (ps_pid p) w) as (rc & prof & w1 & Eb). rewrite Eb in E.
  destruct (Z.eqb_spec rc BANK_PROFILE_OK) as [->|]; cbn [negb] in E; [|exact (IH (n + 1) _ _ _ _ _ _ Hpids ltac:(lia) Hskip Hmax E)].
  destruct (build_ok _ _ _ _ Hpid Eb) as (Hb1 & Hb2 & Hb3). destruct Hq as (Q1 & Q2 & Q3).
  destruct (merge_spec q prof Q1 Q2 Hb1 ltac:(nia)) as (q1 & Em & M1 & M2 & _ & M3 & _). rewrite Em in E. cbn [from_option id] in E.
  destruct (Z.eqb_spec (merge_code q prof) BANK_PROFILE_OK) as [Hc|]; cbn [negb] in E; [|done].
  destruct (M3 Hc Hb2) as (_ & Ht & _). refine (IH (n + 1) _ _ _ _ _ _ Hpids ltac:(lia) _ Hmax E). unfold aggregated. conjs; [done|done|lia].
Qed.

(** ** The candidates *)

(** A candidate made of an active process. *)
Definition made_from (a : active_candidate_internal) (c : interference_candidate) : Prop :=
  exists overlap common, unit_interval overlap /\ c = fill_candidate cfg a overlap common.

Lemma produce_loop_ok aggregate n active : aggregated n aggregate -> entries aggregate <> [] -> (n + 1) * page_limit <= UINT64_MAX ->
  Forall (fun a => act_pid a < 2 ^ 31) active -> forall stats (w : W) cands stats' w',
  produce_loop mapping cfg active aggregate stats w = (cands, stats', w') ->
  exists from, from `sublist_of` active /\ Forall2 made_from from cands.
Proof.
  intros (A1 & A2 & A3) Hne Hmax Hpids. induction Hpids as [|a active Hpid _ IH]; intros stats w cands stats' w' E; cbn [produce_loop] in E.
  { injection E as <- <- <-. exists []. by repeat constructor. }
  assert (Hskip : forall st w1, produce_loop mapping cfg active aggregate st w1 = (cands, stats', w') ->
    exists from, from `sublist_of` (a :: active) /\ Forall2 made_from from cands).
  { intros st w1 E1. destruct (IH _ _ _ _ _ E1) as (from & H1 & H2). exists from. split; [by constructor|done]. }
  destruct (build_some (act_pid a) w) as (rc & prof & w1 & Eb). rewrite Eb in E.
  destruct (Z.eqb_spec rc BANK_PROFILE_OK) as [->|]; cbn [negb] in E; [|by apply Hskip in E].
  destruct (build_ok _ _ _ _ Hpid Eb) as (B1 & B2 & B3).
  destruct (overlap_score_spec aggregate prof dzero 0 A1 B1 Hne B2 ltac:(nia)) as (Eo & Hu & _). rewrite Eo in E. cbn [negb Z.eqb BANK_PROFILE_OK from_option id] in E.
  destruct (produce_loop mapping cfg active aggregate _ w1) as [[cs st] w2] eqn:El. injection E as <- <- <-.
  destruct (IH _ _ _ _ _ El) as (from & H1 & H2). exists (a :: from). split; [by constructor|]. constructor; [|done]. by eexists _, _.
Qed.
End Contract.

(** ** One interval *)

Lemma clamp_unit_id x : unit_interval x -> InterferenceDetector.clamp01 x = x.
Proof.
  intros [Hx Hle]. unfold InterferenceDetector.clamp01, dgtb. rewrite nnv_not_neg by done.
  rewrite dltb_dleb by (apply nnv_done || done). by rewrite Hle.
Qed.

Lemma unit_checks x : unit_interval x -> isfinite x = true /\ dltb x dzero = false /\ dgtb x done = false.
Proof.
  intros Hu. destruct (unit_dfin x Hu) as [_ Hf]. destruct Hu as [Hx Hle]. split; [done|]. split; [by apply nnv_not_neg|].
  unfold dgtb. rewrite dltb_dleb by (apply nnv_done || done). by rewrite Hle.
Qed.

(** What a candidate promises to the controller. *)
Definition promised (cfg : interference_detector_config) (ps : list interference_process_state) (c : interference_candidate) : Prop :=
  candidate_valid c = true /\ final_score c = dmul (activity_score c) (overlap_score c) /\
  should_throttle c = dgeb (overlap_score c) (overlap_score_threshold cfg) && dgeb (final_score c) (throttle_score_threshold cfg) /\
  exists p, p ∈ ps /\ alive p = true /\ ps_role p = INTERFERENCE_PROCESS_NORMAL /\ has_activity_sample p = true /\ ps_pid p = cand_pid c.

Lemma made_promised cfg ps p a c : drawn_from cfg p a -> p ∈ ps -> made_from cfg a c -> promised cfg ps c /\ cand_pid c = ps_pid p.
Proof.
  intros (D1 & D2 & D3 & D4 & D5 & D6 & D7 & D8) Hp (overlap & common & Hu & ->). split; [|by rewrite <- D4].
  assert (Hf : compute_final_score (total_score (act_delta a)) overlap = dmul (total_score (act_delta a)) overlap)
    by (unfold compute_final_score; by rewrite !clamp_unit_id).
  destruct (unit_checks _ D6) as (A1 & A2 & A3), (unit_checks _ Hu) as (B1 & B2 & B3), (unit_checks _ (dmul_unit _ _ D6 Hu)) as (C1 & C2 & C3).
  unfold promised. conjs.
  - unfold candidate_valid, fill_candidate. cbv zeta.
    cbn [set_field cand_pid activity_score overlap_score final_score]. rewrite Hf, A1, A2, A3, B1, B2, B3, C1, C2, C3.
    destruct (Z.leb_spec (act_pid a) 0); [lia|done].
  - unfold fill_candidate. cbv zeta. cbn [set_field activity_score overlap_score final_score]. exact Hf.
  - done.
  - exists p. conjs; done.
Qed.

(** The two relations composed. *)
Definition candidate_of (cfg : interference_detector_config) (p : interference_process_state) (c : interference_candidate) : Prop :=
  exists a, drawn_from cfg p a /\ made_from cfg a c.

Lemma aggregated_zero cfg : aggregated cfg 0 bank_profile_zero.
Proof. unfold aggregated. conjs; [split; [constructor|constructor|done]|done|cbn; lia]. Qed.

Section Interval.
Context {W : Type} `{Longs W}.

(** What the run did: the active processes it drew, sorted, and the candidates
    made of the best of them. *)
Lemma run_once_steps ps m c cap stats (w : W) rc ps' cands stats' w' :
  detector_ok c (List.length ps) -> Forall state_ok ps -> Forall (fun p => ps_pid p < 2 ^ 31) ps ->
  interference_detector_run_once (Some ps) (Some m) (Some c) true cap true stats w = (rc, Some ps', cands, stats', w') ->
  Forall state_ok ps' /\ map ps_pid ps' = map ps_pid ps /\ map ps_role ps' = map ps_role ps /\
  ((rc <> INTERFERENCE_DETECTOR_OK /\ cands = []) \/
   (rc = INTERFERENCE_DETECTOR_OK /\ exists from active best,
     from `sublist_of` ps /\ Forall2 (drawn_from c) from active /\
     best `sublist_of` take (Z.to_nat (candidate_limit c (Z.of_nat (List.length active)) cap)) (qsort compare_active_candidate_desc active) /\
     Forall2 (made_from c) best cands)).
Proof.
  intros [D1 D2 D3] Hok Hpids E. unfold interference_detector_run_once in E. cbn [negb orb] in E.
  destruct (_ && _) in E; [injection E as <- <- <- <- <-; by conjs; [..|left]|].
  destruct (dram_mapping_is_ready (Some m)) eqn:Hm; cbn [negb] in E; [|injection E as <- <- <- <- <-; by conjs; [..|left]].
  destruct (build_protected_aggregate_profile m c ps _ w) as [[[rc1 agg] st1] w1] eqn:Ea.
  destruct (Z.eqb_spec rc1 INTERFERENCE_DETECTOR_OK) as [->|]; cbn [negb] in E; [|injection E as <- <- <- <- <-; by conjs; [..|left]].
  destruct (collect_active_normal_candidates c ps st1 w1) as [[[[rc2 ps2] act] st2] w2] eqn:Ec.
  unfold collect_active_normal_candidates in Ec. destruct (os_calloc _ _ w1) as [al w3]. destruct al; cbn [negb] in Ec.
  2:{ injection Ec as <- <- <- <- <-. cbn [negb Z.eqb INTERFERENCE_DETECTOR_OK INTERFERENCE_DETECTOR_ERR_NO_MEMORY] in E. injection E as <- <- <- <- <-. by conjs; [..|left]. }
  destruct (collect_loop c ps st1 w3) as [[[ps3 act3] st3] w4] eqn:El. injection Ec as <- <- <- <- <-.
  cbn [negb Z.eqb INTERFERENCE_DETECTOR_OK] in E.
  destruct (collect_loop_ok c D1 _ _ _ _ _ _ _ Hok El) as (K1 & K2 & K3 & from & K4 & K5).
  destruct (produce_loop _ _ _ _ _ _) as [[cs st5] w5] eqn:Epr. injection E as <- <- <- <- <-. conjs; try done. right. split; [done|].
  rewrite qsort_length in Epr.
  assert (Hlim : 0 < page_limit c <= UINT64_MAX) by (unfold page_limit; split; [done|]; nia).
  assert (Hagg : aggregated c (Z.of_nat (List.length ps)) agg /\ entries agg <> []).
  { unfold build_protected_aggregate_profile in Ea. destruct (aggregate_loop m c ps _ _ w) as [[[rc6 agg6] st6] w6] eqn:Eal.
    destruct (Z.eqb_spec rc6 INTERFERENCE_DETECTOR_OK) as [->|]; cbn [negb] in Ea; [|congruence].
    destruct (Z.eqb_spec (entry_count agg6) 0) as [|Hne]; [done|]. injection Ea as <- <- <-.
    split; [|intros E0; apply Hne; unfold entry_count; by rewrite E0].
    exact (aggregate_loop_ok c m Hm Hlim ps 0 _ _ _ _ _ _ Hpids ltac:(lia) (aggregated_zero c) ltac:(unfold page_limit; lia) Eal). }
  destruct Hagg as [Hagg Hne].
  assert (Hap : Forall (fun a => act_pid a < 2 ^ 31) (take (Z.to_nat (candidate_limit c (Z.of_nat (List.length act3)) cap)) (qsort compare_active_candidate_desc act3))).
  { apply Forall_take. rewrite qsort_perm. apply Forall_forall. intros a Ha. apply list_elem_of_lookup in Ha as (i & Hi).
    destruct (Forall2_lookup_r _ _ _ _ _ K5 Hi) as (p & Hp & (_ & _ & _ & -> & _)). rewrite Forall_forall in Hpids. apply Hpids.
    apply (sublist_subseteq _ _ K4). by eapply list_elem_of_lookup_2. }
  destruct (produce_loop_ok c m Hm Hlim agg _ _ Hagg Hne ltac:(unfold page_limit; lia) Hap _ _ _ _ _ Epr) as (best & B1 & B2).
  exists from, act3, best. conjs; done.
Qed.

(** ** Order and distinctness through sublists *)

Lemma sublist_map {A B} (f : A -> B) l k : l `sublist_of` k -> map f l `sublist_of` map f k.
Proof. induction 1; cbn [map]; by constructor. Qed.

Lemma sorted_sublist {A} (R : A -> A -> Prop) l k : l `sublist_of` k -> StronglySorted R k -> StronglySorted R l.
Proof.
  induction 1 as [|x l k Hs IH|x l k Hs IH]; intros Hk; [constructor| |].
  - apply StronglySorted_inv in Hk as [Hk Hx]. constructor; [by apply IH|]. exact (sublist_Forall _ _ _ Hs Hx) || (rewrite Forall_forall in *; intros y Hy; apply Hx, (sublist_subseteq _ _ Hs), Hy).
  - apply StronglySorted_inv in Hk as [Hk _]. by apply IH.
Qed.

Lemma sorted_transport {A B} (R : A -> A -> Prop) (S : B -> B -> Prop) (Q : A -> B -> Prop) l k : Forall2 Q l k ->
  (forall a b x y, Q a x -> Q b y -> a ∈ l -> b ∈ l -> R a b -> S x y) -> StronglySorted R l -> StronglySorted S k.
Proof.
  intros HQ. induction HQ as [|a x l k Hax HQ IH]; intros Hrs Hs; [constructor|]. apply StronglySorted_inv in Hs as [Hs Ha]. constructor.
  - apply IH; [|done]. intros b c y z Hb Hc Hbl Hcl. apply Hrs; [done|done|by right|by right].
  - apply Forall_forall. intros y Hy. apply list_elem_of_lookup in Hy as (i & Hi). destruct (Forall2_lookup_r _ _ _ _ _ HQ Hi) as (b & Hb & Hq).
    apply list_elem_of_lookup_2 in Hb. rewrite Forall_forall in Ha. apply (Hrs a b x y Hax Hq); [left|by right|by apply Ha].
Qed.

Lemma limit_bounds c n cap : 0 <= n -> candidate_limit c n cap <= cap /\ candidate_limit c n cap <= n /\
  (0 < max_normal_candidates c -> candidate_limit c n cap <= max_normal_candidates c).
Proof.
  intros Hn. unfold candidate_limit. destruct (Z.ltb_spec 0 (max_normal_candidates c)), (Z.ltb_spec (max_normal_candidates c) n); cbn [andb];
    repeat match goal with |- context [if ?a <? ?b then _ else _] => destruct (Z.ltb_spec a b) end; lia.
Qed.

(** The candidates that come out. *)
Lemma run_once_promised ps m c cap stats (w : W) rc ps' cands stats' w' :
  detector_ok c (List.length ps) -> Forall state_ok ps -> Forall (fun p => ps_pid p < 2 ^ 31) ps ->
  interference_detector_run_once (Some ps) (Some m) (Some c) true cap true stats w = (rc, Some ps', cands, stats', w') ->
  (rc <> INTERFERENCE_DETECTOR_OK -> cands = []) /\ Forall (promised c ps) cands /\
  (NoDup (map ps_pid ps) -> NoDup (map cand_pid cands)) /\
  exists n, 0 <= n /\ Z.of_nat (List.length cands) <= Z.max 0 (candidate_limit c n cap).
Proof.
  intros Hd Hok Hpids E. destruct (run_once_steps _ _ _ _ _ _ _ _ _ _ _ Hd Hok Hpids E) as (_ & _ & _ & [[Hrc ->]|[-> (from & act & best & F1 & F2 & F3 & F4)]]).
  { conjs; try done; [intros _; apply NoDup_nil_2|exists 0; cbn; lia]. }
  assert (Hbest : best `sublist_of` qsort compare_active_candidate_desc act) by (etrans; [exact F3|apply sublist_take]).
  assert (Hin : forall a, a ∈ best -> exists p, p ∈ ps /\ drawn_from c p a).
  { intros a Ha. apply (sublist_subseteq _ _ Hbest) in Ha. rewrite qsort_perm in Ha. apply list_elem_of_lookup in Ha as (i & Hi).
    destruct (Forall2_lookup_r _ _ _ _ _ F2 Hi) as (p & Hp & Hpa). exists p. split; [|done]. apply (sublist_subseteq _ _ F1). by eapply list_elem_of_lookup_2. }
  conjs; try done; [| |exists (Z.of_nat (List.length act)); split; [lia|];
    rewrite <- (Forall2_length _ _ _ F4); apply sublist_length in F3; rewrite length_take in F3; lia].
  - apply Forall_forall. intros cd Hcd. apply list_elem_of_lookup in Hcd as (i & Hi). destruct (Forall2_lookup_r _ _ _ _ _ F4 Hi) as (a & Ha & Hm).
    destruct (Hin a ltac:(by eapply list_elem_of_lookup_2)) as (p & Hp & Hpa). by apply (made_promised c ps p a cd Hpa Hp Hm).
  - intros Hnd. assert (Hmap : map cand_pid cands = map act_pid best).
    { clear -F4. induction F4 as [|a cd best cands (o & k & _ & ->) _ IH]; [done|]. cbn [map]. by rewrite IH. }
    assert (Hfrom : map act_pid act = map ps_pid from).
    { clear -F2. induction F2 as [|p a from act (_ & _ & _ & E & _) _ IH]; [done|]. cbn [map]. by rewrite IH, E. }
    rewrite Hmap. eapply sublist_NoDup; [|exact (sublist_map act_pid _ _ Hbest)]. rewrite (qsort_perm compare_active_candidate_desc act), Hfrom.
    eapply sublist_NoDup; [exact Hnd|exact (sublist_map ps_pid _ _ F1)].
Qed.

(** C19: the candidates of an interval keep their promise to the throttle
    controller, whatever the kernel reports: each is a valid candidate, its final
    score the product of its two scores and its request exactly the two
    thresholds; each is a live normal process that had been sampled in an earlier
    interval; the pids are distinct when those of the processes are, and there
    are no more than the buffer and the configuration allow. An error produces
    none, and the process states stay well formed. *)
Theorem run_once_contract ps m c cap stats (w : W) rc ps' cands stats' w' :
  detector_ok c (List.length ps) -> Forall state_ok ps -> Forall (fun p => ps_pid p < 2 ^ 31) ps -> 0 <= cap ->
  interference_detector_run_once (Some ps) (Some m) (Some c) true cap true stats w = (rc, Some ps', cands, stats', w') ->
  Forall state_ok ps' /\ map ps_pid ps' = map ps_pid ps /\ map ps_role ps' = map ps_role ps /\
  (rc <> INTERFERENCE_DETECTOR_OK -> cands = []) /\ Forall (promised c ps) cands /\
  (NoDup (map ps_pid ps) -> NoDup (map cand_pid cands)) /\
  Z.of_nat (List.length cands) <= cap /\
  (0 < max_normal_candidates c -> Z.of_nat (List.length cands) <= max_normal_candidates c).
Proof.
  intros Hd Hok Hpids Hcap E. destruct (run_once_steps _ _ _ _ _ _ _ _ _ _ _ Hd Hok Hpids E) as (K1 & K2 & K3 & _).
  destruct (run_once_promised _ _ _ _ _ _ _ _ _ _ _ Hd Hok Hpids E) as (H1 & H2 & H3 & n & Hn & Hlen).
  pose proof (limit_bounds c n cap Hn) as (L1 & L2 & L3).
  conjs; try done; [lia|intros Hm; specialize (L3 Hm); lia].
Qed.

(** The candidates come out ranked: by decreasing activity score, and by
    increasing pid among equals. *)
Theorem candidates_ranked ps m c cap stats (w : W) rc ps' cands stats' w' :
  detector_ok c (List.length ps) -> Forall state_ok ps -> Forall (fun p => ps_pid p < 2 ^ 31) ps ->
  interference_detector_run_once (Some ps) (Some m) (Some c) true cap true stats w = (rc, Some ps', cands, stats', w') ->
  StronglySorted (fun a b => ranked (dord (activity_score a)) (cand_pid a) (dord (activity_score b)) (cand_pid b)) cands.
Proof.
  intros Hd Hok Hpids E. destruct (run_once_steps _ _ _ _ _ _ _ _ _ _ _ Hd Hok Hpids E) as (_ & _ & _ & [[_ ->]|[_ (from & act & best & F1 & F2 & F3 & F4)]]); [constructor|].
  assert (Hs : Forall scored act).
  { clear -F2. induction F2 as [|p a from act (_ & _ & _ & _ & _ & Ha & _) _ IH]; by constructor. }
  assert (Hbest : best `sublist_of` qsort compare_active_candidate_desc act) by (etrans; [exact F3|apply sublist_take]).
  assert (Hr : Forall (rankable (fun a => total_score (act_delta a))) act) by (eapply Forall_impl; [exact Hs|by intros a [Ha _]]).
  pose proof (qsort_ranked _ act_pid act Hr) as Hq. rewrite <- compare_active_ranking in Hq. apply (sorted_sublist _ _ _ Hbest) in Hq.
  refine (sorted_transport _ _ _ _ _ F4 _ Hq). by intros a b x y (o1 & k1 & _ & ->) (o2 & k2 & _ & ->) _ _ Hab.
Qed.
End Interval.

(** * An interval of a small system

    Two processes share a frame: 42 is protected, 50 is normal and has worked
    since its last sample.  The theorems about the detector applied to it. *)

#[export] Program Instance sim_longs : Longs sim.
Next Obligation. intros w. cbn. unfold LLONG_MAX. lia. Qed.
Next Obligation. intros w. cbn. unfold LLONG_MAX. lia. Qed.

(** The numbers of 50's [stat] file after 90 more ticks in user mode and 1,000
    more minor faults. *)
Definition demo_vals_later : list Z := <[6%nat := 2500]> (<[10%nat := 160]> demo_vals).

Definition interval_world : sim :=
  sim_empty <| sim_clock := 8000000005 |> <| sim_fds := [(proc_path 42 "/pagemap", 3); (proc_path 50 "/pagemap", 4)] |>
    <| sim_files := [(proc_path 42 "/maps", demo_maps); (proc_path 50 "/maps", demo_maps);
                     (proc_path 50 "/stat", stat_line 50 demo_comm "S" demo_vals_later)] |>
    <| sim_pages := [(3, 40, [69; 35; 1; 0; 0; 0; 128; 128]); (3, 48, [0; 0; 0; 0; 0; 0; 0; 64]);
                     (4, 40, [69; 35; 1; 0; 0; 0; 128; 128])] |>.

Definition interval_processes : list interference_process_state :=
  [ mk_interference_process_state 42 INTERFERENCE_PROCESS_PROTECTED true false proc_activity_sample_zero;
    mk_interference_process_state 50 INTERFERENCE_PROCESS_NORMAL true true (stat_sample 50 demo_comm "S" demo_vals 4096 100 7000000005) ].

Definition interval_config : interference_detector_config :=
  mk_interference_detector_config 16 dzero (dlit 30 100) (dlit 20 100) ProcActivityProps.demo_config BankMaps.demo_config.

Notation interval_run := (interference_detector_run_once (Some interval_processes) (Some example_mapping) (Some interval_config) true 16 true
  (Some interference_detector_stats_zero) interval_world).

(** 50 is the only candidate, and is to be throttled. *)
Lemma interval_result : exists ps' cands st w', interval_run = (INTERFERENCE_DETECTOR_OK, Some ps', cands, st, w') /\
  map cand_pid cands = [50] /\ map should_throttle cands = [true].
Proof.
  assert (H : match interval_run with
    | (rc, Some _, cands, _, _) => rc = INTERFERENCE_DETECTOR_OK /\ map cand_pid cands = [50] /\ map should_throttle cands = [true]
    | _ => False end) by (vm_compute; repeat split).
  destruct interval_run as [[[[rc [ps'|]] cands] st] w']; [|destruct H]. destruct H as (-> & H1 & H2). by eexists _, _, _, _.
Qed.

Lemma interval_ok :
  detector_ok interval_config (List.length interval_processes) /\ Forall state_ok interval_processes /\
  Forall (fun p => ps_pid p < 2 ^ 31) interval_processes /\ NoDup (map ps_pid interval_processes).
Proof.
  split; [split; [exact default_config_ok|reflexivity|vm_compute; discriminate]|]. split; [|split].
  - constructor; [intros E; discriminate E|]. constructor; [|constructor]. intros _.
    split; cbn; unfold in_u64, LLONG_MAX; try lia; vm_compute; split; congruence.
  - repeat constructor.
  - cbn. apply NoDup_cons. split; [set_solver|]. apply NoDup_cons. split; [set_solver|constructor].
Qed.

Lemma run_once_contract_witness :
  exists ps' cands st w', interval_run = (INTERFERENCE_DETECTOR_OK, Some ps', cands, st, w') /\
    Forall (promised interval_config interval_processes) cands /\ cands <> [] /\ NoDup (map cand_pid cands).
Proof.
  destruct interval_ok as (Hd & Hok & Hp & Hnd). destruct interval_result as (ps' & cands & st & w' & E & Hpid & _).
  destruct (run_once_contract interval_processes example_mapping interval_config 16 _ interval_world _ ps' cands st w' Hd Hok Hp ltac:(lia) E)
    as (_ & _ & _ & _ & H1 & H2 & _).
  exists ps', cands, st, w'. split; [exact E|]. split; [exact H1|]. split; [intros ->; discriminate Hpid|exact (H2 Hnd)].
Defined.

Lemma candidates_ranked_witness :
  exists ps' cands st w', interval_run = (INTERFERENCE_DETECTOR_OK, Some ps', cands, st, w') /\
  StronglySorted (fun a b => ranked (dord (activity_score a)) (cand_pid a) (dord (activity_score b)) (cand_pid b)) cands /\ cands <> [].
Proof.
  destruct interval_ok as (Hd & Hok & Hp & _). destruct interval_result as (ps' & cands & st & w' & E & Hpid & _).
  exists ps', cands, st, w'. split; [exact E|]. split; [|intros ->; discriminate Hpid].
  exact (candidates_ranked interval_processes example_mapping interval_config 16 _ interval_world _ ps' cands st w' Hd Hok Hp E).
Defined.
