(* ===== verification/ThrottleSpec.v ===== *)
(** * What the throttle controller promises

    The hysteresis automaton of one process ([phase_step], a labelled transition
    relation), the schedule of one call over the processes, and the refinement:
    [throttle_controller_apply_candidates] and [throttle_controller_release_all]
    make every tracked process take exactly one step of the automaton.  The
    invariants of all reachable controllers follow by rule induction. *)
From S2P Require Import Prelude Float64 CString Cgroup Candidate ThrottleController.
From Stdlib Require Import Ascii String.
Local Open Scope Z_scope.

(** ** The automaton of one process *)

Record phase := mk_phase {
  ph_state : throttle_state;
  ph_since : Z;                (* when it entered the state *)
  ph_seen : Z;                 (* when it was last a candidate *)
  ph_action : Z                (* when it was last migrated *)
}.

Definition phase_of (r : throttle_record) : phase :=
  mk_phase (state r) (state_entered_ns r) (last_seen_ns r) (last_action_ns r).

Definition fresh_phase (now : Z) : phase := mk_phase THROTTLE_STATE_NONE now now 0.

(** What a call means for one process. *)
Inductive event := Observed (c : interference_candidate) | Unseen | Shutdown.

(** The migration the step attempts, and whether it succeeded. *)
Definition label : Type := option (proc_group * bool).

Section Automaton.
Context {W : Type} (cfg : throttle_controller_config W) (now : Z).

Definition min_done (t : Z) : bool := elapsed_at_least now t (min_throttle_duration_ms cfg).
Definition cooled (t : Z) : bool := elapsed_at_least now t (cooldown_duration_ms cfg).
Definition stale (t : Z) : bool := elapsed_at_least now t (stale_after_ms cfg).
Definition wants (c : interference_candidate) : bool := candidate_requests_throttle cfg c.
Definition calm (c : interference_candidate) : bool := dleb (final_score c) (low_score_threshold cfg).

Inductive phase_step : event -> label -> phase -> phase -> Prop :=
| ps_enter c t s a : wants c = true ->
    phase_step (Observed c) (Some (throttled_group cfg, true))
      (mk_phase THROTTLE_STATE_NONE t s a) (mk_phase THROTTLE_STATE_THROTTLED now now now)
| ps_enter_failed c t s a : wants c = true ->
    phase_step (Observed c) (Some (throttled_group cfg, false))
      (mk_phase THROTTLE_STATE_NONE t s a) (mk_phase THROTTLE_STATE_NONE t now a)
| ps_stay_none c t s a : wants c = false ->
    phase_step (Observed c) None (mk_phase THROTTLE_STATE_NONE t s a) (mk_phase THROTTLE_STATE_NONE t now a)
| ps_release c t s a : calm c = true -> min_done t = true ->
    phase_step (Observed c) (Some (normal_group cfg, true))
      (mk_phase THROTTLE_STATE_THROTTLED t s a) (mk_phase THROTTLE_STATE_COOLDOWN now now now)
| ps_release_failed c t s a : calm c = true -> min_done t = true ->
    phase_step (Observed c) (Some (normal_group cfg, false))
      (mk_phase THROTTLE_STATE_THROTTLED t s a) (mk_phase THROTTLE_STATE_THROTTLED t now a)
| ps_keep c t s a : calm c && min_done t = false ->
    phase_step (Observed c) None
      (mk_phase THROTTLE_STATE_THROTTLED t s a) (mk_phase THROTTLE_STATE_THROTTLED t now a)
| ps_cooling c t s a : cooled t = false ->
    phase_step (Observed c) None
      (mk_phase THROTTLE_STATE_COOLDOWN t s a) (mk_phase THROTTLE_STATE_COOLDOWN t now a)
| ps_reenter c t s a : cooled t = true -> wants c = true ->
    phase_step (Observed c) (Some (throttled_group cfg, true))
      (mk_phase THROTTLE_STATE_COOLDOWN t s a) (mk_phase THROTTLE_STATE_THROTTLED now now now)
| ps_reenter_failed c t s a : cooled t = true -> wants c = true ->
    phase_step (Observed c) (Some (throttled_group cfg, false))
      (mk_phase THROTTLE_STATE_COOLDOWN t s a) (mk_phase THROTTLE_STATE_NONE now now a)
| ps_cooled c t s a : cooled t = true -> wants c = false ->
    phase_step (Observed c) None
      (mk_phase THROTTLE_STATE_COOLDOWN t s a) (mk_phase THROTTLE_STATE_NONE now now a)
| ps_unseen_none t s a :
    phase_step Unseen None (mk_phase THROTTLE_STATE_NONE t s a) (mk_phase THROTTLE_STATE_NONE t s a)
| ps_stale_release t s a : stale s = true -> min_done t = true ->
    phase_step Unseen (Some (normal_group cfg, true))
      (mk_phase THROTTLE_STATE_THROTTLED t s a) (mk_phase THROTTLE_STATE_COOLDOWN now s now)
| ps_stale_failed t s a : stale s = true -> min_done t = true ->
    phase_step Unseen (Some (normal_group cfg, false))
      (mk_phase THROTTLE_STATE_THROTTLED t s a) (mk_phase THROTTLE_STATE_THROTTLED t s a)
| ps_unseen_keep t s a : stale s && min_done t = false ->
    phase_step Unseen None (mk_phase THROTTLE_STATE_THROTTLED t s a) (mk_phase THROTTLE_STATE_THROTTLED t s a)
| ps_unseen_cooling t s a : cooled t = false ->
    phase_step Unseen None (mk_phase THROTTLE_STATE_COOLDOWN t s a) (mk_phase THROTTLE_STATE_COOLDOWN t s a)
| ps_unseen_cooled t s a : cooled t = true ->
    phase_step Unseen None (mk_phase THROTTLE_STATE_COOLDOWN t s a) (mk_phase THROTTLE_STATE_NONE now s a)
| ps_shutdown t s a :
    phase_step Shutdown (Some (normal_group cfg, true))
      (mk_phase THROTTLE_STATE_THROTTLED t s a) (mk_phase THROTTLE_STATE_COOLDOWN now s now)
| ps_shutdown_failed t s a :
    phase_step Shutdown (Some (normal_group cfg, false))
      (mk_phase THROTTLE_STATE_THROTTLED t s a) (mk_phase THROTTLE_STATE_THROTTLED t s a)
| ps_shutdown_other st t s a : st <> THROTTLE_STATE_THROTTLED ->
    phase_step Shutdown None (mk_phase st t s a) (mk_phase st t s a).
End Automaton.

Create HintDb throttle.
#[export] Hint Constructors phase_step : throttle.

(** ** The schedule of a call *)

Section Schedule.
Context {W : Type} `{CgroupOps W}.

(** The effect of one label on the world. *)
Definition performs (cfg : throttle_controller_config W) (p : Z) (l : label) (w w' : W) : Prop :=
  match l with
  | None => w' = w
  | Some (g, ok) => move_pid cfg p g w = (if ok : bool then THROTTLE_CONTROLLER_OK else THROTTLE_CONTROLLER_ERR_CGROUP, w')
  end.

(** The processes [ps] are handled in order, process [p] with label [lab p]. *)
Fixpoint runs (cfg : throttle_controller_config W) (lab : Z -> label) (ps : list Z) (w w' : W) : Prop :=
  match ps with
  | [] => w' = w
  | p :: ps => exists w1, performs cfg p (lab p) w w1 /\ runs cfg lab ps w1 w'
  end.

Definition failed (l : label) : bool := match l with Some (_, false) => true | _ => false end.

(** The return code of a call that handled [ps]. *)
Definition outcome (lab : Z -> label) (ps : list Z) (rc : Z) : Z :=
  if existsb (fun p => failed (lab p)) ps then THROTTLE_CONTROLLER_ERR_CGROUP else rc.

Lemma runs_ext cfg lab lab' ps w w' :
  (forall p, p ∈ ps -> lab p = lab' p) -> runs cfg lab ps w w' -> runs cfg lab' ps w w'.
Proof.
  revert w. induction ps as [|p ps IH]; intros w He; cbn [runs]; [done|].
  intros (w1 & H1 & H2). exists w1. rewrite <- He by constructor. split; [done|].
  apply IH; [|done]. intros q Hq. apply He. by constructor.
Qed.

Lemma outcome_ext lab lab' ps rc :
  (forall p, p ∈ ps -> lab p = lab' p) -> outcome lab ps rc = outcome lab' ps rc.
Proof.
  intros He. unfold outcome. replace (existsb (fun p => failed (lab' p)) ps) with (existsb (fun p => failed (lab p)) ps); [done|].
  induction ps as [|p ps IH]; [done|]. cbn [existsb]. rewrite (He p) by constructor. f_equal. apply IH.
  intros q Hq. apply He. by constructor.
Qed.

Lemma runs_app cfg lab ps qs w w1 w2 :
  runs cfg lab ps w w1 -> runs cfg lab qs w1 w2 -> runs cfg lab (ps ++ qs) w w2.
Proof.
  revert w. induction ps as [|p ps IH]; intros w; cbn [runs app]; [by intros ->|].
  intros (w' & Hp & Hr) Hq. eauto.
Qed.

Lemma outcome_app lab ps qs rc : outcome lab qs (outcome lab ps rc) = outcome lab (ps ++ qs) rc.
Proof. unfold outcome. rewrite existsb_app. destruct (existsb _ ps), (existsb _ qs); reflexivity. Qed.

Lemma outcome_cons lab p ps rc :
  outcome lab (p :: ps) rc = outcome lab ps (if failed (lab p) then THROTTLE_CONTROLLER_ERR_CGROUP else rc).
Proof. unfold outcome. cbn [existsb]. destruct (failed (lab p)), (existsb _ ps); reflexivity. Qed.

Lemma performs_dry cfg p l w w' : dry_run cfg = true -> performs cfg p l w w' -> w' = w /\ failed l = false.
Proof.
  intros Hd. destruct l as [[g []]|]; cbn; unfold move_pid; rewrite ?Hd; intros; simplify_eq; try done.
Qed.

Lemma runs_dry cfg lab ps w w' rc : dry_run cfg = true -> runs cfg lab ps w w' -> w' = w /\ outcome lab ps rc = rc.
Proof.
  intros Hd. revert w. induction ps as [|p ps IH]; intros w; cbn [runs]; [done|].
  intros (w1 & H1%performs_dry & H2); [|done]. destruct H1 as [-> Hf]. apply IH in H2 as [-> Ho].
  rewrite outcome_cons, Hf. done.
Qed.
End Schedule.

(** ** One record *)

Section OneRecord.
Context {W : Type} `{CgroupOps W} `{ProcessEnv W}.
Implicit Types (cfg : throttle_controller_config W) (w : W).

Lemma move_pid_rc cfg p g w :
  exists ok w', move_pid cfg p g w = (if ok : bool then THROTTLE_CONTROLLER_OK else THROTTLE_CONTROLLER_ERR_CGROUP, w').
Proof.
  unfold move_pid. destruct (dry_run cfg); [by exists true, w|].
  destruct (cg_move_pid p g w) as [rc w']. destruct (rc =? 0); [by exists true, w'|by exists false, w'].
Qed.

(** How one iteration of a loop relates the record before and after it. *)
Definition steps cfg now ev (r : throttle_record) rc w r' rc' w' : Prop :=
  exists l, phase_step cfg now ev l (phase_of r) (phase_of r') /\ performs cfg (pid r) l w w' /\
    pid r' = pid r /\ seen_in_last_apply r' = seen_in_last_apply r /\
    rc' = (if failed l then THROTTLE_CONTROLLER_ERR_CGROUP else rc).

Definition named (r : throttle_record) : Prop :=
  state r = THROTTLE_STATE_NONE \/ state r = THROTTLE_STATE_THROTTLED \/ state r = THROTTLE_STATE_COOLDOWN.

(** The two migrations, one equation each. *)
Lemma throttle_record_pid_spec cfg r now st w :
  exists ok r' st' w', throttle_record_pid cfg r now st w =
      (if ok : bool then THROTTLE_CONTROLLER_OK else THROTTLE_CONTROLLER_ERR_CGROUP, r', st', w') /\
    performs cfg (pid r) (Some (throttled_group cfg, ok)) w w' /\
    pid r' = pid r /\ seen_in_last_apply r' = seen_in_last_apply r /\
    phase_of r' = (if ok then mk_phase THROTTLE_STATE_THROTTLED now (last_seen_ns r) now else phase_of r).
Proof.
  unfold throttle_record_pid. destruct (move_pid_rc cfg (pid r) (throttled_group cfg) w) as (ok & w' & Hm).
  rewrite Hm. destruct ok; [exists true|exists false]; repeat eexists; exact Hm.
Qed.

Lemma release_record_pid_spec cfg r now s st w :
  exists ok r' st' w', release_record_pid cfg r now s st w =
      (if ok : bool then THROTTLE_CONTROLLER_OK else THROTTLE_CONTROLLER_ERR_CGROUP, r', st', w') /\
    performs cfg (pid r) (Some (normal_group cfg, ok)) w w' /\
    pid r' = pid r /\ seen_in_last_apply r' = seen_in_last_apply r /\
    phase_of r' = (if ok then mk_phase THROTTLE_STATE_COOLDOWN now (last_seen_ns r) now else phase_of r).
Proof.
  unfold release_record_pid. destruct (move_pid_rc cfg (pid r) (normal_group cfg) w) as (ok & w' & Hm).
  rewrite Hm. destruct ok; [exists true|exists false]; repeat eexists; exact Hm.
Qed.

(** The diagnostic texts play no role in the transitions. *)
Ltac hide_texts :=
  repeat match goal with
  | |- context [snprintf ?n ?t] => generalize (snprintf n t); intro
  | |- context [set_reason ?n ?t] => generalize (set_reason n t); intro
  end.

(** The observed process, state by state: [r] is the record after
    [record_observe], [s] its earlier [last_seen_ns]. *)
Definition switches cfg now c s (r : throttle_record) rc w r' rc' w' : Prop :=
  exists l, phase_step cfg now (Observed c) l
      (mk_phase (state r) (state_entered_ns r) s (last_action_ns r)) (phase_of r') /\
    performs cfg (pid r) l w w' /\ pid r' = pid r /\ seen_in_last_apply r' = seen_in_last_apply r /\
    rc' = (if failed l then THROTTLE_CONTROLLER_ERR_CGROUP else rc).

Lemma phase_of_seen r now : last_seen_ns r = now ->
  phase_of r = mk_phase (state r) (state_entered_ns r) now (last_action_ns r).
Proof. by intros <-. Qed.

Lemma switch_none cfg c now s r rc st w rc' r' st' w' :
  last_seen_ns r = now -> state r = THROTTLE_STATE_NONE ->
  apply_switch cfg c r now rc st w = (rc', r', st', w') -> switches cfg now c s r rc w r' rc' w'.
Proof.
  intros Hs Hst. unfold apply_switch, switches. rewrite Hst. fold (wants cfg c). hide_texts.
  destruct (wants cfg c) eqn:Hw.
  - destruct (throttle_record_pid_spec cfg r now st w) as (ok & r1 & st1 & w1 & -> & Hperf & Hp & Hse & Hph).
    intros [= <- <- <- <-]. exists (Some (throttled_group cfg, ok)). rewrite Hph, (phase_of_seen r now Hs), Hst, Hs.
    destruct ok; split; try constructor; auto.
  - intros [= <- <- <- <-]. exists None. rewrite (phase_of_seen _ now) by exact Hs.
    split; [|repeat split]. cbn [state state_entered_ns last_action_ns set_field]. rewrite Hst. by constructor.
Qed.

Lemma switch_throttled cfg c now s r rc st w rc' r' st' w' :
  last_seen_ns r = now -> last_final_score r = final_score c -> state r = THROTTLE_STATE_THROTTLED ->
  apply_switch cfg c r now rc st w = (rc', r', st', w') -> switches cfg now c s r rc w r' rc' w'.
Proof.
  intros Hs Hf Hst. unfold apply_switch, switches. rewrite Hst, Hf.
  fold (calm cfg c) (min_done cfg now (state_entered_ns r)). hide_texts.
  destruct (calm cfg c && min_done cfg now (state_entered_ns r)) eqn:Hw.
  - apply andb_true_iff in Hw as [Hc Hm].
    destruct (release_record_pid_spec cfg r now false st w) as (ok & r1 & st1 & w1 & -> & Hperf & Hp & Hse & Hph).
    intros [= <- <- <- <-]. exists (Some (normal_group cfg, ok)). rewrite Hph, (phase_of_seen r now Hs), Hst, Hs.
    destruct ok; split; try constructor; auto.
  - intros [= <- <- <- <-]. exists None. rewrite (phase_of_seen _ now) by exact Hs.
    split; [|repeat split]. cbn [state state_entered_ns last_action_ns set_field]. rewrite Hst. by constructor.
Qed.

Lemma switch_cooldown cfg c now s r rc st w rc' r' st' w' :
  last_seen_ns r = now -> state r = THROTTLE_STATE_COOLDOWN ->
  apply_switch cfg c r now rc st w = (rc', r', st', w') -> switches cfg now c s r rc w r' rc' w'.
Proof.
  intros Hs Hst. unfold apply_switch, switches. rewrite Hst. fold (wants cfg c) (cooled cfg now (state_entered_ns r)).
  hide_texts. destruct (cooled cfg now (state_entered_ns r)) eqn:Hcool; cbn [negb].
  2:{ intros [= <- <- <- <-]. exists None. rewrite (phase_of_seen _ now) by exact Hs.
      split; [|repeat split]. cbn [state state_entered_ns last_action_ns set_field]. rewrite Hst. by constructor. }
  set (rn := r <| state := THROTTLE_STATE_NONE |> <| state_entered_ns := now |>).
  destruct (wants cfg c) eqn:Hw.
  - destruct (throttle_record_pid_spec cfg rn now st w) as (ok & r1 & st1 & w1 & -> & Hperf & Hp & Hse & Hph).
    intros [= <- <- <- <-]. exists (Some (throttled_group cfg, ok)).
    rewrite Hph, (phase_of_seen rn now Hs). change (last_seen_ns rn) with (last_seen_ns r). rewrite Hs.
    destruct ok; split; try (by constructor); auto.
  - intros [= <- <- <- <-]. exists None. rewrite (phase_of_seen _ now) by exact Hs.
    split; [|repeat split]. cbn [state state_entered_ns last_action_ns set_field]. by constructor.
Qed.

Lemma apply_switch_steps cfg c r0 now rc st w rc' r' st' w' :
  named r0 -> apply_switch cfg c (record_observe r0 c now) now rc st w = (rc', r', st', w') ->
  switches cfg now c (last_seen_ns r0) (record_observe r0 c now) rc w r' rc' w'.
Proof.
  assert (Hs : last_seen_ns (record_observe r0 c now) = now) by reflexivity.
  assert (Hf : last_final_score (record_observe r0 c now) = final_score c) by reflexivity.
  intros [Hst|[Hst|Hst]]; [apply switch_none|apply switch_throttled|apply switch_cooldown]; done.
Qed.

(** The loop over the unseen processes. *)
Lemma sweep_record_steps cfg r now rc st w rc' r' st' w' :
  named r -> seen_in_last_apply r = false ->
  sweep_record cfg r now rc st w = (rc', r', st', w') -> steps cfg now Unseen r rc w r' rc' w'.
Proof.
  intros Hn Hseen. unfold sweep_record, steps, phase_of at 1. rewrite Hseen.
  fold (min_done cfg now (state_entered_ns r)) (cooled cfg now (state_entered_ns r)) (stale cfg now (last_seen_ns r)).
  hide_texts. destruct Hn as [Hst|[Hst|Hst]]; rewrite Hst.
  - intros [= <- <- <- <-]. exists None. unfold phase_of. rewrite Hst. split; [constructor|done].
  - destruct (stale cfg now (last_seen_ns r) && min_done cfg now (state_entered_ns r)) eqn:Hw.
    + apply andb_true_iff in Hw as [Hc Hm].
      destruct (release_record_pid_spec cfg r now true st w) as (ok & r1 & st1 & w1 & -> & Hperf & Hp & Hse & Hph).
      intros [= <- <- <- <-]. exists (Some (normal_group cfg, ok)). rewrite Hph. unfold phase_of. rewrite Hst.
      rewrite Hseen in Hse. destruct ok; split; try (by constructor); auto.
    + intros [= <- <- <- <-]. exists None. unfold phase_of. cbn [state state_entered_ns last_seen_ns last_action_ns set_field].
      rewrite Hst. split; [by constructor|done].
  - destruct (cooled cfg now (state_entered_ns r)) eqn:Hcool; intros [= <- <- <- <-]; exists None; unfold phase_of;
      cbn [state state_entered_ns last_seen_ns last_action_ns set_field]; rewrite ?Hst; (split; [by constructor|done]).
Qed.

Lemma release_all_body_steps cfg r now rc st w rc' r' st' w' :
  named r -> release_all_body cfg now r rc st w = (rc', r', st', w') -> steps cfg now Shutdown r rc w r' rc' w'.
Proof.
  intros Hn. unfold release_all_body, steps, phase_of at 1. destruct Hn as [Hst|[Hst|Hst]]; rewrite Hst.
  1,3: intros [= <- <- <- <-]; exists None; unfold phase_of; rewrite Hst; (split; [by constructor|done]).
  destruct (release_record_pid_spec cfg r now false st w) as (ok & r1 & st1 & w1 & -> & Hperf & Hp & Hse & Hph).
  intros [= <- <- <- <-]. exists (Some (normal_group cfg, ok)). rewrite Hph. unfold phase_of. rewrite Hst.
  destruct ok; split; try (by constructor); auto.
Qed.

Lemma phase_step_named cfg now ev l r t s a r' :
  phase_step cfg now ev l (mk_phase (state r) t s a) (phase_of r') -> named r -> named r'.
Proof. unfold named, phase_of. intros Hs. inversion Hs; subst; intuition congruence. Qed.
End OneRecord.

(** ** The array of records as a map from pids *)

Definition lookup_pid (rs : list throttle_record) (p : Z) : option throttle_record :=
  i ← find_record_index rs p; rs !! i.

Lemma lookup_pid_cons r rs p : lookup_pid (r :: rs) p = if pid r =? p then Some r else lookup_pid rs p.
Proof.
  unfold lookup_pid. cbn [find_record_index]. destruct (pid r =? p); [done|].
  by destruct (find_record_index rs p).
Qed.

Lemma lookup_pid_pid rs p r : lookup_pid rs p = Some r -> pid r = p.
Proof.
  induction rs as [|x rs IH]; [done|]. rewrite lookup_pid_cons.
  destruct (Z.eqb_spec (pid x) p); [by intros [= <-]|exact IH].
Qed.

Lemma lookup_pid_none rs p : lookup_pid rs p = None <-> p ∉ map pid rs.
Proof.
  induction rs as [|x rs IH]; [split; [intros _; apply not_elem_of_nil|done]|].
  rewrite lookup_pid_cons. cbn [map]. rewrite not_elem_of_cons, <- IH.
  destruct (Z.eqb_spec (pid x) p); naive_solver.
Qed.

Lemma lookup_pid_elem rs p r : lookup_pid rs p = Some r -> r ∈ rs.
Proof.
  induction rs as [|x rs IH]; [done|]. rewrite lookup_pid_cons.
  destruct (Z.eqb_spec (pid x) p); [intros [= <-]; by constructor|]. intros Hl. constructor. by apply IH.
Qed.

Lemma elem_lookup_pid rs r : NoDup (map pid rs) -> r ∈ rs -> lookup_pid rs (pid r) = Some r.
Proof.
  induction rs as [|x rs IH]; [by intros _ ?%elem_of_nil|]. cbn [map]. rewrite lookup_pid_cons.
  intros [Hx Hnd]%NoDup_cons [->|Hr]%elem_of_cons; [by rewrite Z.eqb_refl|].
  destruct (Z.eqb_spec (pid x) (pid r)) as [E|]; [|by apply IH].
  destruct Hx. rewrite E. apply list_elem_of_In, in_map, list_elem_of_In. exact Hr.
Qed.

Lemma find_index_lookup rs p i : find_record_index rs p = Some i -> exists r, rs !! i = Some r /\ lookup_pid rs p = Some r.
Proof.
  unfold lookup_pid. intros Hi. rewrite Hi. cbn.
  revert i Hi. induction rs as [|x rs IH]; intros i; [done|]. cbn [find_record_index].
  destruct (pid x =? p); [intros [= <-]; eauto|]. destruct (find_record_index rs p); [|done].
  intros [= <-]. apply IH. done.
Qed.

Lemma find_index_none rs p : find_record_index rs p = None <-> lookup_pid rs p = None.
Proof.
  split; [by unfold lookup_pid; intros ->|]. destruct (find_record_index rs p) as [i|] eqn:Hi; [|done].
  apply find_index_lookup in Hi as (r & _ & ->). done.
Qed.

Lemma lookup_pid_insert rs p i r' q : find_record_index rs p = Some i -> pid r' = p ->
  lookup_pid (<[i := r']> rs) q = if p =? q then Some r' else lookup_pid rs q.
Proof.
  intros Hi Hp. revert i Hi. induction rs as [|x rs IH]; intros i; [done|]. cbn [find_record_index].
  destruct (Z.eqb_spec (pid x) p) as [E|Hne].
  - intros [= <-]. cbn [insert list_insert]. rewrite !lookup_pid_cons, Hp, E. by destruct (p =? q).
  - destruct (find_record_index rs p) as [j|]; [|done]. intros [= <-]. cbn [insert list_insert].
    rewrite !lookup_pid_cons. change (list_insert j r' rs) with (<[j := r']> rs). rewrite IH by done.
    destruct (Z.eqb_spec (pid x) q), (Z.eqb_spec p q); try done. congruence.
Qed.

Lemma lookup_pid_snoc rs r q : pid r ∉ map pid rs ->
  lookup_pid (rs ++ [r]) q = if pid r =? q then Some r else lookup_pid rs q.
Proof.
  induction rs as [|x rs IH]; intros Hn; cbn [app]; [apply lookup_pid_cons|].
  cbn [map] in Hn. apply not_elem_of_cons in Hn as [Hne Hn]. rewrite !lookup_pid_cons, IH by done.
  destruct (Z.eqb_spec (pid x) q), (Z.eqb_spec (pid r) q); try done. congruence.
Qed.

Lemma map_pid_insert rs p i r' : find_record_index rs p = Some i -> pid r' = p ->
  map pid (<[i := r']> rs) = map pid rs.
Proof.
  intros Hi Hp. revert i Hi. induction rs as [|x rs IH]; intros i; [done|]. cbn [find_record_index].
  destruct (Z.eqb_spec (pid x) p) as [E|Hne].
  - intros [= <-]. cbn [insert list_insert map]. congruence.
  - destruct (find_record_index rs p) as [j|]; [|done]. intros [= <-]. cbn [insert list_insert map].
    f_equal. by apply IH.
Qed.

(** ** Well-formed controllers *)

Record wf {W} (ctl : throttle_controller W) : Prop := {
  wf_init : initialized ctl = true;
  wf_pids : NoDup (map pid (records ctl));
  wf_pos : Forall (fun p => 0 < p) (map pid (records ctl));
  wf_named : Forall named (records ctl);
  wf_cap : record_count ctl <= record_cap ctl
}.

Definition tracked {W} (ctl : throttle_controller W) (p : Z) : option throttle_record := lookup_pid (records ctl) p.

(** The candidate a call carries for process [p]. *)
Definition observed (cs : list interference_candidate) (p : Z) : option interference_candidate :=
  find (fun c => cand_pid c =? p) cs.

Definition pids (cs : list interference_candidate) : list Z := map cand_pid cs.

Definition unknown {W} (ctl : throttle_controller W) (cs : list interference_candidate) : Z :=
  Z.of_nat (List.length (List.filter (fun c => negb (bool_decide (is_Some (tracked ctl (cand_pid c))))) cs)).

Lemma observed_elem cs p c : observed cs p = Some c -> cand_pid c = p /\ c ∈ cs.
Proof. unfold observed. intros [Hi Hp]%find_some. split; [lia|]. by apply list_elem_of_In. Qed.

Lemma observed_none cs p : observed cs p = None <-> p ∉ pids cs.
Proof.
  unfold observed, pids. induction cs as [|c cs IH]; [split; [intros _; apply not_elem_of_nil|done]|].
  cbn [find map]. rewrite not_elem_of_cons. destruct (Z.eqb_spec (cand_pid c) p); naive_solver.
Qed.

Lemma elem_pids c cs : c ∈ cs -> cand_pid c ∈ pids cs.
Proof. intros Hc. apply list_elem_of_In, in_map, list_elem_of_In. exact Hc. Qed.

(** What [prevalidate_candidates] accepts. *)
Definition acceptable {W} (ctl : throttle_controller W) (cs : list interference_candidate) : Prop :=
  Forall (fun c => candidate_valid c = true) cs /\ NoDup (pids cs) /\
  unknown ctl cs <= record_cap ctl - record_count ctl.

(** The candidates a call reads. *)
Definition given (candidates : option (list interference_candidate)) (count : Z) : list interference_candidate :=
  match candidates with Some cs => take (Z.to_nat count) cs | None => [] end.

Lemma unknown_cons {W} (ctl : throttle_controller W) c cs :
  unknown ctl (c :: cs) = (match tracked ctl (cand_pid c) with None => 1 | Some _ => 0 end) + unknown ctl cs.
Proof.
  unfold unknown. cbn [List.filter]. destruct (tracked ctl (cand_pid c)) as [r|] eqn:E.
  - rewrite bool_decide_true by eauto. done.
  - rewrite bool_decide_false by (by intros [? ?]). cbn [negb List.length]. lia.
Qed.

Lemma existsb_pid c cs : existsb (fun c' => cand_pid c =? cand_pid c') cs = true <-> cand_pid c ∈ pids cs.
Proof.
  rewrite existsb_exists. unfold pids. rewrite list_elem_of_In, in_map_iff.
  split; intros (x & H1 & H2); exists x; [split; [lia|done]|split; [done|lia]].
Qed.

Lemma prevalidate_loop_spec {W} (ctl : throttle_controller W) seen cs n :
  prevalidate_loop ctl seen cs n = THROTTLE_CONTROLLER_OK <->
    Forall (fun c => candidate_valid c = true) cs /\ NoDup (pids cs) /\
    (forall c, c ∈ cs -> cand_pid c ∉ pids seen) /\ n + unknown ctl cs <= record_cap ctl - record_count ctl.
Proof.
  revert seen n. induction cs as [|c cs IH]; intros seen n; cbn [prevalidate_loop].
  - change (unknown ctl []) with 0. destruct (Z.ltb_spec (record_cap ctl - record_count ctl) n).
    + split; [done|]. intros (_ & _ & _ & ?). lia.
    + split; [intros _|done]. split; [done|]. split; [constructor|]. split; [by intros ? ?%elem_of_nil|lia].
  - destruct (candidate_valid c) eqn:Hv; cbn [negb].
    2:{ split; [done|]. intros ([? _]%Forall_cons & _). congruence. }
    destruct (existsb _ seen) eqn:He.
    { split; [done|]. intros (_ & _ & Hs & _). apply existsb_pid in He. exfalso.
      apply (Hs c); [by constructor|exact He]. }
    rewrite IH, unknown_cons. unfold pids. cbn [map]. rewrite NoDup_cons, Forall_cons, map_app. cbn [map].
    change (find_record_const ctl (cand_pid c)) with (tracked ctl (cand_pid c)).
    assert (Hc : cand_pid c ∉ map cand_pid seen) by (intros Hin; apply existsb_pid in Hin; congruence).
    assert (Hn : (match tracked ctl (cand_pid c) with None => n + 1 | Some _ => n end) + unknown ctl cs =
      n + ((match tracked ctl (cand_pid c) with None => 1 | Some _ => 0 end) + unknown ctl cs)) by (destruct (tracked ctl (cand_pid c)); lia).
    rewrite Hn. clear Hn. split.
    + intros (Hf & Hd & Hs & Hr). repeat split; try done.
      * intros Hin. apply list_elem_of_In, in_map_iff in Hin as (c' & E & Hin%list_elem_of_In).
        apply (Hs c' Hin). rewrite E. apply elem_of_app. right. by constructor.
      * intros c' [->|Hin]%elem_of_cons; [done|]. intros Hp. apply (Hs c' Hin). apply elem_of_app. by left.
    + intros ([_ Hf] & [Hx Hd] & Hs & Hr). repeat split; try done.
      intros c' Hin [Hp|Hp]%elem_of_app; [by apply (Hs c'); [constructor|]|].
      apply list_elem_of_singleton in Hp. apply Hx. rewrite <- Hp. by apply elem_pids.
Qed.

Lemma prevalidate_spec {W} (ctl : throttle_controller W) candidates count :
  prevalidate_candidates ctl candidates count = THROTTLE_CONTROLLER_OK <->
    (candidates = None -> count <= 0) /\ acceptable ctl (given candidates count).
Proof.
  unfold prevalidate_candidates, acceptable, given.
  assert (Hl : forall cs, prevalidate_loop ctl [] cs 0 = THROTTLE_CONTROLLER_OK <-> Forall (fun c => candidate_valid c = true) cs /\
    NoDup (pids cs) /\ unknown ctl cs <= record_cap ctl - record_count ctl).
  { intros cs. rewrite prevalidate_loop_spec. cbn [pids map]. split; [naive_solver|].
    intros (? & ? & ?). repeat split; try done. intros c _ []%elem_of_nil. }
  destruct candidates as [cs|]; [rewrite Hl; naive_solver|].
  destruct (Z.ltb_spec 0 count); [split; [done|intros [Hc _]; specialize (Hc eq_refl); lia]|].
  rewrite Hl. naive_solver.
Qed.

Lemma candidate_valid_pos c : candidate_valid c = true -> 0 < cand_pid c.
Proof. unfold candidate_valid. destruct (Z.leb_spec (cand_pid c) 0); [done|]. lia. Qed.

(** ** The two loops *)

Section Loops.
Context {W : Type} `{CgroupOps W} `{ProcessEnv W}.
Implicit Types (ctl : throttle_controller W) (w : W).

Definition new_record (p now : Z) : throttle_record :=
  throttle_record_zero <| pid := p |> <| state := THROTTLE_STATE_NONE |>
    <| first_seen_ns := now |> <| last_seen_ns := now |> <| state_entered_ns := now |>
    <| reason := set_reason THROTTLE_CONTROLLER_REASON_MAX "new record" |>.

(** The phase a candidate is judged in. *)
Definition before ctl (now p : Z) : phase :=
  match tracked ctl p with Some r => phase_of r | None => fresh_phase now end.

(** [ctl'] differs from [ctl] in its records only. *)
Definition same_setup ctl ctl' : Prop :=
  initialized ctl' = initialized ctl /\ cfg ctl' = cfg ctl /\ record_cap ctl' = record_cap ctl.

Definition update_spec ctl ctl' (p : Z) (r' : throttle_record) : Prop :=
  same_setup ctl ctl' /\ wf ctl' /\ (forall q, tracked ctl' q = if p =? q then Some r' else tracked ctl q) /\
  map pid (records ctl') = map pid (records ctl) ++ (match tracked ctl p with Some _ => [] | None => [p] end).

Lemma wf_replace ctl rs : wf ctl -> map pid rs = map pid (records ctl) -> Forall named rs -> wf (with_records ctl rs).
Proof.
  intros [Hi Hnd Hpos Hn Hcap] Hm Hrs. constructor; cbn [with_records initialized records record_cap]; rewrite ?Hm; try done.
  apply (f_equal List.length) in Hm. rewrite !length_map in Hm. unfold record_count in *. cbn [with_records records]. lia.
Qed.

Lemma update_tracked ctl p i r' : wf ctl -> find_record_index (records ctl) p = Some i -> pid r' = p -> named r' ->
  update_spec ctl (with_records ctl (<[i := r']> (records ctl))) p r'.
Proof.
  intros [Hi Hnd Hpos Hn Hcap] Hf Hp Hr'. split; [done|].
  destruct (find_index_lookup _ _ _ Hf) as (r & Hr & Ht).
  assert (Hm : map pid (<[i := r']> (records ctl)) = map pid (records ctl)) by (by eapply map_pid_insert).
  split; [|split].
  - constructor; cbn [initialized records record_cap with_records]; try (rewrite Hm; done); try done.
    + by apply Forall_insert.
    + unfold record_count in *. cbn [records with_records record_cap]. rewrite length_insert. exact Hcap.
  - intros q. by eapply lookup_pid_insert.
  - unfold tracked. rewrite Ht, app_nil_r. exact Hm.
Qed.

Lemma update_fresh ctl p r' : wf ctl -> tracked ctl p = None -> 0 < p -> record_count ctl < record_cap ctl ->
  pid r' = p -> named r' -> update_spec ctl (with_records ctl (records ctl ++ [r'])) p r'.
Proof.
  intros [Hi Hnd Hpos Hn Hcap] Ht Hp Hroom Hpid Hr'. split; [done|].
  assert (Hm : map pid (records ctl ++ [r']) = map pid (records ctl) ++ [p]) by (rewrite map_app; cbn; by rewrite Hpid).
  assert (Hnew : p ∉ map pid (records ctl)) by (by apply lookup_pid_none).
  split; [|split].
  - constructor; cbn [initialized records record_cap with_records]; rewrite ?Hm; try done.
    + apply NoDup_app. repeat split; [done| |apply NoDup_singleton]. intros q Hq ->%list_elem_of_singleton. done.
    + apply Forall_app. split; [done|]. by constructor.
    + apply Forall_app. split; [done|]. by constructor.
    + unfold record_count in *. cbn [records with_records record_cap]. rewrite length_app. cbn. lia.
  - intros q. unfold tracked. cbn [records with_records]. rewrite lookup_pid_snoc by (by rewrite Hpid). by rewrite Hpid.
  - rewrite Ht. exact Hm.
Qed.

Lemma insert_snoc (rs : list throttle_record) a b : <[List.length rs := b]> (rs ++ [a]) = rs ++ [b].
Proof. induction rs as [|x rs IH]; [done|]. cbn. f_equal. exact IH. Qed.

(** One candidate: it fits, and its process takes one step. *)
Lemma apply_candidate_steps ctl c now rc st w :
  wf ctl -> 0 < cand_pid c -> (tracked ctl (cand_pid c) = None -> record_count ctl < record_cap ctl) ->
  exists rc' ctl' st' w' l r', apply_candidate ctl c now rc st w = Some (rc', ctl', st', w') /\
    update_spec ctl ctl' (cand_pid c) r' /\ performs (cfg ctl) (cand_pid c) l w w' /\
    phase_step (cfg ctl) now (Observed c) l (before ctl now (cand_pid c)) (phase_of r') /\
    seen_in_last_apply r' = true /\ rc' = (if failed l then THROTTLE_CONTROLLER_ERR_CGROUP else rc).
Proof.
  intros Hwf Hpos Hroom. unfold apply_candidate.
  set (st1 := bump (fun s => s <| records_seen ::= u64_inc |>) st).
  destruct (find_record_index (records ctl) (cand_pid c)) as [i|] eqn:Hi.
  - destruct (find_index_lookup _ _ _ Hi) as (r & Hr & Ht). rewrite Hr.
    assert (Hn : named r) by (eapply Forall_forall; [apply (wf_named _ Hwf)|by eapply lookup_pid_elem]).
    destruct (apply_switch (cfg ctl) c (record_observe r c now) now rc st1 w) as [[[rc' r'] st'] w'] eqn:Hsw.
    destruct (apply_switch_steps _ _ _ _ _ _ _ _ _ _ _ Hn Hsw) as (l & Hph & Hperf & Hp & Hse & Hrc).
    apply lookup_pid_pid in Ht as Hpid.
    exists rc', (with_records ctl (<[i:=r']> (records ctl))), st', w', l, r'. split; [done|].
    split; [apply update_tracked; try done; [by rewrite Hp|eapply phase_step_named; [exact Hph|exact Hn]]|].
    rewrite <- Hpid. split; [done|]. split; [|done].
    unfold before, tracked. rewrite Hpid, Ht. exact Hph.
  - apply find_index_none in Hi as Ht. specialize (Hroom Ht).
    unfold create_record. destruct (Z.leb_spec (record_cap ctl) (record_count ctl)); [lia|].
    fold (new_record (cand_pid c) now). cbn [records with_records].
    rewrite list_lookup_middle by done. change (cfg (with_records ctl _)) with (cfg ctl).
    set (r := new_record (cand_pid c) now).
    assert (Hn : named r) by (by left).
    destruct (apply_switch (cfg ctl) c (record_observe r c now) now rc st1 w) as [[[rc' r'] st'] w'] eqn:Hsw.
    destruct (apply_switch_steps _ _ _ _ _ _ _ _ _ _ _ Hn Hsw) as (l & Hph & Hperf & Hp & Hse & Hrc).
    exists rc', (with_records ctl (records ctl ++ [r'])), st', w', l, r'. split.
    { unfold with_records. cbn [initialized cfg records record_cap]. by rewrite insert_snoc. }
    split; [apply update_fresh; try done; eapply phase_step_named; [exact Hph|exact Hn]|].
    split; [exact Hperf|]. split; [|done].
    unfold before. change (tracked ctl (cand_pid c)) with (lookup_pid (records ctl) (cand_pid c)). rewrite Ht. exact Hph.
Qed.

Definition override (lab : Z -> label) (p : Z) (l : label) : Z -> label := fun q => if p =? q then l else lab q.

Lemma override_eq lab p l : override lab p l p = l.
Proof. unfold override. by rewrite Z.eqb_refl. Qed.

Lemma override_ne lab p l q : q <> p -> override lab p l q = lab q.
Proof. unfold override. intros. destruct (Z.eqb_spec p q); congruence. Qed.

Lemma override_rest lab p l (ps : list Z) : p ∉ ps -> forall q, q ∈ ps -> lab q = override lab p l q.
Proof. intros Hp q Hq. rewrite override_ne; [done|]. by intros ->. Qed.

Lemma unknown_update ctl ctl' p r' cs : update_spec ctl ctl' p r' -> p ∉ pids cs ->
  unknown ctl' cs = unknown ctl cs.
Proof.
  intros (_ & _ & Ht & _). induction cs as [|c cs IH]; [done|]. unfold pids. cbn [map].
  intros [Hne Hn]%not_elem_of_cons. rewrite !unknown_cons, (IH Hn), Ht. destruct (Z.eqb_spec p (cand_pid c)); [congruence|done].
Qed.

Lemma record_count_update ctl ctl' p r' : update_spec ctl ctl' p r' ->
  record_count ctl' = record_count ctl + match tracked ctl p with Some _ => 0 | None => 1 end.
Proof.
  intros (_ & _ & _ & Hm). apply (f_equal List.length) in Hm. rewrite length_app, !length_map in Hm.
  unfold record_count. rewrite Hm. destruct (tracked ctl p); cbn [List.length]; lia.
Qed.

(** The loop over the candidates. *)
Lemma apply_loop_steps cs : forall ctl now rc st w,
  wf ctl -> NoDup (pids cs) -> Forall (fun p => 0 < p) (pids cs) ->
  record_count ctl + unknown ctl cs <= record_cap ctl ->
  exists ctl' st' w' lab, apply_loop ctl cs now rc st w = (false, outcome lab (pids cs) rc, ctl', st', w') /\
    same_setup ctl ctl' /\ wf ctl' /\ runs (cfg ctl) lab (pids cs) w w' /\
    (exists news, map pid (records ctl') = map pid (records ctl) ++ news /\ forall p, p ∈ news -> p ∈ pids cs) /\
    forall p, match observed cs p with
      | None => tracked ctl' p = tracked ctl p
      | Some c => exists r', tracked ctl' p = Some r' /\ seen_in_last_apply r' = true /\
          phase_step (cfg ctl) now (Observed c) (lab p) (before ctl now p) (phase_of r')
      end.
Proof.
  induction cs as [|c cs IH]; intros ctl now rc st w Hwf Hnd Hpos Hroom; cbn [apply_loop].
  { exists ctl, st, w, (fun _ => None). split; [done|]. split; [done|]. split; [done|].
    split; [done|]. split; [|done]. exists []. rewrite app_nil_r. split; [done|]. by intros p ?%elem_of_nil. }
  unfold pids in Hnd, Hpos |- *. cbn [map] in *. apply NoDup_cons in Hnd as [Hc Hnd]. apply Forall_cons in Hpos as [Hp Hpos].
  rewrite unknown_cons in Hroom.
  assert (Hu : 0 <= unknown ctl cs) by (unfold unknown; lia).
  destruct (apply_candidate_steps ctl c now rc st w Hwf Hp) as (rc1 & ctl1 & st1 & w1 & l & r1 & -> & Hup & Hperf & Hph & Hse & ->).
  { intros Ht. rewrite Ht in Hroom. lia. }
  pose proof (unknown_update _ _ _ _ cs Hup Hc) as Hu1. pose proof (record_count_update _ _ _ _ Hup) as Hc1.
  pose proof Hup as ((Hi1 & Hcfg1 & Hcap1) & Hwf1 & Ht1 & Hm1).
  destruct (IH ctl1 now (if failed l then THROTTLE_CONTROLLER_ERR_CGROUP else rc) st1 w1 Hwf1 Hnd Hpos)
    as (ctl2 & st2 & w2 & lab & -> & (Hi2 & Hcfg2 & Hcap2) & Hwf2 & Hruns & (news & Hm2 & Hnews) & Hall).
  { rewrite Hu1, Hc1, Hcap1. destruct (tracked ctl (cand_pid c)); lia. }
  exists ctl2, st2, w2, (override lab (cand_pid c) l). rewrite Hcfg1 in Hruns, Hall.
  pose proof (override_rest lab (cand_pid c) l (pids cs) Hc) as Hext. split; [|split; [|split; [|split; [|split]]]].
  - rewrite outcome_cons, override_eq. fold (pids cs). by rewrite (outcome_ext _ _ _ _ Hext).
  - unfold same_setup. by rewrite Hi2, Hcfg2, Hcap2.
  - done.
  - cbn [runs]. exists w1. rewrite override_eq. split; [done|]. by eapply runs_ext.
  - rewrite Hm2, Hm1, <- app_assoc. eexists. split; [done|]. intros q [Hq|Hq]%elem_of_app.
    + destruct (tracked ctl (cand_pid c)); [by apply elem_of_nil in Hq|]. apply list_elem_of_singleton in Hq as ->. constructor.
    + constructor. by apply Hnews.
  - intros p. unfold observed. cbn [find]. specialize (Hall p). destruct (Z.eqb_spec (cand_pid c) p) as [<-|Hne].
    + rewrite override_eq. rewrite (proj2 (observed_none cs (cand_pid c)) Hc) in Hall.
      exists r1. rewrite Hall, Ht1, Z.eqb_refl. done.
    + rewrite override_ne by congruence. fold (observed cs p). assert (Hb : tracked ctl1 p = tracked ctl p)
        by (rewrite Ht1; destruct (Z.eqb_spec (cand_pid c) p); congruence).
      unfold before in *. rewrite Hb in Hall. exact Hall.
Qed.

(** A loop over the records, [skip] telling which ones it leaves alone. *)
Lemma for_records_steps body setup ev now (skip : throttle_record -> bool) :
  (forall r rc st w rc' r' st' w', named r -> body r rc st w = (rc', r', st', w') ->
     if skip r then r' = r /\ rc' = rc /\ w' = w else steps setup now ev r rc w r' rc' w') ->
  forall rs rc st w rc' rs' st' w', Forall named rs -> NoDup (map pid rs) ->
    for_records body rs rc st w = (rc', rs', st', w') ->
    exists lab, let ps := map pid (List.filter (fun r => negb (skip r)) rs) in
      runs setup lab ps w w' /\ rc' = outcome lab ps rc /\ map pid rs' = map pid rs /\ Forall named rs' /\
      forall p, match lookup_pid rs p with
        | None => lookup_pid rs' p = None
        | Some r => exists r', lookup_pid rs' p = Some r' /\
            (if skip r then r' = r else phase_step setup now ev (lab p) (phase_of r) (phase_of r'))
        end.
Proof.
  intros Hbody. induction rs as [|r rs IH]; intros rc st w rc' rs' st' w' Hn Hnd; cbn [for_records].
  { intros [= <- <- <- <-]. exists (fun _ => None). done. }
  destruct (body r rc st w) as [[[rc1 r1] st1] w1] eqn:Hb.
  destruct (for_records body rs rc1 st1 w1) as [[[rc2 rs2] st2] w2] eqn:Hrs. intros [= <- <- <- <-].
  apply Forall_cons in Hn as [Hnr Hn]. cbn [map] in Hnd. apply NoDup_cons in Hnd as [Hr Hnd].
  specialize (Hbody _ _ _ _ _ _ _ _ Hnr Hb).
  destruct (IH _ _ _ _ _ _ _ Hn Hnd Hrs) as (lab & Hruns & -> & Hm & Hn2 & Hall). cbn [List.filter].
  assert (Hnotin : pid r ∉ map pid (List.filter (fun r => negb (skip r)) rs)).
  { intros Hin. apply Hr. apply list_elem_of_In in Hin. apply in_map_iff in Hin as (x & E & [Hx _]%filter_In).
    rewrite <- E. apply list_elem_of_In, in_map, Hx. }
  destruct (skip r) eqn:Hs; cbn [negb].
  - destruct Hbody as (-> & -> & ->). exists lab. repeat split; [done..|cbn [map]; congruence|by constructor|].
    intros p. rewrite !lookup_pid_cons. destruct (pid r =? p); [exists r; by rewrite Hs|apply Hall].
  - destruct Hbody as (l & Hph & Hperf & Hp & Hse & ->). exists (override lab (pid r) l).
    pose proof (override_rest lab (pid r) l _ Hnotin) as Hext. cbn [map]. repeat split.
    + cbn [runs]. exists w1. rewrite override_eq. split; [done|]. by eapply runs_ext.
    + rewrite outcome_cons, override_eq. by apply outcome_ext.
    + congruence.
    + constructor; [|done]. by eapply phase_step_named.
    + intros p. rewrite !lookup_pid_cons, Hp. destruct (Z.eqb_spec (pid r) p) as [<-|Hne].
      * exists r1. rewrite Hs, override_eq. done.
      * rewrite override_ne by congruence. apply Hall.
Qed.

(** ** One call *)

(** The order in which a call handles the processes. *)
Definition schedule ctl cs : list Z :=
  pids cs ++ List.filter (fun p => negb (bool_decide (p ∈ pids cs))) (map pid (records ctl)).

(** Process [p] takes the step of its candidate, or the step of absence. *)
Definition judged ctl now cs (lab : Z -> label) ctl' (p : Z) : Prop :=
  match observed cs p, tracked ctl p, tracked ctl' p with
  | Some c, _, Some r' => phase_step (cfg ctl) now (Observed c) (lab p) (before ctl now p) (phase_of r')
  | None, Some r, Some r' => phase_step (cfg ctl) now Unseen (lab p) (phase_of r) (phase_of r')
  | None, None, None => True
  | _, _, _ => False
  end.

Definition unseen ctl : throttle_controller W :=
  with_records ctl (map (fun r => r <| seen_in_last_apply := false |>) (records ctl)).

Lemma map_pid_unseen ctl : map pid (records (unseen ctl)) = map pid (records ctl).
Proof. unfold unseen. cbn [records with_records]. rewrite map_map. done. Qed.

Lemma tracked_unseen ctl p :
  tracked (unseen ctl) p = option_map (fun r => r <| seen_in_last_apply := false |>) (tracked ctl p).
Proof.
  unfold tracked, unseen. cbn [records with_records]. induction (records ctl) as [|r rs IH]; [done|]. cbn [map].
  rewrite !lookup_pid_cons. change (pid (r <| seen_in_last_apply := false |>)) with (pid r).
  destruct (pid r =? p); [done|exact IH].
Qed.

Lemma wf_unseen ctl : wf ctl -> wf (unseen ctl).
Proof.
  intros [Hi Hnd Hpos Hn Hcap]. constructor; rewrite ?map_pid_unseen; try done.
  - unfold unseen. cbn [records with_records]. apply Forall_map. exact Hn.
  - unfold record_count, unseen in *. cbn [records with_records record_cap]. by rewrite length_map.
Qed.

Lemma before_unseen ctl now p : before (unseen ctl) now p = before ctl now p.
Proof. unfold before. rewrite tracked_unseen. by destruct (tracked ctl p). Qed.

Lemma unknown_unseen ctl cs : unknown (unseen ctl) cs = unknown ctl cs.
Proof.
  induction cs as [|c cs IH]; [done|]. rewrite !unknown_cons, tracked_unseen, IH. by destruct (tracked ctl (cand_pid c)).
Qed.

Lemma seen_flags ctl ctl' cs (P : Z -> interference_candidate -> throttle_record -> Prop) :
  wf ctl' ->
  (forall p, match observed cs p with
     | None => tracked ctl' p = tracked (unseen ctl) p
     | Some c => exists r', tracked ctl' p = Some r' /\ seen_in_last_apply r' = true /\ P p c r'
     end) ->
  forall r, r ∈ records ctl' -> seen_in_last_apply r = bool_decide (pid r ∈ pids cs).
Proof.
  intros Hwf Hall r Hr. pose proof (elem_lookup_pid _ _ (wf_pids _ Hwf) Hr) as Ht. specialize (Hall (pid r)).
  change (lookup_pid (records ctl') (pid r)) with (tracked ctl' (pid r)) in Ht.
  destruct (observed cs (pid r)) as [c|] eqn:Ho.
  - destruct Hall as (r' & Ht' & Hse & _). apply observed_elem in Ho as [Hp Hc]. rewrite Ht in Ht'. injection Ht' as <-.
    rewrite Hse. symmetry. apply bool_decide_true. rewrite <- Hp. by apply elem_pids.
  - apply observed_none in Ho. rewrite bool_decide_false by done. rewrite Hall, tracked_unseen in Ht.
    destruct (tracked ctl (pid r)) as [x|]; [|done]. by injection Ht as <-.
Qed.

Lemma map_filter_agree {A} (f : throttle_record -> A) (g : A -> bool) (h : throttle_record -> bool) rs :
  (forall r, r ∈ rs -> h r = g (f r)) -> map f (List.filter h rs) = List.filter g (map f rs).
Proof.
  induction rs as [|r rs IH]; intros He; [done|]. cbn [List.filter map]. rewrite (He r) by constructor.
  rewrite <- IH by (intros x Hx; apply He; by constructor). by destruct (g (f r)).
Qed.

Lemma filter_none {A} (g : A -> bool) l : (forall x, x ∈ l -> g x = false) -> List.filter g l = [].
Proof.
  induction l as [|x l IH]; intros He; [done|]. cbn [List.filter]. rewrite (He x) by constructor.
  apply IH. intros y Hy. apply He. by constructor.
Qed.

(** An accepted call refines the automaton of every process. *)
Lemma apply_accepted ctl candidates count st now w w0 :
  wf ctl -> prevalidate_candidates ctl candidates count = THROTTLE_CONTROLLER_OK ->
  controller_now_ns ctl w = (THROTTLE_CONTROLLER_OK, now, w0) ->
  let cs := given candidates count in
  exists ctl' st' w' lab,
    throttle_controller_apply_candidates (Some ctl) candidates count st w =
      (outcome lab (schedule ctl cs) THROTTLE_CONTROLLER_OK, Some ctl', st', w') /\
    runs (cfg ctl) lab (schedule ctl cs) w0 w' /\ same_setup ctl ctl' /\ wf ctl' /\
    forall p, judged ctl now cs lab ctl' p.
Proof.
  intros Hwf Hpre Hnow cs. unfold throttle_controller_apply_candidates. rewrite (wf_init _ Hwf). cbn [negb].
  rewrite Hpre, Hnow. cbn [Z.eqb negb].
  apply prevalidate_spec in Hpre as [_ (Hv & Hnd & Hroom)]. fold cs in Hv, Hnd, Hroom. fold (given candidates count) cs.
  fold (unseen ctl). set (st1 := bump _ (throttle_controller_stats_reset st)).
  assert (Hpos : Forall (fun p => 0 < p) (pids cs)).
  { apply Forall_map. eapply Forall_impl; [exact Hv|]. intros c. apply candidate_valid_pos. }
  destruct (apply_loop_steps cs (unseen ctl) now THROTTLE_CONTROLLER_OK st1 w0 (wf_unseen _ Hwf) Hnd Hpos)
    as (ctl1 & st2 & w1 & lab1 & -> & Hset & Hwf1 & Hruns1 & (news & Hm & Hnews) & Hall1).
  { rewrite unknown_unseen. unfold record_count, unseen in *. cbn [records with_records record_cap].
    rewrite length_map. change (record_cap ctl) with (record_cap (unseen ctl)) in *. lia. }
  change (cfg (unseen ctl)) with (cfg ctl) in *. 
  pose proof (seen_flags _ _ _ _ Hwf1 Hall1) as Hflags.
  destruct Hset as (Hi & Hcfg & Hcap). cbn [unseen with_records initialized cfg record_cap] in Hi, Hcfg, Hcap.
  destruct (for_records _ (records ctl1) _ st2 w1) as [[[rc2 rs2] st3] w2] eqn:Hfor.
  assert (Hbody : forall r rc st w rc' r' st' w', named r -> sweep_record (cfg ctl1) r now rc st w = (rc', r', st', w') ->
    if seen_in_last_apply r then r' = r /\ rc' = rc /\ w' = w else steps (cfg ctl1) now Unseen r rc w r' rc' w').
  { intros r rc s x rc' r' s' x' Hn Hs. destruct (seen_in_last_apply r) eqn:E; [|by eapply sweep_record_steps].
    unfold sweep_record in Hs. rewrite E in Hs. by injection Hs as <- <- <- <-. }
  destruct (for_records_steps _ _ _ _ _ Hbody _ _ _ _ _ _ _ _ (wf_named _ Hwf1) (wf_pids _ Hwf1) Hfor)
    as (lab2 & Hruns2 & -> & Hm2 & Hn2 & Hall2). cbn zeta in *.
  rewrite (map_filter_agree pid (fun p => negb (bool_decide (p ∈ pids cs)))) in * by (intros r Hr; by rewrite (Hflags r Hr)).
  rewrite Hm, map_pid_unseen, List.filter_app, (filter_none _ news), app_nil_r, Hcfg in *
    by (intros p Hp; by rewrite bool_decide_true by auto).
  set (lab := fun p => if bool_decide (p ∈ pids cs) then lab1 p else lab2 p).
  assert (He1 : forall p, p ∈ pids cs -> lab1 p = lab p) by (intros p Hp; unfold lab; by rewrite bool_decide_true).
  assert (He2 : forall p, p ∈ List.filter (fun p => negb (bool_decide (p ∈ pids cs))) (map pid (records ctl)) -> lab2 p = lab p).
  { intros p [_ Hp%negb_true_iff]%list_elem_of_In%filter_In. unfold lab. by rewrite Hp. }
  exists (with_records ctl1 rs2), st3, w2, lab. split; [|split; [|split; [|split]]].
  - rewrite (outcome_ext _ _ _ _ He1), (outcome_ext _ _ _ _ He2), outcome_app. done.
  - eapply runs_app; [by eapply runs_ext|by eapply runs_ext].
  - done.
  - apply wf_replace; try done. congruence.
  - intros p. specialize (Hall1 p). specialize (Hall2 p). unfold judged. change (tracked (with_records ctl1 rs2) p) with (lookup_pid rs2 p).
    change (lookup_pid (records ctl1) p) with (tracked ctl1 p) in Hall2. destruct (observed cs p) as [c|] eqn:Ho.
    + destruct Hall1 as (r1 & Ht & Hse & Hph). rewrite before_unseen in Hph. rewrite Ht in Hall2. destruct Hall2 as (r2 & -> & Hr2). rewrite Hse in Hr2.
      subst r2. apply observed_elem in Ho as [<- Hc]. by rewrite <- He1 by (by apply elem_pids).
    + rewrite Hall1, tracked_unseen in Hall2. destruct (tracked ctl p) as [r|]; cbn [option_map] in Hall2; [|by rewrite Hall2].
      destruct Hall2 as (r2 & -> & Hr2). cbn [seen_in_last_apply set_field] in Hr2.
      unfold lab. apply observed_none in Ho. by rewrite bool_decide_false.
Qed.

(** The emergency release: every process takes its shutdown step. *)
Lemma release_all_accepted ctl st now w w0 :
  wf ctl -> controller_now_ns ctl w = (THROTTLE_CONTROLLER_OK, now, w0) ->
  exists ctl' st' w' lab,
    throttle_controller_release_all (Some ctl) st w =
      (outcome lab (map pid (records ctl)) THROTTLE_CONTROLLER_OK, Some ctl', st', w') /\
    runs (cfg ctl) lab (map pid (records ctl)) w0 w' /\ same_setup ctl ctl' /\ wf ctl' /\
    forall p, match tracked ctl p, tracked ctl' p with
      | Some r, Some r' => phase_step (cfg ctl) now Shutdown (lab p) (phase_of r) (phase_of r')
      | None, None => True
      | _, _ => False
      end.
Proof.
  intros Hwf Hnow. unfold throttle_controller_release_all. rewrite (wf_init _ Hwf). cbn [negb]. rewrite Hnow. cbn [Z.eqb negb].
  destruct (for_records _ (records ctl) _ _ w0) as [[[rc2 rs2] st3] w2] eqn:Hfor.
  assert (Hbody : forall r rc st w rc' r' st' w', named r -> release_all_body (cfg ctl) now r rc st w = (rc', r', st', w') ->
    if false then r' = r /\ rc' = rc /\ w' = w else steps (cfg ctl) now Shutdown r rc w r' rc' w')
    by (intros; by eapply release_all_body_steps).
  destruct (for_records_steps _ _ _ _ (fun _ => false) Hbody _ _ _ _ _ _ _ _ (wf_named _ Hwf) (wf_pids _ Hwf) Hfor)
    as (lab & Hruns & -> & Hm & Hn2 & Hall). cbn zeta in *.
  assert (Hf : forall rs : list throttle_record, List.filter (fun _ => negb false) rs = rs)
    by (induction rs as [|r rs IH]; [done|]; cbn; f_equal; exact IH).
  rewrite Hf in *.
  exists (with_records ctl rs2), st3, w2, lab. do 3 (split; [done|]). split.
  - by apply wf_replace.
  - intros p. specialize (Hall p). unfold tracked. cbn [with_records records].
    destruct (lookup_pid (records ctl) p); [destruct Hall as (r' & -> & ?)|rewrite Hall]; done.
Qed.
End Loops.
