(* ===== verification/ThrottleSafety.v ===== *)
(** * Safety and timing of the throttle controller

    Every controller reachable from [throttle_controller_init] by calls of
    [apply_candidates] and [release_all], interleaved with a kernel that leaves
    the tracked processes where they are, is well formed, agrees with the
    kernel on where the processes are, and never migrates a process twice within
    the configured durations. *)
From S2P Require Import Prelude Float64 CString Cgroup Candidate ThrottleController ThrottleSpec Os SimOs.
From Stdlib Require Import Ascii String.
Local Open Scope Z_scope.

(** ** Time *)

Lemma ms_to_ns_min ms : 0 <= ms -> ms_to_ns ms = Z.min (ms * NSEC_PER_MSEC) UINT64_MAX.
Proof.
  intros Hms. unfold ms_to_ns, u64_mul, NSEC_PER_MSEC, UINT64_MAX in *.
  change (18446744073709551615 / 1000000) with 18446744073709.
  destruct (Z.ltb_spec 18446744073709 ms) as [Hlt|Hle]; [|rewrite u64_small]; unfold in_u64; lia.
Qed.

Lemma elapsed_spec now start ms : in_u64 now -> in_u64 start -> 0 <= ms ->
  elapsed_at_least now start ms = true <-> Z.min (ms * NSEC_PER_MSEC) UINT64_MAX <= now - start.
Proof.
  intros Hn Hs Hms. unfold elapsed_at_least. rewrite ms_to_ns_min by done. unfold u64_sub, in_u64, NSEC_PER_MSEC, UINT64_MAX in *.
  destruct (Z.ltb_spec now start); [split; [done|lia]|]. rewrite u64_small by (unfold in_u64; lia). apply Z.leb_le.
Qed.

Lemma elapsed_mono now now' start start' ms :
  in_u64 now' -> 0 <= start' -> start' <= start -> now <= now' -> in_u64 now ->
  elapsed_at_least now start ms = true -> elapsed_at_least now' start' ms = true.
Proof.
  unfold elapsed_at_least, u64_sub, in_u64. intros Hn' Hs' Hs Hn Hnow.
  destruct (Z.ltb_spec now start); [done|]. destruct (Z.ltb_spec now' start'); [lia|].
  rewrite !u64_small by (unfold in_u64; lia). rewrite !Z.leb_le. lia.
Qed.

(** ** The environment *)

(** Reading the clock and allocating memory migrate nothing. *)
Class ProcessEnvLaws (W : Type) `{CgroupLaws W} `{ProcessEnv W} := {
  pe_clock_keeps w q : cg_placed (pe_clock w).2 q = cg_placed w q;
  pe_calloc_keeps n size w q : cg_placed (pe_calloc n size w).2 q = cg_placed w q
}.

Section Safety.
Context {W : Type} `{PL : ProcessEnvLaws W}.
Implicit Types (ctl : throttle_controller W) (w : W) (setup : throttle_controller_config W).

(** An injected clock migrates nothing either. *)
Definition clock_keeps setup : Prop :=
  forall f w q, clock_fn setup = Some f -> cg_placed (f w).2 q = cg_placed w q.

Lemma now_keeps ctl w q : clock_keeps (cfg ctl) -> cg_placed (controller_now_ns ctl w).2 q = cg_placed w q.
Proof.
  intros Hc. unfold controller_now_ns. destruct (clock_fn (cfg ctl)) as [f|] eqn:Hf.
  - pose proof (Hc f w q Hf) as Hk. destruct (f w) as [[rc n] w']. destruct (negb _); exact Hk.
  - unfold monotonic_now_ns. pose proof (pe_clock_keeps w q) as Hk. destruct (pe_clock w) as [[[s n]|] w']; exact Hk.
Qed.

(** Where a process is after a schedule that handles it at most once. *)
Definition destination setup (l : label) (old : option proc_group) : option proc_group :=
  match l with Some (g, true) => if dry_run setup then old else Some g | _ => old end.

Lemma performs_placed setup p l w w' q : performs setup p l w w' ->
  cg_placed w' q = if p =? q then destination setup l (cg_placed w q) else cg_placed w q.
Proof.
  destruct l as [[g ok]|]; cbn [performs destination]; [|intros ->; by destruct (p =? q)].
  unfold move_pid. destruct (dry_run setup); [destruct ok; intros [= <-]; by destruct (p =? q)|].
  destruct (cg_move_pid p g w) as [rc w1] eqn:Hm. destruct (Z.eqb_spec rc 0) as [->|Hne]; cbn [negb]; destruct ok; try done.
  - intros [= <-]. apply cg_move_ok in Hm as [Hp Hq]. destruct (Z.eqb_spec p q) as [<-|]; [done|]. by apply Hq.
  - intros [= <-]. rewrite (cg_move_fail _ _ _ _ _ Hm Hne). by destruct (p =? q).
Qed.

Lemma runs_placed setup lab ps : forall w w' q, NoDup ps -> runs setup lab ps w w' ->
  cg_placed w' q = if bool_decide (q ∈ ps) then destination setup (lab q) (cg_placed w q) else cg_placed w q.
Proof.
  induction ps as [|p ps IH]; intros w w' q; cbn [runs]; [by intros _ ->|].
  intros [Hp Hnd]%NoDup_cons (w1 & Hperf & Hruns). rewrite (IH _ _ _ Hnd Hruns).
  rewrite (performs_placed _ _ _ _ _ q Hperf). destruct (Z.eqb_spec p q) as [->|Hne].
  - rewrite (bool_decide_false _ Hp). by rewrite bool_decide_true by constructor.
  - rewrite (bool_decide_ext (q ∈ p :: ps) (q ∈ ps)); [done|]. rewrite elem_of_cons. naive_solver.
Qed.

Lemma schedule_nodup ctl cs : wf ctl -> NoDup (pids cs) -> NoDup (schedule ctl cs).
Proof.
  intros Hwf Hnd. unfold schedule. apply NoDup_app. split; [done|]. split.
  - intros p Hp Hin%list_elem_of_In. apply filter_In in Hin as [_ Hb%negb_true_iff]. by rewrite bool_decide_true in Hb.
  - apply NoDup_ListNoDup, List.NoDup_filter, NoDup_ListNoDup, Hwf.
Qed.

Lemma schedule_elem ctl cs p : p ∈ schedule ctl cs <-> p ∈ pids cs \/ p ∈ map pid (records ctl).
Proof.
  unfold schedule. rewrite elem_of_app, (list_elem_of_In (List.filter _ _)), filter_In, <- list_elem_of_In.
  destruct (decide (p ∈ pids cs)) as [Hp|Hp]; [rewrite bool_decide_true by done|rewrite bool_decide_false by done];
    cbn [negb]; naive_solver.
Qed.

(** The group a state stands for. *)
Definition home setup (s : throttle_state) : option proc_group :=
  match s with
  | THROTTLE_STATE_THROTTLED => Some (throttled_group setup)
  | THROTTLE_STATE_COOLDOWN => Some (normal_group setup)
  | _ => None
  end.

Definition at_home setup (s : throttle_state) (place : option proc_group) : Prop :=
  forall g, home setup s = Some g -> place = Some g.

Lemma phase_step_home setup now ev l ph ph' place :
  phase_step setup now ev l ph ph' -> dry_run setup = false -> at_home setup (ph_state ph) place ->
  at_home setup (ph_state ph') (destination setup l place).
Proof.
  unfold at_home, destination. intros Hs Hd. rewrite Hd.
  inversion Hs; subst; cbn [ph_state home]; intros Hh g Hg; simplify_eq; auto.
Qed.

(** A migration goes to the throttled or the normal group. *)
(** A migration is into the throttled group, of a candidate, or out of it, of a
    process that is throttled. *)
Lemma phase_step_target setup now ev g ok ph ph' : phase_step setup now ev (Some (g, ok)) ph ph' ->
  (g = throttled_group setup /\ exists c, ev = Observed c) \/ (g = normal_group setup /\ ph_state ph = THROTTLE_STATE_THROTTLED).
Proof. intros Hs; inversion Hs; subst; eauto. Qed.

Lemma shutdown_step setup now l ph ph' : phase_step setup now Shutdown l ph ph' ->
  (ph_state ph <> THROTTLE_STATE_THROTTLED /\ l = None /\ ph' = ph) \/
  (ph_state ph = THROTTLE_STATE_THROTTLED /\
   ((l = Some (normal_group setup, true) /\ ph_state ph' = THROTTLE_STATE_COOLDOWN) \/
    (l = Some (normal_group setup, false) /\ ph' = ph))).
Proof. intros Hs; inversion Hs; subst; cbn; auto 6. Qed.

(** ** Timing *)

(** Phase [ph] is consistent with time [t]. *)
Definition timely setup (t : Z) (ph : phase) : Prop :=
  0 <= ph_action ph <= ph_since ph /\ ph_since ph <= t /\ 0 <= ph_seen ph <= t /\
  match ph_state ph with
  | THROTTLE_STATE_THROTTLED | THROTTLE_STATE_COOLDOWN => ph_since ph = ph_action ph
  | THROTTLE_STATE_NONE =>
      ph_action ph = 0 \/ elapsed_at_least (ph_since ph) (ph_action ph) (cooldown_duration_ms setup) = true
  | THROTTLE_STATE_OTHER _ => False
  end.

Lemma timely_step setup t now ev l ph ph' :
  phase_step setup now ev l ph ph' -> timely setup t ph -> 0 <= t <= now -> in_u64 now -> timely setup now ph'.
Proof.
  unfold timely. intros Hs Ht Hnow Hu.
  inversion Hs; subst; cbn [ph_state ph_since ph_seen ph_action] in *; try lia;
    try (destruct Ht as (? & ? & ? & ->); repeat split; try lia; right; assumption).
  all: destruct Ht as (? & ? & ? & Ht); repeat split; try lia; exact Ht.
Qed.

Lemma timely_fresh setup now : in_u64 now -> timely setup now (fresh_phase now).
Proof. unfold timely, fresh_phase, in_u64. cbn. lia. Qed.

Lemma timely_later setup t now ph : timely setup t ph -> t <= now -> timely setup now ph.
Proof. unfold timely. intros (? & ? & ? & ?) ?. repeat split; try lia. done. Qed.

(** No throttling within the cooldown after the last migration, no release
    within the minimal throttling time. *)
Lemma timely_migration setup t now ev l ph ph' :
  phase_step setup now ev l ph ph' -> timely setup t ph -> 0 <= t <= now -> in_u64 now ->
  (ph_state ph <> THROTTLE_STATE_THROTTLED -> ph_state ph' = THROTTLE_STATE_THROTTLED ->
     (exists c, ev = Observed c /\ wants setup c = true) /\
     (ph_action ph = 0 \/ elapsed_at_least now (ph_action ph) (cooldown_duration_ms setup) = true)) /\
  (ph_state ph = THROTTLE_STATE_THROTTLED -> ph_state ph' <> THROTTLE_STATE_THROTTLED -> ev <> Shutdown ->
     elapsed_at_least now (ph_action ph) (min_throttle_duration_ms setup) = true /\
     ((exists c, ev = Observed c /\ calm setup c = true) \/ (ev = Unseen /\ stale setup now (ph_seen ph) = true))).
Proof.
  unfold timely. intros Hs Ht Hnow Hu.
  inversion Hs; subst; cbn [ph_state ph_since ph_seen ph_action] in *; (split; intros; try done).
  - split; [by eauto|]. destruct Ht as (? & ? & ? & [?|He]); [by left|right].
    unfold in_u64 in Hu. eapply elapsed_mono; [..|exact He]; unfold in_u64; lia.
  - destruct Ht as (? & ? & ? & <-). eauto.
  - destruct Ht as (? & ? & ? & <-). eauto.
  - destruct Ht as (? & ? & ? & <-). eauto.
Qed.

(** ** Reachable controllers *)

(** The call at world [w] happens at [now], not before [t] ([CLOCK_MONOTONIC]);
    when the clock cannot be read nothing is known of the time. *)
Definition clock_at ctl w (t now : Z) : Prop :=
  let '(rc, n, _) := controller_now_ns ctl w in
  if rc =? THROTTLE_CONTROLLER_OK then n = now /\ t <= now /\ in_u64 now else now = t.

Inductive reachable setup : throttle_controller W -> W -> Z -> Prop :=
| reach_init c w ctl w' :
    throttle_controller_init (Some c) (Some setup) w = (THROTTLE_CONTROLLER_OK, Some ctl, w') ->
    reachable setup ctl w' 0
| reach_apply ctl w t candidates count st rc ctl' st' w' now :
    reachable setup ctl w t -> clock_at ctl w t now ->
    throttle_controller_apply_candidates (Some ctl) candidates count st w = (rc, Some ctl', st', w') ->
    reachable setup ctl' w' now
| reach_release ctl w t st rc ctl' st' w' now :
    reachable setup ctl w t -> clock_at ctl w t now ->
    throttle_controller_release_all (Some ctl) st w = (rc, Some ctl', st', w') ->
    reachable setup ctl' w' now
| reach_kernel ctl w t w' :
    reachable setup ctl w t ->
    (forall p, p ∈ map pid (records ctl) -> cg_placed w' p = cg_placed w p) ->
    reachable setup ctl w' t.

Record invariant setup ctl w (t : Z) : Prop := {
  inv_wf : wf ctl;
  inv_cfg : cfg ctl = setup;
  inv_time : in_u64 t;
  inv_timely : forall p r, tracked ctl p = Some r -> timely setup t (phase_of r);
  inv_home : dry_run setup = false -> forall p r, tracked ctl p = Some r -> at_home setup (state r) (cg_placed w p)
}.

Lemma tracked_elem ctl p r : tracked ctl p = Some r -> p ∈ map pid (records ctl).
Proof.
  intros Ht. destruct (decide (p ∈ map pid (records ctl))) as [|Hn]; [done|].
  apply lookup_pid_none in Hn. unfold tracked in Ht. congruence.
Qed.

Lemma init_ok_inv c setup w ctl w' :
  throttle_controller_init (Some c) (Some setup) w = (THROTTLE_CONTROLLER_OK, Some ctl, w') ->
  ctl = mk_throttle_controller true setup [] (max_records setup) /\ validate_config (Some setup) = THROTTLE_CONTROLLER_OK.
Proof.
  unfold throttle_controller_init. destruct (Z.eqb_spec (validate_config (Some setup)) THROTTLE_CONTROLLER_OK) as [Hv|Hv];
    cbn [negb]; [|by intros [=]]. destruct (pe_calloc (max_records setup) 1 w) as [[] w1]; cbn [negb]; [|done].
  destruct (negb (dry_run setup) && configure_throttled_cpu_max setup);
    [destruct (cg_set_cpu_max _ _ w1) as [rc1 w2]; destruct (rc1 =? 0); [|done]|];
    cbn [negb Z.eqb]; destruct (negb (dry_run setup) && configure_protected_memory_low setup);
    try (destruct (cg_set_memory_low _ _ _) as [rc2 w3]; destruct (rc2 =? 0); [|done]);
    cbn [negb Z.eqb]; intros [= <- <-]; done.
Qed.

Lemma init_wf setup : 0 <= max_records setup ->
  wf (mk_throttle_controller true setup [] (max_records setup)).
Proof. intros Hm. constructor; cbn; try done; constructor. Qed.

(** A call that is not accepted changes no record and migrates nothing. *)
Lemma apply_rejected ctl candidates count st w rc octl st' w' :
  clock_keeps (cfg ctl) -> initialized ctl = true ->
  (prevalidate_candidates ctl candidates count <> THROTTLE_CONTROLLER_OK \/
   (controller_now_ns ctl w).1.1 <> THROTTLE_CONTROLLER_OK) ->
  throttle_controller_apply_candidates (Some ctl) candidates count st w = (rc, octl, st', w') ->
  octl = Some ctl /\ rc <> THROTTLE_CONTROLLER_OK /\ forall q, cg_placed w' q = cg_placed w q.
Proof.
  intros Hk Hi Hrej. unfold throttle_controller_apply_candidates. rewrite Hi. cbn [negb].
  destruct (Z.eqb_spec (prevalidate_candidates ctl candidates count) THROTTLE_CONTROLLER_OK) as [Hp|Hp]; cbn [negb];
    [|by intros [= <- <- <- <-]].
  destruct Hrej as [?|Hrej]; [done|]. pose proof (now_keeps ctl w) as Hn.
  destruct (controller_now_ns ctl w) as [[rcn n] w1]. cbn [fst snd] in *.
  destruct (Z.eqb_spec rcn THROTTLE_CONTROLLER_OK); [done|]. cbn [negb]. intros [= <- <- <- <-].
  repeat split; try done. intros q. by apply Hn.
Qed.

Lemma release_rejected ctl st w rc octl st' w' :
  clock_keeps (cfg ctl) -> initialized ctl = true -> (controller_now_ns ctl w).1.1 <> THROTTLE_CONTROLLER_OK ->
  throttle_controller_release_all (Some ctl) st w = (rc, octl, st', w') ->
  octl = Some ctl /\ rc <> THROTTLE_CONTROLLER_OK /\ forall q, cg_placed w' q = cg_placed w q.
Proof.
  intros Hk Hi Hrej. unfold throttle_controller_release_all. rewrite Hi. cbn [negb].
  pose proof (now_keeps ctl w) as Hn. destruct (controller_now_ns ctl w) as [[rcn n] w1]. cbn [fst snd] in *.
  destruct (Z.eqb_spec rcn THROTTLE_CONTROLLER_OK); [done|]. cbn [negb]. intros [= <- <- <- <-].
  repeat split; try done. intros q. by apply Hn.
Qed.

(** The invariant survives any call in which every process takes a step. *)
Lemma invariant_steps setup ctl ctl' w w0 w' t now ps (lab : Z -> label) :
  invariant setup ctl w t -> wf ctl' -> same_setup ctl ctl' -> NoDup ps -> runs setup lab ps w0 w' ->
  (forall q, cg_placed w0 q = cg_placed w q) -> t <= now -> in_u64 now ->
  (forall p r', tracked ctl' p = Some r' -> p ∈ ps /\ exists ev,
     (exists r, tracked ctl p = Some r /\ phase_step setup now ev (lab p) (phase_of r) (phase_of r')) \/
     (tracked ctl p = None /\ phase_step setup now ev (lab p) (fresh_phase now) (phase_of r'))) ->
  invariant setup ctl' w' now.
Proof.
  intros [Hwf Hcfg Ht Htm Hh] Hwf' (_ & Hc & _) Hnd Hruns Hk Hle Hu Hall. constructor; try done; [congruence| |].
  - intros p r' Htr. destruct (Hall p r' Htr) as (_ & ev & [(r & Hr & Hs)|(_ & Hs)]).
    + eapply timely_step; [exact Hs|by apply (Htm p)|unfold in_u64 in Ht; lia|done].
    + eapply timely_step; [exact Hs|by apply timely_fresh|unfold in_u64 in Hu; lia|done].
  - intros Hd p r' Htr. destruct (Hall p r' Htr) as (Hin & ev & Hcase).
    rewrite (runs_placed _ _ _ _ _ p Hnd Hruns), (bool_decide_true _ Hin), Hk.
    change (state r') with (ph_state (phase_of r')).
    destruct Hcase as [(r & Hr & Hs)|(_ & Hs)]; (eapply phase_step_home; [exact Hs|done|]); [by apply (Hh Hd)|done].
Qed.

Lemma judged_steps ctl now cs lab ctl' p r' : judged ctl now cs lab ctl' p -> tracked ctl' p = Some r' ->
  p ∈ schedule ctl cs /\ exists ev,
    (exists r, tracked ctl p = Some r /\ phase_step (cfg ctl) now ev (lab p) (phase_of r) (phase_of r')) \/
    (tracked ctl p = None /\ phase_step (cfg ctl) now ev (lab p) (fresh_phase now) (phase_of r')).
Proof.
  unfold judged, before. intros Hj Ht. rewrite Ht in Hj. rewrite schedule_elem.
  destruct (observed cs p) as [c|] eqn:Ho.
  - apply observed_elem in Ho as [<- Hc]. split; [left; by apply elem_pids|]. exists (Observed c).
    destruct (tracked ctl (cand_pid c)) as [r|]; [left|right]; eauto.
  - destruct (tracked ctl p) as [r|] eqn:Hr; [|done]. split; [right; by eapply tracked_elem|]. exists Unseen. left. eauto.
Qed.

Lemma given_acceptable ctl candidates count :
  prevalidate_candidates ctl candidates count = THROTTLE_CONTROLLER_OK -> NoDup (pids (given candidates count)).
Proof. by intros [_ (_ & Hnd & _)]%prevalidate_spec. Qed.

Lemma clock_at_ok ctl w t now n w0 : controller_now_ns ctl w = (THROTTLE_CONTROLLER_OK, n, w0) ->
  clock_at ctl w t now -> n = now /\ t <= now /\ in_u64 now.
Proof. unfold clock_at. by intros ->. Qed.

Lemma clock_at_le ctl w t now : in_u64 t -> clock_at ctl w t now -> t <= now /\ in_u64 now.
Proof.
  unfold clock_at. destruct (controller_now_ns ctl w) as [[rc n] w0].
  destruct (rc =? THROTTLE_CONTROLLER_OK); [tauto|]. intros ? ->. split; [lia|done].
Qed.

Lemma invariant_idle setup ctl w w' t now : invariant setup ctl w t ->
  (forall p, p ∈ map pid (records ctl) -> cg_placed w' p = cg_placed w p) -> t <= now -> in_u64 now ->
  invariant setup ctl w' now.
Proof.
  intros [Hwf Hcfg Ht Htm Hh] Hk Hle Hu. constructor; try done.
  - intros p r Hr. eapply timely_later; [by apply (Htm p)|done].
  - intros Hd p r Hr. rewrite Hk by (by eapply tracked_elem). by apply (Hh Hd).
Qed.

(** One accepted call of either kind. *)
Lemma apply_invariant setup ctl w t candidates count st rc ctl' st' w' now :
  clock_keeps setup -> invariant setup ctl w t -> clock_at ctl w t now ->
  throttle_controller_apply_candidates (Some ctl) candidates count st w = (rc, Some ctl', st', w') ->
  invariant setup ctl' w' now.
Proof.
  intros Hk Hinv Hat Hcall. pose proof Hinv as [Hwf Hcfg Ht _ _]. rewrite <- Hcfg in Hk.
  destruct (clock_at_le _ _ _ _ Ht Hat) as [Hle Hu].
  destruct (Z.eq_dec (prevalidate_candidates ctl candidates count) THROTTLE_CONTROLLER_OK) as [Hp|Hp].
  2:{ eapply apply_rejected in Hcall as (Heq & _ & Hpl); [|done|apply Hwf|by left]. injection Heq as ->. by eapply invariant_idle. }
  destruct (Z.eq_dec (controller_now_ns ctl w).1.1 THROTTLE_CONTROLLER_OK) as [Hn|Hn].
  2:{ eapply apply_rejected in Hcall as (Heq & _ & Hpl); [|done|apply Hwf|by right]. injection Heq as ->. by eapply invariant_idle. }
  pose proof (now_keeps ctl w) as Hkw. destruct (controller_now_ns ctl w) as [[rcn n] w0] eqn:Hnow. cbn [fst snd] in *. subst rcn.
  destruct (clock_at_ok _ _ _ _ _ _ Hnow Hat) as [-> _].
  destruct (apply_accepted ctl candidates count st now w w0 Hwf Hp Hnow) as (ctl2 & st2 & w2 & lab & Hres & Hruns & Hset & Hwf2 & Hj).
  rewrite Hres in Hcall. injection Hcall as <- <- <- <-. apply given_acceptable in Hp. rewrite Hcfg in Hruns, Hk.
  apply (invariant_steps setup ctl ctl2 w w0 w2 t now (schedule ctl (given candidates count)) lab); try done.
  - by apply schedule_nodup.
  - intros q. apply Hkw. by rewrite Hcfg.
  - intros p r' Hr'. rewrite <- Hcfg. by eapply judged_steps.
Qed.

Lemma release_invariant setup ctl w t st rc ctl' st' w' now :
  clock_keeps setup -> invariant setup ctl w t -> clock_at ctl w t now ->
  throttle_controller_release_all (Some ctl) st w = (rc, Some ctl', st', w') -> invariant setup ctl' w' now.
Proof.
  intros Hk Hinv Hat Hcall. pose proof Hinv as [Hwf Hcfg Ht _ _]. rewrite <- Hcfg in Hk.
  destruct (clock_at_le _ _ _ _ Ht Hat) as [Hle Hu].
  destruct (Z.eq_dec (controller_now_ns ctl w).1.1 THROTTLE_CONTROLLER_OK) as [Hn|Hn].
  2:{ eapply release_rejected in Hcall as (Heq & _ & Hpl); [|done|apply Hwf|done]. injection Heq as ->. by eapply invariant_idle. }
  pose proof (now_keeps ctl w) as Hkw. destruct (controller_now_ns ctl w) as [[rcn n] w0] eqn:Hnow. cbn [fst snd] in *. subst rcn.
  destruct (clock_at_ok _ _ _ _ _ _ Hnow Hat) as [-> _].
  destruct (release_all_accepted ctl st now w w0 Hwf Hnow) as (ctl2 & st2 & w2 & lab & Hres & Hruns & Hset & Hwf2 & Hj).
  rewrite Hres in Hcall. injection Hcall as <- <- <- <-. rewrite Hcfg in Hruns, Hk.
  apply (invariant_steps setup ctl ctl2 w w0 w2 t now (map pid (records ctl)) lab); try done.
  - apply Hwf.
  - intros q. apply Hkw. by rewrite Hcfg.
  - intros p r' Hr'. specialize (Hj p). rewrite Hr' in Hj. destruct (tracked ctl p) as [r|] eqn:Hr; [|done].
    split; [by eapply tracked_elem|]. exists Shutdown. left. rewrite <- Hcfg. eauto.
Qed.

Lemma reachable_inv setup ctl w t : clock_keeps setup -> 0 <= max_records setup ->
  reachable setup ctl w t -> invariant setup ctl w t.
Proof.
  intros Hk Hm Hr. induction Hr as [c w ctl w' Hi|ctl w t ? ? ? ? ? ? ? ? _ IH Hat Hc|ctl w t ? ? ? ? ? ? _ IH Hat Hc|ctl w t w' _ IH Hkern].
  - apply init_ok_inv in Hi as [-> _]. constructor; try done. by apply init_wf.
  - by eapply apply_invariant.
  - by eapply release_invariant.
  - eapply invariant_idle; [exact IH|done|lia|apply IH].
Qed.
End Safety.
