(* ===== verification/ThrottleProps.v ===== *)
(** * Properties of the throttle controller

    The controller runs in the daemon's process on a cgroup v2 file system: the
    instances at the top connect it to [Cgroup] and [Os].  The theorems hold for
    every implementation of the interfaces; their witnesses run the controller
    on the simulated kernel. *)
From S2P Require Import Prelude Float64 CString Os Cgroup SimOs Candidate ThrottleController ThrottleSpec ThrottleSafety.
From Stdlib Require Import Ascii String.
Local Open Scope Z_scope.

(** ** The daemon's process *)

#[export] Instance process_env {W} `{OS W} : ProcessEnv (cgroup_world W) := {|
  pe_clock w := let '(ts, o) := os_clock (cw_os w) in (ts, mk_cgroup_world (cw_base w) o);
  pe_calloc n size w := let '(ok, o) := os_calloc n size (cw_os w) in (ok, mk_cgroup_world (cw_base w) o)
|}.

#[export] Program Instance process_env_laws {W} `{Cgroupfs W} : ProcessEnvLaws (cgroup_world W).
Next Obligation.
  intros W ? ? [base o] q. cbn. pose proof (fs_clock o q) as Hk. destruct (os_clock o) as [ts o']. cbn in *.
  unfold cgroup_placed. cbn. by rewrite Hk.
Qed.
Next Obligation.
  intros W ? ? n size [base o] q. cbn. pose proof (fs_calloc n size o q) as Hk. destruct (os_calloc n size o) as [ok o']. cbn in *.
  unfold cgroup_placed. cbn. by rewrite Hk.
Qed.

(** ** A run on the simulated kernel *)

Definition demo_setup : throttle_controller_config (cgroup_world sim) :=
  default throttle_controller_config_zero (throttle_controller_config_default (Some throttle_controller_config_zero)).

Definition demo_world : cgroup_world sim :=
  mk_cgroup_world "/cg" (sim_empty <| sim_clock := 5000000000 |> <| sim_tick := 4000000000 |>
    <| sim_member := {[ 42 := "/cg/background"%string ]} |>).

Definition demo_candidate (score : double) : interference_candidate :=
  mk_interference_candidate 42 score dzero dzero dzero score score 7 true true "".

Definition demo_zero : throttle_controller (cgroup_world sim) := throttle_controller_zero.

Definition demo_init : Z * option (throttle_controller (cgroup_world sim)) * cgroup_world sim :=
  throttle_controller_init (Some demo_zero) (Some demo_setup) demo_world.

Definition demo_ctl0 : throttle_controller (cgroup_world sim) := default demo_zero demo_init.1.2.
Definition demo_w0 : cgroup_world sim := demo_init.2.

(** A hot candidate at 5 s, the same process calm at 9 s and again hot at 13 s. *)
Definition demo_call (ctl : throttle_controller (cgroup_world sim)) (w : cgroup_world sim) (score : double)
  : Z * option (throttle_controller (cgroup_world sim)) * stats_ptr * cgroup_world sim :=
  throttle_controller_apply_candidates (Some ctl) (Some [demo_candidate score]) 1 (Some throttle_controller_stats_zero) w.

Definition demo_hot : double := dlit 1 2.
Definition demo_calm : double := dlit 1 20.

Definition demo_r1 := demo_call demo_ctl0 demo_w0 demo_hot.
Definition demo_ctl1 : throttle_controller (cgroup_world sim) := default demo_zero demo_r1.1.1.2.
Definition demo_r2 := demo_call demo_ctl1 demo_r1.2 demo_calm.
Definition demo_ctl2 : throttle_controller (cgroup_world sim) := default demo_zero demo_r2.1.1.2.

Definition demo_state (ctl : throttle_controller (cgroup_world sim)) (w : cgroup_world sim)
  : option throttle_state * option proc_group := (state <$> tracked ctl 42, cgroup_placed w 42).

Example demo_states :
  demo_state demo_ctl0 demo_w0 = (None, Some GROUP_BACKGROUND) /\
  demo_state demo_ctl1 demo_r1.2 = (Some THROTTLE_STATE_THROTTLED, Some GROUP_THROTTLED) /\
  demo_state demo_ctl2 demo_r2.2 = (Some THROTTLE_STATE_COOLDOWN, Some GROUP_BACKGROUND).
Proof. vm_compute. auto. Qed.

Lemma demo_wf0 : wf demo_ctl0.
Proof. constructor; try (by vm_compute); constructor. Qed.

Lemma demo_reach0 : reachable demo_setup demo_ctl0 demo_w0 0.
Proof. apply (reach_init _ demo_zero demo_world). vm_compute. reflexivity. Qed.

Lemma demo_reach1 : reachable demo_setup demo_ctl1 demo_r1.2 5000000000.
Proof.
  apply (reach_apply _ demo_ctl0 demo_w0 0 (Some [demo_candidate demo_hot]) 1 (Some throttle_controller_stats_zero)
    demo_r1.1.1.1 demo_ctl1 demo_r1.1.2); [exact demo_reach0| |].
  - vm_compute. repeat split; try done.
  - vm_compute. reflexivity.
Qed.

Lemma demo_clock_keeps : clock_keeps demo_setup.
Proof. by intros f w q [=]. Qed.

(** ** Refinement of the automaton *)

Section Refinement.
Context {W : Type} `{CgroupOps W} `{ProcessEnv W}.

(** C16: An accepted call of [throttle_controller_apply_candidates] refines the
    hysteresis automaton: every tracked process and every candidate takes
    exactly one step of [phase_step] (the step of its candidate, or the step
    of absence), the migrations are exactly those of the steps' labels, in the
    order candidates first, then the remaining records; the call returns
    CGROUP when one of them failed and OK otherwise, never NO_SPACE, and the
    controller stays well formed. *)
Theorem apply_refines_automaton (ctl : throttle_controller W) candidates count st now w w0 :
  wf ctl -> prevalidate_candidates ctl candidates count = THROTTLE_CONTROLLER_OK ->
  controller_now_ns ctl w = (THROTTLE_CONTROLLER_OK, now, w0) ->
  exists rc ctl' st' w' lab,
    throttle_controller_apply_candidates (Some ctl) candidates count st w = (rc, Some ctl', st', w') /\
    (forall p, judged ctl now (given candidates count) lab ctl' p) /\
    runs (cfg ctl) lab (schedule ctl (given candidates count)) w0 w' /\
    rc = (if existsb (fun p => failed (lab p)) (schedule ctl (given candidates count))
          then THROTTLE_CONTROLLER_ERR_CGROUP else THROTTLE_CONTROLLER_OK) /\
    wf ctl' /\ cfg ctl' = cfg ctl.
Proof.
  intros Hwf Hp Hn. destruct (apply_accepted ctl candidates count st now w w0 Hwf Hp Hn)
    as (ctl' & st' & w' & lab & Hres & Hruns & (_ & Hcfg & _) & Hwf' & Hj).
  exists (outcome lab (schedule ctl (given candidates count)) THROTTLE_CONTROLLER_OK), ctl', st', w', lab. done.
Qed.

(** [prevalidate_candidates] accepts a batch exactly when every candidate
    is valid (positive pid, the three scores finite and within [0,1]), no pid
    occurs twice and the untracked pids fit in the free records. *)
Theorem prevalidate_accepts (ctl : throttle_controller W) cs :
  prevalidate_candidates ctl (Some cs) (Z.of_nat (List.length cs)) = THROTTLE_CONTROLLER_OK <->
    Forall (fun c => candidate_valid c = true) cs /\ NoDup (map cand_pid cs) /\
    Z.of_nat (List.length (List.filter (fun c => negb (bool_decide (is_Some (find_record_const ctl (cand_pid c))))) cs))
      <= record_cap ctl - record_count ctl.
Proof.
  rewrite prevalidate_spec. unfold given. rewrite Nat2Z.id, firstn_all. unfold acceptable, unknown, pids, tracked. naive_solver.
Qed.

(** A rejected batch leaves the controller and the world as they were,
    returns INVALID_ARG or NO_SPACE, and the statistics hold that one error. *)
Theorem apply_reject_transparent (ctl : throttle_controller W) candidates count s w :
  initialized ctl = true -> prevalidate_candidates ctl candidates count <> THROTTLE_CONTROLLER_OK ->
  exists rc s', throttle_controller_apply_candidates (Some ctl) candidates count (Some s) w = (rc, Some ctl, Some s', w) /\
    (rc = THROTTLE_CONTROLLER_ERR_INVALID_ARG \/ rc = THROTTLE_CONTROLLER_ERR_NO_SPACE) /\
    errors s' = 1 /\ stats_last_error s' = rc /\ records_seen s' = 0 /\ candidate_count s' = 0.
Proof.
  intros Hi Hp. unfold throttle_controller_apply_candidates. rewrite Hi. cbn [negb].
  assert (Hrc : prevalidate_candidates ctl candidates count = THROTTLE_CONTROLLER_ERR_INVALID_ARG \/
    prevalidate_candidates ctl candidates count = THROTTLE_CONTROLLER_ERR_NO_SPACE).
  { assert (Hl : forall cs seen n, prevalidate_loop ctl seen cs n <> THROTTLE_CONTROLLER_OK ->
      prevalidate_loop ctl seen cs n = THROTTLE_CONTROLLER_ERR_INVALID_ARG \/
      prevalidate_loop ctl seen cs n = THROTTLE_CONTROLLER_ERR_NO_SPACE).
    { induction cs as [|c cs IH]; intros seen n; cbn [prevalidate_loop].
      - destruct (_ <? n); [by right|done].
      - destruct (negb (candidate_valid c)); [by left|]. destruct (existsb _ seen); [by left|]. apply IH. }
    unfold prevalidate_candidates in *. destruct candidates; [by apply Hl|]. destruct (0 <? count); [by left|]. by apply Hl. }
  apply Z.eqb_neq in Hp as Hb. rewrite Hb. cbn [negb]. eexists _, _. split; [reflexivity|]. split; [exact Hrc|]. done.
Qed.
End Refinement.

Lemma apply_refines_automaton_witness :
  exists rc ctl' st' w' lab, demo_call demo_ctl0 demo_w0 demo_hot = (rc, Some ctl', st', w') /\
    (forall p, judged demo_ctl0 5000000000 [demo_candidate demo_hot] lab ctl' p) /\
    rc = (if existsb (fun p => failed (lab p)) [42] then THROTTLE_CONTROLLER_ERR_CGROUP else THROTTLE_CONTROLLER_OK).
Proof.
  destruct (apply_refines_automaton demo_ctl0 (Some [demo_candidate demo_hot]) 1 (Some throttle_controller_stats_zero)
    5000000000 demo_w0 (controller_now_ns demo_ctl0 demo_w0).2) as (rc & ctl' & st' & w' & lab & H1 & H2 & _ & H4 & _);
    [exact demo_wf0|vm_compute; reflexivity|vm_compute; reflexivity|].
  exists rc, ctl', st', w', lab. split; [exact H1|]. split; [exact H2|exact H4].
Defined.

Lemma apply_reject_transparent_witness :
  exists rc s', throttle_controller_apply_candidates (Some demo_ctl1) (Some [demo_candidate demo_hot; demo_candidate demo_hot]) 2
      (Some throttle_controller_stats_zero) demo_r1.2 = (rc, Some demo_ctl1, Some s', demo_r1.2) /\
    (rc = THROTTLE_CONTROLLER_ERR_INVALID_ARG \/ rc = THROTTLE_CONTROLLER_ERR_NO_SPACE) /\
    errors s' = 1 /\ stats_last_error s' = rc /\ records_seen s' = 0 /\ candidate_count s' = 0.
Proof. apply apply_reject_transparent; [reflexivity|vm_compute; discriminate]. Defined.

(** ** Safety of every reachable controller *)

Section Reachable.
Context {W : Type} `{PL : ProcessEnvLaws W}.
Implicit Types (ctl : throttle_controller W) (w : W) (setup : throttle_controller_config W).

(** C18: In every state reachable from [throttle_controller_init] by calls of
    [apply_candidates] and [release_all] (failed migrations, clock failures
    and rejected batches included), the records have distinct positive pids,
    named states and fit the capacity, and outside dry-run mode the controller
    and the kernel agree: a THROTTLED process is in the throttled group and a
    process in COOLDOWN is in the normal group. *)
Theorem reachable_placement setup ctl w t :
  clock_keeps setup -> 0 <= max_records setup -> reachable setup ctl w t ->
  NoDup (map pid (records ctl)) /\ Forall (fun p => 0 < p) (map pid (records ctl)) /\
  record_count ctl <= record_cap ctl /\ Forall named (records ctl) /\
  (dry_run setup = false -> forall r, r ∈ records ctl ->
     (state r = THROTTLE_STATE_THROTTLED -> cg_placed w (pid r) = Some (throttled_group setup)) /\
     (state r = THROTTLE_STATE_COOLDOWN -> cg_placed w (pid r) = Some (normal_group setup))).
Proof.
  intros Hk Hm Hr. destruct (reachable_inv _ _ _ _ Hk Hm Hr) as [Hwf _ _ _ Hh].
  split; [apply Hwf|]. split; [apply Hwf|]. split; [apply Hwf|]. split; [apply Hwf|].
  intros Hd r Hin. pose proof (elem_lookup_pid _ _ (wf_pids _ Hwf) Hin) as Ht.
  split; intros Hst; apply (Hh Hd _ _ Ht); rewrite Hst; reflexivity.
Qed.

(** C27: No flapping.  From a reachable controller, a call at time [now] throttles
    a tracked process only for an active candidate the detector asks to throttle
    with [final_score >= high], and only if the process was never migrated or
    the cooldown has elapsed since its last migration; it releases a throttled
    process only once the minimal throttling time has elapsed since it was
    throttled, and only for a candidate with [final_score <= low] or because
    the process has not been a candidate for [stale_after_ms]. *)
Theorem no_flapping setup ctl w t candidates count st rc ctl' st' w' now r r' p :
  clock_keeps setup -> 0 <= max_records setup -> reachable setup ctl w t -> clock_at ctl w t now ->
  throttle_controller_apply_candidates (Some ctl) candidates count st w = (rc, Some ctl', st', w') ->
  tracked ctl p = Some r -> tracked ctl' p = Some r' ->
  (state r <> THROTTLE_STATE_THROTTLED -> state r' = THROTTLE_STATE_THROTTLED ->
     (exists c, c ∈ given candidates count /\ cand_pid c = p /\ candidate_requests_throttle setup c = true) /\
     (last_action_ns r = 0 \/ elapsed_at_least now (last_action_ns r) (cooldown_duration_ms setup) = true)) /\
  (state r = THROTTLE_STATE_THROTTLED -> state r' <> THROTTLE_STATE_THROTTLED ->
     elapsed_at_least now (last_action_ns r) (min_throttle_duration_ms setup) = true /\
     ((exists c, c ∈ given candidates count /\ cand_pid c = p /\
         dleb (final_score c) (low_score_threshold setup) = true) \/
      elapsed_at_least now (last_seen_ns r) (stale_after_ms setup) = true)).
Proof.
  intros Hk Hm Hr Hat Hcall Htr Htr'. destruct (reachable_inv _ _ _ _ Hk Hm Hr) as [Hwf Hcfg Ht Htm _].
  destruct (clock_at_le _ _ _ _ Ht Hat) as [Hle Hu]. rewrite <- Hcfg in Hk.
  assert (Hidle : ctl' = ctl -> r' = r) by (intros ->; congruence).
  destruct (Z.eq_dec (prevalidate_candidates ctl candidates count) THROTTLE_CONTROLLER_OK) as [Hp|Hp].
  2:{ eapply apply_rejected in Hcall as ([= <-] & _); [|done|apply Hwf|by left]. rewrite Hidle by done. done. }
  destruct (Z.eq_dec (controller_now_ns ctl w).1.1 THROTTLE_CONTROLLER_OK) as [Hn|Hn].
  2:{ eapply apply_rejected in Hcall as ([= <-] & _); [|done|apply Hwf|by right]. rewrite Hidle by done. done. }
  clear Hidle. destruct (controller_now_ns ctl w) as [[rcn n] w0] eqn:Hnow. cbn in Hn. subst rcn.
  destruct (clock_at_ok _ _ _ _ _ _ Hnow Hat) as [-> _].
  destruct (apply_accepted ctl candidates count st now w w0 Hwf Hp Hnow) as (ctl2 & st2 & w2 & lab & Hres & _ & _ & _ & Hj).
  rewrite Hres in Hcall. injection Hcall as <- <- <- <-. specialize (Hj p).
  unfold judged, before in Hj. rewrite Htr, Htr' in Hj. rewrite Hcfg in Hj. specialize (Htm p r Htr).
  assert (Hts : 0 <= t <= now) by (unfold in_u64 in Ht; lia).
  destruct (observed (given candidates count) p) as [c|] eqn:Ho;
    destruct (timely_migration _ _ _ _ _ _ _ Hj Htm Hts Hu) as [Hin Hout]; cbn [phase_of ph_state ph_action ph_seen] in *.
  - apply observed_elem in Ho as [Hpc Hc]. split.
    + intros Ha Hb. destruct (Hin Ha Hb) as [(c' & [= <-] & Hw) He]. eauto.
    + intros Ha Hb. destruct (Hout Ha Hb ltac:(done)) as [He Hwhy]. split; [exact He|].
      destruct Hwhy as [(c' & [= <-] & Hw)|[? _]]; [left; eauto|done].
  - split.
    + intros Ha Hb. destruct (Hin Ha Hb) as [(c' & ? & _) _]. done.
    + intros Ha Hb. destruct (Hout Ha Hb ltac:(done)) as [He Hwhy]. split; [exact He|].
      destruct Hwhy as [(c' & ? & _)|[_ Hs]]; [done|right; exact Hs].
Qed.

(** A process that is migrated is a candidate put into the throttled group, or was
    throttled and is put back into the normal one. *)
Lemma apply_moved ctl candidates count st w rc octl st' w' q :
  wf ctl -> clock_keeps (cfg ctl) ->
  throttle_controller_apply_candidates (Some ctl) candidates count st w = (rc, octl, st', w') ->
  cg_placed w' q <> cg_placed w q ->
  ((q ∈ map cand_pid (given candidates count) /\ cg_placed w' q = Some (throttled_group (cfg ctl))) \/
   (exists r, tracked ctl q = Some r /\ state r = THROTTLE_STATE_THROTTLED /\ cg_placed w' q = Some (normal_group (cfg ctl)))) /\
  dry_run (cfg ctl) = false.
Proof.
  intros Hwf Hk Hcall Hne.
  destruct (Z.eq_dec (prevalidate_candidates ctl candidates count) THROTTLE_CONTROLLER_OK) as [Hp|Hp].
  2:{ eapply apply_rejected in Hcall as (_ & _ & Hpl); [|done|apply Hwf|by left]. by rewrite Hpl in Hne. }
  destruct (Z.eq_dec (controller_now_ns ctl w).1.1 THROTTLE_CONTROLLER_OK) as [Hn|Hn].
  2:{ eapply apply_rejected in Hcall as (_ & _ & Hpl); [|done|apply Hwf|by right]. by rewrite Hpl in Hne. }
  pose proof (now_keeps ctl w q Hk) as Hkw. destruct (controller_now_ns ctl w) as [[rcn now] w0] eqn:Hnow. cbn in Hn, Hkw. subst rcn.
  destruct (apply_accepted ctl candidates count st now w w0 Hwf Hp Hnow) as (ctl2 & st2 & w2 & lab & Hres & Hruns & _ & _ & Hj).
  rewrite Hres in Hcall. injection Hcall as <- <- <- <-. apply given_acceptable in Hp.
  rewrite (runs_placed _ _ _ _ _ q (schedule_nodup _ _ Hwf Hp) Hruns), Hkw in Hne |- *.
  destruct (decide (q ∈ schedule ctl (given candidates count))) as [Hin|Hin];
    [rewrite bool_decide_true in Hne |- * by done|by rewrite bool_decide_false in Hne].
  unfold destination in *. specialize (Hj q). destruct (lab q) as [[g []]|] eqn:Hl; try done.
  destruct (dry_run (cfg ctl)); [done|]. split; [|done]. unfold judged, before in Hj. rewrite Hl in Hj.
  destruct (observed _ q) as [c|] eqn:Ho, (tracked ctl q) as [r|] eqn:Ht, (tracked ctl2 q) as [r2|]; try done.
  - apply observed_elem in Ho as [Hpc Hc]. apply phase_step_target in Hj as [[-> _]|[-> Hst]]; [left|right; by exists r].
    split; [|done]. apply list_elem_of_In, in_map_iff. exists c. split; [done|by apply list_elem_of_In].
  - apply observed_elem in Ho as [Hpc Hc]. apply phase_step_target in Hj as [[-> _]|[-> Hst]]; [left|done].
    split; [|done]. apply list_elem_of_In, in_map_iff. exists c. split; [done|by apply list_elem_of_In].
  - apply phase_step_target in Hj as [[_ [c ?]]|[-> Hst]]; [done|right; by exists r].
  - apply observed_none in Ho. apply lookup_pid_none in Ht. by apply schedule_elem in Hin as [?|?].
Qed.

(** [apply_candidates] migrates nothing but tracked processes and candidates
    of the batch, each at most once, and only into the throttled or the normal
    group; with a configuration [throttle_controller_init] accepts, that is
    never the protected group. *)
Theorem apply_moves_only_managed ctl candidates count st w rc octl st' w' q :
  wf ctl -> clock_keeps (cfg ctl) -> validate_config (Some (cfg ctl)) = THROTTLE_CONTROLLER_OK ->
  throttle_controller_apply_candidates (Some ctl) candidates count st w = (rc, octl, st', w') ->
  cg_placed w' q <> cg_placed w q ->
  (is_Some (tracked ctl q) \/ q ∈ map cand_pid (given candidates count)) /\
  (cg_placed w' q = Some (throttled_group (cfg ctl)) \/ cg_placed w' q = Some (normal_group (cfg ctl))) /\
  cg_placed w' q <> Some (protected_group (cfg ctl)) /\ dry_run (cfg ctl) = false.
Proof.
  intros Hwf Hk Hval Hcall Hne. destruct (apply_moved _ _ _ _ _ _ _ _ _ _ Hwf Hk Hcall Hne) as (Hm & Hd).
  assert (Hin : is_Some (tracked ctl q) \/ q ∈ map cand_pid (given candidates count)) by (destruct Hm as [[? _]|(r & Hr & _)]; [by right|left; by eauto]).
  assert (Hg : cg_placed w' q = Some (throttled_group (cfg ctl)) \/ cg_placed w' q = Some (normal_group (cfg ctl))) by (destruct Hm as [[_ ?]|(r & _ & _ & ?)]; auto).
  assert (Hgroups : throttled_group (cfg ctl) <> protected_group (cfg ctl) /\ normal_group (cfg ctl) <> protected_group (cfg ctl)).
  { cbn [validate_config] in Hval. destruct (negb _ || negb _ || negb _); [done|].
    destruct (bool_decide _ || bool_decide _ || bool_decide _) eqn:Hb; [done|]. bool_hyps.
    split; by eapply bool_decide_eq_false. }
  destruct Hgroups as [Hgt Hgn]. split; [exact Hin|]. split; [exact Hg|]. split; [|exact Hd].
  destruct Hg as [->| ->]; congruence.
Qed.

(** [throttle_controller_release_all], when the clock can be read, tries to
    release every THROTTLED process, whatever its durations; it returns OK
    exactly when all of them succeeded, and then no record is THROTTLED and
    outside dry-run mode each of those processes is in the normal group; the
    others, and the other states, are untouched. *)
Theorem release_all_releases ctl st now w w0 :
  wf ctl -> clock_keeps (cfg ctl) -> controller_now_ns ctl w = (THROTTLE_CONTROLLER_OK, now, w0) ->
  exists rc ctl' st' w', throttle_controller_release_all (Some ctl) st w = (rc, Some ctl', st', w') /\
    (rc = THROTTLE_CONTROLLER_OK \/ rc = THROTTLE_CONTROLLER_ERR_CGROUP) /\
    (rc = THROTTLE_CONTROLLER_OK <-> forall p r, tracked ctl' p = Some r -> state r <> THROTTLE_STATE_THROTTLED) /\
    (forall p r, tracked ctl p = Some r -> exists r', tracked ctl' p = Some r' /\
       (state r <> THROTTLE_STATE_THROTTLED -> phase_of r' = phase_of r /\ cg_placed w' p = cg_placed w p) /\
       (state r = THROTTLE_STATE_THROTTLED ->
          (state r' = THROTTLE_STATE_COOLDOWN /\
           (dry_run (cfg ctl) = false -> cg_placed w' p = Some (normal_group (cfg ctl)))) \/
          (phase_of r' = phase_of r /\ cg_placed w' p = cg_placed w p))).
Proof.
  intros Hwf Hk Hnow. pose proof (now_keeps ctl w) as Hkw. rewrite Hnow in Hkw. cbn in Hkw.
  destruct (release_all_accepted ctl st now w w0 Hwf Hnow) as (ctl2 & st2 & w2 & lab & Hres & Hruns & _ & Hwf2 & Hj).
  eexists _, ctl2, st2, w2. split; [exact Hres|]. clear Hres.
  pose proof (fun q => runs_placed _ _ _ _ _ q (wf_pids _ Hwf) Hruns) as Hpl.
  split; [unfold outcome; destruct (existsb _ _); auto|]. split.
  - split.
    + intros Ho p r2 Ht2. specialize (Hj p). rewrite Ht2 in Hj. destruct (tracked ctl p) as [r|] eqn:Ht; [|done].
      assert (Hf : failed (lab p) = false).
      { unfold outcome in Ho. destruct (existsb _ _) eqn:Hex; [done|]. destruct (failed (lab p)) eqn:Hf; [|done].
        rewrite <- Hex. symmetry. apply existsb_exists. exists p. split; [by eapply list_elem_of_In, tracked_elem|exact Hf]. }
      change (state r2) with (ph_state (phase_of r2)).
      destruct (shutdown_step _ _ _ _ _ Hj) as [(Hst & _ & ->)|(Hst & [(_ & ->)|(Hl & _)])]; [done|done|by rewrite Hl in Hf].
    + intros Hall. unfold outcome. destruct (existsb _ _) eqn:Hex; [|done]. exfalso.
      apply existsb_exists in Hex as (p & Hin%list_elem_of_In & Hf). specialize (Hj p).
      destruct (tracked ctl p) as [r|] eqn:Ht; [|by apply lookup_pid_none in Ht]. destruct (tracked ctl2 p) as [r2|] eqn:Ht2; [|done].
      apply (Hall _ _ Ht2). change (state r2) with (ph_state (phase_of r2)).
      destruct (shutdown_step _ _ _ _ _ Hj) as [(_ & Hl & _)|(Hst & [(Hl & _)|(_ & ->)])]; [by rewrite Hl in Hf..|done].
  - intros p r Ht. specialize (Hj p). specialize (Hpl p). rewrite Ht in Hj. rewrite Hkw in Hpl by done.
    rewrite (bool_decide_true _ (tracked_elem _ _ _ Ht)) in Hpl.
    destruct (tracked ctl2 p) as [r2|] eqn:Ht2; [|done]. exists r2. split; [done|].
    destruct (shutdown_step _ _ _ _ _ Hj) as [(Hst & Hl & He)|(Hst & [(Hl & He)|(Hl & He)])]; rewrite Hl in Hpl; cbn [destination] in Hpl;
      cbn [phase_of ph_state] in Hst, He; (split; [|intros Hst2]); try done.
    + left. split; [done|]. intros Hd. by rewrite Hpl, Hd.
    + by right.
Qed.

(** In dry-run mode no operation of the controller touches a cgroup: after
    reading the clock the world is as it was, and every requested transition
    is still recorded. *)
Theorem dry_run_touches_nothing ctl candidates count st now w w0 :
  dry_run (cfg ctl) = true -> wf ctl -> controller_now_ns ctl w = (THROTTLE_CONTROLLER_OK, now, w0) ->
  prevalidate_candidates ctl candidates count = THROTTLE_CONTROLLER_OK ->
  (exists ctl' st' lab, throttle_controller_apply_candidates (Some ctl) candidates count st w =
      (THROTTLE_CONTROLLER_OK, Some ctl', st', w0) /\
    (forall p, judged ctl now (given candidates count) lab ctl' p) /\
    Forall (fun p => failed (lab p) = false) (schedule ctl (given candidates count))) /\
  (exists ctl' st', throttle_controller_release_all (Some ctl) st w = (THROTTLE_CONTROLLER_OK, Some ctl', st', w0) /\
    forall p r, tracked ctl' p = Some r -> state r <> THROTTLE_STATE_THROTTLED).
Proof.
  intros Hd Hwf Hnow Hp. split.
  - destruct (apply_accepted ctl candidates count st now w w0 Hwf Hp Hnow) as (ctl2 & st2 & w2 & lab & Hres & Hruns & _ & _ & Hj).
    pose proof (runs_dry _ _ _ _ _ THROTTLE_CONTROLLER_OK Hd Hruns) as [-> Ho]. rewrite Ho in Hres.
    exists ctl2, st2, lab. repeat split; [done..|]. apply Forall_forall. intros p Hin. unfold outcome in Ho.
    destruct (existsb _ _) eqn:Hex; [done|]. destruct (failed (lab p)) eqn:Hf; [|done].
    rewrite <- Hex. symmetry. apply existsb_exists. exists p. split; [by apply list_elem_of_In|exact Hf].
  - destruct (release_all_accepted ctl st now w w0 Hwf Hnow) as (ctl2 & st2 & w2 & lab & Hres & Hruns & _ & _ & Hj).
    pose proof (runs_dry _ _ _ _ _ THROTTLE_CONTROLLER_OK Hd Hruns) as [-> Ho]. rewrite Ho in Hres.
    exists ctl2, st2. split; [done|]. intros p r2 Ht2. specialize (Hj p). rewrite Ht2 in Hj.
    destruct (tracked ctl p) as [r|] eqn:Ht; [|done]. change (state r2) with (ph_state (phase_of r2)).
    destruct (shutdown_step _ _ _ _ _ Hj) as [(Hst & _ & ->)|(Hst & [(_ & ->)|(Hl & _)])]; [done|done|]. exfalso.
    unfold outcome in Ho. destruct (existsb _ _) eqn:Hex; [done|]. enough (true = false) by done. rewrite <- Hex. symmetry.
    apply existsb_exists. exists p. split; [by eapply list_elem_of_In, tracked_elem|]. by rewrite Hl.
Qed.
End Reachable.

Lemma demo_wf1 : wf demo_ctl1.
Proof.
  assert (Hm : map pid (records demo_ctl1) = [42]) by (vm_compute; reflexivity).
  constructor; rewrite ?Hm; [vm_compute; reflexivity|..|vm_compute; discriminate].
  - apply NoDup_singleton.
  - by constructor.
  - apply List.Forall_forall. vm_compute. intros r [<-|[]]. by right; left.
Qed.

Definition demo_record (ctl : throttle_controller (cgroup_world sim)) : throttle_record :=
  default throttle_record_zero (tracked ctl 42).

Lemma reachable_placement_witness :
  cg_placed demo_r1.2 (pid (demo_record demo_ctl1)) = Some (throttled_group demo_setup).
Proof.
  destruct (reachable_placement demo_setup demo_ctl1 demo_r1.2 5000000000 demo_clock_keeps ltac:(vm_compute; discriminate) demo_reach1)
    as (_ & _ & _ & _ & Hp).
  refine (proj1 (Hp eq_refl (demo_record demo_ctl1) _) _); [|vm_compute; reflexivity].
  apply (lookup_pid_elem _ 42). vm_compute. reflexivity.
Defined.

(** The calm candidate at 9 s releases the process throttled at 5 s. *)
Lemma no_flapping_witness :
  state (demo_record demo_ctl1) = THROTTLE_STATE_THROTTLED /\ state (demo_record demo_ctl2) <> THROTTLE_STATE_THROTTLED /\
  elapsed_at_least 9000000000 (last_action_ns (demo_record demo_ctl1)) (min_throttle_duration_ms demo_setup) = true.
Proof.
  split; [vm_compute; reflexivity|]. split; [vm_compute; discriminate|].
  refine (proj1 (proj2 (no_flapping demo_setup demo_ctl1 demo_r1.2 5000000000 (Some [demo_candidate demo_calm]) 1
    (Some throttle_controller_stats_zero) demo_r2.1.1.1 demo_ctl2 demo_r2.1.2 demo_r2.2 9000000000
    (demo_record demo_ctl1) (demo_record demo_ctl2) 42 demo_clock_keeps _ demo_reach1 _ _ _ _) _ _));
    vm_compute; try discriminate; try reflexivity. repeat split; discriminate.
Defined.

Lemma apply_moves_only_managed_witness :
  cg_placed demo_r1.2 42 <> cg_placed demo_w0 42 /\ cg_placed demo_r1.2 42 <> Some (protected_group (cfg demo_ctl0)).
Proof.
  assert (Hne : cg_placed demo_r1.2 42 <> cg_placed demo_w0 42) by (vm_compute; discriminate).
  split; [exact Hne|].
  refine (proj1 (proj2 (proj2 (apply_moves_only_managed demo_ctl0 (Some [demo_candidate demo_hot]) 1
    (Some throttle_controller_stats_zero) demo_w0 demo_r1.1.1.1 demo_r1.1.1.2 demo_r1.1.2 demo_r1.2 42 demo_wf0 demo_clock_keeps _ _ Hne))));
    vm_compute; reflexivity.
Defined.

Lemma release_all_releases_witness :
  exists rc ctl' st' w', throttle_controller_release_all (Some demo_ctl1) None demo_r1.2 = (rc, Some ctl', st', w') /\
    (rc = THROTTLE_CONTROLLER_OK <-> forall p r, tracked ctl' p = Some r -> state r <> THROTTLE_STATE_THROTTLED).
Proof.
  destruct (release_all_releases demo_ctl1 None 9000000000 demo_r1.2 (controller_now_ns demo_ctl1 demo_r1.2).2 demo_wf1 demo_clock_keeps)
    as (rc & ctl' & st' & w' & H1 & _ & H2 & _); [vm_compute; reflexivity|].
  exists rc, ctl', st', w'. split; [exact H1|exact H2].
Defined.

Definition dry_setup : throttle_controller_config (cgroup_world sim) :=
  mk_throttle_controller_config GROUP_BACKGROUND GROUP_THROTTLED GROUP_PROTECTED "20000 100000" "0"
    (dlit 20 100) (dlit 10 100) 3000 2000 2000 256 true true false None.

Definition dry_ctl : throttle_controller (cgroup_world sim) := mk_throttle_controller true dry_setup [] 256.

Lemma dry_run_touches_nothing_witness :
  exists ctl' st' lab, throttle_controller_apply_candidates (Some dry_ctl) (Some [demo_candidate demo_hot]) 1
      (Some throttle_controller_stats_zero) demo_world =
      (THROTTLE_CONTROLLER_OK, Some ctl', st', (controller_now_ns dry_ctl demo_world).2) /\
    (forall p, judged dry_ctl 5000000000 [demo_candidate demo_hot] lab ctl' p).
Proof.
  destruct (dry_run_touches_nothing dry_ctl (Some [demo_candidate demo_hot]) 1 (Some throttle_controller_stats_zero)
    5000000000 demo_world (controller_now_ns dry_ctl demo_world).2 eq_refl) as [(ctl' & st' & lab & H1 & H2 & _) _];
    [constructor; try (by vm_compute); constructor|vm_compute; reflexivity|vm_compute; reflexivity|].
  exists ctl', st', lab. split; [exact H1|exact H2].
Defined.

(** ** Time *)

(** [elapsed_at_least] is exact on 64-bit times: it holds when at least
    [duration_ms] milliseconds, saturated at 2^64-1 nanoseconds, separate
    [start] from [now], and never when [now] is before [start]. *)
Theorem elapsed_exact now start ms : in_u64 now -> in_u64 start -> in_u64 ms ->
  (elapsed_at_least now start ms = true <-> Z.min (ms * 1000000) UINT64_MAX <= now - start) /\
  (now < start -> elapsed_at_least now start ms = false) /\ in_u64 (ms_to_ns ms).
Proof.
  intros Hn Hs Hm. split; [apply elapsed_spec; try done; unfold in_u64 in Hm; lia|]. split.
  - intros Hlt. unfold elapsed_at_least. by rewrite (proj2 (Z.ltb_lt _ _) Hlt).
  - rewrite ms_to_ns_min by (unfold in_u64 in Hm; lia). unfold in_u64, UINT64_MAX, NSEC_PER_MSEC in *. lia.
Qed.

Lemma elapsed_exact_witness : elapsed_at_least 9000000000 5000000000 3000 = true <-> 3000000000 <= 4000000000.
Proof. refine (proj1 (elapsed_exact 9000000000 5000000000 3000 _ _ _)); unfold in_u64; lia. Defined.
