(* ===== verification/ThrottleStats.v ===== *)
(** * The statistics of a throttle call

    Every candidate of an accepted batch and every throttled process missing from
    it is counted in exactly one of the outcome counters. *)
From S2P Require Import Prelude Float64 CString Os Cgroup SimOs Candidate ThrottleController ThrottleSpec ThrottleSafety ThrottleProps.
From Stdlib Require Import Ascii String.
Local Open Scope Z_scope.

(** The sum of the outcome counters, as a 64-bit word. *)
Definition tally (s : throttle_controller_stats) : Z :=
  u64 (throttle_actions s + release_actions s + kept_throttled s + skipped_low_score s + skipped_cooldown s + errors s).

(** [st'] counts [n] more outcomes and [m] more records seen than [st]. *)
Definition counted (n m : Z) (st st' : stats_ptr) : Prop :=
  match st with
  | None => st' = None
  | Some s => exists s', st' = Some s' /\ tally s' = u64 (tally s + n) /\
      records_seen s' = u64 (records_seen s + m) /\ candidate_count s' = candidate_count s
  end.

(** Counters that are machine words. *)
Definition seen_word (st : stats_ptr) : Prop := match st with Some s => in_u64 (records_seen s) | None => True end.

Lemma u64_inc_sum a b : u64 (u64_inc a + b) = u64 (a + b + 1).
Proof. unfold u64_inc. rewrite u64_add_l. f_equal. lia. Qed.

Lemma counted_trans n1 m1 n2 m2 st1 st2 st3 : counted n1 m1 st1 st2 -> counted n2 m2 st2 st3 -> counted (n1 + n2) (m1 + m2) st1 st3.
Proof.
  destruct st1 as [s1|]; cbn [counted]; [|by intros ->].
  intros (s2 & -> & Ht2 & Hr2 & Hc2) (s3 & -> & Ht3 & Hr3 & Hc3). exists s3.
  rewrite Ht3, Ht2, Hr3, Hr2, Hc3, Hc2, !u64_add_l, !Z.add_assoc. done.
Qed.

Lemma counted_refl st : seen_word st -> counted 0 0 st st.
Proof.
  destruct st as [s|]; [|done]. intros Hs. exists s. rewrite !Z.add_0_r, (u64_small (records_seen s)) by exact Hs.
  unfold tally. rewrite u64_idemp. done.
Qed.

Lemma counted_word n m st st' : counted n m st st' -> seen_word st'.
Proof. destruct st; cbn [counted]; [|by intros ->]. intros (s' & -> & _ & Hr & _). cbn. rewrite Hr. apply u64_range. Qed.

(** Bumping one outcome counter. *)
Lemma counted_bump f st : seen_word st ->
  (forall s, tally (f s) = u64 (tally s + 1) /\ records_seen (f s) = records_seen s /\ candidate_count (f s) = candidate_count s) ->
  counted 1 0 st (bump f st).
Proof.
  intros Hs Hf. destruct st as [s|]; [|done]. destruct (Hf s) as (H1 & H2 & H3). exists (f s).
  rewrite Z.add_0_r, (u64_small (records_seen s)) by exact Hs. done.
Qed.

(** Move the bumped counter to the front of the sum. *)
Ltac tally_field x :=
  unfold tally; cbn [throttle_actions release_actions kept_throttled skipped_low_score skipped_cooldown errors
    records_seen candidate_count set_field]; split; [|done]; rewrite u64_add_l;
  match goal with |- u64 ?l = u64 ?r =>
    let rest := eval cbv beta in (l - u64_inc x) in
    replace l with (u64_inc x + rest) by lia; rewrite u64_inc_sum; f_equal; lia
  end.

Create HintDb stats.
#[export] Hint Resolve counted_refl counted_word counted_trans counted_bump : stats.

Lemma counted_throttle st : seen_word st -> counted 1 0 st (bump (fun s => s <| throttle_actions ::= u64_inc |>) st).
Proof. intros Hs. apply counted_bump; [done|]. intros s. tally_field (throttle_actions s). Qed.
Lemma counted_release st : seen_word st -> counted 1 0 st (bump (fun s => s <| release_actions ::= u64_inc |>) st).
Proof. intros Hs. apply counted_bump; [done|]. intros s. tally_field (release_actions s). Qed.
Lemma counted_kept st : seen_word st -> counted 1 0 st (bump (fun s => s <| kept_throttled ::= u64_inc |>) st).
Proof. intros Hs. apply counted_bump; [done|]. intros s. tally_field (kept_throttled s). Qed.
Lemma counted_low st : seen_word st -> counted 1 0 st (bump (fun s => s <| skipped_low_score ::= u64_inc |>) st).
Proof. intros Hs. apply counted_bump; [done|]. intros s. tally_field (skipped_low_score s). Qed.
Lemma counted_cooldown st : seen_word st -> counted 1 0 st (bump (fun s => s <| skipped_cooldown ::= u64_inc |>) st).
Proof. intros Hs. apply counted_bump; [done|]. intros s. tally_field (skipped_cooldown s). Qed.

Lemma counted_error st rc why : seen_word st -> counted 1 0 st (set_stats_error st rc why).
Proof.
  intros Hs. apply (counted_bump (fun s => s <| errors ::= u64_inc |> <| stats_last_error := rc |>
    <| last_error_reason := set_reason THROTTLE_CONTROLLER_REASON_MAX why |>)); [done|].
  intros s. tally_field (errors s).
Qed.

Lemma counted_stale n m st st' : counted n m st st' -> counted n m st (bump (fun s => s <| stale_releases ::= u64_inc |>) st').
Proof. destruct st; cbn [counted]; [|by intros ->]. intros (s' & -> & Ht & Hr & Hc). eexists. split; [reflexivity|]. done. Qed.

Lemma counted_seen st : counted 0 1 st (bump (fun s => s <| records_seen ::= u64_inc |>) st).
Proof.
  destruct st as [s|]; [|done]. eexists. split; [reflexivity|]. split; [|done].
  unfold tally. rewrite Z.add_0_r, u64_idemp. done.
Qed.

#[export] Hint Resolve counted_throttle counted_release counted_kept counted_low counted_cooldown counted_error counted_stale : stats.

Section Stats.
Context {W : Type} `{CgroupOps W} `{ProcessEnv W}.
Implicit Types (ctl : throttle_controller W) (w : W) (setup : throttle_controller_config W).

Lemma throttle_record_pid_counted setup r now st w rc r' st' w' : seen_word st ->
  throttle_record_pid setup r now st w = (rc, r', st', w') -> counted 1 0 st st'.
Proof.
  intros Hs. unfold throttle_record_pid. destruct (move_pid setup (pid r) _ w) as [rcm w1].
  destruct (negb _); intros [= <- <- <- <-]; auto with stats.
Qed.

Lemma release_record_pid_counted setup r now s st w rc r' st' w' : seen_word st ->
  release_record_pid setup r now s st w = (rc, r', st', w') -> counted 1 0 st st'.
Proof.
  intros Hs. unfold release_record_pid. destruct (move_pid setup (pid r) _ w) as [rcm w1].
  destruct (negb _); [|destruct s]; intros [= <- <- <- <-]; auto with stats.
Qed.

Lemma apply_switch_counted setup c r now o st w o' r' st' w' : seen_word st ->
  apply_switch setup c r now o st w = (o', r', st', w') -> counted 1 0 st st'.
Proof.
  intros Hs. unfold apply_switch. destruct (state r).
  - destruct (candidate_requests_throttle setup c); [|intros [= <- <- <- <-]; auto with stats].
    destruct (throttle_record_pid setup r now st w) as [[[rc1 r1] st1] w1] eqn:He. intros [= <- <- <- <-].
    by eapply throttle_record_pid_counted.
  - destruct (_ && _); [|intros [= <- <- <- <-]; auto with stats].
    destruct (release_record_pid setup r now false st w) as [[[rc1 r1] st1] w1] eqn:He. intros [= <- <- <- <-].
    by eapply release_record_pid_counted.
  - destruct (negb _); [intros [= <- <- <- <-]; auto with stats|].
    destruct (candidate_requests_throttle setup c); [|intros [= <- <- <- <-]; auto with stats].
    destruct (throttle_record_pid setup _ now st w) as [[[rc1 r1] st1] w1] eqn:He. intros [= <- <- <- <-].
    by eapply throttle_record_pid_counted.
  - intros [= <- <- <- <-]. auto with stats.
Qed.

Lemma apply_loop_counted cs : forall ctl now o st w o' ctl' st' w', seen_word st ->
  apply_loop ctl cs now o st w = (false, o', ctl', st', w') ->
  counted (Z.of_nat (List.length cs)) (Z.of_nat (List.length cs)) st st'.
Proof.
  induction cs as [|c cs IH]; intros ctl now o st w o' ctl' st' w' Hs; cbn [apply_loop]; [intros [= <- <- <- <-]; auto with stats|].
  destruct (apply_candidate ctl c now o st w) as [[[[o1 ctl1] st1] w1]|] eqn:Hc; [|done]. intros Hl.
  assert (H1 : counted 1 1 st st1).
  { unfold apply_candidate in Hc. destruct (match find_record_index _ _ with Some _ => _ | None => _ end) as [[i ctl0]|]; [|done].
    destruct (records ctl0 !! i) as [r|]; [|done].
    set (st0 := bump _ st) in Hc. destruct (apply_switch _ _ _ _ _ st0 _) as [[[o2 r2] st2] w2] eqn:Hsw. injection Hc as <- <- <- <-.
    pose proof (counted_seen st) as Hseen. apply apply_switch_counted in Hsw; [|by eapply counted_word].
    exact (counted_trans _ _ _ _ _ _ _ Hseen Hsw). }
  apply IH in Hl; [|by eapply counted_word]. cbn [List.length]. rewrite Nat2Z.inj_succ, <- Z.add_1_l.
  by eapply counted_trans.
Qed.

(** An unseen throttled record is released, kept or failed. *)
Definition sweeps (r : throttle_record) : bool :=
  negb (seen_in_last_apply r) && bool_decide (state r = THROTTLE_STATE_THROTTLED).

Lemma sweep_record_counted setup r now o st w o' r' st' w' : seen_word st ->
  sweep_record setup r now o st w = (o', r', st', w') -> counted (if sweeps r then 1 else 0) 0 st st'.
Proof.
  intros Hs. unfold sweep_record, sweeps. destruct (seen_in_last_apply r); cbn [negb andb]; [intros [= <- <- <- <-]; auto with stats|].
  destruct (state r) eqn:Hst; rewrite ?bool_decide_false by done; rewrite ?bool_decide_true by done.
  - intros [= <- <- <- <-]. auto with stats.
  - destruct (_ && _); [|intros [= <- <- <- <-]; auto with stats].
    destruct (release_record_pid setup r now true st w) as [[[rc1 r1] st1] w1] eqn:He. intros [= <- <- <- <-].
    by eapply release_record_pid_counted.
  - destruct (elapsed_at_least _ _ _); intros [= <- <- <- <-]; auto with stats.
  - intros [= <- <- <- <-]. auto with stats.
Qed.

Lemma for_records_counted setup now rs : forall o st w o' rs' st' w', seen_word st ->
  for_records (fun r o s w => sweep_record setup r now o s w) rs o st w = (o', rs', st', w') ->
  counted (Z.of_nat (List.length (List.filter sweeps rs))) 0 st st'.
Proof.
  induction rs as [|r rs IH]; intros o st w o' rs' st' w' Hs; cbn [for_records]; [intros [= <- <- <- <-]; by apply counted_refl|].
  destruct (sweep_record setup r now o st w) as [[[o1 r1] st1] w1] eqn:Hsw.
  destruct (for_records _ rs o1 st1 w1) as [[[o2 rs2] st2] w2] eqn:Hrs. intros [= <- <- <- <-].
  apply sweep_record_counted in Hsw; [|done]. apply IH in Hrs; [|by eapply counted_word].
  pose proof (counted_trans _ _ _ _ _ _ _ Hsw Hrs) as Ht. cbn [List.filter].
  destruct (sweeps r); cbn [List.length]; [|exact Ht]. rewrite Nat2Z.inj_succ, <- Z.add_1_l. exact Ht.
Qed.
End Stats.

(** ** Accounting *)

Section Accounting.
Context {W : Type} `{CgroupOps W} `{ProcessEnv W}.
Implicit Types (ctl : throttle_controller W) (w : W).

(** The throttled processes a batch does not mention. *)
Definition absent_throttled ctl cs : list throttle_record :=
  List.filter (fun r => negb (bool_decide (pid r ∈ map cand_pid cs)) && bool_decide (state r = THROTTLE_STATE_THROTTLED)) (records ctl).

Lemma sweeps_absent ctl ctl1 cs (P : Z -> interference_candidate -> throttle_record -> Prop) news :
  wf ctl -> wf ctl1 -> map pid (records ctl1) = map pid (records ctl) ++ news -> (forall p, p ∈ news -> p ∈ pids cs) ->
  (forall p, match observed cs p with
     | None => tracked ctl1 p = tracked (unseen ctl) p
     | Some c => exists r', tracked ctl1 p = Some r' /\ seen_in_last_apply r' = true /\ P p c r'
     end) ->
  List.length (List.filter sweeps (records ctl1)) = List.length (absent_throttled ctl cs).
Proof.
  intros Hwf Hwf1 Hm Hnews Hall. pose proof (seen_flags _ _ _ _ Hwf1 Hall) as Hflags.
  set (g := fun p => negb (bool_decide (p ∈ pids cs)) &&
    match tracked ctl p with Some r => bool_decide (state r = THROTTLE_STATE_THROTTLED) | None => false end).
  rewrite <- (length_map pid (List.filter _ _)), (map_filter_agree pid g).
  2:{ intros r Hr. unfold sweeps, g. rewrite (Hflags r Hr). pose proof (elem_lookup_pid _ _ (wf_pids _ Hwf1) Hr) as Ht.
      destruct (decide (pid r ∈ pids cs)) as [Hin|Hin]; [by rewrite bool_decide_true by done|].
      rewrite bool_decide_false by done. apply observed_none in Hin. specialize (Hall (pid r)). rewrite Hin in Hall.
      change (lookup_pid (records ctl1) (pid r)) with (tracked ctl1 (pid r)) in Ht. rewrite Ht, tracked_unseen in Hall.
      destruct (tracked ctl (pid r)); [by injection Hall as ->|done]. }
  rewrite Hm, List.filter_app, (filter_none g news), app_nil_r.
  2:{ intros p Hp. unfold g. by rewrite bool_decide_true by auto. }
  rewrite <- (map_filter_agree pid g (fun r => negb (bool_decide (pid r ∈ pids cs)) && bool_decide (state r = THROTTLE_STATE_THROTTLED))).
  { apply length_map. }
  intros r Hr. unfold g. pose proof (elem_lookup_pid _ _ (wf_pids _ Hwf) Hr) as Ht.
  unfold tracked. by rewrite Ht.
Qed.

(** The statistics of an accepted batch account for everything the call
    decided: [candidate_count] is the batch's size, [records_seen] counts its
    candidates, and the outcome counters (throttled, released, kept, skipped
    for score, skipped for cooldown, failed) sum up, modulo 2^64, to the
    number of candidates plus the number of throttled processes missing from
    the batch. *)
Theorem apply_accounts ctl candidates count s now w w0 :
  wf ctl -> prevalidate_candidates ctl candidates count = THROTTLE_CONTROLLER_OK ->
  controller_now_ns ctl w = (THROTTLE_CONTROLLER_OK, now, w0) ->
  let cs := given candidates count in
  exists rc ctl' s' w', throttle_controller_apply_candidates (Some ctl) candidates count (Some s) w = (rc, Some ctl', Some s', w') /\
    candidate_count s' = count /\ records_seen s' = u64 (Z.of_nat (List.length cs)) /\
    u64 (throttle_actions s' + release_actions s' + kept_throttled s' + skipped_low_score s' + skipped_cooldown s' + errors s') =
      u64 (Z.of_nat (List.length cs) + Z.of_nat (List.length (absent_throttled ctl cs))).
Proof.
  intros Hwf Hpre Hnow cs. unfold throttle_controller_apply_candidates. rewrite (wf_init _ Hwf). cbn [negb].
  rewrite Hpre, Hnow. cbn [Z.eqb negb]. apply prevalidate_spec in Hpre as [_ (Hv & Hnd & Hroom)].
  fold cs in Hv, Hnd, Hroom. fold (given candidates count) cs. fold (unseen ctl).
  set (st1 := bump _ (throttle_controller_stats_reset (Some s))).
  assert (Hpos : Forall (fun p => 0 < p) (pids cs)).
  { apply Forall_map. eapply Forall_impl; [exact Hv|]. intros c. apply candidate_valid_pos. }
  destruct (apply_loop_steps cs (unseen ctl) now THROTTLE_CONTROLLER_OK st1 w0 (wf_unseen _ Hwf) Hnd Hpos)
    as (ctl1 & st2 & w1 & lab1 & Hloop & Hset & Hwf1 & Hruns1 & (news & Hm & Hnews) & Hall1).
  { rewrite unknown_unseen. unfold record_count, unseen in *. cbn [records with_records record_cap].
    rewrite length_map. change (record_cap ctl) with (record_cap (unseen ctl)) in *. lia. }
  rewrite Hloop. apply apply_loop_counted in Hloop; [|by vm_compute].
  destruct (for_records _ (records ctl1) _ st2 w1) as [[[rc2 rs2] st3] w2] eqn:Hfor.
  apply for_records_counted in Hfor; [|by eapply counted_word].
  pose proof (counted_trans _ _ _ _ _ _ _ Hloop Hfor) as (s3 & -> & Ht & Hr & Hc).
  rewrite map_pid_unseen in Hm. rewrite (sweeps_absent ctl ctl1 cs _ news Hwf Hwf1 Hm Hnews Hall1) in Ht.
  eexists _, _, s3, w2. split; [reflexivity|]. split; [rewrite Hc; reflexivity|].
  rewrite Z.add_0_r in Hr. split; [exact Hr|exact Ht].
Qed.

(** A valid batch can only be refused for want of space. *)
Lemma prevalidate_loop_valid ctl seen cs n :
  Forall (fun c => candidate_valid c = true) cs -> NoDup (pids cs) -> (forall c, c ∈ cs -> cand_pid c ∉ pids seen) ->
  prevalidate_loop ctl seen cs n = THROTTLE_CONTROLLER_OK \/ prevalidate_loop ctl seen cs n = THROTTLE_CONTROLLER_ERR_NO_SPACE.
Proof.
  revert seen n. induction cs as [|c cs IH]; intros seen n; cbn [prevalidate_loop].
  { destruct (_ <? n); auto. }
  intros [Hc Hv]%Forall_cons Hnd Hs. unfold pids in Hnd. cbn [map] in Hnd. apply NoDup_cons in Hnd as [Hx Hnd].
  rewrite Hc. cbn [negb]. destruct (existsb _ seen) eqn:He.
  { exfalso. apply existsb_pid in He. apply (Hs c); [constructor|exact He]. }
  apply IH; try done. intros c' Hc'. unfold pids. rewrite map_app, elem_of_app. cbn [map]. intros [Hin|Hin%list_elem_of_singleton].
  - apply (Hs c'); [by constructor|exact Hin].
  - apply Hx. rewrite <- Hin. by apply elem_pids.
Qed.

Lemma apply_keeps_tracked ctl candidates count st w rc ctl' st' w' :
  wf ctl -> throttle_controller_apply_candidates (Some ctl) candidates count st w = (rc, Some ctl', st', w') ->
  wf ctl' /\ record_cap ctl' = record_cap ctl /\ forall p, p ∈ map pid (records ctl) -> p ∈ map pid (records ctl').
Proof.
  intros Hwf Hcall.
  destruct (Z.eq_dec (prevalidate_candidates ctl candidates count) THROTTLE_CONTROLLER_OK) as [Hp|Hp].
  2:{ unfold throttle_controller_apply_candidates in Hcall. rewrite (wf_init _ Hwf) in Hcall. cbn [negb] in Hcall.
      apply Z.eqb_neq in Hp. rewrite Hp in Hcall. by injection Hcall as <- <- <- <-. }
  destruct (controller_now_ns ctl w) as [[rcn now] w0] eqn:Hnow.
  destruct (Z.eq_dec rcn THROTTLE_CONTROLLER_OK) as [->|Hn].
  2:{ unfold throttle_controller_apply_candidates in Hcall. rewrite (wf_init _ Hwf), Hp, Hnow in Hcall. cbn [negb Z.eqb] in Hcall.
      apply Z.eqb_neq in Hn. rewrite Hn in Hcall. by injection Hcall as <- <- <- <-. }
  destruct (apply_accepted ctl candidates count st now w w0 Hwf Hp Hnow) as (ctl2 & st2 & w2 & lab & Hres & _ & (_ & _ & Hcap) & Hwf2 & Hj).
  rewrite Hres in Hcall. injection Hcall as <- <- <- <-. do 2 (split; [done|]). intros p Hin. specialize (Hj p). unfold judged in Hj.
  destruct (tracked ctl p) as [r|] eqn:Ht; [|by apply lookup_pid_none in Ht].
  destruct (tracked ctl2 p) as [r2|] eqn:Ht2; [by eapply tracked_elem|]. by destruct (observed _ p).
Qed.

(** Records are never evicted: a tracked process stays tracked through every
    call, so once the table is full it stays the same set of processes, and
    every later valid batch that contains another process is refused with
    NO_SPACE, whatever calls come in between. *)
Theorem capacity_exhaustion_is_permanent ctl candidates count st w rc ctl' st' w' :
  wf ctl -> throttle_controller_apply_candidates (Some ctl) candidates count st w = (rc, Some ctl', st', w') ->
  record_count ctl = record_cap ctl ->
  record_count ctl' = record_cap ctl' /\
  (forall p, p ∈ map pid (records ctl') <-> p ∈ map pid (records ctl)) /\
  (forall cs c, Forall (fun c => candidate_valid c = true) cs -> NoDup (map cand_pid cs) -> c ∈ cs ->
     cand_pid c ∉ map pid (records ctl) ->
     prevalidate_candidates ctl' (Some cs) (Z.of_nat (List.length cs)) = THROTTLE_CONTROLLER_ERR_NO_SPACE).
Proof.
  intros Hwf Hcall Hfull. destruct (apply_keeps_tracked _ _ _ _ _ _ _ _ _ Hwf Hcall) as (Hwf' & Hcap & Hkeep).
  assert (Hincl : List.incl (map pid (records ctl)) (map pid (records ctl')))
    by (intros p Hp; apply list_elem_of_In, Hkeep, list_elem_of_In, Hp).
  pose proof (List.NoDup_incl_length (proj1 (NoDup_ListNoDup _) (wf_pids _ Hwf)) Hincl) as Hlen.
  rewrite !length_map in Hlen. pose proof (wf_cap _ Hwf') as Hc'. unfold record_count in *.
  assert (Heq : Z.of_nat (List.length (records ctl')) = record_cap ctl') by lia.
  assert (Hback : List.incl (map pid (records ctl')) (map pid (records ctl))).
  { apply List.NoDup_length_incl; [apply NoDup_ListNoDup, Hwf|rewrite !length_map; lia|exact Hincl]. }
  assert (Hsame : forall p, p ∈ map pid (records ctl') <-> p ∈ map pid (records ctl)).
  { intros p. split; [|apply Hkeep]. intros Hp. apply list_elem_of_In, Hback, list_elem_of_In, Hp. }
  split; [exact Heq|]. split; [exact Hsame|]. intros cs c Hv Hnd Hin Hnew.
  rewrite <- Hsame in Hnew. unfold prevalidate_candidates. rewrite Nat2Z.id, firstn_all.
  destruct (prevalidate_loop_valid ctl' [] cs 0 Hv Hnd) as [Hok|Hns]; [by intros ? _ ?%elem_of_nil| |exact Hns]. exfalso.
  apply prevalidate_loop_spec in Hok as (_ & _ & _ & Hroom). unfold record_count in Hroom.
  assert (Hpos : 0 < unknown ctl' cs); [|lia].
  clear - Hin Hnew. induction cs as [|x cs IH]; [by apply elem_of_nil in Hin|]. rewrite unknown_cons.
  assert (0 <= unknown ctl' cs) by (unfold unknown; lia). apply elem_of_cons in Hin as [<-|Hin].
  - apply lookup_pid_none in Hnew. unfold tracked. rewrite Hnew. lia.
  - specialize (IH Hin). destruct (tracked ctl' (cand_pid x)); lia.
Qed.
End Accounting.

Lemma apply_accounts_witness :
  exists rc ctl' s' w', demo_call demo_ctl0 demo_w0 demo_hot = (rc, Some ctl', Some s', w') /\ candidate_count s' = 1 /\
    u64 (throttle_actions s' + release_actions s' + kept_throttled s' + skipped_low_score s' + skipped_cooldown s' + errors s') = u64 1.
Proof.
  destruct (apply_accounts demo_ctl0 (Some [demo_candidate demo_hot]) 1 throttle_controller_stats_zero 5000000000 demo_w0
    (controller_now_ns demo_ctl0 demo_w0).2 demo_wf0) as (rc & ctl' & s' & w' & H1 & H2 & _ & H3);
    [vm_compute; reflexivity|vm_compute; reflexivity|].
  exists rc, ctl', s', w'. split; [exact H1|]. split; [exact H2|exact H3].
Defined.

(** A table with room for one process. *)
Definition full_ctl : throttle_controller (cgroup_world sim) :=
  mk_throttle_controller true demo_setup (records demo_ctl1) 1.

Lemma full_wf : wf full_ctl.
Proof. destruct demo_wf1 as [_ Hp Hpos Hn _]. constructor; [reflexivity|exact Hp|exact Hpos|exact Hn|vm_compute; discriminate]. Qed.

Definition demo_other : interference_candidate := (demo_candidate demo_hot) <| cand_pid := 43 |>.

Definition full_call := demo_call full_ctl demo_r1.2 demo_calm.

Lemma capacity_exhaustion_is_permanent_witness :
  prevalidate_candidates (default full_ctl full_call.1.1.2) (Some [demo_other]) 1
    = THROTTLE_CONTROLLER_ERR_NO_SPACE.
Proof.
  refine (proj2 (proj2 (capacity_exhaustion_is_permanent full_ctl (Some [demo_candidate demo_calm]) 1 (Some throttle_controller_stats_zero)
    demo_r1.2 full_call.1.1.1 (default full_ctl full_call.1.1.2) full_call.1.2 full_call.2 full_wf _ _))
    [demo_other] demo_other _ _ _ _).
  - vm_compute. reflexivity.
  - vm_compute. reflexivity.
  - apply Forall_cons. split; [vm_compute; reflexivity|constructor].
  - apply NoDup_singleton.
  - constructor.
  - vm_compute. intros Hin%list_elem_of_singleton. discriminate.
Defined.

(** ** Configurations *)

Lemma bounded_strlen_c_str s : forall fuel pre n, Z.of_nat (String.length pre) = n ->
  bounded_strlen_loop fuel (pre +:+ s) n = n + Z.min (Z.of_nat fuel) (strlen (c_str s)).
Proof.
  induction s as [|c s IH]; intros fuel pre n Hn; (destruct fuel as [|fuel]; cbn [bounded_strlen_loop]; [unfold strlen; lia|]);
    rewrite <- Hn, Nat2Z.id, char_at_app; cbn [char_at c_str].
  - rewrite Ascii.eqb_refl. change (strlen EmptyString) with 0. lia.
  - destruct (Ascii.eqb c NUL) eqn:Hc; [change (strlen EmptyString) with 0; lia|].
    assert (Ha : pre +:+ String c s = (pre +:+ String c EmptyString) +:+ s).
    { clear. induction pre as [|x pre IH]; [reflexivity|]. exact (f_equal (String x) IH). }
    rewrite Ha, (IH fuel _ (Z.of_nat (String.length pre) + 1)).
    + change (strlen (String c (c_str s))) with (Z.of_nat (S (String.length (c_str s)))). unfold strlen. lia.
    + rewrite length_app_str. cbn [String.length]. lia.
Qed.

Lemma bounded_strlen_spec s cap : 0 <= cap -> bounded_strlen (Some s) cap = Z.min cap (strlen (c_str s)).
Proof. intros Hc. cbn [bounded_strlen]. rewrite (bounded_strlen_c_str s _ EmptyString 0) by reflexivity. lia. Qed.

Lemma chars_forallb s (bad : ascii -> bool) :
  forallb (fun i => negb (bad (char_at s i))) (seq 0 (String.length (c_str s))) = forallb (fun c => negb (bad c)) (list_ascii_of_string (c_str s)).
Proof.
  induction s as [|c s IH]; [done|]. cbn [c_str]. destruct (Ascii.eqb c NUL); [done|].
  cbn [String.length seq forallb list_ascii_of_string char_at]. f_equal. rewrite <- IH, <- seq_shift.
  generalize (seq 0 (String.length (c_str s))) as l. induction l as [|i l IHl]; [done|]. cbn [map forallb char_at]. by rewrite IHl.
Qed.

(** What a control value must be: not empty, shorter than its array, one line. *)
Definition single_line (v : string) : Prop :=
  0 < strlen (c_str v) < THROTTLE_CONTROLLER_VALUE_MAX /\
  Forall (fun c => c <> newline /\ c <> carriage_return) (list_ascii_of_string (c_str v)).

Lemma valid_control_value_spec v : valid_control_value (Some v) THROTTLE_CONTROLLER_VALUE_MAX = true <-> single_line v.
Proof.
  unfold valid_control_value, single_line. change (THROTTLE_CONTROLLER_VALUE_MAX =? 0) with false. cbn iota.
  rewrite bounded_strlen_spec by discriminate. set (n := strlen (c_str v)).
  assert (Hn : 0 <= n) by (unfold n, strlen; lia). unfold THROTTLE_CONTROLLER_VALUE_MAX in *.
  destruct (Z.eqb_spec (Z.min 64 n) 0), (Z.leb_spec 64 (Z.min 64 n)); cbn [orb]; try (split; [done|intros [? _]; lia]).
  replace (Z.to_nat (Z.min 64 n)) with (String.length (c_str v)) by (unfold n, strlen in *; lia).
  rewrite (chars_forallb v (fun c => Ascii.eqb c newline || Ascii.eqb c carriage_return)), forallb_forall, Forall_forall.
  split.
  - intros Hall. split; [lia|]. intros c Hc%list_elem_of_In. specialize (Hall c Hc).
    destruct (Ascii.eqb_spec c newline), (Ascii.eqb_spec c carriage_return); done.
  - intros [_ Hall] c Hc%list_elem_of_In. destruct (Hall c Hc) as [H1 H2].
    destruct (Ascii.eqb_spec c newline), (Ascii.eqb_spec c carriage_return); done.
Qed.

(** A usable configuration. *)
Record valid_setup {W} (setup : throttle_controller_config W) : Prop := {
  vs_managed : Forall (fun g => g ∈ [GROUP_PROTECTED; GROUP_BACKGROUND; GROUP_THROTTLED])
    [normal_group setup; throttled_group setup; protected_group setup];
  vs_distinct : NoDup [normal_group setup; throttled_group setup; protected_group setup];
  vs_finite : isfinite (low_score_threshold setup) = true /\ isfinite (high_score_threshold setup) = true;
  vs_thresholds : dltb (low_score_threshold setup) dzero = false /\ dgtb (high_score_threshold setup) done = false /\
    dgtb (low_score_threshold setup) (high_score_threshold setup) = false;
  vs_records : max_records setup <> 0;
  vs_cpu_max : configure_throttled_cpu_max setup = true -> single_line (throttled_cpu_max setup);
  vs_memory_low : configure_protected_memory_low setup = true -> single_line (protected_memory_low setup)
}.

Lemma valid_control_group_spec g : valid_control_group g = true <-> g ∈ [GROUP_PROTECTED; GROUP_BACKGROUND; GROUP_THROTTLED].
Proof. rewrite !elem_of_cons, elem_of_nil. destruct g; cbn; split; try done; auto; intros [|[|[|]]]; done. Qed.

Lemma gated_value (b : bool) v : b && negb (valid_control_value (Some v) THROTTLE_CONTROLLER_VALUE_MAX) = false <-> (b = true -> single_line v).
Proof. rewrite <- valid_control_value_spec. destruct b, (valid_control_value _ _); cbn; intuition congruence. Qed.

Lemma valid_setup_spec {W} (setup : throttle_controller_config W) :
  validate_config (Some setup) = THROTTLE_CONTROLLER_OK <-> valid_setup setup.
Proof.
  cbn [validate_config]. split.
  - destruct (negb _ || _ || _) eqn:Hg; [discriminate|]. destruct (bool_decide _ || _ || _) eqn:Hd; [discriminate|].
    destruct (negb _ || negb _ || _ || _ || _) eqn:Ht; [discriminate|]. destruct (max_records setup =? 0) eqn:Hr; [discriminate|].
    destruct (configure_throttled_cpu_max setup && _) eqn:Hc; [discriminate|].
    destruct (configure_protected_memory_low setup && _) eqn:Hl; [discriminate|]. intros _.
    rewrite gated_value in Hc, Hl. apply Z.eqb_neq in Hr.
    apply orb_false_iff in Hg as [[Hg1 Hg2]%orb_false_iff Hg3]. apply negb_false_iff in Hg1, Hg2, Hg3.
    apply orb_false_iff in Hd as [[Hd1 Hd2]%orb_false_iff Hd3]. apply bool_decide_eq_false in Hd1, Hd2, Hd3.
    apply orb_false_iff in Ht as [[[[Ht1 Ht2]%orb_false_iff Ht3]%orb_false_iff Ht4]%orb_false_iff Ht5]. apply negb_false_iff in Ht1, Ht2.
    apply valid_control_group_spec in Hg1, Hg2, Hg3.
    constructor; [by apply Forall_cons; split; [|apply Forall_cons; split; [|apply Forall_singleton]]| |exact (conj Ht1 Ht2)|exact (conj Ht3 (conj Ht4 Ht5))|exact Hr|exact Hc|exact Hl].
    rewrite !NoDup_cons, !elem_of_cons, !elem_of_nil. clear - Hd1 Hd2 Hd3. naive_solver (constructor).
  - intros [Hm Hd [Hf1 Hf2] (Ht1 & Ht2 & Ht3) Hr Hc Hl].
    rewrite !Forall_cons in Hm. destruct Hm as (H1 & H2 & H3 & _).
    apply valid_control_group_spec in H1, H2, H3. rewrite H1, H2, H3, Hf1, Hf2, Ht1, Ht2, Ht3. cbn [negb orb].
    rewrite <- gated_value in Hc, Hl. rewrite Hc, Hl. rewrite (proj2 (Z.eqb_neq _ _) Hr).
    rewrite !NoDup_cons, !elem_of_cons, !elem_of_nil in Hd.
    clear - Hd. destruct Hd as (Hd1 & Hd2 & _).
    rewrite !bool_decide_false by (clear - Hd1 Hd2; naive_solver). reflexivity.
Qed.

Section Init.
Context {W : Type} `{CgroupOps W} `{ProcessEnv W}.

(** [throttle_controller_init] accepts exactly the usable configurations
    (three distinct managed groups, 0 <= low <= high <= 1, room for a record,
    control values that are a single non-empty line), then installs them with
    an empty table; on any failure the controller is left zeroed, not
    initialized, so every later call refuses to act; and an invalid
    configuration is refused before anything is written. *)
Theorem init_establishes c (setup : throttle_controller_config W) w :
  exists rc ctl w', throttle_controller_init (Some c) (Some setup) w = (rc, Some ctl, w') /\
    (rc = THROTTLE_CONTROLLER_OK -> valid_setup setup /\ ctl = mk_throttle_controller true setup [] (max_records setup)) /\
    (rc <> THROTTLE_CONTROLLER_OK -> ctl = throttle_controller_zero /\
       forall cs n st, (throttle_controller_apply_candidates (Some ctl) cs n st w').1.1.1 = THROTTLE_CONTROLLER_ERR_NOT_INITIALIZED) /\
    (~ valid_setup setup -> rc = THROTTLE_CONTROLLER_ERR_INVALID_ARG /\ w' = w).
Proof.
  pose proof (valid_setup_spec setup) as Hs. unfold throttle_controller_init.
  destruct (Z.eqb_spec (validate_config (Some setup)) THROTTLE_CONTROLLER_OK) as [Hv|Hv]; cbn [negb].
  2:{ assert (Hrc : validate_config (Some setup) = THROTTLE_CONTROLLER_ERR_INVALID_ARG).
      { cbn [validate_config] in *. repeat (case_match; [done|]). done. }
      rewrite Hrc. eexists _, _, _. split; [reflexivity|]. done. }
  apply Hs in Hv as Hvalid. clear Hs Hv.
  destruct (pe_calloc (max_records setup) 1 w) as [[] w1]; cbn [negb]; [|eexists _, _, _; split; [reflexivity|]; done].
  destruct (if negb (dry_run setup) && configure_throttled_cpu_max setup then _ else _) as [rc1 w2].
  destruct (Z.eqb_spec rc1 0); cbn [negb]; [|eexists _, _, _; split; [reflexivity|]; done].
  destruct (if negb (dry_run setup) && configure_protected_memory_low setup then _ else _) as [rc2 w3].
  destruct (Z.eqb_spec rc2 0); cbn [negb]; eexists _, _, _; (split; [reflexivity|]); done.
Qed.
End Init.
