(* ===== verification/PipelineProps.v ===== *)
(** * From the detector to the throttle controller

    The candidates of an interval are what the throttle controller takes: the
    contract of the one is the precondition of the other, and the two together
    leave alone every process that is not a live normal one. *)
From S2P Require Import Prelude Float64 CString Os Cgroup SimOs Calibration DramMapping ProcActivity BankProfile Candidate Ranking.
From S2P Require Import ProcActivityProps InterferenceDetector ThrottleController DetectorProps.
From S2P Require Import ThrottleSpec ThrottleSafety ThrottleProps ThrottleStats.
From Stdlib Require Import Ascii String.
Local Open Scope Z_scope.

(** What [prevalidate_candidates] answers on a whole valid batch. *)
Lemma prevalidate_valid {W} (ctl : throttle_controller W) cs :
  Forall (fun c => candidate_valid c = true) cs -> NoDup (map cand_pid cs) ->
  prevalidate_candidates ctl (Some cs) (Z.of_nat (List.length cs)) =
    (if unknown ctl cs <=? record_cap ctl - record_count ctl then THROTTLE_CONTROLLER_OK else THROTTLE_CONTROLLER_ERR_NO_SPACE).
Proof.
  intros Hv Hnd. pose proof (prevalidate_spec ctl (Some cs) (Z.of_nat (List.length cs))) as Hs. unfold acceptable in Hs.
  assert (Hg : given (Some cs) (Z.of_nat (List.length cs)) = cs) by (unfold given; by rewrite Nat2Z.id, firstn_all). rewrite Hg in Hs.
  destruct (Z.leb_spec (unknown ctl cs) (record_cap ctl - record_count ctl)) as [Hfit|Hfull]; [by apply Hs|].
  unfold prevalidate_candidates in *. rewrite Nat2Z.id, firstn_all in *.
  destruct (prevalidate_loop_valid ctl [] cs 0 Hv Hnd) as [E|E]; [intros c _; apply not_elem_of_nil| |exact E].
  apply Hs in E as (_ & _ & _ & Hle). lia.
Qed.

(** Processes with one pid are one. *)
Lemma pid_unique (ps : list interference_process_state) p p' : NoDup (map ps_pid ps) -> p ∈ ps -> p' ∈ ps -> ps_pid p = ps_pid p' -> p = p'.
Proof.
  intros Hnd Hp Hp' E. apply list_elem_of_lookup in Hp as [i Hi], Hp' as [j Hj].
  assert (i = j) as ->; [|congruence]. apply (NoDup_lookup _ _ _ (ps_pid p) Hnd); change (map ps_pid ps) with (ps_pid <$> ps); rewrite list_lookup_fmap, ?Hi, ?Hj; cbn; congruence.
Qed.

Section Pipeline.
Context {W : Type} `{HO : OS W} `{HL : @Longs W HO} `{HC : @Cgroupfs W HO}.

(** C17: the controller never rejects the candidates of an interval as invalid:
    it accepts them when their new processes fit its table and answers NO_SPACE
    otherwise. Whatever happens then, a process that ends up in another group
    was either put into the throttled one, and is a live normal process that the
    detector had sampled in an earlier interval, or was throttled before and is
    put back into the normal group. So a process the detector knows as protected
    is never throttled, and stays where it is unless it had been throttled. *)
Theorem detector_feeds_controller ps m c cap dstats (w : W) drc ps' cands dstats' w' base ctl st rc octl st' (world : cgroup_world W) q :
  detector_ok c (List.length ps) -> Forall state_ok ps -> Forall (fun p => ps_pid p < 2 ^ 31) ps -> NoDup (map ps_pid ps) ->
  interference_detector_run_once (Some ps) (Some m) (Some c) true cap true dstats w = (drc, Some ps', cands, dstats', w') ->
  wf ctl -> clock_keeps (cfg ctl) ->
  throttle_controller_apply_candidates (Some ctl) (Some cands) (Z.of_nat (List.length cands)) st (mk_cgroup_world base w') = (rc, octl, st', world) ->
  prevalidate_candidates ctl (Some cands) (Z.of_nat (List.length cands)) =
    (if unknown ctl cands <=? record_cap ctl - record_count ctl then THROTTLE_CONTROLLER_OK else THROTTLE_CONTROLLER_ERR_NO_SPACE) /\
  (cg_placed world q <> cg_placed (mk_cgroup_world base w') q ->
    (cg_placed world q = Some (throttled_group (cfg ctl)) /\
      exists p, p ∈ ps /\ ps_pid p = q /\ alive p = true /\ ps_role p = INTERFERENCE_PROCESS_NORMAL /\ has_activity_sample p = true) \/
    (cg_placed world q = Some (normal_group (cfg ctl)) /\ exists r, tracked ctl q = Some r /\ state r = THROTTLE_STATE_THROTTLED)) /\
  (forall p, p ∈ ps -> ps_pid p = q -> ps_role p <> INTERFERENCE_PROCESS_NORMAL ->
    cg_placed world q = cg_placed (mk_cgroup_world base w') q \/
    (cg_placed world q = Some (normal_group (cfg ctl)) /\ exists r, tracked ctl q = Some r /\ state r = THROTTLE_STATE_THROTTLED)).
Proof.
  intros Hd Hok Hpids Hnd E Hwf Hk Ea. destruct (run_once_promised _ _ _ _ _ _ _ _ _ _ _ Hd Hok Hpids E) as (_ & Hp & Hn & _).
  assert (Hmoved : cg_placed world q <> cg_placed (mk_cgroup_world base w') q ->
    (cg_placed world q = Some (throttled_group (cfg ctl)) /\
      exists p, p ∈ ps /\ ps_pid p = q /\ alive p = true /\ ps_role p = INTERFERENCE_PROCESS_NORMAL /\ has_activity_sample p = true) \/
    (cg_placed world q = Some (normal_group (cfg ctl)) /\ exists r, tracked ctl q = Some r /\ state r = THROTTLE_STATE_THROTTLED)).
  { intros Hne. destruct (apply_moved _ _ _ _ _ _ _ _ _ q Hwf Hk Ea Hne) as ([[Hin Hg]|(r & Ht & Hst & Hg)] & _); [left|right; eauto]. split; [exact Hg|].
    unfold given in Hin. rewrite Nat2Z.id, firstn_all in Hin. apply list_elem_of_In, in_map_iff in Hin as (cd & <- & Hcd%list_elem_of_In).
    rewrite Forall_forall in Hp. destruct (Hp cd Hcd) as (_ & _ & _ & p & K1 & K2 & K3 & K4 & K5). by exists p. }
  split; [|split; [exact Hmoved|]].
  - apply prevalidate_valid; [|by apply Hn]. eapply Forall_impl; [exact Hp|]. intros x Hx. apply Hx.
  - intros p Hin Hpid Hrole. destruct (decide (cg_placed world q = cg_placed (mk_cgroup_world base w') q)) as [|Hne]; [by left|right].
    destruct (Hmoved Hne) as [[_ (p' & K1 & K2 & _ & K4 & _)]|Hr]; [|exact Hr]. exfalso. apply Hrole. by rewrite (pid_unique ps p p' Hnd Hin K1 ltac:(congruence)).
Qed.
End Pipeline.

(** The interval of [DetectorProps], and a controller with an empty table: 50 is
    throttled. *)
Notation interval_apply cands st w := (throttle_controller_apply_candidates (Some demo_ctl0) (Some cands) (Z.of_nat (List.length cands))
  (Some st) (mk_cgroup_world "/cg" w)).

Lemma interval_moves : exists ps' cands dst w' rc octl st' world,
  interval_run = (INTERFERENCE_DETECTOR_OK, Some ps', cands, dst, w') /\ map cand_pid cands = [50] /\
  interval_apply cands throttle_controller_stats_zero w' = (rc, octl, st', world) /\
  cg_placed world 50 = Some GROUP_THROTTLED /\ cg_placed (mk_cgroup_world "/cg" w') 50 = None.
Proof.
  assert (H : match interval_run with
    | (drc, Some _, cands, _, w') => drc = INTERFERENCE_DETECTOR_OK /\ map cand_pid cands = [50] /\
        cg_placed (interval_apply cands throttle_controller_stats_zero w').2 50 = Some GROUP_THROTTLED /\
        cg_placed (mk_cgroup_world "/cg" w') 50 = None
    | _ => False end) by (vm_compute; repeat split).
  destruct interval_run as [[[[drc [ps'|]] cands] dst] w']; [|destruct H]. destruct H as (-> & H1 & H2 & H3).
  destruct (interval_apply cands throttle_controller_stats_zero w') as [[[rc octl] st'] world] eqn:E. by eexists _, _, _, _, _, _, _, _.
Qed.

Lemma detector_feeds_controller_witness :
  exists cands w' rc octl st' world, interval_apply cands throttle_controller_stats_zero w' = (rc, octl, st', world) /\
    cg_placed world 50 = Some GROUP_THROTTLED /\
    prevalidate_candidates demo_ctl0 (Some cands) (Z.of_nat (List.length cands)) =
      (if unknown demo_ctl0 cands <=? record_cap demo_ctl0 - record_count demo_ctl0 then THROTTLE_CONTROLLER_OK else THROTTLE_CONTROLLER_ERR_NO_SPACE) /\
    exists p, p ∈ interval_processes /\ ps_pid p = 50 /\ alive p = true /\ ps_role p = INTERFERENCE_PROCESS_NORMAL /\ has_activity_sample p = true.
Proof.
  destruct interval_ok as (Hd & Hok & Hp & Hnd). destruct interval_moves as (ps' & cands & dst & w' & rc & octl & st' & world & E & _ & Ea & Hm & Hm0).
  destruct (detector_feeds_controller interval_processes example_mapping interval_config 16 _ interval_world _ ps' cands dst w' "/cg"
    demo_ctl0 _ rc octl st' world 50 Hd Hok Hp Hnd E demo_wf0 demo_clock_keeps Ea) as (H1 & H2 & _).
  exists cands, w', rc, octl, st', world. split; [exact Ea|]. split; [exact Hm|]. split; [exact H1|].
  destruct H2 as [[_ Hp50]|[Hn _]]; [rewrite Hm, Hm0; discriminate|exact Hp50|rewrite Hm in Hn; discriminate].
Defined.
