(* ===== verification/OracleSys.v ===== *)
(** * Memory and processes as the experiment sees them

    The calls of the bank-overlap experiment that the daemon does not make:
    anonymous shared mappings, words in memory, pipes, stopped children and
    cgroup directories.  They are interfaces over a type of worlds, like [OS]. *)
From S2P Require Import Prelude CString Os.
From Stdlib Require Import Ascii String.
Local Open Scope Z_scope.

(** The value of an unsigned 64-bit expression converted to [off_t] or [int]. *)
Definition as_off_t (x : Z) : Z := if x <=? LLONG_MAX then x else x - 18446744073709551616.
Definition as_int (x : Z) : Z := (x + 2147483648) mod 4294967296 - 2147483648.

Class Memory (W : Type) := {
  (** [mmap(NULL, bytes, ..., MAP_SHARED | MAP_ANONYMOUS, -1, 0)]: the address, [None] for [MAP_FAILED] *)
  mm_mmap : Z -> W -> option Z * W;
  (** [madvise(base, bytes, MADV_NOHUGEPAGE)] succeeded *)
  mm_madvise : Z -> Z -> W -> bool * W;
  mm_munmap : Z -> Z -> W -> W;
  (** [malloc(bytes)] returned non-NULL *)
  mm_malloc : Z -> W -> bool * W;
  (** a byte and an aligned 64-bit word in memory *)
  mm_store_byte : Z -> Z -> W -> W;
  mm_store : Z -> Z -> W -> W;
  mm_load : Z -> W -> Z
}.

(** What the hardware and the kernel document: a word reads back what was
    written, writing elsewhere does not change it, and a mapping is aligned to
    its pages and lies inside the address space. *)
Class MemoryLaws (W : Type) `{Memory W} := {
  ml_load_same a v w : mm_load a (mm_store a v w) = v;
  ml_load_other a b v w : (b + 8 <= a \/ a + 8 <= b) -> mm_load b (mm_store a v w) = mm_load b w;
  ml_mmap bytes w base : (mm_mmap bytes w).1 = Some base -> 0 < base /\ base mod 4096 = 0 /\ base + bytes < 18446744073709551616
}.

(** * The random generator of the bank-overlap experiment ([oracle_selective_control.c])

    A xorshift generator and the shuffles that use it; the loop of a shuffle is
    shared with the bank worker, which has a generator of its own.  A shuffle rearranges the
    first [count] elements of its array and nothing else. *)

(** The new state and the value drawn from it. *)
Definition rng_step (state : Z) : Z * Z :=
  let x := if state =? 0 then 0x9e3779b97f4a7c15 else state in
  let x := Z.lxor x (Z.shiftr x 12) in
  let x := Z.lxor x (u64 (Z.shiftl x 25)) in
  let x := Z.lxor x (Z.shiftr x 27) in
  (u64_mul x 2685821657736338717, x).

(** [state]: [None] is NULL. *)
Definition rng_next (state : option Z) : Z * option Z :=
  match state with
  | None => (0, None)
  | Some s => let '(value, s) := rng_step s in (value, Some s)
  end.

(** [tmp = values[i]; values[i] = values[j]; values[j] = tmp] *)
Definition swap (i j : nat) (values : list Z) : list Z :=
  let tmp := nth i values 0 in
  <[j := tmp]> (<[i := nth j values 0]> values).

(** The loop from [i] down to 1, drawing from the generator [next]. *)
Fixpoint shuffle_loop {S} (next : S -> Z * S) (i : nat) (state : S) (values : list Z) : list Z :=
  match i with
  | O => values
  | Datatypes.S i' =>
      let '(value, state) := next state in
      let j := Z.to_nat (value mod (Z.of_nat i + 1)) in
      shuffle_loop next i' state (swap i j values)
  end.

(** [values]: [None] is NULL; the array has at least [count] elements. *)
Definition shuffle_size_t (values : option (list Z)) (count seed : Z) : option (list Z) :=
  match values with
  | None => None
  | Some vs => if count <? 2 then Some vs else Some (shuffle_loop rng_next (Z.to_nat (count - 1)) (Some seed) vs)
  end.

(** The same code on 64-bit values. *)
Definition shuffle_u64 (values : option (list Z)) (count seed : Z) : option (list Z) :=
  match values with
  | None => None
  | Some vs => if count <? 2 then Some vs else Some (shuffle_loop rng_next (Z.to_nat (count - 1)) (Some seed) vs)
  end.

(** ** A shuffle permutes *)

Lemma length_swap i j vs : List.length (swap i j vs) = List.length vs.
Proof. unfold swap. by rewrite !length_insert. Qed.

Lemma lookup_swap i j k vs : (i < List.length vs)%nat -> (j < List.length vs)%nat ->
  swap i j vs !! k = if decide (k = j) then vs !! i else if decide (k = i) then vs !! j else vs !! k.
Proof.
  intros Hi Hj. unfold swap. destruct (lookup_lt_is_Some_2 vs i Hi) as [x Hx], (lookup_lt_is_Some_2 vs j Hj) as [y Hy].
  rewrite (nth_lookup_Some vs i 0 x Hx), (nth_lookup_Some vs j 0 y Hy).
  destruct (decide (k = j)) as [->|Hkj]; [by rewrite list_lookup_insert_eq, Hx by (by rewrite length_insert)|].
  rewrite list_lookup_insert_ne by done. destruct (decide (k = i)) as [->|Hki]; [by rewrite list_lookup_insert_eq, Hy|].
  by rewrite list_lookup_insert_ne.
Qed.

Lemma swap_permutes i j vs : (i < List.length vs)%nat -> (j < List.length vs)%nat -> swap i j vs ≡ₚ vs.
Proof.
  intros Hi Hj. destruct (lookup_lt_is_Some_2 vs i Hi) as [x Hx], (lookup_lt_is_Some_2 vs j Hj) as [y Hy].
  unfold swap. rewrite (nth_lookup_Some vs i 0 x Hx), (nth_lookup_Some vs j 0 y Hy).
  by apply Permutation_insert_swap.
Qed.

(** What lies beyond the shuffled part stays. *)
Lemma drop_swap n i j vs : (i < n)%nat -> (j < n)%nat -> drop n (swap i j vs) = drop n vs.
Proof. intros Hi Hj. unfold swap. by rewrite !drop_insert_lt. Qed.

Lemma shuffle_loop_permutes {T} (next : T -> Z * T) i : forall state vs, (i < List.length vs)%nat ->
  shuffle_loop next i state vs ≡ₚ vs /\ drop (S i) (shuffle_loop next i state vs) = drop (S i) vs.
Proof.
  induction i as [|i IH]; intros state vs Hi; [done|]. cbn [shuffle_loop]. destruct (next state) as [value state'].
  set (j := Z.to_nat (value mod (Z.of_nat (S i) + 1))).
  assert (Hj : (j <= S i)%nat) by (pose proof (Z.mod_pos_bound value (Z.of_nat (S i) + 1) ltac:(lia)); lia).
  destruct (IH state' (swap (S i) j vs)) as [Hp Hd]; [rewrite length_swap; lia|]. split.
  - rewrite Hp. apply swap_permutes; lia.
  - replace (S (S i)) with (S i + 1)%nat by lia. rewrite <- drop_drop, Hd, drop_drop. apply drop_swap; lia.
Qed.

(** A shuffle of the first [count] elements. *)
Definition shuffled (count : nat) (vs vs' : list Z) : Prop := vs' ≡ₚ vs /\ drop count vs' = drop count vs.

Lemma shuffle_spec vs count seed : (Z.to_nat count <= List.length vs)%nat ->
  exists vs', shuffle_size_t (Some vs) count seed = Some vs' /\ shuffle_u64 (Some vs) count seed = Some vs' /\ shuffled (Z.to_nat count) vs vs'.
Proof.
  intros Hl. unfold shuffle_size_t, shuffle_u64, shuffled. destruct (Z.ltb_spec count 2); [by eexists|]. eexists. do 2 (split; [done|]).
  destruct (shuffle_loop_permutes rng_next (Z.to_nat (count - 1)) (Some seed) vs) as [Hp Hd]; [lia|]. split; [exact Hp|].
  by replace (Z.to_nat count) with (S (Z.to_nat (count - 1))) by lia.
Qed.

(** The elements that are shuffled are the first [count]. *)
Lemma shuffled_take count vs vs' : shuffled count vs vs' -> take count vs' ≡ₚ take count vs.
Proof.
  intros [Hp Hd]. rewrite <- (take_drop count vs), <- (take_drop count vs'), Hd in Hp. by apply (inj (.++ _)) in Hp.
Qed.
