(* ===== verification/OracleConfig.v ===== *)
(** * The command line of the bank-overlap experiment ([oracle_selective_control.c])

    The conditions of the experiment, its configuration and the parsing of its
    arguments. *)
From S2P Require Import Prelude CString Scan Strto.
From Stdlib Require Import Ascii String.
Local Open Scope Z_scope.

Definition INT_MIN : Z := -2147483648.
Definition INT_MAX : Z := 2147483647.
Definition UINT_MAX : Z := 4294967295.

Inductive condition :=
  | CONDITION_NONE
  | CONDITION_UNCONTROLLED
  | CONDITION_SELECTIVE
  | CONDITION_ALL.

#[export] Instance condition_eq_dec : EqDecision condition.
Proof. solve_decision. Defined.

Definition CONDITION_COUNT : Z := 4.

(** The value of the enumerator, an index into arrays. *)
Definition condition_index (c : condition) : nat :=
  match c with CONDITION_NONE => 0 | CONDITION_UNCONTROLLED => 1 | CONDITION_SELECTIVE => 2 | CONDITION_ALL => 3 end%nat.

(** [order] is an array of [CONDITION_COUNT] conditions. *)
Record config := mk_config {
  pool_mib : Z;
  workset_mib : Z;
  group_classes : Z;
  seconds : Z;
  victim_cpu : Z;
  high_aggressor_cpu : Z;
  low_aggressor_cpu : Z;
  throttle_quota_us : Z;
  throttle_period_us : Z;
  seed : Z;
  self_test : bool;
  order : list condition
}.

#[export] Instance config_settable : Settable config :=
  fun c => mk_config (pool_mib c) (workset_mib c) (group_classes c) (seconds c) (victim_cpu c) (high_aggressor_cpu c)
    (low_aggressor_cpu c) (throttle_quota_us c) (throttle_period_us c) (seed c) (self_test c) (order c).

(** ** Conditions *)

Definition condition_name (c : condition) : string :=
  match c with
  | CONDITION_NONE => "none"
  | CONDITION_UNCONTROLLED => "uncontrolled"
  | CONDITION_SELECTIVE => "selective"
  | CONDITION_ALL => "all"
  end.

(** [None]: the code -1. *)
Definition condition_from_name (text : option string) : option condition :=
  match text with
  | None => None
  | Some text =>
      if str_eq text "none" then Some CONDITION_NONE
      else if str_eq text "uncontrolled" then Some CONDITION_UNCONTROLLED
      else if str_eq text "selective" then Some CONDITION_SELECTIVE
      else if str_eq text "all" then Some CONDITION_ALL
      else None
  end.

(** [strtok_r] with a one-byte delimiter: the next token and what remains. *)
Fixpoint skip_delim (d : ascii) (s : string) : string :=
  match s with
  | String c s' => if Ascii.eqb c d then skip_delim d s' else s
  | EmptyString => EmptyString
  end.

Fixpoint until_delim (d : ascii) (s : string) : string * string :=
  match s with
  | EmptyString => (EmptyString, EmptyString)
  | String c s' => if Ascii.eqb c d then (EmptyString, s') else let '(t, r) := until_delim d s' in (String c t, r)
  end.

Definition strtok_r (d : ascii) (s : string) : option (string * string) :=
  let s := skip_delim d s in
  if String.eqb s "" then None else Some (until_delim d s).

(** The experiments differ in the size of their buffer and in their conditions [C]:
    how many there are, how they are found by name, and their index in arrays. *)
Section Order.
Context {C : Type} (buffer_size count : Z) (from_name : option string -> option C) (index_of : C -> nat).

(** The loop over the tokens: whether it ended without an error, [index] and
    [order]. Every token takes a byte of the rest. *)
Fixpoint parse_order_loop (fuel : nat) (rest : string) (seen : list bool) (index : nat) (order : list C) : bool * nat * list C :=
  match fuel with
  | O => (false, index, order)
  | S fuel =>
      match strtok_r "," rest with
      | None => (true, index, order)
      | Some (token, rest) =>
          if count <=? Z.of_nat index then (false, index, order)
          else
            match from_name (Some token) with
            | None => (false, index, order)
            | Some c =>
                if nth (index_of c) seen false then (false, index, order)
                else parse_order_loop fuel rest (<[index_of c := true]> seen) (S index) (<[index := c]> order)
            end
      end
  end.

(** The code, and the array, of which an error leaves a part written. *)
Definition parse_order_of (text : option string) (order : list C) : Z * list C :=
  match text with
  | None => (-1, order)
  | Some text =>
      let text := c_str text in
      if buffer_size <=? strlen text then (-1, order)
      else
        let buffer := snprintf buffer_size text in
        let '(ok, index, order) := parse_order_loop (S (String.length buffer)) buffer (replicate (Z.to_nat count) false) 0 order in
        if negb ok then (-1, order) else if negb (Z.of_nat index =? count) then (-1, order) else (0, order)
  end.
End Order.

Definition parse_order (text : option string) (order : list condition) : Z * list condition :=
  parse_order_of 128 CONDITION_COUNT condition_from_name condition_index text order.

(** ** Numbers *)

(** A conversion that took the whole text. *)
Definition whole {A} (r : option (A * bool * string)) : option A :=
  match r with
  | None => None
  | Some (value, erange, endptr) => if (erange : bool) || negb (Ascii.eqb (char_at endptr 0) NUL) then None else Some value
  end.

Definition parse_size (text : option string) : option Z :=
  match text with
  | None => None
  | Some text =>
      match whole (strtoull 10 text) with
      | None => None
      | Some value => if UINT64_MAX <? value then None else Some value
      end
  end.

Definition parse_uint (text : option string) : option Z :=
  match parse_size text with
  | None => None
  | Some value => if UINT_MAX <? value then None else Some value
  end.

Definition parse_int (text : option string) : option Z :=
  match text with
  | None => None
  | Some text =>
      match whole (strtoll text) with
      | None => None
      | Some value => if (value <? INT_MIN) || (INT_MAX <? value) then None else Some value
      end
  end.

Definition parse_u64 (text : option string) : option Z :=
  match text with
  | None => None
  | Some text => whole (strtoull 0 text)
  end.

(** ** Arguments *)

(** [cfg]: [None] is NULL. *)
Definition config_default (cfg : option config) : option config :=
  match cfg with
  | None => None
  | Some _ =>
      Some (mk_config 2048 64 16 10 14 12 10 50000 100000 20260814 false
        [CONDITION_NONE; CONDITION_UNCONTROLLED; CONDITION_SELECTIVE; CONDITION_ALL])
  end.

Definition config_self_test (cfg : option config) : option config :=
  match cfg with
  | None => None
  | Some c => Some (c <| self_test := true |> <| pool_mib := 512 |> <| workset_mib := 8 |> <| group_classes := 8 |> <| seconds := 2 |>)
  end.

(** A number that must not be zero. *)
Definition nonzero (r : option Z) : option Z :=
  match r with Some v => if v =? 0 then None else Some v | None => None end.

(** ** The loop over the arguments

    The programs differ in their configuration [C] and in [effect]: for an option
    that takes a value, [Some None] for a value that is refused and otherwise the
    new configuration; [None] for any other argument. *)
Section Arguments.
Context {C : Type} (effect : string -> string -> C -> option (option C)).

Definition takes_value (name : string) (cfg : C) : bool := bool_decide (is_Some (effect name "" cfg)).

(** The end of the parsing: the configuration, the code -1, or the exit of
    [--help]. *)
Inductive parsed := ArgsOk (cfg : C) | ArgsBad | ArgsHelp.

(** The second loop. *)
Fixpoint parse_args_loop (args : list string) (cfg : C) : parsed :=
  match args with
  | [] => ArgsOk cfg
  | arg :: args =>
      if str_eq arg "--self-test" then parse_args_loop args cfg
      else if takes_value arg cfg then
        match args with
        | [] => ArgsBad
        | value :: args =>
            match effect arg value cfg with
            | Some (Some cfg) => parse_args_loop args cfg
            | _ => ArgsBad
            end
        end
      else if str_eq arg "-h" || str_eq arg "--help" then ArgsHelp
      else ArgsBad
  end.
End Arguments.

#[global] Arguments parsed : clear implicits.
#[global] Arguments ArgsBad {C}.
#[global] Arguments ArgsHelp {C}.

(** The options that take a value, with what it does to the configuration:
    [None] for any other argument, [Some None] for a value that is refused. *)
Definition option_effect (name value : string) (cfg : config) : option (option config) :=
  if str_eq name "--pool-mib" then Some ((fun v => cfg <| pool_mib := v |>) <$> nonzero (parse_size (Some value)))
  else if str_eq name "--workset-mib" then Some ((fun v => cfg <| workset_mib := v |>) <$> nonzero (parse_size (Some value)))
  else if str_eq name "--classes" then Some ((fun v => cfg <| group_classes := v |>) <$> nonzero (parse_size (Some value)))
  else if str_eq name "--seconds" then Some ((fun v => cfg <| seconds := v |>) <$> nonzero (parse_uint (Some value)))
  else if str_eq name "--victim-cpu" then Some ((fun v => cfg <| victim_cpu := v |>) <$> parse_int (Some value))
  else if str_eq name "--high-cpu" then Some ((fun v => cfg <| high_aggressor_cpu := v |>) <$> parse_int (Some value))
  else if str_eq name "--low-cpu" then Some ((fun v => cfg <| low_aggressor_cpu := v |>) <$> parse_int (Some value))
  else if str_eq name "--throttle-quota-us" then Some ((fun v => cfg <| throttle_quota_us := v |>) <$> nonzero (parse_uint (Some value)))
  else if str_eq name "--throttle-period-us" then Some ((fun v => cfg <| throttle_period_us := v |>) <$> nonzero (parse_uint (Some value)))
  else if str_eq name "--seed" then Some ((fun v => cfg <| seed := v |>) <$> parse_u64 (Some value))
  else if str_eq name "--order" then
    Some (let '(rc, o) := parse_order (Some value) (order cfg) in if rc =? 0 then Some (cfg <| order := o |>) else None)
  else None.

(** [args] are [argv[1]] to [argv[argc - 1]]. *)
Definition parse_args (args : list string) (cfg : option config) : parsed config :=
  match config_default cfg with
  | None => ArgsBad
  | Some cfg =>
      let cfg := if existsb (fun arg => str_eq arg "--self-test") args then default cfg (config_self_test (Some cfg)) else cfg in
      match parse_args_loop option_effect args cfg with
      | ArgsOk cfg =>
          if (victim_cpu cfg =? high_aggressor_cpu cfg) || (victim_cpu cfg =? low_aggressor_cpu cfg)
            || (high_aggressor_cpu cfg =? low_aggressor_cpu cfg) || (throttle_period_us cfg <? throttle_quota_us cfg)
          then ArgsBad
          else ArgsOk cfg
      | r => r
      end
  end.

Definition config_zero : config := mk_config 0 0 0 0 0 0 0 0 0 0 false (replicate 4 CONDITION_NONE).

Example parse_demo :
  parse_args ["--order"; "all,none,,selective,uncontrolled"; "--self-test"; "--seconds"; "7"; "--seed"; "0x10"]%string (Some config_zero) =
  ArgsOk (mk_config 512 8 8 7 14 12 10 50000 100000 16 true [CONDITION_ALL; CONDITION_NONE; CONDITION_SELECTIVE; CONDITION_UNCONTROLLED]).
Proof. vm_compute. reflexivity. Qed.

(** * Configurations that are accepted

    A configuration the experiment accepts can be run: its sizes are not zero,
    its processors are distinct, its quota fits its period, and its order names
    every condition exactly once. *)

Definition all_conditions : list condition := [CONDITION_NONE; CONDITION_UNCONTROLLED; CONDITION_SELECTIVE; CONDITION_ALL].

Record config_ok (c : config) : Prop := {
  co_sizes : 0 < pool_mib c /\ 0 < workset_mib c /\ 0 < group_classes c /\ 0 < seconds c;
  co_widths : in_u64 (pool_mib c) /\ in_u64 (workset_mib c) /\ in_u64 (group_classes c) /\ seconds c <= UINT_MAX /\ in_u64 (seed c);
  co_cpus : NoDup [victim_cpu c; high_aggressor_cpu c; low_aggressor_cpu c];
  co_quota : 0 < throttle_quota_us c <= throttle_period_us c /\ throttle_period_us c <= UINT_MAX;
  co_order : order c ≡ₚ all_conditions
}.

(** ** Numbers *)

Lemma parse_size_range text v : parse_size text = Some v -> in_u64 v.
Proof.
  unfold parse_size, whole. destruct text as [t|]; [|discriminate]. destruct (strtoull 10 t) as [[[x e] r]|] eqn:E; [|discriminate].
  destruct (e || _); [discriminate|]. destruct (UINT64_MAX <? x); [discriminate|]. intros [= <-]. by eapply strtoull_range.
Qed.

Lemma parse_uint_range text v : parse_uint text = Some v -> 0 <= v <= UINT_MAX.
Proof.
  unfold parse_uint. destruct (parse_size text) as [x|] eqn:E; [|discriminate]. apply parse_size_range in E. unfold in_u64 in E.
  destruct (Z.ltb_spec UINT_MAX x); [discriminate|]. intros [= <-]. lia.
Qed.

Lemma parse_u64_range text v : parse_u64 text = Some v -> in_u64 v.
Proof.
  unfold parse_u64, whole. destruct text as [t|]; [|discriminate]. destruct (strtoull 0 t) as [[[x e] r]|] eqn:E; [|discriminate].
  destruct (e || _); [discriminate|]. intros [= <-]. by eapply strtoull_range.
Qed.

Lemma nonzero_some r v : nonzero r = Some v -> r = Some v /\ v <> 0.
Proof. unfold nonzero. destruct r as [x|]; [|discriminate]. destruct (Z.eqb_spec x 0); [discriminate|]. by intros [= <-]. Qed.

(** ** The order *)

Section Order.
Context {C : Type} {HC : EqDecision C} (buffer_size : Z) (count : nat) (from_name : option string -> option C) (index_of : C -> nat) (all : list C).
Hypothesis Hinj : forall c c', index_of c = index_of c' -> c = c'.
Hypothesis Hlt : forall c, (index_of c < count)%nat.
Hypothesis Hall : List.length all = count /\ forall c, c ∈ all.

(** [seen] marks the conditions written so far. *)
Definition order_inv (seen : list bool) (index : nat) (order : list C) : Prop :=
  List.length order = count /\ List.length seen = count /\ (index <= count)%nat /\ NoDup (take index order) /\
  forall c, nth (index_of c) seen false = bool_decide (c ∈ take index order).

Lemma order_inv_push seen index order c : order_inv seen index order -> (index < count)%nat -> nth (index_of c) seen false = false ->
  order_inv (<[index_of c := true]> seen) (S index) (<[index := c]> order).
Proof.
  intros (Hlo & Hls & Hi & Hnd & Hseen) Hltc Hc. assert (Htake : take (S index) (<[index := c]> order) = take index order ++ [c]).
  { rewrite (take_S_r _ index c) by (by rewrite list_lookup_insert_eq by lia). by rewrite take_insert_ge. }
  rewrite Hseen in Hc. apply bool_decide_eq_false in Hc. unfold order_inv. rewrite !length_insert, Htake. conjs; try done; try lia.
  - apply NoDup_app. split; [done|]. split; [|apply NoDup_singleton]. intros x Hx ->%list_elem_of_singleton. done.
  - intros c'. destruct (decide (c = c')) as [<-|Hne].
    + rewrite bool_decide_true by set_solver. apply nth_lookup_Some, list_lookup_insert_eq. rewrite Hls. apply Hlt.
    + assert (E : nth (index_of c') (<[index_of c := true]> seen) false = nth (index_of c') seen false).
      { rewrite !nth_lookup, list_lookup_insert_ne; [done|]. intros E%Hinj. done. }
      rewrite E, Hseen. apply bool_decide_ext. set_solver.
Qed.

Lemma parse_order_loop_inv fuel : forall rest seen index order index' order',
  order_inv seen index order -> parse_order_loop (Z.of_nat count) from_name index_of fuel rest seen index order = (true, index', order') ->
  List.length order' = count /\ (index' <= count)%nat /\ NoDup (take index' order').
Proof.
  induction fuel as [|fuel IH]; intros rest seen index order index' order' Hinv; [discriminate|]. cbn [parse_order_loop].
  destruct (strtok_r "," rest) as [[token rest']|].
  2:{ intros [= <- <-]. destruct Hinv as (H1 & _ & H2 & H3 & _). done. }
  destruct (Z.leb_spec (Z.of_nat count) (Z.of_nat index)) as [|Hltc]; [discriminate|].
  destruct (from_name (Some token)) as [c|]; [|discriminate]. destruct (nth (index_of c) seen false) eqn:Hs; [discriminate|].
  intros E. eapply IH, E. apply order_inv_push; try done. lia.
Qed.

(** As many distinct conditions as there are are all of them. *)
Lemma all_of_them l : List.length l = count -> NoDup l -> l ≡ₚ all.
Proof.
  destruct Hall as [Hl Hin]. intros Hll Hnd. apply submseteq_length_Permutation; [|by rewrite Hll, Hl]. apply NoDup_submseteq; [done|]. intros c _. apply Hin.
Qed.

Lemma parse_order_of_ok text order o : List.length order = count -> parse_order_of buffer_size (Z.of_nat count) from_name index_of text order = (0, o) -> o ≡ₚ all.
Proof.
  intros Hl. unfold parse_order_of. destruct text as [t|]; [|discriminate]. destruct (buffer_size <=? _); [discriminate|]. rewrite Nat2Z.id.
  destruct (parse_order_loop _ _ _ _ _ _ 0 order) as [[ok index] o'] eqn:E. destruct ok; cbn [negb]; [|discriminate].
  destruct (Z.eqb_spec (Z.of_nat index) (Z.of_nat count)) as [Hi|]; cbn [negb]; [|discriminate]. intros [= <-].
  apply parse_order_loop_inv in E as (H1 & _ & H3).
  - rewrite take_ge in H3 by lia. by apply all_of_them.
  - unfold order_inv. cbn [take]. rewrite length_replicate. conjs; try done; [lia|apply NoDup_nil_2|]. intros c. rewrite bool_decide_false by apply not_elem_of_nil.
    rewrite nth_lookup, lookup_replicate_2 by apply Hlt. done.
Qed.
End Order.

Lemma condition_index_inj c c' : condition_index c = condition_index c' -> c = c'.
Proof. by destruct c, c'. Qed.

Lemma parse_order_ok text order o : List.length order = 4%nat -> parse_order text order = (0, o) -> o ≡ₚ all_conditions.
Proof.
  apply (parse_order_of_ok 128 4 condition_from_name condition_index); [apply condition_index_inj|intros c; destruct c; cbn; lia|].
  split; [done|]. intros c. destruct c; set_solver.
Qed.

(** ** The arguments *)

(** What the loop keeps; the processors and the quota are checked at the end. *)
Record config_sound (c : config) : Prop := {
  cs_sizes : 0 < pool_mib c /\ 0 < workset_mib c /\ 0 < group_classes c /\ 0 < seconds c;
  cs_widths : in_u64 (pool_mib c) /\ in_u64 (workset_mib c) /\ in_u64 (group_classes c) /\ seconds c <= UINT_MAX /\ in_u64 (seed c);
  cs_quota : 0 < throttle_quota_us c /\ 0 < throttle_period_us c <= UINT_MAX;
  cs_order : order c ≡ₚ all_conditions
}.

Lemma option_effect_sound name value c c' : config_sound c -> option_effect name value c = Some (Some c') -> config_sound c'.
Proof.
  intros [(H1 & H2 & H3 & H4) (W1 & W2 & W3 & W4 & W5) (Q1 & Q2) Ho]. unfold option_effect.
  repeat match goal with |- (if ?b then _ else _) = _ -> _ => destruct b end; intros HS; try discriminate HS; apply (inj Some) in HS;
    try (apply fmap_Some in HS as (v & Hv & ->)).
  all: try (apply nonzero_some in Hv as [Hv Hnz]); try (apply (parse_size_range (Some value)) in Hv); try (apply (parse_uint_range (Some value)) in Hv);
    try (apply (parse_u64_range (Some value)) in Hv); try (split; cbn; unfold in_u64 in *; try done; lia).
  revert HS. destruct (parse_order (Some value) (order c)) as [rc o] eqn:E. destruct (Z.eqb_spec rc 0) as [->|]; [|discriminate]. intros [= <-].
  apply parse_order_ok in E; [|by rewrite Ho]. by split.
Qed.

(** What every option keeps, the loop keeps. *)
Lemma parse_args_loop_keeps {C} (effect : string -> string -> C -> option (option C)) (P : C -> Prop) :
  (forall name value c c', P c -> effect name value c = Some (Some c') -> P c') ->
  forall args c c', P c -> parse_args_loop effect args c = ArgsOk c' -> P c'.
Proof.
  intros Heff args c c'. remember (List.length args) as n eqn:Hn. assert (Hl : (List.length args <= n)%nat) by lia. clear Hn. revert args c Hl.
  induction n as [|n IH]; intros [|arg args] c Hl Hs; cbn [parse_args_loop List.length] in *; try lia; try (by intros [= <-]).
  destruct (str_eq arg "--self-test"); [apply IH; [lia|done]|]. destruct (takes_value effect arg c); [|by destruct (_ || _)].
  destruct args as [|value args]; [discriminate|]. destruct (effect arg value c) as [[c1|]|] eqn:E; try discriminate.
  apply IH; [cbn in Hl; lia|by eapply Heff].
Qed.

(** C37: the arguments the experiment accepts give a configuration it can run: no
    size or time is zero, the values fit their types, the three workers have
    distinct processors, the quota is not above the period, and the order is a
    permutation of the four conditions, so each of them is run exactly once. *)
Theorem parse_args_usable args c cfg : parse_args args (Some c) = ArgsOk cfg -> config_ok cfg.
Proof.
  unfold parse_args. cbn [config_default]. set (c0 := if existsb _ args then _ else _).
  assert (Hc0 : config_sound c0) by (subst c0; destruct (existsb _ args); split; cbn; unfold in_u64, UINT_MAX; try done; lia).
  destruct (parse_args_loop option_effect args c0) as [c1| |] eqn:E; [|discriminate..].
  destruct ((victim_cpu c1 =? high_aggressor_cpu c1) || _ || _ || _) eqn:Hb; [discriminate|]. intros [= <-]. bool_hyps.
  destruct (parse_args_loop_keeps _ config_sound option_effect_sound _ _ _ Hc0 E) as [S1 S2 S3 S4]. split; try done; [|lia].
  repeat (apply NoDup_cons; split; [set_solver|]). apply NoDup_nil_2.
Qed.

Lemma parse_args_usable_witness : exists cfg, parse_args ["--order"; "all,none,selective,uncontrolled"; "--seconds"; "7"]%string (Some config_zero) = ArgsOk cfg /\ config_ok cfg.
Proof.
  eexists. split; [vm_compute; reflexivity|].
  apply (parse_args_usable ["--order"; "all,none,selective,uncontrolled"; "--seconds"; "7"]%string config_zero). vm_compute. reflexivity.
Defined.
