(* ===== verification/OraclePool.v ===== *)
(** * Memory pools and their bank classes ([oracle_selective_control.c])

    A pool is a mapping whose page frames are read from the page map.  The class
    of a cache line is the class of its page xored with the class of its offset,
    which is computed once for all pages. *)
From S2P Require Import Prelude Float64 CString Os Calibration DramMapping Cgroup SimOs AddrTranslate OracleSys.
From Stdlib Require Import Ascii String.
Local Open Scope Z_scope.

Definition CACHELINE_BYTES : Z := 64.
Definition MIB_BYTES : Z := 1024 * 1024.
Definition PAGEMAP_PRESENT : Z := Z.shiftl 1 63.
Definition PAGEMAP_SWAPPED : Z := Z.shiftl 1 62.
Definition PAGEMAP_PFN_MASK : Z := Z.shiftl 1 55 - 1.

(** [pool_base] is [None] when NULL; [pool_pfns] is the array, empty when NULL. *)
Record memory_pool := mk_memory_pool {
  pool_name : string;
  pool_base : option Z;
  pool_bytes : Z;
  pool_page_size : Z;
  pool_page_count : Z;
  pool_pfns : list Z
}.

#[export] Instance memory_pool_settable : Settable memory_pool :=
  fun p => mk_memory_pool (pool_name p) (pool_base p) (pool_bytes p) (pool_page_size p) (pool_page_count p) (pool_pfns p).

Definition memory_pool_zero : memory_pool := mk_memory_pool "" None 0 0 0 [].

(** The counters of [pool_create]. *)
Record pfn_counts := mk_pfn_counts { pc_valid : Z; pc_not_present : Z; pc_swapped : Z; pc_unavailable : Z }.

#[export] Instance pfn_counts_settable : Settable pfn_counts :=
  fun c => mk_pfn_counts (pc_valid c) (pc_not_present c) (pc_swapped c) (pc_unavailable c).

Section Pool.
Context {W : Type} `{HO : OS W} `{HM : Memory W}.

(** The code, and [*pfn_out] when it was set; [pfn_out] is the address of a
    local. *)
Definition read_one_pfn (pagemap_fd virtual_address page_size : Z) (w : W) : Z * option Z * W :=
  if page_size =? 0 then (-1, None, w)
  else
    let vpn := virtual_address / page_size in
    let offset := as_off_t (u64_mul vpn 8) in
    let '(bytes, w) := os_pread pagemap_fd 8 offset w in
    match bytes with
    | None => (-1, None, w)
    | Some bytes =>
        if negb (Z.of_nat (List.length bytes) =? 8) then (-1, None, w)
        else
          let entry := decode_u64_le bytes in
          if Z.land entry PAGEMAP_PRESENT =? 0 then (-2, None, w)
          else if negb (Z.land entry PAGEMAP_SWAPPED =? 0) then (-3, None, w)
          else
            let pfn := Z.land entry PAGEMAP_PFN_MASK in
            if pfn =? 0 then (-4, Some pfn, w) else (0, Some pfn, w)
    end.

(** [pool] is not NULL. *)
Definition pool_destroy (pool : memory_pool) (w : W) : memory_pool * W :=
  let w := match pool_base pool with Some base => mm_munmap base (pool_bytes pool) w | None => w end in
  (memory_pool_zero, w).

(** The loop that faults the pages in, for the pages from [i] on. *)
Fixpoint fault_loop (n : nat) (i base page_size fault_seed : Z) (w : W) : W :=
  match n with
  | O => w
  | S n => fault_loop n (i + 1) base page_size fault_seed (mm_store_byte (u64 (base + i * page_size)) (Z.land (Z.lxor i fault_seed) 255) w)
  end.

(** The loop over the page map: the frames of the pages from [i] on, 0 where the
    read failed, and the counters. *)
Fixpoint pfn_loop (n : nat) (i fd base page_size : Z) (c : pfn_counts) (w : W) : list Z * pfn_counts * W :=
  match n with
  | O => ([], c, w)
  | S n =>
      let va := u64 (base + i * page_size) in
      let '(rc, pfn, w) := read_one_pfn fd va page_size w in
      let '(p, c) :=
        if rc =? 0 then (default 0 pfn, c <| pc_valid ::= u64_inc |>)
        else if rc =? -2 then (0, c <| pc_not_present ::= u64_inc |>)
        else if rc =? -3 then (0, c <| pc_swapped ::= u64_inc |>)
        else (0, c <| pc_unavailable ::= u64_inc |>) in
      let '(ps, c, w) := pfn_loop n (i + 1) fd base page_size c w in
      (p :: ps, c, w)
  end.

(** [pool] and [name] are not NULL; the code, [*pool] and the world. *)
Definition pool_create (name : string) (pool_mib page_size fault_seed : Z) (pool : memory_pool) (w : W) : Z * memory_pool * W :=
  if (pool_mib =? 0) || (page_size =? 0) then (-1, pool, w)
  else
    let pool := memory_pool_zero in
    if UINT64_MAX / MIB_BYTES <? pool_mib then (-1, pool, w)
    else
      let pool := pool <| pool_name := name |> <| pool_bytes := u64_mul pool_mib MIB_BYTES |> <| pool_page_size := page_size |> in
      if negb (pool_bytes pool mod page_size =? 0) then (-1, pool, w)
      else
        let pool := pool <| pool_page_count := pool_bytes pool / page_size |> in
        let '(base, w) := mm_mmap (pool_bytes pool) w in
        match base with
        | None => (-1, pool <| pool_base := None |>, w)
        | Some base =>
            let pool := pool <| pool_base := Some base |> in
            let '(ok, w) := mm_madvise base (pool_bytes pool) w in
            if negb ok then let '(pool, w) := pool_destroy pool w in (-1, pool, w)
            else
              let '(ok, w) := os_calloc (pool_page_count pool) 8 w in
              if negb ok then let '(pool, w) := pool_destroy pool w in (-1, pool, w)
              else
                let n := Z.to_nat (pool_page_count pool) in
                let w := fault_loop n 0 base page_size fault_seed w in
                let '(fd, w) := os_open "/proc/self/pagemap" w in
                if fd <? 0 then let '(pool, w) := pool_destroy pool w in (-1, pool, w)
                else
                  let '(pfns, counts, w) := pfn_loop n 0 fd base page_size (mk_pfn_counts 0 0 0 0) w in
                  let pool := pool <| pool_pfns := pfns |> in
                  let w := os_close fd w in
                  if negb (pc_valid counts =? pool_page_count pool) then let '(pool, w) := pool_destroy pool w in (-1, pool, w)
                  else (0, pool, w)
        end.

(** The loop over the frames of the pages from [i] on: how many moved, and how
    many could not be read. *)
Fixpoint verify_loop (pfns : list Z) (i fd base page_size moved unreadable : Z) (w : W) : Z * Z * W :=
  match pfns with
  | [] => (moved, unreadable, w)
  | p :: pfns =>
      let va := u64 (base + i * page_size) in
      let '(rc, pfn, w) := read_one_pfn fd va page_size w in
      if negb (rc =? 0) then verify_loop pfns (i + 1) fd base page_size moved (u64_inc unreadable) w
      else
        let moved := if negb (default 0 pfn =? p) then u64_inc moved else moved in
        verify_loop pfns (i + 1) fd base page_size moved unreadable w
  end.

(** The pointers are not NULL; the pool has a base. [None] is the code -1. *)
Definition verify_pool_pfns (pool : memory_pool) (w : W) : option (Z * Z) * W :=
  let '(fd, w) := os_open "/proc/self/pagemap" w in
  if fd <? 0 then (None, w)
  else
    let '(moved, unreadable, w) := verify_loop (pool_pfns pool) 0 fd (default 0 (pool_base pool)) (pool_page_size pool) 0 0 w in
    (Some (moved, unreadable), os_close fd w).

(** ** Classes *)

(** [None]: the code -1. *)
Definition class_space_from_mapping (mapping : option dram_mapping) : option Z :=
  match mapping with
  | None => None
  | Some m =>
      if negb (dram_mapping_is_ready mapping) then None
      else if 20 <? mask_count m then None
      else
        let space64 := u64 (Z.shiftl 1 (mask_count m)) in
        if UINT64_MAX <? space64 then None else Some space64
  end.

(** [lines] cache lines from [line] on. *)
Fixpoint offset_loop (n : nat) (mapping : dram_mapping) (line : Z) : list Z :=
  match n with
  | O => []
  | S n => dram_mapping_bank_class_fast mapping (u64_mul line CACHELINE_BYTES) :: offset_loop n mapping (line + 1)
  end.

(** The classes of the offsets, one per line of a page. *)
Definition build_offset_classes (mapping : option dram_mapping) (page_size : Z) (w : W) : option (list Z) * W :=
  match mapping with
  | None => (None, w)
  | Some m =>
      if negb (page_size mod CACHELINE_BYTES =? 0) then (None, w)
      else
        let lines_per_page := page_size / CACHELINE_BYTES in
        let '(ok, w) := os_calloc lines_per_page 8 w in
        if negb ok then (None, w) else (Some (offset_loop (Z.to_nat lines_per_page) m 0), w)
  end.
End Pool.

(** [++counts[cls]], inside the array. *)
Definition bump (cls : Z) (counts : list Z) : list Z := <[Z.to_nat cls := u64_inc (nth (Z.to_nat cls) counts 0)]> counts.

(** The inner loop; [None] when a class is outside the space. *)
Fixpoint count_lines (offset_classes : list Z) (base_class class_space : Z) (counts : list Z) : option (list Z) :=
  match offset_classes with
  | [] => Some counts
  | oc :: ocs =>
      let cls := Z.lxor base_class oc in
      if class_space <=? cls then None else count_lines ocs base_class class_space (bump cls counts)
  end.

(** The class of the first line of a page. *)
Definition page_class (mapping : dram_mapping) (page_size pfn : Z) : Z :=
  dram_mapping_bank_class_fast mapping (u64_mul pfn page_size).

Fixpoint count_pages (pfns : list Z) (page_size : Z) (mapping : dram_mapping) (offset_classes : list Z) (class_space : Z) (counts : list Z)
  : option (list Z) :=
  match pfns with
  | [] => Some counts
  | pfn :: pfns =>
      match count_lines offset_classes (page_class mapping page_size pfn) class_space counts with
      | None => None
      | Some counts => count_pages pfns page_size mapping offset_classes class_space counts
      end
  end.

(** The pointers are not NULL; the counts start at 0. *)
Definition count_line_classes (pool : memory_pool) (mapping : dram_mapping) (offset_classes : list Z) (class_space : Z) : option (list Z) :=
  count_pages (pool_pfns pool) (pool_page_size pool) mapping offset_classes class_space (replicate (Z.to_nat class_space) 0).
