(* ===== verification/OracleLines.v ===== *)
(** * Selecting cache lines by class ([oracle_selective_control.c])

    From the lines of a pool, the same number is taken of each chosen class, in
    a shuffled order; the histogram of a selection is recomputed from the
    addresses. *)
From S2P Require Import Prelude Float64 CString Os Calibration DramMapping OracleSys OraclePool.
From Stdlib Require Import Ascii String.
Local Open Scope Z_scope.

(** ** Choosing classes *)

(** The classes from [cls] on of which every pool has the lines. *)
Fixpoint eligible_classes (n : nat) (cls : Z) (victim_counts high_counts low_counts : list Z) (quota_lines : Z) : list Z :=
  match n with
  | O => []
  | S n =>
      let k := Z.to_nat cls in
      let rest := eligible_classes n (cls + 1) victim_counts high_counts low_counts quota_lines in
      if (quota_lines <=? nth k victim_counts 0) && (quota_lines <=? nth k high_counts 0) && (quota_lines <=? nth k low_counts 0)
      then cls :: rest else rest
  end.

(** [victim_classes] and [low_classes], or [None] for the code -1. The pointers
    are not NULL. *)
Definition choose_class_sets {W} `{OS W} (victim_counts high_counts low_counts : list Z) (class_space group_classes quota_lines seed : Z) (w : W)
  : option (list Z * list Z) * W :=
  if (group_classes =? 0) || (quota_lines =? 0) then (None, w)
  else
    let '(ok, w) := os_calloc class_space 8 w in
    if negb ok then (None, w)
    else
      let candidates := eligible_classes (Z.to_nat class_space) 0 victim_counts high_counts low_counts quota_lines in
      let candidate_count := Z.of_nat (List.length candidates) in
      if candidate_count <? u64_mul group_classes 2 then (None, w)
      else
        let candidates := default [] (shuffle_u64 (Some candidates) candidate_count seed) in
        let n := Z.to_nat group_classes in
        (Some (take n candidates, take n (drop n candidates)), w).

(** ** Collecting lines *)

(** [ls_pool] is [None] when NULL. *)
Record line_set := mk_line_set {
  ls_pool : option memory_pool;
  ls_addresses : list Z;
  ls_line_count : Z
}.

Definition line_set_zero : line_set := mk_line_set None [] 0.

(** [class_to_slot[classes[slot]] = (int)slot], for the slots from [slot] on;
    [None] when a class is outside the space. *)
Fixpoint slot_loop (classes : list Z) (slot class_space : Z) (class_to_slot : list Z) : option (list Z) :=
  match classes with
  | [] => Some class_to_slot
  | c :: classes =>
      if class_space <=? c then None
      else slot_loop classes (slot + 1) class_space (<[Z.to_nat c := as_int slot]> class_to_slot)
  end.

(** The arrays of the collection. *)
Record collecting := mk_collecting { cl_addresses : list Z; cl_filled : list Z; cl_remaining : Z }.

Section Collect.
Variables (base page_size class_space quota_lines : Z) (mapping : dram_mapping) (pfns offset_classes class_to_slot : list Z).

(** One line of a page whose class is [base_class]; [None] is the jump to
    [fail]. *)
Definition collect_line (page base_class line : Z) (c : collecting) : option collecting :=
  let cls := Z.lxor base_class (nth (Z.to_nat line) offset_classes 0) in
  if class_space <=? cls then None
  else
    let selected_slot := nth (Z.to_nat cls) class_to_slot (-1) in
    if selected_slot <? 0 then Some c
    else
      let slot := Z.to_nat selected_slot in
      let filled := nth slot (cl_filled c) 0 in
      if quota_lines <=? filled then Some c
      else
        let address := u64 (base + u64_mul page page_size + u64_mul line CACHELINE_BYTES) in
        let filled' := u64_inc filled in
        Some (mk_collecting (<[Z.to_nat (selected_slot * quota_lines + filled) := address]> (cl_addresses c))
          (<[slot := filled']> (cl_filled c))
          (if filled' =? quota_lines then cl_remaining c - 1 else cl_remaining c)).

Fixpoint collect_lines (line_order : list Z) (page base_class : Z) (c : collecting) : option collecting :=
  match line_order with
  | [] => Some c
  | line :: line_order =>
      match collect_line page base_class line c with
      | None => None
      | Some c => collect_lines line_order page base_class c
      end
  end.

(** The loop over the pages, left when nothing remains to be filled. *)
Fixpoint collect_pages (page_order line_order : list Z) (c : collecting) : option collecting :=
  match page_order with
  | [] => Some c
  | page :: page_order =>
      if 0 <? cl_remaining c then
        match collect_lines line_order page (page_class mapping page_size (nth (Z.to_nat page) pfns 0)) c with
        | None => None
        | Some c => collect_pages page_order line_order c
        end
      else Some c
  end.
End Collect.

(** [0, 1, ..., n - 1] shuffled with a seed. *)
Definition shuffled_order (n seed : Z) : list Z := default [] (shuffle_size_t (Some (zrange 0 (Z.to_nat n))) n seed).

(** [set] and the pool are not NULL, and the pool has a base; the code and [*set]. *)
Definition collect_line_set {W} `{OS W} `{Memory W} (pool : memory_pool) (mapping : dram_mapping) (offset_classes : list Z)
    (class_space : Z) (classes : list Z) (class_count quota_lines seed : Z) (set : line_set) (w : W) : Z * line_set * W :=
  if (class_count =? 0) || (quota_lines =? 0) then (-1, set, w)
  else if UINT64_MAX / quota_lines <? class_count then (-1, line_set_zero, w)
  else
    let line_count := u64_mul class_count quota_lines in
    let lines_per_page := Z.of_nat (List.length offset_classes) in
    let '(ok1, w) := os_calloc line_count 8 w in
    let '(ok2, w) := mm_malloc (u64_mul class_space 4) w in
    let '(ok3, w) := os_calloc class_count 8 w in
    let '(ok4, w) := mm_malloc (u64_mul (pool_page_count pool) 8) w in
    let '(ok5, w) := mm_malloc (u64_mul lines_per_page 8) w in
    if negb (ok1 && ok2 && ok3 && ok4 && ok5) then (-1, line_set_zero, w)
    else
      match slot_loop (take (Z.to_nat class_count) classes) 0 class_space (replicate (Z.to_nat class_space) (-1)) with
      | None => (-1, line_set_zero, w)
      | Some class_to_slot =>
          let page_order := shuffled_order (pool_page_count pool) (Z.lxor seed 0x9e3779b97f4a7c15) in
          let line_order := shuffled_order lines_per_page (Z.lxor seed 0xd1b54a32d192ed03) in
          match collect_pages (default 0 (pool_base pool)) (pool_page_size pool) class_space quota_lines mapping (pool_pfns pool)
                  offset_classes class_to_slot page_order line_order
                  (mk_collecting (replicate (Z.to_nat line_count) 0) (replicate (Z.to_nat class_count) 0) class_count) with
          | None => (-1, line_set_zero, w)
          | Some c =>
              if negb (cl_remaining c =? 0) then (-1, line_set_zero, w)
              else (0, mk_line_set (Some pool) (cl_addresses c) line_count, w)
          end
      end.

(** [set] is not NULL. *)
Definition line_set_destroy (set : line_set) : line_set := line_set_zero.

(** ** Histograms *)

(** The class, or [None] for the code -1; [class_out] is the address of a local. *)
Definition address_bank_class (set : option line_set) (mapping : option dram_mapping) (address : Z) : option Z :=
  match set, mapping with
  | Some s, Some m =>
      match ls_pool s with
      | None => None
      | Some pool =>
          let base := default 0 (pool_base pool) in
          if (address <? base) || (u64 (base + pool_bytes pool) <=? address) then None
          else
            let delta := address - base in
            let page := delta / pool_page_size pool in
            let offset := delta mod pool_page_size pool in
            if negb (offset mod CACHELINE_BYTES =? 0) then None
            else
              let pa := u64_add (u64_mul (nth (Z.to_nat page) (pool_pfns pool) 0) (pool_page_size pool)) offset in
              Some (dram_mapping_bank_class_fast m pa)
      end
  | _, _ => None
  end.

Fixpoint histogram_loop (set : line_set) (mapping : dram_mapping) (class_space : Z) (addresses : list Z) (histogram : list Z) : option (list Z) :=
  match addresses with
  | [] => Some histogram
  | a :: addresses =>
      match address_bank_class (Some set) (Some mapping) a with
      | None => None
      | Some cls => if class_space <=? cls then None else histogram_loop set mapping class_space addresses (bump cls histogram)
      end
  end.

(** The pointers are not NULL; [None] is the code -1. *)
Definition build_histogram (set : line_set) (mapping : dram_mapping) (class_space : Z) : option (list Z) :=
  histogram_loop set mapping class_space (take (Z.to_nat (ls_line_count set)) (ls_addresses set)) (replicate (Z.to_nat class_space) 0).

(** Intersection and union. *)
Fixpoint jaccard_loop (a b : list Z) (n : nat) (intersection union_count : Z) : Z * Z :=
  match n, a, b with
  | S n, x :: a, y :: b =>
      let minimum := if x <? y then x else y in
      let maximum := if y <? x then x else y in
      jaccard_loop a b n (u64_add intersection minimum) (u64_add union_count maximum)
  | _, _, _ => (intersection, union_count)
  end.

(** The score, [*intersection_out] and [*union_out]. *)
Definition histogram_jaccard (a b : list Z) (class_space : Z) : double * Z * Z :=
  let '(intersection, union_count) := jaccard_loop a b (Z.to_nat class_space) 0 0 in
  (if union_count =? 0 then dzero else ddiv (Z_to_double intersection) (Z_to_double union_count), intersection, union_count).

Fixpoint unique_loop (histogram : list Z) (n : nat) (unique : Z) : Z :=
  match n, histogram with
  | S n, h :: histogram => unique_loop histogram n (if negb (h =? 0) then u64_inc unique else unique)
  | _, _ => unique
  end.

Definition histogram_unique_classes (histogram : list Z) (class_space : Z) : Z := unique_loop histogram (Z.to_nat class_space) 0.
