(* ===== verification/OracleClasses.v ===== *)
(** * The classes of cache lines

    A line is a page of the pool and a line of the page.  Its class, which the
    experiment computes from the page and the offset apart, is the class of its
    physical address; counting lines by class is tallying the list of their
    classes. *)
From S2P Require Import Prelude Float64 CString Os Calibration DramMapping Cgroup SimOs AddrTranslate OracleSys OraclePool OracleLines.
From Stdlib Require Import Ascii String.
Local Open Scope Z_scope.

(** ** The class is linear *)

Lemma bank_class_lxor m a b : wf_mapping m -> 0 <= a -> 0 <= b ->
  dram_mapping_bank_class_fast m (Z.lxor a b) = Z.lxor (dram_mapping_bank_class_fast m a) (dram_mapping_bank_class_fast m b).
Proof.
  intros Hm Ha Hb. apply Z.bits_inj'. intros k Hk. rewrite Z.lxor_spec, !bank_class_testbit, class_bit_lxor by done.
  destruct (k <? mask_count m); [done|]. by rewrite !andb_false_l.
Qed.

Lemma bank_class_below m a : wf_mapping m -> 0 <= dram_mapping_bank_class_fast m a < 2 ^ mask_count m.
Proof.
  intros Hm. pose proof (bank_class_nonneg m a Hm) as H0. split; [exact H0|]. pose proof Hm as (Hc & _).
  set (c := dram_mapping_bank_class_fast m a) in *. destruct (Z.eq_dec c 0) as [->|Hne]; [apply Z.pow_pos_nonneg; lia|].
  apply Z.log2_lt_pow2; [lia|]. destruct (Z_lt_le_dec (Z.log2 c) (mask_count m)) as [|Hge]; [done|].
  pose proof (Z.bit_log2 c ltac:(lia)) as Hb. subst c. rewrite bank_class_testbit in Hb by (done || apply Z.log2_nonneg).
  apply andb_true_iff in Hb as [Hb%Z.ltb_lt _]. lia.
Qed.

Lemma lxor_below a b n : 0 <= n -> 0 <= a < 2 ^ n -> 0 <= b < 2 ^ n -> 0 <= Z.lxor a b < 2 ^ n.
Proof.
  intros Hn Ha Hb. assert (H0 : 0 <= Z.lxor a b) by (apply Z.lxor_nonneg; lia). split; [exact H0|].
  destruct (Z.eq_dec (Z.lxor a b) 0) as [->|Hne]; [apply Z.pow_pos_nonneg; lia|]. apply Z.log2_lt_pow2; [lia|].
  pose proof (Z.log2_lxor a b ltac:(lia) ltac:(lia)).
  assert (Hlt : forall x, 0 <= x < 2 ^ n -> Z.log2 x < Z.max n 1).
  { intros x Hx. destruct (Z.eq_dec x 0) as [->|]; [cbn; lia|]. pose proof (proj1 (Z.log2_lt_pow2 x n ltac:(lia)) ltac:(lia)). lia. }
  pose proof (Hlt a Ha). pose proof (Hlt b Hb). destruct (Z.eq_dec n 0) as [->|]; [|lia].
  exfalso. apply Hne. replace a with 0 by (cbn in Ha; lia). replace b with 0 by (cbn in Hb; lia). done.
Qed.

(** Adding an offset to the address of a page is xoring it. *)
Lemma page_plus_offset base off k : 0 <= k -> 0 <= base -> base mod 2 ^ k = 0 -> 0 <= off < 2 ^ k -> base + off = Z.lxor base off.
Proof.
  intros Hk Hb Hm Ho. apply Z.add_nocarry_lxor. apply Z.bits_inj'. intros i Hi. rewrite Z.land_spec, Z.bits_0.
  destruct (Z_lt_le_dec i k) as [Hlt|Hge].
  - rewrite <- (Z.mod_pow2_bits_low base k i) by lia. by rewrite Hm, Z.bits_0.
  - destruct (Z.eq_dec off 0) as [->|]; [by rewrite Z.bits_0, andb_false_r|].
    rewrite (Z.bits_above_log2 off i), andb_false_r; [done|lia|]. apply Z.log2_lt_pow2; [lia|].
    assert (2 ^ k <= 2 ^ i) by (apply Z.pow_le_mono_r; lia). lia.
Qed.

(** ** Tallies *)

(** How often a class occurs. *)
Definition occurs (c : Z) (cs : list Z) : Z := Z.of_nat (List.length (filter (fun x => x = c) cs)).

Lemma occurs_cons c x cs : occurs c (x :: cs) = (if decide (x = c) then 1 else 0) + occurs c cs.
Proof. unfold occurs. rewrite filter_cons. destruct (decide (x = c)); cbn [List.length]; lia. Qed.

Lemma occurs_app c xs ys : occurs c (xs ++ ys) = occurs c xs + occurs c ys.
Proof. unfold occurs. rewrite filter_app, length_app. lia. Qed.

Lemma occurs_bound c cs : 0 <= occurs c cs <= Z.of_nat (List.length cs).
Proof. unfold occurs. pose proof (length_filter (fun x => x = c) cs). lia. Qed.

Lemma occurs_perm c xs ys : xs ≡ₚ ys -> occurs c xs = occurs c ys.
Proof. intros E. unfold occurs. by rewrite E. Qed.

(** Counting a list of classes that are in the space. *)
Definition tally (cs counts : list Z) : list Z := fold_left (fun counts c => bump c counts) cs counts.

Lemma length_tally cs : forall counts, List.length (tally cs counts) = List.length counts.
Proof. induction cs as [|c cs IH]; intros counts; [done|]. cbn. rewrite IH. unfold bump. by rewrite length_insert. Qed.

Lemma nth_bump c k counts : 0 <= c -> (Z.to_nat c < List.length counts)%nat ->
  nth k (bump c counts) 0 = if decide (c = Z.of_nat k) then u64_inc (nth k counts 0) else nth k counts 0.
Proof.
  intros Hc Hl. unfold bump. destruct (decide (c = Z.of_nat k)) as [->|Hne].
  - rewrite Nat2Z.id in *. apply nth_lookup_Some, list_lookup_insert_eq. lia.
  - rewrite !nth_lookup, list_lookup_insert_ne by lia. done.
Qed.

Lemma nth_tally cs k : forall counts, Forall (fun c => 0 <= c < Z.of_nat (List.length counts)) cs ->
  nth k (tally cs counts) 0 = if decide (occurs (Z.of_nat k) cs = 0) then nth k counts 0 else u64 (nth k counts 0 + occurs (Z.of_nat k) cs).
Proof.
  induction cs as [|c cs IH]; intros counts Hall; [done|]. apply Forall_cons in Hall as [Hc Hall]. cbn [tally fold_left]. fold (tally cs (bump c counts)).
  rewrite IH by (unfold bump; by rewrite length_insert). rewrite nth_bump by lia. rewrite occurs_cons.
  pose proof (occurs_bound (Z.of_nat k) cs). destruct (decide (c = Z.of_nat k)); [|done].
  rewrite (decide_False (P := 1 + occurs (Z.of_nat k) cs = 0)) by lia.
  destruct (decide (occurs (Z.of_nat k) cs = 0)) as [E|E].
  - rewrite E. unfold u64_inc. by f_equal.
  - unfold u64_inc. rewrite u64_add_l. f_equal. lia.
Qed.

(** From zero, with fewer lines than a counter holds: the number of lines. *)
Lemma nth_tally_zero cs n k : Forall (fun c => 0 <= c < Z.of_nat n) cs -> Z.of_nat (List.length cs) < 18446744073709551616 ->
  nth k (tally cs (replicate n 0)) 0 = occurs (Z.of_nat k) cs.
Proof.
  intros Hall Hl. rewrite nth_tally by (by rewrite length_replicate).
  assert (E : nth k (replicate n 0) 0 = 0) by (rewrite nth_lookup; destruct (replicate n 0 !! k) eqn:E; [by apply lookup_replicate in E as [-> _]|done]).
  rewrite E, Z.add_0_l. pose proof (occurs_bound (Z.of_nat k) cs). destruct (decide (occurs (Z.of_nat k) cs = 0)) as [->|]; [done|].
  apply u64_small. unfold in_u64. lia.
Qed.

(** ** The lines of a pool *)

(** The pool is laid out as [pool_create] leaves it, with pages of [2 ^ k]
    bytes. *)
Record pool_ok (p : memory_pool) (base k : Z) : Prop := {
  po_base : pool_base p = Some base;
  po_page : pool_page_size p = 2 ^ k;
  po_k : 6 <= k < 64;
  po_count : pool_page_count p = Z.of_nat (List.length (pool_pfns p));
  po_bytes : pool_bytes p = pool_page_count p * 2 ^ k;
  po_room : 0 < base /\ base + pool_bytes p < 18446744073709551616;
  po_pfns : Forall (fun x => 0 <= x) (pool_pfns p)
}.

(** The lines of a page. *)
Definition page_lines (k : Z) : Z := 2 ^ (k - 6).

Section Lines.
Context (m : dram_mapping) (p : memory_pool) (base k : Z).
Hypothesis Hm : wf_mapping m.
Hypothesis Hp : pool_ok p base k.

Lemma page_split : 2 ^ k = page_lines k * 64 /\ 0 < page_lines k /\ 2 ^ k / 64 = page_lines k.
Proof.
  pose proof (po_k _ _ _ Hp) as Hk. unfold page_lines. assert (E : 2 ^ k = 2 ^ (k - 6) * 64) by (change 64 with (2 ^ 6); rewrite <- Z.pow_add_r by lia; f_equal; lia).
  split; [exact E|]. split; [apply Z.pow_pos_nonneg; lia|]. rewrite E. by apply Z.div_mul.
Qed.

Definition offset_classes : list Z := offset_loop (Z.to_nat (page_lines k)) m 0.

Lemma nth_offset_loop n : forall line i, (i < n)%nat -> 0 <= line ->
  nth i (offset_loop n m line) 0 = dram_mapping_bank_class_fast m (u64_mul (line + Z.of_nat i) CACHELINE_BYTES).
Proof.
  induction n as [|n IH]; intros line [|i] Hi Hl; try lia; cbn [offset_loop nth]; [by rewrite Z.add_0_r|].
  rewrite IH by lia. do 2 f_equal. lia.
Qed.

Lemma length_offset_loop n : forall line, List.length (offset_loop n m line) = n.
Proof. induction n as [|n IH]; intros line; [done|]. cbn [offset_loop List.length]. by rewrite IH. Qed.

(** A line is a page and a line of it. *)
Definition line_ok (x : Z * Z) : Prop := 0 <= x.1 < pool_page_count p /\ 0 <= x.2 < page_lines k.

Definition line_class (x : Z * Z) : Z :=
  Z.lxor (page_class m (pool_page_size p) (nth (Z.to_nat x.1) (pool_pfns p) 0)) (nth (Z.to_nat x.2) offset_classes 0).

Definition line_address (x : Z * Z) : Z := u64 (base + u64_mul x.1 (pool_page_size p) + u64_mul x.2 CACHELINE_BYTES).

Lemma line_class_below x : 0 <= line_class x < 2 ^ mask_count m.
Proof.
  pose proof Hm as (Hc & _). apply lxor_below; [lia|apply bank_class_below, Hm|]. unfold offset_classes.
  destruct (Nat.lt_ge_cases (Z.to_nat x.2) (Z.to_nat (page_lines k))) as [Hlt|Hge].
  - rewrite nth_offset_loop by lia. apply bank_class_below, Hm.
  - rewrite nth_overflow by (by rewrite length_offset_loop). split; [done|]. apply Z.pow_pos_nonneg; lia.
Qed.

Lemma line_address_eq x : line_ok x -> line_address x = base + (x.1 * 2 ^ k + x.2 * 64).
Proof.
  intros [Hx1 Hx2]. destruct page_split as (Hs & Hpos & _). pose proof (po_room _ _ _ Hp) as [Hb Hr]. rewrite (po_bytes _ _ _ Hp) in Hr.
  unfold line_address, u64_mul, CACHELINE_BYTES. rewrite (po_page _ _ _ Hp).
  assert (x.1 * 2 ^ k + x.2 * 64 < pool_page_count p * 2 ^ k) by nia.
  rewrite (u64_small (x.1 * 2 ^ k)), (u64_small (x.2 * 64)), u64_small by (unfold in_u64; nia). lia.
Qed.

Lemma line_address_inj x y : line_ok x -> line_ok y -> line_address x = line_address y -> x = y.
Proof.
  intros Hx Hy. rewrite !line_address_eq by done. destruct Hx as [_ Hx], Hy as [_ Hy], page_split as (Hs & Hpos & _). intros E.
  destruct x as [x1 x2], y as [y1 y2]. cbn [fst snd] in *. assert (x1 * page_lines k + x2 = y1 * page_lines k + y2) by nia.
  assert (x1 = y1) by nia. subst. f_equal. lia.
Qed.

(** The class computed from the address of the line is its class. *)
Lemma line_address_class set x : ls_pool set = Some p -> line_ok x ->
  address_bank_class (Some set) (Some m) (line_address x) = Some (line_class x).
Proof.
  intros Hs Hx. pose proof Hx as [Hx1 Hx2]. destruct page_split as (Hsplit & Hpos & _). pose proof (po_k _ _ _ Hp) as Hk.
  pose proof (po_room _ _ _ Hp) as [Hb Hr]. pose proof (po_bytes _ _ _ Hp) as Hbytes.
  unfold address_bank_class. rewrite Hs, line_address_eq, (po_base _ _ _ Hp), (po_page _ _ _ Hp) by done. cbn [default from_option id].
  assert (Hin : x.1 * 2 ^ k + x.2 * 64 < pool_page_count p * 2 ^ k) by nia.
  rewrite u64_small by (unfold in_u64; nia).
  destruct (Z.ltb_spec (base + (x.1 * 2 ^ k + x.2 * 64)) base); [nia|]. destruct (Z.leb_spec (base + pool_bytes p) (base + (x.1 * 2 ^ k + x.2 * 64))); [nia|]. cbn [orb].
  replace (base + (x.1 * 2 ^ k + x.2 * 64) - base) with (x.2 * 64 + x.1 * 2 ^ k) by lia.
  assert (Hpow : 0 < 2 ^ k) by (apply Z.pow_pos_nonneg; lia).
  rewrite Z.div_add, (Z.div_small (x.2 * 64)), Z.add_0_l by nia. rewrite Z.mod_add, (Z.mod_small (x.2 * 64)) by nia.
  unfold CACHELINE_BYTES. rewrite Z.mod_mul by lia. cbn [negb Z.eqb]. f_equal.
  unfold line_class, page_class. rewrite (po_page _ _ _ Hp). unfold offset_classes. rewrite nth_offset_loop by lia.
  set (f := nth (Z.to_nat x.1) (pool_pfns p) 0). unfold CACHELINE_BYTES. rewrite Z.add_0_l, Z2Nat.id by lia.
  assert (Hoff : 0 <= x.2 * 64 < 2 ^ k) by nia. assert (H64 : 2 ^ k * 2 ^ (64 - k) = 18446744073709551616)
    by (rewrite <- Z.pow_add_r by lia; replace (k + (64 - k)) with 64 by lia; done).
  assert (0 < 2 ^ (64 - k)) by (apply Z.pow_pos_nonneg; lia).
  replace (u64_mul x.2 64) with (x.2 * 64) by (symmetry; apply u64_small; unfold in_u64; nia).
  pose proof (u64_range (f * 2 ^ k)) as Hpage. change (u64 (f * 2 ^ k)) with (u64_mul f (2 ^ k)) in Hpage. set (b := u64_mul f (2 ^ k)) in *.
  assert (Hbm : b = (f mod 2 ^ (64 - k)) * 2 ^ k).
  { unfold b, u64_mul, u64. rewrite <- H64, (Z.mul_comm (2 ^ k) (2 ^ (64 - k))). apply Z.mul_mod_distr_r; lia. }
  pose proof (Z.mod_pos_bound f (2 ^ (64 - k)) ltac:(lia)).
  unfold u64_add. rewrite u64_small by (unfold in_u64; nia).
  rewrite <- bank_class_lxor by (done || nia). f_equal. apply (page_plus_offset b (x.2 * 64) k); [lia|nia| |lia]. rewrite Hbm. apply Z.mod_mul. lia.
Qed.
End Lines.

(** * What creating a pool leaves

    A pool that is returned is laid out as the rest of the experiment relies on:
    whole pages inside the address space, and a frame of the page map for each of
    them. *)

(** A frame number as the page map holds it. *)
Definition frame_ok (f : Z) : Prop := 0 < f < 2 ^ 55.

Section Pool.
Context {W : Type} `{HO : OS W} `{ML : MemoryLaws W}.
Implicit Types w : W.

Lemma read_one_pfn_ok fd va ps w pfn w' : read_one_pfn fd va ps w = (0, pfn, w') -> frame_ok (default 0 pfn).
Proof.
  unfold read_one_pfn. destruct (ps =? 0); [done|]. destruct (os_pread _ _ _ _) as [[bytes|] w1]; [|done]. destruct (negb _); [done|].
  destruct (_ =? 0); [done|]. destruct (negb _); [done|]. set (f := Z.land _ PAGEMAP_PFN_MASK). destruct (Z.eqb_spec f 0); [done|]. intros [= <- _]. cbn.
  assert (Hf : f = decode_u64_le bytes mod 2 ^ 55) by (unfold f; change PAGEMAP_PFN_MASK with (Z.ones 55); apply Z.land_ones; lia).
  pose proof (Z.mod_pos_bound (decode_u64_le bytes) (2 ^ 55) ltac:(lia)). unfold frame_ok. lia.
Qed.

(** The frames, and how many of the reads were valid. *)
Lemma pfn_loop_spec n : forall i fd base ps c w pfns c' w', pfn_loop n i fd base ps c w = (pfns, c', w') ->
  List.length pfns = n /\ Forall (fun f => 0 <= f) pfns /\
  exists v, (v <= n)%nat /\ u64 (pc_valid c') = u64 (pc_valid c + Z.of_nat v) /\ (v = n -> Forall frame_ok pfns).
Proof.
  induction n as [|n IH]; intros i fd base ps c w pfns c' w'; cbn [pfn_loop].
  { intros [= <- <- _]. conjs; [done|done|]. exists 0%nat. by rewrite Z.add_0_r. }
  destruct (read_one_pfn fd _ ps w) as [[rc pfn] w1] eqn:Er. set (pc := if rc =? 0 then _ else _).
  assert (Hpc : exists d, (d <= 1)%nat /\ u64 (pc_valid pc.2) = u64 (pc_valid c + Z.of_nat d) /\ 0 <= pc.1 /\ (d = 1%nat -> frame_ok pc.1)).
  { unfold pc. destruct (Z.eqb_spec rc 0) as [->|].
    - apply read_one_pfn_ok in Er. exists 1%nat. cbn. unfold u64_inc. rewrite u64_idemp. unfold frame_ok in *. conjs; auto with lia.
    - exists 0%nat. rewrite Z.add_0_r. destruct (rc =? -2), (rc =? -3); cbn; conjs; auto; lia. }
  destruct pc as [p c1]. cbn [fst snd] in Hpc. destruct Hpc as (d & Hd & Ed & Hp0 & Hp1).
  destruct (pfn_loop n _ _ _ _ c1 w1) as [[ps' c2] w2] eqn:El. intros [= <- <- _]. destruct (IH _ _ _ _ _ _ _ _ _ El) as (Hl & Hn & v & Hv & Ev & Hall).
  split; [by cbn; rewrite Hl|]. split; [by constructor|]. exists (d + v)%nat. split; [lia|]. split.
  - rewrite Ev, <- u64_add_l, Ed, u64_add_l. f_equal. lia.
  - intros E. constructor; [apply Hp1; lia|apply Hall; lia].
Qed.

(** What a created pool is. *)
Record pool_created (p : memory_pool) (name : string) (mib base k : Z) : Prop := {
  pcr_ok : pool_ok p base k;
  pcr_name : pool_name p = name;
  pcr_bytes : pool_bytes p = mib * MIB_BYTES;
  pcr_frames : Forall frame_ok (pool_pfns p)
}.

(** [pool_create] with pages of [2 ^ k] bytes returns 0 with a pool of the size
    asked for whose every page has a frame, or -1 with no mapping left in the
    pool. *)
Lemma pool_create_spec name mib k sd pool w rc pool' w' : 0 <= mib < 18446744073709551616 -> 6 <= k < 64 -> pool_base pool = None ->
  pool_create name mib (2 ^ k) sd pool w = (rc, pool', w') ->
  (rc = 0 /\ exists base, pool_created pool' name mib base k) \/ (rc = -1 /\ pool_base pool' = None).
Proof.
  intros Hmib Hk Hnone. assert (Hpow : 0 < 2 ^ k < 18446744073709551616).
  { split; [apply Z.pow_pos_nonneg; lia|]. change 18446744073709551616 with (2 ^ 64). apply Z.pow_lt_mono_r; lia. }
  unfold pool_create. destruct (Z.eqb_spec mib 0); [intros [= <- <- _]; by right|]. destruct (Z.eqb_spec (2 ^ k) 0); [lia|]. cbn [orb].
  destruct (Z.ltb_spec (UINT64_MAX / MIB_BYTES) mib) as [|Hle]; [intros [= <- <- _]; by right|].
  assert (Hb : mib * MIB_BYTES <= UINT64_MAX) by (pose proof (Z.mul_div_le UINT64_MAX MIB_BYTES ltac:(reflexivity)); unfold MIB_BYTES in *; nia).
  cbn [pool_bytes set_field pool_base pool_page_count]. replace (u64_mul mib MIB_BYTES) with (mib * MIB_BYTES) by (symmetry; apply u64_small; unfold in_u64, UINT64_MAX, MIB_BYTES in *; lia).
  destruct (Z.eqb_spec ((mib * MIB_BYTES) mod 2 ^ k) 0) as [Emod|]; cbn [negb]; [|intros [= <- <- _]; by right].
  destruct (mm_mmap _ w) as [[base|] w1] eqn:Em; [|intros [= <- <- _]; by right].
  destruct (ml_mmap (mib * MIB_BYTES) w base) as (Hbase & _ & Hroom); [by rewrite Em|].
  destruct (mm_madvise _ _ w1) as [ok w2]. destruct ok; cbn [negb pool_destroy]; [|intros [= <- <- _]; by right].
  destruct (os_calloc _ 8 w2) as [ok w3]. destruct ok; cbn [negb pool_destroy]; [|intros [= <- <- _]; by right].
  destruct (os_open _ _) as [fd w4]. destruct (fd <? 0); [intros [= <- <- _]; by right|].
  set (np := mib * MIB_BYTES / 2 ^ k). destruct (pfn_loop (Z.to_nat np) 0 fd base (2 ^ k) _ w4) as [[pfns c] w5] eqn:El. cbn [pool_page_count set_field].
  destruct (Z.eqb_spec (pc_valid c) np) as [Ev|]; cbn [negb pool_destroy]; [|intros [= <- <- _]; by right]. intros [= <- <- _]. left. split; [done|]. exists base.
  assert (Hprod : mib * MIB_BYTES = np * 2 ^ k) by (unfold np; pose proof (Z.div_mod (mib * MIB_BYTES) (2 ^ k) ltac:(lia)); lia).
  assert (Hnp : 0 <= np < 18446744073709551616) by (unfold MIB_BYTES, UINT64_MAX in *; nia).
  apply pfn_loop_spec in El as (Hl & Hn & v & Hv & Ec & Hall).
  assert (Hvn : v = Z.to_nat np) by (rewrite Ev in Ec; cbn in Ec; rewrite !u64_small in Ec by (unfold in_u64; lia); lia).
  split; cbn; [|done|done|by apply Hall]. split; cbn; done || lia.
Qed.
End Pool.
