(* ===== verification/OracleSelect.v ===== *)
(** * What a collection holds

    Collecting [quota] lines of each of some classes walks over the lines of the
    pool in a shuffled order and keeps the first lines of each class.  It
    succeeds exactly when the pool has enough lines of each. *)
From S2P Require Import Prelude Float64 CString Os Calibration DramMapping OracleSys OraclePool OracleLines OracleClasses.
From Stdlib Require Import Ascii String.
Local Open Scope Z_scope.

(** ** Lists by index *)

Lemma nth_zrange l a : (fun i => nth (Z.to_nat (i - a)) l 0) <$> zrange a (List.length l) = l.
Proof.
  revert a. induction l as [|x l IH]; intros a; [done|]. cbn [List.length zrange fmap list_fmap]. rewrite Z.sub_diag. f_equal.
  etransitivity; [|apply (IH (a + 1))]. apply list_fmap_ext. intros i j Hj. apply list_elem_of_lookup_2 in Hj. rewrite zrange_seqZ, elem_of_seqZ in Hj.
  replace (Z.to_nat (j - a)) with (S (Z.to_nat (j - (a + 1)))) by lia. done.
Qed.

Lemma nth_indices l : (fun i => nth (Z.to_nat i) l 0) <$> zrange 0 (List.length l) = l.
Proof. etransitivity; [|apply (nth_zrange l 0)]. apply list_fmap_ext. intros i j _. by rewrite Z.sub_0_r. Qed.

Lemma elem_zrange i n : i ∈ zrange 0 n <-> 0 <= i < Z.of_nat n.
Proof. rewrite zrange_seqZ, elem_of_seqZ. lia. Qed.

(** The lines of some pages, page by page. *)
Definition lines_of (pages lns : list Z) : list (Z * Z) := pages ≫= fun pg => pair pg <$> lns.

Lemma elem_lines_of pages lns x : x ∈ lines_of pages lns <-> x.1 ∈ pages /\ x.2 ∈ lns.
Proof.
  unfold lines_of. rewrite list_elem_of_bind. split.
  - intros (pg & (l & -> & Hl)%list_elem_of_fmap & Hpg). done.
  - intros [H1 H2]. exists x.1. split; [|done]. apply list_elem_of_fmap. exists x.2. by destruct x.
Qed.

Lemma lines_of_nodup pages lns : NoDup pages -> NoDup lns -> NoDup (lines_of pages lns).
Proof.
  intros Hp Hl. unfold lines_of. induction Hp as [|pg pages Hno Hp IH]; [apply NoDup_nil_2|]. cbn. apply NoDup_app. split; [|split].
  - apply NoDup_fmap_2; [|done]. by intros ?? [= ->].
  - intros x (l & -> & _)%list_elem_of_fmap (pg' & (l' & [= -> _] & _)%list_elem_of_fmap & Hin)%list_elem_of_bind. done.
  - exact IH.
Qed.

Lemma fmap_bind {A B C} (f : B -> C) (g : A -> list B) l : f <$> (l ≫= g) = l ≫= fun x => f <$> g x.
Proof. induction l as [|x l IH]; [done|]. cbn. by rewrite fmap_app, IH. Qed.

Lemma lines_of_perm pages pages' lns lns' : pages ≡ₚ pages' -> lns ≡ₚ lns' -> lines_of pages lns ≡ₚ lines_of pages' lns'.
Proof.
  intros Hp Hl. transitivity (lines_of pages lns'); unfold lines_of.
  - clear Hp. induction pages as [|pg pages IH]; cbn; [done|]. by rewrite Hl, IH.
  - by rewrite Hp.
Qed.

Section Pools.
Context (m : dram_mapping) (p : memory_pool) (base k : Z).
Hypothesis Hm : wf_mapping m.
Hypothesis Hp : pool_ok p base k.

Abbreviation ocs := (offset_classes m k).
Abbreviation space := (2 ^ mask_count m).
Abbreviation lclass := (line_class m p k).
Abbreviation laddress := (line_address p base).

(** All the lines of the pool. *)
Definition all_lines : list (Z * Z) := lines_of (zrange 0 (List.length (pool_pfns p))) (zrange 0 (Z.to_nat (page_lines k))).

Lemma all_lines_ok : Forall (line_ok p k) all_lines.
Proof.
  apply Forall_forall. intros x (H1 & H2)%elem_lines_of. rewrite elem_zrange in H1, H2. unfold line_ok. rewrite (po_count _ _ _ Hp). lia.
Qed.

Lemma all_lines_nodup : NoDup all_lines.
Proof. apply lines_of_nodup; rewrite zrange_seqZ; apply NoDup_seqZ. Qed.

Lemma length_ocs : List.length ocs = Z.to_nat (page_lines k).
Proof. apply length_offset_loop. Qed.

(** ** Counting *)

Lemma count_lines_tally l : forall b counts, Forall (fun oc => Z.lxor b oc < space) l ->
  count_lines l b space counts = Some (tally (Z.lxor b <$> l) counts).
Proof.
  induction l as [|oc l IH]; intros b counts Hall; [done|]. apply Forall_cons in Hall as [Hoc Hall]. cbn [count_lines fmap list_fmap tally fold_left].
  destruct (Z.leb_spec space (Z.lxor b oc)); [lia|]. by apply IH.
Qed.

Lemma count_pages_tally pfns : forall counts,
  count_pages pfns (pool_page_size p) m ocs space counts =
  Some (tally (pfns ≫= fun f => Z.lxor (page_class m (pool_page_size p) f) <$> ocs) counts).
Proof.
  induction pfns as [|f pfns IH]; intros counts; [done|]. cbn [count_pages mbind list_bind]. rewrite count_lines_tally.
  - rewrite IH. unfold tally. by rewrite fold_left_app.
  - apply Forall_forall. intros oc Hoc. pose proof Hm as (Hc & _). apply lxor_below; [lia|apply bank_class_below, Hm|].
    apply list_elem_of_lookup_1 in Hoc as [i Hi]. pose proof (lookup_lt_Some _ _ _ Hi) as Hlt. rewrite length_ocs in Hlt.
    apply (nth_lookup_Some _ _ 0) in Hi. rewrite <- Hi. unfold offset_classes. rewrite nth_offset_loop by lia. apply bank_class_below, Hm.
Qed.

Lemma classes_of_lines : (pool_pfns p ≫= fun f => Z.lxor (page_class m (pool_page_size p) f) <$> ocs) = lclass <$> all_lines.
Proof.
  unfold all_lines, lines_of. rewrite fmap_bind. rewrite <- (nth_indices (pool_pfns p)) at 1. rewrite list_fmap_bind.
  apply list_bind_ext; [|done]. intros pg. cbn. rewrite <- list_fmap_compose. rewrite <- (nth_indices ocs) at 1. rewrite <- list_fmap_compose, length_ocs.
  by apply list_fmap_ext.
Qed.

(** Counting the lines of the pool tallies their classes. *)
Lemma count_classes_tally :
  count_line_classes p m ocs space = Some (tally (lclass <$> all_lines) (replicate (Z.to_nat space) 0)).
Proof. unfold count_line_classes. by rewrite count_pages_tally, classes_of_lines. Qed.

(** ** Slots *)

Lemma slot_loop_spec cls : forall slot cts, NoDup cls -> Forall (fun c => 0 <= c < space) cls -> Z.of_nat (List.length cts) = space ->
  0 <= slot -> slot + Z.of_nat (List.length cls) <= 2147483648 ->
  exists cts', slot_loop cls slot space cts = Some cts' /\
    (forall s c, cls !! s = Some c -> nth (Z.to_nat c) cts' (-1) = slot + Z.of_nat s) /\
    (forall c, 0 <= c -> c ∉ cls -> nth (Z.to_nat c) cts' (-1) = nth (Z.to_nat c) cts (-1)).
Proof.
  induction cls as [|c cls IH]; intros slot cts Hnd Hall Hl Hs Hmax; [by exists cts|].
  apply NoDup_cons in Hnd as [Hno Hnd]. apply Forall_cons in Hall as [Hc Hall]. cbn [slot_loop List.length] in *.
  destruct (Z.leb_spec space c); [lia|].
  destruct (IH (slot + 1) (<[Z.to_nat c := as_int slot]> cts)) as (cts' & E & H1 & H2); try done; [by rewrite length_insert|lia|lia|].
  assert (Hint : as_int slot = slot) by (unfold as_int; rewrite Z.mod_small; lia).
  exists cts'. split; [exact E|]. split.
  - intros [|s] x; cbn [lookup list_lookup].
    + intros [= <-]. rewrite H2 by lia || done. rewrite Z.add_0_r, Hint. apply nth_lookup_Some, list_lookup_insert_eq. lia.
    + intros Hx. rewrite (H1 s x Hx). lia.
  - intros x Hx Hnx. apply not_elem_of_cons in Hnx as [Hne Hnx]. rewrite H2 by done. rewrite !nth_lookup, list_lookup_insert_ne by lia. done.
Qed.

(** ** The walk *)

Section Walk.
Context (cls : list Z) (quota : Z) (cts : list Z).
Hypothesis Hnd : NoDup cls.
Hypothesis Hrange : Forall (fun c => 0 <= c < space) cls.
Hypothesis Hquota : 0 < quota < 18446744073709551616.
Hypothesis Hslot : forall s c, cls !! s = Some c -> nth (Z.to_nat c) cts (-1) = Z.of_nat s.
Hypothesis Hnone : forall c, 0 <= c < space -> c ∉ cls -> nth (Z.to_nat c) cts (-1) = -1.

Abbreviation n := (List.length cls).

(** The lines of a class among some lines. *)
Definition of_class (c : Z) (P : list (Z * Z)) : list (Z * Z) := filter (fun x => lclass x = c) P.

Lemma occurs_of_class c P : occurs c (lclass <$> P) = Z.of_nat (List.length (of_class c P)).
Proof. unfold occurs, of_class. rewrite filter_fmap, length_fmap. done. Qed.

(** The arrays after the lines of [P]. *)
Record collected (P : list (Z * Z)) (c : collecting) : Prop := {
  cd_addresses : Z.of_nat (List.length (cl_addresses c)) = Z.of_nat n * quota;
  cd_filled : List.length (cl_filled c) = n;
  cd_count s x : cls !! s = Some x -> nth s (cl_filled c) 0 = Z.min quota (occurs x (lclass <$> P));
  cd_lines s x j y : cls !! s = Some x -> Z.of_nat j < quota -> of_class x P !! j = Some y ->
    nth (Z.to_nat (Z.of_nat s * quota + Z.of_nat j)) (cl_addresses c) 0 = laddress y;
  cd_remaining : cl_remaining c = Z.of_nat (List.length (filter (fun x => occurs x (lclass <$> P) < quota) cls))
}.

Lemma occurs_snoc x P y : occurs x (lclass <$> P ++ [y]) = occurs x (lclass <$> P) + (if decide (lclass y = x) then 1 else 0).
Proof. rewrite fmap_app, occurs_app. cbn [fmap list_fmap]. rewrite occurs_cons. change (occurs x []) with 0. lia. Qed.

Lemma of_class_snoc x P y : of_class x (P ++ [y]) = of_class x P ++ (if decide (lclass y = x) then [y] else []).
Proof. unfold of_class. by rewrite filter_app, filter_cons, filter_nil. Qed.

(** A line that is not kept leaves the arrays as they are. *)
Lemma collected_skip P c y : collected P c -> (lclass y ∈ cls -> quota <= occurs (lclass y) (lclass <$> P)) -> collected (P ++ [y]) c.
Proof.
  intros [H1 H2 H3 H4 H5] Hfull.
  assert (Hx : forall s x, cls !! s = Some x -> lclass y = x -> quota <= occurs x (lclass <$> P)).
  { intros s x Hs <-. apply Hfull. by eapply list_elem_of_lookup_2. }
  split; [done|done| | |].
  - intros s x Hs. rewrite (H3 s x Hs), occurs_snoc. destruct (decide (lclass y = x)) as [E|]; [|by rewrite Z.add_0_r]. specialize (Hx s x Hs E). lia.
  - intros s x j z Hs Hj. rewrite of_class_snoc. destruct (decide (lclass y = x)) as [E|]; [|rewrite app_nil_r; by apply H4].
    specialize (Hx s x Hs E). rewrite occurs_of_class in Hx. rewrite lookup_app_l by lia. by apply H4.
  - rewrite H5. do 2 f_equal. apply filter_agree. intros x Hin. rewrite occurs_snoc. destruct (decide (lclass y = x)) as [<-|]; [|lia].
    specialize (Hfull Hin). lia.
Qed.

(** A line that is kept: the slot [s] of its class is not full. *)
Lemma collected_keep P c y s : collected P c -> cls !! s = Some (lclass y) -> occurs (lclass y) (lclass <$> P) < quota ->
  let filled := nth s (cl_filled c) 0 in
  collected (P ++ [y]) (mk_collecting (<[Z.to_nat (Z.of_nat s * quota + filled) := laddress y]> (cl_addresses c)) (<[s := u64_inc filled]> (cl_filled c))
    (if u64_inc filled =? quota then cl_remaining c - 1 else cl_remaining c)).
Proof.
  intros [H1 H2 H3 H4 H5] Hs Hroom filled. pose proof (occurs_bound (lclass y) (lclass <$> P)) as [Hpos _].
  assert (Hf : filled = occurs (lclass y) (lclass <$> P)) by (unfold filled; rewrite (H3 s _ Hs); lia).
  assert (Hinc : u64_inc filled = filled + 1) by (apply u64_small; unfold in_u64; lia). pose proof (lookup_lt_Some _ _ _ Hs) as Hsn.
  assert (Hone : forall t x, cls !! t = Some x -> lclass y = x -> t = s) by (intros t x Ht <-; by eapply NoDup_lookup).
  split; cbn [cl_addresses cl_filled cl_remaining]; rewrite ?length_insert; [done|done| | |].
  - intros t x Ht. rewrite occurs_snoc, Hinc, nth_lookup. destruct (decide (t = s)) as [->|Hts].
    + rewrite Hs in Ht. injection Ht as <-. rewrite list_lookup_insert_eq by lia. rewrite decide_True by done. cbn. lia.
    + rewrite list_lookup_insert_ne by done. rewrite <- nth_lookup, (H3 t x Ht), decide_False; [by rewrite Z.add_0_r|]. intros E. by apply Hts, (Hone t x).
  - intros t x j z Ht Hj. rewrite of_class_snoc, nth_lookup. pose proof (lookup_lt_Some _ _ _ Ht) as Htn.
    assert (Hdiff : (t = s -> Z.of_nat j <> filled) -> Z.to_nat (Z.of_nat s * quota + filled) <> Z.to_nat (Z.of_nat t * quota + Z.of_nat j)).
    { intros Hne E. assert (Eq : Z.of_nat s * quota + filled = Z.of_nat t * quota + Z.of_nat j) by lia.
      assert (t = s) by nia. subst t. apply Hne; [done|lia]. }
    destruct (decide (lclass y = x)) as [E|E].
    + pose proof (Hone t x Ht E) as ->. intros [Hz|[Hlen Hz]]%lookup_app_Some.
      * rewrite list_lookup_insert_ne, <- nth_lookup; [by apply (H4 s x)|]. apply Hdiff. intros _ E2. apply lookup_lt_Some in Hz. rewrite Hf, occurs_of_class, E in E2. lia.
      * apply list_lookup_singleton_Some in Hz as [Hj0 <-]. assert (Hjf : Z.of_nat j = filled) by (rewrite Hf, occurs_of_class, E; lia).
        rewrite Hjf, list_lookup_insert_eq; [done|]. nia.
    + rewrite app_nil_r. intros Hz. rewrite list_lookup_insert_ne, <- nth_lookup; [by apply (H4 t x)|]. apply Hdiff. intros ->. congruence.
  - rewrite Hinc, H5. assert (Hlast : forall x, x ∈ cls -> x <> lclass y -> occurs x (lclass <$> P ++ [y]) = occurs x (lclass <$> P)).
    { intros x _ Hne. rewrite occurs_snoc, decide_False by congruence. lia. }
    assert (Hin : lclass y ∈ cls) by (by eapply list_elem_of_lookup_2).
    destruct (Z.eqb_spec (filled + 1) quota) as [Hfull|Hnot].
    + assert (E : List.length (filter (fun x => occurs x (lclass <$> P) < quota) cls) =
                  S (List.length (filter (fun x => occurs x (lclass <$> P) < quota /\ x <> lclass y) cls))).
      { apply (filter_point _ _ _ (lclass y)); [done|done| |tauto|lia]. intros x Hx. tauto. }
      rewrite E. rewrite (filter_agree (fun x => occurs x (lclass <$> P ++ [y]) < quota) (fun x => occurs x (lclass <$> P) < quota /\ x <> lclass y)); [lia|].
      intros x Hx. destruct (decide (x = lclass y)) as [->|Hne]; [rewrite occurs_snoc, decide_True by done; lia|rewrite Hlast by done; tauto].
    + do 2 f_equal. apply filter_agree. intros x Hx. destruct (decide (x = lclass y)) as [->|Hne]; [rewrite occurs_snoc, decide_True by done; lia|by rewrite Hlast].
Qed.

(** One line of the walk. *)
Lemma collect_line_step P c y : line_ok p k y -> collected P c ->
  exists c', collect_line base (pool_page_size p) space quota ocs cts y.1 (page_class m (pool_page_size p) (nth (Z.to_nat y.1) (pool_pfns p) 0)) y.2 c = Some c' /\
    collected (P ++ [y]) c'.
Proof.
  intros Hy Hc. unfold collect_line. change (Z.lxor _ _) with (lclass y). pose proof (line_class_below m p k Hm y) as Hbelow.
  destruct (Z.leb_spec space (lclass y)); [lia|]. destruct (decide (lclass y ∈ cls)) as [[s Hs]%list_elem_of_lookup|Hno].
  - rewrite (Hslot s _ Hs). destruct (Z.ltb_spec (Z.of_nat s) 0); [lia|]. rewrite Nat2Z.id, (cd_count _ _ Hc s _ Hs).
    destruct (Z.leb_spec quota (Z.min quota (occurs (lclass y) (lclass <$> P)))) as [Hfull|Hroom].
    + exists c. split; [done|]. apply collected_skip; [done|lia].
    + eexists. split; [reflexivity|]. pose proof (collected_keep P c y s Hc Hs ltac:(lia)) as Hk. cbv zeta in Hk. rewrite (cd_count _ _ Hc s _ Hs) in Hk. exact Hk.
  - rewrite (Hnone _ Hbelow Hno). cbn. exists c. split; [done|]. by apply collected_skip.
Qed.

Lemma collect_lines_step lns pg : forall P c, Forall (fun l => line_ok p k (pg, l)) lns -> collected P c ->
  exists c', collect_lines base (pool_page_size p) space quota ocs cts lns pg (page_class m (pool_page_size p) (nth (Z.to_nat pg) (pool_pfns p) 0)) c = Some c' /\
    collected (P ++ (pair pg <$> lns)) c'.
Proof.
  induction lns as [|l lns IH]; intros P c Hall Hc; [exists c; by rewrite app_nil_r|]. apply Forall_cons in Hall as [Hl Hall]. cbn [collect_lines fmap list_fmap].
  destruct (collect_line_step P c (pg, l) Hl Hc) as (c1 & E & Hc1). cbn [fst snd] in E. rewrite E. destruct (IH (P ++ [(pg, l)]) c1 Hall Hc1) as (c2 & -> & Hc2).
  exists c2. split; [done|]. by rewrite <- app_assoc in Hc2.
Qed.

(** The walk stops after some of the pages: all of them, or nothing remains. *)
Lemma collect_pages_step pages lns : forall P c, Forall (line_ok p k) (lines_of pages lns) -> collected P c ->
  exists c' Q rest, collect_pages base (pool_page_size p) space quota m (pool_pfns p) ocs cts pages lns c = Some c' /\
    lines_of pages lns = Q ++ rest /\ collected (P ++ Q) c' /\ (rest = [] \/ cl_remaining c' <= 0).
Proof.
  induction pages as [|pg pages IH]; intros P c Hall Hc; cbn [collect_pages].
  { exists c, [], []. rewrite (app_nil_r P). conjs; auto. }
  change (lines_of (pg :: pages) lns) with ((pair pg <$> lns) ++ lines_of pages lns) in *. apply Forall_app in Hall as [Hl Hall].
  destruct (Z.ltb_spec 0 (cl_remaining c)); [|exists c, [], ((pair pg <$> lns) ++ lines_of pages lns); rewrite (app_nil_r P); conjs; auto].
  destruct (collect_lines_step lns pg P c) as (c1 & -> & Hc1); [exact (proj1 (Forall_fmap _ _ _) Hl)|done|].
  destruct (IH _ c1 Hall Hc1) as (c2 & Q & rest & -> & E & Hc2 & Hr). exists c2, ((pair pg <$> lns) ++ Q), rest.
  rewrite E, <- !app_assoc in *. done.
Qed.

Lemma collected_nil : collected [] (mk_collecting (replicate (Z.to_nat (Z.of_nat n * quota)) 0) (replicate n 0) (Z.of_nat n)).
Proof.
  split; cbn [cl_addresses cl_filled cl_remaining]; rewrite ?length_replicate; [lia|done| | |].
  - intros s x Hs. change (occurs x (lclass <$> [])) with 0. rewrite Z.min_r by lia.
    rewrite nth_lookup. destruct (replicate n 0 !! s) eqn:E; [by apply lookup_replicate in E as [-> _]|done].
  - intros s x j y _ _ Hy. change (of_class x []) with (@nil (Z * Z)) in Hy. by rewrite lookup_nil in Hy.
  - rewrite filter_all; [done|]. apply Forall_forall. intros x _. change (occurs x (lclass <$> [])) with 0. lia.
Qed.

(** ** The result *)

(** The lines a full collection holds. *)
Definition picked (P : list (Z * Z)) : list (Z * Z) := cls ≫= fun c => take (Z.to_nat quota) (of_class c P).

Lemma remaining_full P c : collected P c -> cl_remaining c = 0 <-> Forall (fun x => quota <= occurs x (lclass <$> P)) cls.
Proof.
  intros Hc. rewrite (cd_remaining _ _ Hc), Forall_forall. split.
  - intros E x Hx. destruct (Z_le_gt_dec quota (occurs x (lclass <$> P))) as [|Hlt]; [done|exfalso].
    assert (Hin : x ∈ filter (fun x => occurs x (lclass <$> P) < quota) cls) by (apply list_elem_of_filter; split; [lia|done]).
    destruct (filter _ cls); [by apply elem_of_nil in Hin|]. cbn in E. lia.
  - intros Hall. assert (E : filter (fun x => occurs x (lclass <$> P) < quota) cls = []); [|by rewrite E].
    apply elem_of_nil_inv. intros x [Hx Hin]%list_elem_of_filter. specialize (Hall x Hin). lia.
Qed.

Lemma in_picked P c cls0 x : x ∈ (cls0 ≫= fun c => take (Z.to_nat quota) (of_class c P)) /\ c = lclass x -> x ∈ P /\ c ∈ cls0.
Proof.
  intros [(c' & Hx & Hc)%list_elem_of_bind ->]. apply subseteq_take, list_elem_of_filter in Hx as [-> Hx]. done.
Qed.

(** The classes of the lines. *)
Lemma picked_classes P : Forall (fun x => quota <= occurs x (lclass <$> P)) cls ->
  lclass <$> picked P = cls ≫= replicate (Z.to_nat quota).
Proof.
  intros Hall. unfold picked. rewrite fmap_bind. clear -Hall. induction Hall as [|c cls Hc Hall IH]; [done|]. cbn. rewrite IH. f_equal.
  rewrite occurs_of_class in Hc. apply list_eq_same_length with (n := Z.to_nat quota); [by rewrite length_replicate| |].
  - rewrite length_fmap, length_take. lia.
  - intros i x y Hi Hx Hy. apply list_lookup_fmap_Some in Hx as (l & -> & Hl). rewrite lookup_take_lt in Hl by done.
    apply list_elem_of_lookup_2, list_elem_of_filter in Hl as [Hl _]. apply lookup_replicate in Hy as [-> _]. done.
Qed.

Lemma picked_nodup P : NoDup P -> NoDup (picked P).
Proof.
  intros HP. unfold picked. clear -Hnd HP. induction Hnd as [|c cls' Hno Hnd' IH]; [apply NoDup_nil_2|]. cbn [mbind list_bind]. apply NoDup_app. split; [|split; [|by apply IH]].
  - eapply sublist_NoDup; [|apply sublist_take]. by apply NoDup_filter.
  - intros x Hx Hin. apply subseteq_take, list_elem_of_filter in Hx as [Hx _].
    apply Hno. by apply (in_picked P _ _ x).
Qed.

Lemma picked_sub P x : x ∈ picked P -> x ∈ P.
Proof. intros Hx. by apply (in_picked P (lclass x) cls x). Qed.

Lemma length_picked P : Forall (fun x => quota <= occurs x (lclass <$> P)) cls -> Z.of_nat (List.length (picked P)) = Z.of_nat n * quota.
Proof.
  intros Hall. rewrite <- (length_fmap lclass), picked_classes by done. clear -Hquota. induction cls as [|c cls' IH]; [done|].
  cbn [mbind list_bind]. rewrite length_app, length_replicate. cbn [List.length]. lia.
Qed.

(** More lines of the pool change nothing once there are enough. *)
Lemma picked_prefix P rest : Forall (fun x => quota <= occurs x (lclass <$> P)) cls -> picked (P ++ rest) = picked P.
Proof.
  intros Hall. unfold picked. clear -Hall. induction Hall as [|c cls' Hc Hall IH]; [done|]. cbn [mbind list_bind]. rewrite occurs_of_class in Hc.
  f_equal; [|exact IH]. unfold of_class in *. rewrite filter_app, take_app_le by lia. done.
Qed.

Lemma lookup_picked P s c j : Forall (fun x => quota <= occurs x (lclass <$> P)) cls -> cls !! s = Some c -> Z.of_nat j < quota ->
  picked P !! (Z.to_nat (Z.of_nat s * quota + Z.of_nat j)) = of_class c P !! j.
Proof.
  intros Hall Hs Hj. unfold picked. clear Hnd Hrange Hslot Hnone. revert s Hs. induction Hall as [|c' cls' Hc Hall IH]; intros [|s] Hs; try discriminate Hs; cbn [mbind list_bind].
  - injection Hs as ->. rewrite occurs_of_class in Hc. rewrite lookup_app_l by (rewrite length_take; lia). rewrite lookup_take_lt by lia. f_equal. lia.
  - rewrite occurs_of_class in Hc. rewrite lookup_app_r by (rewrite length_take; lia). rewrite length_take, <- (IH s Hs). f_equal. lia.
Qed.

(** The array of a full collection. *)
Lemma collected_full P c : collected P c -> cl_remaining c = 0 -> cl_addresses c = laddress <$> picked P.
Proof.
  intros Hc Hrem. pose proof (proj1 (remaining_full P c Hc) Hrem) as Hall. pose proof (length_picked P Hall) as Hlen.
  pose proof (cd_addresses _ _ Hc) as Hla. apply list_eq_same_length with (n := List.length (picked P)); [by rewrite length_fmap|lia|].
  intros i x y Hi Hx (l & -> & Hl)%list_lookup_fmap_Some.
  assert (Hz : Z.of_nat i = (Z.of_nat i / quota) * quota + Z.of_nat i mod quota) by (pose proof (Z.div_mod (Z.of_nat i) quota ltac:(lia)); lia).
  pose proof (Z.mod_pos_bound (Z.of_nat i) quota ltac:(lia)) as Hmod.
  assert (Hdiv : 0 <= Z.of_nat i / quota < Z.of_nat n) by (split; [apply Z.div_pos; lia|apply Z.div_lt_upper_bound; lia]).
  set (s := Z.to_nat (Z.of_nat i / quota)). set (j := Z.to_nat (Z.of_nat i mod quota)).
  assert (Hi' : i = Z.to_nat (Z.of_nat s * quota + Z.of_nat j)) by (unfold s, j; rewrite !Z2Nat.id by lia; lia).
  destruct (lookup_lt_is_Some_2 cls s ltac:(unfold s; lia)) as [cl Hcl].
  rewrite Hi', (lookup_picked P s cl j) in Hl by (done || unfold j; lia).
  pose proof (cd_lines _ _ Hc s cl j l Hcl ltac:(unfold j; lia) Hl) as E. rewrite <- Hi' in E. rewrite <- E. symmetry. by apply nth_lookup_Some.
Qed.
End Walk.
End Pools.

(** * The selections of the experiment

    What collecting the lines of some classes returns, and what choosing two
    groups of classes returns.  A selection holds the same number of lines of
    each class, all different, and its histogram says so. *)

Lemma shuffled_order_perm n seed : shuffled_order n seed ≡ₚ zrange 0 (Z.to_nat n).
Proof.
  unfold shuffled_order. destruct (shuffle_spec (zrange 0 (Z.to_nat n)) n seed) as (vs & -> & _ & Hp & _); [|done].
  rewrite zrange_seqZ, length_seqZ. lia.
Qed.

Lemma occurs_replicate c x q : occurs c (replicate q x) = if decide (x = c) then Z.of_nat q else 0.
Proof.
  induction q as [|q IH]; [by destruct (decide (x = c))|]. cbn [replicate]. rewrite occurs_cons, IH. destruct (decide (x = c)); lia.
Qed.

Lemma occurs_blocks c cls q : NoDup cls -> occurs c (cls ≫= replicate q) = if decide (c ∈ cls) then Z.of_nat q else 0.
Proof.
  induction 1 as [|x cls Hno Hnd IH]; [done|]. cbn [mbind list_bind]. rewrite occurs_app, occurs_replicate, IH.
  destruct (decide (x = c)) as [->|Hne].
  - rewrite (decide_False (P := c ∈ cls)) by done. rewrite decide_True by left. lia.
  - destruct (decide (c ∈ cls)); [rewrite decide_True by (by right); lia|]. rewrite decide_False; [lia|]. by intros [->|]%elem_of_cons.
Qed.

Lemma length_blocks (cls : list Z) quota : 0 <= quota -> Z.of_nat (List.length (cls ≫= replicate (Z.to_nat quota))) = Z.of_nat (List.length cls) * quota.
Proof. intros Hq. induction cls as [|c cls IH]; [done|]. cbn [mbind list_bind]. rewrite length_app, length_replicate. cbn [List.length]. lia. Qed.

Lemma occurs_sub_perm c xs ys zs : xs ++ ys ≡ₚ zs -> occurs c xs <= occurs c zs.
Proof. intros E. rewrite <- (occurs_perm c _ _ E), occurs_app. pose proof (occurs_bound c ys). lia. Qed.

(** No allocation fails. *)
Definition allocations_succeed (W : Type) `{OS W} `{Memory W} : Prop :=
  (forall n size (w : W), (os_calloc n size w).1 = true) /\ (forall n (w : W), (mm_malloc n w).1 = true).

Section Selections.
Context {W : Type} `{HO : OS W} `{HM : Memory W}.
Context (m : dram_mapping) (p : memory_pool) (base k : Z).
Hypothesis Hm : wf_mapping m.
Hypothesis Hp : pool_ok p base k.
Hypothesis Hspace : mask_count m <= 20.

(** [set] holds [quota] lines of each of the classes: the addresses of different
    lines of the pool. *)
Record selection (cls : list Z) (quota : Z) (set : line_set) (L : list (Z * Z)) : Prop := {
  sel_pool : ls_pool set = Some p;
  sel_lines : Forall (line_ok p k) L;
  sel_nodup : NoDup L;
  sel_classes : line_class m p k <$> L = cls ≫= replicate (Z.to_nat quota);
  sel_addresses : ls_addresses set = line_address p base <$> L;
  sel_count : ls_line_count set = Z.of_nat (List.length L)
}.

(** The pool has [quota] lines of each of the classes. *)
Definition enough (cls : list Z) (quota : Z) : Prop :=
  Forall (fun c => quota <= occurs c (line_class m p k <$> all_lines p k)) cls.

Lemma length_all_lines : Z.of_nat (List.length (all_lines p k)) = pool_page_count p * page_lines k.
Proof.
  pose proof (page_split p base k Hp) as (_ & Hpos & _). rewrite (po_count _ _ _ Hp). unfold all_lines.
  assert (E : forall pages lns, List.length (lines_of pages lns) = (List.length pages * List.length lns)%nat).
  { intros pages lns. induction pages as [|pg pages IH]; [done|]. cbn [lines_of mbind list_bind List.length] in *. rewrite length_app, length_fmap. unfold lines_of in IH. cbn in *. lia. }
  rewrite E, !zrange_seqZ, !length_seqZ. lia.
Qed.

Lemma all_lines_fit : Z.of_nat (List.length (all_lines p k)) < 18446744073709551616.
Proof.
  rewrite length_all_lines. pose proof (page_split p base k Hp) as (E & Hpos & _). pose proof (po_room _ _ _ Hp) as [Hb Hr]. rewrite (po_bytes _ _ _ Hp), E in Hr.
  pose proof (po_count _ _ _ Hp). nia.
Qed.

(** Enough lines of different classes fit into the pool. *)
Lemma enough_fits cls quota : NoDup cls -> 0 < quota < 18446744073709551616 -> enough cls quota ->
  Z.of_nat (List.length cls) * quota < 18446744073709551616.
Proof.
  intros Hnd Hq Hen. rewrite <- (length_picked m p k cls quota Hq (all_lines p k) Hen).
  pose proof all_lines_fit as Hfit. pose proof (picked_nodup m p k cls quota Hnd (all_lines p k) (all_lines_nodup p k)) as Hn.
  assert (Hsub : picked m p k cls quota (all_lines p k) ⊆+ all_lines p k) by (apply NoDup_submseteq; [done|intros x; apply picked_sub]).
  apply submseteq_length in Hsub. lia.
Qed.

(** Different lines of the pool are no more than its lines. *)
Lemma selected_lines_sub L : Forall (line_ok p k) L -> NoDup L -> L ⊆+ all_lines p k.
Proof.
  intros Hok Hnd. apply NoDup_submseteq; [done|]. intros x Hx. rewrite Forall_forall in Hok. destruct (Hok x Hx) as [H1 H2]. apply elem_lines_of.
  rewrite !elem_zrange. rewrite (po_count _ _ _ Hp) in H1. lia.
Qed.

(** The lines of the pool in the order in which [collect_line_set] meets them. *)
Definition lines_order (seed : Z) : list (Z * Z) :=
  lines_of (shuffled_order (pool_page_count p) (Z.lxor seed 0x9e3779b97f4a7c15)) (shuffled_order (page_lines k) (Z.lxor seed 0xd1b54a32d192ed03)).

Lemma lines_order_perm seed : lines_order seed ≡ₚ all_lines p k.
Proof. unfold lines_order, all_lines. apply lines_of_perm; [|apply shuffled_order_perm]. by rewrite shuffled_order_perm, (po_count _ _ _ Hp), Nat2Z.id. Qed.

(** What the walk of [collect_line_set] ends with. *)
Lemma walk_spec cls quota seed : NoDup cls -> Forall (fun c => 0 <= c < 2 ^ mask_count m) cls -> 0 < quota < 18446744073709551616 ->
  exists cts c Q rest, slot_loop cls 0 (2 ^ mask_count m) (replicate (Z.to_nat (2 ^ mask_count m)) (-1)) = Some cts /\
    collect_pages base (pool_page_size p) (2 ^ mask_count m) quota m (pool_pfns p) (offset_classes m k) cts
      (shuffled_order (pool_page_count p) (Z.lxor seed 0x9e3779b97f4a7c15)) (shuffled_order (page_lines k) (Z.lxor seed 0xd1b54a32d192ed03))
      (mk_collecting (replicate (Z.to_nat (Z.of_nat (List.length cls) * quota)) 0) (replicate (List.length cls) 0) (Z.of_nat (List.length cls))) = Some c /\
    Q ++ rest = lines_order seed /\ collected m p base k cls quota Q c /\ (rest = [] \/ cl_remaining c <= 0).
Proof.
  intros Hnd Hall Hq. pose proof Hm as (Hmc & _). assert (Hpow : 0 < 2 ^ mask_count m) by (apply Z.pow_pos_nonneg; lia).
  assert (Hlen : Z.of_nat (List.length cls) <= 2 ^ mask_count m).
  { assert (Hsub : cls ⊆+ zrange 0 (Z.to_nat (2 ^ mask_count m))).
    { apply NoDup_submseteq; [done|]. intros x Hx. apply elem_zrange. rewrite Forall_forall in Hall. specialize (Hall x Hx). lia. }
    apply submseteq_length in Hsub. rewrite zrange_seqZ, length_seqZ in Hsub. lia. }
  assert (Hsmall : 2 ^ mask_count m <= 2 ^ 20) by (apply Z.pow_le_mono_r; lia).
  destruct (slot_loop_spec m cls 0 (replicate (Z.to_nat (2 ^ mask_count m)) (-1))) as (cts & Hslots & H1 & H2); [done|done|rewrite length_replicate; lia|lia|lia|].
  pose proof (lines_order_perm seed) as Hperm. unfold lines_order in *.
  destruct (collect_pages_step m p base k Hm cls quota cts Hnd Hq) with (pages := shuffled_order (pool_page_count p) (Z.lxor seed 0x9e3779b97f4a7c15)) (lns := shuffled_order (page_lines k) (Z.lxor seed 0xd1b54a32d192ed03))
    (P := @nil (Z * Z)) (c := mk_collecting (replicate (Z.to_nat (Z.of_nat (List.length cls) * quota)) 0) (replicate (List.length cls) 0) (Z.of_nat (List.length cls)))
    as (c & Q & rest & Ec & El & Hc & Hr).
  - intros s c Hs. rewrite (H1 s c Hs). lia.
  - intros c Hc Hno. rewrite H2 by (lia || done). rewrite nth_lookup, lookup_replicate_2 by lia. done.
  - rewrite Hperm. apply (all_lines_ok p base k Hp).
  - by apply collected_nil.
  - exists cts, c, Q, rest. rewrite <- El. conjs; done.
Qed.

(** The code is 0 only with the first lines of each class in the order of the
    seed, and it is 0 when nothing else fails and the pool has enough lines. *)
Lemma collect_line_set_picked cls quota seed set w : cls <> [] -> NoDup cls -> Forall (fun c => 0 <= c < 2 ^ mask_count m) cls ->
  0 < quota < 18446744073709551616 ->
  let '(rc, set', _) := collect_line_set p m (offset_classes m k) (2 ^ mask_count m) cls (Z.of_nat (List.length cls)) quota seed set w in
  (rc = 0 /\ selection cls quota set' (picked m p k cls quota (lines_order seed))) \/
  (rc = -1 /\ (allocations_succeed W -> enough cls quota -> False)).
Proof.
  intros Hne Hnd Hall Hq. unfold collect_line_set.
  assert (Hpos : 0 < Z.of_nat (List.length cls)) by (destruct cls; [done|cbn [List.length]; lia]).
  destruct (Z.eqb_spec (Z.of_nat (List.length cls)) 0); [lia|]. destruct (Z.eqb_spec quota 0); [lia|]. cbn [orb].
  assert (Hfits : enough cls quota -> Z.of_nat (List.length cls) <= UINT64_MAX / quota).
  { intros Hen%enough_fits; [|done..]. apply Z.div_le_lower_bound; unfold UINT64_MAX; lia. }
  destruct (Z.ltb_spec (UINT64_MAX / quota) (Z.of_nat (List.length cls))) as [Hover|Hfit]; [right; split; [done|]; intros _ Hen%Hfits; lia|]. clear Hfits.
  assert (Hprod : Z.of_nat (List.length cls) * quota <= UINT64_MAX).
  { pose proof (Z.mul_div_le UINT64_MAX quota ltac:(lia)). nia. }
  assert (Hlc : u64_mul (Z.of_nat (List.length cls)) quota = Z.of_nat (List.length cls) * quota) by (apply u64_small; unfold in_u64, UINT64_MAX in *; nia).
  rewrite Hlc, firstn_all2, length_ocs, Z2Nat.id, Nat2Z.id by (apply page_split in Hp; lia).
  destruct (os_calloc _ 8 w) as [ok1 w1] eqn:E1, (mm_malloc (u64_mul (2 ^ mask_count m) 4) w1) as [ok2 w2] eqn:E2, (os_calloc _ 8 w2) as [ok3 w3] eqn:E3,
    (mm_malloc (u64_mul (pool_page_count p) 8) w3) as [ok4 w4] eqn:E4, (mm_malloc (u64_mul (page_lines k) 8) w4) as [ok5 w5] eqn:E5.
  destruct (negb (ok1 && ok2 && ok3 && ok4 && ok5)) eqn:Eok.
  { right. split; [done|]. intros [Hc Hma] _. apply (f_equal fst) in E1, E2, E3, E4, E5. rewrite Hc in E1, E3. rewrite Hma in E2, E4, E5. cbn in *. by subst. }
  destruct (walk_spec cls quota seed Hnd Hall Hq) as (cts & c & Q & rest & -> & Ew & Eorder & Hc & Hr).
  pose proof (lines_order_perm seed) as Hperm. rewrite <- Eorder in Hperm |- *.
  rewrite (po_base _ _ _ Hp). cbn [default from_option id]. rewrite Ew.
  pose proof (remaining_full m p base k cls quota Q c Hc) as Hfull. destruct (Z.eqb_spec (cl_remaining c) 0) as [E0|Hn0]; cbn [negb].
  - left. split; [done|].
    pose proof (all_lines_nodup p k) as HndL. rewrite <- Hperm in HndL. apply NoDup_app in HndL as [HndQ _]. apply Hfull in E0 as Hocc. rewrite picked_prefix by done.
    split; cbn [ls_pool ls_addresses ls_line_count]; [done| |by apply picked_nodup|by apply picked_classes|by apply collected_full|by rewrite (length_picked m p k cls quota)].
    apply Forall_forall. intros x Hx%picked_sub. pose proof (all_lines_ok p base k Hp) as Hok. rewrite <- Hperm in Hok. rewrite Forall_forall in Hok.
    apply Hok, elem_of_app. by left.
  - right. split; [done|]. intros _ Hen. apply Hn0, Hfull. destruct Hr as [->|Hneg].
    + rewrite app_nil_r in Hperm. eapply Forall_impl; [exact Hen|]. intros x. by rewrite (occurs_perm x _ _ (fmap_Permutation _ _ _ Hperm)).
    + exfalso. rewrite (cd_remaining _ _ _ _ _ _ _ _ Hc) in Hneg, Hn0. lia.
Qed.
(** The same, whatever the order. *)
Lemma collect_line_set_spec cls quota seed set w : cls <> [] -> NoDup cls -> Forall (fun c => 0 <= c < 2 ^ mask_count m) cls ->
  0 < quota < 18446744073709551616 ->
  let '(rc, set', _) := collect_line_set p m (offset_classes m k) (2 ^ mask_count m) cls (Z.of_nat (List.length cls)) quota seed set w in
  (rc = 0 /\ exists L, selection cls quota set' L) \/
  (rc = -1 /\ (allocations_succeed W -> enough cls quota -> False)).
Proof.
  intros Hne Hnd Hall Hq. pose proof (collect_line_set_picked cls quota seed set w Hne Hnd Hall Hq) as H.
  destruct (collect_line_set _ _ _ _ _ _ _ _ _ _) as [[rc set'] w']. destruct H as [[? H]|H]; [left|by right]. split; [done|]. by eexists.
Qed.
End Selections.
