(* ===== verification/OracleStages.v ===== *)
(** * From the mapping to the selected lines ([oracle_selective_control.c], the first half of [main])

    Three pools of memory are created, their lines are counted by bank class, two
    disjoint groups of classes are chosen, and lines of those classes collected:
    the victim and the high aggressor share classes, the low aggressor shares
    none with them.  The histograms of the collected addresses decide whether
    the experiment goes on.  Each stage is the code between two jumps to [fail];
    the messages are not modelled. *)
From S2P Require Import Prelude Float64 CString Os Calibration CalibrationLoad DramMapping OracleSys OracleConfig OraclePool OracleLines.
From Stdlib Require Import Ascii String.
Local Open Scope Z_scope.

Definition DEFAULT_CALIBRATION_PATH : string := "/run/protected-daemon/dram-map.json".

(** The pointers are not NULL: the code, [*calibration] and [*mapping]. *)
Definition load_mapping {W} `{OS W} `{BinFile W} (calibration : calibration_result) (mapping : dram_mapping) (w : W)
  : Z * option calibration_result * option dram_mapping * W :=
  let calibration := calibration_result_reset (Some calibration) in
  let mapping := dram_mapping_reset (Some mapping) in
  let '(rc, calibration, w) := calibration_load_result (Some DEFAULT_CALIBRATION_PATH) calibration w in
  if negb (rc =? CALIBRATION_OK) then (-1, calibration, mapping, w)
  else
    let '(rc, mapping) := dram_mapping_init_from_calibration mapping calibration in
    if negb (rc =? DRAM_MAPPING_OK) then (-1, calibration, mapping, w) else (0, calibration, mapping, w).

(** [workset_lines] and [quota_lines]. *)
Definition workset_plan (workset_mib group_classes : Z) : option (Z * Z) :=
  if UINT64_MAX / MIB_BYTES <? workset_mib then None
  else
    let workset_bytes := u64_mul workset_mib MIB_BYTES in
    if negb (workset_bytes mod CACHELINE_BYTES =? 0) then None
    else
      let workset_lines := workset_bytes / CACHELINE_BYTES in
      if negb (workset_lines mod group_classes =? 0) then None
      else Some (workset_lines, workset_lines / group_classes).

Record pools := mk_pools { victim_pool : memory_pool; high_pool : memory_pool; low_pool : memory_pool }.

Definition pools_zero : pools := mk_pools memory_pool_zero memory_pool_zero memory_pool_zero.

Record line_sets := mk_line_sets { victim_set : line_set; high_set : line_set; low_set : line_set }.

Definition line_sets_zero : line_sets := mk_line_sets line_set_zero line_set_zero line_set_zero.

(** What the comparison of the histograms finds: the scores, intersections and unions. *)
Record overlap := mk_overlap {
  high_jaccard : double;
  high_intersection : Z;
  high_union : Z;
  low_jaccard : double;
  low_intersection : Z;
  low_union : Z
}.

Section Stages.
Context {W : Type} `{HO : OS W} `{HM : Memory W}.

(** The three calls of [pool_create], up to the first that fails. *)
Definition create_pools (cfg : config) (page_size : Z) (ps : pools) (w : W) : bool * pools * W :=
  let '(rc, v, w) := pool_create "victim" (pool_mib cfg) page_size (Z.lxor (seed cfg) 0x1111111111111111) (victim_pool ps) w in
  let ps := mk_pools v (high_pool ps) (low_pool ps) in
  if negb (rc =? 0) then (false, ps, w)
  else
    let '(rc, h, w) := pool_create "high" (pool_mib cfg) page_size (Z.lxor (seed cfg) 0x2222222222222222) (high_pool ps) w in
    let ps := mk_pools v h (low_pool ps) in
    if negb (rc =? 0) then (false, ps, w)
    else
      let '(rc, l, w) := pool_create "low" (pool_mib cfg) page_size (Z.lxor (seed cfg) 0x3333333333333333) (low_pool ps) w in
      (rc =? 0, mk_pools v h l, w).

(** Counting the lines of each pool and choosing: [victim_classes] and
    [low_classes]. *)
Definition choose_classes (ps : pools) (mapping : dram_mapping) (offset_classes : list Z) (class_space : Z) (cfg : config) (quota_lines : Z) (w : W)
  : option (list Z * list Z) * W :=
  let '(ok1, w) := os_calloc class_space 8 w in
  let '(ok2, w) := os_calloc class_space 8 w in
  let '(ok3, w) := os_calloc class_space 8 w in
  let '(ok4, w) := os_calloc (group_classes cfg) 8 w in
  let '(ok5, w) := os_calloc (group_classes cfg) 8 w in
  if negb (ok1 && ok2 && ok3 && ok4 && ok5) then (None, w)
  else
    match count_line_classes (victim_pool ps) mapping offset_classes class_space,
          count_line_classes (high_pool ps) mapping offset_classes class_space,
          count_line_classes (low_pool ps) mapping offset_classes class_space with
    | Some victim_counts, Some high_counts, Some low_counts =>
        choose_class_sets victim_counts high_counts low_counts class_space (group_classes cfg) quota_lines (seed cfg) w
    | _, _, _ => (None, w)
    end.

(** The three calls of [collect_line_set], up to the first that fails; [seed_] is
    the seed of the configuration. *)
Definition collect_sets (ps : pools) (mapping : dram_mapping) (offset_classes : list Z) (class_space : Z)
    (victim_classes low_classes : list Z) (cfg : config) (quota_lines : Z) (sets : line_sets) (w : W) : bool * line_sets * W :=
  let n := group_classes cfg in
  let '(rc, v, w) := collect_line_set (victim_pool ps) mapping offset_classes class_space victim_classes n quota_lines
    (Z.lxor (seed cfg) 0x4444444444444444) (victim_set sets) w in
  let sets := mk_line_sets v (high_set sets) (low_set sets) in
  if negb (rc =? 0) then (false, sets, w)
  else
    let '(rc, h, w) := collect_line_set (high_pool ps) mapping offset_classes class_space victim_classes n quota_lines
      (Z.lxor (seed cfg) 0x5555555555555555) (high_set sets) w in
    let sets := mk_line_sets v h (low_set sets) in
    if negb (rc =? 0) then (false, sets, w)
    else
      let '(rc, l, w) := collect_line_set (low_pool ps) mapping offset_classes class_space low_classes n quota_lines
        (Z.lxor (seed cfg) 0x6666666666666666) (low_set sets) w in
      (rc =? 0, mk_line_sets v h l, w).

(** The histograms of the collected lines and the hard acceptance criterion:
    [memcmp] of the victim and the high histogram, and the intersection of the
    victim and the low one. *)
Definition accept_sets (sets : line_sets) (mapping : dram_mapping) (class_space : Z) (w : W) : option overlap * W :=
  let '(ok1, w) := os_calloc class_space 8 w in
  let '(ok2, w) := os_calloc class_space 8 w in
  let '(ok3, w) := os_calloc class_space 8 w in
  if negb (ok1 && ok2 && ok3) then (None, w)
  else
    match build_histogram (victim_set sets) mapping class_space, build_histogram (high_set sets) mapping class_space,
          build_histogram (low_set sets) mapping class_space with
    | Some victim_hist, Some high_hist, Some low_hist =>
        let '(high_jaccard, high_intersection, high_union) := histogram_jaccard victim_hist high_hist class_space in
        let '(low_jaccard, low_intersection, low_union) := histogram_jaccard victim_hist low_hist class_space in
        if negb (bool_decide (victim_hist = high_hist)) then (None, w)
        else if negb (low_intersection =? 0) then (None, w)
        else (Some (mk_overlap high_jaccard high_intersection high_union low_jaccard low_intersection low_union), w)
    | _, _, _ => (None, w)
    end.

(** From the classes to the accepted lines: what the comparison found, [None] at
    [fail], and the sets collected by then. *)
Definition select_lines (ps : pools) (mapping : dram_mapping) (offset_classes : list Z) (class_space : Z) (cfg : config) (quota_lines : Z)
    (sets : line_sets) (w : W) : option overlap * line_sets * W :=
  let '(chosen, w) := choose_classes ps mapping offset_classes class_space cfg quota_lines w in
  match chosen with
  | None => (None, sets, w)
  | Some (victim_classes, low_classes) =>
      let '(ok, sets, w) := collect_sets ps mapping offset_classes class_space victim_classes low_classes cfg quota_lines sets w in
      if negb ok then (None, sets, w)
      else let '(o, w) := accept_sets sets mapping class_space w in (o, sets, w)
  end.

(** The pools and the lines selected from them. *)
Definition prepare_lines (mapping : dram_mapping) (offset_classes : list Z) (class_space : Z) (cfg : config) (page_size quota_lines : Z)
    (ps : pools) (sets : line_sets) (w : W) : option overlap * pools * line_sets * W :=
  let '(ok, ps, w) := create_pools cfg page_size ps w in
  if negb ok then (None, ps, sets, w)
  else let '(o, sets, w) := select_lines ps mapping offset_classes class_space cfg quota_lines sets w in (o, ps, sets, w).
End Stages.
