(* ===== verification/OracleAccept.v ===== *)
(** * The acceptance criterion of the experiment

    With enough memory the selection fails only when fewer classes than needed
    are common to the three pools; otherwise the collected lines have the
    histograms the experiment asks for, so the hard acceptance criterion never
    rejects them. *)
From S2P Require Import Prelude Float64 CString Os Calibration DramMapping OracleSys OracleConfig OraclePool OracleLines OracleClasses OracleSelect OracleStages.
From Stdlib Require Import Ascii String.
Local Open Scope Z_scope.

(** ** Choosing classes *)

Definition eligible (quota : Z) (victim_counts high_counts low_counts : list Z) (c : Z) : Prop :=
  quota <= nth (Z.to_nat c) victim_counts 0 /\ quota <= nth (Z.to_nat c) high_counts 0 /\ quota <= nth (Z.to_nat c) low_counts 0.

#[export] Instance eligible_dec quota vc hc lc c : Decision (eligible quota vc hc lc c).
Proof. unfold eligible. apply _. Defined.

Lemma eligible_classes_filter n vc hc lc quota : forall cls,
  eligible_classes n cls vc hc lc quota = filter (eligible quota vc hc lc) (zrange cls n).
Proof.
  induction n as [|n IH]; intros cls; [done|]. cbn [eligible_classes zrange]. rewrite filter_cons, IH.
  destruct (decide (eligible quota vc hc lc cls)) as [(H1 & H2 & H3)|Hno].
  - by rewrite !(proj2 (Z.leb_le _ _)) by done.
  - destruct (_ && _) eqn:E; [|done]. rewrite !andb_true_iff, !Z.leb_le in E. destruct Hno. unfold eligible. tauto.
Qed.

(** Two groups of different classes, from the classes that all pools have. *)
Record chosen_ok (space n : Z) (P : Z -> Prop) (v l : list Z) : Prop := {
  ch_nodup : NoDup (v ++ l);
  ch_victim : Z.of_nat (List.length v) = n;
  ch_low : Z.of_nat (List.length l) = n;
  ch_classes : Forall (fun c => 0 <= c < space /\ P c) (v ++ l)
}.

(** The first and the second [n] of some classes that were shuffled. *)
Lemma shuffled_groups (P : Z -> Prop) space cands n sd : 0 < n -> 2 * n <= Z.of_nat (List.length cands) -> NoDup cands -> (forall c, c ∈ cands -> 0 <= c < space /\ P c) ->
  let cs := default [] (shuffle_u64 (Some cands) (Z.of_nat (List.length cands)) sd) in
  chosen_ok space n P (take (Z.to_nat n) cs) (take (Z.to_nat n) (drop (Z.to_nat n) cs)).
Proof.
  intros Hn Hge Hnd Hall. destruct (shuffle_spec cands (Z.of_nat (List.length cands)) sd) as (vs & _ & -> & Hp & _); [lia|]. cbn [default from_option id].
  assert (Hlen : List.length vs = List.length cands) by (by rewrite Hp).
  assert (Etake : take (Z.to_nat n) vs ++ take (Z.to_nat n) (drop (Z.to_nat n) vs) = take (Z.to_nat n + Z.to_nat n) vs) by (by rewrite take_take_drop).
  split; rewrite ?Etake.
  - eapply sublist_NoDup; [rewrite <- Hp in Hnd; exact Hnd|apply sublist_take].
  - rewrite length_take. lia.
  - rewrite length_take, length_drop. lia.
  - apply Forall_take. rewrite Hp. apply Forall_forall. auto.
Qed.

Section Accept.
Context {W : Type} `{HO : OS W} `{HM : Memory W}.

Lemma choose_class_sets_spec vc hc lc space n quota sd (w : W) : 0 < n < 9223372036854775808 -> 0 < quota ->
  match (choose_class_sets vc hc lc space n quota sd w).1 with
  | Some (v, l) => chosen_ok space n (eligible quota vc hc lc) v l
  | None => allocations_succeed W -> Z.of_nat (List.length (filter (eligible quota vc hc lc) (zrange 0 (Z.to_nat space)))) < 2 * n
  end.
Proof.
  intros Hn Hq. unfold choose_class_sets. destruct (Z.eqb_spec n 0); [lia|]. destruct (Z.eqb_spec quota 0); [lia|]. cbn [orb].
  destruct (os_calloc space 8 w) as [ok w1] eqn:E1. destruct ok; cbn [negb]; [|intros [Hcalloc _]; specialize (Hcalloc space 8 w); by rewrite E1 in Hcalloc].
  rewrite eligible_classes_filter. set (cands := filter _ _). assert (E2 : u64_mul n 2 = 2 * n) by (unfold u64_mul; rewrite u64_small; [lia|unfold in_u64; lia]).
  rewrite E2. destruct (Z.ltb_spec (Z.of_nat (List.length cands)) (2 * n)) as [Hlt|Hge]; [by intros _|]. cbn [fst].
  apply shuffled_groups; [lia|lia|apply NoDup_filter; rewrite zrange_seqZ; apply NoDup_seqZ|]. intros c [He Hc]%list_elem_of_filter. apply elem_zrange in Hc. split; [lia|done].
Qed.

(** ** Histograms *)

Section Pool.
Context (m : dram_mapping) (p : memory_pool) (base k : Z).
Hypothesis Hm : wf_mapping m.
Hypothesis Hp : pool_ok p base k.

Lemma histogram_loop_tally set L : forall hist, ls_pool set = Some p -> Forall (line_ok p k) L ->
  histogram_loop set m (2 ^ mask_count m) (line_address p base <$> L) hist = Some (tally (line_class m p k <$> L) hist).
Proof.
  induction L as [|x L IH]; intros hist Hs Hall; [done|]. apply Forall_cons in Hall as [Hx Hall]. cbn [fmap list_fmap histogram_loop].
  rewrite (line_address_class m p base k Hm Hp) by done. pose proof (line_class_below m p k Hm x).
  destruct (Z.leb_spec (2 ^ mask_count m) (line_class m p k x)); [lia|]. by apply IH.
Qed.

(** The histogram of a selection: [quota] lines of each of its classes. *)
Lemma build_histogram_selection cls quota set L : selection m p base k cls quota set L ->
  build_histogram set m (2 ^ mask_count m) = Some (tally (cls ≫= replicate (Z.to_nat quota)) (replicate (Z.to_nat (2 ^ mask_count m)) 0)).
Proof.
  intros [H1 H2 H3 H4 H5 H6]. unfold build_histogram. rewrite H5, H6, Nat2Z.id, firstn_all2 by (by rewrite length_fmap).
  rewrite histogram_loop_tally by done. by rewrite H4.
Qed.

(** The number of lines of a class that the count of the pool finds. *)
Lemma nth_line_counts counts c : count_line_classes p m (offset_classes m k) (2 ^ mask_count m) = Some counts -> 0 <= c ->
  nth (Z.to_nat c) counts 0 = occurs c (line_class m p k <$> all_lines p k).
Proof.
  rewrite (count_classes_tally m p k Hm). intros Hcs Hc. apply (inj Some) in Hcs. rewrite <- Hcs. rewrite nth_tally_zero; [by rewrite Z2Nat.id| |].
  - apply Forall_fmap, Forall_true. intros x. cbn. pose proof (line_class_below m p k Hm x). pose proof Hm as (Hmc & _). lia.
  - rewrite length_fmap. apply (all_lines_fit p base k Hp).
Qed.
End Pool.

Lemma nth_blocks cls quota n k : NoDup cls -> Forall (fun c => 0 <= c < Z.of_nat n) cls -> 0 <= quota -> Z.of_nat (List.length cls) * quota < 18446744073709551616 ->
  nth k (tally (cls ≫= replicate (Z.to_nat quota)) (replicate n 0)) 0 = if decide (Z.of_nat k ∈ cls) then quota else 0.
Proof.
  intros Hnd Hall Hq Hl. rewrite nth_tally_zero.
  - rewrite occurs_blocks by done. destruct (decide _); lia.
  - apply Forall_forall. intros x (c & [-> _]%elem_of_replicate & Hc)%list_elem_of_bind. rewrite Forall_forall in Hall. by apply Hall.
  - by rewrite length_blocks.
Qed.

Lemma jaccard_disjoint n : forall a b i u, (forall k, Z.min (nth k a 0) (nth k b 0) = 0) -> in_u64 i ->
  (jaccard_loop a b n i u).1 = i.
Proof.
  induction n as [|n IH]; intros [|x a] [|y b] i u Hmin Hi; try done. cbn [jaccard_loop].
  assert (Em : (if x <? y then x else y) = 0) by (specialize (Hmin 0%nat); cbn [nth] in Hmin; destruct (Z.ltb_spec x y); lia).
  rewrite Em. unfold u64_add at 1. rewrite Z.add_0_r, u64_small by done. apply IH; [|done]. intros k. exact (Hmin (S k)).
Qed.

Lemma jaccard_same n : forall a i, let '(i', u') := jaccard_loop a a n i i in i' = u'.
Proof.
  induction n as [|n IH]; intros [|x a] i; try done. cbn [jaccard_loop]. rewrite Z.ltb_irrefl. apply IH.
Qed.

(** ** The selection of the experiment *)

(** The three pools, of pages of [2 ^ k] bytes. *)
Record pools_ok (ps : pools) (bv bh bl k : Z) : Prop := {
  ps_victim : pool_ok (victim_pool ps) bv k;
  ps_high : pool_ok (high_pool ps) bh k;
  ps_low : pool_ok (low_pool ps) bl k
}.

(** Every pool has [quota] lines of the class. *)
Definition common_class (m : dram_mapping) (k : Z) (ps : pools) (quota c : Z) : Prop :=
  forall p, p ∈ [victim_pool ps; high_pool ps; low_pool ps] -> quota <= occurs c (line_class m p k <$> all_lines p k).

#[export] Instance common_class_dec m k ps quota c : Decision (common_class m k ps quota c).
Proof. unfold common_class. refine (cast_if (decide (Forall (fun p => quota <= occurs c (line_class m p k <$> all_lines p k)) [victim_pool ps; high_pool ps; low_pool ps]))); by rewrite <- Forall_forall. Defined.

(** The collected lines: [quota] lines of each class of [v] in the victim's and
    the high aggressor's pool, and of each class of [l] in the low one's. *)
Definition selected (m : dram_mapping) (k bv bh bl : Z) (ps : pools) (quota : Z) (v l : list Z) (sets : line_sets) : Prop :=
  (exists L, selection m (victim_pool ps) bv k v quota (victim_set sets) L) /\
  (exists L, selection m (high_pool ps) bh k v quota (high_set sets) L) /\
  (exists L, selection m (low_pool ps) bl k l quota (low_set sets) L).

Section Stages.
Context (m : dram_mapping) (k bv bh bl : Z) (ps : pools) (cfg : config) (quota : Z).
Hypothesis Hm : wf_mapping m.
Hypothesis Hspace : mask_count m <= 20.
Hypothesis Hps : pools_ok ps bv bh bl k.
Hypothesis Hgroup : 0 < group_classes cfg < 9223372036854775808.
Hypothesis Hquota : 0 < quota < 18446744073709551616.

Abbreviation space := (2 ^ mask_count m).
Abbreviation common := (common_class m k ps quota).

Lemma choose_classes_spec (w : W) :
  match (choose_classes ps m (offset_classes m k) space cfg quota w).1 with
  | Some (v, l) => chosen_ok space (group_classes cfg) common v l
  | None => allocations_succeed W -> Z.of_nat (List.length (filter common (zrange 0 (Z.to_nat space)))) < 2 * group_classes cfg
  end.
Proof.
  destruct Hps as [H1 H2 H3]. unfold choose_classes.
  destruct (os_calloc space 8 w) as [ok1 w1] eqn:A1, (os_calloc space 8 w1) as [ok2 w2] eqn:A2, (os_calloc space 8 w2) as [ok3 w3] eqn:A3,
    (os_calloc (group_classes cfg) 8 w3) as [ok4 w4] eqn:A4, (os_calloc (group_classes cfg) 8 w4) as [ok5 w5] eqn:A5.
  destruct (negb (ok1 && ok2 && ok3 && ok4 && ok5)) eqn:Eok.
  { intros [Hcalloc _]. apply (f_equal fst) in A1, A2, A3, A4, A5. rewrite Hcalloc in A1, A2, A3, A4, A5. cbn in *. by subst. }
  destruct (count_line_classes (victim_pool ps) m (offset_classes m k) space) as [vc|] eqn:E1; [|by rewrite (count_classes_tally m _ k Hm) in E1].
  destruct (count_line_classes (high_pool ps) m (offset_classes m k) space) as [hc|] eqn:E2; [|by rewrite (count_classes_tally m _ k Hm) in E2].
  destruct (count_line_classes (low_pool ps) m (offset_classes m k) space) as [lc|] eqn:E3; [|by rewrite (count_classes_tally m _ k Hm) in E3].
  pose proof (choose_class_sets_spec vc hc lc space (group_classes cfg) quota (seed cfg) w5 Hgroup ltac:(lia)) as Hspec.
  assert (Hel : forall c, 0 <= c -> eligible quota vc hc lc c <-> common c).
  { intros c Hc. unfold eligible, common_class. rewrite (nth_line_counts m _ _ k Hm H1 vc c E1 Hc), (nth_line_counts m _ _ k Hm H2 hc c E2 Hc), (nth_line_counts m _ _ k Hm H3 lc c E3 Hc).
    rewrite <- Forall_forall, !Forall_cons, Forall_nil. tauto. }
  destruct (choose_class_sets vc hc lc space (group_classes cfg) quota (seed cfg) w5).1 as [[v l]|].
  - destruct Hspec as [Hnd Hv Hl Hcs]. split; [done..|]. eapply Forall_impl; [exact Hcs|]. intros c [Hc He]. split; [done|]. apply Hel; [lia|done].
  - intros Hall. erewrite filter_agree; [exact (Hspec Hall)|]. intros c Hc%elem_zrange. symmetry. apply Hel. lia.
Qed.

Section Chosen.
Context (v l : list Z).
Hypothesis Hc : chosen_ok space (group_classes cfg) common v l.

(** A group of classes of one of the pools. *)
Lemma collect_common p base cls sd set (w : W) : allocations_succeed W -> pool_ok p base k -> p ∈ [victim_pool ps; high_pool ps; low_pool ps] ->
  NoDup cls -> Z.of_nat (List.length cls) = group_classes cfg -> Forall (fun c => 0 <= c < space /\ common c) cls ->
  exists set' w' L, collect_line_set p m (offset_classes m k) space cls (group_classes cfg) quota sd set w = (0, set', w') /\
    selection m p base k cls quota set' L.
Proof.
  intros Halloc Hp Hin Hnd Hlen Hall. pose proof (collect_line_set_spec m p base k Hm Hp Hspace cls quota sd set w) as Hspec. rewrite Hlen in Hspec.
  destruct (collect_line_set _ _ _ _ _ _ _ _ _ _) as [[rc set'] w'] eqn:E. destruct Hspec as [[-> [L HL]]|[-> Hno]]; try done.
  - intros ->. cbn in Hlen. lia.
  - eapply Forall_impl; [exact Hall|]. by intros c [H _].
  - by exists set', w', L.
  - exfalso. apply Hno; [done|]. eapply Forall_impl; [exact Hall|]. intros c [_ H]. by apply H.
Qed.

Lemma collect_sets_spec sets (w : W) : allocations_succeed W ->
  exists sets' w', collect_sets ps m (offset_classes m k) space v l cfg quota sets w = (true, sets', w') /\ selected m k bv bh bl ps quota v l sets'.
Proof.
  intros Halloc. destruct Hps as [H1 H2 H3], Hc as [Hnd Hv Hl Hcs]. apply NoDup_app in Hnd as (Hndv & _ & Hndl). apply Forall_app in Hcs as [Hcv Hcl]. unfold collect_sets.
  destruct (collect_common _ bv v (Z.lxor (seed cfg) 0x4444444444444444) (victim_set sets) w Halloc H1) as (s1 & w1 & L1 & -> & HL1); [set_solver|done..|]. cbn [negb Z.eqb high_set low_set].
  destruct (collect_common _ bh v (Z.lxor (seed cfg) 0x5555555555555555) (high_set sets) w1 Halloc H2) as (s2 & w2 & L2 & -> & HL2); [set_solver|done..|]. cbn [negb Z.eqb high_set low_set].
  destruct (collect_common _ bl l (Z.lxor (seed cfg) 0x6666666666666666) (low_set sets) w2 Halloc H3) as (s3 & w3 & L3 & -> & HL3); [set_solver|done..|]. cbn [Z.eqb].
  eexists _, w3. split; [reflexivity|]. unfold selected. cbn [victim_set high_set low_set]. conjs; by eexists.
Qed.

Lemma selection_fits cls p base set L : pool_ok p base k -> selection m p base k cls quota set L -> Z.of_nat (List.length cls) * quota < 18446744073709551616.
Proof.
  intros Hp [_ Hok Hnd Hcl _ _]. pose proof (all_lines_fit p base k Hp) as Hfit.
  pose proof (selected_lines_sub p base k Hp L Hok Hnd) as Hsub%submseteq_length. apply (f_equal List.length) in Hcl. rewrite length_fmap in Hcl.
  pose proof (length_blocks cls quota ltac:(lia)). lia.
Qed.

Lemma accept_sets_spec sets (w : W) : allocations_succeed W -> selected m k bv bh bl ps quota v l sets ->
  exists o w', accept_sets sets m space w = (Some o, w') /\ high_intersection o = high_union o /\ low_intersection o = 0.
Proof.
  intros [Hcalloc _] ([L1 S1] & [L2 S2] & [L3 S3]). destruct Hps as [H1 H2 H3], Hc as [Hnd Hv Hl Hcs]. pose proof Hm as (Hmc & _).
  apply NoDup_app in Hnd as (Hndv & Hdis & Hndl). apply Forall_app in Hcs as [Hcv Hcl]. unfold accept_sets.
  destruct (os_calloc space 8 w) as [ok1 w1] eqn:A1, (os_calloc space 8 w1) as [ok2 w2] eqn:A2, (os_calloc space 8 w2) as [ok3 w3] eqn:A3.
  apply (f_equal fst) in A1, A2, A3. rewrite Hcalloc in A1, A2, A3. cbn [fst] in *. subst ok1 ok2 ok3. cbn [negb andb].
  rewrite (build_histogram_selection m _ bv k Hm H1 _ _ _ _ S1), (build_histogram_selection m _ bh k Hm H2 _ _ _ _ S2), (build_histogram_selection m _ bl k Hm H3 _ _ _ _ S3).
  set (hv := tally (v ≫= _) _). set (hl := tally (l ≫= _) _). unfold histogram_jaccard.
  pose proof (jaccard_same (Z.to_nat space) hv 0) as Esame. destruct (jaccard_loop hv hv (Z.to_nat space) 0 0) as [ih uh]. subst uh.
  assert (Hrange : forall cls, Forall (fun c => 0 <= c < space /\ common c) cls -> Forall (fun c => 0 <= c < Z.of_nat (Z.to_nat space)) cls).
  { intros cls Hall. eapply Forall_impl; [exact Hall|]. intros c [Hr _]. lia. }
  pose proof (jaccard_disjoint (Z.to_nat space) hv hl 0 0) as Edis. destruct (jaccard_loop hv hl (Z.to_nat space) 0 0) as [il ul]. cbn [fst] in Edis. rewrite Edis.
  - rewrite bool_decide_eq_true_2 by done. cbn. eexists _, _. split; [reflexivity|]. done.
  - pose proof (selection_fits v _ _ _ _ H1 S1) as Fv. pose proof (selection_fits l _ _ _ _ H3 S3) as Fl. intros i. unfold hv, hl. rewrite !nth_blocks; [|first [lia|done|by apply Hrange]..].
    destruct (decide (Z.of_nat i ∈ v)) as [Hin|]; [rewrite decide_False by (by apply Hdis)|destruct (decide _)]; lia.
  - unfold in_u64. lia.
Qed.
End Chosen.

(** C3: the selection of the experiment, when no allocation fails. It fails only
    when fewer classes than the two groups need have the lines in all three
    pools. Otherwise the victim and the high aggressor hold the same number of
    lines of each class of one group, the low aggressor of each class of the
    other, no two lines of a pool the same; the histograms recomputed from the
    addresses agree for the first two and share nothing with the third, so the
    hard acceptance criterion of [main] passes. *)
Theorem select_lines_outcome (sets : line_sets) (w : W) : allocations_succeed W ->
  match select_lines ps m (offset_classes m k) (2 ^ mask_count m) cfg quota sets w with
  | (Some o, sets', _) => exists v l, chosen_ok (2 ^ mask_count m) (group_classes cfg) (common_class m k ps quota) v l /\
      selected m k bv bh bl ps quota v l sets' /\ high_intersection o = high_union o /\ low_intersection o = 0
  | (None, _, _) => Z.of_nat (List.length (filter (common_class m k ps quota) (zrange 0 (Z.to_nat (2 ^ mask_count m))))) < 2 * group_classes cfg
  end.
Proof.
  intros Halloc. unfold select_lines. pose proof (choose_classes_spec w) as Hspec. destruct (choose_classes _ _ _ _ _ _ w) as [[[v l]|] w1]; cbn [fst] in *; [|by apply Hspec].
  destruct (collect_sets_spec v l Hspec sets w1 Halloc) as (sets' & w2 & -> & Hsel). cbn [negb].
  destruct (accept_sets_spec v l Hspec sets' w2 Halloc Hsel) as (o & w3 & -> & Ho). exists v, l. done.
Qed.
End Stages.
End Accept.
