(* ===== verification/OracleChain.v ===== *)
(** * Pointer chains through the selected lines ([oracle_selective_control.c])

    The hot loops of the experiment read no array: each selected line holds the
    address of the next one.  Building the chains stores into the lines; the
    victim follows one chain, an aggressor sixteen at a time.

    [OracleChainProps] shows that the chains are what they are meant to be. *)
From S2P Require Import Prelude Float64 CString Os Calibration OracleSys OraclePool OracleLines.
From Stdlib Require Import Ascii String.
Local Open Scope Z_scope.

Definition AGGRESSOR_STREAMS : Z := 16.
Definition VICTIM_CHUNK_READS : Z := 4096.
Definition AGGRESSOR_CHUNK_ITERS : Z := 1024.

(** [clock_gettime(CLOCK_MONOTONIC_RAW, &ts)]. *)
Class RawClock (W : Type) := { rc_clock : W -> option (Z * Z) * W }.

Record worker_result := mk_worker_result { wr_ok : Z; wr_elapsed_sec : double; wr_operations : Z }.

Definition worker_result_zero : worker_result := mk_worker_result 0 dzero 0.

(** [out] is not NULL: the code and [*out]. *)
Definition make_permutation {W} `{Memory W} (count seed : Z) (out : list Z) (w : W) : Z * list Z * W :=
  if count =? 0 then (-1, out, w)
  else
    let '(ok, w) := mm_malloc (u64_mul count 8) w in
    if negb ok then (-1, out, w)
    else (0, default [] (shuffle_size_t (Some (zrange 0 (Z.to_nat count))) count seed), w).

(** The two times are valid [timespec]s. *)
Definition elapsed_sec (start stop : Z * Z) : double :=
  dadd (Z_to_double (stop.1 - start.1)) (ddiv (Z_to_double (stop.2 - start.2)) (dlit 1000000000 1)).

Section Chains.
Context {W : Type} `{HM : Memory W} `{HC : RawClock W}.

(** [set->addresses[permutation[i]]] *)
Definition line_at (set : line_set) (permutation : list Z) (i : Z) : Z :=
  nth (Z.to_nat (nth (Z.to_nat i) permutation 0)) (ls_addresses set) 0.

(** The loop for the positions from [i] on. *)
Fixpoint single_loop (n : nat) (i : Z) (set : line_set) (permutation : list Z) (w : W) : W :=
  match n with
  | O => w
  | S n =>
      let current := line_at set permutation i in
      let next := line_at set permutation (u64_inc i mod ls_line_count set) in
      single_loop n (i + 1) set permutation (mm_store current next w)
  end.

(** The pointers are not NULL. The root, or [None] for the code -1. *)
Definition build_single_chain (set : line_set) (permutation : list Z) (w : W) : option Z * W :=
  if ls_line_count set =? 0 then (None, w)
  else
    let w := single_loop (Z.to_nat (ls_line_count set)) 0 set permutation w in
    (Some (line_at set permutation 0), w).

(** The positions of a stream from [position] on; the last line is [previous].
    [fuel] bounds the lines of a stream. *)
Fixpoint stream_loop (fuel : nat) (position stream_count : Z) (set : line_set) (permutation : list Z) (previous : Z) (w : W) : Z * W :=
  match fuel with
  | O => (previous, w)
  | S fuel =>
      if position <? ls_line_count set then
        let current := line_at set permutation position in
        let w := mm_store previous current w in
        stream_loop fuel (u64_add position stream_count) stream_count set permutation current w
      else (previous, w)
  end.

(** The streams from [stream] on. *)
Fixpoint multi_loop (n : nat) (stream stream_count : Z) (set : line_set) (permutation : list Z) (w : W) : list Z * W :=
  match n with
  | O => ([], w)
  | S n =>
      let first := line_at set permutation stream in
      let '(previous, w) :=
        stream_loop (Z.to_nat (ls_line_count set)) (u64_add stream stream_count) stream_count set permutation first w in
      let w := mm_store previous first w in
      let '(roots, w) := multi_loop n (stream + 1) stream_count set permutation w in
      (first :: roots, w)
  end.

(** The pointers are not NULL. The roots, or [None] for the code -1. *)
Definition build_multi_chain (set : line_set) (permutation : list Z) (stream_count : Z) (w : W) : option (list Z) * W :=
  if (stream_count =? 0) || (ls_line_count set <? stream_count) then (None, w)
  else
    let '(roots, w) := multi_loop (Z.to_nat stream_count) 0 stream_count set permutation w in
    (Some roots, w).

(** ** The hot loops *)

(** [n] dependent reads; the reads are volatile and change nothing. *)
Fixpoint chase (n : nat) (pointer : Z) (w : W) : Z :=
  match n with
  | O => pointer
  | S n => chase n (mm_load pointer w) w
  end.

(** The loop of [victim_loop], with [VICTIM_CHUNK_READS] reads per chunk: the code,
    the pointer, the operations and the last time; [None] when the fuel runs
    out. *)
Fixpoint victim_chunks (chunk_reads : Z) (fuel : nat) (start : Z * Z) (seconds : double) (pointer operations : Z) (w : W)
  : option (option (Z * Z * (Z * Z)) * W) :=
  match fuel with
  | O => None
  | S fuel =>
      let pointer := chase (Z.to_nat chunk_reads) pointer w in
      let operations := u64_add operations chunk_reads in
      let '(now, w) := rc_clock w in
      match now with
      | None => Some (None, w)
      | Some now =>
          if dleb seconds (elapsed_sec start now) then Some (Some (pointer, operations, now), w)
          else victim_chunks chunk_reads fuel start seconds pointer operations w
      end
  end.

(** [result] is not NULL: the code, [*result], [worker_sink] and the world. *)
Definition victim_loop (fuel : nat) (root : Z) (seconds : double) (result : worker_result) (worker_sink : Z) (w : W)
  : option (Z * worker_result * Z * W) :=
  if (root =? 0) || dleb seconds dzero then Some (-1, result, worker_sink, w)
  else
    let result := worker_result_zero in
    let '(start, w) := rc_clock w in
    match start with
    | None => Some (-1, result, worker_sink, w)
    | Some start =>
        match victim_chunks VICTIM_CHUNK_READS fuel start seconds root 0 w with
        | None => None
        | Some (None, w) => Some (-1, result, worker_sink, w)
        | Some (Some (pointer, operations, now), w) =>
            Some (0, mk_worker_result 1 (elapsed_sec start now) operations, Z.lxor worker_sink pointer, w)
        end
    end.

(** [n] iterations, each of which reads through every stream. *)
Fixpoint chase_streams (n : nat) (pointers : list Z) (w : W) : list Z :=
  match n with
  | O => pointers
  | S n => chase_streams n ((fun p => mm_load p w) <$> pointers) w
  end.

Fixpoint aggressor_chunks (fuel : nat) (start : Z * Z) (seconds : double) (pointers : list Z) (operations : Z) (w : W)
  : option (option (list Z * Z * (Z * Z)) * W) :=
  match fuel with
  | O => None
  | S fuel =>
      let pointers := chase_streams (Z.to_nat AGGRESSOR_CHUNK_ITERS) pointers w in
      let operations := u64_add operations (u64_mul AGGRESSOR_CHUNK_ITERS AGGRESSOR_STREAMS) in
      let '(now, w) := rc_clock w in
      match now with
      | None => Some (None, w)
      | Some now =>
          if dleb seconds (elapsed_sec start now) then Some (Some (pointers, operations, now), w)
          else aggressor_chunks fuel start seconds pointers operations w
      end
  end.

(** [roots] and [result] are not NULL. *)
Definition aggressor_loop (fuel : nat) (roots : list Z) (seconds : double) (result : worker_result) (worker_sink : Z) (w : W)
  : option (Z * worker_result * Z * W) :=
  if dleb seconds dzero then Some (-1, result, worker_sink, w)
  else
    let result := worker_result_zero in
    let '(start, w) := rc_clock w in
    match start with
    | None => Some (-1, result, worker_sink, w)
    | Some start =>
        match aggressor_chunks fuel start seconds roots 0 w with
        | None => None
        | Some (None, w) => Some (-1, result, worker_sink, w)
        | Some (Some (pointers, operations, now), w) =>
            Some (0, mk_worker_result 1 (elapsed_sec start now) operations, fold_left Z.lxor pointers worker_sink, w)
        end
    end.
End Chains.
