(* ===== verification/OracleChainProps.v ===== *)
(** * What the chains visit

    The victim's chain is one cycle through all the selected lines in the order
    of the permutation; the streams of an aggressor are disjoint cycles that
    together go through all the lines. *)
From S2P Require Import Prelude Float64 CString Os Calibration DramMapping OracleSys OraclePool OracleLines OracleClasses OracleSelect OracleChain.
From Stdlib Require Import Ascii String.
Local Open Scope Z_scope.

(** Two words of the lines do not overlap. *)
Definition words_apart (addresses : list Z) : Prop :=
  forall i j a b, addresses !! i = Some a -> addresses !! j = Some b -> i <> j -> a + 8 <= b \/ b + 8 <= a.

Section Chains.
Context {W : Type} `{ML : MemoryLaws W} `{HC : RawClock W}.
Implicit Types w : W.

(** The pointers that [n] dependent reads go through. *)
Definition visits (n : nat) (pointer : Z) (w : W) : list Z := (fun i => chase i pointer w) <$> seq 0 n.

Lemma chase_add a : forall b p w, chase (a + b) p w = chase b (chase a p w) w.
Proof. induction a as [|a IH]; intros b p w; [done|]. apply IH. Qed.

Lemma chase_streams_each n : forall ps w, chase_streams n ps w = (fun p => chase n p w) <$> ps.
Proof.
  induction n as [|n IH]; intros ps w; [by rewrite list_fmap_id|]. cbn [chase_streams]. rewrite IH, <- list_fmap_compose. done.
Qed.

Section Set_.
Context (set : line_set) (permutation : list Z).
Abbreviation total := (ls_line_count set).
Abbreviation line := (line_at set permutation).
Hypothesis Hcount : total = Z.of_nat (List.length (ls_addresses set)).
Hypothesis Hsmall : 0 < total < 9223372036854775808.
Hypothesis Hperm : permutation ≡ₚ zrange 0 (Z.to_nat total).
Hypothesis Hapart : words_apart (ls_addresses set).

Lemma permutation_at i : 0 <= i < total -> permutation !! Z.to_nat i = Some (nth (Z.to_nat i) permutation 0) /\ 0 <= nth (Z.to_nat i) permutation 0 < total.
Proof.
  intros Hi. assert (Hlen : List.length permutation = Z.to_nat total) by (by rewrite Hperm, zrange_seqZ, length_seqZ, Z2Nat.id by lia).
  destruct (lookup_lt_is_Some_2 permutation (Z.to_nat i)) as [x Hx]; [lia|]. rewrite (nth_lookup_Some _ _ _ _ Hx). split; [done|].
  apply list_elem_of_lookup_2 in Hx. rewrite Hperm, elem_zrange in Hx. lia.
Qed.

Lemma line_apart i j : 0 <= i < total -> 0 <= j < total -> i <> j -> line i + 8 <= line j \/ line j + 8 <= line i.
Proof.
  intros Hi Hj Hne. destruct (permutation_at i Hi) as [Pi Ri], (permutation_at j Hj) as [Pj Rj]. unfold line_at.
  set (x := nth (Z.to_nat i) permutation 0) in *. set (y := nth (Z.to_nat j) permutation 0) in *.
  assert (Hxy : Z.to_nat x <> Z.to_nat y).
  { intros E. assert (Exy : x = y) by lia. assert (Hnd : NoDup permutation) by (rewrite Hperm, zrange_seqZ; apply NoDup_seqZ).
    rewrite Exy in Pi. pose proof (NoDup_lookup _ _ _ _ Hnd Pi Pj). lia. }
  destruct (lookup_lt_is_Some_2 (ls_addresses set) (Z.to_nat x)) as [a Ha]; [lia|]. destruct (lookup_lt_is_Some_2 (ls_addresses set) (Z.to_nat y)) as [b Hb]; [lia|].
  rewrite (nth_lookup_Some _ _ _ _ Ha), (nth_lookup_Some _ _ _ _ Hb). by apply (Hapart _ _ a b Ha Hb).
Qed.

(** Storing into a line. *)
Lemma load_store i j v w : 0 <= i < total -> 0 <= j < total -> mm_load (line j) (mm_store (line i) v w) = if decide (j = i) then v else mm_load (line j) w.
Proof.
  intros Hi Hj. destruct (decide (j = i)) as [->|Hne]; [apply ml_load_same|]. apply ml_load_other. destruct (line_apart i j); auto; lia.
Qed.

(** All the lines, in the order of the permutation. *)
Lemma lines_perm : line <$> zrange 0 (Z.to_nat total) ≡ₚ ls_addresses set.
Proof.
  assert (Hlen : List.length permutation = Z.to_nat total) by (by rewrite Hperm, zrange_seqZ, length_seqZ, Z2Nat.id by lia).
  assert (E : line <$> zrange 0 (Z.to_nat total) = (fun x => nth (Z.to_nat x) (ls_addresses set) 0) <$> permutation).
  { rewrite <- (nth_indices permutation) at 2. by rewrite <- list_fmap_compose, Hlen. }
  rewrite E, Hperm, Hcount, Nat2Z.id. by rewrite nth_indices.
Qed.

(** ** One chain *)

Lemma single_loop_spec cnt : forall i w, 0 <= i -> i + Z.of_nat cnt = total ->
  forall j, 0 <= j < total -> mm_load (line j) (single_loop cnt i set permutation w) = if decide (i <= j) then line ((j + 1) mod total) else mm_load (line j) w.
Proof.
  induction cnt as [|cnt IH]; intros i w Hi Hc j Hj; cbn [single_loop]; [by rewrite decide_False by lia|].
  rewrite IH by lia. rewrite load_store by lia. unfold u64_inc. rewrite u64_small by (unfold in_u64; lia).
  destruct (decide (i + 1 <= j)); [by rewrite decide_True by lia|]. destruct (decide (j = i)) as [->|]; [by rewrite decide_True by lia|by rewrite decide_False by lia].
Qed.

Lemma chase_cycle w : (forall j, 0 <= j < total -> mm_load (line j) w = line ((j + 1) mod total)) ->
  forall k j, 0 <= j < total -> chase k (line j) w = line ((j + Z.of_nat k) mod total).
Proof.
  intros Hnext. induction k as [|k IH]; intros j Hj; cbn [chase]; [by rewrite Z.add_0_r, Z.mod_small by lia|].
  rewrite Hnext by done. rewrite IH by (apply Z.mod_pos_bound; lia). f_equal. rewrite Zplus_mod_idemp_l. f_equal. lia.
Qed.

Lemma fmap_seq_zrange {A} (f : Z -> A) m : (fun i => f (Z.of_nat i)) <$> seq 0 m = f <$> zrange 0 m.
Proof.
  rewrite zrange_seqZ. unfold seqZ. rewrite <- list_fmap_compose, Nat2Z.id. apply list_fmap_ext. intros i x _. cbn. f_equal. lia.
Qed.

(** A chain from the first line goes once through every line and returns. *)
Lemma single_chain_cycle w : let w' := (build_single_chain set permutation w).2 in
  (build_single_chain set permutation w).1 = Some (line 0) /\ visits (Z.to_nat total) (line 0) w' = line <$> zrange 0 (Z.to_nat total) /\
  forall k, chase k (line 0) w' = line (Z.of_nat k mod total).
Proof.
  unfold build_single_chain. destruct (Z.eqb_spec total 0); [lia|]. cbn [fst snd].
  assert (Hc : forall k, chase k (line 0) (single_loop (Z.to_nat total) 0 set permutation w) = line (Z.of_nat k mod total)).
  { intros k. rewrite chase_cycle by (lia || (intros j Hj; rewrite single_loop_spec by lia; by rewrite decide_True by lia)). done. }
  split; [done|]. split; [|exact Hc]. unfold visits. rewrite <- fmap_seq_zrange. apply list_fmap_ext. intros i x [-> Hx]%lookup_seq.
  rewrite Hc. by rewrite Z.mod_small by lia.
Qed.

(** ** Several chains *)

Context (streams : Z).
Hypothesis Hstreams : 0 < streams <= total.

Lemma multiple_of x : 0 <= x -> x mod streams = 0 -> exists t, 0 <= t /\ x = streams * t.
Proof. intros Hx E. exists (x / streams). split; [apply Z.div_pos; lia|]. apply Z.div_exact; lia. Qed.

(** A stream: the position [j] is the one after [i]. *)
Lemma stream_step i j : 0 <= i <= j -> (j - i) mod streams = 0 <-> i = j \/ (i + streams <= j /\ (j - (i + streams)) mod streams = 0).
Proof.
  intros Hij. replace (j - i) with (j - (i + streams) + 1 * streams) by lia. rewrite Z.mod_add by lia. split; [|intros [->|[_ E]]; [|done]].
  - intros E. destruct (Z.eq_dec i j) as [|Hne]; [by left|right; split; [|done]].
    assert (E' : (j - i) mod streams = 0) by (replace (j - i) with (j - (i + streams) + 1 * streams) by lia; by rewrite Z.mod_add by lia).
    destruct (multiple_of (j - i)) as (t & Ht & Eq); [lia|done|]. assert (t <> 0) by (intros ->; lia). nia.
  - replace (j - (j + streams)) with (0 + -1 * streams) by lia. rewrite Z.mod_add by lia. apply Z.mod_0_l. lia.
Qed.

Lemma stream_loop_spec fuel : forall i w, 0 <= i < total -> (Z.to_nat (total - (i + streams)) <= fuel)%nat ->
  exists q, (stream_loop fuel (i + streams) streams set permutation (line i) w).1 = line q /\ i <= q < total /\ total <= q + streams /\ (q - i) mod streams = 0 /\
    forall j, 0 <= j < total -> mm_load (line j) (stream_loop fuel (i + streams) streams set permutation (line i) w).2 =
      if decide (i <= j < q /\ (j - i) mod streams = 0) then line (j + streams) else mm_load (line j) w.
Proof.
  assert (Hend : forall i w, 0 <= i < total -> total <= i + streams -> exists q, line i = line q /\ i <= q < total /\ total <= q + streams /\ (q - i) mod streams = 0 /\
    forall j, 0 <= j < total -> mm_load (line j) w = if decide (i <= j < q /\ (j - i) mod streams = 0) then line (j + streams) else mm_load (line j) w).
  { intros i w Hi Hlast. exists i. rewrite Z.sub_diag, Z.mod_0_l by lia. conjs; try done; try lia. intros j Hj. by rewrite decide_False by lia. }
  induction fuel as [|fuel IH]; intros i w Hi Hf; cbn [stream_loop]; [apply Hend; lia|]. destruct (Z.ltb_spec (i + streams) total); [|by apply Hend].
  unfold u64_add. rewrite u64_small by (unfold in_u64; lia).
  destruct (IH (i + streams) (mm_store (line i) (line (i + streams)) w)) as (q & E1 & Hq & Hlast & Em & Hload); [lia|lia|].
  exists q. split; [exact E1|]. split; [lia|]. split; [done|]. split; [apply stream_step; [lia|right; split; [lia|done]]|].
  intros j Hj. rewrite Hload, load_store by lia. destruct (decide (j = i)) as [->|Hne].
  - rewrite decide_False by lia. rewrite decide_True; [done|]. split; [lia|]. rewrite Z.sub_diag. apply Z.mod_0_l. lia.
  - destruct (decide (i + streams <= j < q /\ _)) as [[Hr Em']|Hno].
    + rewrite decide_True; [done|]. split; [lia|]. apply stream_step; [lia|]. right. split; [lia|done].
    + rewrite decide_False; [done|]. intros [Hr Em']. apply stream_step in Em' as [->|[Hge Em']]; [done| |lia]. apply Hno. split; [lia|done].
Qed.

(** The line after the one at [j]. *)
Definition next_of (j : Z) : Z := if j + streams <? total then j + streams else j mod streams.

Lemma mod_sub j s : 0 <= s < streams -> j mod streams = s <-> (j - s) mod streams = 0.
Proof.
  intros Hs. split.
  - intros <-. rewrite Zminus_mod_idemp_r, Z.sub_diag. apply Z.mod_0_l. lia.
  - intros E. replace j with (j - s + s) by lia. rewrite <- Zplus_mod_idemp_l, E. apply Z.mod_small. lia.
Qed.

Lemma multi_loop_spec cnt : forall s w, 0 <= s -> s + Z.of_nat cnt = streams ->
  (multi_loop cnt s streams set permutation w).1 = line <$> zrange s cnt /\
  forall j, 0 <= j < total -> mm_load (line j) (multi_loop cnt s streams set permutation w).2 = if decide (s <= j mod streams) then line (next_of j) else mm_load (line j) w.
Proof.
  induction cnt as [|cnt IH]; intros s w Hs Hc; cbn [multi_loop zrange fmap list_fmap].
  { split; [done|]. intros j Hj. pose proof (Z.mod_pos_bound j streams ltac:(lia)). by rewrite decide_False by lia. }
  unfold u64_add. rewrite u64_small by (unfold in_u64; lia).
  destruct (stream_loop_spec (Z.to_nat total) s w) as (q & E1 & Hq & Hlast & Em & Hload); [lia|lia|].
  destruct (stream_loop _ _ _ _ _ _ w) as [prev w1]. cbn [fst snd] in *. subst prev.
  destruct (IH (s + 1) (mm_store (line q) (line s) w1)) as [Er Hl]; [lia|lia|].
  destruct (multi_loop cnt _ _ _ _ _) as [roots w2]. cbn [fst snd] in *. split; [by rewrite Er|]. intros j Hj. rewrite Hl, load_store, Hload by lia.
  pose proof (Z.mod_pos_bound j streams ltac:(lia)) as Hm. pose proof (Z.mod_le j streams ltac:(lia) ltac:(lia)) as Hle.
  destruct (decide (s + 1 <= j mod streams)); [by rewrite decide_True by lia|]. unfold next_of.
  destruct (decide (s <= j mod streams)) as [Hsj|Hno].
  - assert (Ej : j mod streams = s) by lia. assert (Ejs : (j - s) mod streams = 0) by (apply (mod_sub j s); lia).
    destruct (multiple_of (j - s)) as (t & Ht & Et); [lia|done|]. destruct (multiple_of (q - s)) as (u & Hu & Eu); [lia|done|].
    destruct (decide (j = q)) as [->|Hne].
    + destruct (Z.ltb_spec (q + streams) total); [lia|]. by rewrite Ej.
    + assert (t < u) by (destruct (Z.lt_trichotomy t u) as [|[->|]]; [done|lia|]; assert (streams * (u + 1) <= streams * t) by (apply Z.mul_le_mono_nonneg_l; lia); lia). assert (j + streams <= q) by nia. rewrite decide_True by (split; [lia|done]). destruct (Z.ltb_spec (j + streams) total); [done|lia].
  - rewrite decide_False by (intros ->; apply Hno; apply (mod_sub q s) in Em; lia). rewrite decide_False; [done|]. intros [_ Ejs]. apply (mod_sub j s) in Ejs; lia.
Qed.

(** The number of lines of a stream. *)
Definition stream_length (s : Z) : nat := Z.to_nat ((total - 1 - s) / streams + 1).

(** The positions of the stream in the order of the permutation. *)
Definition stream_positions (s : Z) : list Z := (fun t => s + streams * t) <$> zrange 0 (stream_length s).

Lemma stream_length_spec s t : 0 <= s < streams -> 0 <= t -> t < Z.of_nat (stream_length s) <-> s + streams * t < total.
Proof.
  intros Hs Ht. unfold stream_length. assert (0 <= (total - 1 - s) / streams) by (apply Z.div_pos; lia).
  pose proof (Z.div_mod (total - 1 - s) streams ltac:(lia)) as Ed. pose proof (Z.mod_pos_bound (total - 1 - s) streams ltac:(lia)).
  rewrite Z2Nat.id by lia. split; intros; nia.
Qed.

Lemma position_mod s t : 0 <= s < streams -> (s + streams * t) mod streams = s.
Proof. intros Hs. rewrite Z.mul_comm, Z.mod_add by lia. by apply Z.mod_small. Qed.

Lemma positions_perm : zrange 0 (Z.to_nat streams) ≫= stream_positions ≡ₚ zrange 0 (Z.to_nat total).
Proof.
  apply NoDup_Permutation.
  - apply NoDup_bind; [| |rewrite zrange_seqZ; apply NoDup_seqZ].
    + intros s1 s2 y H1%elem_zrange H2%elem_zrange (t1 & -> & _)%list_elem_of_fmap (t2 & E & _)%list_elem_of_fmap. pose proof (position_mod s1 t1). pose proof (position_mod s2 t2). rewrite E in *. lia.
    + intros s _. apply NoDup_fmap_2; [|rewrite zrange_seqZ; apply NoDup_seqZ]. intros t1 t2 E. apply (Z.mul_reg_l _ _ streams); lia.
  - rewrite zrange_seqZ. apply NoDup_seqZ.
  - intros j. rewrite list_elem_of_bind, elem_zrange. split.
    + intros (s & (t & -> & [Ht Hlt]%elem_zrange)%list_elem_of_fmap & Hs%elem_zrange). apply stream_length_spec in Hlt; nia.
    + intros Hj. pose proof (Z.mod_pos_bound j streams ltac:(lia)) as Hm. pose proof (Z.div_mod j streams ltac:(lia)) as Ed. assert (0 <= j / streams) by (apply Z.div_pos; lia).
      exists (j mod streams). split; [|apply elem_zrange; lia]. apply list_elem_of_fmap. exists (j / streams). split; [lia|]. apply elem_zrange. split; [done|].
      apply stream_length_spec; lia.
Qed.

(** Following a stream. *)
Lemma chase_stream w : (forall j, 0 <= j < total -> mm_load (line j) w = line (next_of j)) -> forall s, 0 <= s < streams ->
  visits (stream_length s) (line s) w = line <$> stream_positions s /\ chase (stream_length s) (line s) w = line s.
Proof.
  intros Hnext s Hs.
  assert (Hk : forall k, (k < stream_length s)%nat -> chase k (line s) w = line (s + streams * Z.of_nat k)).
  { induction k as [|k IH]; intros Hlt; [by rewrite Z.mul_0_r, Z.add_0_r|]. replace (S k) with (k + 1)%nat at 1 by lia. rewrite chase_add, IH by lia.
    pose proof (proj1 (stream_length_spec s (Z.of_nat (S k)) Hs ltac:(lia)) ltac:(lia)). cbn [chase]. rewrite Hnext by nia. unfold next_of.
    destruct (Z.ltb_spec (s + streams * Z.of_nat k + streams) total); [f_equal; lia|lia]. }
  split.
  - unfold visits, stream_positions. rewrite <- list_fmap_compose. rewrite <- fmap_seq_zrange. apply list_fmap_ext. intros i x [-> Hx]%lookup_seq. apply Hk. lia.
  - assert (H0 : (0 < stream_length s)%nat) by (unfold stream_length; assert (0 <= (total - 1 - s) / streams) by (apply Z.div_pos; lia); lia).
    replace (stream_length s) with (pred (stream_length s) + 1)%nat by lia. rewrite chase_add, Hk by lia. cbn [chase].
    pose proof (proj1 (stream_length_spec s (Z.of_nat (pred (stream_length s))) Hs ltac:(lia)) ltac:(lia)) as Hin.
    assert (Hout : ~ s + streams * Z.of_nat (stream_length s) < total) by (intros Hlt%stream_length_spec; lia).
    rewrite Hnext by nia. unfold next_of. destruct (Z.ltb_spec (s + streams * Z.of_nat (pred (stream_length s)) + streams) total); [nia|].
    f_equal. apply (mod_sub _ s); [done|]. replace (s + streams * Z.of_nat (pred (stream_length s)) - s) with (Z.of_nat (pred (stream_length s)) * streams) by lia. by apply Z.mod_mul; lia.
Qed.

(** The streams: their roots, and what they go through together. *)
Lemma multi_chain_streams w : let w' := (build_multi_chain set permutation streams w).2 in
  (build_multi_chain set permutation streams w).1 = Some (line <$> zrange 0 (Z.to_nat streams)) /\
  (forall s, 0 <= s < streams -> visits (stream_length s) (line s) w' = line <$> stream_positions s /\ chase (stream_length s) (line s) w' = line s) /\
  zrange 0 (Z.to_nat streams) ≫= (fun s => visits (stream_length s) (line s) w') ≡ₚ ls_addresses set.
Proof.
  unfold build_multi_chain. destruct (Z.eqb_spec streams 0); [lia|]. destruct (Z.ltb_spec total streams); [lia|]. cbn [orb].
  destruct (multi_loop_spec (Z.to_nat streams) 0 w) as [Er Hl]; [lia|lia|]. destruct (multi_loop _ _ _ _ _ w) as [roots w']. cbn [fst snd] in *.
  assert (Hs : forall s, 0 <= s < streams -> visits (stream_length s) (line s) w' = line <$> stream_positions s /\ chase (stream_length s) (line s) w' = line s).
  { apply chase_stream. intros j Hj. rewrite Hl by done. pose proof (Z.mod_pos_bound j streams ltac:(lia)). by rewrite decide_True by lia. }
  split; [by rewrite Er|]. split; [exact Hs|]. rewrite <- lines_perm, <- positions_perm, fmap_bind.
  rewrite (Forall_bind_ext _ (fun s => line <$> stream_positions s)); [done|]. apply Forall_forall. intros s Hin%elem_zrange. apply Hs. lia.
Qed.
End Set_.

(** ** The chains of a selection *)

Lemma selection_apart m p base k cls quota set L : pool_ok p base k -> selection m p base k cls quota set L -> words_apart (ls_addresses set).
Proof.
  intros Hp [_ Hok Hnd _ -> _] i j a b (x & -> & Hx)%list_lookup_fmap_Some (y & -> & Hy)%list_lookup_fmap_Some Hne.
  rewrite Forall_forall in Hok. pose proof (Hok x (list_elem_of_lookup_2 _ _ _ Hx)) as Okx. pose proof (Hok y (list_elem_of_lookup_2 _ _ _ Hy)) as Oky.
  assert (Hxy : x <> y) by (intros ->; apply Hne; by eapply NoDup_lookup). assert (Hadr : line_address p base x <> line_address p base y) by (intros E; by apply Hxy, (line_address_inj p base k Hp)).
  rewrite !(line_address_eq p base k Hp) in * by done. destruct (page_split p base k Hp) as (Es & _). rewrite Es in *. nia.
Qed.

Lemma selection_count m p base k cls quota set L : pool_ok p base k -> selection m p base k cls quota set L ->
  ls_line_count set = Z.of_nat (List.length (ls_addresses set)) /\ NoDup (ls_addresses set) /\ ls_line_count set < 9223372036854775808.
Proof.
  intros Hp Hsel. pose proof (selection_apart _ _ _ _ _ _ _ _ Hp Hsel) as Hap. destruct Hsel as [_ Hok Hnd _ Ha Hc].
  assert (Hd : NoDup (ls_addresses set)).
  { apply NoDup_alt. intros i j a Hi Hj. destruct (decide (i = j)) as [|Hne]; [done|]. destruct (Hap i j a a Hi Hj Hne); lia. }
  split; [by rewrite Hc, Ha, length_fmap|]. split; [done|]. rewrite Hc.
  pose proof (selected_lines_sub p base k Hp L Hok Hnd) as Hsub%submseteq_length. pose proof (length_all_lines p base k Hp) as El. pose proof (page_split p base k Hp) as (Es & Hpos & _).
  pose proof (po_room _ _ _ Hp) as [Hb Hr]. rewrite (po_bytes _ _ _ Hp), Es in Hr. pose proof (po_count _ _ _ Hp). nia.
Qed.

Lemma make_permutation_perm count sd out w perm w1 : make_permutation count sd out w = (0, perm, w1) -> perm ≡ₚ zrange 0 (Z.to_nat count).
Proof.
  unfold make_permutation. destruct (count =? 0); [done|]. destruct (mm_malloc _ w) as [ok w2]. destruct ok; cbn [negb]; [|done]. intros [= <- _].
  apply (shuffled_order_perm count sd).
Qed.

Section Selected.
Context (m : dram_mapping) (p : memory_pool) (base k : Z) (cls : list Z) (quota : Z) (set : line_set) (L : list (Z * Z)).
Context (seed_ : Z) (w w1 : W) (permutation : list Z).
Hypothesis Hp : pool_ok p base k.
Hypothesis Hsel : selection m p base k cls quota set L.
Hypothesis Hmade : make_permutation (ls_line_count set) seed_ [] w = (0, permutation, w1).

(** C9: the victim's chain through the lines of a selection and a permutation of
    them: from the root, as many dependent reads as there are lines go through
    every selected line exactly once, and the read after them is of the root
    again. *)
Theorem victim_chain_visits_all : 0 < ls_line_count set ->
  exists root w2, build_single_chain set permutation w1 = (Some root, w2) /\
    visits (Z.to_nat (ls_line_count set)) root w2 ≡ₚ ls_addresses set /\ NoDup (visits (Z.to_nat (ls_line_count set)) root w2) /\
    chase (Z.to_nat (ls_line_count set)) root w2 = root.
Proof.
  intros Hpos. destruct (selection_count _ _ _ _ _ _ _ _ Hp Hsel) as (Hc & Hnd & Hs). pose proof (selection_apart _ _ _ _ _ _ _ _ Hp Hsel) as Hap.
  pose proof (make_permutation_perm _ _ _ _ _ _ Hmade) as Hperm.
  destruct (single_chain_cycle set permutation Hc (conj Hpos Hs) Hperm Hap w1) as (E1 & E2 & E3). destruct (build_single_chain set permutation w1) as [root w2]. cbn [fst snd] in *. subst root.
  pose proof (lines_perm set permutation Hc (conj Hpos Hs) Hperm) as Hl. exists (line_at set permutation 0), w2. rewrite E2, Hl.
  conjs; try done. rewrite E3, Z2Nat.id, Z.mod_same by lia. done.
Qed.

(** The streams of an aggressor: there is one root per stream, each stream
    returns to its root, no line is in two streams, and together they go through
    every selected line. *)
Theorem aggressor_streams_partition : AGGRESSOR_STREAMS <= ls_line_count set ->
  exists roots w2 lengths, build_multi_chain set permutation AGGRESSOR_STREAMS w1 = (Some roots, w2) /\
    List.length roots = 16%nat /\ List.length lengths = 16%nat /\
    (forall i r n, roots !! i = Some r -> lengths !! i = Some n -> chase n r w2 = r) /\
    NoDup (zip_with (fun r n => visits n r w2) roots lengths ≫= id) /\
    zip_with (fun r n => visits n r w2) roots lengths ≫= id ≡ₚ ls_addresses set.
Proof.
  intros Hmin. unfold AGGRESSOR_STREAMS in *. destruct (selection_count _ _ _ _ _ _ _ _ Hp Hsel) as (Hc & Hnd & Hs). pose proof (selection_apart _ _ _ _ _ _ _ _ Hp Hsel) as Hap.
  pose proof (make_permutation_perm _ _ _ _ _ _ Hmade) as Hperm. assert (Hpos : 0 < ls_line_count set) by lia.
  destruct (multi_chain_streams set permutation Hc (conj Hpos Hs) Hperm Hap 16 ltac:(lia) w1) as (E1 & E2 & E3).
  destruct (build_multi_chain set permutation 16 w1) as [roots w2]. cbn [fst snd] in *. subst roots.
  exists (line_at set permutation <$> zrange 0 16), w2, (stream_length set 16 <$> zrange 0 16).
  assert (Ez : zip_with (fun r n => visits n r w2) (line_at set permutation <$> zrange 0 16) (stream_length set 16 <$> zrange 0 16) ≫= id =
               zrange 0 16 ≫= (fun s => visits (stream_length set 16 s) (line_at set permutation s) w2)).
  { rewrite zip_with_fmap_l, zip_with_fmap_r, zip_with_diag. by rewrite list_fmap_bind. }
  rewrite Ez. change (Z.to_nat 16) with 16%nat in E3. rewrite E3, !length_fmap. conjs; try done.
  intros i r n Hr Hn. apply list_lookup_fmap_Some in Hr as (s & -> & Hsi), Hn as (s' & -> & Hsi'). rewrite Hsi in Hsi'. injection Hsi' as <-.
  apply E2. apply list_elem_of_lookup_2, elem_zrange in Hsi. lia.
Qed.
End Selected.
End Chains.

(** ** The hot loops *)

(** Reading the clock changes no memory. *)
Class ClockLaws (W : Type) `{Memory W} `{RawClock W} := { cl_load a (w : W) : mm_load a (rc_clock w).2 = mm_load a w }.

Section Loops.
Context {W : Type} {HM : Memory W} {HC : RawClock W} {CL : ClockLaws W}.
Implicit Types w : W.

Definition same_memory w w' : Prop := forall a, mm_load a w' = mm_load a w.

Lemma chase_same n : forall p w w', same_memory w w' -> chase n p w' = chase n p w.
Proof. induction n as [|n IH]; intros p w w' Hs; [done|]. cbn [chase]. rewrite Hs. by apply IH. Qed.

Lemma victim_chunks_result chunk fuel start seconds : forall pointer operations w p' ops now w', in_u64 operations ->
  victim_chunks chunk fuel start seconds pointer operations w = Some (Some (p', ops, now), w') ->
  exists chunks, (0 < chunks <= fuel)%nat /\ p' = chase (chunks * Z.to_nat chunk) pointer w /\ ops = u64 (operations + Z.of_nat chunks * chunk) /\
    dleb seconds (elapsed_sec start now) = true /\ same_memory w w'.
Proof.
  induction fuel as [|fuel IH]; intros pointer operations w p' ops now w' Hops; [done|]. cbn [victim_chunks].
  pose proof (fun a => cl_load a w) as Hk. destruct (rc_clock w) as [[ts|] w1]; [|done]. cbn [snd] in Hk.
  destruct (dleb seconds (elapsed_sec start ts)) eqn:Ed.
  - intros Hr. injection Hr as <- <- <- <-. exists 1%nat. rewrite Nat.mul_1_l, Z.mul_1_l. conjs; try done; lia.
  - intros E. destruct (IH _ _ _ _ _ _ _ (u64_add_range _ _) E) as (n & Hn & -> & -> & Hd & Hs). exists (S n). split; [lia|].
    rewrite (chase_same _ _ w w1 Hk). split; [|split; [|split; [done|intros a; by rewrite Hs]]].
    + cbn [Nat.mul]. by rewrite chase_add.
    + unfold u64_add. rewrite u64_add_l. f_equal. lia.
Qed.

Lemma aggressor_chunks_result fuel start seconds : forall pointers operations w ps ops now w', in_u64 operations ->
  aggressor_chunks fuel start seconds pointers operations w = Some (Some (ps, ops, now), w') ->
  exists chunks, (0 < chunks <= fuel)%nat /\ ps = (fun p => chase (chunks * 1024) p w) <$> pointers /\
    ops = u64 (operations + Z.of_nat chunks * (AGGRESSOR_CHUNK_ITERS * AGGRESSOR_STREAMS)) /\ dleb seconds (elapsed_sec start now) = true.
Proof.
  induction fuel as [|fuel IH]; intros pointers operations w ps ops now w' Hops; [done|]. cbn [aggressor_chunks].
  pose proof (fun a => cl_load a w) as Hk. destruct (rc_clock w) as [[ts|] w1]; [|done]. cbn [snd] in Hk. rewrite chase_streams_each.
  destruct (dleb seconds (elapsed_sec start ts)) eqn:Ed.
  - intros Hr. injection Hr as <- <- <- <-. exists 1%nat. conjs; try done; lia.
  - intros E. destruct (IH _ _ _ _ _ _ _ (u64_add_range _ _) E) as (n & Hn & -> & -> & Hd). exists (S n). split; [lia|].
    split; [|split; [|done]].
    + rewrite <- list_fmap_compose. apply list_fmap_ext. intros i p _. cbn [compose]. change (S n * 1024)%nat with (1024 + n * 1024)%nat. rewrite chase_add. by apply chase_same.
    + change (u64_mul AGGRESSOR_CHUNK_ITERS AGGRESSOR_STREAMS) with 16384. unfold u64_add, AGGRESSOR_CHUNK_ITERS, AGGRESSOR_STREAMS. rewrite u64_add_l. f_equal. lia.
Qed.

(** What the hot loops report. A loop that returns 0 ran for at least the
    seconds asked for by the clock it read, and the operations it counts are, up
    to the width of the counter, the dependent reads it made: whole chunks of
    reads along the chain from the root, or along each of the streams. *)
Theorem hot_loops_measure fuel root roots seconds sink w r sink' w' :
  (victim_loop fuel root seconds worker_result_zero sink w = Some (0, r, sink', w') ->
    wr_ok r = 1 /\ dleb seconds (wr_elapsed_sec r) = true /\ exists chunks, (0 < chunks)%nat /\
      wr_operations r = u64 (Z.of_nat (chunks * 4096)) /\ sink' = Z.lxor sink (chase (chunks * 4096) root w)) /\
  (aggressor_loop fuel roots seconds worker_result_zero sink w = Some (0, r, sink', w') ->
    wr_ok r = 1 /\ dleb seconds (wr_elapsed_sec r) = true /\ exists chunks, (0 < chunks)%nat /\
      wr_operations r = u64 (16 * Z.of_nat (chunks * 1024)) /\ sink' = fold_left Z.lxor ((fun p => chase (chunks * 1024) p w) <$> roots) sink).
Proof.
  pose proof (fun a => cl_load a w) as Hk. split.
  - unfold victim_loop. destruct (_ || _); [done|]. destruct (rc_clock w) as [[start|] w1]; [|done]. cbn [snd] in Hk.
    destruct (victim_chunks _ _ _ _ _ _ w1) as [[[[[p ops] now]|] w2]|] eqn:E; [|done..]. intros Hr. injection Hr as <- <- _.
    destruct (victim_chunks_result _ _ _ _ _ _ _ _ _ _ _ ltac:(done) E) as (n & Hn & -> & -> & Hd & _). cbn. conjs; try done. exists n.
    split; [lia|]. unfold VICTIM_CHUNK_READS. split; [f_equal; lia|]. by rewrite (chase_same _ _ w w1 Hk).
  - unfold aggressor_loop. destruct (dleb _ _); [done|]. destruct (rc_clock w) as [[start|] w1]; [|done]. cbn [snd] in Hk.
    destruct (aggressor_chunks _ _ _ _ _ w1) as [[[[[ps ops] now]|] w2]|] eqn:E; [|done..]. intros Hr. injection Hr as <- <- _.
    destruct (aggressor_chunks_result _ _ _ _ _ _ _ _ _ _ ltac:(done) E) as (n & Hn & -> & -> & Hd). cbn [wr_ok wr_elapsed_sec wr_operations]. conjs; try done. exists n.
    split; [lia|]. unfold AGGRESSOR_CHUNK_ITERS, AGGRESSOR_STREAMS. split; [f_equal; lia|]. f_equal. apply list_fmap_ext. intros i q _. by apply chase_same.
Qed.
End Loops.
