(* ===== verification/OracleIo.v ===== *)
(** * Files, pipes and workers of the experiment

    The calls [run_condition] and the cgroup set-up of the bank-overlap
    experiment make, as an interface over a type of worlds, and the loops around
    [read] and [write] ([oracle_selective_control.c]).  A buffer is the list of
    its bytes. *)
From S2P Require Import Prelude Float64 CString Os Calibration CalibrationLoad CalibrationRun OracleSys.
From Stdlib Require Import Ascii String.
Local Open Scope Z_scope.

Definition PATH_MAX : Z := 4096.

(** What [waitpid] reports of a child. *)
Inductive wait_result := WaitStopped | WaitReaped (status : wait_status) | WaitError (e : errno).

Inductive worker_signal := SIG_CONT | SIG_KILL.

Class Files (W : Type) := {
  fl_getpid : W -> Z;
  (** [open(path, O_WRONLY | O_CLOEXEC)]: the descriptor, negative on failure *)
  fl_open_write : string -> W -> Z * W;
  (** [write] and [read]: what was written or read, or the error *)
  fl_write : Z -> list Z -> W -> (Z + errno) * W;
  fl_read : Z -> Z -> W -> (list Z + errno) * W;
  fl_mkdir : string -> W -> bool * W;
  fl_rmdir : string -> W -> W;
  (** [pipe]: the reading and the writing end *)
  fl_pipe : W -> option (Z * Z) * W
}.

Class Workers (W : Type) := {
  (** the parent's side of [fork]: the child, or [None] on failure *)
  wk_fork : W -> option Z * W;
  (** [waitpid(pid, &status, WUNTRACED)] and [waitpid(pid, &status, 0)]: [None] when
      it blocks and never returns *)
  wk_wait : bool -> Z -> W -> option (wait_result * W);
  (** [kill(pid, sig) == 0] *)
  wk_kill : Z -> worker_signal -> W -> bool * W;
  (** [sched_setaffinity] of the caller to one processor, and [raise(SIGSTOP)], succeeded *)
  wk_setaffinity : Z -> W -> bool * W;
  wk_raise_stop : W -> bool * W
}.

Definition text_bytes (s : string) : list Z := (fun c => Z.of_N (N_of_ascii c)) <$> list_ascii_of_string s.
Definition bytes_text (bs : list Z) : string := string_of_list_ascii ((fun b => ascii_of_N (Z.to_N b)) <$> bs).

Section Io.
Context {W : Type} `{HO : OS W} `{HF : Files W}.

(** The bytes left are the loop's state; [None] when the fuel runs out. *)
Fixpoint write_full (fuel : nat) (fd : Z) (bytes : list Z) (w : W) : option (Z * W) :=
  match fuel with
  | O => None
  | S fuel =>
      match bytes with
      | [] => Some (0, w)
      | _ =>
          match fl_write fd bytes w with
          | (inr e, w) => if bool_decide (e = EINTR) then write_full fuel fd bytes w else Some (-1, w)
          | (inl n, w) => if n =? 0 then Some (-1, w) else write_full fuel fd (drop (Z.to_nat n) bytes) w
          end
      end
  end.

(** [bytes] are still missing, [got] were read. *)
Fixpoint read_full (fuel : nat) (fd : Z) (bytes : Z) (got : list Z) (w : W) : option (Z * list Z * W) :=
  match fuel with
  | O => None
  | S fuel =>
      if 0 <? bytes then
        match fl_read fd bytes w with
        | (inr e, w) => if bool_decide (e = EINTR) then read_full fuel fd bytes got w else Some (-1, got, w)
        | (inl bs, w) =>
            let n := Z.of_nat (List.length bs) in
            if n =? 0 then Some (-1, got, w) else read_full fuel fd (bytes - n) (got ++ bs) w
        end
      else Some (0, got, w)
  end.

(** [path] and [buffer] are not NULL: the text, or [None] for the code -1. *)
Definition read_text_file (path : string) (buffer_size : Z) (w : W) : option string * W :=
  if buffer_size <? 2 then (None, w)
  else
    let '(fd, w) := os_open path w in
    if fd <? 0 then (None, w)
    else
      let '(r, w) := fl_read fd (buffer_size - 1) w in
      let w := os_close fd w in
      match r with
      | inr _ => (None, w)
      | inl bytes => (Some (bytes_text bytes), w)
      end.

(** The pointers are not NULL. *)
Definition write_text_path (fuel : nat) (path text : string) (w : W) : option (Z * W) :=
  let '(fd, w) := fl_open_write path w in
  if fd <? 0 then Some (-1, w)
  else
    match write_full fuel fd (text_bytes (c_str text)) w with
    | None => None
    | Some (rc, w) => if negb (rc =? 0) then Some (-1, os_close fd w) else Some (0, os_close fd w)
    end.
End Io.

(** * The cgroups of the experiment ([oracle_selective_control.c])

    A directory of its own with a child for each aggressor; the code creates
    them, moves stopped workers into them, writes their [cpu.max] and removes
    them at the end. *)

(** [' '], tab, newline and carriage return. *)
Definition is_blank (c : ascii) : bool :=
  Ascii.eqb c " " || Ascii.eqb c (ascii_of_nat 9) || Ascii.eqb c newline || Ascii.eqb c carriage_return.

(** The first inner loop: the text after the blanks. *)
Fixpoint skip_blanks (p : string) : string :=
  match p with
  | EmptyString => EmptyString
  | String c p' => if is_blank c then skip_blanks p' else p
  end.

(** The second inner loop: the word and the text after it. *)
Fixpoint take_word (p : string) : string * string :=
  match p with
  | EmptyString => (EmptyString, EmptyString)
  | String c p' => if is_blank c then (EmptyString, p) else let '(word, rest) := take_word p' in (String c word, rest)
  end.

(** The outer loop; each turn consumes a character, so the length of the text is
    enough fuel. *)
Fixpoint word_loop (fuel : nat) (p word : string) : bool :=
  match fuel with
  | O => false
  | S fuel =>
      match p with
      | EmptyString => false
      | _ =>
          let start := skip_blanks p in
          let '(w, rest) := take_word start in
          if (strlen w =? strlen word) && String.eqb w word then true else word_loop fuel rest word
      end
  end.

(** [None] is NULL. *)
Definition whitespace_word_present (text word : option string) : bool :=
  match text, word with
  | Some t, Some w => word_loop (String.length (c_str t)) (c_str t) (c_str w)
  | _, _ => false
  end.

Record cgroup_context := mk_cgroup_context { cx_ready : bool; run_path : string; high_path : string; low_path : string }.

Definition cgroup_context_zero : cgroup_context := mk_cgroup_context false "" "" "".

Section Cgroup.
Context {W : Type} `{HO : OS W} `{HF : Files W}.

Definition cgroup_write_file (fuel : nat) (cgroup_path file_name text : string) (w : W) : option (Z * W) :=
  let path := cgroup_path +:+ "/" +:+ file_name in
  if PATH_MAX <=? strlen path then Some (-1, w) else write_text_path fuel path text w.

Definition cgroup_move_pid (fuel : nat) (cgroup_path : string) (pid : Z) (w : W) : option (Z * W) :=
  let text := dec pid +:+ String newline EmptyString in
  if 64 <=? strlen text then Some (-1, w) else cgroup_write_file fuel cgroup_path "cgroup.procs" text w.

(** The text written to [cpu.max]. *)
Definition cpu_max_text (throttled : bool) (quota_us period_us : Z) : string :=
  (if throttled then dec quota_us +:+ " " +:+ dec period_us else "max " +:+ dec period_us) +:+ String newline EmptyString.

Definition cgroup_set_cpu_max (fuel : nat) (cgroup_path : string) (throttled : bool) (quota_us period_us : Z) (w : W) : option (Z * W) :=
  let text := cpu_max_text throttled quota_us period_us in
  if 128 <=? strlen text then Some (-1, w) else cgroup_write_file fuel cgroup_path "cpu.max" text w.

(** [ctx] is not NULL. *)
Definition cgroup_context_destroy (ctx : cgroup_context) (w : W) : cgroup_context * W :=
  if negb (cx_ready ctx) then (ctx, w)
  else
    let w := fl_rmdir (high_path ctx) w in
    let w := fl_rmdir (low_path ctx) w in
    let w := fl_rmdir (run_path ctx) w in
    (cgroup_context_zero, w).

(** The code from [mkdir(ctx->run_path)] on; [ctx] has its paths. *)
Definition cgroup_context_populate (fuel : nat) (ctx : cgroup_context) (w : W) : option (Z * cgroup_context * W) :=
  let '(made, w) := fl_mkdir (run_path ctx) w in
  if negb made then Some (-1, ctx, w)
  else
    let ctx := mk_cgroup_context true (run_path ctx) (high_path ctx) (low_path ctx) in
    let fail w := let '(ctx, w) := cgroup_context_destroy ctx w in Some (-1, ctx, w) in
    let path := run_path ctx +:+ "/cgroup.controllers" in
    if PATH_MAX <=? strlen path then fail w
    else
      let '(child_controllers, w) := read_text_file path 4096 w in
      match child_controllers with
      | None => fail w
      | Some child_controllers =>
          if negb (whitespace_word_present (Some child_controllers) (Some "cpu"%string)) then fail w
          else
            match cgroup_write_file fuel (run_path ctx) "cgroup.subtree_control" ("+cpu" +:+ String newline EmptyString) w with
            | None => None
            | Some (rc, w) =>
                if negb (rc =? 0) then fail w
                else
                  let '(made, w) := fl_mkdir (high_path ctx) w in
                  if negb made then fail w
                  else
                    let '(made, w) := fl_mkdir (low_path ctx) w in
                    if negb made then fail w else Some (0, ctx, w)
            end
      end.

(** [ctx] is not NULL: the code and [*ctx]. *)
Definition cgroup_context_create (fuel : nat) (w : W) : option (Z * cgroup_context * W) :=
  let ctx := cgroup_context_zero in
  let '(root_subtree, w) := read_text_file "/sys/fs/cgroup/cgroup.subtree_control" 4096 w in
  match root_subtree with
  | None => Some (-1, ctx, w)
  | Some root_subtree =>
      if negb (whitespace_word_present (Some root_subtree) (Some "cpu"%string)) then Some (-1, ctx, w)
      else
        let text := "/sys/fs/cgroup/oracle_6_5d_" +:+ dec (fl_getpid w) in
        let run := snprintf PATH_MAX text in
        if PATH_MAX <=? strlen text then Some (-1, mk_cgroup_context false run "" "", w)
        else
          let text := run +:+ "/high" in
          let high := snprintf PATH_MAX text in
          if PATH_MAX <=? strlen text then Some (-1, mk_cgroup_context false run high "", w)
          else
            let text := run +:+ "/low" in
            let low := snprintf PATH_MAX text in
            if PATH_MAX <=? strlen text then Some (-1, mk_cgroup_context false run high low, w)
            else cgroup_context_populate fuel (mk_cgroup_context false run high low) w
  end.
End Cgroup.
