(* ===== verification/OracleRun.v ===== *)
(** * Running one condition of the experiment ([oracle_selective_control.c])

    The workers are children that stop themselves before any work; the parent
    places them in their cgroups, continues them, waits for them and reads their
    results from pipes.  A step of [run_condition] changes the local variables
    and the world; [false] is the jump to [fail], which ends what is still
    running. *)
From S2P Require Import Prelude Float64 CString Os Calibration CalibrationLoad CalibrationRun OracleSys OracleConfig OraclePool OracleLines OracleChain OracleIo.
From Stdlib Require Import Ascii String.
Local Open Scope Z_scope.

Definition CPU_SETSIZE : Z := 1024.
Definition WARMUP_SECONDS : double := Z_to_double 1.

Record condition_result := mk_condition_result {
  cr_victim : worker_result;
  cr_high : worker_result;
  cr_low : worker_result;
  has_background : bool
}.

#[export] Instance condition_result_settable : Settable condition_result :=
  fun r => mk_condition_result (cr_victim r) (cr_high r) (cr_low r) (has_background r).

Definition condition_result_zero : condition_result := mk_condition_result worker_result_zero worker_result_zero worker_result_zero false.

(** The local variables of [run_condition]. *)
Record run_state := mk_run_state {
  rs_victim_pid : Z; rs_high_pid : Z; rs_low_pid : Z;
  rs_victim_fd : Z; rs_high_fd : Z; rs_low_fd : Z;
  rs_out : condition_result
}.

#[export] Instance run_state_settable : Settable run_state :=
  fun s => mk_run_state (rs_victim_pid s) (rs_high_pid s) (rs_low_pid s) (rs_victim_fd s) (rs_high_fd s) (rs_low_fd s) (rs_out s).

(** ** Steps

    [S] is the type of the local variables, [W] of the worlds. *)

Section Combinators.
Context {S W : Type}.

(** [None] when the fuel of a call runs out or it never returns; [false] is the jump
    to [fail]. *)
Definition step : Type := S -> W -> option (bool * S * W).

(** [a; b] *)
Definition then_step (a b : step) : step :=
  fun s w => match a s w with
             | None => None
             | Some (true, s, w) => b s w
             | Some (false, s, w) => Some (false, s, w)
             end.

(** A call whose code is checked against 0. *)
Definition checked (call : S -> W -> option (Z * W)) : step :=
  fun s w => match call s w with
             | None => None
             | Some (rc, w) => Some (rc =? 0, s, w)
             end.

(** [if (flag) { ... }] *)
Definition if_step (flag : S -> bool) (a : step) : step := fun s w => if flag s then a s w else Some (true, s, w).

(** [for (...; n > 0; ++i) { ... }], from [i] on *)
Fixpoint for_step (n i : nat) (body : nat -> step) : step :=
  match n with
  | O => fun s w => Some (true, s, w)
  | Datatypes.S n => then_step (body i) (for_step n (Datatypes.S i) body)
  end.

(** [if (kill(pid, SIGCONT) != 0) goto fail] *)
Definition continue_step `{Workers W} (pid : S -> Z) : step :=
  fun s w => let '(ok, w) := wk_kill (pid s) SIG_CONT w in Some (ok, s, w).
End Combinators.

#[global] Arguments step : clear implicits.

Section Run.
Context {W : Type} `{HO : OS W} `{HM : Memory W} `{HC : RawClock W} `{HF : Files W} `{HK : Workers W}.
(** The representation of [struct worker_result] in memory. *)
Context (result_size : Z) (result_bytes : worker_result -> list Z) (result_of_bytes : list Z -> worker_result).

Definition pin_to_cpu (cpu : Z) (w : W) : Z * W :=
  if (cpu <? 0) || (CPU_SETSIZE <=? cpu) then (-1, w)
  else let '(ok, w) := wk_setaffinity cpu w in (if ok then 0 else -1, w).

(** ** Workers *)

(** The child of [spawn_victim], from the reading end of the pipe it inherited on:
    its exit code. *)
Definition victim_child (fuel : nat) (cpu seconds root read_end write_end worker_sink : Z) (w : W) : option (Z * W) :=
  let w := os_close read_end w in
  let '(rc, w) := pin_to_cpu cpu w in
  if negb (rc =? 0) then Some (101, w)
  else
    let '(ok, w) := wk_raise_stop w in
    if negb ok then Some (102, w)
    else
      match victim_loop fuel root WARMUP_SECONDS worker_result_zero worker_sink w with
      | None => None
      | Some (rc, _, worker_sink, w) =>
          if negb (rc =? 0) then Some (103, w)
          else
            match victim_loop fuel root (Z_to_double seconds) worker_result_zero worker_sink w with
            | None => None
            | Some (rc, result, _, w) =>
                if negb (rc =? 0) then Some (104, w)
                else
                  match write_full fuel write_end (result_bytes result) w with
                  | None => None
                  | Some (rc, w) => if negb (rc =? 0) then Some (105, w) else Some (0, os_close write_end w)
                  end
            end
      end.

(** The child of [spawn_aggressor]. *)
Definition aggressor_child (fuel : nat) (cpu seconds : Z) (roots : list Z) (read_end write_end worker_sink : Z) (w : W) : option (Z * W) :=
  let w := os_close read_end w in
  let '(rc, w) := pin_to_cpu cpu w in
  if negb (rc =? 0) then Some (111, w)
  else
    let '(ok, w) := wk_raise_stop w in
    if negb ok then Some (112, w)
    else
      match aggressor_loop fuel roots WARMUP_SECONDS worker_result_zero worker_sink w with
      | None => None
      | Some (rc, _, worker_sink, w) =>
          if negb (rc =? 0) then Some (113, w)
          else
            match aggressor_loop fuel roots (Z_to_double seconds) worker_result_zero worker_sink w with
            | None => None
            | Some (rc, result, _, w) =>
                if negb (rc =? 0) then Some (114, w)
                else
                  match write_full fuel write_end (result_bytes result) w with
                  | None => None
                  | Some (rc, w) => if negb (rc =? 0) then Some (115, w) else Some (0, os_close write_end w)
                  end
            end
      end.

(** The parent's side of [spawn_victim] and of [spawn_aggressor], which is the
    same code; [read_fd_out] is the address of [read_fd]. *)
Definition spawn_worker (read_fd : Z) (w : W) : Z * Z * W :=
  let '(p, w) := fl_pipe w in
  match p with
  | None => (-1, read_fd, w)
  | Some (r, wr) =>
      let '(pid, w) := wk_fork w in
      match pid with
      | None => (-1, read_fd, os_close wr (os_close r w))
      | Some pid => (pid, r, os_close wr w)
      end
  end.

Definition spawn_victim := spawn_worker.
Definition spawn_aggressor := spawn_worker.

(** A call interrupted by a signal is repeated; [None] when the fuel runs out or a
    call never returns. *)
Fixpoint wait_until_stopped (fuel : nat) (pid : Z) (w : W) : option (Z * W) :=
  match fuel with
  | O => None
  | S fuel =>
      match wk_wait true pid w with
      | None => None
      | Some (WaitError e, w) => if bool_decide (e = EINTR) then wait_until_stopped fuel pid w else Some (-1, w)
      | Some (WaitStopped, w) => Some (0, w)
      | Some (WaitReaped _, w) => Some (-1, w)
      end
  end.

Fixpoint wait_success (fuel : nat) (pid : Z) (w : W) : option (Z * W) :=
  match fuel with
  | O => None
  | S fuel =>
      match wk_wait false pid w with
      | None => None
      | Some (WaitError e, w) => if bool_decide (e = EINTR) then wait_success fuel pid w else Some (-1, w)
      | Some (WaitReaped (WExited code), w) => if code =? 0 then Some (0, w) else Some (-1, w)
      | Some (_, w) => Some (-1, w)
      end
  end.

(** [if (out->has_background) { ... }] *)
Definition if_background (a : step run_state W) : step run_state W := if_step (fun s => has_background (rs_out s)) a.

Section Steps.
Context (fuel : nat) (condition : condition) (cfg : config) (cgroups : cgroup_context).

Definition high_throttled : bool := bool_decide (condition = CONDITION_SELECTIVE) || bool_decide (condition = CONDITION_ALL).
Definition low_throttled : bool := bool_decide (condition = CONDITION_ALL).

(** Writing [cpu.max] of both cgroups. *)
Definition control_step : step run_state W :=
  if_background (then_step
    (checked (fun _ => cgroup_set_cpu_max fuel (high_path cgroups) high_throttled (throttle_quota_us cfg) (throttle_period_us cfg)))
    (checked (fun _ => cgroup_set_cpu_max fuel (low_path cgroups) low_throttled (throttle_quota_us cfg) (throttle_period_us cfg)))).

(** Starting a worker and waiting until it has stopped. *)
Definition start_victim : step run_state W := fun s w =>
  let '(pid, fd, w) := spawn_victim (rs_victim_fd s) w in
  let s := s <| rs_victim_pid := pid |> <| rs_victim_fd := fd |> in
  if pid <? 0 then Some (false, s, w) else checked (fun s => wait_until_stopped fuel (rs_victim_pid s)) s w.

Definition start_high : step run_state W := fun s w =>
  let '(pid, fd, w) := spawn_aggressor (rs_high_fd s) w in
  let s := s <| rs_high_pid := pid |> <| rs_high_fd := fd |> in
  if pid <? 0 then Some (false, s, w) else checked (fun s => wait_until_stopped fuel (rs_high_pid s)) s w.

Definition start_low : step run_state W := fun s w =>
  let '(pid, fd, w) := spawn_aggressor (rs_low_fd s) w in
  let s := s <| rs_low_pid := pid |> <| rs_low_fd := fd |> in
  if pid <? 0 then Some (false, s, w) else checked (fun s => wait_until_stopped fuel (rs_low_pid s)) s w.

(** The aggressors: started, placed and continued. *)
Definition background_step : step run_state W :=
  if_background (then_step start_high (then_step start_low (then_step
    (checked (fun s => cgroup_move_pid fuel (high_path cgroups) (rs_high_pid s))) (then_step
    (checked (fun s => cgroup_move_pid fuel (low_path cgroups) (rs_low_pid s))) (then_step
    (continue_step rs_high_pid) (continue_step rs_low_pid)))))).

(** [if (wait_success(pid) != 0) goto fail; pid = -1;] *)
Definition finish_victim : step run_state W := fun s w =>
  match wait_success fuel (rs_victim_pid s) w with
  | None => None
  | Some (rc, w) => if rc =? 0 then Some (true, s <| rs_victim_pid := -1 |>, w) else Some (false, s, w)
  end.

Definition finish_high : step run_state W := fun s w =>
  match wait_success fuel (rs_high_pid s) w with
  | None => None
  | Some (rc, w) => if rc =? 0 then Some (true, s <| rs_high_pid := -1 |>, w) else Some (false, s, w)
  end.

Definition finish_low : step run_state W := fun s w =>
  match wait_success fuel (rs_low_pid s) w with
  | None => None
  | Some (rc, w) => if rc =? 0 then Some (true, s <| rs_low_pid := -1 |>, w) else Some (false, s, w)
  end.

(** Reading a result and closing its pipe.  What a failed read has stored of a
    result is not modelled: [run_condition] fails then, and its caller does not
    look at [*out]. *)
Definition read_victim : step run_state W := fun s w =>
  match read_full fuel (rs_victim_fd s) result_size [] w with
  | None => None
  | Some (rc, bytes, w) =>
      if negb (rc =? 0) then Some (false, s, w)
      else
        let s := s <| rs_out := (rs_out s) <| cr_victim := result_of_bytes bytes |> |> in
        Some (true, s <| rs_victim_fd := -1 |>, os_close (rs_victim_fd s) w)
  end.

Definition read_background : step run_state W :=
  if_background (fun s w =>
    match read_full fuel (rs_high_fd s) result_size [] w with
    | None => None
    | Some (rc, high, w) =>
        if negb (rc =? 0) then Some (false, s, w)
        else
          match read_full fuel (rs_low_fd s) result_size [] w with
          | None => None
          | Some (rc, low, w) =>
              if negb (rc =? 0) then Some (false, s, w)
              else
                let s := s <| rs_out := (rs_out s) <| cr_high := result_of_bytes high |> <| cr_low := result_of_bytes low |> |> in
                Some (true, s <| rs_high_fd := -1 |> <| rs_low_fd := -1 |>, os_close (rs_low_fd s) (os_close (rs_high_fd s) w))
          end
    end).

(** The code between the declarations and [return 0]. *)
Definition run_steps : step run_state W :=
  then_step control_step (then_step start_victim (then_step background_step (then_step (continue_step rs_victim_pid)
    (then_step finish_victim (then_step (if_background (then_step finish_high finish_low)) (then_step read_victim read_background)))))).

(** Ending one worker at [fail]; [None] when [waitpid] never returns. *)
Definition end_worker (pid : Z) (w : W) : option W :=
  if 0 <? pid then
    let '(_, w) := wk_kill pid SIG_CONT w in
    let '(_, w) := wk_kill pid SIG_KILL w in
    match wk_wait false pid w with
    | None => None
    | Some (_, w) => Some w
    end
  else Some w.

Definition close_end (fd : Z) (w : W) : W := if 0 <=? fd then os_close fd w else w.

(** The code at [fail]. *)
Definition run_fail (s : run_state) (w : W) : option W :=
  w ← end_worker (rs_victim_pid s) w;
  w ← end_worker (rs_high_pid s) w;
  w ← end_worker (rs_low_pid s) w;
  Some (close_end (rs_low_fd s) (close_end (rs_high_fd s) (close_end (rs_victim_fd s) w))).

(** The pointers are not NULL: the code, [*out] and the world. *)
Definition run_condition (out : condition_result) (w : W) : option (Z * condition_result * W) :=
  if negb (cx_ready cgroups) then Some (-1, out, w)
  else
    let out := condition_result_zero <| has_background := negb (bool_decide (condition = CONDITION_NONE)) |> in
    match run_steps (mk_run_state (-1) (-1) (-1) (-1) (-1) (-1) out) w with
    | None => None
    | Some (true, s, w) => Some (0, rs_out s, w)
    | Some (false, s, w) => match run_fail s w with None => None | Some w => Some (-1, rs_out s, w) end
    end.
End Steps.
End Run.
