(* ===== verification/OracleMain.v ===== *)
(** * The whole experiment ([oracle_selective_control.c], [main])

    From the arguments to the exit code: the selection of the lines
    ([OracleStages]), the chains, the four conditions, the comparison of their
    latencies, the check that no page has moved, and the release of everything
    that was acquired, which is the same code on success and at [fail].  What the
    program prints of its results is modelled as the numbers it prints. *)
From S2P Require Import Prelude Float64 CString Os Calibration CalibrationLoad CalibrationRun DramMapping OracleSys OracleConfig OraclePool OracleLines OracleStages OracleChain OracleIo OracleRun.
From Stdlib Require Import Ascii String SpecFloat.
Local Open Scope Z_scope.

Definition dsub : double -> double -> double := SFsub 53 1024.

Definition EXIT_SUCCESS : Z := 0.
Definition EXIT_FAILURE : Z := 1.

(** ** The numbers of a condition *)

Definition ns_per_read (r : worker_result) : double :=
  ddiv (dmul (wr_elapsed_sec r) (dlit 1000000000 1)) (Z_to_double (wr_operations r)).

Definition mload_per_sec (r : worker_result) : double :=
  ddiv (ddiv (Z_to_double (wr_operations r)) (wr_elapsed_sec r)) (dlit 1000000 1).

Record measurement := mk_measurement { ms_victim_ns : double; ms_high_mload : double; ms_low_mload : double; ms_total_bg_mload : double }.

Definition measure (r : condition_result) : measurement :=
  let victim_ns := ns_per_read (cr_victim r) in
  if has_background r then
    let high_mload := mload_per_sec (cr_high r) in
    let low_mload := mload_per_sec (cr_low r) in
    mk_measurement victim_ns high_mload low_mload (dadd high_mload low_mload)
  else mk_measurement victim_ns dzero dzero dzero.

(** ** The comparison of the conditions *)

(** A number is [None] when it is not printed. *)
Record comparison := mk_comparison {
  uncontrolled_vs_none_latency_pct : double;
  selective_vs_none_latency_pct : double;
  all_vs_none_latency_pct : double;
  selective_vs_all_latency_pct : double;
  selective_recovery_pct : double;
  all_recovery_pct : double;
  selective_bg_retention_pct : option double;
  all_bg_retention_pct : option double;
  selective_bg_gain_vs_all_pct : option double
}.

Definition latency_of (r : condition_result) : double := ns_per_read (cr_victim r).

Definition total_bg_of (r : condition_result) : double :=
  if has_background r then dadd (mload_per_sec (cr_high r)) (mload_per_sec (cr_low r)) else dzero.

(** [(a / b - 1.0) * 100.0] *)
Definition percent_above (a b : double) : double := dmul (dsub (ddiv a b) (dlit 1 1)) (dlit 100 1).

(** [results] is indexed by condition. *)
Definition compare (results : list condition_result) : comparison :=
  let latency c := latency_of (nth (condition_index c) results condition_result_zero) in
  let total_bg c := total_bg_of (nth (condition_index c) results condition_result_zero) in
  let none_ns := latency CONDITION_NONE in
  let uncontrolled_ns := latency CONDITION_UNCONTROLLED in
  let selective_ns := latency CONDITION_SELECTIVE in
  let all_ns := latency CONDITION_ALL in
  let slowdown_span := dsub uncontrolled_ns none_ns in
  let recovery ns := if dltb dzero slowdown_span then dmul (ddiv (dsub uncontrolled_ns ns) slowdown_span) (dlit 100 1) else dzero in
  let retention c := if dltb dzero (total_bg CONDITION_UNCONTROLLED) then Some (dmul (ddiv (total_bg c) (total_bg CONDITION_UNCONTROLLED)) (dlit 100 1)) else None in
  mk_comparison (percent_above uncontrolled_ns none_ns) (percent_above selective_ns none_ns) (percent_above all_ns none_ns)
    (percent_above selective_ns all_ns) (recovery selective_ns) (recovery all_ns)
    (retention CONDITION_SELECTIVE) (retention CONDITION_ALL)
    (if dltb dzero (total_bg CONDITION_ALL) then Some (percent_above (total_bg CONDITION_SELECTIVE) (total_bg CONDITION_ALL)) else None).

(** ** Main *)

(** What [main] holds and releases at its end. *)
Record experiment := mk_experiment { ex_cgroups : cgroup_context; ex_pools : pools; ex_sets : line_sets }.

Definition experiment_zero : experiment := mk_experiment cgroup_context_zero pools_zero line_sets_zero.

(** What it prints. *)
Record report := mk_report { rp_overlap : overlap; rp_measurements : list (condition * measurement); rp_comparison : comparison }.

Section Main.
Context {W : Type} `{HO : OS W} `{HB : BinFile W} `{HM : Memory W} `{HC : RawClock W} `{HF : Files W} `{HK : Workers W}.
Context (result_size : Z) (result_of_bytes : list Z -> worker_result).

(** The loop over [cfg.order]: [results], an array indexed by condition, and the
    numbers printed for each; the second [None] is the jump to [fail]. *)
Fixpoint conditions_loop (fuel : nat) (order : list condition) (cfg : config) (cgroups : cgroup_context)
    (results : list condition_result) (w : W) : option (option (list condition_result * list (condition * measurement)) * W) :=
  match order with
  | [] => Some (Some (results, []), w)
  | c :: order =>
      match run_condition result_size result_of_bytes fuel c cfg cgroups condition_result_zero w with
      | None => None
      | Some (rc, result, w) =>
          if negb (rc =? 0) then Some (None, w)
          else
            match conditions_loop fuel order cfg cgroups (<[condition_index c := result]> results) w with
            | None => None
            | Some (None, w) => Some (None, w)
            | Some (Some (results, ms), w) => Some (Some (results, (c, measure result) :: ms), w)
            end
      end
  end.

(** The check of the page frames; [false] when a call fails, a page moved or could
    not be read. *)
Definition verify_pools (ps : pools) (w : W) : bool * W :=
  let '(v, w) := verify_pool_pfns (victim_pool ps) w in
  match v with
  | None => (false, w)
  | Some (victim_moved, victim_unreadable) =>
      let '(h, w) := verify_pool_pfns (high_pool ps) w in
      match h with
      | None => (false, w)
      | Some (high_moved, high_unreadable) =>
          let '(l, w) := verify_pool_pfns (low_pool ps) w in
          match l with
          | None => (false, w)
          | Some (low_moved, low_unreadable) =>
              (negb (negb (victim_moved =? 0) || negb (high_moved =? 0) || negb (low_moved =? 0)
                || negb (victim_unreadable =? 0) || negb (high_unreadable =? 0) || negb (low_unreadable =? 0)), w)
          end
      end
  end.

(** The permutation and the chains of the three sets; [false] is the jump to
    [fail]. The roots are kept by the workers the conditions start. *)
Definition build_chains (sets : line_sets) (workset_lines : Z) (cfg : config) (w : W) : bool * W :=
  let '(rc, permutation, w) := make_permutation workset_lines (Z.lxor (seed cfg) 0x7777777777777777) [] w in
  if negb (rc =? 0) then (false, w)
  else
    let '(victim_root, w) := build_single_chain (victim_set sets) permutation w in
    if negb (bool_decide (is_Some victim_root)) then (false, w)
    else
      let '(high_roots, w) := build_multi_chain (high_set sets) permutation AGGRESSOR_STREAMS w in
      if negb (bool_decide (is_Some high_roots)) then (false, w)
      else
        let '(low_roots, w) := build_multi_chain (low_set sets) permutation AGGRESSOR_STREAMS w in
        (bool_decide (is_Some low_roots), w).

(** From the mapping to the accepted lines: [workset_lines], the overlap and what
    is held by then. *)
Definition prepare (cfg : config) (page_size : Z) (ex : experiment) (w : W) : option (Z * overlap) * experiment * W :=
  let '(rc, calibration, mapping, w) := load_mapping (mk_calibration_result false false (replicate 32 0) 0 "" calibration_metrics_zero 0 "") dram_mapping_zero w in
  if negb (rc =? 0) then (None, ex, w)
  else
    let mapping := default dram_mapping_zero mapping in
    match class_space_from_mapping (Some mapping) with
    | None => (None, ex, w)
    | Some class_space =>
        let '(offset_classes, w) := build_offset_classes (Some mapping) page_size w in
        match offset_classes with
        | None => (None, ex, w)
        | Some offset_classes =>
            match workset_plan (workset_mib cfg) (group_classes cfg) with
            | None => (None, ex, w)
            | Some (workset_lines, quota_lines) =>
                let '(o, ps, sets, w) := prepare_lines mapping offset_classes class_space cfg page_size quota_lines (ex_pools ex) (ex_sets ex) w in
                let ex := mk_experiment (ex_cgroups ex) ps sets in
                match o with
                | None => (None, ex, w)
                | Some o => (Some (workset_lines, o), ex, w)
                end
            end
        end
    end.

(** The code after [parse_args] up to the release: the report when all succeeds,
    [None] at [fail], and what is held. *)
Definition perform (fuel : nat) (cfg : config) (page_size : Z) (w : W) : option (option report * experiment * W) :=
  let '(p, ex, w) := prepare cfg page_size experiment_zero w in
  match p with
  | None => Some (None, ex, w)
  | Some (workset_lines, o) =>
      let '(ok, w) := build_chains (ex_sets ex) workset_lines cfg w in
      if negb ok then Some (None, ex, w)
      else
        match cgroup_context_create fuel w with
        | None => None
        | Some (rc, cgroups, w) =>
            let ex := mk_experiment cgroups (ex_pools ex) (ex_sets ex) in
            if negb (rc =? 0) then Some (None, ex, w)
            else
              match conditions_loop fuel (order cfg) cfg cgroups (replicate 4 condition_result_zero) w with
              | None => None
              | Some (None, w) => Some (None, ex, w)
              | Some (Some (results, ms), w) =>
                  let '(ok, w) := verify_pools (ex_pools ex) w in
                  Some (if ok then Some (mk_report o ms (compare results)) else None, ex, w)
              end
        end
  end.

(** The release, the same on success and at [fail]. *)
Definition release (ex : experiment) (w : W) : experiment * W :=
  let '(cgroups, w) := cgroup_context_destroy (ex_cgroups ex) w in
  let sets := mk_line_sets (line_set_destroy (victim_set (ex_sets ex))) (line_set_destroy (high_set (ex_sets ex))) (line_set_destroy (low_set (ex_sets ex))) in
  let '(v, w) := pool_destroy (victim_pool (ex_pools ex)) w in
  let '(h, w) := pool_destroy (high_pool (ex_pools ex)) w in
  let '(l, w) := pool_destroy (low_pool (ex_pools ex)) w in
  (mk_experiment cgroups (mk_pools v h l) sets, w).

(** [args] are [argv[1]] to [argv[argc - 1]]: the exit code and the report of a
    run that succeeds. *)
Definition main (fuel : nat) (args : list string) (w : W) : option (Z * option report * W) :=
  match parse_args args (Some config_zero) with
  | ArgsHelp => Some (EXIT_SUCCESS, None, w)
  | ArgsBad => Some (EXIT_FAILURE, None, w)
  | ArgsOk cfg =>
      let '(page_size, w) := os_pagesize w in
      if page_size <=? 0 then Some (EXIT_FAILURE, None, w)
      else
        match perform fuel cfg page_size w with
        | None => None
        | Some (r, ex, w) =>
            let '(_, w) := release ex w in
            Some (if bool_decide (is_Some r) then EXIT_SUCCESS else EXIT_FAILURE, r, w)
        end
  end.
End Main.
