(* ===== verification/OracleStepProps.v ===== *)
(** * Steps that hold children and descriptors

    A step of a program that starts workers changes its local variables and the
    world.  What is assumed of the kernel is what POSIX documents of the calls,
    and that no signal handler is installed, as is the case in these programs, so
    that no call is interrupted.  A triple says that a step comes to an end, that
    nothing is held since the start but what the variables stand for, and what
    holds of the variables when it does not fail. *)
From S2P Require Import Prelude Float64 CString Os Calibration CalibrationLoad CalibrationRun OracleSys OracleConfig OraclePool OracleLines OracleChain OracleIo OracleRun.
From Stdlib Require Import Ascii String.
Local Open Scope Z_scope.

(** The calls about processes, pipes and control files that always return. *)
Inductive process_call {W} `{OS W} `{Files W} `{Workers W} : (W -> W) -> Prop :=
  | p_open path : process_call (fun w => (os_open path w).2)
  | p_open_write path : process_call (fun w => (fl_open_write path w).2)
  | p_close fd : process_call (os_close fd)
  | p_pipe : process_call (fun w => (fl_pipe w).2)
  | p_write fd bytes : process_call (fun w => (fl_write fd bytes w).2)
  | p_read fd n : process_call (fun w => (fl_read fd n w).2)
  | p_fork : process_call (fun w => (wk_fork w).2)
  | p_kill pid sig : process_call (fun w => (wk_kill pid sig w).2).

(** A child that was started and not waited for: it goes towards its own SIGSTOP,
    it was seen to have stopped, or it will end, having been let run after its stop
    or killed. *)
Inductive worker_phase := Starting | Stopped | Ending.

(** What a reported stop, SIGCONT and SIGKILL do to a child. A SIGCONT that comes
    before the stop is lost. *)
Definition stop (p : worker_phase) : worker_phase := match p with Ending => Ending | _ => Stopped end.
Definition wake (p : worker_phase) : worker_phase := match p with Stopped => Ending | _ => p end.
Definition kill (p : worker_phase) : worker_phase := Ending.

(** The children not yet waited for, the descriptors the program opened, and the
    memory it mapped and the streams it opened, which those calls do not change. *)
Class WorkerLaws (W : Type) `{OS W} `{Files W} `{Workers W} := {
  workers : W -> gmap Z worker_phase;
  open_fds : W -> gset Z;
  others : W -> gset (Z * Z) * Z;
  (** nothing changes *)
  kept (w w' : W) := workers w' = workers w /\ open_fds w' = open_fds w /\ others w' = others w;
  wl_others f w : process_call f -> others (f w) = others w;
  wl_nonneg x w : x ∈ open_fds w -> 0 <= x;
  wl_open path w : workers (os_open path w).2 = workers w /\
    (if (os_open path w).1 <? 0 then open_fds (os_open path w).2 = open_fds w
     else ((os_open path w).1 ∉ open_fds w) /\ open_fds (os_open path w).2 = ({[(os_open path w).1]} ∪ open_fds w));
  wl_open_write path w : workers (fl_open_write path w).2 = workers w /\
    (if (fl_open_write path w).1 <? 0 then open_fds (fl_open_write path w).2 = open_fds w
     else ((fl_open_write path w).1 ∉ open_fds w) /\ open_fds (fl_open_write path w).2 = ({[(fl_open_write path w).1]} ∪ open_fds w));
  wl_close fd w : workers (os_close fd w) = workers w /\ open_fds (os_close fd w) = (open_fds w ∖ {[fd]});
  wl_pipe w : workers (fl_pipe w).2 = workers w /\
    match (fl_pipe w).1 with
    | Some (r, wr) => 0 <= r /\ 0 <= wr /\ r <> wr /\ (r ∉ open_fds w) /\ (wr ∉ open_fds w) /\ open_fds (fl_pipe w).2 = ({[r; wr]} ∪ open_fds w)
    | None => open_fds (fl_pipe w).2 = open_fds w
    end;
  wl_write fd bytes w : kept w (fl_write fd bytes w).2 /\
    match (fl_write fd bytes w).1 with inl n => 0 <= n <= Z.of_nat (List.length bytes) | inr e => e <> EINTR end;
  wl_read fd n w : kept w (fl_read fd n w).2 /\
    match (fl_read fd n w).1 with inl bs => Z.of_nat (List.length bs) <= Z.max 0 n | inr e => e <> EINTR end;
  wl_fork w : open_fds (wk_fork w).2 = open_fds w /\
    match (wk_fork w).1 with
    | Some pid => 0 < pid /\ workers w !! pid = None /\ workers (wk_fork w).2 = <[pid := Starting]> (workers w)
    | None => workers (wk_fork w).2 = workers w
    end;
  (** [waitpid] never returns only on a child that neither ends nor, when stops are
      asked for, is still to stop *)
  wl_wait untraced pid w :
    match wk_wait untraced pid w with
    | Some (r, w') => open_fds w' = open_fds w /\ others w' = others w /\
        match r with
        | WaitStopped => untraced = true /\ workers w' = alter stop pid (workers w)
        | WaitReaped _ => workers w' = delete pid (workers w)
        | WaitError e => e <> EINTR /\ workers w !! pid = None /\ workers w' = workers w
        end
    | None => exists p, workers w !! pid = Some p /\ p <> Ending /\ (untraced = true -> p <> Starting)
    end;
  (** SIGKILL reaches a child that was not waited for; SIGCONT may be refused *)
  wl_kill pid sig w : open_fds (wk_kill pid sig w).2 = open_fds w /\
    workers (wk_kill pid sig w).2 =
      match sig with
      | SIG_KILL => alter kill pid (workers w)
      | SIG_CONT => if (wk_kill pid sig w).1 then alter wake pid (workers w) else workers w
      end
}.

(** The child was seen to stop, since when it may have been let run; and it will end,
    or is no child any more, so that [waitpid] returns. *)
Definition has_stopped (m : gmap Z worker_phase) (pid : Z) : Prop := exists p, m !! pid = Some p /\ p <> Starting.
Definition will_end (m : gmap Z worker_phase) (pid : Z) : Prop := forall p, m !! pid = Some p -> p = Ending.

Lemma wake_has_stopped m q pid : has_stopped m pid -> has_stopped (alter wake q m) pid.
Proof.
  intros (p & E & Hp). destruct (decide (q = pid)) as [->|Hne].
  - exists (wake p). rewrite lookup_alter_eq, E. split; [done|by destruct p].
  - exists p. by rewrite lookup_alter_ne.
Qed.

Lemma wake_will_end m q pid : will_end m pid -> will_end (alter wake q m) pid.
Proof.
  intros H p. destruct (decide (q = pid)) as [->|Hne]; [|rewrite lookup_alter_ne by done; apply H].
  rewrite lookup_alter_eq. destruct (m !! pid) as [p'|] eqn:E; [|done]. specialize (H p' E) as ->. by intros [= <-].
Qed.

Lemma woken_will_end m pid : has_stopped m pid -> will_end (alter wake pid m) pid.
Proof. intros (p' & E & Hp) p. rewrite lookup_alter_eq, E. by destruct p'; intros [= <-]. Qed.

Lemma killed_will_end m pid : will_end (alter kill pid m) pid.
Proof. intros p. rewrite lookup_alter_eq. by destruct (m !! pid); intros [= <-]. Qed.

Lemma delete_will_end m q pid : will_end m pid -> will_end (delete q m) pid.
Proof. intros H p [_ E]%lookup_delete_Some. by apply H. Qed.

(** The worker of a variable: it has stopped; it was let run. *)
Definition waiting (m : gmap Z worker_phase) (pid : Z) : Prop := 0 < pid /\ has_stopped m pid.
Definition let_run (m : gmap Z worker_phase) (pid : Z) : Prop := 0 < pid /\ will_end m pid.

Lemma wake_waiting m q pid : waiting m pid -> waiting (alter wake q m) pid.
Proof. intros [Hp H]. split; [done|by apply wake_has_stopped]. Qed.

Lemma wake_let_run m q pid : let_run m pid -> let_run (alter wake q m) pid.
Proof. intros [Hp H]. split; [done|by apply wake_will_end]. Qed.

Lemma woken_let_run m pid : waiting m pid -> let_run (alter wake pid m) pid.
Proof. intros [Hp H]. split; [done|by apply woken_will_end]. Qed.

(** What the local variables of a step may hold: children, pipe ends, and what no
    step changes: whether there are aggressors, and the lengths of arrays. *)
Class Holds (S : Type) := {
  holds_pid : S -> Z -> Prop;
  holds_end : S -> Z -> Prop;
  background : S -> bool;
  shape : S -> nat * nat
}.

Section Steps.
Context {W : Type} {HO : OS W} {HF : Files W} {HK : Workers W} {WL : WorkerLaws W}.
Implicit Types w : W.

Lemma kept_refl w : kept w w.
Proof. done. Qed.

Lemma kept_trans w1 w2 w3 : kept w1 w2 -> kept w2 w3 -> kept w1 w3.
Proof. intros (? & ? & ?) (? & ? & ?). split; [|split]; congruence. Qed.

Lemma others_open_write path w : others (fl_open_write path w).2 = others w.
Proof. exact (wl_others _ w (p_open_write path)). Qed.
Lemma others_close fd w : others (os_close fd w) = others w.
Proof. exact (wl_others _ w (p_close fd)). Qed.
Lemma others_pipe w : others (fl_pipe w).2 = others w.
Proof. exact (wl_others _ w p_pipe). Qed.
Lemma others_fork w : others (wk_fork w).2 = others w.
Proof. exact (wl_others _ w p_fork). Qed.
Lemma others_kill pid sig w : others (wk_kill pid sig w).2 = others w.
Proof. exact (wl_others _ w (p_kill pid sig)). Qed.

(** ** The calls end, and hold what they held *)

Lemma write_full_ends fuel fd : forall bytes w, (List.length bytes < fuel)%nat ->
  exists rc w', write_full fuel fd bytes w = Some (rc, w') /\ kept w w'.
Proof.
  induction fuel as [|fuel IH]; intros bytes w Hf; [lia|]. cbn [write_full]. destruct bytes as [|b bytes]; [by exists 0, w|].
  pose proof (wl_write fd (b :: bytes) w) as [Hk Hn]. destruct (fl_write fd _ w) as [[n|e] w1]; cbn [fst snd] in *.
  - destruct (Z.eqb_spec n 0); [by exists (-1), w1|]. destruct (IH (drop (Z.to_nat n) (b :: bytes)) w1) as (rc & w2 & -> & Hk2).
    + rewrite length_drop. cbn [List.length] in *. lia.
    + exists rc, w2. split; [done|]. by eapply kept_trans.
  - rewrite bool_decide_eq_false_2 by done. by exists (-1), w1.
Qed.

Lemma read_full_ends fuel fd : forall n got w, (Z.to_nat n < fuel)%nat ->
  exists rc bytes w', read_full fuel fd n got w = Some (rc, bytes, w') /\ kept w w'.
Proof.
  induction fuel as [|fuel IH]; intros n got w Hf; [lia|]. cbn [read_full]. destruct (Z.ltb_spec 0 n); [|by exists 0, got, w].
  pose proof (wl_read fd n w) as [Hk Hn]. destruct (fl_read fd n w) as [[bs|e] w1]; cbn [fst snd] in *.
  - destruct (Z.eqb_spec (Z.of_nat (List.length bs)) 0); [by exists (-1), got, w1|].
    destruct (IH (n - Z.of_nat (List.length bs)) (got ++ bs) w1) as (rc & bytes & w2 & -> & Hk2); [lia|]. exists rc, bytes, w2. split; [done|]. by eapply kept_trans.
  - rewrite bool_decide_eq_false_2 by done. by exists (-1), got, w1.
Qed.

Lemma text_bytes_length text : (List.length (text_bytes (c_str text)) <= String.length text)%nat.
Proof.
  unfold text_bytes. rewrite length_fmap. induction text as [|c text IH]; [done|]. cbn [c_str String.length]. destruct (Ascii.eqb c NUL); cbn; lia.
Qed.

(** A descriptor that is opened and closed. *)
Lemma write_text_path_ends fuel path text w : (String.length text < fuel)%nat ->
  exists rc w', write_text_path fuel path text w = Some (rc, w') /\ kept w w'.
Proof.
  intros Hf. unfold write_text_path. pose proof (wl_open_write path w) as [Hc Ho]. pose proof (others_open_write path w) as Hx. destruct (fl_open_write path w) as [fd w1]. cbn [fst snd] in *.
  destruct (fd <? 0); [by exists (-1), w1|]. destruct Ho as [Hno Ho].
  assert (Hlen : (List.length (text_bytes (c_str text)) < fuel)%nat).
  { pose proof (text_bytes_length text). lia. }
  destruct (write_full_ends fuel fd _ w1 Hlen) as (rc & w2 & -> & Hc2 & Ho2 & Hx2). pose proof (wl_close fd w2) as [Hc3 Ho3]. pose proof (others_close fd w2) as Hx3.
  assert (Hkept : kept w (os_close fd w2)) by (split; [congruence|]; split; [rewrite Ho3, Ho2, Ho; set_solver|congruence]).
  destruct (negb (rc =? 0)); eexists _, _; split; done.
Qed.

Lemma set_cpu_max_ends fuel path throttled q period w : (128 <= fuel)%nat ->
  exists rc w', cgroup_set_cpu_max fuel path throttled q period w = Some (rc, w') /\ kept w w'.
Proof.
  intros Hf. unfold cgroup_set_cpu_max, cgroup_write_file. destruct (Z.leb_spec 128 (strlen (cpu_max_text throttled q period))) as [|Hlen]; [by exists (-1), w|].
  destruct (_ <=? _); [by exists (-1), w|]. apply write_text_path_ends. unfold strlen in Hlen. lia.
Qed.

Lemma move_pid_ends fuel path pid w : (128 <= fuel)%nat -> exists rc w', OracleIo.cgroup_move_pid fuel path pid w = Some (rc, w') /\ kept w w'.
Proof.
  intros Hf. unfold OracleIo.cgroup_move_pid, cgroup_write_file. destruct (Z.leb_spec 64 (strlen (dec pid +:+ String newline EmptyString))) as [|Hlen]; [by exists (-1), w|].
  destruct (_ <=? _); [by exists (-1), w|]. apply write_text_path_ends. unfold strlen in Hlen. lia.
Qed.

(** ** What the local variables stand for *)

Section Vars.
Context {S : Type} {HS : Holds S}.
Implicit Types s : S.

(** The workers and the pipe ends the variables hold. *)
Definition is_pid (s : S) (x : Z) : Prop := 0 < x /\ holds_pid s x.
Definition is_end (s : S) (x : Z) : Prop := 0 <= x /\ holds_end s x.

(** Nothing is held since [w0] but what the variables stand for. *)
Record covered (w0 : W) (s : S) (w : W) : Prop := {
  cv_pids x : ~ is_pid s x -> workers w !! x = workers w0 !! x;
  cv_pids_new x : is_pid s x -> workers w0 !! x = None;
  cv_ends x : x ∈ open_fds w -> x ∈ open_fds w0 \/ is_end s x;
  cv_ends_kept x : x ∈ open_fds w0 -> x ∈ open_fds w;
  cv_ends_new x : is_end s x -> x ∉ open_fds w0;
  cv_others : others w = others w0
}.

(** Only the children the variables hold change. *)
Lemma covered_workers w0 s w w' : covered w0 s w -> open_fds w' = open_fds w -> others w' = others w ->
  (forall x, ~ is_pid s x -> workers w' !! x = workers w !! x) -> covered w0 s w'.
Proof. intros [H1 H2 H3 H4 H5 H6] Eo Ex Ec. split; rewrite ?Eo, ?Ex; try done. intros x Hx. rewrite Ec by done. auto. Qed.

Lemma covered_kept w0 s w w' : covered w0 s w -> kept w w' -> covered w0 s w'.
Proof. intros Hc (Ec & Eo & Ex). eapply covered_workers; [done..|]. by rewrite Ec. Qed.

(** A step from variables and children that satisfy [P] comes to an end, covered, and
    when it does not fail [Q] holds; background and lengths do not change. *)
Definition triple (P : S -> gmap Z worker_phase -> Prop) (a : step S W) (Q : S -> gmap Z worker_phase -> Prop) : Prop :=
  forall w0 s w, covered w0 s w -> P s (workers w) -> exists b s' w', a s w = Some (b, s', w') /\ covered w0 s' w' /\
    (background s', shape s') = (background s, shape s) /\ (b = true -> Q s' (workers w')).

Lemma triple_then P Q R a b : triple P a Q -> triple Q b R -> triple P (then_step a b) R.
Proof.
  intros Ha Hb w0 s w Hc HP. destruct (Ha w0 s w Hc HP) as ([|] & s1 & w1 & E & Hc1 & Hbg & HQ); unfold then_step; rewrite E.
  - rewrite <- Hbg. apply Hb; auto.
  - exists false, s1, w1. done.
Qed.

Lemma triple_weaken (P P' Q Q' : S -> gmap Z worker_phase -> Prop) a : triple P a Q -> (forall s m, P' s m -> P s m) -> (forall s m, Q s m -> Q' s m) -> triple P' a Q'.
Proof. intros Ht HP HQ w0 s w Hc Hs. destruct (Ht w0 s w Hc (HP s _ Hs)) as (b & s' & w' & E & Hc' & Hb & Hq). exists b, s', w'. conjs; auto. Qed.

Lemma triple_background P a Q : triple (fun s m => P s m /\ background s = true) a (fun s m => background s = true -> Q s m) ->
  (forall s m, P s m -> background s = false -> Q s m) -> triple P (if_step background a) Q.
Proof.
  intros Ha Hskip w0 s w Hc HP. unfold if_step. destruct (background s) eqn:Hb; [|exists true, s, w; conjs; auto; congruence].
  destruct (Ha w0 s w Hc (conj HP Hb)) as (b & s' & w' & E & Hc' & Hbg & HQ). exists b, s', w'. injection Hbg as Hbg Hsh. rewrite Hb in Hbg. rewrite Hbg, Hsh. split; [done|]. split; [done|]. split; [done|]. intros Htrue. by apply HQ.
Qed.

(** A loop with an invariant of its index. *)
Lemma triple_for (P : nat -> S -> gmap Z worker_phase -> Prop) body m : (forall i, (i < m)%nat -> triple (P i) (body i) (P (Datatypes.S i))) ->
  triple (P 0%nat) (for_step m 0 body) (P m).
Proof.
  intros Hb. assert (Hall : forall n i, (n + i = m)%nat -> triple (P i) (for_step n i body) (P m)); [|apply Hall; lia].
  induction n as [|n IH]; intros i Hi; cbn [for_step].
  - intros w0 s w Hc HP. exists true, s, w. cbn in Hi. subst i. done.
  - eapply triple_then; [apply Hb; lia|apply IH; lia].
Qed.

(** The same loop when the body keeps what it needs. *)
Lemma triple_for_same (P : S -> gmap Z worker_phase -> Prop) body m : (forall i, (i < m)%nat -> triple P (body i) P) -> triple P (for_step m 0 body) P.
Proof. apply (triple_for (fun _ => P)). Qed.

Lemma triple_checked P call : (forall s w, exists rc w', call s w = Some (rc, w') /\ kept w w') -> triple P (checked call) P.
Proof.
  intros Hcall w0 s w Hc HP. unfold checked. destruct (Hcall s w) as (rc & w1 & -> & Hk). exists (rc =? 0), s, w1. split; [done|].
  split; [by eapply covered_kept|]. split; [done|]. destruct Hk as (Ec & _). by rewrite Ec.
Qed.

(** Letting a worker run that the variables hold. *)
Lemma triple_continue P Q pid : (forall s m, P s m -> is_pid s (pid s) /\ Q s (alter wake (pid s) m)) -> triple P (continue_step pid) Q.
Proof.
  intros HPQ w0 s w Hc HP. destruct (HPQ s _ HP) as [Hp HQ]. unfold continue_step. pose proof (wl_kill (pid s) SIG_CONT w) as [Eo Ec]. pose proof (others_kill (pid s) SIG_CONT w) as Ex.
  destruct (wk_kill _ _ w) as [ok w1]. cbn [fst snd] in *. exists ok, s, w1. split; [done|]. split; [|split; [done|]; intros ->; by rewrite Ec].
  eapply covered_workers; [done..|]. intros x Hx. rewrite Ec. destruct ok; [|done]. apply lookup_alter_ne. by intros <-.
Qed.

(** Only the child [pid] changed. *)
Definition only_child (pid : Z) w w' : Prop :=
  open_fds w' = open_fds w /\ others w' = others w /\ forall x, x <> pid -> workers w' !! x = workers w !! x.

Lemma covered_child w0 s w w' pid : covered w0 s w -> is_pid s pid -> only_child pid w w' -> covered w0 s w'.
Proof. intros Hc Hp (Eo & Ex & Ec). eapply covered_workers; [done..|]. intros x Hx. apply Ec. by intros ->. Qed.

(** A child that was just started is waited for until it has stopped or is gone. *)
Lemma wait_until_stopped_ends fuel pid w : (0 < fuel)%nat -> workers w !! pid = Some Starting -> exists rc w', wait_until_stopped fuel pid w = Some (rc, w') /\
  only_child pid w w' /\ (rc = 0 -> has_stopped (workers w') pid).
Proof.
  intros Hf Hs. destruct fuel as [|fuel]; [lia|]. cbn [wait_until_stopped]. pose proof (wl_wait true pid w) as Hw. destruct (wk_wait true pid w) as [[[|st|e] w1]|].
  - destruct Hw as (Ho & Hx & _ & Hc). exists 0, w1. split; [done|]. split; [|intros _; exists Stopped; by rewrite Hc, lookup_alter_eq, Hs].
    split; [done|]. split; [done|]. intros x Hne. by rewrite Hc, lookup_alter_ne.
  - destruct Hw as (Ho & Hx & Hc). exists (-1), w1. split; [done|]. split; [|done]. split; [done|]. split; [done|]. intros x Hne. by rewrite Hc, lookup_delete_ne.
  - destruct Hw as (_ & _ & _ & Hno & _). congruence.
  - destruct Hw as (p & Hp & _ & Hns). rewrite Hs in Hp. injection Hp as <-. by destruct (Hns eq_refl).
Qed.

(** A child that will end is no longer one, whatever the code. *)
Lemma wait_success_ends fuel pid w : (0 < fuel)%nat -> will_end (workers w) pid -> exists rc w', wait_success fuel pid w = Some (rc, w') /\ open_fds w' = open_fds w /\ others w' = others w /\
  workers w' = delete pid (workers w).
Proof.
  intros Hf He. destruct fuel as [|fuel]; [lia|]. cbn [wait_success]. pose proof (wl_wait false pid w) as Hw. destruct (wk_wait false pid w) as [[[|st|e] w1]|].
  - by destruct Hw as (_ & _ & ? & _).
  - destruct Hw as (Ho & Hx & Hc). destruct st as [code| |]; [destruct (code =? 0)|..]; eexists _, w1; done.
  - destruct Hw as (Ho & Hx & Hne & Hno & Hc). rewrite bool_decide_eq_false_2 by done. exists (-1), w1. conjs; try done. by rewrite Hc, delete_id.
  - destruct Hw as (p & Hp & Hne & _). by destruct (Hne (He p Hp)).
Qed.

(** Starting a worker: nothing changes, or there is one more child and one more
    descriptor. *)
Lemma spawn_worker_ends old w : let '(pid, fd, w') := spawn_worker old w in
  (pid = -1 /\ fd = old /\ kept w w') \/
  (0 < pid /\ 0 <= fd /\ workers w !! pid = None /\ (fd ∉ open_fds w) /\ workers w' = <[pid := Starting]> (workers w) /\ open_fds w' = ({[fd]} ∪ open_fds w) /\ others w' = others w).
Proof.
  unfold spawn_worker. pose proof (wl_pipe w) as [Hc Hp]. pose proof (others_pipe w) as X1. destruct (fl_pipe w) as [[[r wr]|] w1]; cbn [fst snd] in *; [|by left].
  destruct Hp as (Hr & Hwr & Hne & Hnr & Hnw & Ho). pose proof (wl_fork w1) as [Hof Hf]. pose proof (others_fork w1) as X2. destruct (wk_fork w1) as [[pid|] w2]; cbn [fst snd] in *.
  - destruct Hf as (Hpos & Hno & Hcf). right. destruct (wl_close wr w2) as [Ec Eo]. rewrite Ec, Eo, others_close, Hof, Ho, Hcf, Hc in *. conjs; try done; [set_solver|congruence].
  - left. destruct (wl_close wr (os_close r w2)) as [Ec Eo], (wl_close r w2) as [Ec2 Eo2]. split; [done|]. split; [done|]. split; [congruence|].
    rewrite !others_close. split; [rewrite Eo, Eo2, Hof, Ho; set_solver|congruence].
Qed.

(** Variables that hold one worker and one pipe end more. *)
Lemma covered_more w0 s s' w w' pid fd : covered w0 s w -> workers w !! pid = None -> (fd ∉ open_fds w) ->
  (forall x, is_pid s' x <-> is_pid s x \/ (x = pid /\ 0 < pid)) -> (forall x, is_end s' x <-> is_end s x \/ (x = fd /\ 0 <= fd)) -> 0 < pid -> 0 <= fd ->
  workers w' = <[pid := Starting]> (workers w) -> open_fds w' = ({[fd]} ∪ open_fds w) -> others w' = others w -> covered w0 s' w'.
Proof.
  intros [H1 H2 H3 H4 H5 H6] Hp Hf Ep Ee Hpos Hpos' Ec Eo Ex.
  split; [..|congruence]; intros x; rewrite ?Ec, ?Eo, ?Ep, ?Ee, ?elem_of_union, ?elem_of_singleton; intros Hx.
  - rewrite lookup_insert_ne by naive_solver. apply H1. tauto.
  - destruct Hx as [Hx|[-> _]]; [auto|]. destruct (workers w0 !! pid) as [p|] eqn:E; [|done].
    assert (Hnot : ~ is_pid s pid) by (intros Hin; specialize (H2 pid Hin); congruence). rewrite (H1 pid Hnot) in Hp. congruence.
  - destruct Hx as [->|Hx]; [by right; right|]. destruct (H3 x Hx); auto.
  - right. auto.
  - destruct Hx as [Hx|[-> _]]; [auto|]. intros Hin. auto.
Qed.

(** The same variables. *)
Lemma covered_same w0 s s' w : covered w0 s w -> (forall x, is_pid s' x <-> is_pid s x) -> (forall x, is_end s' x <-> is_end s x) -> covered w0 s' w.
Proof. intros [H1 H2 H3 H4 H5 H6] Ep Ee. split; try done; intros x; rewrite ?Ep, ?Ee; auto. Qed.

(** Starting a worker and waiting for it to stop, for any of them: those that have
    stopped before are not touched. *)
Lemma start_covered fuel (s : S) (upd : Z -> Z -> S) old w0 w : (0 < fuel)%nat -> covered w0 s w ->
  (forall pid fd x, is_pid (upd pid fd) x <-> is_pid s x \/ (x = pid /\ 0 < pid)) ->
  (forall pid fd x, is_end (upd pid fd) x <-> is_end s x \/ (x = fd /\ 0 <= fd)) -> old = -1 ->
  forall pid fd w1, spawn_worker old w = (pid, fd, w1) -> covered w0 (upd pid fd) w1 /\
    ((pid <? 0) = false -> 0 < pid /\ exists rc w2, wait_until_stopped fuel pid w1 = Some (rc, w2) /\ covered w0 (upd pid fd) w2 /\
      (forall x, has_stopped (workers w) x -> has_stopped (workers w2) x) /\ (rc = 0 -> has_stopped (workers w2) pid)).
Proof.
  intros Hf Hc Hpid Hend Hold pid fd w1 E. pose proof (spawn_worker_ends old w) as Hs. rewrite E in Hs.
  destruct Hs as [(-> & -> & Hk)|(Hpos & Hfd & Hno & Hnf & Ec & Eo & Ex)].
  - split; [|done]. apply (covered_same w0 s); [by eapply covered_kept|intros x; rewrite Hpid|intros x; rewrite Hend]; (split; [intros [?|[]]; [done|lia]|by left]).
  - assert (Hc1 : covered w0 (upd pid fd) w1) by (by eapply (covered_more w0 s _ w w1 pid fd)). split; [done|]. intros _. split; [done|].
    destruct (wait_until_stopped_ends fuel pid w1 Hf) as (rc & w2 & -> & Ho2 & Hst); [by rewrite Ec, lookup_insert_eq|]. exists rc, w2. split; [done|].
    split; [eapply covered_child; [done| |done]; apply Hpid; by right|]. split; [|done]. intros x (p & Hx & Hp). destruct Ho2 as (_ & _ & Hsame).
    assert (Hne : x <> pid) by congruence. exists p. by rewrite Hsame, Ec, lookup_insert_ne.
Qed.

(** Waiting for a worker that will end to succeed; on success the variable forgets
    it. *)
Lemma finish_covered fuel s s' pid w0 w : (0 < fuel)%nat -> covered w0 s w -> 0 < pid -> is_pid s pid -> (forall x, is_pid s x -> is_pid s' x \/ x = pid) ->
  (forall x, is_pid s' x -> is_pid s x) -> (forall x, is_end s' x <-> is_end s x) -> will_end (workers w) pid ->
  exists rc w', wait_success fuel pid w = Some (rc, w') /\ covered w0 s w' /\ covered w0 s' w' /\ forall x, will_end (workers w) x -> will_end (workers w') x.
Proof.
  intros Hf Hc Hpos Hp Hin Hout He Hwe. destruct (wait_success_ends fuel pid w Hf Hwe) as (rc & w1 & E & Ho & Hx0 & Ec). exists rc, w1. split; [done|].
  assert (Hc1 : covered w0 s w1). { eapply (covered_child w0 s w); [done..|]. split; [done|]. split; [done|]. intros x Hx. by rewrite Ec, lookup_delete_ne. }
  split; [done|]. split; [|intros x Hx; rewrite Ec; by apply delete_will_end]. destruct Hc1 as [H1 H2 H3 H4 H5 H6].
  split; try done; intros x; rewrite ?He; auto. intros Hx. destruct (Z.eq_dec x pid) as [->|Hne].
  - rewrite Ec, lookup_delete_eq. symmetry. auto.
  - apply H1. intros Hs. destruct (Hin x Hs); done.
Qed.

(** Closing a pipe end that a variable may hold. *)
Lemma covered_close w0 s s' w fd : covered w0 s w -> (0 <= fd -> is_end s fd) -> (forall x, is_end s x -> is_end s' x \/ x = fd) ->
  (forall x, is_end s' x -> is_end s x) -> (forall x, is_pid s' x <-> is_pid s x) -> covered w0 s' (os_close fd w).
Proof.
  intros [H1 H2 H3 H4 H5 H6] Hfd Hin Hout Ep. destruct (wl_close fd w) as [Ec Eo].
  split; [..|by rewrite others_close]; intros x; rewrite ?Ep, ?Ec, ?Eo; auto.
  - intros [Hx Hne]%elem_of_difference. destruct (H3 x Hx) as [Hw|Hs]; [by left|]. destruct (Hin x Hs) as [Hs'|Heq]; [by right|set_solver].
  - intros Hx. apply elem_of_difference. split; [auto|]. rewrite elem_of_singleton. intros ->. pose proof (wl_nonneg fd w0 Hx) as Hn. by apply (H5 fd (Hfd Hn)).
Qed.

(** ** The end *)

(** [end_worker] always returns: the child was killed. *)
Lemma end_worker_ends pid w : exists w', end_worker pid w = Some w' /\ open_fds w' = open_fds w /\ others w' = others w /\
  workers w' = (if 0 <? pid then delete pid (workers w) else workers w).
Proof.
  unfold end_worker. destruct (0 <? pid); [|by exists w]. pose proof (wl_kill pid SIG_CONT w) as [Eo1 Ec1]. pose proof (others_kill pid SIG_CONT w) as Ex1.
  destruct (wk_kill pid SIG_CONT w) as [ok1 w1]. cbn [fst snd] in *. pose proof (wl_kill pid SIG_KILL w1) as [Eo2 Ec2]. pose proof (others_kill pid SIG_KILL w1) as Ex2.
  destruct (wk_kill pid SIG_KILL w1) as [ok2 w2]. cbn [fst snd] in *. pose proof (wl_wait false pid w2) as Hw.
  assert (Hd : delete pid (workers w2) = delete pid (workers w)) by (rewrite Ec2, delete_alter_eq, Ec1; destruct ok1; [by rewrite delete_alter_eq|done]).
  destruct (wk_wait false pid w2) as [[r w3]|].
  - destruct Hw as (Eo3 & Ex3 & Hr). exists w3. split; [done|]. split; [congruence|]. split; [congruence|]. rewrite <- Hd. destruct r as [|st|e]; [by destruct Hr|done|].
    destruct Hr as (_ & Hno & Ec3). by rewrite Ec3, delete_id.
  - destruct Hw as (p & Hp & Hne & _). rewrite Ec2 in Hp. by destruct (Hne (killed_will_end _ _ _ Hp)).
Qed.

Lemma close_end_ends fd w : workers (close_end fd w) = workers w /\ open_fds (close_end fd w) = (if 0 <=? fd then open_fds w ∖ {[fd]} else open_fds w).
Proof. unfold close_end. destruct (0 <=? fd); [|done]. by destruct (wl_close fd w). Qed.

(** Ending a worker and closing a pipe end that the variables may hold. *)
Lemma covered_end_worker w0 s s' w pid : covered w0 s w -> (0 < pid -> is_pid s pid) -> (forall x, is_pid s x -> is_pid s' x \/ x = pid) ->
  (forall x, is_pid s' x -> is_pid s x) -> (forall x, is_end s' x <-> is_end s x) -> exists w', end_worker pid w = Some w' /\ covered w0 s' w'.
Proof.
  intros [H1 H2 H3 H4 H5 H6] Hp Hin Hout He. destruct (end_worker_ends pid w) as (w' & -> & Eo & Ex & Ec). exists w'. split; [done|].
  split; [..|congruence]; intros x; rewrite ?He, ?Eo; auto. intros Hx. rewrite Ec. destruct (Z.ltb_spec 0 pid) as [Hpos|Hneg].
  - destruct (Z.eq_dec x pid) as [->|Hne]; [rewrite lookup_delete_eq; symmetry; auto|]. rewrite lookup_delete_ne by done. apply H1. intros Hs. by destruct (Hin x Hs).
  - apply H1. intros Hs. destruct (Hin x Hs) as [| ->]; [done|]. destruct Hs. lia.
Qed.

Lemma covered_close_end w0 s s' w fd : covered w0 s w -> (0 <= fd -> is_end s fd) -> (forall x, is_end s x -> is_end s' x \/ x = fd) ->
  (forall x, is_end s' x -> is_end s x) -> (forall x, is_pid s' x <-> is_pid s x) -> covered w0 s' (close_end fd w).
Proof.
  intros Hc Hfd Hin Hout Ep. unfold close_end. destruct (Z.leb_spec 0 fd) as [Hpos|Hneg]; [by eapply covered_close|].
  apply (covered_same w0 s); [done..|]. intros x. split; [auto|]. intros Hx. destruct (Hin x Hx) as [| ->]; [done|]. destruct Hx. lia.
Qed.

(** Variables that hold nothing. *)
Lemma covered_done w0 s w : covered w0 s w -> (forall x, ~ is_pid s x) -> (forall x, ~ is_end s x) -> kept w0 w.
Proof.
  intros [H1 H2 H3 H4 H5 H6] Hp He. split; [apply map_eq; intros x; apply H1, Hp|]. split; [|done]. apply set_eq; intros x; (split; [intros Hx|auto]).
  destruct (H3 x Hx) as [|Hs]; [done|]. by destruct (He x Hs).
Qed.

Lemma covered_start w s : (forall x, ~ is_pid s x) -> (forall x, ~ is_end s x) -> covered w s w.
Proof. intros Hp He. split; try done; intros x; auto; intros Hx; [by destruct (Hp x)|by destruct (He x)]. Qed.
End Vars.
End Steps.

(** For variables that are given: what they hold, by arithmetic. *)
Ltac vars := unfold is_pid, is_end; cbn; intros; lia.
