(* ===== verification/OracleRunProps.v ===== *)
(** * What a condition leaves behind

    Whatever fails in the middle of a condition, [run_condition] comes to an end
    with no child left to wait for and no descriptor left open. *)
From S2P Require Import Prelude Float64 CString Os Calibration CalibrationLoad CalibrationRun OracleSys OracleConfig OraclePool OracleLines OracleChain OracleIo OracleRun OracleStepProps.
From Stdlib Require Import Ascii String.
Local Open Scope Z_scope.

#[export] Instance run_holds : Holds run_state := {|
  holds_pid s x := x = rs_victim_pid s \/ x = rs_high_pid s \/ x = rs_low_pid s;
  holds_end s x := x = rs_victim_fd s \/ x = rs_high_fd s \/ x = rs_low_fd s;
  background s := has_background (rs_out s);
  shape _ := (0, 0)%nat
|}.

Section Cleanup.
Context {W : Type} {HO : OS W} {HF : Files W} {HK : Workers W} {WL : WorkerLaws W}.
Context (result_size : Z) (result_of_bytes : list Z -> worker_result).
Implicit Types w : W.

(** ** The steps *)

Lemma triple_if_background (P Q : run_state -> gmap Z worker_phase -> Prop) (a : step run_state W) :
  triple (fun s m => P s m /\ has_background (rs_out s) = true) a (fun s m => has_background (rs_out s) = true -> Q s m) ->
  (forall s m, P s m -> has_background (rs_out s) = false -> Q s m) -> triple P (if_background a) Q.
Proof. exact (triple_background P a Q). Qed.

Definition no_victim (s : run_state) : Prop := rs_victim_pid s = -1 /\ rs_victim_fd s = -1.
Definition no_high (s : run_state) : Prop := rs_high_pid s = -1 /\ rs_high_fd s = -1.
Definition no_low (s : run_state) : Prop := rs_low_pid s = -1 /\ rs_low_fd s = -1.

(** Without background there are no aggressors. *)
Definition quiet (s : run_state) : Prop := has_background (rs_out s) = false -> no_high s /\ no_low s.

Section Steps.
Context (fuel : nat) (condition : condition) (cfg : config) (cgroups : cgroup_context).
Hypothesis Hfuel : (128 <= fuel)%nat.
Hypothesis Hsize : (Z.to_nat result_size < fuel)%nat.

Lemma control_triple P : triple P (control_step fuel condition cfg cgroups) P.
Proof.
  apply triple_if_background; [|done]. eapply triple_weaken; [|exact (fun s m H => proj1 H)|exact (fun s m H _ => H)].
  eapply triple_then; apply triple_checked; intros; by apply set_cpu_max_ends.
Qed.

Lemma start_victim_triple : triple (fun s m => no_victim s /\ no_high s /\ no_low s) (start_victim fuel)
  (fun s m => waiting m (rs_victim_pid s) /\ no_high s /\ no_low s).
Proof.
  intros w0 s w Hc ([Hp Hf] & HP). unfold start_victim, spawn_victim. destruct (spawn_worker (rs_victim_fd s) w) as [[pid fd] w1] eqn:E.
  destruct (start_covered fuel s (fun pid fd => s <| rs_victim_pid := pid |> <| rs_victim_fd := fd |>) _ w0 w ltac:(lia) Hc ltac:(vars) ltac:(vars) Hf _ _ _ E) as [Hc1 Hw].
  destruct (pid <? 0); [eexists false, _, w1; by conjs|]. destruct (Hw eq_refl) as (Hpos & rc & w2 & Ew & Hc2 & Hkeep & Hst). unfold checked. cbn [rs_victim_pid set_field]. rewrite Ew.
  eexists _, _, w2. split; [reflexivity|]. split; [done|]. split; [done|]. intros Hrc%Z.eqb_eq. specialize (Hst Hrc). unfold waiting in *. cbn. naive_solver.
Qed.

Lemma start_high_triple : triple (fun s m => waiting m (rs_victim_pid s) /\ no_high s /\ no_low s) (start_high fuel)
  (fun s m => waiting m (rs_victim_pid s) /\ waiting m (rs_high_pid s) /\ no_low s).
Proof.
  intros w0 s w Hc (Hv & [Hp Hf] & HP). unfold start_high, spawn_aggressor. destruct (spawn_worker (rs_high_fd s) w) as [[pid fd] w1] eqn:E.
  destruct (start_covered fuel s (fun pid fd => s <| rs_high_pid := pid |> <| rs_high_fd := fd |>) _ w0 w ltac:(lia) Hc ltac:(vars) ltac:(vars) Hf _ _ _ E) as [Hc1 Hw].
  destruct (pid <? 0); [eexists false, _, w1; by conjs|]. destruct (Hw eq_refl) as (Hpos & rc & w2 & Ew & Hc2 & Hkeep & Hst). unfold checked. cbn [rs_high_pid set_field]. rewrite Ew.
  eexists _, _, w2. split; [reflexivity|]. split; [done|]. split; [done|]. intros Hrc%Z.eqb_eq. specialize (Hst Hrc). unfold waiting in *. cbn. naive_solver.
Qed.

Lemma start_low_triple : triple (fun s m => waiting m (rs_victim_pid s) /\ waiting m (rs_high_pid s) /\ no_low s) (start_low fuel)
  (fun s m => waiting m (rs_victim_pid s) /\ waiting m (rs_high_pid s) /\ waiting m (rs_low_pid s)).
Proof.
  intros w0 s w Hc (Hv & Hh & [Hp Hf]). unfold start_low, spawn_aggressor. destruct (spawn_worker (rs_low_fd s) w) as [[pid fd] w1] eqn:E.
  destruct (start_covered fuel s (fun pid fd => s <| rs_low_pid := pid |> <| rs_low_fd := fd |>) _ w0 w ltac:(lia) Hc ltac:(vars) ltac:(vars) Hf _ _ _ E) as [Hc1 Hw].
  destruct (pid <? 0); [eexists false, _, w1; by conjs|]. destruct (Hw eq_refl) as (Hpos & rc & w2 & Ew & Hc2 & Hkeep & Hst). unfold checked. cbn [rs_low_pid set_field]. rewrite Ew.
  eexists _, _, w2. split; [reflexivity|]. split; [done|]. split; [done|]. intros Hrc%Z.eqb_eq. specialize (Hst Hrc). unfold waiting in *. cbn. naive_solver.
Qed.

(** The workers that have stopped or run: the victim, and with background the
    aggressors, which are let run first. *)
Definition aggressors (s : run_state) (m : gmap Z worker_phase) : Prop :=
  if has_background (rs_out s) then let_run m (rs_high_pid s) /\ let_run m (rs_low_pid s) else no_high s /\ no_low s.

Lemma background_triple : triple (fun s m => waiting m (rs_victim_pid s) /\ no_high s /\ no_low s) (background_step fuel cgroups)
  (fun s m => waiting m (rs_victim_pid s) /\ aggressors s m).
Proof.
  apply triple_if_background; [|intros s m HP Hb; unfold aggressors; by rewrite Hb].
  eapply triple_weaken; [|exact (fun s m H => proj1 H)|].
  - eapply triple_then; [apply start_high_triple|]. eapply triple_then; [apply start_low_triple|].
    eapply triple_then; [apply triple_checked; intros; by apply move_pid_ends|]. eapply triple_then; [apply triple_checked; intros; by apply move_pid_ends|].
    eapply triple_then; [apply (triple_continue _ (fun s m => waiting m (rs_victim_pid s) /\ let_run m (rs_high_pid s) /\ waiting m (rs_low_pid s)))|
      apply (triple_continue _ (fun s m => waiting m (rs_victim_pid s) /\ let_run m (rs_high_pid s) /\ let_run m (rs_low_pid s)))].
    + intros s m (Hv & Hh & Hl). split; [split; [apply Hh|cbn; auto]|]. conjs; [by apply wake_waiting|by apply woken_let_run|by apply wake_waiting].
    + intros s m (Hv & Hh & Hl). split; [split; [apply Hl|cbn; auto]|]. conjs; [by apply wake_waiting|by apply wake_let_run|by apply woken_let_run].
  - intros s m HP Hb. unfold aggressors. by rewrite Hb.
Qed.

Lemma continue_victim_triple : triple (fun s m => waiting m (rs_victim_pid s) /\ aggressors s m) (continue_step rs_victim_pid)
  (fun s m => let_run m (rs_victim_pid s) /\ aggressors s m).
Proof.
  apply triple_continue. intros s m [Hv Ha]. split; [split; [apply Hv|cbn; auto]|]. split; [by apply woken_let_run|]. unfold aggressors in *.
  destruct (has_background (rs_out s)); [|done]. destruct Ha. split; by apply wake_let_run.
Qed.

Lemma finish_victim_triple : triple (fun s m => let_run m (rs_victim_pid s) /\ aggressors s m) (finish_victim fuel) (fun s m => rs_victim_pid s = -1 /\ aggressors s m).
Proof.
  intros w0 s w Hc [[Hv Hve] Hrest]. unfold finish_victim.
  destruct (finish_covered fuel s (s <| rs_victim_pid := -1 |>) (rs_victim_pid s) w0 w ltac:(lia) Hc Hv) as (rc & w1 & -> & H1 & H2 & He); [split; [done|cbn; auto]|vars|vars|vars|done|].
  destruct (rc =? 0); eexists _, _, w1; (split; [reflexivity|]); [|done]. split; [done|]. split; [done|]. intros _. split; [done|]. unfold aggressors, let_run in *. cbn.
  destruct (has_background (rs_out s)); naive_solver.
Qed.

Lemma finish_high_triple : triple (fun s m => rs_victim_pid s = -1 /\ let_run m (rs_high_pid s) /\ let_run m (rs_low_pid s)) (finish_high fuel)
  (fun s m => rs_victim_pid s = -1 /\ rs_high_pid s = -1 /\ let_run m (rs_low_pid s)).
Proof.
  intros w0 s w Hc (Hv & [Hh Hhe] & [Hl Hle]). unfold finish_high.
  destruct (finish_covered fuel s (s <| rs_high_pid := -1 |>) (rs_high_pid s) w0 w ltac:(lia) Hc Hh) as (rc & w1 & -> & H1 & H2 & He); [split; [done|cbn; auto]|vars|vars|vars|done|].
  destruct (rc =? 0); eexists _, _, w1; (split; [reflexivity|]); [|done]. split; [done|]. split; [done|]. intros _. conjs; [done|done|split; [done|by apply He]].
Qed.

(** No worker is left. *)
Definition finished (s : run_state) : Prop := rs_victim_pid s = -1 /\ rs_high_pid s = -1 /\ rs_low_pid s = -1.

Lemma finish_low_triple : triple (fun s m => rs_victim_pid s = -1 /\ rs_high_pid s = -1 /\ let_run m (rs_low_pid s)) (finish_low fuel) (fun s _ => finished s).
Proof.
  intros w0 s w Hc (Hv & Hh & [Hl Hle]). unfold finish_low.
  destruct (finish_covered fuel s (s <| rs_low_pid := -1 |>) (rs_low_pid s) w0 w ltac:(lia) Hc Hl) as (rc & w1 & -> & H1 & H2 & He); [split; [done|cbn; auto]|vars|vars|vars|done|].
  destruct (rc =? 0); eexists _, _, w1; (split; [reflexivity|]); done.
Qed.

(** With background the aggressors are waited for too. *)
Lemma finish_background_triple : triple (fun s m => rs_victim_pid s = -1 /\ aggressors s m)
  (if_background (then_step (finish_high fuel) (finish_low fuel))) (fun s _ => finished s /\ quiet s).
Proof.
  apply triple_if_background.
  - eapply triple_weaken; [eapply triple_then; [apply finish_high_triple|apply finish_low_triple]| |].
    + intros s m [[Hv HP] Hb]. unfold aggressors in HP. rewrite Hb in HP. tauto.
    + intros s m Hf Hb. split; [done|]. intros Hno. congruence.
  - intros s m [Hv HP] Hb. unfold aggressors in HP. rewrite Hb in HP. destruct HP as [[Hh Hhf] [Hl Hlf]]. split; [done|]. by split.
Qed.

Lemma read_victim_triple : triple (fun s _ => finished s /\ quiet s) (read_victim result_size result_of_bytes fuel) (fun s _ => finished s /\ quiet s /\ rs_victim_fd s = -1).
Proof.
  intros w0 s w Hc [Hf Hq]. unfold read_victim. destruct (read_full_ends fuel (rs_victim_fd s) result_size [] w Hsize) as (rc & bytes & w1 & -> & Hk).
  pose proof (covered_kept _ _ _ _ Hc Hk) as Hc1. destruct (negb (rc =? 0)); [eexists false, s, w1; by conjs|].
  eexists true, _, _. split; [reflexivity|]. split; [|by conjs]. eapply covered_close; [exact Hc1|vars..].
Qed.

Lemma read_background_triple : triple (fun s _ => finished s /\ quiet s /\ rs_victim_fd s = -1) (read_background result_size result_of_bytes fuel)
  (fun s _ => finished s /\ rs_victim_fd s = -1 /\ rs_high_fd s = -1 /\ rs_low_fd s = -1).
Proof.
  apply triple_if_background; [|intros s m (Hf & Hq & Hv) Hb; destruct (Hq Hb) as [[_ Hh] [_ Hl]]; done].
  intros w0 s w Hc [(Hf & Hq & Hv) Hb]. destruct (read_full_ends fuel (rs_high_fd s) result_size [] w Hsize) as (rc & high & w1 & -> & Hk).
  pose proof (covered_kept _ _ _ _ Hc Hk) as Hc1. destruct (negb (rc =? 0)); [eexists false, s, w1; by conjs|].
  destruct (read_full_ends fuel (rs_low_fd s) result_size [] w1 Hsize) as (rc2 & low & w2 & -> & Hk2).
  pose proof (covered_kept _ _ _ _ Hc1 Hk2) as Hc2. destruct (negb (rc2 =? 0)); [eexists false, s, w2; by conjs|].
  eexists true, _, _. split; [reflexivity|]. split; [|by conjs].
  eapply (covered_close w0 (s <| rs_high_fd := -1 |>)); [eapply covered_close; [exact Hc2|vars..]|vars..].
Qed.

Lemma run_steps_triple : triple (fun s _ => no_victim s /\ no_high s /\ no_low s) (run_steps result_size result_of_bytes fuel condition cfg cgroups)
  (fun s _ => finished s /\ rs_victim_fd s = -1 /\ rs_high_fd s = -1 /\ rs_low_fd s = -1).
Proof.
  eapply triple_then; [apply control_triple|]. eapply triple_then; [apply start_victim_triple|]. eapply triple_then; [apply background_triple|].
  eapply triple_then; [apply continue_victim_triple|]. eapply triple_then; [apply finish_victim_triple|]. eapply triple_then; [apply finish_background_triple|].
  eapply triple_then; [apply read_victim_triple|apply read_background_triple].
Qed.

(** ** The end *)

Lemma run_fail_kept w0 s w : covered w0 s w -> exists w', run_fail s w = Some w' /\ kept w0 w'.
Proof.
  intros Hc. unfold run_fail.
  apply (covered_end_worker w0 s (s <| rs_victim_pid := -1 |>) w (rs_victim_pid s)) in Hc as (w1 & -> & Hc); [|vars..]. set (s1 := s <| _ := _ |>) in Hc. cbn [mbind option_bind].
  apply (covered_end_worker w0 s1 (s1 <| rs_high_pid := -1 |>) _ (rs_high_pid s)) in Hc as (w2 & -> & Hc); [|vars..]. set (s2 := s1 <| _ := _ |>) in Hc. cbn [mbind option_bind].
  apply (covered_end_worker w0 s2 (s2 <| rs_low_pid := -1 |>) _ (rs_low_pid s)) in Hc as (w3 & -> & Hc); [|vars..]. set (s3 := s2 <| _ := _ |>) in Hc. cbn [mbind option_bind]. eexists. split; [reflexivity|].
  eapply (covered_close_end w0 s3 (s3 <| rs_victim_fd := -1 |>) _ (rs_victim_fd s)) in Hc; [|vars..]. set (s4 := s3 <| _ := _ |>) in Hc.
  eapply (covered_close_end w0 s4 (s4 <| rs_high_fd := -1 |>) _ (rs_high_fd s)) in Hc; [|vars..]. set (s5 := s4 <| _ := _ |>) in Hc.
  eapply (covered_close_end w0 s5 (s5 <| rs_low_fd := -1 |>) _ (rs_low_fd s)) in Hc; [|vars..]. eapply covered_done; [exact Hc|vars..].
Qed.

(** [run_condition] comes to an end whatever fails on the way, with the code 0
    or -1 (a worker is only waited for to its end when it was let run after its stop,
    or was killed), and then there is no child that was not waited for before the call, no
    descriptor is open that was not, and the same memory is mapped. *)
Theorem run_condition_cleans_up out w :
  exists rc out' w', run_condition result_size result_of_bytes fuel condition cfg cgroups out w = Some (rc, out', w') /\
    (rc = 0 \/ rc = -1) /\ kept w w'.
Proof.
  unfold run_condition. destruct (negb (cx_ready cgroups)); [exists (-1), out, w; split; [done|]; split; [by right|done]|]. set (s0 := mk_run_state _ _ _ _ _ _ _).
  assert (Hc0 : covered w s0 w) by (apply covered_start; vars).
  destruct (run_steps_triple w s0 w Hc0) as (b & s & w1 & -> & Hc & _ & HQ); [by conjs|]. destruct b.
  - destruct (HQ eq_refl) as ((P1 & P2 & P3) & F1 & F2 & F3). eexists 0, _, w1. split; [done|]. split; [by left|]. eapply covered_done; [exact Hc|vars..].
  - destruct (run_fail_kept _ _ _ Hc) as (w2 & -> & Hk). eexists (-1), _, _. split; [done|]. by split; [right|].
Qed.
End Steps.
End Cleanup.

(** * What a condition controls

    The bytes that reach [cpu.max] of the two cgroups under each condition, and
    what creating the cgroups leaves in their context. *)

(** The path a descriptor was opened for, and what was written so far, in order:
    [write] writes a prefix of its buffer to the file of its descriptor. *)
Class WriteLaws (W : Type) `{OS W} `{Files W} := {
  fd_path : W -> Z -> option string;
  written : W -> list (string * list Z);
  ww_open path w : written (fl_open_write path w).2 = written w /\
    (0 <= (fl_open_write path w).1 -> fd_path (fl_open_write path w).2 (fl_open_write path w).1 = Some path);
  ww_write fd bytes path w : fd_path w fd = Some path ->
    fd_path (fl_write fd bytes w).2 fd = Some path /\
    match (fl_write fd bytes w).1 with
    | inl n => written (fl_write fd bytes w).2 = written w ++ [(path, take (Z.to_nat n) bytes)]
    | inr _ => written (fl_write fd bytes w).2 = written w
    end;
  ww_close fd w : written (os_close fd w) = written w
}.

Section Control.
Context {W : Type} {HO : OS W} {HF : Files W} {HK : Workers W} {WL : WriteLaws W}.
Implicit Types w : W.

(** [bytes] were written to [path], in one piece or several. *)
Definition wrote (path : string) (bytes : list Z) (w w' : W) : Prop :=
  exists pieces, written w' = written w ++ (pair path <$> pieces) /\ List.concat pieces = bytes.

Lemma write_full_wrote fuel fd path : forall bytes w w', fd_path w fd = Some path -> write_full fuel fd bytes w = Some (0, w') -> wrote path bytes w w'.
Proof.
  induction fuel as [|fuel IH]; intros bytes w w' Hp; [done|]. cbn [write_full]. destruct bytes as [|b bytes].
  { intros [= <-]. exists []. by rewrite app_nil_r. }
  destruct (ww_write fd (b :: bytes) path w Hp) as [Hp' Hw]. destruct (fl_write fd _ w) as [[n|e] w1]; cbn [fst snd] in *.
  - destruct (n =? 0); [done|]. intros E. destruct (IH _ _ _ Hp' E) as (pieces & Hw2 & Hc). exists (take (Z.to_nat n) (b :: bytes) :: pieces).
    split; [by rewrite Hw2, Hw, <- app_assoc|]. cbn [List.concat]. by rewrite Hc, take_drop.
  - destruct (bool_decide (e = EINTR)); [|done]. intros E. destruct (IH _ _ _ Hp' E) as (pieces & Hw2 & Hc). exists pieces. by rewrite Hw2, Hw.
Qed.

Lemma write_text_path_wrote fuel path text w w' : write_text_path fuel path text w = Some (0, w') -> wrote path (text_bytes (c_str text)) w w'.
Proof.
  unfold write_text_path. destruct (ww_open path w) as [Hw Hp]. destruct (fl_open_write path w) as [fd w1]. cbn [fst snd] in *.
  destruct (Z.ltb_spec fd 0); [done|]. destruct (write_full fuel fd _ w1) as [[rc w2]|] eqn:E; [|done]. destruct (Z.eqb_spec rc 0) as [->|]; cbn [negb]; [|done].
  intros [= <-]. destruct (write_full_wrote fuel fd path _ w1 w2 (Hp ltac:(done)) E) as (pieces & Hw2 & Hc). exists pieces. by rewrite ww_close, Hw2, Hw.
Qed.

Lemma set_cpu_max_wrote fuel path throttled q period w w' : cgroup_set_cpu_max fuel path throttled q period w = Some (0, w') ->
  wrote (path +:+ "/cpu.max") (text_bytes (c_str (cpu_max_text throttled q period))) w w'.
Proof.
  unfold cgroup_set_cpu_max, cgroup_write_file. destruct (_ <=? _); [done|]. destruct (_ <=? _); [done|]. apply write_text_path_wrote.
Qed.

Section Condition.
Context (fuel : nat) (c : condition) (cfg : config) (cgroups : cgroup_context).

(** The control of a condition with background. When the step succeeds, the
    quota and the period of the configuration were written to [cpu.max] of the
    high aggressor under the selective and the all condition, and of the low
    aggressor under the all condition only; in the other cases the cgroup was set
    to [max]. Nothing else was written. *)
Theorem control_step_writes s w s' w' : has_background (rs_out s) = true -> control_step fuel c cfg cgroups s w = Some (true, s', w') ->
  let high := match c with CONDITION_SELECTIVE | CONDITION_ALL => true | _ => false end in
  let low := match c with CONDITION_ALL => true | _ => false end in
  s' = s /\ exists w1,
    wrote (high_path cgroups +:+ "/cpu.max") (text_bytes (c_str (cpu_max_text high (throttle_quota_us cfg) (throttle_period_us cfg)))) w w1 /\
    wrote (low_path cgroups +:+ "/cpu.max") (text_bytes (c_str (cpu_max_text low (throttle_quota_us cfg) (throttle_period_us cfg)))) w1 w'.
Proof.
  intros Hb. unfold control_step, if_background, if_step, then_step, checked. rewrite Hb.
  assert (Eh : high_throttled c = match c with CONDITION_SELECTIVE | CONDITION_ALL => true | _ => false end) by (by destruct c).
  assert (El : low_throttled c = match c with CONDITION_ALL => true | _ => false end) by (by destruct c). rewrite <- Eh, <- El.
  destruct (cgroup_set_cpu_max fuel (high_path cgroups) _ _ _ w) as [[rc1 w1]|] eqn:E1; [|done]. destruct (Z.eqb_spec rc1 0) as [->|]; [|done].
  destruct (cgroup_set_cpu_max fuel (low_path cgroups) _ _ _ w1) as [[rc2 w2]|] eqn:E2; [|done]. destruct (Z.eqb_spec rc2 0) as [->|]; [|done].
  intros [= <- <-]. split; [done|]. exists w1. split; by eapply set_cpu_max_wrote.
Qed.
End Condition.

(** ** The context *)

(** Creating the cgroups. The context is ready exactly when the code is 0, so
    that the release of [main] removes directories only when they were made and
    never twice; a ready context holds the complete paths of the run's own cgroup
    and of its two children. *)
Theorem cgroup_context_create_ready fuel w rc ctx w' : cgroup_context_create fuel w = Some (rc, ctx, w') ->
  (rc = -1 /\ cx_ready ctx = false) \/
  (rc = 0 /\ cx_ready ctx = true /\ high_path ctx = run_path ctx +:+ "/high" /\ low_path ctx = run_path ctx +:+ "/low" /\
    exists pid, run_path ctx = ("/sys/fs/cgroup/oracle_6_5d_" +:+ dec pid)%string).
Proof.
  unfold cgroup_context_create. destruct (read_text_file _ 4096 w) as [[sub|] w1]; [|intros [= <- <- _]; by left].
  destruct (negb _); [intros [= <- <- _]; by left|]. set (text := "/sys/fs/cgroup/oracle_6_5d_" +:+ dec (fl_getpid w1)).
  destruct (Z.leb_spec PATH_MAX (strlen text)) as [|Hr]; [intros [= <- <- _]; by left|]. rewrite (snprintf_fits _ _ Hr).
  destruct (Z.leb_spec PATH_MAX (strlen (text +:+ "/high"))) as [|Hh]; [intros [= <- <- _]; by left|]. rewrite (snprintf_fits _ _ Hh).
  destruct (Z.leb_spec PATH_MAX (strlen (text +:+ "/low"))) as [|Hl]; [intros [= <- <- _]; by left|]. rewrite (snprintf_fits _ _ Hl).
  unfold cgroup_context_populate, cgroup_context_destroy. cbn [run_path high_path low_path cx_ready negb].
  destruct (fl_mkdir text w1) as [made w2]. destruct made; cbn [negb]; [|intros [= <- <- _]; by left].
  destruct (_ <=? _); [intros [= <- <- _]; by left|]. destruct (read_text_file _ 4096 w2) as [[ctl|] w3]; [|intros [= <- <- _]; by left].
  destruct (negb _); [intros [= <- <- _]; by left|]. destruct (cgroup_write_file _ _ _ _ w3) as [[rc1 w4]|]; [|done].
  destruct (negb _); [intros [= <- <- _]; by left|]. destruct (fl_mkdir (text +:+ "/high") w4) as [made w5]. destruct made; cbn [negb]; [|intros [= <- <- _]; by left].
  destruct (fl_mkdir (text +:+ "/low") w5) as [made w6]. destruct made; cbn [negb]; intros [= <- <- _]; [right|by left]. conjs; try done. by eexists.
Qed.
End Control.
