(* ===== verification/OracleHeld.v ===== *)
(** * What the experiments hold

    The experiments map pools, open the page map and the calibration file, and
    start workers.  A call that is not about processes changes none of the
    children, descriptors, mappings and streams, or exactly the one it is about;
    so each part of [main] comes back with what it held before, and the pools it
    keeps. *)
From S2P Require Import Prelude Float64 CString Os Calibration CalibrationLoad CalibrationRun CalibrationProps DramMapping OracleSys OraclePool OracleLines OracleStages OracleChain OracleIo OracleStepProps.
From Stdlib Require Import Ascii String.
Local Open Scope Z_scope.

(** ** Reading a file closes it *)

(** The calls between opening and closing. *)
Inductive stream_call {W} `{OS W} `{BinFile W} : (W -> W) -> Prop :=
  | s_seek_end : stream_call (fun w => (bf_seek_end w).2)
  | s_tell : stream_call (fun w => (bf_tell w).2)
  | s_seek_set : stream_call (fun w => (bf_seek_set w).2)
  | s_fread n : stream_call (fun w => (bf_fread n w).2)
  | s_calloc n size : stream_call (fun w => (os_calloc n size w).2).

Section ReadFile.
Context {W : Type} {HO : OS W} {HB : BinFile W}.
(** [same]: nothing is held more; [opened]: a stream is. *)
Context (same opened : W -> W -> Prop) {Hpre : PreOrder same}.
Hypothesis Hquiet : forall f w, stream_call f -> same w (f w).
Hypothesis Hopen : forall path w, (if (bf_fopen path w).1 then opened else same) w (bf_fopen path w).2.
Hypothesis Hclose : forall w0 w1 w2, opened w0 w1 -> same w1 w2 -> same w0 (bf_fclose w2).2.

Lemma read_file_same path w : same w (read_file_limited path w).2.
Proof.
  unfold read_file_limited. pose proof (Hopen path w) as Ho. destruct (bf_fopen path w) as [fp w0]. cbn [fst snd] in Ho. destruct fp; cbn [negb]; [|exact Ho].
  assert (Hend : forall w1, same w0 w1 -> same w (bf_fclose w1).2) by (intros w1; by apply Hclose).
  pose proof (Hquiet _ w0 s_seek_end) as K1. cbn beta in K1. destruct (bf_seek_end w0) as [ok1 w1]. cbn [snd] in K1.
  destruct (negb ok1); [specialize (Hend _ K1); by destruct (bf_fclose w1)|].
  pose proof (transitivity K1 (Hquiet _ w1 s_tell)) as K2. cbn beta in K2. destruct (bf_tell w1) as [size w2]. cbn [snd] in K2.
  destruct (_ || _); [specialize (Hend _ K2); by destruct (bf_fclose w2)|].
  pose proof (transitivity K2 (Hquiet _ w2 s_seek_set)) as K3. cbn beta in K3. destruct (bf_seek_set w2) as [ok3 w3]. cbn [snd] in K3.
  destruct (negb ok3); [specialize (Hend _ K3); by destruct (bf_fclose w3)|].
  pose proof (transitivity K3 (Hquiet _ w3 (s_calloc (size + 1) 1))) as K4. cbn beta in K4. destruct (os_calloc _ 1 w3) as [ok4 w4]. cbn [snd] in K4.
  destruct (negb ok4); [specialize (Hend _ K4); by destruct (bf_fclose w4)|].
  pose proof (transitivity K4 (Hquiet _ w4 (s_fread size))) as K5. cbn beta in K5. destruct (bf_fread size w4) as [bytes w5]. cbn [snd] in K5.
  specialize (Hend _ K5). destruct (negb _); destruct (bf_fclose w5) as [ok w6]; cbn [snd] in Hend; [exact Hend|]. by destruct (negb ok).
Qed.
End ReadFile.

(** ** The calls of the experiments *)

Inductive machine_call {W} `{OS W} `{BinFile W} `{Memory W} `{Files W} : (W -> W) -> Prop :=
  | m_stream f : stream_call f -> machine_call f
  | m_pagesize : machine_call (fun w => (os_pagesize w).2)
  | m_pread fd n off : machine_call (fun w => (os_pread fd n off w).2)
  | m_malloc n : machine_call (fun w => (mm_malloc n w).2)
  | m_madvise base n : machine_call (fun w => (mm_madvise base n w).2)
  | m_store_byte a v : machine_call (mm_store_byte a v)
  | m_store a v : machine_call (mm_store a v)
  | m_mkdir path : machine_call (fun w => (fl_mkdir path w).2)
  | m_rmdir path : machine_call (fl_rmdir path).

(** The same children, descriptors and streams, and the mappings [R]. *)
Definition mapped_to {W} `{WorkerLaws W} (w w' : W) (R : gset (Z * Z)) (streams : Z) : Prop :=
  workers w' = workers w /\ open_fds w' = open_fds w /\ others w' = (R, (others w).2 + streams).

Class MachineLaws (W : Type) `{WorkerLaws W} `{BinFile W} `{Memory W} := {
  hm_machine f w : machine_call f -> kept w (f w);
  hm_mmap bytes w :
    match (mm_mmap bytes w).1 with
    | Some base => ((base, bytes) ∉ (others w).1) /\ mapped_to w (mm_mmap bytes w).2 ({[(base, bytes)]} ∪ (others w).1) 0
    | None => kept w (mm_mmap bytes w).2
    end;
  hm_munmap base bytes w : mapped_to w (mm_munmap base bytes w) ((others w).1 ∖ {[(base, bytes)]}) 0;
  hm_fopen path w : mapped_to w (bf_fopen path w).2 (others w).1 (if (bf_fopen path w).1 then 1 else 0);
  hm_fclose w : mapped_to w (bf_fclose w).2 (others w).1 (-1)
}.

Section Held.
Context {W : Type} {HO : OS W} {HF : Files W} {HK : Workers W} {WL : WorkerLaws W} {HB : BinFile W} {HM : Memory W} {ML : MachineLaws W}.
Implicit Types w : W.

#[export] Instance kept_pre : PreOrder (kept (W := W)).
Proof. split; [intros w; apply kept_refl|intros w1 w2 w3; apply kept_trans]. Qed.

Lemma machine_calloc n size w : kept w (os_calloc n size w).2.
Proof. exact (hm_machine _ w (m_stream _ (s_calloc n size))). Qed.
Lemma machine_malloc n w : kept w (mm_malloc n w).2.
Proof. exact (hm_machine _ w (m_malloc n)). Qed.
Lemma machine_pagesize w : kept w (os_pagesize w).2.
Proof. exact (hm_machine _ w m_pagesize). Qed.
Lemma machine_store a v w : kept w (mm_store a v w).
Proof. exact (hm_machine _ w (m_store a v)). Qed.

(** ** The mapping *)

Lemma file_kept path w : kept w (read_file_limited path w).2.
Proof.
  apply (read_file_same kept (fun w w' => mapped_to w w' (others w).1 1)).
  - intros f w0 Hf. by apply hm_machine, m_stream.
  - intros p w0. pose proof (hm_fopen p w0) as Ho. destruct (bf_fopen p w0) as [[|] w1]; cbn [fst snd] in *; [exact Ho|].
    destruct Ho as (H1 & H2 & H3). split; [done|]. split; [done|]. rewrite H3, Z.add_0_r. by destruct (others w0).
  - intros w0 w1 w2 (H1 & H2 & H3) (K1 & K2 & K3). destruct (hm_fclose w2) as (F1 & F2 & F3). split; [congruence|]. split; [congruence|].
    rewrite F3, K3, H3. cbn. destruct (others w0) as [R n]. cbn. f_equal. lia.
Qed.

Lemma load_result_same (R : W -> W -> Prop) {HR : PreOrder R} calibration w : (forall path w, R w (read_file_limited path w).2) ->
  R w (calibration_load_result (Some DEFAULT_CALIBRATION_PATH) calibration w).2.
Proof.
  intros Hfile. unfold calibration_load_result. destruct calibration as [c|]; [|done]. pose proof (Hfile DEFAULT_CALIBRATION_PATH w) as Hk.
  destruct (read_file_limited _ w) as [[rc|json] w1]; cbn [snd] in *; [done|]. destruct (calibration_result_reset (Some c)); [|done]. by destruct (load_fields json _).
Qed.

Lemma load_mapping_holds calibration mapping w : kept w (load_mapping calibration mapping w).2.
Proof.
  unfold load_mapping. pose proof (load_result_same kept (calibration_result_reset (Some calibration)) w (fun path w => file_kept path w)) as Hk.
  destruct (calibration_load_result _ _ w) as [[rc c] w1]. cbn [snd] in Hk. destruct (negb _); [exact Hk|]. destruct (dram_mapping_init_from_calibration _ c) as [rc' m]. by destruct (negb _).
Qed.

(** ** The pools *)

(** Since [w0] exactly the mappings [X] are held more. *)
Definition holds (w0 w : W) (X : gset (Z * Z)) : Prop := mapped_to w0 w (X ∪ (others w0).1) 0 /\ X ## (others w0).1.

(** The mapping of a pool. *)
Definition pool_region (p : memory_pool) : gset (Z * Z) :=
  match pool_base p with Some base => {[(base, pool_bytes p)]} | None => ∅ end.

Lemma holds_start w : holds w w ∅.
Proof. split; [|set_solver]. split; [done|]. split; [done|]. rewrite Z.add_0_r, (left_id_L ∅ union). by destruct (others w). Qed.

Lemma holds_kept w0 w w' X : holds w0 w X -> kept w w' -> holds w0 w' X.
Proof. intros [(H1 & H2 & H3) Hd] (K1 & K2 & K3). split; [|done]. split; [congruence|]. split; congruence. Qed.

(** With no mapping left, nothing is held more. *)
Lemma holds_nothing w0 w : holds w0 w ∅ -> kept w0 w.
Proof. intros [(H1 & H2 & H3) _]. split; [done|]. split; [done|]. rewrite H3, Z.add_0_r, (left_id_L ∅ union). by destruct (others w0). Qed.

Lemma mmap_holds w0 w X bytes : holds w0 w X ->
  match (mm_mmap bytes w).1 with Some base => ((base, bytes) ∉ X) /\ holds w0 (mm_mmap bytes w).2 ({[(base, bytes)]} ∪ X) | None => holds w0 (mm_mmap bytes w).2 X end.
Proof.
  intros Hh. pose proof (hm_mmap bytes w) as Hm. destruct (mm_mmap bytes w) as [[base|] w']; cbn [fst snd] in *; [|by eapply holds_kept].
  destruct Hh as [(H1 & H2 & H3) Hd], Hm as (Hno & M1 & M2 & M3). rewrite H3 in Hno, M3. cbn in Hno, M3. split; [set_solver|]. split; [|set_solver]. split; [congruence|]. split; [congruence|].
  rewrite M3. f_equal; [set_solver|lia].
Qed.

Lemma munmap_holds w0 w X base bytes : holds w0 w X -> (base, bytes) ∉ (others w0).1 -> holds w0 (mm_munmap base bytes w) (X ∖ {[(base, bytes)]}).
Proof.
  intros [(H1 & H2 & H3) Hd] Hno. destruct (hm_munmap base bytes w) as (M1 & M2 & M3). rewrite H3 in M3. cbn in M3. split; [|set_solver]. split; [congruence|]. split; [congruence|].
  rewrite M3. f_equal; [set_solver|lia].
Qed.

Lemma pool_destroy_holds w0 w X p : holds w0 w X -> pool_region p ## (others w0).1 -> holds w0 (pool_destroy p w).2 (X ∖ pool_region p).
Proof.
  intros Hh Hd. unfold pool_destroy, pool_region in *. destruct (pool_base p) as [base|]; cbn [snd]; [apply munmap_holds; [done|set_solver]|]. by rewrite difference_empty_L.
Qed.

(** A descriptor that is opened and closed. *)
Lemma open_close_kept path w w' : 0 <= (os_open path w).1 -> kept (os_open path w).2 w' -> kept w (os_close (os_open path w).1 w').
Proof.
  intros Hpos (K1 & K2 & K3). destruct (wl_open path w) as [Hc Ho], (wl_close (os_open path w).1 w') as [Hc' Ho']. destruct (Z.ltb_spec (os_open path w).1 0); [lia|].
  destruct Ho as [Hno Ho]. split; [congruence|]. split; [rewrite Ho', K2, Ho; set_solver|]. rewrite others_close, K3. exact (wl_others _ w (p_open path)).
Qed.

Lemma open_fails_kept path w : (os_open path w).1 < 0 -> kept w (os_open path w).2.
Proof.
  intros Hneg. destruct (wl_open path w) as [Hc Ho]. destruct (Z.ltb_spec (os_open path w).1 0); [|lia]. split; [done|]. split; [done|]. exact (wl_others _ w (p_open path)).
Qed.

Lemma read_one_pfn_kept fd va ps w : kept w (read_one_pfn fd va ps w).2.
Proof.
  unfold read_one_pfn. destruct (ps =? 0); [done|]. pose proof (hm_machine _ w (m_pread fd 8 (as_off_t (u64_mul (va / ps) 8)))) as Hk. cbn beta in Hk.
  destruct (os_pread _ _ _ w) as [[bytes|] w']; cbn [snd] in Hk; [|exact Hk]. by repeat case_match.
Qed.

Lemma fault_loop_kept n i base ps sd w : kept w (fault_loop n i base ps sd w).
Proof. revert i w. induction n as [|n IH]; intros i w; [done|]. cbn [fault_loop]. etransitivity; [|apply IH]. exact (hm_machine _ w (m_store_byte _ _)). Qed.

Lemma pfn_loop_kept n fd base ps : forall i c w, kept w (pfn_loop n i fd base ps c w).2.
Proof.
  induction n as [|n IH]; intros i c w; [done|]. cbn [pfn_loop]. pose proof (read_one_pfn_kept fd (u64 (base + i * ps)) ps w) as H1.
  destruct (read_one_pfn _ _ _ w) as [[rc pfn] w1]. cbn [snd] in H1. destruct (if rc =? 0 then _ else _) as [x c1].
  specialize (IH (i + 1) c1 w1). destruct (pfn_loop n _ _ _ _ c1 w1) as [[ps' c2] w2]. cbn [snd] in *. by etransitivity.
Qed.

Lemma verify_loop_kept fd base ps pfns : forall i moved unreadable w, kept w (verify_loop pfns i fd base ps moved unreadable w).2.
Proof.
  induction pfns as [|x pfns IH]; intros i moved unreadable w; [done|]. cbn [verify_loop]. pose proof (read_one_pfn_kept fd (u64 (base + i * ps)) ps w) as H1.
  destruct (read_one_pfn _ _ _ w) as [[rc pfn] w1]. cbn [snd] in H1. destruct (negb (rc =? 0)); (etransitivity; [exact H1|apply IH]).
Qed.

Lemma verify_pool_kept p w : kept w (verify_pool_pfns p w).2.
Proof.
  unfold verify_pool_pfns. pose proof (open_close_kept "/proc/self/pagemap" w) as Hc. pose proof (open_fails_kept "/proc/self/pagemap" w) as Hf.
  destruct (os_open _ w) as [fd w1]. cbn [fst snd] in *. destruct (Z.ltb_spec fd 0); [by apply Hf|]. specialize (fun w' => Hc w' H).
  pose proof (verify_loop_kept fd (default 0 (pool_base p)) (pool_page_size p) (pool_pfns p) 0 0 0 w1) as Hl. destruct (verify_loop _ _ _ _ _ _ _ w1) as [[moved unreadable] w2].
  by apply Hc.
Qed.

(** A pool that is created holds its mapping, whatever the code. *)
Lemma pool_create_holds name mib ps sd w0 w X : holds w0 w X ->
  let '(_, p, w') := pool_create name mib ps sd memory_pool_zero w in holds w0 w' (pool_region p ∪ X) /\ pool_region p ## (others w0).1.
Proof.
  intros Hh. assert (Hnone : forall p w', pool_base p = None -> holds w0 w' X -> holds w0 w' (pool_region p ∪ X) /\ pool_region p ## (others w0).1).
  { intros p w' E Hw. unfold pool_region. rewrite E, (left_id_L ∅ union). split; [done|set_solver]. }
  unfold pool_create. destruct (_ || _); [by apply Hnone|]. destruct (_ <? mib); [by apply Hnone|]. cbn [pool_bytes set_field]. destruct (negb _); [by apply Hnone|].
  set (bytes := u64_mul mib MIB_BYTES). pose proof (mmap_holds w0 w X bytes Hh) as Hm. cbn [pool_page_count set_field pool_bytes]. destruct (mm_mmap bytes w) as [[base|] w1]; cbn [fst snd] in Hm; [|by apply Hnone].
  destruct Hm as [Hfresh Hm]. assert (Hdis : {[(base, bytes)]} ## (others w0).1) by (destruct Hm as [_ Hd]; set_solver).
  set (np := bytes / ps). set (Y := {[(base, bytes)]} ∪ X) in *. assert (EX : Y ∖ {[(base, bytes)]} = X) by (unfold Y; set_solver).
  assert (Hdes : forall p w', pool_base p = Some base -> pool_bytes p = bytes -> holds w0 w' Y ->
    holds w0 (pool_destroy p w').2 (pool_region memory_pool_zero ∪ X) /\ pool_region memory_pool_zero ## (others w0).1).
  { intros p w' E1 E2 Hw. pose proof (pool_destroy_holds w0 w' Y p Hw) as Hd. unfold pool_region in Hd. rewrite E1, E2, EX in Hd. apply Hnone; [done|by apply Hd]. }
  pose proof (holds_kept _ _ _ _ Hm (hm_machine _ w1 (m_madvise base bytes))) as H2. cbn beta in H2. destruct (mm_madvise _ _ w1) as [ok w2]. cbn [snd] in H2.
  destruct (negb ok); [by apply Hdes|]. pose proof (holds_kept _ _ _ _ H2 (machine_calloc np 8 w2)) as H3. destruct (os_calloc np 8 w2) as [ok3 w3]. cbn [snd] in H3.
  destruct (negb ok3); [by apply Hdes|]. set (w4 := fault_loop _ _ _ _ _ w3). assert (H4 : holds w0 w4 Y) by (eapply holds_kept; [exact H3|apply fault_loop_kept]).
  pose proof (open_close_kept "/proc/self/pagemap" w4) as Hoc. pose proof (open_fails_kept "/proc/self/pagemap" w4) as Hof. destruct (os_open _ w4) as [fd w5]. cbn [fst snd] in *.
  destruct (Z.ltb_spec fd 0) as [Hneg|Hpos]; [apply Hdes; [done|done|]; eapply holds_kept; [exact H4|by apply Hof]|].
  pose proof (pfn_loop_kept (Z.to_nat np) fd base ps 0 (mk_pfn_counts 0 0 0 0) w5) as Hl. destruct (pfn_loop _ _ _ _ _ _ w5) as [[pfns counts] w6]. cbn [snd] in Hl.
  assert (H7 : holds w0 (os_close fd w6) Y) by (eapply holds_kept; [exact H4|by apply Hoc]).
  destruct (negb _); [by apply Hdes|]. split; [exact H7|exact Hdis].
Qed.

(** ** Lines and chains *)

Lemma collect_kept p m ocs space cls n quota sd set w : kept w (collect_line_set p m ocs space cls n quota sd set w).2.
Proof.
  unfold collect_line_set. destruct (_ || _); [done|]. destruct (_ <? n); [done|].
  pose proof (machine_calloc (u64_mul n quota) 8 w) as H1. destruct (os_calloc _ 8 w) as [ok1 w1]. cbn [snd] in H1.
  pose proof (transitivity H1 (machine_malloc (u64_mul space 4) w1)) as H2. destruct (mm_malloc _ w1) as [ok2 w2]. cbn [snd] in H2.
  pose proof (transitivity H2 (machine_calloc n 8 w2)) as H3. destruct (os_calloc n 8 w2) as [ok3 w3]. cbn [snd] in H3.
  pose proof (transitivity H3 (machine_malloc (u64_mul (pool_page_count p) 8) w3)) as H4. destruct (mm_malloc _ w3) as [ok4 w4]. cbn [snd] in H4.
  pose proof (transitivity H4 (machine_malloc (u64_mul (Z.of_nat (List.length ocs)) 8) w4)) as H5. destruct (mm_malloc _ w4) as [ok5 w5]. cbn [snd] in H5.
  destruct (negb _); [done|]. destruct (slot_loop _ _ _ _); [|done]. destruct (collect_pages _ _ _ _ _ _ _ _ _ _ _); [|done]. by destruct (negb _).
Qed.

Lemma permutation_kept n sd out w : kept w (make_permutation n sd out w).2.
Proof. unfold make_permutation. destruct (n =? 0); [done|]. pose proof (machine_malloc (u64_mul n 8) w) as H. destruct (mm_malloc _ w) as [ok w']. cbn [snd] in H. by destruct (negb ok). Qed.

Lemma single_chain_kept set perm w : kept w (build_single_chain set perm w).2.
Proof.
  unfold build_single_chain. destruct (_ =? 0); [done|]. cbn [snd]. generalize (Z.to_nat (ls_line_count set)) 0. intros n i. revert i w.
  induction n as [|n IH]; intros i w; [done|]. cbn [single_loop]. etransitivity; [apply machine_store|apply IH].
Qed.

Lemma stream_loop_kept fuel count set perm : forall pos prev w, kept w (stream_loop fuel pos count set perm prev w).2.
Proof.
  induction fuel as [|fuel IH]; intros pos prev w; [done|]. cbn [stream_loop]. destruct (_ <? _); [|done]. etransitivity; [apply machine_store|apply IH].
Qed.

Lemma multi_chain_kept set perm count w : kept w (build_multi_chain set perm count w).2.
Proof.
  unfold build_multi_chain. destruct (_ || _); [done|].
  assert (Hl : forall n i w, kept w (multi_loop n i count set perm w).2).
  { induction n as [|n IH]; intros i w0; [done|]. cbn [multi_loop].
    pose proof (stream_loop_kept (Z.to_nat (ls_line_count set)) count set perm (u64_add i count) (line_at set perm i) w0) as H1. destruct (stream_loop _ _ _ _ _ _ w0) as [prev w1]. cbn [snd] in H1.
    specialize (IH (i + 1) (mm_store prev (line_at set perm i) w1)). destruct (multi_loop n _ _ _ _ _) as [roots w2]. cbn [snd] in *.
    etransitivity; [exact H1|]. etransitivity; [apply machine_store|exact IH]. }
  specialize (Hl (Z.to_nat count) 0 w). by destruct (multi_loop _ _ _ _ _ w).
Qed.

Lemma offset_classes_kept m ps w : kept w (build_offset_classes m ps w).2.
Proof.
  unfold build_offset_classes. destruct m as [m|]; [|done]. destruct (negb _); [done|]. pose proof (machine_calloc (ps / CACHELINE_BYTES) 8 w) as H.
  destruct (os_calloc _ 8 w) as [ok w']. cbn [snd] in H. by destruct (negb ok).
Qed.
End Held.

(** * The page frames

    What the check at the end of the experiments establishes. *)

Section Frames.
Context {W : Type} {HO : OS W} {HM : Memory W}.
Implicit Types w : W.

(** The page map gives these frames for the pages from [i] on. *)
Inductive frames_read (fd base page_size : Z) : Z -> list Z -> W -> W -> Prop :=
| frames_none i w : frames_read fd base page_size i [] w w
| frames_next i pfn pfns w w1 w2 : read_one_pfn fd (u64 (base + i * page_size)) page_size w = (0, Some pfn, w1) ->
    frames_read fd base page_size (i + 1) pfns w1 w2 -> frames_read fd base page_size i (pfn :: pfns) w w2.

(** Every page of the pool still has the frame it had when the pool was made. *)
Definition frames_unmoved (pool : memory_pool) w w' : Prop :=
  exists fd w1 w2, os_open "/proc/self/pagemap" w = (fd, w1) /\ 0 <= fd /\
    frames_read fd (default 0 (pool_base pool)) (pool_page_size pool) 0 (pool_pfns pool) w1 w2 /\ w' = os_close fd w2.

Lemma read_one_pfn_some fd va ps w pfn w' : read_one_pfn fd va ps w = (0, pfn, w') -> is_Some pfn.
Proof. unfold read_one_pfn. destruct (ps =? 0); [done|]. destruct (os_pread _ _ _ w) as [[bytes|] w1]; [|done]. repeat case_match; intros E; try discriminate E. injection E as <- _. by eexists. Qed.

Lemma verify_loop_counts fd base ps pfns : forall i moved unreadable w, 0 <= moved -> 0 <= unreadable ->
  moved + Z.of_nat (List.length pfns) < 18446744073709551616 -> unreadable + Z.of_nat (List.length pfns) < 18446744073709551616 ->
  let '(m, u, w') := verify_loop pfns i fd base ps moved unreadable w in
  moved <= m /\ unreadable <= u /\ (m = moved -> u = unreadable -> frames_read fd base ps i pfns w w').
Proof.
  induction pfns as [|p pfns IH]; intros i moved unreadable w Hm Hu Lm Lu; cbn [verify_loop]; [conjs; try lia; constructor|]. cbn [List.length] in Lm, Lu.
  destruct (read_one_pfn fd (u64 (base + i * ps)) ps w) as [[rc pfn] w1] eqn:Er. destruct (Z.eqb_spec rc 0) as [->|]; cbn [negb].
  - destruct (read_one_pfn_some _ _ _ _ _ _ Er) as [x ->]. cbn [default from_option id]. destruct (Z.eqb_spec x p) as [->|]; cbn [negb].
    + specialize (IH (i + 1) moved unreadable w1 Hm Hu ltac:(lia) ltac:(lia)). destruct (verify_loop pfns _ _ _ _ _ _ w1) as [[m u] w2]. destruct IH as (H1 & H2 & H3).
      conjs; try done. intros E1 E2. by eapply frames_next; [exact Er|apply H3].
    + unfold u64_inc. rewrite u64_small by (unfold in_u64; lia). specialize (IH (i + 1) (moved + 1) unreadable w1 ltac:(lia) Hu ltac:(lia) ltac:(lia)).
      destruct (verify_loop pfns _ _ _ _ _ _ w1) as [[m u] w2]. destruct IH as (H1 & H2 & H3). conjs; lia.
  - unfold u64_inc. rewrite u64_small by (unfold in_u64; lia). specialize (IH (i + 1) moved (unreadable + 1) w1 Hm ltac:(lia) ltac:(lia) ltac:(lia)).
    destruct (verify_loop pfns _ _ _ _ _ _ w1) as [[m u] w2]. destruct IH as (H1 & H2 & H3). conjs; lia.
Qed.

Lemma verify_loop_unmoved fd base ps pfns : forall i moved unreadable w w', frames_read fd base ps i pfns w w' ->
  verify_loop pfns i fd base ps moved unreadable w = (moved, unreadable, w').
Proof.
  induction pfns as [|p pfns IH]; intros i moved unreadable w w' H; inversion H as [|? ? ? ? w1 ? Er Hr]; subst; [done|]. cbn [verify_loop]. rewrite Er. cbn [Z.eqb negb default from_option id].
  rewrite Z.eqb_refl. cbn [negb]. by apply IH.
Qed.

(** Nothing was counted exactly when no page moved and all could be read. *)
Lemma verify_unmoved pool w w' : Z.of_nat (List.length (pool_pfns pool)) < 18446744073709551616 ->
  verify_pool_pfns pool w = (Some (0, 0), w') <-> frames_unmoved pool w w'.
Proof.
  intros Hl. unfold verify_pool_pfns, frames_unmoved. destruct (os_open _ w) as [fd w1]. split.
  - destruct (Z.ltb_spec fd 0); [done|]. pose proof (verify_loop_counts fd (default 0 (pool_base pool)) (pool_page_size pool) (pool_pfns pool) 0 0 0 w1 ltac:(lia) ltac:(lia) Hl Hl) as Hc.
    destruct (verify_loop _ _ _ _ _ _ _ w1) as [[m u] w2]. destruct Hc as (_ & _ & Hc). intros E. injection E as -> -> <-. exists fd, w1, w2. conjs; try done. by apply Hc.
  - intros (fd' & w1' & w2 & E & Hpos & Hr & ->). injection E as <- <-. destruct (Z.ltb_spec fd 0); [lia|]. by rewrite (verify_loop_unmoved _ _ _ _ _ 0 0 _ _ Hr).
Qed.

(** A pool has fewer frames than a counter can count. *)
Definition countable (pool : memory_pool) : Prop := Z.of_nat (List.length (pool_pfns pool)) < 18446744073709551616.

Lemma length_pfn_loop n fd base ps : forall i c w, List.length (pfn_loop n i fd base ps c w).1.1 = n.
Proof.
  induction n as [|n IH]; intros i c w; [done|]. cbn [pfn_loop]. destruct (read_one_pfn _ _ _ w) as [[rc pfn] w1]. destruct (if rc =? 0 then _ else _) as [x c1].
  specialize (IH (i + 1) c1 w1). destruct (pfn_loop n _ _ _ _ c1 w1) as [[pfns c2] w2]. cbn in *. by rewrite IH.
Qed.

Lemma pool_create_countable name mib ps sd pool w p w' : 0 < ps -> pool_create name mib ps sd pool w = (0, p, w') -> countable p.
Proof.
  intros Hps. unfold pool_create. destruct (_ || _); [done|]. destruct (_ <? mib); [done|]. cbn [pool_bytes set_field]. destruct (negb _); [done|]. cbn [pool_page_count pool_bytes set_field].
  destruct (mm_mmap _ w) as [[base|] w1]; [|done]. destruct (mm_madvise _ _ w1) as [ok w2]. destruct (negb ok); [done|]. destruct (os_calloc _ 8 w2) as [ok3 w3]. destruct (negb ok3); [done|].
  destruct (os_open _ _) as [fd w5]. destruct (fd <? 0); [done|]. set (np := u64_mul mib MIB_BYTES / ps).
  pose proof (length_pfn_loop (Z.to_nat np) fd base ps 0 (mk_pfn_counts 0 0 0 0) w5) as Hlen. destruct (pfn_loop _ _ _ _ _ _ w5) as [[pfns counts] w6]. cbn [fst] in Hlen.
  destruct (negb _); [done|]. intros E. injection E as <- _. unfold countable. cbn. rewrite Hlen.
  assert (Hb : 0 <= u64_mul mib MIB_BYTES < 18446744073709551616) by apply u64_range. assert (np <= u64_mul mib MIB_BYTES) by (apply Z.div_le_upper_bound; nia). lia.
Qed.
End Frames.
