(* ===== verification/OracleMainProps.v ===== *)
(** * The experiment from its mapping to its end

    What every path through [main] leaves behind and when it succeeds, and what its
    stages guarantee together: the mapping that is loaded is
    one the classes can be computed with, and when the lines are accepted they
    are the lines the experiment is about, whatever the operating system did. *)
From S2P Require Import Prelude Float64 CString Os Calibration CalibrationLoad CalibrationRun DramMapping CalibrationProps OracleSys OracleConfig OraclePool OracleLines OracleClasses OracleSelect OracleStages OracleAccept.
From S2P Require Import OracleChain OracleIo OracleRun OracleMain OracleStepProps OracleRunProps OracleHeld.
From Stdlib Require Import Ascii String.
Local Open Scope Z_scope.

(** ** The mapping *)

Lemma load_mapping_ok {W} `{HO : OS W} `{HB : BinFile W} calibration mapping (w : W) c m w' :
  load_mapping calibration mapping w = (0, c, m, w') -> exists m', m = Some m' /\ wf_mapping m' /\ dram_mapping_is_ready m = true.
Proof.
  unfold load_mapping. rewrite reset_result. destruct (calibration_load_result _ _ w) as [[rc [r|]] w1] eqn:El.
  - pose proof (load_result_ok _ _ _ _ _ _ El) as [Hok _]. destruct (Z.eqb_spec rc CALIBRATION_OK) as [->|]; cbn [negb]; [|done].
    specialize (Hok eq_refl). destruct (loaded_accepted r Hok) as [Hwf _]. pose proof (lo_some _ Hok) as Hpos.
    cbn [dram_mapping_reset]. destruct (Z.eq_dec (validate_calibration_result (Some r)) DRAM_MAPPING_OK) as [E|E]; rewrite (validate_accepts r Hwf ltac:(lia)) in E.
    + destruct (init_accepted dram_mapping_zero r Hwf ltac:(lia) E) as (m' & -> & H1 & H2 & _). cbn. intros [= _ <- _]. by exists m'.
    + destruct (init_refused dram_mapping_zero r Hwf ltac:(lia) E) as (rc & -> & Hrc). destruct (Z.eqb_spec rc DRAM_MAPPING_OK); done.
  - destruct (Z.eqb_spec rc CALIBRATION_OK) as [->|]; cbn [negb]; [|done]. cbn [dram_mapping_reset dram_mapping_init_from_calibration]. done.
Qed.

Lemma class_space_ok m s : wf_mapping m -> class_space_from_mapping (Some m) = Some s -> s = 2 ^ mask_count m /\ mask_count m <= 20.
Proof.
  intros (Hc & _). unfold class_space_from_mapping. destruct (negb _); [done|]. destruct (Z.ltb_spec 20 (mask_count m)) as [|Hle]; [done|].
  assert (Hpow : 0 < 2 ^ mask_count m <= 2 ^ 20) by (split; [apply Z.pow_pos_nonneg; lia|apply Z.pow_le_mono_r; lia]).
  rewrite Z.shiftl_1_l, u64_small by (unfold in_u64; lia). destruct (_ <? _); [done|]. by intros [= <-].
Qed.

Lemma offset_classes_ok {W} `{HO : OS W} m k (w w' : W) ocs : 6 <= k -> build_offset_classes (Some m) (2 ^ k) w = (Some ocs, w') -> ocs = offset_classes m k.
Proof.
  intros Hk. assert (E : 2 ^ k = page_lines k * 64) by (unfold page_lines; change 64 with (2 ^ 6); rewrite <- Z.pow_add_r by lia; f_equal; lia).
  unfold build_offset_classes, CACHELINE_BYTES. rewrite E, Z.mod_mul, Z.div_mul by lia. cbn [Z.eqb negb]. destruct (os_calloc _ 8 w) as [ok w1]. destruct ok; cbn [negb]; [|done]. by intros [= <- _].
Qed.

(** The lines of the working set are divided evenly among the classes. *)
Lemma workset_plan_ok mib group lines quota : in_u64 mib -> 0 < mib -> 0 < group -> workset_plan mib group = Some (lines, quota) ->
  lines = group * quota /\ lines * 64 = mib * 1048576 /\ 0 < quota < 18446744073709551616 /\ 0 < group < 9223372036854775808.
Proof.
  intros Hw Hpos Hg. unfold workset_plan. destruct (Z.ltb_spec (UINT64_MAX / MIB_BYTES) (mib)) as [|Hle]; [done|].
  assert (Hb : mib * 1048576 <= UINT64_MAX) by (pose proof (Z.mul_div_le UINT64_MAX MIB_BYTES ltac:(reflexivity)); unfold MIB_BYTES in *; nia).
  assert (E : u64_mul (mib) MIB_BYTES = mib * 1048576) by (apply u64_small; unfold in_u64, UINT64_MAX in *; lia). rewrite E. unfold CACHELINE_BYTES.
  replace (mib * 1048576) with (mib * 16384 * 64) in * by lia. rewrite Z.mod_mul, Z.div_mul by lia. cbn [Z.eqb negb].
  destruct (Z.eqb_spec (mib * 16384 mod group) 0) as [Em|]; cbn [negb]; [|done]. intros [= <- <-].
  assert (Ed : mib * 16384 = group * (mib * 16384 / group)) by (apply Z.div_exact; [lia|done]).
  unfold UINT64_MAX in *. assert (0 < mib * 16384 / group) by (apply Z.div_str_pos; split; [lia|]; apply Z.divide_pos_le; [lia|]; by apply Z.mod_divide; [lia|]).
  conjs; try done; try lia; nia.
Qed.

(** ** The lines *)

(** The three pools of a configuration. *)
Record pools_created (ps : pools) (cfg : config) (bv bh bl k : Z) : Prop := {
  psc_victim : pool_created (victim_pool ps) "victim" (pool_mib cfg) bv k;
  psc_high : pool_created (high_pool ps) "high" (pool_mib cfg) bh k;
  psc_low : pool_created (low_pool ps) "low" (pool_mib cfg) bl k
}.

Section Lines.
Context {W : Type} {HO : OS W} {HM : Memory W} {ML : MemoryLaws W}.
Implicit Types w : W.

Lemma create_pools_ok cfg k w ps w' : in_u64 (pool_mib cfg) -> 6 <= k < 64 -> create_pools cfg (2 ^ k) pools_zero w = (true, ps, w') ->
  exists bv bh bl, pools_created ps cfg bv bh bl k.
Proof.
  intros Hmib Hk. unfold create_pools. assert (Hm' : 0 <= pool_mib cfg < 18446744073709551616) by (unfold in_u64 in Hmib; lia).
  destruct (pool_create "victim" _ _ _ _ w) as [[rc1 v] w1] eqn:E1. destruct (Z.eqb_spec rc1 0) as [->|]; cbn [negb]; [|done].
  destruct (pool_create "high" _ _ _ _ w1) as [[rc2 h] w2] eqn:E2. destruct (Z.eqb_spec rc2 0) as [->|]; cbn [negb]; [|done].
  destruct (pool_create "low" _ _ _ _ w2) as [[rc3 l] w3] eqn:E3. intros Hr. injection Hr as Hrc <- <-. apply Z.eqb_eq in Hrc as ->.
  apply pool_create_spec in E1 as [[_ [bv Pv]]|[? _]]; try done. apply pool_create_spec in E2 as [[_ [bh Ph]]|[? _]]; try done. apply pool_create_spec in E3 as [[_ [bl Pl]]|[? _]]; try done.
  exists bv, bh, bl. by split.
Qed.

Lemma pools_created_ok ps cfg bv bh bl k : pools_created ps cfg bv bh bl k -> pools_ok ps bv bh bl k.
Proof. intros [[? _ _ _] [? _ _ _] [? _ _ _]]. by split. Qed.

Section Mapping.
Context (m : dram_mapping) (k : Z) (cfg : config) (quota : Z).
Hypothesis Hm : wf_mapping m.
Hypothesis Hspace : mask_count m <= 20.
Hypothesis Hk : 6 <= k < 64.
Hypothesis Hmib : in_u64 (pool_mib cfg).
Hypothesis Hgroup : 0 < group_classes cfg < 9223372036854775808.
Hypothesis Hquota : 0 < quota < 18446744073709551616.

Lemma collect_one p base cls sd set w set' w' : pool_ok p base k -> NoDup cls -> Z.of_nat (List.length cls) = group_classes cfg -> Forall (fun c => 0 <= c < 2 ^ mask_count m) cls ->
  collect_line_set p m (offset_classes m k) (2 ^ mask_count m) cls (group_classes cfg) quota sd set w = (0, set', w') -> exists L, selection m p base k cls quota set' L.
Proof.
  intros Hp Hnd Hlen Hall E. pose proof (collect_line_set_spec m p base k Hm Hp Hspace cls quota sd set w) as Hspec. rewrite Hlen, E in Hspec.
  destruct Hspec as [[_ HL]|[? _]]; try done. intros ->. cbn in Hlen. lia.
Qed.

Lemma collect_sets_sound ps bv bh bl v l sets w sets' w' : pools_ok ps bv bh bl k -> chosen_ok (2 ^ mask_count m) (group_classes cfg) (common_class m k ps quota) v l ->
  collect_sets ps m (offset_classes m k) (2 ^ mask_count m) v l cfg quota sets w = (true, sets', w') -> selected m k bv bh bl ps quota v l sets'.
Proof.
  intros [P1 P2 P3] [Hnd Hv Hl Hcs]. apply NoDup_app in Hnd as (Hndv & _ & Hndl). apply Forall_app in Hcs as [Hcv Hcl].
  assert (Hrange : forall cls, Forall (fun c => 0 <= c < 2 ^ mask_count m /\ common_class m k ps quota c) cls -> Forall (fun c => 0 <= c < 2 ^ mask_count m) cls)
    by (intros cls Hall; eapply Forall_impl; [exact Hall|]; by intros c [? _]).
  unfold collect_sets. destruct (collect_line_set (victim_pool ps) _ _ _ _ _ _ _ _ _) as [[rc1 s1] w1] eqn:E1. destruct (Z.eqb_spec rc1 0) as [->|]; cbn [negb]; [|done].
  destruct (collect_line_set (high_pool ps) _ _ _ _ _ _ _ _ _) as [[rc2 s2] w2] eqn:E2. destruct (Z.eqb_spec rc2 0) as [->|]; cbn [negb]; [|done].
  destruct (collect_line_set (low_pool ps) _ _ _ _ _ _ _ _ _) as [[rc3 s3] w3] eqn:E3. intros Hr. injection Hr as Hrc <- <-. apply Z.eqb_eq in Hrc as ->.
  split; [|split]; [eapply collect_one; [exact P1|..|exact E1]|eapply collect_one; [exact P2|..|exact E2]|eapply collect_one; [exact P3|..|exact E3]]; auto.
Qed.

(** The second half of the criterion. *)
Lemma accept_sets_low sets space w o w' : accept_sets sets m space w = (Some o, w') -> low_intersection o = 0.
Proof.
  unfold accept_sets. destruct (os_calloc _ 8 w) as [? ?], (os_calloc _ 8 _) as [? ?], (os_calloc _ 8 _) as [? ?]. destruct (negb _); [done|].
  destruct (build_histogram (victim_set sets) m space) as [hv|], (build_histogram (high_set sets) m space) as [hh|], (build_histogram (low_set sets) m space) as [hl|]; try done.
  destruct (histogram_jaccard hv hh space) as [[j1 i1] u1], (histogram_jaccard hv hl space) as [[j2 i2] u2]. destruct (negb _); [done|].
  destruct (Z.eqb_spec i2 0) as [->|]; cbn [negb]; [|done]. by intros [= <- _].
Qed.

(** The lines that are accepted. *)
Lemma prepare_lines_spec w o ps sets w' :
  prepare_lines m (offset_classes m k) (2 ^ mask_count m) cfg (2 ^ k) quota pools_zero line_sets_zero w = (Some o, ps, sets, w') ->
  exists bv bh bl v l, pools_created ps cfg bv bh bl k /\ chosen_ok (2 ^ mask_count m) (group_classes cfg) (common_class m k ps quota) v l /\
    selected m k bv bh bl ps quota v l sets /\ low_intersection o = 0.
Proof.
  unfold prepare_lines, select_lines. destruct (create_pools _ _ _ w) as [[ok ps1] w1] eqn:Ec. destruct ok; cbn [negb]; [|done].
  destruct (create_pools_ok cfg k w ps1 w1 Hmib Hk Ec) as (bv & bh & bl & Hps). pose proof (pools_created_ok _ _ _ _ _ _ Hps) as Hok.
  pose proof (choose_classes_spec m k bv bh bl ps1 cfg quota Hm Hok Hgroup Hquota w1) as Hch.
  destruct (choose_classes _ _ _ _ _ _ w1) as [[[v l]|] w2]; cbn [fst] in Hch; [|done].
  destruct (collect_sets _ _ _ _ _ _ _ _ _ w2) as [[ok sets1] w3] eqn:Es. destruct ok; cbn [negb]; [|done].
  pose proof (collect_sets_sound _ _ _ _ _ _ _ _ _ _ Hok Hch Es) as Hsel. destruct (accept_sets _ _ _ w3) as [o' w4] eqn:Ea.
  intros Hr. injection Hr as -> <- <- _. exists bv, bh, bl, v, l. conjs; try done. by eapply accept_sets_low.
Qed.
End Mapping.

(** The lines the experiment works on. Whatever the operating system does, when
    the stages of [main] get past its acceptance criterion there are three pools of
    the configured size with a frame for every page, and two disjoint groups of
    classes such that the victim and the high aggressor hold [quota] different
    lines of each class of the first group, and the low aggressor of each class of
    the second. *)
Theorem prepare_lines_sound m k cfg quota w o ps sets w' : wf_mapping m -> mask_count m <= 20 -> 6 <= k < 64 -> in_u64 (pool_mib cfg) ->
  0 < group_classes cfg < 9223372036854775808 -> 0 < quota < 18446744073709551616 ->
  prepare_lines m (offset_classes m k) (2 ^ mask_count m) cfg (2 ^ k) quota pools_zero line_sets_zero w = (Some o, ps, sets, w') ->
  exists bv bh bl v l, pools_created ps cfg bv bh bl k /\ chosen_ok (2 ^ mask_count m) (group_classes cfg) (common_class m k ps quota) v l /\
    selected m k bv bh bl ps quota v l sets /\ low_intersection o = 0.
Proof. intros Hm Hspace Hk Hmib Hgroup Hquota. by apply prepare_lines_spec. Qed.

(** The first half of [main] as a whole, for a configuration that was accepted
    and pages of [2 ^ k] bytes. When it succeeds, the mapping it loaded is well
    formed and small enough to count with, the working set is divided evenly, and
    the lines are as the experiment needs them. *)
Theorem prepare_sound {HB : BinFile W} cfg k w : OracleConfig.config_ok cfg -> 6 <= k < 64 ->
  match prepare cfg (2 ^ k) experiment_zero w with
  | (Some (workset_lines, o), ex, _) => exists m quota bv bh bl v l, wf_mapping m /\ 0 < mask_count m <= 20 /\
      workset_lines = group_classes cfg * quota /\ workset_lines * CACHELINE_BYTES = workset_mib cfg * MIB_BYTES /\
      pools_created (ex_pools ex) cfg bv bh bl k /\ chosen_ok (2 ^ mask_count m) (group_classes cfg) (common_class m k (ex_pools ex) quota) v l /\
      selected m k bv bh bl (ex_pools ex) quota v l (ex_sets ex) /\ low_intersection o = 0
  | _ => True
  end.
Proof.
  intros [Hs Hw _ _ _] Hk. unfold prepare. destruct (load_mapping _ _ w) as [[[rc c] m] w1] eqn:El. destruct (Z.eqb_spec rc 0) as [->|]; cbn [negb]; [|done].
  destruct (load_mapping_ok _ _ _ _ _ _ El) as (m' & -> & Hm & Hready). cbn [default from_option id].
  destruct (class_space_from_mapping (Some m')) as [space|] eqn:Ecs; [|done]. destruct (class_space_ok m' space Hm Ecs) as [-> Hspace].
  destruct (build_offset_classes _ _ w1) as [[ocs|] w2] eqn:Eo; [|done]. rewrite (offset_classes_ok m' k w1 w2 ocs) by (done || lia).
  destruct (workset_plan _ _) as [[lines quota]|] eqn:Ep; [|done]. destruct (workset_plan_ok (workset_mib cfg) (group_classes cfg) lines quota) as (E1 & E2 & Hq & Hg); [tauto|lia|lia|done|].
  destruct (prepare_lines _ _ _ _ _ _ _ _ w2) as [[[o ps] sets] w3] eqn:Epl. destruct o as [o|]; [|done]. cbn [ex_pools ex_sets].
  destruct (prepare_lines_spec m' k cfg quota Hm Hspace Hk ltac:(tauto) Hg Hq _ _ _ _ _ Epl) as (bv & bh & bl & v & l & H1 & H2 & H3 & H4).
  exists m', quota, bv, bh, bl, v, l. cbn [dram_mapping_is_ready] in Hready. apply andb_true_iff in Hready as [_ Hpos%Z.ltb_lt]. unfold CACHELINE_BYTES, MIB_BYTES. conjs; try done.
Qed.
End Lines.

(** * The control experiment ends and leaves nothing behind

    Every path through [main] of the control experiment, with what is held on
    it. *)

Section Release.
Context {W : Type} {HO : OS W} {HF : Files W} {HK : Workers W} {WL : WorkerLaws W} {HB : BinFile W} {HM : Memory W} {ML : MachineLaws W}.
Context (result_size : Z) (result_of_bytes : list Z -> worker_result) (fuel : nat).
Hypothesis Hfuel : (128 <= fuel)%nat.
Hypothesis Hsize : (Z.to_nat result_size < fuel)%nat.
Implicit Types w : W.

(** ** The lines *)

Lemma choose_sets_kept vc hc lc space n q sd w : kept w (choose_class_sets vc hc lc space n q sd w).2.
Proof.
  unfold choose_class_sets. destruct (_ || _); [done|]. pose proof (machine_calloc space 8 w) as H. destruct (os_calloc _ 8 w) as [ok w']. cbn [snd] in H.
  destruct (negb ok); [done|]. by destruct (_ <? _).
Qed.

Lemma choose_classes_kept ps m ocs space cfg q w : kept w (choose_classes ps m ocs space cfg q w).2.
Proof.
  unfold choose_classes. set (g := group_classes cfg).
  pose proof (machine_calloc space 8 w) as H1. destruct (os_calloc space 8 w) as [ok1 w1]. cbn [snd] in H1.
  pose proof (transitivity H1 (machine_calloc space 8 w1)) as H2. destruct (os_calloc space 8 w1) as [ok2 w2]. cbn [snd] in H2.
  pose proof (transitivity H2 (machine_calloc space 8 w2)) as H3. destruct (os_calloc space 8 w2) as [ok3 w3]. cbn [snd] in H3.
  pose proof (transitivity H3 (machine_calloc g 8 w3)) as H4. destruct (os_calloc g 8 w3) as [ok4 w4]. cbn [snd] in H4.
  pose proof (transitivity H4 (machine_calloc g 8 w4)) as H5. destruct (os_calloc g 8 w4) as [ok5 w5]. cbn [snd] in H5.
  destruct (negb _); [done|]. do 3 (case_match; [|done]). etransitivity; [exact H5|apply choose_sets_kept].
Qed.

Lemma collect_sets_kept ps m ocs space v l cfg q sets w : kept w (collect_sets ps m ocs space v l cfg q sets w).2.
Proof.
  unfold collect_sets. set (n := group_classes cfg).
  pose proof (collect_kept (victim_pool ps) m ocs space v n q (Z.lxor (seed cfg) 0x4444444444444444) (victim_set sets) w) as H1.
  destruct (collect_line_set (victim_pool ps) _ _ _ _ _ _ _ _ w) as [[rc1 s1] w1]. cbn [snd] in H1. destruct (negb _); [done|]. cbn [high_set low_set].
  pose proof (transitivity H1 (collect_kept (high_pool ps) m ocs space v n q (Z.lxor (seed cfg) 0x5555555555555555) (high_set sets) w1)) as H2.
  destruct (collect_line_set (high_pool ps) _ _ _ _ _ _ _ _ w1) as [[rc2 s2] w2]. cbn [snd] in H2. destruct (negb _); [done|]. cbn [high_set low_set].
  pose proof (transitivity H2 (collect_kept (low_pool ps) m ocs space l n q (Z.lxor (seed cfg) 0x6666666666666666) (low_set sets) w2)) as H3.
  by destruct (collect_line_set (low_pool ps) _ _ _ _ _ _ _ _ w2) as [[rc3 s3] w3].
Qed.

Lemma accept_sets_kept sets m space w : kept w (accept_sets sets m space w).2.
Proof.
  unfold accept_sets. pose proof (machine_calloc space 8 w) as H1. destruct (os_calloc space 8 w) as [ok1 w1]. cbn [snd] in H1.
  pose proof (transitivity H1 (machine_calloc space 8 w1)) as H2. destruct (os_calloc space 8 w1) as [ok2 w2]. cbn [snd] in H2.
  pose proof (transitivity H2 (machine_calloc space 8 w2)) as H3. destruct (os_calloc space 8 w2) as [ok3 w3]. cbn [snd] in H3.
  destruct (negb _); [done|]. do 3 (case_match; [|done]). destruct (histogram_jaccard _ _ _) as [[j1 i1] u1], (histogram_jaccard _ _ _) as [[j2 i2] u2]. destruct (negb _); [done|]. by destruct (negb _).
Qed.

Lemma select_lines_kept ps m ocs space cfg q sets w : kept w (select_lines ps m ocs space cfg q sets w).2.
Proof.
  unfold select_lines. pose proof (choose_classes_kept ps m ocs space cfg q w) as H1. destruct (choose_classes _ _ _ _ _ _ w) as [[[v l]|] w1]; cbn [snd] in H1; [|done].
  pose proof (transitivity H1 (collect_sets_kept ps m ocs space v l cfg q sets w1)) as H2. destruct (collect_sets _ _ _ _ _ _ _ _ _ w1) as [[ok sets'] w2]. cbn [snd] in H2. destruct (negb ok); [done|].
  pose proof (transitivity H2 (accept_sets_kept sets' m space w2)) as H3. by destruct (accept_sets _ _ _ w2) as [o w3].
Qed.

(** ** The pools *)

Definition pools_regions (ps : pools) : gset (Z * Z) := pool_region (low_pool ps) ∪ (pool_region (high_pool ps) ∪ (pool_region (victim_pool ps) ∪ ∅)).

(** The pools, and nothing else, are held since [w0]. *)
Definition pools_held (w0 : W) (ps : pools) (w : W) : Prop :=
  holds w0 w (pools_regions ps) /\ pool_region (victim_pool ps) ## (others w0).1 /\ pool_region (high_pool ps) ## (others w0).1 /\ pool_region (low_pool ps) ## (others w0).1.

Lemma pools_held_kept w0 ps w w' : pools_held w0 ps w -> kept w w' -> pools_held w0 ps w'.
Proof. intros [H Hd] Hk. split; [by eapply holds_kept|done]. Qed.

Lemma no_pools_held w0 w : kept w0 w -> pools_held w0 pools_zero w.
Proof.
  intros Hk. unfold pools_held, pools_regions, pool_region. cbn. rewrite !(left_id_L ∅ union). split; [|conjs; set_solver]. eapply holds_kept; [apply holds_start|done].
Qed.

Lemma create_pools_held cfg sz w0 w : kept w0 w -> let '(_, ps, w') := create_pools cfg sz pools_zero w in pools_held w0 ps w'.
Proof.
  intros Hk. unfold create_pools. cbn [victim_pool high_pool low_pool pools_zero].
  assert (Hz : pool_region memory_pool_zero = ∅) by done.
  pose proof (pool_create_holds "victim" (pool_mib cfg) sz (Z.lxor (seed cfg) 0x1111111111111111) w0 w ∅ (holds_kept _ _ _ _ (holds_start w0) Hk)) as H1.
  destruct (pool_create "victim" _ _ _ _ w) as [[rc v] w1]. destruct H1 as [H1 D1].
  destruct (negb _); [unfold pools_held, pools_regions; cbn [victim_pool high_pool low_pool]; rewrite Hz, !(left_id_L ∅ union); split; [done|conjs; set_solver]|].
  pose proof (pool_create_holds "high" (pool_mib cfg) sz (Z.lxor (seed cfg) 0x2222222222222222) w0 w1 _ H1) as H2.
  destruct (pool_create "high" _ _ _ _ w1) as [[rc2 h] w2]. destruct H2 as [H2 D2].
  destruct (negb _); [unfold pools_held, pools_regions; cbn [victim_pool high_pool low_pool]; rewrite Hz, !(left_id_L ∅ union); split; [done|conjs; set_solver]|].
  pose proof (pool_create_holds "low" (pool_mib cfg) sz (Z.lxor (seed cfg) 0x3333333333333333) w0 w2 _ H2) as H3.
  destruct (pool_create "low" _ _ _ _ w2) as [[rc3 l] w3]. by destruct H3.
Qed.

Lemma prepare_held cfg sz w : let '(_, ex, w') := prepare cfg sz experiment_zero w in pools_held w (ex_pools ex) w'.
Proof.
  unfold prepare. set (c0 := mk_calibration_result _ _ _ _ _ _ _ _). pose proof (load_mapping_holds c0 dram_mapping_zero w) as H1. destruct (load_mapping _ _ w) as [[[rc c] m] w1]. cbn [snd] in H1.
  destruct (negb _); [by apply no_pools_held|]. destruct (class_space_from_mapping _) as [space|]; [|by apply no_pools_held].
  pose proof (transitivity H1 (offset_classes_kept (Some (default dram_mapping_zero m)) sz w1)) as H2. destruct (build_offset_classes _ _ w1) as [[ocs|] w2]; cbn [snd] in H2; [|by apply no_pools_held].
  destruct (workset_plan _ _) as [[lines quota]|]; [|by apply no_pools_held]. unfold prepare_lines. cbn [ex_pools ex_sets experiment_zero].
  pose proof (create_pools_held cfg sz w w2 H2) as H3. destruct (create_pools _ _ _ w2) as [[ok ps] w3]. destruct (negb ok); [done|].
  pose proof (select_lines_kept ps (default dram_mapping_zero m) ocs space cfg quota line_sets_zero w3) as H4.
  destruct (select_lines _ _ _ _ _ _ _ w3) as [[[o|] sets] w4]; cbn [snd ex_pools] in *; by eapply pools_held_kept.
Qed.

(** ** The chains and the cgroups *)

Lemma build_chains_kept sets lines cfg w : kept w (build_chains sets lines cfg w).2.
Proof.
  unfold build_chains. pose proof (permutation_kept lines (Z.lxor (seed cfg) 0x7777777777777777) [] w) as H1. destruct (make_permutation _ _ _ w) as [[rc perm] w1]. cbn [snd] in H1. destruct (negb _); [done|].
  pose proof (transitivity H1 (single_chain_kept (victim_set sets) perm w1)) as H2. destruct (build_single_chain _ _ w1) as [root w2]. cbn [snd] in H2. destruct (negb _); [done|].
  pose proof (transitivity H2 (multi_chain_kept (high_set sets) perm AGGRESSOR_STREAMS w2)) as H3. destruct (build_multi_chain _ _ _ w2) as [high w3]. cbn [snd] in H3. destruct (negb _); [done|].
  pose proof (transitivity H3 (multi_chain_kept (low_set sets) perm AGGRESSOR_STREAMS w3)) as H4. by destruct (build_multi_chain _ _ _ w3) as [low w4].
Qed.

Lemma read_text_file_kept path size w : kept w (read_text_file path size w).2.
Proof.
  unfold read_text_file. destruct (_ <? 2); [done|]. pose proof (open_close_kept path w) as Hoc. pose proof (open_fails_kept path w) as Hof. destruct (os_open path w) as [fd w1]. cbn [fst snd] in *.
  destruct (Z.ltb_spec fd 0) as [Hneg|Hpos]; [by apply Hof|]. pose proof (wl_read fd (size - 1) w1) as [Hk _]. destruct (fl_read fd _ w1) as [r w2]. cbn [snd] in *. specialize (Hoc w2 Hpos Hk). by destruct r.
Qed.

Lemma destroy_kept ctx w : kept w (cgroup_context_destroy ctx w).2.
Proof.
  unfold cgroup_context_destroy. destruct (negb _); [done|]. cbn [snd]. etransitivity; [exact (hm_machine _ w (m_rmdir (high_path ctx)))|].
  etransitivity; [exact (hm_machine _ _ (m_rmdir (low_path ctx)))|]. exact (hm_machine _ _ (m_rmdir (run_path ctx))).
Qed.

Lemma populate_ends ctx w : exists rc ctx' w', cgroup_context_populate fuel ctx w = Some (rc, ctx', w') /\ kept w w'.
Proof.
  unfold cgroup_context_populate. pose proof (hm_machine _ w (m_mkdir (run_path ctx))) as H1. cbn beta in H1. destruct (fl_mkdir _ w) as [made w1]. cbn [snd] in H1.
  destruct (negb made); [by eexists _, _, _|]. set (ready := mk_cgroup_context true _ _ _).
  assert (Hfail : forall w', kept w w' -> exists rc ctx' w'', (let '(ctx, w) := cgroup_context_destroy ready w' in Some (-1, ctx, w)) = Some (rc, ctx', w'') /\ kept w w'').
  { intros w' Hk. pose proof (transitivity Hk (destroy_kept ready w')) as H. destruct (cgroup_context_destroy ready w') as [c w'']. by eexists _, _, _. }
  destruct (_ <=? _); [by apply Hfail|]. pose proof (transitivity H1 (read_text_file_kept (run_path ready +:+ "/cgroup.controllers") 4096 w1)) as H2.
  destruct (read_text_file _ 4096 w1) as [[ctl|] w2]; cbn [snd] in H2; [|by apply Hfail]. destruct (negb _); [by apply Hfail|].
  assert (Hw : exists rc w3, cgroup_write_file fuel (run_path ready) "cgroup.subtree_control" ("+cpu" +:+ String newline EmptyString) w2 = Some (rc, w3) /\ kept w2 w3).
  { unfold cgroup_write_file. destruct (_ <=? _); [by eexists _, _|]. apply write_text_path_ends. change (5 < fuel)%nat. lia. }
  destruct Hw as (rc & w3 & -> & H3). pose proof (transitivity H2 H3) as K3. destruct (negb _); [by apply Hfail|].
  pose proof (transitivity K3 (hm_machine _ w3 (m_mkdir (high_path ready)))) as H4. cbn beta in H4. destruct (fl_mkdir _ w3) as [made1 w4]. cbn [snd] in H4. destruct (negb made1); [by apply Hfail|].
  pose proof (transitivity H4 (hm_machine _ w4 (m_mkdir (low_path ready)))) as H5. cbn beta in H5. destruct (fl_mkdir _ w4) as [made2 w5]. cbn [snd] in H5. destruct (negb made2); [by apply Hfail|].
  by eexists _, _, _.
Qed.

Lemma context_create_ends w : exists rc ctx w', cgroup_context_create fuel w = Some (rc, ctx, w') /\ kept w w'.
Proof.
  unfold cgroup_context_create. pose proof (read_text_file_kept "/sys/fs/cgroup/cgroup.subtree_control" 4096 w) as H1. destruct (read_text_file _ 4096 w) as [[sub|] w1]; cbn [snd] in H1; [|by eexists _, _, _].
  destruct (negb _); [by eexists _, _, _|]. do 3 (destruct (_ <=? _); [by eexists _, _, _|]).
  destruct (populate_ends (mk_cgroup_context false (snprintf PATH_MAX ("/sys/fs/cgroup/oracle_6_5d_" +:+ dec (fl_getpid w1)))
    (snprintf PATH_MAX (snprintf PATH_MAX ("/sys/fs/cgroup/oracle_6_5d_" +:+ dec (fl_getpid w1)) +:+ "/high"))
    (snprintf PATH_MAX (snprintf PATH_MAX ("/sys/fs/cgroup/oracle_6_5d_" +:+ dec (fl_getpid w1)) +:+ "/low"))) w1) as (rc & ctx & w2 & E & H2).
  exists rc, ctx, w2. split; [exact E|by etransitivity].
Qed.

(** ** The conditions *)

Lemma conditions_loop_ends order cfg cgroups : forall results w, exists r w', conditions_loop result_size result_of_bytes fuel order cfg cgroups results w = Some (r, w') /\ kept w w'.
Proof.
  induction order as [|c order IH]; intros results w; [by eexists _, _|]. cbn [conditions_loop].
  destruct (run_condition_cleans_up result_size result_of_bytes fuel c cfg cgroups Hfuel Hsize condition_result_zero w) as (rc & out & w1 & -> & _ & H1). destruct (negb _); [by eexists _, _|].
  destruct (IH (<[condition_index c := out]> results) w1) as ([[rs ms]|] & w2 & -> & H2); eexists _, _; (split; [reflexivity|by etransitivity]).
Qed.

Lemma verify_pools_kept ps w : kept w (verify_pools ps w).2.
Proof.
  unfold verify_pools. pose proof (verify_pool_kept (victim_pool ps) w) as H1. destruct (verify_pool_pfns _ w) as [[[vm vu]|] w1]; cbn [snd] in H1; [|done].
  pose proof (transitivity H1 (verify_pool_kept (high_pool ps) w1)) as H2. destruct (verify_pool_pfns _ w1) as [[[hm hu]|] w2]; cbn [snd] in H2; [|done].
  pose proof (transitivity H2 (verify_pool_kept (low_pool ps) w2)) as H3. by destruct (verify_pool_pfns _ w2) as [[[lm lu]|] w3].
Qed.

Lemma perform_ends cfg sz w : exists r ex w', perform result_size result_of_bytes fuel cfg sz w = Some (r, ex, w') /\ pools_held w (ex_pools ex) w'.
Proof.
  unfold perform. pose proof (prepare_held cfg sz w) as H1. destruct (prepare _ _ _ w) as [[[[lines o]|] ex] w1]; [|by eexists _, _, _].
  pose proof (build_chains_kept (ex_sets ex) lines cfg w1) as H2. destruct (build_chains _ _ _ w1) as [ok w2]. cbn [snd] in H2. destruct (negb ok); [eexists _, _, _; split; [reflexivity|by eapply pools_held_kept]|].
  destruct (context_create_ends w2) as (rc & ctx & w3 & -> & H3). pose proof (transitivity H2 H3) as K3. destruct (negb _); [eexists _, _, _; split; [reflexivity|by eapply pools_held_kept]|].
  destruct (conditions_loop_ends (order cfg) cfg ctx (replicate 4 condition_result_zero) w3) as ([[rs ms]|] & w4 & -> & H4); pose proof (transitivity K3 H4) as K4.
  - pose proof (transitivity K4 (verify_pools_kept (ex_pools ex) w4)) as H5. cbn [ex_pools]. destruct (verify_pools _ w4) as [ok' w5]. cbn [snd] in H5. eexists _, _, _. split; [reflexivity|by eapply pools_held_kept].
  - eexists _, _, _. split; [reflexivity|by eapply pools_held_kept].
Qed.

Lemma control_release_kept w0 ex w : pools_held w0 (ex_pools ex) w -> kept w0 (release ex w).2.
Proof.
  intros Hh. unfold release. pose proof (pools_held_kept _ _ _ _ Hh (destroy_kept (ex_cgroups ex) w)) as (H0 & Dv & Dh & Dl). destruct (cgroup_context_destroy _ w) as [ctx w1]. cbn [snd] in H0.
  pose proof (pool_destroy_holds w0 w1 _ _ H0 Dv) as H1. destruct (pool_destroy (victim_pool _) w1) as [v w2]. cbn [snd] in H1.
  pose proof (pool_destroy_holds w0 w2 _ _ H1 Dh) as H2. destruct (pool_destroy (high_pool _) w2) as [h w3]. cbn [snd] in H2.
  pose proof (pool_destroy_holds w0 w3 _ _ H2 Dl) as H3. destruct (pool_destroy (low_pool _) w3) as [l w4]. cbn [snd] in *. apply holds_nothing.
  assert (E : pools_regions (ex_pools ex) ∖ pool_region (victim_pool (ex_pools ex)) ∖ pool_region (high_pool (ex_pools ex)) ∖ pool_region (low_pool (ex_pools ex)) = ∅) by (unfold pools_regions; set_solver).
  by rewrite E in H3.
Qed.

(** ** What it takes to succeed

    The steps of a run, each of which answers that it succeeded; none of them is
    stated by what [main] makes of the answers. *)

Inductive pools_made (cfg : config) (sz : Z) w : pools -> W -> Prop :=
| pools_made_all v w1 h w2 l w3 :
    pool_create "victim" (pool_mib cfg) sz (Z.lxor (seed cfg) 0x1111111111111111) memory_pool_zero w = (0, v, w1) ->
    pool_create "high" (pool_mib cfg) sz (Z.lxor (seed cfg) 0x2222222222222222) memory_pool_zero w1 = (0, h, w2) ->
    pool_create "low" (pool_mib cfg) sz (Z.lxor (seed cfg) 0x3333333333333333) memory_pool_zero w2 = (0, l, w3) ->
    pools_made cfg sz w (mk_pools v h l) w3.

Inductive sets_collected (ps : pools) (m : dram_mapping) (ocs : list Z) (space : Z) (vc lc : list Z) (cfg : config) (quota : Z) w : line_sets -> W -> Prop :=
| sets_collected_all v w1 h w2 l w3 :
    collect_line_set (victim_pool ps) m ocs space vc (group_classes cfg) quota (Z.lxor (seed cfg) 0x4444444444444444) line_set_zero w = (0, v, w1) ->
    collect_line_set (high_pool ps) m ocs space vc (group_classes cfg) quota (Z.lxor (seed cfg) 0x5555555555555555) line_set_zero w1 = (0, h, w2) ->
    collect_line_set (low_pool ps) m ocs space lc (group_classes cfg) quota (Z.lxor (seed cfg) 0x6666666666666666) line_set_zero w2 = (0, l, w3) ->
    sets_collected ps m ocs space vc lc cfg quota w (mk_line_sets v h l) w3.

Inductive chains_built (sets : line_sets) (lines : Z) (cfg : config) w : W -> Prop :=
| chains_built_all perm w1 victim w2 high w3 low w4 :
    make_permutation lines (Z.lxor (seed cfg) 0x7777777777777777) [] w = (0, perm, w1) ->
    build_single_chain (victim_set sets) perm w1 = (Some victim, w2) ->
    build_multi_chain (high_set sets) perm AGGRESSOR_STREAMS w2 = (Some high, w3) ->
    build_multi_chain (low_set sets) perm AGGRESSOR_STREAMS w3 = (Some low, w4) ->
    chains_built sets lines cfg w w4.

(** Each condition of the order is run, one after the other. *)
Inductive conditions_run (cfg : config) (cgroups : cgroup_context) : list condition -> W -> W -> Prop :=
| conditions_run_none w : conditions_run cfg cgroups [] w w
| conditions_run_next c cs r w w1 w2 :
    run_condition result_size result_of_bytes fuel c cfg cgroups condition_result_zero w = Some (0, r, w1) ->
    conditions_run cfg cgroups cs w1 w2 -> conditions_run cfg cgroups (c :: cs) w w2.

(** All steps from the mapping to the page frames. *)
Inductive experiment_succeeds (cfg : config) (sz : Z) w : Prop :=
| every_step calibration m w1 space ocs w2 lines quota ps w3 vc lc w4 sets w5 o w6 w7 cgroups w8 w9 w10 w11 w12 :
    load_mapping (mk_calibration_result false false (replicate 32 0) 0 "" calibration_metrics_zero 0 "") dram_mapping_zero w = (0, calibration, Some m, w1) ->
    class_space_from_mapping (Some m) = Some space ->
    build_offset_classes (Some m) sz w1 = (Some ocs, w2) ->
    workset_plan (workset_mib cfg) (group_classes cfg) = Some (lines, quota) ->
    pools_made cfg sz w2 ps w3 ->
    choose_classes ps m ocs space cfg quota w3 = (Some (vc, lc), w4) ->
    sets_collected ps m ocs space vc lc cfg quota w4 sets w5 ->
    accept_sets sets m space w5 = (Some o, w6) ->
    chains_built sets lines cfg w6 w7 ->
    cgroup_context_create fuel w7 = Some (0, cgroups, w8) ->
    conditions_run cfg cgroups (order cfg) w8 w9 ->
    frames_unmoved (victim_pool ps) w9 w10 -> frames_unmoved (high_pool ps) w10 w11 -> frames_unmoved (low_pool ps) w11 w12 ->
    experiment_succeeds cfg sz w.

Lemma create_pools_made cfg sz w ps w' : create_pools cfg sz pools_zero w = (true, ps, w') <-> pools_made cfg sz w ps w'.
Proof.
  unfold create_pools. cbn [victim_pool high_pool low_pool pools_zero]. split.
  - destruct (pool_create "victim" _ _ _ _ w) as [[rc1 v] w1] eqn:E1. destruct (Z.eqb_spec rc1 0) as [->|]; cbn [negb]; [|done].
    destruct (pool_create "high" _ _ _ _ w1) as [[rc2 h] w2] eqn:E2. destruct (Z.eqb_spec rc2 0) as [->|]; cbn [negb]; [|done].
    destruct (pool_create "low" _ _ _ _ w2) as [[rc3 l] w3] eqn:E3. intros E. injection E as Hrc <- <-. apply Z.eqb_eq in Hrc as ->. by econstructor.
  - intros [v w1 h w2 l w3 -> E2 E3]. cbn [Z.eqb negb]. rewrite E2. cbn [Z.eqb negb]. by rewrite E3.
Qed.

Lemma collect_sets_collected ps m ocs space vc lc cfg quota w sets w' :
  collect_sets ps m ocs space vc lc cfg quota line_sets_zero w = (true, sets, w') <-> sets_collected ps m ocs space vc lc cfg quota w sets w'.
Proof.
  unfold collect_sets. cbn [victim_set high_set low_set line_sets_zero]. split.
  - destruct (collect_line_set (victim_pool ps) _ _ _ _ _ _ _ _ w) as [[rc1 v] w1] eqn:E1. destruct (Z.eqb_spec rc1 0) as [->|]; cbn [negb]; [|done].
    destruct (collect_line_set (high_pool ps) _ _ _ _ _ _ _ _ w1) as [[rc2 h] w2] eqn:E2. destruct (Z.eqb_spec rc2 0) as [->|]; cbn [negb]; [|done].
    destruct (collect_line_set (low_pool ps) _ _ _ _ _ _ _ _ w2) as [[rc3 l] w3] eqn:E3. intros E. injection E as Hrc <- <-. apply Z.eqb_eq in Hrc as ->. by econstructor.
  - intros [v w1 h w2 l w3 -> E2 E3]. cbn [Z.eqb negb]. rewrite E2. cbn [Z.eqb negb]. by rewrite E3.
Qed.

Lemma build_chains_built sets lines cfg w w' : build_chains sets lines cfg w = (true, w') <-> chains_built sets lines cfg w w'.
Proof.
  unfold build_chains. split.
  - destruct (make_permutation _ _ _ w) as [[rc perm] w1] eqn:E1. destruct (Z.eqb_spec rc 0) as [->|]; cbn [negb]; [|done].
    destruct (build_single_chain _ _ w1) as [[victim|] w2] eqn:E2; [|done]. rewrite bool_decide_eq_true_2 by done. cbn [negb].
    destruct (build_multi_chain (high_set sets) _ _ w2) as [[high|] w3] eqn:E3; [|done]. rewrite bool_decide_eq_true_2 by done. cbn [negb].
    destruct (build_multi_chain (low_set sets) _ _ w3) as [[low|] w4] eqn:E4; [|done]. intros E. injection E as <-. by econstructor.
  - intros [perm w1 victim w2 high w3 low w4 -> E2 E3 E4]. cbn [Z.eqb negb]. rewrite E2, bool_decide_eq_true_2 by done. cbn [negb]. rewrite E3, bool_decide_eq_true_2 by done. cbn [negb].
    by rewrite E4.
Qed.

Lemma conditions_loop_run cfg cgroups cs : forall results w w',
  (exists x, conditions_loop result_size result_of_bytes fuel cs cfg cgroups results w = Some (Some x, w')) <-> conditions_run cfg cgroups cs w w'.
Proof.
  induction cs as [|c cs IH]; intros results w w'; cbn [conditions_loop].
  - split; [intros [x E]; injection E as _ <-; constructor|intros H; inversion H; subst; by eexists].
  - split.
    + destruct (run_condition _ _ _ _ _ _ _ w) as [[[rc r] w1]|] eqn:E1; [|by intros [? ?]]. destruct (Z.eqb_spec rc 0) as [->|]; cbn [negb]; [|by intros [? ?]].
      destruct (conditions_loop _ _ _ cs _ _ _ w1) as [[[[rs ms]|] w2]|] eqn:E2; [|by intros [? ?]..]. intros [x E]. injection E as _ <-.
      eapply conditions_run_next; [exact E1|]. apply (IH (<[condition_index c := r]> results)). by eexists.
    + intros H. inversion H as [|? ? r ? w1 ? E1 Hr]; subst. rewrite E1. cbn [Z.eqb negb]. apply (IH (<[condition_index c := r]> results)) in Hr as [[rs ms] ->]. by eexists.
Qed.

Lemma pools_made_countable cfg sz w ps w' : 0 < sz -> pools_made cfg sz w ps w' -> countable (victim_pool ps) /\ countable (high_pool ps) /\ countable (low_pool ps).
Proof. intros Hs [v w1 h w2 l w3 E1 E2 E3]. cbn. split; [by eapply pool_create_countable|]. split; by eapply pool_create_countable. Qed.

Lemma verify_pools_unmoved ps w w' : countable (victim_pool ps) -> countable (high_pool ps) -> countable (low_pool ps) ->
  verify_pools ps w = (true, w') <-> exists w1 w2, frames_unmoved (victim_pool ps) w w1 /\ frames_unmoved (high_pool ps) w1 w2 /\ frames_unmoved (low_pool ps) w2 w'.
Proof.
  intros Cv Ch Cl. unfold verify_pools. split.
  - destruct (verify_pool_pfns (victim_pool ps) w) as [[[vm vu]|] w1] eqn:E1; [|done]. destruct (verify_pool_pfns (high_pool ps) w1) as [[[hm hu]|] w2] eqn:E2; [|done].
    destruct (verify_pool_pfns (low_pool ps) w2) as [[[lm lu]|] w3] eqn:E3; [|done]. intros E. injection E as Hb <-. apply negb_true_iff in Hb. bool_hyps.
    assert (vm = 0 /\ vu = 0 /\ hm = 0 /\ hu = 0 /\ lm = 0 /\ lu = 0) as (-> & -> & -> & -> & -> & ->) by lia.
    exists w1, w2. split; [by apply verify_unmoved|]. split; by apply verify_unmoved.
  - intros (w1 & w2 & H1%verify_unmoved & H2%verify_unmoved & H3%verify_unmoved); try done. by rewrite H1, H2, H3.
Qed.

Lemma perform_succeeds cfg sz w : 0 < sz -> (exists r ex w', perform result_size result_of_bytes fuel cfg sz w = Some (Some r, ex, w')) <-> experiment_succeeds cfg sz w.
Proof.
  intros Hsz. unfold perform, prepare, prepare_lines, select_lines. cbn [ex_pools ex_sets experiment_zero]. split.
  - intros (r & ex & w' & E). revert E. destruct (load_mapping _ _ w) as [[[rc c] m] w1] eqn:E1. destruct (Z.eqb_spec rc 0) as [->|]; cbn [negb]; [|done].
    destruct (load_mapping_ok _ _ _ _ _ _ E1) as (m' & -> & _). cbn [default from_option id].
    destruct (class_space_from_mapping _) as [space|] eqn:E2; [|done]. destruct (build_offset_classes _ _ w1) as [[ocs|] w2] eqn:E3; [|done].
    destruct (workset_plan _ _) as [[lines quota]|] eqn:E4; [|done]. destruct (create_pools _ _ _ w2) as [[[|] ps] w3] eqn:E5; cbn [negb]; [|done]. apply create_pools_made in E5.
    destruct (choose_classes _ _ _ _ _ _ w3) as [[[vc lc]|] w4] eqn:E6; [|done]. destruct (collect_sets _ _ _ _ _ _ _ _ _ w4) as [[[|] sets] w5] eqn:E7; cbn [negb]; [|done]. apply collect_sets_collected in E7.
    destruct (accept_sets _ _ _ w5) as [[o|] w6] eqn:E8; [|done]. cbn [ex_sets ex_pools ex_cgroups].
    destruct (build_chains _ _ _ w6) as [[|] w7] eqn:E9; cbn [negb]; [|done]. apply build_chains_built in E9.
    destruct (cgroup_context_create fuel w7) as [[[rc2 ctx] w8]|] eqn:E10; [|done]. destruct (Z.eqb_spec rc2 0) as [->|]; cbn [negb]; [|done].
    destruct (conditions_loop _ _ _ _ _ _ _ w8) as [[[[rs ms]|] w9]|] eqn:E11; [|done..].
    destruct (verify_pools ps w9) as [[|] w10] eqn:E12; [|done]. intros _. destruct (pools_made_countable _ _ _ _ _ Hsz E5) as (C1 & C2 & C3).
    apply verify_pools_unmoved in E12 as (w11 & w12 & F1 & F2 & F3); [|done..].
    eapply every_step; try done. apply (conditions_loop_run cfg ctx (order cfg) (replicate 4 condition_result_zero)). by eexists.
  - intros [c m w1 space ocs w2 lines quota ps w3 vc lc w4 sets w5 o w6 w7 ctx w8 w9 w10 w11 w12 E1 E2 E3 E4 E5 E6 E7 E8 E9 E10 E11 F1 F2 F3].
    destruct (pools_made_countable _ _ _ _ _ Hsz E5) as (C1 & C2 & C3). rewrite E1. cbn [Z.eqb negb default from_option id]. rewrite E2, E3, E4.
    apply create_pools_made in E5. rewrite E5. cbn [negb]. rewrite E6. apply collect_sets_collected in E7. rewrite E7. cbn [negb]. rewrite E8. cbn [ex_sets ex_pools ex_cgroups].
    apply build_chains_built in E9. rewrite E9. cbn [negb]. rewrite E10. cbn [Z.eqb negb].
    apply (conditions_loop_run cfg ctx (order cfg) (replicate 4 condition_result_zero)) in E11 as [[rs ms] ->].
    assert (Ev : verify_pools ps w9 = (true, w12)) by (apply verify_pools_unmoved; [done..|by exists w10, w11]). rewrite Ev. by eexists _, _, _.
Qed.

(** The arguments were accepted, and every step succeeded. *)
Definition run_succeeds (args : list string) w : Prop :=
  exists cfg sz w1, parse_args args (Some config_zero) = ArgsOk cfg /\ os_pagesize w = (sz, w1) /\ 0 < sz /\ experiment_succeeds cfg sz w1.

Lemma run_succeeds_from args cfg w sz w1 : parse_args args (Some config_zero) = ArgsOk cfg -> os_pagesize w = (sz, w1) ->
  run_succeeds args w <-> 0 < sz /\ experiment_succeeds cfg sz w1.
Proof.
  intros Ea Ep. unfold run_succeeds. rewrite Ea, Ep. split; [|intros Hx; by exists cfg, sz, w1].
  intros (cfg' & sz' & w1' & E1 & E2 & Hx). injection E1 as <-. injection E2 as <- <-. exact Hx.
Qed.

(** C6: the control experiment ends and leaves nothing behind. Whatever its
    arguments and whatever the calls answer, [main] returns, with no child left to
    wait for, and with the same descriptors and streams open and the same memory
    mapped as before. A child is only waited for when it will end, since on any other
    [waitpid] may block for ever: it was let run after its stop, or it was killed.
    The exit code is success exactly when help was asked for, or the arguments
    were accepted and every step succeeded: the mapping and the classes, the three
    pools, the choice, the collection and the acceptance of the lines, the chains,
    the cgroups, each condition of the order, and in the end every page of every
    pool still has the frame it had. The fuel needs only to exceed the bytes of a
    control text and of a worker's result. *)
Theorem control_main_releases args w : exists code r w', main result_size result_of_bytes fuel args w = Some (code, r, w') /\ kept w w' /\
  (code = EXIT_SUCCESS <-> parse_args args (Some config_zero) = ArgsHelp \/ run_succeeds args w).
Proof.
  unfold main. destruct (parse_args args (Some config_zero)) as [cfg| |] eqn:Ea.
  2-3: eexists _, _, _; (split; [reflexivity|]); (split; [done|]); split; [tauto || done|]; intros [?|(? & ? & ? & ? & _)]; congruence.
  pose proof (machine_pagesize w) as H1. destruct (os_pagesize w) as [sz w1] eqn:Ep. cbn [snd] in H1. pose proof (run_succeeds_from _ _ _ _ _ Ea Ep) as Hiff.
  destruct (Z.leb_spec sz 0) as [Hle|Hpos].
  { eexists _, _, _. split; [reflexivity|]. split; [done|]. split; [done|]. intros [?|[? _]%Hiff]; [done|lia]. }
  pose proof (perform_succeeds cfg sz w1 Hpos) as Hs. destruct (perform_ends cfg sz w1) as (r & ex & w2 & E & Hh). rewrite E in Hs |- *.
  pose proof (transitivity H1 (control_release_kept _ _ _ Hh)) as H2. destruct (release ex w2) as [ex' w3]. cbn [snd] in H2.
  eexists _, _, _. split; [reflexivity|]. split; [exact H2|]. rewrite Hiff, <- Hs. destruct r as [r|]; cbn; [split; [intros _; right; split; [done|by eexists _, _, _]|done]|].
  split; [done|]. by intros [?|[_ (? & ? & ? & ?)]].
Qed.
End Release.
