(* ===== verification/OracleDemo.v ===== *)
(** * A small machine for the bank-overlap experiment

    An executable instance of the interfaces the experiment uses, and the laws it
    satisfies: mappings handed out one after the other, words in memory, a page
    map whose frames are the page numbers, a clock that advances a second per
    reading, descriptors, children that stop, block a wait until they are let run
    or killed, and then succeed, and a log of what was written. *)
From S2P Require Import Prelude Float64 CString Os Calibration CalibrationLoad CalibrationRun DramMapping OracleSys OracleConfig OraclePool OracleLines OracleClasses OracleSelect OracleStages OracleAccept.
From S2P Require Import OracleChain OracleChainProps OracleIo OracleRun OracleMain OracleStepProps OracleRunProps OracleMainProps.
From Stdlib Require Import Ascii String.
Local Open Scope Z_scope.

Record lab := mk_lab {
  lab_words : gmap Z Z;
  lab_next : Z;                        (* pages mapped so far *)
  lab_seconds : Z;
  lab_fds : gset Z;
  lab_paths : gmap Z string;
  lab_children : gmap Z worker_phase;
  lab_log : list (string * list Z);
  lab_binary : string;                 (* the file read in binary mode *)
  lab_regions : gset (Z * Z);          (* mappings *)
  lab_dropped : list (Z * Z);          (* ranges given back *)
  lab_streams : Z;                     (* streams and descriptors opened and not closed *)
  lab_open : Z
}.

#[export] Instance lab_settable : Settable lab :=
  fun s => mk_lab (lab_words s) (lab_next s) (lab_seconds s) (lab_fds s) (lab_paths s) (lab_children s) (lab_log s) (lab_binary s)
    (lab_regions s) (lab_dropped s) (lab_streams s) (lab_open s).

Definition lab_start : lab := mk_lab ∅ 0 0 ∅ ∅ ∅ [] "" ∅ [] 0 0.

(** A number above all members of a set. *)
Definition above (X : gset Z) : Z := 1 + foldr Z.max 0 (elements X).

Lemma above_spec X x : x ∈ X -> x < above X.
Proof.
  intros Hx. apply elem_of_elements in Hx. unfold above. induction (elements X) as [|y l IH]; [by apply elem_of_nil in Hx|].
  apply elem_of_cons in Hx as [->|Hx]; cbn [foldr]; [lia|]. specialize (IH Hx). lia.
Qed.

Lemma above_pos X : 0 < above X.
Proof. unfold above. induction (elements X); cbn [foldr]; lia. Qed.

Definition lab_opened (path : string) (s : lab) : Z * lab :=
  let fd := above (lab_fds s) in
  (fd, s <| lab_fds ::= union {[fd]} |> <| lab_paths ::= <[fd := path]> |> <| lab_open ::= Z.add 1 |>).

(** The entry of the page map at an offset: the page is its own frame. *)
Definition lab_entry (off : Z) : list Z :=
  let n := (off / 8) mod 2 ^ 32 in
  [n mod 256; n / 256 mod 256; n / 65536 mod 256; n / 16777216 mod 256; 0; 0; 0; 128].

#[export] Instance lab_os : OS lab := {|
  os_pagesize s := (4096, s);
  os_clk_tck s := (100, s);
  os_clock s := (Some (lab_seconds s, 0), s);
  os_open path s := lab_opened path s;
  os_pread fd n off s := (Some (take (Z.to_nat n) (lab_entry off)), s);
  os_close fd s := s <| lab_fds ::= fun X => X ∖ {[fd]} |> <| lab_open ::= fun n => n - 1 |>;
  os_fopen path s := (None, s);
  os_fclose s := (true, s <| lab_streams ::= fun n => n - 1 |>);
  os_readlink path s := (None, s);
  os_calloc n size s := (true, s);
  os_fopen_w path s := (false, s);
  os_fprintf path text s := (false, s);
  os_fclose_w path s := (false, s)
|}.

(** Mappings start after all earlier ones. *)
Definition lab_free_page (s : lab) : Z := Z.max 0 (lab_next s) + above (set_map fst (lab_regions s)).

#[export] Instance lab_memory : Memory lab := {|
  mm_mmap bytes s :=
    let page := lab_free_page s in
    if page * 4096 + bytes <? 18446744073709551616
    then (Some (page * 4096), s <| lab_next := page + Z.max 0 bytes / 4096 |> <| lab_regions ::= union {[(page * 4096, bytes)]} |>) else (None, s);
  mm_madvise base bytes s := (true, s);
  mm_munmap base bytes s := s <| lab_regions ::= fun X => X ∖ {[(base, bytes)]} |>;
  mm_malloc bytes s := (true, s);
  mm_store_byte a b s := s;
  mm_store a v s := s <| lab_words ::= <[a := v]> |>;
  mm_load a s := default 0 (lab_words s !! a)
|}.

#[export] Instance lab_clock : RawClock lab := {| rc_clock s := (Some (lab_seconds s, 0), s <| lab_seconds ::= Z.add 1 |>) |}.

(** Control files list three controllers; a pipe yields zeros. *)
Definition lab_contents (path : option string) (n : Z) : list Z :=
  match path with
  | Some _ => take (Z.to_nat n) (text_bytes ("cpu io memory" +:+ String newline EmptyString))
  | None => replicate (Z.to_nat n) 0
  end.

#[export] Instance lab_files : Files lab := {|
  fl_getpid _ := 4242;
  fl_open_write path s := lab_opened path s;
  fl_write fd bytes s :=
    (inl (Z.of_nat (List.length bytes)), match lab_paths s !! fd with Some path => s <| lab_log ::= fun l => l ++ [(path, bytes)] |> | None => s end);
  fl_read fd n s := (inl (lab_contents (lab_paths s !! fd) n), s);
  fl_mkdir path s := (true, s);
  fl_rmdir path s := s;
  fl_pipe s :=
    let r := above (lab_fds s) in
    (Some (r, r + 1), s <| lab_fds ::= union {[r; r + 1]} |> <| lab_paths ::= fun p => delete r (delete (r + 1) p) |> <| lab_open ::= Z.add 2 |>)
|}.

#[export] Instance lab_workers : Workers lab := {|
  wk_fork s := let pid := above (dom (lab_children s)) in (Some pid, s <| lab_children ::= <[pid := Starting]> |>);
  wk_wait untraced pid s :=
    match lab_children s !! pid with
    | None => Some (WaitError ESRCH, s)
    | Some Ending => Some (WaitReaped (WExited 0), s <| lab_children ::= delete pid |>)
    | Some Starting => if untraced then Some (WaitStopped, s <| lab_children ::= <[pid := Stopped]> |>) else None
    | Some Stopped => None
    end;
  wk_kill pid sig s := (true, s <| lab_children ::= alter (match sig with SIG_CONT => wake | SIG_KILL => kill end) pid |>);
  wk_setaffinity cpu s := (true, s);
  wk_raise_stop s := (true, s)
|}.

#[export] Instance lab_binfile : BinFile lab := {|
  bf_fopen path s := (true, s <| lab_binary := demo_json |> <| lab_streams ::= Z.add 1 |>);
  bf_seek_end s := (true, s);
  bf_tell s := (strlen (lab_binary s), s);
  bf_seek_set s := (true, s);
  bf_fread n s := (str_take (Z.to_nat n) (lab_binary s), s);
  bf_fclose s := (true, s <| lab_streams ::= fun n => n - 1 |>)
|}.

(** ** Its laws *)

#[export] Program Instance lab_memory_laws : MemoryLaws lab.
Next Obligation. intros a v s. cbn. by rewrite lookup_insert_eq. Qed.
Next Obligation. intros a b v s Hab. cbn. rewrite lookup_insert_ne by lia. done. Qed.
Next Obligation.
  intros bytes s base. cbn. pose proof (above_pos (set_map fst (lab_regions s))) as Hp. unfold lab_free_page.
  destruct (Z.ltb_spec ((Z.max 0 (lab_next s) + above (set_map fst (lab_regions s))) * 4096 + bytes) 18446744073709551616); [|done].
  intros E. injection E as <-. split; [lia|]. split; [by apply Z.mod_mul|done].
Qed.

#[export] Instance lab_clock_laws : ClockLaws lab.
Proof. by split. Qed.

Lemma lab_allocations : allocations_succeed lab.
Proof. done. Qed.

(** The descriptors are the members that can be. *)
Definition lab_open_fds (s : lab) : gset Z := filter (fun x => 0 <= x) (lab_fds s).

Lemma lab_opened_fds path s : lab_children (lab_opened path s).2 = lab_children s /\
  (if (lab_opened path s).1 <? 0 then lab_open_fds (lab_opened path s).2 = lab_open_fds s
   else ((lab_opened path s).1 ∉ lab_open_fds s) /\ lab_open_fds (lab_opened path s).2 = ({[(lab_opened path s).1]} ∪ lab_open_fds s)).
Proof.
  cbn. pose proof (above_pos (lab_fds s)) as Hp. destruct (Z.ltb_spec (above (lab_fds s)) 0); [lia|]. split; [done|]. unfold lab_open_fds. cbn. split.
  - intros [_ Hin]%elem_of_filter. apply above_spec in Hin. lia.
  - apply set_eq. intros x. rewrite elem_of_union, !elem_of_filter, elem_of_union, elem_of_singleton. naive_solver lia.
Qed.

#[export] Program Instance lab_worker_laws : WorkerLaws lab := {| workers := lab_children; open_fds := lab_open_fds; others s := (lab_regions s, lab_streams s) |}.
Next Obligation. intros f s Hf. destruct Hf; cbn; try done; repeat case_match; done. Qed.
Next Obligation. intros x s Hx. unfold lab_open_fds in Hx. by apply elem_of_filter in Hx as [? _]. Qed.
Next Obligation. exact lab_opened_fds. Qed.
Next Obligation. exact lab_opened_fds. Qed.
Next Obligation.
  intros fd s. cbn. split; [done|]. unfold lab_open_fds. cbn. apply set_eq. intros x. rewrite elem_of_difference, !elem_of_filter, elem_of_difference. tauto.
Qed.
Next Obligation.
  intros s. cbn. split; [done|]. pose proof (above_pos (lab_fds s)) as Hp. unfold lab_open_fds. cbn.
  assert (Hno : forall x, above (lab_fds s) <= x -> x ∉ filter (fun x => 0 <= x) (lab_fds s)).
  { intros x Hx [_ Hin]%elem_of_filter. apply above_spec in Hin. lia. }
  conjs; try lia; try (apply Hno; lia). apply set_eq. intros x. rewrite !elem_of_union, !elem_of_filter, !elem_of_union, !elem_of_singleton. naive_solver lia.
Qed.
Next Obligation. intros fd bytes s. cbn. split; [|lia]. by destruct (lab_paths s !! fd). Qed.
Next Obligation.
  intros fd n s. cbn. split; [done|]. unfold lab_contents. destruct (lab_paths s !! fd); rewrite ?length_take, ?length_replicate; lia.
Qed.
Next Obligation.
  intros s. cbn. split; [done|]. pose proof (above_pos (dom (lab_children s))). conjs; [lia| |done]. apply not_elem_of_dom. intros Hin%above_spec. lia.
Qed.
Next Obligation.
  intros untraced pid s. cbn. destruct (lab_children s !! pid) as [[| |]|] eqn:E; cbn; [|by exists Stopped|done|done]. destruct untraced; [|by exists Starting].
  cbn. conjs; try done. apply map_eq. intros x. destruct (decide (x = pid)) as [->|]; [by rewrite lookup_insert_eq, lookup_alter_eq, E|by rewrite lookup_insert_ne, lookup_alter_ne].
Qed.
Next Obligation. by intros pid [] s. Qed.

#[export] Program Instance lab_write_laws : WriteLaws lab := {| fd_path s fd := lab_paths s !! fd; written := lab_log |}.
Next Obligation. intros path s. cbn. split; [done|]. intros _. by rewrite lookup_insert_eq. Qed.
Next Obligation.
  intros fd bytes path s Hp. cbn in *. rewrite Hp. cbn. split; [done|]. by rewrite Nat2Z.id, firstn_all.
Qed.
Next Obligation. done. Qed.

(** * The experiment on a small machine

    The theorems about the bank-overlap experiment applied to the machine
    above: two masks, pools of two pages, and the pools of a megabyte that
    the machine itself hands out. *)

(** The masks of [demo_json]. *)
Definition lab_mapping : dram_mapping := mk_dram_mapping ([8256; 147456] ++ replicate 30 0) 2 "6f1ed002ab559585" true.

Lemma lab_mapping_wf : wf_mapping lab_mapping.
Proof. split; [cbn; unfold DRAM_MAPPING_MAX_MASKS, CALIBRATION_MAX_BANK_MASKS; lia|]. split; [|done]. cbn. repeat constructor; unfold in_u64; lia. Qed.

Definition lab_pool (name : string) (base : Z) (frames : list Z) : memory_pool := mk_memory_pool name (Some base) 8192 4096 2 frames.

Definition lab_pools : pools := mk_pools (lab_pool "victim" 65536 [1; 5]) (lab_pool "high" 131072 [9; 13]) (lab_pool "low" 196608 [17; 21]).

Lemma lab_pool_ok name base f g : 0 < base < 1000000 -> 0 <= f -> 0 <= g -> pool_ok (lab_pool name base [f; g]) base 12.
Proof. intros Hb Hf Hg. split; cbn; try done; try lia. by repeat constructor. Qed.

Lemma lab_pools_ok : pools_ok lab_pools 65536 131072 196608 12.
Proof. split; by apply lab_pool_ok. Qed.

(** Two classes per group, one megabyte per pool. *)
Definition lab_config : config := mk_config 1 1 2 1 14 12 10 50000 100000 7 true all_conditions.

Lemma select_lines_outcome_witness :
  exists o sets w v l, select_lines lab_pools lab_mapping (offset_classes lab_mapping 12) (2 ^ mask_count lab_mapping) lab_config 4 line_sets_zero lab_start = (Some o, sets, w) /\
    selected lab_mapping 12 65536 131072 196608 lab_pools 4 v l sets /\ low_intersection o = 0.
Proof.
  pose proof (select_lines_outcome lab_mapping 12 65536 131072 196608 lab_pools lab_config 4 lab_mapping_wf ltac:(cbn; lia) lab_pools_ok ltac:(cbn; lia) ltac:(lia)
    line_sets_zero lab_start lab_allocations) as H.
  assert (Hsome : bool_decide (is_Some (select_lines lab_pools lab_mapping (offset_classes lab_mapping 12) (2 ^ mask_count lab_mapping) lab_config 4 line_sets_zero lab_start).1.1) = true)
    by (vm_compute; reflexivity).
  destruct (select_lines _ _ _ _ _ _ _ _) as [[[o|] sets] w]; [|by apply bool_decide_eq_true in Hsome as [? ?]].
  destruct H as (v & l & _ & Hs & _ & Ho). by exists o, sets, w, v, l.
Defined.

Lemma prepare_lines_sound_witness :
  exists o ps sets w bv bh bl v l, prepare_lines lab_mapping (offset_classes lab_mapping 12) (2 ^ mask_count lab_mapping) lab_config (2 ^ 12) 4 pools_zero line_sets_zero lab_start
      = (Some o, ps, sets, w) /\
    pools_created ps lab_config bv bh bl 12 /\ selected lab_mapping 12 bv bh bl ps 4 v l sets /\ low_intersection o = 0.
Proof.
  pose proof (prepare_lines_sound lab_mapping 12 lab_config 4 lab_start) as H.
  assert (Hsome : bool_decide (is_Some (prepare_lines lab_mapping (offset_classes lab_mapping 12) (2 ^ mask_count lab_mapping) lab_config (2 ^ 12) 4 pools_zero line_sets_zero lab_start).1.1.1) = true)
    by (vm_compute; reflexivity).
  destruct (prepare_lines _ _ _ _ _ _ _ _ _) as [[[[o|] ps] sets] w]; [|by apply bool_decide_eq_true in Hsome as [? ?]].
  destruct (H o ps sets w lab_mapping_wf ltac:(cbn; lia) ltac:(lia) ltac:(unfold in_u64; cbn; lia) ltac:(cbn; lia) ltac:(lia) eq_refl) as (bv & bh & bl & v & l & H1 & _ & H3 & H4).
  by exists o, ps, sets, w, bv, bh, bl, v, l.
Defined.

Lemma lab_config_ok : config_ok lab_config.
Proof.
  split; cbn; unfold in_u64, UINT_MAX; try lia; [|done]. repeat (apply NoDup_cons; split; [set_solver|]). apply NoDup_nil_2.
Qed.

(** The calibration is loaded on the way. *)
Lemma prepare_sound_witness :
  config_ok lab_config /\ (load_mapping example_calibration dram_mapping_zero lab_start).1.1.1 = 0 /\
  match prepare lab_config (2 ^ 12) experiment_zero lab_start with
  | (Some (workset_lines, o), ex, _) => exists m quota, wf_mapping m /\ workset_lines = group_classes lab_config * quota /\ low_intersection o = 0
  | _ => True
  end.
Proof.
  split; [exact lab_config_ok|]. split; [vm_compute; reflexivity|]. pose proof (prepare_sound lab_config 12 lab_start lab_config_ok ltac:(lia)) as H.
  destruct (prepare _ _ _ _) as [[[[lines o]|] ex] w]; [|done]. destruct H as (m & quota & _ & _ & _ & _ & _ & H1 & _ & H3 & _ & _ & _ & _ & H8). by exists m, quota.
Defined.

(** Eight lines of two classes of the victim's pool. *)
Definition lab_collected : Z * line_set * lab :=
  collect_line_set (lab_pool "victim" 65536 [1; 5]) lab_mapping (offset_classes lab_mapping 12) (2 ^ mask_count lab_mapping) [3; 0] 2 12 77 line_set_zero lab_start.

Lemma lab_selection : exists L, selection lab_mapping (lab_pool "victim" 65536 [1; 5]) 65536 12 [3; 0] 12 lab_collected.1.2 L.
Proof.
  pose proof (collect_line_set_spec lab_mapping (lab_pool "victim" 65536 [1; 5]) 65536 12 lab_mapping_wf (lab_pool_ok "victim" 65536 1 5 ltac:(lia) ltac:(lia) ltac:(lia)) ltac:(cbn; lia)
    [3; 0] 12 77 line_set_zero lab_start ltac:(done)) as H.
  change (Z.of_nat (List.length [3; 0])) with 2 in H. assert (Hrc : lab_collected.1.1 = 0) by (vm_compute; reflexivity). unfold lab_collected in *.
  destruct (collect_line_set _ _ _ _ _ _ _ _ _) as [[rc set] w]. cbn [fst snd] in *.
  destruct H as [[_ HL]|[H _]]; [repeat (apply NoDup_cons; split; [set_solver|]); apply NoDup_nil_2|cbn; repeat constructor; lia|lia|exact HL|congruence].
Qed.

Definition lab_permutation : Z * list Z * lab := make_permutation (ls_line_count lab_collected.1.2) 99 [] lab_start.

Lemma lab_permuted : make_permutation (ls_line_count lab_collected.1.2) 99 [] lab_start = (0, lab_permutation.1.2, lab_permutation.2).
Proof.
  assert (Hrc : lab_permutation.1.1 = 0) by (vm_compute; reflexivity). unfold lab_permutation in *. destruct (make_permutation _ _ _ _) as [[rc p] w].
  cbn [fst snd] in *. by rewrite Hrc.
Qed.

Lemma victim_chain_visits_all_witness : 0 < ls_line_count lab_collected.1.2 /\
  exists root w, build_single_chain lab_collected.1.2 lab_permutation.1.2 lab_permutation.2 = (Some root, w) /\
    visits (Z.to_nat (ls_line_count lab_collected.1.2)) root w ≡ₚ ls_addresses lab_collected.1.2.
Proof.
  assert (Hpos : 0 < ls_line_count lab_collected.1.2) by (vm_compute; reflexivity). split; [exact Hpos|]. destruct lab_selection as [L HL].
  destruct (victim_chain_visits_all lab_mapping (lab_pool "victim" 65536 [1; 5]) 65536 12 [3; 0] 12 lab_collected.1.2 L 99 lab_start lab_permutation.2 lab_permutation.1.2
    (lab_pool_ok "victim" 65536 1 5 ltac:(lia) ltac:(lia) ltac:(lia)) HL lab_permuted Hpos) as (root & w & E & Hv & _). exists root, w. split; [exact E|exact Hv].
Defined.

Lemma aggressor_streams_partition_witness : AGGRESSOR_STREAMS <= ls_line_count lab_collected.1.2 /\
  exists roots w lengths, build_multi_chain lab_collected.1.2 lab_permutation.1.2 AGGRESSOR_STREAMS lab_permutation.2 = (Some roots, w) /\
    zip_with (fun r n => visits n r w) roots lengths ≫= id ≡ₚ ls_addresses lab_collected.1.2.
Proof.
  assert (Hmin : AGGRESSOR_STREAMS <= ls_line_count lab_collected.1.2) by (vm_compute; discriminate). split; [exact Hmin|]. destruct lab_selection as [L HL].
  destruct (aggressor_streams_partition lab_mapping (lab_pool "victim" 65536 [1; 5]) 65536 12 [3; 0] 12 lab_collected.1.2 L 99 lab_start lab_permutation.2 lab_permutation.1.2
    (lab_pool_ok "victim" 65536 1 5 ltac:(lia) ltac:(lia) ltac:(lia)) HL lab_permuted Hmin) as (roots & w & lengths & E & _ & _ & _ & _ & Hv). exists roots, w, lengths. split; [exact E|exact Hv].
Defined.

(** A context, a condition and its end. *)
Definition lab_context : cgroup_context := mk_cgroup_context true "/sys/fs/cgroup/x" "/sys/fs/cgroup/x/high" "/sys/fs/cgroup/x/low".

Definition lab_run : option (Z * condition_result * lab) :=
  run_condition 24 (fun _ => worker_result_zero) 200 CONDITION_SELECTIVE lab_config lab_context condition_result_zero lab_start.

Lemma run_condition_cleans_up_witness : exists rc out w, lab_run = Some (rc, out, w) /\ rc = 0 /\ kept lab_start w.
Proof.
  destruct (run_condition_cleans_up 24 (fun _ => worker_result_zero) 200 CONDITION_SELECTIVE lab_config lab_context ltac:(lia) ltac:(lia) condition_result_zero lab_start)
    as (rc & out & w & E & _ & Hk).
  exists rc, out, w. split; [exact E|]. split; [|exact Hk]. assert (Hrc : (fun r => r.1.1) <$> lab_run = Some 0) by (vm_compute; reflexivity).
  unfold lab_run in Hrc. rewrite E in Hrc. by injection Hrc.
Defined.

Definition lab_state : run_state := mk_run_state (-1) (-1) (-1) (-1) (-1) (-1) (mk_condition_result worker_result_zero worker_result_zero worker_result_zero true).

Lemma control_step_writes_witness : exists s w w1, control_step 200 CONDITION_SELECTIVE lab_config lab_context lab_state lab_start = Some (true, s, w) /\
  wrote "/sys/fs/cgroup/x/high/cpu.max" (text_bytes ("50000 100000" +:+ String newline EmptyString)) lab_start w1 /\
  wrote "/sys/fs/cgroup/x/low/cpu.max" (text_bytes ("max 100000" +:+ String newline EmptyString)) w1 w.
Proof.
  pose proof (control_step_writes 200 CONDITION_SELECTIVE lab_config lab_context lab_state lab_start) as H.
  assert (Hok : (fun r => r.1.1) <$> control_step 200 CONDITION_SELECTIVE lab_config lab_context lab_state lab_start = Some true) by (vm_compute; reflexivity).
  destruct (control_step _ _ _ _ _ _) as [[[ok s] w]|]; [|done]. cbn in Hok. apply (inj Some) in Hok as ->.
  destruct (H s w eq_refl eq_refl) as (_ & w1 & H1 & H2). exists s, w, w1. split; [done|]. split; [exact H1|exact H2].
Defined.

Lemma cgroup_context_create_ready_witness : exists ctx w, cgroup_context_create 200 lab_start = Some (0, ctx, w) /\ cx_ready ctx = true /\
  run_path ctx = "/sys/fs/cgroup/oracle_6_5d_4242"%string.
Proof.
  assert (Hrc : (fun r => (r.1.1, run_path r.1.2)) <$> cgroup_context_create 200 lab_start = Some (0, "/sys/fs/cgroup/oracle_6_5d_4242"%string)) by (vm_compute; reflexivity).
  pose proof (cgroup_context_create_ready 200 lab_start) as H. destruct (cgroup_context_create 200 lab_start) as [[[rc ctx] w]|]; [|done].
  cbn in Hrc. apply (inj Some) in Hrc. injection Hrc as -> Hp. exists ctx, w. split; [done|]. destruct (H 0 ctx w eq_refl) as [[? _]|(_ & Hr & _)]; [done|]. by split.
Defined.

Lemma hot_loops_measure_witness : exists r sink w, victim_loop 5 4096 (Z_to_double 2) worker_result_zero 0 lab_start = Some (0, r, sink, w) /\ wr_ok r = 1 /\
  exists chunks, (0 < chunks)%nat /\ wr_operations r = u64 (Z.of_nat (chunks * 4096)).
Proof.
  assert (Hrc : (fun r => r.1.1.1) <$> victim_loop 5 4096 (Z_to_double 2) worker_result_zero 0 lab_start = Some 0) by (vm_compute; reflexivity).
  pose proof (hot_loops_measure 5 4096 [] (Z_to_double 2) 0 lab_start) as H. destruct (victim_loop _ _ _ _ _ _) as [[[[rc r] sink] w]|]; [|done].
  cbn in Hrc. apply (inj Some) in Hrc as ->. destruct (H r sink w) as [Hv _]. destruct (Hv eq_refl) as (H1 & _ & chunks & H2 & H3 & _). exists r, sink, w. split; [done|]. split; [done|]. by exists chunks.
Defined.
