(* ===== verification/BankWorker.v ===== *)
(** * The bank worker ([experiments/stage6_5/6_5c_bank_overlap/src/oracle_bank_worker.c])

    A process that reads cache lines of one DRAM bank class as fast as it can: it
    maps private memory, keeps the pages that hold blocks of the class, gives the
    others back, links the lines of the blocks to one shuffled cycle and follows
    it for a number of seconds.  The size of a block is the largest over which no
    mask changes the class.

    [BankWorkerProps] shows which lines are selected and that everything is
    released; the messages are not modelled. *)
From S2P Require Import Prelude Float64 CString Scan Strto Os Calibration CalibrationLoad DramMapping AddrTranslate OracleSys OracleChain OracleIo.
From Stdlib Require Import Ascii String.
Local Open Scope Z_scope.

Definition RESULT_PATH : string := "/run/protected-daemon/dram-map.json".
Definition MIB_BYTES : Z := 1048576.
Definition CACHE_LINE_BYTES : Z := 64.
Definition EXIT_SUCCESS : Z := 0.
Definition EXIT_FAILURE : Z := 1.

(** The calls on private memory. *)
Class PrivateMemory (W : Type) := {
  (** [mmap(NULL, bytes, ..., MAP_PRIVATE | MAP_ANONYMOUS, -1, 0)]: the address, [None] for [MAP_FAILED] *)
  pm_mmap : Z -> W -> option Z * W;
  (** [madvise(base, bytes, MADV_DONTNEED)] succeeded *)
  pm_dontneed : Z -> Z -> W -> bool * W
}.

(** ** The generator and the shuffle *)

(** [*state] is not NULL. The value drawn and the new state. *)
Definition rng_next (state : Z) : Z * Z :=
  let x := state in
  let x := Z.lxor x (Z.shiftr x 12) in
  let x := Z.lxor x (u64 (Z.shiftl x 25)) in
  let x := Z.lxor x (Z.shiftr x 27) in
  (u64_mul x 2685821657736338717, x).

(** [lines]: [None] is NULL; the array has at least [count] elements. *)
Definition shuffle_lines (lines : option (list Z)) (count : Z) : option (list Z) :=
  match lines with
  | None => None
  | Some ls => if count <? 2 then Some ls else Some (shuffle_loop rng_next (Z.to_nat (count - 1)) 0x123456789abcdef ls)
  end.

(** ** Arguments *)

(** [out] is not NULL. *)
Definition parse_u64 (text : option string) (base : Z) : option Z :=
  match text with
  | None => None
  | Some text =>
      match strtoull base text with
      | None => None
      | Some (value, erange, endptr) => if erange || negb (Ascii.eqb (char_at endptr 0) NUL) then None else Some value
      end
  end.

Record arguments := mk_arguments {
  target_class : Z;
  candidate_mib : Z;
  selected_mib : Z;
  run_seconds : Z;
  wait_for_cont : bool
}.

(** The numbers; [wait] is what the sixth argument said. *)
Definition parse_numbers (a1 a2 a3 a4 : string) (wait : bool) : option arguments :=
  match parse_u64 (Some a1) 0, parse_u64 (Some a2) 10, parse_u64 (Some a3) 10, parse_u64 (Some a4) 10 with
  | Some target_class, Some candidate_mib, Some selected_mib, Some run_seconds =>
      if (candidate_mib =? 0) || (selected_mib =? 0) || (run_seconds =? 0) then None
      else Some (mk_arguments target_class candidate_mib selected_mib run_seconds wait)
  | _, _, _, _ => None
  end.

(** [args] are [argv[1]] to [argv[argc - 1]]. *)
Definition parse_arguments (args : list string) : option arguments :=
  match args with
  | [a1; a2; a3; a4] => parse_numbers a1 a2 a3 a4 false
  | [a1; a2; a3; a4; a5] => if str_eq a5 "--wait" then parse_numbers a1 a2 a3 a4 true else None
  | _ => None
  end.

(** ** The mapping *)

(** [mapping] is not NULL: the code and [*mapping]. *)
Definition load_mapping {W} `{OS W} `{BinFile W} (mapping : dram_mapping) (w : W) : Z * option dram_mapping * W :=
  let result := calibration_result_reset (Some (mk_calibration_result false false (replicate 32 0) 0 "" calibration_metrics_zero 0 "")) in
  let mapping := dram_mapping_reset (Some mapping) in
  let '(rc, result, w) := calibration_load_result (Some RESULT_PATH) result w in
  if negb (rc =? CALIBRATION_OK) then (-1, mapping, w)
  else
    let '(rc, mapping) := dram_mapping_init_from_calibration mapping result in
    if negb (rc =? DRAM_MAPPING_OK) then (-1, mapping, w) else (0, mapping, w).

(** The inner loop, for the bits from [bit] on. *)
Fixpoint first_bit (n : nat) (bit mask : Z) : option Z :=
  match n with
  | O => None
  | S n => if has_bit mask (Z.shiftl 1 bit) then Some bit else first_bit n (bit + 1) mask
  end.

(** The masks from [i] on. *)
Fixpoint minimum_loop (n : nat) (i : nat) (ms : list Z) (minimum : Z) : Z :=
  match n with
  | O => minimum
  | S n =>
      let minimum :=
        match first_bit 64 0 (nth i ms 0) with
        | Some bit => if bit <? minimum then bit else minimum
        | None => minimum
        end in
      minimum_loop n (S i) ms minimum
  end.

(** [bit_out] is not NULL. *)
Definition find_minimum_mask_bit (mapping : option dram_mapping) : option Z :=
  match mapping with
  | None => None
  | Some m =>
      if negb (dram_mapping_is_ready mapping) then None
      else
        let minimum := minimum_loop (Z.to_nat (mask_count m)) 0 (masks m) 64 in
        if 64 <=? minimum then None else Some minimum
  end.

(** ** The sizes *)

Record layout := mk_layout {
  class_granularity : Z;
  ly_page_size : Z;
  ly_page_count : Z;
  candidate_bytes : Z;
  required_blocks : Z;
  required_lines : Z
}.

(** The checks from the class space to the granularity. *)
Definition granularity_of (m : dram_mapping) (a : arguments) : option Z :=
  if (64 <=? mask_count m) || (u64 (Z.shiftl 1 (mask_count m)) <=? target_class a) then None
  else
    match find_minimum_mask_bit (Some m) with
    | None => None
    | Some minimum_mask_bit =>
        if 8 * 8 <=? minimum_mask_bit then None
        else
          let granularity := u64 (Z.shiftl 1 minimum_mask_bit) in
          if (granularity <? CACHE_LINE_BYTES) || negb (granularity mod CACHE_LINE_BYTES =? 0) then None
          else Some granularity
    end.

(** The checks of the sizes. *)
Definition layout_of (granularity page_size : Z) (a : arguments) : option layout :=
  if (page_size <? granularity) || negb (page_size mod granularity =? 0) then None
  else if (UINT64_MAX / MIB_BYTES <? candidate_mib a) || (UINT64_MAX / MIB_BYTES <? selected_mib a) then None
  else
    let candidate_bytes_u64 := u64_mul (candidate_mib a) MIB_BYTES in
    let selected_bytes_u64 := u64_mul (selected_mib a) MIB_BYTES in
    if (UINT64_MAX <? candidate_bytes_u64) || (UINT64_MAX <? selected_bytes_u64) then None
    else if negb (selected_bytes_u64 mod granularity =? 0) || negb (selected_bytes_u64 mod CACHE_LINE_BYTES =? 0) then None
    else if negb (candidate_bytes_u64 mod page_size =? 0) then None
    else
      Some (mk_layout granularity page_size (candidate_bytes_u64 / page_size) candidate_bytes_u64
        (selected_bytes_u64 / granularity) (selected_bytes_u64 / CACHE_LINE_BYTES)).

(** ** The scan *)

(** [sc_lines] are the elements of [lines] written so far. *)
Record scan := mk_scan {
  keep_page : list Z;
  sc_lines : list Z;
  selected_blocks : Z;
  selected_lines : Z;
  retained_pages : Z;
  scanned_pages : Z
}.

#[export] Instance scan_settable : Settable scan :=
  fun s => mk_scan (keep_page s) (sc_lines s) (selected_blocks s) (selected_lines s) (retained_pages s) (scanned_pages s).

(** The lines of a block from [line_offset] on. *)
Fixpoint line_loop (n : nat) (line_offset block : Z) (s : scan) : scan :=
  match n with
  | O => s
  | S n =>
      let s := s <| sc_lines ::= fun ls => ls ++ [u64 (block + line_offset)] |> <| selected_lines ::= u64_inc |> in
      line_loop n (u64_add line_offset CACHE_LINE_BYTES) block s
  end.

(** The body for a block whose class is the target. *)
Definition take_block (l : layout) (page index block_offset : Z) (s : scan) : scan :=
  let s :=
    if nth (Z.to_nat index) (keep_page s) 0 =? 0
    then s <| keep_page ::= <[Z.to_nat index := 1]> |> <| retained_pages ::= u64_inc |> else s in
  let s := line_loop (Z.to_nat (class_granularity l / CACHE_LINE_BYTES)) 0 (u64 (page + block_offset)) s in
  s <| selected_blocks ::= u64_inc |>.

(** The blocks of a page from [block_offset] on; [n] is the number of blocks left. *)
Fixpoint block_loop (n : nat) (l : layout) (m : dram_mapping) (target page index physical block_offset : Z) (s : scan) : scan :=
  match n with
  | O => s
  | S n =>
      if (block_offset <? ly_page_size l) && (selected_blocks s <? required_blocks l) then
        let bank_class := dram_mapping_bank_class_fast m (u64_add physical block_offset) in
        let s := if bank_class =? target then take_block l page index block_offset s else s in
        block_loop n l m target page index physical (u64_add block_offset (class_granularity l)) s
      else s
  end.

Section Worker.
Context {W : Type} `{HO : OS W} `{HB : BinFile W} `{HM : Memory W} `{HP : PrivateMemory W} `{HC : RawClock W} `{HF : Files W} `{HK : Workers W}.

(** The pages from [index] on: the code of the last translation, the scan and the
    world. *)
Fixpoint page_loop (n : nat) (l : layout) (m : dram_mapping) (target buffer index : Z) (at_ : option addr_translate_ctx) (s : scan) (w : W)
  : Z * scan * W :=
  match n with
  | O => (ADDR_TRANSLATE_OK, s, w)
  | S n =>
      if selected_blocks s <? required_blocks l then
        let page := u64 (buffer + index * ly_page_size l) in
        let w := mm_store_byte page (Z.land index 255) w in
        let s := s <| scanned_pages := u64_inc index |> in
        let '(rc, tr, w) := addr_translate_va_to_pa at_ page (Some addr_translation_zero) w in
        if negb (rc =? ADDR_TRANSLATE_OK) then (rc, s, w)
        else
          let physical := physical_address (default addr_translation_zero tr) in
          let s := block_loop (Z.to_nat (ly_page_size l / class_granularity l)) l m target page index physical 0 s in
          page_loop n l m target buffer (index + 1) at_ s w
      else (ADDR_TRANSLATE_OK, s, w)
  end.

(** The inner loop: the first page from [i] on that is kept, or the end. *)
Fixpoint run_end (n : nat) (keep : list Z) (i : Z) : Z :=
  match n with
  | O => i
  | S n => if nth (Z.to_nat i) keep 0 =? 0 then run_end n keep (i + 1) else i
  end.

(** The outer loop; [fuel] bounds the pages that are left. *)
Fixpoint release_loop (fuel : nat) (buffer : Z) (keep : list Z) (scanned page_size i : Z) (w : W) : Z * W :=
  match fuel with
  | O => (0, w)
  | S fuel =>
      if i <? scanned then
        if negb (nth (Z.to_nat i) keep 0 =? 0) then release_loop fuel buffer keep scanned page_size (i + 1) w
        else
          let start := i in
          let i := run_end (Z.to_nat (scanned - i)) keep i in
          let length_pages := i - start in
          let '(ok, w) := pm_dontneed (u64 (buffer + start * page_size)) (u64_mul length_pages page_size) w in
          if negb ok then (-1, w) else release_loop fuel buffer keep scanned page_size i w
      else (0, w)
  end.

Definition release_unselected_pages (buffer : Z) (keep : list Z) (scanned page_size : Z) (w : W) : Z * W :=
  release_loop (Z.to_nat scanned) buffer keep scanned page_size 0 w.

(** Storing in each line the address of the next one, for the lines from [i] on. *)
Fixpoint chain_loop (n : nat) (i : Z) (lines : list Z) (count : Z) (w : W) : W :=
  match n with
  | O => w
  | S n =>
      let next_index := u64_inc i mod count in
      chain_loop n (i + 1) lines count (mm_store (nth (Z.to_nat i) lines 0) (nth (Z.to_nat next_index) lines 0) w)
  end.

(** ** The reads *)

(** What is printed at the end. *)
Record bank_report := mk_bank_report {
  br_mask_set_id : string;
  br_arguments : arguments;
  br_scan : scan;
  br_elapsed_sec : double;
  br_total_reads : Z;
  br_ns_per_read : double
}.

Definition elapsed_sec (start stop : Z * Z) : double :=
  dadd (Z_to_double (stop.1 - start.1)) (ddiv (Z_to_double (stop.2 - start.2)) (dlit 1000000000 1)).

Definition chunk_reads : Z := 100000.

(** The loop of the reads: the pointer, the reads and the last time. *)
Fixpoint read_loop (fuel : nat) (start : Z * Z) (seconds : double) (current total_reads : Z) (w : W) : option (option (Z * Z * (Z * Z)) * W) :=
  match fuel with
  | O => None
  | S fuel =>
      let current := chase (Z.to_nat chunk_reads) current w in
      let total_reads := u64_add total_reads chunk_reads in
      let '(now, w) := rc_clock w in
      match now with
      | None => Some (None, w)
      | Some now =>
          if dleb seconds (elapsed_sec start now) then Some (Some (current, total_reads, now), w)
          else read_loop fuel start seconds current total_reads w
      end
  end.

(** From [READY] to the report: the pointer, the time and the reads; the second
    [None] is a failure. *)
Definition timed_reads (fuel : nat) (a : arguments) (current : Z) (w : W) : option (option (Z * double * Z) * W) :=
  let '(ok, w) := if wait_for_cont a then wk_raise_stop w else (true, w) in
  if negb ok then Some (None, w)
  else
    let '(start, w) := rc_clock w in
    match start with
    | None => Some (None, w)
    | Some start =>
        match read_loop fuel start (Z_to_double (run_seconds a)) current 0 w with
        | None => None
        | Some (None, w) => Some (None, w)
        | Some (Some (current, total_reads, now), w) => Some (Some (current, elapsed_sec start now, total_reads), w)
        end
    end.
(** ** Main *)

(** Opening the page map, scanning, closing it, and the test of the capacity: the
    scan, or [None] where the code gives up. *)
Definition scan_memory (m : dram_mapping) (target : Z) (l : layout) (buffer : Z) (w : W) : option scan * W :=
  let at_ := addr_translate_reset (Some addr_translate_ctx_reset) in
  let '(rc, at_, w) := addr_translate_open at_ (fl_getpid w) w in
  if negb (rc =? ADDR_TRANSLATE_OK) then (None, w)
  else
    let s := mk_scan (replicate (Z.to_nat (ly_page_count l)) 0) [] 0 0 0 0 in
    let '(rc, s, w) := page_loop (Z.to_nat (ly_page_count l)) l m target buffer 0 at_ s w in
    let '(_, w) := addr_translate_close at_ w in
    if negb (rc =? ADDR_TRANSLATE_OK) then (None, w)
    else if negb (selected_blocks s =? required_blocks l) || negb (selected_lines s =? required_lines l) then (None, w)
    else (Some s, w).

(** From the release of the other pages to the report; [sink_pointer] is the
    global. The exit code, what is printed, the global and the world. *)
Definition read_lines (fuel : nat) (m : dram_mapping) (a : arguments) (l : layout) (buffer : Z) (s : scan) (sink_pointer : Z) (w : W)
  : option (Z * option bank_report * Z * W) :=
  let '(rc, w) := release_unselected_pages buffer (keep_page s) (scanned_pages s) (ly_page_size l) w in
  if negb (rc =? 0) then Some (EXIT_FAILURE, None, sink_pointer, w)
  else
    let lines := default [] (shuffle_lines (Some (sc_lines s)) (selected_lines s)) in
    let w := chain_loop (Z.to_nat (selected_lines s)) 0 lines (selected_lines s) w in
    let current := chase (Z.to_nat (selected_lines s)) (nth 0 lines 0) w in
    let sink_pointer := current in
    match timed_reads fuel a current w with
    | None => None
    | Some (None, w) => Some (EXIT_FAILURE, None, sink_pointer, w)
    | Some (Some (current, seconds, total_reads), w) =>
        let ns_per_read := ddiv (dmul seconds (dlit 1000000000 1)) (Z_to_double total_reads) in
        Some (EXIT_SUCCESS, Some (mk_bank_report (mask_set_id m) a s seconds total_reads ns_per_read), current, w)
    end.

(** From the allocations on; the memory is unmapped on every path. A failing
    [MADV_NOHUGEPAGE] is only reported. *)
Definition work (fuel : nat) (m : dram_mapping) (a : arguments) (l : layout) (sink_pointer : Z) (w : W) : option (Z * option bank_report * Z * W) :=
  let '(ok1, w) := os_calloc (ly_page_count l) 1 w in
  let '(ok2, w) := mm_malloc (u64_mul (required_lines l) 8) w in
  if negb (ok1 && ok2) then Some (EXIT_FAILURE, None, sink_pointer, w)
  else
    let '(buffer, w) := pm_mmap (candidate_bytes l) w in
    match buffer with
    | None => Some (EXIT_FAILURE, None, sink_pointer, w)
    | Some buffer =>
        let '(_, w) := mm_madvise buffer (candidate_bytes l) w in
        let '(s, w) := scan_memory m (target_class a) l buffer w in
        match s with
        | None => Some (EXIT_FAILURE, None, sink_pointer, mm_munmap buffer (candidate_bytes l) w)
        | Some s =>
            match read_lines fuel m a l buffer s sink_pointer w with
            | None => None
            | Some (code, r, sink_pointer, w) => Some (code, r, sink_pointer, mm_munmap buffer (candidate_bytes l) w)
            end
        end
    end.

(** [args] are [argv[1]] to [argv[argc - 1]]. *)
Definition main (fuel : nat) (args : list string) (sink_pointer : Z) (w : W) : option (Z * option bank_report * Z * W) :=
  match parse_arguments args with
  | None => Some (EXIT_FAILURE, None, sink_pointer, w)
  | Some a =>
      let '(rc, mapping, w) := load_mapping dram_mapping_zero w in
      if negb (rc =? 0) then Some (EXIT_FAILURE, None, sink_pointer, w)
      else
        let m := default dram_mapping_zero mapping in
        match granularity_of m a with
        | None => Some (EXIT_FAILURE, None, sink_pointer, w)
        | Some granularity =>
            let '(page_size, w) := os_pagesize w in
            if page_size <=? 0 then Some (EXIT_FAILURE, None, sink_pointer, w)
            else
              match layout_of granularity page_size a with
              | None => Some (EXIT_FAILURE, None, sink_pointer, w)
              | Some l => work fuel m a l sink_pointer w
              end
        end
  end.
End Worker.
