(* ===== verification/BankWorkerProps.v ===== *)
(** * What the bank worker selects

    The granularity is the size over which no mask changes the class; the scan
    takes the first blocks of the target class, in the order of the pages, and
    all the lines of each. *)
From S2P Require Import Prelude Float64 CString Os Calibration CalibrationLoad DramMapping AddrTranslate OracleSys OraclePool OracleLines OracleClasses OracleSelect OracleChain OracleChainProps OracleIo BankWorker.
From Stdlib Require Import Ascii String.
Local Open Scope Z_scope.

(** ** The granularity *)

(** No bit of the mask is below [k]. *)
Definition clear_below (k mask : Z) : Prop := forall b, 0 <= b < k -> Z.testbit mask b = false.

Lemma first_bit_spec n : forall bit mask, 0 <= bit ->
  match first_bit n bit mask with
  | Some b => bit <= b < bit + Z.of_nat n /\ (forall c, bit <= c < b -> Z.testbit mask c = false)
  | None => forall c, bit <= c < bit + Z.of_nat n -> Z.testbit mask c = false
  end.
Proof.
  induction n as [|n IH]; intros bit mask Hb; cbn [first_bit]; [intros; lia|]. rewrite has_bit_testbit by done.
  destruct (Z.testbit mask bit) eqn:E; [split; [lia|intros; lia]|]. specialize (IH (bit + 1) mask ltac:(lia)).
  assert (Hnext : forall c (P : Prop), (bit + 1 <= c -> P -> Z.testbit mask c = false) -> bit <= c -> P -> Z.testbit mask c = false)
    by (intros c P Hc Hle HP; destruct (Z.eq_dec c bit) as [->|]; [done|apply Hc; [lia|done]]).
  destruct (first_bit n (bit + 1) mask) as [b|].
  - destruct IH as [Hr Hc]. split; [lia|]. intros c Hc'. apply (Hnext c (c < b)); [intros; apply Hc; lia|lia|lia].
  - intros c Hc'. apply (Hnext c (c < bit + Z.of_nat (S n))); [intros; apply IH; lia|lia|lia].
Qed.

Lemma minimum_loop_spec n : forall i ms minimum, 0 <= minimum <= 64 ->
  let r := minimum_loop n i ms minimum in 0 <= r <= minimum /\ forall j, (i <= j < i + n)%nat -> clear_below r (nth j ms 0).
Proof.
  induction n as [|n IH]; intros i ms minimum Hm; cbn [minimum_loop]; [split; [lia|intros; lia]|].
  set (minimum' := match first_bit 64 0 (nth i ms 0) with Some bit => if bit <? minimum then bit else minimum | None => minimum end).
  assert (Hm' : 0 <= minimum' <= minimum /\ clear_below minimum' (nth i ms 0)).
  { unfold minimum'. pose proof (first_bit_spec 64 0 (nth i ms 0) ltac:(lia)) as Hf. destruct (first_bit 64 0 _) as [b|].
    - destruct Hf as [Hb Hc]. destruct (Z.ltb_spec b minimum); (split; [lia|]); intros c Hc'; apply Hc; lia.
    - split; [lia|]. intros c Hc. apply Hf. lia. }
  destruct Hm' as [Hm' Hclear]. destruct (IH (S i) ms minimum' ltac:(lia)) as [Hr Hall]. split; [lia|]. intros j Hj.
  destruct (Nat.eq_dec j i) as [->|]; [|apply Hall; lia]. intros b Hb. apply Hclear. lia.
Qed.

(** Every mask of the mapping leaves the offsets inside a block alone. *)
Definition block_shift (m : dram_mapping) (g : Z) : Prop := forall j, (j < Z.to_nat (mask_count m))%nat -> clear_below g (nth j (masks m) 0).

Lemma pow2_bound a b : 0 <= a -> 0 <= b -> 2 ^ a <= 2 ^ b <-> a <= b.
Proof. intros Ha Hb. symmetry. apply Z.pow_le_mono_r_iff; lia. Qed.

Lemma granularity_ok m a G : granularity_of m a = Some G -> exists g, 6 <= g < 64 /\ G = 2 ^ g /\ block_shift m g.
Proof.
  unfold granularity_of. destruct (_ || _); [done|]. unfold find_minimum_mask_bit. destruct (negb _); [done|].
  destruct (minimum_loop_spec (Z.to_nat (mask_count m)) 0 (masks m) 64 ltac:(lia)) as [Hr Hall]. set (g := minimum_loop _ _ _ _) in *.
  destruct (Z.leb_spec 64 g); [done|]. destruct (Z.leb_spec (8 * 8) g); [done|]. rewrite Z.shiftl_1_l.
  assert (Hp : 0 < 2 ^ g < 2 ^ 64) by (split; [apply Z.pow_pos_nonneg; lia|apply Z.pow_lt_mono_r; lia]).
  rewrite u64_small by (unfold in_u64; lia). unfold CACHE_LINE_BYTES. destruct (Z.ltb_spec (2 ^ g) 64) as [|Hge]; [done|]. cbn [orb].
  destruct (negb _); [done|]. intros [= <-]. exists g. split; [|split; [done|intros j Hj; apply Hall; lia]].
  change 64 with (2 ^ 6) in Hge. pose proof (proj1 (pow2_bound 6 g ltac:(lia) ltac:(lia)) Hge). lia.
Qed.

(** The target is a class of the mapping. *)
Lemma granularity_class m a G : wf_mapping m -> in_u64 (target_class a) -> granularity_of m a = Some G -> 0 <= target_class a < 2 ^ mask_count m.
Proof.
  intros (Hc & _) Ht. unfold DRAM_MAPPING_MAX_MASKS, CALIBRATION_MAX_BANK_MASKS in Hc. unfold granularity_of.
  assert (Hp : 0 < 2 ^ mask_count m < 2 ^ 64) by (split; [apply Z.pow_pos_nonneg; lia|apply Z.pow_lt_mono_r; lia]).
  rewrite Z.shiftl_1_l, u64_small by (unfold in_u64; lia). destruct (Z.leb_spec 64 (mask_count m)); [lia|].
  destruct (Z.leb_spec (2 ^ mask_count m) (target_class a)); [done|]. unfold in_u64 in Ht. lia.
Qed.

(** Inside a block the class does not change. *)
Lemma class_in_block m g a x : wf_mapping m -> block_shift m g -> 0 <= g -> 0 <= a -> a mod 2 ^ g = 0 -> 0 <= x < 2 ^ g ->
  dram_mapping_bank_class_fast m (a + x) = dram_mapping_bank_class_fast m a.
Proof.
  intros Hm Hb Hg Ha Ham Hx. rewrite (page_plus_offset a x g), bank_class_lxor by (done || lia).
  assert (E : dram_mapping_bank_class_fast m x = 0); [|by rewrite E, Z.lxor_0_r].
  apply Z.bits_inj'. intros i Hi. rewrite Z.bits_0, bank_class_testbit by done. destruct (Z.ltb_spec i (mask_count m)); [|done]. cbn [andb].
  unfold class_bit. replace (Z.land x (nth (Z.to_nat i) (masks m) 0)) with 0; [done|]. symmetry.
  apply Z.bits_inj'. intros b Hb'. rewrite Z.land_spec, Z.bits_0. destruct (Z_lt_le_dec b g) as [Hlt|Hge].
  - rewrite (Hb (Z.to_nat i)) by lia. apply andb_false_r.
  - destruct (Z.eq_dec x 0) as [->|]; [by rewrite Z.bits_0|]. rewrite Z.bits_above_log2; [done|lia|].
    apply Z.log2_lt_pow2; [lia|]. assert (2 ^ g <= 2 ^ b) by (apply pow2_bound; lia). lia.
Qed.

(** ** The sizes *)

(** What the checks of the sizes guarantee, with pages of [2 ^ p] bytes and blocks
    of [2 ^ g]. *)
Record layout_ok (l : layout) (g p : Z) : Prop := {
  lk_g : 6 <= g <= p;
  lk_p : p < 63;
  lk_granularity : class_granularity l = 2 ^ g;
  lk_page : ly_page_size l = 2 ^ p;
  lk_bytes : candidate_bytes l = ly_page_count l * 2 ^ p;
  lk_room : 0 < candidate_bytes l < 18446744073709551616;
  lk_lines : required_lines l = required_blocks l * 2 ^ (g - 6);
  lk_blocks : 0 < required_blocks l;
  lk_fits : required_lines l * 64 < 18446744073709551616
}.

Lemma worker_u64_range text base v : parse_u64 text base = Some v -> in_u64 v.
Proof.
  unfold parse_u64. destruct text as [text|]; [|done]. destruct (Strto.strtoull base text) as [[[x er] r]|] eqn:E; [|done].
  destruct (_ || _); [done|]. intros [= <-]. exact (Strto.strtoull_range _ _ _ _ _ E).
Qed.

(** The numbers of accepted arguments. *)
Record arguments_ok (a : arguments) : Prop := {
  ao_class : in_u64 (target_class a);
  ao_candidate : 0 < candidate_mib a < 18446744073709551616;
  ao_selected : 0 < selected_mib a < 18446744073709551616;
  ao_seconds : 0 < run_seconds a < 18446744073709551616
}.

Lemma parse_numbers_ok a1 a2 a3 a4 wait a : parse_numbers a1 a2 a3 a4 wait = Some a -> arguments_ok a.
Proof.
  unfold parse_numbers.
  destruct (parse_u64 (Some a1) 0) as [t|] eqn:E1; [|done]. destruct (parse_u64 (Some a2) 10) as [c|] eqn:E2; [|done].
  destruct (parse_u64 (Some a3) 10) as [s|] eqn:E3; [|done]. destruct (parse_u64 (Some a4) 10) as [r|] eqn:E4; [|done].
  apply worker_u64_range in E1, E2, E3, E4. unfold in_u64 in *.
  destruct (Z.eqb_spec c 0), (Z.eqb_spec s 0), (Z.eqb_spec r 0); try done. intros [= <-]. split; cbn; unfold in_u64; lia.
Qed.

Lemma parse_arguments_ok args a : parse_arguments args = Some a -> arguments_ok a.
Proof.
  unfold parse_arguments. destruct args as [|a1 [|a2 [|a3 [|a4 [|a5 [|a6 args]]]]]]; try done; [apply parse_numbers_ok|].
  destruct (str_eq a5 "--wait"); [apply parse_numbers_ok|done].
Qed.

Lemma div_pow2 a n k : 0 <= k -> a = n * 2 ^ k -> a / 2 ^ k = n /\ a mod 2 ^ k = 0.
Proof. intros Hk ->. assert (0 < 2 ^ k) by (apply Z.pow_pos_nonneg; lia). by rewrite Z.div_mul, Z.mod_mul by lia. Qed.

Lemma layout_of_ok a g p l : arguments_ok a -> 6 <= g < 64 -> 0 <= p < 63 -> layout_of (2 ^ g) (2 ^ p) a = Some l ->
  layout_ok l g p /\ required_lines l * 64 = selected_mib a * 1048576 /\ candidate_bytes l = candidate_mib a * 1048576.
Proof.
  intros [_ Hc Hs _] Hg Hp. unfold layout_of. destruct (Z.ltb_spec (2 ^ p) (2 ^ g)) as [|Hle]; [done|]. pose proof (proj1 (pow2_bound g p ltac:(lia) ltac:(lia)) Hle). cbn [orb].
  destruct (negb _); [done|]. change (UINT64_MAX / MIB_BYTES) with 17592186044415.
  destruct (Z.ltb_spec 17592186044415 (candidate_mib a)), (Z.ltb_spec 17592186044415 (selected_mib a)); try done. cbn [orb]. unfold MIB_BYTES.
  assert (Ec : u64_mul (candidate_mib a) 1048576 = candidate_mib a * 1048576) by (apply u64_small; unfold in_u64; lia).
  assert (Es : u64_mul (selected_mib a) 1048576 = selected_mib a * 1048576) by (apply u64_small; unfold in_u64; lia). rewrite Ec, Es.
  destruct (_ || _); [done|]. destruct (Z.eqb_spec (selected_mib a * 1048576 mod 2 ^ g) 0) as [Em|]; [|done]. cbn [negb orb]. destruct (negb _); [done|].
  destruct (Z.eqb_spec (candidate_mib a * 1048576 mod 2 ^ p) 0) as [Ep|]; [|done]. cbn [negb].
  intros Hl. injection Hl as <-. apply Z.div_exact in Em, Ep; [|apply Z.pow_nonzero; lia..].
  assert (E6 : 2 ^ g = 2 ^ (g - 6) * 64) by (change 64 with (2 ^ 6); rewrite <- Z.pow_add_r by lia; f_equal; lia).
  assert (H6 : 0 < 2 ^ (g - 6)) by (apply Z.pow_pos_nonneg; lia). unfold CACHE_LINE_BYTES.
  set (c := candidate_mib a * 1048576 / 2 ^ p) in *. set (b := selected_mib a * 1048576 / 2 ^ g) in *.
  assert (El : selected_mib a * 1048576 / 64 = b * 2 ^ (g - 6)) by (rewrite Em, E6; replace (2 ^ (g - 6) * 64 * b) with (b * 2 ^ (g - 6) * 64) by lia; by rewrite Z.div_mul).
  cbn [required_lines candidate_bytes]. split; [|rewrite El; split; [rewrite Em, E6; lia|done]].
  split; cbn [class_granularity ly_page_size ly_page_count candidate_bytes required_blocks required_lines]; try done; try lia; rewrite ?El; nia.
Qed.

(** ** Translations *)

(** A page that is translated is at the start of a frame. *)
Lemma va_to_pa_frame {W} `{HO : OS W} ctx va o (w : W) t w' : 0 < at_page_size ctx -> va mod at_page_size ctx = 0 ->
  addr_translate_va_to_pa (Some ctx) va (Some o) w = (ADDR_TRANSLATE_OK, t, w') ->
  exists t' f, t = Some t' /\ 0 <= f /\ physical_address t' = f * at_page_size ctx /\ f * at_page_size ctx < 18446744073709551616.
Proof.
  intros Hp Hva. unfold addr_translate_va_to_pa. destruct (_ || _); [done|]. rewrite Hva. destruct (read_pagemap_entry _ _ w) as [[rc entry] w1].
  destruct (Z.eqb_spec rc ADDR_TRANSLATE_OK) as [->|Hne]; cbn [negb]; [|intros E; injection E as E _ _; done].
  match goal with |- context [negb (present ?x)] => set (out := x) end. destruct (negb (present out)); [destruct (swapped out); discriminate|].
  set (f := Z.land entry AddrTranslate.PAGEMAP_PFN_MASK). assert (Hf : 0 <= f) by (apply Z.land_nonneg; by right). destruct (f =? 0); [discriminate|].
  unfold u64_sub, UINT64_MAX. rewrite Z.sub_0_r, u64_small by (unfold in_u64; lia). destruct (Z.ltb_spec (18446744073709551615 / at_page_size ctx) f) as [|Hle]; [discriminate|].
  intros E. injection E as <- <-. assert (Hfit : f * at_page_size ctx <= 18446744073709551615)
    by (pose proof (Z.mul_div_le 18446744073709551615 (at_page_size ctx) Hp); nia).
  eexists _, f. split; [reflexivity|]. cbn. unfold u64_add, u64_mul. rewrite Z.add_0_r, u64_idemp, u64_small by (unfold in_u64; nia). conjs; [done|done|lia].
Qed.

(** ** Blocks *)

Section Scan.
Context (m : dram_mapping) (target : Z) (l : layout) (g p buffer : Z).
Hypothesis Hl : layout_ok l g p.
Hypothesis Hbuffer : 0 < buffer /\ buffer + candidate_bytes l < 18446744073709551616.

(** A block is a page and an offset in it; its address and those of its lines. *)
Definition block_address (x : Z * Z) : Z := buffer + x.1 * 2 ^ p + x.2.
Definition block_lines (x : Z * Z) : list Z := (fun i => block_address x + i * 64) <$> zrange 0 (Z.to_nat (2 ^ (g - 6))).
Definition block_ok (x : Z * Z) : Prop := 0 <= x.1 < ly_page_count l /\ 0 <= x.2 <= 2 ^ p - 2 ^ g.

(** The blocks of a page whose class is the target, and those of a sequence of
    pages with the given physical addresses. *)
Definition page_blocks (n : nat) (index physical b : Z) : list (Z * Z) :=
  filter (fun x => dram_mapping_bank_class_fast m (physical + x.2) = target) ((fun b => (index, b * 2 ^ g)) <$> zrange b n).

Fixpoint matching (index : Z) (physicals : list Z) : list (Z * Z) :=
  match physicals with
  | [] => []
  | physical :: physicals => page_blocks (Z.to_nat (2 ^ (p - g))) index physical 0 ++ matching (index + 1) physicals
  end.

Lemma powers : 2 ^ g = 2 ^ (g - 6) * 64 /\ 2 ^ p = 2 ^ (p - g) * 2 ^ g /\ 0 < 2 ^ (g - 6) /\ 0 < 2 ^ (p - g) /\ 2 ^ p < 18446744073709551616.
Proof.
  pose proof (lk_g _ _ _ Hl). pose proof (lk_p _ _ _ Hl). change 64 with (2 ^ 6). rewrite <- !Z.pow_add_r by lia.
  split; [f_equal; lia|]. split; [f_equal; lia|]. split; [apply Z.pow_pos_nonneg; lia|]. split; [apply Z.pow_pos_nonneg; lia|].
  change 18446744073709551616 with (2 ^ 64). apply Z.pow_lt_mono_r; lia.
Qed.

(** The addresses in the buffer are computed exactly. *)
Lemma block_bound x : block_ok x -> buffer <= block_address x /\ block_address x + 2 ^ g <= buffer + candidate_bytes l.
Proof.
  intros [H1 H2]. unfold block_address. rewrite (lk_bytes _ _ _ Hl). destruct powers as (_ & Hpg & _ & Hpos & _).
  assert (0 < 2 ^ g) by (apply Z.pow_pos_nonneg; pose proof (lk_g _ _ _ Hl); lia). nia.
Qed.

(** What the scan holds after taking the blocks of [sel]. *)
Record scan_holds (s : scan) (sel : list (Z * Z)) : Prop := {
  sh_lines : sc_lines s = sel ≫= block_lines;
  sh_blocks : selected_blocks s = Z.of_nat (List.length sel);
  sh_count : selected_lines s = Z.of_nat (List.length sel) * 2 ^ (g - 6);
  sh_length : List.length (keep_page s) = Z.to_nat (ly_page_count l);
  sh_keep i : 0 <= i < ly_page_count l -> nth (Z.to_nat i) (keep_page s) 0 = if decide (i ∈ sel.*1) then 1 else 0;
  sh_retained : retained_pages s = Z.of_nat (List.length (filter (fun i => i ∈ sel.*1) (zrange 0 (Z.to_nat (ly_page_count l)))))
}.

Lemma line_loop_spec n : forall k s x, block_ok x -> 0 <= k -> k + Z.of_nat n = 2 ^ (g - 6) -> 0 <= selected_lines s -> selected_lines s + Z.of_nat n < 18446744073709551616 ->
  line_loop n (k * 64) (block_address x) s =
    s <| sc_lines ::= fun ls => ls ++ ((fun i => block_address x + i * 64) <$> zrange k n) |> <| selected_lines := selected_lines s + Z.of_nat n |>.
Proof.
  induction n as [|n IH]; intros k s x Hx Hk Hn Hs Hfit; cbn [line_loop zrange fmap list_fmap].
  { destruct s. unfold set_field. cbn. by rewrite app_nil_r, Z.add_0_r. }
  destruct (block_bound x Hx) as [Hb1 Hb2]. destruct powers as (E6 & _). pose proof (proj1 Hbuffer). pose proof (proj2 Hbuffer).
  rewrite (u64_small (block_address x + k * 64)) by (unfold in_u64; lia).
  unfold u64_add, CACHE_LINE_BYTES. rewrite (u64_small (k * 64 + 64)) by (unfold in_u64; pose proof (lk_room _ _ _ Hl); lia).
  replace (k * 64 + 64) with ((k + 1) * 64) by lia. rewrite IH; cbn [selected_lines set_field]; unfold u64_inc; rewrite ?u64_small by (unfold in_u64; lia); try lia; [|done].
  destruct s. unfold set_field. cbn in *. rewrite <- app_assoc. cbn. f_equal. lia.
Qed.
(** Taking one more block. *)
Lemma take_block_holds s sel x : block_ok x -> scan_holds s sel -> Z.of_nat (List.length sel) < required_blocks l ->
  scan_holds (take_block l (buffer + x.1 * 2 ^ p) x.1 x.2 s) (sel ++ [x]) /\ scanned_pages (take_block l (buffer + x.1 * 2 ^ p) x.1 x.2 s) = scanned_pages s.
Proof.
  intros Hx [Hls Hbs Hct Hlen Hkp Hrt] Hlt. pose proof powers as (E6 & _ & H6 & _). pose proof (lk_fits _ _ _ Hl) as Hfit. rewrite (lk_lines _ _ _ Hl) in Hfit.
  destruct (block_bound x Hx) as [Hb1 Hb2]. pose proof (lk_room _ _ _ Hl). pose proof Hx as [Hx1 _]. unfold take_block.
  replace (buffer + x.1 * 2 ^ p + x.2) with (block_address x) by done. rewrite (u64_small (block_address x)) by (unfold in_u64; lia).
  rewrite (lk_granularity _ _ _ Hl). unfold CACHE_LINE_BYTES. rewrite E6, Z.div_mul by lia.
  set (s1 := if nth _ _ 0 =? 0 then _ else s).
  assert (H1 : sc_lines s1 = sc_lines s /\ selected_blocks s1 = selected_blocks s /\ selected_lines s1 = selected_lines s /\ scanned_pages s1 = scanned_pages s) by (unfold s1; by destruct (_ =? 0)).
  destruct H1 as (E1 & E2 & E3 & E4). assert (Hcount : selected_lines s1 + 2 ^ (g - 6) < 18446744073709551616) by (rewrite E3, Hct; nia).
  assert (H3 : 0 <= selected_lines s1) by (rewrite E3, Hct; nia).
  pose proof (line_loop_spec (Z.to_nat (2 ^ (g - 6))) 0 s1 x Hx ltac:(lia) ltac:(lia) H3 ltac:(lia)) as Hloop.
  rewrite Z.mul_0_l in Hloop. rewrite Hloop, Z2Nat.id by lia. clear Hloop.
  assert (Hkeep : (forall i, 0 <= i < ly_page_count l -> nth (Z.to_nat i) (keep_page s1) 0 = if decide (i ∈ (sel ++ [x]).*1) then 1 else 0) /\
    List.length (keep_page s1) = Z.to_nat (ly_page_count l) /\
    retained_pages s1 = Z.of_nat (List.length (filter (fun i => i ∈ (sel ++ [x]).*1) (zrange 0 (Z.to_nat (ly_page_count l)))))).
  2:{ destruct Hkeep as (K1 & K2 & K3). split; [split; unfold set_field; cbn|exact E4].
      - by rewrite E1, Hls, bind_app, bind_singleton.
      - rewrite E2, Hbs, length_app. unfold u64_inc. rewrite u64_small by (unfold in_u64; nia). cbn. lia.
      - rewrite E3, Hct, length_app. cbn [List.length]. nia.
      - exact K2.
      - exact K1.
      - exact K3. }
  unfold s1. rewrite (Hkp x.1 Hx1). rewrite fmap_app. cbn [fmap list_fmap].
  destruct (decide (x.1 ∈ sel.*1)) as [Hin|Hno].
  - cbn [Z.eqb]. split; [|split; [exact Hlen|]].
    + intros i Hi. rewrite Hkp by done. destruct (decide (i ∈ sel.*1)), (decide (i ∈ sel.*1 ++ [x.1])) as [H'|H']; try done; exfalso; [apply H'; set_solver|].
      apply elem_of_app in H' as [?| ->%list_elem_of_singleton]; done.
    + rewrite Hrt. do 2 f_equal. apply filter_agree. intros i _. rewrite elem_of_app, list_elem_of_singleton. naive_solver.
  - cbn [Z.eqb]. unfold set_field. cbn. split; [|split; [by rewrite length_insert|]].
    + intros i Hi. destruct (Z.eq_dec i x.1) as [->|Hne].
      * rewrite decide_True by set_solver. apply nth_lookup_Some, list_lookup_insert_eq. lia.
      * rewrite nth_lookup, list_lookup_insert_ne, <- nth_lookup, Hkp by lia. destruct (decide (i ∈ sel.*1)), (decide (i ∈ sel.*1 ++ [x.1])) as [H'|H']; try done; exfalso; [apply H'; set_solver|].
        apply elem_of_app in H' as [?| ->%list_elem_of_singleton]; done.
    + rewrite (filter_point (fun i => i ∈ sel.*1) (fun i => i ∈ sel.*1 ++ [x.1]) _ x.1);
        [|rewrite zrange_seqZ; apply NoDup_seqZ|apply elem_zrange; lia|intros i Hi; rewrite elem_of_app, list_elem_of_singleton; naive_solver|done|set_solver].
      rewrite Hrt. unfold u64_inc. rewrite u64_small; [lia|].
      pose proof (length_filter (fun i => i ∈ sel.*1) (zrange 0 (Z.to_nat (ly_page_count l)))) as Hle. rewrite zrange_seqZ, length_seqZ in Hle.
      assert (0 < 2 ^ p) by (apply Z.pow_pos_nonneg; pose proof (lk_g _ _ _ Hl); lia).
      assert (ly_page_count l <= candidate_bytes l) by (rewrite (lk_bytes _ _ _ Hl); nia). unfold in_u64. rewrite zrange_seqZ. lia.
Qed.
(** How many blocks are still wanted. *)
Definition wanted (sel : list (Z * Z)) : nat := Z.to_nat (required_blocks l - Z.of_nat (List.length sel)).

Lemma wanted_app sel more : wanted (sel ++ take (wanted sel) more) = (wanted sel - List.length more)%nat.
Proof. unfold wanted. rewrite length_app, length_take. lia. Qed.

(** The blocks of a page. *)
Lemma block_loop_holds n : forall index physical b s sel, 0 <= index < ly_page_count l -> 0 <= physical -> physical + 2 ^ p <= 18446744073709551616 ->
  scan_holds s sel -> 0 <= b -> b + Z.of_nat n = 2 ^ (p - g) ->
  let s' := block_loop n l m target (buffer + index * 2 ^ p) index physical (b * 2 ^ g) s in
  scan_holds s' (sel ++ take (wanted sel) (page_blocks n index physical b)) /\ scanned_pages s' = scanned_pages s.
Proof.
  induction n as [|n IH]; intros index physical b s sel Hi Hph Hfit Hs Hb Hn; cbn [block_loop].
  { unfold page_blocks. cbn. by rewrite take_nil, app_nil_r. }
  destruct powers as (_ & Epg & _ & Hpos & Hsmall). rewrite (lk_page _ _ _ Hl), (sh_blocks _ _ Hs).
  assert (H2g : 0 < 2 ^ g) by (apply Z.pow_pos_nonneg; pose proof (lk_g _ _ _ Hl); lia). assert (Hoff : 0 <= b * 2 ^ g /\ b * 2 ^ g + 2 ^ g <= 2 ^ p) by nia.
  destruct (Z.ltb_spec (b * 2 ^ g) (2 ^ p)); [|lia]. cbn [andb].
  destruct (Z.ltb_spec (Z.of_nat (List.length sel)) (required_blocks l)) as [Hlt|Hge].
  2:{ unfold wanted. replace (Z.to_nat (required_blocks l - _)) with O by lia. by rewrite take_0, app_nil_r. }
  unfold u64_add. rewrite (lk_granularity _ _ _ Hl), !u64_small by (unfold in_u64; lia). replace (b * 2 ^ g + 2 ^ g) with ((b + 1) * 2 ^ g) by lia.
  unfold page_blocks. cbn [zrange fmap list_fmap]. rewrite filter_cons. cbn [snd]. fold (page_blocks n index physical (b + 1)).
  destruct (Z.eqb_spec (dram_mapping_bank_class_fast m (physical + b * 2 ^ g)) target) as [Heq|Hne]; [rewrite decide_True by done|rewrite decide_False by done].
  - destruct (take_block_holds s sel (index, b * 2 ^ g)) as [Hs' Hsc]; [split; cbn; lia|done|done|]. cbn [fst snd] in *.
    destruct (IH index physical (b + 1) _ _ Hi Hph Hfit Hs' ltac:(lia) ltac:(lia)) as [H1 H2]. rewrite H2, Hsc. split; [|done].
    replace (wanted sel) with (S (wanted (sel ++ [(index, b * 2 ^ g)]))) by (unfold wanted; rewrite length_app; cbn; lia).
    cbn [take]. by rewrite <- app_assoc in H1.
  - exact (IH index physical (b + 1) s sel Hi Hph Hfit Hs ltac:(lia) ltac:(lia)).
Qed.
(** ** The lines of the blocks *)

Lemma elem_page_blocks n index physical b x : x ∈ page_blocks n index physical b <->
  x.1 = index /\ exists c, b <= c < b + Z.of_nat n /\ x.2 = c * 2 ^ g /\ dram_mapping_bank_class_fast m (physical + x.2) = target.
Proof.
  unfold page_blocks. rewrite list_elem_of_filter, list_elem_of_fmap, zrange_seqZ. split.
  - intros [Hc (c & -> & Hin%elem_of_seqZ)]. split; [done|]. by exists c.
  - intros [<- (c & Hc & E & Ht)]. split; [done|]. exists c. split; [destruct x; cbn in *; by subst|by apply elem_of_seqZ].
Qed.

Lemma elem_matching physicals : forall index x, x ∈ matching index physicals <->
  exists j physical, physicals !! j = Some physical /\ x ∈ page_blocks (Z.to_nat (2 ^ (p - g))) (index + Z.of_nat j) physical 0.
Proof.
  induction physicals as [|physical physicals IH]; intros index x; cbn [matching].
  - split; [by intros ?%elem_of_nil|]. intros (j & ? & Hj & _). by rewrite lookup_nil in Hj.
  - rewrite elem_of_app, IH. split.
    + intros [Hx|(j & ph & Hj & Hx)]; [exists O, physical; split; [done|by rewrite Z.add_0_r]|]. exists (S j), ph. split; [done|].
      by replace (index + Z.of_nat (S j)) with (index + 1 + Z.of_nat j) by lia.
    + intros ([|j] & ph & Hj & Hx); [left; injection Hj as <-; by rewrite Z.add_0_r in Hx|]. right. exists j, ph. split; [exact Hj|].
      by replace (index + 1 + Z.of_nat j) with (index + Z.of_nat (S j)) by lia.
Qed.

Lemma matching_nodup physicals : forall index, NoDup (matching index physicals).
Proof.
  assert (H2g : 0 < 2 ^ g) by (apply Z.pow_pos_nonneg; pose proof (lk_g _ _ _ Hl); lia).
  induction physicals as [|physical physicals IH]; intros index; cbn [matching]; [apply NoDup_nil_2|]. apply NoDup_app. split; [|split; [|apply IH]].
  - apply NoDup_filter, NoDup_fmap_2; [intros a b E; injection E as E; nia|rewrite zrange_seqZ; apply NoDup_seqZ].
  - intros x [E _]%elem_page_blocks (j & ph & _ & [E' _]%elem_page_blocks)%elem_matching. lia.
Qed.

(** The blocks that match lie in the buffer, at multiples of their size. *)
Lemma matching_ok index physicals x : 0 <= index -> index + Z.of_nat (List.length physicals) <= ly_page_count l -> x ∈ matching index physicals -> block_ok x /\ exists c, x.2 = c * 2 ^ g.
Proof.
  clear Hbuffer. intros Hi Hle (j & ph & Hj & [E (c & Hc & Eo & _)]%elem_page_blocks)%elem_matching. apply lookup_lt_Some in Hj. destruct powers as (_ & Epg & _ & Hpos & _).
  assert (H2g : 0 < 2 ^ g) by (apply Z.pow_pos_nonneg; pose proof (lk_g _ _ _ Hl); lia).
  split; [|by exists c]. unfold block_ok. rewrite E, Eo, Epg. split; [lia|]. nia.
Qed.

Lemma elem_block_lines x a : a ∈ block_lines x <-> exists i, 0 <= i < 2 ^ (g - 6) /\ a = block_address x + i * 64.
Proof.
  unfold block_lines. rewrite list_elem_of_fmap. destruct powers as (_ & _ & H6 & _). split.
  - intros (i & -> & Hi%elem_zrange). exists i. split; [lia|done].
  - intros (i & Hi & ->). exists i. split; [done|]. apply elem_zrange. lia.
Qed.

(** A line tells its block. *)
Lemma block_of_line x y cx cy i k : block_ok x -> block_ok y -> x.2 = cx * 2 ^ g -> y.2 = cy * 2 ^ g -> 0 <= i < 2 ^ (g - 6) -> 0 <= k < 2 ^ (g - 6) ->
  block_address x + i * 64 = block_address y + k * 64 -> x = y.
Proof.
  intros [_ Hx] [_ Hy] Ex Ey Hi Hk E. unfold block_address in E. destruct powers as (E6 & Epg & H6 & Hpos & _).
  assert (Hd : x.1 * 2 ^ p + x.2 = y.1 * 2 ^ p + y.2).
  { assert (Hq : (x.1 * 2 ^ (p - g) + cx) * 2 ^ (g - 6) + i = (y.1 * 2 ^ (p - g) + cy) * 2 ^ (g - 6) + k) by (rewrite Ex, Ey, Epg, E6 in E; lia).
    assert (x.1 * 2 ^ (p - g) + cx = y.1 * 2 ^ (p - g) + cy) by nia. rewrite Ex, Ey, Epg. nia. }
  assert (H2g : 0 < 2 ^ g) by lia. assert (x.1 = y.1) by nia. assert (x.2 = y.2) by lia. destruct x as [x1 x2], y as [y1 y2]. cbn in *. congruence.
Qed.

Lemma selected_lines_nodup sel physicals : Z.of_nat (List.length physicals) <= ly_page_count l -> sublist sel (matching 0 physicals) -> NoDup (sel ≫= block_lines).
Proof.
  clear Hbuffer. intros Hle Hsub. assert (Hin : forall x, x ∈ sel -> block_ok x /\ exists c, x.2 = c * 2 ^ g).
  { intros x Hx. apply (matching_ok 0 physicals); [lia|lia|]. by eapply elem_of_sublist. }
  apply NoDup_bind; [| |eapply sublist_NoDup; [apply matching_nodup|exact Hsub]].
  - intros x y a Hx Hy (i & Hi & ->)%elem_block_lines (k & Hk & E)%elem_block_lines. destruct (Hin x Hx) as [Ox [cx Ex]], (Hin y Hy) as [Oy [cy Ey]].
    exact (block_of_line x y cx cy i k Ox Oy Ex Ey Hi Hk E).
  - intros x _. apply NoDup_fmap_2; [intros a b E; lia|rewrite zrange_seqZ; apply NoDup_seqZ].
Qed.
End Scan.

(** ** The pages *)

(** Pages are of [2 ^ page_shift] bytes, a mapping starts at a page, and lies inside
    the address space. *)
Class PageLaws (W : Type) `{OS W} `{PrivateMemory W} := {
  page_shift : Z;
  pl_shift : 0 <= page_shift < 63;
  pl_pagesize (w : W) : (os_pagesize w).1 = 2 ^ page_shift;
  pl_mmap bytes (w : W) base : (pm_mmap bytes w).1 = Some base -> 0 < base /\ base mod 2 ^ page_shift = 0 /\ base + bytes < 18446744073709551616
}.

Section Pages.
Context {W : Type} {HO : OS W} {HM : Memory W}.
Context (m : dram_mapping) (target : Z) (l : layout) (g p buffer : Z) (ctx : addr_translate_ctx).
Hypothesis Hl : layout_ok l g p.
Hypothesis Hbuffer : 0 < buffer /\ buffer + candidate_bytes l < 18446744073709551616.
Hypothesis Haligned : buffer mod 2 ^ p = 0.
Hypothesis Hctx : at_page_size ctx = 2 ^ p.
Implicit Types w : W.

(** In some world the page map gave this physical address to the page. *)
Definition translated (index physical : Z) : Prop :=
  exists w t w', addr_translate_va_to_pa (Some ctx) (buffer + index * 2 ^ p) (Some addr_translation_zero) w = (ADDR_TRANSLATE_OK, Some t, w') /\ physical_address t = physical.

(** The world in which the scan translates a page: it has just written to it. *)
Definition page_touched (index : Z) (w : W) : W := mm_store_byte (buffer + index * 2 ^ p) (Z.land index 255) w.

(** From the world [w] on, the pages from [index] on are written to and translated
    one after the other; their physical addresses, and the world after the last. *)
Inductive pages_read : Z -> W -> list Z -> W -> Prop :=
| pages_none index w : pages_read index w [] w
| pages_next index w t w1 physicals w2 :
    addr_translate_va_to_pa (Some ctx) (buffer + index * 2 ^ p) (Some addr_translation_zero) (page_touched index w) = (ADDR_TRANSLATE_OK, Some t, w1) ->
    pages_read (index + 1) w1 physicals w2 -> pages_read index w (physical_address t :: physicals) w2.

Lemma pages_read_translated index w physicals w' : pages_read index w physicals w' ->
  forall j physical, physicals !! j = Some physical -> translated (index + Z.of_nat j) physical.
Proof.
  induction 1 as [|index w t w1 physicals w2 E _ IH]; intros [|j] physical Hj; try discriminate; cbn in Hj.
  - injection Hj as <-. rewrite Z.add_0_r. by exists (page_touched index w), t, w1.
  - specialize (IH j physical Hj). by replace (index + Z.of_nat (S j)) with (index + 1 + Z.of_nat j) by lia.
Qed.

Lemma page_frame index w t w' : addr_translate_va_to_pa (Some ctx) (buffer + index * 2 ^ p) (Some addr_translation_zero) w = (ADDR_TRANSLATE_OK, t, w') ->
  exists t', t = Some t' /\ 0 <= physical_address t' /\ physical_address t' mod 2 ^ p = 0 /\ physical_address t' + 2 ^ p <= 18446744073709551616.
Proof.
  intros E. pose proof (lk_g _ _ _ Hl). pose proof (lk_p _ _ _ Hl). assert (H2p : 0 < 2 ^ p) by (apply Z.pow_pos_nonneg; lia).
  destruct (va_to_pa_frame ctx _ _ w t w' ltac:(lia) ltac:(rewrite Hctx, Z.mod_add by lia; exact Haligned) E) as (t' & f & -> & Hf & Ea & Hfit). rewrite Hctx in Ea, Hfit.
  exists t'. rewrite Ea, Z.mod_mul by lia. conjs; [done|nia|done|].
  assert (E64 : 18446744073709551616 = 2 ^ (64 - p) * 2 ^ p) by (rewrite <- Z.pow_add_r by lia; replace (64 - p + p) with 64 by lia; done).
  rewrite E64 in *. assert (f < 2 ^ (64 - p)) by nia. nia.
Qed.

Lemma translated_frame index physical : translated index physical -> 0 <= physical /\ physical mod 2 ^ p = 0 /\ physical + 2 ^ p <= 18446744073709551616.
Proof. intros (w & t & w' & E & <-). apply page_frame in E as (t' & Et & H1 & H2 & H3). injection Et as <-. done. Qed.

(** The scan of [n] pages from [index] on, from [w]: the pages that were translated, in
    order, and the world [w2] after them; the blocks taken are the first wanted ones that match; a page is only
    looked at while blocks are wanted, and if none failed either all blocks were
    found or all pages looked at. *)
Record scanned (n : nat) (index : Z) (w : W) (sel : list (Z * Z)) (rc : Z) (s' : scan) (physicals : list Z) (w2 : W) : Prop := {
  sn_read : pages_read index w physicals w2;
  sn_holds : scan_holds l g p buffer s' (sel ++ take (wanted l sel) (matching m target g p index physicals));
  sn_pages : scanned_pages s' = index + Z.of_nat (List.length physicals) + (if rc =? ADDR_TRANSLATE_OK then 0 else 1);
  sn_needed j : (j < List.length physicals)%nat -> (List.length (matching m target g p index (take j physicals)) < wanted l sel)%nat;
  sn_length : (List.length physicals + (if (rc =? ADDR_TRANSLATE_OK)%Z then 0 else 1) <= n)%nat;
  sn_end : rc = ADDR_TRANSLATE_OK -> (wanted l sel <= List.length (matching m target g p index physicals))%nat \/ List.length physicals = n;
  sn_failed : rc <> ADDR_TRANSLATE_OK -> (List.length (matching m target g p index physicals) < wanted l sel)%nat /\
    (let next := index + Z.of_nat (List.length physicals) in
     addr_translate_va_to_pa (Some ctx) (buffer + next * 2 ^ p) (Some addr_translation_zero) (page_touched next w2)).1.1 = rc
}.

(** A scan that ends before it looks at a page. *)
Lemma scanned_nil n index w sel rc s : scan_holds l g p buffer s sel -> scanned_pages s = index + (if rc =? ADDR_TRANSLATE_OK then 0 else 1) ->
  (rc = ADDR_TRANSLATE_OK -> wanted l sel = O \/ n = O) ->
  (rc <> ADDR_TRANSLATE_OK -> (0 < n)%nat /\ (0 < wanted l sel)%nat /\
    (addr_translate_va_to_pa (Some ctx) (buffer + index * 2 ^ p) (Some addr_translation_zero) (page_touched index w)).1.1 = rc) ->
  scanned n index w sel rc s [] w.
Proof.
  intros Hs Hsc Hend Hfail. split.
  - apply pages_none.
  - cbn [matching]. by rewrite take_nil, app_nil_r.
  - rewrite Hsc. cbn [List.length]. lia.
  - intros j Hj. cbn in Hj. lia.
  - destruct (Z.eqb_spec rc ADDR_TRANSLATE_OK) as [|Hne]; cbn; [lia|]. destruct (Hfail Hne). lia.
  - intros Hrc. cbn. destruct (Hend Hrc); [left|right]; lia.
  - intros Hrc. cbn [List.length matching]. change (Z.of_nat 0) with 0. rewrite Z.add_0_r. by destruct (Hfail Hrc).
Qed.

Lemma page_loop_scans n : forall index s w sel, scan_holds l g p buffer s sel -> scanned_pages s = index -> 0 <= index -> index + Z.of_nat n = ly_page_count l ->
  let '(rc, s', _) := page_loop n l m target buffer index (Some ctx) s w in exists physicals w2, scanned n index w sel rc s' physicals w2.
Proof.
  induction n as [|n IH]; intros index s w sel Hs Hsc Hi Hn; cbn [page_loop].
  { exists [], w. apply scanned_nil; [done|rewrite Z.eqb_refl; lia|by right|done]. }
  rewrite (sh_blocks _ _ _ _ _ _ Hs). destruct (Z.ltb_spec (Z.of_nat (List.length sel)) (required_blocks l)) as [Hlt|Hge].
  2:{ exists [], w. apply scanned_nil; [done|rewrite Z.eqb_refl; lia|left; unfold wanted; lia|done]. }
  pose proof (lk_g _ _ _ Hl). pose proof (lk_p _ _ _ Hl). pose proof (lk_room _ _ _ Hl) as Hroom. pose proof (lk_bytes _ _ _ Hl) as Hbytes.
  assert (H2p : 0 < 2 ^ p) by (apply Z.pow_pos_nonneg; lia). rewrite (lk_page _ _ _ Hl), (lk_granularity _ _ _ Hl).
  rewrite (u64_small (buffer + index * 2 ^ p)) by (unfold in_u64; nia). change (mm_store_byte _ _ w) with (page_touched index w). set (s1 := s <| scanned_pages := _ |>).
  assert (Hs1 : scan_holds l g p buffer s1 sel) by (destruct Hs; by split). assert (Hsc1 : scanned_pages s1 = index + 1) by (apply u64_small; unfold in_u64; nia). clearbody s1.
  destruct (addr_translate_va_to_pa _ _ _ (page_touched index w)) as [[rc tr] w2] eqn:Et. destruct (Z.eqb_spec rc ADDR_TRANSLATE_OK) as [->|Hne]; cbn [negb].
  2:{ exists [], w. apply scanned_nil; [done|destruct (Z.eqb_spec rc ADDR_TRANSLATE_OK); [done|lia]|done|]. intros _. split; [lia|]. split; [unfold wanted; lia|]. by rewrite Et. }
  destruct (page_frame _ _ _ _ Et) as (t & -> & Ht0 & Htm & Htf). cbn [default from_option id].
  destruct (powers l g p Hl) as (_ & Epg & _ & Hpos & _). replace (2 ^ p / 2 ^ g) with (2 ^ (p - g)) by (rewrite Epg, Z.div_mul; [done|apply Z.pow_nonzero; lia]).
  destruct (block_loop_holds m target l g p buffer Hl Hbuffer (Z.to_nat (2 ^ (p - g))) index (physical_address t) 0 s1 sel ltac:(lia) Ht0 Htf Hs1 ltac:(lia) ltac:(lia)) as [Hs2 Hsc2].
  rewrite Z.mul_0_l in *. set (s2 := block_loop _ _ _ _ _ _ _ _ s1) in *. set (here := page_blocks m target g _ index _ 0) in *.
  specialize (IH (index + 1) s2 w2 _ Hs2 ltac:(lia) ltac:(lia) ltac:(lia)). destruct (page_loop n l m target buffer (index + 1) (Some ctx) s2 w2) as [[rc s'] w'].
  destruct IH as (physicals & w3 & [I1 I2 I3 I4 I5 I6 I7]). rewrite wanted_app in *. exists (physical_address t :: physicals), w3.
  split; cbn [matching List.length]; fold here.
  - by eapply pages_next.
  - rewrite <- app_assoc in I2. rewrite take_app. exact I2.
  - rewrite I3. lia.
  - intros [|j] Hj; cbn [take matching]; [cbn; unfold wanted; lia|]. fold here. rewrite length_app. specialize (I4 j ltac:(lia)). lia.
  - lia.
  - intros Hrc. rewrite length_app. destruct (I6 Hrc); [left; lia|right; lia].
  - intros Hrc. destruct (I7 Hrc) as [Hfew E]. rewrite length_app. split; [lia|].
    replace (index + Z.of_nat (S (List.length physicals))) with (index + 1 + Z.of_nat (List.length physicals)) by lia. exact E.
Qed.
(** The state the scan starts in. *)
Lemma scan_start : 0 <= ly_page_count l -> scan_holds l g p buffer (mk_scan (replicate (Z.to_nat (ly_page_count l)) 0) [] 0 0 0 0) [].
Proof.
  intros Hc. split; cbn; try done.
  - apply length_replicate.
  - intros i Hi. by apply nth_lookup_Some, lookup_replicate_2; lia.
  - induction (zrange 0 (Z.to_nat (ly_page_count l))) as [|i ks IH]; [done|]. rewrite filter_cons_False; [exact IH|apply not_elem_of_nil].
Qed.
End Pages.

(** ** What the scan returns *)

Section Selection.
Context {W : Type} {HO : OS W} {HM : Memory W} {HP : PrivateMemory W} {HF : Files W} {PL : PageLaws W}.
Context (m : dram_mapping) (target : Z) (l : layout) (g buffer : Z).
Hypothesis Hl : layout_ok l g page_shift.
Hypothesis Hbuffer : 0 < buffer /\ buffer + candidate_bytes l < 18446744073709551616.
Hypothesis Haligned : buffer mod 2 ^ page_shift = 0.
Implicit Types w : W.

Lemma open_page_size pid w c w' : addr_translate_open (Some addr_translate_ctx_reset) pid w = (ADDR_TRANSLATE_OK, c, w') ->
  exists ctx, c = Some ctx /\ at_page_size ctx = 2 ^ page_shift.
Proof.
  unfold addr_translate_open, get_page_size. destruct (pid <=? 0); [done|]. pose proof (pl_pagesize w) as Hps. pose proof pl_shift as Hs.
  destruct (os_pagesize w) as [ps w1]. cbn [fst] in Hps. subst ps.
  assert (H2 : 0 < 2 ^ page_shift < 2 ^ 64) by (split; [apply Z.pow_pos_nonneg; lia|apply Z.pow_lt_mono_r; lia]).
  destruct (Z.leb_spec (2 ^ page_shift) 0); [lia|]. rewrite u64_small by (unfold in_u64; lia). destruct (Z.eqb_spec (2 ^ page_shift) 0); [lia|].
  destruct (64 <=? _); [done|]. destruct (os_open _ w1) as [fd w2]. destruct (fd <? 0); [done|]. intros E. injection E as <- <-. eexists. by split.
Qed.

(** The pages with the given physical addresses hold all the blocks of the scan:
    the first of the target class, each with all its lines, and no page more was
    looked at than needed. *)
Record selection_of (ctx : addr_translate_ctx) (physicals : list Z) (sel : list (Z * Z)) (s : scan) : Prop := {
  so_pages : at_page_size ctx = 2 ^ page_shift;
  so_translated j physical : physicals !! j = Some physical -> translated (W := W) page_shift buffer ctx (Z.of_nat j) physical;
  so_first : sel = take (Z.to_nat (required_blocks l)) (matching m target g page_shift 0 physicals);
  so_enough : Z.of_nat (List.length sel) = required_blocks l;
  so_needed j : (j < List.length physicals)%nat -> Z.of_nat (List.length (matching m target g page_shift 0 (take j physicals))) < required_blocks l;
  so_bound : Z.of_nat (List.length physicals) <= ly_page_count l;
  so_scanned : scanned_pages s = Z.of_nat (List.length physicals);
  so_holds : scan_holds l g page_shift buffer s sel
}.

(** C7: the scan of the bank worker, on every branch. The page map is opened, and
    the pages are written to and translated one after the other from the first
    on. It succeeds with the first [required_blocks] blocks of the target class in
    the order of the pages, counting classes at the physical addresses the page
    map gave in this run, with all the cache lines of each block, exactly the
    pages of those blocks marked to be kept, and no page looked at after the last
    block was found. It fails only if the page map cannot be opened, or the pages
    translated so far hold fewer blocks of the class than required and either
    there is no further page or the translation of the next page, asked for in
    the world after those, fails. *)
Theorem scan_memory_outcome w :
  let open := addr_translate_open (Some addr_translate_ctx_reset) (fl_getpid w) w in
  match (scan_memory m target l buffer w).1 with
  | Some s => exists ctx w1 physicals w2 sel, open = (ADDR_TRANSLATE_OK, Some ctx, w1) /\
      pages_read page_shift buffer ctx 0 w1 physicals w2 /\ selection_of ctx physicals sel s
  | None => open.1.1 <> ADDR_TRANSLATE_OK \/
      exists ctx w1 physicals w2, open = (ADDR_TRANSLATE_OK, Some ctx, w1) /\
        pages_read page_shift buffer ctx 0 w1 physicals w2 /\
        Z.of_nat (List.length (matching m target g page_shift 0 physicals)) < required_blocks l /\
        let next := Z.of_nat (List.length physicals) in
        next = ly_page_count l \/
        next < ly_page_count l /\
        (addr_translate_va_to_pa (Some ctx) (buffer + next * 2 ^ page_shift) (Some addr_translation_zero)
          (page_touched page_shift buffer next w2)).1.1 <> ADDR_TRANSLATE_OK
  end.
Proof.
  pose proof (lk_blocks _ _ _ Hl) as Hreq. assert (Hcount : 0 <= ly_page_count l).
  { pose proof (lk_room _ _ _ Hl) as Hr. rewrite (lk_bytes _ _ _ Hl) in Hr. assert (0 < 2 ^ page_shift) by (apply Z.pow_pos_nonneg; pose proof pl_shift; lia). nia. }
  unfold scan_memory. cbn [addr_translate_reset]. destruct (addr_translate_open _ _ w) as [[rc at_] w1] eqn:Eo.
  destruct (Z.eqb_spec rc ADDR_TRANSLATE_OK) as [->|Hne]; cbn [negb]; [|by left]. destruct (open_page_size _ _ _ _ Eo) as (ctx & -> & Hctx).
  pose proof (page_loop_scans m target l g page_shift buffer ctx Hl Hbuffer Haligned Hctx (Z.to_nat (ly_page_count l)) 0 _ w1 []
    (scan_start l g page_shift buffer Hcount) eq_refl ltac:(lia) ltac:(lia)) as Hscan.
  destruct (page_loop _ _ _ _ _ _ _ _ w1) as [[rc s] w3]. destruct Hscan as (physicals & w2 & [S1 S2 S3 S4 S5 S6 S7]).
  destruct (addr_translate_close (Some ctx) w3) as [c w4]. unfold wanted in *. cbn [List.length app Z.of_nat] in *. rewrite Z.sub_0_r, Z.add_0_l in *.
  destruct (Z.eqb_spec rc ADDR_TRANSLATE_OK) as [->|Hne]; cbn [negb].
  2:{ right. exists ctx, w1, physicals, w2. destruct (S7 Hne) as [Hfew E]. split; [done|]. split; [done|]. split; [lia|]. right.
      destruct (Z.eqb_spec rc ADDR_TRANSLATE_OK); [done|]. split; [lia|]. rewrite E. exact Hne. }
  set (sel := take _ _) in *. rewrite (sh_blocks _ _ _ _ _ _ S2), (sh_count _ _ _ _ _ _ S2), (lk_lines _ _ _ Hl).
  destruct (Z.eqb_spec (Z.of_nat (List.length sel)) (required_blocks l)) as [Heq|Hne]; cbn [negb orb].
  - rewrite Heq, Z.eqb_refl. cbn [negb]. exists ctx, w1, physicals, w2, sel. split; [done|]. split; [done|].
    split; try done; try lia; [exact (pages_read_translated page_shift buffer ctx 0 w1 physicals w2 S1)|]. intros j Hj; specialize (S4 j Hj); lia.
  - right. exists ctx, w1, physicals, w2. unfold sel in Hne. rewrite length_take in Hne.
    split; [done|]. split; [done|]. destruct (S6 eq_refl) as [Hge|Hlen]; [lia|]. split; [lia|]. left. lia.
Qed.

Lemma selection_lines ctx physicals sel s : selection_of ctx physicals sel s ->
  NoDup (sc_lines s) /\ words_apart (sc_lines s) /\ Z.of_nat (List.length (sc_lines s)) = required_lines l /\ selected_lines s = required_lines l.
Proof.
  intros [_ _ Hfirst Henough _ Hbound _ Hholds]. destruct (powers l g page_shift Hl) as (E6 & Epg & H6 & Hpos & _).
  assert (Hsub : sublist sel (matching m target g page_shift 0 physicals)) by (rewrite Hfirst; apply sublist_take).
  assert (Hnd : NoDup (sc_lines s)) by (rewrite (sh_lines _ _ _ _ _ _ Hholds); by apply (selected_lines_nodup m target l g page_shift buffer Hl sel physicals)).
  split; [exact Hnd|]. split; [|split].
  - assert (H64 : forall a, a ∈ sc_lines s -> a mod 64 = 0).
    { intros a. rewrite (sh_lines _ _ _ _ _ _ Hholds). intros (x & (i & Hi & ->)%(elem_block_lines l g page_shift buffer Hl) & Hx)%list_elem_of_bind.
      eapply elem_of_sublist in Hx; [|exact Hsub]. apply (matching_ok m target l g page_shift Hl) in Hx as [_ [c Ec]]; [|lia..].
      unfold block_address. rewrite Ec, E6. assert (Ebuf : exists q, buffer = q * 64).
      { exists (buffer / 2 ^ page_shift * 2 ^ (page_shift - g) * 2 ^ (g - 6)).
        rewrite (Z.div_mod buffer (2 ^ page_shift)) at 1 by (apply Z.pow_nonzero; pose proof pl_shift; lia). rewrite Haligned, Z.add_0_r. rewrite Epg at 1. rewrite E6. lia. }
      destruct Ebuf as [q ->]. rewrite Epg, E6.
      replace (_ + _) with ((q + x.1 * (2 ^ (page_shift - g) * 2 ^ (g - 6)) + c * 2 ^ (g - 6) + i) * 64) by lia. by apply Z.mod_mul. }
    intros i j a b Ha Hb Hne. pose proof (H64 a (list_elem_of_lookup_2 _ _ _ Ha)). pose proof (H64 b (list_elem_of_lookup_2 _ _ _ Hb)).
    assert (a <> b) by (intros ->; apply Hne; by eapply NoDup_lookup). pose proof (Z.div_mod a 64 ltac:(lia)). pose proof (Z.div_mod b 64 ltac:(lia)). lia.
  - rewrite (sh_lines _ _ _ _ _ _ Hholds), (lk_lines _ _ _ Hl), <- Henough. clear -H6. induction sel as [|x sel IH]; [done|]. cbn [mbind list_bind].
    rewrite length_app, Nat2Z.inj_add. rewrite IH. unfold block_lines. rewrite length_fmap, zrange_seqZ, length_seqZ. cbn [List.length]. lia.
  - by rewrite (sh_count _ _ _ _ _ _ Hholds), Henough, (lk_lines _ _ _ Hl).
Qed.

(** Every cache line the bank worker reads belongs to the target class: all its
    bytes, at the physical address the page map gave to its page, have exactly
    the class asked for, and its page is one of those that are kept; there are
    as many lines as required, all different. *)
Theorem selected_lines_in_class ctx physicals sel s : wf_mapping m -> block_shift m g -> selection_of ctx physicals sel s ->
  Z.of_nat (List.length (sc_lines s)) = required_lines l /\ NoDup (sc_lines s) /\
  forall a, a ∈ sc_lines s -> exists index offset physical,
    a = buffer + index * 2 ^ page_shift + offset /\ 0 <= index < ly_page_count l /\ 0 <= offset /\ offset + 64 <= 2 ^ page_shift /\
    translated (W := W) page_shift buffer ctx index physical /\ nth (Z.to_nat index) (keep_page s) 0 = 1 /\
    forall y, 0 <= y < 64 -> dram_mapping_bank_class_fast m (physical + offset + y) = target.
Proof.
  intros Hm Hshift Hsel. destruct (selection_lines _ _ _ _ Hsel) as (Hnd & _ & Hlen & _). split; [exact Hlen|]. split; [exact Hnd|].
  destruct Hsel as [Hctx Htr Hfirst _ _ Hbound _ Hholds]. destruct (powers l g page_shift Hl) as (E6 & Epg & H6 & Hpos & _). intros a.
  rewrite (sh_lines _ _ _ _ _ _ Hholds). intros (x & (i & Hi & ->)%(elem_block_lines l g page_shift buffer Hl) & Hx)%list_elem_of_bind.
  assert (Hin : x ∈ matching m target g page_shift 0 physicals) by (rewrite Hfirst in Hx; eapply elem_of_sublist; [exact Hx|apply sublist_take]).
  destruct (matching_ok m target l g page_shift Hl 0 physicals x ltac:(lia) ltac:(lia) Hin) as [[Hx1 Hx2] [c Ec]].
  apply elem_matching in Hin as (j & physical & Hj & [E1 (c' & Hc' & _ & Hclass)]%elem_page_blocks). rewrite Z.add_0_l in E1.
  assert (H2g : 0 < 2 ^ g) by lia. assert (Hoff : 0 <= x.2 /\ x.2 + 2 ^ g <= 2 ^ page_shift) by lia.
  exists x.1, (x.2 + i * 64), physical. unfold block_address. split; [lia|]. split; [exact Hx1|]. split; [lia|]. split; [rewrite E6 in Hoff; lia|].
  pose proof (Htr j physical Hj) as Ht. rewrite <- E1 in Ht. split; [exact Ht|]. split.
  - rewrite (sh_keep _ _ _ _ _ _ Hholds) by exact Hx1. rewrite decide_True; [done|]. apply list_elem_of_fmap. by exists x.
  - intros y Hy. destruct (translated_frame l g page_shift buffer ctx Hl Hbuffer Haligned Hctx _ _ Ht) as (Hp0 & Hpm & _).
    rewrite Epg, Z.mul_comm in Hpm. apply (Znumtheory.Zmod_divide_minus) in Hpm as [q Hq]; [|lia]. rewrite Z.sub_0_r in Hq.
    replace (physical + (x.2 + i * 64) + y) with (physical + x.2 + (i * 64 + y)) by lia. rewrite (class_in_block m g); [exact Hclass|done|done|pose proof (lk_g _ _ _ Hl); lia|lia| |lia].
    replace (physical + x.2) with ((q * 2 ^ (page_shift - g) + c) * 2 ^ g) by lia. apply Z.mod_mul. lia.
Qed.
End Selection.
