(* ===== verification/BankWorkerRun.v ===== *)
(** * How the bank worker runs

    The pages without a selected block are given back, and no other; the lines
    are linked to one cycle, which the reads follow until the clock says enough;
    whatever happens, the memory is unmapped and everything that was opened is
    closed. *)
From S2P Require Import Prelude Float64 CString Os Calibration CalibrationLoad DramMapping CalibrationProps AddrTranslate BankMaps OracleSys OraclePool OracleLines OracleClasses OracleSelect OracleChain OracleChainProps OracleIo OracleHeld OracleMainProps BankWorker BankWorkerProps.
From Stdlib Require Import Ascii String.
Local Open Scope Z_scope.

(** ** The pages given back *)

(** What [madvise(MADV_DONTNEED)] was called on successfully. *)
Class DropLaws (W : Type) `{PrivateMemory W} := {
  dropped : W -> list (Z * Z);
  dl_dontneed base bytes w : dropped (pm_dontneed base bytes w).2 = dropped w ++ (if (pm_dontneed base bytes w).1 then [(base, bytes)] else [])
}.

Lemma zrange_split a n k : (k <= n)%nat -> zrange a n = zrange a k ++ zrange (a + Z.of_nat k) (n - k).
Proof.
  revert a n. induction k as [|k IH]; intros a n Hk; [by rewrite Z.add_0_r, Nat.sub_0_r|]. destruct n as [|n]; [lia|].
  cbn [zrange app Nat.sub]. f_equal. rewrite (IH (a + 1) n) by lia. by replace (a + 1 + Z.of_nat k) with (a + Z.of_nat (S k)) by lia.
Qed.

Section Release.
Context {W : Type} {HP : PrivateMemory W} {DL : DropLaws W}.
Context (buffer page_size : Z) (keep : list Z).
Implicit Types w : W.

(** The pages of a sequence of runs. *)
Definition run_pages (runs : list (Z * Z)) : list Z := runs ≫= (fun r => zrange r.1 (Z.to_nat r.2)).
Definition run_range (r : Z * Z) : Z * Z := (u64 (buffer + r.1 * page_size), u64_mul r.2 page_size).

Definition unselected (a : Z) (n : nat) : list Z := filter (fun i => nth (Z.to_nat i) keep 0 = 0) (zrange a n).

Lemma run_end_spec n : forall i, i <= run_end n keep i <= i + Z.of_nat n /\ (forall k, i <= k < run_end n keep i -> nth (Z.to_nat k) keep 0 = 0) /\
  (nth (Z.to_nat i) keep 0 = 0 -> (0 < n)%nat -> i < run_end n keep i).
Proof.
  induction n as [|n IH]; intros i; cbn [run_end]; [conjs; lia|]. destruct (Z.eqb_spec (nth (Z.to_nat i) keep 0) 0) as [E|E].
  - destruct (IH (i + 1)) as (H1 & H2 & _). conjs; try lia. intros k Hk. destruct (Z.eq_dec k i) as [->|]; [exact E|apply H2; lia].
  - conjs; try lia; done.
Qed.

Lemma unselected_run a n k : (k <= n)%nat -> (forall i, a <= i < a + Z.of_nat k -> nth (Z.to_nat i) keep 0 = 0) ->
  unselected a n = zrange a k ++ unselected (a + Z.of_nat k) (n - k).
Proof.
  intros Hk Hall. unfold unselected. rewrite (zrange_split a n k Hk), filter_app. f_equal. apply filter_all, Forall_forall. intros i Hi.
  rewrite zrange_seqZ in Hi. apply elem_of_seqZ in Hi. apply Hall. lia.
Qed.

Lemma release_loop_spec fuel : forall scanned i w, 0 <= i <= scanned -> (Z.to_nat (scanned - i) <= fuel)%nat ->
  let '(rc, w') := release_loop fuel buffer keep scanned page_size i w in
  exists runs rest, dropped w' = dropped w ++ (run_range <$> runs) /\ Forall (fun r => 0 < r.2) runs /\
    run_pages runs ++ rest = unselected i (Z.to_nat (scanned - i)) /\ (rc = 0 /\ rest = [] \/ rc = -1 /\ rest <> []).
Proof.
  assert (Hend : forall w : W, exists runs rest, dropped w = dropped w ++ (run_range <$> runs) /\ Forall (fun r => 0 < r.2) runs /\
    run_pages runs ++ rest = [] /\ (0 = 0 /\ rest = [] \/ 0 = -1 /\ rest <> [])) by (intros w; exists [], []; cbn [fmap list_fmap]; rewrite app_nil_r; split; [done|split; [constructor|split; [done|by left]]]).
  induction fuel as [|fuel IH]; intros scanned i w Hi Hf; cbn [release_loop]; [replace (Z.to_nat (scanned - i)) with O by lia; apply Hend|].
  destruct (Z.ltb_spec i scanned); [|replace (Z.to_nat (scanned - i)) with O by lia; apply Hend].
  destruct (Z.eqb_spec (nth (Z.to_nat i) keep 0) 0) as [E|E]; cbn [negb].
  - destruct (run_end_spec (Z.to_nat (scanned - i)) i) as (He & Hz & Hlt). specialize (Hlt E ltac:(lia)). set (e := run_end _ keep i) in *.
    pose proof (dl_dontneed (u64 (buffer + i * page_size)) (u64_mul (e - i) page_size) w) as Hd.
    assert (Hsplit : unselected i (Z.to_nat (scanned - i)) = zrange i (Z.to_nat (e - i)) ++ unselected e (Z.to_nat (scanned - e))).
    { rewrite (unselected_run i _ (Z.to_nat (e - i))) by (lia || (intros k Hk; apply Hz; lia)). do 2 f_equal; lia. }
    destruct (pm_dontneed _ _ w) as [ok w1]. cbn [fst snd] in Hd. destruct ok; cbn [negb].
    + specialize (IH scanned e w1 ltac:(lia) ltac:(lia)). destruct (release_loop _ _ _ _ _ e w1) as [rc w']. destruct IH as (runs & rest & I1 & I2 & I3 & I4).
      exists ((i, e - i) :: runs), rest. rewrite I1, Hd, <- app_assoc. split; [done|]. split; [constructor; [cbn; lia|done]|]. split; [|done].
      rewrite Hsplit, <- I3. unfold run_pages. cbn [mbind list_bind fst snd]. by rewrite app_assoc.
    + exists [], (unselected i (Z.to_nat (scanned - i))). rewrite Hd. split; [done|]. split; [constructor|]. split; [done|]. right. split; [done|].
      rewrite Hsplit. replace (Z.to_nat (e - i)) with (S (Z.to_nat (e - i - 1))) by lia. done.
  - specialize (IH scanned (i + 1) w ltac:(lia) ltac:(lia)). destruct (release_loop _ _ _ _ _ (i + 1) w) as [rc w']. destruct IH as (runs & rest & I1 & I2 & I3 & I4).
    exists runs, rest. conjs; try done. rewrite I3. unfold unselected. replace (Z.to_nat (scanned - i)) with (S (Z.to_nat (scanned - (i + 1)))) by lia.
    cbn [zrange]. by rewrite filter_cons_False.
Qed.

(** The pages given back: when [release_unselected_pages] succeeds, the ranges
    it passed to [madvise] hold exactly the scanned pages without a selected
    block, each of them once and in order; no range is empty. When a call fails
    it stops at once, and the ranges before hold a proper prefix of those
    pages. *)
Theorem release_exact scanned w : 0 <= scanned ->
  let '(rc, w') := release_unselected_pages buffer keep scanned page_size w in
  exists runs, dropped w' = dropped w ++ (run_range <$> runs) /\ Forall (fun r => 0 < r.2) runs /\
    (rc = 0 /\ run_pages runs = unselected 0 (Z.to_nat scanned) \/
     rc = -1 /\ exists rest, rest <> [] /\ run_pages runs ++ rest = unselected 0 (Z.to_nat scanned)).
Proof.
  intros Hs. pose proof (release_loop_spec (Z.to_nat scanned) scanned 0 w ltac:(lia) ltac:(lia)) as H. rewrite Z.sub_0_r in H. unfold release_unselected_pages.
  destruct (release_loop _ _ _ _ _ 0 w) as [rc w']. destruct H as (runs & rest & H1 & H2 & H3 & H4). exists runs. split; [exact H1|]. split; [exact H2|].
  destruct H4 as [[-> ->]|[-> Hne]]; [left|right]; (split; [done|]); [by rewrite app_nil_r in H3|by exists rest].
Qed.
End Release.

(** ** The cycle *)

Section Cycle.
Context {W : Type} {HM : Memory W} {ML : MemoryLaws W}.
Implicit Types w : W.

Lemma line_at_identity set n i : 0 <= i < Z.of_nat n -> line_at set (zrange 0 n) i = nth (Z.to_nat i) (ls_addresses set) 0.
Proof.
  intros Hi. unfold line_at. assert (E : nth (Z.to_nat i) (zrange 0 n) 0 = i); [|by rewrite E].
  apply nth_lookup_Some. rewrite zrange_seqZ. apply lookup_seqZ. lia.
Qed.

(** The loop is that of the experiment's victim, whose permutation is the identity
    here. *)
Lemma chain_loop_single lines n : forall i w, 0 <= i -> i + Z.of_nat n = Z.of_nat (List.length lines) ->
  Z.of_nat (List.length lines) < 18446744073709551616 ->
  chain_loop n i lines (Z.of_nat (List.length lines)) w =
  single_loop n i (mk_line_set None lines (Z.of_nat (List.length lines))) (zrange 0 (List.length lines)) w.
Proof.
  set (set := mk_line_set None lines _). set (perm := zrange 0 _).
  assert (Hat : forall i, 0 <= i < Z.of_nat (List.length lines) -> line_at set perm i = nth (Z.to_nat i) lines 0)
    by (intros i Hi; by apply (line_at_identity set)).
  induction n as [|n IH]; intros i w Hi Hn Hlen; cbn [chain_loop single_loop]; [done|]. cbn [ls_line_count set].
  rewrite !Hat by (lia || (apply Z.mod_pos_bound; lia)). apply IH; lia.
Qed.

Lemma chain_loop_cycle lines w : 0 < Z.of_nat (List.length lines) < 9223372036854775808 -> words_apart lines ->
  let w' := chain_loop (List.length lines) 0 lines (Z.of_nat (List.length lines)) w in
  visits (List.length lines) (nth 0 lines 0) w' = lines /\
  forall k, chase k (nth 0 lines 0) w' = nth (Z.to_nat (Z.of_nat k mod Z.of_nat (List.length lines))) lines 0.
Proof.
  intros Hlen Hap w'. set (set := mk_line_set None lines (Z.of_nat (List.length lines))).
  destruct (single_chain_cycle set (zrange 0 (List.length lines)) eq_refl Hlen) with (w := w) as (E1 & E2 & E3); [by cbn [set ls_line_count]; rewrite Nat2Z.id|exact Hap|].
  assert (Ew : w' = (build_single_chain set (zrange 0 (List.length lines)) w).2).
  { unfold w', build_single_chain. cbn [ls_line_count set]. destruct (Z.eqb_spec (Z.of_nat (List.length lines)) 0); [lia|]. rewrite Nat2Z.id. cbn [snd]. apply chain_loop_single; lia. }
  rewrite <- Ew in *. assert (Hat : forall i, 0 <= i < Z.of_nat (List.length lines) -> line_at set (zrange 0 (List.length lines)) i = nth (Z.to_nat i) lines 0)
    by (intros i Hi; by apply (line_at_identity set)).
  rewrite (Hat 0) in * by lia. cbn [ls_line_count set] in *. rewrite Nat2Z.id in *. split.
  - change (Z.to_nat 0) with O in E2. rewrite E2. etransitivity; [|apply nth_indices]. apply list_fmap_ext. intros i x Hx. apply Hat.
    apply list_elem_of_lookup_2, elem_zrange in Hx. lia.
  - intros k. change (Z.to_nat 0) with O in E3. rewrite E3. apply Hat. apply Z.mod_pos_bound. lia.
Qed.
End Cycle.

(** ** The reads *)

Lemma shuffle_lines_permutes lines : exists order, shuffle_lines (Some lines) (Z.of_nat (List.length lines)) = Some order /\ order ≡ₚ lines.
Proof.
  unfold shuffle_lines. destruct (Z.ltb_spec (Z.of_nat (List.length lines)) 2); [by exists lines|]. eexists. split; [done|].
  by destruct (shuffle_loop_permutes rng_next (Z.to_nat (Z.of_nat (List.length lines) - 1)) 0x123456789abcdef lines) as [? _]; [lia|].
Qed.

Lemma words_apart_perm xs ys : NoDup xs -> words_apart xs -> ys ≡ₚ xs -> words_apart ys.
Proof.
  intros Hnd Hap Hp i j a b Ha Hb Hne. assert (Hndy : NoDup ys) by (by rewrite Hp). assert (a <> b) by (intros ->; by apply Hne, (NoDup_lookup ys i j b)).
  apply list_elem_of_lookup_2 in Ha, Hb. rewrite Hp in Ha, Hb. apply list_elem_of_lookup_1 in Ha as [i' Ha], Hb as [j' Hb].
  apply (Hap i' j' a b Ha Hb). intros ->. congruence.
Qed.

(** Stopping the process changes no memory. *)
Class StopLaws (W : Type) `{Memory W} `{Workers W} := { sl_load a (w : W) : mm_load a (wk_raise_stop w).2 = mm_load a w }.

(** The clock's readings, one after the other. *)
Fixpoint reading {W} `{RawClock W} (n : nat) (w : W) : option (Z * Z) :=
  match n with
  | O => (rc_clock w).1
  | S n => reading n (rc_clock w).2
  end.

Section Reads.
Context {W : Type} {HM : Memory W} {HC : RawClock W} {HK : Workers W} {ML : MemoryLaws W} {CL : ClockLaws W} {SL : StopLaws W}.
Implicit Types w : W.

Lemma read_loop_chunks fuel start seconds : forall current total w,
  read_loop fuel start seconds current total w = victim_chunks chunk_reads fuel start seconds current total w.
Proof.
  induction fuel as [|fuel IH]; intros current total w; cbn [read_loop victim_chunks]; [done|].
  destruct (rc_clock w) as [[now|] w1]; [|done]. rewrite IH. done.
Qed.

(** The loop runs on only while the clock works and shows too little time. *)
Lemma read_loop_none fuel start seconds : forall current total w, read_loop fuel start seconds current total w = None ->
  forall k, (k < fuel)%nat -> exists now, reading k w = Some now /\ dleb seconds (elapsed_sec start now) = false.
Proof.
  induction fuel as [|fuel IH]; intros current total w E k Hk; [lia|]. cbn [read_loop] in E. destruct k as [|k]; cbn [reading];
    destruct (rc_clock w) as [[now|] w1]; try done; cbn [fst snd]; destruct (dleb seconds (elapsed_sec start now)) eqn:Ed; try done.
  - by exists now.
  - apply (IH _ _ _ E k). lia.
Qed.

Lemma timed_reads_result fuel a current w p seconds total w' : timed_reads fuel a current w = Some (Some (p, seconds, total), w') ->
  dleb (Z_to_double (run_seconds a)) seconds = true /\
  exists chunks, (0 < chunks)%nat /\ total = u64 (Z.of_nat chunks * chunk_reads) /\ p = chase (chunks * Z.to_nat chunk_reads) current w.
Proof.
  unfold timed_reads. set (stopped := if wait_for_cont a then wk_raise_stop w else (true, w)).
  assert (Hs : same_memory w stopped.2) by (intros x; unfold stopped; destruct (wait_for_cont a); [apply sl_load|done]).
  destruct stopped as [ok w1]. cbn [snd] in Hs. destruct ok; cbn [negb]; [|done].
  pose proof (fun x => cl_load x w1) as Hk. destruct (rc_clock w1) as [[start|] w2]; [|done]. cbn [snd] in Hk. rewrite read_loop_chunks.
  destruct (victim_chunks _ _ _ _ _ _ w2) as [[[[[q ops] now]|] w3]|] eqn:E; [|done..]. intros Hr. injection Hr as <- <- <- <-.
  destruct (victim_chunks_result _ _ _ _ _ _ _ _ _ _ _ ltac:(done) E) as (n & Hn & -> & -> & Hd & _). split; [exact Hd|]. exists n. split; [lia|]. split; [done|].
  apply chase_same. intros x. by rewrite Hk, Hs.
Qed.

(** When it does not end, the clock never showed the seconds asked for. *)
Lemma timed_reads_none fuel a current w : timed_reads fuel a current w = None ->
  exists start w1, forall k, (k < fuel)%nat -> exists now, reading k w1 = Some now /\ dleb (Z_to_double (run_seconds a)) (elapsed_sec start now) = false.
Proof.
  unfold timed_reads. destruct (if wait_for_cont a then wk_raise_stop w else (true, w)) as [ok w1]. destruct ok; cbn [negb]; [|done].
  destruct (rc_clock w1) as [[start|] w2]; [|done]. destruct (read_loop _ _ _ _ _ w2) as [[[[[p ops] now]|] w3]|] eqn:E; [done..|].
  intros _. exists start, w2. exact (read_loop_none _ _ _ _ _ _ E).
Qed.

Lemma work_none {HO : OS W} {HP : PrivateMemory W} {HF : Files W} fuel m a l sink w : work fuel m a l sink w = None ->
  exists start w1, forall k, (k < fuel)%nat -> exists now, reading k w1 = Some now /\ dleb (Z_to_double (run_seconds a)) (elapsed_sec start now) = false.
Proof.
  unfold work. destruct (os_calloc _ 1 w) as [ok1 w1], (mm_malloc _ w1) as [ok2 w2]. destruct (negb _); [done|]. destruct (pm_mmap _ w2) as [[buffer|] w3]; [|done].
  destruct (mm_madvise _ _ w3) as [ok4 w4], (scan_memory _ _ _ _ w4) as [[s|] w5]; [|done].
  destruct (read_lines _ _ _ _ _ _ _ w5) as [[[[code r] sink'] w6]|] eqn:E; [done|]. intros _. revert E. unfold read_lines.
  destruct (release_unselected_pages _ _ _ _ w5) as [rc w6]. destruct (negb _); [done|].
  destruct (timed_reads fuel a _ _) as [[[[[p secs] total]|] w7]|] eqn:Et; [done..|]. intros _. exact (timed_reads_none _ _ _ _ Et).
Qed.
End Reads.

(** ** A run that succeeds *)

Section Success.
Context {W : Type} {HO : OS W} {HM : Memory W} {HP : PrivateMemory W} {HC : RawClock W} {HF : Files W} {HK : Workers W}.
Context {ML : MemoryLaws W} {CL : ClockLaws W} {SL : StopLaws W} {PL : PageLaws W}.
Context (m : dram_mapping) (a : arguments) (l : layout) (g : Z).
Hypothesis Hl : layout_ok l g page_shift.
Implicit Types w : W.

(** The report of [n] chunks of reads along a cycle through the lines of [s], which
    ends at the line [sink]. *)
Definition reads_reported (s : scan) (r : bank_report) (sink : Z) : Prop :=
  br_arguments r = a /\ br_scan r = s /\ dleb (Z_to_double (run_seconds a)) (br_elapsed_sec r) = true /\
  br_ns_per_read r = ddiv (dmul (br_elapsed_sec r) (dlit 1000000000 1)) (Z_to_double (br_total_reads r)) /\
  exists (cycle : list Z) (chunks : nat) w, cycle ≡ₚ sc_lines s /\
    visits (List.length cycle) (nth 0 cycle 0) w = cycle /\ chase (List.length cycle) (nth 0 cycle 0) w = nth 0 cycle 0 /\
    (0 < chunks)%nat /\ br_total_reads r = u64 (Z.of_nat chunks * chunk_reads) /\
    sink = chase (chunks * Z.to_nat chunk_reads) (nth 0 cycle 0) w.

Lemma read_lines_success fuel buffer ctx physicals sel s sink w code r sink' w' :
  selection_of (W := W) m (target_class a) l g buffer ctx physicals sel s -> 0 < buffer /\ buffer + candidate_bytes l < 18446744073709551616 -> buffer mod 2 ^ page_shift = 0 ->
  read_lines fuel m a l buffer s sink w = Some (code, Some r, sink', w') -> reads_reported s r sink'.
Proof.
  intros Hsel Hbuffer Haligned. destruct (selection_lines m (target_class a) l g buffer Hl Hbuffer Haligned ctx physicals sel s Hsel) as (Hnd & Hap & Hlen & Hcount).
  pose proof (lk_fits _ _ _ Hl) as Hfit. pose proof (lk_lines _ _ _ Hl) as Hreq. pose proof (lk_blocks _ _ _ Hl) as Hpos.
  assert (Hn : selected_lines s = Z.of_nat (List.length (sc_lines s))) by lia. destruct (powers l g page_shift Hl) as (_ & _ & H6 & _).
  unfold read_lines. destruct (release_unselected_pages _ _ _ _ w) as [rc w1]. destruct (negb _); [done|]. rewrite Hn.
  destruct (shuffle_lines_permutes (sc_lines s)) as (order & -> & Hperm). cbn [default from_option id].
  assert (Hol : List.length order = List.length (sc_lines s)) by (by rewrite Hperm). rewrite <- Hol, Nat2Z.id.
  destruct (chain_loop_cycle order w1) as [Hvisit Hchase]; [nia|by apply (words_apart_perm (sc_lines s))|]. set (w2 := chain_loop _ _ _ _ w1) in *.
  assert (Hround : chase (List.length order) (nth 0 order 0) w2 = nth 0 order 0) by (rewrite Hchase, Z.mod_same by nia; done). rewrite Hround.
  destruct (timed_reads fuel a _ w2) as [[[[[p secs] total]|] w3]|] eqn:Et; [|done..].
  intros Hr. injection Hr as <- <- <- <-. destruct (timed_reads_result _ _ _ _ _ _ _ _ Et) as (Hd & chunks & Hch & -> & ->).
  unfold reads_reported. cbn [br_arguments br_scan br_elapsed_sec br_ns_per_read br_total_reads]. split; [done|]. split; [done|]. split; [exact Hd|]. split; [done|].
  exists order, chunks, w2. by conjs.
Qed.

End Success.

(** ** What is held *)

(** The calls that acquire and release nothing. *)
Inductive quiet_call {W} `{BinFile W} `{Memory W} `{PrivateMemory W} `{RawClock W} `{Workers W} : (W -> W) -> Prop :=
  | q_malloc n : quiet_call (fun w => (mm_malloc n w).2)
  | q_madvise base n : quiet_call (fun w => (mm_madvise base n w).2)
  | q_dontneed base n : quiet_call (fun w => (pm_dontneed base n w).2)
  | q_store_byte a v : quiet_call (mm_store_byte a v)
  | q_store a v : quiet_call (mm_store a v)
  | q_clock : quiet_call (fun w => (rc_clock w).2)
  | q_stop : quiet_call (fun w => (wk_raise_stop w).2)
  | q_seek_end : quiet_call (fun w => (bf_seek_end w).2)
  | q_tell : quiet_call (fun w => (bf_tell w).2)
  | q_seek_set : quiet_call (fun w => (bf_seek_set w).2)
  | q_fread n : quiet_call (fun w => (bf_fread n w).2).

(** The calls of [Os] change no mapping. *)
Inductive unmapping {W} `{OS W} : (W -> W) -> Prop :=
  | u_pagesize : unmapping (fun w => (os_pagesize w).2)
  | u_open path : unmapping (fun w => (os_open path w).2)
  | u_close fd : unmapping (os_close fd)
  | u_pread fd n off : unmapping (fun w => (os_pread fd n off w).2)
  | u_calloc n size : unmapping (fun w => (os_calloc n size w).2).

(** The private mappings, and which calls change them and the streams and
    descriptors held. *)
Class HeldLaws (W : Type) `{Resources W} `{BinFile W} `{Memory W} `{PrivateMemory W} `{RawClock W} `{Workers W} := {
  regions : W -> gset (Z * Z);
  hl_quiet f w : quiet_call f -> regions (f w) = regions w /\ acquired w (f w) 0 0;
  hl_os f w : unmapping f -> regions (f w) = regions w;
  hl_mmap bytes w : acquired w (pm_mmap bytes w).2 0 0 /\
    match (pm_mmap bytes w).1 with
    | Some base => ((base, bytes) ∉ regions w) /\ regions (pm_mmap bytes w).2 = ({[(base, bytes)]} ∪ regions w)
    | None => regions (pm_mmap bytes w).2 = regions w
    end;
  hl_munmap base bytes w : acquired w (mm_munmap base bytes w) 0 0 /\ regions (mm_munmap base bytes w) = (regions w ∖ {[(base, bytes)]});
  hl_bf_fopen path w : regions (bf_fopen path w).2 = regions w /\ acquired w (bf_fopen path w).2 (if (bf_fopen path w).1 then 1 else 0) 0;
  hl_bf_fclose w : regions (bf_fclose w).2 = regions w /\ acquired w (bf_fclose w).2 (-1) 0
}.

Section Held.
Context {W : Type} {HO : OS W} {HR : Resources W} {HB : BinFile W} {HM : Memory W} {HP : PrivateMemory W} {HC : RawClock W} {HF : Files W} {HK : Workers W}.
Context {HL : HeldLaws W}.
Implicit Types w : W.

(** The same mappings, and [ds] streams and [df] descriptors more. *)
Definition held w w' (ds df : Z) : Prop := regions w' = regions w /\ acquired w w' ds df.

(** Nothing was acquired or released on balance. *)
Definition all_kept w w' : Prop := held w w' 0 0.

#[export] Instance kept_preorder : PreOrder all_kept.
Proof. split; unfold all_kept, held, acquired; [intros w; split; [done|lia]|]. intros w1 w2 w3 [E1 H1] [E2 H2]. split; [congruence|lia]. Qed.

Lemma kept_quiet f w : quiet_call f -> all_kept w (f w).
Proof. apply hl_quiet. Qed.

Lemma held_trans w1 w2 w3 a b c d : held w1 w2 a b -> held w2 w3 c d -> held w1 w3 (a + c) (b + d).
Proof. intros [E1 H1] [E2 H2]. split; [congruence|by eapply acquired_trans]. Qed.

Lemma held_kept w1 w2 w3 a b : held w1 w2 a b -> all_kept w2 w3 -> held w1 w3 a b.
Proof. intros H1 H2. pose proof (held_trans _ _ _ _ _ _ _ H1 H2) as H. by rewrite !Z.add_0_r in H. Qed.

Lemma regions_pread fd n off w : regions (os_pread fd n off w).2 = regions w.
Proof. exact (hl_os _ w (u_pread fd n off)). Qed.
Lemma regions_open path w : regions (os_open path w).2 = regions w.
Proof. exact (hl_os _ w (u_open path)). Qed.
Lemma regions_pagesize w : regions (os_pagesize w).2 = regions w.
Proof. exact (hl_os _ w u_pagesize). Qed.

Lemma kept_calloc n size w : all_kept w (os_calloc n size w).2.
Proof. split; [apply (hl_os _ w (u_calloc n size))|apply acquired_calloc]. Qed.

Lemma kept_pagesize w : all_kept w (os_pagesize w).2.
Proof. split; [apply regions_pagesize|apply acquired_pagesize]. Qed.

(** *** The page map *)

Lemma read_entry_regions ctx index w : regions (read_pagemap_entry ctx index w).2 = regions w.
Proof.
  unfold read_pagemap_entry. destruct (_ <? 0); [done|]. destruct (_ <? index); [done|]. destruct (_ <? _); [done|].
  pose proof (regions_pread (pagemap_fd ctx) 8 (u64_mul index PAGEMAP_ENTRY_BYTES) w) as Ha. destruct (os_pread _ _ _ w) as [[bytes|] w1]; [|exact Ha].
  by destruct (negb _).
Qed.

Lemma va_to_pa_kept ctx va out w : all_kept w (addr_translate_va_to_pa ctx va out w).2.
Proof.
  split; [|apply va_to_pa_held]. unfold addr_translate_va_to_pa. destruct ctx as [ctx|], out as [out|]; try done. destruct (_ || _); [done|].
  pose proof (read_entry_regions ctx (va / at_page_size ctx) w) as Hr. destruct (read_pagemap_entry _ _ w) as [[rc entry] w1]. cbn [snd] in Hr.
  destruct (negb _); [exact Hr|]. destruct (negb _); [by destruct (swapped _)|]. destruct (_ =? 0); [exact Hr|]. by destruct (_ <? _).
Qed.

Lemma open_kept pid w : match addr_translate_open (Some addr_translate_ctx_reset) pid w with
  | (rc, Some ctx, w') => if rc =? ADDR_TRANSLATE_OK then 0 <= pagemap_fd ctx /\ held w w' 0 1 else all_kept w w'
  | (_, None, _) => False
  end.
Proof.
  pose proof (open_held pid w) as Ho. destruct (addr_translate_open _ pid w) as [[rc [ctx|]] w'] eqn:E; [|done].
  assert (Hr : regions w' = regions w).
  { revert E. unfold addr_translate_open, get_page_size. destruct (pid <=? 0); [by intros [= _ _ <-]|].
    pose proof (regions_pagesize w) as Hp. destruct (os_pagesize w) as [ps w1]. cbn [snd] in Hp.
    assert (Hif : (if ps <=? 0 then (0, w1) else (u64 ps, w1)).2 = w1) by (by destruct (ps <=? 0)). destruct (if ps <=? 0 then _ else _) as [sz w1']. cbn [snd] in Hif. subst w1'.
    destruct (sz =? 0); [by intros [= _ _ <-]|]. destruct (64 <=? _); [by intros [= _ _ <-]|].
    pose proof (regions_open ("/proc/" +:+ dec pid +:+ "/pagemap") w1) as Hq. destruct (os_open _ w1) as [fd w2]. cbn [snd] in Hq.
    destruct (fd <? 0); intros [= _ _ <-]; congruence. }
  destruct (rc =? ADDR_TRANSLATE_OK); [destruct Ho; by split|by split].
Qed.

Lemma close_kept ctx w : 0 <= pagemap_fd ctx -> held w (addr_translate_close (Some ctx) w).2 0 (-1).
Proof.
  intros Hf. split; [|by apply close_held]. unfold addr_translate_close. cbn [snd]. destruct (0 <=? pagemap_fd ctx); [|done]. apply (hl_os _ w (u_close (pagemap_fd ctx))).
Qed.

Lemma page_loop_kept n l m target buffer ctx : forall index s w, all_kept w (page_loop n l m target buffer index ctx s w).2.
Proof.
  induction n as [|n IH]; intros index s w; cbn [page_loop]; [done|]. destruct (_ <? _); [|done].
  set (page := u64 _). pose proof (kept_quiet _ w (q_store_byte page (Z.land index 255))) as H1. set (w1 := mm_store_byte _ _ w) in *.
  pose proof (va_to_pa_kept ctx page (Some addr_translation_zero) w1) as H2. destruct (addr_translate_va_to_pa _ _ _ w1) as [[rc tr] w2]. cbn [snd] in H2.
  destruct (negb _); [by rewrite H1|]. etransitivity; [exact H1|]. etransitivity; [exact H2|]. apply IH.
Qed.

Lemma scan_memory_kept m target l buffer w : all_kept w (scan_memory m target l buffer w).2.
Proof.
  unfold scan_memory. cbn [addr_translate_reset]. pose proof (open_kept (fl_getpid w) w) as Ho. destruct (addr_translate_open _ _ w) as [[rc [ctx|]] w1]; [|done].
  destruct (rc =? ADDR_TRANSLATE_OK); cbn [negb]; [|exact Ho]. destruct Ho as [Hfd Ho].
  set (s := mk_scan _ _ _ _ _ _). pose proof (page_loop_kept (Z.to_nat (ly_page_count l)) l m target buffer (Some ctx) 0 s w1) as Hp.
  destruct (page_loop _ _ _ _ _ _ _ _ w1) as [[rc' s'] w2]. cbn [snd] in Hp. pose proof (close_kept ctx w2 Hfd) as Hc.
  destruct (addr_translate_close (Some ctx) w2) as [c w3]. cbn [snd] in Hc.
  assert (Hk : all_kept w w3) by (exact (held_trans _ _ _ _ _ _ _ (held_kept _ _ _ _ _ Ho Hp) Hc)).
  destruct (negb _); [done|]. by destruct (_ || _).
Qed.
(** *** The reads *)

Lemma release_kept fuel buffer keep scanned page_size : forall i w, all_kept w (release_loop fuel buffer keep scanned page_size i w).2.
Proof.
  induction fuel as [|fuel IH]; intros i w; cbn [release_loop]; [done|]. destruct (i <? scanned); [|done]. destruct (negb _); [apply IH|].
  set (base := u64 _). set (len := u64_mul _ _). pose proof (kept_quiet _ w (q_dontneed base len)) as H1. cbn beta in H1.
  destruct (pm_dontneed base len w) as [ok w1]. destruct (negb ok); [exact H1|]. etransitivity; [exact H1|apply IH].
Qed.

Lemma chain_kept n lines count : forall i w, all_kept w (chain_loop n i lines count w).
Proof. induction n as [|n IH]; intros i w; cbn [chain_loop]; [done|]. etransitivity; [eapply (kept_quiet (mm_store _ _)), q_store|apply IH]. Qed.

Lemma read_loop_kept fuel start seconds : forall current total w,
  match read_loop fuel start seconds current total w with Some (_, w') => all_kept w w' | None => True end.
Proof.
  induction fuel as [|fuel IH]; intros current total w; cbn [read_loop]; [done|].
  pose proof (kept_quiet _ w q_clock) as H1. cbn beta in H1. destruct (rc_clock w) as [[now|] w1]; [|exact H1]. destruct (dleb _ _); [exact H1|].
  specialize (IH (chase (Z.to_nat chunk_reads) current w) (u64_add total chunk_reads) w1). destruct (read_loop _ _ _ _ _ w1) as [[r w2]|]; [|done].
  etransitivity; [exact H1|exact IH].
Qed.

Lemma timed_reads_kept fuel a current w : match timed_reads fuel a current w with Some (_, w') => all_kept w w' | None => True end.
Proof.
  unfold timed_reads. set (stopped := if wait_for_cont a then wk_raise_stop w else (true, w)).
  assert (H1 : all_kept w stopped.2) by (unfold stopped; destruct (wait_for_cont a); [exact (kept_quiet _ w q_stop)|done]).
  destruct stopped as [ok w1]. cbn [snd] in H1. destruct (negb ok); [exact H1|].
  pose proof (kept_quiet _ w1 q_clock) as H2. cbn beta in H2. destruct (rc_clock w1) as [[start|] w2]; [|by rewrite H1]. cbn [snd] in H2.
  pose proof (read_loop_kept fuel start (Z_to_double (run_seconds a)) current 0 w2) as H3.
  destruct (read_loop _ _ _ _ _ w2) as [[[[[p ops] now]|] w3]|]; [| |done]; (etransitivity; [exact H1|]; etransitivity; [exact H2|exact H3]).
Qed.

Lemma read_lines_kept fuel m a l buffer s sink w : match read_lines fuel m a l buffer s sink w with
  | Some (code, r, _, w') => all_kept w w' /\ (code = EXIT_SUCCESS <-> is_Some r)
  | None => True
  end.
Proof.
  unfold read_lines, release_unselected_pages. set (scanned := scanned_pages s).
  pose proof (release_kept (Z.to_nat scanned) buffer (keep_page s) scanned (ly_page_size l) 0 w) as H1.
  destruct (release_loop _ _ _ _ _ 0 w) as [rc w1]. cbn [snd] in H1. destruct (negb _); [split; [exact H1|by split; [|intros [? ?]]]|].
  set (lines := default [] _). pose proof (chain_kept (Z.to_nat (selected_lines s)) lines (selected_lines s) 0 w1) as H2. set (w2 := chain_loop _ _ _ _ w1) in *.
  pose proof (timed_reads_kept fuel a (chase (Z.to_nat (selected_lines s)) (nth 0 lines 0) w2) w2) as H3.
  destruct (timed_reads fuel a _ w2) as [[[[[p secs] total]|] w3]|]; [| |done];
    (split; [etransitivity; [exact H1|]; etransitivity; [exact H2|exact H3]|]); split; try done; by intros [? ?].
Qed.

(** *** The result file *)

Lemma read_file_kept path w : all_kept w (read_file_limited path w).2.
Proof.
  apply (read_file_same all_kept (fun w w' => held w w' 1 0)).
  - intros f w0 Hf. destruct Hf; [apply (kept_quiet _ w0 q_seek_end)|apply (kept_quiet _ w0 q_tell)|apply (kept_quiet _ w0 q_seek_set)|apply (kept_quiet _ w0 (q_fread n))|apply kept_calloc].
  - intros p w0. pose proof (hl_bf_fopen p w0) as Ho. by destruct (bf_fopen p w0) as [[|] w1].
  - intros w0 w1 w2 H1 H2. exact (held_trans _ _ _ _ _ _ _ (held_kept _ _ _ _ _ H1 H2) (hl_bf_fclose w2)).
Qed.

Lemma load_mapping_kept mapping w : all_kept w (load_mapping mapping w).2.
Proof.
  unfold load_mapping, calibration_load_result. rewrite !reset_result. pose proof (read_file_kept RESULT_PATH w) as Hk.
  destruct (read_file_limited _ w) as [[rc|json] w1]; cbn [snd] in Hk.
  - destruct (negb _); [exact Hk|]. destruct (dram_mapping_init_from_calibration _ _) as [rc' m']. by destruct (negb _).
  - destruct (load_fields json result_zero) as [rc out]. destruct (negb _); [exact Hk|]. destruct (dram_mapping_init_from_calibration _ _) as [rc' m']. by destruct (negb _).
Qed.

(** ** The whole run *)

(** The mapping is taken back on every path. *)
Lemma work_kept fuel m a l sink w : match work fuel m a l sink w with
  | Some (code, r, _, w') => all_kept w w' /\ (code = EXIT_SUCCESS <-> is_Some r)
  | None => True
  end.
Proof.
  assert (Hfail : EXIT_FAILURE = EXIT_SUCCESS <-> is_Some (@None bank_report)) by (split; [done|by intros [? ?]]).
  unfold work. pose proof (kept_calloc (ly_page_count l) 1 w) as H1. destruct (os_calloc _ 1 w) as [ok1 w1]. cbn [snd] in H1.
  set (n := u64_mul _ 8). pose proof (kept_quiet _ w1 (q_malloc n)) as H2. cbn beta in H2. destruct (mm_malloc n w1) as [ok2 w2]. cbn [snd] in H2.
  assert (K2 : all_kept w w2) by (by rewrite H1). destruct (negb _); [by split|].
  destruct (hl_mmap (candidate_bytes l) w2) as [Am Hm]. destruct (pm_mmap _ w2) as [[buffer|] w3]; cbn [fst snd] in *; [|split; [rewrite K2; by split|exact Hfail]].
  destruct Hm as [Hnew Hreg].
  assert (Hback : forall w', all_kept w3 w' -> all_kept w (mm_munmap buffer (candidate_bytes l) w')).
  { intros w' [Er Ea]. destruct (hl_munmap buffer (candidate_bytes l) w') as [Au Hu]. rewrite K2. split; [rewrite Hu, Er, Hreg; set_solver|]. unfold acquired in *. lia. }
  pose proof (kept_quiet _ w3 (q_madvise buffer (candidate_bytes l))) as H4. cbn beta in H4. destruct (mm_madvise _ _ w3) as [ok4 w4]. cbn [snd] in H4.
  pose proof (scan_memory_kept m (target_class a) l buffer w4) as H5. destruct (scan_memory _ _ _ _ w4) as [[s|] w5]; cbn [snd] in H5.
  - pose proof (read_lines_kept fuel m a l buffer s sink w5) as H6. destruct (read_lines _ _ _ _ _ _ _ w5) as [[[[code r] sink'] w6]|]; [|done].
    destruct H6 as [H6 Hcode]. split; [|exact Hcode]. apply Hback. by rewrite H4, H5.
  - split; [|exact Hfail]. apply Hback. by rewrite H4.
Qed.

End Held.

(** ** What [main] works with *)

Section Prepared.
Context {W : Type} {HO : OS W} {HB : BinFile W} {HM : Memory W} {HP : PrivateMemory W} {HC : RawClock W} {HF : Files W} {HK : Workers W} {PL : PageLaws W}.
Implicit Types w : W.

(** The mapping is loaded as in the experiment. *)
Lemma load_mapping_same mapping w :
  load_mapping mapping w = (let '(rc, _, m, w') := OracleStages.load_mapping (mk_calibration_result false false (replicate 32 0) 0 "" calibration_metrics_zero 0 "") mapping w in (rc, m, w')).
Proof.
  unfold load_mapping, OracleStages.load_mapping. change OracleStages.DEFAULT_CALIBRATION_PATH with RESULT_PATH.
  destruct (calibration_load_result _ _ w) as [[rc c] w1]. destruct (negb _); [done|]. destruct (dram_mapping_init_from_calibration _ c) as [rc' m]. by destruct (negb _).
Qed.

(** Why [main] gives up before it asks for memory. *)
Definition gives_up (args : list string) w : Prop :=
  parse_arguments args = None \/ (load_mapping dram_mapping_zero w).1.1 <> 0 \/
  exists a m, parse_arguments args = Some a /\ (load_mapping dram_mapping_zero w).1.2 = Some m /\
    (granularity_of m a = None \/ exists G, granularity_of m a = Some G /\ layout_of G (2 ^ page_shift) a = None).

(** What the bank worker works with: [main] gives up with nothing printed, because
    an argument, the mapping, the granularity or a size is refused, or it runs
    [work] with the numbers of its arguments, none of them zero, a mapping that
    was accepted, a class inside the class space, blocks over which no mask of
    the mapping changes, and sizes that fit: whole blocks and lines for the
    megabytes to select, whole pages for those to search. *)
Theorem main_prepares fuel args sink w :
  (gives_up args w /\ exists w', main fuel args sink w = Some (EXIT_FAILURE, None, sink, w')) \/
  exists a m l g w', parse_arguments args = Some a /\ arguments_ok a /\ wf_mapping m /\ block_shift m g /\
    0 <= target_class a < 2 ^ mask_count m /\ layout_ok l g page_shift /\
    required_lines l * 64 = selected_mib a * 1048576 /\ candidate_bytes l = candidate_mib a * 1048576 /\ main fuel args sink w = work fuel m a l sink w'.
Proof.
  unfold main, gives_up. destruct (parse_arguments args) as [a|] eqn:Ea; [|left; split; [by left|by eexists]]. pose proof (parse_arguments_ok _ _ Ea) as Hok. rewrite load_mapping_same.
  destruct (OracleStages.load_mapping _ _ w) as [[[rc c] om] w1] eqn:El. cbn [fst snd].
  destruct (Z.eqb_spec rc 0) as [->|Hrc]; cbn [negb]; [|left; split; [by right; left|by eexists]].
  destruct (load_mapping_ok _ _ _ _ _ _ El) as (m & -> & Hm & _). cbn [default from_option id].
  destruct (granularity_of m a) as [G|] eqn:Eg; [|left; split; [right; right; exists a, m; auto|by eexists]].
  pose proof (granularity_class m a G Hm (ao_class _ Hok) Eg) as Hclass. destruct (granularity_ok m a G Eg) as (g & Hg & -> & Hshift).
  pose proof (pl_pagesize w1) as Hps. pose proof pl_shift as Hs. destruct (os_pagesize w1) as [ps w2]. cbn [fst] in Hps. subst ps.
  destruct (Z.leb_spec (2 ^ page_shift) 0); [pose proof (Z.pow_pos_nonneg 2 page_shift ltac:(lia) ltac:(lia)); lia|].
  destruct (layout_of _ _ a) as [l|] eqn:Ely; [|left; split; [right; right; exists a, m; eauto 6|by eexists]].
  destruct (layout_of_ok a g page_shift l Hok Hg Hs Ely) as [Hl Hsize]. right. exists a, m, l, g, w2. destruct Hclass, Hsize. by conjs.
Qed.
End Prepared.
