(* ===== verification/BankWorkerDemo.v ===== *)
(** * The bank worker on the small machine

    The machine of [OracleDemo] with private memory, the laws it satisfies, and the
    theorems about the bank worker applied to it. *)
From S2P Require Import Prelude Float64 CString Os Calibration CalibrationLoad CalibrationRun DramMapping AddrTranslate OracleSys OracleConfig OraclePool OracleChain OracleChainProps OracleIo OracleRun OracleDemo BankWorker BankWorkerProps BankWorkerRun.
From Stdlib Require Import Ascii String.
Local Open Scope Z_scope.

#[export] Instance lab_private : PrivateMemory lab := {|
  pm_mmap bytes s :=
    let page := lab_free_page s in
    if page * 4096 + bytes <? 18446744073709551616
    then (Some (page * 4096), s <| lab_next := page + Z.max 0 bytes / 4096 |> <| lab_regions ::= union {[(page * 4096, bytes)]} |>) else (None, s);
  pm_dontneed base bytes s := (true, s <| lab_dropped ::= fun l => l ++ [(base, bytes)] |>)
|}.

#[export] Program Instance lab_pages : PageLaws lab := {| page_shift := 12 |}.
Next Obligation. lia. Qed.
Next Obligation. done. Qed.
Next Obligation.
  intros bytes s base. cbn. pose proof (above_pos (set_map fst (lab_regions s))) as Hp. unfold lab_free_page.
  destruct (Z.ltb_spec ((Z.max 0 (lab_next s) + above (set_map fst (lab_regions s))) * 4096 + bytes) 18446744073709551616); [|done].
  intros E. injection E as <-. split; [lia|]. split; [by apply Z.mod_mul|done].
Qed.

#[export] Instance lab_stops : StopLaws lab.
Proof. by split. Qed.

#[export] Program Instance lab_drops : DropLaws lab := {| dropped := lab_dropped |}.
Next Obligation. done. Qed.

#[export] Program Instance lab_resources : Resources lab := {| streams_held := lab_streams; fds_held := lab_open |}.
Solve Obligations with (intros; cbn; try lia).
Next Obligation. intros path s. cbn. pose proof (above_pos (lab_fds s)). destruct (Z.ltb_spec (above (lab_fds s)) 0); lia. Qed.

#[export] Program Instance lab_held : HeldLaws lab := {| regions := lab_regions |}.
Next Obligation. intros f s Hf. destruct Hf; cbn; (split; [done|unfold acquired; cbn; lia]). Qed.
Next Obligation. intros f s Hf. by destruct Hf. Qed.
Next Obligation.
  intros bytes s. cbn. destruct (_ <? _); cbn; [|split; [unfold acquired; cbn; lia|done]]. split; [unfold acquired; cbn; lia|]. split; [|done].
  intros Hin. pose proof (above_spec (set_map fst (lab_regions s)) (lab_free_page s * 4096)) as Ha. unfold lab_free_page in *.
  pose proof (above_pos (set_map fst (lab_regions s))). specialize (Ha (elem_of_map_2 fst (lab_regions s) _ Hin)). lia.
Qed.
Next Obligation. intros base bytes s. cbn. split; [unfold acquired; cbn; lia|done]. Qed.
Next Obligation. intros path s. cbn. split; [done|unfold acquired; cbn; lia]. Qed.
Next Obligation. intros s. cbn. split; [done|unfold acquired; cbn; lia]. Qed.

(** Three pages, blocks of a line each; every second line is of class 1, and forty
    are wanted, which are on the first two pages. *)
Definition lab_layout : layout := mk_layout 64 4096 3 12288 40 40.
Definition lab_arguments : arguments := mk_arguments 1 1 1 1 true.

Lemma lab_layout_ok : layout_ok lab_layout 6 page_shift.
Proof. split; cbn; lia. Qed.

Lemma lab_blocks : block_shift lab_mapping 6.
Proof.
  intros j Hj b Hb. cbn in Hj. assert (Hall : forallb (fun j => forallb (fun b => negb (Z.testbit (nth j (masks lab_mapping) 0) b)) (zrange 0 6)) (seq 0 2) = true) by (vm_compute; reflexivity).
  rewrite forallb_forall in Hall. specialize (Hall j ltac:(apply in_seq; lia)). rewrite forallb_forall in Hall.
  apply negb_true_iff, Hall. apply list_elem_of_In. rewrite zrange_seqZ. apply elem_of_seqZ. lia.
Qed.

Lemma scan_memory_outcome_witness : exists s w ctx w1 physicals w2 sel, scan_memory lab_mapping 1 lab_layout 65536 lab_start = (Some s, w) /\
  addr_translate_open (Some addr_translate_ctx_reset) (fl_getpid lab_start) lab_start = (ADDR_TRANSLATE_OK, Some ctx, w1) /\
  pages_read page_shift 65536 ctx 0 w1 physicals w2 /\ selection_of (W := lab) lab_mapping 1 lab_layout 6 65536 ctx physicals sel s.
Proof.
  pose proof (scan_memory_outcome lab_mapping 1 lab_layout 6 65536 lab_layout_ok ltac:(cbn; lia) ltac:(reflexivity) lab_start) as H.
  assert (Hsome : bool_decide (is_Some (scan_memory lab_mapping 1 lab_layout 65536 lab_start).1) = true) by (vm_compute; reflexivity).
  destruct (scan_memory _ _ _ _ _) as [[s|] w]; [|by apply bool_decide_eq_true in Hsome as [? ?]].
  destruct H as (ctx & w1 & physicals & w2 & sel & H1 & H2 & H3). by exists s, w, ctx, w1, physicals, w2, sel.
Defined.

Definition lab_scan : scan * lab := default (mk_scan [] [] 0 0 0 0, lab_start) (let '(s, w) := scan_memory lab_mapping 1 lab_layout 65536 lab_start in (fun s => (s, w)) <$> s).

Lemma lab_scanned : exists ctx physicals sel, selection_of (W := lab) lab_mapping 1 lab_layout 6 65536 ctx physicals sel lab_scan.1.
Proof.
  pose proof (scan_memory_outcome lab_mapping 1 lab_layout 6 65536 lab_layout_ok ltac:(cbn; lia) ltac:(reflexivity) lab_start) as H.
  assert (Hsome : bool_decide (is_Some (scan_memory lab_mapping 1 lab_layout 65536 lab_start).1) = true) by (vm_compute; reflexivity). unfold lab_scan.
  destruct (scan_memory _ _ _ _ _) as [[s|] w]; [|by apply bool_decide_eq_true in Hsome as [? ?]].
  destruct H as (ctx & w1 & physicals & w2 & sel & _ & _ & H). by exists ctx, physicals, sel.
Qed.

(** The second line of the first page is at the physical address 65536 + 192. *)
Lemma selected_lines_in_class_witness : 65728 ∈ sc_lines lab_scan.1 /\ NoDup (sc_lines lab_scan.1) /\
  exists index offset physical, 65728 = 65536 + index * 2 ^ page_shift + offset /\
    forall y, 0 <= y < 64 -> dram_mapping_bank_class_fast lab_mapping (physical + offset + y) = 1.
Proof.
  assert (Hin : bool_decide (65728 ∈ sc_lines lab_scan.1) = true) by (vm_compute; reflexivity). apply bool_decide_eq_true in Hin. split; [exact Hin|].
  destruct lab_scanned as (ctx & physicals & sel & H).
  destruct (selected_lines_in_class lab_mapping 1 lab_layout 6 65536 lab_layout_ok ltac:(cbn; lia) ltac:(reflexivity) ctx physicals sel lab_scan.1 lab_mapping_wf lab_blocks H) as (_ & Hnd & Hall).
  split; [exact Hnd|]. destruct (Hall 65728 Hin) as (index & offset & physical & H1 & _ & _ & _ & _ & _ & H2). by exists index, offset, physical.
Defined.

(** Six pages of which five were scanned. *)
Lemma release_exact_witness : 0 <= 5 /\ exists w, release_unselected_pages 65536 [0; 1; 0; 0; 1; 0] 5 4096 lab_start = (0, w) /\
  exists runs, dropped w = run_range 65536 4096 <$> runs /\ run_pages runs = [0; 2; 3].
Proof.
  split; [lia|]. pose proof (release_exact 65536 4096 [0; 1; 0; 0; 1; 0] 5 lab_start ltac:(lia)) as H.
  assert (Hrc : (release_unselected_pages 65536 [0; 1; 0; 0; 1; 0] 5 4096 lab_start).1 = 0) by (vm_compute; reflexivity).
  destruct (release_unselected_pages _ _ _ _ _) as [rc w]. cbn [fst] in Hrc. subst rc. exists w. split; [done|].
  destruct H as (runs & Hd & _ & [[_ Hp]|[? _]]); [|done]. exists runs. split; [exact Hd|]. rewrite Hp. reflexivity.
Defined.

(** A run on the machine, whose clock advances a second per reading. *)
Definition lab_work : option (Z * option bank_report * Z * lab) := work 3 lab_mapping lab_arguments lab_layout 0 lab_start.


(** A run that finds too few lines of the class in the memory it may search. *)
Lemma lab_main_fails : match main 3 ["2"; "1"; "1"; "1"]%string 0 lab_start with Some (code, _, _, _) => code =? EXIT_FAILURE | None => false end = true.
Proof. vm_compute. reflexivity. Qed.


(** The arguments, the mapping and the sizes are accepted. *)
Lemma lab_accepted : match parse_arguments ["2"; "4"; "1"; "1"]%string, load_mapping dram_mapping_zero lab_start with
  | Some a, (rc, Some m, _) =>
      (rc =? 0) && match granularity_of m a with Some G => match layout_of G (2 ^ 12) a with Some _ => true | None => false end | None => false end
  | _, _ => false
  end = true.
Proof. vm_compute. reflexivity. Qed.

Lemma main_prepares_witness : exists a m l g w', parse_arguments ["2"; "4"; "1"; "1"]%string = Some a /\ wf_mapping m /\ block_shift m g /\ layout_ok l g page_shift /\
  main 3 ["2"; "4"; "1"; "1"]%string 0 lab_start = work 3 m a l 0 w'.
Proof.
  destruct (main_prepares 3 ["2"; "4"; "1"; "1"]%string 0 lab_start) as [[Hg _]|(a & m & l & g & w' & H1 & _ & H2 & H3 & _ & H4 & _ & _ & H5)]; [|exists a, m, l, g, w'; conjs; assumption].
  exfalso. pose proof lab_accepted as Ha. unfold gives_up in Hg. destruct (parse_arguments _) as [a|]; [|discriminate].
  destruct (load_mapping _ _) as [[rc [m|]] w]; [|discriminate]. cbn [fst snd] in Hg. apply andb_true_iff in Ha as [->%Z.eqb_eq Ha].
  destruct Hg as [Hg|[Hg|(a' & m' & Ea & Em & Hg)]]; [discriminate|by apply Hg|]. injection Ea as <-. injection Em as <-.
  destruct Hg as [Hg|(G & Hg & Hl)]; rewrite Hg in Ha; [discriminate|]. change (2 ^ page_shift) with (2 ^ 12) in Hl. by rewrite Hl in Ha.
Defined.
