(* ===== verification/OverlapConfig.v ===== *)
(** * The command line of the overlap sweep ([oracle_bank_overlap_sweep.c])

    The levels of the sweep, its configuration, the number of shared classes of a
    level and the class list of its aggressor.  The numbers are parsed by the same
    functions as in [OracleConfig]. *)
From S2P Require Import Prelude CString Scan Strto OracleConfig.
From Stdlib Require Import Ascii String.
Local Open Scope Z_scope.

Inductive condition :=
  | CONDITION_NONE
  | CONDITION_OVERLAP_0
  | CONDITION_OVERLAP_25
  | CONDITION_OVERLAP_50
  | CONDITION_OVERLAP_75
  | CONDITION_OVERLAP_100.

#[export] Instance condition_eq_dec : EqDecision condition.
Proof. solve_decision. Defined.

Definition CONDITION_COUNT : Z := 6.

(** The value of the enumerator, an index into arrays. *)
Definition condition_index (c : condition) : nat :=
  match c with
  | CONDITION_NONE => 0
  | CONDITION_OVERLAP_0 => 1
  | CONDITION_OVERLAP_25 => 2
  | CONDITION_OVERLAP_50 => 3
  | CONDITION_OVERLAP_75 => 4
  | CONDITION_OVERLAP_100 => 5
  end%nat.

(** [order] is an array of [CONDITION_COUNT] conditions. *)
Record config := mk_config {
  pool_mib : Z;
  workset_mib : Z;
  group_classes : Z;
  seconds : Z;
  victim_cpu : Z;
  aggressor_cpu : Z;
  seed : Z;
  self_test : bool;
  order : list condition
}.

#[export] Instance config_settable : Settable config :=
  fun c => mk_config (pool_mib c) (workset_mib c) (group_classes c) (seconds c) (victim_cpu c) (aggressor_cpu c) (seed c) (self_test c) (order c).

(** ** Conditions *)

Definition condition_name (c : condition) : string :=
  match c with
  | CONDITION_NONE => "none"
  | CONDITION_OVERLAP_0 => "o0"
  | CONDITION_OVERLAP_25 => "o25"
  | CONDITION_OVERLAP_50 => "o50"
  | CONDITION_OVERLAP_75 => "o75"
  | CONDITION_OVERLAP_100 => "o100"
  end.

(** [None]: the code -1. *)
Definition condition_from_name (text : option string) : option condition :=
  match text with
  | None => None
  | Some text =>
      if str_eq text "none" then Some CONDITION_NONE
      else if str_eq text "o0" then Some CONDITION_OVERLAP_0
      else if str_eq text "o25" then Some CONDITION_OVERLAP_25
      else if str_eq text "o50" then Some CONDITION_OVERLAP_50
      else if str_eq text "o75" then Some CONDITION_OVERLAP_75
      else if str_eq text "o100" then Some CONDITION_OVERLAP_100
      else None
  end.

(** [OracleConfig.parse_order_of], for these conditions. *)
Definition parse_order (text : option string) (order : list condition) : Z * list condition :=
  parse_order_of 128 CONDITION_COUNT condition_from_name condition_index text order.

(** [shared_out] is not NULL: the number, or [None] for the code -1. *)
Definition condition_shared_classes (c : condition) (group_classes : Z) : option Z :=
  if (group_classes =? 0) || negb (group_classes mod 4 =? 0) then None
  else
    match c with
    | CONDITION_OVERLAP_0 => Some 0
    | CONDITION_OVERLAP_25 => Some (group_classes / 4)
    | CONDITION_OVERLAP_50 => Some (group_classes / 2)
    | CONDITION_OVERLAP_75 => Some (u64_mul group_classes 3 / 4)
    | CONDITION_OVERLAP_100 => Some group_classes
    | CONDITION_NONE => None
    end.

(** The pointers are not NULL, and [out] has [group_classes] elements, which are
    all written: its contents, or [None] for the code -1. *)
Definition build_overlap_classes (victim_classes disjoint_classes : list Z) (group_classes shared_classes : Z) : option (list Z) :=
  if (group_classes =? 0) || (group_classes <? shared_classes) then None
  else
    let disjoint_needed := group_classes - shared_classes in
    Some (take (Z.to_nat shared_classes) victim_classes ++ take (Z.to_nat disjoint_needed) disjoint_classes).

(** ** Arguments *)

(** [cfg]: [None] is NULL. *)
Definition config_default (cfg : option config) : option config :=
  match cfg with
  | None => None
  | Some _ =>
      Some (mk_config 2048 64 16 10 14 12 20260814 false
        [CONDITION_NONE; CONDITION_OVERLAP_0; CONDITION_OVERLAP_25; CONDITION_OVERLAP_50; CONDITION_OVERLAP_75; CONDITION_OVERLAP_100])
  end.

Definition config_self_test (cfg : option config) : option config :=
  match cfg with
  | None => None
  | Some c => Some (c <| self_test := true |> <| pool_mib := 512 |> <| workset_mib := 8 |> <| group_classes := 8 |> <| seconds := 2 |>)
  end.

(** The options that take a value: [None] for any other argument, [Some None] for
    a value that is refused. *)
Definition option_effect (name value : string) (cfg : config) : option (option config) :=
  if str_eq name "--pool-mib" then Some ((fun v => cfg <| pool_mib := v |>) <$> nonzero (parse_size (Some value)))
  else if str_eq name "--workset-mib" then Some ((fun v => cfg <| workset_mib := v |>) <$> nonzero (parse_size (Some value)))
  else if str_eq name "--classes" then Some ((fun v => cfg <| group_classes := v |>) <$> nonzero (parse_size (Some value)))
  else if str_eq name "--seconds" then Some ((fun v => cfg <| seconds := v |>) <$> nonzero (parse_uint (Some value)))
  else if str_eq name "--victim-cpu" then Some ((fun v => cfg <| victim_cpu := v |>) <$> parse_int (Some value))
  else if str_eq name "--aggressor-cpu" then Some ((fun v => cfg <| aggressor_cpu := v |>) <$> parse_int (Some value))
  else if str_eq name "--seed" then Some ((fun v => cfg <| seed := v |>) <$> parse_u64 (Some value))
  else if str_eq name "--order" then
    Some (let '(rc, o) := parse_order (Some value) (order cfg) in if rc =? 0 then Some (cfg <| order := o |>) else None)
  else None.

(** [args] are [argv[1]] to [argv[argc - 1]]. *)
Definition parse_args (args : list string) (cfg : option config) : parsed config :=
  match config_default cfg with
  | None => ArgsBad
  | Some cfg =>
      let cfg := if existsb (fun arg => str_eq arg "--self-test") args then default cfg (config_self_test (Some cfg)) else cfg in
      parse_args_loop option_effect args cfg
  end.

Definition config_zero : config := mk_config 0 0 0 0 0 0 0 false (replicate 6 CONDITION_NONE).

Example sweep_arguments_demo :
  parse_args ["--order"; "o100,none,,o50,o0,o75,o25"; "--classes"; "4"]%string (Some config_zero) =
  ArgsOk (mk_config 2048 64 4 10 14 12 20260814 false
    [CONDITION_OVERLAP_100; CONDITION_NONE; CONDITION_OVERLAP_50; CONDITION_OVERLAP_0; CONDITION_OVERLAP_75; CONDITION_OVERLAP_25]).
Proof. vm_compute. reflexivity. Qed.
