(* ===== verification/OverlapSweep.v ===== *)
(** * Running one level of the sweep ([oracle_bank_overlap_sweep.c], [run_condition])

    As in the control experiment, the workers are children that stop themselves
    before any work; here there is at most one aggressor and there are no cgroups.
    The workers, their loops and the reading of their results are the same
    functions as in [OracleRun]. *)
From S2P Require Import Prelude Float64 CString Os Calibration CalibrationLoad CalibrationRun DramMapping OracleSys OracleConfig OraclePool OracleLines OracleStages OracleChain OracleIo OracleRun OracleMain OverlapConfig.
From Stdlib Require Import Ascii String.
Local Open Scope Z_scope.

Record condition_result := mk_condition_result {
  cr_victim : worker_result;
  cr_aggressor : worker_result;
  has_aggressor : bool
}.

#[export] Instance condition_result_settable : Settable condition_result :=
  fun r => mk_condition_result (cr_victim r) (cr_aggressor r) (has_aggressor r).

Definition condition_result_zero : condition_result := mk_condition_result worker_result_zero worker_result_zero false.

(** The local variables of [run_condition]. *)
Record run_state := mk_run_state {
  rs_victim_pid : Z; rs_aggressor_pid : Z;
  rs_victim_fd : Z; rs_aggressor_fd : Z;
  rs_out : condition_result
}.

#[export] Instance run_state_settable : Settable run_state :=
  fun s => mk_run_state (rs_victim_pid s) (rs_aggressor_pid s) (rs_victim_fd s) (rs_aggressor_fd s) (rs_out s).

(** [if (out->has_aggressor) { ... }] *)
Definition if_aggressor {W} (a : step run_state W) : step run_state W := if_step (fun s => has_aggressor (rs_out s)) a.

Section Run.
Context {W : Type} `{HO : OS W} `{HF : Files W} `{HK : Workers W}.
(** The representation of [struct worker_result] in memory. *)
Context (result_size : Z) (result_of_bytes : list Z -> worker_result).
Context (fuel : nat).

(** Starting a worker and waiting until it has stopped. *)
Definition start_victim : step run_state W := fun s w =>
  let '(pid, fd, w) := spawn_victim (rs_victim_fd s) w in
  let s := s <| rs_victim_pid := pid |> <| rs_victim_fd := fd |> in
  if pid <? 0 then Some (false, s, w) else checked (fun s => wait_until_stopped fuel (rs_victim_pid s)) s w.

Definition start_aggressor : step run_state W := fun s w =>
  let '(pid, fd, w) := spawn_aggressor (rs_aggressor_fd s) w in
  let s := s <| rs_aggressor_pid := pid |> <| rs_aggressor_fd := fd |> in
  if pid <? 0 then Some (false, s, w) else checked (fun s => wait_until_stopped fuel (rs_aggressor_pid s)) s w.

(** [if (wait_success(pid) != 0) goto fail; pid = -1;] *)
Definition finish_victim : step run_state W := fun s w =>
  match wait_success fuel (rs_victim_pid s) w with
  | None => None
  | Some (rc, w) => if rc =? 0 then Some (true, s <| rs_victim_pid := -1 |>, w) else Some (false, s, w)
  end.

Definition finish_aggressor : step run_state W := fun s w =>
  match wait_success fuel (rs_aggressor_pid s) w with
  | None => None
  | Some (rc, w) => if rc =? 0 then Some (true, s <| rs_aggressor_pid := -1 |>, w) else Some (false, s, w)
  end.

(** Reading a result and closing its pipe.  What a failed read has stored of a
    result is not modelled: [run_condition] fails then, and its caller does not
    look at [*out]. *)
Definition read_victim : step run_state W := fun s w =>
  match read_full fuel (rs_victim_fd s) result_size [] w with
  | None => None
  | Some (rc, bytes, w) =>
      if negb (rc =? 0) then Some (false, s, w)
      else
        let s := s <| rs_out := (rs_out s) <| cr_victim := result_of_bytes bytes |> |> in
        Some (true, s <| rs_victim_fd := -1 |>, os_close (rs_victim_fd s) w)
  end.

Definition read_aggressor : step run_state W := fun s w =>
  match read_full fuel (rs_aggressor_fd s) result_size [] w with
  | None => None
  | Some (rc, bytes, w) =>
      if negb (rc =? 0) then Some (false, s, w)
      else
        let s := s <| rs_out := (rs_out s) <| cr_aggressor := result_of_bytes bytes |> |> in
        Some (true, s <| rs_aggressor_fd := -1 |>, os_close (rs_aggressor_fd s) w)
  end.

(** The code between the declarations and [return 0]: the aggressor starts
    first. *)
Definition run_steps : step run_state W :=
  then_step start_victim (then_step (if_aggressor (then_step start_aggressor (continue_step rs_aggressor_pid)))
    (then_step (continue_step rs_victim_pid) (then_step finish_victim (then_step (if_aggressor finish_aggressor)
    (then_step read_victim (if_aggressor read_aggressor)))))).

(** The code at [fail]. *)
Definition run_fail (s : run_state) (w : W) : option W :=
  w ← end_worker (rs_victim_pid s) w;
  w ← end_worker (rs_aggressor_pid s) w;
  Some (close_end (rs_aggressor_fd s) (close_end (rs_victim_fd s) w)).

(** The pointers are not NULL, [aggressor_roots] only for [CONDITION_NONE]: the
    code, [*out] and the world. *)
Definition run_condition (c : condition) (w : W) : option (Z * condition_result * W) :=
  let out := condition_result_zero <| has_aggressor := negb (bool_decide (c = CONDITION_NONE)) |> in
  match run_steps (mk_run_state (-1) (-1) (-1) (-1) out) w with
  | None => None
  | Some (true, s, w) => Some (0, rs_out s, w)
  | Some (false, s, w) => match run_fail s w with None => None | Some w => Some (-1, rs_out s, w) end
  end.
End Run.

(** * The overlap sweep ([oracle_bank_overlap_sweep.c])

    A victim reads lines of one group of bank classes; an aggressor reads as many
    lines of a second group, of which none, a quarter, a half, three quarters or
    all are classes of the victim.  Both pools and the victim's lines stay the
    same for the whole sweep; the aggressor's lines are selected again for every
    level and the level is measured from the addresses before it is run.  The
    pools, the counting, the collection, the histograms and the chains are the
    functions of [OraclePool], [OracleLines] and [OracleChain].  What the program
    prints of its results is modelled as the numbers it prints, for a run that
    succeeds; the program prints each row and the summary before the page frames are
    checked, so a run that fails may have printed them too. *)

(** ** Choosing classes *)

(** The classes from [cls] on of which both pools have the lines. *)
Fixpoint base_candidates (n : nat) (cls : Z) (victim_counts aggressor_counts : list Z) (quota_lines : Z) : list Z :=
  match n with
  | O => []
  | S n =>
      let k := Z.to_nat cls in
      let rest := base_candidates n (cls + 1) victim_counts aggressor_counts quota_lines in
      if (quota_lines <=? nth k victim_counts 0) && (quota_lines <=? nth k aggressor_counts 0) then cls :: rest else rest
  end.

(** [victim_classes] and [disjoint_classes], or [None] for the code -1. The
    pointers are not NULL. *)
Definition choose_base_class_sets {W} `{OS W} (victim_counts aggressor_counts : list Z) (class_space group_classes quota_lines seed : Z) (w : W)
  : option (list Z * list Z) * W :=
  if (group_classes =? 0) || (quota_lines =? 0) then (None, w)
  else
    let '(ok, w) := os_calloc class_space 8 w in
    if negb ok then (None, w)
    else
      let candidates := base_candidates (Z.to_nat class_space) 0 victim_counts aggressor_counts quota_lines in
      let candidate_count := Z.of_nat (List.length candidates) in
      if candidate_count <? u64_mul group_classes 2 then (None, w)
      else
        let candidates := default [] (shuffle_u64 (Some candidates) candidate_count seed) in
        let n := Z.to_nat group_classes in
        (Some (take n candidates, take n (drop n candidates)), w).

(** Classes of which both histograms have lines. *)
Fixpoint shared_loop (a b : list Z) (n : nat) (shared : Z) : Z :=
  match n, a, b with
  | S n, x :: a, y :: b => shared_loop a b n (if negb (x =? 0) && negb (y =? 0) then u64_inc shared else shared)
  | _, _, _ => shared
  end.

(** The pointers are not NULL. *)
Definition histogram_shared_classes (a b : list Z) (class_space : Z) : Z := shared_loop a b (Z.to_nat class_space) 0.

(** ** The state of the sweep *)

(** What [main] holds and releases at its end. *)
Record sweep := mk_sweep { sw_victim_pool : memory_pool; sw_aggressor_pool : memory_pool; sw_victim_set : line_set; sw_aggressor_set : line_set }.

Definition sweep_zero : sweep := mk_sweep memory_pool_zero memory_pool_zero line_set_zero line_set_zero.

(** What it computes before the first level. *)
Record plan := mk_plan {
  pl_mapping : dram_mapping;
  pl_offset_classes : list Z;
  pl_class_space : Z;
  pl_workset_lines : Z;
  pl_quota_lines : Z;
  pl_victim_classes : list Z;
  pl_disjoint_classes : list Z;
  pl_victim_hist : list Z;
  pl_permutation : list Z
}.

(** What a level was measured to be: [actual_shared_classes], [jaccard],
    [intersection] and [union_count]. *)
Record level := mk_level { lv_shared : Z; lv_jaccard : double; lv_intersection : Z; lv_union : Z }.

(** The arrays [results], [measured_jaccard] and [measured_shared_classes],
    indexed by condition. *)
Record measured := mk_measured { ms_results : list condition_result; ms_jaccard : list double; ms_shared : list Z }.

Definition measured_zero : measured := mk_measured (replicate 6 condition_result_zero) (replicate 6 dzero) (replicate 6 0).

(** A line of results: [RESULT_CSV]. *)
Record row := mk_row {
  rw_condition : condition;
  rw_shared : Z;
  rw_fraction : double;
  rw_jaccard : double;
  rw_victim : worker_result;
  rw_victim_ns : double;
  rw_aggressor : option worker_result;   (* [None]: zeros are printed *)
  rw_passes : Z;
  rw_mload : double
}.

(** A line of the summary. *)
Record summary_row := mk_summary_row {
  sm_condition : condition;
  sm_shared : Z;
  sm_jaccard : double;
  sm_victim_ns : double;
  sm_slowdown : double;
  sm_mload : double
}.

Record report := mk_report { rp_rows : list row; rp_baseline_ns : double; rp_summary : list summary_row }.

Section Sweep.
Context {W : Type} `{HO : OS W} `{HB : BinFile W} `{HM : Memory W} `{HF : Files W} `{HK : Workers W}.
Context (result_size : Z) (result_of_bytes : list Z -> worker_result).

(** ** Before the first level *)

(** The two calls of [pool_create], up to the first that fails. *)
Definition create_pools (cfg : config) (page_size : Z) (sw : sweep) (w : W) : bool * sweep * W :=
  let '(rc, v, w) := pool_create "victim" (pool_mib cfg) page_size (Z.lxor (seed cfg) 0x1111111111111111) (sw_victim_pool sw) w in
  let sw := mk_sweep v (sw_aggressor_pool sw) (sw_victim_set sw) (sw_aggressor_set sw) in
  if negb (rc =? 0) then (false, sw, w)
  else
    let '(rc, a, w) := pool_create "aggressor" (pool_mib cfg) page_size (Z.lxor (seed cfg) 0x2222222222222222) (sw_aggressor_pool sw) w in
    (rc =? 0, mk_sweep v a (sw_victim_set sw) (sw_aggressor_set sw), w).

(** Counting the lines of each pool and choosing the two groups. *)
Definition choose_classes (sw : sweep) (mapping : dram_mapping) (offset_classes : list Z) (class_space : Z) (cfg : config) (quota_lines : Z) (w : W)
  : option (list Z * list Z) * W :=
  let '(ok1, w) := os_calloc class_space 8 w in
  let '(ok2, w) := os_calloc class_space 8 w in
  let '(ok3, w) := os_calloc (group_classes cfg) 8 w in
  let '(ok4, w) := os_calloc (group_classes cfg) 8 w in
  let '(ok5, w) := os_calloc (group_classes cfg) 8 w in
  let '(ok6, w) := os_calloc class_space 8 w in
  let '(ok7, w) := os_calloc class_space 8 w in
  if negb (ok1 && ok2 && ok3 && ok4 && ok5 && ok6 && ok7) then (None, w)
  else
    match count_line_classes (sw_victim_pool sw) mapping offset_classes class_space,
          count_line_classes (sw_aggressor_pool sw) mapping offset_classes class_space with
    | Some victim_counts, Some aggressor_counts =>
        choose_base_class_sets victim_counts aggressor_counts class_space (group_classes cfg) quota_lines (seed cfg) w
    | _, _ => (None, w)
    end.

(** The victim's lines, their histogram, the permutation and the victim's chain;
    the root is kept by the workers the levels start. *)
Definition select_victim (sw : sweep) (mapping : dram_mapping) (offset_classes : list Z) (class_space : Z) (victim_classes : list Z)
    (cfg : config) (workset_lines quota_lines : Z) (w : W) : option (list Z * list Z) * line_set * W :=
  let '(rc, set, w) := collect_line_set (sw_victim_pool sw) mapping offset_classes class_space victim_classes (group_classes cfg) quota_lines
    (Z.lxor (seed cfg) 0x4444444444444444) (sw_victim_set sw) w in
  if negb (rc =? 0) then (None, set, w)
  else
    match build_histogram set mapping class_space with
    | None => (None, set, w)
    | Some victim_hist =>
        if negb (histogram_unique_classes victim_hist class_space =? group_classes cfg) then (None, set, w)
        else
          let '(rc, permutation, w) := make_permutation workset_lines (Z.lxor (seed cfg) 0x7777777777777777) [] w in
          if negb (rc =? 0) then (None, set, w)
          else
            let '(victim_root, w) := build_single_chain set permutation w in
            if negb (bool_decide (is_Some victim_root)) then (None, set, w) else (Some (victim_hist, permutation), set, w)
    end.

(** From the pools to the victim's chain: the plan, [None] at [fail], and what is
    held by then. *)
Definition prepare_victim (mapping : dram_mapping) (offset_classes : list Z) (class_space : Z) (cfg : config) (page_size workset_lines quota_lines : Z)
    (sw : sweep) (w : W) : option plan * sweep * W :=
  let '(ok, sw, w) := create_pools cfg page_size sw w in
  if negb ok then (None, sw, w)
  else
    let '(chosen, w) := choose_classes sw mapping offset_classes class_space cfg quota_lines w in
    match chosen with
    | None => (None, sw, w)
    | Some (victim_classes, disjoint_classes) =>
        let '(selected, set, w) := select_victim sw mapping offset_classes class_space victim_classes cfg workset_lines quota_lines w in
        let sw := mk_sweep (sw_victim_pool sw) (sw_aggressor_pool sw) set (sw_aggressor_set sw) in
        match selected with
        | None => (None, sw, w)
        | Some (victim_hist, permutation) =>
            (Some (mk_plan mapping offset_classes class_space workset_lines quota_lines victim_classes disjoint_classes victim_hist permutation), sw, w)
        end
    end.

(** From the mapping to the plan. *)
Definition prepare (cfg : config) (page_size : Z) (sw : sweep) (w : W) : option plan * sweep * W :=
  let '(rc, calibration, mapping, w) := load_mapping (mk_calibration_result false false (replicate 32 0) 0 "" calibration_metrics_zero 0 "") dram_mapping_zero w in
  if negb (rc =? 0) then (None, sw, w)
  else
    let mapping := default dram_mapping_zero mapping in
    match class_space_from_mapping (Some mapping) with
    | None => (None, sw, w)
    | Some class_space =>
        let '(offset_classes, w) := build_offset_classes (Some mapping) page_size w in
        match offset_classes with
        | None => (None, sw, w)
        | Some offset_classes =>
            match workset_plan (workset_mib cfg) (group_classes cfg) with
            | None => (None, sw, w)
            | Some (workset_lines, quota_lines) => prepare_victim mapping offset_classes class_space cfg page_size workset_lines quota_lines sw w
            end
        end
    end.

(** ** One level *)

(** The aggressor's lines of a level, checked against the level that was asked
    for, and their chains; [None] is the jump to [fail]. *)
Definition select_level (cfg : config) (pl : plan) (aggressor_pool : memory_pool) (c : condition) (aggressor_set : line_set) (w : W)
  : option level * line_set * W :=
  match condition_shared_classes c (group_classes cfg) with
  | None => (None, aggressor_set, w)
  | Some shared_classes =>
      match build_overlap_classes (pl_victim_classes pl) (pl_disjoint_classes pl) (group_classes cfg) shared_classes with
      | None => (None, aggressor_set, w)
      | Some aggressor_classes =>
          let '(rc, aggressor_set, w) := collect_line_set aggressor_pool (pl_mapping pl) (pl_offset_classes pl) (pl_class_space pl) aggressor_classes
            (group_classes cfg) (pl_quota_lines pl) (Z.lxor (seed cfg) 0x5555555555555555) (line_set_destroy aggressor_set) w in
          if negb (rc =? 0) then (None, aggressor_set, w)
          else
            match build_histogram aggressor_set (pl_mapping pl) (pl_class_space pl) with
            | None => (None, aggressor_set, w)
            | Some aggressor_hist =>
                if negb (histogram_unique_classes aggressor_hist (pl_class_space pl) =? group_classes cfg) then (None, aggressor_set, w)
                else
                  let '(jaccard, intersection, union_count) := histogram_jaccard (pl_victim_hist pl) aggressor_hist (pl_class_space pl) in
                  let actual_shared_classes := histogram_shared_classes (pl_victim_hist pl) aggressor_hist (pl_class_space pl) in
                  let expected_intersection := u64_mul shared_classes (pl_quota_lines pl) in
                  let expected_union := u64_mul (u64_sub (u64_mul (group_classes cfg) 2) shared_classes) (pl_quota_lines pl) in
                  if negb (actual_shared_classes =? shared_classes) || negb (intersection =? expected_intersection) || negb (union_count =? expected_union)
                  then (None, aggressor_set, w)
                  else
                    let '(aggressor_roots, w) := build_multi_chain aggressor_set (pl_permutation pl) AGGRESSOR_STREAMS w in
                    if negb (bool_decide (is_Some aggressor_roots)) then (None, aggressor_set, w)
                    else (Some (mk_level actual_shared_classes jaccard intersection union_count), aggressor_set, w)
            end
      end
  end.

(** [measured_jaccard[condition]] and [measured_shared_classes[condition]]. *)
Definition record_level (c : condition) (l : level) (ms : measured) : measured :=
  mk_measured (ms_results ms) (<[condition_index c := lv_jaccard l]> (ms_jaccard ms)) (<[condition_index c := lv_shared l]> (ms_shared ms)).

(** The numbers printed for a condition. *)
Definition row_of (cfg : config) (pl : plan) (c : condition) (result : condition_result) (ms : measured) : row :=
  let shared := nth (condition_index c) (ms_shared ms) 0 in
  mk_row c shared
    (if bool_decide (c = CONDITION_NONE) then dzero else ddiv (Z_to_double shared) (Z_to_double (group_classes cfg)))
    (nth (condition_index c) (ms_jaccard ms) dzero)
    (cr_victim result) (ns_per_read (cr_victim result))
    (if has_aggressor result then Some (cr_aggressor result) else None)
    (if has_aggressor result then wr_operations (cr_aggressor result) / pl_workset_lines pl else 0)
    (if has_aggressor result then mload_per_sec (cr_aggressor result) else dzero).

(** The body of the loop over [cfg.order]; the second [None] is the jump to
    [fail]. *)
Definition measure_condition (fuel : nat) (cfg : config) (pl : plan) (aggressor_pool : memory_pool) (c : condition) (aggressor_set : line_set)
    (ms : measured) (w : W) : option (option (measured * row) * line_set * W) :=
  let '(sel, aggressor_set, w) :=
    if bool_decide (c = CONDITION_NONE) then (Some ms, aggressor_set, w)
    else
      let '(l, aggressor_set, w) := select_level cfg pl aggressor_pool c aggressor_set w in
      ((fun l => record_level c l ms) <$> l, aggressor_set, w) in
  match sel with
  | None => Some (None, aggressor_set, w)
  | Some ms =>
      match run_condition result_size result_of_bytes fuel c w with
      | None => None
      | Some (rc, result, w) =>
          if negb (rc =? 0) then Some (None, aggressor_set, w)
          else
            let ms := mk_measured (<[condition_index c := result]> (ms_results ms)) (ms_jaccard ms) (ms_shared ms) in
            Some (Some (ms, row_of cfg pl c result ms), aggressor_set, w)
      end
  end.

(** The loop over [cfg.order]. *)
Fixpoint conditions_loop (fuel : nat) (order : list condition) (cfg : config) (pl : plan) (aggressor_pool : memory_pool) (aggressor_set : line_set)
    (ms : measured) (w : W) : option (option (measured * list row) * line_set * W) :=
  match order with
  | [] => Some (Some (ms, []), aggressor_set, w)
  | c :: order =>
      match measure_condition fuel cfg pl aggressor_pool c aggressor_set ms w with
      | None => None
      | Some (None, aggressor_set, w) => Some (None, aggressor_set, w)
      | Some (Some (ms, r), aggressor_set, w) =>
          match conditions_loop fuel order cfg pl aggressor_pool aggressor_set ms w with
          | None => None
          | Some (None, aggressor_set, w) => Some (None, aggressor_set, w)
          | Some (Some (ms, rs), aggressor_set, w) => Some (Some (ms, r :: rs), aggressor_set, w)
          end
      end
  end.

(** ** The end *)

(** [overlap_conditions] *)
Definition overlap_conditions : list condition :=
  [CONDITION_OVERLAP_0; CONDITION_OVERLAP_25; CONDITION_OVERLAP_50; CONDITION_OVERLAP_75; CONDITION_OVERLAP_100].

(** The summary, from the arrays. *)
Definition summary_of (ms : measured) (c : condition) : summary_row :=
  let result d := nth (condition_index d) (ms_results ms) condition_result_zero in
  let ns := ns_per_read (cr_victim (result c)) in
  mk_summary_row c (nth (condition_index c) (ms_shared ms) 0) (nth (condition_index c) (ms_jaccard ms) dzero)
    ns (percent_above ns (ns_per_read (cr_victim (result CONDITION_NONE)))) (mload_per_sec (cr_aggressor (result c))).

Definition report_of (ms : measured) (rows : list row) : report :=
  mk_report rows (ns_per_read (cr_victim (nth (condition_index CONDITION_NONE) (ms_results ms) condition_result_zero))) (summary_of ms <$> overlap_conditions).

(** The check of the page frames; [false] when a call fails, a page moved or could
    not be read. *)
Definition verify_pools (sw : sweep) (w : W) : bool * W :=
  let '(v, w) := verify_pool_pfns (sw_victim_pool sw) w in
  match v with
  | None => (false, w)
  | Some (victim_moved, victim_unreadable) =>
      let '(a, w) := verify_pool_pfns (sw_aggressor_pool sw) w in
      match a with
      | None => (false, w)
      | Some (aggressor_moved, aggressor_unreadable) =>
          (negb (negb (victim_moved =? 0) || negb (aggressor_moved =? 0) || negb (victim_unreadable =? 0) || negb (aggressor_unreadable =? 0)), w)
      end
  end.

(** From the first level to the check of the page frames: what is printed when all
    succeeds, [None] at [fail], and what is held. *)
Definition measure_levels (fuel : nat) (cfg : config) (pl : plan) (sw : sweep) (w : W) : option (option report * sweep * W) :=
  match conditions_loop fuel (order cfg) cfg pl (sw_aggressor_pool sw) (sw_aggressor_set sw) measured_zero w with
  | None => None
  | Some (r, aggressor_set, w) =>
      let sw := mk_sweep (sw_victim_pool sw) (sw_aggressor_pool sw) (sw_victim_set sw) aggressor_set in
      match r with
      | None => Some (None, sw, w)
      | Some (ms, rows) =>
          let '(ok, w) := verify_pools sw w in
          Some (if ok then Some (report_of ms rows) else None, sw, w)
      end
  end.

(** The code after the page size up to the release. *)
Definition perform (fuel : nat) (cfg : config) (page_size : Z) (w : W) : option (option report * sweep * W) :=
  let '(p, sw, w) := prepare cfg page_size sweep_zero w in
  match p with
  | None => Some (None, sw, w)
  | Some pl => measure_levels fuel cfg pl sw w
  end.

(** The release, the same on success and at [fail]. *)
Definition release (sw : sweep) (w : W) : sweep * W :=
  let '(v, w) := pool_destroy (sw_victim_pool sw) w in
  let '(a, w) := pool_destroy (sw_aggressor_pool sw) w in
  (mk_sweep v a (line_set_destroy (sw_victim_set sw)) (line_set_destroy (sw_aggressor_set sw)), w).

(** [args] are [argv[1]] to [argv[argc - 1]]: the exit code and the report of a
    run that succeeds. *)
Definition main (fuel : nat) (args : list string) (w : W) : option (Z * option report * W) :=
  match parse_args args (Some config_zero) with
  | ArgsHelp => Some (EXIT_SUCCESS, None, w)
  | ArgsBad => Some (EXIT_FAILURE, None, w)
  | ArgsOk cfg =>
      if negb (group_classes cfg mod 4 =? 0) then Some (EXIT_FAILURE, None, w)
      else
        let '(page_size, w) := os_pagesize w in
        if page_size <=? 0 then Some (EXIT_FAILURE, None, w)
        else
          match perform fuel cfg page_size w with
          | None => None
          | Some (r, sw, w) =>
              let '(_, w) := release sw w in
              Some (if bool_decide (is_Some r) then EXIT_SUCCESS else EXIT_FAILURE, r, w)
          end
  end.
End Sweep.
