(* ===== verification/OverlapLevels.v ===== *)
(** * Histograms of two groups of classes

    The histogram of a selection is constant on its classes and zero elsewhere.
    What the loops over two histograms compute is then the number of classes that
    are in both groups or in one of them, times that constant. *)
From S2P Require Import Prelude Float64 CString Os Calibration CalibrationLoad DramMapping OracleSys OracleConfig OraclePool OracleLines OracleClasses OracleSelect OracleStages OracleAccept OracleChain OracleIo OracleMain.
From S2P Require Import OracleMainProps OverlapConfig OverlapSweep.
From Stdlib Require Import Ascii String.
Local Open Scope Z_scope.

(** ** Loops over two histograms as sums *)

Definition zsum (h : Z -> Z) (l : list Z) : Z := foldr (fun x acc => h x + acc) 0 l.

Definition zcount (P : Z -> Prop) `{forall x, Decision (P x)} (l : list Z) : Z := Z.of_nat (List.length (filter P l)).

Lemma zsum_ext h h' l : (forall x, x ∈ l -> h x = h' x) -> zsum h l = zsum h' l.
Proof.
  induction l as [|x l IH]; intros Heq; [done|]. cbn [zsum foldr]. rewrite (Heq x) by left. unfold zsum in IH. rewrite IH; [done|].
  intros y Hy. apply Heq. by right.
Qed.

Lemma zsum_indicator (P : Z -> Prop) `{forall x, Decision (P x)} q l : zsum (fun x => if decide (P x) then q else 0) l = zcount P l * q.
Proof.
  induction l as [|x l IH]; [done|]. unfold zcount in *. cbn [zsum foldr]. fold (zsum (fun x => if decide (P x) then q else 0) l). rewrite IH, filter_cons.
  destruct (decide (P x)); cbn [List.length]; lia.
Qed.

Lemma jaccard_loop_sums f g n : forall a i u, in_u64 i -> in_u64 u ->
  jaccard_loop (f <$> zrange a n) (g <$> zrange a n) n i u =
  (u64 (i + zsum (fun k => Z.min (f k) (g k)) (zrange a n)), u64 (u + zsum (fun k => Z.max (f k) (g k)) (zrange a n))).
Proof.
  induction n as [|n IH]; intros a i u Hi Hu.
  - cbn. rewrite !Z.add_0_r, !u64_small by done. done.
  - cbn [zrange fmap list_fmap jaccard_loop zsum foldr]. rewrite IH by apply u64_range. unfold u64_add. rewrite !u64_add_l.
    fold (zsum (fun k => Z.min (f k) (g k)) (zrange (a + 1) n)). fold (zsum (fun k => Z.max (f k) (g k)) (zrange (a + 1) n)).
    assert (E1 : (if f a <? g a then f a else g a) = Z.min (f a) (g a)) by (destruct (Z.ltb_spec (f a) (g a)); lia).
    assert (E2 : (if g a <? f a then f a else g a) = Z.max (f a) (g a)) by (destruct (Z.ltb_spec (g a) (f a)); lia).
    rewrite E1, E2, !Z.add_assoc. done.
Qed.

Lemma shared_loop_count f g n : forall a s, 0 <= s -> s + Z.of_nat n < 18446744073709551616 ->
  shared_loop (f <$> zrange a n) (g <$> zrange a n) n s = s + zcount (fun k => f k <> 0 /\ g k <> 0) (zrange a n).
Proof.
  induction n as [|n IH]; intros a s Hs Hn; [unfold zcount; cbn; rewrite ?filter_nil; cbn; lia|]. cbn [zrange fmap list_fmap shared_loop]. unfold zcount in *. rewrite filter_cons.
  destruct (decide (f a <> 0 /\ g a <> 0)) as [[Hf Hg]|Hno].
  - rewrite (proj2 (Z.eqb_neq _ _) Hf), (proj2 (Z.eqb_neq _ _) Hg). cbn [negb andb List.length]. unfold u64_inc. rewrite u64_small by (unfold in_u64; lia). rewrite IH by lia. clear IH. lia.
  - replace (negb (f a =? 0) && negb (g a =? 0)) with false; [by apply IH; lia|]. destruct (Z.eqb_spec (f a) 0), (Z.eqb_spec (g a) 0); try done. tauto.
Qed.

Lemma unique_loop_count f n : forall a s, 0 <= s -> s + Z.of_nat n < 18446744073709551616 ->
  unique_loop (f <$> zrange a n) n s = s + zcount (fun k => f k <> 0) (zrange a n).
Proof.
  induction n as [|n IH]; intros a s Hs Hn; [unfold zcount; cbn; rewrite ?filter_nil; cbn; lia|]. cbn [zrange fmap list_fmap unique_loop]. unfold zcount in *. rewrite filter_cons.
  destruct (decide (f a <> 0)) as [Hf|Hno].
  - rewrite (proj2 (Z.eqb_neq _ _) Hf). cbn [negb List.length]. unfold u64_inc. rewrite u64_small by (unfold in_u64; lia). rewrite IH by lia. lia.
  - destruct (Z.eqb_spec (f a) 0); [|done]. cbn [negb]. apply IH; lia.
Qed.

(** ** Groups of classes *)

(** Different members of a list that are in the range are counted once. *)
Lemma zcount_members (P : Z -> Prop) `{forall x, Decision (P x)} n A : NoDup A -> (forall x, P x /\ 0 <= x < Z.of_nat n <-> x ∈ A) ->
  zcount P (zrange 0 n) = Z.of_nat (List.length A).
Proof.
  intros Hnd HA. unfold zcount. f_equal. apply Permutation_length. apply NoDup_Permutation; [|done|].
  - apply NoDup_filter. rewrite zrange_seqZ. apply NoDup_seqZ.
  - intros x. rewrite list_elem_of_filter, elem_zrange. apply HA.
Qed.

Section Groups.
Context (n : nat) (quota : Z).
Hypothesis Hn : Z.of_nat n < 18446744073709551616.
Hypothesis Hquota : 0 < quota.

(** The histogram of [quota] lines of each class of a group. *)
Definition group_hist (cls : list Z) : list Z := tally (cls ≫= replicate (Z.to_nat quota)) (replicate n 0).

Definition group_ok (cls : list Z) : Prop :=
  NoDup cls /\ Forall (fun c => 0 <= c < Z.of_nat n) cls /\ Z.of_nat (List.length cls) * quota < 18446744073709551616.

Lemma group_hist_eq cls : group_ok cls -> group_hist cls = (fun k => if decide (k ∈ cls) then quota else 0) <$> zrange 0 n.
Proof.
  intros (Hnd & Hall & Hl). rewrite <- (nth_indices (group_hist cls)). unfold group_hist at 2. rewrite length_tally, length_replicate.
  apply list_fmap_ext. intros i k Hk. apply list_elem_of_lookup_2, elem_zrange in Hk. unfold group_hist.
  rewrite nth_blocks by (done || lia). by rewrite Z2Nat.id by lia.
Qed.

Lemma group_in cls x : group_ok cls -> x ∈ cls -> 0 <= x < Z.of_nat n.
Proof. intros (_ & Hall & _). rewrite Forall_forall in Hall. apply Hall. Qed.

Lemma unique_group cls : group_ok cls -> unique_loop (group_hist cls) n 0 = Z.of_nat (List.length cls).
Proof.
  intros Hok. rewrite group_hist_eq, unique_loop_count by (done || lia). apply zcount_members; [apply Hok|]. intros x. pose proof (group_in cls x Hok).
  destruct (decide (x ∈ cls)); naive_solver lia.
Qed.

(** Two groups, and what they share. *)
Lemma groups_jaccard A B both : group_ok A -> group_ok B -> NoDup both -> (forall x, x ∈ both <-> x ∈ A /\ x ∈ B) ->
  let a := Z.of_nat (List.length A) in let b := Z.of_nat (List.length B) in let s := Z.of_nat (List.length both) in
  jaccard_loop (group_hist A) (group_hist B) n 0 0 = (u64 (s * quota), u64 ((a + b - s) * quota)) /\
  shared_loop (group_hist A) (group_hist B) n 0 = s.
Proof.
  intros HA HB Hnd Hboth a b s. rewrite (group_hist_eq A HA), (group_hist_eq B HB).
  assert (Es : forall (P : Z -> Prop) `{forall x, Decision (P x)}, (forall x, P x <-> x ∈ A /\ x ∈ B) -> zcount P (zrange 0 n) = s).
  { intros P HP HPx. apply zcount_members; [done|]. intros x. rewrite HPx, <- Hboth. pose proof (group_in A x HA). rewrite Hboth. tauto. }
  split.
  - rewrite jaccard_loop_sums by (unfold in_u64; lia). rewrite !Z.add_0_l. f_equal; f_equal.
    + rewrite <- (Es (fun x => x ∈ A /\ x ∈ B) _ (fun x => iff_refl _)), <- zsum_indicator. apply zsum_ext. intros x _.
      destruct (decide (x ∈ A)), (decide (x ∈ B)), (decide (x ∈ A /\ x ∈ B)); tauto || lia.
    + set (rest := filter (fun x => x ∉ A) B).
      assert (El : Z.of_nat (List.length rest) = b - s).
      { assert (Ep : B ≡ₚ both ++ rest).
        { apply NoDup_Permutation; [apply HB| |].
          - apply NoDup_app. conjs; [done| |apply NoDup_filter, HB]. intros x [Hx _]%Hboth [Hno _]%list_elem_of_filter. done.
          - intros x. rewrite elem_of_app, Hboth. unfold rest. rewrite list_elem_of_filter. destruct (decide (x ∈ A)); tauto. }
        apply Permutation_length in Ep. rewrite length_app in Ep. unfold b, s. lia. }
      replace (a + b - s) with (Z.of_nat (List.length (A ++ rest))) by (rewrite length_app; unfold a; lia).
      rewrite <- (zcount_members (fun x => x ∈ A \/ x ∈ B) n (A ++ rest)).
      * rewrite <- zsum_indicator. apply zsum_ext. intros x _. destruct (decide (x ∈ A)), (decide (x ∈ B)), (decide (x ∈ A \/ x ∈ B)); tauto || lia.
      * apply NoDup_app. conjs; [apply HA| |apply NoDup_filter, HB]. intros x Hx [Hno _]%list_elem_of_filter. done.
      * intros x. rewrite elem_of_app. unfold rest. rewrite list_elem_of_filter. pose proof (group_in A x HA). pose proof (group_in B x HB). destruct (decide (x ∈ A)); tauto.
  - rewrite shared_loop_count by lia. rewrite Z.add_0_l. apply Es. intros x. destruct (decide (x ∈ A)), (decide (x ∈ B)); pose proof (group_in A x HA); naive_solver lia.
Qed.
End Groups.

(** * The levels of the sweep

    What a plan is that the first part of [main] leaves, and what selecting the
    aggressor's lines of a level returns: the level that was asked for, always,
    when no allocation fails; and for a class of two levels the same lines. *)

(** ** The lines of a class *)

(** The addresses of a set whose class, computed from their page frames, is [x]. *)
Definition class_lines (m : dram_mapping) (set : line_set) (x : Z) : list Z :=
  filter (fun a => address_bank_class (Some set) (Some m) a = Some x) (ls_addresses set).

Lemma of_class_app m p k x P Q : of_class m p k x (P ++ Q) = of_class m p k x P ++ of_class m p k x Q.
Proof. apply filter_app. Qed.

Lemma picked_of_class m p k cls quota P x : NoDup cls ->
  of_class m p k x (picked m p k cls quota P) = if decide (x ∈ cls) then take (Z.to_nat quota) (of_class m p k x P) else [].
Proof.
  assert (Hone : forall c, of_class m p k x (take (Z.to_nat quota) (of_class m p k c P)) = if decide (c = x) then take (Z.to_nat quota) (of_class m p k x P) else []).
  { intros c. destruct (decide (c = x)) as [->|Hne].
    - apply filter_all, Forall_take, Forall_forall. by intros y [Hy _]%list_elem_of_filter.
    - apply elem_of_nil_inv. intros y [Hy Hin]%list_elem_of_filter. apply subseteq_take, list_elem_of_filter in Hin as [Hin _]. congruence. }
  induction 1 as [|c cls Hno Hnd IH]; [done|].
  change (picked m p k (c :: cls) quota P) with (take (Z.to_nat quota) (of_class m p k c P) ++ picked m p k cls quota P).
  rewrite of_class_app, Hone, IH.
  destruct (decide (c = x)) as [->|Hne]; [rewrite decide_False, app_nil_r, decide_True by (done || by left); done|].
  destruct (decide (x ∈ cls)); [rewrite decide_True by (by right); done|]. rewrite decide_False; [done|]. by intros [->|]%elem_of_cons.
Qed.

(** A selection of the first lines of each class has the same lines of a class
    whatever its other classes are. *)
Lemma selection_class_lines m p base k cls quota set P x : wf_mapping m -> pool_ok p base k -> NoDup cls -> selection m p base k cls quota set (picked m p k cls quota P) ->
  class_lines m set x = if decide (x ∈ cls) then line_address p base <$> take (Z.to_nat quota) (of_class m p k x P) else [].
Proof.
  intros Hm Hp Hnd [Hpool Hok _ _ Haddr _]. unfold class_lines. rewrite Haddr, filter_fmap.
  transitivity (line_address p base <$> of_class m p k x (picked m p k cls quota P)).
  - f_equal. apply filter_agree. intros y Hy. rewrite Forall_forall in Hok. rewrite (line_address_class m p base k Hm Hp set y Hpool (Hok y Hy)). split; [by intros [= ->]|by intros ->].
  - rewrite picked_of_class by done. by destruct (decide _).
Qed.

(** ** The group of a level *)

(** The classes of the aggressor at a level with [s] shared classes. *)
Definition level_classes (g s : Z) (v d : list Z) : list Z := take (Z.to_nat s) v ++ take (Z.to_nat (g - s)) d.

Lemma shared_of_level c g s : in_u64 g -> g < 6148914691236517205 -> condition_shared_classes c g = Some s ->
  0 < g /\ g mod 4 = 0 /\ 0 <= s <= g /\ c <> CONDITION_NONE /\ 4 * s = g * (Z.of_nat (condition_index c) - 1).
Proof.
  intros Hg Hsmall. unfold condition_shared_classes. destruct (Z.eqb_spec g 0); [done|]. destruct (Z.eqb_spec (g mod 4) 0) as [Hm|]; [|done]. cbn [orb negb].
  unfold in_u64 in Hg. assert (E3 : u64_mul g 3 = g * 3) by (apply u64_small; unfold in_u64; lia).
  rewrite E3. destruct (Z.mod_divide g 4) as [Hdiv _]; [lia|]. destruct (Hdiv Hm) as [h ->]. clear Hdiv.
  assert (E1 : h * 4 / 4 = h) by (apply Z.div_mul; lia).
  assert (E2 : h * 4 / 2 = h * 2) by (replace (h * 4) with (h * 2 * 2) by lia; apply Z.div_mul; lia).
  assert (E4 : h * 4 * 3 / 4 = h * 3) by (replace (h * 4 * 3) with (h * 3 * 4) by lia; apply Z.div_mul; lia).
  rewrite E1, E2, E4. destruct c; try discriminate; intros Hs; apply (inj Some) in Hs as <-; cbn [condition_index]; conjs; done || lia.
Qed.

(** The number of shared classes of every level, for a number of classes that is
    divisible by four. *)
Definition level_of (c : condition) (g : Z) : Z := g / 4 * (Z.of_nat (condition_index c) - 1).

Lemma condition_shared_level c g : 0 < g < 6148914691236517205 -> g mod 4 = 0 -> c <> CONDITION_NONE -> condition_shared_classes c g = Some (level_of c g).
Proof.
  intros Hg Hm Hc. destruct (condition_shared_classes c g) as [s|] eqn:E.
  - apply shared_of_level in E as (_ & _ & _ & _ & E); [|unfold in_u64; lia..]. f_equal. unfold level_of.
    assert (Eg : g = g / 4 * 4) by (pose proof (Z.div_mod g 4 ltac:(lia)); lia). rewrite Eg in E. lia.
  - unfold condition_shared_classes in E. destruct (Z.eqb_spec g 0); [lia|]. rewrite Hm in E. by destruct c.
Qed.

Section Group.
Context (space g : Z) (P : Z -> Prop) (v d : list Z).
Hypothesis Hchosen : chosen_ok space g P v d.

(** Its classes are different classes of the space that both pools have. *)
Lemma level_classes_ok s : 0 <= s <= g ->
  NoDup (level_classes g s v d) /\ Z.of_nat (List.length (level_classes g s v d)) = g /\ Forall (fun c => 0 <= c < space /\ P c) (level_classes g s v d).
Proof.
  destruct Hchosen as [Hnd Hv Hd Hall]. intros Hs. unfold level_classes. apply NoDup_app in Hnd as (Hv1 & Hdis & Hd1). apply Forall_app in Hall as [Hav Had]. conjs.
  - apply NoDup_app. conjs; [by eapply sublist_NoDup, sublist_take| |by eapply sublist_NoDup, sublist_take].
    intros x Hx Hx'. apply subseteq_take in Hx, Hx'. by apply (Hdis x).
  - rewrite length_app, !length_take. lia.
  - apply Forall_app. split; by apply Forall_take.
Qed.

(** The victim's classes among them are the first [s]. *)
Lemma level_classes_shared s x : 0 <= s <= g -> x ∈ take (Z.to_nat s) v <-> x ∈ v /\ x ∈ level_classes g s v d.
Proof.
  destruct Hchosen as [Hnd Hv Hd Hall]. intros Hs. unfold level_classes. rewrite elem_of_app. apply NoDup_app in Hnd as (_ & Hdis & _). split.
  - intros Hx. split; [by apply subseteq_take in Hx|by left].
  - intros [Hx [|Hin]]; [done|]. apply subseteq_take in Hin. by destruct (Hdis x).
Qed.
End Group.

(** ** The lines of a level *)

(** The classes are chosen from those of which the pool has the lines. *)
Section Exact.
Context (m : dram_mapping) (k base : Z) (p : memory_pool) (quota g : Z) (P : Z -> Prop) (v d : list Z).
Hypothesis Hm : wf_mapping m.
Hypothesis Hspace : mask_count m <= 20.
Hypothesis Hp : pool_ok p base k.
Hypothesis Hgroup : 0 < g < 6148914691236517205.
Hypothesis Hquota : 0 < quota < 18446744073709551616.
Hypothesis Hchosen : chosen_ok (2 ^ mask_count m) g P v d.
Hypothesis HP : forall c, P c -> quota <= occurs c (line_class m p k <$> all_lines p k).

Abbreviation space := (2 ^ mask_count m).

Lemma level_range s : 0 <= s <= g -> Forall (fun c => 0 <= c < space) (level_classes g s v d).
Proof. intros Hs. destruct (level_classes_ok _ _ _ _ _ Hchosen s Hs) as (_ & _ & Hall). eapply Forall_impl; [exact Hall|]. by intros c [? _]. Qed.

Lemma level_enough s : 0 <= s <= g -> enough m p k (level_classes g s v d) quota.
Proof. intros Hs. destruct (level_classes_ok _ _ _ _ _ Hchosen s Hs) as (_ & _ & Hall). eapply Forall_impl; [exact Hall|]. intros c [_ Hc]. by apply HP. Qed.

(** The lines of the level that are taken in an order. *)
Lemma level_collect {W} `{HO : OS W} `{HM : Memory W} s sd set (w : W) : 0 <= s <= g ->
  let '(rc, set', _) := collect_line_set p m (offset_classes m k) space (level_classes g s v d) g quota sd set w in
  (rc = 0 /\ selection m p base k (level_classes g s v d) quota set' (picked m p k (level_classes g s v d) quota (lines_order p k sd))) \/ (rc = -1 /\ (allocations_succeed W -> False)).
Proof.
  intros Hs. destruct (level_classes_ok _ _ _ _ _ Hchosen s Hs) as (Hnd & Hlen & Hall).
  pose proof (collect_line_set_picked m p base k Hm Hp Hspace (level_classes g s v d) quota sd set w) as Hspec. rewrite Hlen in Hspec.
  destruct (collect_line_set _ _ _ _ _ _ _ _ _ _) as [[rc set'] w']. destruct Hspec as [?|[-> Hno]]; try done.
  - intros E. rewrite E in Hlen. cbn in Hlen. lia.
  - by apply level_range.
  - by left.
  - right. split; [done|]. intros Halloc. apply Hno; [done|]. by apply level_enough.
Qed.

(** [g * quota] lines of a pool are far fewer than the numbers that fit. *)
Lemma group_fits : g * quota < 288230376151711744.
Proof.
  destruct (level_classes_ok _ _ _ _ _ Hchosen 0 ltac:(lia)) as (Hnd & Hlen & Hall). pose proof (level_enough 0 ltac:(lia)) as Hen.
  pose proof (length_picked m p k _ quota Hquota (all_lines p k) Hen) as El.
  assert (Hsub : picked m p k (level_classes g 0 v d) quota (all_lines p k) ⊆+ all_lines p k).
  { apply NoDup_submseteq; [apply picked_nodup; [done|apply all_lines_nodup]|]. intros x. apply picked_sub. }
  apply submseteq_length in Hsub. rewrite Hlen in El. pose proof (length_all_lines p base k Hp) as Ea. pose proof (page_split p base k Hp) as (E & Hpos & _).
  pose proof (po_room _ _ _ Hp) as [Hb Hr]. rewrite (po_bytes _ _ _ Hp), E in Hr. nia.
Qed.

Lemma level_group s : 0 <= s <= g -> group_ok (Z.to_nat space) quota (level_classes g s v d).
Proof.
  intros Hs. destruct (level_classes_ok _ _ _ _ _ Hchosen s Hs) as (Hnd & Hlen & Hall). pose proof group_fits. split; [done|]. split; [|lia].
  eapply Forall_impl; [exact Hall|]. intros c [Hc _]. lia.
Qed.

Lemma victim_group : group_ok (Z.to_nat space) quota v.
Proof.
  destruct Hchosen as [_ Hv _ _]. assert (E : v = level_classes g g v d); [|rewrite E; apply level_group; lia].
  unfold level_classes. rewrite Z.sub_diag. change (take (Z.to_nat 0) d) with (@nil Z). rewrite app_nil_r, firstn_all2 by lia. done.
Qed.

Lemma space_small : Z.of_nat (Z.to_nat space) < 18446744073709551616.
Proof. pose proof Hm as (Hmc & _). assert (0 < space <= 2 ^ 20) by (split; [apply Z.pow_pos_nonneg; lia|apply Z.pow_le_mono_r; lia]). lia. Qed.

(** Both histograms of a level, and the numbers computed from them: they are the
    numbers that are expected. *)
Lemma level_histograms s : 0 <= s <= g ->
  let hist := group_hist (Z.to_nat space) quota (level_classes g s v d) in let victim_hist := group_hist (Z.to_nat space) quota v in
  histogram_unique_classes hist space = g /\ (histogram_jaccard victim_hist hist space).1.2 = s * quota /\ (histogram_jaccard victim_hist hist space).2 = (2 * g - s) * quota /\
  histogram_shared_classes victim_hist hist space = s /\ u64_mul s quota = s * quota /\ u64_mul (u64_sub (u64_mul g 2) s) quota = (2 * g - s) * quota.
Proof.
  intros Hs hist victim_hist. pose proof space_small as Hn. destruct (level_classes_ok _ _ _ _ _ Hchosen s Hs) as (_ & Hlen & _). pose proof group_fits as Hfit.
  destruct Hchosen as [Hnd Hv _ _]. apply NoDup_app in Hnd as (Hndv & _).
  destruct (groups_jaccard (Z.to_nat space) quota Hn ltac:(lia) v (level_classes g s v d) (take (Z.to_nat s) v) victim_group (level_group s Hs)) as [E1 E2].
  { by eapply sublist_NoDup, sublist_take. }
  { intros x. by eapply level_classes_shared. }
  rewrite length_take in E1, E2. rewrite Hv, Hlen in E1. replace (Z.of_nat (Z.to_nat s `min` List.length v)) with s in * by lia.
  unfold histogram_unique_classes, histogram_jaccard, histogram_shared_classes, hist, victim_hist. rewrite E1, E2, unique_group, !u64_small by (done || lia || (unfold in_u64; nia) || by apply level_group).
  cbn [fst snd]. unfold u64_mul, u64_sub. rewrite (u64_small (g * 2)), (u64_small (g * 2 - s)), !u64_small by (unfold in_u64; nia). conjs; try done; try lia; nia.
Qed.
End Exact.

(** ** Choosing *)

Lemma base_candidates_eligible n vc ac q : forall cls, base_candidates n cls vc ac q = eligible_classes n cls vc ac ac q.
Proof.
  induction n as [|n IH]; intros cls; [done|]. cbn [base_candidates eligible_classes]. rewrite IH. by destruct (_ <=? _), (_ <=? _).
Qed.

(** Choosing from two pools is choosing from three of which two are the same. *)
Lemma choose_base_same {W} `{OS W} vc ac space n q sd (w : W) : choose_base_class_sets vc ac space n q sd w = choose_class_sets vc ac ac space n q sd w.
Proof. unfold choose_base_class_sets, choose_class_sets. destruct (_ || _); [done|]. destruct (os_calloc _ _ _) as [[|] w']; [|done]. cbn [negb]. by rewrite base_candidates_eligible. Qed.

Section Plan.
Context (m : dram_mapping) (k bv ba : Z) (vp ap : memory_pool) (cfg : config) (quota : Z).
Hypothesis Hm : wf_mapping m.
Hypothesis Hspace : mask_count m <= 20.
Hypothesis Hvp : pool_ok vp bv k.
Hypothesis Hap : pool_ok ap ba k.
Hypothesis Hgroup : 0 < group_classes cfg < 6148914691236517205.
Hypothesis Hquota : 0 < quota < 18446744073709551616.

Abbreviation space := (2 ^ mask_count m).
Abbreviation g := (group_classes cfg).

(** Both pools have [quota] lines of the class. *)
Definition both_have (c : Z) : Prop :=
  quota <= occurs c (line_class m vp k <$> all_lines vp k) /\ quota <= occurs c (line_class m ap k <$> all_lines ap k).

#[export] Instance both_have_dec c : Decision (both_have c).
Proof. unfold both_have. apply _. Defined.

Lemma sweep_choose_classes_spec {W} `{HO : OS W} `{HM : Memory W} sw (w : W) : sw_victim_pool sw = vp -> sw_aggressor_pool sw = ap ->
  match (choose_classes sw m (offset_classes m k) space cfg quota w).1 with
  | Some (v, d) => chosen_ok space g both_have v d
  | None => allocations_succeed W -> Z.of_nat (List.length (filter both_have (zrange 0 (Z.to_nat space)))) < 2 * g
  end.
Proof.
  intros Ev Ea. unfold choose_classes. rewrite Ev, Ea.
  destruct (os_calloc space 8 w) as [ok1 w1] eqn:A1, (os_calloc space 8 w1) as [ok2 w2] eqn:A2, (os_calloc g 8 w2) as [ok3 w3] eqn:A3,
    (os_calloc g 8 w3) as [ok4 w4] eqn:A4, (os_calloc g 8 w4) as [ok5 w5] eqn:A5, (os_calloc space 8 w5) as [ok6 w6] eqn:A6, (os_calloc space 8 w6) as [ok7 w7] eqn:A7.
  destruct (negb _) eqn:Eok.
  { intros [Hcalloc _]. apply (f_equal fst) in A1, A2, A3, A4, A5, A6, A7. rewrite Hcalloc in A1, A2, A3, A4, A5, A6, A7. cbn in *. by subst. }
  destruct (count_line_classes vp m (offset_classes m k) space) as [vc|] eqn:E1; [|by rewrite (count_classes_tally m _ k Hm) in E1].
  destruct (count_line_classes ap m (offset_classes m k) space) as [ac|] eqn:E2; [|by rewrite (count_classes_tally m _ k Hm) in E2].
  rewrite choose_base_same. pose proof (choose_class_sets_spec vc ac ac space g quota (seed cfg) w7 ltac:(lia) ltac:(lia)) as Hspec.
  assert (Hel : forall c, 0 <= c -> eligible quota vc ac ac c <-> both_have c).
  { intros c Hc. unfold eligible, both_have. rewrite (nth_line_counts m _ _ k Hm Hvp vc c E1 Hc), (nth_line_counts m _ _ k Hm Hap ac c E2 Hc). tauto. }
  destruct (choose_class_sets vc ac ac space g quota (seed cfg) w7).1 as [[v d]|].
  - destruct Hspec as [Hnd Hv Hd Hcs]. split; [done..|]. eapply Forall_impl; [exact Hcs|]. intros c [Hc He]. split; [done|]. apply Hel; [lia|done].
  - intros Hall. erewrite filter_agree; [exact (Hspec Hall)|]. intros c Hc%elem_zrange. symmetry. apply Hel. lia.
Qed.

(** ** A plan *)

(** What the first part of [main] leaves for the levels. *)
Record plan_ok (pl : plan) : Prop := {
  plo_mapping : pl_mapping pl = m;
  plo_offsets : pl_offset_classes pl = offset_classes m k;
  plo_space : pl_class_space pl = space;
  plo_quota : pl_quota_lines pl = quota;
  plo_chosen : chosen_ok space g both_have (pl_victim_classes pl) (pl_disjoint_classes pl);
  plo_hist : pl_victim_hist pl = group_hist (Z.to_nat space) quota (pl_victim_classes pl);
  plo_enough : 16 <= g * quota
}.

Section Levels.
Context {W : Type} `{HO : OS W} `{HM : Memory W}.
Context (pl : plan).
Hypothesis Hpl : plan_ok pl.

Abbreviation v := (pl_victim_classes pl).
Abbreviation d := (pl_disjoint_classes pl).
Abbreviation order := (lines_order ap k (Z.lxor (seed cfg) 0x5555555555555555)).

(** The lines of a level. *)
Definition level_lines (s : Z) : list (Z * Z) := picked m ap k (level_classes g s v d) quota order.

Lemma aggressor_has c : both_have c -> quota <= occurs c (line_class m ap k <$> all_lines ap k).
Proof. by intros [_ ?]. Qed.

(** Selecting a level fails only when an allocation fails; otherwise the level is
    the one asked for. *)
Lemma select_level_spec c s aset (w : W) : condition_shared_classes c g = Some s ->
  let '(l, aset', _) := select_level cfg pl ap c aset w in
  match l with
  | Some l => lv_shared l = s /\ lv_intersection l = s * quota /\ lv_union l = (2 * g - s) * quota /\ selection m ap ba k (level_classes g s v d) quota aset' (level_lines s)
  | None => allocations_succeed W -> False
  end.
Proof.
  intros Ec. unfold select_level. rewrite Ec. destruct (shared_of_level c g s) as (_ & Hmod & Hs & _); [unfold in_u64; lia|lia|done|].
  unfold build_overlap_classes. destruct (Z.eqb_spec g 0); [lia|]. destruct (Z.ltb_spec g s); [lia|]. cbn [orb]. change (take _ v ++ take _ d) with (level_classes g s v d).
  rewrite (plo_mapping _ Hpl), (plo_offsets _ Hpl), (plo_space _ Hpl), (plo_quota _ Hpl).
  pose proof (level_collect m k ba ap quota g both_have v d Hm Hspace Hap Hgroup Hquota (plo_chosen _ Hpl) aggressor_has s (Z.lxor (seed cfg) 0x5555555555555555) (line_set_destroy aset) w Hs) as Hcol.
  destruct (collect_line_set _ _ _ _ _ _ _ _ _ w) as [[rc set'] w']. destruct Hcol as [[-> Hsel]|[-> Hno]]; cbn [Z.eqb negb]; [|done].
  rewrite (build_histogram_selection m ap ba k Hm Hap _ _ _ _ Hsel), (plo_hist _ Hpl). fold (group_hist (Z.to_nat space) quota (level_classes g s v d)).
  destruct (level_histograms m k ba ap quota g both_have v d Hm Hspace Hap Hgroup Hquota (plo_chosen _ Hpl) aggressor_has s Hs) as (E1 & E2 & E3 & E4 & X1 & X2).
  rewrite E1, Z.eqb_refl. cbn [negb]. destruct (histogram_jaccard _ _ _) as [[j i] u]. cbn [fst snd] in E2, E3. rewrite E4, E2, E3, X1, X2, !Z.eqb_refl. cbn [negb orb]. unfold build_multi_chain.
  assert (Hcnt : ls_line_count set' = g * quota).
  { rewrite (sel_count _ _ _ _ _ _ _ _ Hsel), <- (length_fmap (line_class m ap k)), (sel_classes _ _ _ _ _ _ _ _ Hsel).
    destruct (level_classes_ok _ _ _ _ _ (plo_chosen _ Hpl) s Hs) as (_ & Hlen & _). rewrite length_blocks by lia. by rewrite Hlen. }
  pose proof (plo_enough _ Hpl) as Hmin. rewrite Hcnt. change (AGGRESSOR_STREAMS =? 0) with false. destruct (Z.ltb_spec (g * quota) AGGRESSOR_STREAMS); [unfold AGGRESSOR_STREAMS in *; lia|]. cbn [orb].
  destruct (multi_loop _ _ _ _ _ w') as [roots w2]. cbn. done.
Qed.
End Levels.
End Plan.
