(* ===== verification/OverlapRelease.v ===== *)
(** * What the sweep leaves behind, and when it succeeds

    The same triples as for the control experiment, for a victim and at most one
    aggressor; every path through [main]; and the steps a run that succeeds has
    made. *)
From S2P Require Import Prelude Float64 CString Os Calibration CalibrationLoad CalibrationRun DramMapping OracleSys OracleConfig OraclePool OracleLines OracleStages OracleChain OracleIo OracleRun OracleMain OracleStepProps.
From S2P Require Import OracleHeld OracleMainProps OverlapConfig OverlapSweep.
From Stdlib Require Import Ascii String.
Local Open Scope Z_scope.

#[export] Instance run_holds : Holds run_state := {|
  holds_pid s x := x = rs_victim_pid s \/ x = rs_aggressor_pid s;
  holds_end s x := x = rs_victim_fd s \/ x = rs_aggressor_fd s;
  background s := has_aggressor (rs_out s);
  shape _ := (0, 0)%nat
|}.

Section Cleanup.
Context {W : Type} {HO : OS W} {HF : Files W} {HK : Workers W} {WL : WorkerLaws W}.
Context (result_size : Z) (result_of_bytes : list Z -> worker_result) (fuel : nat).
Hypothesis Hfuel : (0 < fuel)%nat.
Hypothesis Hsize : (Z.to_nat result_size < fuel)%nat.
Implicit Types w : W.

Definition no_aggressor (s : run_state) : Prop := rs_aggressor_pid s = -1 /\ rs_aggressor_fd s = -1.

(** The aggressor was let run when there is one. *)
Definition aggressor_runs (s : run_state) (m : gmap Z worker_phase) : Prop := if has_aggressor (rs_out s) then let_run m (rs_aggressor_pid s) else no_aggressor s.

(** Its result is still to be read. *)
Definition aggressor_ended (s : run_state) : Prop := rs_aggressor_pid s = -1 /\ (has_aggressor (rs_out s) = false -> no_aggressor s).

Lemma triple_if_aggressor (P Q : run_state -> gmap Z worker_phase -> Prop) (a : step run_state W) :
  triple (fun s m => P s m /\ has_aggressor (rs_out s) = true) a (fun s m => has_aggressor (rs_out s) = true -> Q s m) ->
  (forall s m, P s m -> has_aggressor (rs_out s) = false -> Q s m) -> triple P (if_aggressor a) Q.
Proof. exact (triple_background P a Q). Qed.

Lemma sweep_start_victim_triple : triple (fun s m => rs_victim_pid s = -1 /\ rs_victim_fd s = -1 /\ no_aggressor s) (start_victim fuel) (fun s m => waiting m (rs_victim_pid s) /\ no_aggressor s).
Proof.
  intros w0 s w Hc (Hp & Hf & HP). unfold start_victim, spawn_victim. destruct (spawn_worker (rs_victim_fd s) w) as [[pid fd] w1] eqn:E.
  destruct (start_covered fuel s (fun pid fd => s <| rs_victim_pid := pid |> <| rs_victim_fd := fd |>) _ w0 w ltac:(lia) Hc ltac:(vars) ltac:(vars) Hf _ _ _ E) as [Hc1 Hw].
  destruct (pid <? 0); [eexists false, _, w1; by conjs|]. destruct (Hw eq_refl) as (Hpos & rc & w2 & Ew & Hc2 & Hkeep & Hst). unfold checked. cbn [rs_victim_pid set_field]. rewrite Ew.
  eexists _, _, w2. split; [reflexivity|]. split; [done|]. split; [done|]. intros Hrc%Z.eqb_eq. specialize (Hst Hrc). unfold waiting in *. cbn. naive_solver.
Qed.

Lemma start_aggressor_triple : triple (fun s m => waiting m (rs_victim_pid s) /\ no_aggressor s) (start_aggressor fuel) (fun s m => waiting m (rs_victim_pid s) /\ waiting m (rs_aggressor_pid s)).
Proof.
  intros w0 s w Hc (Hv & Hp & Hf). unfold start_aggressor, spawn_aggressor. destruct (spawn_worker (rs_aggressor_fd s) w) as [[pid fd] w1] eqn:E.
  destruct (start_covered fuel s (fun pid fd => s <| rs_aggressor_pid := pid |> <| rs_aggressor_fd := fd |>) _ w0 w ltac:(lia) Hc ltac:(vars) ltac:(vars) Hf _ _ _ E) as [Hc1 Hw].
  destruct (pid <? 0); [eexists false, _, w1; by conjs|]. destruct (Hw eq_refl) as (Hpos & rc & w2 & Ew & Hc2 & Hkeep & Hst). unfold checked. cbn [rs_aggressor_pid set_field]. rewrite Ew.
  eexists _, _, w2. split; [reflexivity|]. split; [done|]. split; [done|]. intros Hrc%Z.eqb_eq. specialize (Hst Hrc). unfold waiting in *. cbn. naive_solver.
Qed.

Lemma sweep_aggressor_triple : triple (fun s m => waiting m (rs_victim_pid s) /\ no_aggressor s) (if_aggressor (then_step (start_aggressor fuel) (continue_step rs_aggressor_pid)))
  (fun s m => waiting m (rs_victim_pid s) /\ aggressor_runs s m).
Proof.
  apply triple_if_aggressor; [|intros s m [Hv Ha] Hb; unfold aggressor_runs; by rewrite Hb].
  eapply triple_weaken; [|exact (fun s m H => proj1 H)|].
  - eapply triple_then; [apply start_aggressor_triple|apply (triple_continue _ (fun s m => waiting m (rs_victim_pid s) /\ let_run m (rs_aggressor_pid s)))].
    intros s m [Hv Ha]. split; [split; [apply Ha|cbn; auto]|]. split; [by apply wake_waiting|by apply woken_let_run].
  - intros s m [Hv Ha] Hb. unfold aggressor_runs. by rewrite Hb.
Qed.

Lemma sweep_continue_victim_triple : triple (fun s m => waiting m (rs_victim_pid s) /\ aggressor_runs s m) (continue_step rs_victim_pid)
  (fun s m => let_run m (rs_victim_pid s) /\ aggressor_runs s m).
Proof.
  apply triple_continue. intros s m [Hv Ha]. split; [split; [apply Hv|cbn; auto]|]. split; [by apply woken_let_run|]. unfold aggressor_runs in *.
  destruct (has_aggressor (rs_out s)); [by apply wake_let_run|done].
Qed.

Lemma sweep_finish_victim_triple : triple (fun s m => let_run m (rs_victim_pid s) /\ aggressor_runs s m) (finish_victim fuel) (fun s m => rs_victim_pid s = -1 /\ aggressor_runs s m).
Proof.
  intros w0 s w Hc [[Hv Hve] Hrest]. unfold finish_victim.
  destruct (finish_covered fuel s (s <| rs_victim_pid := -1 |>) (rs_victim_pid s) w0 w Hfuel Hc Hv) as (rc & w1 & -> & H1 & H2 & He); [split; [done|cbn; auto]|vars|vars|vars|done|].
  destruct (rc =? 0); eexists _, _, w1; (split; [reflexivity|]); [|done]. split; [done|]. split; [done|]. intros _. split; [done|]. unfold aggressor_runs, let_run in *. cbn.
  destruct (has_aggressor (rs_out s)); naive_solver.
Qed.

Lemma finish_aggressor_triple : triple (fun s m => rs_victim_pid s = -1 /\ aggressor_runs s m) (if_aggressor (finish_aggressor fuel)) (fun s _ => rs_victim_pid s = -1 /\ aggressor_ended s).
Proof.
  apply triple_if_aggressor; [|intros s m [Hv Ha] Hb; unfold aggressor_runs in Ha; rewrite Hb in Ha; split; [done|]; split; [apply Ha|done]].
  intros w0 s w Hc [[Hv Ha] Hb]. unfold aggressor_runs in Ha. rewrite Hb in Ha. destruct Ha as [Ha Hae]. unfold finish_aggressor.
  destruct (finish_covered fuel s (s <| rs_aggressor_pid := -1 |>) (rs_aggressor_pid s) w0 w Hfuel Hc Ha) as (rc & w1 & -> & H1 & H2 & He); [split; [done|cbn; auto]|vars|vars|vars|done|].
  destruct (rc =? 0); eexists _, _, w1; (split; [reflexivity|]); (split; [done|]); (split; [done|]); [|done].
  intros _ Hb'. split; [done|]. split; [done|]. cbn. cbn in Hb'. congruence.
Qed.

Lemma sweep_read_victim_triple : triple (fun s _ => rs_victim_pid s = -1 /\ aggressor_ended s) (read_victim result_size result_of_bytes fuel)
  (fun s _ => rs_victim_pid s = -1 /\ rs_victim_fd s = -1 /\ aggressor_ended s).
Proof.
  intros w0 s w Hc [Hf Hq]. unfold read_victim. destruct (read_full_ends fuel (rs_victim_fd s) result_size [] w Hsize) as (rc & bytes & w1 & -> & Hk).
  pose proof (covered_kept _ _ _ _ Hc Hk) as Hc1. destruct (negb (rc =? 0)); [eexists false, s, w1; by conjs|].
  eexists true, _, _. split; [reflexivity|]. split; [|by conjs]. eapply covered_close; [exact Hc1|vars..].
Qed.

(** Nothing is held. *)
Definition nothing (s : run_state) : Prop := rs_victim_pid s = -1 /\ rs_victim_fd s = -1 /\ no_aggressor s.

Lemma read_aggressor_triple : triple (fun s _ => rs_victim_pid s = -1 /\ rs_victim_fd s = -1 /\ aggressor_ended s)
  (if_aggressor (read_aggressor result_size result_of_bytes fuel)) (fun s _ => nothing s).
Proof.
  apply triple_if_aggressor; [|intros s m (Hv & Hf & Ha) Hb; split; [done|]; split; [done|by apply Ha]].
  intros w0 s w Hc [(Hv & Hf & [Ha _]) Hb]. unfold read_aggressor. destruct (read_full_ends fuel (rs_aggressor_fd s) result_size [] w Hsize) as (rc & bytes & w1 & -> & Hk).
  pose proof (covered_kept _ _ _ _ Hc Hk) as Hc1. destruct (negb (rc =? 0)); [eexists false, s, w1; by conjs|].
  eexists true, _, _. split; [reflexivity|]. split; [|by conjs]. eapply covered_close; [exact Hc1|vars..].
Qed.

Lemma sweep_run_steps_triple : triple (fun s _ => nothing s) (run_steps result_size result_of_bytes fuel) (fun s _ => nothing s).
Proof.
  eapply triple_then; [apply sweep_start_victim_triple|]. eapply triple_then; [apply sweep_aggressor_triple|]. eapply triple_then; [apply sweep_continue_victim_triple|].
  eapply triple_then; [apply sweep_finish_victim_triple|]. eapply triple_then; [apply finish_aggressor_triple|]. eapply triple_then; [apply sweep_read_victim_triple|apply read_aggressor_triple].
Qed.

Lemma sweep_run_fail_kept w0 s w : covered w0 s w -> exists w', run_fail s w = Some w' /\ kept w0 w'.
Proof.
  intros Hc. unfold run_fail.
  apply (covered_end_worker w0 s (s <| rs_victim_pid := -1 |>) w (rs_victim_pid s)) in Hc as (w1 & -> & Hc); [|vars..]. set (s1 := s <| _ := _ |>) in Hc. cbn [mbind option_bind].
  apply (covered_end_worker w0 s1 (s1 <| rs_aggressor_pid := -1 |>) _ (rs_aggressor_pid s)) in Hc as (w2 & -> & Hc); [|vars..]. set (s2 := s1 <| _ := _ |>) in Hc. cbn [mbind option_bind]. eexists. split; [reflexivity|].
  eapply (covered_close_end w0 s2 (s2 <| rs_victim_fd := -1 |>) _ (rs_victim_fd s)) in Hc; [|vars..]. set (s3 := s2 <| _ := _ |>) in Hc.
  eapply (covered_close_end w0 s3 (s3 <| rs_aggressor_fd := -1 |>) _ (rs_aggressor_fd s)) in Hc; [|vars..]. eapply covered_done; [exact Hc|vars..].
Qed.

(** A level comes to an end whatever fails on the way, with the code 0 or -1, and
    holds what was held before it; on success there is an aggressor exactly when
    the condition has one. *)
Lemma run_condition_ends c w :
  exists rc out w', run_condition result_size result_of_bytes fuel c w = Some (rc, out, w') /\ (rc = 0 \/ rc = -1) /\ kept w w' /\
    has_aggressor out = negb (bool_decide (c = CONDITION_NONE)).
Proof.
  unfold run_condition. set (s0 := mk_run_state _ _ _ _ _).
  assert (Hc0 : covered w s0 w) by (apply covered_start; vars).
  destruct (sweep_run_steps_triple w s0 w Hc0) as (b & s & w1 & -> & Hc & Hbg & HQ); [done|]. cbn in Hbg. injection Hbg as Hbg. destruct b.
  - destruct (HQ eq_refl) as (P1 & P2 & P3 & P4). eexists 0, _, w1. split; [done|]. split; [by left|]. split; [|done]. eapply covered_done; [exact Hc|vars..].
  - destruct (sweep_run_fail_kept _ _ _ Hc) as (w2 & -> & Hk). eexists (-1), _, _. split; [done|]. split; [by right|]. by split.
Qed.
End Cleanup.

(** * The sweep ends and leaves nothing behind

    Every path through [main] of the sweep, with what is held on it. *)

Section Release.
Context {W : Type} {HO : OS W} {HF : Files W} {HK : Workers W} {WL : WorkerLaws W} {HB : BinFile W} {HM : Memory W} {ML : MachineLaws W}.
Context (result_size : Z) (result_of_bytes : list Z -> worker_result) (fuel : nat).
Hypothesis Hfuel : (0 < fuel)%nat.
Hypothesis Hsize : (Z.to_nat result_size < fuel)%nat.
Implicit Types w : W.

Lemma choose_base_kept vc ac space n q sd w : kept w (choose_base_class_sets vc ac space n q sd w).2.
Proof.
  unfold choose_base_class_sets. destruct (_ || _); [done|]. pose proof (machine_calloc space 8 w) as H. destruct (os_calloc _ 8 w) as [ok w']. cbn [snd] in H.
  destruct (negb ok); [done|]. by destruct (_ <? _).
Qed.

Lemma sweep_choose_classes_kept sw m ocs space cfg q w : kept w (choose_classes sw m ocs space cfg q w).2.
Proof.
  unfold choose_classes. set (g := group_classes cfg).
  pose proof (machine_calloc space 8 w) as H1. destruct (os_calloc space 8 w) as [ok1 w1]. cbn [snd] in H1.
  pose proof (transitivity H1 (machine_calloc space 8 w1)) as H2. destruct (os_calloc space 8 w1) as [ok2 w2]. cbn [snd] in H2.
  pose proof (transitivity H2 (machine_calloc g 8 w2)) as H3. destruct (os_calloc g 8 w2) as [ok3 w3]. cbn [snd] in H3.
  pose proof (transitivity H3 (machine_calloc g 8 w3)) as H4. destruct (os_calloc g 8 w3) as [ok4 w4]. cbn [snd] in H4.
  pose proof (transitivity H4 (machine_calloc g 8 w4)) as H5. destruct (os_calloc g 8 w4) as [ok5 w5]. cbn [snd] in H5.
  pose proof (transitivity H5 (machine_calloc space 8 w5)) as H6. destruct (os_calloc space 8 w5) as [ok6 w6]. cbn [snd] in H6.
  pose proof (transitivity H6 (machine_calloc space 8 w6)) as H7. destruct (os_calloc space 8 w6) as [ok7 w7]. cbn [snd] in H7.
  destruct (negb _); [done|]. case_match; [|done]. case_match; [|done]. etransitivity; [exact H7|apply choose_base_kept].
Qed.

Lemma select_victim_kept sw m ocs space v cfg lines q w : kept w (select_victim sw m ocs space v cfg lines q w).2.
Proof.
  unfold select_victim. pose proof (collect_kept (sw_victim_pool sw) m ocs space v (group_classes cfg) q (Z.lxor (seed cfg) 0x4444444444444444) (sw_victim_set sw) w) as H1.
  destruct (collect_line_set _ _ _ _ _ _ _ _ _ w) as [[rc set] w1]. cbn [snd] in H1. destruct (negb _); [done|]. destruct (build_histogram _ _ _); [|done]. destruct (negb _); [done|].
  pose proof (transitivity H1 (permutation_kept lines (Z.lxor (seed cfg) 0x7777777777777777) [] w1)) as H2. destruct (make_permutation _ _ _ w1) as [[rc2 perm] w2]. cbn [snd] in H2. destruct (negb _); [done|].
  pose proof (transitivity H2 (single_chain_kept set perm w2)) as H3. destruct (build_single_chain _ _ w2) as [root w3]. cbn [snd] in H3. by destruct (negb _).
Qed.

(** The pools of a sweep, and nothing else, are held since [w0]. *)
Definition pools_held (w0 : W) (sw : sweep) (w : W) : Prop :=
  holds w0 w (pool_region (sw_aggressor_pool sw) ∪ (pool_region (sw_victim_pool sw) ∪ ∅)) /\
  pool_region (sw_victim_pool sw) ## (others w0).1 /\ pool_region (sw_aggressor_pool sw) ## (others w0).1.

Lemma sweep_pools_held_kept w0 sw sw' w w' : pools_held w0 sw w -> kept w w' -> sw_victim_pool sw' = sw_victim_pool sw -> sw_aggressor_pool sw' = sw_aggressor_pool sw -> pools_held w0 sw' w'.
Proof. intros (H1 & H2 & H3) Hk Ev Ea. unfold pools_held. rewrite Ev, Ea. split; [by eapply holds_kept|done]. Qed.

Lemma sweep_create_pools_held cfg ps w0 w : kept w0 w -> let '(_, sw, w') := create_pools cfg ps sweep_zero w in pools_held w0 sw w'.
Proof.
  intros Hk. unfold create_pools. cbn [sw_victim_pool sw_aggressor_pool sweep_zero].
  pose proof (pool_create_holds "victim" (pool_mib cfg) ps (Z.lxor (seed cfg) 0x1111111111111111) w0 w ∅ (holds_kept _ _ _ _ (holds_start w0) Hk)) as H1.
  destruct (pool_create "victim" _ _ _ _ w) as [[rc v] w1]. destruct H1 as [H1 D1]. destruct (negb _).
  - unfold pools_held. cbn [sw_victim_pool sw_aggressor_pool]. unfold pool_region at 1 4. cbn [pool_base memory_pool_zero]. rewrite (left_id_L ∅ union). split; [done|]. split; [done|set_solver].
  - pose proof (pool_create_holds "aggressor" (pool_mib cfg) ps (Z.lxor (seed cfg) 0x2222222222222222) w0 w1 _ H1) as H2.
    destruct (pool_create "aggressor" _ _ _ _ w1) as [[rc2 a] w2]. by destruct H2.
Qed.

Lemma sweep_no_pools_held w0 w : kept w0 w -> pools_held w0 sweep_zero w.
Proof.
  intros Hk. unfold pools_held, pool_region. cbn. rewrite !(left_id_L ∅ union). split; [|split; set_solver]. eapply holds_kept; [apply holds_start|done].
Qed.

Lemma sweep_prepare_held cfg ps w : let '(_, sw, w') := prepare cfg ps sweep_zero w in pools_held w sw w'.
Proof.
  unfold prepare. set (c0 := mk_calibration_result _ _ _ _ _ _ _ _). pose proof (load_mapping_holds c0 dram_mapping_zero w) as H1. destruct (load_mapping _ _ w) as [[[rc c] m] w1]. cbn [snd] in H1.
  destruct (negb _); [by apply sweep_no_pools_held|]. destruct (class_space_from_mapping _) as [space|]; [|by apply sweep_no_pools_held].
  pose proof (transitivity H1 (offset_classes_kept (Some (default dram_mapping_zero m)) ps w1)) as H2. destruct (build_offset_classes _ _ w1) as [[ocs|] w2]; cbn [snd] in H2; [|by apply sweep_no_pools_held].
  destruct (workset_plan _ _) as [[lines quota]|]; [|by apply sweep_no_pools_held]. unfold prepare_victim.
  pose proof (sweep_create_pools_held cfg ps w w2 H2) as H3. destruct (create_pools _ _ _ w2) as [[ok sw] w3]. destruct (negb ok); [done|].
  set (m' := default dram_mapping_zero m). pose proof (sweep_choose_classes_kept sw m' ocs space cfg quota w3) as H4. destruct (choose_classes _ _ _ _ _ _ w3) as [[[v d]|] w4]; cbn [snd] in H4; [|by eapply sweep_pools_held_kept].
  pose proof (transitivity H4 (select_victim_kept sw m' ocs space v cfg lines quota w4)) as H5. destruct (select_victim _ _ _ _ _ _ _ _ w4) as [[[[hist perm]|] set] w5]; cbn [snd] in H5; by eapply sweep_pools_held_kept.
Qed.

Lemma select_level_kept cfg pl pool c aset w : kept w (select_level cfg pl pool c aset w).2.
Proof.
  unfold select_level. destruct (condition_shared_classes _ _) as [s|]; [|done]. destruct (build_overlap_classes _ _ _ _) as [cls|]; [|done].
  pose proof (collect_kept pool (pl_mapping pl) (pl_offset_classes pl) (pl_class_space pl) cls (group_classes cfg) (pl_quota_lines pl) (Z.lxor (seed cfg) 0x5555555555555555) (line_set_destroy aset) w) as H1.
  destruct (collect_line_set _ _ _ _ _ _ _ _ _ w) as [[rc set] w1]. cbn [snd] in H1. destruct (negb _); [done|]. destruct (build_histogram _ _ _) as [hist|]; [|done]. destruct (negb _); [done|].
  destruct (histogram_jaccard _ _ _) as [[j i] u]. destruct (_ || _); [done|].
  pose proof (transitivity H1 (multi_chain_kept set (pl_permutation pl) AGGRESSOR_STREAMS w1)) as H2. destruct (build_multi_chain _ _ _ w1) as [roots w2]. cbn [snd] in H2. by destruct (negb _).
Qed.

Lemma measure_condition_ends cfg pl pool c aset ms w : exists r set w', measure_condition result_size result_of_bytes fuel cfg pl pool c aset ms w = Some (r, set, w') /\ kept w w'.
Proof.
  unfold measure_condition. set (sel := if bool_decide (c = CONDITION_NONE) then _ else _).
  assert (Hsel : kept w sel.2).
  { unfold sel. destruct (bool_decide _); [done|]. pose proof (select_level_kept cfg pl pool c aset w) as H. by destruct (select_level _ _ _ _ _ w) as [[l set] w']. }
  destruct sel as [[[ms'|] set] w1]; cbn [snd] in Hsel; [|by eexists _, _, _].
  destruct (run_condition_ends result_size result_of_bytes fuel Hfuel Hsize c w1) as (rc & out & w2 & -> & _ & Hk & _). assert (Hk2 : kept w w2) by (by etransitivity).
  destruct (negb _); eexists _, _, _; (split; [reflexivity|exact Hk2]).
Qed.

Lemma sweep_conditions_loop_ends cfg pl pool order : forall aset ms w, exists r set w', conditions_loop result_size result_of_bytes fuel order cfg pl pool aset ms w = Some (r, set, w') /\ kept w w'.
Proof.
  induction order as [|c order IH]; intros aset ms w; [by eexists _, _, _|]. cbn [conditions_loop].
  destruct (measure_condition_ends cfg pl pool c aset ms w) as ([[ms1 r1]|] & set1 & w1 & -> & H1); [|by eexists _, _, _].
  destruct (IH set1 ms1 w1) as ([[ms2 rs]|] & set2 & w2 & -> & H2); eexists _, _, _; (split; [reflexivity|by etransitivity]).
Qed.

Lemma sweep_verify_pools_kept sw w : kept w (verify_pools sw w).2.
Proof.
  unfold verify_pools. pose proof (verify_pool_kept (sw_victim_pool sw) w) as H1. destruct (verify_pool_pfns _ w) as [[[vm vu]|] w1]; cbn [snd] in H1; [|done].
  pose proof (transitivity H1 (verify_pool_kept (sw_aggressor_pool sw) w1)) as H2. by destruct (verify_pool_pfns _ w1) as [[[am au]|] w2].
Qed.

Lemma sweep_perform_ends cfg ps w : exists r sw w', perform result_size result_of_bytes fuel cfg ps w = Some (r, sw, w') /\ pools_held w sw w'.
Proof.
  unfold perform. pose proof (sweep_prepare_held cfg ps w) as H1. destruct (prepare _ _ _ w) as [[[pl|] sw] w1]; [|by eexists _, _, _]. unfold measure_levels.
  destruct (sweep_conditions_loop_ends cfg pl (sw_aggressor_pool sw) (order cfg) (sw_aggressor_set sw) measured_zero w1) as ([[ms rows]|] & set & w2 & -> & H2).
  - set (sw2 := mk_sweep _ _ _ _). pose proof (transitivity H2 (sweep_verify_pools_kept sw2 w2)) as H3. destruct (verify_pools sw2 w2) as [ok w3]. cbn [snd] in H3.
    eexists _, _, _. split; [reflexivity|]. by eapply sweep_pools_held_kept.
  - eexists _, _, _. split; [reflexivity|]. by eapply sweep_pools_held_kept.
Qed.

Lemma sweep_release_kept w0 sw w : pools_held w0 sw w -> kept w0 (release sw w).2.
Proof.
  intros (Hh & Dv & Da). unfold release. pose proof (pool_destroy_holds w0 w _ _ Hh Dv) as H1. destruct (pool_destroy (sw_victim_pool sw) w) as [v w1]. cbn [snd] in H1.
  pose proof (pool_destroy_holds w0 w1 _ _ H1 Da) as H2. destruct (pool_destroy (sw_aggressor_pool sw) w1) as [a w2]. cbn [snd] in *. apply holds_nothing.
  assert (E : (pool_region (sw_aggressor_pool sw) ∪ (pool_region (sw_victim_pool sw) ∪ ∅)) ∖ pool_region (sw_victim_pool sw) ∖ pool_region (sw_aggressor_pool sw) = ∅) by set_solver.
  by rewrite E in H2.
Qed.

(** ** What it takes to succeed

    The steps of a run, each of which answers that it succeeded; none of them is
    stated by what [main] makes of the answers. *)

Inductive both_pools_made (cfg : config) (sz : Z) w : memory_pool -> memory_pool -> W -> Prop :=
| both_pools v w1 a w2 :
    pool_create "victim" (pool_mib cfg) sz (Z.lxor (seed cfg) 0x1111111111111111) memory_pool_zero w = (0, v, w1) ->
    pool_create "aggressor" (pool_mib cfg) sz (Z.lxor (seed cfg) 0x2222222222222222) memory_pool_zero w1 = (0, a, w2) ->
    both_pools_made cfg sz w v a w2.

(** The victim's lines, which lie in as many classes as the configuration asks
    for, their histogram, the permutation and the chain. *)
Inductive victim_chosen (pool : memory_pool) (m : dram_mapping) (ocs : list Z) (space : Z) (classes : list Z) (cfg : config) (lines quota : Z) w
  : line_set -> list Z -> list Z -> W -> Prop :=
| victim_steps set w1 hist perm w2 root w3 :
    collect_line_set pool m ocs space classes (group_classes cfg) quota (Z.lxor (seed cfg) 0x4444444444444444) line_set_zero w = (0, set, w1) ->
    build_histogram set m space = Some hist -> histogram_unique_classes hist space = group_classes cfg ->
    make_permutation lines (Z.lxor (seed cfg) 0x7777777777777777) [] w1 = (0, perm, w2) ->
    build_single_chain set perm w2 = (Some root, w3) ->
    victim_chosen pool m ocs space classes cfg lines quota w set hist perm w3.

(** The aggressor's lines of a level, measured to share with the victim what the
    level asks for, and their chains. *)
Inductive level_chosen (cfg : config) (pl : plan) (pool : memory_pool) (c : condition) (aset : line_set) w : line_set -> W -> Prop :=
| level_steps shared classes set w1 hist jaccard roots w2 :
    condition_shared_classes c (group_classes cfg) = Some shared ->
    build_overlap_classes (pl_victim_classes pl) (pl_disjoint_classes pl) (group_classes cfg) shared = Some classes ->
    collect_line_set pool (pl_mapping pl) (pl_offset_classes pl) (pl_class_space pl) classes (group_classes cfg) (pl_quota_lines pl)
      (Z.lxor (seed cfg) 0x5555555555555555) (line_set_destroy aset) w = (0, set, w1) ->
    build_histogram set (pl_mapping pl) (pl_class_space pl) = Some hist ->
    histogram_unique_classes hist (pl_class_space pl) = group_classes cfg ->
    histogram_shared_classes (pl_victim_hist pl) hist (pl_class_space pl) = shared ->
    histogram_jaccard (pl_victim_hist pl) hist (pl_class_space pl) =
      (jaccard, u64_mul shared (pl_quota_lines pl), u64_mul (u64_sub (u64_mul (group_classes cfg) 2) shared) (pl_quota_lines pl)) ->
    build_multi_chain set (pl_permutation pl) AGGRESSOR_STREAMS w1 = (Some roots, w2) ->
    level_chosen cfg pl pool c aset w set w2.

(** Each condition of the order is run, after the lines of its level are chosen
    when it has an aggressor. *)
Inductive levels_run (cfg : config) (pl : plan) (pool : memory_pool) : list condition -> line_set -> W -> W -> Prop :=
| levels_end aset w : levels_run cfg pl pool [] aset w w
| levels_alone cs aset r w w1 w2 :
    run_condition result_size result_of_bytes fuel CONDITION_NONE w = Some (0, r, w1) -> levels_run cfg pl pool cs aset w1 w2 ->
    levels_run cfg pl pool (CONDITION_NONE :: cs) aset w w2
| levels_next c cs aset set r w w1 w2 w3 :
    c <> CONDITION_NONE -> level_chosen cfg pl pool c aset w set w1 ->
    run_condition result_size result_of_bytes fuel c w1 = Some (0, r, w2) -> levels_run cfg pl pool cs set w2 w3 ->
    levels_run cfg pl pool (c :: cs) aset w w3.

(** All steps from the mapping to the page frames. *)
Inductive sweep_succeeds (cfg : config) (sz : Z) w : Prop :=
| every_level calibration m w1 space ocs w2 lines quota v a w3 vc dc w4 set hist perm w5 w6 w7 w8 :
    load_mapping (mk_calibration_result false false (replicate 32 0) 0 "" calibration_metrics_zero 0 "") dram_mapping_zero w = (0, calibration, Some m, w1) ->
    class_space_from_mapping (Some m) = Some space ->
    build_offset_classes (Some m) sz w1 = (Some ocs, w2) ->
    workset_plan (workset_mib cfg) (group_classes cfg) = Some (lines, quota) ->
    both_pools_made cfg sz w2 v a w3 ->
    choose_classes (mk_sweep v a line_set_zero line_set_zero) m ocs space cfg quota w3 = (Some (vc, dc), w4) ->
    victim_chosen v m ocs space vc cfg lines quota w4 set hist perm w5 ->
    levels_run cfg (mk_plan m ocs space lines quota vc dc hist perm) a (order cfg) line_set_zero w5 w6 ->
    frames_unmoved v w6 w7 -> frames_unmoved a w7 w8 ->
    sweep_succeeds cfg sz w.

Lemma both_pools_are_made cfg sz w v a sv sa w' :
  create_pools cfg sz (mk_sweep memory_pool_zero memory_pool_zero sv sa) w = (true, mk_sweep v a sv sa, w') <-> both_pools_made cfg sz w v a w'.
Proof.
  unfold create_pools. cbn [sw_victim_pool sw_aggressor_pool sw_victim_set sw_aggressor_set]. split.
  - destruct (pool_create "victim" _ _ _ _ w) as [[rc1 v'] w1] eqn:E1. destruct (Z.eqb_spec rc1 0) as [->|]; cbn [negb]; [|done].
    destruct (pool_create "aggressor" _ _ _ _ w1) as [[rc2 a'] w2] eqn:E2. intros E. injection E as Hrc <- <- <-. apply Z.eqb_eq in Hrc as ->. by econstructor.
  - intros [v' w1 a' w2 -> E2]. cbn [Z.eqb negb]. by rewrite E2.
Qed.

Lemma victim_is_chosen v a aset m ocs space classes cfg lines quota w set hist perm w' :
  select_victim (mk_sweep v a line_set_zero aset) m ocs space classes cfg lines quota w = (Some (hist, perm), set, w') <->
  victim_chosen v m ocs space classes cfg lines quota w set hist perm w'.
Proof.
  unfold select_victim. cbn [sw_victim_pool sw_victim_set]. split.
  - destruct (collect_line_set _ _ _ _ _ _ _ _ _ w) as [[rc s] w1] eqn:E1. destruct (Z.eqb_spec rc 0) as [->|]; cbn [negb]; [|done].
    destruct (build_histogram _ _ _) as [h|] eqn:E2; [|done]. destruct (Z.eqb_spec (histogram_unique_classes h space) (group_classes cfg)) as [E3|]; cbn [negb]; [|done].
    destruct (make_permutation _ _ _ w1) as [[rc p] w2] eqn:E4. destruct (Z.eqb_spec rc 0) as [->|]; cbn [negb]; [|done].
    destruct (build_single_chain _ _ w2) as [[root|] w3] eqn:E5; [|done]. rewrite bool_decide_eq_true_2 by done. cbn [negb]. intros E. injection E as <- <- <- <-. by econstructor.
  - intros [s w1 h p w2 root w3 -> -> E3 E4 E5]. cbn [Z.eqb negb]. rewrite (proj2 (Z.eqb_eq _ _) E3). cbn [negb]. rewrite E4. cbn [Z.eqb negb]. by rewrite E5, bool_decide_eq_true_2 by done.
Qed.

Lemma level_is_chosen cfg pl pool c aset w set w' : (exists l, select_level cfg pl pool c aset w = (Some l, set, w')) <-> level_chosen cfg pl pool c aset w set w'.
Proof.
  unfold select_level. split.
  - intros [l E]. revert E. destruct (condition_shared_classes _ _) as [shared|] eqn:E1; [|done]. destruct (build_overlap_classes _ _ _ _) as [classes|] eqn:E2; [|done].
    destruct (collect_line_set _ _ _ _ _ _ _ _ _ w) as [[rc s] w1] eqn:E3. destruct (Z.eqb_spec rc 0) as [->|]; cbn [negb]; [|done].
    destruct (build_histogram _ _ _) as [h|] eqn:E4; [|done]. destruct (Z.eqb_spec (histogram_unique_classes h (pl_class_space pl)) (group_classes cfg)) as [E5|]; cbn [negb]; [|done].
    destruct (histogram_jaccard _ _ _) as [[j i] u] eqn:E6. destruct (_ || _) eqn:Eb; [done|]. apply orb_false_iff in Eb as [[E7 E8]%orb_false_iff E9]. apply negb_false_iff, Z.eqb_eq in E7, E8, E9. subst i u.
    destruct (build_multi_chain _ _ _ w1) as [[roots|] w2] eqn:E10; [|done]. rewrite bool_decide_eq_true_2 by done. cbn [negb]. intros E. injection E as _ <- <-. by econstructor.
  - intros [shared classes s w1 h j roots w2 -> -> -> -> E5 E6 E7 E8]. cbn [Z.eqb negb]. rewrite (proj2 (Z.eqb_eq _ _) E5). cbn [negb]. rewrite E7, E6, !Z.eqb_refl. cbn [negb orb].
    rewrite E8, bool_decide_eq_true_2 by done. by eexists.
Qed.

Lemma levels_are_run cfg pl pool cs : forall aset ms w w',
  (exists x set, conditions_loop result_size result_of_bytes fuel cs cfg pl pool aset ms w = Some (Some x, set, w')) <-> levels_run cfg pl pool cs aset w w'.
Proof.
  induction cs as [|c cs IH]; intros aset ms w w'; cbn [conditions_loop].
  - split; [intros (x & set & E); injection E as _ _ <-; constructor|intros H; inversion H; subst; by eexists _, _].
  - unfold measure_condition. destruct (bool_decide_reflect (c = CONDITION_NONE)) as [->|Hc].
    + split.
      * intros (x & set & E). revert E. destruct (run_condition _ _ _ _ w) as [[[rc r] w1]|] eqn:E1; [|done]. destruct (Z.eqb_spec rc 0) as [->|]; cbn [negb]; [|done]. set (ms1 := mk_measured _ _ _).
        destruct (conditions_loop _ _ _ cs _ _ _ _ ms1 w1) as [[[[[ms2 rs]|] s] w2]|] eqn:E2; [|done..]. intros E. injection E as _ _ <-.
        eapply levels_alone; [exact E1|]. apply (IH aset ms1). by eexists _, _.
      * intros H. inversion H as [|? ? r ? w1 ? E1 Hr|]; subst; [|done]. rewrite E1. cbn [Z.eqb negb]. set (ms1 := mk_measured _ _ _). destruct (proj2 (IH aset ms1 _ _) Hr) as ([ms2 rs] & s & Es). rewrite Es. by eexists _, _.
    + split.
      * intros (x & set & E). revert E. destruct (select_level _ _ _ _ _ w) as [[[l|] s] w1] eqn:E0; cbn [fmap option_fmap option_map]; [|done].
        destruct (run_condition _ _ _ _ w1) as [[[rc r] w2]|] eqn:E1; [|done]. destruct (Z.eqb_spec rc 0) as [->|]; cbn [negb]; [|done]. set (ms1 := mk_measured _ _ _).
        destruct (conditions_loop _ _ _ cs _ _ _ _ ms1 w2) as [[[[[ms2 rs]|] s2] w3]|] eqn:E2; [|done..]. intros E. injection E as _ _ <-.
        eapply levels_next; [done|apply level_is_chosen; by eexists|exact E1|]. apply (IH s ms1). by eexists _, _.
      * intros H. inversion H as [|? ? ? ? ? ? ? E|? ? ? s r ? w1 w2 ? _ Hl E1 Hr]; subst; [done|]. apply level_is_chosen in Hl as [l ->]. cbn [fmap option_fmap option_map]. rewrite E1. cbn [Z.eqb negb].
        set (ms1 := mk_measured _ _ _). destruct (proj2 (IH s ms1 _ _) Hr) as ([ms2 rs] & s2 & Es). rewrite Es. by eexists _, _.
Qed.

Lemma sweep_frames_unmoved v a sv sa w w' : countable v -> countable a ->
  verify_pools (mk_sweep v a sv sa) w = (true, w') <-> exists w1, frames_unmoved v w w1 /\ frames_unmoved a w1 w'.
Proof.
  intros Cv Ca. unfold verify_pools. cbn [sw_victim_pool sw_aggressor_pool]. split.
  - destruct (verify_pool_pfns v w) as [[[vm vu]|] w1] eqn:E1; [|done]. destruct (verify_pool_pfns a w1) as [[[am au]|] w2] eqn:E2; [|done].
    intros E. injection E as Hb <-. apply negb_true_iff in Hb. bool_hyps. assert (vm = 0 /\ vu = 0 /\ am = 0 /\ au = 0) as (-> & -> & -> & ->) by lia.
    exists w1. split; by apply verify_unmoved.
  - intros (w1 & H1%verify_unmoved & H2%verify_unmoved); try done. by rewrite H1, H2.
Qed.

Lemma both_pools_countable cfg sz w v a w' : 0 < sz -> both_pools_made cfg sz w v a w' -> countable v /\ countable a.
Proof. intros Hs [v' w1 a' w2 E1 E2]. split; by eapply pool_create_countable. Qed.

Lemma sweep_perform_succeeds cfg sz w : 0 < sz -> (exists r sw w', perform result_size result_of_bytes fuel cfg sz w = Some (Some r, sw, w')) <-> sweep_succeeds cfg sz w.
Proof.
  intros Hsz. unfold perform, prepare, prepare_victim, measure_levels. split.
  - intros (r & sw & w' & E). revert E. destruct (load_mapping _ _ w) as [[[rc c] m] w1] eqn:E1. destruct (Z.eqb_spec rc 0) as [->|]; cbn [negb]; [|done].
    destruct (load_mapping_ok _ _ _ _ _ _ E1) as (m' & -> & _). cbn [default from_option id].
    destruct (class_space_from_mapping _) as [space|] eqn:E2; [|done]. destruct (build_offset_classes _ _ w1) as [[ocs|] w2] eqn:E3; [|done].
    destruct (workset_plan _ _) as [[lines quota]|] eqn:E4; [|done].
    assert (Hset : forall ok sw' w'', create_pools cfg sz sweep_zero w2 = (ok, sw', w'') -> sw' = mk_sweep (sw_victim_pool sw') (sw_aggressor_pool sw') line_set_zero line_set_zero).
    { unfold create_pools. intros ok sw' w''. do 2 (repeat case_match; try (intros E; injection E as _ <- _; reflexivity)). }
    destruct (create_pools _ _ _ w2) as [[[|] sw1] w3] eqn:E5; cbn [negb]; [|done]. rewrite (Hset _ _ _ eq_refl) in E5 |- *. clear Hset. apply both_pools_are_made in E5.
    cbn [sw_victim_pool sw_aggressor_pool sw_victim_set sw_aggressor_set]. set (v := sw_victim_pool sw1) in *. set (a := sw_aggressor_pool sw1) in *. clearbody v a.
    destruct (choose_classes _ _ _ _ _ _ w3) as [[[vc dc]|] w4] eqn:E6; [|done]. destruct (select_victim _ _ _ _ _ _ _ _ w4) as [[[[hist perm]|] set] w5] eqn:E7; [|done]. apply victim_is_chosen in E7.
    cbn [sw_victim_pool sw_aggressor_pool sw_victim_set sw_aggressor_set]. destruct (conditions_loop _ _ _ _ _ _ _ _ _ w5) as [[[[[ms rs]|] aset] w6]|] eqn:E8; [|done..].
    destruct (verify_pools _ w6) as [[|] w7] eqn:E9; [|done]. intros _. destruct (both_pools_countable _ _ _ _ _ _ Hsz E5) as [C1 C2].
    apply sweep_frames_unmoved in E9 as (w8 & F1 & F2); [|done..]. eapply every_level; try done. apply (levels_are_run cfg _ a (order cfg) line_set_zero measured_zero). by eexists _, _.
  - intros [c m w1 space ocs w2 lines quota v a w3 vc dc w4 set hist perm w5 w6 w7 w8 E1 E2 E3 E4 E5 E6 E7 E8 F1 F2].
    destruct (both_pools_countable _ _ _ _ _ _ Hsz E5) as [C1 C2]. rewrite E1. cbn [Z.eqb negb default from_option id]. rewrite E2, E3, E4.
    apply (both_pools_are_made _ _ _ _ _ line_set_zero line_set_zero) in E5. unfold sweep_zero. rewrite E5. cbn [negb]. rewrite E6.
    apply (victim_is_chosen _ a line_set_zero) in E7. rewrite E7. cbn [sw_victim_pool sw_aggressor_pool sw_victim_set sw_aggressor_set].
    apply (levels_are_run cfg _ a (order cfg) line_set_zero measured_zero) in E8 as ([ms rs] & aset & ->). cbn [sw_victim_pool sw_aggressor_pool sw_victim_set sw_aggressor_set].
    assert (Ev : verify_pools (mk_sweep v a set aset) w6 = (true, w8)) by (apply sweep_frames_unmoved; [done..|by exists w7]). rewrite Ev. by eexists _, _, _.
Qed.

(** The arguments were accepted, the group can be quartered, and every step
    succeeded. *)
Definition sweep_run_succeeds (args : list string) w : Prop :=
  exists cfg sz w1, parse_args args (Some config_zero) = ArgsOk cfg /\ group_classes cfg mod 4 = 0 /\ os_pagesize w = (sz, w1) /\ 0 < sz /\ sweep_succeeds cfg sz w1.

Lemma sweep_succeeds_from args cfg w sz w1 : parse_args args (Some config_zero) = ArgsOk cfg -> os_pagesize w = (sz, w1) ->
  sweep_run_succeeds args w <-> group_classes cfg mod 4 = 0 /\ 0 < sz /\ sweep_succeeds cfg sz w1.
Proof.
  intros Ea Ep. unfold sweep_run_succeeds. rewrite Ea, Ep. split; [|intros (? & Hx); by exists cfg, sz, w1].
  intros (cfg' & sz' & w1' & E1 & H & E2 & Hx). injection E1 as <-. injection E2 as <- <-. by split.
Qed.

(** C11: the sweep ends and leaves nothing behind. Whatever its arguments and
    whatever the calls answer, [main] returns, with no child left to wait for, and
    with the same descriptors and streams open and the same memory mapped as
    before. A child is only waited for when it will end, since on any other
    [waitpid] may block for ever: it was let run after its stop, or it was killed.
    The exit code is success exactly when help was asked for, or the arguments were
    accepted, the group of classes can be quartered and every step succeeded: the
    mapping and the classes, the two pools and the choice of classes, the victim's
    lines and chain, for each condition of the order the aggressor's lines, measured
    to share with the victim what the level asks for, and the run, and in the end
    every page of both pools still has the frame it had. The fuel needs only to
    exceed the bytes of a worker's result. *)
Theorem sweep_main_releases args w : exists code r w', main result_size result_of_bytes fuel args w = Some (code, r, w') /\ kept w w' /\
  (code = EXIT_SUCCESS <-> parse_args args (Some config_zero) = ArgsHelp \/ sweep_run_succeeds args w).
Proof.
  unfold main. destruct (parse_args args (Some config_zero)) as [cfg| |] eqn:Ea.
  2-3: eexists _, _, _; (split; [reflexivity|]); (split; [done|]); split; [tauto || done|]; intros [?|(? & ? & ? & ? & _)]; congruence.
  pose proof (machine_pagesize w) as H1. destruct (os_pagesize w) as [sz w1] eqn:Ep. cbn [snd] in H1. pose proof (sweep_succeeds_from _ _ _ _ _ Ea Ep) as Hiff.
  destruct (Z.eqb_spec (group_classes cfg mod 4) 0) as [Hq|Hq]; cbn [negb].
  2: { eexists _, _, _. split; [reflexivity|]. split; [done|]. split; [done|]. by intros [?|[? _]%Hiff]. }
  destruct (Z.leb_spec sz 0) as [Hle|Hpos].
  { eexists _, _, _. split; [reflexivity|]. split; [done|]. split; [done|]. intros [?|(_ & ? & _)%Hiff]; [done|lia]. }
  pose proof (sweep_perform_succeeds cfg sz w1 Hpos) as Hs. destruct (sweep_perform_ends cfg sz w1) as (r & sw & w2 & E & Hh). rewrite E in Hs |- *.
  pose proof (transitivity H1 (sweep_release_kept _ _ _ Hh)) as H2. destruct (release sw w2) as [sw' w3]. cbn [snd] in H2.
  eexists _, _, _. split; [reflexivity|]. split; [exact H2|]. rewrite Hiff, <- Hs. destruct r as [r|]; cbn; [split; [intros _; right; split; [done|]; split; [done|by eexists _, _, _]|done]|].
  split; [done|]. by intros [?|(_ & _ & ? & ? & ? & ?)].
Qed.
End Release.
