(* ===== verification/OverlapProps.v ===== *)
(** * The sweep as a whole

    The configuration that is accepted, the plan the first part of [main] leaves
    whatever the operating system does, and the properties of the sweep: its levels
    are exact, a class has the same lines at every level that has the class, and
    what is reported was measured. *)
From S2P Require Import Prelude Float64 CString Scan Strto Os Calibration CalibrationLoad DramMapping OracleSys OracleConfig OraclePool OracleLines OracleClasses OracleSelect OracleStages OracleAccept.
From S2P Require Import OracleChain OracleIo OracleMain OracleStepProps OracleMainProps OverlapConfig OverlapSweep OverlapLevels OverlapRelease.
From Stdlib Require Import Ascii String.
Local Open Scope Z_scope.

(** ** Configurations that are accepted *)

Definition all_conditions : list condition :=
  [CONDITION_NONE; CONDITION_OVERLAP_0; CONDITION_OVERLAP_25; CONDITION_OVERLAP_50; CONDITION_OVERLAP_75; CONDITION_OVERLAP_100].

Record config_ok (c : config) : Prop := {
  co_sizes : 0 < pool_mib c /\ 0 < workset_mib c /\ 0 < group_classes c /\ 0 < seconds c;
  co_widths : in_u64 (pool_mib c) /\ in_u64 (workset_mib c) /\ in_u64 (group_classes c) /\ seconds c <= UINT_MAX;
  co_order : order c ≡ₚ all_conditions
}.

Lemma sweep_parse_order_ok text order o : List.length order = 6%nat -> parse_order text order = (0, o) -> o ≡ₚ all_conditions.
Proof.
  apply (parse_order_of_ok 128 6 condition_from_name condition_index); [|intros c; destruct c; cbn; lia|].
  - intros c c'. by destruct c, c'.
  - split; [done|]. intros c. destruct c; set_solver.
Qed.

Lemma option_effect_ok name value c c' : config_ok c -> option_effect name value c = Some (Some c') -> config_ok c'.
Proof.
  intros [(H1 & H2 & H3 & H4) (W1 & W2 & W3 & W4) Ho]. unfold option_effect.
  repeat match goal with |- (if ?b then _ else _) = _ -> _ => destruct b end; intros HS; try discriminate HS; apply (inj Some) in HS;
    try (apply fmap_Some in HS as (v & Hv & ->)).
  all: try (apply nonzero_some in Hv as [Hv Hnz]); try (apply (parse_size_range (Some value)) in Hv); try (apply (parse_uint_range (Some value)) in Hv);
    try (split; cbn; unfold in_u64 in *; try done; lia).
  revert HS. destruct (parse_order (Some value) (order c)) as [rc o] eqn:E. destruct (Z.eqb_spec rc 0) as [->|]; [|discriminate]. intros [= <-].
  apply sweep_parse_order_ok in E; [|by rewrite Ho]. by split.
Qed.

Lemma parse_args_ok args c cfg : parse_args args (Some c) = ArgsOk cfg -> config_ok cfg.
Proof.
  unfold parse_args. cbn [config_default]. apply (parse_args_loop_keeps _ config_ok option_effect_ok). destruct (existsb _ args); split; cbn; unfold in_u64, UINT_MAX; try done; lia.
Qed.

(** ** The plan *)

Section Plan.
Context {W : Type} {HO : OS W} {HB : BinFile W} {HM : Memory W} {ML : MemoryLaws W}.
Implicit Types w : W.

(** What is established before the first level, for pages of [2 ^ k] bytes. *)
Record prepared (k : Z) (cfg : config) (pl : plan) (sw : sweep) (m : dram_mapping) (bv ba quota : Z) : Prop := {
  pr_mapping : wf_mapping m /\ 0 < mask_count m <= 20;
  pr_lines : pl_workset_lines pl = group_classes cfg * quota /\ pl_workset_lines pl * 64 = workset_mib cfg * 1048576;
  pr_quota : 0 < quota < 18446744073709551616;
  pr_group : 0 < group_classes cfg < 6148914691236517205;
  pr_victim : pool_created (sw_victim_pool sw) "victim" (pool_mib cfg) bv k;
  pr_aggressor : pool_created (sw_aggressor_pool sw) "aggressor" (pool_mib cfg) ba k;
  pr_plan : plan_ok m k (sw_victim_pool sw) (sw_aggressor_pool sw) cfg quota pl;
  pr_victim_lines : exists L, selection m (sw_victim_pool sw) bv k (pl_victim_classes pl) quota (sw_victim_set sw) L
}.

Lemma sweep_create_pools_ok cfg k sw w sw' w' : in_u64 (pool_mib cfg) -> 6 <= k < 64 -> pool_base (sw_victim_pool sw) = None -> pool_base (sw_aggressor_pool sw) = None ->
  create_pools cfg (2 ^ k) sw w = (true, sw', w') ->
  exists bv ba, pool_created (sw_victim_pool sw') "victim" (pool_mib cfg) bv k /\ pool_created (sw_aggressor_pool sw') "aggressor" (pool_mib cfg) ba k.
Proof.
  intros Hmib Hk Hv0 Ha0. unfold create_pools. assert (Hm' : 0 <= pool_mib cfg < 18446744073709551616) by (unfold in_u64 in Hmib; lia).
  destruct (pool_create "victim" _ _ _ _ w) as [[rc1 v] w1] eqn:E1. destruct (Z.eqb_spec rc1 0) as [->|]; cbn [negb]; [|done].
  destruct (pool_create "aggressor" _ _ _ _ w1) as [[rc2 a] w2] eqn:E2. intros Hr. injection Hr as Hrc <- _. apply Z.eqb_eq in Hrc as ->.
  apply pool_create_spec in E1 as [[_ [bv Pv]]|[? _]]; try done. apply pool_create_spec in E2 as [[_ [ba Pa]]|[? _]]; try done. by exists bv, ba.
Qed.

Section Mapping.
Context (m : dram_mapping) (k : Z) (cfg : config) (quota lines : Z).
Hypothesis Hm : wf_mapping m.
Hypothesis Hspace : mask_count m <= 20.
Hypothesis Hk : 6 <= k < 64.
Hypothesis Hmib : in_u64 (pool_mib cfg).
Hypothesis Hgroup : 0 < group_classes cfg < 6148914691236517205.
Hypothesis Hquota : 0 < quota < 18446744073709551616.
Hypothesis Henough : 16 <= group_classes cfg * quota.

Lemma prepare_victim_ok sw w pl sw' w' : pool_base (sw_victim_pool sw) = None -> pool_base (sw_aggressor_pool sw) = None ->
  prepare_victim m (offset_classes m k) (2 ^ mask_count m) cfg (2 ^ k) lines quota sw w = (Some pl, sw', w') ->
  exists bv ba, pool_created (sw_victim_pool sw') "victim" (pool_mib cfg) bv k /\ pool_created (sw_aggressor_pool sw') "aggressor" (pool_mib cfg) ba k /\
    plan_ok m k (sw_victim_pool sw') (sw_aggressor_pool sw') cfg quota pl /\ pl_workset_lines pl = lines /\
    exists L, selection m (sw_victim_pool sw') bv k (pl_victim_classes pl) quota (sw_victim_set sw') L.
Proof.
  intros Hv0 Ha0. unfold prepare_victim. destruct (create_pools _ _ _ w) as [[ok sw1] w1] eqn:Ec. destruct ok; cbn [negb]; [|done].
  destruct (sweep_create_pools_ok cfg k sw w sw1 w1 Hmib Hk Hv0 Ha0 Ec) as (bv & ba & Pv & Pa).
  pose proof (sweep_choose_classes_spec m k bv ba _ _ cfg quota Hm (pcr_ok _ _ _ _ _ Pv) (pcr_ok _ _ _ _ _ Pa) Hgroup Hquota sw1 w1 eq_refl eq_refl) as Hch.
  destruct (choose_classes _ _ _ _ _ _ w1) as [[[v d]|] w2]; cbn [fst] in Hch; [|done].
  unfold select_victim. pose proof Hch as [Hnd Hv Hd Hcs]. apply NoDup_app in Hnd as (Hndv & _ & _). apply Forall_app in Hcs as [Hcv _].
  assert (Hrange : Forall (fun c => 0 <= c < 2 ^ mask_count m) v) by (eapply Forall_impl; [exact Hcv|]; by intros c [? _]).
  pose proof (collect_line_set_spec m _ bv k Hm (pcr_ok _ _ _ _ _ Pv) Hspace v quota (Z.lxor (seed cfg) 0x4444444444444444) (sw_victim_set sw1) w2) as Hspec. rewrite Hv in Hspec.
  destruct (collect_line_set _ _ _ _ _ _ _ _ _ w2) as [[rc set] w3]. destruct Hspec as [[-> [L HL]]|[-> _]]; try done.
  { intros ->. cbn in Hv. lia. }
  cbn [Z.eqb negb]. rewrite (build_histogram_selection m _ bv k Hm (pcr_ok _ _ _ _ _ Pv) _ _ _ _ HL).
  destruct (negb (_ =? group_classes cfg)); [done|]. destruct (make_permutation _ _ _ w3) as [[rc' perm] w4]. destruct (negb _); [done|].
  destruct (build_single_chain _ _ w4) as [root w5]. destruct (negb _); [done|]. intros Hr. injection Hr as <- <- _. exists bv, ba.
  cbn [sw_victim_pool sw_aggressor_pool sw_victim_set pl_victim_classes pl_workset_lines]. conjs; [done|done| |done|by exists L]. by split.
Qed.
End Mapping.

Lemma prepare_ok cfg k w pl sw w' : config_ok cfg -> 6 <= k < 64 -> prepare cfg (2 ^ k) sweep_zero w = (Some pl, sw, w') ->
  exists m bv ba quota, prepared k cfg pl sw m bv ba quota.
Proof.
  intros [Hs Hw _] Hk. unfold prepare. destruct (load_mapping _ _ w) as [[[rc c] m] w1] eqn:El. destruct (Z.eqb_spec rc 0) as [->|]; cbn [negb]; [|done].
  destruct (load_mapping_ok _ _ _ _ _ _ El) as (m' & -> & Hm & Hready). cbn [default from_option id].
  destruct (class_space_from_mapping (Some m')) as [space|] eqn:Ecs; [|done]. destruct (class_space_ok m' space Hm Ecs) as [-> Hspace].
  destruct (build_offset_classes _ _ w1) as [[ocs|] w2] eqn:Eo; [|done]. rewrite (offset_classes_ok m' k w1 w2 ocs) by (done || lia).
  destruct (workset_plan _ _) as [[lines quota]|] eqn:Ep; [|done]. destruct (workset_plan_ok (workset_mib cfg) (group_classes cfg) lines quota ltac:(tauto) ltac:(lia) ltac:(lia) Ep) as (E1 & E2 & Hq & Hg).
  assert (Hbytes : workset_mib cfg * 1048576 <= UINT64_MAX).
  { unfold workset_plan in Ep. destruct (Z.ltb_spec (UINT64_MAX / MIB_BYTES) (workset_mib cfg)) as [|Hle]; [done|].
    pose proof (Z.mul_div_le UINT64_MAX MIB_BYTES ltac:(reflexivity)). unfold MIB_BYTES in *. nia. }
  assert (Hg' : 0 < group_classes cfg < 6148914691236517205) by (unfold UINT64_MAX in *; nia).
  intros Hprep. apply prepare_victim_ok in Hprep as (bv & ba & Pv & Pa & Hpl & Hl & HL); try done; try lia; [|tauto].
  exists m', bv, ba, quota. cbn [dram_mapping_is_ready] in Hready. apply andb_true_iff in Hready as [_ Hpos%Z.ltb_lt]. split; try done; rewrite ?Hl; by conjs.
Qed.

(** ** Levels *)

(** C5: the levels of the sweep are exact. After the pools were created and the
    victim's lines selected, with a number of classes divisible by four, selecting
    the aggressor's lines of any level fails only when an allocation fails.
    Otherwise the histograms of the addresses share exactly none, a quarter, a
    half, three quarters or all of the classes, their intersection and union are
    those classes times the lines of a class without any overflow, and the
    aggressor holds as many different lines as the victim. *)
Theorem sweep_levels_exact m k cfg lines quota w pl sw w1 : wf_mapping m -> mask_count m <= 20 -> 6 <= k < 64 -> in_u64 (pool_mib cfg) ->
  0 < group_classes cfg < 6148914691236517205 -> group_classes cfg mod 4 = 0 -> 0 < quota < 18446744073709551616 -> 16 <= group_classes cfg * quota ->
  prepare_victim m (offset_classes m k) (2 ^ mask_count m) cfg (2 ^ k) lines quota sweep_zero w = (Some pl, sw, w1) ->
  forall c aset w2, c <> CONDITION_NONE -> allocations_succeed W ->
  exists l aset' w3, select_level cfg pl (sw_aggressor_pool sw) c aset w2 = (Some l, aset', w3) /\
    lv_shared l = group_classes cfg / 4 * (Z.of_nat (condition_index c) - 1) /\
    lv_intersection l = lv_shared l * quota /\ lv_union l = (2 * group_classes cfg - lv_shared l) * quota /\
    NoDup (ls_addresses aset') /\ Z.of_nat (List.length (ls_addresses aset')) = group_classes cfg * quota.
Proof.
  intros Hm Hspace Hk Hmib Hg Hmod Hq Hmin Hprep c aset w2 Hc Halloc.
  destruct (prepare_victim_ok m k cfg quota lines Hm Hspace Hk Hmib Hg Hq Hmin sweep_zero w pl sw w1 eq_refl eq_refl Hprep) as (bv & ba & Pv & Pa & Hpl & _).
  pose proof (condition_shared_level c _ Hg Hmod Hc) as Ec.
  pose proof (select_level_spec m k ba _ _ cfg quota Hm Hspace (pcr_ok _ _ _ _ _ Pa) Hg Hq pl Hpl c _ aset w2 Ec) as Hsel.
  destruct (select_level _ _ _ _ _ w2) as [[[l|] aset'] w3]; [|by destruct (Hsel Halloc)]. destruct Hsel as (H1 & H2 & H3 & HL). exists l, aset', w3.
  rewrite H1, H2, H3. pose proof HL as [_ Hok Hnd Hcls Haddr _]. rewrite Haddr. conjs; try done.
  - apply NoDup_fmap_2_strong; [|done]. intros x y Hx Hy. rewrite Forall_forall in Hok. eapply (line_address_inj _ ba k (pcr_ok _ _ _ _ _ Pa)); by apply Hok.
  - rewrite length_fmap. apply (f_equal List.length) in Hcls. rewrite length_fmap in Hcls. rewrite Hcls, length_blocks by lia.
    destruct (shared_of_level c (group_classes cfg) _ ltac:(unfold in_u64; lia) ltac:(lia) Ec) as (_ & _ & Hs & _).
    destruct (level_classes_ok _ _ _ _ _ (plo_chosen _ _ _ _ _ _ _ Hpl) _ Hs) as (_ & -> & _). done.
Qed.

(** C12: a class has the same lines at every level. Between any two levels of the
    sweep that were selected, whatever happened before and in between, each bank
    class has the same lines of the aggressor in the same order at both, or no
    line at one of them. *)
Theorem shared_lines_stable m k cfg lines quota w pl sw w1 : wf_mapping m -> mask_count m <= 20 -> 6 <= k < 64 -> in_u64 (pool_mib cfg) ->
  0 < group_classes cfg < 6148914691236517205 -> 0 < quota < 18446744073709551616 -> 16 <= group_classes cfg * quota ->
  prepare_victim m (offset_classes m k) (2 ^ mask_count m) cfg (2 ^ k) lines quota sweep_zero w = (Some pl, sw, w1) ->
  forall c c' aset aset' w2 w2' l l' set set' w3 w3',
  select_level cfg pl (sw_aggressor_pool sw) c aset w2 = (Some l, set, w3) ->
  select_level cfg pl (sw_aggressor_pool sw) c' aset' w2' = (Some l', set', w3') ->
  forall x, class_lines m set x = [] \/ class_lines m set' x = [] \/ class_lines m set x = class_lines m set' x.
Proof.
  intros Hm Hspace Hk Hmib Hg Hq Hmin Hprep.
  destruct (prepare_victim_ok m k cfg quota lines Hm Hspace Hk Hmib Hg Hq Hmin sweep_zero w pl sw w1 eq_refl eq_refl Hprep) as (bv & ba & Pv & Pa & Hpl & _).
  assert (Hone : forall c aset w2 l set w3 x, select_level cfg pl (sw_aggressor_pool sw) c aset w2 = (Some l, set, w3) ->
    class_lines m set x = [] \/ class_lines m set x = line_address (sw_aggressor_pool sw) ba <$>
      take (Z.to_nat quota) (of_class m (sw_aggressor_pool sw) k x (lines_order (sw_aggressor_pool sw) k (Z.lxor (seed cfg) 0x5555555555555555)))).
  { intros c aset w2 l set w3 x E. destruct (condition_shared_classes c (group_classes cfg)) as [s|] eqn:Ec; [|unfold select_level in E; by rewrite Ec in E].
    pose proof (select_level_spec m k ba _ _ cfg quota Hm Hspace (pcr_ok _ _ _ _ _ Pa) Hg Hq pl Hpl c s aset w2 Ec) as Hsel. rewrite E in Hsel. destruct Hsel as (_ & _ & _ & HL).
    destruct (shared_of_level c (group_classes cfg) _ ltac:(unfold in_u64; lia) ltac:(lia) Ec) as (_ & _ & Hs & _).
    destruct (level_classes_ok _ _ _ _ _ (plo_chosen _ _ _ _ _ _ _ Hpl) _ Hs) as (Hnd & _).
    rewrite (selection_class_lines _ _ _ _ _ _ _ _ x Hm (pcr_ok _ _ _ _ _ Pa) Hnd HL). destruct (decide _); [by right|by left]. }
  intros c c' aset aset' w2 w2' l l' set set' w3 w3' E E' x. destruct (Hone _ _ _ _ _ _ x E) as [|H1]; [by left|]. destruct (Hone _ _ _ _ _ _ x E') as [|H2]; [by right; left|].
  right; right. congruence.
Qed.
End Plan.

(** * What the sweep reports

    The arrays of [main] are indexed by condition and filled in the order of the
    configuration; the summary reads them at the end. *)

Section Report.
Context {W : Type} {HO : OS W} {HF : Files W} {HK : Workers W} {WL : WorkerLaws W} {HB : BinFile W} {HM : Memory W}.
Context (result_size : Z) (result_of_bytes : list Z -> worker_result) (fuel : nat).
Hypothesis Hfuel : (0 < fuel)%nat.
Hypothesis Hsize : (Z.to_nat result_size < fuel)%nat.
Implicit Types w : W.

Lemma index_inj c c' : condition_index c = condition_index c' -> c = c'.
Proof. by destruct c, c'. Qed.

Lemma index_lt c : (condition_index c < 6)%nat.
Proof. destruct c; cbn; lia. Qed.

(** An array indexed by condition after a store. *)
Lemma nth_stored {A} (x : A) (l : list A) dflt c c' : List.length l = 6%nat ->
  nth (condition_index c') (<[condition_index c := x]> l) dflt = if decide (c' = c) then x else nth (condition_index c') l dflt.
Proof.
  intros Hl. pose proof (index_lt c). destruct (decide (c' = c)) as [->|Hne]; [apply nth_lookup_Some, list_lookup_insert_eq; lia|].
  rewrite !nth_lookup, list_lookup_insert_ne; [done|]. intros E%index_inj. by subst.
Qed.

Definition arrays (ms : measured) : Prop := List.length (ms_results ms) = 6%nat /\ List.length (ms_jaccard ms) = 6%nat /\ List.length (ms_shared ms) = 6%nat.

(** What the arrays hold for a condition. *)
Definition result_at (ms : measured) (c : condition) : condition_result := nth (condition_index c) (ms_results ms) condition_result_zero.
Definition jaccard_at (ms : measured) (c : condition) : double := nth (condition_index c) (ms_jaccard ms) dzero.
Definition shared_at (ms : measured) (c : condition) : Z := nth (condition_index c) (ms_shared ms) 0.

Definition same_at (ms ms' : measured) (c : condition) : Prop := result_at ms' c = result_at ms c /\ jaccard_at ms' c = jaccard_at ms c /\ shared_at ms' c = shared_at ms c.

(** A condition that was measured. *)
Definition measured_at (cfg : config) (ms : measured) (c : condition) : Prop :=
  has_aggressor (result_at ms c) = negb (bool_decide (c = CONDITION_NONE)) /\ (c <> CONDITION_NONE -> condition_shared_classes c (group_classes cfg) = Some (shared_at ms c)).

Lemma row_same cfg pl c result ms ms' : same_at ms ms' c -> row_of cfg pl c result ms' = row_of cfg pl c result ms.
Proof. intros (_ & E1 & E2). unfold row_of. fold (shared_at ms' c) (shared_at ms c) (jaccard_at ms' c) (jaccard_at ms c). rewrite E1, E2. reflexivity. Qed.

(** A level that is selected has the shared classes of its condition. *)
Lemma select_level_shared cfg pl pool c aset w l set w' : select_level cfg pl pool c aset w = (Some l, set, w') -> condition_shared_classes c (group_classes cfg) = Some (lv_shared l).
Proof.
  unfold select_level. destruct (condition_shared_classes _ _) as [s|]; [|done]. destruct (build_overlap_classes _ _ _ _); [|done]. destruct (collect_line_set _ _ _ _ _ _ _ _ _ w) as [[rc set1] w1].
  destruct (negb _); [done|]. destruct (build_histogram _ _ _) as [hist|]; [|done]. destruct (negb _); [done|]. destruct (histogram_jaccard _ _ _) as [[j i] u].
  destruct (Z.eqb_spec (histogram_shared_classes (pl_victim_hist pl) hist (pl_class_space pl)) s) as [Hs|]; [|by cbn [negb orb]]. cbn [negb orb]. destruct (_ || _); [done|].
  destruct (build_multi_chain _ _ _ w1) as [roots w2]. destruct (negb _); [done|]. intros E. injection E as <- _ _. cbn. by rewrite Hs.
Qed.

Lemma measure_condition_spec cfg pl pool c aset ms w ms' r set w' : arrays ms ->
  measure_condition result_size result_of_bytes fuel cfg pl pool c aset ms w = Some (Some (ms', r), set, w') ->
  arrays ms' /\ (forall c', c' <> c -> same_at ms ms' c') /\ r = row_of cfg pl c (result_at ms' c) ms' /\ measured_at cfg ms' c /\ (c = CONDITION_NONE -> shared_at ms' c = shared_at ms c).
Proof.
  intros (L1 & L2 & L3). unfold measure_condition. set (sel := if bool_decide (c = CONDITION_NONE) then _ else _).
  assert (Hsel : forall ms1, sel.1.1 = Some ms1 -> ms_results ms1 = ms_results ms /\ List.length (ms_jaccard ms1) = 6%nat /\ List.length (ms_shared ms1) = 6%nat /\
    (forall c', c' <> c -> jaccard_at ms1 c' = jaccard_at ms c' /\ shared_at ms1 c' = shared_at ms c') /\
    (c <> CONDITION_NONE -> condition_shared_classes c (group_classes cfg) = Some (shared_at ms1 c)) /\ (c = CONDITION_NONE -> shared_at ms1 c = shared_at ms c)).
  { intros ms1. unfold sel. destruct (bool_decide_reflect (c = CONDITION_NONE)) as [->|Hne]; cbn [fst]; [by intros [= <-]|].
    destruct (select_level cfg pl pool c aset w) as [[[l|] set1] w1] eqn:E; cbn; [|done]. apply select_level_shared in E. intros [= <-]. unfold jaccard_at, shared_at. cbn. rewrite !length_insert.
    conjs; try done.
    - intros c' Hc'. rewrite !nth_stored by done. by rewrite !decide_False.
    - intros _. rewrite nth_stored by done. by rewrite decide_True. }
  destruct sel as [[[ms1|] set1] w1]; [|done]. destruct (Hsel ms1 eq_refl) as (S1 & S2 & S3 & S4 & S5 & S6). clear Hsel.
  destruct (run_condition_ends result_size result_of_bytes fuel Hfuel Hsize c w1) as (rc & out & w2 & -> & _ & _ & Hagg). destruct (negb (rc =? 0)); [discriminate|]. intros E. injection E as <- <- _ _.
  assert (Hres : result_at (mk_measured (<[condition_index c := out]> (ms_results ms1)) (ms_jaccard ms1) (ms_shared ms1)) c = out).
  { unfold result_at. cbn. rewrite nth_stored by congruence. by rewrite decide_True. }
  conjs; try done.
  - split; cbn; [by rewrite length_insert, S1|done].
  - intros c' Hc'. destruct (S4 c' Hc') as [E1 E2]. split; [|by split]. unfold result_at. cbn. rewrite nth_stored by congruence. by rewrite decide_False, S1.
  - by rewrite Hres.
  - split; [by rewrite Hres|exact S5].
Qed.

Lemma conditions_loop_spec cfg pl pool order : forall aset ms w ms' rows set w', NoDup order -> arrays ms ->
  conditions_loop result_size result_of_bytes fuel order cfg pl pool aset ms w = Some (Some (ms', rows), set, w') ->
  (forall c, c ∉ order -> same_at ms ms' c) /\ rows = (fun c => row_of cfg pl c (result_at ms' c) ms') <$> order /\
  forall c, c ∈ order -> measured_at cfg ms' c /\ (c = CONDITION_NONE -> shared_at ms' c = shared_at ms c).
Proof.
  induction order as [|c order IH]; intros aset ms w ms' rows set w' Hnd Hms.
  { intros E. injection E as <- <- _ _. split; [done|]. split; [done|]. by intros c ?%elem_of_nil. }
  apply NoDup_cons in Hnd as [Hno Hnd]. cbn [conditions_loop].
  destruct (measure_condition _ _ _ _ _ _ _ _ _ w) as [[[[[ms1 r1]|] set1] w1]|] eqn:Em; [|done..].
  destruct (measure_condition_spec _ _ _ _ _ _ _ _ _ _ _ Hms Em) as (A1 & Hsame & Hrow & Hmeas & Hnone).
  destruct (conditions_loop _ _ _ order _ _ _ _ _ w1) as [[[[[ms2 rs]|] set2] w2]|] eqn:El; [|done..]. intros E. injection E as <- <- _ _.
  destruct (IH _ _ _ _ _ _ _ Hnd A1 El) as (I1 & I2 & I3). pose proof (I1 c Hno) as Hc. conjs.
  - intros c' [Hne Hn]%not_elem_of_cons. destruct (I1 c' Hn) as (X1 & X2 & X3), (Hsame c' Hne) as (Y1 & Y2 & Y3). split; [congruence|split; congruence].
  - cbn [fmap list_fmap]. rewrite <- I2. f_equal. rewrite Hrow. destruct Hc as (R1 & R2 & R3). rewrite R1. symmetry. apply row_same. by split.
  - intros c' [->|Hin]%elem_of_cons.
    + destruct Hc as (R1 & _ & R3), Hmeas as [M1 M2]. split; [split; [by rewrite R1|by rewrite R3]|]. intros Hcn. rewrite R3. by apply Hnone.
    + destruct (I3 c' Hin) as [M1 M2]. split; [done|]. intros Hcn. rewrite (M2 Hcn). apply Hsame. intros ->. done.
Qed.

(** C14: what the sweep reports was measured. When the levels of the
    sweep succeed, it has printed one row per condition in the order of
    the configuration, which names each condition once; each row has exactly the
    shared classes of its level; the baseline is the latency of the row without
    aggressor; and the summary has the five levels in ascending order, each with
    the numbers of its row. *)
Theorem sweep_report_measured cfg pl sw w r sw' w' : order cfg ≡ₚ all_conditions -> 0 < group_classes cfg < 6148914691236517205 -> group_classes cfg mod 4 = 0 ->
  measure_levels result_size result_of_bytes fuel cfg pl sw w = Some (Some r, sw', w') ->
  rw_condition <$> rp_rows r = order cfg /\
  (forall x, x ∈ rp_rows r -> rw_shared x = if bool_decide (rw_condition x = CONDITION_NONE) then 0 else group_classes cfg / 4 * (Z.of_nat (condition_index (rw_condition x)) - 1)) /\
  (exists x, x ∈ rp_rows r /\ rw_condition x = CONDITION_NONE /\ rp_baseline_ns r = rw_victim_ns x) /\
  sm_condition <$> rp_summary r = overlap_conditions /\
  forall s, s ∈ rp_summary r -> exists x, x ∈ rp_rows r /\ rw_condition x = sm_condition s /\ rw_shared x = sm_shared s /\ rw_jaccard x = sm_jaccard s /\
    rw_victim_ns x = sm_victim_ns s /\ rw_mload x = sm_mload s.
Proof.
  intros Hord Hg Hmod. unfold measure_levels.
  destruct (conditions_loop _ _ _ _ _ _ _ _ _ w) as [[[[[ms rows]|] set] w2]|] eqn:El; [|done..]. set (sw2 := mk_sweep _ _ _ _). destruct (verify_pools sw2 w2) as [[|] w3]; [|done].
  intros E. injection E as <- _ _.
  assert (Hnd : NoDup (order cfg)) by (rewrite Hord; unfold all_conditions; repeat (apply NoDup_cons; split; [set_solver|]); apply NoDup_nil_2).
  assert (Hall : forall c, c ∈ order cfg) by (intros c; rewrite Hord; destruct c; set_solver).
  assert (Hzero : arrays measured_zero) by done. destruct (conditions_loop_spec _ _ _ _ _ _ _ _ _ _ _ Hnd Hzero El) as (_ & Hrows & Hmeas). cbn [rp_rows rp_baseline_ns rp_summary report_of].
  set (row c := row_of cfg pl c (result_at ms c) ms). assert (Hin : forall c, row c ∈ rows) by (intros c; rewrite Hrows; apply list_elem_of_fmap; by exists c).
  conjs; try done.
  - rewrite Hrows, <- list_fmap_compose. apply list_fmap_id.
  - intros x Hx. rewrite Hrows in Hx. apply list_elem_of_fmap in Hx as (c & -> & _). cbn. fold (shared_at ms c). destruct (Hmeas c (Hall c)) as [[_ Hsh] Hn].
    destruct (bool_decide_reflect (c = CONDITION_NONE)) as [->|Hne]; [by apply Hn|]. specialize (Hsh Hne). rewrite (condition_shared_level c _ Hg Hmod Hne) in Hsh. by injection Hsh as <-.
  - exists (row CONDITION_NONE). by conjs.
  - intros s Hs. apply list_elem_of_fmap in Hs as (c & -> & Hc). exists (row c). conjs; try done. unfold row, row_of, summary_of. cbn. destruct (Hmeas c (Hall c)) as [[-> _] _].
    rewrite bool_decide_eq_false_2; [done|]. intros ->. unfold overlap_conditions in Hc. set_solver.
Qed.
End Report.
