(* ===== verification/OverlapDemo.v ===== *)
(** * The sweep on a small machine

    The theorems about the sweep, and those about what the experiments hold,
    applied to the machine of [OracleDemo]: three masks that address bits inside a
    page, so eight classes, pools of a megabyte that the machine hands out, and
    four classes of four lines. *)
From S2P Require Import Prelude Float64 CString Os Calibration CalibrationLoad CalibrationRun DramMapping OracleSys OracleConfig OraclePool OracleLines OracleClasses OracleStages OracleChain OracleIo OracleRun OracleMain.
From S2P Require Import OracleStepProps OracleHeld OracleMainProps OracleDemo OverlapConfig OverlapSweep OverlapLevels OverlapProps OverlapRelease.
From Stdlib Require Import Ascii String.
Local Open Scope Z_scope.

(** A mapping that is handed out starts after those that are still there. *)
Lemma lab_fresh_region bytes s : (lab_free_page s * 4096, bytes) ∉ lab_regions s.
Proof.
  intros Hin. pose proof (above_pos (set_map fst (lab_regions s))) as Hp.
  assert (Hx : lab_free_page s * 4096 ∈ (set_map fst (lab_regions s) : gset Z)) by (apply elem_of_map; by exists (lab_free_page s * 4096, bytes)).
  apply above_spec in Hx. unfold lab_free_page in Hx. lia.
Qed.

#[export] Program Instance lab_machine_laws : MachineLaws lab.
Next Obligation. intros f s Hf. destruct Hf as [f Hf| | | | | | | |]; [destruct Hf|..]; done. Qed.
Next Obligation.
  intros bytes s. cbn. destruct (_ <? _); cbn; [|done]. split; [apply lab_fresh_region|]. split; [done|]. split; [done|]. cbn. f_equal. lia.
Qed.
Next Obligation. intros base bytes s. split; [done|]. split; [done|]. cbn. f_equal. lia. Qed.
Next Obligation. intros path s. split; [done|]. split; [done|]. cbn. f_equal. lia. Qed.
Next Obligation. done. Qed.

(** ** Nothing is left behind *)

Lemma control_main_releases_witness : (128 <= 200)%nat /\ exists code r w,
  OracleMain.main 24 (fun _ => worker_result_zero) 200 ["--classes"; "2"]%string lab_start = Some (code, r, w) /\ kept lab_start w.
Proof.
  split; [lia|]. destruct (control_main_releases 24 (fun _ => worker_result_zero) 200 ltac:(lia) ltac:(cbn; lia) ["--classes"; "2"]%string lab_start) as (code & r & w & E & H & _).
  exists code, r, w. split; [exact E|exact H].
Defined.

Lemma sweep_main_releases_witness : (Z.to_nat 24 < 200)%nat /\ exists code r w,
  OverlapSweep.main 24 (fun _ => worker_result_zero) 200 ["--classes"; "4"]%string lab_start = Some (code, r, w) /\ kept lab_start w.
Proof.
  split; [cbn; lia|]. destruct (sweep_main_releases 24 (fun _ => worker_result_zero) 200 ltac:(lia) ltac:(cbn; lia) ["--classes"; "4"]%string lab_start) as (code & r & w & E & H & _).
  exists code, r, w. split; [exact E|exact H].
Defined.

(** ** Levels *)

Definition sweep_mapping : dram_mapping := mk_dram_mapping ([64; 128; 256] ++ replicate 29 0) 3 "6f1ed002ab559585" true.

Lemma sweep_mapping_wf : wf_mapping sweep_mapping.
Proof. split; [cbn; unfold DRAM_MAPPING_MAX_MASKS, CALIBRATION_MAX_BANK_MASKS; lia|]. split; [|done]. cbn. repeat constructor; unfold in_u64; lia. Qed.

Definition sweep_config : config := mk_config 1 1 4 1 14 12 7 true all_conditions.

(** Sixteen lines, four per class. *)
Definition sweep_prepared : option plan * sweep * lab :=
  prepare_victim sweep_mapping (offset_classes sweep_mapping 12) (2 ^ mask_count sweep_mapping) sweep_config (2 ^ 12) 16 4 sweep_zero lab_start.

Lemma sweep_is_prepared : bool_decide (is_Some sweep_prepared.1.1) = true.
Proof. vm_compute. reflexivity. Qed.

Definition measured_after (p : option plan * sweep * lab) : option (option report * sweep * lab) :=
  match p with
  | (Some pl, sw, w) => measure_levels 24 (fun _ => worker_result_zero) 200 sweep_config pl sw w
  | _ => None
  end.

Definition sweep_measured : option (option report * sweep * lab) := measured_after sweep_prepared.

Lemma sweep_is_measured : match sweep_measured with Some (Some _, _, _) => true | _ => false end = true.
Proof. vm_compute. reflexivity. Qed.

Lemma sweep_plan : exists pl sw w, sweep_prepared = (Some pl, sw, w).
Proof.
  pose proof sweep_is_prepared as H. destruct sweep_prepared as [[[pl|] sw] w]; [by exists pl, sw, w|]. by apply bool_decide_eq_true in H as [? ?].
Qed.

Lemma sweep_levels_exact_witness : exists pl sw w w1 l set w2,
  prepare_victim sweep_mapping (offset_classes sweep_mapping 12) (2 ^ mask_count sweep_mapping) sweep_config (2 ^ 12) 16 4 sweep_zero w = (Some pl, sw, w1) /\
  select_level sweep_config pl (sw_aggressor_pool sw) CONDITION_OVERLAP_75 line_set_zero w1 = (Some l, set, w2) /\ lv_shared l = 3 /\ lv_intersection l = 12 /\ lv_union l = 20.
Proof.
  destruct sweep_plan as (pl & sw & w1 & Hpl).
  destruct (sweep_levels_exact sweep_mapping 12 sweep_config 16 4 lab_start pl sw w1 sweep_mapping_wf ltac:(cbn; lia) ltac:(lia) ltac:(unfold in_u64; cbn; lia)
    ltac:(cbn; lia) ltac:(done) ltac:(lia) ltac:(cbn; lia) Hpl CONDITION_OVERLAP_75 line_set_zero w1 ltac:(done) lab_allocations) as (l & set & w2 & E & H1 & H2 & H3 & _).
  exists pl, sw, lab_start, w1, l, set, w2. split; [exact Hpl|]. split; [exact E|]. rewrite H2, H3, H1. split; [reflexivity|]. split; reflexivity.
Defined.

(** The lines of two levels, the second selected after the first. *)
Definition two_levels (p : option plan * sweep * lab) : option (line_set * line_set) :=
  match p with
  | (Some pl, sw, w) =>
      match select_level sweep_config pl (sw_aggressor_pool sw) CONDITION_OVERLAP_25 line_set_zero w with
      | (Some _, set, w) =>
          match select_level sweep_config pl (sw_aggressor_pool sw) CONDITION_OVERLAP_100 set w with
          | (Some _, set', _) => Some (set, set')
          | _ => None
          end
      | _ => None
      end
  | _ => None
  end.

Definition sweep_two_levels : option (line_set * line_set) := two_levels sweep_prepared.

(** One class of the victim has the same four lines at both levels. *)
Lemma sweep_levels_meet : (fun p => Z.of_nat (List.length (filter (fun x => class_lines sweep_mapping p.1 x = class_lines sweep_mapping p.2 x /\ List.length (class_lines sweep_mapping p.1 x) = 4%nat)
    (zrange 0 8)))) <$> sweep_two_levels = Some 1.
Proof. vm_compute. reflexivity. Qed.

Lemma shared_lines_stable_witness : exists set set', sweep_two_levels = Some (set, set') /\
  forall x, class_lines sweep_mapping set x = [] \/ class_lines sweep_mapping set' x = [] \/ class_lines sweep_mapping set x = class_lines sweep_mapping set' x.
Proof.
  assert (Hsome : bool_decide (is_Some sweep_two_levels) = true) by (vm_compute; reflexivity). unfold sweep_two_levels, two_levels in *.
  destruct sweep_prepared as [[[pl|] sw] w1] eqn:Hpl; [|by apply bool_decide_eq_true in Hsome as [? ?]].
  pose proof (shared_lines_stable sweep_mapping 12 sweep_config 16 4 lab_start pl sw w1 sweep_mapping_wf ltac:(cbn; lia) ltac:(lia) ltac:(unfold in_u64; cbn; lia)
    ltac:(cbn; lia) ltac:(lia) ltac:(cbn; lia) Hpl CONDITION_OVERLAP_25 CONDITION_OVERLAP_100 line_set_zero) as H.
  destruct (select_level _ _ _ CONDITION_OVERLAP_25 _ w1) as [[[l|] set] w2] eqn:E1; [|by apply bool_decide_eq_true in Hsome as [? ?]].
  destruct (select_level _ _ _ CONDITION_OVERLAP_100 set w2) as [[[l'|] set'] w3] eqn:E2; [|by apply bool_decide_eq_true in Hsome as [? ?]].
  exists set, set'. split; [reflexivity|]. exact (H set w1 w2 l l' set set' w2 w3 E1 E2).
Defined.

(** ** The report *)

Lemma sweep_report_measured_witness : exists r sw w, sweep_measured = Some (Some r, sw, w) /\ rw_condition <$> rp_rows r = all_conditions /\ sm_condition <$> rp_summary r = overlap_conditions.
Proof.
  pose proof sweep_is_measured as Hok. unfold sweep_measured, measured_after in *. destruct sweep_prepared as [[[pl|] sw] w]; [|discriminate].
  pose proof (sweep_report_measured 24 (fun _ => worker_result_zero) 200 ltac:(lia) ltac:(cbn; lia) sweep_config pl sw w) as H.
  destruct (measure_levels _ _ _ _ _ _ w) as [[[[r|] sw'] w']|]; [|discriminate..].
  destruct (H r sw' w' ltac:(done) ltac:(cbn; lia) ltac:(done) eq_refl) as (H1 & _ & _ & H4 & _). exists r, sw', w'. split; [reflexivity|]. split; [exact H1|exact H4].
Defined.
