(* ===== verification/MultiCore.v ===== *)
(** * Five candidates ([oracle_multicandidate_control.c], [oracle_cpu_max_sweep.c])

    Two programs run the victim next to five aggressors, the candidates, which
    share none, a quarter, a half, three quarters and all of the victim's classes
    and run at the same time, each in a cgroup of its own.  They differ in what
    their conditions throttle and in what they compare; everything else, from the
    pools to the release, is the same code in both files and is modelled once, for
    any conditions.  An array indexed by candidate is a list of five elements. *)
From S2P Require Import Prelude Float64 CString Os Calibration CalibrationLoad CalibrationRun DramMapping OracleSys OraclePool OracleLines OracleStages OracleChain OracleIo OracleRun OracleMain OverlapSweep.
From Stdlib Require Import Ascii String.
Local Open Scope Z_scope.

Definition CANDIDATE_COUNT : Z := 5.
Definition POOL_COUNT : Z := CANDIDATE_COUNT + 1.

Definition candidate_name (candidate : Z) : string :=
  if candidate <? CANDIDATE_COUNT then nth (Z.to_nat candidate) ["o0"; "o25"; "o50"; "o75"; "o100"]%string "" else "unknown".

Definition candidate_shared_classes (candidate group_classes : Z) : Z :=
  if candidate =? 0 then 0
  else if candidate =? 1 then group_classes / 4
  else if candidate =? 2 then group_classes / 2
  else if candidate =? 3 then u64_mul group_classes 3 / 4
  else if candidate =? 4 then group_classes
  else 0.

(** ** Arguments *)

(** The candidate whose processor an option sets. *)
Definition candidate_option (name : string) : option nat :=
  if str_eq name "--o0-cpu" then Some 0%nat
  else if str_eq name "--o25-cpu" then Some 1%nat
  else if str_eq name "--o50-cpu" then Some 2%nat
  else if str_eq name "--o75-cpu" then Some 3%nat
  else if str_eq name "--o100-cpu" then Some 4%nat
  else None.

(** The loops over [a] and [b]: two workers are on one processor. *)
Fixpoint cpus_clash (victim_cpu : Z) (aggressor_cpu : list Z) : bool :=
  match aggressor_cpu with
  | [] => false
  | a :: rest => (a =? victim_cpu) || existsb (fun b => a =? b) rest || cpus_clash victim_cpu rest
  end.

(** ** Choosing classes *)

(** The classes from [cls] on of which every pool has the lines. *)
Fixpoint common_classes (n : nat) (cls : Z) (pool_counts : list (list Z)) (quota_lines : Z) : list Z :=
  match n with
  | O => []
  | S n =>
      let rest := common_classes n (cls + 1) pool_counts quota_lines in
      if forallb (fun counts => negb (nth (Z.to_nat cls) counts 0 <? quota_lines)) pool_counts then cls :: rest else rest
  end.

(** [victim_classes] and [disjoint_classes], or [None] for the code -1. The
    pointers are not NULL. *)
Definition choose_class_sets {W} `{OS W} (pool_counts : list (list Z)) (class_space group_classes quota_lines seed : Z) (w : W)
  : option (list Z * list Z) * W :=
  if (group_classes =? 0) || (quota_lines =? 0) then (None, w)
  else
    let '(ok, w) := os_calloc class_space 8 w in
    if negb ok then (None, w)
    else
      let candidates := common_classes (Z.to_nat class_space) 0 pool_counts quota_lines in
      let candidate_count := Z.of_nat (List.length candidates) in
      if candidate_count <? u64_mul group_classes 2 then (None, w)
      else
        let candidates := default [] (shuffle_u64 (Some candidates) candidate_count seed) in
        let n := Z.to_nat group_classes in
        (Some (take n candidates, take n (drop n candidates)), w).

(** The classes of a candidate, written one after the other. *)
Definition candidate_classes (shared group_classes : Z) (victim_classes disjoint_classes : list Z) : list Z :=
  (fun j => if j <? shared then nth (Z.to_nat j) victim_classes 0 else nth (Z.to_nat (j - shared)) disjoint_classes 0) <$> zrange 0 (Z.to_nat group_classes).

(** ** The cgroups *)

Record cgroup_context := mk_cgroup_context { cc_ready : bool; cc_run_path : string; background_path : list string }.

Definition cgroup_context_zero : cgroup_context := mk_cgroup_context false "" (replicate 5 ""%string).

Section Cgroup.
Context {W : Type} `{HO : OS W} `{HF : Files W}.

(** [ctx] is not NULL. *)
Definition cgroup_context_destroy (ctx : cgroup_context) (w : W) : cgroup_context * W :=
  if negb (cc_ready ctx) then (ctx, w)
  else
    let w := foldl (fun w path => fl_rmdir path w) w (background_path ctx) in
    (cgroup_context_zero, fl_rmdir (cc_run_path ctx) w).

(** The loop that makes the directories of the candidates; the paths after a
    failure are those of before. *)
Fixpoint make_directories (run_path : string) (i : Z) (paths : list string) (w : W) : bool * list string * W :=
  match paths with
  | [] => (true, [], w)
  | _ :: rest =>
      let text := run_path +:+ "/" +:+ candidate_name i in
      let path := snprintf PATH_MAX text in
      if PATH_MAX <=? strlen text then (false, path :: rest, w)
      else
        let '(made, w) := fl_mkdir path w in
        if negb made then (false, path :: rest, w)
        else let '(ok, rest, w) := make_directories run_path (i + 1) rest w in (ok, path :: rest, w)
  end.

(** The code from [mkdir(ctx->run_path)] on. *)
Definition cgroup_context_populate (fuel : nat) (run_path : string) (w : W) : option (Z * cgroup_context * W) :=
  let ctx := mk_cgroup_context false run_path (background_path cgroup_context_zero) in
  let '(made, w) := fl_mkdir run_path w in
  if negb made then Some (-1, ctx, w)
  else
    let ctx := mk_cgroup_context true run_path (background_path ctx) in
    let fail ctx w := let '(ctx, w) := cgroup_context_destroy ctx w in Some (-1, ctx, w) in
    let path := run_path +:+ "/cgroup.controllers" in
    if PATH_MAX <=? strlen path then fail ctx w
    else
      let '(child_controllers, w) := read_text_file path 4096 w in
      match child_controllers with
      | None => fail ctx w
      | Some child_controllers =>
          if negb (whitespace_word_present (Some child_controllers) (Some "cpu"%string)) then fail ctx w
          else
            match cgroup_write_file fuel run_path "cgroup.subtree_control" ("+cpu" +:+ String newline EmptyString) w with
            | None => None
            | Some (rc, w) =>
                if negb (rc =? 0) then fail ctx w
                else
                  let '(ok, paths, w) := make_directories run_path 0 (background_path ctx) w in
                  let ctx := mk_cgroup_context true run_path paths in
                  if negb ok then fail ctx w else Some (0, ctx, w)
            end
      end.

(** [ctx] is not NULL: the code and [*ctx]. *)
Definition cgroup_context_create (fuel : nat) (w : W) : option (Z * cgroup_context * W) :=
  let ctx := cgroup_context_zero in
  let '(root_subtree, w) := read_text_file "/sys/fs/cgroup/cgroup.subtree_control" 4096 w in
  match root_subtree with
  | None => Some (-1, ctx, w)
  | Some root_subtree =>
      if negb (whitespace_word_present (Some root_subtree) (Some "cpu"%string)) then Some (-1, ctx, w)
      else
        let text := "/sys/fs/cgroup/oracle_6_5e_" +:+ dec (fl_getpid w) in
        let run := snprintf PATH_MAX text in
        if PATH_MAX <=? strlen text then Some (-1, mk_cgroup_context false run (background_path ctx), w)
        else cgroup_context_populate fuel run w
  end.
End Cgroup.

(** ** Running a condition *)

Record condition_result := mk_condition_result { mr_victim : worker_result; mr_background : list worker_result; mr_has_background : bool }.

#[export] Instance condition_result_settable : Settable condition_result :=
  fun r => mk_condition_result (mr_victim r) (mr_background r) (mr_has_background r).

Definition condition_result_zero : condition_result := mk_condition_result worker_result_zero (replicate 5 worker_result_zero) false.

(** The local variables of [run_condition]. *)
Record run_state := mk_run_state { mv_pid : Z; mv_fd : Z; bg_pid : list Z; bg_fd : list Z; mv_out : condition_result }.

#[export] Instance run_state_settable : Settable run_state := fun s => mk_run_state (mv_pid s) (mv_fd s) (bg_pid s) (bg_fd s) (mv_out s).

Section Run.
Context {W : Type} `{HO : OS W} `{HF : Files W} `{HK : Workers W}.
(** The representation of [struct worker_result] in memory. *)
Context (result_size : Z) (result_of_bytes : list Z -> worker_result).
(** The candidates that are throttled, and their quota. *)
Context (fuel : nat) (cgroups : cgroup_context) (throttled : list bool) (quota_us period_us : Z).

Definition path_of (i : nat) : string := nth i (background_path cgroups) ""%string.

(** [for (i = 0; i < CANDIDATE_COUNT; ++i) { ... }] *)
Definition for_candidates (body : nat -> step run_state W) : step run_state W := for_step (Z.to_nat CANDIDATE_COUNT) 0 body.

(** [if (out->has_background) { ... }] *)
Definition if_background (a : step run_state W) : step run_state W := if_step (fun s => mr_has_background (mv_out s)) a.

(** Writing [cpu.max] of the candidates. *)
Definition control_step : step run_state W :=
  if_background (for_candidates (fun i => checked (fun _ => cgroup_set_cpu_max fuel (path_of i) (nth i throttled false) quota_us period_us))).

(** Starting a worker and waiting until it has stopped. *)
Definition start_victim : step run_state W := fun s w =>
  let '(pid, fd, w) := spawn_victim (mv_fd s) w in
  let s := s <| mv_pid := pid |> <| mv_fd := fd |> in
  if pid <? 0 then Some (false, s, w) else checked (fun s => wait_until_stopped fuel (mv_pid s)) s w.

(** A candidate is also placed in its cgroup. *)
Definition start_candidate (i : nat) : step run_state W := fun s w =>
  let '(pid, fd, w) := spawn_aggressor (nth i (bg_fd s) (-1)) w in
  let s := s <| bg_pid ::= <[i := pid]> |> <| bg_fd ::= <[i := fd]> |> in
  if pid <? 0 then Some (false, s, w)
  else then_step (checked (fun s => wait_until_stopped fuel (nth i (bg_pid s) (-1))))
    (checked (fun s => cgroup_move_pid fuel (path_of i) (nth i (bg_pid s) (-1)))) s w.

Definition background_step : step run_state W :=
  if_background (then_step (for_candidates start_candidate) (for_candidates (fun i => continue_step (fun s => nth i (bg_pid s) (-1))))).

(** [if (wait_success(pid) != 0) goto fail; pid = -1;] *)
Definition finish_victim : step run_state W := fun s w =>
  match wait_success fuel (mv_pid s) w with
  | None => None
  | Some (rc, w) => if rc =? 0 then Some (true, s <| mv_pid := -1 |>, w) else Some (false, s, w)
  end.

Definition finish_candidate (i : nat) : step run_state W := fun s w =>
  match wait_success fuel (nth i (bg_pid s) (-1)) w with
  | None => None
  | Some (rc, w) => if rc =? 0 then Some (true, s <| bg_pid ::= <[i := -1]> |>, w) else Some (false, s, w)
  end.

(** Reading a result and closing its pipe.  What a failed read has stored of a
    result is not modelled: [run_condition] fails then, and its caller does not
    look at [*out]. *)
Definition read_victim : step run_state W := fun s w =>
  match read_full fuel (mv_fd s) result_size [] w with
  | None => None
  | Some (rc, bytes, w) =>
      if negb (rc =? 0) then Some (false, s, w)
      else
        let s := s <| mv_out := (mv_out s) <| mr_victim := result_of_bytes bytes |> |> in
        Some (true, s <| mv_fd := -1 |>, os_close (mv_fd s) w)
  end.

Definition read_candidate (i : nat) : step run_state W := fun s w =>
  match read_full fuel (nth i (bg_fd s) (-1)) result_size [] w with
  | None => None
  | Some (rc, bytes, w) =>
      if negb (rc =? 0) then Some (false, s, w)
      else
        let s := s <| mv_out := (mv_out s) <| mr_background ::= <[i := result_of_bytes bytes]> |> |> in
        Some (true, s <| bg_fd ::= <[i := -1]> |>, os_close (nth i (bg_fd s) (-1)) w)
  end.

(** The code between the declarations and [return 0]. *)
Definition run_steps : step run_state W :=
  then_step control_step (then_step start_victim (then_step background_step (then_step (continue_step mv_pid)
    (then_step finish_victim (then_step (if_background (for_candidates finish_candidate))
    (then_step read_victim (if_background (for_candidates read_candidate)))))))).

(** The loop at [fail]. *)
Fixpoint end_candidates (pids fds : list Z) (w : W) : option W :=
  match pids, fds with
  | pid :: pids, fd :: fds => w ← end_worker pid w; end_candidates pids fds (close_end fd w)
  | _, _ => Some w
  end.

(** The code at [fail]. *)
Definition run_fail (s : run_state) (w : W) : option W :=
  w ← end_worker (mv_pid s) w;
  w ← end_candidates (bg_pid s) (bg_fd s) w;
  Some (close_end (mv_fd s) w).

(** From the first use of [out] to the end: the code, [*out] and the world. *)
Definition run_workers (has_background : bool) (w : W) : option (Z * condition_result * W) :=
  match run_steps (mk_run_state (-1) (-1) (replicate 5 (-1)) (replicate 5 (-1)) (condition_result_zero <| mr_has_background := has_background |>)) w with
  | None => None
  | Some (true, s, w) => Some (0, mv_out s, w)
  | Some (false, s, w) => match run_fail s w with None => None | Some w => Some (-1, mv_out s, w) end
  end.
End Run.

(** ** From the mapping to the chains *)

(** What [main] holds and releases at its end. *)
Record bench := mk_bench { bn_cgroups : cgroup_context; bn_victim_pool : memory_pool; background_pool : list memory_pool; bn_victim_set : line_set; background_set : list line_set }.

Definition bench_zero : bench := mk_bench cgroup_context_zero memory_pool_zero (replicate 5 memory_pool_zero) line_set_zero (replicate 5 line_set_zero).

(** What a candidate was measured to share with the victim: [overlap_shared],
    [overlap_intersection], [overlap_union] and [overlap_jaccard]. *)
Record candidate_overlap := mk_candidate_overlap { overlap_shared : Z; overlap_intersection : Z; overlap_union : Z; overlap_jaccard : double }.

Section Bench.
Context {W : Type} `{HO : OS W} `{HB : BinFile W} `{HM : Memory W}.
(** Fields of the configuration. *)
Context (pool_mib workset_mib group_classes seed : Z).

Fixpoint create_candidate_pools (i : Z) (pools : list memory_pool) (page_size : Z) (w : W) : bool * list memory_pool * W :=
  match pools with
  | [] => (true, [], w)
  | p :: rest =>
      let fault_seed := Z.lxor seed (u64_add 0x2222222222222222 (u64_mul i 0x1111111111111111)) in
      let '(rc, p, w) := pool_create (candidate_name i) pool_mib page_size fault_seed p w in
      if negb (rc =? 0) then (false, p :: rest, w)
      else let '(ok, rest, w) := create_candidate_pools (i + 1) rest page_size w in (ok, p :: rest, w)
  end.

(** The calls of [pool_create], up to the first that fails. *)
Definition create_pools (page_size : Z) (bn : bench) (w : W) : bool * bench * W :=
  let '(rc, v, w) := pool_create "victim" pool_mib page_size (Z.lxor seed 0x1111111111111111) (bn_victim_pool bn) w in
  if negb (rc =? 0) then (false, mk_bench (bn_cgroups bn) v (background_pool bn) (bn_victim_set bn) (background_set bn), w)
  else
    let '(ok, pools, w) := create_candidate_pools 0 (background_pool bn) page_size w in
    (ok, mk_bench (bn_cgroups bn) v pools (bn_victim_set bn) (background_set bn), w).

(** [n] arrays of [count] elements, up to the first that cannot be had. *)
Fixpoint calloc_loop (n : nat) (count : Z) (w : W) : bool * W :=
  match n with
  | O => (true, w)
  | S n => let '(ok, w) := os_calloc count 8 w in if negb ok then (false, w) else calloc_loop n count w
  end.

(** Counting the lines of each pool and choosing the two groups. *)
Definition choose_classes (bn : bench) (mapping : dram_mapping) (offset_classes : list Z) (class_space quota_lines : Z) (w : W) : option (list Z * list Z) * W :=
  let '(ok, w) := calloc_loop (Z.to_nat POOL_COUNT) class_space w in
  if negb ok then (None, w)
  else
    let '(ok1, w) := os_calloc group_classes 8 w in
    let '(ok2, w) := os_calloc group_classes 8 w in
    if negb ok1 || negb ok2 then (None, w)
    else
      let '(ok, w) := calloc_loop (Z.to_nat CANDIDATE_COUNT) group_classes w in
      if negb ok then (None, w)
      else
        match mapM (fun p => count_line_classes p mapping offset_classes class_space) (bn_victim_pool bn :: background_pool bn) with
        | None => (None, w)
        | Some pool_counts => choose_class_sets pool_counts class_space group_classes quota_lines seed w
        end.

Fixpoint collect_candidates (i : Z) (pools : list memory_pool) (sets : list line_set) (mapping : dram_mapping) (offset_classes : list Z)
    (class_space : Z) (victim_classes disjoint_classes : list Z) (quota_lines : Z) (w : W) : bool * list line_set * W :=
  match pools, sets with
  | p :: pools, set :: sets =>
      let classes := candidate_classes (candidate_shared_classes i group_classes) group_classes victim_classes disjoint_classes in
      let select_seed := Z.lxor seed (u64_add 0x5555555555555555 (u64_mul i 0x0101010101010101)) in
      let '(rc, set, w) := collect_line_set p mapping offset_classes class_space classes group_classes quota_lines select_seed set w in
      if negb (rc =? 0) then (false, set :: sets, w)
      else
        let '(ok, sets, w) := collect_candidates (i + 1) pools sets mapping offset_classes class_space victim_classes disjoint_classes quota_lines w in
        (ok, set :: sets, w)
  | _, _ => (true, sets, w)
  end.

(** The lines of the victim and of the candidates. *)
Definition collect_sets (bn : bench) (mapping : dram_mapping) (offset_classes : list Z) (class_space : Z) (victim_classes disjoint_classes : list Z)
    (quota_lines : Z) (w : W) : bool * bench * W :=
  let '(rc, v, w) := collect_line_set (bn_victim_pool bn) mapping offset_classes class_space victim_classes group_classes quota_lines
    (Z.lxor seed 0x4444444444444444) (bn_victim_set bn) w in
  if negb (rc =? 0) then (false, mk_bench (bn_cgroups bn) (bn_victim_pool bn) (background_pool bn) v (background_set bn), w)
  else
    let '(ok, sets, w) := collect_candidates 0 (background_pool bn) (background_set bn) mapping offset_classes class_space victim_classes disjoint_classes quota_lines w in
    (ok, mk_bench (bn_cgroups bn) (bn_victim_pool bn) (background_pool bn) v sets, w).

(** The acceptance criterion of the candidates; [None] is the jump to [fail]. *)
Fixpoint accept_candidates (i : Z) (sets : list line_set) (mapping : dram_mapping) (class_space : Z) (victim_hist : list Z) (quota_lines : Z) (w : W)
  : option (list candidate_overlap) * W :=
  match sets with
  | [] => (Some [], w)
  | set :: sets =>
      let expected_shared := candidate_shared_classes i group_classes in
      let expected_intersection := u64_mul expected_shared quota_lines in
      let expected_union := u64_mul (u64_sub (u64_mul 2 group_classes) expected_shared) quota_lines in
      let '(ok, w) := os_calloc class_space 8 w in
      if negb ok then (None, w)
      else
        match build_histogram set mapping class_space with
        | None => (None, w)
        | Some hist =>
            let '(jaccard, intersection, union_count) := histogram_jaccard victim_hist hist class_space in
            let shared := histogram_shared_classes victim_hist hist class_space in
            if negb (histogram_unique_classes hist class_space =? group_classes) || negb (shared =? expected_shared)
              || negb (intersection =? expected_intersection) || negb (union_count =? expected_union)
            then (None, w)
            else
              let '(os, w) := accept_candidates (i + 1) sets mapping class_space victim_hist quota_lines w in
              (cons (mk_candidate_overlap shared intersection union_count jaccard) <$> os, w)
        end
  end.

Definition accept_sets (bn : bench) (mapping : dram_mapping) (class_space quota_lines : Z) (w : W) : option (list candidate_overlap) * W :=
  let '(ok, w) := os_calloc class_space 8 w in
  if negb ok then (None, w)
  else
    match build_histogram (bn_victim_set bn) mapping class_space with
    | None => (None, w)
    | Some victim_hist => accept_candidates 0 (background_set bn) mapping class_space victim_hist quota_lines w
    end.

(** From the classes to the accepted lines, and what is held by then. *)
Definition select_lines (bn : bench) (mapping : dram_mapping) (offset_classes : list Z) (class_space quota_lines : Z) (w : W)
  : option (list candidate_overlap) * bench * W :=
  let '(chosen, w) := choose_classes bn mapping offset_classes class_space quota_lines w in
  match chosen with
  | None => (None, bn, w)
  | Some (victim_classes, disjoint_classes) =>
      let '(ok, bn, w) := collect_sets bn mapping offset_classes class_space victim_classes disjoint_classes quota_lines w in
      if negb ok then (None, bn, w)
      else let '(o, w) := accept_sets bn mapping class_space quota_lines w in (o, bn, w)
  end.

Fixpoint build_candidate_chains (sets : list line_set) (permutation : list Z) (w : W) : bool * W :=
  match sets with
  | [] => (true, w)
  | set :: sets =>
      let '(roots, w) := build_multi_chain set permutation AGGRESSOR_STREAMS w in
      if negb (bool_decide (is_Some roots)) then (false, w) else build_candidate_chains sets permutation w
  end.

(** The permutation and the chains; the roots are kept by the workers the
    conditions start. *)
Definition build_chains (bn : bench) (workset_lines : Z) (w : W) : bool * W :=
  let '(rc, permutation, w) := make_permutation workset_lines (Z.lxor seed 0x7777777777777777) [] w in
  if negb (rc =? 0) then (false, w)
  else
    let '(victim_root, w) := build_single_chain (bn_victim_set bn) permutation w in
    if negb (bool_decide (is_Some victim_root)) then (false, w) else build_candidate_chains (background_set bn) permutation w.

(** From the mapping to the chains: what the candidates share, [None] at [fail],
    and what is held by then. *)
Definition prepare (page_size : Z) (bn : bench) (w : W) : option (list candidate_overlap) * bench * W :=
  let '(rc, calibration, mapping, w) := load_mapping (mk_calibration_result false false (replicate 32 0) 0 "" calibration_metrics_zero 0 "") dram_mapping_zero w in
  if negb (rc =? 0) then (None, bn, w)
  else
    let mapping := default dram_mapping_zero mapping in
    match class_space_from_mapping (Some mapping) with
    | None => (None, bn, w)
    | Some class_space =>
        let '(offset_classes, w) := build_offset_classes (Some mapping) page_size w in
        match offset_classes with
        | None => (None, bn, w)
        | Some offset_classes =>
            match workset_plan workset_mib group_classes with
            | None => (None, bn, w)
            | Some (workset_lines, quota_lines) =>
                if negb (group_classes mod 4 =? 0) then (None, bn, w)
                else
                  let '(ok, bn, w) := create_pools page_size bn w in
                  if negb ok then (None, bn, w)
                  else
                    let '(o, bn, w) := select_lines bn mapping offset_classes class_space quota_lines w in
                    match o with
                    | None => (None, bn, w)
                    | Some o => let '(ok, w) := build_chains bn workset_lines w in (if ok then Some o else None, bn, w)
                    end
            end
        end
    end.
End Bench.

(** ** The conditions *)

(** A line of results; the last two numbers are zero without candidates. *)
Record row (C : Type) := mk_row { rw_condition : C; rw_victim : worker_result; rw_victim_ns : double; rw_bg_mload : list double; rw_total_bg : double }.
Arguments mk_row {C}.
Arguments rw_condition {C}.
Arguments rw_victim {C}.
Arguments rw_victim_ns {C}.
Arguments rw_bg_mload {C}.
Arguments rw_total_bg {C}.

(** The throughput of each candidate, and of all of them, added in their order. *)
Definition bg_mload_of (r : condition_result) : list double := if mr_has_background r then mload_per_sec <$> mr_background r else replicate 5 dzero.
Definition total_bg_of (r : condition_result) : double := foldl dadd dzero (if mr_has_background r then mload_per_sec <$> mr_background r else []).

Definition row_of {C} (c : C) (r : condition_result) : row C := mk_row c (mr_victim r) (ns_per_read (mr_victim r)) (bg_mload_of r) (total_bg_of r).

(** What a run that succeeds prints: what the candidates share, a row per
    condition and the comparison. *)
Record report (C R : Type) := mk_report { rp_overlaps : list candidate_overlap; rp_rows : list (row C); rp_comparison : R }.
Arguments mk_report {C R}.
Arguments rp_overlaps {C R}.
Arguments rp_rows {C R}.
Arguments rp_comparison {C R}.

Section Conditions.
Context {W : Type} `{HO : OS W} `{HB : BinFile W} `{HM : Memory W} `{HF : Files W} `{HK : Workers W}.
(** The conditions of a program: [run_condition], the position in arrays, the order
    of the configuration and the comparison. *)
Context {C R : Type} (run : cgroup_context -> C -> W -> option (Z * condition_result * W)) (index : C -> nat) (order : list C)
  (compare : list condition_result -> R).

(** The loop over [cfg.order]: [results], an array indexed by condition, and the
    rows; the second [None] is the jump to [fail]. *)
Fixpoint conditions_loop (order : list C) (cgroups : cgroup_context) (results : list condition_result) (w : W)
  : option (option (list condition_result * list (row C)) * W) :=
  match order with
  | [] => Some (Some (results, []), w)
  | c :: order =>
      match run cgroups c w with
      | None => None
      | Some (rc, result, w) =>
          if negb (rc =? 0) then Some (None, w)
          else
            match conditions_loop order cgroups (<[index c := result]> results) w with
            | None => None
            | Some (None, w) => Some (None, w)
            | Some (Some (results, rows), w) => Some (Some (results, row_of c result :: rows), w)
            end
      end
  end.

(** The check of the page frames, up to the first pool that fails it. *)
Fixpoint verify_pools (pools : list memory_pool) (w : W) : bool * W :=
  match pools with
  | [] => (true, w)
  | p :: pools =>
      let '(r, w) := verify_pool_pfns p w in
      match r with
      | None => (false, w)
      | Some (moved, unreadable) => if negb (moved =? 0) || negb (unreadable =? 0) then (false, w) else verify_pools pools w
      end
  end.

(** From the cgroups to the check of the page frames: the report when all
    succeeds, [None] at [fail], and what is held. *)
Definition measure_candidates (fuel : nat) (o : list candidate_overlap) (bn : bench) (w : W) : option (option (report C R) * bench * W) :=
  match cgroup_context_create fuel w with
  | None => None
  | Some (rc, cgroups, w) =>
      let bn := mk_bench cgroups (bn_victim_pool bn) (background_pool bn) (bn_victim_set bn) (background_set bn) in
      if negb (rc =? 0) then Some (None, bn, w)
      else
        match conditions_loop order cgroups (replicate 6 condition_result_zero) w with
        | None => None
        | Some (None, w) => Some (None, bn, w)
        | Some (Some (results, rows), w) =>
            let '(ok, w) := verify_pools (bn_victim_pool bn :: background_pool bn) w in
            Some (if ok then Some (mk_report o rows (compare results)) else None, bn, w)
        end
  end.

(** The code after the page size up to the release. *)
Definition perform (fuel : nat) (pool_mib workset_mib group_classes seed page_size : Z) (w : W) : option (option (report C R) * bench * W) :=
  let '(o, bn, w) := prepare pool_mib workset_mib group_classes seed page_size bench_zero w in
  match o with
  | None => Some (None, bn, w)
  | Some o => measure_candidates fuel o bn w
  end.
End Conditions.

Section Release.
Context {W : Type} `{HO : OS W} `{HM : Memory W} `{HF : Files W}.

Fixpoint destroy_pools (pools : list memory_pool) (w : W) : list memory_pool * W :=
  match pools with
  | [] => ([], w)
  | p :: pools => let '(p, w) := pool_destroy p w in let '(pools, w) := destroy_pools pools w in (p :: pools, w)
  end.

(** The release, the same on success and at [fail]. *)
Definition release (bn : bench) (w : W) : bench * W :=
  let '(cgroups, w) := cgroup_context_destroy (bn_cgroups bn) w in
  let '(pools, w) := destroy_pools (background_pool bn) w in
  let '(v, w) := pool_destroy (bn_victim_pool bn) w in
  (mk_bench cgroups v pools (line_set_destroy (bn_victim_set bn)) (line_set_destroy <$> background_set bn), w).

(** The code after [parse_args]: the exit code and the report of a run that
    succeeds. *)
Definition run_bench {R} (perform : Z -> W -> option (option R * bench * W)) (w : W) : option (Z * option R * W) :=
  let '(page_size, w) := os_pagesize w in
  if page_size <=? 0 then Some (EXIT_FAILURE, None, w)
  else
    match perform page_size w with
    | None => None
    | Some (r, bn, w) =>
        let '(_, w) := release bn w in
        Some (if bool_decide (is_Some r) then EXIT_SUCCESS else EXIT_FAILURE, r, w)
    end.
End Release.
