(* ===== verification/MultiSelect.v ===== *)
(** * The lines of five candidates

    With enough memory the selection fails only when fewer classes than the two
    groups need are common to the six pools; otherwise each candidate shares exactly
    its number of classes with the victim, so the acceptance criterion never rejects
    it.  The groups of a candidate are those of a level of the sweep, and so are
    their histograms ([OverlapLevels]). *)
From S2P Require Import Prelude Float64 CString Os Calibration CalibrationLoad DramMapping OracleSys OraclePool OracleLines OracleClasses OracleSelect OracleStages OracleAccept.
From S2P Require Import OracleChain OracleIo OracleRun OracleMain OracleMainProps OverlapConfig OverlapSweep OverlapLevels MultiCore.
From Stdlib Require Import Ascii String.
Local Open Scope Z_scope.

(** The number of classes a candidate shares. *)
Lemma candidate_shared i g : 0 <= i < CANDIDATE_COUNT -> 0 < g < 6148914691236517205 -> g mod 4 = 0 -> candidate_shared_classes i g = g / 4 * i /\ 0 <= g / 4 * i <= g.
Proof.
  intros Hi Hg Hm. unfold CANDIDATE_COUNT in Hi. destruct (Z.mod_divide g 4) as [Hdiv _]; [lia|]. destruct (Hdiv Hm) as [h ->]. clear Hdiv Hm.
  unfold candidate_shared_classes. replace (u64_mul (h * 4) 3) with (h * 4 * 3) by (symmetry; apply u64_small; unfold in_u64; lia).
  replace (h * 4 * 3 / 4) with (h * 3) by (replace (h * 4 * 3) with (h * 3 * 4) by lia; by rewrite Z.div_mul).
  replace (h * 4 / 2) with (h * 2) by (replace (h * 4) with (h * 2 * 2) by lia; by rewrite Z.div_mul). rewrite Z.div_mul by lia.
  assert (Hcase : i = 0 \/ i = 1 \/ i = 2 \/ i = 3 \/ i = 4) by lia. destruct Hcase as [->|[->|[->|[->| ->]]]]; cbn [Z.eqb Pos.eqb]; lia.
Qed.

(** The classes written one after the other are those of a level. *)
Lemma candidate_classes_level s g v d : 0 <= s <= g -> Z.of_nat (List.length v) = g -> Z.of_nat (List.length d) = g -> candidate_classes s g v d = level_classes g s v d.
Proof.
  intros Hs Hv Hd. unfold candidate_classes, level_classes. rewrite zrange_seqZ. apply list_eq. intros i. rewrite list_lookup_fmap.
  destruct (decide (i < Z.to_nat g)%nat) as [Hi|Hi].
  - rewrite lookup_seqZ_lt by lia. cbn [fmap option_fmap option_map]. destruct (Z.ltb_spec (0 + Z.of_nat i) s).
    + rewrite lookup_app_l by (rewrite length_take; lia). rewrite lookup_take_lt by lia. rewrite Z.add_0_l, Nat2Z.id.
      destruct (lookup_lt_is_Some_2 v i) as [x Hx]; [lia|]. by rewrite Hx, (nth_lookup_Some _ _ _ _ Hx).
    + rewrite lookup_app_r by (rewrite length_take; lia). rewrite length_take, Nat.min_l by lia. rewrite lookup_take_lt by lia.
      replace (Z.to_nat (0 + Z.of_nat i - s)) with (i - Z.to_nat s)%nat by lia. destruct (lookup_lt_is_Some_2 d (i - Z.to_nat s)) as [x Hx]; [lia|]. by rewrite Hx, (nth_lookup_Some _ _ _ _ Hx).
  - rewrite lookup_seqZ_ge by lia. symmetry. apply lookup_ge_None_2. rewrite length_app, !length_take. lia.
Qed.

Section Select.
Context (m : dram_mapping) (k quota g sd : Z).
Hypothesis Hm : wf_mapping m.
Hypothesis Hspace : mask_count m <= 20.
Hypothesis Hgroup : 0 < g < 6148914691236517205.
Hypothesis Hfour : g mod 4 = 0.
Hypothesis Hquota : 0 < quota < 18446744073709551616.

Abbreviation space := (2 ^ mask_count m).

(** Every pool has [quota] lines of the class. *)
Definition all_have (ps : list memory_pool) (c : Z) : Prop := Forall (fun p => quota <= occurs c (line_class m p k <$> all_lines p k)) ps.

#[export] Instance all_have_dec ps c : Decision (all_have ps c).
Proof. unfold all_have. apply _. Defined.

Definition usable (p : memory_pool) : Prop := exists base, pool_ok p base k.

Lemma common_classes_filter n counts : forall cls, common_classes n cls counts quota = filter (fun c => Forall (fun cs => quota <= nth (Z.to_nat c) cs 0) counts) (zrange cls n).
Proof.
  induction n as [|n IH]; intros cls; [done|]. cbn [common_classes zrange]. rewrite filter_cons, IH.
  assert (E : forallb (fun cs => negb (nth (Z.to_nat cls) cs 0 <? quota)) counts = bool_decide (Forall (fun cs => quota <= nth (Z.to_nat cls) cs 0) counts)).
  { apply eq_bool_prop_intro. rewrite bool_decide_spec, Is_true_true, forallb_forall, Forall_forall. split; intros H cs Hin.
    - apply list_elem_of_In in Hin. specialize (H cs Hin). apply negb_true_iff, Z.ltb_ge in H. done.
    - apply negb_true_iff, Z.ltb_ge, H, list_elem_of_In, Hin. }
  rewrite E. by destruct (decide _) as [H|H]; [rewrite bool_decide_eq_true_2|rewrite bool_decide_eq_false_2].
Qed.

(** What is counted of the pools. *)
Lemma counts_all_have ps : Forall usable ps -> exists counts, mapM (fun p => count_line_classes p m (offset_classes m k) space) ps = Some counts /\
  forall c, 0 <= c -> Forall (fun cs => quota <= nth (Z.to_nat c) cs 0) counts <-> all_have ps c.
Proof.
  induction 1 as [|p ps [base Hp] Hps (counts & E & IH)]; [exists []; split; [done|]; intros c _; split; constructor|].
  destruct (count_line_classes p m (offset_classes m k) space) as [cs|] eqn:Ec; [|by rewrite (count_classes_tally m _ k Hm) in Ec].
  exists (cs :: counts). split; [cbn; by rewrite Ec; cbn; rewrite E|]. intros c Hc. unfold all_have. rewrite !Forall_cons, (nth_line_counts m p base k Hm Hp cs c Ec Hc). by rewrite (IH c Hc).
Qed.

Section World.
Context {W : Type} `{HO : OS W} `{HM : Memory W}.
Implicit Types w : W.

Lemma calloc_loop_succeeds n count w : allocations_succeed W -> (calloc_loop n count w).1 = true.
Proof.
  intros [Hc Hx]. revert w. induction n as [|n IH]; intros w; [done|]. cbn [calloc_loop]. pose proof (Hc count 8 w) as H. destruct (os_calloc count 8 w) as [ok w']. cbn in H. subst ok. apply IH.
Qed.

Lemma multi_choose_spec bn w : Forall usable (bn_victim_pool bn :: background_pool bn) ->
  match (choose_classes g sd bn m (offset_classes m k) space quota w).1 with
  | Some (v, d) => chosen_ok space g (all_have (bn_victim_pool bn :: background_pool bn)) v d
  | None => allocations_succeed W -> Z.of_nat (List.length (filter (all_have (bn_victim_pool bn :: background_pool bn)) (zrange 0 (Z.to_nat space)))) < 2 * g
  end.
Proof.
  intros Hps. unfold choose_classes.
  assert (Hfail : forall ok, (allocations_succeed W -> ok = true) -> ok = false -> allocations_succeed W ->
    Z.of_nat (List.length (filter (all_have (bn_victim_pool bn :: background_pool bn)) (zrange 0 (Z.to_nat space)))) < 2 * g) by (intros ok Hok -> Ha; by specialize (Hok Ha)).
  pose proof (calloc_loop_succeeds (Z.to_nat POOL_COUNT) space w) as A1. destruct (calloc_loop _ space w) as [[|] w1]; cbn [fst negb] in *; [|by apply (Hfail false)].
  assert (Hc : forall n size w, allocations_succeed W -> (os_calloc n size w).1 = true) by (intros n size w0 [Ha _]; apply Ha).
  pose proof (Hc g 8 w1) as A2. destruct (os_calloc g 8 w1) as [ok1 w2]. pose proof (Hc g 8 w2) as A3. destruct (os_calloc g 8 w2) as [ok2 w3].
  cbn [fst] in A2, A3. destruct ok1; [destruct ok2|]; cbn [fst negb orb] in *; [|by apply (Hfail false)..].
  pose proof (calloc_loop_succeeds (Z.to_nat CANDIDATE_COUNT) g w3) as A4. destruct (calloc_loop _ g w3) as [[|] w4]; cbn [fst negb] in *; [|by apply (Hfail false)].
  destruct (counts_all_have _ Hps) as (counts & -> & Hcs). unfold choose_class_sets. destruct (Z.eqb_spec g 0); [lia|]. destruct (Z.eqb_spec quota 0); [lia|]. cbn [orb].
  pose proof (Hc space 8 w4) as A5. destruct (os_calloc space 8 w4) as [[|] w5]; cbn [fst negb] in *; [|by apply (Hfail false)].
  rewrite common_classes_filter. set (cands := filter _ (zrange 0 (Z.to_nat space))).
  assert (Ef : cands = filter (all_have (bn_victim_pool bn :: background_pool bn)) (zrange 0 (Z.to_nat space))) by (apply filter_agree; intros c Hin%elem_zrange; apply Hcs; lia).
  replace (u64_mul g 2) with (g * 2) by (symmetry; apply u64_small; unfold in_u64; lia). rewrite <- Ef. destruct (Z.ltb_spec (Z.of_nat (List.length cands)) (g * 2)); [cbn [fst]; lia|]. cbn [fst].
  apply shuffled_groups; [lia|lia|apply NoDup_filter; rewrite zrange_seqZ; apply NoDup_seqZ|]. rewrite Ef. intros c [He Hin]%list_elem_of_filter. apply elem_zrange in Hin. split; [lia|done].
Qed.

(** ** Collecting *)

Section Chosen.
Context (pools : list memory_pool) (v d : list Z).
Hypothesis Hchosen : chosen_ok space g (all_have pools) v d.

Lemma pool_has p c : p ∈ pools -> all_have pools c -> quota <= occurs c (line_class m p k <$> all_lines p k).
Proof. intros Hin Hall. unfold all_have in Hall. rewrite Forall_forall in Hall. by apply Hall. Qed.

(** The lines of the candidate at a position. *)
Definition candidate_lines (p : memory_pool) (set : line_set) (i : Z) : Prop :=
  exists base L, pool_ok p base k /\ selection m p base k (level_classes g (g / 4 * i) v d) quota set L.

Fixpoint candidates_lines (i : Z) (ps : list memory_pool) (sets : list line_set) : Prop :=
  match ps, sets with
  | p :: ps, set :: sets => p ∈ pools /\ candidate_lines p set i /\ candidates_lines (i + 1) ps sets
  | [], [] => True
  | _, _ => False
  end.

Lemma collect_candidates_spec ps : forall i sets w, Forall usable ps -> (forall p, p ∈ ps -> p ∈ pools) -> List.length sets = List.length ps ->
  0 <= i -> i + Z.of_nat (List.length ps) <= CANDIDATE_COUNT ->
  let '(ok, sets', _) := collect_candidates g sd i ps sets m (offset_classes m k) space v d quota w in
  if ok then candidates_lines i ps sets' else allocations_succeed W -> False.
Proof.
  destruct Hchosen as [_ Hv Hd _]. induction ps as [|p ps IH]; intros i [|set sets] w Hus Hin Hl Hi Hb; try discriminate; [done|]. apply Forall_cons in Hus as [[base Hp] Hus]. cbn [List.length] in Hl, Hb.
  cbn [collect_candidates]. destruct (candidate_shared i g) as [-> Hs]; [lia|done|done|]. rewrite (candidate_classes_level _ g v d Hs Hv Hd). set (seed := Z.lxor sd _).
  pose proof (level_collect m k base p quota g (all_have pools) v d Hm Hspace Hp Hgroup Hquota Hchosen (fun c => pool_has p c (Hin p (list_elem_of_here p ps))) (g / 4 * i) seed set w Hs) as Hcol.
  destruct (collect_line_set _ _ _ _ _ _ _ _ _ w) as [[rc set'] w1]. destruct Hcol as [[-> Hsel]|[-> Hno]]; cbn [Z.eqb negb]; [|done].
  specialize (IH (i + 1) sets w1 Hus (fun q Hq => Hin q (list_elem_of_further q p ps Hq)) (Nat.succ_inj _ _ Hl) ltac:(lia) ltac:(lia)). destruct (collect_candidates _ _ _ ps _ _ _ _ _ _ _ w1) as [[[|] sets'] w2]; [|exact IH].
  cbn [candidates_lines]. split; [apply Hin; by left|]. split; [|exact IH]. by eexists _, _.
Qed.

(** ** The acceptance criterion *)

(** What is measured of a candidate is what it is meant to share. *)
Definition overlap_exact (i : Z) (o : candidate_overlap) : Prop :=
  overlap_shared o = g / 4 * i /\ overlap_intersection o = g / 4 * i * quota /\ overlap_union o = (2 * g - g / 4 * i) * quota.

Fixpoint overlaps_exact (i : Z) (os : list candidate_overlap) : Prop :=
  match os with [] => True | o :: os => overlap_exact i o /\ overlaps_exact (i + 1) os end.

Lemma accept_candidates_spec ps : forall i sets w, candidates_lines i ps sets -> 0 <= i -> i + Z.of_nat (List.length ps) <= CANDIDATE_COUNT ->
  match (accept_candidates g i sets m space (group_hist (Z.to_nat space) quota v) quota w).1 with
  | Some os => List.length os = List.length ps /\ overlaps_exact i os
  | None => allocations_succeed W -> False
  end.
Proof.
  induction ps as [|p ps IH]; intros i [|set sets] w Hsets Hi Hb; try done. destruct Hsets as (Hin & (base & L & Hp & Hsel) & Hsets). cbn [List.length] in Hb.
  cbn [accept_candidates]. destruct (candidate_shared i g) as [-> Hs]; [lia|done|done|].
  assert (Hc : allocations_succeed W -> (os_calloc space 8 w).1 = true) by (intros [Ha _]; apply Ha). destruct (os_calloc space 8 w) as [[|] w1]; cbn [fst negb] in *; [|intros Ha; by specialize (Hc Ha)].
  rewrite (build_histogram_selection m p base k Hm Hp _ _ _ _ Hsel). fold (group_hist (Z.to_nat space) quota (level_classes g (g / 4 * i) v d)).
  destruct (level_histograms m k base p quota g (all_have pools) v d Hm Hspace Hp Hgroup Hquota Hchosen (fun c => pool_has p c Hin) (g / 4 * i) Hs) as (E1 & E2 & E3 & E4 & X1 & X2).
  replace (u64_mul 2 g) with (u64_mul g 2) by (unfold u64_mul; by rewrite Z.mul_comm).
  destruct (histogram_jaccard _ _ _) as [[j i'] u]. cbn [fst snd] in E2, E3. rewrite E1, E2, E3, E4, X1, X2, !Z.eqb_refl. cbn [negb orb].
  specialize (IH (i + 1) sets w1 Hsets ltac:(lia) ltac:(lia)). destruct (accept_candidates _ _ sets _ _ _ _ w1) as [[os|] w2]; cbn [fst] in *; [|exact IH].
  destruct IH as [Hl IH]. cbn. split; [by f_equal|]. split; [done|exact IH].
Qed.
End Chosen.

Lemma candidates_lines_length pools v d ps : forall i sets, candidates_lines pools v d i ps sets -> List.length sets = List.length ps.
Proof. induction ps as [|p ps IH]; intros i [|s sets]; try done. intros (_ & _ & Hl). cbn. f_equal. by eapply IH. Qed.

Lemma candidates_lines_at pools v d ps : forall i sets j p set, candidates_lines pools v d i ps sets -> ps !! j = Some p -> sets !! j = Some set -> candidate_lines v d p set (i + Z.of_nat j).
Proof.
  induction ps as [|q ps IH]; intros i [|s sets] j p set Hl Hp Hs; try done. destruct Hl as (_ & Hq & Hl). destruct j as [|j]; cbn in Hp, Hs.
  - injection Hp as ->. injection Hs as ->. by rewrite Z.add_0_r.
  - specialize (IH (i + 1) sets j p set Hl Hp Hs). by replace (i + Z.of_nat (S j)) with (i + 1 + Z.of_nat j) by lia.
Qed.

Lemma overlaps_exact_at os : forall i j o, overlaps_exact i os -> os !! j = Some o -> overlap_exact (i + Z.of_nat j) o.
Proof.
  induction os as [|x os IH]; intros i [|j] o Hl Ho; try done; cbn in Ho; destruct Hl as [Hx Hl].
  - injection Ho as ->. by rewrite Z.add_0_r.
  - specialize (IH (i + 1) j o Hl Ho). by replace (i + Z.of_nat (S j)) with (i + 1 + Z.of_nat j) by lia.
Qed.

Lemma victim_level pools v d : chosen_ok space g (all_have pools) v d -> level_classes g g v d = v.
Proof. intros [_ Hv _ _]. unfold level_classes. rewrite Z.sub_diag. change (take (Z.to_nat 0) d) with (@nil Z). by rewrite app_nil_r, firstn_all2 by lia. Qed.

(** C4: the selection of the five candidates. It fails only when an allocation fails
    or fewer than twice the group size of classes have the lines in all six pools.
    Otherwise the victim has the lines of its group, and the candidate at position
    [i] those of [i] quarters of the victim's classes and of other classes for the
    rest; the shared classes, the intersection and the union that are recomputed
    from the addresses are exactly those that are meant, for every candidate. *)
Theorem candidates_exact bn w : Forall usable (bn_victim_pool bn :: background_pool bn) -> Z.of_nat (List.length (background_pool bn)) = CANDIDATE_COUNT ->
  List.length (background_set bn) = List.length (background_pool bn) ->
  match select_lines g sd bn m (offset_classes m k) (2 ^ mask_count m) quota w with
  | (Some os, bn', _) => exists v d, chosen_ok (2 ^ mask_count m) g (all_have (bn_victim_pool bn :: background_pool bn)) v d /\
      (exists base L, selection m (bn_victim_pool bn) base k v quota (bn_victim_set bn') L) /\ List.length (background_set bn') = List.length (background_pool bn) /\
      (forall i p set, background_pool bn !! i = Some p -> background_set bn' !! i = Some set ->
        exists base L, selection m p base k (level_classes g (g / 4 * Z.of_nat i) v d) quota set L) /\
      Z.of_nat (List.length os) = CANDIDATE_COUNT /\ forall i o, os !! i = Some o -> overlap_exact (Z.of_nat i) o
  | (None, _, _) => allocations_succeed W ->
      Z.of_nat (List.length (filter (all_have (bn_victim_pool bn :: background_pool bn)) (zrange 0 (Z.to_nat (2 ^ mask_count m))))) < 2 * g
  end.
Proof.
  intros Hus H5 Hl. unfold select_lines. pose proof (multi_choose_spec bn w Hus) as Hch. destruct (choose_classes _ _ _ _ _ _ _ w) as [[[v d]|] w1]; cbn [fst] in Hch; [|exact Hch].
  set (pools := bn_victim_pool bn :: background_pool bn) in *. pose proof Hus as Hus2. apply Forall_cons in Hus2 as [[bv Hv] Hbg]. unfold collect_sets.
  pose proof (level_collect m k bv (bn_victim_pool bn) quota g (all_have pools) v d Hm Hspace Hv Hgroup Hquota Hch (fun c => pool_has pools _ c (list_elem_of_here _ _))
    g (Z.lxor sd 0x4444444444444444) (bn_victim_set bn) w1 ltac:(lia)) as Hcol. rewrite (victim_level pools v d Hch) in Hcol.
  destruct (collect_line_set _ _ _ _ _ _ _ _ _ w1) as [[rc vs] w2]. destruct Hcol as [[-> Hsel]|[-> Hno]]; cbn [Z.eqb negb]; [|intros Ha; by destruct Hno].
  pose proof (collect_candidates_spec pools v d Hch (background_pool bn) 0 (background_set bn) w2 Hbg (fun p Hp => list_elem_of_further p _ _ Hp) Hl ltac:(lia) ltac:(lia)) as Hcs.
  destruct (collect_candidates _ _ _ _ _ _ _ _ _ _ _ w2) as [[[|] sets] w3]; cbn [negb]; [|intros Ha; by destruct Hcs]. unfold accept_sets. cbn [bn_victim_set background_set].
  assert (Hc : allocations_succeed W -> (os_calloc space 8 w3).1 = true) by (intros [Ha _]; apply Ha). destruct (os_calloc space 8 w3) as [[|] w4]; cbn [fst negb] in *; [|intros Ha; by specialize (Hc Ha)].
  rewrite (build_histogram_selection m _ bv k Hm Hv _ _ _ _ Hsel). fold (group_hist (Z.to_nat space) quota v).
  pose proof (accept_candidates_spec pools v d Hch (background_pool bn) 0 sets w4 Hcs ltac:(lia) ltac:(lia)) as Hacc. destruct (accept_candidates _ _ _ _ _ _ _ w4) as [[os|] w5]; cbn [fst] in Hacc; [|intros Ha; by destruct Hacc].
  destruct Hacc as [Hlo Hacc]. exists v, d. conjs; try done; [by eexists _, _|by eapply candidates_lines_length| |lia|].
  - intros i p set Hp Hs. destruct (candidates_lines_at pools v d _ 0 sets i p set Hcs Hp Hs) as (base & L & _ & HL). by exists base, L.
  - intros i o Ho. exact (overlaps_exact_at os 0 i o Hacc Ho).
Qed.

(** ** What was accepted *)

Lemma length_collect_candidates mp ocs sp v d q ps : forall i sets w, List.length (collect_candidates g sd i ps sets mp ocs sp v d q w).1.2 = List.length sets.
Proof.
  induction ps as [|p ps IH]; intros i [|set sets] w; try done. cbn [collect_candidates]. destruct (collect_line_set _ _ _ _ _ _ _ _ _ w) as [[rc set'] w1].
  destruct (negb _); [done|]. specialize (IH (i + 1) sets w1). destruct (collect_candidates _ _ _ ps _ _ _ _ _ _ _ w1) as [[ok sets'] w2]. cbn [fst snd List.length] in *. by f_equal.
Qed.

(** What is accepted is exact, wherever the lines come from. *)
Lemma accepted_exact mp sp vh sets : g * quota < 288230376151711744 -> forall i w os w', 0 <= i -> i + Z.of_nat (List.length sets) <= CANDIDATE_COUNT ->
  accept_candidates g i sets mp sp vh quota w = (Some os, w') -> List.length os = List.length sets /\ overlaps_exact i os.
Proof.
  intros Hfit. induction sets as [|set sets IH]; intros i w os w' Hi Hb; [intros [= <- _]; by split|]. cbn [List.length] in Hb. cbn [accept_candidates].
  destruct (candidate_shared i g) as [-> Hs]; [lia|done|done|]. destruct (os_calloc sp 8 w) as [ok w1]. destruct (negb ok); [done|]. destruct (build_histogram _ _ _) as [hist|]; [|done].
  destruct (histogram_jaccard _ _ _) as [[j i'] u]. destruct (negb (histogram_unique_classes _ _ =? g) || _ || _ || _) eqn:Eb; [done|]. bool_hyps.
  destruct (accept_candidates _ _ sets _ _ _ _ w1) as [[os'|] w2] eqn:E; [|done]. cbn [fmap option_fmap option_map]. intros Eo. injection Eo as <- _.
  destruct (IH (i + 1) w1 os' w2 ltac:(lia) ltac:(lia) E) as [Hl IHo]. split; [cbn; by f_equal|]. split; [|exact IHo]. unfold overlap_exact. cbn [overlap_shared overlap_intersection overlap_union].
  assert (X1 : u64_mul (g / 4 * i) quota = g / 4 * i * quota) by (apply u64_small; unfold in_u64; nia).
  assert (X2 : u64_mul (u64_sub (u64_mul 2 g) (g / 4 * i)) quota = (2 * g - g / 4 * i) * quota).
  { unfold u64_mul, u64_sub. rewrite (u64_small (2 * g)), (u64_small (2 * g - _)), u64_small by (unfold in_u64; nia). done. }
  rewrite <- X1, <- X2. done.
Qed.
End World.
End Select.

(** The shares of the candidates when the stages of [main] succeed. *)

Section Prepared.
Context {W : Type} `{HO : OS W} `{HB : BinFile W} `{HM : Memory W}.
Implicit Types w : W.

Lemma select_lines_accepted g sd quota bn mp ocs sp w os bn' w' : 0 < g < 6148914691236517205 -> g mod 4 = 0 -> 0 < quota -> g * quota < 288230376151711744 ->
  Z.of_nat (List.length (background_set bn)) = CANDIDATE_COUNT -> select_lines g sd bn mp ocs sp quota w = (Some os, bn', w') ->
  Z.of_nat (List.length os) = CANDIDATE_COUNT /\ forall i o, os !! i = Some o -> overlap_exact quota g (Z.of_nat i) o.
Proof.
  intros Hg Hm Hq Hfit H5. unfold select_lines. destruct (choose_classes _ _ _ _ _ _ _ w) as [[[v d]|] w1]; [|done]. unfold collect_sets.
  destruct (collect_line_set _ _ _ _ _ _ _ _ _ w1) as [[rc vs] w2]. destruct (negb _); [done|].
  pose proof (length_collect_candidates g sd mp ocs sp v d quota (background_pool bn) 0 (background_set bn) w2) as Hl.
  destruct (collect_candidates _ _ _ _ _ _ _ _ _ _ _ w2) as [[ok sets] w3]. cbn [fst snd] in Hl. destruct (negb ok); [done|]. unfold accept_sets. cbn [bn_victim_set background_set].
  destruct (os_calloc sp 8 w3) as [ok' w4]. destruct (negb ok'); [done|]. destruct (build_histogram _ _ _) as [vh|]; [|done].
  destruct (accept_candidates _ _ _ _ _ _ _ w4) as [os1 w5] eqn:Ea. intros E. injection E as -> _ _.
  destruct (accepted_exact quota g Hg Hm ltac:(unfold in_u64; nia) mp sp vh sets Hfit 0 w4 os w5 ltac:(lia) ltac:(lia) Ea) as [Hlo Hex]. split; [lia|]. intros i o Ho. exact (overlaps_exact_at quota g os 0 i o Hex Ho).
Qed.

(** The shares of the candidates when the stages of [main] succeed. *)
Lemma prepared_exact mib workset_mib g sd sz w os bn' w' : in_u64 workset_mib -> 0 < workset_mib -> 0 < g ->
  prepare mib workset_mib g sd sz bench_zero w = (Some os, bn', w') ->
  exists quota, g mod 4 = 0 /\ g * quota * CACHELINE_BYTES = workset_mib * MIB_BYTES /\ Z.of_nat (List.length os) = CANDIDATE_COUNT /\
    forall i o, os !! i = Some o -> overlap_exact quota g (Z.of_nat i) o.
Proof.
  intros Hw Hpos Hg. unfold prepare. destruct (load_mapping _ _ w) as [[[rc c] m] w1]. destruct (negb _); [done|]. destruct (class_space_from_mapping _) as [sp|]; [|done].
  destruct (build_offset_classes _ _ w1) as [[ocs|] w2]; [|done]. destruct (workset_plan workset_mib g) as [[lines quota]|] eqn:Ep; [|done].
  destruct (workset_plan_ok _ _ _ _ Hw Hpos Hg Ep) as (E1 & E2 & Hq & _). destruct (Z.eqb_spec (g mod 4) 0) as [Hm|]; cbn [negb]; [|done].
  destruct (create_pools _ _ _ _ w2) as [[ok bn] w3] eqn:Ec. destruct (negb ok); [done|].
  assert (Hset : background_set bn = replicate 5 line_set_zero).
  { unfold create_pools in Ec. destruct (pool_create _ _ _ _ _ w2) as [[rc2 v] w4]. destruct (negb _); [by injection Ec as _ <- _|].
    destruct (create_candidate_pools _ _ _ _ _ w4) as [[ok2 ps] w5]. by injection Ec as _ <- _. }
  destruct (select_lines _ _ _ _ _ _ _ w3) as [[[o|] bn2] w4] eqn:Es; [|done]. destruct (build_chains _ _ _ w4) as [[|] w5]; [|done]. intros E. injection E as -> _ _.
  assert (Hfit : workset_mib * 1048576 <= UINT64_MAX).
  { unfold workset_plan in Ep. destruct (Z.ltb_spec (UINT64_MAX / MIB_BYTES) workset_mib) as [|Hle]; [done|]. pose proof (Z.mul_div_le UINT64_MAX MIB_BYTES ltac:(reflexivity)). unfold MIB_BYTES in *. nia. }
  unfold UINT64_MAX in Hfit. exists quota. split; [done|]. split; [unfold CACHELINE_BYTES, MIB_BYTES; lia|].
  eapply select_lines_accepted; [nia|done|lia|nia|by rewrite Hset|exact Es].
Qed.
End Prepared.
