(* ===== verification/MultiTrace.v ===== *)
(** * What a run does, in order

    Any machine with a record of what the program does to control files and to
    processes: the bytes that are written and where, the children that are started
    and the signals that are sent.  A run of the five candidates that succeeds has
    set the limit of every candidate before it starts one, and has moved each of
    them to its cgroup before it lets any of them run. *)
From S2P Require Import Prelude Float64 CString Os Calibration CalibrationLoad CalibrationRun OracleSys OraclePool OracleLines OracleChain OracleIo OracleRun OracleMain OverlapSweep MultiCore.
From Stdlib Require Import Ascii String.
Local Open Scope Z_scope.

Inductive event := Wrote (path : string) (bytes : list Z) | Started (pid : Z) | Signalled (pid : Z) (sig : worker_signal).

(** The paths of descriptors opened for writing, and the record. *)
Record trace := mk_trace { tr_paths : gmap Z string; tr_events : list event }.

#[export] Instance trace_settable : Settable trace := fun t => mk_trace (tr_paths t) (tr_events t).

Definition traced (W : Type) : Type := W * trace.

Definition events {W} (t : traced W) : list event := tr_events t.2.

(** ** The machine with the record *)

Section Traced.
Context {W : Type} `{HO : OS W} `{HF : Files W} `{HK : Workers W}.

(** A call that is not recorded, one that returns nothing, and one that is. *)
Definition silent {A} (f : W -> A * W) (t : traced W) : A * traced W := let '(a, w) := f t.1 in (a, (w, t.2)).
Definition silent_unit (f : W -> W) (t : traced W) : traced W := (f t.1, t.2).
Definition noted {A} (f : W -> A * W) (note : A -> trace -> trace) (t : traced W) : A * traced W := let '(a, w) := f t.1 in (a, (w, note a t.2)).

Definition note_event (e : event) (t : trace) : trace := t <| tr_events ::= fun l => l ++ [e] |>.

#[export] Instance traced_os : OS (traced W) := {|
  os_pagesize := silent os_pagesize;
  os_clk_tck := silent os_clk_tck;
  os_clock := silent os_clock;
  os_open path := silent (os_open path);
  os_pread fd n off := silent (os_pread fd n off);
  os_close fd t := (os_close fd t.1, t.2 <| tr_paths ::= delete fd |>);
  os_fopen path := silent (os_fopen path);
  os_fclose := silent os_fclose;
  os_readlink path := silent (os_readlink path);
  os_calloc n size := silent (os_calloc n size);
  os_fopen_w path := silent (os_fopen_w path);
  os_fprintf path text := silent (os_fprintf path text);
  os_fclose_w path := silent (os_fclose_w path)
|}.

#[export] Instance traced_files : Files (traced W) := {|
  fl_getpid t := fl_getpid t.1;
  fl_open_write path := noted (fl_open_write path) (fun fd t => t <| tr_paths ::= <[fd := path]> |>);
  fl_write fd bytes := noted (fl_write fd bytes) (fun r t =>
    match r, tr_paths t !! fd with inl n, Some path => note_event (Wrote path (take (Z.to_nat n) bytes)) t | _, _ => t end);
  fl_read fd n := silent (fl_read fd n);
  fl_mkdir path := silent (fl_mkdir path);
  fl_rmdir path := silent_unit (fl_rmdir path);
  fl_pipe := silent fl_pipe
|}.

#[export] Instance traced_workers : Workers (traced W) := {|
  wk_fork := noted wk_fork (fun pid t => match pid with Some pid => note_event (Started pid) t | None => t end);
  wk_wait untraced pid t := match wk_wait untraced pid t.1 with None => None | Some (r, w) => Some (r, (w, t.2)) end;
  wk_kill pid sig := noted (wk_kill pid sig) (fun _ => note_event (Signalled pid sig));
  wk_setaffinity cpu := silent (wk_setaffinity cpu);
  wk_raise_stop := silent wk_raise_stop
|}.
End Traced.

(** ** Actions *)

(** A text that is written in any number of pieces, a child that is started, and
    one that is let run. *)
Inductive action := Write (path text : string) | Start (pid : Z) | Continue (pid : Z).

Inductive performs : list action -> list event -> Prop :=
  | performs_nil : performs [] []
  | performs_write path text pieces acts evs : List.concat pieces = text_bytes (c_str text) -> performs acts evs -> performs (Write path text :: acts) ((Wrote path <$> pieces) ++ evs)
  | performs_start pid acts evs : performs acts evs -> performs (Start pid :: acts) (Started pid :: evs)
  | performs_continue pid acts evs : performs acts evs -> performs (Continue pid :: acts) (Signalled pid SIG_CONT :: evs).

Lemma performs_app acts acts' evs evs' : performs acts evs -> performs acts' evs' -> performs (acts ++ acts') (evs ++ evs').
Proof. induction 1; intros H'; cbn; rewrite <- ?app_assoc; [done|by constructor; auto..]. Qed.

Section Does.
Context {W : Type} `{HO : OS W} `{HF : Files W} `{HK : Workers W}.
Implicit Types t : traced W.

(** Between [t] and [t'] exactly these actions are performed. *)
Definition does (acts : list action) t t' : Prop := exists evs, events t' = events t ++ evs /\ performs acts evs.

Lemma does_nothing t t' : events t' = events t -> does [] t t'.
Proof. intros E. exists []. split; [by rewrite app_nil_r|constructor]. Qed.

Lemma does_app acts acts' t1 t2 t3 : does acts t1 t2 -> does acts' t2 t3 -> does (acts ++ acts') t1 t3.
Proof. intros (e1 & E1 & P1) (e2 & E2 & P2). exists (e1 ++ e2). split; [by rewrite E2, E1, app_assoc|by apply performs_app]. Qed.

Lemma does_quiet acts t1 t2 t3 : does acts t1 t2 -> events t3 = events t2 -> does acts t1 t3.
Proof. intros (e & E & P) H. exists e. split; [by rewrite H|done]. Qed.

Lemma does_start pid t t' : events t' = events t ++ [Started pid] -> does [Start pid] t t'.
Proof. intros E. exists [Started pid]. split; [done|repeat constructor]. Qed.

(** ** The calls *)

Lemma write_full_does fuel fd path : forall bytes t t', tr_paths t.2 !! fd = Some path -> write_full fuel fd bytes t = Some (0, t') ->
  exists pieces, events t' = events t ++ (Wrote path <$> pieces) /\ List.concat pieces = bytes.
Proof.
  induction fuel as [|fuel IH]; intros bytes [w tr] t' Hp; [done|]. cbn [write_full]. destruct bytes as [|b bytes]; [intros [= <-]; exists []; by rewrite app_nil_r|].
  cbn [fl_write traced_files]. unfold noted. cbn [fst snd] in *. destruct (fl_write fd (b :: bytes) w) as [[n|e] w1].
  - rewrite Hp. destruct (n =? 0); [done|]. intros E. destruct (IH _ (w1, note_event (Wrote path (take (Z.to_nat n) (b :: bytes))) tr) _ Hp E) as (pieces & H1 & H2).
    exists (take (Z.to_nat n) (b :: bytes) :: pieces). split; [|cbn [List.concat]; by rewrite H2, take_drop]. rewrite H1. unfold events. cbn. by rewrite <- app_assoc.
  - destruct (bool_decide (e = EINTR)); [|done]. intros E. by destruct (IH _ (w1, tr) _ Hp E) as (pieces & H1 & H2); exists pieces.
Qed.

Lemma open_write_noted path t fd t' : fl_open_write path t = (fd, t') -> tr_paths t'.2 !! fd = Some path /\ events t' = events t.
Proof. cbn. unfold noted. destruct (fl_open_write path t.1) as [fd1 w1]. intros [= <- <-]. cbn. by rewrite lookup_insert_eq. Qed.

Lemma write_text_path_does fuel path text t t' : write_text_path fuel path text t = Some (0, t') -> does [Write path text] t t'.
Proof.
  unfold write_text_path. destruct (fl_open_write path t) as [fd t1] eqn:Eo. apply open_write_noted in Eo as [Hp He]. destruct (fd <? 0); [done|].
  destruct (write_full fuel fd _ t1) as [[rc t2]|] eqn:E; [|done]. destruct (Z.eqb_spec rc 0) as [->|]; cbn [negb]; [|done]. intros Et. injection Et as <-.
  destruct (write_full_does fuel fd path _ t1 t2 Hp E) as (pieces & H1 & H2). exists (Wrote path <$> pieces).
  split; [rewrite <- He; exact H1|]. rewrite <- (app_nil_r (Wrote path <$> pieces)). constructor; [done|constructor].
Qed.

Lemma set_cpu_max_does fuel path throttled q period t t' : cgroup_set_cpu_max fuel path throttled q period t = Some (0, t') ->
  does [Write (path +:+ "/cpu.max") (cpu_max_text throttled q period)] t t'.
Proof. unfold cgroup_set_cpu_max, cgroup_write_file. destruct (_ <=? _); [done|]. destruct (_ <=? _); [done|]. apply write_text_path_does. Qed.

(** The text a process is moved with. *)
Definition pid_text (pid : Z) : string := dec pid +:+ String newline EmptyString.

Lemma move_pid_does fuel path pid t t' : OracleIo.cgroup_move_pid fuel path pid t = Some (0, t') -> does [Write (path +:+ "/cgroup.procs") (pid_text pid)] t t'.
Proof. unfold OracleIo.cgroup_move_pid, cgroup_write_file. destruct (_ <=? _); [done|]. destruct (_ <=? _); [done|]. apply write_text_path_does. Qed.

Lemma wait_until_stopped_quiet fuel pid : forall t rc t', wait_until_stopped fuel pid t = Some (rc, t') -> events t' = events t.
Proof.
  induction fuel as [|fuel IH]; intros [w tr] rc t'; [done|]. cbn [wait_until_stopped wk_wait traced_workers]. cbn [fst snd]. destruct (wk_wait true pid w) as [[[|st|e] w1]|]; try by intros [= _ <-].
  destruct (bool_decide _); [intros E; exact (IH _ _ _ E)|by intros [= _ <-]].
Qed.

Lemma wait_success_quiet fuel pid : forall t rc t', wait_success fuel pid t = Some (rc, t') -> events t' = events t.
Proof.
  induction fuel as [|fuel IH]; intros [w tr] rc t'; [done|]. cbn [wait_success wk_wait traced_workers]. cbn [fst snd]. destruct (wk_wait false pid w) as [[[|st|e] w1]|]; [| | |done].
  - by intros [= _ <-].
  - destruct st; [destruct (_ =? 0)|..]; by intros [= _ <-].
  - destruct (bool_decide _); [intros E; exact (IH _ _ _ E)|by intros [= _ <-]].
Qed.

Lemma read_full_quiet fuel fd : forall n got t rc bytes t', read_full fuel fd n got t = Some (rc, bytes, t') -> events t' = events t.
Proof.
  induction fuel as [|fuel IH]; intros n got [w tr] rc bytes t'; [done|]. cbn [read_full fl_read traced_files]. unfold silent. cbn [fst snd]. destruct (0 <? n); [|by intros [= _ _ <-]].
  destruct (fl_read fd n w) as [[bs|e] w1]; [destruct (_ =? 0); [by intros [= _ _ <-]|]|destruct (bool_decide _); [|by intros [= _ _ <-]]]; intros E; exact (IH _ _ _ _ _ _ E).
Qed.

Lemma spawn_does fd t pid fd' t' : spawn_worker fd t = (pid, fd', t') -> 0 <= pid -> does [Start pid] t t'.
Proof.
  unfold spawn_worker. cbn [fl_pipe traced_files wk_fork traced_workers]. unfold silent, noted. destruct t as [w tr]. cbn [fst snd]. destruct (fl_pipe w) as [[[r wr]|] w1]; [|by intros [= <- _ _]].
  cbn [fst snd]. destruct (wk_fork w1) as [[p|] w2]; [|by intros [= <- _ _]]. intros [= <- _ <-] _. by apply does_start.
Qed.

(** ** The steps *)

Context (result_size : Z) (result_of_bytes : list Z -> worker_result).
Context (fuel : nat) (cgroups : cgroup_context) (throttled : list bool) (quota_us period_us : Z).

Lemma checked_does {S} (call : S -> traced W -> option (Z * traced W)) s t s' t' : checked call s t = Some (true, s', t') -> s' = s /\ call s t = Some (0, t').
Proof. unfold checked. destruct (call s t) as [[rc t1]|]; [|done]. destruct (Z.eqb_spec rc 0) as [->|]; [|done]. by intros [= <- <-]. Qed.

Lemma then_does {S} (a b : step S (traced W)) s t s' t' : then_step a b s t = Some (true, s', t') -> exists s1 t1, a s t = Some (true, s1, t1) /\ b s1 t1 = Some (true, s', t').
Proof. unfold then_step. destruct (a s t) as [[[[|] s1] t1]|]; [|done..]. intros E. by exists s1, t1. Qed.

Lemma continue_does {S} (pid : S -> Z) s t s' t' : continue_step pid s t = Some (true, s', t') -> s' = s /\ does [Continue (pid s)] t t'.
Proof.
  unfold continue_step. cbn [wk_kill traced_workers]. unfold noted. destruct t as [w tr]. cbn [fst snd]. destruct (wk_kill _ _ w) as [ok w1]. intros [= _ <- <-]. split; [done|].
  exists [Signalled (pid s) SIG_CONT]. split; [done|repeat constructor].
Qed.

(** A loop whose body changes nothing of the variables. *)
Lemma for_does {S} (body : nat -> step S (traced W)) (acts : nat -> list action) s : (forall i t s' t', body i s t = Some (true, s', t') -> s' = s /\ does (acts i) t t') ->
  forall n i t s' t', for_step n i body s t = Some (true, s', t') -> s' = s /\ does (seq i n ≫= acts) t t'.
Proof.
  intros Hbody. induction n as [|n IH]; intros i t s' t'; [intros [= <- <-]; split; [done|by apply does_nothing]|].
  cbn [for_step]. intros (s1 & t1 & E1 & E2)%then_does. destruct (Hbody i t s1 t1 E1) as [-> H1]. destruct (IH _ _ _ _ E2) as [-> H2]. split; [done|]. by eapply does_app.
Qed.

Definition limit_actions (i : nat) : list action := [Write (path_of cgroups i +:+ "/cpu.max") (cpu_max_text (nth i throttled false) quota_us period_us)].
Definition start_actions (pids : list Z) (i : nat) : list action := [Start (nth i pids (-1)); Write (path_of cgroups i +:+ "/cgroup.procs") (pid_text (nth i pids (-1)))].
Definition continue_actions (pids : list Z) (i : nat) : list action := [Continue (nth i pids (-1))].

Lemma control_does s t s' t' : mr_has_background (mv_out s) = true -> control_step fuel cgroups throttled quota_us period_us s t = Some (true, s', t') -> s' = s /\ does (seq 0 5 ≫= limit_actions) t t'.
Proof.
  intros Hb. unfold control_step, if_background, if_step. rewrite Hb. apply for_does. intros i t1 s1 t2 [-> E]%checked_does. split; [done|]. by eapply set_cpu_max_does.
Qed.

Lemma start_victim_does s t s' t' : start_victim fuel s t = Some (true, s', t') -> bg_pid s' = bg_pid s /\ mv_out s' = mv_out s /\ does [Start (mv_pid s')] t t'.
Proof.
  unfold start_victim, spawn_victim. destruct (spawn_worker (mv_fd s) t) as [[pid fd] t1] eqn:E. destruct (Z.ltb_spec pid 0); [done|]. intros [-> Ew]%checked_does.
  split; [done|]. split; [done|]. eapply does_quiet; [by eapply spawn_does|by eapply wait_until_stopped_quiet].
Qed.

Lemma start_candidate_does i s t s' t' : (i < List.length (bg_pid s))%nat -> start_candidate fuel cgroups i s t = Some (true, s', t') ->
  mv_pid s' = mv_pid s /\ mv_out s' = mv_out s /\ (exists pid, bg_pid s' = <[i := pid]> (bg_pid s)) /\ does (start_actions (bg_pid s') i) t t'.
Proof.
  intros Hi. unfold start_candidate, spawn_aggressor. destruct (spawn_worker _ t) as [[pid fd] t1] eqn:E. destruct (Z.ltb_spec pid 0); [done|].
  intros (s1 & t2 & E1 & E2)%then_does. apply checked_does in E1 as [-> E1], E2 as [-> E2]. split; [done|]. split; [done|]. split; [by eexists|].
  assert (Epid : nth i (bg_pid (s <| bg_pid ::= <[i := pid]> |> <| bg_fd ::= <[i := fd]> |>)) (-1) = pid) by (by apply nth_lookup_Some, list_lookup_insert_eq). unfold start_actions. rewrite Epid in *.
  apply (does_app [_] [_] t t2); [|by eapply move_pid_does]. eapply does_quiet; [by eapply spawn_does|by eapply wait_until_stopped_quiet].
Qed.

Lemma start_actions_insert pids i j pid : i <> j -> start_actions (<[i := pid]> pids) j = start_actions pids j.
Proof. intros Hne. unfold start_actions. by rewrite !nth_lookup, list_lookup_insert_ne. Qed.

Lemma start_candidates_does n : forall i s t s' t', (i + n = List.length (bg_pid s))%nat -> for_step n i (start_candidate fuel cgroups) s t = Some (true, s', t') ->
  mv_pid s' = mv_pid s /\ mv_out s' = mv_out s /\ List.length (bg_pid s') = List.length (bg_pid s) /\ (forall j, (j < i)%nat -> start_actions (bg_pid s') j = start_actions (bg_pid s) j) /\
  does (seq i n ≫= start_actions (bg_pid s')) t t'.
Proof.
  induction n as [|n IH]; intros i s t s' t' Hl; [intros [= <- <-]; do 4 (split; [done|]); by apply does_nothing|]. cbn [for_step]. intros (s1 & t1 & E1 & E2)%then_does.
  destruct (start_candidate_does i s t s1 t1 ltac:(lia) E1) as (H1 & H2 & [pid H3] & H4). assert (Hl1 : List.length (bg_pid s1) = List.length (bg_pid s)) by (by rewrite H3, length_insert).
  destruct (IH (S i) s1 t1 s' t') as (K1 & K2 & K3 & K4 & K5); [lia|done|]. split; [congruence|]. split; [congruence|]. split; [congruence|]. split.
  - intros j Hj. rewrite K4 by lia. rewrite H3. apply start_actions_insert. lia.
  - cbn [seq]. rewrite bind_cons. eapply does_app; [|exact K5]. by rewrite (K4 i) by lia.
Qed.

(** The order of a run of the candidates: every limit, the victim, then each
    candidate with its place, and only then the candidates and the victim go on. *)
Definition run_actions (victim : Z) (pids : list Z) : list action :=
  (seq 0 5 ≫= limit_actions) ++ [Start victim] ++ (seq 0 5 ≫= start_actions pids) ++ (seq 0 5 ≫= continue_actions pids) ++ [Continue victim].

Lemma finish_candidates_quiet n : forall i s t s' t', for_step n i (finish_candidate fuel) s t = Some (true, s', t') -> events t' = events t.
Proof.
  induction n as [|n IH]; intros i s t s' t'; [by intros [= _ <-]|]. cbn [for_step]. intros (s1 & t1 & E1 & E2)%then_does. rewrite (IH _ _ _ _ _ E2). unfold finish_candidate in E1.
  destruct (wait_success _ _ t) as [[rc t2]|] eqn:E; [|done]. destruct (rc =? 0); [|done]. injection E1 as _ <-. by eapply wait_success_quiet.
Qed.

Lemma read_candidates_quiet n : forall i s t s' t', for_step n i (read_candidate result_size result_of_bytes fuel) s t = Some (true, s', t') -> events t' = events t.
Proof.
  induction n as [|n IH]; intros i s t s' t'; [by intros [= _ <-]|]. cbn [for_step]. intros (s1 & t1 & E1 & E2)%then_does. rewrite (IH _ _ _ _ _ E2). unfold read_candidate in E1.
  destruct (read_full _ _ _ _ t) as [[[rc bytes] t2]|] eqn:E; [|done]. destruct (negb _); [done|]. injection E1 as _ <-. exact (read_full_quiet _ _ _ _ _ _ _ _ E).
Qed.

Lemma background_does s t s' t' : List.length (bg_pid s) = 5%nat -> mr_has_background (mv_out s) = true -> background_step fuel cgroups s t = Some (true, s', t') ->
  mv_pid s' = mv_pid s /\ mv_out s' = mv_out s /\ List.length (bg_pid s') = 5%nat /\ does ((seq 0 5 ≫= start_actions (bg_pid s')) ++ (seq 0 5 ≫= continue_actions (bg_pid s'))) t t'.
Proof.
  intros Hl Hb. unfold background_step, if_background, if_step. rewrite Hb. intros (s1 & t1 & E1 & E2)%then_does.
  destruct (start_candidates_does 5 0 s t s1 t1) as (H1 & H2 & H3 & _ & H5); [lia|exact E1|].
  destruct (for_does _ (continue_actions (bg_pid s1)) s1 (fun i t s' t' E => continue_does _ _ _ _ _ E) 5 0 t1 s' t' E2) as [-> H6].
  split; [done|]. split; [done|]. split; [lia|]. by eapply does_app.
Qed.

(** The rest of a run only waits and reads. *)
Lemma rest_quiet s t s' t' : then_step (finish_victim fuel) (then_step (if_background (for_candidates (finish_candidate fuel)))
    (then_step (read_victim result_size result_of_bytes fuel) (if_background (for_candidates (read_candidate result_size result_of_bytes fuel))))) s t = Some (true, s', t') -> events t' = events t.
Proof.
  intros (s1 & t1 & E1 & (s2 & t2 & E2 & (s3 & t3 & E3 & E4)%then_does)%then_does)%then_does.
  assert (H1 : events t1 = events t).
  { unfold finish_victim in E1. destruct (wait_success _ _ t) as [[rc tx]|] eqn:E; [|done]. destruct (rc =? 0); [|done]. injection E1 as _ <-. by eapply wait_success_quiet. }
  assert (H2 : events t2 = events t1).
  { unfold if_background, if_step in E2. destruct (mr_has_background _); [by eapply finish_candidates_quiet|by injection E2 as _ <-]. }
  assert (H3 : events t3 = events t2).
  { unfold read_victim in E3. destruct (read_full _ _ _ _ t2) as [[[rc bytes] tx]|] eqn:E; [|done]. destruct (negb _); [done|]. injection E3 as _ <-. exact (read_full_quiet _ _ _ _ _ _ _ _ E). }
  assert (H4 : events t' = events t3).
  { unfold if_background, if_step in E4. destruct (mr_has_background _); [by eapply read_candidates_quiet|by injection E4 as _ <-]. }
  congruence.
Qed.

(** What a run that succeeds does, in order, and nothing else. *)
Lemma run_workers_does has_background t out t' : run_workers result_size result_of_bytes fuel cgroups throttled quota_us period_us has_background t = Some (0, out, t') ->
  exists victim pids, List.length pids = 5%nat /\ does (if has_background then run_actions victim pids else [Start victim; Continue victim]) t t'.
Proof.
  unfold run_workers. set (s0 := mk_run_state _ _ _ _ _). destruct (run_steps _ _ _ _ _ _ _ s0 t) as [[[[|] s'] t1]|] eqn:E; [|by destruct (run_fail s' t1)|done]. intros Er. injection Er as _ <-.
  unfold run_steps in E. apply then_does in E as (s1 & t2 & Ec & (s2 & t3 & Ev & (s3 & t4 & Eb & (s4 & t5 & Ek & Erest)%then_does)%then_does)%then_does).
  apply rest_quiet in Erest. apply continue_does in Ek as [-> Ek]. destruct (start_victim_does s1 t2 s2 t3 Ev) as (V1 & V2 & V3). destruct has_background.
  - destruct (control_does s0 t s1 t2 eq_refl Ec) as [-> C1]. destruct (background_does s2 t3 s3 t4) as (B1 & B2 & B3 & B4); [by rewrite V1|by rewrite V2|exact Eb|].
    exists (mv_pid s3), (bg_pid s3). split; [done|]. eapply does_quiet; [|exact Erest]. unfold run_actions. eapply does_app; [exact C1|]. rewrite B1. eapply does_app; [exact V3|].
    rewrite app_assoc. eapply does_app; [exact B4|]. by rewrite <- B1.
  - injection Ec as <- <-. assert (Hb : mr_has_background (mv_out s2) = false) by (by rewrite V2). unfold background_step, if_background, if_step in Eb. rewrite Hb in Eb. injection Eb as <- <-.
    exists (mv_pid s2), (replicate 5 0). split; [done|]. eapply does_quiet; [|exact Erest]. by apply (does_app [_] [_] _ t3).
Qed.
End Does.
