(* ===== verification/MultiProps.v ===== *)
(** * What running five candidates leaves behind

    The triples of the steps, with loops over the candidates, every path through
    [main], the steps a run that succeeds has made, and what it reports, for any
    conditions. *)
From S2P Require Import Prelude Float64 CString Os Calibration CalibrationLoad CalibrationRun DramMapping OracleSys OraclePool OracleLines OracleClasses OracleSelect OracleStages OracleAccept OracleChain OracleIo OracleRun.
From S2P Require Import OracleMain OracleStepProps OracleHeld OracleMainProps OverlapConfig OverlapSweep OverlapLevels OracleDemo OverlapDemo MultiCore MultiSelect MultiTrace.
From Stdlib Require Import Ascii String.
Local Open Scope Z_scope.

(** ** Arrays of processes and descriptors *)

Lemma elem_at (l : list Z) i x : (i < List.length l)%nat -> x ∈ l <-> x = nth i l (-1) \/ x ∈ delete i l.
Proof.
  intros Hi. destruct (lookup_lt_is_Some_2 l i Hi) as [y Hy]. rewrite (nth_lookup_Some _ _ _ _ Hy).
  pose proof (delete_Permutation _ _ _ Hy) as Hp. rewrite Hp at 1. apply elem_of_cons.
Qed.

Lemma elem_put (l : list Z) i y x : (i < List.length l)%nat -> x ∈ <[i := y]> l <-> x = y \/ x ∈ delete i l.
Proof.
  intros Hi. rewrite (elem_at _ i) by (by rewrite length_insert). rewrite (nth_lookup_Some _ _ _ y) by (by apply list_lookup_insert_eq).
  assert (E : delete i (<[i := y]> l) = delete i l); [|by rewrite E]. clear. revert i. induction l as [|z l IH]; intros [|i]; cbn; try done. by rewrite IH.
Qed.

Lemma nth_put {A} (l : list A) i j x d : (i < List.length l)%nat -> nth j (<[i := x]> l) d = if decide (j = i) then x else nth j l d.
Proof.
  intros Hi. destruct (decide (j = i)) as [->|Hne]; [apply nth_lookup_Some, list_lookup_insert_eq; lia|]. by rewrite !nth_lookup, list_lookup_insert_ne.
Qed.

#[export] Instance multi_holds : Holds run_state := {|
  holds_pid s x := x = mv_pid s \/ x ∈ bg_pid s;
  holds_end s x := x = mv_fd s \/ x ∈ bg_fd s;
  background s := mr_has_background (mv_out s);
  shape s := (List.length (bg_pid s), List.length (bg_fd s))
|}.

(** For variables whose arrays are not touched. *)
Ltac plain := unfold is_pid, is_end; cbn; intros; intuition (subst; lia).

(** For variables whose arrays are read and written at [i]. *)
Ltac held i :=
  unfold is_pid, is_end; cbn; intros;
  repeat match goal with
  | |- context [?x ∈ <[i := _]> _] => rewrite (elem_put _ i) by lia
  | |- context [?x ∈ bg_pid ?s] => rewrite (elem_at (bg_pid s) i x) by lia
  | |- context [?x ∈ bg_fd ?s] => rewrite (elem_at (bg_fd s) i x) by lia
  | H : context [?x ∈ <[i := _]> _] |- _ => rewrite (elem_put _ i) in H by lia
  | H : context [?x ∈ bg_pid ?s] |- _ => rewrite (elem_at (bg_pid s) i x) in H by lia
  | H : context [?x ∈ bg_fd ?s] |- _ => rewrite (elem_at (bg_fd s) i x) in H by lia
  end; intuition (subst; lia).

(** For arrays that are given. *)
Ltac listed :=
  unfold is_pid, is_end; cbn; intros;
  repeat match goal with
  | |- context [_ ∈ _ ++ _] => rewrite elem_of_app
  | |- context [_ ∈ _ :: _] => rewrite elem_of_cons
  | H : context [_ ∈ _ ++ _] |- _ => rewrite elem_of_app in H
  | H : context [_ ∈ _ :: _] |- _ => rewrite elem_of_cons in H
  end; intuition (subst; lia).

Section Cleanup.
Context {W : Type} {HO : OS W} {HF : Files W} {HK : Workers W} {WL : WorkerLaws W}.
Context (result_size : Z) (result_of_bytes : list Z -> worker_result).
Context (fuel : nat) (cgroups : cgroup_context) (throttled : list bool) (quota_us period_us : Z).
Hypothesis Hfuel : (128 <= fuel)%nat.
Hypothesis Hsize : (Z.to_nat result_size < fuel)%nat.
Implicit Types w : W.

Lemma triple_if_candidates (P Q : run_state -> gmap Z worker_phase -> Prop) (a : step run_state W) :
  triple (fun s m => P s m /\ mr_has_background (mv_out s) = true) a (fun s m => mr_has_background (mv_out s) = true -> Q s m) ->
  (forall s m, P s m -> mr_has_background (mv_out s) = false -> Q s m) -> triple P (if_background a) Q.
Proof. exact (triple_background P a Q). Qed.

Definition sizes (s : run_state) : Prop := List.length (bg_pid s) = 5%nat /\ List.length (bg_fd s) = 5%nat.
Definition pid_at (s : run_state) (j : nat) : Z := nth j (bg_pid s) (-1).
Definition fd_at (s : run_state) (j : nat) : Z := nth j (bg_fd s) (-1).

(** The candidates from [i] on are not started; those before have stopped. *)
Definition started (i : nat) (s : run_state) (m : gmap Z worker_phase) : Prop :=
  waiting m (mv_pid s) /\ sizes s /\ (forall j, (j < i)%nat -> waiting m (pid_at s j)) /\ forall j, (i <= j)%nat -> pid_at s j = -1 /\ fd_at s j = -1.

Definition none_started (s : run_state) : Prop := sizes s /\ forall j, pid_at s j = -1 /\ fd_at s j = -1.

Lemma control_candidates_triple P : triple P (control_step fuel cgroups throttled quota_us period_us) P.
Proof.
  apply triple_if_candidates; [|done]. eapply triple_weaken; [|exact (fun s m H => proj1 H)|exact (fun s m H _ => H)].
  apply triple_for_same. intros i _. apply triple_checked. intros. by apply set_cpu_max_ends.
Qed.

Lemma multi_start_victim_triple : triple (fun s _ => mv_pid s = -1 /\ mv_fd s = -1 /\ none_started s) (start_victim fuel) (started 0).
Proof.
  intros w0 s w Hc (Hp & Hf & Hs & Hn). unfold start_victim, spawn_victim. destruct (spawn_worker (mv_fd s) w) as [[pid fd] w1] eqn:E.
  destruct (start_covered fuel s (fun pid fd => s <| mv_pid := pid |> <| mv_fd := fd |>) (mv_fd s) w0 w ltac:(lia) Hc ltac:(plain) ltac:(plain) Hf pid fd w1 E) as [Hc1 Hw].
  destruct (pid <? 0); [eexists false, _, w1; by conjs|]. destruct (Hw eq_refl) as (Hpos & rc & w2 & Ew & Hc2 & Hkeep & Hst). unfold checked. cbn [mv_pid set_field]. rewrite Ew.
  eexists _, _, w2. split; [reflexivity|]. split; [done|]. split; [done|]. intros Hrc%Z.eqb_eq. split; [split; [done|by apply Hst]|]. split; [done|]. split; [lia|]. intros j _. apply Hn.
Qed.

Lemma start_candidate_triple i : (i < 5)%nat -> triple (started i) (start_candidate fuel cgroups i) (started (S i)).
Proof.
  intros Hi w0 s w Hc (Hv & [Lp Lf] & Hrun & Hrest). destruct (Hrest i ltac:(lia)) as [Hp Hf]. unfold pid_at, fd_at in Hp, Hf.
  unfold start_candidate, spawn_aggressor. destruct (spawn_worker (nth i (bg_fd s) (-1)) w) as [[pid fd] w1] eqn:E. set (upd := fun pid fd => s <| bg_pid ::= <[i := pid]> |> <| bg_fd ::= <[i := fd]> |>).
  assert (Hsh : forall pid fd, (background (upd pid fd), shape (upd pid fd)) = (background s, shape s)) by (intros; cbn; by rewrite !length_insert).
  destruct (start_covered fuel s upd (nth i (bg_fd s) (-1)) w0 w ltac:(lia) Hc ltac:(held i) ltac:(held i) Hf pid fd w1 E) as [Hc1 Hw]. fold (upd pid fd).
  destruct (pid <? 0); [eexists false, _, w1; by conjs|]. destruct (Hw eq_refl) as (Hpos & rc & w2 & Ew & Hc2 & Hkeep & Hst).
  assert (Epid : nth i (bg_pid (upd pid fd)) (-1) = pid) by (cbn; rewrite nth_put, decide_True by (done || lia); done).
  unfold then_step, checked. rewrite Epid, Ew. destruct (Z.eqb_spec rc 0) as [->|]; [|by eexists false, _, w2; conjs].
  rewrite Epid. destruct (move_pid_ends fuel (path_of cgroups i) pid w2 Hfuel) as (rc2 & w3 & -> & Hk). eexists _, _, w3. split; [reflexivity|]. split; [by eapply covered_kept|]. split; [apply Hsh|]. intros _.
  destruct Hk as (Em & _). assert (Hmore : forall x, waiting (workers w) x -> waiting (workers w3) x) by (intros x [Hx Hxs]; split; [done|]; rewrite Em; by apply Hkeep).
  unfold started, sizes, pid_at, fd_at in *. cbn. rewrite !length_insert. conjs; try done; [by apply Hmore|..]; intros j Hj; rewrite !nth_put by lia.
  - destruct (decide (j = i)); [split; [done|rewrite Em; by apply Hst]|]. apply Hmore, Hrun. lia.
  - rewrite !decide_False by lia. apply Hrest. lia.
Qed.

(** The candidates before [i] were let run. *)
Definition continued (i : nat) (s : run_state) (m : gmap Z worker_phase) : Prop :=
  waiting m (mv_pid s) /\ sizes s /\ (forall j, (j < i)%nat -> let_run m (pid_at s j)) /\ forall j, (i <= j < 5)%nat -> waiting m (pid_at s j).

Lemma continue_candidate_triple i : (i < 5)%nat -> triple (continued i) (continue_step (fun s => nth i (bg_pid s) (-1))) (continued (S i)).
Proof.
  intros Hi. apply triple_continue. intros s m (Hv & [Lp Lf] & Hdone & Hrest). pose proof (Hrest i ltac:(lia)) as Hw.
  split; [split; [apply Hw|]; cbn; right; rewrite (elem_at _ i) by lia; by left|]. split; [by apply wake_waiting|]. split; [done|]. split.
  - intros j Hj. destruct (decide (j = i)) as [->|]; [by apply woken_let_run|]. apply wake_let_run, Hdone. lia.
  - intros j Hj. apply wake_waiting, Hrest. lia.
Qed.

(** With background all candidates were let run. *)
Definition candidates_run (s : run_state) (m : gmap Z worker_phase) : Prop :=
  if mr_has_background (mv_out s) then forall j, (j < 5)%nat -> let_run m (pid_at s j) else forall j, pid_at s j = -1 /\ fd_at s j = -1.

Lemma candidates_triple : triple (started 0) (background_step fuel cgroups) (fun s m => waiting m (mv_pid s) /\ sizes s /\ candidates_run s m).
Proof.
  apply triple_if_candidates.
  - eapply triple_weaken; [eapply triple_then|exact (fun s m H => proj1 H)|].
    + apply (triple_for started). intros i Hi. by apply start_candidate_triple.
    + eapply triple_weaken; [apply (triple_for continued); intros i Hi; by apply continue_candidate_triple| |exact (fun s m H => H)].
      intros s m (Hv & Hs & Hrun & _). split; [done|]. split; [done|]. split; [lia|]. intros j Hj. apply Hrun. change (Z.to_nat CANDIDATE_COUNT) with 5%nat. lia.
    + intros s m (Hv & Hs & Hrun & _) Hb. unfold candidates_run. by rewrite Hb.
  - intros s m (Hv & Hs & _ & Hrest) Hb. unfold candidates_run. rewrite Hb. conjs; try done. intros j. apply Hrest. lia.
Qed.

Lemma multi_continue_victim_triple : triple (fun s m => waiting m (mv_pid s) /\ sizes s /\ candidates_run s m) (continue_step mv_pid)
  (fun s m => let_run m (mv_pid s) /\ sizes s /\ candidates_run s m).
Proof.
  apply triple_continue. intros s m (Hv & Hs & Hc). split; [split; [apply Hv|cbn; auto]|]. split; [by apply woken_let_run|]. split; [done|]. unfold candidates_run in *.
  destruct (mr_has_background (mv_out s)); [|done]. intros j Hj. by apply wake_let_run, Hc.
Qed.

(** The victim and the candidates before [i] were waited for. *)
Definition finishing (i : nat) (s : run_state) (m : gmap Z worker_phase) : Prop :=
  mv_pid s = -1 /\ sizes s /\ (forall j, (j < i)%nat -> pid_at s j = -1) /\ forall j, (i <= j < 5)%nat -> let_run m (pid_at s j).

(** No worker is left; without background there are no pipes of candidates. *)
Definition finished (s : run_state) : Prop := mv_pid s = -1 /\ sizes s /\ forall j, pid_at s j = -1.
Definition quiet (s : run_state) : Prop := mr_has_background (mv_out s) = false -> forall j, fd_at s j = -1.

Lemma beyond (l : list Z) j : List.length l = 5%nat -> (5 <= j)%nat -> nth j l (-1) = -1.
Proof. intros Hl Hj. apply nth_overflow. lia. Qed.

Lemma multi_finish_victim_triple : triple (fun s m => let_run m (mv_pid s) /\ sizes s /\ candidates_run s m) (finish_victim fuel)
  (fun s m => mv_pid s = -1 /\ sizes s /\ candidates_run s m).
Proof.
  intros w0 s w Hc ([Hv Hve] & Hs & Hrest). unfold finish_victim.
  destruct (finish_covered fuel s (s <| mv_pid := -1 |>) (mv_pid s) w0 w ltac:(lia) Hc Hv) as (rc & w1 & -> & H1 & H2 & He); [split; [done|cbn; auto]|plain|plain|plain|done|].
  destruct (rc =? 0); eexists _, _, w1; (split; [reflexivity|]); [|done]. split; [done|]. split; [done|]. intros _. split; [done|]. split; [done|].
  unfold candidates_run, let_run, pid_at in *. cbn. destruct (mr_has_background (mv_out s)); [|done]. intros j Hj. destruct (Hrest j Hj). split; [done|by apply He].
Qed.

Lemma finish_candidate_triple i : (i < 5)%nat -> triple (finishing i) (finish_candidate fuel i) (finishing (S i)).
Proof.
  intros Hi w0 s w Hc (Hv & [Lp Lf] & Hdone & Hrest). pose proof (Hrest i ltac:(lia)) as [Hp Hpe]. unfold pid_at in Hp, Hpe. unfold finish_candidate.
  destruct (finish_covered fuel s (s <| bg_pid ::= <[i := -1]> |>) (nth i (bg_pid s) (-1)) w0 w ltac:(lia) Hc Hp) as (rc & w1 & -> & H1 & H2 & He).
  - split; [done|]. cbn. right. rewrite (elem_at _ i) by lia. by left.
  - held i.
  - held i.
  - done.
  - done.
  - destruct (rc =? 0); eexists _, _, w1; (split; [reflexivity|]); [|done]. split; [done|]. split; [cbn; by rewrite length_insert|]. intros _.
    unfold finishing, sizes, pid_at, let_run in *. cbn. rewrite length_insert. conjs; try done; intros j Hj; rewrite nth_put by lia; destruct (decide (j = i)); try done; try lia; [apply Hdone; lia|].
    destruct (Hrest j ltac:(lia)). split; [done|by apply He].
Qed.

Lemma finish_candidates_triple : triple (fun s m => mv_pid s = -1 /\ sizes s /\ candidates_run s m)
  (if_background (for_candidates (finish_candidate fuel))) (fun s _ => finished s /\ quiet s).
Proof.
  apply triple_if_candidates.
  - eapply triple_weaken; [apply (triple_for finishing); intros i Hi; by apply finish_candidate_triple| |].
    + intros s m [(Hv & Hs & HP) Hb]. unfold candidates_run in HP. rewrite Hb in HP. unfold finishing. conjs; [done|done|lia|]. intros j Hj. apply HP. lia.
    + intros s m (Hv & Hs & Hdone & _) Hb. split; [|intros Hno; congruence]. unfold finished. conjs; try done. intros j. destruct (decide (j < 5)%nat); [by apply Hdone|]. apply beyond; [apply Hs|lia].
  - intros s m (Hv & Hs & HP) Hb. unfold candidates_run in HP. rewrite Hb in HP. split; [unfold finished; conjs; try done; intros j; apply HP|]. intros _ j. apply HP.
Qed.

Lemma multi_read_victim_triple : triple (fun s _ => finished s /\ quiet s) (read_victim result_size result_of_bytes fuel) (fun s _ => finished s /\ quiet s /\ mv_fd s = -1).
Proof.
  intros w0 s w Hc [Hf Hq]. unfold read_victim. destruct (read_full_ends fuel (mv_fd s) result_size [] w Hsize) as (rc & bytes & w1 & -> & Hk).
  pose proof (covered_kept _ _ _ _ Hc Hk) as Hc1. destruct (negb (rc =? 0)); [eexists false, s, w1; by conjs|].
  eexists true, _, _. split; [reflexivity|]. split; [|by conjs]. eapply covered_close; [exact Hc1| | | |]; plain.
Qed.

(** The pipes of the candidates before [i] are closed. *)
Definition reading (i : nat) (s : run_state) (_ : gmap Z worker_phase) : Prop := finished s /\ mv_fd s = -1 /\ forall j, (j < i)%nat -> fd_at s j = -1.

Lemma read_candidate_triple i : (i < 5)%nat -> triple (reading i) (read_candidate result_size result_of_bytes fuel i) (reading (S i)).
Proof.
  intros Hi w0 s w Hc ((Hv & [Lp Lf] & Hpids) & Hvf & Hdone). unfold read_candidate.
  destruct (read_full_ends fuel (nth i (bg_fd s) (-1)) result_size [] w Hsize) as (rc & bytes & w1 & -> & Hk).
  pose proof (covered_kept _ _ _ _ Hc Hk) as Hc1. destruct (negb (rc =? 0)); [eexists false, s, w1; by conjs|].
  eexists true, _, _. split; [reflexivity|]. split; [|split; [cbn; by rewrite length_insert|]].
  - eapply covered_close; [exact Hc1|held i|held i|held i|done].
  - intros _. unfold reading, finished, sizes, fd_at, pid_at. cbn. rewrite length_insert. conjs; try done. intros j Hj. rewrite nth_put by lia. destruct (decide (j = i)); [done|]. apply Hdone. lia.
Qed.

(** Nothing is held any more. *)
Definition all_done (s : run_state) : Prop := finished s /\ mv_fd s = -1 /\ forall j, fd_at s j = -1.

Lemma read_candidates_triple : triple (fun s _ => finished s /\ quiet s /\ mv_fd s = -1) (if_background (for_candidates (read_candidate result_size result_of_bytes fuel))) (fun s _ => all_done s).
Proof.
  apply triple_if_candidates; [|intros s m (Hf & Hq & Hv) Hb; unfold all_done; conjs; try done; by apply Hq].
  eapply triple_weaken; [apply (triple_for reading); intros i Hi; by apply read_candidate_triple| |].
  - intros s m [(Hf & _ & Hv) _]. split; [done|]. split; [done|lia].
  - intros s m (Hf & Hv & Hdone) _. split; [done|]. split; [done|]. intros j. destruct (decide (j < 5)%nat); [by apply Hdone|]. apply beyond; [apply Hf|lia].
Qed.

Lemma multi_run_steps_triple : triple (fun s _ => mv_pid s = -1 /\ mv_fd s = -1 /\ none_started s)
  (run_steps result_size result_of_bytes fuel cgroups throttled quota_us period_us) (fun s _ => all_done s).
Proof.
  eapply triple_then; [apply control_candidates_triple|]. eapply triple_then; [apply multi_start_victim_triple|]. eapply triple_then; [apply candidates_triple|].
  eapply triple_then; [apply multi_continue_victim_triple|]. eapply triple_then; [apply multi_finish_victim_triple|]. eapply triple_then; [apply finish_candidates_triple|].
  eapply triple_then; [apply multi_read_victim_triple|apply read_candidates_triple].
Qed.

(** ** The end *)

Lemma end_candidates_covered w0 vf out pids : forall fds done w, List.length fds = List.length pids -> Forall (fun x => x = -1) done ->
  covered w0 (mk_run_state (-1) vf (done ++ pids) (done ++ fds) out) w -> exists gone w', Forall (fun x => x = -1) gone /\
    end_candidates pids fds w = Some w' /\ covered w0 (mk_run_state (-1) vf gone gone out) w'.
Proof.
  induction pids as [|pid pids IH]; intros [|fd fds] done w Hl Hdone Hc; try discriminate; [exists done, w; by rewrite !app_nil_r in Hc|].
  cbn [end_candidates].
  apply (covered_end_worker w0 _ (mk_run_state (-1) vf (done ++ -1 :: pids) (done ++ fd :: fds) out) w pid) in Hc as (w1 & -> & Hc); [|listed|listed|listed|done].
  cbn [mbind option_bind]. apply (IH fds (done ++ [-1])); [by injection Hl|apply Forall_app; split; [done|by constructor]|]. rewrite <- !app_assoc. cbn [app].
  eapply covered_close_end; [exact Hc|listed..].
Qed.

Lemma multi_run_fail_kept w0 s w : sizes s -> covered w0 s w -> exists w', run_fail s w = Some w' /\ kept w0 w'.
Proof.
  intros [Lp Lf] Hc. unfold run_fail.
  apply (covered_end_worker w0 s (mk_run_state (-1) (mv_fd s) ([] ++ bg_pid s) ([] ++ bg_fd s) (mv_out s)) w (mv_pid s)) in Hc as (w1 & -> & Hc); [|plain..]. cbn [mbind option_bind].
  apply end_candidates_covered in Hc as (gone & w2 & Hgone & -> & Hc); [|congruence|done]. rewrite Forall_forall in Hgone. cbn [mbind option_bind]. eexists. split; [reflexivity|].
  eapply (covered_close_end w0 _ (mk_run_state (-1) (-1) gone gone (mv_out s)) _ (mv_fd s)) in Hc; [|plain..].
  eapply covered_done; [exact Hc|..]; unfold is_pid, is_end; cbn; intros x [Hx [->|Hin]]; try lia; apply Hgone in Hin; lia.
Qed.

(** The candidates of a condition come to an end whatever fails on the way, with the
    code 0 or -1, and hold what was held before. *)
Lemma run_workers_ends has_background w :
  exists rc out w', run_workers result_size result_of_bytes fuel cgroups throttled quota_us period_us has_background w = Some (rc, out, w') /\ (rc = 0 \/ rc = -1) /\ kept w w'.
Proof.
  unfold run_workers. set (s0 := mk_run_state _ _ _ _ _).
  assert (Hnone : forall x, x ∈ replicate 5 (-1) -> x = -1) by (by intros x [-> _]%elem_of_replicate).
  assert (Hc0 : covered w s0 w) by (apply covered_start; unfold is_pid, is_end; cbn [s0 holds_pid holds_end multi_holds mv_pid mv_fd bg_pid bg_fd]; intros x [Hx [->|Hin%Hnone]]; lia).
  destruct (multi_run_steps_triple w s0 w Hc0) as (b & s & w1 & -> & Hc & Hbg & HQ); [by do 3 (split; [done|]); intros j; do 5 (destruct j; [done|]); destruct j|]. cbn in Hbg. destruct b.
  - destruct (HQ eq_refl) as ((P1 & _ & P2) & P3 & P4). eexists 0, _, w1. split; [done|]. split; [by left|].
    eapply covered_done; [exact Hc|..]; unfold is_pid, is_end; cbn; intros x [Hx [->|Hin]]; try lia.
    + apply (list_elem_of_lookup_1) in Hin as [j Hj]. specialize (P2 j). unfold pid_at in P2. rewrite (nth_lookup_Some _ _ _ _ Hj) in P2. lia.
    + apply (list_elem_of_lookup_1) in Hin as [j Hj]. specialize (P4 j). unfold fd_at in P4. rewrite (nth_lookup_Some _ _ _ _ Hj) in P4. lia.
  - destruct (multi_run_fail_kept w s w1) as (w2 & -> & Hk); [injection Hbg; done|done|]. eexists (-1), _, _. split; [done|]. by split; [right|].
Qed.
End Cleanup.

(** ** Every path through [main] *)

Section Release.
Context {W : Type} {HO : OS W} {HF : Files W} {HK : Workers W} {WL : WorkerLaws W} {HB : BinFile W} {HM : Memory W} {ML : MachineLaws W}.
Context (fuel : nat).
Hypothesis Hfuel : (128 <= fuel)%nat.
Implicit Types w : W.

(** The mappings of some pools. *)
Definition regions (ps : list memory_pool) : gset (Z * Z) := foldr (fun p X => pool_region p ∪ X) ∅ ps.

Lemma regions_none ps : Forall (fun p => p = memory_pool_zero) ps -> regions ps = ∅.
Proof. induction 1 as [|p ps -> Hps IH]; [done|]. change (pool_region memory_pool_zero ∪ regions ps = ∅). rewrite IH. unfold pool_region. cbn. set_solver. Qed.

(** The pools, and nothing else, are held since [w0]. *)
Definition bench_held (w0 : W) (bn : bench) (w : W) : Prop :=
  holds w0 w (regions (background_pool bn) ∪ (pool_region (bn_victim_pool bn) ∪ ∅)) /\ Forall (fun p => pool_region p ## (others w0).1) (bn_victim_pool bn :: background_pool bn).

Lemma bench_held_kept w0 bn bn' w w' : bench_held w0 bn w -> kept w w' -> bn_victim_pool bn' = bn_victim_pool bn -> background_pool bn' = background_pool bn -> bench_held w0 bn' w'.
Proof. intros [H1 H2] Hk Ev Eb. unfold bench_held. rewrite Ev, Eb. split; [by eapply holds_kept|done]. Qed.

Lemma none_apart w0 ps : Forall (fun p => p = memory_pool_zero) ps -> Forall (fun p => pool_region p ## (others w0).1) ps.
Proof. intros H. eapply Forall_impl; [exact H|]. intros p ->. unfold pool_region. cbn. set_solver. Qed.

Lemma zero_held w0 w : kept w0 w -> bench_held w0 bench_zero w.
Proof.
  intros Hk. split; [|apply none_apart; by repeat constructor]. cbn. unfold pool_region. cbn. rewrite !(left_id_L ∅ union). eapply holds_kept; [apply holds_start|done].
Qed.

Section Bench.
Context (mib workset_mib g sd : Z).

Lemma candidate_pools_held ps sz : forall i w0 w X, Forall (fun p => p = memory_pool_zero) ps -> holds w0 w X ->
  let '(_, ps', w') := create_candidate_pools mib sd i ps sz w in holds w0 w' (regions ps' ∪ X) /\ Forall (fun p => pool_region p ## (others w0).1) ps'.
Proof.
  induction ps as [|p ps IH]; intros i w0 w X Hz Hh; [cbn; rewrite (left_id_L ∅ union); by split|]. apply Forall_cons in Hz as [-> Hz]. cbn [create_candidate_pools].
  set (seed := Z.lxor sd _). pose proof (pool_create_holds (candidate_name i) mib sz seed w0 w X Hh) as Hp. destruct (pool_create _ _ _ _ _ w) as [[rc p] w1]. destruct Hp as [Hp Hd].
  destruct (negb _).
  - split; [|constructor; [done|by apply none_apart]]. change (regions (p :: ps)) with (pool_region p ∪ regions ps). by rewrite (regions_none ps Hz), (right_id_L ∅ union).
  - specialize (IH (i + 1) w0 w1 _ Hz Hp). destruct (create_candidate_pools _ _ _ ps _ w1) as [[ok ps'] w2]. destruct IH as [H1 H2]. split; [|by constructor].
    change (regions (p :: ps')) with (pool_region p ∪ regions ps'). by replace (pool_region p ∪ regions ps' ∪ X) with (regions ps' ∪ (pool_region p ∪ X)) by set_solver.
Qed.

Lemma multi_create_pools_held sz w0 w : kept w0 w -> let '(_, bn, w') := create_pools mib sd sz bench_zero w in bench_held w0 bn w'.
Proof.
  intros Hk. unfold create_pools. cbn [bn_victim_pool background_pool bench_zero]. assert (Hz : Forall (fun p => p = memory_pool_zero) (replicate 5 memory_pool_zero)) by by repeat constructor.
  pose proof (pool_create_holds "victim" mib sz (Z.lxor sd 0x1111111111111111) w0 w ∅ (holds_kept _ _ _ _ (holds_start w0) Hk)) as H1.
  destruct (pool_create "victim" _ _ _ _ w) as [[rc v] w1]. destruct H1 as [H1 D1]. destruct (negb _).
  - split; [|by constructor; [|apply none_apart]]. cbn [background_pool bn_victim_pool]. by rewrite (regions_none _ Hz), (left_id_L ∅ union).
  - pose proof (candidate_pools_held (replicate 5 memory_pool_zero) sz 0 w0 w1 _ Hz H1) as H2. destruct (create_candidate_pools _ _ _ _ _ w1) as [[ok ps] w2]. destruct H2 as [H2 D2].
    split; [exact H2|by constructor].
Qed.

Lemma calloc_loop_kept n count : forall w, kept w (calloc_loop n count w).2.
Proof.
  induction n as [|n IH]; intros w; [done|]. cbn [calloc_loop]. pose proof (machine_calloc count 8 w) as H. destruct (os_calloc count 8 w) as [ok w1]. cbn [snd] in H.
  destruct (negb ok); [done|]. etransitivity; [exact H|apply IH].
Qed.

Lemma multi_choose_kept bn m ocs space q w : kept w (choose_classes g sd bn m ocs space q w).2.
Proof.
  unfold choose_classes. pose proof (calloc_loop_kept (Z.to_nat POOL_COUNT) space w) as H1. destruct (calloc_loop _ space w) as [ok1 w1]. cbn [snd] in H1. destruct (negb ok1); [done|].
  pose proof (transitivity H1 (machine_calloc g 8 w1)) as H2. destruct (os_calloc g 8 w1) as [ok2 w2]. cbn [snd] in H2.
  pose proof (transitivity H2 (machine_calloc g 8 w2)) as H3. destruct (os_calloc g 8 w2) as [ok3 w3]. cbn [snd] in H3. destruct (_ || _); [done|].
  pose proof (transitivity H3 (calloc_loop_kept (Z.to_nat CANDIDATE_COUNT) g w3)) as H4. destruct (calloc_loop _ g w3) as [ok4 w4]. cbn [snd] in H4. destruct (negb ok4); [done|].
  destruct (mapM _ _) as [counts|]; [|done]. unfold choose_class_sets. destruct (_ || _); [done|].
  pose proof (transitivity H4 (machine_calloc space 8 w4)) as H5. destruct (os_calloc space 8 w4) as [ok5 w5]. cbn [snd] in H5. destruct (negb ok5); [done|]. by destruct (_ <? _).
Qed.

Lemma collect_candidates_kept m ocs space v d q ps : forall i sets w, kept w (collect_candidates g sd i ps sets m ocs space v d q w).2.
Proof.
  induction ps as [|p ps IH]; intros i [|set sets] w; try done. cbn [collect_candidates]. set (cls := candidate_classes _ _ _ _). set (seed := Z.lxor sd _).
  pose proof (collect_kept p m ocs space cls g q seed set w) as H1. destruct (collect_line_set _ _ _ _ _ _ _ _ _ w) as [[rc set'] w1]. cbn [snd] in H1. destruct (negb _); [done|].
  specialize (IH (i + 1) sets w1). destruct (collect_candidates _ _ _ ps _ _ _ _ _ _ _ w1) as [[ok sets'] w2]. cbn [snd] in *. by etransitivity.
Qed.

Lemma multi_collect_kept bn m ocs space v d q w : let '(_, bn', w') := collect_sets g sd bn m ocs space v d q w in
  kept w w' /\ bn_victim_pool bn' = bn_victim_pool bn /\ background_pool bn' = background_pool bn.
Proof.
  unfold collect_sets. pose proof (collect_kept (bn_victim_pool bn) m ocs space v g q (Z.lxor sd 0x4444444444444444) (bn_victim_set bn) w) as H1.
  destruct (collect_line_set _ _ _ _ _ _ _ _ _ w) as [[rc set] w1]. cbn [snd] in H1. destruct (negb _); [done|].
  pose proof (transitivity H1 (collect_candidates_kept m ocs space v d q (background_pool bn) 0 (background_set bn) w1)) as H2.
  by destruct (collect_candidates _ _ _ _ _ _ _ _ _ _ _ w1) as [[ok sets] w2].
Qed.

Lemma accept_candidates_kept m space vh q sets : forall i w, kept w (accept_candidates g i sets m space vh q w).2.
Proof.
  induction sets as [|set sets IH]; intros i w; [done|]. cbn [accept_candidates]. pose proof (machine_calloc space 8 w) as H1. destruct (os_calloc space 8 w) as [ok w1]. cbn [snd] in H1. destruct (negb ok); [done|].
  destruct (build_histogram _ _ _) as [hist|]; [|done]. destruct (histogram_jaccard _ _ _) as [[j i'] u]. destruct (_ || _); [done|].
  specialize (IH (i + 1) w1). destruct (accept_candidates _ _ sets _ _ _ _ w1) as [os w2]. cbn [snd] in *. by etransitivity.
Qed.

Lemma multi_select_kept bn m ocs space q w : let '(_, bn', w') := select_lines g sd bn m ocs space q w in
  kept w w' /\ bn_victim_pool bn' = bn_victim_pool bn /\ background_pool bn' = background_pool bn.
Proof.
  unfold select_lines. pose proof (multi_choose_kept bn m ocs space q w) as H1. destruct (choose_classes _ _ _ _ _ _ _ w) as [[[v d]|] w1]; cbn [snd] in H1; [|done].
  pose proof (multi_collect_kept bn m ocs space v d q w1) as H2. destruct (collect_sets _ _ _ _ _ _ _ _ _ w1) as [[ok bn'] w2]. destruct H2 as (H2 & Ev & Eb). pose proof (transitivity H1 H2) as K2.
  destruct (negb ok); [done|]. unfold accept_sets. pose proof (transitivity K2 (machine_calloc space 8 w2)) as H3. destruct (os_calloc space 8 w2) as [ok3 w3]. cbn [snd] in H3.
  destruct (negb ok3); [done|]. destruct (build_histogram _ _ _) as [vh|]; [|done]. pose proof (transitivity H3 (accept_candidates_kept m space vh q (background_set bn') 0 w3)) as H4.
  by destruct (accept_candidates _ _ _ _ _ _ _ w3) as [os w4].
Qed.

Lemma candidate_chains_kept perm sets : forall w, kept w (build_candidate_chains sets perm w).2.
Proof.
  induction sets as [|set sets IH]; intros w; [done|]. cbn [build_candidate_chains]. pose proof (multi_chain_kept set perm AGGRESSOR_STREAMS w) as H. destruct (build_multi_chain _ _ _ w) as [roots w1]. cbn [snd] in H.
  destruct (negb _); [done|]. etransitivity; [exact H|apply IH].
Qed.

Lemma multi_chains_kept bn lines w : kept w (build_chains sd bn lines w).2.
Proof.
  unfold build_chains. pose proof (permutation_kept lines (Z.lxor sd 0x7777777777777777) [] w) as H1. destruct (make_permutation _ _ _ w) as [[rc perm] w1]. cbn [snd] in H1. destruct (negb _); [done|].
  pose proof (transitivity H1 (single_chain_kept (bn_victim_set bn) perm w1)) as H2. destruct (build_single_chain _ _ w1) as [root w2]. cbn [snd] in H2. destruct (negb _); [done|].
  etransitivity; [exact H2|apply candidate_chains_kept].
Qed.

Lemma multi_prepare_held sz w : let '(_, bn, w') := prepare mib workset_mib g sd sz bench_zero w in bench_held w bn w'.
Proof.
  unfold prepare. set (c0 := mk_calibration_result _ _ _ _ _ _ _ _). pose proof (load_mapping_holds c0 dram_mapping_zero w) as H1. destruct (load_mapping _ _ w) as [[[rc c] m] w1]. cbn [snd] in H1.
  destruct (negb _); [by apply zero_held|]. destruct (class_space_from_mapping _) as [space|]; [|by apply zero_held].
  pose proof (transitivity H1 (offset_classes_kept (Some (default dram_mapping_zero m)) sz w1)) as H2. destruct (build_offset_classes _ _ w1) as [[ocs|] w2]; cbn [snd] in H2; [|by apply zero_held].
  destruct (workset_plan _ _) as [[lines quota]|]; [|by apply zero_held]. destruct (negb _); [by apply zero_held|].
  pose proof (multi_create_pools_held sz w w2 H2) as H3. destruct (create_pools _ _ _ _ w2) as [[ok bn] w3]. destruct (negb ok); [done|].
  pose proof (multi_select_kept bn (default dram_mapping_zero m) ocs space quota w3) as H4. destruct (select_lines _ _ _ _ _ _ _ w3) as [[o bn'] w4]. destruct H4 as (H4 & Ev & Eb).
  destruct o as [o|]; [|by eapply bench_held_kept]. pose proof (transitivity H4 (multi_chains_kept bn' lines w4)) as H5. destruct (build_chains _ _ _ w4) as [ok' w5]. by eapply bench_held_kept.
Qed.
End Bench.

(** ** The cgroups *)

Lemma multi_destroy_kept ctx w : kept w (cgroup_context_destroy ctx w).2.
Proof.
  unfold cgroup_context_destroy. destruct (negb _); [done|]. cbn [snd]. etransitivity; [|exact (hm_machine _ _ (m_rmdir (cc_run_path ctx)))].
  generalize (background_path ctx). intros paths. revert w. induction paths as [|path paths IH]; intros w; [done|]. etransitivity; [exact (hm_machine _ w (m_rmdir path))|apply IH].
Qed.

Lemma make_directories_kept run_path paths : forall i w, kept w (make_directories run_path i paths w).2.
Proof.
  induction paths as [|path paths IH]; intros i w; [done|]. cbn [make_directories]. destruct (_ <=? _); [done|]. set (p := snprintf PATH_MAX _).
  pose proof (hm_machine _ w (m_mkdir p)) as H1. cbn beta in H1. destruct (fl_mkdir p w) as [made w1]. cbn [snd] in H1. destruct (negb made); [done|].
  specialize (IH (i + 1) w1). destruct (make_directories _ _ _ w1) as [[ok rest] w2]. cbn [snd] in *. by etransitivity.
Qed.

Lemma multi_populate_ends run_path w : exists rc ctx w', cgroup_context_populate fuel run_path w = Some (rc, ctx, w') /\ kept w w'.
Proof.
  unfold cgroup_context_populate. pose proof (hm_machine _ w (m_mkdir run_path)) as H1. cbn beta in H1. destruct (fl_mkdir _ w) as [made w1]. cbn [snd] in H1.
  destruct (negb made); [by eexists _, _, _|].
  assert (Hfail : forall ctx w', kept w w' -> exists rc ctx' w'', (let '(ctx, w) := cgroup_context_destroy ctx w' in Some (-1, ctx, w)) = Some (rc, ctx', w'') /\ kept w w'').
  { intros ctx w' Hk. pose proof (transitivity Hk (multi_destroy_kept ctx w')) as H. destruct (cgroup_context_destroy ctx w') as [c w'']. by eexists _, _, _. }
  destruct (_ <=? _); [by apply Hfail|]. pose proof (transitivity H1 (read_text_file_kept (run_path +:+ "/cgroup.controllers") 4096 w1)) as H2.
  destruct (read_text_file _ 4096 w1) as [[ctl|] w2]; cbn [snd] in H2; [|by apply Hfail]. destruct (negb _); [by apply Hfail|].
  assert (Hw : exists rc w3, cgroup_write_file fuel run_path "cgroup.subtree_control" ("+cpu" +:+ String newline EmptyString) w2 = Some (rc, w3) /\ kept w2 w3).
  { unfold cgroup_write_file. destruct (_ <=? _); [by eexists _, _|]. apply write_text_path_ends. change (5 < fuel)%nat. lia. }
  destruct Hw as (rc & w3 & -> & H3). pose proof (transitivity H2 H3) as K3. destruct (negb _); [by apply Hfail|]. set (paths := background_path _).
  pose proof (transitivity K3 (make_directories_kept run_path paths 0 w3)) as H4. destruct (make_directories _ _ _ w3) as [[ok paths'] w4]. cbn [snd] in H4.
  destruct (negb ok); [by apply Hfail|]. by eexists _, _, _.
Qed.

Lemma multi_context_create_ends w : exists rc ctx w', cgroup_context_create fuel w = Some (rc, ctx, w') /\ kept w w'.
Proof.
  unfold cgroup_context_create. pose proof (read_text_file_kept "/sys/fs/cgroup/cgroup.subtree_control" 4096 w) as H1. destruct (read_text_file _ 4096 w) as [[sub|] w1]; cbn [snd] in H1; [|by eexists _, _, _].
  destruct (negb _); [by eexists _, _, _|]. destruct (_ <=? _); [by eexists _, _, _|]. set (run := snprintf _ _).
  destruct (multi_populate_ends run w1) as (rc & ctx & w2 & E & H2). exists rc, ctx, w2. split; [exact E|by etransitivity].
Qed.

(** ** The conditions, the check and the release *)

Section Perform.
Context {C R : Type} (run : cgroup_context -> C -> W -> option (Z * condition_result * W)) (index : C -> nat) (order : list C) (compare : list condition_result -> R).
Hypothesis Hrun : forall cgroups c w, exists rc out w', run cgroups c w = Some (rc, out, w') /\ kept w w'.

Lemma multi_conditions_ends cs cgroups : forall results w, exists r w', conditions_loop run index cs cgroups results w = Some (r, w') /\ kept w w'.
Proof.
  induction cs as [|c cs IH]; intros results w; [by eexists _, _|]. cbn [conditions_loop].
  destruct (Hrun cgroups c w) as (rc & out & w1 & -> & H1). destruct (negb _); [by eexists _, _|].
  destruct (IH (<[index c := out]> results) w1) as ([[rs ms]|] & w2 & -> & H2); eexists _, _; (split; [reflexivity|by etransitivity]).
Qed.

Lemma multi_verify_kept ps : forall w, kept w (verify_pools ps w).2.
Proof.
  induction ps as [|p ps IH]; intros w; [done|]. cbn [verify_pools]. pose proof (verify_pool_kept p w) as H1. destruct (verify_pool_pfns p w) as [[[moved unreadable]|] w1]; cbn [snd] in H1; [|done].
  destruct (_ || _); [done|]. etransitivity; [exact H1|apply IH].
Qed.

Lemma multi_perform_ends mib workset_mib g sd sz w : exists r bn w', perform run index order compare fuel mib workset_mib g sd sz w = Some (r, bn, w') /\ bench_held w bn w'.
Proof.
  unfold perform. pose proof (multi_prepare_held mib workset_mib g sd sz w) as H1. destruct (prepare _ _ _ _ _ _ w) as [[[o|] bn] w1]; [|by eexists _, _, _]. unfold measure_candidates.
  destruct (multi_context_create_ends w1) as (rc & ctx & w2 & -> & H2). destruct (negb _); [eexists _, _, _; split; [reflexivity|by eapply bench_held_kept]|].
  destruct (multi_conditions_ends order ctx (replicate 6 condition_result_zero) w2) as ([[rs ms]|] & w3 & -> & H3); pose proof (transitivity H2 H3) as K3.
  - set (bn' := mk_bench _ _ _ _ _). pose proof (transitivity K3 (multi_verify_kept (bn_victim_pool bn' :: background_pool bn') w3)) as H4. destruct (verify_pools _ w3) as [ok w4]. cbn [snd] in H4.
    eexists _, _, _. split; [reflexivity|by eapply bench_held_kept].
  - eexists _, _, _. split; [reflexivity|by eapply bench_held_kept].
Qed.
End Perform.

Lemma destroy_pools_holds ps : forall w0 w X, holds w0 w X -> Forall (fun p => pool_region p ## (others w0).1) ps -> holds w0 (destroy_pools ps w).2 (X ∖ regions ps).
Proof.
  induction ps as [|p ps IH]; intros w0 w X Hh Hd; [cbn [destroy_pools snd]; change (regions []) with (∅ : gset (Z * Z)); by rewrite difference_empty_L|].
  apply Forall_cons in Hd as [Hp Hd]. cbn [destroy_pools]. pose proof (pool_destroy_holds w0 w X p Hh Hp) as H1. destruct (pool_destroy p w) as [p' w1]. cbn [snd] in H1.
  specialize (IH w0 w1 _ H1 Hd). destruct (destroy_pools ps w1) as [ps' w2]. cbn [snd] in *. change (regions (p :: ps)) with (pool_region p ∪ regions ps).
  by replace (X ∖ (pool_region p ∪ regions ps)) with (X ∖ pool_region p ∖ regions ps) by set_solver.
Qed.

Lemma multi_release_kept w0 bn w : bench_held w0 bn w -> kept w0 (release bn w).2.
Proof.
  intros Hh. unfold release. pose proof (bench_held_kept _ _ bn _ _ Hh (multi_destroy_kept (bn_cgroups bn) w) eq_refl eq_refl) as [H0 Hd]. apply Forall_cons in Hd as [Dv Dps].
  destruct (cgroup_context_destroy _ w) as [ctx w1]. cbn [snd] in H0. pose proof (destroy_pools_holds _ w0 w1 _ H0 Dps) as H1. destruct (destroy_pools _ w1) as [ps w2]. cbn [snd] in H1.
  pose proof (pool_destroy_holds w0 w2 _ _ H1 Dv) as H2. destruct (pool_destroy (bn_victim_pool bn) w2) as [v w3]. cbn [snd] in *. apply holds_nothing.
  set (Rs := regions _) in *. set (Rv := pool_region _) in *. by replace ((Rs ∪ (Rv ∪ ∅)) ∖ Rs ∖ Rv) with (∅ : gset (Z * Z)) in H2 by set_solver.
Qed.

(** From the page size to the exit. *)
Lemma run_bench_ends {R} (perform : Z -> W -> option (option R * bench * W)) w :
  (forall sz w, exists r bn w', perform sz w = Some (r, bn, w') /\ bench_held w bn w') ->
  exists code r w', run_bench perform w = Some (code, r, w') /\ kept w w' /\ (code = EXIT_SUCCESS <-> is_Some r).
Proof.
  intros Hp. unfold run_bench. pose proof (machine_pagesize w) as H1. destruct (os_pagesize w) as [sz w1]. cbn [snd] in H1.
  destruct (sz <=? 0); [eexists _, _, _; split; [reflexivity|]; split; [done|]; split; [done|by intros [? ?]]|].
  destruct (Hp sz w1) as (r & bn & w2 & -> & Hh). pose proof (transitivity H1 (multi_release_kept _ _ _ Hh)) as H2. destruct (release bn w2) as [bn' w3]. cbn [snd] in H2.
  eexists _, _, _. split; [reflexivity|]. split; [exact H2|]. destruct r as [r|]; cbn; [split; [by eexists|done]|]. split; [done|by intros [? ?]].
Qed.
End Release.

(** ** What it takes to succeed

    The steps of a run, each of which answers that it succeeded; none of them is
    stated by what [main] makes of the answers. *)

Section Steps.
Context {W : Type} {HO : OS W} {HF : Files W} {HB : BinFile W} {HM : Memory W}.
Context (mib workset_mib g sd : Z).
Implicit Types w : W.

(** The pools of the candidates from [i] on. *)
Inductive candidate_pools_made (sz : Z) : Z -> list memory_pool -> W -> W -> Prop :=
| candidate_pools_end i w : candidate_pools_made sz i [] w w
| candidate_pools_next i p ps w w1 w2 :
    pool_create (candidate_name i) mib sz (Z.lxor sd (u64_add 0x2222222222222222 (u64_mul i 0x1111111111111111))) memory_pool_zero w = (0, p, w1) ->
    candidate_pools_made sz (i + 1) ps w1 w2 -> candidate_pools_made sz i (p :: ps) w w2.

(** Their lines, in the classes each has. *)
Inductive candidate_lines_collected (m : dram_mapping) (ocs : list Z) (space : Z) (vc dc : list Z) (quota : Z) : Z -> list memory_pool -> list line_set -> W -> W -> Prop :=
| candidate_lines_end i w : candidate_lines_collected m ocs space vc dc quota i [] [] w w
| candidate_lines_next i p ps set sets w w1 w2 :
    collect_line_set p m ocs space (candidate_classes (candidate_shared_classes i g) g vc dc) g quota
      (Z.lxor sd (u64_add 0x5555555555555555 (u64_mul i 0x0101010101010101))) line_set_zero w = (0, set, w1) ->
    candidate_lines_collected m ocs space vc dc quota (i + 1) ps sets w1 w2 ->
    candidate_lines_collected m ocs space vc dc quota i (p :: ps) (set :: sets) w w2.

(** Each is measured to share with the victim what it is to share. *)
Inductive candidates_measured (m : dram_mapping) (space : Z) (victim_hist : list Z) (quota : Z) : Z -> list line_set -> W -> list candidate_overlap -> W -> Prop :=
| candidates_end i w : candidates_measured m space victim_hist quota i [] w [] w
| candidates_next i set sets hist jaccard w w1 os w2 :
    os_calloc space 8 w = (true, w1) -> build_histogram set m space = Some hist -> histogram_unique_classes hist space = g ->
    histogram_shared_classes victim_hist hist space = candidate_shared_classes i g ->
    histogram_jaccard victim_hist hist space = (jaccard, u64_mul (candidate_shared_classes i g) quota, u64_mul (u64_sub (u64_mul 2 g) (candidate_shared_classes i g)) quota) ->
    candidates_measured m space victim_hist quota (i + 1) sets w1 os w2 ->
    candidates_measured m space victim_hist quota i (set :: sets) w
      (mk_candidate_overlap (candidate_shared_classes i g) (u64_mul (candidate_shared_classes i g) quota)
        (u64_mul (u64_sub (u64_mul 2 g) (candidate_shared_classes i g)) quota) jaccard :: os) w2.

Inductive candidate_chains_built (perm : list Z) : list line_set -> W -> W -> Prop :=
| candidate_chains_end w : candidate_chains_built perm [] w w
| candidate_chains_next set sets roots w w1 w2 :
    build_multi_chain set perm AGGRESSOR_STREAMS w = (Some roots, w1) -> candidate_chains_built perm sets w1 w2 -> candidate_chains_built perm (set :: sets) w w2.

(** From the mapping to the chains. *)
Inductive lines_prepared (sz : Z) w : list candidate_overlap -> bench -> W -> Prop :=
| every_line calibration m w1 space ocs w2 lines quota v w3 ps w4 vc dc w5 vset w6 sets w7 w8 hist os w9 perm w10 root w11 w12 :
    load_mapping (mk_calibration_result false false (replicate 32 0) 0 "" calibration_metrics_zero 0 "") dram_mapping_zero w = (0, calibration, Some m, w1) ->
    class_space_from_mapping (Some m) = Some space -> build_offset_classes (Some m) sz w1 = (Some ocs, w2) ->
    workset_plan workset_mib g = Some (lines, quota) -> g mod 4 = 0 ->
    pool_create "victim" mib sz (Z.lxor sd 0x1111111111111111) memory_pool_zero w2 = (0, v, w3) ->
    candidate_pools_made sz 0 ps w3 w4 -> List.length ps = 5%nat ->
    choose_classes g sd (mk_bench cgroup_context_zero v ps line_set_zero (replicate 5 line_set_zero)) m ocs space quota w4 = (Some (vc, dc), w5) ->
    collect_line_set v m ocs space vc g quota (Z.lxor sd 0x4444444444444444) line_set_zero w5 = (0, vset, w6) ->
    candidate_lines_collected m ocs space vc dc quota 0 ps sets w6 w7 ->
    os_calloc space 8 w7 = (true, w8) -> build_histogram vset m space = Some hist ->
    candidates_measured m space hist quota 0 sets w8 os w9 ->
    make_permutation lines (Z.lxor sd 0x7777777777777777) [] w9 = (0, perm, w10) ->
    build_single_chain vset perm w10 = (Some root, w11) ->
    candidate_chains_built perm sets w11 w12 ->
    lines_prepared sz w os (mk_bench cgroup_context_zero v ps vset sets) w12.

Lemma candidate_pools_are_made sz n : forall i ps w w',
  create_candidate_pools mib sd i (replicate n memory_pool_zero) sz w = (true, ps, w') <-> candidate_pools_made sz i ps w w' /\ List.length ps = n.
Proof.
  induction n as [|n IH]; intros i ps w w'; cbn [replicate create_candidate_pools].
  - split; [intros E; injection E as <- <-; split; [constructor|done]|]. intros [H Hl]. destruct ps; [|done]. by inversion H.
  - split.
    + set (seed := Z.lxor sd _). destruct (pool_create _ _ _ _ _ w) as [[rc p] w1] eqn:E1. destruct (Z.eqb_spec rc 0) as [->|]; cbn [negb]; [|done].
      destruct (create_candidate_pools _ _ _ _ _ w1) as [[ok ps'] w2] eqn:E2. intros E. injection E as -> <- <-. apply IH in E2 as [H Hl]. split; [by econstructor|cbn; by rewrite Hl].
    + intros [H Hl]. inversion H as [|? p ps' ? w1 ? E1 Hr]; subst; [done|]. cbn [List.length] in Hl. injection Hl as Hl. rewrite E1. cbn [Z.eqb negb]. by rewrite (proj2 (IH (i + 1) ps' w1 w') (conj Hr Hl)).
Qed.

Lemma candidate_lines_are_collected m ocs space vc dc quota ps : forall i sets w w',
  collect_candidates g sd i ps (replicate (List.length ps) line_set_zero) m ocs space vc dc quota w = (true, sets, w') <-> candidate_lines_collected m ocs space vc dc quota i ps sets w w'.
Proof.
  induction ps as [|p ps IH]; intros i sets w w'; cbn [List.length replicate collect_candidates].
  - split; [intros E; injection E as <- <-; constructor|]. intros H. by inversion H.
  - split.
    + set (cls := candidate_classes _ _ _ _). set (seed := Z.lxor sd _). destruct (collect_line_set _ _ _ _ _ _ _ _ _ w) as [[rc set] w1] eqn:E1. destruct (Z.eqb_spec rc 0) as [->|]; cbn [negb]; [|done].
      destruct (collect_candidates _ _ _ ps _ _ _ _ _ _ _ w1) as [[ok sets'] w2] eqn:E2. intros E. injection E as -> <- <-. apply IH in E2. by econstructor.
    + intros H. inversion H as [|? ? ? set sets' ? w1 ? E1 Hr]; subst. rewrite E1. cbn [Z.eqb negb]. by rewrite (proj2 (IH _ _ _ _) Hr).
Qed.

Lemma candidates_are_measured m space vh quota sets : forall i w os w',
  accept_candidates g i sets m space vh quota w = (Some os, w') <-> candidates_measured m space vh quota i sets w os w'.
Proof.
  induction sets as [|set sets IH]; intros i w os w'; cbn [accept_candidates].
  - split; [intros E; injection E as <- <-; constructor|]. intros H. by inversion H.
  - split.
    + destruct (os_calloc space 8 w) as [[|] w1] eqn:E1; cbn [negb]; [|done]. destruct (build_histogram _ _ _) as [hist|] eqn:E2; [|done]. destruct (histogram_jaccard _ _ _) as [[j x] u] eqn:E3.
      destruct (_ || _) eqn:Eb; [done|]. apply orb_false_iff in Eb as [[[E4 E5]%orb_false_iff E6]%orb_false_iff E7]. apply negb_false_iff, Z.eqb_eq in E4, E5, E6, E7. subst x u.
      destruct (accept_candidates _ _ sets _ _ _ _ w1) as [[os'|] w2] eqn:E8; cbn [fmap option_fmap option_map]; [|done]. intros E. injection E as <- <-. apply IH in E8. rewrite E5. by econstructor.
    + intros H. inversion_clear H as [|? ? ? hist j ? w1 os' ? E1 E2 E4 E5 E3 Hr]. rewrite E1. cbn [negb]. rewrite E2, E3, E4, E5, !Z.eqb_refl. cbn [negb orb]. by rewrite (proj2 (IH _ _ _ _) Hr).
Qed.

Lemma candidate_chains_are_built perm sets : forall w w', build_candidate_chains sets perm w = (true, w') <-> candidate_chains_built perm sets w w'.
Proof.
  induction sets as [|set sets IH]; intros w w'; cbn [build_candidate_chains].
  - split; [intros E; injection E as <-; constructor|]. intros H. by inversion H.
  - split.
    + destruct (build_multi_chain _ _ _ w) as [[roots|] w1] eqn:E1; [|done]. rewrite bool_decide_eq_true_2 by done. cbn [negb]. intros H%IH. by econstructor.
    + intros H. inversion H as [|? ? roots ? w1 ? E1 Hr]; subst. rewrite E1, bool_decide_eq_true_2 by done. cbn [negb]. by apply IH.
Qed.

Lemma lines_are_prepared sz w os bn w' : prepare mib workset_mib g sd sz bench_zero w = (Some os, bn, w') <-> lines_prepared sz w os bn w'.
Proof.
  unfold prepare, create_pools, select_lines, collect_sets, accept_sets, build_chains. cbn [bn_cgroups bn_victim_pool background_pool bn_victim_set background_set bench_zero]. split.
  - destruct (load_mapping _ _ w) as [[[rc c] m] w1] eqn:E1. destruct (Z.eqb_spec rc 0) as [->|]; cbn [negb]; [|done].
    destruct (load_mapping_ok _ _ _ _ _ _ E1) as (m' & -> & _). cbn [default from_option id]. destruct (class_space_from_mapping _) as [space|] eqn:E2; [|done].
    destruct (build_offset_classes _ _ w1) as [[ocs|] w2] eqn:E3; [|done]. destruct (workset_plan _ _) as [[lines quota]|] eqn:E4; [|done].
    destruct (Z.eqb_spec (g mod 4) 0) as [E5|]; cbn [negb]; [|done]. destruct (pool_create "victim" _ _ _ _ w2) as [[rc v] w3] eqn:E6. destruct (Z.eqb_spec rc 0) as [->|]; cbn [negb]; [|done].
    destruct (create_candidate_pools _ _ _ _ _ w3) as [[[|] ps] w4] eqn:E7; cbn [negb]; [|done]. apply candidate_pools_are_made in E7 as [E7 Hl].
    destruct (choose_classes _ _ _ _ _ _ _ w4) as [[[vc dc]|] w5] eqn:E8; [|done]. cbn [bn_cgroups bn_victim_pool background_pool bn_victim_set background_set].
    destruct (collect_line_set v _ _ _ _ _ _ _ _ w5) as [[rc vset] w6] eqn:E9. destruct (Z.eqb_spec rc 0) as [->|]; cbn [negb]; [|done].
    rewrite <- Hl. destruct (collect_candidates _ _ _ _ _ _ _ _ _ _ _ w6) as [[[|] sets] w7] eqn:E10; cbn [negb]; [|done].
    apply candidate_lines_are_collected in E10. cbn [bn_cgroups bn_victim_pool background_pool bn_victim_set background_set]. destruct (os_calloc space 8 w7) as [[|] w8] eqn:E11; cbn [negb]; [|done].
    destruct (build_histogram vset _ _) as [hist|] eqn:E12; [|done]. destruct (accept_candidates _ _ _ _ _ _ _ w8) as [[os'|] w9] eqn:E13; [|done]. apply candidates_are_measured in E13.
    destruct (make_permutation _ _ _ w9) as [[rc perm] w10] eqn:E14. destruct (Z.eqb_spec rc 0) as [->|]; cbn [negb]; [|done].
    destruct (build_single_chain _ _ w10) as [[root|] w11] eqn:E15; [|done]. rewrite bool_decide_eq_true_2 by done. cbn [negb].
    destruct (build_candidate_chains _ _ w11) as [[|] w12] eqn:E16; [|done]. apply candidate_chains_are_built in E16. intros E. injection E as <- <- <-. by econstructor.
  - intros [c m w1 space ocs w2 lines quota v w3 ps w4 vc dc w5 vset w6 sets w7 w8 hist os' w9 perm w10 root w11 w12 E1 E2 E3 E4 E5 E6 E7 Hl E8 E9 E10 E11 E12 E13 E14 E15 E16].
    rewrite E1. cbn [Z.eqb negb default from_option id]. rewrite E2, E3, E4, E5. cbn [Z.eqb negb]. rewrite E6. cbn [Z.eqb negb].
    rewrite (proj2 (candidate_pools_are_made _ _ _ _ _ _) (conj E7 Hl)). cbn [negb]. rewrite E8. cbn [bn_cgroups bn_victim_pool background_pool bn_victim_set background_set]. rewrite E9. cbn [Z.eqb negb].
    apply candidate_lines_are_collected in E10. rewrite Hl in E10. rewrite E10. cbn [negb bn_cgroups bn_victim_pool background_pool bn_victim_set background_set]. rewrite E11. cbn [negb].
    apply candidates_are_measured in E13. rewrite E12, E13, E14. cbn [Z.eqb negb bn_cgroups bn_victim_pool background_pool bn_victim_set background_set]. rewrite E15, bool_decide_eq_true_2 by done. cbn [negb]. apply candidate_chains_are_built in E16. by rewrite E16.
Qed.

(** Every page of every pool still has its frame. *)
Inductive all_unmoved : list memory_pool -> W -> W -> Prop :=
| all_unmoved_end w : all_unmoved [] w w
| all_unmoved_next p ps w w1 w2 : frames_unmoved p w w1 -> all_unmoved ps w1 w2 -> all_unmoved (p :: ps) w w2.

Lemma multi_verify_unmoved ps : Forall countable ps -> forall w w', verify_pools ps w = (true, w') <-> all_unmoved ps w w'.
Proof.
  induction 1 as [|p ps Hp Hps IH]; intros w w'; cbn [verify_pools].
  - split; [intros E; injection E as <-; constructor|]. intros H. by inversion H.
  - split.
    + destruct (verify_pool_pfns p w) as [[[moved unreadable]|] w1] eqn:E1; [|done]. destruct (_ || _) eqn:Eb; [done|]. apply orb_false_iff in Eb as [Em Eu]. apply negb_false_iff, Z.eqb_eq in Em, Eu. subst.
      intros H%IH. apply verify_unmoved in E1; [|done]. by econstructor.
    + intros H. inversion H as [|? ? ? w1 ? E1 Hr]; subst. apply verify_unmoved in E1; [|done]. rewrite E1. cbn [Z.eqb negb orb]. by apply IH.
Qed.

Lemma candidate_pools_countable sz : 0 < sz -> forall i ps w w', candidate_pools_made sz i ps w w' -> Forall countable ps.
Proof. intros Hs i ps w w'. induction 1 as [|? ? ? ? ? ? E ? IH]; constructor; [by eapply pool_create_countable|done]. Qed.

Context {C R : Type} (run : cgroup_context -> C -> W -> option (Z * condition_result * W)) (index : C -> nat) (order : list C) (compare : list condition_result -> R) (fuel : nat).

(** Each condition of the order is run, one after the other. *)
Inductive all_run (cgroups : cgroup_context) : list C -> W -> W -> Prop :=
| all_run_end w : all_run cgroups [] w w
| all_run_next c cs r w w1 w2 : run cgroups c w = Some (0, r, w1) -> all_run cgroups cs w1 w2 -> all_run cgroups (c :: cs) w w2.

Lemma multi_conditions_run cgroups cs : forall results w w', (exists x, conditions_loop run index cs cgroups results w = Some (Some x, w')) <-> all_run cgroups cs w w'.
Proof.
  induction cs as [|c cs IH]; intros results w w'; cbn [conditions_loop].
  - split; [intros [x E]; injection E as _ <-; constructor|intros H; inversion H; subst; by eexists].
  - split.
    + destruct (run cgroups c w) as [[[rc r] w1]|] eqn:E1; [|by intros [? ?]]. destruct (Z.eqb_spec rc 0) as [->|]; cbn [negb]; [|by intros [? ?]].
      destruct (conditions_loop run index cs _ _ w1) as [[[[rs rows]|] w2]|] eqn:E2; [|by intros [? ?]..]. intros [x E]. injection E as _ <-.
      eapply all_run_next; [exact E1|]. apply (IH (<[index c := r]> results)). by eexists.
    + intros H. inversion H as [|? ? r ? w1 ? E1 Hr]; subst. rewrite E1. cbn [Z.eqb negb]. apply (IH (<[index c := r]> results)) in Hr as [[rs rows] ->]. by eexists.
Qed.

(** All steps from the mapping to the page frames. *)
Inductive bench_succeeds (sz : Z) w : Prop :=
| every_candidate os bn w1 cgroups w2 w3 w4 :
    lines_prepared sz w os bn w1 -> cgroup_context_create fuel w1 = Some (0, cgroups, w2) -> all_run cgroups order w2 w3 ->
    all_unmoved (bn_victim_pool bn :: background_pool bn) w3 w4 -> bench_succeeds sz w.

Lemma multi_perform_succeeds sz w : 0 < sz -> (exists r bn w', perform run index order compare fuel mib workset_mib g sd sz w = Some (Some r, bn, w')) <-> bench_succeeds sz w.
Proof.
  intros Hsz. unfold perform, measure_candidates.
  assert (Hc : forall os bn w1, lines_prepared sz w os bn w1 -> Forall countable (bn_victim_pool bn :: background_pool bn)).
  { intros os bn w1 H. inversion H; subst; cbn. constructor; [by eapply pool_create_countable|by eapply candidate_pools_countable]. }
  split.
  - intros (r & bn & w' & E). revert E. destruct (prepare _ _ _ _ _ _ w) as [[[os|] bn0] w1] eqn:E1; [|done]. apply lines_are_prepared in E1.
    destruct (cgroup_context_create fuel w1) as [[[rc cgroups] w2]|] eqn:E2; [|done]. destruct (Z.eqb_spec rc 0) as [->|]; cbn [negb]; [|done].
    destruct (conditions_loop run index order _ _ w2) as [[[[rs rows]|] w3]|] eqn:E3; [|done..]. cbn [bn_victim_pool background_pool].
    destruct (verify_pools _ w3) as [[|] w4] eqn:E4; [|done]. intros _. apply multi_verify_unmoved in E4; [|by eapply Hc]. econstructor; try done.
    apply (multi_conditions_run cgroups order (replicate 6 condition_result_zero)). by eexists.
  - intros [os bn w1 cgroups w2 w3 w4 E1 E2 E3 E4]. apply multi_verify_unmoved in E4; [|by eapply Hc]. apply lines_are_prepared in E1. rewrite E1, E2. cbn [Z.eqb negb].
    apply (multi_conditions_run cgroups order (replicate 6 condition_result_zero)) in E3 as [[rs rows] ->]. cbn [bn_victim_pool background_pool]. rewrite E4. by eexists _, _, _.
Qed.

(** The pages have a size, and every step succeeded. *)
Definition bench_runs w : Prop := exists sz w1, os_pagesize w = (sz, w1) /\ 0 < sz /\ bench_succeeds sz w1.

Lemma run_bench_reports w code r w' : run_bench (perform run index order compare fuel mib workset_mib g sd) w = Some (code, r, w') -> is_Some r <-> bench_runs w.
Proof.
  unfold run_bench, bench_runs. destruct (os_pagesize w) as [sz w1] eqn:Ep. destruct (Z.leb_spec sz 0) as [Hle|Hpos].
  - intros E. injection E as _ <- _. split; [by intros [? ?]|]. intros (sz' & w1' & E & ? & _). injection E as <- <-. lia.
  - pose proof (multi_perform_succeeds sz w1 Hpos) as Hs. destruct (perform _ _ _ _ _ _ _ _ _ _ w1) as [[[r' bn] w2]|]; [|done]. destruct (release bn w2) as [bn' w3]. intros E. injection E as _ <- _. split.
    + intros [x ->]. exists sz, w1. split; [done|]. split; [done|]. apply Hs. by eexists _, _, _.
    + intros (sz' & w1' & E & _ & H). injection E as <- <-. apply Hs in H as (x & ? & ? & E). injection E as -> _ _. by eexists.
Qed.
End Steps.

(** ** The report *)

Section Report.
Context {W : Type} `{HO : OS W} `{HB : BinFile W} `{HM : Memory W} `{HF : Files W}.
Context {C R : Type} {HC : EqDecision C} (run : cgroup_context -> C -> W -> option (Z * condition_result * W)) (index : C -> nat) (order : list C) (compare : list condition_result -> R).
Hypothesis Hinj : forall c c', index c = index c' -> c = c'.
Hypothesis Hlt : forall c, (index c < 6)%nat.
Implicit Types w : W.

Definition result_at (results : list condition_result) (c : C) : condition_result := nth (index c) results condition_result_zero.

(** The rows are those of the results that are kept, in the order of the
    conditions. *)
Lemma multi_conditions_rows cs cgroups : forall results w results' rows w', NoDup cs -> List.length results = 6%nat ->
  conditions_loop run index cs cgroups results w = Some (Some (results', rows), w') ->
  (forall c, c ∉ cs -> result_at results' c = result_at results c) /\ rows = (fun c => row_of c (result_at results' c)) <$> cs.
Proof.
  induction cs as [|c cs IH]; intros results w results' rows w' Hnd Hl; [intros [= <- <- _]; by split|]. apply NoDup_cons in Hnd as [Hno Hnd]. cbn [conditions_loop].
  destruct (run cgroups c w) as [[[rc out] w1]|]; [|done]. destruct (negb _); [done|].
  destruct (conditions_loop run index cs cgroups _ w1) as [[[[rs rows']|] w2]|] eqn:E; [|done..]. intros Er. injection Er as <- <- _.
  destruct (IH _ _ _ _ _ Hnd ltac:(by rewrite length_insert) E) as [H1 H2].
  assert (Hat : forall c', result_at (<[index c := out]> results) c' = if decide (c' = c) then out else result_at results c').
  { intros c'. unfold result_at. rewrite nth_put by (rewrite Hl; apply Hlt). destruct (decide (index c' = index c)) as [Ei|Ne]; [apply Hinj in Ei as ->; by rewrite decide_True|]. rewrite decide_False; [done|congruence]. }
  split.
  - intros c' [Hne Hn]%not_elem_of_cons. rewrite H1, Hat by done. by rewrite decide_False.
  - cbn [fmap list_fmap]. rewrite H1, Hat by done. rewrite decide_True by done. by f_equal.
Qed.

(** What the conditions report when they succeed. *)
Lemma multi_measured fuel o bn w r bn' w' : NoDup order -> measure_candidates run index order compare fuel o bn w = Some (Some r, bn', w') ->
  exists results, rp_overlaps r = o /\ rp_rows r = (fun c => row_of c (result_at results c)) <$> order /\ rp_comparison r = compare results.
Proof.
  intros Hnd. unfold measure_candidates. destruct (cgroup_context_create fuel w) as [[[rc cgroups] w2]|]; [|done]. destruct (negb _); [done|].
  destruct (conditions_loop run index order cgroups _ w2) as [[[[results rows]|] w3]|] eqn:El; [|done..].
  destruct (multi_conditions_rows order cgroups (replicate 6 condition_result_zero) w2 results rows w3 Hnd eq_refl El) as [_ ->].
  destruct (verify_pools _ w3) as [[|] w4]; [|done]. intros E. injection E as <- _ _. by exists results.
Qed.

(** What a run that succeeds reports. *)
Lemma multi_perform_report fuel mib workset_mib g sd sz w r bn w' : NoDup order -> in_u64 workset_mib -> 0 < workset_mib -> 0 < g ->
  perform run index order compare fuel mib workset_mib g sd sz w = Some (Some r, bn, w') ->
  exists quota results, g * quota * CACHELINE_BYTES = workset_mib * MIB_BYTES /\
    Z.of_nat (List.length (rp_overlaps r)) = CANDIDATE_COUNT /\ (forall i o, rp_overlaps r !! i = Some o -> overlap_exact quota g (Z.of_nat i) o) /\
    rp_rows r = (fun c => row_of c (result_at results c)) <$> order /\ rp_comparison r = compare results.
Proof.
  intros Hnd Hw Hpos Hg. unfold perform. destruct (prepare _ _ _ _ _ _ w) as [[[os|] bn1] w1] eqn:Ep; [|done].
  destruct (prepared_exact _ _ _ _ _ _ _ _ _ Hw Hpos Hg Ep) as (quota & _ & E1 & E2 & E3). intros (results & -> & H1 & H2)%multi_measured; [|done]. by exists quota, results.
Qed.

Lemma run_bench_report (perform : Z -> W -> option (option R * bench * W)) w code r w' : run_bench perform w = Some (code, Some r, w') ->
  exists sz w1 bn w2, perform sz w1 = Some (Some r, bn, w2).
Proof.
  unfold run_bench. destruct (os_pagesize w) as [sz w1]. destruct (sz <=? 0); [done|]. destruct (perform sz w1) as [[[r' bn] w2]|] eqn:E; [|done]. destruct (release bn w2) as [bn' w3].
  intros H. injection H as _ -> _. by exists sz, w1, bn, w2.
Qed.
End Report.

(** ** On a small machine *)

Definition five_paths : cgroup_context :=
  mk_cgroup_context true "/sys/fs/cgroup/x" ((fun i => "/sys/fs/cgroup/x/" +:+ candidate_name i) <$> [0; 1; 2; 3; 4]).

Definition lab_recorded : traced lab := (lab_start, mk_trace ∅ []).

(** Pools of two pages, at their own addresses. *)
Definition six_pools : bench := mk_bench cgroup_context_zero (lab_pool "victim" 65536 [16; 17])
  [lab_pool "o0" 131072 [32; 33]; lab_pool "o25" 196608 [48; 49]; lab_pool "o50" 262144 [64; 65]; lab_pool "o75" 327680 [80; 81]; lab_pool "o100" 393216 [96; 97]]
  line_set_zero (replicate 5 line_set_zero).

Lemma six_pools_usable : Forall (usable 12) (bn_victim_pool six_pools :: background_pool six_pools).
Proof. repeat (apply Forall_cons; split; [eexists; apply lab_pool_ok; lia|]). apply Forall_nil_2. Qed.

Definition six_selected : option (list candidate_overlap) * bench * lab :=
  select_lines 4 7 six_pools sweep_mapping (offset_classes sweep_mapping 12) (2 ^ mask_count sweep_mapping) 4 lab_start.

Lemma candidates_exact_witness : exists os bn w, six_selected = (Some os, bn, w) /\ overlap_shared <$> os = [0; 1; 2; 3; 4].
Proof.
  pose proof (candidates_exact sweep_mapping 12 4 4 7 sweep_mapping_wf ltac:(cbn; lia) ltac:(lia) ltac:(done) ltac:(lia) six_pools lab_start six_pools_usable ltac:(done) ltac:(done)) as H.
  assert (Hsome : bool_decide (is_Some six_selected.1.1) = true) by (vm_compute; reflexivity). unfold six_selected in *.
  destruct (select_lines _ _ _ _ _ _ _ lab_start) as [[[os|] bn] w]; [|by apply bool_decide_eq_true in Hsome as [? ?]].
  destruct H as (v & d & _ & _ & _ & _ & Hl & Ho). exists os, bn, w. split; [reflexivity|].
  destruct os as [|o0 [|o1 [|o2 [|o3 [|o4 [|o5 os]]]]]]; try (cbn in Hl; unfold CANDIDATE_COUNT in Hl; lia).
  pose proof (Ho 0%nat o0 eq_refl) as [E0 _]. pose proof (Ho 1%nat o1 eq_refl) as [E1 _]. pose proof (Ho 2%nat o2 eq_refl) as [E2 _]. pose proof (Ho 3%nat o3 eq_refl) as [E3 _]. pose proof (Ho 4%nat o4 eq_refl) as [E4 _].
  cbn [fmap list_fmap]. by rewrite E0, E1, E2, E3, E4.
Defined.
