(* ===== verification/MultiControl.v ===== *)
(** * Multi-candidate control ([oracle_multicandidate_control.c])

    The conditions of the experiment throttle none, the lowest, the highest, the two
    highest or all of the five candidates by the classes they share with the victim,
    with one quota.  The rest of the program is [MultiCore]. *)
From S2P Require Import Prelude Float64 CString Os Calibration CalibrationLoad CalibrationRun DramMapping OracleSys OracleConfig OraclePool OracleLines OracleClasses OracleStages OracleAccept OracleChain OracleIo OracleRun OracleMain.
From S2P Require Import OracleStepProps OracleRunProps OracleHeld OracleMainProps OracleDemo OverlapSweep OverlapLevels OverlapDemo MultiCore MultiSelect MultiTrace MultiProps.
From Stdlib Require Import Ascii String.
Local Open Scope Z_scope.

Inductive condition :=
  | CONDITION_NONE
  | CONDITION_UNCONTROLLED
  | CONDITION_LOWEST_ONE
  | CONDITION_HIGHEST_ONE
  | CONDITION_TOP2
  | CONDITION_ALL.

#[export] Instance condition_eq_dec : EqDecision condition.
Proof. solve_decision. Defined.

Definition CONDITION_COUNT : Z := 6.

(** The value of the enumerator, an index into arrays. *)
Definition condition_index (c : condition) : nat :=
  match c with
  | CONDITION_NONE => 0
  | CONDITION_UNCONTROLLED => 1
  | CONDITION_LOWEST_ONE => 2
  | CONDITION_HIGHEST_ONE => 3
  | CONDITION_TOP2 => 4
  | CONDITION_ALL => 5
  end%nat.

(** [aggressor_cpu] is an array of [CANDIDATE_COUNT] numbers, [order] of
    [CONDITION_COUNT] conditions. *)
Record config := mk_config {
  pool_mib : Z;
  workset_mib : Z;
  group_classes : Z;
  seconds : Z;
  victim_cpu : Z;
  aggressor_cpu : list Z;
  throttle_quota_us : Z;
  throttle_period_us : Z;
  seed : Z;
  self_test : bool;
  order : list condition
}.

#[export] Instance config_settable : Settable config :=
  fun c => mk_config (pool_mib c) (workset_mib c) (group_classes c) (seconds c) (victim_cpu c) (aggressor_cpu c) (throttle_quota_us c) (throttle_period_us c)
    (seed c) (self_test c) (order c).

(** ** Conditions *)

Definition condition_name (c : condition) : string :=
  match c with
  | CONDITION_NONE => "none"
  | CONDITION_UNCONTROLLED => "uncontrolled"
  | CONDITION_LOWEST_ONE => "lowest"
  | CONDITION_HIGHEST_ONE => "highest"
  | CONDITION_TOP2 => "top2"
  | CONDITION_ALL => "all"
  end.

(** [None]: the code -1. *)
Definition condition_from_name (text : option string) : option condition :=
  match text with
  | None => None
  | Some text =>
      if str_eq text "none" then Some CONDITION_NONE
      else if str_eq text "uncontrolled" then Some CONDITION_UNCONTROLLED
      else if str_eq text "lowest" then Some CONDITION_LOWEST_ONE
      else if str_eq text "highest" then Some CONDITION_HIGHEST_ONE
      else if str_eq text "top2" then Some CONDITION_TOP2
      else if str_eq text "all" then Some CONDITION_ALL
      else None
  end.

(** [OracleConfig.parse_order_of], with a larger buffer. *)
Definition parse_order (text : option string) (order : list condition) : Z * list condition :=
  parse_order_of 192 CONDITION_COUNT condition_from_name condition_index text order.

(** ** Arguments *)

(** [cfg]: [None] is NULL. *)
Definition config_default (cfg : option config) : option config :=
  match cfg with
  | None => None
  | Some _ =>
      Some (mk_config 2048 64 16 10 14 [12; 10; 8; 6; 4] 50000 100000 20260814 false
        [CONDITION_NONE; CONDITION_UNCONTROLLED; CONDITION_LOWEST_ONE; CONDITION_HIGHEST_ONE; CONDITION_TOP2; CONDITION_ALL])
  end.

Definition config_self_test (cfg : option config) : option config :=
  match cfg with
  | None => None
  | Some c => Some (c <| self_test := true |> <| pool_mib := 512 |> <| workset_mib := 8 |> <| group_classes := 8 |> <| seconds := 2 |>)
  end.

(** The options that take a value: [None] for any other argument, [Some None] for
    a value that is refused. *)
Definition option_effect (name value : string) (cfg : config) : option (option config) :=
  if str_eq name "--pool-mib" then Some ((fun v => cfg <| pool_mib := v |>) <$> nonzero (parse_size (Some value)))
  else if str_eq name "--workset-mib" then Some ((fun v => cfg <| workset_mib := v |>) <$> nonzero (parse_size (Some value)))
  else if str_eq name "--classes" then Some ((fun v => cfg <| group_classes := v |>) <$> nonzero (parse_size (Some value)))
  else if str_eq name "--seconds" then Some ((fun v => cfg <| seconds := v |>) <$> nonzero (parse_uint (Some value)))
  else if str_eq name "--victim-cpu" then Some ((fun v => cfg <| victim_cpu := v |>) <$> parse_int (Some value))
  else
    match candidate_option name with
    | Some i => Some ((fun v => cfg <| aggressor_cpu ::= <[i := v]> |>) <$> parse_int (Some value))
    | None =>
        if str_eq name "--throttle-quota-us" then Some ((fun v => cfg <| throttle_quota_us := v |>) <$> nonzero (parse_uint (Some value)))
        else if str_eq name "--throttle-period-us" then Some ((fun v => cfg <| throttle_period_us := v |>) <$> nonzero (parse_uint (Some value)))
        else if str_eq name "--seed" then Some ((fun v => cfg <| seed := v |>) <$> parse_u64 (Some value))
        else if str_eq name "--order" then
          Some (let '(rc, o) := parse_order (Some value) (order cfg) in if rc =? 0 then Some (cfg <| order := o |>) else None)
        else None
    end.

(** [args] are [argv[1]] to [argv[argc - 1]]. *)
Definition parse_args (args : list string) (cfg : option config) : parsed config :=
  match config_default cfg with
  | None => ArgsBad
  | Some cfg =>
      let cfg := if existsb (fun arg => str_eq arg "--self-test") args then default cfg (config_self_test (Some cfg)) else cfg in
      match parse_args_loop option_effect args cfg with
      | ArgsOk cfg =>
          if negb (group_classes cfg mod 4 =? 0) || (throttle_period_us cfg <? throttle_quota_us cfg) then ArgsBad
          else if cpus_clash (victim_cpu cfg) (aggressor_cpu cfg) then ArgsBad
          else ArgsOk cfg
      | r => r
      end
  end.

Definition config_zero : config := mk_config 0 0 0 0 0 (replicate 5 0) 0 0 0 false (replicate 6 CONDITION_NONE).

Example control_arguments_demo :
  parse_args ["--order"; "all,top2,highest,lowest,uncontrolled,none"; "--o50-cpu"; "3"; "--throttle-quota-us"; "20000"]%string (Some config_zero) =
  ArgsOk (mk_config 2048 64 16 10 14 [12; 10; 3; 6; 4] 20000 100000 20260814 false
    [CONDITION_ALL; CONDITION_TOP2; CONDITION_HIGHEST_ONE; CONDITION_LOWEST_ONE; CONDITION_UNCONTROLLED; CONDITION_NONE]).
Proof. vm_compute. reflexivity. Qed.

(** ** The conditions of the experiment *)

(** [throttled] *)
Definition throttled_candidates (c : condition) : list bool :=
  let throttled := replicate 5 false in
  if bool_decide (c = CONDITION_LOWEST_ONE) then <[0%nat := true]> throttled
  else if bool_decide (c = CONDITION_HIGHEST_ONE) then <[4%nat := true]> throttled
  else if bool_decide (c = CONDITION_TOP2) then <[4%nat := true]> (<[3%nat := true]> throttled)
  else if bool_decide (c = CONDITION_ALL) then replicate 5 true
  else throttled.

(** A line of the comparison for a condition that throttles. *)
Record effect := mk_effect { ef_condition : condition; ef_vs_none_latency_pct : double; ef_recovery_pct : double; ef_bg_retention_pct : double }.

(** A number is [None] when it is not printed. *)
Record comparison := mk_comparison {
  cm_uncontrolled_vs_none_latency_pct : double;
  cm_effects : list effect;
  cm_highest_vs_lowest_victim_latency_pct : double;
  cm_highest_vs_lowest_bg_throughput_pct : option double
}.

(** The comparison, from [latency] and [total_bg]. *)
Definition compare_numbers (latency total_bg : condition -> double) : comparison :=
  let none_ns := latency CONDITION_NONE in
  let uncontrolled_ns := latency CONDITION_UNCONTROLLED in
  let span := dsub uncontrolled_ns none_ns in
  let effect_of c :=
    let recovery := if dltb dzero span then dmul (ddiv (dsub uncontrolled_ns (latency c)) span) (dlit 100 1) else dzero in
    let retention := if dltb dzero (total_bg CONDITION_UNCONTROLLED) then dmul (ddiv (total_bg c) (total_bg CONDITION_UNCONTROLLED)) (dlit 100 1) else dzero in
    mk_effect c (percent_above (latency c) none_ns) recovery retention in
  mk_comparison (percent_above uncontrolled_ns none_ns)
    (effect_of <$> [CONDITION_LOWEST_ONE; CONDITION_HIGHEST_ONE; CONDITION_TOP2; CONDITION_ALL])
    (percent_above (latency CONDITION_HIGHEST_ONE) (latency CONDITION_LOWEST_ONE))
    (if dltb dzero (total_bg CONDITION_LOWEST_ONE) then Some (percent_above (total_bg CONDITION_HIGHEST_ONE) (total_bg CONDITION_LOWEST_ONE)) else None).

(** [results] is indexed by condition. *)
Definition compare (results : list condition_result) : comparison :=
  let result c := nth (condition_index c) results condition_result_zero in
  compare_numbers (fun c => ns_per_read (mr_victim (result c))) (fun c => total_bg_of (result c)).

Section Main.
Context {W : Type} `{HO : OS W} `{HB : BinFile W} `{HM : Memory W} `{HF : Files W} `{HK : Workers W}.
Context (result_size : Z) (result_of_bytes : list Z -> worker_result) (fuel : nat).

(** The pointers are not NULL: the code, [*out] and the world. *)
Definition run_condition (c : condition) (cfg : config) (cgroups : cgroup_context) (out : condition_result) (w : W) : option (Z * condition_result * W) :=
  if negb (cc_ready cgroups) then Some (-1, out, w)
  else run_workers result_size result_of_bytes fuel cgroups (throttled_candidates c) (throttle_quota_us cfg) (throttle_period_us cfg)
    (negb (bool_decide (c = CONDITION_NONE))) w.

(** [args] are [argv[1]] to [argv[argc - 1]]: the exit code and the report of a
    run that succeeds. *)
Definition main (args : list string) (w : W) : option (Z * option (report condition comparison) * W) :=
  match parse_args args (Some config_zero) with
  | ArgsHelp => Some (EXIT_SUCCESS, None, w)
  | ArgsBad => Some (EXIT_FAILURE, None, w)
  | ArgsOk cfg =>
      run_bench (perform (fun cgroups c => run_condition c cfg cgroups condition_result_zero) condition_index (order cfg) compare fuel
        (pool_mib cfg) (workset_mib cfg) (group_classes cfg) (seed cfg)) w
  end.
End Main.

(** * What the experiment guarantees *)

Definition all_conditions : list condition :=
  [CONDITION_NONE; CONDITION_UNCONTROLLED; CONDITION_LOWEST_ONE; CONDITION_HIGHEST_ONE; CONDITION_TOP2; CONDITION_ALL].

Lemma multi_index_inj c c' : condition_index c = condition_index c' -> c = c'.
Proof. by destruct c, c'. Qed.

Lemma multi_index_lt c : (condition_index c < 6)%nat.
Proof. destruct c; cbn; lia. Qed.

Lemma multi_order_all text order o : List.length order = 6%nat -> parse_order text order = (0, o) -> o ≡ₚ all_conditions.
Proof.
  apply (parse_order_of_ok 192 6 condition_from_name condition_index); [apply multi_index_inj|apply multi_index_lt|]. split; [done|]. intros c. destruct c; set_solver.
Qed.

(** What the loop over the arguments keeps. *)
Record config_sound (c : config) : Prop := {
  cs_sizes : 0 < pool_mib c /\ 0 < workset_mib c /\ 0 < group_classes c /\ 0 < seconds c;
  cs_widths : in_u64 (pool_mib c) /\ in_u64 (workset_mib c) /\ in_u64 (group_classes c) /\ seconds c <= UINT_MAX /\ in_u64 (seed c);
  cs_cpus : List.length (aggressor_cpu c) = 5%nat;
  cs_quota : 0 < throttle_quota_us c /\ 0 < throttle_period_us c <= UINT_MAX;
  cs_order : order c ≡ₚ all_conditions
}.

Lemma multi_option_sound name value c c' : config_sound c -> option_effect name value c = Some (Some c') -> config_sound c'.
Proof.
  intros [(H1 & H2 & H3 & H4) (W1 & W2 & W3 & W4 & W5) Hc (Q1 & Q2) Ho]. unfold option_effect. generalize (candidate_option name). intros cand.
  repeat match goal with |- (if ?b then _ else _) = _ -> _ => destruct b | |- (match ?o with Some _ => _ | None => _ end) = _ -> _ => destruct o as [i|] end;
    intros HS; try discriminate HS; apply (inj Some) in HS; try (apply fmap_Some in HS as (v & Hv & ->)).
  all: try (apply nonzero_some in Hv as [Hv Hnz]); try (apply (parse_size_range (Some value)) in Hv); try (apply (parse_uint_range (Some value)) in Hv);
    try (apply (parse_u64_range (Some value)) in Hv); try (split; cbn; rewrite ?length_insert; unfold in_u64 in *; try done; lia).
  revert HS. destruct (parse_order (Some value) (order c)) as [rc o] eqn:E. destruct (Z.eqb_spec rc 0) as [->|]; [|discriminate]. intros [= <-].
  apply multi_order_all in E; [|by rewrite Ho]. by split.
Qed.

(** The arguments that are accepted, with what is checked at the end. *)
Lemma multi_args_sound args c cfg : parse_args args (Some c) = ArgsOk cfg ->
  config_sound cfg /\ group_classes cfg mod 4 = 0 /\ throttle_quota_us cfg <= throttle_period_us cfg /\ cpus_clash (victim_cpu cfg) (aggressor_cpu cfg) = false.
Proof.
  unfold parse_args. cbn [config_default]. set (c0 := if existsb _ args then _ else _).
  assert (Hc0 : config_sound c0) by (subst c0; destruct (existsb _ args); split; cbn; unfold in_u64, UINT_MAX; try done; lia).
  destruct (parse_args_loop option_effect args c0) as [c1| |] eqn:E; [|discriminate..].
  destruct (_ || _) eqn:Hb; [discriminate|]. destruct (cpus_clash _ _) eqn:Hc; [discriminate|]. intros [= <-]. bool_hyps.
  pose proof (parse_args_loop_keeps _ config_sound multi_option_sound _ _ _ Hc0 E). split; [done|]. split; [done|]. split; [lia|done].
Qed.

(** Which candidates a condition throttles, by what they share. *)
Definition throttles (c : condition) (i : nat) : bool :=
  match c with
  | CONDITION_LOWEST_ONE => (i =? 0)%nat
  | CONDITION_HIGHEST_ONE => (i =? 4)%nat
  | CONDITION_TOP2 => (3 <=? i)%nat
  | CONDITION_ALL => true
  | _ => false
  end.

Section Props.
Context {W : Type} {HO : OS W} {HF : Files W} {HK : Workers W}.

(** C2: a condition takes effect before it is measured. When a run of a condition
    succeeds, what it did to control files and processes is exactly this, in this
    order: the quota of the configuration was written to [cpu.max] of each candidate
    the condition throttles, and [max] to that of the others; the victim was started;
    each candidate was started and moved to its own cgroup; and only then were the
    candidates and at last the victim let run. Without background only the victim
    was started and let run. *)
Theorem control_precedes_run result_size result_of_bytes fuel c cfg cgroups out (t t' : traced W) r :
  run_condition result_size result_of_bytes fuel c cfg cgroups out t = Some (0, r, t') ->
  exists victim pids, List.length pids = 5%nat /\
    does (if decide (c = CONDITION_NONE) then [Start victim; Continue victim]
          else run_actions cgroups (throttles c <$> seq 0 5) (throttle_quota_us cfg) (throttle_period_us cfg) victim pids) t t'.
Proof.
  unfold run_condition. destruct (negb (cc_ready cgroups)); [done|]. intros (victim & pids & Hl & Hd)%run_workers_does. exists victim, pids. split; [done|].
  assert (E : throttled_candidates c = throttles c <$> seq 0 5) by (by destruct c). rewrite <- E. destruct (decide (c = CONDITION_NONE)); [by rewrite bool_decide_eq_true_2 in Hd|by rewrite bool_decide_eq_false_2 in Hd].
Qed.

Context {WL : WorkerLaws W} {HB : BinFile W} {HM : Memory W} {ML : MachineLaws W}.
Context (result_size : Z) (result_of_bytes : list Z -> worker_result) (fuel : nat).
Hypothesis Hfuel : (128 <= fuel)%nat.
Hypothesis Hsize : (Z.to_nat result_size < fuel)%nat.
Implicit Types w : W.

Lemma multi_run_ends c cfg cgroups out w : exists rc out' w', run_condition result_size result_of_bytes fuel c cfg cgroups out w = Some (rc, out', w') /\ kept w w'.
Proof.
  unfold run_condition. destruct (negb _); [by eexists _, _, _|].
  destruct (run_workers_ends result_size result_of_bytes fuel cgroups (throttled_candidates c) (throttle_quota_us cfg) (throttle_period_us cfg) Hfuel Hsize (negb (bool_decide (c = CONDITION_NONE))) w) as (rc & out' & w' & E & _ & Hk).
  by exists rc, out', w'.
Qed.

(** The arguments were accepted, and every step succeeded. *)
Definition multi_succeeds (args : list string) w : Prop :=
  exists cfg, parse_args args (Some config_zero) = ArgsOk cfg /\
    bench_runs (pool_mib cfg) (workset_mib cfg) (group_classes cfg) (seed cfg) (fun cgroups c => run_condition result_size result_of_bytes fuel c cfg cgroups condition_result_zero)
      (order cfg) fuel w.

(** C10: the experiment with five candidates ends and leaves nothing behind. Whatever
    its arguments and whatever the calls answer, [main] returns, with none of the six
    workers left to wait for, and with the same descriptors and streams open and the
    same memory mapped as before. A child is only waited for when it will end, since
    on any other [waitpid] may block for ever: it was let run after its stop, or it
    was killed. The exit code is success exactly when there is a report or help was
    asked for, and there is a report exactly when the arguments were accepted and
    every step succeeded: the mapping and the classes, the six pools, the choice of
    classes, the lines of the victim and of each candidate, measured to share what
    the candidate is to share, the chains, the cgroups, each condition of the order,
    and in the end every page of every pool still has the frame it had. *)
Theorem multi_main_releases args w : exists code r w', main result_size result_of_bytes fuel args w = Some (code, r, w') /\ kept w w' /\
  (code = EXIT_SUCCESS <-> is_Some r \/ parse_args args (Some config_zero) = ArgsHelp) /\ (is_Some r <-> multi_succeeds args w).
Proof.
  unfold main, multi_succeeds. destruct (parse_args args (Some config_zero)) as [cfg| |].
  2-3: eexists _, _, _; (split; [reflexivity|]); (split; [done|]); (split; [naive_solver|]); split; [by intros [? ?]|]; by intros (? & ? & _).
  match goal with |- context [run_bench ?p w] => destruct (run_bench_ends fuel Hfuel p w) as (code & r & w' & E & Hk & Hc) end.
  - intros sz w0. apply multi_perform_ends; [exact Hfuel|]. intros cgroups c w1. apply multi_run_ends.
  - exists code, r, w'. split; [exact E|]. split; [exact Hk|]. split; [rewrite Hc; naive_solver|]. apply run_bench_reports in E. rewrite E.
    split; [by exists cfg|]. intros (cfg' & Ec & H). by injection Ec as <-.
Qed.

(** C38: what the conditions report was measured. When the part of [main] after the
    selection succeeds, for an order that names each condition once, there is one row
    per condition in that order, and the comparison is computed from exactly the
    latencies and the throughputs of those rows. *)
Theorem multi_report_measured cfg o bn w r bn' w' : order cfg ≡ₚ all_conditions ->
  measure_candidates (fun cgroups c => run_condition result_size result_of_bytes fuel c cfg cgroups condition_result_zero) condition_index (order cfg) compare fuel o bn w
    = Some (Some r, bn', w') ->
  rp_overlaps r = o /\ rw_condition <$> rp_rows r = order cfg /\
  exists latency total_bg, (forall x, x ∈ rp_rows r -> rw_victim_ns x = latency (rw_condition x) /\ rw_total_bg x = total_bg (rw_condition x)) /\
    rp_comparison r = compare_numbers latency total_bg.
Proof.
  clear Hfuel Hsize. intros Ho E.
  assert (Hnd : NoDup (order cfg)) by (rewrite Ho; unfold all_conditions; repeat (apply NoDup_cons; split; [set_solver|]); apply NoDup_nil_2).
  destruct (multi_measured _ condition_index (order cfg) compare multi_index_inj multi_index_lt fuel o bn w r bn' w' Hnd E) as (results & H1 & H2 & H3).
  set (result c := result_at condition_index results c). split; [done|]. split; [rewrite H2, <- list_fmap_compose; cbn; apply list_fmap_id|].
  exists (fun c => ns_per_read (mr_victim (result c))), (fun c => total_bg_of (result c)). split; [|exact H3]. rewrite H2. by intros x (c & -> & _)%list_elem_of_fmap.
Qed.

(** What [main] reports. The arguments were accepted and name each condition once;
    the lines of the working set are divided evenly among the classes; and the
    candidates were measured to share exactly none, a quarter, a half, three quarters
    and all of the victim's classes, with as many lines in common as that makes. *)
Theorem multi_main_reports args w code r w' : main result_size result_of_bytes fuel args w = Some (code, Some r, w') ->
  exists cfg quota, parse_args args (Some config_zero) = ArgsOk cfg /\ order cfg ≡ₚ all_conditions /\ rw_condition <$> rp_rows r = order cfg /\
    group_classes cfg * quota * CACHELINE_BYTES = workset_mib cfg * MIB_BYTES /\
    Z.of_nat (List.length (rp_overlaps r)) = CANDIDATE_COUNT /\ forall i o, rp_overlaps r !! i = Some o -> overlap_exact quota (group_classes cfg) (Z.of_nat i) o.
Proof.
  clear Hfuel Hsize. unfold main. destruct (parse_args args (Some config_zero)) as [cfg| |] eqn:Ea; [|done..]. destruct (multi_args_sound _ _ _ Ea) as ([Hs Hw _ _ Ho] & _).
  intros (sz & w1 & bn & w2 & E)%run_bench_report.
  assert (Hnd : NoDup (order cfg)) by (rewrite Ho; unfold all_conditions; repeat (apply NoDup_cons; split; [set_solver|]); apply NoDup_nil_2).
  destruct (multi_perform_report _ condition_index (order cfg) compare multi_index_inj multi_index_lt fuel (pool_mib cfg) (workset_mib cfg) (group_classes cfg) (seed cfg) sz w1 r bn w2
    Hnd ltac:(tauto) ltac:(tauto) ltac:(tauto) E) as (quota & results & H1 & H2 & H3 & H4 & _).
  exists cfg, quota. conjs; try done. rewrite H4, <- list_fmap_compose. cbn. apply list_fmap_id.
Qed.
End Props.

(** ** On a small machine *)

Definition control_config : config := mk_config 1 1 4 1 14 [12; 10; 8; 6; 4] 50000 100000 7 true all_conditions.

Definition top2_run : option (Z * condition_result * traced lab) :=
  run_condition 24 (fun _ => worker_result_zero) 200 CONDITION_TOP2 control_config five_paths condition_result_zero lab_recorded.

Lemma control_precedes_run_witness : exists r t victim pids, top2_run = Some (0, r, t) /\
  does (run_actions five_paths [false; false; false; true; true] 50000 100000 victim pids) lab_recorded t.
Proof.
  assert (Hrc : (fun r => r.1.1) <$> top2_run = Some 0) by (vm_compute; reflexivity).
  pose proof (control_precedes_run 24 (fun _ => worker_result_zero) 200 CONDITION_TOP2 control_config five_paths condition_result_zero lab_recorded) as H. unfold top2_run in *.
  destruct (run_condition _ _ _ _ _ _ _ lab_recorded) as [[[rc r] t]|]; [|done]. cbn [fmap option_fmap option_map fst] in Hrc. apply (inj Some) in Hrc as ->.
  destruct (H t r eq_refl) as (victim & pids & _ & Hd). exists r, t, victim, pids. split; [reflexivity|exact Hd].
Defined.

Lemma multi_main_releases_witness : (128 <= 200)%nat /\ exists code r w,
  main 24 (fun _ => worker_result_zero) 200 ["--classes"; "4"]%string lab_start = Some (code, r, w) /\ kept lab_start w.
Proof.
  split; [lia|]. destruct (multi_main_releases 24 (fun _ => worker_result_zero) 200 ltac:(lia) ltac:(cbn; lia) ["--classes"; "4"]%string lab_start) as (code & r & w & E & H & _).
  exists code, r, w. split; [exact E|exact H].
Defined.

Definition six_measured : option (option (report condition comparison) * bench * lab) :=
  measure_candidates (fun cgroups c => run_condition 24 (fun _ => worker_result_zero) 200 c control_config cgroups condition_result_zero) condition_index (order control_config) compare 200
    [] six_pools lab_start.

Lemma multi_report_measured_witness : exists r bn w, six_measured = Some (Some r, bn, w) /\ rw_condition <$> rp_rows r = all_conditions.
Proof.
  assert (Hsome : match six_measured with Some (Some _, _, _) => true | _ => false end = true) by (vm_compute; reflexivity).
  pose proof (multi_report_measured 24 (fun _ => worker_result_zero) 200 control_config [] six_pools lab_start) as H. unfold six_measured in *.
  destruct (measure_candidates _ _ _ _ _ _ _ lab_start) as [[[[r|] bn] w]|]; [|done..]. destruct (H r bn w ltac:(done) eq_refl) as (_ & H2 & _). exists r, bn, w. split; [reflexivity|exact H2].
Defined.
