(* ===== verification/CpuMaxSweep.v ===== *)
(** * The cpu.max sweep ([oracle_cpu_max_sweep.c])

    The conditions of the sweep leave only the candidate that shares all of the
    victim's classes a part of a processor, from all of it to a tenth; the other four
    are never throttled.  The rest of the program is [MultiCore]. *)
From S2P Require Import Prelude Float64 CString Os Calibration CalibrationLoad CalibrationRun DramMapping OracleSys OracleConfig OraclePool OracleLines OracleClasses OracleStages OracleAccept OracleChain OracleIo OracleRun OracleMain.
From S2P Require Import OracleStepProps OracleRunProps OracleHeld OracleMainProps OracleDemo OverlapSweep OverlapLevels OverlapDemo MultiCore MultiSelect MultiTrace MultiProps.
From Stdlib Require Import Ascii String.
Local Open Scope Z_scope.

Inductive condition :=
  | CONDITION_NONE
  | CONDITION_UNCONTROLLED
  | CONDITION_CPU75
  | CONDITION_CPU50
  | CONDITION_CPU25
  | CONDITION_CPU10.

#[export] Instance condition_eq_dec : EqDecision condition.
Proof. solve_decision. Defined.

Definition CONDITION_COUNT : Z := 6.

(** The value of the enumerator, an index into arrays. *)
Definition condition_index (c : condition) : nat :=
  match c with
  | CONDITION_NONE => 0
  | CONDITION_UNCONTROLLED => 1
  | CONDITION_CPU75 => 2
  | CONDITION_CPU50 => 3
  | CONDITION_CPU25 => 4
  | CONDITION_CPU10 => 5
  end%nat.

(** [aggressor_cpu] is an array of [CANDIDATE_COUNT] numbers, [order] of
    [CONDITION_COUNT] conditions. *)
Record config := mk_config {
  pool_mib : Z;
  workset_mib : Z;
  group_classes : Z;
  seconds : Z;
  victim_cpu : Z;
  aggressor_cpu : list Z;
  throttle_period_us : Z;
  seed : Z;
  self_test : bool;
  order : list condition
}.

#[export] Instance config_settable : Settable config :=
  fun c => mk_config (pool_mib c) (workset_mib c) (group_classes c) (seconds c) (victim_cpu c) (aggressor_cpu c) (throttle_period_us c)
    (seed c) (self_test c) (order c).

(** ** Conditions *)

Definition condition_name (c : condition) : string :=
  match c with
  | CONDITION_NONE => "none"
  | CONDITION_UNCONTROLLED => "uncontrolled"
  | CONDITION_CPU75 => "cpu75"
  | CONDITION_CPU50 => "cpu50"
  | CONDITION_CPU25 => "cpu25"
  | CONDITION_CPU10 => "cpu10"
  end.

(** [None]: the code -1. *)
Definition condition_from_name (text : option string) : option condition :=
  match text with
  | None => None
  | Some text =>
      if str_eq text "none" then Some CONDITION_NONE
      else if str_eq text "uncontrolled" then Some CONDITION_UNCONTROLLED
      else if str_eq text "cpu75" then Some CONDITION_CPU75
      else if str_eq text "cpu50" then Some CONDITION_CPU50
      else if str_eq text "cpu25" then Some CONDITION_CPU25
      else if str_eq text "cpu10" then Some CONDITION_CPU10
      else None
  end.

(** [OracleConfig.parse_order_of], with a larger buffer. *)
Definition parse_order (text : option string) (order : list condition) : Z * list condition :=
  parse_order_of 192 CONDITION_COUNT condition_from_name condition_index text order.

(** ** Arguments *)

(** [cfg]: [None] is NULL. *)
Definition config_default (cfg : option config) : option config :=
  match cfg with
  | None => None
  | Some _ =>
      Some (mk_config 2048 64 16 10 14 [12; 10; 8; 6; 4] 100000 20260814 false
        [CONDITION_NONE; CONDITION_UNCONTROLLED; CONDITION_CPU75; CONDITION_CPU50; CONDITION_CPU25; CONDITION_CPU10])
  end.

Definition config_self_test (cfg : option config) : option config :=
  match cfg with
  | None => None
  | Some c => Some (c <| self_test := true |> <| pool_mib := 512 |> <| workset_mib := 8 |> <| group_classes := 8 |> <| seconds := 2 |>)
  end.

(** The options that take a value: [None] for any other argument, [Some None] for
    a value that is refused. *)
Definition option_effect (name value : string) (cfg : config) : option (option config) :=
  if str_eq name "--pool-mib" then Some ((fun v => cfg <| pool_mib := v |>) <$> nonzero (parse_size (Some value)))
  else if str_eq name "--workset-mib" then Some ((fun v => cfg <| workset_mib := v |>) <$> nonzero (parse_size (Some value)))
  else if str_eq name "--classes" then Some ((fun v => cfg <| group_classes := v |>) <$> nonzero (parse_size (Some value)))
  else if str_eq name "--seconds" then Some ((fun v => cfg <| seconds := v |>) <$> nonzero (parse_uint (Some value)))
  else if str_eq name "--victim-cpu" then Some ((fun v => cfg <| victim_cpu := v |>) <$> parse_int (Some value))
  else
    match candidate_option name with
    | Some i => Some ((fun v => cfg <| aggressor_cpu ::= <[i := v]> |>) <$> parse_int (Some value))
    | None =>
        if str_eq name "--throttle-period-us" then Some ((fun v => cfg <| throttle_period_us := v |>) <$> nonzero (parse_uint (Some value)))
        else if str_eq name "--seed" then Some ((fun v => cfg <| seed := v |>) <$> parse_u64 (Some value))
        else if str_eq name "--order" then
          Some (let '(rc, o) := parse_order (Some value) (order cfg) in if rc =? 0 then Some (cfg <| order := o |>) else None)
        else None
    end.

(** [args] are [argv[1]] to [argv[argc - 1]]. *)
Definition parse_args (args : list string) (cfg : option config) : parsed config :=
  match config_default cfg with
  | None => ArgsBad
  | Some cfg =>
      let cfg := if existsb (fun arg => str_eq arg "--self-test") args then default cfg (config_self_test (Some cfg)) else cfg in
      match parse_args_loop option_effect args cfg with
      | ArgsOk cfg =>
          if negb (group_classes cfg mod 4 =? 0) then ArgsBad
          else if cpus_clash (victim_cpu cfg) (aggressor_cpu cfg) then ArgsBad
          else ArgsOk cfg
      | r => r
      end
  end.

Definition config_zero : config := mk_config 0 0 0 0 0 (replicate 5 0) 0 0 false (replicate 6 CONDITION_NONE).

Example cpu_max_arguments_demo :
  parse_args ["--order"; "cpu10,cpu25,cpu50,cpu75,uncontrolled,none"; "--o100-cpu"; "3"; "--throttle-period-us"; "20000"]%string (Some config_zero) =
  ArgsOk (mk_config 2048 64 16 10 14 [12; 10; 8; 6; 3] 20000 20260814 false
    [CONDITION_CPU10; CONDITION_CPU25; CONDITION_CPU50; CONDITION_CPU75; CONDITION_UNCONTROLLED; CONDITION_NONE]).
Proof. vm_compute. reflexivity. Qed.

(** ** The conditions of the sweep *)

Definition condition_cpu_allow_pct (c : condition) : Z :=
  match c with
  | CONDITION_UNCONTROLLED => 100
  | CONDITION_CPU75 => 75
  | CONDITION_CPU50 => 50
  | CONDITION_CPU25 => 25
  | CONDITION_CPU10 => 10
  | CONDITION_NONE => 0
  end.

(** A line of the comparison for a condition of the sweep. *)
Record effect := mk_effect {
  ef_condition : condition;
  ef_o100_cpu_allow_pct : Z;
  ef_vs_none_latency_pct : double;
  ef_recovery_pct : double;
  ef_total_bg_retention_pct : double;
  ef_o100_retention_pct : double;
  ef_recovery_per_total_bg_loss : double
}.

Record comparison := mk_comparison { cm_uncontrolled_vs_none_latency_pct : double; cm_effects : list effect }.

(** The comparison, from [latency], [total_bg] and [o100_bg]. *)
Definition compare_numbers (latency total_bg o100_bg : condition -> double) : comparison :=
  let none_ns := latency CONDITION_NONE in
  let uncontrolled_ns := latency CONDITION_UNCONTROLLED in
  let span := dsub uncontrolled_ns none_ns in
  let effect_of c :=
    let recovery := if dltb dzero span then dmul (ddiv (dsub uncontrolled_ns (latency c)) span) (dlit 100 1) else dzero in
    let total_retention := if dltb dzero (total_bg CONDITION_UNCONTROLLED) then dmul (ddiv (total_bg c) (total_bg CONDITION_UNCONTROLLED)) (dlit 100 1) else dzero in
    let o100_retention := if dltb dzero (o100_bg CONDITION_UNCONTROLLED) then dmul (ddiv (o100_bg c) (o100_bg CONDITION_UNCONTROLLED)) (dlit 100 1) else dzero in
    let bg_loss := dsub (dlit 100 1) total_retention in
    let recovery_per_bg_loss := if dltb dzero bg_loss then ddiv recovery bg_loss else dzero in
    mk_effect c (condition_cpu_allow_pct c) (percent_above (latency c) none_ns) recovery total_retention o100_retention recovery_per_bg_loss in
  mk_comparison (percent_above uncontrolled_ns none_ns) (effect_of <$> [CONDITION_CPU75; CONDITION_CPU50; CONDITION_CPU25; CONDITION_CPU10]).

(** [results] is indexed by condition. *)
Definition compare (results : list condition_result) : comparison :=
  let result c := nth (condition_index c) results condition_result_zero in
  compare_numbers (fun c => ns_per_read (mr_victim (result c))) (fun c => total_bg_of (result c)) (fun c => nth 4 (bg_mload_of (result c)) dzero).

(** [condition >= CONDITION_CPU75 && condition <= CONDITION_CPU10] *)
Definition sweeping (c : condition) : bool :=
  (condition_index CONDITION_CPU75 <=? condition_index c)%nat && (condition_index c <=? condition_index CONDITION_CPU10)%nat.

Section Main.
Context {W : Type} `{HO : OS W} `{HB : BinFile W} `{HM : Memory W} `{HF : Files W} `{HK : Workers W}.
Context (result_size : Z) (result_of_bytes : list Z -> worker_result) (fuel : nat).

(** The pointers are not NULL: the code, [*out] and the world. *)
Definition run_condition (c : condition) (cfg : config) (cgroups : cgroup_context) (out : condition_result) (w : W) : option (Z * condition_result * W) :=
  if negb (cc_ready cgroups) then Some (-1, out, w)
  else
    let has_background := negb (bool_decide (c = CONDITION_NONE)) in
    let allow_pct := condition_cpu_allow_pct c in
    let quota64 := u64_mul (throttle_period_us cfg) allow_pct / 100 in
    if sweeping c && ((quota64 =? 0) || (UINT_MAX <? quota64)) then Some (-1, condition_result_zero <| mr_has_background := has_background |>, w)
    else
      let '(quota_us, throttle_o100) := if sweeping c then (quota64, true) else (0, false) in
      run_workers result_size result_of_bytes fuel cgroups ((fun i => (i =? CANDIDATE_COUNT - 1) && throttle_o100) <$> [0; 1; 2; 3; 4]) quota_us (throttle_period_us cfg)
        has_background w.

(** [args] are [argv[1]] to [argv[argc - 1]]: the exit code and the report of a
    run that succeeds. *)
Definition main (args : list string) (w : W) : option (Z * option (report condition comparison) * W) :=
  match parse_args args (Some config_zero) with
  | ArgsHelp => Some (EXIT_SUCCESS, None, w)
  | ArgsBad => Some (EXIT_FAILURE, None, w)
  | ArgsOk cfg =>
      run_bench (perform (fun cgroups c => run_condition c cfg cgroups condition_result_zero) condition_index (order cfg) compare fuel
        (pool_mib cfg) (workset_mib cfg) (group_classes cfg) (seed cfg)) w
  end.
End Main.

(** * What the experiment guarantees *)

Definition all_conditions : list condition :=
  [CONDITION_NONE; CONDITION_UNCONTROLLED; CONDITION_CPU75; CONDITION_CPU50; CONDITION_CPU25; CONDITION_CPU10].

Lemma cpu_index_inj c c' : condition_index c = condition_index c' -> c = c'.
Proof. by destruct c, c'. Qed.

Lemma cpu_index_lt c : (condition_index c < 6)%nat.
Proof. destruct c; cbn; lia. Qed.

Lemma cpu_max_order_all text order o : List.length order = 6%nat -> parse_order text order = (0, o) -> o ≡ₚ all_conditions.
Proof.
  apply (parse_order_of_ok 192 6 condition_from_name condition_index); [apply cpu_index_inj|apply cpu_index_lt|]. split; [done|]. intros c. destruct c; set_solver.
Qed.

(** What the loop over the arguments keeps. *)
Record config_sound (c : config) : Prop := {
  cs_sizes : 0 < pool_mib c /\ 0 < workset_mib c /\ 0 < group_classes c /\ 0 < seconds c;
  cs_widths : in_u64 (pool_mib c) /\ in_u64 (workset_mib c) /\ in_u64 (group_classes c) /\ seconds c <= UINT_MAX /\ in_u64 (seed c);
  cs_cpus : List.length (aggressor_cpu c) = 5%nat;
  cs_period : 0 < throttle_period_us c <= UINT_MAX;
  cs_order : order c ≡ₚ all_conditions
}.

Lemma cpu_max_option_sound name value c c' : config_sound c -> option_effect name value c = Some (Some c') -> config_sound c'.
Proof.
  intros [(H1 & H2 & H3 & H4) (W1 & W2 & W3 & W4 & W5) Hc Hq Ho]. unfold option_effect. generalize (candidate_option name). intros cand.
  repeat match goal with |- (if ?b then _ else _) = _ -> _ => destruct b | |- (match ?o with Some _ => _ | None => _ end) = _ -> _ => destruct o as [i|] end;
    intros HS; try discriminate HS; apply (inj Some) in HS; try (apply fmap_Some in HS as (v & Hv & ->)).
  all: try (apply nonzero_some in Hv as [Hv Hnz]); try (apply (parse_size_range (Some value)) in Hv); try (apply (parse_uint_range (Some value)) in Hv);
    try (apply (parse_u64_range (Some value)) in Hv); try (split; cbn; rewrite ?length_insert; unfold in_u64 in *; try done; lia).
  revert HS. destruct (parse_order (Some value) (order c)) as [rc o] eqn:E. destruct (Z.eqb_spec rc 0) as [->|]; [|discriminate]. intros [= <-].
  apply cpu_max_order_all in E; [|by rewrite Ho]. by split.
Qed.

(** The arguments that are accepted, with what is checked at the end. *)
Lemma cpu_max_args_sound args c cfg : parse_args args (Some c) = ArgsOk cfg ->
  config_sound cfg /\ group_classes cfg mod 4 = 0 /\ cpus_clash (victim_cpu cfg) (aggressor_cpu cfg) = false.
Proof.
  unfold parse_args. cbn [config_default]. set (c0 := if existsb _ args then _ else _).
  assert (Hc0 : config_sound c0) by (subst c0; destruct (existsb _ args); split; cbn; unfold in_u64, UINT_MAX; try done; lia).
  destruct (parse_args_loop option_effect args c0) as [c1| |] eqn:E; [|discriminate..].
  destruct (negb _) eqn:Hb; [discriminate|]. destruct (cpus_clash _ _) eqn:Hc; [discriminate|]. intros [= <-]. bool_hyps.
  pose proof (parse_args_loop_keeps _ config_sound cpu_max_option_sound _ _ _ Hc0 E). split; [done|]. split; [lia|done].
Qed.

Lemma sweeping_allowance c : sweeping c = true -> 10 <= condition_cpu_allow_pct c <= 75.
Proof. destruct c; cbn; done || lia. Qed.

(** The quota of a condition is computed without overflow. *)
Lemma quota_exact c cfg : 0 < throttle_period_us cfg <= UINT_MAX -> u64_mul (throttle_period_us cfg) (condition_cpu_allow_pct c) = throttle_period_us cfg * condition_cpu_allow_pct c.
Proof. intros Hp. unfold UINT_MAX in Hp. apply u64_small. unfold in_u64. destruct c; cbn; lia. Qed.

Section Props.
Context {W : Type} {HO : OS W} {HF : Files W} {HK : Workers W}.

(** C13: a condition of the sweep takes effect before it is measured. When a run of a
    condition succeeds, what it did to control files and processes is exactly this,
    in this order: the percentage of the period that the condition allows, rounded
    down, above zero and below the period, was written as the quota to [cpu.max] of
    the candidate that shares all classes, and [max] to the other four, or to all five
    without control; the victim was started; each candidate was started and moved to
    its own cgroup; and only then were the candidates and at last the victim let run. *)
Theorem cpu_max_precedes_run result_size result_of_bytes fuel c cfg cgroups out (t t' : traced W) r : 0 < throttle_period_us cfg <= UINT_MAX ->
  run_condition result_size result_of_bytes fuel c cfg cgroups out t = Some (0, r, t') ->
  let quota := throttle_period_us cfg * condition_cpu_allow_pct c / 100 in
  (sweeping c = true -> 0 < quota < throttle_period_us cfg) /\
  exists victim pids, List.length pids = 5%nat /\
    does (if decide (c = CONDITION_NONE) then [Start victim; Continue victim]
          else run_actions cgroups ((fun i => (i =? 4)%nat && sweeping c) <$> seq 0 5) quota (throttle_period_us cfg) victim pids) t t'.
Proof.
  intros Hp. unfold run_condition. rewrite (quota_exact c cfg Hp). set (quota := _ / 100). destruct (negb (cc_ready cgroups)); [done|].
  destruct (sweeping c) eqn:Hc; cbn [andb].
  - destruct (Z.eqb_spec quota 0) as [|Hz]; [done|]. destruct (UINT_MAX <? quota); [done|]. cbn [orb]. intros (victim & pids & Hl & Hd)%run_workers_does. split.
    + intros _. pose proof (sweeping_allowance c Hc). assert (0 <= quota) by (apply Z.div_pos; nia). split; [lia|]. apply Z.div_lt_upper_bound; nia.
    + exists victim, pids. split; [done|]. rewrite decide_False by (by destruct c). rewrite bool_decide_eq_false_2 in Hd by (by destruct c). exact Hd.
  - intros (victim & pids & Hl & Hd)%run_workers_does. split; [done|]. exists victim, pids. split; [done|]. destruct (decide (c = CONDITION_NONE)); [by rewrite bool_decide_eq_true_2 in Hd|].
    rewrite bool_decide_eq_false_2 in Hd by done. exact Hd.
Qed.

(** A period of which the percentage is less than a microsecond cannot be run: the
    condition fails before anything is written or started. *)
Theorem cpu_max_quota_refused result_size result_of_bytes fuel c cfg cgroups out (w : W) : 0 < throttle_period_us cfg <= UINT_MAX -> sweeping c = true ->
  throttle_period_us cfg * condition_cpu_allow_pct c < 100 -> exists out', run_condition result_size result_of_bytes fuel c cfg cgroups out w = Some (-1, out', w).
Proof.
  intros Hp Hc Hsmall. unfold run_condition. rewrite (quota_exact c cfg Hp). destruct (negb (cc_ready cgroups)); [by eexists|]. rewrite Hc. cbn [andb].
  pose proof (sweeping_allowance c Hc). rewrite Z.div_small by nia. cbn [Z.eqb orb]. by eexists.
Qed.

Context {WL : WorkerLaws W} {HB : BinFile W} {HM : Memory W} {ML : MachineLaws W}.
Context (result_size : Z) (result_of_bytes : list Z -> worker_result) (fuel : nat).
Hypothesis Hfuel : (128 <= fuel)%nat.
Hypothesis Hsize : (Z.to_nat result_size < fuel)%nat.
Implicit Types w : W.

Lemma cpu_max_run_ends c cfg cgroups out w : exists rc out' w', run_condition result_size result_of_bytes fuel c cfg cgroups out w = Some (rc, out', w') /\ kept w w'.
Proof.
  unfold run_condition. destruct (negb _); [by eexists _, _, _|]. destruct (sweeping c && _); [by eexists _, _, _|].
  set (p := if sweeping c then _ else _). destruct p as [quota throttle].
  destruct (run_workers_ends result_size result_of_bytes fuel cgroups ((fun i => (i =? CANDIDATE_COUNT - 1) && throttle) <$> [0; 1; 2; 3; 4]) quota (throttle_period_us cfg) Hfuel Hsize
    (negb (bool_decide (c = CONDITION_NONE))) w) as (rc & out' & w' & E & _ & Hk). by exists rc, out', w'.
Qed.

(** The arguments were accepted, and every step succeeded. *)
Definition cpu_max_succeeds (args : list string) w : Prop :=
  exists cfg, parse_args args (Some config_zero) = ArgsOk cfg /\
    bench_runs (pool_mib cfg) (workset_mib cfg) (group_classes cfg) (seed cfg) (fun cgroups c => run_condition result_size result_of_bytes fuel c cfg cgroups condition_result_zero)
      (order cfg) fuel w.

(** C39: the sweep of cpu.max ends and leaves nothing behind. Whatever
    its arguments and whatever the calls answer, [main] returns, with none of the six
    workers left to wait for, and with the same descriptors and streams open and the
    same memory mapped as before. A child is only waited for when it will end, since
    on any other [waitpid] may block for ever: it was let run after its stop, or it
    was killed. The exit code is success exactly when there is a report or help was
    asked for, and there is a report exactly when the arguments were accepted and
    every step succeeded: the mapping and the classes, the six pools, the choice of
    classes, the lines of the victim and of each candidate, measured to share what
    the candidate is to share, the chains, the cgroups, each condition of the order,
    and in the end every page of every pool still has the frame it had. *)
Theorem cpu_max_main_releases args w : exists code r w', main result_size result_of_bytes fuel args w = Some (code, r, w') /\ kept w w' /\
  (code = EXIT_SUCCESS <-> is_Some r \/ parse_args args (Some config_zero) = ArgsHelp) /\ (is_Some r <-> cpu_max_succeeds args w).
Proof.
  unfold main, cpu_max_succeeds. destruct (parse_args args (Some config_zero)) as [cfg| |].
  2-3: eexists _, _, _; (split; [reflexivity|]); (split; [done|]); (split; [naive_solver|]); split; [by intros [? ?]|]; by intros (? & ? & _).
  match goal with |- context [run_bench ?p w] => destruct (run_bench_ends fuel Hfuel p w) as (code & r & w' & E & Hk & Hc) end.
  - intros sz w0. apply multi_perform_ends; [exact Hfuel|]. intros cgroups c w1. apply cpu_max_run_ends.
  - exists code, r, w'. split; [exact E|]. split; [exact Hk|]. split; [rewrite Hc; naive_solver|]. apply run_bench_reports in E. rewrite E.
    split; [by exists cfg|]. intros (cfg' & Ec & H). by injection Ec as <-.
Qed.

(** C40: what the conditions report was measured. When the part of [main] after the
    selection succeeds, for an order that names each condition once, there is one row
    per condition in that order, and the comparison is computed from exactly the
    latencies and the throughputs of those rows, that of the throttled candidate
    included. *)
Theorem cpu_max_report_measured cfg o bn w r bn' w' : order cfg ≡ₚ all_conditions ->
  measure_candidates (fun cgroups c => run_condition result_size result_of_bytes fuel c cfg cgroups condition_result_zero) condition_index (order cfg) compare fuel o bn w
    = Some (Some r, bn', w') ->
  rp_overlaps r = o /\ rw_condition <$> rp_rows r = order cfg /\
  exists latency total_bg o100_bg,
    (forall x, x ∈ rp_rows r -> rw_victim_ns x = latency (rw_condition x) /\ rw_total_bg x = total_bg (rw_condition x) /\ nth 4 (rw_bg_mload x) dzero = o100_bg (rw_condition x)) /\
    rp_comparison r = compare_numbers latency total_bg o100_bg.
Proof.
  clear Hfuel Hsize. intros Ho E.
  assert (Hnd : NoDup (order cfg)) by (rewrite Ho; unfold all_conditions; repeat (apply NoDup_cons; split; [set_solver|]); apply NoDup_nil_2).
  destruct (multi_measured _ condition_index (order cfg) compare cpu_index_inj cpu_index_lt fuel o bn w r bn' w' Hnd E) as (results & H1 & H2 & H3).
  set (result c := result_at condition_index results c). split; [done|]. split; [rewrite H2, <- list_fmap_compose; cbn; apply list_fmap_id|].
  exists (fun c => ns_per_read (mr_victim (result c))), (fun c => total_bg_of (result c)), (fun c => nth 4 (bg_mload_of (result c)) dzero). split; [|exact H3]. rewrite H2. by intros x (c & -> & _)%list_elem_of_fmap.
Qed.

(** What [main] reports. The arguments were accepted and name each condition once;
    the lines of the working set are divided evenly among the classes; and the
    candidates were measured to share exactly none, a quarter, a half, three quarters
    and all of the victim's classes, with as many lines in common as that makes. *)
Theorem cpu_max_main_reports args w code r w' : main result_size result_of_bytes fuel args w = Some (code, Some r, w') ->
  exists cfg quota, parse_args args (Some config_zero) = ArgsOk cfg /\ order cfg ≡ₚ all_conditions /\ rw_condition <$> rp_rows r = order cfg /\
    group_classes cfg * quota * CACHELINE_BYTES = workset_mib cfg * MIB_BYTES /\
    Z.of_nat (List.length (rp_overlaps r)) = CANDIDATE_COUNT /\ forall i o, rp_overlaps r !! i = Some o -> overlap_exact quota (group_classes cfg) (Z.of_nat i) o.
Proof.
  clear Hfuel Hsize. unfold main. destruct (parse_args args (Some config_zero)) as [cfg| |] eqn:Ea; [|done..]. destruct (cpu_max_args_sound _ _ _ Ea) as ([Hs Hw _ _ Ho] & _).
  intros (sz & w1 & bn & w2 & E)%run_bench_report.
  assert (Hnd : NoDup (order cfg)) by (rewrite Ho; unfold all_conditions; repeat (apply NoDup_cons; split; [set_solver|]); apply NoDup_nil_2).
  destruct (multi_perform_report _ condition_index (order cfg) compare cpu_index_inj cpu_index_lt fuel (pool_mib cfg) (workset_mib cfg) (group_classes cfg) (seed cfg) sz w1 r bn w2
    Hnd ltac:(tauto) ltac:(tauto) ltac:(tauto) E) as (quota & results & H1 & H2 & H3 & H4 & _).
  exists cfg, quota. conjs; try done. rewrite H4, <- list_fmap_compose. cbn. apply list_fmap_id.
Qed.
End Props.

(** ** On a small machine *)

Definition cpu_max_config : config := mk_config 1 1 4 1 14 [12; 10; 8; 6; 4] 100000 7 true all_conditions.

Definition cpu25_run : option (Z * condition_result * traced lab) :=
  run_condition 24 (fun _ => worker_result_zero) 200 CONDITION_CPU25 cpu_max_config five_paths condition_result_zero lab_recorded.

Lemma cpu_max_precedes_run_witness : exists r t victim pids, cpu25_run = Some (0, r, t) /\
  does (run_actions five_paths [false; false; false; false; true] 25000 100000 victim pids) lab_recorded t.
Proof.
  assert (Hrc : (fun r => r.1.1) <$> cpu25_run = Some 0) by (vm_compute; reflexivity).
  pose proof (cpu_max_precedes_run 24 (fun _ => worker_result_zero) 200 CONDITION_CPU25 cpu_max_config five_paths condition_result_zero lab_recorded) as H. unfold cpu25_run in *.
  destruct (run_condition _ _ _ _ _ _ _ lab_recorded) as [[[rc r] t]|]; [|done]. cbn [fmap option_fmap option_map fst] in Hrc. apply (inj Some) in Hrc as ->.
  destruct (H t r ltac:(cbn; unfold UINT_MAX; lia) eq_refl) as (_ & victim & pids & _ & Hd). exists r, t, victim, pids. split; [reflexivity|exact Hd].
Defined.

Lemma cpu_max_main_releases_witness : (128 <= 200)%nat /\ exists code r w,
  main 24 (fun _ => worker_result_zero) 200 ["--classes"; "4"]%string lab_start = Some (code, r, w) /\ kept lab_start w.
Proof.
  split; [lia|]. destruct (cpu_max_main_releases 24 (fun _ => worker_result_zero) 200 ltac:(lia) ltac:(cbn; lia) ["--classes"; "4"]%string lab_start) as (code & r & w & E & H & _).
  exists code, r, w. split; [exact E|exact H].
Defined.

Definition six_swept : option (option (report condition comparison) * bench * lab) :=
  measure_candidates (fun cgroups c => run_condition 24 (fun _ => worker_result_zero) 200 c cpu_max_config cgroups condition_result_zero) condition_index (order cpu_max_config) compare 200
    [] six_pools lab_start.

Lemma cpu_max_report_measured_witness : exists r bn w, six_swept = Some (Some r, bn, w) /\ rw_condition <$> rp_rows r = all_conditions.
Proof.
  assert (Hsome : match six_swept with Some (Some _, _, _) => true | _ => false end = true) by (vm_compute; reflexivity).
  pose proof (cpu_max_report_measured 24 (fun _ => worker_result_zero) 200 cpu_max_config [] six_pools lab_start) as H. unfold six_swept in *.
  destruct (measure_candidates _ _ _ _ _ _ _ lab_start) as [[[[r|] bn] w]|]; [|done..]. destruct (H r bn w ltac:(done) eq_refl) as (_ & H2 & _). exists r, bn, w. split; [reflexivity|exact H2].
Defined.
